(* ===== verification/_CoqProject ===== *)
-Q . S2P
Prelude.v
CMem.v
OgsLib.v
OgsRef.v
ObjPool.v
GtpTypes.v
GtpConv.v
GtpNode.v
PgwPool.v
GtpTlv.v
GtpTlvProofs.v
GtpTlvSpec.v
GtpStruct.v
GtpIe.v
GtpMessage.v
NasTypes.v
NasTai.v
NasConv.v
NasExamples.v
NasIes.v
NasMsg.v
NasCodecLaws.v
NasCodecSpec.v
NasCodecs.v
NasDelivery.v
NasCodecExamples.v
NasSecurity.v
NasSecurityProofs.v
Kdf.v
NasSecurityExamples.v
MmeContext.v
EmmBuild.v
EmmHandler.v
EmmSm.v
EmmProofs.v
EmmSpec.v
EmmSystem.v
EsmBearer.v
EsmSend.v
EsmSm.v
MmeS11.v
EsmProofs.v
EsmSpec.v
EsmRefine.v
EsmSystem.v
EsmProps.v
EsmFlows.v
MmeUeTable.v
MmeUeTableSpec.v
MmeUeTableInv.v
MmeUeTableProps.v
EmmFlows.v
EmmExamples.v
EsmExamples.v
MmeUeTableExamples.v
GtpCodecExamples.v
GtpXact.v
GtpXactProofs.v
GtpXactSpec.v
GtpMessageSpec.v
GtpExamples.v
SgwContext.v
SgwHandler.v
SgwPath.v
SgwInv.v
SgwSystem.v
SgwUserPlane.v
SgwProps.v
SgwExamples.v
PgwContext.v
PgwFilter.v
PgwBuild.v
PgwHandler.v
PgwPath.v
PgwInv.v
PgwSystem.v
PgwUserPlane.v
PgwRules.v
PgwProps.v
PgwExamples.v
