(* ===== verification/Prelude.v ===== *)
(** * NextEPC: a verification library for the evolved packet core

    NextEPC is a 4G core network in C: MME, SGW, PGW, HSS and PCRF, on top of
    libraries for GTP ([src/lib/gtp]), NAS ([src/lib/nas]), Diameter and SCTP.
    A UE speaks NAS to the MME; NAS messages travel inside S1AP between eNB
    and MME; the MME asks the HSS over S6a for authentication vectors and
    subscriptions, and speaks GTPv2-C to the SGW, which speaks it to the PGW.
    This library models the part that decides who gets into the network and
    with which keys (the MME's EMM layer and its NAS security), the sessions
    and bearers that a UE then has (its ESM layer and S11), the two gateways that
    carry the UE's packets (contexts, handlers and user plane of the SGW and of
    the PGW, with the PGW's addresses and packet filters), and the two protocol
    libraries every network function links: GTPv2-C (transactions, nodes,
    messages, information elements) and NAS (messages, information elements).

    ** How C is modelled

    [Prelude.v]: a C function is a function to [outcome]: [Ok], [Aborted] (a
    failed [ogs_assert]: the process stops) or [Undef] (an access outside an
    object); with state, [M S A] passes the state through.  [wp] and [wlp]
    are weakest preconditions, [keeps R] says that an operation stays within
    a relation, and the hint database [keeps] proves such facts along the
    structure of the code.  [CMem.v]: machine integers are [Z] with their
    wrap-around, memory is a list of octets, the host byte order is the
    parameter [Host]; every codec theorem holds for both orders.
    [ObjPool.v]: objects in pools, named by their index, and the ownership
    between the objects of two pools; the SGW and the PGW are built on it.

    ** Code that is not in the repository

    ogslib is a git submodule.  [OgsLib.v] states what is used of it (bit
    fields, byte conversion, PLMN identities, object pools, lists, packet
    buffers, TLV blocks, state machine dispatch) as type classes with laws;
    reading a TLV block may stop the process, and the law says only that the
    octets of well-formed TLVs are read back.
    [OgsLengths], [OgsFqdn], [OgsSdu], [OgsImsi] and [OgsTime] add constants
    and helpers, [Crypto] and [KeyedHash] SNOW 3G, AES, ZUC and HMAC-SHA-256.
    [NasCodec], [NasDecoder] and [EsmDecoder] are interfaces between parts of
    the program: the EMM and ESM layers are verified against them; [OgsPaa]
    is the copy of a PDN address into a structure of ogslib, [OgsSock] its
    socket addresses.  For the PGW, [OgsPaaUnion], [OgsImsiBcd] and [OgsPco]
    stand for further functions of ogslib, and [Ipfw] for the vendored compiler
    of flow descriptions ([IpfwLaws]: its instructions hold octets and ports).
    [OgsRef.v] and the [...Examples.v] files give concrete
    instances: every law can hold, and each theorem with hypotheses is applied
    to a concrete input.

    ** Components

    - GTP information elements: [GtpTypes.v] ([lib/gtp/types.c]; bearer QoS,
      traffic flow template, user location), [GtpConv.v] ([lib/gtp/conv.c]).
      A building function takes the size of the buffer and yields the octets
      it wrote.  Theorems: exact wire format, round trips, no write past the
      buffer.  Examples in [GtpCodecExamples.v].
    - GTP messages: [GtpTlv.v] ([lib/gtp/tlv.c]: building and parsing over the
      cells of a C structure at their offsets), [GtpIe.v] and [GtpMessage.v]
      (the tables and structures of [lib/gtp/message.c] and [message.h], and
      the entry points), [GtpStruct.v] (sizes and zeroed memory).
      [GtpTlvProofs.v] relates the loops over a table to lists of elements;
      [GtpTlvSpec.v]: round trip, typing and refusals for any table that
      passes the check [message_ok]; [GtpMessageSpec.v]: every table passes
      it, for which packets parsing stops, and delivery of a message through
      a transaction.  Examples in [GtpExamples.v].
    - GTP transactions: [GtpXact.v] ([lib/gtp/xact.c]).  The state is the
      table of transaction objects with the two lists of each peer, the
      pools of objects and timers, the identifier counter and a trace of
      packets and timer operations; one definition per function, named like
      it; the two timer callbacks are [response_timeout] and
      [holding_timeout].  [GtpXactProofs.v]: the invariant and what each
      operation does to it.  [GtpXactSpec.v]: [reachable] states under calls,
      packets from peers and expiries in any order, safety, duplicate
      detection, matching of responses, the retransmission bound, and an
      abort that a peer can cause.  Examples in [GtpExamples.v].
    - GTP nodes: [GtpNode.v] (the table of peers of [lib/gtp/node.c], the
      choice of a peer's socket and the echo response of [lib/gtp/path.c]).
    - PGW addresses: [PgwPool.v] ([pgw_ue_pool_generate] of
      [pgw-context.c]); the pool is the list of the subnet's free addresses in
      the order of their numbers.
    - NAS information elements: [NasTypes.v] and [NasTai.v]
      ([lib/nas/types.c]: rates, APN-AMBR, EPS QoS, PLMN, tracking area
      list), [NasConv.v] ([lib/nas/conv.c]: IMSI).  Decoders that follow the
      3GPP tables are the specification.  Examples in [NasExamples.v].
    - NAS messages: [NasIes.v] ([lib/nas/ies.c] and the sizes of [types.h]:
      an element is the octets of its structure, a function one of the five
      patterns of the file), [NasMsg.v] ([encoder.c], [decoder.c],
      [message.h]: a message is its elements by name and the presence mask, a
      function the list of its elements).  [NasCodecLaws.v]: the class
      [Codec] (what one function writes the other reads) for each pattern;
      [NasCodecSpec.v]: from the elements to messages and packets;
      [NasCodecs.v]: the instances, one per element and message, found by
      class resolution over the tables; [NasDelivery.v]: round trips, the
      end of the loops, and lengths that lie.  Examples, and messages that
      are not read as they are written, in [NasCodecExamples.v].
    - NAS security: [NasSecurity.v] ([src/mme/nas-security.c] and
      [s1ap_send_to_nas] of [s1ap-path.c]), [Kdf.v] ([mme-kdf.c] and
      [src/hss/hss-auc.c]).  [NasSecurityProofs.v] compares both directions
      with TS 33.401 ([protect]) and proves delivery of whatever a UE with
      the shared keys sends.  Examples in [NasSecurityExamples.v].
    - EMM: [MmeContext.v] (the UE context [ue_t] of [mme-context.h], its
      macros, the look-ups of [mme-context.c]), [EmmBuild.v] ([emm-build.c],
      [nas-path.c], [mme-path.c] and the sends they use), [EmmHandler.v]
      ([emm-handler.c], [mme-s6a-handler.c]), [EmmSm.v] (every state of
      [emm-sm.c]; the dispatch of [mme-sm.c]).  What leaves the MME is the
      list [trace] of the context.  [EmmProofs.v] holds what the
      operations leave unchanged; [EmmSpec.v] the abstract machine
      [may_move] and the refinement; [EmmSystem.v] the event queue with
      timers that expire at any moment and the bound on retransmissions;
      [EmmFlows.v] the single procedures and the attach of a UE without the
      key; [EmmExamples.v] a concrete network.
    - ESM: [EsmBearer.v] (sessions and bearers in [mme-context.c]),
      [EsmSend.v] ([esm-build.c], [nas-path.c], [mme-gtp-path.c], the create
      session request of [mme-s11-build.c]), [EsmSm.v] ([esm-handler.c],
      [esm-sm.c], the ESM events of [mme-sm.c]), [MmeS11.v]
      ([mme-s11-handler.c]).  Sessions and bearers are lists in [ue_t]; an
      object is named by the index that the pool gave it, and an access to an
      index in no list is [Undef].  [EsmProofs.v]: the view of the sessions
      that the abstract machine has, and what the EMM layer, the builders and
      the senders leave of it; [EsmSpec.v]: the abstract machine [esm_step]
      and what its steps preserve; [EsmRefine.v]: the refinement;
      [EsmSystem.v]: the S11 handlers, the queue of one UE with EMM, ESM, S11
      and timer events, and what holds in every reachable state;
      [EsmProps.v]: the first PDN connection; [EsmFlows.v]: messages at the
      wrong time and the expiries of T3489.  Examples in [EsmExamples.v].
    - UE contexts and S1 connections: [MmeUeTable.v] (the tables of
      [mme-context.c], four handlers of [s1ap-handler.c] and the EMM event of
      [mme-sm.c]).  The state is the memory of all [mme_ue_t] and [enb_ue_t]
      objects, which keep their contents when freed, with pools, lists, hash
      tables and the event queue; an access to a free object is [Undef].
      [MmeUeTableSpec.v]: the EMM layer leaves the GUTI alone, the invariant
      [table_ok], and the operations that create and associate;
      [MmeUeTableInv.v]: removal, EMM messages, S1AP messages and events, and
      the part [base_ok] of the invariant that they keep unconditionally;
      [MmeUeTableProps.v]: what is reachable by inputs of any kind
      ([anything]) and by those that leave no dangling pointer ([orderly]: the
      code does not check this), generation of the M-TMSIs, and the sequences
      of messages after which the code follows a dangling pointer.  Examples
      in [MmeUeTableExamples.v].
    - SGW: [SgwContext.v] ([src/sgw/sgw-context.c] and [.h]: UEs, sessions,
      bearers, tunnels and stored packets in pools of cells, with the lists and
      the IMSI hash; an access to a free object is [Undef]), [SgwHandler.v]
      ([sgw-s11-handler.c], [sgw-s5c-handler.c]: a message is the elements that
      the SGW reads or changes and the octets of the others; transactions are
      named by their number and their operations are outputs), [SgwPath.v]
      ([sgw-gtp-path.c]: the callbacks of the user plane sockets, and
      [sgw-sm.c]: the dispatch of events).  [SgwInv.v]: the rules for the
      monad, the invariant of the tables and every operation on them; [SgwSystem.v]: the handlers and
      events keep it; [SgwUserPlane.v]: what the packet paths do, as runs;
      [SgwProps.v]: reachability and the properties; examples in
      [SgwExamples.v].
    - PGW: [PgwContext.v] ([src/pgw/pgw-context.c] and [.h]: sessions, bearers
      and packet filters in pools, the hash of IMSI and APN, the addresses of
      UEs), [PgwFilter.v] ([pgw-ipfw.c]: rules, and the matching of packets),
      [PgwBuild.v] ([pgw-s5c-build.c]: templates, configuration options and
      messages), [PgwHandler.v] ([pgw-s5c-handler.c], [pgw-gx-handler.c]),
      [PgwPath.v] ([pgw-gtp-path.c]: the callbacks of sockets and TUN devices,
      router advertisements; [pgw-sm.c]: the dispatch of events).
      [PgwInv.v]: the forest of contexts and every operation on it;
      [PgwSystem.v]: the handlers and events keep it; [PgwUserPlane.v]: the
      choice of a bearer without the program's loops, and the host that
      receives a router advertisement;
      [PgwRules.v]: what a UE reads in a template, the rules of the filters,
      and what a rule that is installed leaves; [PgwProps.v]: reachability and
      the properties; examples in [PgwExamples.v].

    ** Theorems

    The theorems numbered C1, C2, ... in their comments are the properties of
    the program; the others are steps towards them, or say more about where it
    goes wrong.  First come the EMM refinement (C1) with the attack it leaves
    open (C2: every run of three messages that needs no key), the ESM refinement, the invariant of the sessions and the first
    PDN connection (C3 to C5), and the tables of the three network functions
    in every reachable state: UE contexts of the MME (C6, whose second part
    needs orderly inputs), SGW (C7) and PGW (C8).  Then the path of packets and of signalling: the bearer of a packet
    from the network (C9), the packets of an idle UE (C10, C11), what an
    initial message takes over, or when it does not get through (C12), packets from the UE through the SGW and
    the PGW (C13, C16), the rules of the PCRF and the templates that the UE
    gets for them (C14, C15).  The transaction invariant and memory safety are
    C17 and C18, round trips and delivery of NAS and GTP messages C19 to C23,
    NAS protection in both directions C24 to C26, the EMM procedures C27 to
    C29 and timers C30.  What goes wrong follows: dangling pointers and double
    frees of UE contexts (C31, C32), the address that a session object keeps
    (C33) and an ESM message at the wrong time (C34).  The last are the
    generation of M-TMSIs (C35), what a host reads in a router advertisement
    (C36), the typing of TLVs (C37), the bound on retransmissions (C38), bit
    rates (C39) and the PGW's address pool (C40).

    ** Bounds

    Loops over arrays are recursions on the array ([tai0_loop],
    [find_served]) or on the list they walk ([delete_each], [find_xid]).  The
    TLV functions recurse on the depth of a table: [max_depth] is 9 and no
    table is deeper (part of [message_ok], which is evaluated).  The loop over
    the optional elements of a NAS message has more fuel than the packet has
    octets, and [NasDelivery.v] proves that it reaches its end.  The loop that
    draws M-TMSIs takes a fuel; C35 says how many rounds are enough.  The loop
    that fills a subnet's pool has a fuel that C40 proves enough.  The PGW's
    loops over the headers of an IPv6 packet have one round for each octet of
    the buffer and one more; more change nothing ([extension_loop_fuel],
    [jumbo_loop_fuel]).  Readers of
    the specification that split an octet string into elements
    ([read_components]) take the length of the string.

    ** Not modelled

    S1AP and Diameter marshalling (with it the Diameter side of Gx in the PGW),
    SGs, the HSS and PCRF processes, sockets, TUN devices and start-up.  The EMM and ESM models
    cover one UE with its S1 connection, the table of UE contexts all of them
    with their EMM events; of S11 in the MME the handover procedures (modify
    bearer response, indirect tunnels) and all of handover and path switch are
    left out.  Of the SGW the reading of its configuration, the opening and
    closing of its sockets and the removal of peers at shutdown are left out,
    and of the PGW its configuration, its devices and the vendored compiler of
    flow descriptions; in both, sending and the operations on transactions
    succeed.  Allocation
    failures are modelled where the code checks them. *)
From Stdlib Require Export ZArith Lia Bool.
From stdpp Require Export base tactics option list gmap numbers.

(** [lia] also decides [/] and [mod] by constants. *)
Ltac Zify.zify_post_hook ::= Z.to_euclidean_division_equations.

(** Comparisons that came out true as equations. *)
Ltac z_eqs :=
  repeat match goal with E : (_ =? _)%Z = true |- _ => apply Z.eqb_eq in E end.

(** Compute [Z.to_nat] of constants in the goal. *)
Ltac const_to_nat :=
  repeat match goal with
  | |- context [Z.to_nat ?x] =>
      let v := eval vm_compute in (Z.to_nat x) in progress change (Z.to_nat x) with v
  end.

(** ** Outcomes of running C code

    [Ok a] is a normal return, [Aborted] a failed [ogs_assert] (the process
    stops), [Undef] an access outside an object of the C program. *)
Inductive outcome (A : Type) : Type :=
| Ok (a : A)
| Aborted
| Undef.
Arguments Ok {A} a.
Arguments Aborted {A}.
Arguments Undef {A}.

#[export] Instance outcome_ret : MRet outcome := @Ok.
#[export] Instance outcome_bind : MBind outcome := fun A B f m =>
  match m with Ok a => f a | Aborted => Aborted | Undef => Undef end.

(** [ogs_assert(b)] and a read that is undefined when it is out of range. *)
Definition ogs_assert (b : bool) : outcome unit := if b then Ok () else Aborted.
Definition ogs_assert_if_reached {A} : outcome A := Aborted.
Definition access {A} (o : option A) : outcome A :=
  match o with Some a => Ok a | None => Undef end.

Definition is_ok {A} (o : outcome A) : bool :=
  match o with Ok _ => true | _ => false end.

Lemma not_ok {A} (o : outcome A) : (∀ r, o ≠ Ok r) → is_ok o = false.
Proof. destruct o as [a| |]; [|done|done]. intros Hn. by destruct (Hn a). Qed.

Lemma bind_ok {A B} (m : outcome A) (f : A → outcome B) b :
  m ≫= f = Ok b ↔ ∃ a, m = Ok a ∧ f a = Ok b.
Proof.
  split.
  - destruct m; simpl; intros H; try discriminate. eauto.
  - intros (a & -> & H). exact H.
Qed.

Lemma ogs_assert_ok b u : ogs_assert b = Ok u ↔ b = true.
Proof. destruct b, u; simpl; split; congruence. Qed.

Lemma access_ok {A} (o : option A) a : access o = Ok a ↔ o = Some a.
Proof. destruct o; simpl; split; congruence. Qed.

(** ** State and error together: a small state monad over [outcome]. *)
Definition M (S A : Type) : Type := S → outcome (A * S).
#[export] Instance M_ret {S} : MRet (M S) := fun A a s => Ok (a, s).
#[export] Instance M_bind {S} : MBind (M S) := fun A B f m s =>
  match m s with Ok (a, s') => f a s' | Aborted => Aborted | Undef => Undef end.

Definition lift {S A} (o : outcome A) : M S A := fun s =>
  match o with Ok a => Ok (a, s) | Aborted => Aborted | Undef => Undef end.
Definition get {S} : M S S := fun s => Ok (s, s).
Definition gets {S A} (f : S → A) : M S A := fun s => Ok (f s, s).
Definition put {S} (s : S) : M S () := fun _ => Ok ((), s).
Definition modify {S} (f : S → S) : M S () := fun s => Ok ((), f s).
Definition massert {S} (b : bool) : M S () := lift (ogs_assert b).
Definition mabort {S A} : M S A := fun _ => Aborted.
Definition assert_some {S A} (o : option A) : M S A :=
  match o with Some a => mret a | None => mabort end.
(** An operation on a part of the state. *)
Definition zoom {S T A} (part : S → T) (set : T → S → S) (m : M T A) : M S A :=
  s ← get; '(a, t) ← lift (m (part s)); modify (set t);; mret a.

Lemma M_bind_ok {S A B} (m : M S A) (f : A → M S B) s r :
  (m ≫= f) s = Ok r ↔ ∃ a s', m s = Ok (a, s') ∧ f a s' = Ok r.
Proof.
  unfold mbind, M_bind. destruct (m s) as [[a s']| |]; split.
  - intros H. eauto.
  - intros (?&?&[= <- <-]&H). exact H.
  - intros H; discriminate H.
  - intros (?&?&H&_); discriminate H.
  - intros H; discriminate H.
  - intros (?&?&H&_); discriminate H.
Qed.

(** Running the first part of a sequence. *)
Lemma M_bind_run {S A B} (m : M S A) (f : A → M S B) s a s' :
  m s = Ok (a, s') → (m ≫= f) s = f a s'.
Proof. intros E. unfold mbind, M_bind. by rewrite E. Qed.

Lemma M_bind_assoc {S A B C} (m : M S A) (f : A → M S B) (g : B → M S C) (s : S) :
  ((m ≫= f) ≫= g) s = (m ≫= (λ a, f a ≫= g)) s.
Proof. unfold mbind, M_bind. by destruct (m s) as [[a s']| |]. Qed.

Lemma lift_run {S A} (o : outcome A) (a : A) (s : S) : o = Ok a → lift o s = Ok (a, s).
Proof. by intros ->. Qed.
Lemma massert_run {S} b (s : S) : b = true → massert b s = Ok ((), s).
Proof. by intros ->. Qed.

(** [m_run E] runs the first operation by the equation [E]. *)
Ltac m_run E := rewrite (M_bind_run _ _ _ _ _ E); cbv beta iota zeta.

(** The same for [mret a] and [modify f]. *)
Ltac m_ret :=
  match goal with
  | |- context [(mret ?a ≫= ?f) ?s] => change ((mret a ≫= f) s) with (f a s)
  | |- context [(modify ?g ≫= ?f) ?s] => change ((modify g ≫= f) s) with (f () (g s))
  | |- context [(get ≫= ?f) ?s] => change ((get ≫= f) s) with (f s s)
  end; cbv beta iota zeta.

(** A field setter of a record: [record_setter eta f] is the function that
    replaces the field [f], where [eta] rebuilds the record from its fields. *)
Ltac record_setter eta proj :=
  let e := eval red in eta in
  let p := eval pattern proj in e in
  match p with
  | ?h _ => let t := eval cbv beta in (fun x r => h (fun _ => x) r) in exact t
  end.

(** ** Weakest preconditions

    [wp m s Q]: run from [s], [m] makes no undefined access and, if it does
    not stop on an assertion, returns a result and a state in [Q]. *)
Definition wp {S A} (m : M S A) (s : S) (Q : A → S → Prop) : Prop :=
  match m s with Ok (a, s') => Q a s' | Aborted => True | Undef => False end.

Section wp.
Context {S : Type}.

Lemma wp_mono {A} (m : M S A) s (P Q : A → S → Prop) :
  wp m s P → (∀ a s', P a s' → Q a s') → wp m s Q.
Proof. unfold wp. destruct (m s) as [[a s']| |]; auto. Qed.

Lemma wp_ret {A} (a : A) s (Q : A → S → Prop) : Q a s → wp (mret a) s Q.
Proof. auto. Qed.

Lemma wp_bind {A B} (m : M S A) (f : A → M S B) s (Q : B → S → Prop) :
  wp m s (λ a s', wp (f a) s' Q) → wp (m ≫= f) s Q.
Proof. unfold wp, mbind, M_bind. destruct (m s) as [[a s']| |]; auto. Qed.

(** The form used to call a specified operation. *)
Lemma wp_call {A B} (m : M S A) (f : A → M S B) s (P : A → S → Prop) (Q : B → S → Prop) :
  wp m s P → (∀ a s', P a s' → wp (f a) s' Q) → wp (m ≫= f) s Q.
Proof. intros HP HQ. apply wp_bind. eapply wp_mono; eauto. Qed.

Lemma wp_massert (b : bool) s (Q : () → S → Prop) :
  (b = true → Q () s) → wp (massert b) s Q.
Proof. unfold wp, massert, lift. destruct b; simpl; auto. Qed.

Lemma wp_mabort {A} s (Q : A → S → Prop) : wp mabort s Q.
Proof. exact I. Qed.

Lemma wp_modify (f : S → S) s (Q : () → S → Prop) : Q () (f s) → wp (modify f) s Q.
Proof. auto. Qed.

Lemma wp_get s (Q : S → S → Prop) : Q s s → wp get s Q.
Proof. auto. Qed.

Lemma wp_lift {A} (o : outcome A) s (Q : A → S → Prop) :
  match o with Ok a => Q a s | Aborted => True | Undef => False end → wp (lift o) s Q.
Proof. unfold wp, lift. destruct o; auto. Qed.

Lemma wp_ok {A} (m : M S A) s (Q : A → S → Prop) a s' :
  wp m s Q → m s = Ok (a, s') → Q a s'.
Proof. unfold wp. intros Hw E. by rewrite E in Hw. Qed.

Lemma wp_not_undef {A} (m : M S A) s (Q : A → S → Prop) : wp m s Q → m s ≠ Undef.
Proof. unfold wp. intros Hw E. by rewrite E in Hw. Qed.
End wp.

(** Call a specified operation, or finish with it. *)
Tactic Notation "wp_call" uconstr(l) := eapply wp_call; [apply l|cbv beta].
Tactic Notation "wp_use" uconstr(l) := eapply wp_mono; [apply l|cbv beta].

(** [no_abort m s]: no assertion fails when [m] runs from [s]; with [wp] it
    makes the run total. *)
Definition no_abort {S A} (m : M S A) (s : S) : Prop := m s ≠ Aborted.

Section no_abort.
Context {S : Type}.

Lemma wp_total {A} (m : M S A) s (Q : A → S → Prop) :
  wp m s Q → no_abort m s → ∃ a s', m s = Ok (a, s') ∧ Q a s'.
Proof. unfold wp, no_abort. destruct (m s) as [[a s']| |]; [eauto|done|done]. Qed.

Lemma no_abort_bind {A B} (m : M S A) (f : A → M S B) s (P : A → S → Prop) :
  no_abort m s → wp m s P → (∀ a s', P a s' → no_abort (f a) s') → no_abort (m ≫= f) s.
Proof.
  unfold no_abort, wp, mbind, M_bind. destruct (m s) as [[a s']| |]; auto.
Qed.

Lemma no_abort_ret {A} (a : A) (s : S) : no_abort (mret a) s.
Proof. discriminate. Qed.

Lemma no_abort_modify (f : S → S) s : no_abort (modify f) s.
Proof. discriminate. Qed.

Lemma no_abort_massert (b : bool) (s : S) : b = true → no_abort (massert b) s.
Proof. by intros ->. Qed.
End no_abort.

(** ** Partial correctness

    [wlp m s Q]: if [m] returns from [s], its result and state satisfy [Q]. *)
Definition wlp {S A} (m : M S A) (s : S) (Q : A → S → Prop) : Prop :=
  ∀ a s', m s = Ok (a, s') → Q a s'.

Section wlp.
Context {S : Type}.

Lemma wlp_mono {A} (m : M S A) s (P Q : A → S → Prop) :
  wlp m s P → (∀ a s', P a s' → Q a s') → wlp m s Q.
Proof. unfold wlp. eauto. Qed.
Lemma wlp_and {A} (m : M S A) s (P Q : A → S → Prop) :
  wlp m s P → wlp m s Q → wlp m s (λ a s', P a s' ∧ Q a s').
Proof. unfold wlp. eauto. Qed.
Lemma wlp_ret {A} (a : A) s (Q : A → S → Prop) : Q a s → wlp (mret a) s Q.
Proof. intros HQ ?? [= <- <-]. exact HQ. Qed.
Lemma wlp_bind {A B} (m : M S A) (f : A → M S B) s (Q : B → S → Prop) :
  wlp m s (λ a s', wlp (f a) s' Q) → wlp (m ≫= f) s Q.
Proof. intros Hm b s' E. apply M_bind_ok in E as (a & s1 & E & E'). exact (Hm _ _ E _ _ E'). Qed.
Lemma wlp_call {A B} (m : M S A) (f : A → M S B) s (P : A → S → Prop) (Q : B → S → Prop) :
  wlp m s P → (∀ a s', P a s' → wlp (f a) s' Q) → wlp (m ≫= f) s Q.
Proof. intros HP HQ. apply wlp_bind. eapply wlp_mono; eauto. Qed.
Lemma wlp_modify (f : S → S) s (Q : () → S → Prop) : Q () (f s) → wlp (modify f) s Q.
Proof. intros HQ ?? [= <- <-]. exact HQ. Qed.
Lemma wlp_get s (Q : S → S → Prop) : Q s s → wlp get s Q.
Proof. intros HQ ?? [= <- <-]. exact HQ. Qed.
Lemma wlp_lift {A} (o : outcome A) s (Q : A → S → Prop) :
  (∀ a, o = Ok a → Q a s) → wlp (lift o) s Q.
Proof. intros HQ ??. unfold lift. destruct o; intros E; try discriminate E. injection E as <- <-. auto. Qed.
Lemma wlp_mabort {A} s (Q : A → S → Prop) : wlp mabort s Q.
Proof. intros ?? E. discriminate E. Qed.
Lemma wlp_massert (b : bool) s (Q : () → S → Prop) : (b = true → Q () s) → wlp (massert b) s Q.
Proof. unfold wlp, massert, lift. destruct b; intros HQ ?? E; try discriminate E. injection E as <- <-. auto. Qed.
Lemma wlp_zoom {T A} part set (m : M T A) s (Q : A → S → Prop) :
  wlp m (part s) (λ a t, Q a (set t s)) → wlp (zoom part set m) s Q.
Proof.
  intros Hm. apply wlp_bind, wlp_get, wlp_bind, wlp_lift. intros [a t] E. cbv beta iota.
  apply wlp_bind, wlp_modify, wlp_ret. by apply Hm.
Qed.
Lemma wlp_assert_some {A} (o : option A) s (Q : A → S → Prop) :
  (∀ a, o = Some a → Q a s) → wlp (assert_some o) s Q.
Proof. destruct o; intros HQ; [apply wlp_ret; auto|apply wlp_mabort]. Qed.
End wlp.

(** [runs m s Q]: from [s], [m] returns, with a result and a state in [Q]. *)
Definition runs {S A} (m : M S A) (s : S) (Q : A → S → Prop) : Prop :=
  ∃ a s', m s = Ok (a, s') ∧ Q a s'.

Section runs.
Context {S : Type}.
Lemma runs_ret {A} (a : A) (s : S) (Q : A → S → Prop) : Q a s → runs (mret a) s Q.
Proof. intros HQ. by exists a, s. Qed.
Lemma runs_bind {A B} (m : M S A) (f : A → M S B) (s : S) (Q : B → S → Prop) :
  runs m s (λ a s', runs (f a) s' Q) → runs (m ≫= f) s Q.
Proof.
  intros (a & s1 & E & b & s2 & E' & HQ). exists b, s2. split; [|done].
  by rewrite (M_bind_run _ _ _ _ _ E).
Qed.
Lemma runs_mono {A} (m : M S A) (s : S) (P Q : A → S → Prop) :
  runs m s P → (∀ a s', P a s' → Q a s') → runs m s Q.
Proof. intros (a & s1 & E & HP) HQ. exists a, s1. auto. Qed.
Lemma runs_modify (f : S → S) s (Q : () → S → Prop) : Q () (f s) → runs (modify f) s Q.
Proof. intros HQ. by exists (), (f s). Qed.
Lemma runs_get s (Q : S → S → Prop) : Q s s → runs get s Q.
Proof. intros HQ. by exists s, s. Qed.
Lemma runs_massert (b : bool) s (Q : () → S → Prop) : b = true → Q () s → runs (massert b) s Q.
Proof. intros -> HQ. by exists (), s. Qed.
Lemma runs_lift {A} (o : outcome A) a s (Q : A → S → Prop) : o = Ok a → Q a s → runs (lift o) s Q.
Proof. intros -> HQ. by exists a, s. Qed.
Lemma runs_assert_some {A} (a : A) s (Q : A → S → Prop) : Q a s → runs (assert_some (Some a)) s Q.
Proof. intros HQ. by apply runs_ret. Qed.
End runs.

(** [keeps R m]: whatever [m] does, the states before and after are related
    by the preorder [R]. *)
Definition keeps {S A} (R : S → S → Prop) (m : M S A) : Prop :=
  ∀ s, wlp m s (λ _ s', R s s').

Section keeps.
Context {S : Type} (R : S → S → Prop) `{!PreOrder R}.

Lemma keeps_ret {A} (a : A) : keeps R (mret a).
Proof. intros s. apply wlp_ret. reflexivity. Qed.
Lemma keeps_bind {A B} (m : M S A) (f : A → M S B) :
  keeps R m → (∀ a, keeps R (f a)) → keeps R (m ≫= f).
Proof.
  intros Hm Hf s. eapply wlp_call; [apply Hm|]. intros a s1 Ha. eapply wlp_mono; [apply Hf|].
  intros b s2 Hb. by transitivity s1.
Qed.
Lemma keeps_get : keeps R get.
Proof. intros s. apply wlp_get. reflexivity. Qed.
Lemma keeps_lift {A} (o : outcome A) : keeps R (lift o).
Proof. intros s. apply wlp_lift. intros. reflexivity. Qed.
Lemma keeps_mabort {A} : keeps R (mabort : M S A).
Proof. intros s. apply wlp_mabort. Qed.
Lemma keeps_massert b : keeps R (massert b).
Proof. intros s. apply wlp_massert. intros. reflexivity. Qed.
Lemma keeps_assert_some {A} (o : option A) : keeps R (assert_some o).
Proof. intros s. apply wlp_assert_some. intros. reflexivity. Qed.
Lemma keeps_modify (f : S → S) : (∀ s, R s (f s)) → keeps R (modify f).
Proof. intros Hf s. apply wlp_modify, Hf. Qed.
End keeps.

Create HintDb keeps.
#[export] Hint Resolve keeps_mabort : keeps.
#[export] Hint Extern 1 (keeps _ (mret _)) => apply keeps_ret; exact _ : keeps.
#[export] Hint Extern 1 (keeps _ get) => apply keeps_get; exact _ : keeps.
#[export] Hint Extern 1 (keeps _ (lift _)) => apply keeps_lift; exact _ : keeps.
#[export] Hint Extern 1 (keeps _ (massert _)) => apply keeps_massert; exact _ : keeps.
#[export] Hint Extern 1 (keeps _ (assert_some _)) => apply keeps_assert_some; exact _ : keeps.

(** Decompose an operation and use the lemmas of the database. *)
Ltac keeps_step :=
  match goal with
  | |- keeps _ (match ?x with _ => _ end) => destruct x
  | |- keeps _ _ => solve [eauto 3 with keeps nocore]
  | |- keeps _ (_ ≫= _) => apply keeps_bind; [exact _| |intros]
  end.
Ltac keeps_tac := intros; repeat (cbv beta zeta; keeps_step).

(** The same down to [modify], by unfolding the definitions of the program;
    [fin] shows that a change of the state respects the relation. *)
Ltac keeps_deep_step fin :=
  match goal with
  | |- keeps _ (match ?x with _ => _ end) => destruct x
  | |- keeps _ _ => solve [eauto 2 with keeps nocore]
  | |- keeps _ (modify _) => apply keeps_modify; intros ?; fin
  | |- keeps _ (_ ≫= _) => apply keeps_bind; [exact _| |intros]
  | |- keeps ?R ?m => let m' := eval red in m in change (keeps R m')
  end.
Ltac keeps_deep fin := intros; repeat (cbv beta zeta; keeps_deep_step fin).
