(* ===== verification/CMem.v ===== *)
(** * C integers, byte images and byte order

    Machine integers are [Z] in their range, memory is a list of octets
    ([Z] in [0, 256)).  The host byte order is a parameter ([Host]): the
    codecs are verified for both orders.  [Struct] is the interface through
    which a C object is copied in and out of memory with [memcpy]. *)
From S2P Require Import Prelude.
#[local] Open Scope Z_scope.

(** ** Octets *)
Definition byte_ok (b : Z) : Prop := 0 <= b < 256.
Abbreviation bytes_ok := (Forall byte_ok).

(** Truncation to a [w]-bit unsigned integer. *)
Definition wrap (w x : Z) : Z := x mod 2 ^ w.
Abbreviation u8 := (wrap 8).
Abbreviation u16 := (wrap 16).
Abbreviation u32 := (wrap 32).
Abbreviation u64 := (wrap 64).

Lemma wrap_range w x : 0 <= w → 0 <= wrap w x < 2 ^ w.
Proof. intros. unfold wrap. apply Z.mod_pos_bound. lia. Qed.

Lemma wrap_small w x : 0 <= x < 2 ^ w → wrap w x = x.
Proof. intros. unfold wrap. apply Z.mod_small. lia. Qed.

(** ** Octet strings of integers *)
Fixpoint le_bytes (n : nat) (x : Z) : list Z :=
  match n with
  | O => []
  | S m => x mod 256 :: le_bytes m (x / 256)
  end.

Fixpoint le_value (l : list Z) : Z :=
  match l with
  | [] => 0
  | b :: l => b + 256 * le_value l
  end.

Definition be_bytes (n : nat) (x : Z) : list Z := reverse (le_bytes n x).
Definition be_value (l : list Z) : Z := le_value (reverse l).

Lemma length_le_bytes n x : length (le_bytes n x) = n.
Proof. revert x; induction n; intros; simpl; auto. Qed.

(** A value shifted by one octet. *)
Lemma be_bytes_shift n x : be_bytes (S n) (x * 256) = be_bytes n x ++ [0].
Proof.
  unfold be_bytes. simpl. rewrite reverse_cons. f_equal.
  - do 2 f_equal. lia.
  - f_equal. lia.
Qed.

Lemma length_be_bytes n x : length (be_bytes n x) = n.
Proof. unfold be_bytes. rewrite length_reverse. apply length_le_bytes. Qed.

Lemma le_bytes_ok n x : bytes_ok (le_bytes n x).
Proof.
  revert x; induction n; intros; simpl; constructor; auto.
  unfold byte_ok. lia.
Qed.

Lemma be_bytes_ok n x : bytes_ok (be_bytes n x).
Proof. unfold be_bytes. apply Forall_reverse, le_bytes_ok. Qed.

Lemma pow256_S n : 256 ^ Z.of_nat (S n) = 256 * 256 ^ Z.of_nat n.
Proof. rewrite Nat2Z.inj_succ, Z.pow_succ_r by lia. reflexivity. Qed.

Lemma le_value_le_bytes n x : le_value (le_bytes n x) = x mod 256 ^ Z.of_nat n.
Proof.
  revert x; induction n as [|n IH]; intros x.
  - simpl. rewrite Z.mod_1_r. reflexivity.
  - cbn [le_bytes le_value]. rewrite IH, pow256_S.
    rewrite Z.rem_mul_r by lia. lia.
Qed.

Lemma le_bytes_le_value l : bytes_ok l → le_bytes (length l) (le_value l) = l.
Proof.
  induction 1 as [|b l Hb _ IH]; simpl; [reflexivity|].
  unfold byte_ok in Hb.
  replace ((b + 256 * le_value l) mod 256) with b by lia.
  replace ((b + 256 * le_value l) / 256) with (le_value l) by lia.
  by rewrite IH.
Qed.

Lemma le_value_bound l : bytes_ok l → 0 <= le_value l < 256 ^ Z.of_nat (length l).
Proof.
  induction 1 as [|b l Hb _ IH]; [simpl; lia|].
  cbn [length le_value]. rewrite pow256_S. unfold byte_ok in Hb. lia.
Qed.

Lemma be_value_be_bytes n x : be_value (be_bytes n x) = x mod 256 ^ Z.of_nat n.
Proof. unfold be_value, be_bytes. by rewrite reverse_involutive, le_value_le_bytes. Qed.

Lemma be_bytes_be_value l : bytes_ok l → be_bytes (length l) (be_value l) = l.
Proof.
  intros H. unfold be_value, be_bytes.
  rewrite <- (length_reverse l), le_bytes_le_value by (by apply Forall_reverse).
  apply reverse_involutive.
Qed.

(** *** Integers put together from octets by shifts, masks and [|] *)
Lemma land_shifted x y n : 0 <= n → 0 <= y < 2 ^ n → Z.land (x * 2 ^ n) y = 0.
Proof.
  intros Hn Hy. rewrite <- Z.shiftl_mul_pow2 by done.
  apply Z.bits_inj'. intros i Hi. rewrite Z.land_spec, Z.bits_0, Z.shiftl_spec by done.
  destruct (Z.ltb_spec i n).
  - by rewrite Z.testbit_neg_r by lia.
  - rewrite <- (Z.mod_small y (2 ^ n)), Z.mod_pow2_bits_high by lia. apply andb_false_r.
Qed.
Lemma lor_disjoint x y n : 0 <= n → 0 <= y < 2 ^ n → Z.lor (x * 2 ^ n) y = x * 2 ^ n + y.
Proof. intros. by rewrite <- Z.lxor_lor, <- Z.add_nocarry_lxor by (by apply land_shifted). Qed.
Lemma land_octet b n : 0 <= n → byte_ok b → Z.land (Z.shiftl b n) (Z.shiftl 0xff n) = b * 2 ^ n.
Proof.
  intros Hn Hb. rewrite <- Z.shiftl_land. change 0xff with (Z.ones 8).
  rewrite Z.land_ones, Z.mod_small by (unfold byte_ok in Hb; lia). by apply Z.shiftl_mul_pow2.
Qed.

Lemma octets16 a b : byte_ok a → byte_ok b →
  Z.lor (Z.land (Z.shiftl a 8) 0xff00) (Z.land b 0xff) = be_value [a; b].
Proof.
  intros Ha Hb. pose proof (land_octet a 8 ltac:(lia) Ha) as Ea.
  pose proof (land_octet b 0 ltac:(lia) Hb) as Eb.
  change (Z.shiftl 255 8) with 0xff00 in Ea. change (Z.shiftl 255 0) with 0xff in Eb.
  rewrite Z.shiftl_0_r in Eb. unfold byte_ok in *.
  rewrite Ea, Eb, Z.mul_1_r, lor_disjoint by lia. unfold be_value. cbn. lia.
Qed.
Lemma octets24 a b c : byte_ok a → byte_ok b → byte_ok c →
  Z.lor (Z.lor (Z.land (Z.shiftl a 16) 0xff0000) (Z.land (Z.shiftl b 8) 0xff00)) (Z.land c 0xff)
  = be_value [a; b; c].
Proof.
  intros Ha Hb Hc. pose proof (land_octet a 16 ltac:(lia) Ha) as Ea.
  pose proof (land_octet b 8 ltac:(lia) Hb) as Eb. pose proof (land_octet c 0 ltac:(lia) Hc) as Ec.
  change (Z.shiftl 255 16) with 0xff0000 in Ea. change (Z.shiftl 255 8) with 0xff00 in Eb.
  change (Z.shiftl 255 0) with 0xff in Ec. rewrite Z.shiftl_0_r in Ec. unfold byte_ok in *.
  rewrite Ea, Eb, Ec, Z.mul_1_r, lor_disjoint by lia.
  replace (a * 2 ^ 16 + b * 2 ^ 8) with ((a * 256 + b) * 2 ^ 8) by lia.
  rewrite lor_disjoint by lia. unfold be_value. cbn. lia.
Qed.
Lemma octets32 a b c d : byte_ok a → byte_ok b → byte_ok c → byte_ok d →
  Z.lor (Z.lor (Z.lor (Z.land (Z.shiftl a 24) 0xff000000) (Z.land (Z.shiftl b 16) 0xff0000))
               (Z.land (Z.shiftl c 8) 0xff00)) (Z.land d 0xff)
  = be_value [a; b; c; d].
Proof.
  intros Ha Hb Hc Hd. pose proof (land_octet a 24 ltac:(lia) Ha) as Ea.
  pose proof (land_octet b 16 ltac:(lia) Hb) as Eb. pose proof (land_octet c 8 ltac:(lia) Hc) as Ec.
  pose proof (land_octet d 0 ltac:(lia) Hd) as Ed.
  change (Z.shiftl 255 24) with 0xff000000 in Ea. change (Z.shiftl 255 16) with 0xff0000 in Eb.
  change (Z.shiftl 255 8) with 0xff00 in Ec. change (Z.shiftl 255 0) with 0xff in Ed.
  rewrite Z.shiftl_0_r in Ed. unfold byte_ok in *.
  rewrite Ea, Eb, Ec, Ed, Z.mul_1_r, lor_disjoint by lia.
  replace (a * 2 ^ 24 + b * 2 ^ 16) with ((a * 256 + b) * 2 ^ 16) by lia.
  rewrite lor_disjoint by lia.
  replace ((a * 256 + b) * 2 ^ 16 + c * 2 ^ 8) with ((a * 65536 + b * 256 + c) * 2 ^ 8) by lia.
  rewrite lor_disjoint by lia. unfold be_value. cbn. lia.
Qed.

(** ** Host byte order *)
Class Host := { big_endian : bool }.

Section host.
Context `{Host}.

Definition host_bytes (n : nat) (x : Z) : list Z :=
  if big_endian then be_bytes n x else le_bytes n x.
Definition host_value (l : list Z) : Z :=
  if big_endian then be_value l else le_value l.

(** [htons], [htonl] and their inverses (the same function). *)
Definition hton (n : nat) (x : Z) : Z := host_value (be_bytes n x).
Definition htons : Z → Z := hton 2.
Definition htonl : Z → Z := hton 4.
Definition ntohs : Z → Z := hton 2.
Definition ntohl : Z → Z := hton 4.

Lemma length_host_bytes n x : length (host_bytes n x) = n.
Proof. unfold host_bytes. destruct big_endian; auto using length_be_bytes, length_le_bytes. Qed.

Lemma host_bytes_ok n x : bytes_ok (host_bytes n x).
Proof. unfold host_bytes. destruct big_endian; auto using be_bytes_ok, le_bytes_ok. Qed.

Lemma host_value_bytes n x : host_value (host_bytes n x) = x mod 256 ^ Z.of_nat n.
Proof.
  unfold host_value, host_bytes.
  destruct big_endian; [apply be_value_be_bytes|apply le_value_le_bytes].
Qed.

Lemma host_bytes_value l : bytes_ok l → host_bytes (length l) (host_value l) = l.
Proof.
  unfold host_value, host_bytes.
  destruct big_endian; [apply be_bytes_be_value|apply le_bytes_le_value].
Qed.

(** The memory image of [hton x] is the big-endian string of [x], on
    either kind of host. *)
Lemma host_bytes_hton n x : host_bytes n (hton n x) = be_bytes n x.
Proof.
  unfold hton. rewrite <- (length_be_bytes n x) at 1.
  apply host_bytes_value, be_bytes_ok.
Qed.

Lemma hton_host_value n l :
  length l = n → bytes_ok l → hton n (host_value l) = be_value l.
Proof.
  intros <- H0. unfold hton, host_value. destruct big_endian eqn:E.
  - by rewrite be_bytes_be_value.
  - unfold be_bytes, be_value. by rewrite le_bytes_le_value.
Qed.

Lemma host_value_bound l :
  bytes_ok l → 0 <= host_value l < 256 ^ Z.of_nat (length l).
Proof.
  intros Hl. unfold host_value, be_value. destruct big_endian.
  - rewrite <- (length_reverse l). by apply le_value_bound, Forall_reverse.
  - by apply le_value_bound.
Qed.

Lemma hton_range n x : 0 <= hton n x < 256 ^ Z.of_nat n.
Proof.
  pose proof (host_value_bound _ (be_bytes_ok n x)) as Hb.
  by rewrite length_be_bytes in Hb.
Qed.

Lemma hton_hton n x : hton n (hton n x) = x mod 256 ^ Z.of_nat n.
Proof.
  change (hton n x) with (host_value (be_bytes n x)).
  rewrite hton_host_value by auto using length_be_bytes, be_bytes_ok.
  apply be_value_be_bytes.
Qed.

Lemma hton_involutive n x : 0 <= x < 256 ^ Z.of_nat n → hton n (hton n x) = x.
Proof. intros. rewrite hton_hton. by apply Z.mod_small. Qed.
End host.

(** ** Reading from a memory object *)
Definition slice (off len : nat) (l : list Z) : option (list Z) :=
  if (off + len <=? length l)%nat then Some (take len (drop off l)) else None.

Lemma slice_app (a b c : list Z) n m :
  n = length a → m = length b → slice n m (a ++ b ++ c) = Some b.
Proof.
  intros -> ->. unfold slice. rewrite !length_app.
  replace (_ <=? _)%nat with true by (symmetry; apply Nat.leb_le; lia).
  by rewrite drop_app_length, take_app_length.
Qed.

Lemma slice_length off len l r : slice off len l = Some r → length r = len.
Proof.
  unfold slice. case_match eqn:E; [|done]. intros [= <-].
  apply Nat.leb_le in E. rewrite length_take, length_drop. lia.
Qed.

Lemma slice_bytes_ok off len l r :
  slice off len l = Some r → bytes_ok l → bytes_ok r.
Proof.
  unfold slice. case_match; [|done]. intros [= <-] H'.
  by apply Forall_take, Forall_drop.
Qed.

(** ** C objects that are copied byte by byte *)
Class Struct (A : Type) := {
  sizeof : nat;
  image : A → list Z;
  of_image : list Z → A;
}.
Arguments sizeof A {_}.

Class StructLaws (A : Type) `{Struct A} (wf : A → Prop) : Prop := {
  length_image a : length (image a) = sizeof A;
  of_image_image a : wf a → of_image (image a) = a;
}.

(** An object cleared by [memset(p, 0, sizeof *p)]. *)
Definition memset0 (A : Type) `{Struct A} : A := of_image (replicate (sizeof A) 0).

Create Rewrite HintDb cmem.
#[export] Hint Rewrite length_le_bytes length_be_bytes @length_host_bytes
  @host_bytes_hton : cmem.
