(* ===== verification/OgsLib.v ===== *)
(** * Interface to ogslib

    ogslib is a git submodule of the program: its code is not part of the
    repository.  What the program uses of it enters the model as type
    classes; each [...Laws] class states the documented behaviour the
    program relies on.  [OgsRef.v] gives concrete instances. *)
From S2P Require Import Prelude.
From S2P Require Import CMem.
#[local] Open Scope Z_scope.

(** ** Bit-field octets: the [ED2] ... [ED8] macros

    [EDn] declares the bit-fields of one octet in the order of the 3GPP
    figures, the most significant first; a field list pairs each width with
    its value. *)
Class OgsBits := {
  ed_pack : list (nat * Z) → Z;
  ed_unpack : list nat → Z → list Z;
}.

Definition ed_ok (fs : list (nat * Z)) : Prop :=
  sum_list fs.*1 = 8%nat ∧ Forall (λ f, 0 <= f.2 < 2 ^ Z.of_nat f.1) fs.

Class OgsBitsLaws `{OgsBits} : Prop := {
  ed_pack_byte fs : ed_ok fs → byte_ok (ed_pack fs);
  ed_unpack_pack fs : ed_ok fs → ed_unpack fs.*1 (ed_pack fs) = fs.*2;
  length_ed_unpack ws b : length (ed_unpack ws b) = length ws;
  ed_unpack_ok ws b :
    sum_list ws = 8%nat → byte_ok b → ed_ok (zip ws (ed_unpack ws b));
  ed_pack_unpack ws b :
    sum_list ws = 8%nat → byte_ok b → ed_pack (zip ws (ed_unpack ws b)) = b;
  ed_pack_halves a b :
    0 <= a < 16 → 0 <= b < 16 → ed_pack [(4%nat, a); (4%nat, b)] = 16 * a + b;
}.

(** ** Conversions: [ogs_uint64_to_buffer], [ogs_buffer_to_uint64] *)
Class OgsConv := {
  ogs_uint64_to_buffer : Z → nat → list Z;
  ogs_buffer_to_uint64 : list Z → Z;
}.

Class OgsConvLaws `{OgsConv} : Prop := {
  length_uint64_to_buffer n size : length (ogs_uint64_to_buffer n size) = size;
  uint64_to_buffer_ok n size : bytes_ok (ogs_uint64_to_buffer n size);
  buffer_to_uint64_to_buffer n size :
    (size <= 8)%nat → 0 <= n < 2 ^ 64 →
    ogs_buffer_to_uint64 (ogs_uint64_to_buffer n size) = n mod 2 ^ (8 * Z.of_nat size);
}.

(** ** 3GPP identities: [ogs_plmn_id_t], [ogs_tai_t], [ogs_e_cgi_t]

    [ogs_plmn_id_t] is an abstract type of [OGS_PLMN_ID_LEN] octets; the two
    others are records of it.  Their memory images are parameters. *)
Class OgsPlmn := {
  ogs_plmn_id_t : Type;
  #[global] plmn_struct :: Struct ogs_plmn_id_t;
}.

Section ids.
Context `{OgsPlmn}.
Record ogs_tai_t := { tai_plmn_id : ogs_plmn_id_t; tac : Z }.
Record ogs_e_cgi_t := { e_cgi_plmn_id : ogs_plmn_id_t; cell_id : Z }.

Definition tai_wf (t : ogs_tai_t) : Prop := 0 <= tac t < 2 ^ 16.
Definition e_cgi_wf (e : ogs_e_cgi_t) : Prop := 0 <= cell_id e < 2 ^ 32.
End ids.

Class Ogs3gpp `{OgsPlmn} := {
  #[global] tai_struct :: Struct ogs_tai_t;
  #[global] e_cgi_struct :: Struct ogs_e_cgi_t;
}.

Class Ogs3gppLaws `{Ogs3gpp} : Prop := {
  #[global] plmn_laws :: StructLaws ogs_plmn_id_t (λ _, True);
  #[global] tai_laws :: StructLaws ogs_tai_t tai_wf;
  #[global] e_cgi_laws :: StructLaws ogs_e_cgi_t e_cgi_wf;
}.

(** The six digits of a PLMN identity (bit-fields of [ogs_plmn_id_t]; [0xf] in
    [mnc1] marks a two-digit MNC), the layout of its octets and the layout of
    [ogs_tai_t], which the NAS code copies as memory. *)
Record digits := { mcc1 : Z; mcc2 : Z; mcc3 : Z; mnc1 : Z; mnc2 : Z; mnc3 : Z }.
Definition digits_ok (d : digits) : Prop :=
  Forall (λ x, 0 <= x < 16) [mcc1 d; mcc2 d; mcc3 d; mnc1 d; mnc2 d; mnc3 d].

Class OgsPlmnDigits `{OgsPlmn} := {
  plmn_digits : ogs_plmn_id_t → digits;
  plmn_of_digits : digits → ogs_plmn_id_t;
}.
Class OgsPlmnDigitsLaws `{OgsPlmnDigits, OgsBits} : Prop := {
  #[global] plmn_digits_struct :: StructLaws ogs_plmn_id_t (λ _, True);
  plmn_digits_of d : digits_ok d → plmn_digits (plmn_of_digits d) = d;
  plmn_layout d :
    digits_ok d → image (plmn_of_digits d) =
      [ed_pack [(4%nat, mcc2 d); (4%nat, mcc1 d)]; ed_pack [(4%nat, mnc1 d); (4%nat, mcc3 d)];
       ed_pack [(4%nat, mnc3 d); (4%nat, mnc2 d)]];
}.
(** Sizes of arrays. *)
Class OgsSizes := { OGS_MAX_NUM_OF_TAI : Z }.

(** ** Object pools ([OGS_POOL], [ogs_pool_alloc], [ogs_pool_free])

    An object is named by its index; [ogs_pool_alloc] gives an index that is
    not in use, or fails when the pool is exhausted. *)
Class OgsPool := {
  pool_t : Type;
  pool_used : pool_t → gset Z;
  pool_alloc : pool_t → option (Z * pool_t);
  pool_free : Z → pool_t → pool_t;
}.

Class OgsPoolLaws `{OgsPool} : Prop := {
  pool_alloc_fresh p i p' :
    pool_alloc p = Some (i, p') → (i ∉ pool_used p) ∧ pool_used p' = {[i]} ∪ pool_used p;
  pool_used_free i p : pool_used (pool_free i p) = pool_used p ∖ {[i]};
}.

(** ** Pools of a fixed size, whose indices start at 1 *)
Class OgsPoolSized `{OgsPool} := { pool_size : pool_t → Z }.
Class OgsPoolSizedLaws `{OgsPoolSized} : Prop := {
  pool_alloc_range p i p' :
    pool_alloc p = Some (i, p') → 1 <= i <= pool_size p ∧ pool_size p' = pool_size p;
  pool_free_size i p : pool_size (pool_free i p) = pool_size p;
}.

(** ** Intrusive lists ([ogs_list_add], [ogs_list_remove]) of object indices *)
Class OgsList := {
  ogs_list_add : list Z → Z → list Z;
  ogs_list_remove : list Z → Z → list Z;
}.

Class OgsListLaws `{OgsList} : Prop := {
  ogs_list_add_perm l i : ogs_list_add l i ≡ₚ (i :: l);
  ogs_list_remove_perm l i : NoDup l → ogs_list_remove l i ≡ₚ (filter (λ j, j ≠ i) l);
}.

(** ** Identifiers: [OGS_NEXT_ID(id, min, max)] *)
Class OgsNextId := { ogs_next_id : Z → Z → Z → Z }.
Class OgsNextIdLaws `{OgsNextId} : Prop := {
  ogs_next_id_range id lo hi : lo <= hi → lo - 1 <= id <= hi → (lo <= ogs_next_id id lo hi <= hi);
}.

(** ** Packet buffers ([ogs_pkbuf_t])

    The octets in front of the data pointer (the headroom) and the octets
    from the data pointer to the tail. *)
Record pkbuf := { pk_head : list Z; pk_data : list Z }.

Class OgsPkbuf := {
  ogs_pkbuf_push : pkbuf → nat → option pkbuf;
  ogs_pkbuf_pull : pkbuf → nat → option pkbuf;
  ogs_pkbuf_trim : pkbuf → nat → pkbuf;
  ogs_pkbuf_put_data : pkbuf → list Z → option pkbuf;
}.

Class OgsPkbufLaws `{OgsPkbuf} : Prop := {
  pkbuf_push_spec b n b' :
    ogs_pkbuf_push b n = Some b' →
    (n <= length (pk_head b))%nat ∧
    pk_head b' = take (length (pk_head b) - n) (pk_head b) ∧
    pk_data b' = drop (length (pk_head b) - n) (pk_head b) ++ pk_data b;
  pkbuf_push_some b n :
    (n <= length (pk_head b))%nat → is_Some (ogs_pkbuf_push b n);
  pkbuf_pull_spec b n b' :
    ogs_pkbuf_pull b n = Some b' →
    (n <= length (pk_data b))%nat ∧
    pk_head b' = pk_head b ++ take n (pk_data b) ∧ pk_data b' = drop n (pk_data b);
  pkbuf_pull_some b n :
    (n <= length (pk_data b))%nat → is_Some (ogs_pkbuf_pull b n);
  pkbuf_trim_spec b n :
    pk_head (ogs_pkbuf_trim b n) = pk_head b ∧
    ((n <= length (pk_data b))%nat → pk_data (ogs_pkbuf_trim b n) = take n (pk_data b));
  pkbuf_put_data_spec b bs b' :
    ogs_pkbuf_put_data b bs = Some b' →
    pk_head b' = pk_head b ∧ pk_data b' = pk_data b ++ bs;
}.

Section pkbuf.
Context `{OgsPkbufLaws}.

Lemma push_run b n : (n <= length (pk_head b))%nat →
  ogs_pkbuf_push b n = Some {| pk_head := take (length (pk_head b) - n) (pk_head b);
    pk_data := drop (length (pk_head b) - n) (pk_head b) ++ pk_data b |}.
Proof.
  intros Hn. destruct (pkbuf_push_some b n Hn) as [b' E].
  destruct (pkbuf_push_spec _ _ _ E) as (_ & Eh & Ed). rewrite E. f_equal.
  destruct b'; simpl in *. by subst.
Qed.
Lemma pull_run b n : (n <= length (pk_data b))%nat →
  ogs_pkbuf_pull b n = Some {| pk_head := pk_head b ++ take n (pk_data b);
    pk_data := drop n (pk_data b) |}.
Proof.
  intros Hn. destruct (pkbuf_pull_some b n Hn) as [b' E].
  destruct (pkbuf_pull_spec _ _ _ E) as (_ & Eh & Ed). rewrite E. f_equal.
  destruct b'; simpl in *. by subst.
Qed.

Lemma pull_none b n : (length (pk_data b) < n)%nat → ogs_pkbuf_pull b n = None.
Proof.
  intros Hn. destruct (ogs_pkbuf_pull b n) as [b'|] eqn:E; [|done].
  destruct (pkbuf_pull_spec _ _ _ E). lia.
Qed.
End pkbuf.

(** ** State machines ([ogs_fsm_dispatch])

    The handler of the current state gets the event; when it changed the
    state ([OGS_FSM_TRAN]), the handler of the old state gets the exit signal
    and that of the new one the entry signal. *)
Inductive fsm_signal (E : Type) := OGS_FSM_ENTRY_SIG | OGS_FSM_EXIT_SIG | FsmEvent (e : E).
Arguments OGS_FSM_ENTRY_SIG {E}. Arguments OGS_FSM_EXIT_SIG {E}. Arguments FsmEvent {E}.

Class OgsFsm := {
  ogs_fsm_dispatch {S St E : Type} :
    EqDecision St → (S → St) → (St → fsm_signal E → M S ()) → E → M S ();
}.
Class OgsFsmLaws `{OgsFsm} : Prop := {
  fsm_dispatch_spec {S St E : Type} (dec : EqDecision St) (state : S → St)
      (handler : St → fsm_signal E → M S ()) (e : E) (s : S) :
    ogs_fsm_dispatch dec state handler e s =
      (handler (state s) (FsmEvent e);;
       s' ← get;
       if decide (state s' = state s) then mret ()
       else handler (state s) OGS_FSM_EXIT_SIG;; handler (state s') OGS_FSM_ENTRY_SIG) s;
}.

(** [ogs_fsm_create] and [ogs_fsm_init]. *)
Class OgsFsmInit := {
  ogs_fsm_init {S St E : Type} :
    EqDecision St → (S → St) → (St → fsm_signal E → M S ()) → M S ();
}.
Class OgsFsmInitLaws `{OgsFsmInit} : Prop := {
  fsm_init_spec {S St E : Type} (dec : EqDecision St) (state : S → St)
      (handler : St → fsm_signal E → M S ()) (s : S) :
    ogs_fsm_init dec state handler s =
      (handler (state s) OGS_FSM_ENTRY_SIG;;
       s' ← get;
       if decide (state s' = state s) then mret () else handler (state s') OGS_FSM_ENTRY_SIG) s;
}.

(** ** TLV blocks ([ogs_tlv_t])

    [ogs_tlv_add] appends an element to a chain and [ogs_tlv_embed] one to
    the elements inside another; a chain is here the list of its elements.
    [ogs_tlv_parse_block] gives the chain of the elements of a block, each
    with its value ([[]]: the null pointer), or fails an assertion ([None]):
    nothing is assumed about the blocks that are not the rendering of
    elements.  The mode is always
    [OGS_TLV_MODE_T1_L2_I1]: one octet of type, two of length, one that holds
    the instance. *)
#[warnings="-register-all"]
Inductive tlv_t :=
| TlvLeaf (tlv_type tlv_instance : Z) (value : list Z)
| TlvGroup (tlv_type tlv_instance : Z) (embedded : list tlv_t).
Record tlv_view := { tlv_type : Z; tlv_instance : Z; tlv_value : list Z }.

Class OgsTlv := {
  ogs_tlv_calc_length : list tlv_t → Z;
  ogs_tlv_render : list tlv_t → list Z;
  ogs_tlv_parse_block : list Z → option (list tlv_view);
}.

Section tlv.
Context `{OgsTlv}.

Definition tlv_view_of (t : tlv_t) : tlv_view :=
  match t with
  | TlvLeaf t i v => {| tlv_type := t; tlv_instance := i; tlv_value := v |}
  | TlvGroup t i ts => {| tlv_type := t; tlv_instance := i; tlv_value := ogs_tlv_render ts |}
  end.

(** An element that the mode can carry. *)
Definition tlv_fits (t : tlv_t) : Prop :=
  let v := tlv_view_of t in
  0 <= tlv_type v < 256 ∧ 0 <= tlv_instance v < 16 ∧ Z.of_nat (length (tlv_value v)) < 2 ^ 16.
End tlv.

Class OgsTlvLaws `{OgsTlv} : Prop := {
  tlv_calc_length_render ts : ogs_tlv_calc_length ts = Z.of_nat (length (ogs_tlv_render ts));
  tlv_parse_render ts : ts ≠ [] → Forall tlv_fits ts →
    ogs_tlv_parse_block (ogs_tlv_render ts) = Some (tlv_view_of <$> ts);
  tlv_render_nonempty ts : ts ≠ [] → ogs_tlv_render ts ≠ [];
}.
