(* ===== verification/OgsRef.v ===== *)
(** * Concrete instances of the ogslib interface

    They show that the laws of [OgsLib.v] can hold, and the witnesses of the
    properties that assume those laws are evaluated with them. *)
From S2P Require Import Prelude.
From S2P Require Import CMem.
From S2P Require Import OgsLib.
#[local] Open Scope Z_scope.

(** ** Bit-fields, most significant first *)
Fixpoint ref_pack (fs : list (nat * Z)) : Z :=
  match fs with
  | [] => 0
  | (w, v) :: fs => v * 2 ^ Z.of_nat (sum_list fs.*1) + ref_pack fs
  end.

Fixpoint ref_unpack (ws : list nat) (b : Z) : list Z :=
  match ws with
  | [] => []
  | w :: ws =>
      (b / 2 ^ Z.of_nat (sum_list ws)) mod 2 ^ Z.of_nat w
        :: ref_unpack ws (b mod 2 ^ Z.of_nat (sum_list ws))
  end.

#[export] Instance ref_bits : OgsBits := {| ed_pack := ref_pack; ed_unpack := ref_unpack |}.

Lemma pow2_nat_pos n : 0 < 2 ^ Z.of_nat n.
Proof. apply Z.pow_pos_nonneg; lia. Qed.

Lemma ref_pack_bound fs :
  Forall (λ f, 0 <= f.2 < 2 ^ Z.of_nat f.1) fs →
  0 <= ref_pack fs < 2 ^ Z.of_nat (sum_list fs.*1).
Proof.
  induction 1 as [|[w v] fs Hv _ IH]; cbn -[Z.pow Z.of_nat sum_list]; [simpl; lia|].
  change (sum_list (w :: fs.*1)) with (w + sum_list fs.*1)%nat. simpl in Hv.
  rewrite Nat2Z.inj_add, Z.pow_add_r by lia. nia.
Qed.

Lemma ref_unpack_pack fs :
  Forall (λ f, 0 <= f.2 < 2 ^ Z.of_nat f.1) fs → ref_unpack fs.*1 (ref_pack fs) = fs.*2.
Proof.
  induction 1 as [|[w v] fs Hv Hfs IH]; [reflexivity|].
  pose proof (ref_pack_bound fs Hfs) as Hb. simpl in Hv.
  cbn -[Z.pow Z.of_nat sum_list Z.div Z.modulo].
  set (P := 2 ^ Z.of_nat (sum_list fs.*1)) in *.
  f_equal.
  - rewrite Z.div_add_l, (Z.div_small (ref_pack fs)), Z.add_0_r by lia.
    by apply Z.mod_small.
  - rewrite Z.add_comm, Z.mod_add, (Z.mod_small (ref_pack fs)) by lia. exact IH.
Qed.

Lemma length_ref_unpack ws b : length (ref_unpack ws b) = length ws.
Proof. revert b; induction ws; intros; simpl; auto. Qed.

Lemma ref_unpack_ok ws b :
  Forall (λ f, 0 <= f.2 < 2 ^ Z.of_nat f.1) (zip ws (ref_unpack ws b)).
Proof.
  revert b; induction ws as [|w ws IH]; intros b; simpl; constructor; auto.
  simpl. apply Z.mod_pos_bound, pow2_nat_pos.
Qed.

Lemma ref_pack_unpack ws b :
  0 <= b < 2 ^ Z.of_nat (sum_list ws) → ref_pack (zip ws (ref_unpack ws b)) = b.
Proof.
  revert b; induction ws as [|w ws IH]; intros b Hb; [simpl in *; lia|].
  cbn -[Z.pow Z.of_nat sum_list Z.div Z.modulo].
  rewrite fst_zip by (by rewrite length_ref_unpack).
  change (sum_list (w :: ws)) with (w + sum_list ws)%nat in Hb.
  rewrite Nat2Z.inj_add, Z.pow_add_r in Hb by lia.
  pose proof (pow2_nat_pos (sum_list ws)). pose proof (pow2_nat_pos w).
  set (P := 2 ^ Z.of_nat (sum_list ws)) in *.
  rewrite IH by (apply Z.mod_pos_bound; lia).
  rewrite (Z.mod_small (b / P)).
  - rewrite (Z.div_mod b P) at 3 by lia. lia.
  - split; [apply Z.div_pos; lia|apply Z.div_lt_upper_bound; nia].
Qed.

#[export] Instance ref_bits_laws : OgsBitsLaws.
Proof.
  split.
  - intros fs [Hs Hf]. pose proof (ref_pack_bound fs Hf) as Hb.
    rewrite Hs in Hb. exact Hb.
  - intros fs [_ Hf]. by apply ref_unpack_pack.
  - apply length_ref_unpack.
  - intros ws b Hs _. split; [|apply ref_unpack_ok].
    rewrite fst_zip; [done|]. simpl. by rewrite length_ref_unpack.
  - intros ws b Hs Hb. apply ref_pack_unpack. by rewrite Hs.
  - intros a b Ha Hb. cbn. lia.
Qed.

(** ** Conversions: big-endian *)
#[export] Instance ref_conv : OgsConv :=
  {| ogs_uint64_to_buffer n size := be_bytes size n; ogs_buffer_to_uint64 := be_value |}.

#[export] Instance ref_conv_laws : OgsConvLaws.
Proof.
  split.
  - intros. apply length_be_bytes.
  - intros. apply be_bytes_ok.
  - intros n size _ _. simpl. rewrite be_value_be_bytes, Z.pow_mul_r by lia. reflexivity.
Qed.

(** ** Identities: three octets, packed records, little-endian host *)
#[export] Instance ref_host : Host := {| big_endian := false |}.

Inductive ref_plmn := RefPlmn (a b c : Z).

#[export] Instance ref_plmn_struct : Struct ref_plmn := {|
  sizeof := 3;
  image p := match p with RefPlmn a b c => [a; b; c] end;
  of_image l := RefPlmn (nth 0 l 0) (nth 1 l 0) (nth 2 l 0);
|}.

#[export] Instance ref_plmn_class : OgsPlmn := {| ogs_plmn_id_t := ref_plmn |}.

#[export] Instance ref_3gpp : Ogs3gpp := {|
  tai_struct := {|
    sizeof := 5;
    image t := image (tai_plmn_id t) ++ host_bytes 2 (tac t);
    of_image l := {| tai_plmn_id := of_image (take 3 l); tac := host_value (drop 3 l) |};
  |};
  e_cgi_struct := {|
    sizeof := 7;
    image e := image (e_cgi_plmn_id e) ++ host_bytes 4 (cell_id e);
    of_image l := {| e_cgi_plmn_id := of_image (take 3 l); cell_id := host_value (drop 3 l) |};
  |};
|}.

#[export] Instance ref_3gpp_laws : Ogs3gppLaws.
Proof.
  split; split.
  - intros [a b c]. reflexivity.
  - intros [a b c] _. reflexivity.
  - intros [[a b c] t]. reflexivity.
  - intros [[a b c] t] Ht. unfold tai_wf in Ht. cbn -[host_bytes host_value].
    rewrite drop_0, host_value_bytes, Z.mod_small by exact Ht. reflexivity.
  - intros [[a b c] t]. reflexivity.
  - intros [[a b c] t] Ht. unfold e_cgi_wf in Ht. cbn -[host_bytes host_value].
    rewrite drop_0, host_value_bytes, Z.mod_small by exact Ht. reflexivity.
Qed.

(** ** A pool of [2^32] indices, lists that append, the successor identifier *)
Fixpoint first_free (fuel : nat) (i : Z) (s : gset Z) : option Z :=
  match fuel with
  | O => None
  | S fuel => if bool_decide (i ∈ s) then first_free fuel (i + 1) s else Some i
  end.

#[export] Instance ref_pool : OgsPool := {|
  pool_t := gset Z;
  pool_used s := s;
  pool_alloc s := i ← first_free (S (size s)) 1 s; Some (i, {[i]} ∪ s);
  pool_free i s := s ∖ {[i]};
|}.

Lemma first_free_fresh fuel i s j : first_free fuel i s = Some j → j ∉ s.
Proof.
  revert i; induction fuel as [|fuel IH]; intros i; simpl; [done|].
  case_bool_decide; [apply IH|]. by intros [= <-].
Qed.

#[export] Instance ref_pool_laws : OgsPoolLaws.
Proof.
  split; [|done]. intros p i p'. cbn [pool_alloc ref_pool pool_used].
  destruct (first_free _ 1 p) as [j|] eqn:E; [|done]. intros [= <- <-].
  split; [by eapply first_free_fresh|done].
Qed.

#[export] Instance ref_list : OgsList := {|
  ogs_list_add l i := l ++ [i];
  ogs_list_remove l i := filter (λ j, j ≠ i) l;
|}.

#[export] Instance ref_list_laws : OgsListLaws.
Proof. split; intros; [apply Permutation_app_comm|done]. Qed.

#[export] Instance ref_next_id : OgsNextId :=
  {| ogs_next_id id lo hi := if id =? hi then lo else Z.max lo (id + 1) |}.

#[export] Instance ref_next_id_laws : OgsNextIdLaws.
Proof. split. intros id lo hi ??. cbn. destruct (Z.eqb_spec id hi); lia. Qed.

(** ** Packet buffers with unbounded tailroom *)
#[export] Instance ref_pkbuf : OgsPkbuf := {|
  ogs_pkbuf_push b n :=
    if (n <=? length (pk_head b))%nat then
      let k := (length (pk_head b) - n)%nat in
      Some {| pk_head := take k (pk_head b); pk_data := drop k (pk_head b) ++ pk_data b |}
    else None;
  ogs_pkbuf_pull b n :=
    if (n <=? length (pk_data b))%nat then
      Some {| pk_head := pk_head b ++ take n (pk_data b); pk_data := drop n (pk_data b) |}
    else None;
  ogs_pkbuf_trim b n := {| pk_head := pk_head b; pk_data := take n (pk_data b) |};
  ogs_pkbuf_put_data b bs := Some {| pk_head := pk_head b; pk_data := pk_data b ++ bs |};
|}.

#[export] Instance ref_pkbuf_laws : OgsPkbufLaws.
Proof.
  split; cbn; intros *.
  - destruct (Nat.leb_spec n (length (pk_head b))); [|done]. by intros [= <-].
  - intros Hn. rewrite (proj2 (Nat.leb_le _ _) Hn). eauto.
  - destruct (Nat.leb_spec n (length (pk_data b))); [|done]. by intros [= <-].
  - intros Hn. rewrite (proj2 (Nat.leb_le _ _) Hn). eauto.
  - done.
  - by intros [= <-].
Qed.

(** ** PLMN digits over the three octets *)
#[export] Instance ref_plmn_digits : OgsPlmnDigits := {|
  plmn_digits p := match p with RefPlmn a b c =>
    {| mcc2 := a / 16; mcc1 := a mod 16; mnc1 := b / 16; mcc3 := b mod 16;
       mnc3 := c / 16; mnc2 := c mod 16 |} end;
  plmn_of_digits d := RefPlmn (mcc2 d * 16 + mcc1 d) (mnc1 d * 16 + mcc3 d) (mnc3 d * 16 + mnc2 d);
|}.

#[export] Instance ref_plmn_digits_laws : OgsPlmnDigitsLaws.
Proof.
  split.
  - apply ref_3gpp_laws.
  - intros [a b c d e f]. unfold digits_ok. cbn. rewrite !list.Forall_cons.
    intros (?&?&?&?&?&?&_). f_equal; lia.
  - intros [a b c d e f] _. cbn -[Z.mul Z.add Z.pow]. repeat (f_equal; try lia).
Qed.

#[export] Instance ref_sizes : OgsSizes := {| OGS_MAX_NUM_OF_TAI := 16 |}.

(** ** State machines *)
#[export] Instance ref_fsm : OgsFsm := {|
  ogs_fsm_dispatch S St E dec state handler e :=
    (old ← gets state;
     handler old (FsmEvent e);;
     new ← gets state;
     if decide (new = old) then mret ()
     else handler old OGS_FSM_EXIT_SIG;; handler new OGS_FSM_ENTRY_SIG);
|}.

#[export] Instance ref_fsm_laws : OgsFsmLaws.
Proof.
  split. intros S St E dec state handler e s. simpl.
  unfold mbind, M_bind, gets, get.
  destruct (handler (state s) (FsmEvent e) s) as [[[] s']| |]; reflexivity.
Qed.

#[export] Instance ref_fsm_init : OgsFsmInit := {|
  ogs_fsm_init S St E dec state handler :=
    (s ← get; handler (state s) OGS_FSM_ENTRY_SIG;;
     s' ← get;
     if decide (state s' = state s) then mret () else handler (state s') OGS_FSM_ENTRY_SIG);
|}.
#[export] Instance ref_fsm_init_laws : OgsFsmInitLaws.
Proof. by split. Qed.

(** ** TLV blocks, type 1, length 2, instance 1 *)
Fixpoint ref_tlv_bytes (t : tlv_t) : list Z :=
  let element ty i v := ty :: be_bytes 2 (Z.of_nat (length v)) ++ i :: v in
  match t with
  | TlvLeaf ty i v => element ty i v
  | TlvGroup ty i ts => element ty i (mjoin (ref_tlv_bytes <$> ts))
  end.

(** Lengths that do not add up to that of the block fail an assertion. *)
Fixpoint ref_tlv_parse (fuel : nat) (l : list Z) : option (list tlv_view) :=
  match fuel, l with
  | S fuel, ty :: l1 :: l2 :: i :: rest =>
      let n := Z.to_nat (be_value [l1; l2]) in
      if (n <=? length rest)%nat then
        ts ← ref_tlv_parse fuel (drop n rest);
        Some ({| tlv_type := ty; tlv_instance := i; tlv_value := take n rest |} :: ts)
      else None
  | _, [] => Some []
  | _, _ => None
  end.

#[export] Instance ref_tlv : OgsTlv := {|
  ogs_tlv_calc_length ts := Z.of_nat (length (mjoin (ref_tlv_bytes <$> ts)));
  ogs_tlv_render ts := mjoin (ref_tlv_bytes <$> ts);
  ogs_tlv_parse_block l := ref_tlv_parse (length l) l;
|}.

Lemma ref_tlv_bytes_view t :
  let v := tlv_view_of t in
  ref_tlv_bytes t = tlv_type v :: be_bytes 2 (Z.of_nat (length (tlv_value v))) ++ tlv_instance v :: tlv_value v.
Proof. by destruct t. Qed.

Lemma ref_tlv_parse_bytes ts fuel :
  Forall tlv_fits ts → (length (mjoin (ref_tlv_bytes <$> ts)) <= fuel)%nat →
  ref_tlv_parse fuel (mjoin (ref_tlv_bytes <$> ts)) = Some (tlv_view_of <$> ts).
Proof.
  intros Hok. revert fuel. induction Hok as [|t ts (Ht & Hi & Hl) _ IH]; intros fuel Hf.
  { by destruct fuel. }
  change (mjoin (ref_tlv_bytes <$> t :: ts)) with (ref_tlv_bytes t ++ mjoin (ref_tlv_bytes <$> ts)) in *.
  change (tlv_view_of <$> t :: ts) with (tlv_view_of t :: (tlv_view_of <$> ts)).
  rewrite ref_tlv_bytes_view in *.
  destruct (tlv_view_of t) as [ty i v]. cbn [tlv_type tlv_instance tlv_value] in *.
  unfold be_bytes in *. cbn [le_bytes reverse rev_append app] in *.
  set (n := Z.of_nat (length v)) in *. cbn [length app] in Hf. rewrite length_app in Hf.
  destruct fuel as [|fuel]; [lia|]. cbn [ref_tlv_parse app].
  assert (Z.to_nat (be_value [n / 256 mod 256; n mod 256]) = length v) as ->.
  { change (be_value _) with (n mod 256 + 256 * (n / 256 mod 256 + 256 * 0)).
    assert (0 <= n) by (subst n; lia). change (2 ^ 16) with 65536 in Hl.
    replace (_ + _) with n by lia. apply Nat2Z.id. }
  rewrite (proj2 (Nat.leb_le _ _)) by (rewrite length_app; lia).
  rewrite take_app_length, drop_app_length, IH by (cbn [length] in Hf; lia). done.
Qed.

#[export] Instance ref_tlv_laws : OgsTlvLaws.
Proof.
  split; [done| |].
  - intros ts _ Hok. by apply ref_tlv_parse_bytes.
  - intros [|t ts] Hne; [done|]. simpl. by rewrite ref_tlv_bytes_view.
Qed.
