(* ===== verification/ObjPool.v ===== *)
(** * Objects of pools

    The objects that a network function keeps are in pools: the memory of all
    objects of a kind and the set of those that are allocated.  A pointer is
    the index of an object; an access to one that is not allocated is [Undef].
    A pool does not clear an object that it gives out.  The second half has
    the rules for these operations, and the relation between the objects of
    two pools where each object of one is in the list of the object of the
    other that it points at. *)
From S2P Require Import Prelude.
From S2P Require Import CMem.
From S2P Require Import OgsLib.
From stdpp Require Import functions.
#[local] Open Scope Z_scope.

Section operations.
Context `{OgsPool} {S : Type}.

Definition the {A} (pool : S → pool_t) (mem : S → Z → A) (i : Z) : M S A :=
  s ← get; if decide (i ∈ pool_used (pool s)) then mret (mem s i) else lift Undef.
Definition change {A} (pool : S → pool_t) (mem : S → Z → A)
    (set : (Z → A) → S → S) (i : Z) (f : A → A) : M S () :=
  _ ← the pool mem i; modify (λ s, set (alter f i (mem s)) s).
(** [ogs_pool_alloc] and the assertion that it succeeded. *)
Definition alloc (pool : S → pool_t) (set : pool_t → S → S) : M S Z :=
  s ← get;
  match pool_alloc (pool s) with
  | Some (i, p) => modify (set p);; mret i
  | None => mabort
  end.
(** Freeing an object that is not allocated is outside the pool's contract. *)
Definition free (pool : S → pool_t) (set : pool_t → S → S) (i : Z) : M S () :=
  s ← get;
  if decide (i ∈ pool_used (pool s)) then modify (set (pool_free i (pool s))) else lift Undef.

Fixpoint each (f : Z → M S ()) (l : list Z) : M S () :=
  match l with [] => mret () | i :: l => f i;; each f l end.
(** The first object of a list with a property. *)
Fixpoint first_in {A} (get_ : Z → M S A) (p : A → bool) (l : list Z) : M S (option Z) :=
  match l with
  | [] => mret None
  | i :: l => a ← get_ i; if p a then mret (Some i) else first_in get_ p l
  end.
End operations.

(** A field that a change of one object leaves alone. *)
Lemma alter_field {A B} (g : A → B) (f : A → A) (m : Z → A) i j :
  (∀ x, g (f x) = g x) → g (alter f i m j) = g (m j).
Proof.
  intros Hg. destruct (decide (i = j)) as [->|].
  - by rewrite fn_lookup_alter.
  - by rewrite fn_lookup_alter_ne.
Qed.
Lemma alter_other {A} (f : A → A) (m : Z → A) (i j : Z) : i ≠ j → alter f i m j = m j.
Proof. apply fn_lookup_alter_ne. Qed.

(** ** Ownership

    The list of each parent in [P] holds, once each, the children in [C] that
    point at it. *)
Record owns (P C : gset Z) (ls : Z → list Z) (par : Z → Z) : Prop := {
  own_list p : p ∈ P → NoDup (ls p) ∧ ∀ c, c ∈ ls p ↔ c ∈ C ∧ par c = p;
  own_parent c : c ∈ C → par c ∈ P;
}.

Section owns.
Context `{OgsListLaws}.
Implicit Types (P C : gset Z) (ls : Z → list Z) (par : Z → Z).

Lemma owns_ext P C ls par P' C' ls' par' :
  owns P C ls par → P' = P → C' = C → (∀ p, p ∈ P → ls' p = ls p) → (∀ c, c ∈ C → par' c = par c) →
  owns P' C' ls' par'.
Proof.
  intros [Hl Hp] -> -> El Ep. split.
  - intros p Hin. rewrite El by done. split; [by apply Hl|]. intros c. rewrite (proj2 (Hl p Hin)).
    split; (intros [Hc E]; split; [done|]); by rewrite ?Ep in *.
  - intros c Hc. rewrite Ep by done. by apply Hp.
Qed.
Lemma owns_new_parent P C ls par p ls' :
  owns P C ls par → p ∉ P → ls' p = [] → (∀ q, q ≠ p → ls' q = ls q) → owns ({[p]} ∪ P) C ls' par.
Proof.
  intros [Hl Hp] Hn E0 El. split.
  - intros q Hq. destruct (decide (q = p)) as [->|Hne].
    + rewrite E0. split; [constructor|]. intros c. split; [by intros ?%elem_of_nil|].
      intros [Hc E]. apply Hp in Hc. congruence.
    + rewrite El by done. apply Hl. set_solver.
  - intros c Hc%Hp. set_solver.
Qed.
Lemma owns_free_parent P C ls par p :
  owns P C ls par → (∀ c, c ∈ C → par c ≠ p) → owns (P ∖ {[p]}) C ls par.
Proof.
  intros [Hl Hp] Hn. split.
  - intros q Hq. apply Hl. set_solver.
  - intros c Hc. pose proof (Hn c Hc). apply Hp in Hc. set_solver.
Qed.
Lemma owns_link P C ls par c C' ls' :
  owns P C ls par → c ∉ C → par c ∈ P → (∀ x, x ∈ C' ↔ x = c ∨ x ∈ C) →
  ls' (par c) = ogs_list_add (ls (par c)) c → (∀ q, q ≠ par c → ls' q = ls q) →
  owns P C' ls' par.
Proof.
  intros [Hl Hp] Hn Hin HC E El. split; [|intros x [->|]%HC; auto]. intros q Hq. destruct (Hl q Hq) as [Hd Hm].
  destruct (decide (q = par c)) as [->|Hne].
  - rewrite E, ogs_list_add_perm. split.
    + constructor; [|done]. rewrite Hm. tauto.
    + intros d. rewrite ogs_list_add_perm, elem_of_cons, Hm, HC. naive_solver.
  - rewrite El by done. split; [done|]. intros d. rewrite Hm, HC. naive_solver.
Qed.
Lemma owns_unlink P C ls par c C' ls' :
  owns P C ls par → c ∈ C → (∀ x, x ∈ C' ↔ x ≠ c ∧ x ∈ C) →
  ls' (par c) = ogs_list_remove (ls (par c)) c → (∀ q, q ≠ par c → ls' q = ls q) →
  owns P C' ls' par.
Proof.
  intros [Hl Hp] Hn HC E El. split; [|intros x [_ ?]%HC; auto]. intros q Hq. destruct (Hl q Hq) as [Hd Hm].
  destruct (decide (q = par c)) as [->|Hne].
  - rewrite E, ogs_list_remove_perm by done. split; [by apply list.NoDup_filter|].
    intros d. rewrite ogs_list_remove_perm, list_elem_of_filter, Hm, HC by done. naive_solver.
  - rewrite El by done. split; [done|]. intros d. rewrite Hm, HC. naive_solver.
Qed.
End owns.

(** ** Rules *)
Section rules.
Context `{OgsPool} {S : Type}.
Implicit Types (s : S).

Lemma wlp_the {A} pool (mem : S → Z → A) i s Q :
  (i ∈ pool_used (pool s) → Q (mem s i) s) → wlp (the pool mem i) s Q.
Proof.
  intros HQ. apply wlp_bind, wlp_get. case_decide; [apply wlp_ret; auto|].
  apply wlp_lift. discriminate.
Qed.
Lemma wlp_change {A} pool (mem : S → Z → A) set i f s Q :
  (i ∈ pool_used (pool s) → Q () (set (alter f i (mem s)) s)) → wlp (change pool mem set i f) s Q.
Proof. intros HQ. apply wlp_bind, wlp_the. intros Hi. apply wlp_modify. auto. Qed.
Lemma wlp_alloc pool set s Q :
  (∀ i p, pool_alloc (pool s) = Some (i, p) → Q i (set p s)) → wlp (alloc pool set) s Q.
Proof.
  intros HQ. apply wlp_bind, wlp_get. destruct (pool_alloc (pool s)) as [[i p]|]; [|apply wlp_mabort].
  apply wlp_bind, wlp_modify, wlp_ret. auto.
Qed.
Lemma wlp_free pool set i s Q :
  (i ∈ pool_used (pool s) → Q () (set (pool_free i (pool s)) s)) → wlp (free pool set i) s Q.
Proof.
  intros HQ. apply wlp_bind, wlp_get. case_decide; [by apply wlp_modify; auto|].
  apply wlp_lift. discriminate.
Qed.
(** A loop over a list, with what holds while the rest of it is to do. *)
Lemma wlp_each f (I : list Z → S → Prop) l s :
  (∀ i l s, I (i :: l) s → wlp (f i) s (λ _, I l)) → I l s → wlp (each f l) s (λ _, I []).
Proof.
  intros Hf. revert s. induction l as [|i l IH]; intros s Hs; cbn [each]; [by apply wlp_ret|].
  eapply wlp_call; [by apply Hf|]. intros [] s1. apply IH.
Qed.
(** The result of a search is an element with the property. *)
Lemma wlp_first_in {A} pool (mem : S → Z → A) p l s Q :
  (∀ r, (∀ i, r = Some i → i ∈ l ∧ i ∈ pool_used (pool s) ∧ p (mem s i) = true) → Q r s) →
  wlp (first_in (the pool mem) p l) s Q.
Proof.
  revert Q. induction l as [|i l IH]; intros Q HQ; cbn [first_in].
  - apply wlp_ret, HQ. discriminate.
  - apply wlp_bind, wlp_the. intros Hi. destruct (p (mem s i)) eqn:Ep.
    + apply wlp_ret, HQ. intros ? [= <-]. split; [constructor|done].
    + apply IH. intros r Hr. apply HQ. intros j Ej. destruct (Hr j Ej) as (?&?&?).
      split; [by constructor|done].
Qed.

Lemma runs_the {A} pool (mem : S → Z → A) i s Q :
  i ∈ pool_used (pool s) → Q (mem s i) s → runs (the pool mem i) s Q.
Proof. intros Hi HQ. apply runs_bind, runs_get. rewrite decide_True by done. by apply runs_ret. Qed.
Lemma runs_change {A} pool (mem : S → Z → A) set i f s Q :
  i ∈ pool_used (pool s) → Q () (set (alter f i (mem s)) s) → runs (change pool mem set i f) s Q.
Proof. intros Hi HQ. apply runs_bind, runs_the; [done|]. by apply runs_modify. Qed.
Lemma runs_free pool set i s Q :
  i ∈ pool_used (pool s) → Q () (set (pool_free i (pool s)) s) → runs (free pool set i) s Q.
Proof. intros Hi HQ. apply runs_bind, runs_get. rewrite decide_True by done. by apply runs_modify. Qed.
(** The search for the only element with a property. *)
Lemma runs_first_in {A} pool (mem : S → Z → A) p l i s Q :
  (∀ j, j ∈ l → j ∈ pool_used (pool s)) → i ∈ l → p (mem s i) = true →
  (∀ j, j ∈ l → p (mem s j) = true → j = i) → Q (Some i) s → runs (first_in (the pool mem) p l) s Q.
Proof.
  intros Hu Hi Hp Hn HQ. induction l as [|j l IH]; [by apply not_elem_of_nil in Hi|]. cbn [first_in].
  apply runs_bind, runs_the; [apply Hu; constructor|]. destruct (p (mem s j)) eqn:E.
  - rewrite (Hn j) by (done || constructor). by apply runs_ret.
  - apply IH; [intros k Hk; apply Hu; by constructor| |intros k Hk; apply Hn; by constructor].
    apply elem_of_cons in Hi as [->|Hi]; [congruence|done].
Qed.

Section keeps.
Context (R : S → S → Prop) `{!PreOrder R}.
Lemma keeps_the {A} pool (mem : S → Z → A) i : keeps R (the pool mem i).
Proof. intros s. apply wlp_the. intros. reflexivity. Qed.
Lemma keeps_change {A} pool (mem : S → Z → A) set i f :
  (∀ s, R s (set (alter f i (mem s)) s)) → keeps R (change pool mem set i f).
Proof. intros Hf s. apply wlp_change. auto. Qed.
Lemma keeps_each f l : (∀ i, keeps R (f i)) → keeps R (each f l).
Proof.
  intros Hf. induction l as [|i l IH]; cbn [each]; [by apply keeps_ret|by apply keeps_bind].
Qed.
Lemma keeps_first_in {A} (g : Z → M S A) p l :
  (∀ i, keeps R (g i)) → keeps R (first_in g p l).
Proof.
  intros Hg. induction l as [|i l IH]; cbn [first_in]; [by apply keeps_ret|].
  apply keeps_bind; [done|done|]. intros a. destruct (p a); [by apply keeps_ret|done].
Qed.
End keeps.
End rules.

#[export] Hint Extern 1 (keeps _ (the _ _ _)) => apply keeps_the; exact _ : keeps.
#[export] Hint Extern 1 (keeps _ (first_in _ _ _)) =>
  apply keeps_first_in; [exact _|intros; apply keeps_the; exact _] : keeps.

(** A property that an operation does not lose. *)
Definition pres {S} (P : S → Prop) (s s' : S) : Prop := P s → P s'.
#[export] Instance pres_preorder {S} (P : S → Prop) : PreOrder (pres P).
Proof. unfold pres. split; [by intros s|]. intros s1 s2 s3. auto. Qed.

Lemma keeps_run {S A} (P : S → Prop) (m : M S A) s :
  keeps (pres P) m → P s → wlp m s (λ _ s', P s').
Proof. intros Hm Hs a s' E. exact (Hm _ _ _ E Hs). Qed.

Ltac each_step := match goal with |- keeps _ (each _ _) => apply keeps_each; [exact _|intros] end.
