(* ===== verification/GtpTypes.v ===== *)
(** * GTPv2-C information elements: [lib/gtp/types.c]

    Bearer QoS, bearer TFT and user location information: parsing from and
    building into the octets of a TLV. *)
From S2P Require Import Prelude.
From S2P Require Import CMem.
From S2P Require Import OgsLib.
From S2P Require Import OgsRef.
#[local] Open Scope Z_scope.

(** ** TLV octets ([ogs_tlv_octet_t]): [data] is the memory at the pointer *)
Record ogs_tlv_octet_t := { presence : Z; data : list Z; len : Z }.

(** A buffer of [data_len] octets is filled from its start; [out] is the part
    already written and its length is the running [size]. *)
Definition emit (data_len : Z) (out bs : list Z) : outcome (list Z) :=
  ogs_assert (Z.of_nat (length out) + Z.of_nat (length bs) <=? data_len);;
  mret (out ++ bs).

Definition octet_set (octet : ogs_tlv_octet_t) (out : list Z) : ogs_tlv_octet_t :=
  {| presence := presence octet; data := out; len := Z.of_nat (length out) |}.

Lemma emit_ok data_len out bs :
  Z.of_nat (length (out ++ bs)) <= data_len → emit data_len out bs = Ok (out ++ bs).
Proof.
  rewrite length_app. intros. unfold emit.
  by rewrite (proj2 (Z.leb_le _ _)) by lia.
Qed.

Lemma emit_app data_len out a b :
  (out ← emit data_len out a; emit data_len out b) = emit data_len out (a ++ b).
Proof.
  unfold emit. destruct (Z.leb_spec (Z.of_nat (length out) + Z.of_nat (length a)) data_len);
    simpl; rewrite ?length_app, ?app_assoc;
    repeat match goal with |- context [Z.leb ?x ?y] => destruct (Z.leb_spec x y) end;
    simpl; auto; lia.
Qed.

(** Two consecutive guarded copies are one. *)
Lemma emit_bind {B} data_len out a b (k : list Z → outcome B) :
  (out ← emit data_len out a; out ← emit data_len out b; k out) =
  (out ← emit data_len out (a ++ b); k out).
Proof. rewrite <- emit_app. by destruct (emit data_len out a). Qed.

Lemma emit_inv data_len out bs r :
  emit data_len out bs = Ok r → r = out ++ bs ∧ Z.of_nat (length r) <= data_len.
Proof.
  unfold emit. destruct (Z.leb_spec (Z.of_nat (length out) + Z.of_nat (length bs)) data_len);
    simpl; intros [= <-]. rewrite length_app. split; [done|lia].
Qed.

Lemma emit_nil data_len out : Z.of_nat (length out) <= data_len → emit data_len out [] = Ok out.
Proof. intros. rewrite emit_ok, app_nil_r; rewrite ?app_nil_r; auto. Qed.

Module BearerQos.
Definition GTP_BEARER_QOS_LEN : Z := 22.

Record ogs_gtp_bearer_qos_t := {
  spare1 : Z; pre_emption_capability : Z; priority_level : Z; spare2 : Z;
  pre_emption_vulnerability : Z;
  qci : Z;
  ul_mbr : Z; dl_mbr : Z; ul_gbr : Z; dl_gbr : Z;
}.

(** The widths of [ED5] in the structure. *)
Definition qos_widths : list nat := [1; 1; 4; 1; 1]%nat.

Section codec.
Context `{OgsBits, OgsConv}.

Definition qos_octet (q : ogs_gtp_bearer_qos_t) : Z :=
  ed_pack (zip qos_widths
    [spare1 q; pre_emption_capability q; priority_level q; spare2 q;
     pre_emption_vulnerability q]).

Definition read5 (octet : ogs_tlv_octet_t) (size : nat) : outcome Z :=
  bs ← access (slice size 5 (data octet)); mret (ogs_buffer_to_uint64 bs).

Definition ogs_gtp_parse_bearer_qos (octet : ogs_tlv_octet_t)
    : outcome (ogs_gtp_bearer_qos_t * Z) :=
  ogs_assert (len octet =? GTP_BEARER_QOS_LEN);;
  flags ← access (data octet !! 0%nat);
  let f i := nth i (ed_unpack qos_widths flags) 0 in
  q ← access (data octet !! 1%nat);
  ul_m ← read5 octet 2;
  dl_m ← read5 octet 7;
  ul_g ← read5 octet 12;
  dl_g ← read5 octet 17;
  let size := 22 in
  ogs_assert (size =? len octet);;
  mret ({| spare1 := 0; pre_emption_capability := f 1%nat;
           priority_level := f 2%nat; spare2 := 0;
           pre_emption_vulnerability := f 4%nat; qci := q;
           ul_mbr := ul_m; dl_mbr := dl_m; ul_gbr := ul_g; dl_gbr := dl_g |},
        size).

Definition ogs_gtp_build_bearer_qos (octet : ogs_tlv_octet_t)
    (target : ogs_gtp_bearer_qos_t) (data_len : Z)
    : outcome (ogs_tlv_octet_t * Z) :=
  ogs_assert (GTP_BEARER_QOS_LEN <=? data_len);;
  let out :=
    [qos_octet target; qci target]
    ++ ogs_uint64_to_buffer (ul_mbr target) 5
    ++ ogs_uint64_to_buffer (dl_mbr target) 5
    ++ ogs_uint64_to_buffer (ul_gbr target) 5
    ++ ogs_uint64_to_buffer (dl_gbr target) 5 in
  mret (octet_set octet out, Z.of_nat (length out)).

(** Fields of the widths the C structure gives them. *)
Definition qos_wf (q : ogs_gtp_bearer_qos_t) : Prop :=
  0 <= spare1 q < 2 ∧ 0 <= pre_emption_capability q < 2 ∧
  0 <= priority_level q < 16 ∧ 0 <= spare2 q < 2 ∧
  0 <= pre_emption_vulnerability q < 2 ∧ 0 <= qci q < 256 ∧
  0 <= ul_mbr q < 2 ^ 64 ∧ 0 <= dl_mbr q < 2 ^ 64 ∧
  0 <= ul_gbr q < 2 ^ 64 ∧ 0 <= dl_gbr q < 2 ^ 64.

(** What survives the wire: no spare bits, rates of 40 bits. *)
Definition qos_wire (q : ogs_gtp_bearer_qos_t) : ogs_gtp_bearer_qos_t :=
  {| spare1 := 0; pre_emption_capability := pre_emption_capability q;
     priority_level := priority_level q; spare2 := 0;
     pre_emption_vulnerability := pre_emption_vulnerability q; qci := qci q;
     ul_mbr := wrap 40 (ul_mbr q); dl_mbr := wrap 40 (dl_mbr q);
     ul_gbr := wrap 40 (ul_gbr q); dl_gbr := wrap 40 (dl_gbr q) |}.
End codec.

Section facts.
Context `{OgsBitsLaws, OgsConvLaws}.

Lemma qos_fields_ok q : qos_wf q →
  ed_ok (zip qos_widths
    [spare1 q; pre_emption_capability q; priority_level q; spare2 q;
     pre_emption_vulnerability q]).
Proof.
  intros (?&?&?&?&?&_). split; [reflexivity|].
  repeat constructor; simpl; lia.
Qed.

Lemma qos_octet_unpack q : qos_wf q →
  ed_unpack qos_widths (qos_octet q) =
  [spare1 q; pre_emption_capability q; priority_level q; spare2 q;
   pre_emption_vulnerability q].
Proof. intros Hq. exact (ed_unpack_pack _ (qos_fields_ok q Hq)). Qed.

Lemma read5_at octet size n a b :
  data octet = a ++ ogs_uint64_to_buffer n 5 ++ b → length a = size →
  0 <= n < 2 ^ 64 → read5 octet size = Ok (wrap 40 n).
Proof.
  intros Hd Ha Hn. unfold read5. rewrite Hd, slice_app by (rewrite ?length_uint64_to_buffer; auto).
  simpl. rewrite buffer_to_uint64_to_buffer by (auto; lia). reflexivity.
Qed.

(** A bearer QoS that is built into a TLV is read back by the parser:
    every field but the spare bits, with the rates modulo 2^40 (the five
    octets of the wire), and both report the 22 octets of the element. *)
Theorem parse_build_bearer_qos octet q data_len :
  qos_wf q → GTP_BEARER_QOS_LEN <= data_len →
  ∃ octet', ogs_gtp_build_bearer_qos octet q data_len = Ok (octet', 22) ∧
    ogs_gtp_parse_bearer_qos octet' = Ok (qos_wire q, 22).
Proof.
  intros Hq Hlen. unfold ogs_gtp_build_bearer_qos.
  rewrite (proj2 (Z.leb_le _ _) Hlen). cbn [ogs_assert mbind outcome_bind].
  pose proof Hq as (_&_&_&_&_&_&Hum&Hdm&Hug&Hdg).
  set (h := [_; _]). set (u1 := ogs_uint64_to_buffer (ul_mbr q) 5).
  set (u2 := ogs_uint64_to_buffer (dl_mbr q) 5).
  set (u3 := ogs_uint64_to_buffer (ul_gbr q) 5).
  set (u4 := ogs_uint64_to_buffer (dl_gbr q) 5).
  set (out := h ++ u1 ++ u2 ++ u3 ++ u4).
  assert (length out = 22%nat) as Hout.
  { unfold out, u1, u2, u3, u4. rewrite !length_app, !length_uint64_to_buffer. reflexivity. }
  assert (∀ n, length (ogs_uint64_to_buffer n 5) = 5%nat) as L by (intros; apply length_uint64_to_buffer).
  exists (octet_set octet out). split; [by rewrite Hout|].
  unfold ogs_gtp_parse_bearer_qos.
  rewrite (read5_at _ 2 (ul_mbr q) h (u2 ++ u3 ++ u4)) by auto.
  rewrite (read5_at _ 7 (dl_mbr q) (h ++ u1) (u3 ++ u4))
    by (auto; unfold u1; rewrite ?length_app, ?L, <- ?app_assoc; reflexivity).
  rewrite (read5_at _ 12 (ul_gbr q) (h ++ u1 ++ u2) u4)
    by (auto; unfold u1, u2; rewrite ?length_app, ?L, <- ?app_assoc; reflexivity).
  rewrite (read5_at _ 17 (dl_gbr q) (h ++ u1 ++ u2 ++ u3) [])
    by (auto; unfold u1, u2, u3; rewrite ?length_app, ?L, ?app_nil_r, <- ?app_assoc; reflexivity).
  unfold octet_set. cbn [len data]. rewrite Hout. simpl.
  rewrite qos_octet_unpack by done. reflexivity.
Qed.
End facts.
End BearerQos.

Module Tft.
(** One packet filter component: its type and the octets of the union
    ([proto], [ipv4], [ipv6], [ipv6_mask], [port] share the storage). *)
Record component_t := { comp_type : Z; comp_union : list Z }.

Record packet_filter_t := {
  pf_flags : Z; precedence : Z; pf_length : Z;
  component : list component_t; num_of_component : Z;
}.

Record ogs_gtp_tft_t := { flags : Z; pf : list packet_filter_t }.

Definition sizeof_union : nat := 32.
Definition OGS_GTP_MAX_TRAFFIC_FLOW_TEMPLATE : Z := 255.
Definition OGS_GTP_MAX_NUM_OF_PACKET_FILTER_COMPONENT : nat := 16.

(** The types the builder encodes. *)
Inductive pf_type :=
| PfProto | PfIpv4 | PfIpv6Prefix | PfIpv6Mask | PfPort | PfPortRange.

Definition pf_type_of (t : Z) : option pf_type :=
  if t =? 48 then Some PfProto
  else if (t =? 16) || (t =? 17) then Some PfIpv4
  else if (t =? 35) || (t =? 33) then Some PfIpv6Prefix
  else if t =? 32 then Some PfIpv6Mask
  else if (t =? 64) || (t =? 80) then Some PfPort
  else if (t =? 65) || (t =? 81) then Some PfPortRange
  else None.

Section build.
Context `{OgsBits, Host}.

Definition num_of_packet_filter (tft : ogs_gtp_tft_t) : Z :=
  nth 2 (ed_unpack [3; 1; 4]%nat (flags tft)) 0.

(** [memcpy] of [n] octets of the union, and of a port after [htons]. *)
Definition put_union (data_len : Z) (c : component_t) (off n : nat) (out : list Z)
    : outcome (list Z) :=
  bs ← access (slice off n (comp_union c)); emit data_len out bs.

Definition put_port (data_len : Z) (c : component_t) (off : nat) (out : list Z)
    : outcome (list Z) :=
  bs ← access (slice off 2 (comp_union c));
  emit data_len out (host_bytes 2 (htons (host_value bs))).

(** The body of the inner loop; the flag is [false] when the default case
    returns -1. *)
Definition build_component (data_len : Z) (c : component_t) (out : list Z)
    : outcome (bool * list Z) :=
  out ← emit data_len out [comp_type c];
  match pf_type_of (comp_type c) with
  | Some PfProto => out ← put_union data_len c 0 1 out; mret (true, out)
  | Some PfIpv4 =>
      out ← put_union data_len c 0 4 out;
      out ← put_union data_len c 4 4 out; mret (true, out)
  | Some PfIpv6Prefix =>
      out ← put_union data_len c 0 16 out;
      out ← put_union data_len c 16 1 out; mret (true, out)
  | Some PfIpv6Mask =>
      out ← put_union data_len c 0 16 out;
      out ← put_union data_len c 16 16 out; mret (true, out)
  | Some PfPort => out ← put_port data_len c 0 out; mret (true, out)
  | Some PfPortRange =>
      out ← put_port data_len c 0 out;
      out ← put_port data_len c 2 out; mret (true, out)
  | None => mret (false, out)
  end.

(** [for (j = 0; j < num_of_component; j++)] *)
Fixpoint build_components (data_len : Z) (cs : list component_t) (j n : nat)
    (out : list Z) : outcome (bool * list Z) :=
  match n with
  | O => mret (true, out)
  | S n =>
      c ← access (cs !! j);
      r ← build_component data_len c out;
      let '(ok, out) := r in
      if ok : bool then build_components data_len cs (S j) n out else mret (false, out)
  end.

Definition build_pf (data_len : Z) (p : packet_filter_t) (out : list Z)
    : outcome (bool * list Z) :=
  out ← emit data_len out [pf_flags p];
  out ← emit data_len out [precedence p];
  out ← emit data_len out [pf_length p];
  build_components data_len (component p) 0 (Z.to_nat (num_of_component p)) out.

(** [for (i = 0; i < num_of_packet_filter; i++)] *)
Fixpoint build_pfs (data_len : Z) (ps : list packet_filter_t) (i n : nat)
    (out : list Z) : outcome (bool * list Z) :=
  match n with
  | O => mret (true, out)
  | S n =>
      p ← access (ps !! i);
      r ← build_pf data_len p out;
      let '(ok, out) := r in
      if ok : bool then build_pfs data_len ps (S i) n out else mret (false, out)
  end.

Definition ogs_gtp_build_tft (octet : ogs_tlv_octet_t) (tft : ogs_gtp_tft_t)
    (data_len : Z) : outcome (ogs_tlv_octet_t * Z) :=
  ogs_assert (OGS_GTP_MAX_TRAFFIC_FLOW_TEMPLATE <=? data_len);;
  out ← emit data_len [] [flags tft];
  r ← build_pfs data_len (pf tft) 0 (Z.to_nat (num_of_packet_filter tft)) out;
  let '(ok, out) := r in
  if ok : bool then mret (octet_set octet out, Z.of_nat (length out))
  else mret ({| presence := presence octet; data := out; len := len octet |}, -1).
End build.

(** ** The octets the builder is meant to produce, and a reader of them
    following 3GPP TS 24.008, 10.5.6.12. *)
Definition body_size (t : pf_type) : nat :=
  match t with
  | PfProto => 1 | PfIpv4 => 8 | PfIpv6Prefix => 17 | PfIpv6Mask => 32
  | PfPort => 2 | PfPortRange => 4
  end.

Section spec.
Context `{OgsBits, Host}.

Definition comp_body (ty : pf_type) (u : list Z) : list Z :=
  match ty with
  | PfPort => be_bytes 2 (host_value (take 2 u))
  | PfPortRange =>
      be_bytes 2 (host_value (take 2 u)) ++ be_bytes 2 (host_value (take 2 (drop 2 u)))
  | ty => take (body_size ty) u
  end.

Definition comp_wire (c : component_t) : list Z :=
  match pf_type_of (comp_type c) with
  | Some ty => comp_type c :: comp_body ty (comp_union c)
  | None => [comp_type c]
  end.

Definition used (p : packet_filter_t) : list component_t :=
  take (Z.to_nat (num_of_component p)) (component p).
Definition pf_content (p : packet_filter_t) : list Z := concat (comp_wire <$> used p).
Definition pf_wire (p : packet_filter_t) : list Z :=
  pf_flags p :: precedence p :: pf_length p :: pf_content p.
Definition filters (tft : ogs_gtp_tft_t) : list packet_filter_t :=
  take (Z.to_nat (num_of_packet_filter tft)) (pf tft).
Definition tft_wire (tft : ogs_gtp_tft_t) : list Z :=
  flags tft :: concat (pf_wire <$> filters tft).

Definition comp_wf (c : component_t) : Prop :=
  is_Some (pf_type_of (comp_type c)) ∧ length (comp_union c) = sizeof_union.
Definition pf_wf (p : packet_filter_t) : Prop :=
  (Z.to_nat (num_of_component p) <= length (component p))%nat ∧ Forall comp_wf (used p).
Definition tft_wf (tft : ogs_gtp_tft_t) : Prop :=
  (Z.to_nat (num_of_packet_filter tft) <= length (pf tft))%nat ∧
  Forall pf_wf (filters tft).

Fixpoint read_components (fuel : nat) (l : list Z) : option (list (Z * list Z)) :=
  match fuel, l with
  | _, [] => Some []
  | O, _ => None
  | S fuel, t :: l =>
      ty ← pf_type_of t;
      b ← slice 0 (body_size ty) l;
      r ← read_components fuel (drop (body_size ty) l);
      Some ((t, b) :: r)
  end.

Fixpoint read_pfs (n : nat) (l : list Z)
    : option (list (Z * Z * list (Z * list Z))) :=
  match n, l with
  | O, [] => Some []
  | S n, f :: p :: k :: l =>
      body ← slice 0 (Z.to_nat k) l;
      cs ← read_components (length body) body;
      r ← read_pfs n (drop (Z.to_nat k) l);
      Some ((f, p, cs) :: r)
  | _, _ => None
  end.

Definition read_tft (l : list Z) : option (Z * list (Z * Z * list (Z * list Z))) :=
  match l with
  | f :: l =>
      r ← read_pfs (Z.to_nat (nth 2 (ed_unpack [3; 1; 4]%nat f) 0)) l; Some (f, r)
  | [] => None
  end.

Definition comp_view (c : component_t) : Z * list Z := (comp_type c, drop 1 (comp_wire c)).
Definition pf_view (p : packet_filter_t) : Z * Z * list (Z * list Z) :=
  (pf_flags p, precedence p, comp_view <$> used p).
End spec.

Section facts.
Context `{OgsBits, Host}.

Lemma put_union_emit data_len c off n out :
  length (comp_union c) = sizeof_union → (off + n <= sizeof_union)%nat →
  put_union data_len c off n out = emit data_len out (take n (drop off (comp_union c))).
Proof.
  intros Hl Hn. unfold put_union, slice. rewrite Hl.
  by rewrite (proj2 (Nat.leb_le _ _) Hn).
Qed.

Lemma put_port_emit data_len c off out :
  length (comp_union c) = sizeof_union → (off + 2 <= sizeof_union)%nat →
  put_port data_len c off out =
  emit data_len out (be_bytes 2 (host_value (take 2 (drop off (comp_union c))))).
Proof.
  intros Hl Hn. unfold put_port, slice. rewrite Hl, (proj2 (Nat.leb_le _ _) Hn).
  simpl. unfold htons. by rewrite host_bytes_hton.
Qed.

Lemma build_component_emit data_len c out :
  comp_wf c →
  build_component data_len c out = (out ← emit data_len out (comp_wire c); mret (true, out)).
Proof.
  intros [[ty Hty] Hl]. unfold build_component, comp_wire. rewrite Hty.
  change (comp_type c :: comp_body ty ?u) with ([comp_type c] ++ comp_body ty u).
  rewrite <- (emit_bind data_len out [comp_type c] (comp_body ty (comp_union c))).
  destruct (emit data_len out [comp_type c]) as [o| |]; try done.
  cbn [mbind outcome_bind].
  destruct ty; cbn [comp_body body_size];
    rewrite ?put_union_emit, ?put_port_emit, ?drop_0 by (rewrite ?Hl; unfold sizeof_union; lia);
    try done.
  - change (take 8 ?u) with (take (4 + 4) u).
    rewrite <- take_take_drop, <- emit_bind.
    destruct (emit _ _ _); try done. simpl. by rewrite put_union_emit by (rewrite ?Hl; unfold sizeof_union; lia).
  - change (take 17 ?u) with (take (16 + 1) u).
    rewrite <- take_take_drop, <- emit_bind.
    destruct (emit _ _ _); try done. simpl. by rewrite put_union_emit by (rewrite ?Hl; unfold sizeof_union; lia).
  - change (take 32 ?u) with (take (16 + 16) u).
    rewrite <- take_take_drop, <- emit_bind.
    destruct (emit _ _ _); try done. simpl. by rewrite put_union_emit by (rewrite ?Hl; unfold sizeof_union; lia).
  - rewrite <- emit_bind. destruct (emit _ _ _); try done. simpl.
    by rewrite put_port_emit by (rewrite ?Hl; unfold sizeof_union; lia).
Qed.

(** A loop whose body appends [w x] appends the concatenation. *)
Lemma take_drop_S {A} (l : list A) i n x :
  l !! i = Some x → take (S n) (drop i l) = x :: take n (drop (S i) l).
Proof. intros Hx. by rewrite (drop_S l x i Hx). Qed.

Lemma build_components_emit data_len cs n j out :
  (j + n <= length cs)%nat → Forall comp_wf (take n (drop j cs)) →
  Z.of_nat (length out) <= data_len →
  build_components data_len cs j n out =
  (out ← emit data_len out (concat (comp_wire <$> take n (drop j cs))); mret (true, out)).
Proof.
  revert j out; induction n as [|n IH]; intros j out Hn Hwf Hlen.
  { simpl. by rewrite emit_nil. }
  destruct (lookup_lt_is_Some_2 cs j) as [c Hc]; [lia|].
  rewrite (take_drop_S _ _ _ _ Hc) in *. apply Forall_cons_1 in Hwf as [Hwc Hwf].
  cbn [build_components]. rewrite Hc. cbn [access mbind outcome_bind].
  rewrite build_component_emit by done. cbn [fmap list_fmap concat].
  rewrite <- emit_bind. destruct (emit data_len out (comp_wire c)) as [o| |] eqn:E; try done.
  apply emit_inv in E as [_ E]. simpl. apply IH; auto; lia.
Qed.

Lemma build_pf_emit data_len p out :
  pf_wf p → Z.of_nat (length out) <= data_len →
  build_pf data_len p out = (out ← emit data_len out (pf_wire p); mret (true, out)).
Proof.
  intros [Hn Hwf] Hlen. unfold build_pf. rewrite !emit_bind.
  change (pf_wire p) with ([pf_flags p; precedence p; pf_length p] ++ pf_content p).
  rewrite <- (emit_bind data_len out _ (pf_content p) (λ out, mret (true, out))).
  destruct (emit data_len out _) as [o| |] eqn:E; try done.
  apply emit_inv in E as [_ E]. simpl.
  rewrite build_components_emit; auto.
Qed.

Lemma build_pfs_emit data_len ps n i out :
  (i + n <= length ps)%nat → Forall pf_wf (take n (drop i ps)) →
  Z.of_nat (length out) <= data_len →
  build_pfs data_len ps i n out =
  (out ← emit data_len out (concat (pf_wire <$> take n (drop i ps))); mret (true, out)).
Proof.
  revert i out; induction n as [|n IH]; intros i out Hn Hwf Hlen.
  { simpl. by rewrite emit_nil. }
  destruct (lookup_lt_is_Some_2 ps i) as [c Hc]; [lia|].
  rewrite (take_drop_S _ _ _ _ Hc) in *. apply Forall_cons_1 in Hwf as [Hwc Hwf].
  cbn [build_pfs]. rewrite Hc. cbn [access mbind outcome_bind].
  rewrite build_pf_emit by done. cbn [fmap list_fmap concat].
  rewrite <- emit_bind. destruct (emit data_len out (pf_wire c)) as [o| |] eqn:E; try done.
  apply emit_inv in E as [_ E]. simpl. apply IH; auto; lia.
Qed.

(** The traffic flow template builder writes exactly the octets of the
    specification (every packet filter with its components, ports in
    network order on any host) when they fit into [data_len], and stops on
    an assertion when they do not; it never writes past the buffer. *)
Theorem build_tft_functional octet tft data_len :
  tft_wf tft →
  ogs_gtp_build_tft octet tft data_len =
  if (OGS_GTP_MAX_TRAFFIC_FLOW_TEMPLATE <=? data_len) &&
     (Z.of_nat (length (tft_wire tft)) <=? data_len)
  then Ok (octet_set octet (tft_wire tft), Z.of_nat (length (tft_wire tft)))
  else Aborted.
Proof.
  intros [Hn Hwf]. unfold ogs_gtp_build_tft.
  destruct (Z.leb_spec OGS_GTP_MAX_TRAFFIC_FLOW_TEMPLATE data_len) as [Hd|Hd]; [|done].
  cbn [ogs_assert mbind outcome_bind andb].
  unfold OGS_GTP_MAX_TRAFFIC_FLOW_TEMPLATE in Hd.
  transitivity (r ← (out ← emit data_len [] (tft_wire tft); mret (true, out));
    let '(ok, out) := r in
    if ok : bool then mret (octet_set octet out, Z.of_nat (length out))
    else mret ({| presence := presence octet; data := out; len := len octet |}, -1)).
  - unfold tft_wire. change (flags tft :: concat ?l) with ([flags tft] ++ concat l).
    rewrite <- (emit_bind _ _ _ _ (λ out, mret (true, out))).
    rewrite !(emit_ok data_len [] [flags tft]) by (simpl; lia).
    cbn [mbind outcome_bind].
    rewrite build_pfs_emit; [|lia|rewrite drop_0; exact Hwf|simpl; lia].
    by rewrite drop_0.
  - unfold emit. rewrite length_nil.
    destruct (Z.leb_spec (Z.of_nat 0 + Z.of_nat (length (tft_wire tft))) data_len);
      destruct (Z.leb_spec (Z.of_nat (length (tft_wire tft))) data_len); try lia; reflexivity.
Qed.

Lemma length_comp_body ty u :
  length u = sizeof_union → length (comp_body ty u) = body_size ty.
Proof.
  intros Hl. unfold sizeof_union in Hl.
  destruct ty; cbn [comp_body body_size];
    rewrite ?length_app, ?length_be_bytes, ?length_take; lia.
Qed.

Lemma slice_0_app (a b : list Z) n : n = length a → slice 0 n (a ++ b) = Some a.
Proof. intros ->. exact (slice_app [] a b 0 _ eq_refl eq_refl). Qed.

Lemma length_comp_wire c :
  comp_wf c → (0 < length (comp_wire c))%nat.
Proof. unfold comp_wire. intros _. case_match; simpl; lia. Qed.

Lemma read_components_wire cs fuel :
  Forall comp_wf cs → (length (concat (comp_wire <$> cs)) <= fuel)%nat →
  read_components fuel (concat (comp_wire <$> cs)) = Some (comp_view <$> cs).
Proof.
  intros Hwf. revert fuel; induction Hwf as [|c cs Hc _ IH]; intros fuel Hf.
  { by destruct fuel. }
  cbn [fmap list_fmap concat] in *. pose proof (length_comp_wire c Hc) as Hpos.
  rewrite length_app in Hf. destruct fuel as [|fuel]; [lia|].
  pose proof Hc as [[ty Hty] Hl]. unfold comp_view at 1. unfold comp_wire in *.
  rewrite Hty in *. cbn [app read_components length] in *. rewrite Hty.
  cbn [mbind option_bind].
  pose proof (length_comp_body ty (comp_union c) Hl) as Hb.
  rewrite slice_0_app by done. cbn [mbind option_bind].
  rewrite <- Hb, drop_app_length. rewrite IH by lia. reflexivity.
Qed.

Definition length_field_ok (p : packet_filter_t) : Prop :=
  pf_length p = Z.of_nat (length (pf_content p)).

Lemma read_pfs_wire ps :
  Forall pf_wf ps → Forall length_field_ok ps →
  read_pfs (length ps) (concat (pf_wire <$> ps)) = Some (pf_view <$> ps).
Proof.
  induction 1 as [|p ps Hp _ IH]; intros Hlf; [done|].
  apply Forall_cons_1 in Hlf as [Hlen Hlf].
  cbn [fmap list_fmap concat length pf_wire app read_pfs].
  rewrite Hlen, Nat2Z.id, slice_0_app by done. cbn [mbind option_bind].
  assert (read_components (length (pf_content p)) (pf_content p) =
    Some (comp_view <$> used p)) as ->
    by (apply read_components_wire; [apply Hp|done]).
  cbn [mbind option_bind]. rewrite drop_app_length, IH by done. reflexivity.
Qed.

(** A reader that follows TS 24.008 recovers from the built octets the
    TFT flags and, for every packet filter, its flags, precedence and the
    type and contents of each component, provided the length octet the
    caller put into each filter is the length of its components. *)
Theorem read_tft_wire tft :
  tft_wf tft → Forall length_field_ok (filters tft) →
  read_tft (tft_wire tft) = Some (flags tft, pf_view <$> filters tft).
Proof.
  intros [Hn Hwf] Hl. unfold read_tft, tft_wire.
  assert (Z.to_nat (num_of_packet_filter tft) = length (filters tft)) as E.
  { unfold filters. rewrite length_take. lia. }
  unfold num_of_packet_filter in E. rewrite E, read_pfs_wire by done. reflexivity.
Qed.
End facts.

(** A TFT with one filter of a protocol, an IPv4 address and a port range. *)
Definition tft_example : ogs_gtp_tft_t :=
  {| flags := 33;
     pf := [{| pf_flags := 17; precedence := 1; pf_length := 16;
               component := [{| comp_type := 48; comp_union := 6 :: replicate 31 0 |};
                 {| comp_type := 16; comp_union := [10; 0; 0; 1; 255; 255; 255; 255] ++ replicate 24 0 |};
                 {| comp_type := 65; comp_union := [80; 0; 90; 0] ++ replicate 28 0 |}];
               num_of_component := 3 |}] |}.

Lemma tft_example_wf : tft_wf tft_example.
Proof.
  split; [vm_compute; lia|]. repeat (constructor; [split; [vm_compute; lia|]|]); [|constructor].
  vm_compute. repeat (constructor; [split; [eexists; reflexivity|reflexivity]|]). constructor.
Qed.
End Tft.

(** ** User location information *)
Module Uli.
(** Copying a packed record of an identity followed by 16- or 32-bit
    integers: the image is the concatenation. *)
Section structs.
Context `{Host, OgsPlmn}.

Record ogs_gtp_uli_cgi_t := { cgi_plmn_id : ogs_plmn_id_t; cgi_lac : Z; cgi_ci : Z }.
Record ogs_gtp_uli_sai_t := { sai_plmn_id : ogs_plmn_id_t; sai_lac : Z; sai_sac : Z }.
Record ogs_gtp_uli_rai_t := { rai_plmn_id : ogs_plmn_id_t; rai_lac : Z; rai_rac : Z }.
Record ogs_gtp_uli_lai_t := { lai_plmn_id : ogs_plmn_id_t; lai_lac : Z }.

Definition plmn_len : nat := sizeof ogs_plmn_id_t.
Definition at16 (l : list Z) (off : nat) : Z := host_value (take 2 (drop off l)).

#[export] Instance cgi_struct : Struct ogs_gtp_uli_cgi_t := {|
  sizeof := plmn_len + 4;
  image c := image (cgi_plmn_id c) ++ host_bytes 2 (cgi_lac c) ++ host_bytes 2 (cgi_ci c);
  of_image l := {| cgi_plmn_id := of_image (take plmn_len l);
                   cgi_lac := at16 l plmn_len; cgi_ci := at16 l (plmn_len + 2) |};
|}.
#[export] Instance sai_struct : Struct ogs_gtp_uli_sai_t := {|
  sizeof := plmn_len + 4;
  image c := image (sai_plmn_id c) ++ host_bytes 2 (sai_lac c) ++ host_bytes 2 (sai_sac c);
  of_image l := {| sai_plmn_id := of_image (take plmn_len l);
                   sai_lac := at16 l plmn_len; sai_sac := at16 l (plmn_len + 2) |};
|}.
#[export] Instance rai_struct : Struct ogs_gtp_uli_rai_t := {|
  sizeof := plmn_len + 4;
  image c := image (rai_plmn_id c) ++ host_bytes 2 (rai_lac c) ++ host_bytes 2 (rai_rac c);
  of_image l := {| rai_plmn_id := of_image (take plmn_len l);
                   rai_lac := at16 l plmn_len; rai_rac := at16 l (plmn_len + 2) |};
|}.
#[export] Instance lai_struct : Struct ogs_gtp_uli_lai_t := {|
  sizeof := plmn_len + 2;
  image c := image (lai_plmn_id c) ++ host_bytes 2 (lai_lac c);
  of_image l := {| lai_plmn_id := of_image (take plmn_len l); lai_lac := at16 l plmn_len |};
|}.

(** The byte-order conversions applied to each element, both ways. *)
Definition cgi_hton (c : ogs_gtp_uli_cgi_t) :=
  {| cgi_plmn_id := cgi_plmn_id c; cgi_lac := htons (cgi_lac c); cgi_ci := htons (cgi_ci c) |}.
Definition sai_hton (c : ogs_gtp_uli_sai_t) :=
  {| sai_plmn_id := sai_plmn_id c; sai_lac := htons (sai_lac c); sai_sac := htons (sai_sac c) |}.
Definition rai_hton (c : ogs_gtp_uli_rai_t) :=
  {| rai_plmn_id := rai_plmn_id c; rai_lac := htons (rai_lac c); rai_rac := htons (rai_rac c) |}.
Definition tai_hton (c : ogs_tai_t) :=
  {| tai_plmn_id := tai_plmn_id c; tac := htons (tac c) |}.
Definition e_cgi_hton (c : ogs_e_cgi_t) :=
  {| e_cgi_plmn_id := e_cgi_plmn_id c; cell_id := htonl (cell_id c) |}.
Definition lai_hton (c : ogs_gtp_uli_lai_t) :=
  {| lai_plmn_id := lai_plmn_id c; lai_lac := htons (lai_lac c) |}.
End structs.

Section codec.
Context `{OgsBits, Host, Ogs3gpp}.

Record flags_t := {
  f_spare : Z; f_lai : Z; f_e_cgi : Z; f_tai : Z; f_rai : Z; f_sai : Z; f_cgi : Z;
}.

Definition flag_widths : list nat := [2; 1; 1; 1; 1; 1; 1]%nat.
Definition flags_list (f : flags_t) : list Z :=
  [f_spare f; f_lai f; f_e_cgi f; f_tai f; f_rai f; f_sai f; f_cgi f].
Definition flags_octet (f : flags_t) : Z := ed_pack (zip flag_widths (flags_list f)).
Definition flags_of_octet (b : Z) : flags_t :=
  let f i := nth i (ed_unpack flag_widths b) 0 in
  {| f_spare := f 0%nat; f_lai := f 1%nat; f_e_cgi := f 2%nat; f_tai := f 3%nat;
     f_rai := f 4%nat; f_sai := f 5%nat; f_cgi := f 6%nat |}.

Record ogs_gtp_uli_t := {
  flags : flags_t; cgi : ogs_gtp_uli_cgi_t; sai : ogs_gtp_uli_sai_t;
  rai : ogs_gtp_uli_rai_t; tai : ogs_tai_t; e_cgi : ogs_e_cgi_t;
  lai : ogs_gtp_uli_lai_t;
}.

(** One [if (uli->flags.x) { ogs_assert(...); memcpy(...); ... }]: the
    running size and the element, cleared when it is absent. *)
Definition parse_item {A} `{Struct A} (flag : Z) (conv : A → A)
    (octet : ogs_tlv_octet_t) (size : nat) : outcome (A * nat) :=
  if flag =? 0 then mret (memset0 A, size)
  else
    ogs_assert (Z.of_nat size + Z.of_nat (sizeof A) <=? len octet);;
    bs ← access (slice size (sizeof A) (data octet));
    mret (conv (of_image bs), (size + sizeof A)%nat).

Definition ogs_gtp_parse_uli (octet : ogs_tlv_octet_t)
    : outcome (ogs_gtp_uli_t * Z) :=
  b ← access (data octet !! 0%nat);
  let f := flags_of_octet b in
  '(cgi, size) ← parse_item (f_cgi f) cgi_hton octet 1;
  '(sai, size) ← parse_item (f_sai f) sai_hton octet size;
  '(rai, size) ← parse_item (f_rai f) rai_hton octet size;
  '(tai, size) ← parse_item (f_tai f) tai_hton octet size;
  '(e_cgi, size) ← parse_item (f_e_cgi f) e_cgi_hton octet size;
  '(lai, size) ← parse_item (f_lai f) lai_hton octet size;
  ogs_assert (Z.of_nat size =? len octet);;
  mret ({| flags := f; cgi := cgi; sai := sai; rai := rai; tai := tai;
           e_cgi := e_cgi; lai := lai |}, Z.of_nat size).

Definition build_item {A} `{Struct A} (flag : Z) (conv : A → A) (a : A)
    (data_len : Z) (out : list Z) : outcome (list Z) :=
  if flag =? 0 then mret out else emit data_len out (image (conv a)).

Definition ogs_gtp_build_uli (octet : ogs_tlv_octet_t) (target : ogs_gtp_uli_t)
    (data_len : Z) : outcome (ogs_tlv_octet_t * Z) :=
  ogs_assert (negb (data_len =? 0));;
  let f := flags target in
  out ← emit data_len [] [flags_octet f];
  out ← build_item (f_cgi f) cgi_hton (cgi target) data_len out;
  out ← build_item (f_sai f) sai_hton (sai target) data_len out;
  out ← build_item (f_rai f) rai_hton (rai target) data_len out;
  out ← build_item (f_tai f) tai_hton (tai target) data_len out;
  out ← build_item (f_e_cgi f) e_cgi_hton (e_cgi target) data_len out;
  out ← build_item (f_lai f) lai_hton (lai target) data_len out;
  mret (octet_set octet out, Z.of_nat (length out)).

(** Values of the widths of the C structure. *)
Definition u16_ok (x : Z) : Prop := 0 <= x < 2 ^ 16.
Definition uli_wf (u : ogs_gtp_uli_t) : Prop :=
  Forall (λ f, 0 <= f.2 < 2 ^ Z.of_nat f.1) (zip flag_widths (flags_list (flags u))) ∧
  (u16_ok (cgi_lac (cgi u)) ∧ u16_ok (cgi_ci (cgi u))) ∧
  (u16_ok (sai_lac (sai u)) ∧ u16_ok (sai_sac (sai u))) ∧
  (u16_ok (rai_lac (rai u)) ∧ u16_ok (rai_rac (rai u))) ∧
  tai_wf (tai u) ∧ e_cgi_wf (e_cgi u) ∧ u16_ok (lai_lac (lai u)).

(** What the receiver gets: the elements whose flag is set. *)
Definition keep {A} `{Struct A} (flag : Z) (a : A) : A :=
  if flag =? 0 then memset0 A else a.
Definition uli_present (u : ogs_gtp_uli_t) : ogs_gtp_uli_t :=
  let f := flags u in
  {| flags := f; cgi := keep (f_cgi f) (cgi u); sai := keep (f_sai f) (sai u);
     rai := keep (f_rai f) (rai u); tai := keep (f_tai f) (tai u);
     e_cgi := keep (f_e_cgi f) (e_cgi u); lai := keep (f_lai f) (lai u) |}.
Definition item_len (A : Type) `{Struct A} (flag : Z) : Z :=
  if flag =? 0 then 0 else Z.of_nat (sizeof A).
Definition uli_len (u : ogs_gtp_uli_t) : Z :=
  let f := flags u in
  1 + item_len ogs_gtp_uli_cgi_t (f_cgi f) + item_len ogs_gtp_uli_sai_t (f_sai f)
  + item_len ogs_gtp_uli_rai_t (f_rai f) + item_len ogs_tai_t (f_tai f)
  + item_len ogs_e_cgi_t (f_e_cgi f) + item_len ogs_gtp_uli_lai_t (f_lai f).
End codec.

(** ** The packed records satisfy the [Struct] laws *)
Section struct_laws.
Context `{Host, Ogs3gppLaws}.

Lemma image_plmn_len (p : ogs_plmn_id_t) : length (image p) = plmn_len.
Proof. apply length_image. Qed.

Lemma take_image (p : ogs_plmn_id_t) l : take plmn_len (image p ++ l) = image p.
Proof. rewrite <- (image_plmn_len p). apply take_app_length. Qed.

Lemma of_image_plmn (p : ogs_plmn_id_t) l : of_image (take plmn_len (image p ++ l)) = p.
Proof. rewrite take_image. by apply of_image_image. Qed.

Lemma at16_0 (p : ogs_plmn_id_t) x l :
  u16_ok x → at16 (image p ++ host_bytes 2 x ++ l) plmn_len = x.
Proof.
  intros Hx. unfold at16. rewrite <- (image_plmn_len p), drop_app_length.
  rewrite take_app_le, take_ge by (rewrite length_host_bytes; lia).
  rewrite host_value_bytes. by apply Z.mod_small.
Qed.

Lemma at16_2 (p : ogs_plmn_id_t) x y :
  u16_ok y → at16 (image p ++ host_bytes 2 x ++ host_bytes 2 y) (plmn_len + 2) = y.
Proof.
  intros Hy. unfold at16. rewrite <- (image_plmn_len p), <- drop_drop, drop_app_length.
  rewrite drop_app_ge, (length_host_bytes 2), take_ge, Nat.sub_diag
    by (rewrite ?length_drop, ?length_host_bytes; lia).
  rewrite drop_0, host_value_bytes. by apply Z.mod_small.
Qed.

Ltac struct_laws :=
  split; [intros []; simpl; rewrite ?length_app, ?length_host_bytes, image_plmn_len; lia|];
  intros [] Hwf; simpl in *; rewrite of_image_plmn, ?at16_0, ?at16_2 by intuition; auto.

#[export] Instance cgi_laws :
  StructLaws ogs_gtp_uli_cgi_t (λ c, u16_ok (cgi_lac c) ∧ u16_ok (cgi_ci c)).
Proof. struct_laws. Qed.
#[export] Instance sai_laws :
  StructLaws ogs_gtp_uli_sai_t (λ c, u16_ok (sai_lac c) ∧ u16_ok (sai_sac c)).
Proof. struct_laws. Qed.
#[export] Instance rai_laws :
  StructLaws ogs_gtp_uli_rai_t (λ c, u16_ok (rai_lac c) ∧ u16_ok (rai_rac c)).
Proof. struct_laws. Qed.
#[export] Instance lai_laws : StructLaws ogs_gtp_uli_lai_t (λ c, u16_ok (lai_lac c)).
Proof.
  split; [intros []; simpl; rewrite ?length_app, ?length_host_bytes, image_plmn_len; lia|].
  intros [p x] Hx. simpl in *. rewrite of_image_plmn.
  pose proof (at16_0 p x [] Hx) as E. rewrite app_nil_r in E. by rewrite E.
Qed.
End struct_laws.

(** ** One element: building it appends its image, parsing takes it back *)
Definition item_wire {A} `{Struct A} (flag : Z) (conv : A → A) (a : A) : list Z :=
  if flag =? 0 then [] else image (conv a).

(** The byte-order conversion of an element is an involution. *)
Class Conv {A} (wf : A → Prop) (conv : A → A) : Prop := {
  conv_wf a : wf a → wf (conv a);
  conv_conv a : wf a → conv (conv a) = a;
}.

Section item.
Context {A : Type} {wf : A → Prop} `{StructLaws A wf} (conv : A → A) `{!Conv wf conv}.

Lemma build_item_emit flag a data_len out :
  Z.of_nat (length out) <= data_len →
  build_item flag conv a data_len out = emit data_len out (item_wire flag conv a).
Proof. intros. unfold build_item, item_wire. case_match; by rewrite ?emit_nil. Qed.

Lemma parse_item_wire flag x octet pre post size :
  data octet = pre ++ item_wire flag conv x ++ post →
  len octet = Z.of_nat (length (data octet)) → wf x → size = length pre →
  parse_item flag conv octet size =
  Ok (keep flag x, length (pre ++ item_wire flag conv x)).
Proof.
  intros Hd Hl Hwf ->. unfold parse_item, item_wire, keep in *.
  case_match; [by rewrite app_nil_r|].
  assert (length (image (conv x)) = sizeof A) as Hi by apply length_image.
  rewrite Hl, Hd, !length_app, Hi.
  rewrite (proj2 (Z.leb_le _ _)) by lia. cbn [ogs_assert mbind outcome_bind].
  rewrite slice_app by auto. cbn [access mbind outcome_bind].
  rewrite of_image_image by (by apply conv_wf). by rewrite conv_conv.
Qed.

Lemma build_item_bind {B} flag a data_len out bs (k : list Z → outcome B) :
  (out ← emit data_len out bs; out ← build_item flag conv a data_len out; k out) =
  (out ← emit data_len out (bs ++ item_wire flag conv a); k out).
Proof.
  rewrite <- emit_bind. destruct (emit data_len out bs) as [o| |] eqn:E; try done.
  apply emit_inv in E as [_ E]. simpl. by rewrite build_item_emit.
Qed.

Lemma length_item_wire flag x : Z.of_nat (length (item_wire flag conv x)) = item_len A flag.
Proof. unfold item_wire, item_len. case_match; [done|]. by rewrite length_image. Qed.
End item.

Section facts.
Context `{OgsBitsLaws, Host, Ogs3gppLaws}.

Lemma htons_u16 x : u16_ok (htons x).
Proof. exact (hton_range 2 x). Qed.
Lemma htons_htons x : u16_ok x → htons (htons x) = x.
Proof. exact (hton_involutive 2 x). Qed.
Lemma htonl_u32 x : 0 <= htonl x < 2 ^ 32.
Proof. exact (hton_range 4 x). Qed.
Lemma htonl_htonl x : 0 <= x < 2 ^ 32 → htonl (htonl x) = x.
Proof. exact (hton_involutive 4 x). Qed.

Ltac solve_conv :=
  split; [intros [] Hwf|intros [] Hwf; unfold tai_wf, e_cgi_wf in *]; simpl in *;
  [first [apply htons_u16|apply htonl_u32|split; apply htons_u16]
  |unfold cgi_hton, sai_hton, rai_hton, tai_hton, e_cgi_hton, lai_hton; simpl;
   rewrite ?htons_htons, ?htonl_htonl by (unfold u16_ok in *; lia); reflexivity].

#[local] Instance cgi_conv : Conv (λ c, u16_ok (cgi_lac c) ∧ u16_ok (cgi_ci c)) cgi_hton.
Proof. solve_conv. Qed.
#[local] Instance sai_conv : Conv (λ c, u16_ok (sai_lac c) ∧ u16_ok (sai_sac c)) sai_hton.
Proof. solve_conv. Qed.
#[local] Instance rai_conv : Conv (λ c, u16_ok (rai_lac c) ∧ u16_ok (rai_rac c)) rai_hton.
Proof. solve_conv. Qed.
#[local] Instance tai_conv : Conv tai_wf tai_hton.
Proof. solve_conv. Qed.
#[local] Instance e_cgi_conv : Conv e_cgi_wf e_cgi_hton.
Proof. solve_conv. Qed.
#[local] Instance lai_conv : Conv (λ c, u16_ok (lai_lac c)) lai_hton.
Proof. solve_conv. Qed.

Definition uli_items (u : ogs_gtp_uli_t) : list (list Z) :=
  let f := flags u in
  [item_wire (f_cgi f) cgi_hton (cgi u); item_wire (f_sai f) sai_hton (sai u);
   item_wire (f_rai f) rai_hton (rai u); item_wire (f_tai f) tai_hton (tai u);
   item_wire (f_e_cgi f) e_cgi_hton (e_cgi u); item_wire (f_lai f) lai_hton (lai u)].
Definition uli_wire (u : ogs_gtp_uli_t) : list Z :=
  flags_octet (flags u) :: concat (uli_items u).

Lemma length_uli_wire u : Z.of_nat (length (uli_wire u)) = uli_len u.
Proof.
  unfold uli_wire, uli_items, uli_len. simpl. rewrite ?length_app, length_nil.
  rewrite Nat2Z.inj_succ, ?Nat2Z.inj_add.
  erewrite !length_item_wire by typeclasses eauto. lia.
Qed.

Lemma flags_of_octet_octet f :
  Forall (λ f, 0 <= f.2 < 2 ^ Z.of_nat f.1) (zip flag_widths (flags_list f)) →
  flags_of_octet (flags_octet f) = f.
Proof.
  intros Hf. assert (ed_unpack flag_widths (flags_octet f) = flags_list f) as E.
  { exact (ed_unpack_pack (zip flag_widths (flags_list f)) (conj eq_refl Hf)). }
  unfold flags_of_octet. rewrite E. by destruct f.
Qed.

Lemma build_uli_wire octet u data_len :
  data_len ≠ 0 →
  ogs_gtp_build_uli octet u data_len =
  (out ← emit data_len [] (uli_wire u); mret (octet_set octet out, Z.of_nat (length out))).
Proof.
  intros Hd. unfold ogs_gtp_build_uli.
  rewrite (proj2 (Z.eqb_neq _ _) Hd). cbn [negb ogs_assert mbind outcome_bind].
  rewrite !build_item_bind. unfold uli_wire, uli_items. cbn [concat].
  by rewrite app_nil_r, <- !app_assoc.
Qed.

(** The next element of the octets [Hd] that are being parsed. *)
Ltac next_item conv x Hd Ho :=
  cbn [mbind outcome_bind];
  match goal with
  | |- context [parse_item ?flag conv ?o (length ?pre)] =>
      erewrite (parse_item_wire conv flag x o pre);
      [|rewrite Hd, <- ?app_assoc; reflexivity|exact Ho|done|done]
  end.

(** User location information survives the wire: when the buffer has
    room for the flagged elements, the builder writes them and the parser
    returns the flags and every flagged element, the others cleared, and
    both report the same length; the builder never writes past the buffer
    (it stops on an assertion when the elements do not fit). *)
Theorem parse_build_uli octet u data_len :
  uli_wf u → 0 < data_len →
  if uli_len u <=? data_len then
    ∃ octet', ogs_gtp_build_uli octet u data_len = Ok (octet', uli_len u) ∧
      Z.of_nat (length (data octet')) = uli_len u ∧
      ogs_gtp_parse_uli octet' = Ok (uli_present u, uli_len u)
  else ogs_gtp_build_uli octet u data_len = Aborted.
Proof.
  intros (Hf & Hcgi & Hsai & Hrai & Htai & Hecgi & Hlai) Hpos.
  rewrite build_uli_wire by lia. destruct (Z.leb_spec (uli_len u) data_len) as [Hl|Hl].
  2: { unfold emit. rewrite length_nil, length_uli_wire.
       by rewrite (proj2 (Z.leb_gt _ _)) by lia. }
  rewrite emit_ok by (rewrite app_nil_l, length_uli_wire; lia).
  exists (octet_set octet (uli_wire u)). split.
  { cbn [mbind outcome_bind]. by rewrite app_nil_l, length_uli_wire. }
  split; [apply length_uli_wire|].
  unfold ogs_gtp_parse_uli. change (data (octet_set _ ?w)) with w.
  change (uli_wire u !! 0%nat) with (Some (flags_octet (flags u))).
  cbn [access mbind outcome_bind]. rewrite flags_of_octet_octet by done.
  set (o := octet_set _ _).
  assert (len o = Z.of_nat (length (data o))) as Ho by done.
  assert (data o = flags_octet (flags u) :: concat (uli_items u)) as Hd by done.
  unfold uli_items in Hd. cbn [concat] in Hd.
  pose (p := [flags_octet (flags u)]).
  set (f := flags u) in *.
  rewrite (parse_item_wire cgi_hton _ (cgi u) o p _ _ Hd Ho) by done.
  next_item sai_hton (sai u) Hd Ho. next_item rai_hton (rai u) Hd Ho.
  next_item tai_hton (tai u) Hd Ho. next_item e_cgi_hton (e_cgi u) Hd Ho.
  next_item lai_hton (lai u) Hd Ho.
  rewrite Ho, Hd, <- !app_assoc, app_nil_r. cbn [mbind outcome_bind].
  rewrite Z.eqb_refl. cbn [ogs_assert mbind outcome_bind]. unfold uli_present.
  rewrite <- length_uli_wire. unfold uli_wire, uli_items. cbn [concat].
  by rewrite app_nil_r.
Qed.
End facts.
End Uli.
