(* ===== verification/GtpConv.v ===== *)
(** * F-TEID conversions: [lib/gtp/conv.c]

    Between the F-TEID of a GTP message, socket addresses and [ogs_ip_t]. *)
From S2P Require Import Prelude.
From S2P Require Import CMem.
#[local] Open Scope Z_scope.

(** ** Data

    The address union of an F-TEID and of [ogs_ip_t] is its 20 octets:
    [addr] at 0, [addr6] at 0, [both.addr] at 0 and [both.addr6] at 4. *)
Definition OGS_IPV4_LEN : nat := 4.
Definition OGS_IPV6_LEN : nat := 16.
Definition OGS_IPV4V6_LEN : nat := 20.
Definition OGS_GTP_F_TEID_HDR_LEN : Z := 5.
Definition OGS_GTP_F_TEID_IPV4_LEN : Z := Z.of_nat OGS_IPV4_LEN + OGS_GTP_F_TEID_HDR_LEN.
Definition OGS_GTP_F_TEID_IPV6_LEN : Z := Z.of_nat OGS_IPV6_LEN + OGS_GTP_F_TEID_HDR_LEN.
Definition OGS_GTP_F_TEID_IPV4V6_LEN : Z := Z.of_nat OGS_IPV4V6_LEN + OGS_GTP_F_TEID_HDR_LEN.

Record ogs_gtp_f_teid_t := {
  ft_ipv4 : Z; ft_ipv6 : Z; interface_type : Z; teid : Z; ft_addr : list Z;
}.

Record ogs_ip_t := { ip_ipv4 : Z; ip_ipv6 : Z; ip_len : Z; ip_addr : list Z }.

Inductive family := AF_INET | AF_INET6.
#[export] Instance family_eq_dec : EqDecision family.
Proof. solve_decision. Defined.

(** One node of an [ogs_sockaddr_t] chain (a chain is a list). *)
Record ogs_sockaddr_t := {
  sa_family : family; sin_port : Z; s_addr : list Z; s6_addr : list Z;
}.

(** [memcpy] into the union at an offset, and out of it. *)
Definition store (off : nat) (bs u : list Z) : list Z :=
  take off u ++ bs ++ drop (off + length bs) u.
Definition load (off n : nat) (u : list Z) : list Z := take n (drop off u).

Section conv.
Context `{Host}.

Definition cleared (fam : family) (port : Z) : ogs_sockaddr_t :=
  {| sa_family := fam; sin_port := htons port;
     s_addr := replicate OGS_IPV4_LEN 0; s6_addr := replicate OGS_IPV6_LEN 0 |}.
Definition with_s_addr (a : ogs_sockaddr_t) (bs : list Z) : ogs_sockaddr_t :=
  {| sa_family := sa_family a; sin_port := sin_port a; s_addr := bs; s6_addr := s6_addr a |}.
Definition with_s6_addr (a : ogs_sockaddr_t) (bs : list Z) : ogs_sockaddr_t :=
  {| sa_family := sa_family a; sin_port := sin_port a; s_addr := s_addr a; s6_addr := bs |}.

Definition ogs_gtp_f_teid_to_sockaddr (f_teid : ogs_gtp_f_teid_t) (port : Z)
    : outcome (list ogs_sockaddr_t) :=
  let addr := cleared AF_INET port in
  let addr6 := cleared AF_INET6 port in
  let u := ft_addr f_teid in
  if negb (ft_ipv4 f_teid =? 0) && negb (ft_ipv6 f_teid =? 0) then
    mret [with_s_addr addr (load 0 OGS_IPV4_LEN u);
          with_s6_addr addr6 (load 4 OGS_IPV6_LEN u)]
  else if negb (ft_ipv4 f_teid =? 0) then
    mret [with_s_addr addr (load 0 OGS_IPV4_LEN u)]
  else if negb (ft_ipv6 f_teid =? 0) then
    mret [with_s6_addr addr6 (load 0 OGS_IPV6_LEN u)]
  else ogs_assert_if_reached.

Definition ogs_gtp_sockaddr_to_f_teid (addr addr6 : option ogs_sockaddr_t)
    (f_teid : ogs_gtp_f_teid_t) : outcome (ogs_gtp_f_teid_t * Z) :=
  let set v4 v6 u := {| ft_ipv4 := v4; ft_ipv6 := v6;
    interface_type := interface_type f_teid; teid := teid f_teid; ft_addr := u |} in
  let u := ft_addr f_teid in
  match addr, addr6 with
  | Some a, Some a6 =>
      mret (set 1 1 (store 4 (s6_addr a6) (store 0 (s_addr a) u)), OGS_GTP_F_TEID_IPV4V6_LEN)
  | Some a, None => mret (set 1 0 (store 0 (s_addr a) u), OGS_GTP_F_TEID_IPV4_LEN)
  | None, Some a6 => mret (set 0 1 (store 0 (s6_addr a6) u), OGS_GTP_F_TEID_IPV6_LEN)
  | None, None => ogs_assert_if_reached
  end.

Definition ogs_gtp_f_teid_to_ip (f_teid : ogs_gtp_f_teid_t) : outcome ogs_ip_t :=
  let u := replicate OGS_IPV4V6_LEN 0 in
  let ip n u := {| ip_ipv4 := ft_ipv4 f_teid; ip_ipv6 := ft_ipv6 f_teid;
                   ip_len := Z.of_nat n; ip_addr := u |} in
  let src := ft_addr f_teid in
  if negb (ft_ipv4 f_teid =? 0) && negb (ft_ipv6 f_teid =? 0) then
    mret (ip OGS_IPV4V6_LEN
      (store 4 (load 4 OGS_IPV6_LEN src) (store 0 (load 0 OGS_IPV4_LEN src) u)))
  else if negb (ft_ipv4 f_teid =? 0) then
    mret (ip OGS_IPV4_LEN (store 0 (load 0 OGS_IPV4_LEN src) u))
  else if negb (ft_ipv6 f_teid =? 0) then
    mret (ip OGS_IPV6_LEN (store 0 (load 0 OGS_IPV6_LEN src) u))
  else ogs_assert_if_reached.

Definition ogs_gtp_ip_to_f_teid (ip : ogs_ip_t) (f_teid : ogs_gtp_f_teid_t)
    : outcome (ogs_gtp_f_teid_t * Z) :=
  let set u := {| ft_ipv4 := ip_ipv4 ip; ft_ipv6 := ip_ipv6 ip;
    interface_type := interface_type f_teid; teid := teid f_teid; ft_addr := u |} in
  let u := ft_addr f_teid in
  let src := ip_addr ip in
  if negb (ip_ipv4 ip =? 0) && negb (ip_ipv6 ip =? 0) then
    mret (set (store 4 (load 4 OGS_IPV6_LEN src) (store 0 (load 0 OGS_IPV4_LEN src) u)),
          OGS_GTP_F_TEID_IPV4V6_LEN)
  else if negb (ip_ipv4 ip =? 0) then
    mret (set (store 0 (load 0 OGS_IPV4_LEN src) u), OGS_GTP_F_TEID_IPV4_LEN)
  else if negb (ip_ipv6 ip =? 0) then
    mret (set (store 0 (load 0 OGS_IPV6_LEN src) u), OGS_GTP_F_TEID_IPV6_LEN)
  else ogs_assert_if_reached.

(** ** Properties *)
Definition f_teid_wf (f : ogs_gtp_f_teid_t) : Prop :=
  (ft_ipv4 f = 0 ∨ ft_ipv4 f = 1) ∧ (ft_ipv6 f = 0 ∨ ft_ipv6 f = 1) ∧
  length (ft_addr f) = OGS_IPV4V6_LEN.

(** The octets of the address that the flags select, and their length. *)
Definition addr_octets (v4 v6 : Z) : nat :=
  if negb (v4 =? 0) && negb (v6 =? 0) then OGS_IPV4V6_LEN
  else if negb (v4 =? 0) then OGS_IPV4_LEN else OGS_IPV6_LEN.

(** Store at 0 of a load at 0, and so on, on 20 octets. *)
Lemma store_load u off n :
  (off + n <= length u)%nat → store off (load off n u) u = u.
Proof.
  intros Hn. unfold store, load.
  rewrite length_take_le by (rewrite length_drop; lia).
  rewrite <- (take_drop off u) at 4. f_equal.
  rewrite <- drop_drop. apply take_drop.
Qed.

Definition is_family (fam : family) (a : ogs_sockaddr_t) : bool :=
  match sa_family a, fam with
  | AF_INET, AF_INET | AF_INET6, AF_INET6 => true
  | _, _ => false
  end.

(** Turning an F-TEID into the socket address chain and the chain back
    (the first address of each family) gives the F-TEID itself and the
    length of its wire form; the chain has one address per flag, each with
    the port in network order.  The conversion stops on an assertion exactly
    when no flag is set. *)
Theorem f_teid_sockaddr_roundtrip f port :
  f_teid_wf f →
  match ogs_gtp_f_teid_to_sockaddr f port with
  | Ok l =>
      Forall (λ a, sin_port a = htons port) l ∧
      Z.of_nat (length l) = ft_ipv4 f + ft_ipv6 f ∧
      ogs_gtp_sockaddr_to_f_teid (find (is_family AF_INET) l)
        (find (is_family AF_INET6) l) f =
      Ok (f, Z.of_nat (addr_octets (ft_ipv4 f) (ft_ipv6 f)) + OGS_GTP_F_TEID_HDR_LEN)
  | Aborted => ft_ipv4 f = 0 ∧ ft_ipv6 f = 0
  | Undef => False
  end.
Proof.
  destruct f as [v4 v6 ity te u]. intros (H4 & H6 & Hu). simpl in *.
  unfold ogs_gtp_f_teid_to_sockaddr.
  destruct H4 as [->| ->], H6 as [->| ->]; cbn -[load store replicate htons]; [done|..];
    (split; [by repeat first [apply Forall_nil_2 | apply Forall_cons_2]|split; [done|]]);
    rewrite ?store_load by (rewrite ?store_load; rewrite Hu; unfold OGS_IPV4_LEN, OGS_IPV6_LEN, OGS_IPV4V6_LEN in *; lia);
    reflexivity.
Qed.

(** The same through [ogs_ip_t]: the octets the flags select survive the
    two conversions, and the reported lengths are those of the address and
    of the F-TEID. *)
Theorem f_teid_ip_roundtrip f g :
  f_teid_wf f → f_teid_wf g →
  match ogs_gtp_f_teid_to_ip f with
  | Ok ip =>
      let n := addr_octets (ft_ipv4 f) (ft_ipv6 f) in
      ip_len ip = Z.of_nat n ∧
      ∃ g', ogs_gtp_ip_to_f_teid ip g = Ok (g', Z.of_nat n + OGS_GTP_F_TEID_HDR_LEN) ∧
        ft_ipv4 g' = ft_ipv4 f ∧ ft_ipv6 g' = ft_ipv6 f ∧
        interface_type g' = interface_type g ∧ teid g' = teid g ∧
        load 0 n (ft_addr g') = load 0 n (ft_addr f)
  | Aborted => ft_ipv4 f = 0 ∧ ft_ipv6 f = 0
  | Undef => False
  end.
Proof.
  destruct f as [v4 v6 ity te u], g as [w4 w6 ity' te' u']. intros (H4 & H6 & Hu) (_ & _ & Hu').
  simpl in *.
  do 20 (destruct u as [|? u]; [discriminate Hu|]). destruct u; [|discriminate Hu].
  do 20 (destruct u' as [|? u']; [discriminate Hu'|]). destruct u'; [|discriminate Hu'].
  destruct H4 as [->| ->], H6 as [->| ->]; cbn; auto;
    (split; [done|]); eexists; (split; [reflexivity|]); repeat split.
Qed.
End conv.

Definition f_teid_example : ogs_gtp_f_teid_t :=
  {| ft_ipv4 := 1; ft_ipv6 := 1; interface_type := 7; teid := 17;
     ft_addr := [10; 0; 0; 1] ++ replicate 16 9 |}.
