(* ===== verification/GtpNode.v ===== *)
(** * GTP peers and the user plane: [lib/gtp/node.c], [path.c]

    The table of peers, the choice of a socket for a peer, and the answer to
    an echo request. *)
From S2P Require Import Prelude.
From S2P Require Import CMem.
From S2P Require Import OgsLib.
From S2P Require Import GtpConv.
From stdpp Require Import functions.
#[local] Open Scope Z_scope.

(** ** Sockets and addresses of ogslib

    [ip_image] is the memory of an [ogs_ip_t]; the two address functions are
    [ogs_filter_ip_version] with its three flags, and
    [ogs_socknode_fill_scope_id_in_local] ([None]: it fails). *)
Class OgsSock := {
  ip_image : ogs_ip_t → list Z;
  ogs_filter_ip_version : bool → bool → bool → list ogs_sockaddr_t → list ogs_sockaddr_t;
  ogs_socknode_fill_scope_id_in_local : list ogs_sockaddr_t → option (list ogs_sockaddr_t);
}.

(** [ogs_config()->parameter]. *)
Record ip_parameter := { no_ipv4 : bool; no_ipv6 : bool; prefer_ipv4 : bool }.

Record ogs_gtp_node_t := {
  n_addr : list ogs_sockaddr_t; n_sock : option Z; n_ip : option ogs_ip_t;
  n_conn : option ogs_sockaddr_t;
}.

Section nodes.
Context `{Host, OgsPool, OgsList, OgsSock}.

Record node_store := { node_pool : pool_t; nodes : Z → ogs_gtp_node_t }.
Definition the_node (i : Z) : M node_store ogs_gtp_node_t :=
  s ← get; if decide (i ∈ pool_used (node_pool s)) then mret (nodes s i) else lift Undef.
Definition put_node (i : Z) (n : ogs_gtp_node_t) : M node_store () :=
  modify (λ s, {| node_pool := node_pool s; nodes := <[i := n]> (nodes s) |}).

(** The new object is cleared. *)
Definition ogs_gtp_node_new (addr : list ogs_sockaddr_t) : M node_store Z :=
  s ← get;
  match pool_alloc (node_pool s) with
  | None => mabort
  | Some (i, p) =>
      modify (λ s, {| node_pool := p; nodes := nodes s |});;
      put_node i {| n_addr := addr; n_sock := None; n_ip := None; n_conn := None |};;
      mret i
  end.

Definition ogs_gtp_node_add (list_ : list Z) (f_teid : ogs_gtp_f_teid_t) (port : Z)
    (p : ip_parameter) : M node_store (Z * list Z) :=
  massert (negb (port =? 0));;
  addr ← lift (ogs_gtp_f_teid_to_sockaddr f_teid port);
  let addr := ogs_filter_ip_version (no_ipv4 p) (no_ipv6 p) (prefer_ipv4 p) addr in
  massert (match addr with [] => false | _ => true end);;
  match ogs_socknode_fill_scope_id_in_local addr with
  | None => mabort
  | Some addr =>
      i ← ogs_gtp_node_new addr;
      ip ← lift (ogs_gtp_f_teid_to_ip f_teid);
      n ← the_node i;
      put_node i {| n_addr := n_addr n; n_sock := n_sock n; n_ip := Some ip; n_conn := n_conn n |};;
      mret (i, ogs_list_add list_ i)
  end.

(** [memcmp(&node->ip, &ip, ip.len)]. *)
Definition same_ip (a b : ogs_ip_t) : bool :=
  let n := Z.to_nat (ip_len b) in bool_decide (take n (ip_image a) = take n (ip_image b)).
Definition node_has_ip (s : node_store) (ip : ogs_ip_t) (i : Z) : bool :=
  match n_ip (nodes s i) with Some a => same_ip a ip | None => false end.
Fixpoint node_with_ip (s : node_store) (ip : ogs_ip_t) (l : list Z) : option Z :=
  match l with
  | [] => None
  | i :: l => if node_has_ip s ip i then Some i else node_with_ip s ip l
  end.
Definition ogs_gtp_node_find (list_ : list Z) (f_teid : ogs_gtp_f_teid_t) : M node_store (option Z) :=
  ip ← lift (ogs_gtp_f_teid_to_ip f_teid);
  s ← get;
  mret (node_with_ip s ip list_).

(** ** [ogs_gtp_connect]: the first address with a local socket *)
Fixpoint connectable (ipv4 ipv6 : option Z) (l : list ogs_sockaddr_t) : option (Z * ogs_sockaddr_t) :=
  match l with
  | [] => None
  | a :: l =>
      match (match sa_family a with AF_INET => ipv4 | AF_INET6 => ipv6 end) with
      | Some sock => Some (sock, a)
      | None => connectable ipv4 ipv6 l
      end
  end.
(** The result is [rv == OGS_OK]. *)
Definition ogs_gtp_connect (ipv4 ipv6 : option Z) (i : Z) : M node_store bool :=
  massert (match ipv4, ipv6 with None, None => false | _, _ => true end);;
  n ← the_node i;
  match connectable ipv4 ipv6 (n_addr n) with
  | Some (sock, a) =>
      put_node i {| n_addr := n_addr n; n_sock := Some sock; n_ip := n_ip n; n_conn := Some a |};;
      mret true
  | None => mret false
  end.
End nodes.

(** ** [ogs_gtp_handle_echo_req] on the buffer of the packet *)
Definition OGS_GTPU_MSGTYPE_ECHO_REQ : Z := 1.
Definition OGS_GTPU_MSGTYPE_ECHO_RSP : Z := 2.
Definition OGS_GTPU_MSGTYPE_END_MARKER : Z := 254.
Definition OGS_GTPU_MSGTYPE_GPDU : Z := 255.
Definition OGS_GTPU_FLAGS_PN : Z := 0x1.
Definition OGS_GTPU_FLAGS_S : Z := 0x2.

Definition ogs_gtp_handle_echo_req (buf : list Z) : outcome (option (list Z)) :=
  flags ← access (buf !! 0%nat);
  type ← access (buf !! 1%nat);
  if negb (Z.shiftr flags 5 =? 1) then Ok None
  else if negb (type =? OGS_GTPU_MSGTYPE_ECHO_REQ) then Ok None
  else
    let flag f := negb (Z.land flags f =? 0) in
    '(fl, length, tail) ← (
      if negb (Z.land flags (Z.lor OGS_GTPU_FLAGS_PN OGS_GTPU_FLAGS_S) =? 0) then
        seq ← (if flag OGS_GTPU_FLAGS_S then
                 a ← access (buf !! 8%nat); b ← access (buf !! 9%nat); Ok [a; b]
               else Ok [0; 0]);
        pn ← (if flag OGS_GTPU_FLAGS_PN then access (buf !! 10%nat) else Ok 0);
        Ok (Z.lor (if flag OGS_GTPU_FLAGS_S then OGS_GTPU_FLAGS_S else 0)
                  (if flag OGS_GTPU_FLAGS_PN then OGS_GTPU_FLAGS_PN else 0), 4, seq ++ [pn; 0])
      else Ok (0, 0, []));
    Ok (Some ([Z.lor 0x30 fl; OGS_GTPU_MSGTYPE_ECHO_RSP] ++ be_bytes 2 (length + 2)
              ++ replicate 4 0 ++ tail ++ [14; 0])).

(** What an echo response is: the flags of version 1 with those of the
    request, the type, the length of what follows the eight octets of the
    mandatory header, no TEID; the sequence number and the N-PDU number of
    the request when it has one of them; the recovery element. *)
Lemma echo_response flags rest b1 b2 b3 b4 b5 b6 s1 s2 n :
  0 <= flags < 4 →
  ogs_gtp_handle_echo_req (0x30 + flags :: 1 :: b1 :: b2 :: b3 :: b4 :: b5 :: b6 :: s1 :: s2 :: n :: rest) =
  Ok (Some ([0x30 + flags; 2; 0; (if flags =? 0 then 2 else 6); 0; 0; 0; 0] ++
    (if flags =? 0 then []
     else (if flags / 2 =? 1 then [s1; s2] else [0; 0]) ++ [(if flags mod 2 =? 1 then n else 0); 0]) ++
    [14; 0])).
Proof.
  intros Hf. assert (flags = 0 ∨ flags = 1 ∨ flags = 2 ∨ flags = 3) as [-> | [-> | [-> | ->]]] by lia;
    reflexivity.
Qed.

(** ** What the operations on peers do *)
Section rules.
Context `{Host, OgsPoolLaws, OgsList, OgsSock}.

Lemma wlp_node_find l f (n : node_store) :
  wlp (ogs_gtp_node_find l f) n (λ r n', n' = n ∧ ∀ i, r = Some i → i ∈ l).
Proof.
  apply wlp_bind, wlp_lift. intros ip _. apply wlp_bind, wlp_get, wlp_ret. split; [done|].
  induction l as [|j l IH]; cbn [node_with_ip]; [done|]. destruct (node_has_ip n ip j).
  - intros i [= <-]. constructor.
  - intros i E. constructor. by apply IH.
Qed.
Lemma wlp_the_node i (n : node_store) Q :
  (i ∈ pool_used (node_pool n) → Q (nodes n i) n) → wlp (the_node i) n Q.
Proof.
  intros HQ. apply wlp_bind, wlp_get. case_decide; [apply wlp_ret; auto|]. by apply wlp_lift.
Qed.
Lemma wlp_node_add l f port p (n : node_store) :
  wlp (ogs_gtp_node_add l f port p) n (λ '(i, l') n', (i ∉ pool_used (node_pool n)) ∧
    pool_used (node_pool n') = {[i]} ∪ pool_used (node_pool n) ∧
    (∀ j, j ≠ i → nodes n' j = nodes n j) ∧ (∃ ip, n_ip (nodes n' i) = Some ip) ∧
    l' = ogs_list_add l i).
Proof.
  apply wlp_bind, wlp_massert. intros _. apply wlp_bind, wlp_lift. intros addr _. cbv zeta.
  apply wlp_bind, wlp_massert. intros _. destruct (ogs_socknode_fill_scope_id_in_local _) as [a|];
    [|apply wlp_mabort].
  apply wlp_bind, wlp_bind, wlp_get. destruct (pool_alloc _) as [[i q]|] eqn:E; [|apply wlp_mabort].
  destruct (pool_alloc_fresh _ _ _ E) as [Hn Hp].
  apply wlp_bind, wlp_modify, wlp_bind, wlp_modify, wlp_ret, wlp_bind, wlp_lift. intros ip _.
  apply wlp_bind, wlp_the_node. intros _. apply wlp_bind, wlp_modify, wlp_ret. cbn.
  split; [done|]. split; [done|]. split; [|split; [|done]].
  - intros j Hj. by rewrite !fn_lookup_insert_ne by done.
  - exists ip. by rewrite fn_lookup_insert.
Qed.
Lemma wlp_connect a b i (n : node_store) :
  wlp (ogs_gtp_connect a b i) n (λ ok n', node_pool n' = node_pool n ∧
    (∀ j, j ≠ i → nodes n' j = nodes n j) ∧
    (ok = true → (∃ sock, n_sock (nodes n' i) = Some sock) ∧ n_ip (nodes n' i) = n_ip (nodes n i))).
Proof.
  apply wlp_bind, wlp_massert. intros _. apply wlp_bind, wlp_the_node. intros _.
  destruct (connectable _ _ _) as [[sock x]|]; [|by apply wlp_ret].
  apply wlp_bind, wlp_modify, wlp_ret. cbn. split; [done|]. split.
  - intros j Hj. by rewrite fn_lookup_insert_ne by done.
  - intros _. rewrite fn_lookup_insert. cbn. eauto.
Qed.
(** A peer that packets can be sent to. *)
Definition node_ready (n : node_store) (i : Z) : Prop :=
  i ∈ pool_used (node_pool n) ∧ (∃ sock, n_sock (nodes n i) = Some sock) ∧
  (∃ ip, n_ip (nodes n i) = Some ip).
(** A new peer that is connected is ready, and the others stay ready. *)
Lemma wlp_add_connect l f port p sock sock6 (n : node_store) :
  wlp ('(i, l') ← ogs_gtp_node_add l f port p; ok ← ogs_gtp_connect sock sock6 i;
       massert ok;; mret (i, l')) n
    (λ '(i, l') n', l' = ogs_list_add l i ∧ node_ready n' i ∧
                    ∀ j, node_ready n j → node_ready n' j).
Proof.
  eapply wlp_call; [apply wlp_node_add|]. intros [i l'] n1 (Hn & Hp & En & [ip Hip] & ->).
  eapply wlp_call; [apply wlp_connect|]. intros ok n2 (Hp2 & En2 & Hk).
  apply wlp_bind, wlp_massert. intros ->. apply wlp_ret. destruct (Hk eq_refl) as [Hs Hi2].
  split; [done|]. split.
  - split; [rewrite Hp2, Hp; set_solver|]. split; [exact Hs|]. rewrite Hi2. eauto.
  - intros j (Hj & Hj1 & Hj2). assert (j ≠ i) by set_solver.
    split; [rewrite Hp2, Hp; set_solver|]. by rewrite En2, En by done.
Qed.
End rules.
