(* ===== verification/PgwPool.v ===== *)
(** * The addresses of a PGW: [pgw_ue_pool_generate] of [pgw-context.c]

    The pool of a subnet holds its addresses in order, without those of the
    network, the broadcast and the gateway, as many as there can be sessions.
    An address is four words of memory; the code adds in network byte order. *)
From S2P Require Import Prelude.
From S2P Require Import CMem.
From S2P Require Import OgsLib.
From S2P Require Import OgsRef.
From S2P Require Import GtpConv.
#[local] Open Scope Z_scope.

(** The fields of an [ogs_ipsubnet_t] that the code uses. *)
Record ogs_ipsubnet_t := { sub_words : list Z; mask_words : list Z }.
#[warnings="-notation-for-abbreviation"] Notation address := (list Z).

(** What the generation reads of a [pgw_subnet_t]. *)
Record subnet_conf := {
  conf_family : family;
  prefixlen : Z;
  sub : ogs_ipsubnet_t;
  gw : ogs_ipsubnet_t;
}.

Section pool.
Context `{Host}.

Definition mask_count (c : subnet_conf) : outcome Z :=
  match conf_family c with
  | AF_INET =>
      if prefixlen c =? 32 then Ok 1
      else if prefixlen c <? 32 then Ok (u32 (Z.shiftr 0xffffffff (prefixlen c) + 1))
      else ogs_assert_if_reached
  | AF_INET6 =>
      if prefixlen c =? 128 then Ok 1
      else if (96 <? prefixlen c) && (prefixlen c <? 128)
      then Ok (u32 (Z.shiftr 0xffffffff (prefixlen c - 96) + 1))
      else if prefixlen c <=? 96 then Ok 0xffffffff
      else ogs_assert_if_reached
  end.

(** [maxbytes], in words, and [lastindex]. *)
Definition maxwords (f : family) : nat := match f with AF_INET => 1 | AF_INET6 => 4 end.
Definition lastindex (f : family) : nat := match f with AF_INET => 0 | AF_INET6 => 3 end.

(** [~mask] of a word. *)
Definition bitnot32 (w : Z) : Z := 0xffffffff - w.
Definition broadcast (c : subnet_conf) : address :=
  zip_with (λ s m, u32 (s + bitnot32 m)) (sub_words (sub c)) (mask_words (sub c)).

(** The address that the [j]-th round looks at. *)
Definition candidate (c : subnet_conf) (j : Z) : address :=
  let k := maxwords (conf_family c) in
  alter (λ w, u32 (w + htonl j)) (lastindex (conf_family c)) (take k (sub_words (sub c)) ++ replicate (4 - k) 0).

Definition memcmp_words (k : nat) (a b : address) : bool := bool_decide (take k a = take k b).
Definition excluded (c : subnet_conf) (a : address) : bool :=
  let k := maxwords (conf_family c) in
  memcmp_words k a (sub_words (sub c)) || memcmp_words k a (broadcast c) || memcmp_words k a (sub_words (gw c)).

(** [for (j = 0; j < mask_count && index < pool.sess; j++)] *)
Fixpoint pool_loop (fuel : nat) (c : subnet_conf) (count sess j : Z) (array : list address)
    : outcome (list address) :=
  match fuel with
  | O => Undef
  | S fuel =>
      if (j <? count) && (Z.of_nat (length array) <? sess)
      then
        let a := candidate c j in
        if excluded c a then pool_loop fuel c count sess (j + 1) array
        else pool_loop fuel c count sess (j + 1) (array ++ [a])
      else Ok array
  end.

(** One round of the loop over the subnets: the array of the pool, whose
    length is the size of the pool. *)
Definition pgw_ue_pool_generate (sess : Z) (c : subnet_conf) : outcome (list address) :=
  count ← mask_count c;
  pool_loop (Z.to_nat sess + 4) c count sess 0 [].

(** ** The reference: numbers *)
(** The host bits of the [i]-th word. *)
Definition host_bits (c : subnet_conf) (i : nat) : Z := 32 - Z.min 32 (Z.max 0 (prefixlen c - 32 * Z.of_nat i)).
(** An address as numbers of 32 bits, the most significant first. *)
Definition numbers (c : subnet_conf) (a : address) : list Z := ntohl <$> take (maxwords (conf_family c)) a.
Definition network (c : subnet_conf) : list Z := numbers c (sub_words (sub c)).
Definition last_address (c : subnet_conf) : list Z := imap (λ i n, n + (2 ^ host_bits c i - 1)) (network c).
Definition gateway (c : subnet_conf) : list Z := numbers c (sub_words (gw c)).
Definition reserved (c : subnet_conf) : list (list Z) := [network c; last_address c; gateway c].
Definition nth_address (c : subnet_conf) (j : Z) : list Z :=
  alter (λ n, n + j) (lastindex (conf_family c)) (network c).
(** The first [sess] addresses of the subnet that are not reserved. *)
Definition reference_pool (sess : Z) (c : subnet_conf) : list (list Z) :=
  take (Z.to_nat sess)
    (filter (λ a, a ∉ reserved c)
       (nth_address c <$> seqZ 0 (2 ^ host_bits c (lastindex (conf_family c))))).

(** A subnet as [ogs_ipsubnet] leaves it: the mask has [prefixlen] bits, the
    address of the network no others. *)
Record subnet_wf (c : subnet_conf) : Prop := {
  wf_sub : length (sub_words (sub c)) = 4%nat;
  wf_mask : length (mask_words (sub c)) = 4%nat;
  wf_gw : length (sub_words (gw c)) = 4%nat;
  wf_range : Forall (λ w, 0 <= w < 2 ^ 32) (sub_words (sub c) ++ mask_words (sub c) ++ sub_words (gw c));
  wf_masks i w : (i < maxwords (conf_family c))%nat → mask_words (sub c) !! i = Some w →
    ntohl w = 2 ^ 32 - 2 ^ host_bits c i;
  wf_host i w : (i < maxwords (conf_family c))%nat → sub_words (sub c) !! i = Some w →
    ntohl w mod 2 ^ host_bits c i = 0;
  wf_prefix : 0 < prefixlen c <= 32 * Z.of_nat (maxwords (conf_family c));
}.

(** ** Byte order and addition: no carry crosses an octet *)
Lemma disjoint_octet x y : Z.land x y = 0 → 0 <= x → 0 <= y →
  (x + y) mod 256 = x mod 256 + y mod 256 ∧
  (x + y) / 256 = x / 256 + y / 256 ∧ Z.land (x / 256) (y / 256) = 0.
Proof.
  intros E Hx Hy.
  assert (Hm : Z.land (x mod 256) (y mod 256) = 0).
  { change 256 with (2 ^ 8). rewrite <- !Z.land_ones by lia.
    rewrite Z.land_assoc, (Z.land_comm x), <- (Z.land_assoc _ x y), E. by rewrite Z.land_0_r. }
  assert (Z.land (x / 256) (y / 256) = 0) as Hd.
  { change 256 with (2 ^ 8). rewrite <- !Z.shiftr_div_pow2, <- Z.shiftr_land, E by lia. apply Z.shiftr_0_l. }
  assert (x mod 256 + y mod 256 < 256).
  { rewrite Z.add_nocarry_lxor, Z.lxor_lor by done. change 256 with (2 ^ 8).
    rewrite <- !(Z.land_ones _ 8) by lia. rewrite <- Z.land_lor_distr_l, Z.land_ones by lia. lia. }
  split_and!; lia.
Qed.

Lemma le_bytes_add n x y : Z.land x y = 0 → 0 <= x → 0 <= y →
  le_bytes n (x + y) = zip_with Z.add (le_bytes n x) (le_bytes n y).
Proof.
  revert x y. induction n as [|n IH]; intros x y E Hx Hy; simpl; [done|].
  destruct (disjoint_octet x y) as (-> & -> & E'); [done..|].
  rewrite IH by (done || lia). done.
Qed.

Lemma le_value_add l k : length l = length k →
  le_value (zip_with Z.add l k) = le_value l + le_value k.
Proof.
  intros H1. apply Forall2_same_length in H1.
  induction H1 as [|b d l k _ _ IH]; simpl; lia.
Qed.

Lemma zip_with_add_reverse (l k : list Z) : length l = length k →
  reverse (zip_with Z.add l k) = zip_with Z.add (reverse l) (reverse k).
Proof.
  intros H1. apply Forall2_same_length in H1.
  induction H1 as [|b d l k _ H1 IH]; simpl; [done|].
  rewrite !reverse_cons, zip_with_app; [by rewrite IH|].
  rewrite !length_reverse. by eapply Forall2_length.
Qed.

Lemma hton_add n x y : Z.land x y = 0 → 0 <= x → 0 <= y →
  hton n (x + y) = hton n x + hton n y.
Proof.
  intros. unfold hton, host_value, be_value, be_bytes. rewrite le_bytes_add by done.
  assert (E : length (le_bytes n x) = length (le_bytes n y)) by (by rewrite !length_le_bytes).
  destruct big_endian.
  - rewrite !reverse_involutive. by apply le_value_add.
  - rewrite zip_with_add_reverse by done. apply le_value_add. by rewrite !length_reverse.
Qed.
(** ** A word of an address, as a number *)
Lemma word_room a h : 0 <= h <= 32 → a mod 2 ^ h = 0 → a < 2 ^ 32 → a + 2 ^ h <= 2 ^ 32.
Proof.
  intros Hh Ha Hr. assert (E : 2 ^ 32 = 2 ^ (32 - h) * 2 ^ h) by (rewrite <- Z.pow_add_r by lia; by rewrite Z.sub_add).
  assert (0 < 2 ^ h) by lia. rewrite E in *. apply Z.div_exact in Ha; [|lia].
  assert (a / 2 ^ h < 2 ^ (32 - h)) by (apply Z.div_lt_upper_bound; lia). nia.
Qed.

(** The sum of two words in network order, where the second is within the
    host bits of the first. *)
Lemma word_add a j h : 0 <= h <= 32 → 0 <= a < 2 ^ 32 → a mod 2 ^ h = 0 → 0 <= j < 2 ^ h →
  u32 (htonl a + htonl j) = htonl (a + j).
Proof.
  intros Hh Ha Hm Hj. unfold htonl. rewrite <- hton_add.
  - apply wrap_small, (hton_range 4).
  - apply Z.div_exact in Hm; [|lia]. rewrite Hm, Z.mul_comm. apply land_shifted; lia.
  - lia.
  - lia.
Qed.

Lemma htonl_ntohl w : 0 <= w < 2 ^ 32 → htonl (ntohl w) = w.
Proof. apply (hton_involutive 4). Qed.

Lemma ntohl_inj v w : 0 <= v < 2 ^ 32 → 0 <= w < 2 ^ 32 → ntohl v = ntohl w → v = w.
Proof. intros ?? E. rewrite <- (htonl_ntohl v), <- (htonl_ntohl w), E by done. done. Qed.

Lemma ntohl_word_add w j h : 0 <= h <= 32 → 0 <= w < 2 ^ 32 → ntohl w mod 2 ^ h = 0 → 0 <= j < 2 ^ h →
  ntohl (u32 (w + htonl j)) = ntohl w + j.
Proof.
  intros Hh Hw Hm Hj. pose proof (hton_range 4 w : 0 <= ntohl w < 2 ^ 32).
  rewrite <- (htonl_ntohl w) at 1 by done.
  rewrite (word_add (ntohl w) j h) by done.
  apply (hton_involutive 4). pose proof (word_room (ntohl w) h). lia.
Qed.

(** The complement of a mask is the last host number. *)
Lemma bitnot32_mask m h : 0 <= h <= 32 → 0 <= m < 2 ^ 32 → ntohl m = 2 ^ 32 - 2 ^ h →
  bitnot32 m = htonl (2 ^ h - 1).
Proof.
  intros Hh Hm E. assert (0 < 2 ^ h <= 2 ^ 32) by (split; [lia|apply Z.pow_le_mono_r; lia]).
  assert (Hd : (2 ^ 32 - 2 ^ h) mod 2 ^ h = 0).
  { rewrite <- E, E. rewrite Zminus_mod, Z_mod_same_full.
    replace (2 ^ 32) with (2 ^ (32 - h) * 2 ^ h) by (rewrite <- Z.pow_add_r by lia; by rewrite Z.sub_add).
    by rewrite Z_mod_mult. }
  pose proof (word_add (2 ^ 32 - 2 ^ h) (2 ^ h - 1) h ltac:(lia) ltac:(lia) Hd ltac:(lia)) as Ha.
  rewrite <- E in Ha at 1. rewrite htonl_ntohl in Ha by done.
  replace (2 ^ 32 - 2 ^ h + (2 ^ h - 1)) with (2 ^ 32 - 1) in Ha by lia.
  assert (Hf : htonl (2 ^ 32 - 1) = 2 ^ 32 - 1) by (unfold htonl, hton, host_value; by destruct big_endian).
  rewrite Hf in Ha. unfold bitnot32, wrap in *.
  pose proof (hton_range 4 (2 ^ h - 1) : 0 <= htonl (2 ^ h - 1) < 2 ^ 32). lia.
Qed.
(** ** An address, as numbers *)
Lemma host_bits_range c i : 0 <= host_bits c i <= 32.
Proof. unfold host_bits. lia. Qed.
#[local] Hint Resolve host_bits_range : core.

Lemma list_of_four {A} (l : list A) : length l = 4%nat → ∃ a b c d, l = [a; b; c; d].
Proof. destruct l as [|a [|b [|c [|d [|]]]]]; try done. by exists a, b, c, d. Qed.

Section subnet.
Context (c : subnet_conf) (Hwf : subnet_wf c).

Lemma sub_word i w : (i < maxwords (conf_family c))%nat → sub_words (sub c) !! i = Some w → 0 <= w < 2 ^ 32 ∧ ntohl w mod 2 ^ host_bits c i = 0.
Proof.
  intros Hi E. split; [|by eapply wf_host]. pose proof (wf_range _ Hwf) as Hr.
  apply Forall_app in Hr as [Hr _]. by eapply Forall_lookup_1 in Hr.
Qed.

Lemma mask_word i m : (i < maxwords (conf_family c))%nat → mask_words (sub c) !! i = Some m → bitnot32 m = htonl (2 ^ host_bits c i - 1).
Proof.
  intros Hi E. apply bitnot32_mask; [auto| |by eapply wf_masks]. pose proof (wf_range _ Hwf) as Hr.
  apply Forall_app in Hr as [_ Hr]. apply Forall_app in Hr as [Hr _]. by eapply Forall_lookup_1 in Hr.
Qed.

Lemma numbers_candidate j : 0 <= j < 2 ^ host_bits c (lastindex (conf_family c)) →
  numbers c (candidate c j) = nth_address c j.
Proof.
  intros Hj. unfold numbers, candidate, nth_address, network, numbers.
  destruct (list_of_four _ (wf_sub _ Hwf)) as (s0 & s1 & s2 & s3 & E).
  pose proof (sub_word 0 s0) as H0. pose proof (sub_word 3 s3) as H3. rewrite E in *.
  destruct (conf_family c); simpl in *;
    [destruct H0; [lia|done|]|destruct H3; [lia|done|]]; repeat f_equal; by eapply ntohl_word_add.
Qed.

Lemma broadcast_word i s m : (i < maxwords (conf_family c))%nat →
  sub_words (sub c) !! i = Some s → mask_words (sub c) !! i = Some m →
  ntohl (u32 (s + bitnot32 m)) = ntohl s + (2 ^ host_bits c i - 1).
Proof.
  intros Hi (Hs & Hm)%sub_word ->%mask_word; [|done..]. pose proof (host_bits_range c i).
  eapply ntohl_word_add; [auto|done|done|]. lia.
Qed.

Lemma numbers_broadcast : numbers c (broadcast c) = last_address c.
Proof.
  unfold numbers, broadcast, last_address, network, numbers.
  pose proof broadcast_word as Hw.
  destruct (list_of_four _ (wf_sub _ Hwf)) as (s0 & s1 & s2 & s3 & E).
  destruct (list_of_four _ (wf_mask _ Hwf)) as (m0 & m1 & m2 & m3 & E').
  rewrite E, E' in *.
  destruct (conf_family c); simpl in *; repeat f_equal;
    [apply (Hw 0%nat)|apply (Hw 0%nat)|apply (Hw 1%nat)|apply (Hw 2%nat)|apply (Hw 3%nat)]; done || lia.
Qed.

(** [memcmp] compares the numbers. *)
Lemma memcmp_numbers (a b : address) :
  Forall (λ w, 0 <= w < 2 ^ 32) a → Forall (λ w, 0 <= w < 2 ^ 32) b →
  memcmp_words (maxwords (conf_family c)) a b = bool_decide (numbers c a = numbers c b).
Proof.
  intros Ha Hb. apply bool_decide_ext. unfold numbers. split; [by intros ->|].
  generalize (Forall_take _ (maxwords (conf_family c)) _ Ha), (Forall_take _ (maxwords (conf_family c)) _ Hb).
  generalize (take (maxwords (conf_family c)) a) (take (maxwords (conf_family c)) b).
  clear. intros l k Hl. revert k. induction Hl as [|v l Hv _ IH]; intros [|w k] Hk E; try done.
  apply Forall_cons_1 in Hk as [Hw Hk]. simpl in E. injection E as E1 E2.
  f_equal; [by apply ntohl_inj|by apply IH].
Qed.
Lemma sub_range : Forall (λ w, 0 <= w < 2 ^ 32) (sub_words (sub c)).
Proof. by destruct (proj1 (Forall_app _ _ _) (wf_range _ Hwf)). Qed.
Lemma gw_range : Forall (λ w, 0 <= w < 2 ^ 32) (sub_words (gw c)).
Proof.
  destruct (proj1 (Forall_app _ _ _) (wf_range _ Hwf)) as [_ Hr].
  by destruct (proj1 (Forall_app _ _ _) Hr).
Qed.
Lemma broadcast_range : Forall (λ w, 0 <= w < 2 ^ 32) (broadcast c).
Proof.
  apply Forall_lookup_2. intros i w. unfold broadcast. rewrite lookup_zip_with_Some.
  intros (s & m & -> & _). by apply wrap_range.
Qed.
Lemma candidate_range j : Forall (λ w, 0 <= w < 2 ^ 32) (candidate c j).
Proof.
  unfold candidate. apply Forall_alter.
  - apply Forall_app. split; [apply Forall_take, sub_range|apply Forall_replicate; lia].
  - intros w _ _. by apply wrap_range.
Qed.

Lemma excluded_reserved j : 0 <= j < 2 ^ host_bits c (lastindex (conf_family c)) →
  excluded c (candidate c j) = bool_decide (nth_address c j ∈ reserved c).
Proof.
  intros Hj. unfold excluded, reserved.
  rewrite !memcmp_numbers by auto using sub_range, gw_range, broadcast_range, candidate_range.
  rewrite numbers_candidate, numbers_broadcast by done.
  rewrite <- !bool_decide_or. apply bool_decide_ext. rewrite !elem_of_cons, elem_of_nil. tauto.
Qed.

(** ** The loop *)
Definition remaining (count j : Z) : list (list Z) := nth_address c <$> seqZ j (count - j).
Definition free_addresses : list (list Z) → list (list Z) := filter (λ a, a ∉ reserved c).
Definition taken_addresses : list (list Z) → list (list Z) := filter (λ a, a ∈ reserved c).

Lemma remaining_cons count j : j < count → remaining count j = nth_address c j :: remaining count (j + 1).
Proof.
  intros Hj. unfold remaining. rewrite seqZ_cons by lia. simpl.
  do 3 f_equal. lia.
Qed.

Lemma pool_loop_spec fuel count sess j array :
  0 <= j → count <= 2 ^ host_bits c (lastindex (conf_family c)) →
  (Z.to_nat (sess - Z.of_nat (length array)) + length (taken_addresses (remaining count j)) < fuel)%nat →
  ∃ array', pool_loop fuel c count sess j array = Ok (array ++ array') ∧
    numbers c <$> array' = take (Z.to_nat (sess - Z.of_nat (length array))) (free_addresses (remaining count j)).
Proof.
  revert j array. induction fuel as [|fuel IH]; intros j array Hj Hc Hf; [lia|]. simpl.
  destruct (Z.ltb_spec j count) as [Hjc|Hjc]; simpl.
  2:{ exists []. rewrite app_nil_r. split; [done|]. unfold remaining.
      rewrite seqZ_nil by lia. symmetry. apply take_nil. }
  destruct (Z.ltb_spec (Z.of_nat (length array)) sess) as [Hs|Hs]; simpl.
  2:{ exists []. rewrite app_nil_r. split; [done|]. by replace (Z.to_nat _) with 0%nat by lia. }
  rewrite excluded_reserved by lia. rewrite remaining_cons in * by done.
  unfold free_addresses, taken_addresses in *.
  case_bool_decide as Hr.
  - rewrite filter_cons_True in Hf by done. rewrite filter_cons_False by tauto.
    apply IH; [lia|lia|]. simpl in Hf. lia.
  - rewrite filter_cons_False in Hf by done. rewrite filter_cons_True by done.
    destruct (IH (j + 1) (array ++ [candidate c j])) as (array' & -> & E);
      [lia|lia|rewrite length_app; simpl; lia|].
    exists (candidate c j :: array'). rewrite <- app_assoc. split; [done|].
    rewrite fmap_cons, E, numbers_candidate by lia.
    replace (Z.to_nat (sess - Z.of_nat (length array))) with (S (Z.to_nat (sess - Z.of_nat (length (array ++ [candidate c j])))))
      by (rewrite length_app; simpl; lia).
    done.
Qed.

(** ** The number of addresses *)
Lemma nth_address_inj j j' : nth_address c j = nth_address c j' → j = j'.
Proof.
  unfold nth_address, network, numbers.
  destruct (list_of_four _ (wf_sub _ Hwf)) as (s0 & s1 & s2 & s3 & E). rewrite E.
  destruct (conf_family c); simpl; intros; simplify_eq; lia.
Qed.

Lemma remaining_NoDup count j : NoDup (remaining count j).
Proof. apply NoDup_fmap_2; [intros ??; apply nth_address_inj|apply NoDup_seqZ]. Qed.

Lemma length_taken l : NoDup l → (length (taken_addresses l) <= 3)%nat.
Proof.
  intros Hl. change 3%nat with (length (reserved c)).
  apply submseteq_length, NoDup_submseteq; [by apply list.NoDup_filter|].
  intros a Ha. by apply list_elem_of_filter in Ha as [? _].
Qed.

Lemma length_free l : (length (taken_addresses l) + length (free_addresses l) = length l)%nat.
Proof.
  induction l as [|a l IH]; [done|]. unfold taken_addresses, free_addresses in *.
  destruct (decide (a ∈ reserved c)).
  - rewrite filter_cons_True by done. rewrite filter_cons_False by tauto. simpl. lia.
  - rewrite filter_cons_False by done. rewrite filter_cons_True by done. simpl. lia.
Qed.

(** A shorter range with enough addresses gives the same pool. *)
Lemma take_free_prefix count count' n :
  0 <= count <= count' → Z.of_nat n + 3 <= count →
  take n (free_addresses (remaining count 0)) = take n (free_addresses (remaining count' 0)).
Proof.
  intros Hc Hn. unfold remaining.
  replace (count' - 0) with ((count - 0) + (count' - count)) by lia.
  rewrite (seqZ_app 0 (count - 0)), fmap_app by lia. unfold free_addresses. rewrite list.filter_app.
  rewrite take_app_le; [done|]. fold (remaining count 0).
  pose proof (length_free (remaining count 0)) as Hl. pose proof (length_taken _ (remaining_NoDup count 0)).
  unfold remaining at 3 in Hl. rewrite length_fmap, length_seqZ in Hl. fold (free_addresses (remaining count 0)). lia.
Qed.

Lemma shifted_ones p : 0 < p <= 32 → u32 (Z.shiftr 0xffffffff p + 1) = 2 ^ (32 - p).
Proof.
  intros Hp. change 0xffffffff with (Z.ones 32). rewrite Z.shiftr_div_pow2, Z.ones_div_pow2, Z.ones_equiv by lia.
  rewrite Z.add_1_r, Z.succ_pred. apply wrap_small. split; [lia|]. apply Z.pow_lt_mono_r; lia.
Qed.

(** The loop's bound: the number of the subnet's addresses, or one fewer. *)
Lemma mask_count_spec : ∃ count, mask_count c = Ok count ∧
  let size := 2 ^ host_bits c (lastindex (conf_family c)) in
  count = size ∨ (count = 2 ^ 32 - 1 ∧ size = 2 ^ 32).
Proof.
  pose proof (wf_prefix _ Hwf) as Hp. unfold mask_count, host_bits in *.
  destruct (conf_family c); simpl in *.
  - destruct (Z.eqb_spec (prefixlen c) 32) as [->|]; [by eauto|].
    destruct (Z.ltb_spec (prefixlen c) 32); [|lia]. eexists. split; [done|]. left.
    rewrite shifted_ones by lia. replace (Z.min 32 _) with (prefixlen c) by lia. done.
  - destruct (Z.eqb_spec (prefixlen c) 128) as [->|]; [by eauto|].
    destruct (Z.ltb_spec 96 (prefixlen c)); simpl.
    + destruct (Z.ltb_spec (prefixlen c) 128); [|lia]. simpl. eexists. split; [done|]. left.
      rewrite shifted_ones by lia. by replace (Z.min 32 _) with (prefixlen c - 96) by lia.
    + destruct (Z.leb_spec (prefixlen c) 96); [|lia]. eexists. split; [done|]. right. split; [done|].
      by replace (Z.min 32 _) with 0 by lia.
Qed.
End subnet.

(** C40: The pool of a subnet whose prefix has at least one bit (and whose masks
    are those of its prefix, for less than 2^31 - 3 sessions) holds, in the
    order of their numbers, the first addresses of the subnet that are not the
    network's, the broadcast or the gateway's, at most one per session, on
    either kind of host; no address is in it twice.  The pool of an IPv4 subnet
    with a prefix of length 0 is empty: its number of addresses wraps to 0. *)
Theorem pool_generate_reference sess c :
  0 <= sess → sess + 3 < 2 ^ 31 →
  (subnet_wf c → ∃ array, pgw_ue_pool_generate sess c = Ok array ∧
     numbers c <$> array = reference_pool sess c ∧ NoDup array) ∧
  (conf_family c = AF_INET → prefixlen c = 0 → pgw_ue_pool_generate sess c = Ok []).
Proof.
  intros Hs Hr. split.
  2: { intros Ef Ep. unfold pgw_ue_pool_generate, mask_count. rewrite Ef, Ep. cbn [mbind outcome_bind].
       change (u32 (Z.shiftr 0xffffffff 0 + 1)) with 0.
       destruct (Z.to_nat sess + 4)%nat eqn:En; [lia|]. done. }
  intros Hwf. destruct (mask_count_spec _ Hwf) as (count & Hc & Hsize).
  cbv zeta in Hsize. set (size := 2 ^ host_bits c (lastindex (conf_family c))) in *.
  unfold pgw_ue_pool_generate. rewrite Hc. simpl.
  destruct (pool_loop_spec _ Hwf (Z.to_nat sess + 4) count sess 0 []) as (array & -> & E).
  { lia. }
  { fold size. clearbody size. lia. }
  { pose proof (length_taken c (remaining c count 0) (remaining_NoDup _ Hwf _ _)). simpl. lia. }
  rewrite Z.sub_0_r in E. exists array. split; [done|].
  assert (Ep : numbers c <$> array = reference_pool sess c).
  { rewrite E. unfold reference_pool. fold size.
    replace (seqZ 0 size) with (seqZ 0 (size - 0)) by (f_equal; lia). fold (remaining c size 0).
    fold (free_addresses c (remaining c size 0)). clearbody size.
    destruct Hsize as [->|[-> ->]]; [done|].
    apply (take_free_prefix _ Hwf (2 ^ 32 - 1) (2 ^ 32)); lia. }
  split; [done|]. eapply NoDup_fmap_1. rewrite E.
  eapply sublist_NoDup; [|apply sublist_take]. apply list.NoDup_filter, remaining_NoDup, Hwf.
Qed.
End pool.

(** ** A small subnet on a little-endian host *)
(** 10.45.0.0/29, the PGW's own interface at 10.45.0.1. *)
Definition example_subnet : subnet_conf := {|
  conf_family := AF_INET;
  prefixlen := 29;
  sub := {| sub_words := [htonl 0x0a2d0000; 0; 0; 0];
            mask_words := [htonl 0xfffffff8; 0xffffffff; 0xffffffff; 0xffffffff] |};
  gw := {| sub_words := [htonl 0x0a2d0001; 0; 0; 0]; mask_words := [0xffffffff; 0; 0; 0] |};
|}.

Example example_pool :
  pgw_ue_pool_generate 1024 example_subnet =
    Ok ((λ j, [htonl (0x0a2d0000 + j); 0; 0; 0]) <$> [2; 3; 4; 5; 6]).
Proof. vm_compute. reflexivity. Qed.
Lemma example_wf : subnet_wf example_subnet.
Proof.
  split; try done.
  - repeat constructor; vm_compute; done.
  - intros i w Hi E. simpl in Hi. assert (i = 0%nat) as -> by lia. simpl in E. injection E as <-. vm_compute. done.
  - intros i w Hi E. simpl in Hi. assert (i = 0%nat) as -> by lia. simpl in E. injection E as <-. vm_compute. done.
Qed.

Lemma pool_generate_reference_witness :
  ∃ array, pgw_ue_pool_generate 1024 example_subnet = Ok array ∧
    numbers example_subnet <$> array = reference_pool 1024 example_subnet ∧ NoDup array.
Proof. apply (pool_generate_reference 1024 example_subnet); [lia..|apply example_wf]. Defined.

(** A prefix of length 0: the count wraps to 0 and the pool stays empty. *)
Definition whole_internet : subnet_conf := {|
  conf_family := AF_INET; prefixlen := 0;
  sub := {| sub_words := replicate 4 0; mask_words := replicate 4 0 |};
  gw := {| sub_words := [htonl 0x0a2d0001; 0; 0; 0]; mask_words := replicate 4 0 |};
|}.
Example prefix_zero_empty : pgw_ue_pool_generate 1024 whole_internet = Ok [].
Proof. vm_compute. reflexivity. Qed.
