(* ===== verification/GtpTlv.v ===== *)
(** * The TLV codec of GTPv2-C: [lib/gtp/tlv.c], [tlv.h]

    A message is a C structure whose layout a table ([ogs_tlv_desc_t])
    describes: each information element is a structure that begins with a
    presence word; the codec walks the table and the structure side by side.
    Memory is a map from the offsets of these structures to their contents;
    an access to an offset without a structure, or with one of another kind,
    is [Undef]. *)
From S2P Require Import Prelude.
From S2P Require Import CMem.
From S2P Require Import OgsLib.
#[local] Open Scope Z_scope.

(** ** The tables *)
Inductive ogs_tlv_type_e :=
| OGS_TLV_UINT8 | OGS_TLV_UINT16 | OGS_TLV_UINT24 | OGS_TLV_UINT32
| OGS_TLV_INT8 | OGS_TLV_INT16 | OGS_TLV_INT24 | OGS_TLV_INT32
| OGS_TLV_FIXED_STR | OGS_TLV_VAR_STR | OGS_TLV_NULL | OGS_TLV_MORE
| OGS_TLV_COMPOUND | OGS_TLV_MESSAGE.
#[export] Instance ogs_tlv_type_eq_dec : EqDecision ogs_tlv_type_e.
Proof. solve_decision. Defined.

(** [child_descs] ends with a null pointer; the [name] is for logging. *)
#[warnings="-register-all"]
Inductive ogs_tlv_desc_t :=
  Desc (ctype : ogs_tlv_type_e) (type length instance vsize : Z)
       (child_descs : list ogs_tlv_desc_t).
Definition ctype (d : ogs_tlv_desc_t) := let '(Desc c _ _ _ _ _) := d in c.
Definition type (d : ogs_tlv_desc_t) := let '(Desc _ t _ _ _ _) := d in t.
Definition dlength (d : ogs_tlv_desc_t) := let '(Desc _ _ l _ _ _) := d in l.
Definition instance (d : ogs_tlv_desc_t) := let '(Desc _ _ _ i _ _) := d in i.
Definition vsize (d : ogs_tlv_desc_t) := let '(Desc _ _ _ _ v _) := d in v.
Definition child_descs (d : ogs_tlv_desc_t) := let '(Desc _ _ _ _ _ cs) := d in cs.

Definition is_more (d : ogs_tlv_desc_t) : bool := bool_decide (ctype d = OGS_TLV_MORE).
Definition is_compound (d : ogs_tlv_desc_t) : bool := bool_decide (ctype d = OGS_TLV_COMPOUND).

(** [ogs_tlv_desc_more1] to [more8] *)
Definition ogs_tlv_desc_more (n : Z) : ogs_tlv_desc_t := Desc OGS_TLV_MORE 0 n 0 0 [].

(** ** The structures *)
Inductive body_t := Num (v : Z) | Octets (data : list Z) (len : Z) | NoValue.
Record cell := { presence : Z; body : body_t }.
#[warnings="-notation-for-abbreviation"] Notation mem := (gmap Z cell).
Definition sizeof_presence : Z := 8.
Definition OGS_TLV_MAX_HEADROOM : nat := 16.

Inductive rv_t := OGS_OK | OGS_ERROR.

Section tlv.
Context `{Host, OgsTlv}.

Definition load (off : Z) : M mem cell := m ← get; lift (access (m !! off)).
Definition write (off : Z) (c : cell) : M mem () := _ ← load off; modify (<[off := c]>).
Definition num_at (off : Z) : M mem Z :=
  c ← load off; match body c with Num v => mret v | _ => lift Undef end.
Definition octets_at (off : Z) : M mem (list Z * Z) :=
  c ← load off; match body c with Octets d n => mret (d, n) | _ => lift Undef end.
Definition set_body (off : Z) (b : body_t) : M mem () :=
  c ← load off; write off {| presence := presence c; body := b |}.
Definition set_num (off v : Z) : M mem () := _ ← num_at off; set_body off (Num v).
Definition set_octets (off : Z) (data : list Z) (len : Z) : M mem () :=
  _ ← octets_at off; set_body off (Octets data len).
(** [*presence_p] *)
Definition presence_at (off : Z) : M mem Z := c ← load off; mret (presence c).
Definition set_presence (off : Z) : M mem () :=
  c ← load off; write off {| presence := 1; body := body c |}.

(** ** Building

    The integers are brought to network order in the message itself; the
    element takes the octets found there. *)
Definition tlv_add_leaf (desc : ogs_tlv_desc_t) (off : Z) : M mem tlv_t :=
  let leaf v := TlvLeaf (type desc) (instance desc) v in
  match ctype desc with
  | OGS_TLV_UINT8 | OGS_TLV_INT8 => v ← num_at off; mret (leaf [v])
  | OGS_TLV_UINT16 =>
      v ← num_at off;
      set_num off (htons v);;
      v ← num_at off; mret (leaf (host_bytes 2 v))
  | OGS_TLV_UINT24 | OGS_TLV_INT24 =>
      v ← num_at off;
      set_num off (wrap 32 (Z.shiftl v 8));;
      v ← num_at off;
      set_num off (htonl v);;
      v ← num_at off; mret (leaf (take 3 (host_bytes 4 v)))
  | OGS_TLV_UINT32 | OGS_TLV_INT32 =>
      v ← num_at off;
      set_num off (htonl v);;
      v ← num_at off; mret (leaf (host_bytes 4 v))
  | OGS_TLV_FIXED_STR =>
      '(data, _) ← octets_at off;
      bs ← lift (access (slice 0 (Z.to_nat (dlength desc)) data)); mret (leaf bs)
  | OGS_TLV_VAR_STR =>
      '(data, len) ← octets_at off;
      massert (0 <? len);;
      bs ← lift (access (slice 0 (Z.to_nat len) data)); mret (leaf bs)
  | OGS_TLV_NULL => mret (leaf [])
  | _ => mabort
  end.

(** The loop over the occurrences of one element ([j < next_desc->length]);
    the elements added and their number, which counts the embedded ones. *)
Fixpoint add_more (add_one : Z → M mem (tlv_t * Z)) (size : Z) (n : nat) (offset2 : Z)
    : M mem (list tlv_t * Z) :=
  match n with
  | O => mret ([], 0)
  | S n =>
      p ← presence_at offset2;
      if p =? 0 then mret ([], 0)
      else
        '(t, r) ← add_one offset2;
        '(ts, count) ← add_more add_one size n (offset2 + size);
        mret (t :: ts, r + count)
  end.

(** The loop over the table; [offset] already includes the message. *)
Fixpoint add_children (add_one : ogs_tlv_desc_t → Z → M mem (tlv_t * Z))
    (descs : list ogs_tlv_desc_t) (offset : Z) : M mem (list tlv_t * Z) :=
  match descs with
  | [] => mret ([], 0)
  | desc :: rest =>
      let plain :=
        p ← presence_at offset;
        '(ts, count) ← (if p =? 0 then mret ([], 0)
                        else '(t, r) ← add_one desc offset; mret ([t], r));
        '(ts', count') ← add_children add_one rest (offset + vsize desc);
        mret (ts ++ ts', count + count') in
      match rest with
      | next_desc :: rest' =>
          if is_more next_desc then
            '(ts, count) ← add_more (add_one desc) (vsize desc)
                             (Z.to_nat (dlength next_desc)) offset;
            '(ts', count') ← add_children add_one rest'
                               (offset + vsize desc * dlength next_desc);
            mret (ts ++ ts', count + count')
          else plain
      | [] => plain
      end
  end.

(** One element: the two branches of the loop body. *)
Definition tlv_add_one (add_compound : ogs_tlv_desc_t → Z → M mem (list tlv_t * Z))
    (desc : ogs_tlv_desc_t) (off : Z) : M mem (tlv_t * Z) :=
  if is_compound desc then
    '(emb, r) ← add_compound desc (off + sizeof_presence);
    massert (0 <? r);;
    mret (TlvGroup (type desc) (instance desc) emb, 1 + r)
  else t ← tlv_add_leaf desc off; mret (t, 1).

(** [fuel] is [9 - depth]: the assertion on the depth fails when it is 0. *)
Fixpoint tlv_add_compound (fuel : nat) (parent_desc : ogs_tlv_desc_t) (msg : Z)
    : M mem (list tlv_t * Z) :=
  match fuel with
  | O => mabort
  | S fuel =>
      add_children (tlv_add_one (tlv_add_compound fuel)) (child_descs parent_desc) msg
  end.

Definition max_depth : nat := 9.

Definition ogs_tlv_build_msg (desc : ogs_tlv_desc_t) (msg : Z) : M mem pkbuf :=
  massert (bool_decide (ctype desc = OGS_TLV_MESSAGE));;
  massert (negb (length (child_descs desc) =? 0)%nat);;
  '(root, r) ← tlv_add_compound max_depth desc msg;
  massert (0 <? r);;
  let data := ogs_tlv_render root in
  massert (Z.of_nat (length data) =? ogs_tlv_calc_length root);;
  mret {| pk_head := replicate OGS_TLV_MAX_HEADROOM 0; pk_data := data |}.

(** ** Parsing *)
(** The index in the table and the offset of the entry for an element. *)
Fixpoint tlv_find_desc (descs : list ogs_tlv_desc_t) (prev_desc : option ogs_tlv_desc_t)
    (i : nat) (offset : Z) (tlv : tlv_view) : outcome (option (nat * Z * ogs_tlv_desc_t)) :=
  match descs with
  | [] => Ok None
  | desc :: rest =>
      if (type desc =? tlv_type tlv) && (instance desc =? tlv_instance tlv)
      then Ok (Some (i, offset, desc))
      else if is_more desc then
        match prev_desc with
        | Some prev =>
            ogs_assert (negb (is_more prev));;
            tlv_find_desc rest (Some desc) (S i) (offset + vsize prev * (dlength desc - 1)) tlv
        | None => Aborted
        end
      else tlv_find_desc rest (Some desc) (S i) (offset + vsize desc) tlv
  end.

Definition octet (v : list Z) (i : nat) : outcome Z := access (v !! i).

Definition tlv_parse_leaf (off : Z) (desc : ogs_tlv_desc_t) (tlv : tlv_view) : M mem rv_t :=
  let v := tlv_value tlv in
  let length := Z.of_nat (length v) in
  let check n (store : M mem ()) :=
    if negb (length =? n) then mret OGS_ERROR else store;; mret OGS_OK in
  match ctype desc with
  | OGS_TLV_UINT8 | OGS_TLV_INT8 =>
      check 1 (b0 ← lift (octet v 0); set_num off b0)
  | OGS_TLV_UINT16 | OGS_TLV_INT16 =>
      check 2 (b0 ← lift (octet v 0); b1 ← lift (octet v 1);
               set_num off (Z.lor (Z.land (Z.shiftl b0 8) 0xff00) (Z.land b1 0x00ff)))
  | OGS_TLV_UINT24 | OGS_TLV_INT24 =>
      check 3 (b0 ← lift (octet v 0); b1 ← lift (octet v 1); b2 ← lift (octet v 2);
               set_num off (Z.lor (Z.lor (Z.land (Z.shiftl b0 16) 0x00ff0000)
                                         (Z.land (Z.shiftl b1 8) 0x0000ff00))
                                  (Z.land b2 0x000000ff)))
  | OGS_TLV_UINT32 | OGS_TLV_INT32 =>
      check 4 (b0 ← lift (octet v 0); b1 ← lift (octet v 1);
               b2 ← lift (octet v 2); b3 ← lift (octet v 3);
               set_num off (Z.lor (Z.lor (Z.lor (Z.land (Z.shiftl b0 24) 0xff000000)
                                                (Z.land (Z.shiftl b1 16) 0x00ff0000))
                                         (Z.land (Z.shiftl b2 8) 0x0000ff00))
                                  (Z.land b3 0x000000ff)))
  | OGS_TLV_FIXED_STR => check (dlength desc) (set_octets off v length)
  | OGS_TLV_VAR_STR => set_octets off v length;; mret OGS_OK
  | OGS_TLV_NULL => check 0 (mret ())
  | _ => mabort
  end.

(** The first free occurrence. *)
Fixpoint first_free (n : nat) (size off : Z) : M mem Z :=
  match n with
  | O => mabort
  | S n => p ← presence_at off; if p =? 0 then mret off else first_free n size (off + size)
  end.

(** One round of the loop of [tlv_parse_compound]. *)
Definition tlv_parse_one (parse_embedded : ogs_tlv_desc_t → Z → list tlv_view → M mem rv_t)
    (parent_desc : ogs_tlv_desc_t) (msg : Z) (tlv : tlv_view) : M mem rv_t :=
  found ← lift (tlv_find_desc (child_descs parent_desc) None 0 0 tlv);
  match found with
  | None => mret OGS_ERROR
  | Some (index, offset, desc) =>
      off ← match child_descs parent_desc !! S index with
            | Some next_desc =>
                if is_more next_desc
                then first_free (Z.to_nat (dlength next_desc)) (vsize desc) (msg + offset)
                else mret (msg + offset)
            | None => mret (msg + offset)
            end;
      rv ← (if is_compound desc then
              match ogs_tlv_parse_block (tlv_value tlv) with
              | None => mabort
              | Some [] => mret OGS_ERROR
              | Some emb => parse_embedded desc (off + sizeof_presence) emb
              end
            else tlv_parse_leaf off desc tlv);
      match rv with
      | OGS_ERROR => mret OGS_ERROR
      | OGS_OK => set_presence off;; mret OGS_OK
      end
  end.

(** [while (tlv)], leaving at the first error. *)
Fixpoint parse_all (parse_one : tlv_view → M mem rv_t) (tlvs : list tlv_view) : M mem rv_t :=
  match tlvs with
  | [] => mret OGS_OK
  | tlv :: next =>
      rv ← parse_one tlv;
      match rv with OGS_ERROR => mret OGS_ERROR | OGS_OK => parse_all parse_one next end
  end.

Fixpoint tlv_parse_compound (fuel : nat) (parent_desc : ogs_tlv_desc_t) (msg : Z)
    (tlvs : list tlv_view) : M mem rv_t :=
  match fuel with
  | O => mabort
  | S fuel => parse_all (tlv_parse_one (tlv_parse_compound fuel) parent_desc msg) tlvs
  end.

Definition ogs_tlv_parse_msg (msg : Z) (desc : ogs_tlv_desc_t) (b : pkbuf) : M mem rv_t :=
  massert (bool_decide (ctype desc = OGS_TLV_MESSAGE));;
  massert (negb (length (child_descs desc) =? 0)%nat);;
  match ogs_tlv_parse_block (pk_data b) with
  | None => mabort
  | Some [] => mret OGS_ERROR
  | Some root => tlv_parse_compound max_depth desc msg root
  end.
End tlv.
