(* ===== verification/GtpTlvProofs.v ===== *)
(** * The TLV codec: what a message represents

    A table and a structure of values ([val]) determine the memory of a
    message ([holds]) and the elements on the wire ([forest]); building and
    parsing go from one to the other. *)
From S2P Require Import Prelude.
From S2P Require Import CMem.
From S2P Require Import OgsLib.
From S2P Require Import GtpTlv.
#[local] Open Scope Z_scope.

(** ** Tables *)
(** The entries of a table, each with the number of times it may occur. *)
Fixpoint slots (cs : list ogs_tlv_desc_t) : list (ogs_tlv_desc_t * nat) :=
  match cs with
  | [] => []
  | d :: rest =>
      match rest with
      | m :: rest' =>
          if is_more m then (d, Z.to_nat (dlength m)) :: slots rest' else (d, 1%nat) :: slots rest
      | [] => [(d, 1%nat)]
      end
  end.

(** The size of the structures of the entries. *)
Fixpoint extent (ss : list (ogs_tlv_desc_t * nat)) : Z :=
  match ss with [] => 0 | (c, k) :: ss => vsize c * Z.of_nat k + extent ss end.

Definition leaf_type (t : ogs_tlv_type_e) : bool :=
  match t with OGS_TLV_MORE | OGS_TLV_COMPOUND | OGS_TLV_MESSAGE => false | _ => true end.
Definition more_ok (d : ogs_tlv_desc_t) : bool :=
  negb (is_more d) || ((type d =? 0) && (1 <=? dlength d)).
Definition ident (s : ogs_tlv_desc_t * nat) : Z * Z := (type (fst s), instance (fst s)).

(** A well-formed table: entries have different identities, [More] follows
    an entry, a compound has room for its members, and the nesting is not
    deeper than the codec allows. *)
Definition entry_ok (nested : list ogs_tlv_desc_t → bool) (s : ogs_tlv_desc_t * nat) : bool :=
  let c := fst s in
  (1 <=? type c) &&
  if is_compound c
  then nested (child_descs c) && (sizeof_presence + extent (slots (child_descs c)) <=? vsize c)
  else leaf_type (ctype c) && (sizeof_presence <=? vsize c).
Fixpoint table_ok (n : nat) (cs : list ogs_tlv_desc_t) : bool :=
  match n with
  | O => false
  | S n =>
      forallb more_ok cs && bool_decide (NoDup (ident <$> slots cs)) &&
      forallb (entry_ok (table_ok n)) (slots cs)
  end.

(** ** Values *)
#[warnings="-register-all"]
Inductive val := VLeaf (b : body_t) | VGroup (occurrences : list (list val)).
(** The values of a group: for each entry, its occurrences. *)
Definition fields (v : option val) : list (list val) :=
  match v with Some (VGroup fs) => fs | _ => [] end.
Definition flag (v : option val) : Z := match v with Some _ => 1 | None => 0 end.

Definition body_kind (t : ogs_tlv_type_e) (b : body_t) : Prop :=
  match t, b with
  | (OGS_TLV_FIXED_STR | OGS_TLV_VAR_STR), Octets _ _ => True
  | (OGS_TLV_NULL | OGS_TLV_COMPOUND), NoValue => True
  | (OGS_TLV_UINT8 | OGS_TLV_INT8 | OGS_TLV_UINT16 | OGS_TLV_INT16 | OGS_TLV_UINT24
     | OGS_TLV_INT24 | OGS_TLV_UINT32 | OGS_TLV_INT32), Num _ => True
  | _, _ => False
  end.

(** *** In memory *)
Definition holds_occ (group : list (ogs_tlv_desc_t * nat) → Z → list (list val) → mem → Prop)
    (c : ogs_tlv_desc_t) (off : Z) (v : option val) (m : mem) : Prop :=
  if is_compound c then
    m !! off = Some {| presence := flag v; body := NoValue |} ∧
    group (slots (child_descs c)) (off + sizeof_presence) (fields v) m
  else
    ∃ b, m !! off = Some {| presence := flag v; body := b |} ∧
         body_kind (ctype c) b ∧ match v with Some v => v = VLeaf b | None => True end.

Definition holds_slot (occ : ogs_tlv_desc_t → Z → option val → mem → Prop)
    (c : ogs_tlv_desc_t) (off : Z) (k : nat) (vs : list val) (m : mem) : Prop :=
  ∀ j, (j < k)%nat → occ c (off + vsize c * Z.of_nat j) (vs !! j) m.

Fixpoint holds_group (occ : ogs_tlv_desc_t → Z → option val → mem → Prop)
    (ss : list (ogs_tlv_desc_t * nat)) (off : Z) (fs : list (list val)) (m : mem) : Prop :=
  match ss with
  | [] => True
  | (c, k) :: ss =>
      holds_slot occ c off k (hd [] fs) m ∧
      holds_group occ ss (off + vsize c * Z.of_nat k) (tail fs) m
  end.

Fixpoint holds (n : nat) (ss : list (ogs_tlv_desc_t * nat)) (off : Z) (fs : list (list val)) (m : mem)
    : Prop :=
  match n with O => False | S n => holds_group (holds_occ (holds n)) ss off fs m end.

(** *** On the wire *)
Definition leaf_bytes (t : ogs_tlv_type_e) (b : body_t) : list Z :=
  match b with
  | Num v =>
      match t with
      | OGS_TLV_UINT8 | OGS_TLV_INT8 => [v]
      | OGS_TLV_UINT16 | OGS_TLV_INT16 => be_bytes 2 v
      | OGS_TLV_UINT24 | OGS_TLV_INT24 => be_bytes 3 v
      | _ => be_bytes 4 v
      end
  | Octets d _ => d
  | NoValue => []
  end.

Definition node (group : list (ogs_tlv_desc_t * nat) → list (list val) → list tlv_t)
    (c : ogs_tlv_desc_t) (v : val) : tlv_t :=
  match v with
  | VLeaf b => TlvLeaf (type c) (instance c) (leaf_bytes (ctype c) b)
  | VGroup fs => TlvGroup (type c) (instance c) (group (slots (child_descs c)) fs)
  end.
Fixpoint group_forest (nodes : ogs_tlv_desc_t → val → tlv_t)
    (ss : list (ogs_tlv_desc_t * nat)) (fs : list (list val)) : list tlv_t :=
  match ss with
  | [] => []
  | (c, _) :: ss => (nodes c <$> hd [] fs) ++ group_forest nodes ss (tail fs)
  end.
Fixpoint forest (n : nat) (ss : list (ogs_tlv_desc_t * nat)) (fs : list (list val)) : list tlv_t :=
  match n with O => [] | S n => group_forest (node (forest n)) ss fs end.

(** *** Values that a message can carry *)
Definition leaf_ok (c : ogs_tlv_desc_t) (b : body_t) : Prop :=
  match ctype c, b with
  | (OGS_TLV_UINT8 | OGS_TLV_INT8), Num v => 0 <= v < 2 ^ 8
  | OGS_TLV_UINT16, Num v => 0 <= v < 2 ^ 16
  | (OGS_TLV_UINT24 | OGS_TLV_INT24), Num v => 0 <= v < 2 ^ 24
  | (OGS_TLV_UINT32 | OGS_TLV_INT32), Num v => 0 <= v < 2 ^ 32
  | OGS_TLV_FIXED_STR, Octets d n => n = Z.of_nat (length d) ∧ n = dlength c
  | OGS_TLV_VAR_STR, Octets d n => n = Z.of_nat (length d) ∧ 0 < n
  | OGS_TLV_NULL, NoValue => True
  | _, _ => False
  end.

Section vals_ok.
Context `{OgsTlv}.

Definition occ_ok (group : list (ogs_tlv_desc_t * nat) → list (list val) → Prop)
    (c : ogs_tlv_desc_t) (v : val) : Prop :=
  if is_compound c then ∃ fs, v = VGroup fs ∧ group (slots (child_descs c)) fs
  else ∃ b, v = VLeaf b ∧ leaf_ok c b.
Fixpoint group_ok (occ : ogs_tlv_desc_t → val → Prop) (ss : list (ogs_tlv_desc_t * nat))
    (fs : list (list val)) : Prop :=
  match ss with
  | [] => True
  | (c, k) :: ss =>
      (length (hd [] fs) <= k)%nat ∧ Forall (occ c) (hd [] fs) ∧ group_ok occ ss (tail fs)
  end.
(** No entry occurs too often, no group is empty, and every element fits the
    length field. *)
Fixpoint vals_ok (n : nat) (ss : list (ogs_tlv_desc_t * nat)) (fs : list (list val)) : Prop :=
  match n with
  | O => False
  | S n =>
      group_ok (occ_ok (vals_ok n)) ss fs ∧ group_forest (node (forest n)) ss fs ≠ [] ∧
      Forall tlv_fits (group_forest (node (forest n)) ss fs)
  end.
End vals_ok.

(** ** Memory outside a range *)
Definition agree_out (lo hi : Z) (m m' : mem) : Prop :=
  ∀ k, k < lo ∨ hi <= k → m' !! k = m !! k.

Lemma agree_out_refl lo hi m : agree_out lo hi m m.
Proof. by intros k. Qed.
Lemma agree_out_trans lo hi m m' m'' :
  agree_out lo hi m m' → agree_out lo hi m' m'' → agree_out lo hi m m''.
Proof. intros H1 H2 k Hk. by rewrite H2, H1. Qed.
Lemma agree_out_weaken lo hi lo' hi' m m' :
  agree_out lo hi m m' → lo' <= lo → hi <= hi' → agree_out lo' hi' m m'.
Proof. intros Hm ? ? k Hk. apply Hm. lia. Qed.
Lemma agree_out_insert lo hi m off c : lo <= off < hi → agree_out lo hi m (<[off := c]> m).
Proof. intros Hoff k Hk. apply lookup_insert_ne. lia. Qed.
Create HintDb tlv.
#[export] Hint Resolve agree_out_refl : tlv.

(** ** Facts about tables *)
Lemma slots_cons d rest :
  (∃ m rest', rest = m :: rest' ∧ is_more m = true ∧
     slots (d :: rest) = (d, Z.to_nat (dlength m)) :: slots rest') ∨
  (slots (d :: rest) = (d, 1%nat) :: slots rest ∧
   match rest with m :: _ => is_more m = false | [] => True end).
Proof.
  destruct rest as [|m rest']; [by right|]. simpl. destruct (is_more m) eqn:E; [|by right].
  left. eauto.
Qed.

Lemma extent_app ss ss' : extent (ss ++ ss') = extent ss + extent ss'.
Proof. induction ss as [|[c k] ss IH]; simpl; lia. Qed.

Lemma extent_nonneg ss : Forall (λ s, 0 <= vsize (fst s)) ss → 0 <= extent ss.
Proof. induction 1 as [|[c k] ss Hc _ IH]; simpl in *; nia. Qed.

Lemma table_vsize n : ∀ cs, table_ok n cs = true →
  Forall (λ s, sizeof_presence <= vsize (fst s)) (slots cs).
Proof.
  induction n as [|n IH]; intros cs Ht; [done|]. cbn in Ht.
  apply andb_true_iff in Ht as [_ Ht]. rewrite forallb_forall in Ht.
  apply list.Forall_forall. intros [c k] Hs. apply list_elem_of_In in Hs.
  specialize (Ht _ Hs). unfold entry_ok in Ht. simpl fst in *.
  apply andb_true_iff in Ht as [_ Ht]. destruct (is_compound c).
  - apply andb_true_iff in Ht as [Hn Hv]. apply Z.leb_le in Hv.
    specialize (IH _ Hn). assert (0 <= extent (slots (child_descs c))); [|lia].
    apply extent_nonneg. eapply list.Forall_impl; [exact IH|].
    intros s Hs'. unfold sizeof_presence in Hs'. lia.
  - apply andb_true_iff in Ht as [_ Hv]. by apply Z.leb_le.
Qed.

(** Everything that a table checked by [table_ok] gives. *)
Record table_facts (n : nat) (cs : list ogs_tlv_desc_t) : Prop := {
  tf_more m : m ∈ cs → is_more m = true → type m = 0 ∧ 1 <= dlength m;
  tf_idents : NoDup (ident <$> slots cs);
  tf_entry c k : (c, k) ∈ slots cs →
    1 <= type c ∧ sizeof_presence <= vsize c ∧
    if is_compound c
    then table_ok n (child_descs c) = true ∧
         sizeof_presence + extent (slots (child_descs c)) <= vsize c
    else leaf_type (ctype c) = true;
}.

Lemma table_ok_facts n cs : table_ok (S n) cs = true → table_facts n cs.
Proof.
  intros Ht. pose proof (table_vsize _ _ Ht) as Hv. cbn in Ht.
  rewrite !andb_true_iff, !forallb_forall in Ht. destruct Ht as [[Hm Hi] He]. split.
  - intros m Hin Hmore. apply list_elem_of_In, Hm in Hin. unfold more_ok in Hin.
    rewrite Hmore in Hin. simpl in Hin. apply andb_true_iff in Hin as [E L].
    by apply Z.eqb_eq in E; apply Z.leb_le in L.
  - by apply bool_decide_eq_true in Hi.
  - intros c k Hin. rewrite list.Forall_forall in Hv. specialize (Hv _ Hin).
    apply list_elem_of_In, He in Hin. unfold entry_ok in Hin. simpl fst in *.
    apply andb_true_iff in Hin as [E Hin]. apply Z.leb_le in E. split_and!; [done|done|].
    destruct (is_compound c); apply andb_true_iff in Hin as [H1 H2]; [|done].
    by apply Z.leb_le in H2.
Qed.

Lemma table_not_more n cs c k : table_ok (S n) cs = true → (c, k) ∈ slots cs → is_more c = false.
Proof.
  intros Ht Hin. destruct (tf_entry _ _ (table_ok_facts _ _ Ht) c k Hin) as (_ & _ & Hc).
  unfold is_more, is_compound in *. by destruct (ctype c).
Qed.

(** ** Framing *)
Section frame.
Variable occ : ogs_tlv_desc_t → Z → option val → mem → Prop.

(** A predicate on a structure depends on the memory of the structure. *)
Definition local_at (c : ogs_tlv_desc_t) : Prop := ∀ off v m m',
  occ c off v m → (∀ k, off <= k < off + vsize c → m' !! k = m !! k) → occ c off v m'.

Lemma holds_slot_frame c off k vs m m' :
  0 <= vsize c → local_at c → holds_slot occ c off k vs m →
  (∀ i, off <= i < off + vsize c * Z.of_nat k → m' !! i = m !! i) → holds_slot occ c off k vs m'.
Proof.
  intros Hv Hl Hs Heq j Hj. eapply Hl; [by apply Hs|]. intros i Hi. apply Heq. nia.
Qed.

Lemma holds_group_frame ss off fs m m' :
  Forall (λ s, 0 <= vsize (fst s) ∧ local_at (fst s)) ss → holds_group occ ss off fs m →
  (∀ i, off <= i < off + extent ss → m' !! i = m !! i) → holds_group occ ss off fs m'.
Proof.
  intros Hss. revert off fs. induction Hss as [|[c k] ss [Hv Hl] Hss IH]; intros off fs; [done|].
  simpl in *. intros [Hs Hg] Heq.
  assert (0 <= extent ss) by (apply extent_nonneg; eapply list.Forall_impl; [exact Hss|by intros ? [? _]]).
  split.
  - eapply holds_slot_frame; [done|done|exact Hs|]. intros i Hi. apply Heq. lia.
  - eapply IH; [exact Hg|]. intros i Hi. apply Heq. nia.
Qed.
End frame.

Definition group_local (n : nat) : Prop := ∀ cs, table_ok n cs = true →
  ∀ off fs m m', holds n (slots cs) off fs m →
  (∀ i, off <= i < off + extent (slots cs) → m' !! i = m !! i) → holds n (slots cs) off fs m'.

Lemma occ_local_step n cs c k :
  group_local n → table_ok (S n) cs = true → (c, k) ∈ slots cs →
  0 <= vsize c ∧ local_at (holds_occ (holds n)) c.
Proof.
  intros IH Ht Hin. pose proof (table_ok_facts _ _ Ht) as Hf.
  destruct (tf_entry _ _ Hf c k Hin) as (_ & Hv & Hc). unfold sizeof_presence in Hv.
  split; [lia|]. intros off v m m' Ho Hloc. unfold holds_occ in *. destruct (is_compound c).
  - destruct Hc as [Hn Hx]. destruct Ho as [Hp Hg]. split; [rewrite Hloc; [done|lia]|].
    eapply IH; [done|exact Hg|]. intros i Hi. apply Hloc. unfold sizeof_presence in *. lia.
  - destruct Ho as (b & Hb & Hk). exists b. split; [|done]. rewrite Hloc; [done|lia].
Qed.

Lemma holds_local n : group_local n.
Proof.
  induction n as [|n IH]; intros cs Ht off fs m m' Hh Heq; [done|].
  eapply holds_group_frame; [|exact Hh|exact Heq].
  apply list.Forall_forall. intros [c k] Hin. by eapply occ_local_step.
Qed.

Lemma occ_local n cs c k : table_ok (S n) cs = true → (c, k) ∈ slots cs →
  0 <= vsize c ∧ local_at (holds_occ (holds n)) c.
Proof. apply occ_local_step, holds_local. Qed.

(** ** Building *)
Section build.
Context `{Host, OgsTlvLaws}.

Lemma load_run m off c : m !! off = Some c → load off m = Ok (c, m).
Proof. intros E. unfold load, mbind, M_bind, get, lift. by rewrite E. Qed.
Lemma presence_at_run m off c : m !! off = Some c → presence_at off m = Ok (presence c, m).
Proof. intros E. unfold presence_at. by m_run (load_run _ _ _ E). Qed.
Lemma num_at_run m off p v : m !! off = Some {| presence := p; body := Num v |} →
  num_at off m = Ok (v, m).
Proof. intros E. unfold num_at. by m_run (load_run _ _ _ E). Qed.
Lemma octets_at_run m off p d n : m !! off = Some {| presence := p; body := Octets d n |} →
  octets_at off m = Ok ((d, n), m).
Proof. intros E. unfold octets_at. by m_run (load_run _ _ _ E). Qed.

Lemma set_body_run m off c b : m !! off = Some c →
  set_body off b m = Ok ((), <[off := {| presence := presence c; body := b |}]> m).
Proof.
  intros E. unfold set_body, write. m_run (load_run _ _ _ E). by m_run (load_run _ _ _ E).
Qed.
Lemma set_num_run m off p v v' : m !! off = Some {| presence := p; body := Num v |} →
  set_num off v' m = Ok ((), <[off := {| presence := p; body := Num v' |}]> m).
Proof. intros E. unfold set_num. m_run (num_at_run _ _ _ _ E). by rewrite (set_body_run _ _ _ _ E). Qed.
Lemma set_octets_run m off p d n d' n' : m !! off = Some {| presence := p; body := Octets d n |} →
  set_octets off d' n' m = Ok ((), <[off := {| presence := p; body := Octets d' n' |}]> m).
Proof.
  intros E. unfold set_octets. m_run (octets_at_run _ _ _ _ _ E). by rewrite (set_body_run _ _ _ _ E).
Qed.
Lemma set_presence_run m off c : m !! off = Some c →
  set_presence off m = Ok ((), <[off := {| presence := 1; body := body c |}]> m).
Proof.
  intros E. unfold set_presence, write. m_run (load_run _ _ _ E). by m_run (load_run _ _ _ E).
Qed.

(** Reading a number, replacing it and reading it again. *)
Lemma set_num_then {A} (k : Z → M mem A) m off p v v' :
  m !! off = Some {| presence := p; body := Num v |} →
  (set_num off v';; x ← num_at off; k x) m =
    k v' (<[off := {| presence := p; body := Num v' |}]> m).
Proof.
  intros E. m_run (set_num_run _ _ _ _ v' E).
  by rewrite (M_bind_run _ _ _ _ _ (num_at_run _ _ _ _ (lookup_insert_eq m off _))).
Qed.

Lemma slice_all (d : list Z) : slice 0 (length d) d = Some d.
Proof.
  unfold slice. simpl. rewrite (proj2 (Nat.leb_le _ _)) by done. by rewrite firstn_all.
Qed.

Lemma u24_bytes v : 0 <= v < 2 ^ 24 →
  take 3 (host_bytes 4 (htonl (wrap 32 (Z.shiftl v 8)))) = be_bytes 3 v.
Proof.
  intros Hv. rewrite Z.shiftl_mul_pow2, wrap_small by lia. unfold htonl.
  rewrite host_bytes_hton. change (2 ^ 8) with 256. rewrite be_bytes_shift.
  rewrite <- (length_be_bytes 3 v) at 1. apply take_app_length.
Qed.

Lemma add_leaf_run c off b m :
  leaf_ok c b → m !! off = Some {| presence := 1; body := b |} →
  ∃ m', tlv_add_leaf c off m = Ok (node (forest 0) c (VLeaf b), m') ∧
    agree_out off (off + sizeof_presence) m m'.
Proof.
  intros Hok E. unfold tlv_add_leaf. unfold leaf_ok in Hok. simpl.
  assert (∀ x, agree_out off (off + sizeof_presence) m (<[off:=x]> m)) as Hin
    by (intros; apply agree_out_insert; unfold sizeof_presence; lia).
  destruct (ctype c), b as [v|d n|]; try done;
    try (m_run (num_at_run _ _ _ _ E); rewrite ?(set_num_then _ _ _ _ _ _ E);
         unfold htons, htonl; rewrite ?host_bytes_hton; eauto with tlv).
  - rewrite (set_num_then _ _ _ _ _ _ (lookup_insert_eq _ _ _)), (insert_insert_eq (M:=gmap Z)).
    unfold htonl in *; change (hton 4) with htonl; rewrite u24_bytes by done; eauto.
  - rewrite (set_num_then _ _ _ _ _ _ (lookup_insert_eq _ _ _)), (insert_insert_eq (M:=gmap Z)).
    unfold htonl in *; change (hton 4) with htonl; rewrite u24_bytes by done; eauto.
  - m_run (octets_at_run _ _ _ _ _ E). destruct Hok as [-> <-]. rewrite Nat2Z.id, slice_all.
    eauto with tlv.
  - m_run (octets_at_run _ _ _ _ _ E). destruct Hok as [-> Hn].
    rewrite (proj2 (Z.ltb_lt _ _) Hn), Nat2Z.id, slice_all. eauto with tlv.
  - eauto with tlv.
Qed.

(** An entry without [More] is one with a single occurrence. *)
Lemma plain_more {A} (one : Z → M mem (tlv_t * Z)) size off (k : list tlv_t → Z → M mem A) m :
  (p ← presence_at off;
   '(ts, count) ← (if p =? 0 then mret ([], 0) else '(t, r) ← one off; mret ([t], r));
   k ts count) m = ('(ts, count) ← add_more one size 1 off; k ts count) m.
Proof.
  unfold add_more, mbind, M_bind. destruct (presence_at off m) as [[p m1]| |]; try done.
  destruct (p =? 0); [done|]. destruct (one off m1) as [[[t r] m2]| |]; try done.
  unfold mret, M_ret. by rewrite Z.add_0_r.
Qed.

Section runs.
Variables (occ : ogs_tlv_desc_t → Z → option val → mem → Prop)
          (ok : ogs_tlv_desc_t → val → Prop) (nodes : ogs_tlv_desc_t → val → tlv_t)
          (one : ogs_tlv_desc_t → Z → M mem (tlv_t * Z)).
Hypothesis occ_presence : ∀ c off v m, occ c off v m → ∃ x, m !! off = Some x ∧ presence x = flag v.
Definition one_runs (c : ogs_tlv_desc_t) : Prop := ∀ v off m,
  ok c v → occ c off (Some v) m →
  ∃ r m', one c off m = Ok ((nodes c v, r), m') ∧ 0 < r ∧ agree_out off (off + vsize c) m m'.

Lemma add_more_run c k vs off m :
  0 <= vsize c → local_at occ c → one_runs c →
  (length vs <= k)%nat → Forall (ok c) vs → holds_slot occ c off k vs m →
  ∃ cnt m', add_more (one c) (vsize c) k off m = Ok ((nodes c <$> vs, cnt), m') ∧
    0 <= cnt ∧ (vs ≠ [] → 0 < cnt) ∧ agree_out off (off + vsize c * Z.of_nat k) m m'.
Proof.
  intros Hv Hl Hone. revert vs off m. induction k as [|k IH]; intros vs off m Hk Hok Hs.
  { destruct vs; [|simpl in Hk; lia]. exists 0, m. by repeat split. }
  destruct (occ_presence _ _ _ _ (Hs 0%nat ltac:(lia))) as (x & Ex & Ep).
  rewrite Z.mul_0_r, Z.add_0_r in Ex. simpl. m_run (presence_at_run _ _ _ Ex). rewrite Ep.
  destruct Hok as [|v vs Hv1 Hok]; simpl.
  { exists 0, m. by repeat split. }
  pose proof (Hs 0%nat ltac:(lia)) as H0'. rewrite Z.mul_0_r, Z.add_0_r in H0'.
  destruct (Hone v off m Hv1 H0') as (r & m1 & E1 & Hr & Ha). m_run E1.
  destruct (IH vs (off + vsize c) m1) as (cnt & m2 & E2 & Hc & _ & Ha2);
    [simpl in Hk; lia|done| |].
  { intros j Hj. eapply Hl; [|intros i Hi; apply Ha; nia].
    specialize (Hs (S j) ltac:(lia)). simpl in Hs.
    by replace (off + vsize c + vsize c * Z.of_nat j) with (off + vsize c * Z.of_nat (S j)) by lia. }
  m_run E2. exists (r + cnt), m2. split; [done|]. split_and!; [lia|lia|].
  eapply agree_out_trans; [eapply agree_out_weaken; [exact Ha|lia|nia]|].
  eapply agree_out_weaken; [exact Ha2|lia|nia].
Qed.

Lemma slots_nil cs : slots cs = [] → cs = [].
Proof. destruct cs as [|d rest]; [done|]. destruct (slots_cons d rest) as [(?&?&?&?&E)|[E _]]; by rewrite E. Qed.

Lemma add_children_run cs off fs m :
  (∀ m, m ∈ cs → is_more m = true → 0 <= dlength m) →
  (∀ c k, (c, k) ∈ slots cs → 0 <= vsize c ∧ local_at occ c ∧ one_runs c) →
  group_ok ok (slots cs) fs → holds_group occ (slots cs) off fs m →
  ∃ cnt m', add_children one cs off m = Ok ((group_forest nodes (slots cs) fs, cnt), m') ∧
    0 <= cnt ∧ (group_forest nodes (slots cs) fs ≠ [] → 0 < cnt) ∧
    agree_out off (off + extent (slots cs)) m m'.
Proof.
  remember (slots cs) as ss eqn:Ess. revert cs off fs m Ess.
  induction ss as [|[c k] ss IH]; intros cs off fs m Ess Hmore Hss Hok Hh.
  { symmetry in Ess. apply slots_nil in Ess as ->. exists 0, m. by repeat split. }
  destruct cs as [|d rest]; [done|]. destruct Hok as (Hlen & Hvs & Hok), Hh as [Hs Hh].
  destruct (Hss c k) as (Hv & Hl & Hone); [left|].
  assert (0 <= extent ss) as Hx.
  { apply extent_nonneg, list.Forall_forall. intros [c' k'] Hin. apply (Hss c' k'). by right. }
  destruct (add_more_run c k (hd [] fs) off m) as (cnt1 & m1 & E1 & Hc1 & Hp1 & Ha1); auto.
  assert (∀ cs', ss = slots cs' → (∀ m, m ∈ cs' → m ∈ d :: rest) →
    ∃ cnt m', add_children one cs' (off + vsize c * Z.of_nat k) m1 =
        Ok ((group_forest nodes ss (tail fs), cnt), m') ∧
      0 <= cnt ∧ (group_forest nodes ss (tail fs) ≠ [] → 0 < cnt) ∧
      agree_out (off + vsize c * Z.of_nat k) (off + vsize c * Z.of_nat k + extent ss) m1 m')
    as Hrest.
  { intros cs' Ess' Hin. apply IH; auto.
    - intros c' k' Hin'. apply (Hss c' k'). by right.
    - eapply holds_group_frame; [|exact Hh|intros i Hi; apply Ha1; nia].
      apply list.Forall_forall. intros [c' k'] Hin'. destruct (Hss c' k') as (?&?&?); [by right|done]. }
  assert (∀ cs', ss = slots cs' → (∀ m, m ∈ cs' → m ∈ d :: rest) →
    ∃ cnt m', ('(ts, count) ← add_more (one c) (vsize c) k off;
               '(ts', count') ← add_children one cs' (off + vsize c * Z.of_nat k);
               mret (ts ++ ts', count + count')) m =
        Ok ((group_forest nodes ((c, k) :: ss) fs, cnt), m') ∧
      0 <= cnt ∧ (group_forest nodes ((c, k) :: ss) fs ≠ [] → 0 < cnt) ∧
      agree_out off (off + extent ((c, k) :: ss)) m m') as Hall.
  { intros cs' Ess' Hin. destruct (Hrest cs' Ess' Hin) as (cnt2 & m2 & E2 & Hc2 & Hp2 & Ha2).
    m_run E1. m_run E2. exists (cnt1 + cnt2), m2. split; [done|]. split_and!; [lia| |].
    - simpl. intros Hne. destruct (hd [] fs) as [|v vs] eqn:Ehd.
      + specialize (Hp2 Hne). lia.
      + specialize (Hp1 ltac:(done)). lia.
    - simpl. eapply agree_out_trans; eapply agree_out_weaken; try eassumption; nia. }
  destruct (slots_cons d rest) as [(x & rest' & -> & Ex & E)|[E Hx']]; rewrite E in Ess;
    injection Ess as -> -> Ess.
  - simpl. rewrite Ex. destruct (Hall rest' Ess) as (cnt & m' & E' & Hr);
      [intros y Hy; by do 2 right|].
    rewrite Z2Nat.id in E' by (apply Hmore; [right; left|done]). eauto.
  - destruct (Hall rest Ess) as (cnt & m' & E' & Hr); [intros y Hy; by right|].
    rewrite Z.mul_1_r in E'. rewrite <- plain_more in E'.
    exists cnt, m'. split; [|done]. destruct rest as [|x rest']; simpl; [exact E'|].
    rewrite Hx'. exact E'.
Qed.
End runs.

Lemma tlv_add_compound_run n : ∀ d off fs m,
  table_ok n (child_descs d) = true → vals_ok n (slots (child_descs d)) fs →
  holds n (slots (child_descs d)) off fs m →
  ∃ cnt m', tlv_add_compound n d off m = Ok ((forest n (slots (child_descs d)) fs, cnt), m') ∧
    0 < cnt ∧ agree_out off (off + extent (slots (child_descs d))) m m'.
Proof.
  induction n as [|n IH]; intros d off fs m Ht Hv Hh; [done|].
  pose proof (table_ok_facts _ _ Ht) as Hf. destruct Hv as (Hok & Hne & _).
  simpl. edestruct (add_children_run (holds_occ (holds n)) (occ_ok (vals_ok n))
    (node (forest n)) (tlv_add_one (tlv_add_compound n)))
    as (cnt & m' & E & Hc & Hp & Ha); [| | |exact Hok|exact Hh|].
  - intros c o v m0. unfold holds_occ. destruct (is_compound c).
    + intros [E _]. rewrite E. by eexists.
    + intros (b & E & _). rewrite E. by eexists.
  - intros x Hx Hm. destruct (tf_more _ _ Hf x Hx Hm). lia.
  - intros c k Hin. destruct (occ_local n _ _ _ Ht Hin) as [Hv0 Hl]. split_and!; [done|done|].
    destruct (tf_entry _ _ Hf c k Hin) as (_ & Hv & Hcc).
    intros v o m0 Ho Hho. unfold occ_ok in Ho. unfold holds_occ in Hho. unfold tlv_add_one.
    destruct (is_compound c).
    + destruct Ho as (fs' & -> & Hvs), Hho as [_ Hg], Hcc as [Ht' Hx].
      destruct (IH c (o + sizeof_presence) fs' m0) as (r & m1 & E1 & Hr & Ha1); [done..|].
      exists (1 + r), m1. m_run E1. rewrite (proj2 (Z.ltb_lt _ _) Hr). split; [done|].
      split; [lia|]. eapply agree_out_weaken; [exact Ha1|unfold sizeof_presence; lia|lia].
    + destruct Ho as (b & -> & Hb), Hho as (b' & Eb & _ & [= <-]).
      destruct (add_leaf_run c o b m0) as (m1 & E1 & Ha1); [done..|].
      exists 1, m1. m_run E1. split; [done|]. split; [lia|].
      eapply agree_out_weaken; [exact Ha1|lia|lia].
  - rewrite E. eauto 10.
Qed.
End build.

(** ** Parsing *)
Section parse.
Context `{Host, OgsTlvLaws}.

Lemma view_node F c v : tlv_type (tlv_view_of (node F c v)) = type c ∧
  tlv_instance (tlv_view_of (node F c v)) = instance c.
Proof. by destruct v. Qed.

(** The entry of an element, and how often it may occur. *)
Lemma find_desc_slot n cs c k pre post t :
  table_ok (S n) cs = true → slots cs = pre ++ (c, k) :: post →
  tlv_type t = type c → tlv_instance t = instance c →
  ∃ idx, tlv_find_desc cs None 0 0 t = Ok (Some (idx, extent pre, c)) ∧
    match cs !! S idx with
    | Some m => if is_more m then k = Z.to_nat (dlength m) else k = 1%nat
    | None => k = 1%nat
    end.
Proof.
  intros Ht Es Hty Hin. pose proof (table_ok_facts _ _ Ht) as [Hm Hid He].
  assert (∀ m, m ∈ cs → is_more m = true → type m = 0 ∧ 0 <= dlength m) as Hmore.
  { intros m Hi Hx. destruct (Hm m Hi Hx). lia. }
  assert (∀ s, s ∈ pre → ident s ≠ (type c, instance c)) as Hne.
  { intros s Hs E. rewrite Es, fmap_app, fmap_cons in Hid. apply list.NoDup_app in Hid as (_ & Hd & _).
    eapply Hd; [apply list_elem_of_fmap; eauto|]. rewrite E. left. }
  assert (type c ≠ 0) as Hc by (destruct (He c k); [rewrite Es; apply elem_of_app; right; left|lia]).
  assert (∀ s, s ∈ pre → is_more (fst s) = false) as Hnm.
  { intros [d kd] Hs. eapply table_not_more; [exact Ht|]. rewrite Es. apply elem_of_app. by left. }
  clear Ht He Hid Hm.
  enough (∀ prev i off, ∃ idx, tlv_find_desc cs prev i off t = Ok (Some ((i + idx)%nat, off + extent pre, c)) ∧
    match cs !! S idx with
    | Some m => if is_more m then k = Z.to_nat (dlength m) else k = 1%nat
    | None => k = 1%nat
    end) as Hgen by (destruct (Hgen None 0%nat 0) as (idx & E & Hk); exists idx; by rewrite E).
  revert cs Es Hmore. induction pre as [|[d kd] pre IH]; intros cs Es Hmore prev i off.
  - destruct cs as [|d rest]; [done|]. exists 0%nat.
    assert (d = c) as ->. { destruct (slots_cons d rest) as [(?&?&?&?&E)|[E _]]; rewrite E in Es; by injection Es. }
    simpl. rewrite Hty, Hin, !Z.eqb_refl. simpl. rewrite Nat.add_0_r, Z.add_0_r. split; [done|].
    destruct (slots_cons c rest) as [(m & rest' & -> & Ex & E)|[E Hx]]; rewrite E in Es;
      injection Es as <- _; simpl; [by rewrite Ex|]. destruct rest as [|m rest']; [done|].
    simpl. by rewrite Hx.
  - destruct cs as [|d0 rest]; [done|].
    assert (d0 = d) as ->. { destruct (slots_cons d0 rest) as [(?&?&?&?&E)|[E _]]; rewrite E in Es; by injection Es. }
    assert ((type d =? tlv_type t) && (instance d =? tlv_instance t) = false) as Hno.
    { apply not_true_iff_false. rewrite andb_true_iff, !Z.eqb_eq, Hty, Hin. intros [E1 E2].
      apply (Hne (d, kd)); [left|]. unfold ident. simpl. congruence. }
    assert (is_more d = false) as Hd by (apply (Hnm (d, kd)); left).
    assert (∀ s, s ∈ pre → ident s ≠ (type c, instance c)) as Hne' by (intros s Hs; apply Hne; by right).
    assert (∀ s, s ∈ pre → is_more (fst s) = false) as Hnm' by (intros s Hs; apply Hnm; by right).
    specialize (IH Hne' Hnm').
    cbn [tlv_find_desc]. rewrite Hno, Hd. simpl extent.
    destruct (slots_cons d rest) as [(m & rest' & -> & Ex & E)|[E Hx]]; rewrite E in Es;
      injection Es as <- Es.
    + destruct (Hmore m) as [Em Hl]; [right; left|done|].
      cbn [tlv_find_desc]. rewrite Hty, (proj2 (Z.eqb_neq (type m) _)) by congruence.
      cbn [andb]. rewrite Ex, Hd. cbn [negb ogs_assert mbind outcome_bind].
      destruct (IH rest' Es (λ x Hx, Hmore x (list_elem_of_further _ _ _ (list_elem_of_further _ _ _ Hx)))
        (Some m) (S (S i)) (off + vsize d + vsize d * (dlength m - 1))) as (idx & Ei & Hk).
      exists (S (S idx)). split; [|exact Hk]. rewrite Z2Nat.id by done.
      rewrite Ei. apply f_equal, f_equal, f_equal2, eq_refl; apply f_equal2; lia.
    + destruct (IH rest Es (λ x Hx, Hmore x (list_elem_of_further _ _ _ Hx))
        (Some d) (S i) (off + vsize d)) as (idx & Ei & Hk).
      exists (S idx). split; [|exact Hk]. rewrite Ei. apply f_equal, f_equal, f_equal2, eq_refl; apply f_equal2; lia.
Qed.

Lemma first_free_run occ c k vs off m :
  (∀ off v m, occ c off v m → ∃ x, m !! off = Some x ∧ presence x = flag v) →
  (length vs < k)%nat → holds_slot occ c off k vs m →
  first_free k (vsize c) off m = Ok (off + vsize c * Z.of_nat (length vs), m).
Proof.
  intros Hocc. revert vs off. induction k as [|k IH]; intros vs off Hk Hs; [lia|].
  destruct (Hocc _ _ _ (Hs 0%nat ltac:(lia))) as (x & Ex & Ep).
  rewrite Z.mul_0_r, Z.add_0_r in Ex. simpl. m_run (presence_at_run _ _ _ Ex). rewrite Ep.
  destruct vs as [|v vs]; [change (flag _ =? 0) with true|change (flag _ =? 0) with false]; cbv iota.
  { simpl. by rewrite Z.mul_0_r, Z.add_0_r. }
  rewrite (IH vs); [simpl length; do 2 f_equal; nia|simpl in Hk; lia|].
  intros j Hj. specialize (Hs (S j) ltac:(lia)). simpl in Hs.
  by replace (off + vsize c + vsize c * Z.of_nat j) with (off + vsize c * Z.of_nat (S j)) by lia.
Qed.

(** ** The leaves *)
Lemma be_bytes_octets n v : bytes_ok (be_bytes n v) ∧ length (be_bytes n v) = n ∧
  (0 <= v < 256 ^ Z.of_nat n → be_value (be_bytes n v) = v).
Proof.
  split_and!; [apply be_bytes_ok|apply length_be_bytes|]. intros Hv.
  by rewrite be_value_be_bytes, Z.mod_small.
Qed.

(** Storing the value that the octets of a number spell. *)
Definition num_types (n : nat) : list ogs_tlv_type_e :=
  match n with
  | 1%nat => [OGS_TLV_UINT8; OGS_TLV_INT8]
  | 2%nat => [OGS_TLV_UINT16; OGS_TLV_INT16]
  | 3%nat => [OGS_TLV_UINT24; OGS_TLV_INT24]
  | _ => [OGS_TLV_UINT32; OGS_TLV_INT32]
  end.

Lemma parse_num_run c off n v p v0 m :
  ctype c ∈ num_types n → (1 <= n <= 4)%nat → 0 <= v < 256 ^ Z.of_nat n →
  m !! off = Some {| presence := p; body := Num v0 |} →
  ∀ t, tlv_value t = be_bytes n v →
  tlv_parse_leaf off c t m = Ok (OGS_OK, <[off := {| presence := p; body := Num v |}]> m).
Proof.
  intros Hc Hn Hv E t Et. destruct (be_bytes_octets n v) as (Hb & Hl & Hval). specialize (Hval Hv).
  unfold tlv_parse_leaf. rewrite Et, Hl.
  assert (n = 1 ∨ n = 2 ∨ n = 3 ∨ n = 4)%nat as [->|[->|[->| ->]]] by lia;
    destruct (be_bytes _ v) as [|b0 [|b1 [|b2 [|b3 [|? ?]]]]]; try discriminate Hl;
    unfold num_types in Hc; rewrite !elem_of_cons, elem_of_nil in Hc; destruct Hc as [->|[->|[]]];
    rewrite !list.Forall_cons in Hb; destruct_and?;
    match goal with |- context [Z.of_nat ?a =? ?b] => change (Z.of_nat a =? b) with true end;
    unfold octet, mbind, M_bind, lift; cbn [access lookup list_lookup negb];
    rewrite (set_num_run _ _ _ _ _ E), ?octets16, ?octets24, ?octets32 by done;
    rewrite ?Hval; try done;
    change (be_value [b0]) with (b0 + 256 * 0) in Hval; by replace b0 with v by lia.
Qed.

Lemma leaf_ok_num c v : leaf_ok c (Num v) →
  ∃ n, ctype c ∈ num_types n ∧ (1 <= n <= 4)%nat ∧ 0 <= v < 256 ^ Z.of_nat n ∧
       leaf_bytes (ctype c) (Num v) = be_bytes n v.
Proof.
  unfold leaf_ok. intros Hv.
  assert (∀ w, 0 <= w < 2 ^ 8 → [w] = be_bytes 1 w) as Hone.
  { intros w Hw. unfold be_bytes, le_bytes. simpl. by rewrite Z.mod_small. }
  destruct (ctype c); try done;
    [exists 1%nat|exists 2%nat|exists 3%nat|exists 4%nat|exists 1%nat|exists 3%nat|exists 4%nat];
    (split; [unfold num_types; rewrite !elem_of_cons; tauto|]; split; [lia|];
     split; [exact Hv|first [exact (Hone v Hv)|reflexivity]]).
Qed.

Lemma parse_leaf_run c off b b0 m :
  leaf_ok c b → body_kind (ctype c) b0 → m !! off = Some {| presence := 0; body := b0 |} →
  tlv_parse_leaf off c (tlv_view_of (node (forest 0) c (VLeaf b))) m =
    Ok (OGS_OK, <[off := {| presence := 0; body := b |}]> m).
Proof.
  intros Hok Hk E. destruct b as [v|d n|].
  - destruct (leaf_ok_num c v Hok) as (n & Hc & Hn & Hv & Eb). destruct b0 as [v0|d0 n0|].
    { by eapply parse_num_run; [..|exact E|exact Eb]. }
    all: unfold leaf_ok, body_kind in *; by destruct (ctype c).
  - unfold leaf_ok, body_kind in *. unfold tlv_parse_leaf. cbn [tlv_view_of node tlv_value leaf_bytes].
    destruct (ctype c); try done; destruct b0 as [v0|d0 n0|]; try done; destruct Hok as [-> Hd];
      [rewrite <- Hd, Z.eqb_refl; cbn [negb]|]; by m_run (set_octets_run _ _ _ _ _ d (Z.of_nat (length d)) E).
  - unfold leaf_ok, body_kind in *. unfold tlv_parse_leaf. cbn [tlv_view_of node tlv_value leaf_bytes].
    destruct (ctype c); try done; destruct b0 as [v0|d0 n0|]; try done. simpl. by rewrite insert_id.
Qed.
(** ** The groups *)
(** What [tlv_parse_one] does once the place of the element is known. *)
Definition parse_at (emb : ogs_tlv_desc_t → Z → list tlv_view → M mem rv_t)
    (c : ogs_tlv_desc_t) (t : tlv_view) (off : Z) : M mem rv_t :=
  rv ← (if is_compound c then
          match ogs_tlv_parse_block (tlv_value t) with
          | None => mabort
          | Some [] => mret OGS_ERROR
          | Some l => emb c (off + sizeof_presence) l
          end
        else tlv_parse_leaf off c t);
  match rv with OGS_ERROR => mret OGS_ERROR | OGS_OK => set_presence off;; mret OGS_OK end.

Section runs.
Variables (n : nat) (emb : ogs_tlv_desc_t → Z → list tlv_view → M mem rv_t).
#[warnings="-notation-for-abbreviation"] Notation occ := (holds_occ (holds n)).
#[warnings="-notation-for-abbreviation"] Notation nodes := (node (forest n)).

Lemma occ_presence c off v m : occ c off v m → ∃ x, m !! off = Some x ∧ presence x = flag v.
Proof.
  unfold holds_occ. destruct (is_compound c); [intros [E _]|intros (b & E & _)]; rewrite E; by eexists.
Qed.

Definition one_parses (c : ogs_tlv_desc_t) : Prop := ∀ v off m,
  occ_ok (vals_ok n) c v → tlv_fits (nodes c v) → occ c off None m →
  ∃ m', parse_at emb c (tlv_view_of (nodes c v)) off m = Ok (OGS_OK, m') ∧
    occ c off (Some v) m' ∧ agree_out off (off + vsize c) m m'.

Variables (d : ogs_tlv_desc_t).
Hypothesis Ht : table_ok (S n) (child_descs d) = true.

Lemma parse_one_run c k pre post vs v msg m :
  slots (child_descs d) = pre ++ (c, k) :: post →
  (length vs < k)%nat → holds_slot occ c (msg + extent pre) k vs m →
  tlv_parse_one emb d msg (tlv_view_of (nodes c v)) m =
    parse_at emb c (tlv_view_of (nodes c v))
      (msg + extent pre + vsize c * Z.of_nat (length vs)) m.
Proof.
  intros Es Hk Hs. destruct (view_node (forest n) c v) as [Ety Ein].
  destruct (find_desc_slot _ _ _ _ _ _ _ Ht Es Ety Ein) as (idx & Ef & Hidx).
  unfold tlv_parse_one, parse_at. rewrite Ef.
  pose proof (first_free_run occ c k vs _ m (occ_presence c) Hk Hs) as Hf.
  unfold mbind at 1, M_bind at 1, lift; cbv beta iota.
  destruct (child_descs d !! S idx) as [x|]; [destruct (is_more x)|].
  - subst k. by m_run Hf.
  - subst k. destruct vs; [|simpl in Hk; lia]. simpl length. by rewrite Z.mul_0_r, Z.add_0_r.
  - subst k. destruct vs; [|simpl in Hk; lia]. simpl length. by rewrite Z.mul_0_r, Z.add_0_r.
Qed.

Lemma parse_all_app one ts ts' (m m1 : mem) :
  parse_all one ts m = Ok (OGS_OK, m1) → parse_all one (ts ++ ts') m = parse_all one ts' m1.
Proof.
  revert m. induction ts as [|t ts IH]; intros m; simpl; [by intros [= ->]|].
  unfold mbind, M_bind. destruct (one t m) as [[[] m2]| |]; try done. apply IH.
Qed.

(** The remaining occurrences [vs2] of one entry. *)
Lemma parse_slot_run c k pre post msg vs2 : ∀ vs1 m,
  slots (child_descs d) = pre ++ (c, k) :: post →
  one_parses c → Forall (occ_ok (vals_ok n) c) vs2 → Forall tlv_fits (nodes c <$> vs2) →
  (length (vs1 ++ vs2) <= k)%nat → holds_slot occ c (msg + extent pre) k vs1 m →
  ∃ m', parse_all (tlv_parse_one emb d msg) (tlv_view_of <$> (nodes c <$> vs2)) m = Ok (OGS_OK, m') ∧
    holds_slot occ c (msg + extent pre) k (vs1 ++ vs2) m' ∧
    agree_out (msg + extent pre) (msg + extent pre + vsize c * Z.of_nat k) m m'.
Proof.
  induction vs2 as [|v vs2 IH]; intros vs1 m Es Hone Hok Hfit Hk Hs.
  { rewrite app_nil_r. exists m. by repeat split. }
  apply list.Forall_cons in Hok as [Hv Hok]. apply list.Forall_cons in Hfit as [Hf Hfit].
  rewrite length_app in Hk. simpl in Hk.
  destruct (occ_local n _ c k Ht) as [Hsz Hl]; [rewrite Es; apply elem_of_app; right; left|].
  set (o := msg + extent pre) in *.
  pose proof (Hs (length vs1) ltac:(lia)) as Hnone. rewrite lookup_ge_None_2 in Hnone by done.
  destruct (Hone v _ m Hv Hf Hnone) as (m1 & E1 & H1' & Ha1).
  destruct (IH (vs1 ++ [v]) m1) as (m2 & E2 & H2' & Ha2); auto.
  { rewrite !length_app. simpl. lia. }
  { intros j Hj. fold o. destruct (decide (j = length vs1)) as [->|Hne].
    - by rewrite list_lookup_middle.
    - assert ((vs1 ++ [v]) !! j = vs1 !! j) as ->.
      { destruct (decide (j < length vs1)%nat).
        + by rewrite lookup_app_l.
        + rewrite !lookup_ge_None_2; [done|lia|rewrite length_app; simpl; lia]. }
      eapply Hl; [apply Hs, Hj|]. intros i Hi. apply Ha1.
      assert (j < length vs1 ∨ length vs1 < j)%nat as [?|?] by lia; [left|right]; nia. }
  exists m2. cbn [fmap list_fmap parse_all]. unfold mbind at 1, M_bind at 1.
  rewrite (parse_one_run c k pre post vs1 v msg m Es) by (done || lia). fold o.
  rewrite E1, E2. split; [done|]. rewrite <- (app_assoc vs1 [v] vs2) in H2'. split; [exact H2'|].
  eapply agree_out_trans; [|exact Ha2]. eapply agree_out_weaken; [exact Ha1|nia|nia].
Qed.

Lemma parse_group_run ss msg : ∀ pre fs m,
  slots (child_descs d) = pre ++ ss →
  (∀ c k, (c, k) ∈ ss → one_parses c) →
  group_ok (occ_ok (vals_ok n)) ss fs → Forall tlv_fits (group_forest nodes ss fs) →
  holds_group occ ss (msg + extent pre) [] m →
  ∃ m', parse_all (tlv_parse_one emb d msg) (tlv_view_of <$> group_forest nodes ss fs) m =
      Ok (OGS_OK, m') ∧
    holds_group occ ss (msg + extent pre) fs m' ∧
    agree_out (msg + extent pre) (msg + extent pre + extent ss) m m'.
Proof.
  induction ss as [|[c k] ss IH]; intros pre fs m Es Hone Hok Hfit Hh.
  { exists m. by repeat split. }
  assert (∀ c' k', (c', k') ∈ (c, k) :: ss → 0 <= vsize c' ∧ local_at occ c') as Hloc.
  { intros c' k' Hin. apply (occ_local n _ c' k' Ht). rewrite Es. apply elem_of_app. by right. }
  assert (Forall (λ s, 0 <= vsize (fst s) ∧ local_at occ (fst s)) ss) as Hss.
  { apply list.Forall_forall. intros [c' k'] Hin. apply (Hloc c' k'). by right. }
  assert (0 <= extent ss) as Hx
    by (apply extent_nonneg; eapply list.Forall_impl; [exact Hss|by intros ? [? _]]).
  destruct (Hloc c k) as [Hsz Hl]; [left|].
  destruct Hok as (Hlen & Hvs & Hok). simpl in Hfit. apply Forall_app in Hfit as [Hf1 Hf2].
  destruct Hh as [Hs Hh]. simpl in Hs, Hh.
  destruct (parse_slot_run c k pre ss msg (hd [] fs) [] m) as (m1 & E1 & Hs1 & Ha1); auto.
  { apply (Hone c k). left. }
  assert (extent (pre ++ [(c, k)]) = extent pre + vsize c * Z.of_nat k) as Epre
    by (rewrite extent_app; simpl; lia).
  destruct (IH (pre ++ [(c, k)]) (tail fs) m1) as (m2 & E2 & Hh2 & Ha2); auto.
  { by rewrite <- app_assoc. }
  { intros c' k' Hin. apply (Hone c' k'). by right. }
  { rewrite Epre, Z.add_assoc. eapply holds_group_frame; [exact Hss|exact Hh|].
    intros i Hi. apply Ha1. lia. }
  rewrite Epre, Z.add_assoc in Hh2, Ha2.
  exists m2. simpl group_forest. rewrite fmap_app, (parse_all_app _ _ _ _ _ E1), E2.
  split; [done|]. split; [split; [|done]|].
  - eapply holds_slot_frame; [done|exact Hl|exact Hs1|]. intros i Hi. apply Ha2. lia.
  - simpl. eapply agree_out_trans; eapply agree_out_weaken; try eassumption; nia.
Qed.
End runs.

Lemma tlv_parse_compound_run n : ∀ d msg fs m,
  table_ok n (child_descs d) = true → vals_ok n (slots (child_descs d)) fs →
  holds n (slots (child_descs d)) msg [] m →
  ∃ m', tlv_parse_compound n d msg (tlv_view_of <$> forest n (slots (child_descs d)) fs) m =
      Ok (OGS_OK, m') ∧
    holds n (slots (child_descs d)) msg fs m' ∧
    agree_out msg (msg + extent (slots (child_descs d))) m m'.
Proof.
  induction n as [|n IH]; intros d msg fs m Ht Hv Hh; [done|].
  pose proof (table_ok_facts _ _ Ht) as Hf. destruct Hv as (Hok & Hne & Hfit).
  simpl. edestruct (parse_group_run n (tlv_parse_compound n) d Ht
    (slots (child_descs d)) msg [] fs m) as (m' & E & Hh' & Ha); [done| |exact Hok|exact Hfit|..].
  - intros c k Hin v off m0 Hv Hvf Ho. destruct (tf_entry _ _ Hf c k Hin) as (_ & Hsz & Hcc).
    unfold parse_at. unfold holds_occ, occ_ok in *. destruct (is_compound c).
    + destruct Hv as (fs' & -> & Hv'), Hcc as [Ht' Hx], Ho as [Ep Hg]. simpl fields in Hg.
      assert (∃ k, n = S k) as [k' En] by (destruct n; [done|eauto]).
      assert (forest n (slots (child_descs c)) fs' ≠ [] ∧
              Forall tlv_fits (forest n (slots (child_descs c)) fs')) as [Hne' Hfits].
      { subst n. by destruct Hv' as (_ & ? & ?). }
      destruct (IH c (off + sizeof_presence) fs' m0 Ht' Hv' Hg) as (m1 & E1 & Hh1 & Ha1).
      assert (m1 !! off = m0 !! off) as Eo by (apply Ha1; unfold sizeof_presence; lia).
      rewrite Ep in Eo. simpl tlv_value. rewrite (tlv_parse_render _ Hne' Hfits).
      destruct (tlv_view_of <$> forest n (slots (child_descs c)) fs') as [|t0 ts0] eqn:El;
        [by apply fmap_nil_inv in El|].
      m_run E1. m_run (set_presence_run _ _ _ Eo). eexists. split; [done|].
      split; [split|].
      * by rewrite lookup_insert_eq.
      * eapply holds_local; [exact Ht'|exact Hh1|]. intros i Hi. apply lookup_insert_ne.
        unfold sizeof_presence in *. lia.
      * eapply agree_out_trans; [eapply agree_out_weaken; [exact Ha1|unfold sizeof_presence; lia|lia]|].
        apply agree_out_insert. unfold sizeof_presence in *. lia.
    + destruct Hv as (b & -> & Hb), Ho as (b0 & E0 & Hk0 & _).
      m_run (parse_leaf_run c off b b0 m0 Hb Hk0 E0).
      m_run (set_presence_run _ off _ (lookup_insert_eq m0 off {| presence := 0; body := b |})).
      eexists. split; [done|]. split.
      * exists b. rewrite lookup_insert_eq. split_and!; [done| |done].
        clear -Hb. unfold leaf_ok, body_kind in *. by destruct (ctype c), b.
      * eapply agree_out_trans; apply agree_out_insert; unfold sizeof_presence in *; lia.
  - by rewrite Z.add_0_r.
  - simpl in *. rewrite Z.add_0_r in Hh', Ha. eauto.
Qed.
End parse.
