(* ===== verification/GtpTlvSpec.v ===== *)
(** * The TLV codec: what it guarantees

    Building and parsing are inverse to each other; parsing any octets into
    a structure of the right layout stays within that structure and keeps
    the kind of each of its fields. *)
From S2P Require Import Prelude.
From S2P Require Import CMem.
From S2P Require Import OgsLib.
From S2P Require Import GtpTlv.
From S2P Require Import GtpTlvProofs.
#[local] Open Scope Z_scope.

(** ** Layouts *)
Definition same_kind (b b' : body_t) : Prop :=
  match b, b' with
  | Num _, Num _ | Octets _ _, Octets _ _ | NoValue, NoValue => True
  | _, _ => False
  end.
Definition same_kinds (m m' : mem) : Prop := ∀ k,
  match m !! k, m' !! k with
  | Some c, Some c' => same_kind (body c) (body c')
  | None, None => True
  | _, _ => False
  end.
(** What a parser may do: within [lo, hi), and every field keeps its kind. *)
Definition stays (lo hi : Z) (m m' : mem) : Prop := same_kinds m m' ∧ agree_out lo hi m m'.

Definition typed_occ (group : list (ogs_tlv_desc_t * nat) → Z → mem → Prop)
    (c : ogs_tlv_desc_t) (off : Z) (m : mem) : Prop :=
  ∃ x, m !! off = Some x ∧ body_kind (ctype c) (body x) ∧
       (is_compound c = true → group (slots (child_descs c)) (off + sizeof_presence) m).
Fixpoint typed_group (occ : ogs_tlv_desc_t → Z → mem → Prop)
    (ss : list (ogs_tlv_desc_t * nat)) (off : Z) (m : mem) : Prop :=
  match ss with
  | [] => True
  | (c, k) :: ss =>
      (∀ j, (j < k)%nat → occ c (off + vsize c * Z.of_nat j) m) ∧
      typed_group occ ss (off + vsize c * Z.of_nat k) m
  end.
(** The memory of a message: each entry's structures, of the entry's type. *)
Fixpoint typed (n : nat) (ss : list (ogs_tlv_desc_t * nat)) (off : Z) (m : mem) : Prop :=
  match n with O => False | S n => typed_group (typed_occ (typed n)) ss off m end.

Lemma same_kind_refl b : same_kind b b.
Proof. by destruct b. Qed.
Lemma same_kinds_refl m : same_kinds m m.
Proof. intros k. destruct (m !! k); [apply same_kind_refl|done]. Qed.
Lemma same_kinds_trans m m' m'' : same_kinds m m' → same_kinds m' m'' → same_kinds m m''.
Proof.
  intros H1 H2 k. specialize (H1 k). specialize (H2 k).
  destruct (m !! k) as [[? []]|], (m' !! k) as [[? []]|], (m'' !! k) as [[? []]|]; done.
Qed.
#[export] Instance stays_refl lo hi : Reflexive (stays lo hi).
Proof. intros m. split; [apply same_kinds_refl|apply agree_out_refl]. Qed.
#[export] Instance stays_trans lo hi : Transitive (stays lo hi).
Proof.
  intros m m' m'' [H1 H2] [H3 H4]. split; [by eapply same_kinds_trans|by eapply agree_out_trans].
Qed.
Lemma stays_weaken lo hi lo' hi' m m' : stays lo hi m m' → lo' <= lo → hi <= hi' → stays lo' hi' m m'.
Proof. intros [H1 H2] ? ?. split; [done|by eapply agree_out_weaken]. Qed.
Lemma stays_insert lo hi m off c c' :
  lo <= off < hi → m !! off = Some c → same_kind (body c) (body c') → stays lo hi m (<[off := c']> m).
Proof.
  intros Ho E Hk. split; [|by apply agree_out_insert]. intros k.
  destruct (decide (k = off)) as [->|].
  - by rewrite lookup_insert_eq, E.
  - rewrite lookup_insert_ne by done. apply same_kinds_refl.
Qed.

Lemma body_kind_same t b b' : same_kind b b' → body_kind t b → body_kind t b'.
Proof. destruct t, b, b'; done. Qed.

Lemma typed_group_same (occ : ogs_tlv_desc_t → Z → mem → Prop) ss off m m' :
  (∀ c off, occ c off m → occ c off m') → typed_group occ ss off m → typed_group occ ss off m'.
Proof.
  intros Ho. revert off. induction ss as [|[c k] ss IH]; intros off; [done|]. intros [H1 H2].
  split; [|by apply IH]. intros j Hj. by apply Ho, H1.
Qed.
Lemma typed_occ_same n m m' :
  (∀ ss off, typed n ss off m → typed n ss off m') → same_kinds m m' →
  ∀ c off, typed_occ (typed n) c off m → typed_occ (typed n) c off m'.
Proof.
  intros IH Hs c off (x & E & Hk & Hg). specialize (Hs off). rewrite E in Hs.
  destruct (m' !! off) as [x'|] eqn:E'; [|done]. exists x'.
  split_and!; [done|by eapply body_kind_same|]. intros Hc. by apply IH, Hg.
Qed.
Lemma typed_same n ss off m m' : same_kinds m m' → typed n ss off m → typed n ss off m'.
Proof.
  intros Hs. revert ss off. induction n as [|n IH]; intros ss off; [done|].
  apply typed_group_same. by apply typed_occ_same.
Qed.

Lemma typed_group_slot occ ss ss' c k off m :
  typed_group occ (ss ++ (c, k) :: ss') off m →
  ∀ j, (j < k)%nat → occ c (off + extent ss + vsize c * Z.of_nat j) m.
Proof.
  revert off. induction ss as [|[d l] ss IH]; intros off; simpl; intros [H1 H2].
  - by rewrite Z.add_0_r.
  - intros j Hj. rewrite Z.add_assoc. by apply IH.
Qed.

(** Whatever values a message holds, it has the layout of its table. *)
Lemma holds_typed n ss off fs m : holds n ss off fs m → typed n ss off m.
Proof.
  revert ss off fs. induction n as [|n IH]; intros ss off fs; [done|]. simpl.
  revert off fs. induction ss as [|[c k] ss IHss]; intros off fs; [done|]. intros [H1 H2].
  split; [|by eapply IHss]. intros j Hj. specialize (H1 j Hj). unfold holds_occ, typed_occ in *.
  unfold is_compound in *. destruct (bool_decide (ctype c = OGS_TLV_COMPOUND)) eqn:Ec.
  - apply bool_decide_eq_true in Ec. destruct H1 as [E Hg]. eexists. split; [exact E|].
    rewrite Ec. split; [done|]. intros _. by eapply IH.
  - destruct H1 as (b & E & Hk & _). eexists. split; [exact E|]. by split.
Qed.

(** ** Finding the entry of an arbitrary element *)
Section find.
Variable t : tlv_view.

(** The result is an entry of the table, or a [More]. *)
Definition found_ok (cs : list ogs_tlv_desc_t) (i : nat) (off : Z)
    (r : outcome (option (nat * Z * ogs_tlv_desc_t))) : Prop :=
  match r with
  | Ok (Some (idx, o, c)) =>
      ∃ j, idx = (i + j)%nat ∧
      if is_more c then match cs !! S j with Some m => is_more m = false | None => True end
      else ∃ pre k post, slots cs = pre ++ (c, k) :: post ∧ o = off + extent pre ∧
        match cs !! S j with
        | Some m => if is_more m then k = Z.to_nat (dlength m) else k = 1%nat
        | None => k = 1%nat
        end
  | Ok None | Aborted => True
  | Undef => False
  end.

Lemma found_ok_skip d rest i off off' r k :
  off' = off + vsize d * Z.of_nat k → slots (d :: rest) = (d, k) :: slots rest →
  found_ok rest (S i) off' r → found_ok (d :: rest) i off r.
Proof.
  intros -> Es. unfold found_ok. destruct r as [[[[idx o] c]|]| |]; try done.
  intros (j & -> & Hr). exists (S j). split; [lia|]. destruct (is_more c); [done|].
  destruct Hr as (pre & l & post & Ep & -> & Hk). exists ((d, k) :: pre), l, post.
  rewrite Es, Ep. split; [done|]. split; [simpl; lia|done].
Qed.
End find.

Lemma slots_head d rest : ∃ k, (d, k) ∈ slots (d :: rest).
Proof.
  destruct (slots_cons d rest) as [(x & rest' & _ & _ & E)|[E _]]; rewrite E; eexists; left.
Qed.

Lemma find_desc_found cs t : ∀ prev i off,
  (∀ m, m ∈ cs → is_more m = true → 0 <= dlength m) →
  (∀ s, s ∈ slots cs → is_more (fst s) = false) →
  found_ok cs i off (tlv_find_desc cs prev i off t).
Proof.
  remember (length cs) as len eqn:Hlen. revert cs Hlen.
  induction (lt_wf len) as [len _ IH]. intros cs Hlen prev i off Hmore Hnm.
  destruct cs as [|d rest]; [done|].
  assert (is_more d = false) as Hd by (destruct (slots_head d rest) as [k Hk]; apply (Hnm _ Hk)).
  cbn [tlv_find_desc]. destruct ((type d =? tlv_type t) && (instance d =? tlv_instance t)).
  { exists 0%nat. split; [lia|]. rewrite Hd.
    destruct (slots_cons d rest) as [(x & rest' & -> & Ex & E)|[E Hx]].
    - exists [], (Z.to_nat (dlength x)), (slots rest'). simpl. rewrite Ex. by rewrite Z.add_0_r.
    - exists [], 1%nat, (slots rest). rewrite E. split; [done|]. split; [simpl; lia|].
      destruct rest as [|x rest']; simpl; [done|]. by rewrite Hx. }
  rewrite Hd. destruct (slots_cons d rest) as [(x & rest' & -> & Ex & E)|[E Hx]].
  - assert (0 <= dlength x) as Hx by (apply Hmore; [right; left|done]).
    cbn [tlv_find_desc]. destruct ((type x =? tlv_type t) && (instance x =? tlv_instance t)).
    { exists 1%nat. split; [lia|]. rewrite Ex. simpl. destruct rest' as [|y rest'']; simpl; [done|].
      destruct (slots_head y rest'') as [k Hk]. apply (Hnm (y, k)). rewrite E. by right. }
    rewrite Ex, Hd. cbn [negb ogs_assert mbind outcome_bind].
    assert (found_ok rest' (S (S i)) (off + vsize d + vsize d * (dlength x - 1))
      (tlv_find_desc rest' (Some x) (S (S i)) (off + vsize d + vsize d * (dlength x - 1)) t)) as Hf.
    { eapply (IH (length rest')); [simpl in Hlen; lia|done| |].
      - intros m Hm. apply Hmore. right. by right.
      - intros s Hs. apply Hnm. rewrite E. by right. }
    unfold found_ok in *.
    destruct (tlv_find_desc rest' _ _ _ _) as [[[[idx o] c]|]| |]; try done.
    destruct Hf as (j & -> & Hr). exists (S (S j)). split; [lia|].
    destruct (is_more c); [done|]. destruct Hr as (pre & k & post & Ep & -> & Hk).
    exists ((d, Z.to_nat (dlength x)) :: pre), k, post. rewrite E, Ep. split; [done|].
    split; [simpl; rewrite Z2Nat.id by done; lia|done].
  - eapply (found_ok_skip d rest _ _ _ _ 1%nat); [|exact E|].
    { by rewrite Z.mul_1_r. }
    eapply (IH (length rest)); [simpl in Hlen; lia|done| |].
    { intros m Hm. apply Hmore. by right. }
    { intros s Hs. apply Hnm. rewrite E. by right. }
Qed.

(** ** Parsing keeps the layout *)
Section typed.
Context `{Host, OgsTlv}.

Lemma run_wp {A} (f : M mem A) m (Q : A → mem → Prop) a m' : f m = Ok (a, m') → Q a m' → wp f m Q.
Proof. unfold wp. by intros ->. Qed.
Lemma wp_set_num m off c v lo hi : lo <= off < hi → m !! off = Some c → same_kind (Num 0) (body c) →
  wp (set_num off v) m (λ _ m', stays lo hi m m').
Proof.
  intros Ho E Hk. destruct c as [p [v0| |]]; try done. eapply run_wp; [by eapply set_num_run|].
  by eapply stays_insert.
Qed.
Lemma wp_set_octets m off c d n lo hi : lo <= off < hi → m !! off = Some c →
  same_kind (Octets [] 0) (body c) → wp (set_octets off d n) m (λ _ m', stays lo hi m m').
Proof.
  intros Ho E Hk. destruct c as [p [|d0 n0|]]; try done. eapply run_wp; [by eapply set_octets_run|].
  by eapply stays_insert.
Qed.
Lemma wp_set_presence m off c lo hi : lo <= off < hi → m !! off = Some c →
  wp (set_presence off) m (λ _ m', stays lo hi m m').
Proof.
  intros Ho E. eapply run_wp; [by eapply set_presence_run|]. eapply stays_insert; [done..|].
  apply same_kind_refl.
Qed.

Lemma octet_in_range v i : (i < length v)%nat → ∃ b, octet v i = Ok b.
Proof. intros Hi. unfold octet. destruct (lookup_lt_is_Some_2 v i Hi) as [b ->]. by eexists. Qed.

Lemma wp_octet {A} v i (k : Z → M mem A) m Q :
  (i < length v)%nat → (∀ b, wp (k b) m Q) → wp (b ← lift (octet v i); k b) m Q.
Proof. intros Hi Hk. destruct (octet_in_range v i Hi) as [b Eb]. unfold wp, mbind, M_bind, lift. rewrite Eb. apply Hk. Qed.

Lemma parse_leaf_typed c t m off x lo hi : lo <= off < hi →
  m !! off = Some x → body_kind (ctype c) (body x) →
  wp (tlv_parse_leaf off c t) m (λ _ m', stays lo hi m m').
Proof.
  intros Ho E Hk. unfold tlv_parse_leaf.
  destruct (ctype c), (body x) eqn:Eb; try done;
    repeat match goal with
    | |- wp (if negb (?a =? ?b) then _ else _) _ _ =>
        destruct (Z.eqb_spec a b); cbn [negb]; [|by apply wp_ret]
    end;
    try (apply wp_bind; repeat (apply wp_octet; [lia|intros ?]);
         first [apply wp_ret, wp_ret; reflexivity
               |eapply wp_mono; [first [eapply wp_set_num|eapply wp_set_octets];
                                 [exact Ho|exact E|by rewrite Eb]|]; auto]).
Qed.

Lemma first_free_typed occ c k : ∀ off m,
  (∀ off m, occ c off m → is_Some (m !! off)) →
  (∀ j, (j < k)%nat → occ c (off + vsize c * Z.of_nat j) m) →
  wp (first_free k (vsize c) off) m (λ o m', m' = m ∧ ∃ j, (j < k)%nat ∧ o = off + vsize c * Z.of_nat j).
Proof.
  induction k as [|k IH]; intros off m Hocc Hs; [apply wp_mabort|].
  destruct (Hocc _ _ (Hs 0%nat ltac:(lia))) as [x Ex]. rewrite Z.mul_0_r, Z.add_0_r in Ex.
  simpl. apply wp_bind. eapply run_wp; [by apply presence_at_run|]. destruct (presence x =? 0).
  { apply wp_ret. split; [done|]. exists 0%nat. split; lia. }
  eapply wp_mono; [apply IH; [done|]|].
  - intros j Hj. specialize (Hs (S j) ltac:(lia)).
    by replace (off + vsize c + vsize c * Z.of_nat j) with (off + vsize c * Z.of_nat (S j)) by lia.
  - intros o m' (-> & j & Hj & ->). split; [done|]. exists (S j). split; lia.
Qed.

Lemma typed_occ_present n c off m : typed_occ (typed n) c off m → is_Some (m !! off).
Proof. intros (x & E & _). by eexists. Qed.

(** The embedded parser may be anything that stays within the group. *)
Definition emb_typed (n : nat) (emb : ogs_tlv_desc_t → Z → list tlv_view → M mem rv_t) : Prop :=
  ∀ c off ts m, table_ok n (child_descs c) = true → typed n (slots (child_descs c)) off m →
  wp (emb c off ts) m (λ _ m', stays off (off + extent (slots (child_descs c))) m m').

Lemma parse_at_typed n emb c k t off m cs :
  emb_typed n emb → table_ok (S n) cs = true → (c, k) ∈ slots cs →
  typed_occ (typed n) c off m →
  wp (parse_at emb c t off) m (λ _ m', stays off (off + vsize c) m m').
Proof.
  intros Hemb Ht Hin (x & E & Hk & Hg).
  destruct (tf_entry _ _ (table_ok_facts _ _ Ht) c k Hin) as (_ & Hsz & Hc). unfold sizeof_presence in Hsz.
  unfold parse_at. apply (wp_call _ _ _ (λ _ m', stays off (off + vsize c) m m')).
  - destruct (is_compound c).
    + destruct Hc as [Ht' Hx]. destruct (ogs_tlv_parse_block (tlv_value t)) as [[|t0 ts]|]; [by apply wp_ret| |by apply wp_mabort].
      eapply wp_mono; [by apply Hemb, Hg|]. intros ? m' Hm. unfold sizeof_presence in *.
      eapply stays_weaken; [exact Hm|lia|lia].
    + eapply parse_leaf_typed; [lia|exact E|exact Hk].
  - intros [] m' Hm; [|by apply wp_ret]. pose proof (proj1 Hm off) as Ho. rewrite E in Ho.
    destruct (m' !! off) as [x'|] eqn:E'; [|done]. apply wp_bind.
    eapply wp_mono; [apply (wp_set_presence m' off x' off (off + vsize c)); [lia|exact E']|].
    intros [] m2 Hm2. apply wp_ret. by transitivity m'.
Qed.

Lemma parse_one_typed n emb d msg t m :
  emb_typed n emb → table_ok (S n) (child_descs d) = true →
  typed (S n) (slots (child_descs d)) msg m →
  wp (tlv_parse_one emb d msg t) m
     (λ _ m', stays msg (msg + extent (slots (child_descs d))) m m').
Proof.
  intros Hemb Ht Hty. pose proof (table_ok_facts _ _ Ht) as Hf.
  pose proof (find_desc_found (child_descs d) t None 0 0) as Hfound.
  unfold tlv_parse_one. apply wp_bind, wp_lift.
  destruct (tlv_find_desc _ None 0 0 t) as [[[[idx o] c]|]| |];
    [| |done|by apply Hfound; [intros x ? ?; destruct (tf_more _ _ Hf x); [done..|lia]
                              |intros [? ?] ?; eapply table_not_more]].
  2: by apply wp_ret.
  destruct Hfound as (j & -> & Hj).
  { intros x ? ?. destruct (tf_more _ _ Hf x); [done..|lia]. }
  { intros [c' k'] Hin. by eapply table_not_more. }
  fold (parse_at emb c t). change (0 + j)%nat with j. destruct (is_more c) eqn:Em.
  - assert (wp (parse_at emb c t (msg + o)) m
      (λ _ m', stays msg (msg + extent (slots (child_descs d))) m m')) as Ha.
    { unfold parse_at, is_compound, tlv_parse_leaf. unfold is_more in Em.
      apply bool_decide_eq_true in Em. by rewrite Em. }
    destruct (child_descs d !! S j) as [y|]; [rewrite Hj|]; exact Ha.
  - destruct Hj as (pre & k & post & Es & -> & Hk). rewrite Z.add_0_l.
    assert ((c, k) ∈ slots (child_descs d)) as Hin
      by (rewrite Es; apply elem_of_app; right; left).
    pose proof (table_vsize _ _ Ht) as Hvs. rewrite Es, Forall_app in Hvs. destruct Hvs as [Hv1 Hv2].
    apply list.Forall_cons in Hv2 as [Hv Hv2]. simpl in Hv. unfold sizeof_presence in *.
    assert (0 <= extent pre ∧ 0 <= extent post) as [Hx1 Hx2].
    { split; apply extent_nonneg; (eapply list.Forall_impl; [eassumption|]); intros ? ?; simpl in *; lia. }
    rewrite Es in Hty |- *. rewrite extent_app. simpl extent.
    pose proof (typed_group_slot _ _ _ _ _ _ _ Hty) as Hs.
    assert (∀ i, (i < k)%nat → wp (parse_at emb c t (msg + extent pre + vsize c * Z.of_nat i)) m
      (λ _ m', stays msg (msg + (extent pre + (vsize c * Z.of_nat k + extent post))) m m')) as Hat.
    { intros i Hi. eapply wp_mono; [by eapply parse_at_typed; [..|apply Hs]|].
      intros ? m' Hm. eapply stays_weaken; [exact Hm|nia|nia]. }
    assert (k = 1%nat → wp (parse_at emb c t (msg + extent pre)) m
      (λ _ m', stays msg (msg + (extent pre + (vsize c * Z.of_nat k + extent post))) m m')) as H1'.
    { intros E1. rewrite <- (Z.add_0_r (msg + extent pre)).
      rewrite <- (Z.mul_0_r (vsize c)). apply (Hat 0%nat). lia. }
    destruct (child_descs d !! S j) as [y|]; [destruct (is_more y)|]; [|exact (H1' Hk)..].
    subst k. apply wp_bind. eapply wp_mono; [by eapply first_free_typed; [eapply typed_occ_present|]|].
    intros o' m' (-> & i & Hi & ->). by apply Hat.
Qed.

Lemma parse_compound_typed n : emb_typed n (tlv_parse_compound n).
Proof.
  induction n as [|n IH]; intros d off ts m Ht Hty; [apply wp_mabort|]. simpl tlv_parse_compound.
  revert m Hty. induction ts as [|t ts IHts]; intros m Hty; [by apply wp_ret|].
  simpl. apply wp_bind. eapply wp_mono; [by apply (parse_one_typed n)|].
  intros [] m' Hm; [|by apply wp_ret]. eapply wp_mono; [apply IHts|].
  - by eapply typed_same; [apply Hm|].
  - intros rv m2 Hm2. by transitivity m'.
Qed.
End typed.

(** ** Deciding [vals_ok] *)
Section decide.
Context `{OgsTlv}.

Definition tlv_fitsb (t : tlv_t) : bool :=
  let v := tlv_view_of t in
  (0 <=? tlv_type v) && (tlv_type v <? 256) && (0 <=? tlv_instance v) && (tlv_instance v <? 16) &&
  (Z.of_nat (length (tlv_value v)) <? 2 ^ 16).
Definition leaf_okb (c : ogs_tlv_desc_t) (b : body_t) : bool :=
  match ctype c, b with
  | (OGS_TLV_UINT8 | OGS_TLV_INT8), Num v => (0 <=? v) && (v <? 2 ^ 8)
  | OGS_TLV_UINT16, Num v => (0 <=? v) && (v <? 2 ^ 16)
  | (OGS_TLV_UINT24 | OGS_TLV_INT24), Num v => (0 <=? v) && (v <? 2 ^ 24)
  | (OGS_TLV_UINT32 | OGS_TLV_INT32), Num v => (0 <=? v) && (v <? 2 ^ 32)
  | OGS_TLV_FIXED_STR, Octets d n => (n =? Z.of_nat (length d)) && (n =? dlength c)
  | OGS_TLV_VAR_STR, Octets d n => (n =? Z.of_nat (length d)) && (0 <? n)
  | OGS_TLV_NULL, NoValue => true
  | _, _ => false
  end.
Definition occ_okb (group : list (ogs_tlv_desc_t * nat) → list (list val) → bool)
    (c : ogs_tlv_desc_t) (v : val) : bool :=
  match v with
  | VGroup fs => is_compound c && group (slots (child_descs c)) fs
  | VLeaf b => negb (is_compound c) && leaf_okb c b
  end.
Fixpoint group_okb (occ : ogs_tlv_desc_t → val → bool) (ss : list (ogs_tlv_desc_t * nat))
    (fs : list (list val)) : bool :=
  match ss with
  | [] => true
  | (c, k) :: ss =>
      (length (hd [] fs) <=? k)%nat && forallb (occ c) (hd [] fs) && group_okb occ ss (tail fs)
  end.
Fixpoint vals_okb (n : nat) (ss : list (ogs_tlv_desc_t * nat)) (fs : list (list val)) : bool :=
  match n with
  | O => false
  | S n =>
      let l := group_forest (node (forest n)) ss fs in
      group_okb (occ_okb (vals_okb n)) ss fs && negb (length l =? 0)%nat && forallb tlv_fitsb l
  end.

Lemma leaf_okb_ok c b : leaf_okb c b = true → leaf_ok c b.
Proof.
  unfold leaf_okb, leaf_ok. destruct (ctype c), b; try done;
    rewrite ?andb_true_iff, ?Z.leb_le, ?Z.ltb_lt, ?Z.eqb_eq; auto.
Qed.
Lemma vals_okb_ok n : ∀ ss fs, vals_okb n ss fs = true → vals_ok n ss fs.
Proof.
  induction n as [|n IH]; intros ss fs; [done|]. simpl. rewrite !andb_true_iff.
  intros [[Hg Hne] Hfit]. split; [|split].
  - clear Hne Hfit. revert fs Hg. induction ss as [|[c k] ss IHss]; intros fs Hg; [done|]. simpl in *.
    rewrite !andb_true_iff, Nat.leb_le, forallb_forall in Hg. destruct Hg as [[Hl Ho] Hg].
    split; [done|]. split; [|by apply IHss].
    apply list.Forall_forall. intros v Hv%list_elem_of_In%Ho. unfold occ_okb in Hv. unfold occ_ok.
    destruct v; apply andb_true_iff in Hv as [Ec Hv]; [rewrite negb_true_iff in Ec|];
      rewrite Ec; eauto using leaf_okb_ok.
  - intros E. by rewrite E in Hne.
  - rewrite forallb_forall in Hfit. apply list.Forall_forall. intros t Ht%list_elem_of_In%Hfit.
    unfold tlv_fitsb in Ht. unfold tlv_fits. lia.
Qed.
End decide.

(** ** The codec *)
Section codec.
Context `{Host, OgsTlvLaws}.
Variable d : ogs_tlv_desc_t.

(** A message description: what both entry points assert, and a table. *)
Definition message_ok : bool :=
  bool_decide (ctype d = OGS_TLV_MESSAGE) && negb (length (child_descs d) =? 0)%nat &&
  table_ok max_depth (child_descs d).
Definition layout := slots (child_descs d).

Lemma message_ok_parts : message_ok = true →
  bool_decide (ctype d = OGS_TLV_MESSAGE) = true ∧ negb (length (child_descs d) =? 0)%nat = true ∧
  table_ok max_depth (child_descs d) = true.
Proof. unfold message_ok. rewrite !andb_true_iff. tauto. Qed.

Lemma build_msg_run fs msg m :
  message_ok = true → vals_ok max_depth layout fs → holds max_depth layout msg fs m →
  ∃ m1, ogs_tlv_build_msg d msg m =
      Ok ({| pk_head := replicate OGS_TLV_MAX_HEADROOM 0;
             pk_data := ogs_tlv_render (forest max_depth layout fs) |}, m1) ∧
    agree_out msg (msg + extent layout) m m1.
Proof.
  intros Hd Hv Hm. destruct (message_ok_parts Hd) as (Ety & Ene & Ht).
  destruct (tlv_add_compound_run max_depth d msg fs m Ht Hv Hm) as (cnt & m1 & E1 & Hc & Ha1).
  exists m1. split; [|exact Ha1]. fold layout in E1.
  unfold ogs_tlv_build_msg. rewrite Ety, Ene. unfold massert, lift, mbind, M_bind, ogs_assert.
  rewrite E1, (proj2 (Z.ltb_lt _ _) Hc). by rewrite tlv_calc_length_render, Z.eqb_refl.
Qed.

Lemma parse_msg_run fs b msg m :
  message_ok = true → vals_ok max_depth layout fs → holds max_depth layout msg [] m →
  pk_data b = ogs_tlv_render (forest max_depth layout fs) →
  ∃ m1, ogs_tlv_parse_msg msg d b m = Ok (OGS_OK, m1) ∧
    holds max_depth layout msg fs m1 ∧ agree_out msg (msg + extent layout) m m1.
Proof.
  intros Hd Hv Hm Eb. destruct (message_ok_parts Hd) as (Ety & Ene & Ht).
  destruct (tlv_parse_compound_run max_depth d msg fs m Ht Hv Hm) as (m1 & E1 & Hh & Ha).
  fold layout in E1. exists m1. split; [|by split].
  assert (forest max_depth layout fs ≠ [] ∧ Forall tlv_fits (forest max_depth layout fs)) as [Hne Hfit]
    by (destruct Hv as (_ & ? & ?); done).
  unfold ogs_tlv_parse_msg. rewrite Ety, Ene, Eb. unfold massert, lift, ogs_assert, mbind, M_bind.
  rewrite (tlv_parse_render _ Hne Hfit).
  destruct (tlv_view_of <$> forest max_depth layout fs) as [|t ts] eqn:El; [|exact E1].
  by apply fmap_nil_inv in El.
Qed.

(** C23: Building and parsing a message: for every well-formed table, a
    structure that holds values the elements can carry is turned into the
    octets of exactly those elements; building changes nothing outside the
    structure; parsing the packet into an empty structure succeeds, fills it
    with the same values and changes nothing outside it.  The octets do not
    depend on the byte order of the machine. *)
Theorem parse_build_msg fs msg msg' m m0 :
  message_ok = true → vals_ok max_depth layout fs →
  holds max_depth layout msg fs m → holds max_depth layout msg' [] m0 →
  ∃ b m1 m2, ogs_tlv_build_msg d msg m = Ok (b, m1) ∧
    pk_data b = ogs_tlv_render (forest max_depth layout fs) ∧
    agree_out msg (msg + extent layout) m m1 ∧
    ogs_tlv_parse_msg msg' d b m0 = Ok (OGS_OK, m2) ∧
    holds max_depth layout msg' fs m2 ∧ agree_out msg' (msg' + extent layout) m0 m2.
Proof.
  intros Hd Hv Hm Hm0. destruct (build_msg_run fs msg m Hd Hv Hm) as (m1 & E1 & Ha1).
  edestruct (parse_msg_run fs) as (m2 & E2 & Hh2 & Ha2); [done..| |].
  2: { eexists _, m1, m2. split; [exact E1|]. split; [done|]. split; [exact Ha1|].
       split; [exact E2|]. by split. }
  done.
Qed.

Lemma parse_msg_stays msg b m :
  message_ok = true → typed max_depth layout msg m →
  wp (ogs_tlv_parse_msg msg d b) m (λ _ m',
    typed max_depth layout msg m' ∧ stays msg (msg + extent layout) m m').
Proof.
  intros Hd Hty. destruct (message_ok_parts Hd) as (Ety & Ene & Ht).
  unfold ogs_tlv_parse_msg. rewrite Ety, Ene.
  apply wp_bind, wp_massert; intros _. apply wp_bind, wp_massert; intros _.
  destruct (ogs_tlv_parse_block (pk_data b)) as [[|t ts]|]; [by apply wp_ret| |by apply wp_mabort].
  eapply wp_mono; [by apply parse_compound_typed|]. intros ? m' Hm.
  split; [|exact Hm]. by eapply typed_same; [apply Hm|].
Qed.

(** C37: Whatever octets arrive, parsing them into a structure laid out as the
    table says performs no undefined access, writes only within that
    structure and leaves it laid out as the table says, every field of the
    same kind as before, also when it fails half-way. *)
Theorem parse_msg_typed msg b m :
  message_ok = true → typed max_depth layout msg m →
  wp (ogs_tlv_parse_msg msg d b) m (λ _ m',
    typed max_depth layout msg m' ∧ stays msg (msg + extent layout) m m').
Proof. apply parse_msg_stays. Qed.

(** ** Elements that are refused *)
(** An entry for an element: in the table or a [More] ([type] and
    [instance] both 0). *)
Definition known (t : tlv_view) : Prop :=
  ∃ c, c ∈ child_descs d ∧ type c = tlv_type t ∧ instance c = tlv_instance t.

Lemma find_desc_unknown t : message_ok = true → ¬ known t → ∀ cs prev i off,
  (∀ c, c ∈ cs → c ∈ child_descs d) → (∀ c k, (c, k) ∈ slots cs → is_more c = false) →
  tlv_find_desc cs prev i off t = Ok None.
Proof.
  intros Hd Hk cs. remember (length cs) as len eqn:Hlen. revert cs Hlen.
  induction (lt_wf len) as [len _ IH]. intros cs Hlen prev i off Hin Hnm.
  destruct cs as [|c rest]; [done|].
  assert (∀ c, c ∈ child_descs d → (type c =? tlv_type t) && (instance c =? tlv_instance t) = false) as Hno.
  { intros c0 Hc0. apply not_true_iff_false. rewrite andb_true_iff, !Z.eqb_eq. intros [E1 E2].
    apply Hk. exists c0. auto. }
  assert (is_more c = false) as Hc by (destruct (slots_head c rest) as [k Hk']; apply (Hnm _ _ Hk')).
  cbn [tlv_find_desc]. rewrite (Hno c) by (apply Hin; left). rewrite Hc.
  destruct (slots_cons c rest) as [(x & rest' & -> & Ex & E)|[E Hx]].
  - cbn [tlv_find_desc]. rewrite (Hno x) by (apply Hin; right; left). rewrite Ex, Hc.
    cbn [negb ogs_assert mbind outcome_bind].
    apply (IH (length rest')); [simpl in Hlen; lia|done| |].
    + intros y Hy. apply Hin. right. by right.
    + intros y k Hy. apply (Hnm y k). rewrite E. by right.
  - apply (IH (length rest)); [simpl in Hlen; lia|done| |].
    + intros y Hy. apply Hin. by right.
    + intros y k Hy. apply (Hnm y k). rewrite E. by right.
Qed.

(** An element that is not in the table of the message ends the parse
    with an error, whatever follows it; the elements before it stay stored. *)
Theorem parse_unknown_element fs msg m0 b t rest :
  message_ok = true → vals_ok max_depth layout fs → holds max_depth layout msg [] m0 →
  ogs_tlv_parse_block (pk_data b) = Some ((tlv_view_of <$> forest max_depth layout fs) ++ t :: rest) →
  ¬ known t →
  ∃ m1, ogs_tlv_parse_msg msg d b m0 = Ok (OGS_ERROR, m1) ∧ holds max_depth layout msg fs m1.
Proof.
  intros Hd Hv Hm0 Eb Hk. destruct (message_ok_parts Hd) as (Ety & Ene & Ht).
  destruct (tlv_parse_compound_run max_depth d msg fs m0 Ht Hv Hm0) as (m1 & E1 & Hh & _).
  exists m1. split; [|done].
  unfold ogs_tlv_parse_msg. rewrite Ety, Ene, Eb. unfold massert, lift, ogs_assert, mbind, M_bind.
  destruct (_ ++ t :: rest) as [|t0 ts] eqn:El; [by destruct (tlv_view_of <$> _)|].
  rewrite <- El. unfold max_depth. cbn [tlv_parse_compound]. rewrite (parse_all_app _ _ _ _ _ E1).
  simpl. unfold tlv_parse_one, mbind, M_bind, lift.
  rewrite (find_desc_unknown t Hd Hk); [done|done|].
  intros c k Hin. by eapply table_not_more.
Qed.
End codec.
