(* ===== verification/GtpStruct.v ===== *)
(** * The C structures of GTPv2-C messages: [lib/gtp/tlv.h], [message.h]

    The types of the members of a message ([c_type]), their size on a 64-bit
    machine, their memory after [memset] to zero ([zeroed]), and the check
    that a description walks a structure as the compiler lays it out
    ([fits]). *)
From stdpp Require Import strings.
From S2P Require Import Prelude.
From S2P Require Import CMem.
From S2P Require Import OgsLib.
From S2P Require Import GtpTlv.
From S2P Require Import GtpTlvProofs.
#[local] Open Scope Z_scope.

(** ** Types *)
#[warnings="-register-all"]
Inductive c_type :=
| ogs_tlv_uint8_t | ogs_tlv_uint16_t | ogs_tlv_uint24_t | ogs_tlv_uint32_t
| ogs_tlv_int8_t | ogs_tlv_int16_t | ogs_tlv_int24_t | ogs_tlv_int32_t
| ogs_tlv_octet_t | ogs_tlv_null_t
| Group (members : list (string * c_type)).
(** The members of a structure, in order, behind the presence word of a
    group. *)
#[warnings="-notation-for-abbreviation"] Notation members := (list (string * c_type)).

Fixpoint sum_sizes (size : c_type → Z) (ms : members) : Z :=
  match ms with [] => 0 | (_, t) :: ms => size t + sum_sizes size ms end.
(** Every member is aligned to the 8 octets of its presence word. *)
Fixpoint sizeof (t : c_type) : Z :=
  match t with
  | ogs_tlv_null_t => sizeof_presence
  | ogs_tlv_octet_t => sizeof_presence + 16
  | Group ms => sizeof_presence + sum_sizes sizeof ms
  | _ => sizeof_presence + 8
  end.

(** ** Zeroed memory *)
Definition zero_body (t : c_type) : body_t :=
  match t with
  | ogs_tlv_octet_t => Octets [] 0
  | ogs_tlv_null_t | Group _ => NoValue
  | _ => Num 0
  end.
Section zeroed_list.
Variable zero : c_type → Z → mem → mem.
Fixpoint zeroed_list (ms : members) (off : Z) (m : mem) : mem :=
  match ms with
  | [] => m
  | (_, t) :: ms => zero t off (zeroed_list ms (off + sizeof t) m)
  end.
End zeroed_list.
Fixpoint zeroed_type (t : c_type) (off : Z) (m : mem) {struct t} : mem :=
  <[off := {| presence := 0; body := zero_body t |}]>
    match t with
    | Group ms => zeroed_list zeroed_type ms (off + sizeof_presence) m
    | _ => m
    end.
Definition zeroed (ms : members) (off : Z) (m : mem) : mem := zeroed_list zeroed_type ms off m.

(** ** Descriptions and structures *)
Definition fits_leaf (t : c_type) (d : ogs_tlv_type_e) : bool :=
  match t, d with
  | ogs_tlv_uint8_t, OGS_TLV_UINT8 | ogs_tlv_uint16_t, OGS_TLV_UINT16
  | ogs_tlv_uint24_t, OGS_TLV_UINT24 | ogs_tlv_uint32_t, OGS_TLV_UINT32
  | ogs_tlv_int8_t, OGS_TLV_INT8 | ogs_tlv_int16_t, OGS_TLV_INT16
  | ogs_tlv_int24_t, OGS_TLV_INT24 | ogs_tlv_int32_t, OGS_TLV_INT32
  | ogs_tlv_octet_t, (OGS_TLV_FIXED_STR | OGS_TLV_VAR_STR) | ogs_tlv_null_t, OGS_TLV_NULL => true
  | _, _ => false
  end.
Fixpoint fits_list (fits : c_type → ogs_tlv_desc_t → bool) (ms : members) (cs : list ogs_tlv_desc_t)
    : bool :=
  match ms, cs with
  | [], [] => true
  | (_, t) :: ms, c :: cs => fits t c && (vsize c =? sizeof t) && fits_list fits ms cs
  | _, _ => false
  end.
Fixpoint fits_type (t : c_type) (d : ogs_tlv_desc_t) : bool :=
  match t with
  | Group ms => is_compound d && fits_list fits_type ms (child_descs d)
  | _ => fits_leaf t (ctype d)
  end.
(** Entry by entry, the table has the types and the sizes of the members. *)
Definition fits (ms : members) (cs : list ogs_tlv_desc_t) : bool := fits_list fits_type ms cs.

(** ** What the check gives *)
Lemma sizeof_pos t : sizeof_presence <= sizeof t.
Proof.
  revert t. fix IH 1. intros t. destruct t as [| | | | | | | | | |ms]; simpl; try (unfold sizeof_presence; lia).
  enough (0 <= sum_sizes sizeof ms) by lia.
  induction ms as [|[s t] ms IHms]; simpl; [lia|]. pose proof (IH t). unfold sizeof_presence in *. lia.
Qed.

Lemma sum_sizes_nonneg ms : 0 <= sum_sizes sizeof ms.
Proof.
  induction ms as [|[s t] ms IH]; simpl; [lia|]. pose proof (sizeof_pos t). unfold sizeof_presence in *. lia.
Qed.

Lemma fits_not_more t d : fits_type t d = true → is_more d = false.
Proof.
  unfold is_more. destruct t; simpl; unfold is_compound;
    try (destruct (ctype d); simpl; intros; done).
Qed.

(** Without [More] every entry occurs once. *)
Lemma fits_slots ms cs : fits ms cs = true → slots cs = (λ c, (c, 1%nat)) <$> cs.
Proof.
  revert cs. induction ms as [|[s t] ms IH]; intros [|c cs]; try done. unfold fits.
  intros Hf. simpl in Hf. rewrite !andb_true_iff in Hf. destruct Hf as [[Hc _] Hcs].
  destruct (slots_cons c cs) as [(m & cs' & -> & Em & _)|[E _]].
  - destruct ms as [|[s' t'] ms]; [done|]. simpl in Hcs. rewrite !andb_true_iff in Hcs.
    destruct Hcs as [[Hm _] _]. apply fits_not_more in Hm. congruence.
  - rewrite E. simpl. f_equal. by apply IH.
Qed.
Lemma fits_extent ms cs : fits ms cs = true → extent (slots cs) = sum_sizes sizeof ms.
Proof.
  intros Hf. rewrite (fits_slots ms cs Hf). unfold fits in Hf. revert cs Hf.
  induction ms as [|[s t] ms IH]; intros [|c cs]; try done. intros Hf.
  simpl in Hf. rewrite !andb_true_iff, Z.eqb_eq in Hf. destruct Hf as [[_ Hv] Hcs].
  rewrite fmap_cons. cbn [extent sum_sizes]. rewrite (IH cs Hcs). lia.
Qed.

(** [zeroed] touches its range only. *)
Lemma zeroed_out t : ∀ off m k, k < off ∨ off + sizeof t <= k → zeroed_type t off m !! k = m !! k.
Proof.
  revert t. fix IH 1. intros t off m k Hk. pose proof (sizeof_pos t) as Hp. unfold sizeof_presence in Hp.
  destruct t as [| | | | | | | | | |ms]; simpl; rewrite ?lookup_insert_ne by lia; try done.
  simpl in Hk. assert (k < off + sizeof_presence ∨ off + sizeof_presence + sum_sizes sizeof ms <= k) as Hk'
    by (unfold sizeof_presence in *; lia).
  clear Hk Hp. revert Hk'. generalize (off + sizeof_presence) as o.
  induction ms as [|[s t] ms IHms]; intros o Hk; simpl; [done|]. simpl in Hk.
  pose proof (sizeof_pos t). pose proof (sum_sizes_nonneg ms). unfold sizeof_presence in *.
  rewrite IH by lia. apply IHms. lia.
Qed.

Lemma zeroed_list_out ms off m k :
  k < off ∨ off + sum_sizes sizeof ms <= k → zeroed ms off m !! k = m !! k.
Proof.
  revert off. induction ms as [|[s t] ms IH]; intros off Hk; [done|]. simpl in *.
  pose proof (sizeof_pos t). pose proof (sum_sizes_nonneg ms). unfold sizeof_presence in *.
  unfold zeroed in *. simpl. rewrite zeroed_out by lia. apply IH. lia.
Qed.

Definition zero_holds (n : nat) : Prop := ∀ ms cs off m,
  table_ok n cs = true → fits ms cs = true → holds n (slots cs) off [] (zeroed ms off m).

Lemma zeroed_occ n t c off m cs k :
  zero_holds n → table_ok (S n) cs = true → (c, k) ∈ slots cs → fits_type t c = true →
  holds_occ (holds n) c off None (zeroed_type t off m).
Proof.
  intros IH Ht Hin Hf. destruct (tf_entry _ _ (table_ok_facts _ _ Ht) c k Hin) as (_ & _ & Hc).
  unfold holds_occ. destruct (is_compound c) eqn:Ec.
  - destruct Hc as [Ht' _]. unfold is_compound in Ec. apply bool_decide_eq_true in Ec.
    destruct t as [| | | | | | | | | |ms]; simpl in Hf; rewrite ?Ec in Hf; try done.
    apply andb_true_iff in Hf as [_ Hf]. simpl. rewrite lookup_insert_eq. split; [done|].
    eapply holds_local; [exact Ht'|by apply (IH ms)|]. intros i Hi.
    unfold sizeof_presence in *. rewrite lookup_insert_ne by lia. done.
  - exists (zero_body t). split; [by destruct t; simpl; rewrite lookup_insert_eq|]. split; [|done].
    destruct t as [| | | | | | | | | |ms]; simpl in Hf; try (by destruct (ctype c)).
    by rewrite Ec in Hf.
Qed.

(** A zeroed structure is an empty message of its description. *)
Lemma zeroed_holds n : zero_holds n.
Proof.
  induction n as [|n IH]; intros ms cs off m Ht Hf; [done|]. simpl.
  assert (∀ l off, fits ms l = true → (∀ c, c ∈ l → (c, 1%nat) ∈ slots cs) →
    holds_group (holds_occ (holds n)) ((λ c, (c, 1%nat)) <$> l) off [] (zeroed ms off m)) as Hgen.
  { clear Hf off. unfold fits. induction ms as [|[s t] ms IHms]; intros [|c l] off; try done. simpl.
    rewrite !andb_true_iff, Z.eqb_eq. intros [[Hc Hv] Hl] Hin.
    destruct (occ_local n cs c 1 Ht (Hin c (list_elem_of_here _ _))) as [Hsz Hloc].
    pose proof (sizeof_pos t). pose proof (sum_sizes_nonneg ms). unfold sizeof_presence in *.
    unfold zeroed. simpl. split.
    - intros [|j] Hj; [|lia]. rewrite Z.mul_0_r, Z.add_0_r.
      eapply zeroed_occ; [exact IH|exact Ht|apply Hin; left|done].
    - rewrite Hv, Z.mul_1_r.
      assert (∀ c', c' ∈ l → (c', 1%nat) ∈ slots cs) as Hin' by (intros ? ?; apply Hin; by right).
      eapply holds_group_frame; [|apply (IHms l (off + sizeof t) Hl Hin')|].
      + apply list.Forall_forall. intros [c' k'] Hc'.
        apply list_elem_of_fmap in Hc' as (c0 & [= -> ->] & Hc0). by eapply occ_local, Hin'.
      + intros i Hi. apply zeroed_out. lia. }
  rewrite (fits_slots ms cs Hf) at 1. apply Hgen; [done|]. intros c Hc. rewrite (fits_slots ms cs Hf).
  apply list_elem_of_fmap. eauto.
Qed.
