(* ===== verification/GtpIe.v ===== *)
(** * The information elements of GTPv2-C: [lib/gtp/message.c], [message.h]

    Types, C types and descriptions of the elements, in the order of the
    source; a group's description lists those of its members. *)
From stdpp Require Import strings.
From S2P Require Import Prelude.
From S2P Require Import CMem.
From S2P Require Import OgsLib.
From S2P Require Import GtpTlv.
From S2P Require Import GtpTlvProofs.
From S2P Require Import GtpStruct.
#[local] Open Scope Z_scope.

(** ** Element types *)
Definition OGS_TLV_IMSI_TYPE : Z := 1.
Definition OGS_TLV_CAUSE_TYPE : Z := 2.
Definition OGS_TLV_RECOVERY_TYPE : Z := 3.
Definition OGS_TLV_STN_SR_TYPE : Z := 51.
Definition OGS_TLV_APN_TYPE : Z := 71.
Definition OGS_TLV_AMBR_TYPE : Z := 72.
Definition OGS_TLV_EBI_TYPE : Z := 73.
Definition OGS_TLV_IP_ADDRESS_TYPE : Z := 74.
Definition OGS_TLV_MEI_TYPE : Z := 75.
Definition OGS_TLV_MSISDN_TYPE : Z := 76.
Definition OGS_TLV_INDICATION_TYPE : Z := 77.
Definition OGS_TLV_PCO_TYPE : Z := 78.
Definition OGS_TLV_PAA_TYPE : Z := 79.
Definition OGS_TLV_BEARER_QOS_TYPE : Z := 80.
Definition OGS_TLV_FLOW_QOS_TYPE : Z := 81.
Definition OGS_TLV_RAT_TYPE_TYPE : Z := 82.
Definition OGS_TLV_SERVING_NETWORK_TYPE : Z := 83.
Definition OGS_TLV_BEARER_TFT_TYPE : Z := 84.
Definition OGS_TLV_TAD_TYPE : Z := 85.
Definition OGS_TLV_ULI_TYPE : Z := 86.
Definition OGS_TLV_F_TEID_TYPE : Z := 87.
Definition OGS_TLV_TMSI_TYPE : Z := 88.
Definition OGS_TLV_GLOBAL_CN_ID_TYPE : Z := 89.
Definition OGS_TLV_S103PDF_TYPE : Z := 90.
Definition OGS_TLV_S1UDF_TYPE : Z := 91.
Definition OGS_TLV_DELAY_VALUE_TYPE : Z := 92.
Definition OGS_TLV_BEARER_CONTEXT_TYPE : Z := 93.
Definition OGS_TLV_CHARGING_ID_TYPE : Z := 94.
Definition OGS_TLV_CHARGING_CHARACTERISTICS_TYPE : Z := 95.
Definition OGS_TLV_TRACE_INFORMATION_TYPE : Z := 96.
Definition OGS_TLV_BEARER_FLAGS_TYPE : Z := 97.
Definition OGS_TLV_PDN_TYPE_TYPE : Z := 99.
Definition OGS_TLV_PTI_TYPE : Z := 100.
Definition OGS_TLV_MM_CONTEXT_TYPE : Z := 107.
Definition OGS_TLV_PDN_CONNECTION_TYPE : Z := 109.
Definition OGS_TLV_PDU_NUMBERS_TYPE : Z := 110.
Definition OGS_TLV_P_TMSI_TYPE : Z := 111.
Definition OGS_TLV_P_TMSI_SIGNATURE_TYPE : Z := 112.
Definition OGS_TLV_HOP_COUNTER_TYPE : Z := 113.
Definition OGS_TLV_UE_TIME_ZONE_TYPE : Z := 114.
Definition OGS_TLV_TRACE_REFERENCE_TYPE : Z := 115.
Definition OGS_TLV_COMPLETE_REQUEST_MESSAGE_TYPE : Z := 116.
Definition OGS_TLV_GUTI_TYPE : Z := 117.
Definition OGS_TLV_F_CONTAINER_TYPE : Z := 118.
Definition OGS_TLV_F_CAUSE_TYPE : Z := 119.
Definition OGS_TLV_PLMN_ID_TYPE : Z := 120.
Definition OGS_TLV_TARGET_IDENTIFICATION_TYPE : Z := 121.
Definition OGS_TLV_PACKET_FLOW_ID_TYPE : Z := 123.
Definition OGS_TLV_RAB_CONTEXT_TYPE : Z := 124.
Definition OGS_TLV_SOURCE_RNC_PDCP_CONTEXT_INFO_TYPE : Z := 125.
Definition OGS_TLV_PORT_NUMBER_TYPE : Z := 126.
Definition OGS_TLV_APN_RESTRICTION_TYPE : Z := 127.
Definition OGS_TLV_SELECTION_MODE_TYPE : Z := 128.
Definition OGS_TLV_SOURCE_IDENTIFICATION_TYPE : Z := 129.
Definition OGS_TLV_CHANGE_REPORTING_ACTION_TYPE : Z := 131.
Definition OGS_TLV_FQ_CSID_TYPE : Z := 132.
Definition OGS_TLV_CHANNEL_NEEDED_TYPE : Z := 133.
Definition OGS_TLV_EMLPP_PRIORITY_TYPE : Z := 134.
Definition OGS_TLV_NODE_TYPE_TYPE : Z := 135.
Definition OGS_TLV_FQDN_TYPE : Z := 136.
Definition OGS_TLV_TI_TYPE : Z := 137.
Definition OGS_TLV_MBMS_SESSION_DURATION_TYPE : Z := 138.
Definition OGS_TLV_MBMS_SERVICE_AREA_TYPE : Z := 139.
Definition OGS_TLV_MBMS_SESSION_IDENTIFIER_TYPE : Z := 140.
Definition OGS_TLV_MBMS_FLOW_IDENTIFIER_TYPE : Z := 141.
Definition OGS_TLV_MBMS_IP_MULTICAST_DISTRIBUTION_TYPE : Z := 142.
Definition OGS_TLV_MBMS_DISTRIBUTION_ACKNOWLEDGE_TYPE : Z := 143.
Definition OGS_TLV_RFSP_INDEX_TYPE : Z := 144.
Definition OGS_TLV_UCI_TYPE : Z := 145.
Definition OGS_TLV_CSG_INFORMATION_REPORTING_ACTION_TYPE : Z := 146.
Definition OGS_TLV_CSG_ID_TYPE : Z := 147.
Definition OGS_TLV_CMI_TYPE : Z := 148.
Definition OGS_TLV_SERVICE_INDICATOR_TYPE : Z := 149.
Definition OGS_TLV_DETACH_TYPE_TYPE : Z := 150.
Definition OGS_TLV_LDN_TYPE : Z := 151.
Definition OGS_TLV_NODE_FEATURES_TYPE : Z := 152.
Definition OGS_TLV_MBMS_TIME_TO_DATA_TRANSFER_TYPE : Z := 153.
Definition OGS_TLV_THROTTLING_TYPE : Z := 154.
Definition OGS_TLV_ARP_TYPE : Z := 155.
Definition OGS_TLV_EPC_TIMER_TYPE : Z := 156.
Definition OGS_TLV_SIGNALLING_PRIORITY_INDICATION_TYPE : Z := 157.
Definition OGS_TLV_TMGI_TYPE : Z := 158.
Definition OGS_TLV_ADDITIONAL_MM_CONTEXT_FOR_SRVCC_TYPE : Z := 159.
Definition OGS_TLV_ADDITIONAL_FLAGS_FOR_SRVCC_TYPE : Z := 160.
Definition OGS_TLV_MDT_CONFIGURATION_TYPE : Z := 162.
Definition OGS_TLV_APCO_TYPE : Z := 163.
Definition OGS_TLV_ABSOLUTE_TIME_OF_MBMS_DATA_TRANSFER_TYPE : Z := 164.
Definition OGS_TLV_ENB_INFORMATION_REPORTING_TYPE : Z := 165.
Definition OGS_TLV_IP4CP_TYPE : Z := 166.
Definition OGS_TLV_CHANGE_TO_REPORT_FLAGS_TYPE : Z := 167.
Definition OGS_TLV_ACTION_INDICATION_TYPE : Z := 168.
Definition OGS_TLV_TWAN_IDENTIFIER_TYPE : Z := 169.
Definition OGS_TLV_ULI_TIMESTAMP_TYPE : Z := 170.
Definition OGS_TLV_MBMS_FLAGS_TYPE : Z := 171.
Definition OGS_TLV_RAN_NAS_CAUSE_TYPE : Z := 172.
Definition OGS_TLV_CN_OPERATOR_SELECTION_ENTITY_TYPE : Z := 173.
Definition OGS_TLV_TWMI_TYPE : Z := 174.
Definition OGS_TLV_NODE_NUMBER_TYPE : Z := 175.
Definition OGS_TLV_NODE_IDENTIFIER_TYPE : Z := 176.
Definition OGS_TLV_PRESENCE_REPORTING_AREA_ACTION_TYPE : Z := 177.
Definition OGS_TLV_PRESENCE_REPORTING_AREA_INFORMATION_TYPE : Z := 178.
Definition OGS_TLV_TWAN_IDENTIFIER_TIMESTAMP_TYPE : Z := 179.
Definition OGS_TLV_OVERLOAD_CONTROL_INFORMATION_TYPE : Z := 180.
Definition OGS_TLV_LOAD_CONTROL_INFORMATION_TYPE : Z := 181.
Definition OGS_TLV_METRIC_TYPE : Z := 182.
Definition OGS_TLV_SEQUENCE_NUMBER_TYPE : Z := 183.
Definition OGS_TLV_APN_AND_RELATIVE_CAPACITY_TYPE : Z := 184.
Definition OGS_TLV_WLAN_OFFLOADABILITY_INDICATION_TYPE : Z := 185.
Definition OGS_TLV_PAGING_AND_SERVICE_INFORMATION_TYPE : Z := 186.
Definition OGS_TLV_INTEGER_NUMBER_TYPE : Z := 187.
Definition OGS_TLV_MILLISECOND_TIME_STAMP_TYPE : Z := 188.
Definition OGS_TLV_MONITORING_EVENT_INFORMATION_TYPE : Z := 189.
Definition OGS_TLV_ECGI_LIST_TYPE : Z := 190.
Definition OGS_TLV_REMOTE_UE_CONTEXT_TYPE : Z := 191.
Definition OGS_TLV_REMOTE_USER_ID_TYPE : Z := 192.
Definition OGS_TLV_REMOTE_UE_IP_INFORMATION_TYPE : Z := 193.
Definition OGS_TLV_CIOT_OPTIMIZATIONS_SUPPORT_INDICATION_TYPE : Z := 194.
Definition OGS_TLV_SCEF_PDN_CONNECTION_TYPE : Z := 195.
Definition OGS_TLV_HEADER_COMPRESSION_CONFIGURATION_TYPE : Z := 196.
Definition OGS_TLV_EPCO_TYPE : Z := 197.
Definition OGS_TLV_SERVING_PLMN_RATE_CONTROL_TYPE : Z := 198.
Definition OGS_TLV_COUNTER_TYPE : Z := 199.

(** ** C types of the elements *)
Definition ogs_tlv_imsi_t : c_type := ogs_tlv_octet_t.
Definition ogs_tlv_cause_t : c_type := ogs_tlv_octet_t.
Definition ogs_tlv_recovery_t : c_type := ogs_tlv_uint8_t.
Definition ogs_tlv_stn_sr_t : c_type := ogs_tlv_octet_t.
Definition ogs_tlv_apn_t : c_type := ogs_tlv_octet_t.
Definition ogs_tlv_ambr_t : c_type := ogs_tlv_octet_t.
Definition ogs_tlv_ebi_t : c_type := ogs_tlv_uint8_t.
Definition ogs_tlv_ip_address_t : c_type := ogs_tlv_octet_t.
Definition ogs_tlv_mei_t : c_type := ogs_tlv_octet_t.
Definition ogs_tlv_msisdn_t : c_type := ogs_tlv_octet_t.
Definition ogs_tlv_indication_t : c_type := ogs_tlv_octet_t.
Definition ogs_tlv_pco_t : c_type := ogs_tlv_octet_t.
Definition ogs_tlv_paa_t : c_type := ogs_tlv_octet_t.
Definition ogs_tlv_bearer_qos_t : c_type := ogs_tlv_octet_t.
Definition ogs_tlv_flow_qos_t : c_type := ogs_tlv_octet_t.
Definition ogs_tlv_rat_type_t : c_type := ogs_tlv_uint8_t.
Definition ogs_tlv_serving_network_t : c_type := ogs_tlv_octet_t.
Definition ogs_tlv_bearer_tft_t : c_type := ogs_tlv_octet_t.
Definition ogs_tlv_tad_t : c_type := ogs_tlv_octet_t.
Definition ogs_tlv_uli_t : c_type := ogs_tlv_octet_t.
Definition ogs_tlv_f_teid_t : c_type := ogs_tlv_octet_t.
Definition ogs_tlv_tmsi_t : c_type := ogs_tlv_octet_t.
Definition ogs_tlv_global_cn_id_t : c_type := ogs_tlv_octet_t.
Definition ogs_tlv_s103pdf_t : c_type := ogs_tlv_octet_t.
Definition ogs_tlv_s1udf_t : c_type := ogs_tlv_octet_t.
Definition ogs_tlv_delay_value_t : c_type := ogs_tlv_octet_t.
Definition ogs_tlv_charging_id_t : c_type := ogs_tlv_octet_t.
Definition ogs_tlv_charging_characteristics_t : c_type := ogs_tlv_octet_t.
Definition ogs_tlv_trace_information_t : c_type := ogs_tlv_octet_t.
Definition ogs_tlv_bearer_flags_t : c_type := ogs_tlv_octet_t.
Definition ogs_tlv_pdn_type_t : c_type := ogs_tlv_uint8_t.
Definition ogs_tlv_pti_t : c_type := ogs_tlv_octet_t.
Definition ogs_tlv_mm_context_t : c_type := ogs_tlv_octet_t.
Definition ogs_tlv_pdu_numbers_t : c_type := ogs_tlv_octet_t.
Definition ogs_tlv_p_tmsi_t : c_type := ogs_tlv_octet_t.
Definition ogs_tlv_p_tmsi_signature_t : c_type := ogs_tlv_octet_t.
Definition ogs_tlv_hop_counter_t : c_type := ogs_tlv_octet_t.
Definition ogs_tlv_ue_time_zone_t : c_type := ogs_tlv_octet_t.
Definition ogs_tlv_trace_reference_t : c_type := ogs_tlv_octet_t.
Definition ogs_tlv_complete_request_message_t : c_type := ogs_tlv_octet_t.
Definition ogs_tlv_guti_t : c_type := ogs_tlv_octet_t.
Definition ogs_tlv_f_container_t : c_type := ogs_tlv_octet_t.
Definition ogs_tlv_f_cause_t : c_type := ogs_tlv_octet_t.
Definition ogs_tlv_plmn_id_t : c_type := ogs_tlv_octet_t.
Definition ogs_tlv_target_identification_t : c_type := ogs_tlv_octet_t.
Definition ogs_tlv_packet_flow_id_t : c_type := ogs_tlv_octet_t.
Definition ogs_tlv_rab_context_t : c_type := ogs_tlv_octet_t.
Definition ogs_tlv_source_rnc_pdcp_context_info_t : c_type := ogs_tlv_octet_t.
Definition ogs_tlv_port_number_t : c_type := ogs_tlv_uint16_t.
Definition ogs_tlv_apn_restriction_t : c_type := ogs_tlv_uint8_t.
Definition ogs_tlv_selection_mode_t : c_type := ogs_tlv_uint8_t.
Definition ogs_tlv_source_identification_t : c_type := ogs_tlv_octet_t.
Definition ogs_tlv_change_reporting_action_t : c_type := ogs_tlv_octet_t.
Definition ogs_tlv_fq_csid_t : c_type := ogs_tlv_octet_t.
Definition ogs_tlv_channel_needed_t : c_type := ogs_tlv_octet_t.
Definition ogs_tlv_emlpp_priority_t : c_type := ogs_tlv_octet_t.
Definition ogs_tlv_node_type_t : c_type := ogs_tlv_uint8_t.
Definition ogs_tlv_fqdn_t : c_type := ogs_tlv_octet_t.
Definition ogs_tlv_ti_t : c_type := ogs_tlv_octet_t.
Definition ogs_tlv_mbms_session_duration_t : c_type := ogs_tlv_octet_t.
Definition ogs_tlv_mbms_service_area_t : c_type := ogs_tlv_octet_t.
Definition ogs_tlv_mbms_session_identifier_t : c_type := ogs_tlv_octet_t.
Definition ogs_tlv_mbms_flow_identifier_t : c_type := ogs_tlv_octet_t.
Definition ogs_tlv_mbms_ip_multicast_distribution_t : c_type := ogs_tlv_octet_t.
Definition ogs_tlv_mbms_distribution_acknowledge_t : c_type := ogs_tlv_octet_t.
Definition ogs_tlv_rfsp_index_t : c_type := ogs_tlv_octet_t.
Definition ogs_tlv_uci_t : c_type := ogs_tlv_octet_t.
Definition ogs_tlv_csg_information_reporting_action_t : c_type := ogs_tlv_octet_t.
Definition ogs_tlv_csg_id_t : c_type := ogs_tlv_octet_t.
Definition ogs_tlv_cmi_t : c_type := ogs_tlv_octet_t.
Definition ogs_tlv_service_indicator_t : c_type := ogs_tlv_octet_t.
Definition ogs_tlv_detach_type_t : c_type := ogs_tlv_octet_t.
Definition ogs_tlv_ldn_t : c_type := ogs_tlv_octet_t.
Definition ogs_tlv_node_features_t : c_type := ogs_tlv_octet_t.
Definition ogs_tlv_mbms_time_to_data_transfer_t : c_type := ogs_tlv_octet_t.
Definition ogs_tlv_throttling_t : c_type := ogs_tlv_octet_t.
Definition ogs_tlv_arp_t : c_type := ogs_tlv_octet_t.
Definition ogs_tlv_epc_timer_t : c_type := ogs_tlv_octet_t.
Definition ogs_tlv_signalling_priority_indication_t : c_type := ogs_tlv_octet_t.
Definition ogs_tlv_tmgi_t : c_type := ogs_tlv_octet_t.
Definition ogs_tlv_additional_mm_context_for_srvcc_t : c_type := ogs_tlv_octet_t.
Definition ogs_tlv_additional_flags_for_srvcc_t : c_type := ogs_tlv_octet_t.
Definition ogs_tlv_mdt_configuration_t : c_type := ogs_tlv_octet_t.
Definition ogs_tlv_apco_t : c_type := ogs_tlv_octet_t.
Definition ogs_tlv_absolute_time_of_mbms_data_transfer_t : c_type := ogs_tlv_octet_t.
Definition ogs_tlv_enb_information_reporting_t : c_type := ogs_tlv_octet_t.
Definition ogs_tlv_ip4cp_t : c_type := ogs_tlv_octet_t.
Definition ogs_tlv_change_to_report_flags_t : c_type := ogs_tlv_octet_t.
Definition ogs_tlv_action_indication_t : c_type := ogs_tlv_octet_t.
Definition ogs_tlv_twan_identifier_t : c_type := ogs_tlv_octet_t.
Definition ogs_tlv_uli_timestamp_t : c_type := ogs_tlv_octet_t.
Definition ogs_tlv_mbms_flags_t : c_type := ogs_tlv_octet_t.
Definition ogs_tlv_ran_nas_cause_t : c_type := ogs_tlv_octet_t.
Definition ogs_tlv_cn_operator_selection_entity_t : c_type := ogs_tlv_octet_t.
Definition ogs_tlv_twmi_t : c_type := ogs_tlv_octet_t.
Definition ogs_tlv_node_number_t : c_type := ogs_tlv_octet_t.
Definition ogs_tlv_node_identifier_t : c_type := ogs_tlv_octet_t.
Definition ogs_tlv_presence_reporting_area_action_t : c_type := ogs_tlv_octet_t.
Definition ogs_tlv_presence_reporting_area_information_t : c_type := ogs_tlv_octet_t.
Definition ogs_tlv_twan_identifier_timestamp_t : c_type := ogs_tlv_octet_t.
Definition ogs_tlv_metric_t : c_type := ogs_tlv_octet_t.
Definition ogs_tlv_sequence_number_t : c_type := ogs_tlv_octet_t.
Definition ogs_tlv_apn_and_relative_capacity_t : c_type := ogs_tlv_octet_t.
Definition ogs_tlv_wlan_offloadability_indication_t : c_type := ogs_tlv_octet_t.
Definition ogs_tlv_paging_and_service_information_t : c_type := ogs_tlv_octet_t.
Definition ogs_tlv_integer_number_t : c_type := ogs_tlv_octet_t.
Definition ogs_tlv_millisecond_time_stamp_t : c_type := ogs_tlv_octet_t.
Definition ogs_tlv_monitoring_event_information_t : c_type := ogs_tlv_octet_t.
Definition ogs_tlv_ecgi_list_t : c_type := ogs_tlv_octet_t.
Definition ogs_tlv_remote_user_id_t : c_type := ogs_tlv_octet_t.
Definition ogs_tlv_remote_ue_ip_information_t : c_type := ogs_tlv_octet_t.
Definition ogs_tlv_ciot_optimizations_support_indication_t : c_type := ogs_tlv_octet_t.
Definition ogs_tlv_header_compression_configuration_t : c_type := ogs_tlv_octet_t.
Definition ogs_tlv_epco_t : c_type := ogs_tlv_octet_t.
Definition ogs_tlv_serving_plmn_rate_control_t : c_type := ogs_tlv_octet_t.
Definition ogs_tlv_counter_t : c_type := ogs_tlv_octet_t.

(** ** Groups *)
Definition ogs_tlv_bearer_context_s : members :=
  [
    ("eps_bearer_id"%string, ogs_tlv_ebi_t); ("tft"%string, ogs_tlv_bearer_tft_t);
    ("s1_u_enodeb_f_teid"%string, ogs_tlv_f_teid_t);
    ("s4_u_sgsn_f_teid"%string, ogs_tlv_f_teid_t);
    ("s5_s8_u_sgw_f_teid"%string, ogs_tlv_f_teid_t);
    ("s5_s8_u_pgw_f_teid"%string, ogs_tlv_f_teid_t);
    ("s12_rnc_f_teid"%string, ogs_tlv_f_teid_t);
    ("s2b_u_epdg_f_teid_5"%string, ogs_tlv_f_teid_t);
    ("s2a_u_twan_f_teid_6"%string, ogs_tlv_f_teid_t);
    ("bearer_level_qos"%string, ogs_tlv_bearer_qos_t);
    ("s11_u_mme_f_teid"%string, ogs_tlv_f_teid_t); ("cause"%string, ogs_tlv_cause_t);
    ("charging_id"%string, ogs_tlv_charging_id_t);
    ("bearer_flags"%string, ogs_tlv_bearer_flags_t);
    ("protocol_configuration_options"%string, ogs_tlv_pco_t);
    ("extended_protocol_configuration_options"%string, ogs_tlv_epco_t);
    ("s2b_u_epdg_f_teid_8"%string, ogs_tlv_f_teid_t);
    ("s2b_u_pgw_f_teid"%string, ogs_tlv_f_teid_t);
    ("s2a_u_twan_f_teid_10"%string, ogs_tlv_f_teid_t);
    ("s2a_u_pgw_f_teid"%string, ogs_tlv_f_teid_t);
    ("ran_nas_cause"%string, ogs_tlv_ran_nas_cause_t);
    ("additional_protocol_configuration_options"%string, ogs_tlv_apco_t);
    ("bss_container"%string, ogs_tlv_f_container_t);
    ("transaction_identifier"%string, ogs_tlv_ti_t);
    ("packet_flow_id"%string, ogs_tlv_packet_flow_id_t)].
Definition ogs_tlv_bearer_context_t : c_type := Group ogs_tlv_bearer_context_s.
Definition ogs_tlv_pdn_connection_s : members := [].
Definition ogs_tlv_pdn_connection_t : c_type := Group ogs_tlv_pdn_connection_s.
Definition ogs_tlv_overload_control_information_s : members :=
  [
    ("overload_control_sequence_number"%string, ogs_tlv_sequence_number_t);
    ("overload_reduction_metric"%string, ogs_tlv_metric_t);
    ("period_of_validity"%string, ogs_tlv_epc_timer_t);
    ("list_of_access_point_name"%string, ogs_tlv_apn_t)].
Definition ogs_tlv_overload_control_information_t : c_type := Group ogs_tlv_overload_control_information_s.
Definition ogs_tlv_load_control_information_s : members :=
  [
    ("load_control_sequence_number"%string, ogs_tlv_sequence_number_t);
    ("load_metric"%string, ogs_tlv_metric_t);
    ("list_of_apn_and_relative_capacity"%string, ogs_tlv_apn_and_relative_capacity_t)].
Definition ogs_tlv_load_control_information_t : c_type := Group ogs_tlv_load_control_information_s.
Definition ogs_tlv_remote_ue_context_s : members :=
  [
    ("remote_user_id"%string, ogs_tlv_remote_user_id_t);
    ("remote_ue_ip_information"%string, ogs_tlv_remote_ue_ip_information_t)].
Definition ogs_tlv_remote_ue_context_t : c_type := Group ogs_tlv_remote_ue_context_s.
Definition ogs_tlv_scef_pdn_connection_s : members :=
  [
    ("apn"%string, ogs_tlv_apn_t); ("default_eps_bearer_id"%string, ogs_tlv_ebi_t);
    ("scef_id"%string, ogs_tlv_node_identifier_t)].
Definition ogs_tlv_scef_pdn_connection_t : c_type := Group ogs_tlv_scef_pdn_connection_s.

(** ** Descriptions *)
Definition ogs_tlv_desc_imsi_0 : ogs_tlv_desc_t :=
  Desc OGS_TLV_VAR_STR OGS_TLV_IMSI_TYPE 0 0
    (sizeof ogs_tlv_imsi_t) [].
Definition ogs_tlv_desc_cause_0 : ogs_tlv_desc_t :=
  Desc OGS_TLV_VAR_STR OGS_TLV_CAUSE_TYPE 0 0
    (sizeof ogs_tlv_cause_t) [].
Definition ogs_tlv_desc_recovery_0 : ogs_tlv_desc_t :=
  Desc OGS_TLV_UINT8 OGS_TLV_RECOVERY_TYPE 1 0
    (sizeof ogs_tlv_recovery_t) [].
Definition ogs_tlv_desc_stn_sr_0 : ogs_tlv_desc_t :=
  Desc OGS_TLV_VAR_STR OGS_TLV_STN_SR_TYPE 0 0
    (sizeof ogs_tlv_stn_sr_t) [].
Definition ogs_tlv_desc_apn_0 : ogs_tlv_desc_t :=
  Desc OGS_TLV_VAR_STR OGS_TLV_APN_TYPE 0 0
    (sizeof ogs_tlv_apn_t) [].
Definition ogs_tlv_desc_ambr_0 : ogs_tlv_desc_t :=
  Desc OGS_TLV_VAR_STR OGS_TLV_AMBR_TYPE 0 0
    (sizeof ogs_tlv_ambr_t) [].
Definition ogs_tlv_desc_ebi_0 : ogs_tlv_desc_t :=
  Desc OGS_TLV_UINT8 OGS_TLV_EBI_TYPE 1 0
    (sizeof ogs_tlv_ebi_t) [].
Definition ogs_tlv_desc_ebi_1 : ogs_tlv_desc_t :=
  Desc OGS_TLV_UINT8 OGS_TLV_EBI_TYPE 1 1
    (sizeof ogs_tlv_ebi_t) [].
Definition ogs_tlv_desc_ip_address_0 : ogs_tlv_desc_t :=
  Desc OGS_TLV_VAR_STR OGS_TLV_IP_ADDRESS_TYPE 0 0
    (sizeof ogs_tlv_ip_address_t) [].
Definition ogs_tlv_desc_ip_address_1 : ogs_tlv_desc_t :=
  Desc OGS_TLV_VAR_STR OGS_TLV_IP_ADDRESS_TYPE 0 1
    (sizeof ogs_tlv_ip_address_t) [].
Definition ogs_tlv_desc_ip_address_2 : ogs_tlv_desc_t :=
  Desc OGS_TLV_VAR_STR OGS_TLV_IP_ADDRESS_TYPE 0 2
    (sizeof ogs_tlv_ip_address_t) [].
Definition ogs_tlv_desc_ip_address_3 : ogs_tlv_desc_t :=
  Desc OGS_TLV_VAR_STR OGS_TLV_IP_ADDRESS_TYPE 0 3
    (sizeof ogs_tlv_ip_address_t) [].
Definition ogs_tlv_desc_mei_0 : ogs_tlv_desc_t :=
  Desc OGS_TLV_VAR_STR OGS_TLV_MEI_TYPE 0 0
    (sizeof ogs_tlv_mei_t) [].
Definition ogs_tlv_desc_msisdn_0 : ogs_tlv_desc_t :=
  Desc OGS_TLV_VAR_STR OGS_TLV_MSISDN_TYPE 0 0
    (sizeof ogs_tlv_msisdn_t) [].
Definition ogs_tlv_desc_indication_0 : ogs_tlv_desc_t :=
  Desc OGS_TLV_VAR_STR OGS_TLV_INDICATION_TYPE 0 0
    (sizeof ogs_tlv_indication_t) [].
Definition ogs_tlv_desc_pco_0 : ogs_tlv_desc_t :=
  Desc OGS_TLV_VAR_STR OGS_TLV_PCO_TYPE 0 0
    (sizeof ogs_tlv_pco_t) [].
Definition ogs_tlv_desc_paa_0 : ogs_tlv_desc_t :=
  Desc OGS_TLV_VAR_STR OGS_TLV_PAA_TYPE 0 0
    (sizeof ogs_tlv_paa_t) [].
Definition ogs_tlv_desc_bearer_qos_0 : ogs_tlv_desc_t :=
  Desc OGS_TLV_VAR_STR OGS_TLV_BEARER_QOS_TYPE 0 0
    (sizeof ogs_tlv_bearer_qos_t) [].
Definition ogs_tlv_desc_flow_qos_0 : ogs_tlv_desc_t :=
  Desc OGS_TLV_VAR_STR OGS_TLV_FLOW_QOS_TYPE 0 0
    (sizeof ogs_tlv_flow_qos_t) [].
Definition ogs_tlv_desc_rat_type_0 : ogs_tlv_desc_t :=
  Desc OGS_TLV_UINT8 OGS_TLV_RAT_TYPE_TYPE 1 0
    (sizeof ogs_tlv_rat_type_t) [].
Definition ogs_tlv_desc_serving_network_0 : ogs_tlv_desc_t :=
  Desc OGS_TLV_VAR_STR OGS_TLV_SERVING_NETWORK_TYPE 0 0
    (sizeof ogs_tlv_serving_network_t) [].
Definition ogs_tlv_desc_bearer_tft_0 : ogs_tlv_desc_t :=
  Desc OGS_TLV_VAR_STR OGS_TLV_BEARER_TFT_TYPE 0 0
    (sizeof ogs_tlv_bearer_tft_t) [].
Definition ogs_tlv_desc_tad_0 : ogs_tlv_desc_t :=
  Desc OGS_TLV_VAR_STR OGS_TLV_TAD_TYPE 0 0
    (sizeof ogs_tlv_tad_t) [].
Definition ogs_tlv_desc_uli_0 : ogs_tlv_desc_t :=
  Desc OGS_TLV_VAR_STR OGS_TLV_ULI_TYPE 0 0
    (sizeof ogs_tlv_uli_t) [].
Definition ogs_tlv_desc_f_teid_0 : ogs_tlv_desc_t :=
  Desc OGS_TLV_VAR_STR OGS_TLV_F_TEID_TYPE 0 0
    (sizeof ogs_tlv_f_teid_t) [].
Definition ogs_tlv_desc_f_teid_1 : ogs_tlv_desc_t :=
  Desc OGS_TLV_VAR_STR OGS_TLV_F_TEID_TYPE 0 1
    (sizeof ogs_tlv_f_teid_t) [].
Definition ogs_tlv_desc_f_teid_2 : ogs_tlv_desc_t :=
  Desc OGS_TLV_VAR_STR OGS_TLV_F_TEID_TYPE 0 2
    (sizeof ogs_tlv_f_teid_t) [].
Definition ogs_tlv_desc_f_teid_3 : ogs_tlv_desc_t :=
  Desc OGS_TLV_VAR_STR OGS_TLV_F_TEID_TYPE 0 3
    (sizeof ogs_tlv_f_teid_t) [].
Definition ogs_tlv_desc_f_teid_4 : ogs_tlv_desc_t :=
  Desc OGS_TLV_VAR_STR OGS_TLV_F_TEID_TYPE 0 4
    (sizeof ogs_tlv_f_teid_t) [].
Definition ogs_tlv_desc_f_teid_5 : ogs_tlv_desc_t :=
  Desc OGS_TLV_VAR_STR OGS_TLV_F_TEID_TYPE 0 5
    (sizeof ogs_tlv_f_teid_t) [].
Definition ogs_tlv_desc_f_teid_6 : ogs_tlv_desc_t :=
  Desc OGS_TLV_VAR_STR OGS_TLV_F_TEID_TYPE 0 6
    (sizeof ogs_tlv_f_teid_t) [].
Definition ogs_tlv_desc_f_teid_7 : ogs_tlv_desc_t :=
  Desc OGS_TLV_VAR_STR OGS_TLV_F_TEID_TYPE 0 7
    (sizeof ogs_tlv_f_teid_t) [].
Definition ogs_tlv_desc_f_teid_8 : ogs_tlv_desc_t :=
  Desc OGS_TLV_VAR_STR OGS_TLV_F_TEID_TYPE 0 8
    (sizeof ogs_tlv_f_teid_t) [].
Definition ogs_tlv_desc_f_teid_9 : ogs_tlv_desc_t :=
  Desc OGS_TLV_VAR_STR OGS_TLV_F_TEID_TYPE 0 9
    (sizeof ogs_tlv_f_teid_t) [].
Definition ogs_tlv_desc_f_teid_10 : ogs_tlv_desc_t :=
  Desc OGS_TLV_VAR_STR OGS_TLV_F_TEID_TYPE 0 10
    (sizeof ogs_tlv_f_teid_t) [].
Definition ogs_tlv_desc_f_teid_11 : ogs_tlv_desc_t :=
  Desc OGS_TLV_VAR_STR OGS_TLV_F_TEID_TYPE 0 11
    (sizeof ogs_tlv_f_teid_t) [].
Definition ogs_tlv_desc_tmsi_0 : ogs_tlv_desc_t :=
  Desc OGS_TLV_VAR_STR OGS_TLV_TMSI_TYPE 0 0
    (sizeof ogs_tlv_tmsi_t) [].
Definition ogs_tlv_desc_global_cn_id_0 : ogs_tlv_desc_t :=
  Desc OGS_TLV_VAR_STR OGS_TLV_GLOBAL_CN_ID_TYPE 0 0
    (sizeof ogs_tlv_global_cn_id_t) [].
Definition ogs_tlv_desc_s103pdf_0 : ogs_tlv_desc_t :=
  Desc OGS_TLV_VAR_STR OGS_TLV_S103PDF_TYPE 0 0
    (sizeof ogs_tlv_s103pdf_t) [].
Definition ogs_tlv_desc_s1udf_0 : ogs_tlv_desc_t :=
  Desc OGS_TLV_VAR_STR OGS_TLV_S1UDF_TYPE 0 0
    (sizeof ogs_tlv_s1udf_t) [].
Definition ogs_tlv_desc_delay_value_0 : ogs_tlv_desc_t :=
  Desc OGS_TLV_VAR_STR OGS_TLV_DELAY_VALUE_TYPE 0 0
    (sizeof ogs_tlv_delay_value_t) [].
Definition ogs_tlv_desc_charging_id_0 : ogs_tlv_desc_t :=
  Desc OGS_TLV_VAR_STR OGS_TLV_CHARGING_ID_TYPE 0 0
    (sizeof ogs_tlv_charging_id_t) [].
Definition ogs_tlv_desc_charging_characteristics_0 : ogs_tlv_desc_t :=
  Desc OGS_TLV_VAR_STR OGS_TLV_CHARGING_CHARACTERISTICS_TYPE 0 0
    (sizeof ogs_tlv_charging_characteristics_t) [].
Definition ogs_tlv_desc_trace_information_0 : ogs_tlv_desc_t :=
  Desc OGS_TLV_VAR_STR OGS_TLV_TRACE_INFORMATION_TYPE 0 0
    (sizeof ogs_tlv_trace_information_t) [].
Definition ogs_tlv_desc_bearer_flags_0 : ogs_tlv_desc_t :=
  Desc OGS_TLV_VAR_STR OGS_TLV_BEARER_FLAGS_TYPE 0 0
    (sizeof ogs_tlv_bearer_flags_t) [].
Definition ogs_tlv_desc_pdn_type_0 : ogs_tlv_desc_t :=
  Desc OGS_TLV_UINT8 OGS_TLV_PDN_TYPE_TYPE 1 0
    (sizeof ogs_tlv_pdn_type_t) [].
Definition ogs_tlv_desc_pti_0 : ogs_tlv_desc_t :=
  Desc OGS_TLV_VAR_STR OGS_TLV_PTI_TYPE 0 0
    (sizeof ogs_tlv_pti_t) [].
Definition ogs_tlv_desc_mm_context_0 : ogs_tlv_desc_t :=
  Desc OGS_TLV_VAR_STR OGS_TLV_MM_CONTEXT_TYPE 0 0
    (sizeof ogs_tlv_mm_context_t) [].
Definition ogs_tlv_desc_pdu_numbers_0 : ogs_tlv_desc_t :=
  Desc OGS_TLV_VAR_STR OGS_TLV_PDU_NUMBERS_TYPE 0 0
    (sizeof ogs_tlv_pdu_numbers_t) [].
Definition ogs_tlv_desc_p_tmsi_0 : ogs_tlv_desc_t :=
  Desc OGS_TLV_VAR_STR OGS_TLV_P_TMSI_TYPE 0 0
    (sizeof ogs_tlv_p_tmsi_t) [].
Definition ogs_tlv_desc_p_tmsi_signature_0 : ogs_tlv_desc_t :=
  Desc OGS_TLV_VAR_STR OGS_TLV_P_TMSI_SIGNATURE_TYPE 0 0
    (sizeof ogs_tlv_p_tmsi_signature_t) [].
Definition ogs_tlv_desc_hop_counter_0 : ogs_tlv_desc_t :=
  Desc OGS_TLV_VAR_STR OGS_TLV_HOP_COUNTER_TYPE 0 0
    (sizeof ogs_tlv_hop_counter_t) [].
Definition ogs_tlv_desc_ue_time_zone_0 : ogs_tlv_desc_t :=
  Desc OGS_TLV_VAR_STR OGS_TLV_UE_TIME_ZONE_TYPE 0 0
    (sizeof ogs_tlv_ue_time_zone_t) [].
Definition ogs_tlv_desc_trace_reference_0 : ogs_tlv_desc_t :=
  Desc OGS_TLV_VAR_STR OGS_TLV_TRACE_REFERENCE_TYPE 0 0
    (sizeof ogs_tlv_trace_reference_t) [].
Definition ogs_tlv_desc_complete_request_message_0 : ogs_tlv_desc_t :=
  Desc OGS_TLV_VAR_STR OGS_TLV_COMPLETE_REQUEST_MESSAGE_TYPE 0 0
    (sizeof ogs_tlv_complete_request_message_t) [].
Definition ogs_tlv_desc_guti_0 : ogs_tlv_desc_t :=
  Desc OGS_TLV_VAR_STR OGS_TLV_GUTI_TYPE 0 0
    (sizeof ogs_tlv_guti_t) [].
Definition ogs_tlv_desc_f_container_0 : ogs_tlv_desc_t :=
  Desc OGS_TLV_VAR_STR OGS_TLV_F_CONTAINER_TYPE 0 0
    (sizeof ogs_tlv_f_container_t) [].
Definition ogs_tlv_desc_f_cause_0 : ogs_tlv_desc_t :=
  Desc OGS_TLV_VAR_STR OGS_TLV_F_CAUSE_TYPE 0 0
    (sizeof ogs_tlv_f_cause_t) [].
Definition ogs_tlv_desc_plmn_id_0 : ogs_tlv_desc_t :=
  Desc OGS_TLV_VAR_STR OGS_TLV_PLMN_ID_TYPE 0 0
    (sizeof ogs_tlv_plmn_id_t) [].
Definition ogs_tlv_desc_target_identification_0 : ogs_tlv_desc_t :=
  Desc OGS_TLV_VAR_STR OGS_TLV_TARGET_IDENTIFICATION_TYPE 0 0
    (sizeof ogs_tlv_target_identification_t) [].
Definition ogs_tlv_desc_packet_flow_id_0 : ogs_tlv_desc_t :=
  Desc OGS_TLV_VAR_STR OGS_TLV_PACKET_FLOW_ID_TYPE 0 0
    (sizeof ogs_tlv_packet_flow_id_t) [].
Definition ogs_tlv_desc_rab_context_0 : ogs_tlv_desc_t :=
  Desc OGS_TLV_VAR_STR OGS_TLV_RAB_CONTEXT_TYPE 0 0
    (sizeof ogs_tlv_rab_context_t) [].
Definition ogs_tlv_desc_source_rnc_pdcp_context_info_0 : ogs_tlv_desc_t :=
  Desc OGS_TLV_VAR_STR OGS_TLV_SOURCE_RNC_PDCP_CONTEXT_INFO_TYPE 0 0
    (sizeof ogs_tlv_source_rnc_pdcp_context_info_t) [].
Definition ogs_tlv_desc_port_number_0 : ogs_tlv_desc_t :=
  Desc OGS_TLV_UINT16 OGS_TLV_PORT_NUMBER_TYPE 2 0
    (sizeof ogs_tlv_port_number_t) [].
Definition ogs_tlv_desc_port_number_1 : ogs_tlv_desc_t :=
  Desc OGS_TLV_UINT16 OGS_TLV_PORT_NUMBER_TYPE 2 1
    (sizeof ogs_tlv_port_number_t) [].
Definition ogs_tlv_desc_port_number_2 : ogs_tlv_desc_t :=
  Desc OGS_TLV_UINT16 OGS_TLV_PORT_NUMBER_TYPE 2 2
    (sizeof ogs_tlv_port_number_t) [].
Definition ogs_tlv_desc_apn_restriction_0 : ogs_tlv_desc_t :=
  Desc OGS_TLV_UINT8 OGS_TLV_APN_RESTRICTION_TYPE 1 0
    (sizeof ogs_tlv_apn_restriction_t) [].
Definition ogs_tlv_desc_selection_mode_0 : ogs_tlv_desc_t :=
  Desc OGS_TLV_UINT8 OGS_TLV_SELECTION_MODE_TYPE 1 0
    (sizeof ogs_tlv_selection_mode_t) [].
Definition ogs_tlv_desc_source_identification_0 : ogs_tlv_desc_t :=
  Desc OGS_TLV_VAR_STR OGS_TLV_SOURCE_IDENTIFICATION_TYPE 0 0
    (sizeof ogs_tlv_source_identification_t) [].
Definition ogs_tlv_desc_change_reporting_action_0 : ogs_tlv_desc_t :=
  Desc OGS_TLV_VAR_STR OGS_TLV_CHANGE_REPORTING_ACTION_TYPE 0 0
    (sizeof ogs_tlv_change_reporting_action_t) [].
Definition ogs_tlv_desc_fq_csid_0 : ogs_tlv_desc_t :=
  Desc OGS_TLV_VAR_STR OGS_TLV_FQ_CSID_TYPE 0 0
    (sizeof ogs_tlv_fq_csid_t) [].
Definition ogs_tlv_desc_fq_csid_1 : ogs_tlv_desc_t :=
  Desc OGS_TLV_VAR_STR OGS_TLV_FQ_CSID_TYPE 0 1
    (sizeof ogs_tlv_fq_csid_t) [].
Definition ogs_tlv_desc_fq_csid_2 : ogs_tlv_desc_t :=
  Desc OGS_TLV_VAR_STR OGS_TLV_FQ_CSID_TYPE 0 2
    (sizeof ogs_tlv_fq_csid_t) [].
Definition ogs_tlv_desc_fq_csid_3 : ogs_tlv_desc_t :=
  Desc OGS_TLV_VAR_STR OGS_TLV_FQ_CSID_TYPE 0 3
    (sizeof ogs_tlv_fq_csid_t) [].
Definition ogs_tlv_desc_channel_needed_0 : ogs_tlv_desc_t :=
  Desc OGS_TLV_VAR_STR OGS_TLV_CHANNEL_NEEDED_TYPE 0 0
    (sizeof ogs_tlv_channel_needed_t) [].
Definition ogs_tlv_desc_emlpp_priority_0 : ogs_tlv_desc_t :=
  Desc OGS_TLV_VAR_STR OGS_TLV_EMLPP_PRIORITY_TYPE 0 0
    (sizeof ogs_tlv_emlpp_priority_t) [].
Definition ogs_tlv_desc_node_type_0 : ogs_tlv_desc_t :=
  Desc OGS_TLV_UINT8 OGS_TLV_NODE_TYPE_TYPE 1 0
    (sizeof ogs_tlv_node_type_t) [].
Definition ogs_tlv_desc_fqdn_0 : ogs_tlv_desc_t :=
  Desc OGS_TLV_VAR_STR OGS_TLV_FQDN_TYPE 0 0
    (sizeof ogs_tlv_fqdn_t) [].
Definition ogs_tlv_desc_ti_0 : ogs_tlv_desc_t :=
  Desc OGS_TLV_VAR_STR OGS_TLV_TI_TYPE 0 0
    (sizeof ogs_tlv_ti_t) [].
Definition ogs_tlv_desc_mbms_session_duration_0 : ogs_tlv_desc_t :=
  Desc OGS_TLV_VAR_STR OGS_TLV_MBMS_SESSION_DURATION_TYPE 0 0
    (sizeof ogs_tlv_mbms_session_duration_t) [].
Definition ogs_tlv_desc_mbms_service_area_0 : ogs_tlv_desc_t :=
  Desc OGS_TLV_VAR_STR OGS_TLV_MBMS_SERVICE_AREA_TYPE 0 0
    (sizeof ogs_tlv_mbms_service_area_t) [].
Definition ogs_tlv_desc_mbms_session_identifier_0 : ogs_tlv_desc_t :=
  Desc OGS_TLV_VAR_STR OGS_TLV_MBMS_SESSION_IDENTIFIER_TYPE 0 0
    (sizeof ogs_tlv_mbms_session_identifier_t) [].
Definition ogs_tlv_desc_mbms_flow_identifier_0 : ogs_tlv_desc_t :=
  Desc OGS_TLV_VAR_STR OGS_TLV_MBMS_FLOW_IDENTIFIER_TYPE 0 0
    (sizeof ogs_tlv_mbms_flow_identifier_t) [].
Definition ogs_tlv_desc_mbms_ip_multicast_distribution_0 : ogs_tlv_desc_t :=
  Desc OGS_TLV_VAR_STR OGS_TLV_MBMS_IP_MULTICAST_DISTRIBUTION_TYPE 0 0
    (sizeof ogs_tlv_mbms_ip_multicast_distribution_t) [].
Definition ogs_tlv_desc_mbms_distribution_acknowledge_0 : ogs_tlv_desc_t :=
  Desc OGS_TLV_VAR_STR OGS_TLV_MBMS_DISTRIBUTION_ACKNOWLEDGE_TYPE 0 0
    (sizeof ogs_tlv_mbms_distribution_acknowledge_t) [].
Definition ogs_tlv_desc_rfsp_index_0 : ogs_tlv_desc_t :=
  Desc OGS_TLV_VAR_STR OGS_TLV_RFSP_INDEX_TYPE 0 0
    (sizeof ogs_tlv_rfsp_index_t) [].
Definition ogs_tlv_desc_uci_0 : ogs_tlv_desc_t :=
  Desc OGS_TLV_VAR_STR OGS_TLV_UCI_TYPE 0 0
    (sizeof ogs_tlv_uci_t) [].
Definition ogs_tlv_desc_csg_information_reporting_action_0 : ogs_tlv_desc_t :=
  Desc OGS_TLV_VAR_STR OGS_TLV_CSG_INFORMATION_REPORTING_ACTION_TYPE 0 0
    (sizeof ogs_tlv_csg_information_reporting_action_t) [].
Definition ogs_tlv_desc_csg_id_0 : ogs_tlv_desc_t :=
  Desc OGS_TLV_VAR_STR OGS_TLV_CSG_ID_TYPE 0 0
    (sizeof ogs_tlv_csg_id_t) [].
Definition ogs_tlv_desc_cmi_0 : ogs_tlv_desc_t :=
  Desc OGS_TLV_VAR_STR OGS_TLV_CMI_TYPE 0 0
    (sizeof ogs_tlv_cmi_t) [].
Definition ogs_tlv_desc_service_indicator_0 : ogs_tlv_desc_t :=
  Desc OGS_TLV_VAR_STR OGS_TLV_SERVICE_INDICATOR_TYPE 0 0
    (sizeof ogs_tlv_service_indicator_t) [].
Definition ogs_tlv_desc_detach_type_0 : ogs_tlv_desc_t :=
  Desc OGS_TLV_VAR_STR OGS_TLV_DETACH_TYPE_TYPE 0 0
    (sizeof ogs_tlv_detach_type_t) [].
Definition ogs_tlv_desc_ldn_0 : ogs_tlv_desc_t :=
  Desc OGS_TLV_VAR_STR OGS_TLV_LDN_TYPE 0 0
    (sizeof ogs_tlv_ldn_t) [].
Definition ogs_tlv_desc_ldn_1 : ogs_tlv_desc_t :=
  Desc OGS_TLV_VAR_STR OGS_TLV_LDN_TYPE 0 1
    (sizeof ogs_tlv_ldn_t) [].
Definition ogs_tlv_desc_ldn_2 : ogs_tlv_desc_t :=
  Desc OGS_TLV_VAR_STR OGS_TLV_LDN_TYPE 0 2
    (sizeof ogs_tlv_ldn_t) [].
Definition ogs_tlv_desc_ldn_3 : ogs_tlv_desc_t :=
  Desc OGS_TLV_VAR_STR OGS_TLV_LDN_TYPE 0 3
    (sizeof ogs_tlv_ldn_t) [].
Definition ogs_tlv_desc_node_features_0 : ogs_tlv_desc_t :=
  Desc OGS_TLV_VAR_STR OGS_TLV_NODE_FEATURES_TYPE 0 0
    (sizeof ogs_tlv_node_features_t) [].
Definition ogs_tlv_desc_mbms_time_to_data_transfer_0 : ogs_tlv_desc_t :=
  Desc OGS_TLV_VAR_STR OGS_TLV_MBMS_TIME_TO_DATA_TRANSFER_TYPE 0 0
    (sizeof ogs_tlv_mbms_time_to_data_transfer_t) [].
Definition ogs_tlv_desc_throttling_0 : ogs_tlv_desc_t :=
  Desc OGS_TLV_VAR_STR OGS_TLV_THROTTLING_TYPE 0 0
    (sizeof ogs_tlv_throttling_t) [].
Definition ogs_tlv_desc_arp_0 : ogs_tlv_desc_t :=
  Desc OGS_TLV_VAR_STR OGS_TLV_ARP_TYPE 0 0
    (sizeof ogs_tlv_arp_t) [].
Definition ogs_tlv_desc_epc_timer_0 : ogs_tlv_desc_t :=
  Desc OGS_TLV_VAR_STR OGS_TLV_EPC_TIMER_TYPE 0 0
    (sizeof ogs_tlv_epc_timer_t) [].
Definition ogs_tlv_desc_signalling_priority_indication_0 : ogs_tlv_desc_t :=
  Desc OGS_TLV_VAR_STR OGS_TLV_SIGNALLING_PRIORITY_INDICATION_TYPE 0 0
    (sizeof ogs_tlv_signalling_priority_indication_t) [].
Definition ogs_tlv_desc_tmgi_0 : ogs_tlv_desc_t :=
  Desc OGS_TLV_VAR_STR OGS_TLV_TMGI_TYPE 0 0
    (sizeof ogs_tlv_tmgi_t) [].
Definition ogs_tlv_desc_additional_mm_context_for_srvcc_0 : ogs_tlv_desc_t :=
  Desc OGS_TLV_VAR_STR OGS_TLV_ADDITIONAL_MM_CONTEXT_FOR_SRVCC_TYPE 0 0
    (sizeof ogs_tlv_additional_mm_context_for_srvcc_t) [].
Definition ogs_tlv_desc_additional_flags_for_srvcc_0 : ogs_tlv_desc_t :=
  Desc OGS_TLV_VAR_STR OGS_TLV_ADDITIONAL_FLAGS_FOR_SRVCC_TYPE 0 0
    (sizeof ogs_tlv_additional_flags_for_srvcc_t) [].
Definition ogs_tlv_desc_mdt_configuration_0 : ogs_tlv_desc_t :=
  Desc OGS_TLV_VAR_STR OGS_TLV_MDT_CONFIGURATION_TYPE 0 0
    (sizeof ogs_tlv_mdt_configuration_t) [].
Definition ogs_tlv_desc_apco_0 : ogs_tlv_desc_t :=
  Desc OGS_TLV_VAR_STR OGS_TLV_APCO_TYPE 0 0
    (sizeof ogs_tlv_apco_t) [].
Definition ogs_tlv_desc_absolute_time_of_mbms_data_transfer_0 : ogs_tlv_desc_t :=
  Desc OGS_TLV_VAR_STR OGS_TLV_ABSOLUTE_TIME_OF_MBMS_DATA_TRANSFER_TYPE 0 0
    (sizeof ogs_tlv_absolute_time_of_mbms_data_transfer_t) [].
Definition ogs_tlv_desc_enb_information_reporting_0 : ogs_tlv_desc_t :=
  Desc OGS_TLV_VAR_STR OGS_TLV_ENB_INFORMATION_REPORTING_TYPE 0 0
    (sizeof ogs_tlv_enb_information_reporting_t) [].
Definition ogs_tlv_desc_ip4cp_0 : ogs_tlv_desc_t :=
  Desc OGS_TLV_VAR_STR OGS_TLV_IP4CP_TYPE 0 0
    (sizeof ogs_tlv_ip4cp_t) [].
Definition ogs_tlv_desc_change_to_report_flags_0 : ogs_tlv_desc_t :=
  Desc OGS_TLV_VAR_STR OGS_TLV_CHANGE_TO_REPORT_FLAGS_TYPE 0 0
    (sizeof ogs_tlv_change_to_report_flags_t) [].
Definition ogs_tlv_desc_action_indication_0 : ogs_tlv_desc_t :=
  Desc OGS_TLV_VAR_STR OGS_TLV_ACTION_INDICATION_TYPE 0 0
    (sizeof ogs_tlv_action_indication_t) [].
Definition ogs_tlv_desc_twan_identifier_0 : ogs_tlv_desc_t :=
  Desc OGS_TLV_VAR_STR OGS_TLV_TWAN_IDENTIFIER_TYPE 0 0
    (sizeof ogs_tlv_twan_identifier_t) [].
Definition ogs_tlv_desc_twan_identifier_1 : ogs_tlv_desc_t :=
  Desc OGS_TLV_VAR_STR OGS_TLV_TWAN_IDENTIFIER_TYPE 0 1
    (sizeof ogs_tlv_twan_identifier_t) [].
Definition ogs_tlv_desc_uli_timestamp_0 : ogs_tlv_desc_t :=
  Desc OGS_TLV_VAR_STR OGS_TLV_ULI_TIMESTAMP_TYPE 0 0
    (sizeof ogs_tlv_uli_timestamp_t) [].
Definition ogs_tlv_desc_mbms_flags_0 : ogs_tlv_desc_t :=
  Desc OGS_TLV_VAR_STR OGS_TLV_MBMS_FLAGS_TYPE 0 0
    (sizeof ogs_tlv_mbms_flags_t) [].
Definition ogs_tlv_desc_ran_nas_cause_0 : ogs_tlv_desc_t :=
  Desc OGS_TLV_VAR_STR OGS_TLV_RAN_NAS_CAUSE_TYPE 0 0
    (sizeof ogs_tlv_ran_nas_cause_t) [].
Definition ogs_tlv_desc_cn_operator_selection_entity_0 : ogs_tlv_desc_t :=
  Desc OGS_TLV_VAR_STR OGS_TLV_CN_OPERATOR_SELECTION_ENTITY_TYPE 0 0
    (sizeof ogs_tlv_cn_operator_selection_entity_t) [].
Definition ogs_tlv_desc_twmi_0 : ogs_tlv_desc_t :=
  Desc OGS_TLV_VAR_STR OGS_TLV_TWMI_TYPE 0 0
    (sizeof ogs_tlv_twmi_t) [].
Definition ogs_tlv_desc_node_number_0 : ogs_tlv_desc_t :=
  Desc OGS_TLV_VAR_STR OGS_TLV_NODE_NUMBER_TYPE 0 0
    (sizeof ogs_tlv_node_number_t) [].
Definition ogs_tlv_desc_node_identifier_0 : ogs_tlv_desc_t :=
  Desc OGS_TLV_VAR_STR OGS_TLV_NODE_IDENTIFIER_TYPE 0 0
    (sizeof ogs_tlv_node_identifier_t) [].
Definition ogs_tlv_desc_presence_reporting_area_action_0 : ogs_tlv_desc_t :=
  Desc OGS_TLV_VAR_STR OGS_TLV_PRESENCE_REPORTING_AREA_ACTION_TYPE 0 0
    (sizeof ogs_tlv_presence_reporting_area_action_t) [].
Definition ogs_tlv_desc_presence_reporting_area_information_0 : ogs_tlv_desc_t :=
  Desc OGS_TLV_VAR_STR OGS_TLV_PRESENCE_REPORTING_AREA_INFORMATION_TYPE 0 0
    (sizeof ogs_tlv_presence_reporting_area_information_t) [].
Definition ogs_tlv_desc_twan_identifier_timestamp_0 : ogs_tlv_desc_t :=
  Desc OGS_TLV_VAR_STR OGS_TLV_TWAN_IDENTIFIER_TIMESTAMP_TYPE 0 0
    (sizeof ogs_tlv_twan_identifier_timestamp_t) [].
Definition ogs_tlv_desc_twan_identifier_timestamp_1 : ogs_tlv_desc_t :=
  Desc OGS_TLV_VAR_STR OGS_TLV_TWAN_IDENTIFIER_TIMESTAMP_TYPE 0 1
    (sizeof ogs_tlv_twan_identifier_timestamp_t) [].
Definition ogs_tlv_desc_metric_0 : ogs_tlv_desc_t :=
  Desc OGS_TLV_VAR_STR OGS_TLV_METRIC_TYPE 0 0
    (sizeof ogs_tlv_metric_t) [].
Definition ogs_tlv_desc_sequence_number_0 : ogs_tlv_desc_t :=
  Desc OGS_TLV_VAR_STR OGS_TLV_SEQUENCE_NUMBER_TYPE 0 0
    (sizeof ogs_tlv_sequence_number_t) [].
Definition ogs_tlv_desc_apn_and_relative_capacity_0 : ogs_tlv_desc_t :=
  Desc OGS_TLV_VAR_STR OGS_TLV_APN_AND_RELATIVE_CAPACITY_TYPE 0 0
    (sizeof ogs_tlv_apn_and_relative_capacity_t) [].
Definition ogs_tlv_desc_wlan_offloadability_indication_0 : ogs_tlv_desc_t :=
  Desc OGS_TLV_VAR_STR OGS_TLV_WLAN_OFFLOADABILITY_INDICATION_TYPE 0 0
    (sizeof ogs_tlv_wlan_offloadability_indication_t) [].
Definition ogs_tlv_desc_paging_and_service_information_0 : ogs_tlv_desc_t :=
  Desc OGS_TLV_VAR_STR OGS_TLV_PAGING_AND_SERVICE_INFORMATION_TYPE 0 0
    (sizeof ogs_tlv_paging_and_service_information_t) [].
Definition ogs_tlv_desc_integer_number_0 : ogs_tlv_desc_t :=
  Desc OGS_TLV_VAR_STR OGS_TLV_INTEGER_NUMBER_TYPE 0 0
    (sizeof ogs_tlv_integer_number_t) [].
Definition ogs_tlv_desc_millisecond_time_stamp_0 : ogs_tlv_desc_t :=
  Desc OGS_TLV_VAR_STR OGS_TLV_MILLISECOND_TIME_STAMP_TYPE 0 0
    (sizeof ogs_tlv_millisecond_time_stamp_t) [].
Definition ogs_tlv_desc_monitoring_event_information_0 : ogs_tlv_desc_t :=
  Desc OGS_TLV_VAR_STR OGS_TLV_MONITORING_EVENT_INFORMATION_TYPE 0 0
    (sizeof ogs_tlv_monitoring_event_information_t) [].
Definition ogs_tlv_desc_ecgi_list_0 : ogs_tlv_desc_t :=
  Desc OGS_TLV_VAR_STR OGS_TLV_ECGI_LIST_TYPE 0 0
    (sizeof ogs_tlv_ecgi_list_t) [].
Definition ogs_tlv_desc_remote_user_id_0 : ogs_tlv_desc_t :=
  Desc OGS_TLV_VAR_STR OGS_TLV_REMOTE_USER_ID_TYPE 0 0
    (sizeof ogs_tlv_remote_user_id_t) [].
Definition ogs_tlv_desc_remote_ue_ip_information_0 : ogs_tlv_desc_t :=
  Desc OGS_TLV_VAR_STR OGS_TLV_REMOTE_UE_IP_INFORMATION_TYPE 0 0
    (sizeof ogs_tlv_remote_ue_ip_information_t) [].
Definition ogs_tlv_desc_ciot_optimizations_support_indication_0 : ogs_tlv_desc_t :=
  Desc OGS_TLV_VAR_STR OGS_TLV_CIOT_OPTIMIZATIONS_SUPPORT_INDICATION_TYPE 0 0
    (sizeof ogs_tlv_ciot_optimizations_support_indication_t) [].
Definition ogs_tlv_desc_header_compression_configuration_0 : ogs_tlv_desc_t :=
  Desc OGS_TLV_VAR_STR OGS_TLV_HEADER_COMPRESSION_CONFIGURATION_TYPE 0 0
    (sizeof ogs_tlv_header_compression_configuration_t) [].
Definition ogs_tlv_desc_epco_0 : ogs_tlv_desc_t :=
  Desc OGS_TLV_VAR_STR OGS_TLV_EPCO_TYPE 0 0
    (sizeof ogs_tlv_epco_t) [].
Definition ogs_tlv_desc_serving_plmn_rate_control_0 : ogs_tlv_desc_t :=
  Desc OGS_TLV_VAR_STR OGS_TLV_SERVING_PLMN_RATE_CONTROL_TYPE 0 0
    (sizeof ogs_tlv_serving_plmn_rate_control_t) [].
Definition ogs_tlv_desc_counter_0 : ogs_tlv_desc_t :=
  Desc OGS_TLV_VAR_STR OGS_TLV_COUNTER_TYPE 0 0
    (sizeof ogs_tlv_counter_t) [].
Definition ogs_tlv_desc_bearer_context_0 : ogs_tlv_desc_t :=
  Desc OGS_TLV_COMPOUND OGS_TLV_BEARER_CONTEXT_TYPE 0 0
    (sizeof ogs_tlv_bearer_context_t)
    [
     ogs_tlv_desc_ebi_0; ogs_tlv_desc_bearer_tft_0; ogs_tlv_desc_f_teid_0;
     ogs_tlv_desc_f_teid_1; ogs_tlv_desc_f_teid_2; ogs_tlv_desc_f_teid_3; ogs_tlv_desc_f_teid_4;
     ogs_tlv_desc_f_teid_5; ogs_tlv_desc_f_teid_6; ogs_tlv_desc_bearer_qos_0;
     ogs_tlv_desc_f_teid_7; ogs_tlv_desc_cause_0; ogs_tlv_desc_charging_id_0;
     ogs_tlv_desc_bearer_flags_0; ogs_tlv_desc_pco_0; ogs_tlv_desc_epco_0;
     ogs_tlv_desc_f_teid_8; ogs_tlv_desc_f_teid_9; ogs_tlv_desc_f_teid_10;
     ogs_tlv_desc_f_teid_11; ogs_tlv_desc_ran_nas_cause_0; ogs_tlv_desc_apco_0;
     ogs_tlv_desc_f_container_0; ogs_tlv_desc_ti_0; ogs_tlv_desc_packet_flow_id_0].
Definition ogs_tlv_desc_bearer_context_1 : ogs_tlv_desc_t :=
  Desc OGS_TLV_COMPOUND OGS_TLV_BEARER_CONTEXT_TYPE 0 1
    (sizeof ogs_tlv_bearer_context_t)
    [
     ogs_tlv_desc_ebi_0; ogs_tlv_desc_bearer_tft_0; ogs_tlv_desc_f_teid_0;
     ogs_tlv_desc_f_teid_1; ogs_tlv_desc_f_teid_2; ogs_tlv_desc_f_teid_3; ogs_tlv_desc_f_teid_4;
     ogs_tlv_desc_f_teid_5; ogs_tlv_desc_f_teid_6; ogs_tlv_desc_bearer_qos_0;
     ogs_tlv_desc_f_teid_7; ogs_tlv_desc_cause_0; ogs_tlv_desc_charging_id_0;
     ogs_tlv_desc_bearer_flags_0; ogs_tlv_desc_pco_0; ogs_tlv_desc_epco_0;
     ogs_tlv_desc_f_teid_8; ogs_tlv_desc_f_teid_9; ogs_tlv_desc_f_teid_10;
     ogs_tlv_desc_f_teid_11; ogs_tlv_desc_ran_nas_cause_0; ogs_tlv_desc_apco_0;
     ogs_tlv_desc_f_container_0; ogs_tlv_desc_ti_0; ogs_tlv_desc_packet_flow_id_0].
Definition ogs_tlv_desc_bearer_context_2 : ogs_tlv_desc_t :=
  Desc OGS_TLV_COMPOUND OGS_TLV_BEARER_CONTEXT_TYPE 0 2
    (sizeof ogs_tlv_bearer_context_t)
    [
     ogs_tlv_desc_ebi_0; ogs_tlv_desc_bearer_tft_0; ogs_tlv_desc_f_teid_0;
     ogs_tlv_desc_f_teid_1; ogs_tlv_desc_f_teid_2; ogs_tlv_desc_f_teid_3; ogs_tlv_desc_f_teid_4;
     ogs_tlv_desc_f_teid_5; ogs_tlv_desc_f_teid_6; ogs_tlv_desc_bearer_qos_0;
     ogs_tlv_desc_f_teid_7; ogs_tlv_desc_cause_0; ogs_tlv_desc_charging_id_0;
     ogs_tlv_desc_bearer_flags_0; ogs_tlv_desc_pco_0; ogs_tlv_desc_epco_0;
     ogs_tlv_desc_f_teid_8; ogs_tlv_desc_f_teid_9; ogs_tlv_desc_f_teid_10;
     ogs_tlv_desc_f_teid_11; ogs_tlv_desc_ran_nas_cause_0; ogs_tlv_desc_apco_0;
     ogs_tlv_desc_f_container_0; ogs_tlv_desc_ti_0; ogs_tlv_desc_packet_flow_id_0].
Definition ogs_tlv_desc_bearer_context_3 : ogs_tlv_desc_t :=
  Desc OGS_TLV_COMPOUND OGS_TLV_BEARER_CONTEXT_TYPE 0 3
    (sizeof ogs_tlv_bearer_context_t)
    [
     ogs_tlv_desc_ebi_0; ogs_tlv_desc_bearer_tft_0; ogs_tlv_desc_f_teid_0;
     ogs_tlv_desc_f_teid_1; ogs_tlv_desc_f_teid_2; ogs_tlv_desc_f_teid_3; ogs_tlv_desc_f_teid_4;
     ogs_tlv_desc_f_teid_5; ogs_tlv_desc_f_teid_6; ogs_tlv_desc_bearer_qos_0;
     ogs_tlv_desc_f_teid_7; ogs_tlv_desc_cause_0; ogs_tlv_desc_charging_id_0;
     ogs_tlv_desc_bearer_flags_0; ogs_tlv_desc_pco_0; ogs_tlv_desc_epco_0;
     ogs_tlv_desc_f_teid_8; ogs_tlv_desc_f_teid_9; ogs_tlv_desc_f_teid_10;
     ogs_tlv_desc_f_teid_11; ogs_tlv_desc_ran_nas_cause_0; ogs_tlv_desc_apco_0;
     ogs_tlv_desc_f_container_0; ogs_tlv_desc_ti_0; ogs_tlv_desc_packet_flow_id_0].
Definition ogs_tlv_desc_bearer_context_4 : ogs_tlv_desc_t :=
  Desc OGS_TLV_COMPOUND OGS_TLV_BEARER_CONTEXT_TYPE 0 4
    (sizeof ogs_tlv_bearer_context_t)
    [
     ogs_tlv_desc_ebi_0; ogs_tlv_desc_bearer_tft_0; ogs_tlv_desc_f_teid_0;
     ogs_tlv_desc_f_teid_1; ogs_tlv_desc_f_teid_2; ogs_tlv_desc_f_teid_3; ogs_tlv_desc_f_teid_4;
     ogs_tlv_desc_f_teid_5; ogs_tlv_desc_f_teid_6; ogs_tlv_desc_bearer_qos_0;
     ogs_tlv_desc_f_teid_7; ogs_tlv_desc_cause_0; ogs_tlv_desc_charging_id_0;
     ogs_tlv_desc_bearer_flags_0; ogs_tlv_desc_pco_0; ogs_tlv_desc_epco_0;
     ogs_tlv_desc_f_teid_8; ogs_tlv_desc_f_teid_9; ogs_tlv_desc_f_teid_10;
     ogs_tlv_desc_f_teid_11; ogs_tlv_desc_ran_nas_cause_0; ogs_tlv_desc_apco_0;
     ogs_tlv_desc_f_container_0; ogs_tlv_desc_ti_0; ogs_tlv_desc_packet_flow_id_0].
Definition ogs_tlv_desc_bearer_context_5 : ogs_tlv_desc_t :=
  Desc OGS_TLV_COMPOUND OGS_TLV_BEARER_CONTEXT_TYPE 0 5
    (sizeof ogs_tlv_bearer_context_t)
    [
     ogs_tlv_desc_ebi_0; ogs_tlv_desc_bearer_tft_0; ogs_tlv_desc_f_teid_0;
     ogs_tlv_desc_f_teid_1; ogs_tlv_desc_f_teid_2; ogs_tlv_desc_f_teid_3; ogs_tlv_desc_f_teid_4;
     ogs_tlv_desc_f_teid_5; ogs_tlv_desc_f_teid_6; ogs_tlv_desc_bearer_qos_0;
     ogs_tlv_desc_f_teid_7; ogs_tlv_desc_cause_0; ogs_tlv_desc_charging_id_0;
     ogs_tlv_desc_bearer_flags_0; ogs_tlv_desc_pco_0; ogs_tlv_desc_epco_0;
     ogs_tlv_desc_f_teid_8; ogs_tlv_desc_f_teid_9; ogs_tlv_desc_f_teid_10;
     ogs_tlv_desc_f_teid_11; ogs_tlv_desc_ran_nas_cause_0; ogs_tlv_desc_apco_0;
     ogs_tlv_desc_f_container_0; ogs_tlv_desc_ti_0; ogs_tlv_desc_packet_flow_id_0].
Definition ogs_tlv_desc_bearer_context_6 : ogs_tlv_desc_t :=
  Desc OGS_TLV_COMPOUND OGS_TLV_BEARER_CONTEXT_TYPE 0 6
    (sizeof ogs_tlv_bearer_context_t)
    [
     ogs_tlv_desc_ebi_0; ogs_tlv_desc_bearer_tft_0; ogs_tlv_desc_f_teid_0;
     ogs_tlv_desc_f_teid_1; ogs_tlv_desc_f_teid_2; ogs_tlv_desc_f_teid_3; ogs_tlv_desc_f_teid_4;
     ogs_tlv_desc_f_teid_5; ogs_tlv_desc_f_teid_6; ogs_tlv_desc_bearer_qos_0;
     ogs_tlv_desc_f_teid_7; ogs_tlv_desc_cause_0; ogs_tlv_desc_charging_id_0;
     ogs_tlv_desc_bearer_flags_0; ogs_tlv_desc_pco_0; ogs_tlv_desc_epco_0;
     ogs_tlv_desc_f_teid_8; ogs_tlv_desc_f_teid_9; ogs_tlv_desc_f_teid_10;
     ogs_tlv_desc_f_teid_11; ogs_tlv_desc_ran_nas_cause_0; ogs_tlv_desc_apco_0;
     ogs_tlv_desc_f_container_0; ogs_tlv_desc_ti_0; ogs_tlv_desc_packet_flow_id_0].
Definition ogs_tlv_desc_bearer_context_7 : ogs_tlv_desc_t :=
  Desc OGS_TLV_COMPOUND OGS_TLV_BEARER_CONTEXT_TYPE 0 7
    (sizeof ogs_tlv_bearer_context_t)
    [
     ogs_tlv_desc_ebi_0; ogs_tlv_desc_bearer_tft_0; ogs_tlv_desc_f_teid_0;
     ogs_tlv_desc_f_teid_1; ogs_tlv_desc_f_teid_2; ogs_tlv_desc_f_teid_3; ogs_tlv_desc_f_teid_4;
     ogs_tlv_desc_f_teid_5; ogs_tlv_desc_f_teid_6; ogs_tlv_desc_bearer_qos_0;
     ogs_tlv_desc_f_teid_7; ogs_tlv_desc_cause_0; ogs_tlv_desc_charging_id_0;
     ogs_tlv_desc_bearer_flags_0; ogs_tlv_desc_pco_0; ogs_tlv_desc_epco_0;
     ogs_tlv_desc_f_teid_8; ogs_tlv_desc_f_teid_9; ogs_tlv_desc_f_teid_10;
     ogs_tlv_desc_f_teid_11; ogs_tlv_desc_ran_nas_cause_0; ogs_tlv_desc_apco_0;
     ogs_tlv_desc_f_container_0; ogs_tlv_desc_ti_0; ogs_tlv_desc_packet_flow_id_0].
Definition ogs_tlv_desc_bearer_context_8 : ogs_tlv_desc_t :=
  Desc OGS_TLV_COMPOUND OGS_TLV_BEARER_CONTEXT_TYPE 0 8
    (sizeof ogs_tlv_bearer_context_t)
    [
     ogs_tlv_desc_ebi_0; ogs_tlv_desc_bearer_tft_0; ogs_tlv_desc_f_teid_0;
     ogs_tlv_desc_f_teid_1; ogs_tlv_desc_f_teid_2; ogs_tlv_desc_f_teid_3; ogs_tlv_desc_f_teid_4;
     ogs_tlv_desc_f_teid_5; ogs_tlv_desc_f_teid_6; ogs_tlv_desc_bearer_qos_0;
     ogs_tlv_desc_f_teid_7; ogs_tlv_desc_cause_0; ogs_tlv_desc_charging_id_0;
     ogs_tlv_desc_bearer_flags_0; ogs_tlv_desc_pco_0; ogs_tlv_desc_epco_0;
     ogs_tlv_desc_f_teid_8; ogs_tlv_desc_f_teid_9; ogs_tlv_desc_f_teid_10;
     ogs_tlv_desc_f_teid_11; ogs_tlv_desc_ran_nas_cause_0; ogs_tlv_desc_apco_0;
     ogs_tlv_desc_f_container_0; ogs_tlv_desc_ti_0; ogs_tlv_desc_packet_flow_id_0].
Definition ogs_tlv_desc_bearer_context_9 : ogs_tlv_desc_t :=
  Desc OGS_TLV_COMPOUND OGS_TLV_BEARER_CONTEXT_TYPE 0 9
    (sizeof ogs_tlv_bearer_context_t)
    [
     ogs_tlv_desc_ebi_0; ogs_tlv_desc_bearer_tft_0; ogs_tlv_desc_f_teid_0;
     ogs_tlv_desc_f_teid_1; ogs_tlv_desc_f_teid_2; ogs_tlv_desc_f_teid_3; ogs_tlv_desc_f_teid_4;
     ogs_tlv_desc_f_teid_5; ogs_tlv_desc_f_teid_6; ogs_tlv_desc_bearer_qos_0;
     ogs_tlv_desc_f_teid_7; ogs_tlv_desc_cause_0; ogs_tlv_desc_charging_id_0;
     ogs_tlv_desc_bearer_flags_0; ogs_tlv_desc_pco_0; ogs_tlv_desc_epco_0;
     ogs_tlv_desc_f_teid_8; ogs_tlv_desc_f_teid_9; ogs_tlv_desc_f_teid_10;
     ogs_tlv_desc_f_teid_11; ogs_tlv_desc_ran_nas_cause_0; ogs_tlv_desc_apco_0;
     ogs_tlv_desc_f_container_0; ogs_tlv_desc_ti_0; ogs_tlv_desc_packet_flow_id_0].
Definition ogs_tlv_desc_bearer_context_10 : ogs_tlv_desc_t :=
  Desc OGS_TLV_COMPOUND OGS_TLV_BEARER_CONTEXT_TYPE 0 10
    (sizeof ogs_tlv_bearer_context_t)
    [
     ogs_tlv_desc_ebi_0; ogs_tlv_desc_bearer_tft_0; ogs_tlv_desc_f_teid_0;
     ogs_tlv_desc_f_teid_1; ogs_tlv_desc_f_teid_2; ogs_tlv_desc_f_teid_3; ogs_tlv_desc_f_teid_4;
     ogs_tlv_desc_f_teid_5; ogs_tlv_desc_f_teid_6; ogs_tlv_desc_bearer_qos_0;
     ogs_tlv_desc_f_teid_7; ogs_tlv_desc_cause_0; ogs_tlv_desc_charging_id_0;
     ogs_tlv_desc_bearer_flags_0; ogs_tlv_desc_pco_0; ogs_tlv_desc_epco_0;
     ogs_tlv_desc_f_teid_8; ogs_tlv_desc_f_teid_9; ogs_tlv_desc_f_teid_10;
     ogs_tlv_desc_f_teid_11; ogs_tlv_desc_ran_nas_cause_0; ogs_tlv_desc_apco_0;
     ogs_tlv_desc_f_container_0; ogs_tlv_desc_ti_0; ogs_tlv_desc_packet_flow_id_0].
Definition ogs_tlv_desc_pdn_connection_0 : ogs_tlv_desc_t :=
  Desc OGS_TLV_COMPOUND OGS_TLV_PDN_CONNECTION_TYPE 0 0
    (sizeof ogs_tlv_pdn_connection_t) [].
Definition ogs_tlv_desc_overload_control_information_0 : ogs_tlv_desc_t :=
  Desc OGS_TLV_COMPOUND OGS_TLV_OVERLOAD_CONTROL_INFORMATION_TYPE 0 0
    (sizeof ogs_tlv_overload_control_information_t)
    [
     ogs_tlv_desc_sequence_number_0; ogs_tlv_desc_metric_0; ogs_tlv_desc_epc_timer_0;
     ogs_tlv_desc_apn_0].
Definition ogs_tlv_desc_overload_control_information_1 : ogs_tlv_desc_t :=
  Desc OGS_TLV_COMPOUND OGS_TLV_OVERLOAD_CONTROL_INFORMATION_TYPE 0 1
    (sizeof ogs_tlv_overload_control_information_t)
    [
     ogs_tlv_desc_sequence_number_0; ogs_tlv_desc_metric_0; ogs_tlv_desc_epc_timer_0;
     ogs_tlv_desc_apn_0].
Definition ogs_tlv_desc_overload_control_information_2 : ogs_tlv_desc_t :=
  Desc OGS_TLV_COMPOUND OGS_TLV_OVERLOAD_CONTROL_INFORMATION_TYPE 0 2
    (sizeof ogs_tlv_overload_control_information_t)
    [
     ogs_tlv_desc_sequence_number_0; ogs_tlv_desc_metric_0; ogs_tlv_desc_epc_timer_0;
     ogs_tlv_desc_apn_0].
Definition ogs_tlv_desc_load_control_information_0 : ogs_tlv_desc_t :=
  Desc OGS_TLV_COMPOUND OGS_TLV_LOAD_CONTROL_INFORMATION_TYPE 0 0
    (sizeof ogs_tlv_load_control_information_t)
    [
     ogs_tlv_desc_sequence_number_0; ogs_tlv_desc_metric_0;
     ogs_tlv_desc_apn_and_relative_capacity_0].
Definition ogs_tlv_desc_load_control_information_1 : ogs_tlv_desc_t :=
  Desc OGS_TLV_COMPOUND OGS_TLV_LOAD_CONTROL_INFORMATION_TYPE 0 1
    (sizeof ogs_tlv_load_control_information_t)
    [
     ogs_tlv_desc_sequence_number_0; ogs_tlv_desc_metric_0;
     ogs_tlv_desc_apn_and_relative_capacity_0].
Definition ogs_tlv_desc_load_control_information_2 : ogs_tlv_desc_t :=
  Desc OGS_TLV_COMPOUND OGS_TLV_LOAD_CONTROL_INFORMATION_TYPE 0 2
    (sizeof ogs_tlv_load_control_information_t)
    [
     ogs_tlv_desc_sequence_number_0; ogs_tlv_desc_metric_0;
     ogs_tlv_desc_apn_and_relative_capacity_0].
Definition ogs_tlv_desc_remote_ue_context_0 : ogs_tlv_desc_t :=
  Desc OGS_TLV_COMPOUND OGS_TLV_REMOTE_UE_CONTEXT_TYPE 0 0
    (sizeof ogs_tlv_remote_ue_context_t)
    [
     ogs_tlv_desc_remote_user_id_0; ogs_tlv_desc_remote_ue_ip_information_0].
Definition ogs_tlv_desc_scef_pdn_connection_0 : ogs_tlv_desc_t :=
  Desc OGS_TLV_COMPOUND OGS_TLV_SCEF_PDN_CONNECTION_TYPE 0 0
    (sizeof ogs_tlv_scef_pdn_connection_t)
    [
     ogs_tlv_desc_apn_0; ogs_tlv_desc_ebi_0; ogs_tlv_desc_node_identifier_0].
