(* ===== verification/GtpMessage.v ===== *)
(** * GTPv2-C messages: [lib/gtp/message.c]

    The structures and descriptions of the messages, and the two entry
    points that choose among them: [ogs_gtp_parse_msg], which also reads the
    header, and [ogs_gtp_build_msg]. *)
From stdpp Require Import strings.
From S2P Require Import Prelude.
From S2P Require Import CMem.
From S2P Require Import OgsLib.
From S2P Require Import GtpTlv.
From S2P Require Import GtpTlvProofs.
From S2P Require Import GtpStruct.
From S2P Require Import GtpIe.
#[local] Open Scope Z_scope.

(** ** Message types *)
Definition OGS_GTP_ECHO_REQUEST_TYPE : Z := 1.
Definition OGS_GTP_ECHO_RESPONSE_TYPE : Z := 2.
Definition OGS_GTP_CREATE_SESSION_REQUEST_TYPE : Z := 32.
Definition OGS_GTP_CREATE_SESSION_RESPONSE_TYPE : Z := 33.
Definition OGS_GTP_MODIFY_BEARER_REQUEST_TYPE : Z := 34.
Definition OGS_GTP_MODIFY_BEARER_RESPONSE_TYPE : Z := 35.
Definition OGS_GTP_DELETE_SESSION_REQUEST_TYPE : Z := 36.
Definition OGS_GTP_DELETE_SESSION_RESPONSE_TYPE : Z := 37.
Definition OGS_GTP_MODIFY_BEARER_COMMAND_TYPE : Z := 64.
Definition OGS_GTP_MODIFY_BEARER_FAILURE_INDICATION_TYPE : Z := 65.
Definition OGS_GTP_DELETE_BEARER_COMMAND_TYPE : Z := 66.
Definition OGS_GTP_DELETE_BEARER_FAILURE_INDICATION_TYPE : Z := 67.
Definition OGS_GTP_DOWNLINK_DATA_NOTIFICATION_FAILURE_INDICATION_TYPE : Z := 70.
Definition OGS_GTP_CREATE_BEARER_REQUEST_TYPE : Z := 95.
Definition OGS_GTP_CREATE_BEARER_RESPONSE_TYPE : Z := 96.
Definition OGS_GTP_UPDATE_BEARER_REQUEST_TYPE : Z := 97.
Definition OGS_GTP_UPDATE_BEARER_RESPONSE_TYPE : Z := 98.
Definition OGS_GTP_DELETE_BEARER_REQUEST_TYPE : Z := 99.
Definition OGS_GTP_DELETE_BEARER_RESPONSE_TYPE : Z := 100.
Definition OGS_GTP_CREATE_INDIRECT_DATA_FORWARDING_TUNNEL_REQUEST_TYPE : Z := 166.
Definition OGS_GTP_CREATE_INDIRECT_DATA_FORWARDING_TUNNEL_RESPONSE_TYPE : Z := 167.
Definition OGS_GTP_DELETE_INDIRECT_DATA_FORWARDING_TUNNEL_REQUEST_TYPE : Z := 168.
Definition OGS_GTP_DELETE_INDIRECT_DATA_FORWARDING_TUNNEL_RESPONSE_TYPE : Z := 169.
Definition OGS_GTP_RELEASE_ACCESS_BEARERS_REQUEST_TYPE : Z := 170.
Definition OGS_GTP_RELEASE_ACCESS_BEARERS_RESPONSE_TYPE : Z := 171.
Definition OGS_GTP_DOWNLINK_DATA_NOTIFICATION_TYPE : Z := 176.
Definition OGS_GTP_DOWNLINK_DATA_NOTIFICATION_ACKNOWLEDGE_TYPE : Z := 177.
Definition OGS_GTP_MODIFY_ACCESS_BEARERS_REQUEST_TYPE : Z := 211.
Definition OGS_GTP_MODIFY_ACCESS_BEARERS_RESPONSE_TYPE : Z := 212.

(** ** Structures *)
Definition ogs_gtp_echo_request_s : members :=
  [
    ("recovery"%string, ogs_tlv_recovery_t);
    ("sending_node_features"%string, ogs_tlv_node_features_t)].
Definition ogs_gtp_echo_response_s : members :=
  [
    ("recovery"%string, ogs_tlv_recovery_t);
    ("sending_node_features"%string, ogs_tlv_node_features_t)].
Definition ogs_gtp_create_session_request_s : members :=
  [
    ("imsi"%string, ogs_tlv_imsi_t); ("msisdn"%string, ogs_tlv_msisdn_t);
    ("me_identity"%string, ogs_tlv_mei_t); ("user_location_information"%string, ogs_tlv_uli_t);
    ("serving_network"%string, ogs_tlv_serving_network_t);
    ("rat_type"%string, ogs_tlv_rat_type_t); ("indication_flags"%string, ogs_tlv_indication_t);
    ("sender_f_teid_for_control_plane"%string, ogs_tlv_f_teid_t);
    ("pgw_s5_s8_address_for_control_plane_or_pmip"%string, ogs_tlv_f_teid_t);
    ("access_point_name"%string, ogs_tlv_apn_t);
    ("selection_mode"%string, ogs_tlv_selection_mode_t);
    ("pdn_type"%string, ogs_tlv_pdn_type_t); ("pdn_address_allocation"%string, ogs_tlv_paa_t);
    ("maximum_apn_restriction"%string, ogs_tlv_apn_restriction_t);
    ("aggregate_maximum_bit_rate"%string, ogs_tlv_ambr_t);
    ("linked_eps_bearer_id"%string, ogs_tlv_ebi_t);
    ("trusted_wlan_mode_indication"%string, ogs_tlv_twmi_t);
    ("protocol_configuration_options"%string, ogs_tlv_pco_t);
    ("bearer_contexts_to_be_created"%string, ogs_tlv_bearer_context_t);
    ("bearer_contexts_to_be_removed"%string, ogs_tlv_bearer_context_t);
    ("trace_information"%string, ogs_tlv_trace_information_t);
    ("recovery"%string, ogs_tlv_recovery_t); ("mme_fq_csid"%string, ogs_tlv_fq_csid_t);
    ("sgw_fq_csid"%string, ogs_tlv_fq_csid_t); ("epdg_fq_csid"%string, ogs_tlv_fq_csid_t);
    ("twan_fq_csid"%string, ogs_tlv_fq_csid_t); ("ue_time_zone"%string, ogs_tlv_ue_time_zone_t);
    ("user_csg_information"%string, ogs_tlv_uci_t);
    ("charging_characteristics"%string, ogs_tlv_charging_characteristics_t);
    ("mme_s4_sgsn_ldn"%string, ogs_tlv_ldn_t); ("sgw_ldn"%string, ogs_tlv_ldn_t);
    ("epdg_ldn"%string, ogs_tlv_ldn_t); ("twan_ldn"%string, ogs_tlv_ldn_t);
    ("signalling_priority_indication"%string, ogs_tlv_signalling_priority_indication_t);
    ("ue_local_ip_address"%string, ogs_tlv_ip_address_t);
    ("ue_udp_port"%string, ogs_tlv_port_number_t);
    ("additional_protocol_configuration_options"%string, ogs_tlv_apco_t);
    ("hnb_local_ip_address"%string, ogs_tlv_ip_address_t);
    ("hnb_udp_port"%string, ogs_tlv_port_number_t);
    ("mme_s4_sgsn_identifier"%string, ogs_tlv_ip_address_t);
    ("twan_identifier"%string, ogs_tlv_twan_identifier_t);
    ("epdg_ip_address"%string, ogs_tlv_ip_address_t);
    ("cn_operator_selection_entity"%string, ogs_tlv_cn_operator_selection_entity_t);
    ("presence_reporting_area_information"%string, ogs_tlv_presence_reporting_area_information_t);
    ("mme_s4_sgsn_s_overload_control_information"%string, ogs_tlv_overload_control_information_t);
    ("sgw_s_overload_control_information"%string, ogs_tlv_overload_control_information_t);
    ("twan_epdg_s_overload_control_information"%string, ogs_tlv_overload_control_information_t);
    ("origination_time_stamp"%string, ogs_tlv_millisecond_time_stamp_t);
    ("maximum_wait_time"%string, ogs_tlv_integer_number_t);
    ("wlan_location_information"%string, ogs_tlv_twan_identifier_t);
    ("wlan_location_timestamp"%string, ogs_tlv_twan_identifier_timestamp_t);
    ("nbifom_container"%string, ogs_tlv_f_container_t);
    ("remote_ue_context_connected"%string, ogs_tlv_remote_ue_context_t);
    ("_aaa_server_identifier"%string, ogs_tlv_node_identifier_t);
    ("extended_protocol_configuration_options"%string, ogs_tlv_epco_t);
    ("serving_plmn_rate_control"%string, ogs_tlv_serving_plmn_rate_control_t);
    ("mo_exception_data_counter"%string, ogs_tlv_counter_t);
    ("ue_tcp_port"%string, ogs_tlv_port_number_t)].
Definition ogs_gtp_create_session_response_s : members :=
  [
    ("cause"%string, ogs_tlv_cause_t);
    ("change_reporting_action_"%string, ogs_tlv_change_reporting_action_t);
    ("csg_information_reporting_action"%string, ogs_tlv_csg_information_reporting_action_t);
    ("hnb_information_reporting"%string, ogs_tlv_enb_information_reporting_t);
    ("sender_f_teid_for_control_plane"%string, ogs_tlv_f_teid_t);
    ("pgw_s5_s8__s2a_s2b_f_teid_for_pmip_based_interface_or_for_gtp_based_control_plane_interface"%string, ogs_tlv_f_teid_t);
    ("pdn_address_allocation"%string, ogs_tlv_paa_t);
    ("apn_restriction"%string, ogs_tlv_apn_restriction_t);
    ("aggregate_maximum_bit_rate"%string, ogs_tlv_ambr_t);
    ("linked_eps_bearer_id"%string, ogs_tlv_ebi_t);
    ("protocol_configuration_options"%string, ogs_tlv_pco_t);
    ("bearer_contexts_created"%string, ogs_tlv_bearer_context_t);
    ("bearer_contexts_marked_for_removal"%string, ogs_tlv_bearer_context_t);
    ("recovery"%string, ogs_tlv_recovery_t); ("charging_gateway_name"%string, ogs_tlv_fqdn_t);
    ("charging_gateway_address"%string, ogs_tlv_ip_address_t);
    ("pgw_fq_csid"%string, ogs_tlv_fq_csid_t); ("sgw_fq_csid"%string, ogs_tlv_fq_csid_t);
    ("sgw_ldn"%string, ogs_tlv_ldn_t); ("pgw_ldn"%string, ogs_tlv_ldn_t);
    ("pgw_back_off_time"%string, ogs_tlv_epc_timer_t);
    ("additional_protocol_configuration_options"%string, ogs_tlv_apco_t);
    ("trusted_wlan_ipv4_parameters_"%string, ogs_tlv_ip4cp_t);
    ("indication_flags"%string, ogs_tlv_indication_t);
    ("presence_reporting_area_action"%string, ogs_tlv_presence_reporting_area_action_t);
    ("pgw_s_node_level_load_control_information"%string, ogs_tlv_load_control_information_t);
    ("pgw_s_apn_level_load_control_information"%string, ogs_tlv_load_control_information_t);
    ("sgw_s_node_level_load_control_information"%string, ogs_tlv_load_control_information_t);
    ("pgw_s_overload_control_information"%string, ogs_tlv_overload_control_information_t);
    ("sgw_s_overload_control_information"%string, ogs_tlv_overload_control_information_t);
    ("nbifom_container"%string, ogs_tlv_f_container_t);
    ("pdn_connection_charging_id"%string, ogs_tlv_charging_id_t);
    ("extended_protocol_configuration_options"%string, ogs_tlv_epco_t)].
Definition ogs_gtp_modify_bearer_request_s : members :=
  [
    ("me_identity"%string, ogs_tlv_mei_t); ("user_location_information"%string, ogs_tlv_uli_t);
    ("serving_network"%string, ogs_tlv_serving_network_t);
    ("rat_type"%string, ogs_tlv_rat_type_t); ("indication_flags"%string, ogs_tlv_indication_t);
    ("sender_f_teid_for_control_plane"%string, ogs_tlv_f_teid_t);
    ("aggregate_maximum_bit_rate"%string, ogs_tlv_ambr_t);
    ("delay_downlink_packet_notification_request"%string, ogs_tlv_delay_value_t);
    ("bearer_contexts_to_be_modified"%string, ogs_tlv_bearer_context_t);
    ("bearer_contexts_to_be_removed"%string, ogs_tlv_bearer_context_t);
    ("recovery"%string, ogs_tlv_recovery_t); ("ue_time_zone"%string, ogs_tlv_ue_time_zone_t);
    ("mme_fq_csid"%string, ogs_tlv_fq_csid_t); ("user_csg_information"%string, ogs_tlv_uci_t);
    ("ue_local_ip_address"%string, ogs_tlv_ip_address_t);
    ("ue_udp_port"%string, ogs_tlv_port_number_t); ("mme_s4_sgsn_ldn"%string, ogs_tlv_ldn_t);
    ("sgw_ldn"%string, ogs_tlv_ldn_t); ("hnb_local_ip_address"%string, ogs_tlv_ip_address_t);
    ("hnb_udp_port"%string, ogs_tlv_port_number_t);
    ("mme_s4_sgsn_identifier"%string, ogs_tlv_ip_address_t);
    ("cn_operator_selection_entity"%string, ogs_tlv_cn_operator_selection_entity_t);
    ("presence_reporting_area_information"%string, ogs_tlv_presence_reporting_area_information_t);
    ("mme_s4_sgsn_s_overload_control_information"%string, ogs_tlv_overload_control_information_t);
    ("sgw_s_overload_control_information"%string, ogs_tlv_overload_control_information_t);
    ("epdg_s_overload_control_information"%string, ogs_tlv_overload_control_information_t);
    ("serving_plmn_rate_control"%string, ogs_tlv_serving_plmn_rate_control_t);
    ("mo_exception_data_counter"%string, ogs_tlv_counter_t)].
Definition ogs_gtp_modify_bearer_response_s : members :=
  [
    ("cause"%string, ogs_tlv_cause_t); ("msisdn"%string, ogs_tlv_msisdn_t);
    ("linked_eps_bearer_id"%string, ogs_tlv_ebi_t);
    ("apn_restriction"%string, ogs_tlv_apn_restriction_t);
    ("protocol_configuration_options"%string, ogs_tlv_pco_t);
    ("bearer_contexts_modified"%string, ogs_tlv_bearer_context_t);
    ("bearer_contexts_marked_for_removal"%string, ogs_tlv_bearer_context_t);
    ("change_reporting_action"%string, ogs_tlv_change_reporting_action_t);
    ("csg_information_reporting_action"%string, ogs_tlv_csg_information_reporting_action_t);
    ("hnb_information_reporting_"%string, ogs_tlv_enb_information_reporting_t);
    ("charging_gateway_name"%string, ogs_tlv_fqdn_t);
    ("charging_gateway_address"%string, ogs_tlv_ip_address_t);
    ("pgw_fq_csid"%string, ogs_tlv_fq_csid_t); ("sgw_fq_csid"%string, ogs_tlv_fq_csid_t);
    ("recovery"%string, ogs_tlv_recovery_t); ("sgw_ldn"%string, ogs_tlv_ldn_t);
    ("pgw_ldn"%string, ogs_tlv_ldn_t); ("indication_flags"%string, ogs_tlv_indication_t);
    ("presence_reporting_area_action"%string, ogs_tlv_presence_reporting_area_action_t);
    ("pgw_s_node_level_load_control_information"%string, ogs_tlv_load_control_information_t);
    ("pgw_s_apn_level_load_control_information"%string, ogs_tlv_load_control_information_t);
    ("sgw_s_node_level_load_control_information"%string, ogs_tlv_load_control_information_t);
    ("pgw_s_overload_control_information"%string, ogs_tlv_overload_control_information_t);
    ("sgw_s_overload_control_information"%string, ogs_tlv_overload_control_information_t);
    ("pdn_connection_charging_id"%string, ogs_tlv_charging_id_t)].
Definition ogs_gtp_delete_session_request_s : members :=
  [
    ("cause"%string, ogs_tlv_cause_t); ("linked_eps_bearer_id"%string, ogs_tlv_ebi_t);
    ("user_location_information"%string, ogs_tlv_uli_t);
    ("indication_flags"%string, ogs_tlv_indication_t);
    ("protocol_configuration_options"%string, ogs_tlv_pco_t);
    ("originating_node"%string, ogs_tlv_node_type_t);
    ("sender_f_teid_for_control_plane"%string, ogs_tlv_f_teid_t);
    ("ue_time_zone"%string, ogs_tlv_ue_time_zone_t);
    ("uli_timestamp"%string, ogs_tlv_uli_timestamp_t);
    ("ran_nas_release_cause"%string, ogs_tlv_ran_nas_cause_t);
    ("twan_identifier"%string, ogs_tlv_twan_identifier_t);
    ("twan_identifier_timestamp"%string, ogs_tlv_twan_identifier_timestamp_t);
    ("mme_s4_sgsn_s_overload_control_information"%string, ogs_tlv_overload_control_information_t);
    ("sgw_s_overload_control_information"%string, ogs_tlv_overload_control_information_t);
    ("twan_epdg_s_overload_control_information"%string, ogs_tlv_overload_control_information_t);
    ("wlan_location_information"%string, ogs_tlv_twan_identifier_t);
    ("wlan_location_timestamp"%string, ogs_tlv_twan_identifier_timestamp_t);
    ("ue_local_ip_address"%string, ogs_tlv_ip_address_t);
    ("ue_udp_port"%string, ogs_tlv_port_number_t);
    ("extended_protocol_configuration_options"%string, ogs_tlv_epco_t);
    ("ue_tcp_port"%string, ogs_tlv_port_number_t)].
Definition ogs_gtp_delete_session_response_s : members :=
  [
    ("cause"%string, ogs_tlv_cause_t); ("recovery"%string, ogs_tlv_recovery_t);
    ("protocol_configuration_options"%string, ogs_tlv_pco_t);
    ("indication_flags"%string, ogs_tlv_indication_t);
    ("pgw_s_node_level_load_control_information"%string, ogs_tlv_load_control_information_t);
    ("pgw_s_apn_level_load_control_information"%string, ogs_tlv_load_control_information_t);
    ("sgw_s_node_level_load_control_information"%string, ogs_tlv_load_control_information_t);
    ("pgw_s_overload_control_information"%string, ogs_tlv_overload_control_information_t);
    ("sgw_s_overload_control_information"%string, ogs_tlv_overload_control_information_t);
    ("extended_protocol_configuration_options"%string, ogs_tlv_epco_t)].
Definition ogs_gtp_modify_bearer_command_s : members :=
  [
    ("apn_aggregate_maximum_bit_rate"%string, ogs_tlv_ambr_t);
    ("bearer_context"%string, ogs_tlv_bearer_context_t);
    ("mme_s4_sgsn_s_overload_control_information"%string, ogs_tlv_overload_control_information_t);
    ("sgw_s_overload_control_information"%string, ogs_tlv_overload_control_information_t);
    ("twan_epdg_s_overload_control_information"%string, ogs_tlv_overload_control_information_t);
    ("sender_f_teid_for_control_plane"%string, ogs_tlv_f_teid_t)].
Definition ogs_gtp_modify_bearer_failure_indication_s : members :=
  [
    ("cause"%string, ogs_tlv_cause_t); ("recovery"%string, ogs_tlv_recovery_t);
    ("indication_flags"%string, ogs_tlv_indication_t);
    ("pgw_s_overload_control_information"%string, ogs_tlv_overload_control_information_t);
    ("sgw_s_overload_control_information"%string, ogs_tlv_overload_control_information_t)].
Definition ogs_gtp_delete_bearer_command_s : members :=
  [
    ("bearer_contexts"%string, ogs_tlv_bearer_context_t);
    ("user_location_information"%string, ogs_tlv_uli_t);
    ("uli_timestamp"%string, ogs_tlv_uli_timestamp_t);
    ("ue_time_zone"%string, ogs_tlv_ue_time_zone_t);
    ("mme_s4_sgsn_s_overload_control_information"%string, ogs_tlv_overload_control_information_t);
    ("sgw_s_overload_control_information"%string, ogs_tlv_overload_control_information_t);
    ("sender_f_teid_for_control_plane"%string, ogs_tlv_f_teid_t)].
Definition ogs_gtp_delete_bearer_failure_indication_s : members :=
  [
    ("cause"%string, ogs_tlv_cause_t); ("bearer_context"%string, ogs_tlv_bearer_context_t);
    ("recovery"%string, ogs_tlv_recovery_t); ("indication_flags"%string, ogs_tlv_indication_t);
    ("pgw_s_overload_control_information"%string, ogs_tlv_overload_control_information_t);
    ("sgw_s_overload_control_information"%string, ogs_tlv_overload_control_information_t)].
Definition ogs_gtp_downlink_data_notification_failure_indication_s : members :=
  [
    ("cause"%string, ogs_tlv_cause_t); ("originating_node"%string, ogs_tlv_node_type_t);
    ("imsi"%string, ogs_tlv_imsi_t)].
Definition ogs_gtp_create_bearer_request_s : members :=
  [
    ("procedure_transaction_id"%string, ogs_tlv_pti_t);
    ("linked_eps_bearer_id"%string, ogs_tlv_ebi_t);
    ("protocol_configuration_options"%string, ogs_tlv_pco_t);
    ("bearer_contexts"%string, ogs_tlv_bearer_context_t);
    ("pgw_fq_csid"%string, ogs_tlv_fq_csid_t); ("sgw_fq_csid"%string, ogs_tlv_fq_csid_t);
    ("change_reporting_action"%string, ogs_tlv_change_reporting_action_t);
    ("csg_information_reporting_action"%string, ogs_tlv_csg_information_reporting_action_t);
    ("hnb_information_reporting"%string, ogs_tlv_enb_information_reporting_t);
    ("presence_reporting_area_action"%string, ogs_tlv_presence_reporting_area_action_t);
    ("indication_flags"%string, ogs_tlv_indication_t);
    ("pgw_s_node_level_load_control_information"%string, ogs_tlv_load_control_information_t);
    ("pgw_s_apn_level_load_control_information"%string, ogs_tlv_load_control_information_t);
    ("sgw_s_node_level_load_control_information"%string, ogs_tlv_load_control_information_t);
    ("pgw_s_overload_control_information"%string, ogs_tlv_overload_control_information_t);
    ("sgw_s_overload_control_information"%string, ogs_tlv_overload_control_information_t);
    ("nbifom_container"%string, ogs_tlv_f_container_t)].
Definition ogs_gtp_create_bearer_response_s : members :=
  [
    ("cause"%string, ogs_tlv_cause_t); ("bearer_contexts"%string, ogs_tlv_bearer_context_t);
    ("recovery"%string, ogs_tlv_recovery_t); ("mme_fq_csid"%string, ogs_tlv_fq_csid_t);
    ("epdg_fq_csid"%string, ogs_tlv_fq_csid_t); ("twan_fq_csid"%string, ogs_tlv_fq_csid_t);
    ("protocol_configuration_options"%string, ogs_tlv_pco_t);
    ("ue_time_zone"%string, ogs_tlv_ue_time_zone_t);
    ("user_location_information"%string, ogs_tlv_uli_t);
    ("twan_identifier"%string, ogs_tlv_twan_identifier_t);
    ("mme_s4_sgsn_s_overload_control_information"%string, ogs_tlv_overload_control_information_t);
    ("sgw_s_overload_control_information"%string, ogs_tlv_overload_control_information_t);
    ("presence_reporting_area_information"%string, ogs_tlv_presence_reporting_area_information_t);
    ("mme_s4_sgsn_identifier"%string, ogs_tlv_ip_address_t);
    ("twan_epdg_s_overload_control_information"%string, ogs_tlv_overload_control_information_t);
    ("wlan_location_information"%string, ogs_tlv_twan_identifier_t);
    ("wlan_location_timestamp"%string, ogs_tlv_twan_identifier_timestamp_t);
    ("ue_udp_port"%string, ogs_tlv_port_number_t);
    ("nbifom_container"%string, ogs_tlv_f_container_t);
    ("ue_tcp_port"%string, ogs_tlv_port_number_t)].
Definition ogs_gtp_update_bearer_request_s : members :=
  [
    ("bearer_contexts"%string, ogs_tlv_bearer_context_t);
    ("procedure_transaction_id"%string, ogs_tlv_pti_t);
    ("protocol_configuration_options"%string, ogs_tlv_pco_t);
    ("aggregate_maximum_bit_rate"%string, ogs_tlv_ambr_t);
    ("change_reporting_action"%string, ogs_tlv_change_reporting_action_t);
    ("csg_information_reporting_action"%string, ogs_tlv_csg_information_reporting_action_t);
    ("hnb_information_reporting_"%string, ogs_tlv_enb_information_reporting_t);
    ("indication_flags"%string, ogs_tlv_indication_t);
    ("pgw_fq_csid"%string, ogs_tlv_fq_csid_t); ("sgw_fq_csid"%string, ogs_tlv_fq_csid_t);
    ("presence_reporting_area_action"%string, ogs_tlv_presence_reporting_area_action_t);
    ("pgw_s_node_level_load_control_information"%string, ogs_tlv_load_control_information_t);
    ("pgw_s_apn_level_load_control_information"%string, ogs_tlv_load_control_information_t);
    ("sgw_s_node_level_load_control_information"%string, ogs_tlv_load_control_information_t);
    ("pgw_s_overload_control_information"%string, ogs_tlv_overload_control_information_t);
    ("sgw_s_overload_control_information"%string, ogs_tlv_overload_control_information_t);
    ("nbifom_container"%string, ogs_tlv_f_container_t)].
Definition ogs_gtp_update_bearer_response_s : members :=
  [
    ("cause"%string, ogs_tlv_cause_t); ("bearer_contexts"%string, ogs_tlv_bearer_context_t);
    ("protocol_configuration_options"%string, ogs_tlv_pco_t);
    ("recovery"%string, ogs_tlv_recovery_t); ("mme_fq_csid"%string, ogs_tlv_fq_csid_t);
    ("sgw_fq_csid"%string, ogs_tlv_fq_csid_t); ("epdg_fq_csid"%string, ogs_tlv_fq_csid_t);
    ("twan_fq_csid"%string, ogs_tlv_fq_csid_t);
    ("indication_flags"%string, ogs_tlv_indication_t);
    ("ue_time_zone"%string, ogs_tlv_ue_time_zone_t);
    ("user_location_information"%string, ogs_tlv_uli_t);
    ("twan_identifier"%string, ogs_tlv_twan_identifier_t);
    ("mme_s4_sgsn_s_overload_control_information"%string, ogs_tlv_overload_control_information_t);
    ("sgw_s_overload_control_information"%string, ogs_tlv_overload_control_information_t);
    ("presence_reporting_area_information"%string, ogs_tlv_presence_reporting_area_information_t);
    ("mme_s4_sgsn_identifier"%string, ogs_tlv_ip_address_t);
    ("twan_epdg_s_overload_control_information"%string, ogs_tlv_overload_control_information_t);
    ("wlan_location_information"%string, ogs_tlv_twan_identifier_t);
    ("wlan_location_timestamp"%string, ogs_tlv_twan_identifier_timestamp_t);
    ("ue_udp_port"%string, ogs_tlv_port_number_t);
    ("nbifom_container"%string, ogs_tlv_f_container_t);
    ("ue_tcp_port"%string, ogs_tlv_port_number_t)].
Definition ogs_gtp_delete_bearer_request_s : members :=
  [
    ("linked_eps_bearer_id"%string, ogs_tlv_ebi_t); ("eps_bearer_ids"%string, ogs_tlv_ebi_t);
    ("failed_bearer_contexts"%string, ogs_tlv_bearer_context_t);
    ("procedure_transaction_id"%string, ogs_tlv_pti_t);
    ("protocol_configuration_options"%string, ogs_tlv_pco_t);
    ("pgw_fq_csid"%string, ogs_tlv_fq_csid_t); ("sgw_fq_csid"%string, ogs_tlv_fq_csid_t);
    ("cause"%string, ogs_tlv_cause_t); ("indication_flags"%string, ogs_tlv_indication_t);
    ("pgw_s_node_level_load_control_information"%string, ogs_tlv_load_control_information_t);
    ("pgw_s_apn_level_load_control_information"%string, ogs_tlv_load_control_information_t);
    ("sgw_s_node_level_load_control_information"%string, ogs_tlv_load_control_information_t);
    ("pgw_s_overload_control_information"%string, ogs_tlv_overload_control_information_t);
    ("sgw_s_overload_control_information"%string, ogs_tlv_overload_control_information_t);
    ("nbifom_container"%string, ogs_tlv_f_container_t);
    ("extended_protocol_configuration_options"%string, ogs_tlv_epco_t)].
Definition ogs_gtp_delete_bearer_response_s : members :=
  [
    ("cause"%string, ogs_tlv_cause_t); ("linked_eps_bearer_id"%string, ogs_tlv_ebi_t);
    ("bearer_contexts"%string, ogs_tlv_bearer_context_t);
    ("recovery"%string, ogs_tlv_recovery_t); ("mme_fq_csid"%string, ogs_tlv_fq_csid_t);
    ("sgw_fq_csid"%string, ogs_tlv_fq_csid_t); ("epdg_fq_csid"%string, ogs_tlv_fq_csid_t);
    ("twan_fq_csid"%string, ogs_tlv_fq_csid_t);
    ("protocol_configuration_options"%string, ogs_tlv_pco_t);
    ("ue_time_zone"%string, ogs_tlv_ue_time_zone_t);
    ("user_location_information"%string, ogs_tlv_uli_t);
    ("uli_timestamp"%string, ogs_tlv_uli_timestamp_t);
    ("twan_identifier"%string, ogs_tlv_twan_identifier_t);
    ("twan_identifier_timestamp"%string, ogs_tlv_twan_identifier_timestamp_t);
    ("mme_s4_sgsn_s_overload_control_information"%string, ogs_tlv_overload_control_information_t);
    ("sgw_s_overload_control_information"%string, ogs_tlv_overload_control_information_t);
    ("mme_s4_sgsn_identifier"%string, ogs_tlv_ip_address_t);
    ("twan_epdg_s_overload_control_information"%string, ogs_tlv_overload_control_information_t);
    ("wlan_location_information"%string, ogs_tlv_twan_identifier_t);
    ("wlan_location_timestamp"%string, ogs_tlv_twan_identifier_timestamp_t);
    ("ue_udp_port"%string, ogs_tlv_port_number_t);
    ("nbifom_container"%string, ogs_tlv_f_container_t);
    ("ue_tcp_port"%string, ogs_tlv_port_number_t)].
Definition ogs_gtp_create_indirect_data_forwarding_tunnel_request_s : members :=
  [
    ("imsi"%string, ogs_tlv_imsi_t); ("me_identity"%string, ogs_tlv_mei_t);
    ("indication_flags"%string, ogs_tlv_indication_t);
    ("sender_f_teid_for_control_plane"%string, ogs_tlv_f_teid_t);
    ("bearer_context_0"%string, ogs_tlv_bearer_context_t);
    ("bearer_context_1"%string, ogs_tlv_bearer_context_t);
    ("bearer_context_2"%string, ogs_tlv_bearer_context_t);
    ("bearer_context_3"%string, ogs_tlv_bearer_context_t);
    ("bearer_context_4"%string, ogs_tlv_bearer_context_t);
    ("bearer_context_5"%string, ogs_tlv_bearer_context_t);
    ("bearer_context_6"%string, ogs_tlv_bearer_context_t);
    ("bearer_context_7"%string, ogs_tlv_bearer_context_t);
    ("bearer_context_8"%string, ogs_tlv_bearer_context_t);
    ("bearer_context_9"%string, ogs_tlv_bearer_context_t);
    ("bearer_context_10"%string, ogs_tlv_bearer_context_t);
    ("recovery"%string, ogs_tlv_recovery_t)].
Definition ogs_gtp_create_indirect_data_forwarding_tunnel_response_s : members :=
  [
    ("cause"%string, ogs_tlv_cause_t);
    ("sender_f_teid_for_control_plane"%string, ogs_tlv_f_teid_t);
    ("bearer_context_0"%string, ogs_tlv_bearer_context_t);
    ("bearer_context_1"%string, ogs_tlv_bearer_context_t);
    ("bearer_context_2"%string, ogs_tlv_bearer_context_t);
    ("bearer_context_3"%string, ogs_tlv_bearer_context_t);
    ("bearer_context_4"%string, ogs_tlv_bearer_context_t);
    ("bearer_context_5"%string, ogs_tlv_bearer_context_t);
    ("bearer_context_6"%string, ogs_tlv_bearer_context_t);
    ("bearer_context_7"%string, ogs_tlv_bearer_context_t);
    ("bearer_context_8"%string, ogs_tlv_bearer_context_t);
    ("bearer_context_9"%string, ogs_tlv_bearer_context_t);
    ("bearer_context_10"%string, ogs_tlv_bearer_context_t);
    ("recovery"%string, ogs_tlv_recovery_t)].
Definition ogs_gtp_delete_indirect_data_forwarding_tunnel_request_s : members := [].
Definition ogs_gtp_delete_indirect_data_forwarding_tunnel_response_s : members :=
  [
    ("cause"%string, ogs_tlv_cause_t); ("recovery"%string, ogs_tlv_recovery_t)].
Definition ogs_gtp_release_access_bearers_request_s : members :=
  [
    ("list_of_rabs"%string, ogs_tlv_ebi_t); ("originating_node"%string, ogs_tlv_node_type_t);
    ("indication_flags"%string, ogs_tlv_indication_t)].
Definition ogs_gtp_release_access_bearers_response_s : members :=
  [
    ("cause"%string, ogs_tlv_cause_t); ("recovery"%string, ogs_tlv_recovery_t);
    ("indication_flags"%string, ogs_tlv_indication_t);
    ("sgw_s_node_level_load_control_information"%string, ogs_tlv_load_control_information_t);
    ("sgw_s_overload_control_information"%string, ogs_tlv_overload_control_information_t)].
Definition ogs_gtp_downlink_data_notification_s : members :=
  [
    ("cause"%string, ogs_tlv_cause_t); ("eps_bearer_id"%string, ogs_tlv_ebi_t);
    ("allocation_retention_priority"%string, ogs_tlv_arp_t); ("imsi"%string, ogs_tlv_imsi_t);
    ("sender_f_teid_for_control_plane"%string, ogs_tlv_f_teid_t);
    ("indication_flags"%string, ogs_tlv_indication_t);
    ("sgw_s_node_level_load_control_information"%string, ogs_tlv_load_control_information_t);
    ("sgw_s_overload_control_information"%string, ogs_tlv_overload_control_information_t);
    ("paging_and_service_information"%string, ogs_tlv_paging_and_service_information_t)].
Definition ogs_gtp_downlink_data_notification_acknowledge_s : members :=
  [
    ("cause"%string, ogs_tlv_cause_t);
    ("data_notification_delay"%string, ogs_tlv_delay_value_t);
    ("recovery"%string, ogs_tlv_recovery_t);
    ("dl_low_priority_traffic_throttling_"%string, ogs_tlv_throttling_t);
    ("imsi"%string, ogs_tlv_imsi_t); ("dl_buffering_duration"%string, ogs_tlv_epc_timer_t);
    ("dl_buffering_suggested_packet_count"%string, ogs_tlv_integer_number_t)].
Definition ogs_gtp_modify_access_bearers_request_s : members :=
  [
    ("indication_flags"%string, ogs_tlv_indication_t);
    ("sender_f_teid_for_control_plane"%string, ogs_tlv_f_teid_t);
    ("delay_downlink_packet_notification_request"%string, ogs_tlv_delay_value_t);
    ("bearer_contexts_to_be_modified"%string, ogs_tlv_bearer_context_t);
    ("bearer_contexts_to_be_removed"%string, ogs_tlv_bearer_context_t);
    ("recovery"%string, ogs_tlv_recovery_t)].
Definition ogs_gtp_modify_access_bearers_response_s : members :=
  [
    ("cause"%string, ogs_tlv_cause_t);
    ("bearer_contexts_modified"%string, ogs_tlv_bearer_context_t);
    ("bearer_contexts_marked_for_removal"%string, ogs_tlv_bearer_context_t);
    ("recovery"%string, ogs_tlv_recovery_t); ("indication_flags"%string, ogs_tlv_indication_t);
    ("sgw_s_node_level_load_control_information"%string, ogs_tlv_load_control_information_t);
    ("sgw_s_overload_control_information"%string, ogs_tlv_overload_control_information_t)].

(** ** Descriptions *)
Definition ogs_tlv_desc_echo_request : ogs_tlv_desc_t :=
  Desc OGS_TLV_MESSAGE 0 0 0 0
    [
     ogs_tlv_desc_recovery_0; ogs_tlv_desc_node_features_0].
Definition ogs_tlv_desc_echo_response : ogs_tlv_desc_t :=
  Desc OGS_TLV_MESSAGE 0 0 0 0
    [
     ogs_tlv_desc_recovery_0; ogs_tlv_desc_node_features_0].
Definition ogs_tlv_desc_create_session_request : ogs_tlv_desc_t :=
  Desc OGS_TLV_MESSAGE 0 0 0 0
    [
     ogs_tlv_desc_imsi_0; ogs_tlv_desc_msisdn_0; ogs_tlv_desc_mei_0; ogs_tlv_desc_uli_0;
     ogs_tlv_desc_serving_network_0; ogs_tlv_desc_rat_type_0; ogs_tlv_desc_indication_0;
     ogs_tlv_desc_f_teid_0; ogs_tlv_desc_f_teid_1; ogs_tlv_desc_apn_0;
     ogs_tlv_desc_selection_mode_0; ogs_tlv_desc_pdn_type_0; ogs_tlv_desc_paa_0;
     ogs_tlv_desc_apn_restriction_0; ogs_tlv_desc_ambr_0; ogs_tlv_desc_ebi_0;
     ogs_tlv_desc_twmi_0; ogs_tlv_desc_pco_0; ogs_tlv_desc_bearer_context_0;
     ogs_tlv_desc_bearer_context_1; ogs_tlv_desc_trace_information_0; ogs_tlv_desc_recovery_0;
     ogs_tlv_desc_fq_csid_0; ogs_tlv_desc_fq_csid_1; ogs_tlv_desc_fq_csid_2;
     ogs_tlv_desc_fq_csid_3; ogs_tlv_desc_ue_time_zone_0; ogs_tlv_desc_uci_0;
     ogs_tlv_desc_charging_characteristics_0; ogs_tlv_desc_ldn_0; ogs_tlv_desc_ldn_1;
     ogs_tlv_desc_ldn_2; ogs_tlv_desc_ldn_3; ogs_tlv_desc_signalling_priority_indication_0;
     ogs_tlv_desc_ip_address_0; ogs_tlv_desc_port_number_0; ogs_tlv_desc_apco_0;
     ogs_tlv_desc_ip_address_1; ogs_tlv_desc_port_number_1; ogs_tlv_desc_ip_address_2;
     ogs_tlv_desc_twan_identifier_0; ogs_tlv_desc_ip_address_3;
     ogs_tlv_desc_cn_operator_selection_entity_0;
     ogs_tlv_desc_presence_reporting_area_information_0;
     ogs_tlv_desc_overload_control_information_0; ogs_tlv_desc_overload_control_information_1;
     ogs_tlv_desc_overload_control_information_2; ogs_tlv_desc_millisecond_time_stamp_0;
     ogs_tlv_desc_integer_number_0; ogs_tlv_desc_twan_identifier_1;
     ogs_tlv_desc_twan_identifier_timestamp_0; ogs_tlv_desc_f_container_0;
     ogs_tlv_desc_remote_ue_context_0; ogs_tlv_desc_node_identifier_0; ogs_tlv_desc_epco_0;
     ogs_tlv_desc_serving_plmn_rate_control_0; ogs_tlv_desc_counter_0;
     ogs_tlv_desc_port_number_2].
Definition ogs_tlv_desc_create_session_response : ogs_tlv_desc_t :=
  Desc OGS_TLV_MESSAGE 0 0 0 0
    [
     ogs_tlv_desc_cause_0; ogs_tlv_desc_change_reporting_action_0;
     ogs_tlv_desc_csg_information_reporting_action_0; ogs_tlv_desc_enb_information_reporting_0;
     ogs_tlv_desc_f_teid_0; ogs_tlv_desc_f_teid_1; ogs_tlv_desc_paa_0;
     ogs_tlv_desc_apn_restriction_0; ogs_tlv_desc_ambr_0; ogs_tlv_desc_ebi_0;
     ogs_tlv_desc_pco_0; ogs_tlv_desc_bearer_context_0; ogs_tlv_desc_bearer_context_1;
     ogs_tlv_desc_recovery_0; ogs_tlv_desc_fqdn_0; ogs_tlv_desc_ip_address_0;
     ogs_tlv_desc_fq_csid_0; ogs_tlv_desc_fq_csid_1; ogs_tlv_desc_ldn_0; ogs_tlv_desc_ldn_1;
     ogs_tlv_desc_epc_timer_0; ogs_tlv_desc_apco_0; ogs_tlv_desc_ip4cp_0;
     ogs_tlv_desc_indication_0; ogs_tlv_desc_presence_reporting_area_action_0;
     ogs_tlv_desc_load_control_information_0; ogs_tlv_desc_load_control_information_1;
     ogs_tlv_desc_load_control_information_2; ogs_tlv_desc_overload_control_information_0;
     ogs_tlv_desc_overload_control_information_1; ogs_tlv_desc_f_container_0;
     ogs_tlv_desc_charging_id_0; ogs_tlv_desc_epco_0].
Definition ogs_tlv_desc_modify_bearer_request : ogs_tlv_desc_t :=
  Desc OGS_TLV_MESSAGE 0 0 0 0
    [
     ogs_tlv_desc_mei_0; ogs_tlv_desc_uli_0; ogs_tlv_desc_serving_network_0;
     ogs_tlv_desc_rat_type_0; ogs_tlv_desc_indication_0; ogs_tlv_desc_f_teid_0;
     ogs_tlv_desc_ambr_0; ogs_tlv_desc_delay_value_0; ogs_tlv_desc_bearer_context_0;
     ogs_tlv_desc_bearer_context_1; ogs_tlv_desc_recovery_0; ogs_tlv_desc_ue_time_zone_0;
     ogs_tlv_desc_fq_csid_0; ogs_tlv_desc_uci_0; ogs_tlv_desc_ip_address_1;
     ogs_tlv_desc_port_number_1; ogs_tlv_desc_ldn_0; ogs_tlv_desc_ldn_1;
     ogs_tlv_desc_ip_address_0; ogs_tlv_desc_port_number_0; ogs_tlv_desc_ip_address_2;
     ogs_tlv_desc_cn_operator_selection_entity_0;
     ogs_tlv_desc_presence_reporting_area_information_0;
     ogs_tlv_desc_overload_control_information_0; ogs_tlv_desc_overload_control_information_1;
     ogs_tlv_desc_overload_control_information_2; ogs_tlv_desc_serving_plmn_rate_control_0;
     ogs_tlv_desc_counter_0].
Definition ogs_tlv_desc_modify_bearer_response : ogs_tlv_desc_t :=
  Desc OGS_TLV_MESSAGE 0 0 0 0
    [
     ogs_tlv_desc_cause_0; ogs_tlv_desc_msisdn_0; ogs_tlv_desc_ebi_0;
     ogs_tlv_desc_apn_restriction_0; ogs_tlv_desc_pco_0; ogs_tlv_desc_bearer_context_0;
     ogs_tlv_desc_bearer_context_1; ogs_tlv_desc_change_reporting_action_0;
     ogs_tlv_desc_csg_information_reporting_action_0; ogs_tlv_desc_enb_information_reporting_0;
     ogs_tlv_desc_fqdn_0; ogs_tlv_desc_ip_address_0; ogs_tlv_desc_fq_csid_0;
     ogs_tlv_desc_fq_csid_1; ogs_tlv_desc_recovery_0; ogs_tlv_desc_ldn_0; ogs_tlv_desc_ldn_1;
     ogs_tlv_desc_indication_0; ogs_tlv_desc_presence_reporting_area_action_0;
     ogs_tlv_desc_load_control_information_0; ogs_tlv_desc_load_control_information_1;
     ogs_tlv_desc_load_control_information_2; ogs_tlv_desc_overload_control_information_0;
     ogs_tlv_desc_overload_control_information_1; ogs_tlv_desc_charging_id_0].
Definition ogs_tlv_desc_delete_session_request : ogs_tlv_desc_t :=
  Desc OGS_TLV_MESSAGE 0 0 0 0
    [
     ogs_tlv_desc_cause_0; ogs_tlv_desc_ebi_0; ogs_tlv_desc_uli_0; ogs_tlv_desc_indication_0;
     ogs_tlv_desc_pco_0; ogs_tlv_desc_node_type_0; ogs_tlv_desc_f_teid_0;
     ogs_tlv_desc_ue_time_zone_0; ogs_tlv_desc_uli_timestamp_0; ogs_tlv_desc_ran_nas_cause_0;
     ogs_tlv_desc_twan_identifier_0; ogs_tlv_desc_twan_identifier_timestamp_0;
     ogs_tlv_desc_overload_control_information_0; ogs_tlv_desc_overload_control_information_1;
     ogs_tlv_desc_overload_control_information_2; ogs_tlv_desc_twan_identifier_1;
     ogs_tlv_desc_twan_identifier_timestamp_1; ogs_tlv_desc_ip_address_0;
     ogs_tlv_desc_port_number_0; ogs_tlv_desc_epco_0; ogs_tlv_desc_port_number_1].
Definition ogs_tlv_desc_delete_session_response : ogs_tlv_desc_t :=
  Desc OGS_TLV_MESSAGE 0 0 0 0
    [
     ogs_tlv_desc_cause_0; ogs_tlv_desc_recovery_0; ogs_tlv_desc_pco_0;
     ogs_tlv_desc_indication_0; ogs_tlv_desc_load_control_information_0;
     ogs_tlv_desc_load_control_information_1; ogs_tlv_desc_load_control_information_2;
     ogs_tlv_desc_overload_control_information_0; ogs_tlv_desc_overload_control_information_1;
     ogs_tlv_desc_epco_0].
Definition ogs_tlv_desc_modify_bearer_command : ogs_tlv_desc_t :=
  Desc OGS_TLV_MESSAGE 0 0 0 0
    [
     ogs_tlv_desc_ambr_0; ogs_tlv_desc_bearer_context_0;
     ogs_tlv_desc_overload_control_information_0; ogs_tlv_desc_overload_control_information_1;
     ogs_tlv_desc_overload_control_information_2; ogs_tlv_desc_f_teid_0].
Definition ogs_tlv_desc_modify_bearer_failure_indication : ogs_tlv_desc_t :=
  Desc OGS_TLV_MESSAGE 0 0 0 0
    [
     ogs_tlv_desc_cause_0; ogs_tlv_desc_recovery_0; ogs_tlv_desc_indication_0;
     ogs_tlv_desc_overload_control_information_0; ogs_tlv_desc_overload_control_information_1].
Definition ogs_tlv_desc_delete_bearer_command : ogs_tlv_desc_t :=
  Desc OGS_TLV_MESSAGE 0 0 0 0
    [
     ogs_tlv_desc_bearer_context_0; ogs_tlv_desc_uli_0; ogs_tlv_desc_uli_timestamp_0;
     ogs_tlv_desc_ue_time_zone_0; ogs_tlv_desc_overload_control_information_0;
     ogs_tlv_desc_overload_control_information_1; ogs_tlv_desc_f_teid_0].
Definition ogs_tlv_desc_delete_bearer_failure_indication : ogs_tlv_desc_t :=
  Desc OGS_TLV_MESSAGE 0 0 0 0
    [
     ogs_tlv_desc_cause_0; ogs_tlv_desc_bearer_context_0; ogs_tlv_desc_recovery_0;
     ogs_tlv_desc_indication_0; ogs_tlv_desc_overload_control_information_0;
     ogs_tlv_desc_overload_control_information_1].
Definition ogs_tlv_desc_downlink_data_notification_failure_indication : ogs_tlv_desc_t :=
  Desc OGS_TLV_MESSAGE 0 0 0 0
    [
     ogs_tlv_desc_cause_0; ogs_tlv_desc_node_type_0; ogs_tlv_desc_imsi_0].
Definition ogs_tlv_desc_create_bearer_request : ogs_tlv_desc_t :=
  Desc OGS_TLV_MESSAGE 0 0 0 0
    [
     ogs_tlv_desc_pti_0; ogs_tlv_desc_ebi_0; ogs_tlv_desc_pco_0; ogs_tlv_desc_bearer_context_0;
     ogs_tlv_desc_fq_csid_0; ogs_tlv_desc_fq_csid_1; ogs_tlv_desc_change_reporting_action_0;
     ogs_tlv_desc_csg_information_reporting_action_0; ogs_tlv_desc_enb_information_reporting_0;
     ogs_tlv_desc_presence_reporting_area_action_0; ogs_tlv_desc_indication_0;
     ogs_tlv_desc_load_control_information_0; ogs_tlv_desc_load_control_information_1;
     ogs_tlv_desc_load_control_information_2; ogs_tlv_desc_overload_control_information_0;
     ogs_tlv_desc_overload_control_information_1; ogs_tlv_desc_f_container_0].
Definition ogs_tlv_desc_create_bearer_response : ogs_tlv_desc_t :=
  Desc OGS_TLV_MESSAGE 0 0 0 0
    [
     ogs_tlv_desc_cause_0; ogs_tlv_desc_bearer_context_0; ogs_tlv_desc_recovery_0;
     ogs_tlv_desc_fq_csid_0; ogs_tlv_desc_fq_csid_2; ogs_tlv_desc_fq_csid_3; ogs_tlv_desc_pco_0;
     ogs_tlv_desc_ue_time_zone_0; ogs_tlv_desc_uli_0; ogs_tlv_desc_twan_identifier_0;
     ogs_tlv_desc_overload_control_information_0; ogs_tlv_desc_overload_control_information_1;
     ogs_tlv_desc_presence_reporting_area_information_0; ogs_tlv_desc_ip_address_0;
     ogs_tlv_desc_overload_control_information_2; ogs_tlv_desc_twan_identifier_1;
     ogs_tlv_desc_twan_identifier_timestamp_1; ogs_tlv_desc_port_number_0;
     ogs_tlv_desc_f_container_0; ogs_tlv_desc_port_number_1].
Definition ogs_tlv_desc_update_bearer_request : ogs_tlv_desc_t :=
  Desc OGS_TLV_MESSAGE 0 0 0 0
    [
     ogs_tlv_desc_bearer_context_0; ogs_tlv_desc_pti_0; ogs_tlv_desc_pco_0; ogs_tlv_desc_ambr_0;
     ogs_tlv_desc_change_reporting_action_0; ogs_tlv_desc_csg_information_reporting_action_0;
     ogs_tlv_desc_enb_information_reporting_0; ogs_tlv_desc_indication_0;
     ogs_tlv_desc_fq_csid_0; ogs_tlv_desc_fq_csid_1;
     ogs_tlv_desc_presence_reporting_area_action_0; ogs_tlv_desc_load_control_information_0;
     ogs_tlv_desc_load_control_information_1; ogs_tlv_desc_load_control_information_2;
     ogs_tlv_desc_overload_control_information_0; ogs_tlv_desc_overload_control_information_1;
     ogs_tlv_desc_f_container_0].
Definition ogs_tlv_desc_update_bearer_response : ogs_tlv_desc_t :=
  Desc OGS_TLV_MESSAGE 0 0 0 0
    [
     ogs_tlv_desc_cause_0; ogs_tlv_desc_bearer_context_0; ogs_tlv_desc_pco_0;
     ogs_tlv_desc_recovery_0; ogs_tlv_desc_fq_csid_0; ogs_tlv_desc_fq_csid_1;
     ogs_tlv_desc_fq_csid_2; ogs_tlv_desc_fq_csid_3; ogs_tlv_desc_indication_0;
     ogs_tlv_desc_ue_time_zone_0; ogs_tlv_desc_uli_0; ogs_tlv_desc_twan_identifier_0;
     ogs_tlv_desc_overload_control_information_0; ogs_tlv_desc_overload_control_information_1;
     ogs_tlv_desc_presence_reporting_area_information_0; ogs_tlv_desc_ip_address_0;
     ogs_tlv_desc_overload_control_information_2; ogs_tlv_desc_twan_identifier_1;
     ogs_tlv_desc_twan_identifier_timestamp_1; ogs_tlv_desc_port_number_0;
     ogs_tlv_desc_f_container_0; ogs_tlv_desc_port_number_1].
Definition ogs_tlv_desc_delete_bearer_request : ogs_tlv_desc_t :=
  Desc OGS_TLV_MESSAGE 0 0 0 0
    [
     ogs_tlv_desc_ebi_0; ogs_tlv_desc_ebi_1; ogs_tlv_desc_bearer_context_0; ogs_tlv_desc_pti_0;
     ogs_tlv_desc_pco_0; ogs_tlv_desc_fq_csid_0; ogs_tlv_desc_fq_csid_1; ogs_tlv_desc_cause_0;
     ogs_tlv_desc_indication_0; ogs_tlv_desc_load_control_information_0;
     ogs_tlv_desc_load_control_information_1; ogs_tlv_desc_load_control_information_2;
     ogs_tlv_desc_overload_control_information_0; ogs_tlv_desc_overload_control_information_1;
     ogs_tlv_desc_f_container_0; ogs_tlv_desc_epco_0].
Definition ogs_tlv_desc_delete_bearer_response : ogs_tlv_desc_t :=
  Desc OGS_TLV_MESSAGE 0 0 0 0
    [
     ogs_tlv_desc_cause_0; ogs_tlv_desc_ebi_0; ogs_tlv_desc_bearer_context_0;
     ogs_tlv_desc_recovery_0; ogs_tlv_desc_fq_csid_0; ogs_tlv_desc_fq_csid_1;
     ogs_tlv_desc_fq_csid_2; ogs_tlv_desc_fq_csid_3; ogs_tlv_desc_pco_0;
     ogs_tlv_desc_ue_time_zone_0; ogs_tlv_desc_uli_0; ogs_tlv_desc_uli_timestamp_0;
     ogs_tlv_desc_twan_identifier_0; ogs_tlv_desc_twan_identifier_timestamp_0;
     ogs_tlv_desc_overload_control_information_0; ogs_tlv_desc_overload_control_information_1;
     ogs_tlv_desc_ip_address_0; ogs_tlv_desc_overload_control_information_2;
     ogs_tlv_desc_twan_identifier_1; ogs_tlv_desc_twan_identifier_timestamp_1;
     ogs_tlv_desc_port_number_0; ogs_tlv_desc_f_container_0; ogs_tlv_desc_port_number_1].
Definition ogs_tlv_desc_create_indirect_data_forwarding_tunnel_request : ogs_tlv_desc_t :=
  Desc OGS_TLV_MESSAGE 0 0 0 0
    [
     ogs_tlv_desc_imsi_0; ogs_tlv_desc_mei_0; ogs_tlv_desc_indication_0; ogs_tlv_desc_f_teid_0;
     ogs_tlv_desc_bearer_context_0; ogs_tlv_desc_bearer_context_1;
     ogs_tlv_desc_bearer_context_2; ogs_tlv_desc_bearer_context_3;
     ogs_tlv_desc_bearer_context_4; ogs_tlv_desc_bearer_context_5;
     ogs_tlv_desc_bearer_context_6; ogs_tlv_desc_bearer_context_7;
     ogs_tlv_desc_bearer_context_8; ogs_tlv_desc_bearer_context_9;
     ogs_tlv_desc_bearer_context_10; ogs_tlv_desc_recovery_0].
Definition ogs_tlv_desc_create_indirect_data_forwarding_tunnel_response : ogs_tlv_desc_t :=
  Desc OGS_TLV_MESSAGE 0 0 0 0
    [
     ogs_tlv_desc_cause_0; ogs_tlv_desc_f_teid_0; ogs_tlv_desc_bearer_context_0;
     ogs_tlv_desc_bearer_context_1; ogs_tlv_desc_bearer_context_2;
     ogs_tlv_desc_bearer_context_3; ogs_tlv_desc_bearer_context_4;
     ogs_tlv_desc_bearer_context_5; ogs_tlv_desc_bearer_context_6;
     ogs_tlv_desc_bearer_context_7; ogs_tlv_desc_bearer_context_8;
     ogs_tlv_desc_bearer_context_9; ogs_tlv_desc_bearer_context_10; ogs_tlv_desc_recovery_0].
Definition ogs_tlv_desc_delete_indirect_data_forwarding_tunnel_request : ogs_tlv_desc_t :=
  Desc OGS_TLV_MESSAGE 0 0 0 0 [].
Definition ogs_tlv_desc_delete_indirect_data_forwarding_tunnel_response : ogs_tlv_desc_t :=
  Desc OGS_TLV_MESSAGE 0 0 0 0
    [
     ogs_tlv_desc_cause_0; ogs_tlv_desc_recovery_0].
Definition ogs_tlv_desc_release_access_bearers_request : ogs_tlv_desc_t :=
  Desc OGS_TLV_MESSAGE 0 0 0 0
    [
     ogs_tlv_desc_ebi_0; ogs_tlv_desc_node_type_0; ogs_tlv_desc_indication_0].
Definition ogs_tlv_desc_release_access_bearers_response : ogs_tlv_desc_t :=
  Desc OGS_TLV_MESSAGE 0 0 0 0
    [
     ogs_tlv_desc_cause_0; ogs_tlv_desc_recovery_0; ogs_tlv_desc_indication_0;
     ogs_tlv_desc_load_control_information_0; ogs_tlv_desc_overload_control_information_0].
Definition ogs_tlv_desc_downlink_data_notification : ogs_tlv_desc_t :=
  Desc OGS_TLV_MESSAGE 0 0 0 0
    [
     ogs_tlv_desc_cause_0; ogs_tlv_desc_ebi_0; ogs_tlv_desc_arp_0; ogs_tlv_desc_imsi_0;
     ogs_tlv_desc_f_teid_0; ogs_tlv_desc_indication_0; ogs_tlv_desc_load_control_information_0;
     ogs_tlv_desc_overload_control_information_0; ogs_tlv_desc_paging_and_service_information_0].
Definition ogs_tlv_desc_downlink_data_notification_acknowledge : ogs_tlv_desc_t :=
  Desc OGS_TLV_MESSAGE 0 0 0 0
    [
     ogs_tlv_desc_cause_0; ogs_tlv_desc_delay_value_0; ogs_tlv_desc_recovery_0;
     ogs_tlv_desc_throttling_0; ogs_tlv_desc_imsi_0; ogs_tlv_desc_epc_timer_0;
     ogs_tlv_desc_integer_number_0].
Definition ogs_tlv_desc_modify_access_bearers_request : ogs_tlv_desc_t :=
  Desc OGS_TLV_MESSAGE 0 0 0 0
    [
     ogs_tlv_desc_indication_0; ogs_tlv_desc_f_teid_0; ogs_tlv_desc_delay_value_0;
     ogs_tlv_desc_bearer_context_0; ogs_tlv_desc_bearer_context_1; ogs_tlv_desc_recovery_0].
Definition ogs_tlv_desc_modify_access_bearers_response : ogs_tlv_desc_t :=
  Desc OGS_TLV_MESSAGE 0 0 0 0
    [
     ogs_tlv_desc_cause_0; ogs_tlv_desc_bearer_context_0; ogs_tlv_desc_bearer_context_1;
     ogs_tlv_desc_recovery_0; ogs_tlv_desc_indication_0;
     ogs_tlv_desc_load_control_information_0; ogs_tlv_desc_overload_control_information_0].

(** The cases of the two [switch] statements: the type, the description and
    the member of the union. *)
Definition cases : list (Z * (ogs_tlv_desc_t * members)) :=
  [
    (OGS_GTP_ECHO_REQUEST_TYPE,
      (ogs_tlv_desc_echo_request, ogs_gtp_echo_request_s));
    (OGS_GTP_ECHO_RESPONSE_TYPE,
      (ogs_tlv_desc_echo_response, ogs_gtp_echo_response_s));
    (OGS_GTP_CREATE_SESSION_REQUEST_TYPE,
      (ogs_tlv_desc_create_session_request, ogs_gtp_create_session_request_s));
    (OGS_GTP_CREATE_SESSION_RESPONSE_TYPE,
      (ogs_tlv_desc_create_session_response, ogs_gtp_create_session_response_s));
    (OGS_GTP_MODIFY_BEARER_REQUEST_TYPE,
      (ogs_tlv_desc_modify_bearer_request, ogs_gtp_modify_bearer_request_s));
    (OGS_GTP_MODIFY_BEARER_RESPONSE_TYPE,
      (ogs_tlv_desc_modify_bearer_response, ogs_gtp_modify_bearer_response_s));
    (OGS_GTP_DELETE_SESSION_REQUEST_TYPE,
      (ogs_tlv_desc_delete_session_request, ogs_gtp_delete_session_request_s));
    (OGS_GTP_DELETE_SESSION_RESPONSE_TYPE,
      (ogs_tlv_desc_delete_session_response, ogs_gtp_delete_session_response_s));
    (OGS_GTP_MODIFY_BEARER_COMMAND_TYPE,
      (ogs_tlv_desc_modify_bearer_command, ogs_gtp_modify_bearer_command_s));
    (OGS_GTP_MODIFY_BEARER_FAILURE_INDICATION_TYPE,
      (ogs_tlv_desc_modify_bearer_failure_indication, ogs_gtp_modify_bearer_failure_indication_s));
    (OGS_GTP_DELETE_BEARER_COMMAND_TYPE,
      (ogs_tlv_desc_delete_bearer_command, ogs_gtp_delete_bearer_command_s));
    (OGS_GTP_DELETE_BEARER_FAILURE_INDICATION_TYPE,
      (ogs_tlv_desc_delete_bearer_failure_indication, ogs_gtp_delete_bearer_failure_indication_s));
    (OGS_GTP_DOWNLINK_DATA_NOTIFICATION_FAILURE_INDICATION_TYPE,
      (ogs_tlv_desc_downlink_data_notification_failure_indication, ogs_gtp_downlink_data_notification_failure_indication_s));
    (OGS_GTP_CREATE_BEARER_REQUEST_TYPE,
      (ogs_tlv_desc_create_bearer_request, ogs_gtp_create_bearer_request_s));
    (OGS_GTP_CREATE_BEARER_RESPONSE_TYPE,
      (ogs_tlv_desc_create_bearer_response, ogs_gtp_create_bearer_response_s));
    (OGS_GTP_UPDATE_BEARER_REQUEST_TYPE,
      (ogs_tlv_desc_update_bearer_request, ogs_gtp_update_bearer_request_s));
    (OGS_GTP_UPDATE_BEARER_RESPONSE_TYPE,
      (ogs_tlv_desc_update_bearer_response, ogs_gtp_update_bearer_response_s));
    (OGS_GTP_DELETE_BEARER_REQUEST_TYPE,
      (ogs_tlv_desc_delete_bearer_request, ogs_gtp_delete_bearer_request_s));
    (OGS_GTP_DELETE_BEARER_RESPONSE_TYPE,
      (ogs_tlv_desc_delete_bearer_response, ogs_gtp_delete_bearer_response_s));
    (OGS_GTP_CREATE_INDIRECT_DATA_FORWARDING_TUNNEL_REQUEST_TYPE,
      (ogs_tlv_desc_create_indirect_data_forwarding_tunnel_request, ogs_gtp_create_indirect_data_forwarding_tunnel_request_s));
    (OGS_GTP_CREATE_INDIRECT_DATA_FORWARDING_TUNNEL_RESPONSE_TYPE,
      (ogs_tlv_desc_create_indirect_data_forwarding_tunnel_response, ogs_gtp_create_indirect_data_forwarding_tunnel_response_s));
    (OGS_GTP_DELETE_INDIRECT_DATA_FORWARDING_TUNNEL_REQUEST_TYPE,
      (ogs_tlv_desc_delete_indirect_data_forwarding_tunnel_request, ogs_gtp_delete_indirect_data_forwarding_tunnel_request_s));
    (OGS_GTP_DELETE_INDIRECT_DATA_FORWARDING_TUNNEL_RESPONSE_TYPE,
      (ogs_tlv_desc_delete_indirect_data_forwarding_tunnel_response, ogs_gtp_delete_indirect_data_forwarding_tunnel_response_s));
    (OGS_GTP_RELEASE_ACCESS_BEARERS_REQUEST_TYPE,
      (ogs_tlv_desc_release_access_bearers_request, ogs_gtp_release_access_bearers_request_s));
    (OGS_GTP_RELEASE_ACCESS_BEARERS_RESPONSE_TYPE,
      (ogs_tlv_desc_release_access_bearers_response, ogs_gtp_release_access_bearers_response_s));
    (OGS_GTP_DOWNLINK_DATA_NOTIFICATION_TYPE,
      (ogs_tlv_desc_downlink_data_notification, ogs_gtp_downlink_data_notification_s));
    (OGS_GTP_DOWNLINK_DATA_NOTIFICATION_ACKNOWLEDGE_TYPE,
      (ogs_tlv_desc_downlink_data_notification_acknowledge, ogs_gtp_downlink_data_notification_acknowledge_s));
    (OGS_GTP_MODIFY_ACCESS_BEARERS_REQUEST_TYPE,
      (ogs_tlv_desc_modify_access_bearers_request, ogs_gtp_modify_access_bearers_request_s));
    (OGS_GTP_MODIFY_ACCESS_BEARERS_RESPONSE_TYPE,
      (ogs_tlv_desc_modify_access_bearers_response, ogs_gtp_modify_access_bearers_response_s))].

(** ** The message object

    The header as it is copied from the packet ([teid] is the word that is
    [sqn_only] when there is no TEID) and the member of the union that the
    type selects, laid out from offset 0. *)
Record gtp_header := { flags : Z; gtp_type : Z; gtp_length : Z; teid : Z; sqn : Z }.
Record ogs_gtp_message_t := { h : gtp_header; content : mem }.

Definition OGS_GTPV2C_HEADER_LEN : nat := 12.
Definition OGS_GTP_TEID_LEN : nat := 4.
(** The bit field of the first octet, from the most significant bit: version
    (3), piggybacked (1), teid_presence (1), spare (3). *)
Definition teid_presence `{OgsBits} (flags : Z) : bool :=
  negb (nth 2 (ed_unpack [3; 1; 1; 3]%nat flags) 0 =? 0).

(** The union member of a message type, if it is one of the cases. *)
Definition message_case (type : Z) : option (ogs_tlv_desc_t * members) :=
  snd <$> List.find (λ c, fst c =? type) cases.

Section message.
Context `{Host, OgsBits, OgsTlv, OgsPkbuf}.

(** [memcpy(&gtp_message->h, ..)] into a zeroed header. *)
Definition read_header (bs : list Z) : outcome gtp_header :=
  let bs := bs ++ replicate (OGS_GTPV2C_HEADER_LEN - length bs) 0 in
  flags ← access (bs !! 0%nat);
  type ← access (bs !! 1%nat);
  len ← access (slice 2 2 bs);
  teid ← access (slice 4 4 bs);
  sqn ← access (slice 8 4 bs);
  mret {| flags := flags; gtp_type := type; gtp_length := host_value len;
          teid := host_value teid; sqn := host_value sqn |}.

Definition ogs_gtp_parse_msg (b : pkbuf) : outcome (rv_t * ogs_gtp_message_t) :=
  ogs_assert (negb (length (pk_data b) =? 0)%nat);;
  flags0 ← access (pk_data b !! 0%nat);
  let size := if teid_presence flags0 then OGS_GTPV2C_HEADER_LEN
              else (OGS_GTPV2C_HEADER_LEN - OGS_GTP_TEID_LEN)%nat in
  b ← match ogs_pkbuf_pull b size with Some b => Ok b | None => Aborted end;
  hd ← read_header (drop (length (pk_head b) - size) (pk_head b));
  let hd := if teid_presence flags0
            then {| flags := flags hd; gtp_type := gtp_type hd; gtp_length := gtp_length hd;
                    teid := ntohl (teid hd); sqn := sqn hd |}
            else hd in
  match message_case (gtp_type hd) with
  | None =>
      mret ((if (length (pk_data b) =? 0)%nat then OGS_OK else OGS_ERROR),
            {| h := hd; content := ∅ |})
  | Some (desc, ms) =>
      if (length (pk_data b) =? 0)%nat
      then mret (OGS_OK, {| h := hd; content := zeroed ms 0 ∅ |})
      else
        '(rv, m) ← ogs_tlv_parse_msg 0 desc b (zeroed ms 0 ∅);
        mret (rv, {| h := hd; content := m |})
  end.

Definition ogs_gtp_build_msg (msg : ogs_gtp_message_t) :
    outcome (rv_t * option pkbuf * ogs_gtp_message_t) :=
  match message_case (gtp_type (h msg)) with
  | None => mret (OGS_ERROR, None, msg)
  | Some (desc, _) =>
      '(b, m) ← ogs_tlv_build_msg desc 0 (content msg);
      mret (OGS_OK, Some b, {| h := h msg; content := m |})
  end.
End message.

(** ** The descriptions are sound

    Every description has the types and sizes of the structure it is used
    with. *)
Definition case_ok (c : Z * (ogs_tlv_desc_t * members)) : bool :=
  let '(_, (d, ms)) := c in
  bool_decide (ctype d = OGS_TLV_MESSAGE) && table_ok max_depth (child_descs d) &&
  fits ms (child_descs d).
Lemma cases_ok : forallb case_ok cases = true.
Proof. vm_compute. reflexivity. Qed.
