(* ===== verification/NasTypes.v ===== *)
(** * NAS information elements: [lib/nas/types.c]

    The rate coding of TS 24.301 ([br_calculate]) and the elements built from
    it, the PLMN conversions, and the tracking area identity list. *)
From S2P Require Import Prelude.
From S2P Require Import CMem.
From S2P Require Import OgsLib.
#[local] Open Scope Z_scope.

(** ** Bit rates *)
Module Rate.
(** The three octets that code one rate. *)
Record coded := { br : Z; extended : Z; extended2 : Z }.

Definition set_br (b : Z) (c : coded) : coded :=
  {| br := u8 b; extended := extended c; extended2 := extended2 c |}.
Definition set_ext (e : Z) (c : coded) : coded :=
  {| br := br c; extended := u8 e; extended2 := extended2 c |}.
Definition set_ext2 (e : Z) (c : coded) : coded :=
  {| br := br c; extended := extended c; extended2 := u8 e |}.

(** [br_calculate(&br, &extended, &extended2, input)]: the new octets and
    the returned length. *)
Definition br_calculate (c : coded) (input : Z) : coded * Z :=
  if input <? 1 then (set_br 0xff c, 1)
  else
    let '(c, length, input) :=
      if 65200 * 1024 <? input then
        (set_ext2 254 c, 3, input mod (256 * 1024))
      else if (256 * 1024 <=? input) && (input <=? 65200 * 1024) then
        (set_ext2 (input / (256 * 1024)) c, 3, input mod (256 * 1024))
      else (c, 0, input) in
    if (1 <=? input) && (input <=? 63) then
      (set_br input c, Z.max length 1)
    else if (64 <=? input) && (input <=? 568) then
      (set_br ((input - 64) / 8 + 64) c, Z.max length 1)
    else if (568 <? input) && (input <? 576) then
      (set_br 127 c, Z.max length 1)
    else if (576 <=? input) && (input <=? 8640) then
      (set_br ((input - 576) / 64 + 128) c, Z.max length 1)
    else if (8640 <? input) && (input <? 8700) then
      (set_br 254 c, Z.max length 1)
    else if (8700 <=? input) && (input <=? 16000) then
      (set_ext ((input - 8600) / 100) (set_br 254 c), Z.max length 2)
    else if (16000 <? input) && (input <? 17 * 1024) then
      (set_ext 74 (set_br 254 c), Z.max length 2)
    else if (17 * 1024 <=? input) && (input <=? 128 * 1024) then
      (set_ext ((input - 16 * 1024) / (1 * 1024) + 74) (set_br 254 c), Z.max length 2)
    else if (128 * 1024 <? input) && (input <? 130 * 1024) then
      (set_ext 186 (set_br 254 c), Z.max length 2)
    else if (130 * 1024 <=? input) && (input <=? 256 * 1024) then
      (set_ext ((input - 128 * 1024) / (2 * 1024) + 186) (set_br 254 c), Z.max length 2)
    else (c, length).

(** ** Specification: the tables of the comments, read by the receiver (kbps) *)
Definition decode_br (b : Z) : Z :=
  if b =? 0xff then 0
  else if b <=? 63 then b
  else if b <=? 127 then 64 + (b - 64) * 8
  else 576 + (b - 128) * 64.
Definition decode_ext (b e : Z) : Z :=
  if e =? 0 then decode_br b
  else if e <=? 74 then 8600 + e * 100
  else if e <=? 186 then (16 + (e - 74)) * 1024
  else (128 + (e - 186) * 2) * 1024.
Definition decode (c : coded) : Z :=
  extended2 c * (256 * 1024) + decode_ext (br c) (extended c).

(** The step of the table at a rate below 256 Mbps. *)
Definition granularity (r : Z) : Z :=
  if r <? 64 then 1 else if r <? 576 then 8 else if r <? 8640 then 64
  else if r <? 16000 then 100 else if r <? 17 * 1024 then 1408
  else if r <? 128 * 1024 then 1024 else 2048.

Definition zero : coded := {| br := 0; extended := 0; extended2 := 0 |}.

(** How many of the three octets the length counts. *)
Definition cut (n : Z) (c : coded) : coded :=
  {| br := if 1 <=? n then br c else 0;
     extended := if 2 <=? n then extended c else 0;
     extended2 := if 3 <=? n then extended2 c else 0 |}.

(** Split every comparison of the function and finish by arithmetic. *)
Ltac cmp_step :=
  match goal with
  | |- context [?x <? ?y] => destruct (Z.ltb_spec x y); try (exfalso; lia)
  | |- context [?x <=? ?y] => destruct (Z.leb_spec x y); try (exfalso; lia)
  | |- context [?x =? ?y] => destruct (Z.eqb_spec x y); try (exfalso; lia)
  end.

(** Below 256 Mbps the third octet is not touched. *)
Definition low (r : Z) : coded * Z := br_calculate zero r.

(** The octets by region of the rate. *)
Definition low_table (r : Z) : coded * Z :=
  let one b := ({| br := b; extended := 0; extended2 := 0 |}, 1) in
  let two e := ({| br := 254; extended := e; extended2 := 0 |}, 2) in
  if r <? 64 then one r
  else if r <? 569 then one ((r - 64) / 8 + 64)
  else if r <? 576 then one 127
  else if r <? 8641 then one ((r - 576) / 64 + 128)
  else if r <? 8700 then one 254
  else if r <? 16001 then two ((r - 8600) / 100)
  else if r <? 17 * 1024 then two 74
  else if r <? 128 * 1024 + 1 then two ((r - 16 * 1024) / 1024 + 74)
  else if r <? 130 * 1024 then two 186
  else two ((r - 128 * 1024) / 2048 + 186).

Lemma low_eq r : 1 <= r < 256 * 1024 → low r = low_table r.
Proof.
  intros Hr. unfold low, br_calculate, low_table.
  rewrite (proj2 (Z.ltb_ge r 1)) by lia.
  rewrite (proj2 (Z.ltb_ge _ r)) by lia. rewrite (proj2 (Z.leb_gt _ r)) by lia. cbn [andb].
  repeat (cmp_step; cbn [andb]); unfold set_ext, set_br, zero; cbn [br extended extended2];
    rewrite ?wrap_small by lia; reflexivity.
Qed.

Lemma low_decode r :
  1 <= r < 256 * 1024 →
  let '(c, n) := low r in
  decode c <= r < decode c + granularity r ∧ extended2 c = 0 ∧ 1 <= n <= 2 ∧
  1 <= br c <= 254 ∧ 0 <= extended c <= 250 ∧ cut n c = c.
Proof.
  intros Hr. rewrite low_eq by done. unfold low_table, granularity.
  repeat (cmp_step; [cbv zeta|]); cbv zeta;
    unfold decode, decode_ext, decode_br, cut; cbn [br extended extended2];
    repeat (cmp_step; cbn [br extended extended2]);
    (split_and!; try reflexivity; lia).
Qed.

Lemma br_calculate_high q r :
  0 <= r < 256 * 1024 → 1 <= q <= 254 → q * (256 * 1024) + r <= 65200 * 1024 →
  br_calculate zero (q * (256 * 1024) + r) =
    (set_ext2 q (if r =? 0 then zero else (low r).1), 3).
Proof.
  intros Hr Hq Hle. unfold br_calculate.
  rewrite (proj2 (Z.ltb_ge _ 1)) by lia. rewrite (proj2 (Z.ltb_ge (65200 * 1024) _)) by lia.
  rewrite (proj2 (Z.leb_le (256 * 1024) _)) by lia.
  rewrite (proj2 (Z.leb_le _ (65200 * 1024))) by lia. cbn [andb].
  replace ((q * (256 * 1024) + r) / (256 * 1024)) with q by lia.
  replace ((q * (256 * 1024) + r) mod (256 * 1024)) with r by lia.
  destruct (Z.eqb_spec r 0) as [->|Hne]; [reflexivity|].
  unfold low, br_calculate. rewrite (proj2 (Z.ltb_ge r 1)) by lia.
  rewrite (proj2 (Z.ltb_ge (65200 * 1024) r)) by lia.
  rewrite (proj2 (Z.leb_gt (256 * 1024) r)) by lia. cbn [andb].
  repeat (cmp_step; cbn [andb]); reflexivity.
Qed.

Lemma split256 input : 0 <= input →
  ∃ q r, input = q * (256 * 1024) + r ∧ 0 <= r < 256 * 1024 ∧ input mod (256 * 1024) = r.
Proof. intros. exists (input / (256 * 1024)), (input mod (256 * 1024)). lia. Qed.

(** The octets for every rate the table covers. *)
Lemma br_calculate_spec input :
  0 <= input <= 65200 * 1024 →
  let '(c, n) := br_calculate zero input in
  decode c <= input < decode c + granularity (input mod (256 * 1024)) ∧ 1 <= n <= 3 ∧
  cut n c = c ∧ byte_ok (br c) ∧ byte_ok (extended c) ∧ 0 <= extended2 c <= 254.
Proof.
  intros Hi. destruct (Z.eqb_spec input 0) as [->|Hne].
  { vm_compute. repeat split; congruence. }
  destruct (split256 input (proj1 Hi)) as (q & r & E & Hr & Er). rewrite Er.
  destruct (Z.leb_spec q 0) as [Hq|Hq].
  - assert (input = r) as -> by lia.
    pose proof (low_decode r) as Hl. fold (low r). destruct (low r) as [c n].
    destruct Hl as (Hd & E2 & Hn & Hb & He & Hc); [lia|].
    unfold byte_ok. rewrite E2. split_and!; auto; lia.
  - rewrite E, br_calculate_high by lia. unfold set_ext2. rewrite (wrap_small 8 q) by lia.
    destruct (Z.eqb_spec r 0) as [->|Hr0].
    + unfold decode, cut, byte_ok. cbn [br extended extended2 zero].
      split_and!; try reflexivity; try lia; cbn; lia.
    + pose proof (low_decode r) as Hl. destruct (low r) as [c n].
      destruct Hl as (Hd & E2 & Hn & Hb & He & Hc); [lia|]. cbn [fst].
      unfold decode, cut, byte_ok in *. rewrite E2 in Hd. cbn [br extended extended2].
      split_and!; try reflexivity; lia.
Qed.

(** C39: The coding of a bit rate.  For every rate of [n] kbps up to 65200
    Mbps, the octets that [br_calculate] writes, read with the tables of TS
    24.301, give at most [n] and more than [n] minus one step of the table
    in that range; every octet fits, the octets beyond the returned length
    are zero.  Rate 0 is coded as [11111111]; the reserved code [00000000]
    of the first octet is written exactly for the multiples of 256 Mbps. *)
Theorem br_calculate_decode input :
  0 <= input <= 65200 * 1024 →
  let '(c, n) := br_calculate zero input in
  decode c <= input < decode c + granularity (input mod (256 * 1024)) ∧
  1 <= n <= 3 ∧ cut n c = c ∧
  byte_ok (br c) ∧ byte_ok (extended c) ∧ byte_ok (extended2 c) ∧
  (br c = 0xff ↔ input = 0) ∧
  (br c = 0 ↔ 0 < input ∧ input mod (256 * 1024) = 0).
Proof.
  intros Hi. pose proof (br_calculate_spec input Hi) as Hs.
  assert (∀ c, br c = br (br_calculate zero input).1 → c = (br_calculate zero input).1 →
    (br c = 0xff ↔ input = 0) ∧ (br c = 0 ↔ 0 < input ∧ input mod (256 * 1024) = 0)) as Hb.
  { intros c _ ->. clear Hs.
    destruct (Z.eqb_spec input 0) as [->|Hne].
    { vm_compute. split; split; try congruence. by intros []. }
    destruct (split256 input (proj1 Hi)) as (q & r & E & Hr & Er). rewrite Er.
    destruct (Z.leb_spec q 0) as [Hq|Hq].
    - assert (input = r) as -> by lia.
      pose proof (low_decode r) as Hl. fold (low r).
      destruct (low r) as [c n]. destruct Hl as (_ & _ & _ & Hb & _ & _); [lia|].
      cbn [fst]. lia.
    - rewrite E, br_calculate_high by lia. cbn [fst].
      destruct (Z.eqb_spec r 0) as [->|Hr0]; [cbn; lia|].
      pose proof (low_decode r) as Hl. destruct (low r) as [c n].
      destruct Hl as (_ & _ & _ & Hb & _ & _); [lia|]. cbn [fst set_ext2 br]. lia. }
  destruct (br_calculate zero input) as [c n]. cbn [fst] in Hb.
  destruct Hs as (H1 & H2 & H3 & H4 & H5 & H6), (Hb c eq_refl eq_refl) as [H7 H8].
  unfold byte_ok in *. split_and!; auto; lia.
Qed.
End Rate.

(** ** The elements that carry rates *)
Module Ambr.
Import Rate.

Record ogs_nas_apn_aggregate_maximum_bit_rate_t := {
  length : Z;
  dl_apn_ambr : Z; ul_apn_ambr : Z;
  dl_apn_ambr_extended : Z; ul_apn_ambr_extended : Z;
  dl_apn_ambr_extended2 : Z; ul_apn_ambr_extended2 : Z;
}.

Definition apn_ambr_build (dl_apn_ambr ul_apn_ambr : Z)
    : ogs_nas_apn_aggregate_maximum_bit_rate_t :=
  let dl := u32 dl_apn_ambr / 1024 in
  let ul := u32 ul_apn_ambr / 1024 in
  let '(d, n1) := br_calculate zero dl in
  let length1 := Z.max 0 n1 in
  let '(u, n2) := br_calculate zero ul in
  let length2 := Z.max length1 n2 in
  {| length := u8 (length2 * 2);
     dl_apn_ambr := br d; ul_apn_ambr := br u;
     dl_apn_ambr_extended := extended d; ul_apn_ambr_extended := extended u;
     dl_apn_ambr_extended2 := extended2 d; ul_apn_ambr_extended2 := extended2 u |}.

Record ogs_nas_eps_quality_of_service_t := {
  qos_length : Z; qci : Z;
  ul_mbr : Z; dl_mbr : Z; ul_gbr : Z; dl_gbr : Z;
  ul_mbr_extended : Z; dl_mbr_extended : Z; ul_gbr_extended : Z; dl_gbr_extended : Z;
  ul_mbr_extended2 : Z; dl_mbr_extended2 : Z; ul_gbr_extended2 : Z; dl_gbr_extended2 : Z;
}.

(** [if (rate) length = ogs_max(length, br_calculate(..., rate))] *)
Definition rate_if (length rate : Z) : coded * Z :=
  if negb (rate =? 0) then
    let '(c, n) := br_calculate zero rate in (c, Z.max length n)
  else (zero, length).

Definition eps_qos_build (qci dl_mbr ul_mbr dl_gbr ul_gbr : Z)
    : ogs_nas_eps_quality_of_service_t :=
  let '(dm, l) := rate_if 0 (dl_mbr / 1024) in
  let '(um, l) := rate_if l (ul_mbr / 1024) in
  let '(dg, l) := rate_if l (dl_gbr / 1024) in
  let '(ug, l) := rate_if l (ul_gbr / 1024) in
  {| qos_length := u8 (l * 4 + 1); qci := qci;
     ul_mbr := br um; dl_mbr := br dm; ul_gbr := br ug; dl_gbr := br dg;
     ul_mbr_extended := extended um; dl_mbr_extended := extended dm;
     ul_gbr_extended := extended ug; dl_gbr_extended := extended dg;
     ul_mbr_extended2 := extended2 um; dl_mbr_extended2 := extended2 dm;
     ul_gbr_extended2 := extended2 ug; dl_gbr_extended2 := extended2 dg |}.

(** ** Specification: what the receiver reads

    The value part of the elements: [length] octets in the order of the
    structure; octets that are not there count as zero. *)
Definition ambr_wire (t : ogs_nas_apn_aggregate_maximum_bit_rate_t) : list Z :=
  take (Z.to_nat (length t))
    [dl_apn_ambr t; ul_apn_ambr t; dl_apn_ambr_extended t; ul_apn_ambr_extended t;
     dl_apn_ambr_extended2 t; ul_apn_ambr_extended2 t].
Definition qos_wire (t : ogs_nas_eps_quality_of_service_t) : list Z :=
  take (Z.to_nat (qos_length t))
    [qci t; ul_mbr t; dl_mbr t; ul_gbr t; dl_gbr t;
     ul_mbr_extended t; dl_mbr_extended t; ul_gbr_extended t; dl_gbr_extended t;
     ul_mbr_extended2 t; dl_mbr_extended2 t; ul_gbr_extended2 t; dl_gbr_extended2 t].

(** The rate whose octets are at [i], [i + n], [i + 2n]. *)
Definition read_rate (wire : list Z) (i n : nat) : Z :=
  decode {| br := nth i wire 0; extended := nth (i + n) wire 0;
            extended2 := nth (i + 2 * n) wire 0 |}.

(** [v] codes the rate [r] (kbps) with at most one step of loss. *)
Definition codes (v r : Z) : Prop := v <= r < v + granularity (r mod (256 * 1024)).

Lemma cut_fields n c : cut n c = c →
  (n < 2 → extended c = 0) ∧ (n < 3 → extended2 c = 0) ∧ (n < 1 → br c = 0).
Proof.
  intros E. rewrite <- E. unfold cut. cbn.
  repeat match goal with |- context [?x <=? ?y] => destruct (Z.leb_spec x y) end; lia.
Qed.

Lemma cut_mono n m c : n <= m → cut n c = c → cut m c = c.
Proof.
  intros Hle Hc. destruct (cut_fields n c Hc) as (E1 & E2 & E3).
  destruct c as [b e e2]. unfold cut. cbn in *.
  repeat match goal with |- context [?x <=? ?y] => destruct (Z.leb_spec x y) end;
    f_equal; symmetry; first [reflexivity|apply E1; lia|apply E2; lia|apply E3; lia].
Qed.

Lemma rate_if_spec l r :
  0 <= l <= 3 → 0 <= r <= 65200 * 1024 →
  let '(c, n) := rate_if l r in
  codes (decode c) r ∧ l <= n <= 3 ∧ (0 < r → 1 <= n) ∧ cut n c = c.
Proof.
  intros Hl Hr. unfold rate_if, codes. destruct (Z.eqb_spec r 0) as [->|Hne]; cbn [negb].
  - split_and!; try (vm_compute; congruence); try lia.
    unfold cut. cbn. by repeat case_match.
  - pose proof (br_calculate_spec r Hr) as Hs. destruct (br_calculate zero r) as [c n].
    destruct Hs as (Hd & Hn & Hc & _). split_and!; try lia; try apply Hd.
    by apply (cut_mono n); [lia|].
Qed.

(** Reading the three octets of a rate cut at [n] gives the rate. *)
Lemma decode_cut n c : cut n c = c →
  decode {| br := br c; extended := if 2 <=? n then extended c else 0;
            extended2 := if 3 <=? n then extended2 c else 0 |} = decode c.
Proof.
  intros E. destruct (cut_fields n c E) as (E1 & E2 & _). destruct c as [b e e2]. cbn in *.
  f_equal. f_equal.
  - destruct (Z.leb_spec 2 n); [done|]. symmetry. apply E1. lia.
  - destruct (Z.leb_spec 3 n); [done|]. symmetry. apply E2. lia.
Qed.

(** The APN-AMBR element.  For all rates of 32 bits the value part has 2,
    4 or 6 octets, and the receiver, reading only those, gets for each
    direction the rate in kbps, rounded down by at most one step of the
    table. *)
Theorem apn_ambr_build_decodes dl ul :
  0 <= dl < 2 ^ 32 → 0 <= ul < 2 ^ 32 →
  let t := apn_ambr_build dl ul in
  (length t = 2 ∨ length t = 4 ∨ length t = 6) ∧
  Z.of_nat (Datatypes.length (ambr_wire t)) = length t ∧
  codes (read_rate (ambr_wire t) 0 2) (dl / 1024) ∧
  codes (read_rate (ambr_wire t) 1 2) (ul / 1024).
Proof.
  intros Hdl Hul. unfold apn_ambr_build. rewrite !wrap_small by lia.
  pose proof (br_calculate_spec (dl / 1024)) as Hd.
  pose proof (br_calculate_spec (ul / 1024)) as Hu.
  destruct (br_calculate zero (dl / 1024)) as [d n1], (br_calculate zero (ul / 1024)) as [u n2].
  destruct Hd as (Hd & Hn1 & Hc1 & _); [lia|]. destruct Hu as (Hu & Hn2 & Hc2 & _); [lia|].
  set (n := Z.max (Z.max 0 n1) n2).
  assert (cut n d = d ∧ cut n u = u) as [Hd' Hu'].
  { split; [apply (cut_mono n1)|apply (cut_mono n2)]; auto; unfold n; lia. }
  rewrite wrap_small by (unfold n; lia). cbn [length].
  assert (n = 1 ∨ n = 2 ∨ n = 3) as Hn by (unfold n; lia).
  clearbody n. cbv zeta. unfold ambr_wire, read_rate, codes. cbn [length].
  pose proof (decode_cut n d Hd') as Ed. pose proof (decode_cut n u Hu') as Eu.
  destruct Hn as [->|[->| ->]]; const_to_nat; cbn in Ed, Eu |- *; rewrite ?Ed, ?Eu;
    split_and!; auto; lia.
Qed.

(** The EPS QoS element.  For rates up to 65200 Mbps the value part has
    1, 5, 9 or 13 octets (only the QCI when all rates are below one kbps),
    and the receiver, reading only those, gets the QCI and each of the four
    rates in kbps, rounded down by at most one step of the table. *)
Theorem eps_qos_build_decodes q dm um dg ug :
  (∀ r, r ∈ [dm; um; dg; ug] → 0 <= r <= 65200 * 1024 * 1024) →
  let t := eps_qos_build q dm um dg ug in
  qos_length t ∈ [1; 5; 9; 13] ∧
  Z.of_nat (Datatypes.length (qos_wire t)) = qos_length t ∧
  nth 0 (qos_wire t) 0 = q ∧
  codes (read_rate (qos_wire t) 1 4) (um / 1024) ∧
  codes (read_rate (qos_wire t) 2 4) (dm / 1024) ∧
  codes (read_rate (qos_wire t) 3 4) (ug / 1024) ∧
  codes (read_rate (qos_wire t) 4 4) (dg / 1024).
Proof.
  intros Hr. assert (∀ r, r ∈ [dm; um; dg; ug] → 0 <= r / 1024 <= 65200 * 1024) as Hr'.
  { intros r Hin. specialize (Hr r Hin). lia. }
  clear Hr. rewrite <- list.Forall_forall, !list.Forall_cons in Hr'.
  destruct Hr' as (R1 & R2 & R3 & R4 & _). unfold eps_qos_build.
  pose proof (rate_if_spec 0 (dm / 1024)) as H1. destruct (rate_if 0 (dm / 1024)) as [cdm l1].
  destruct H1 as (D1 & L1 & _ & C1); [lia|done|].
  pose proof (rate_if_spec l1 (um / 1024)) as H2. destruct (rate_if l1 (um / 1024)) as [cum l2].
  destruct H2 as (D2 & L2 & _ & C2); [lia|done|].
  pose proof (rate_if_spec l2 (dg / 1024)) as H3. destruct (rate_if l2 (dg / 1024)) as [cdg l3].
  destruct H3 as (D3 & L3 & _ & C3); [lia|done|].
  pose proof (rate_if_spec l3 (ug / 1024)) as H4. destruct (rate_if l3 (ug / 1024)) as [cug n].
  destruct H4 as (D4 & L4 & _ & C4); [lia|done|].
  apply (cut_mono l1 n) in C1; [|lia]. apply (cut_mono l2 n) in C2; [|lia].
  apply (cut_mono l3 n) in C3; [|lia].
  pose proof (decode_cut n _ C1) as E1. pose proof (decode_cut n _ C2) as E2.
  pose proof (decode_cut n _ C3) as E3. pose proof (decode_cut n _ C4) as E4.
  destruct (cut_fields n _ C1) as (_ & _ & Z1), (cut_fields n _ C2) as (_ & _ & Z2),
    (cut_fields n _ C3) as (_ & _ & Z3), (cut_fields n _ C4) as (_ & _ & Z4).
  rewrite wrap_small by lia. cbv zeta. unfold qos_wire, read_rate. cbn [qos_length].
  assert (n = 0 ∨ n = 1 ∨ n = 2 ∨ n = 3) as Hn by lia. clear L1 L2 L3 L4.
  destruct Hn as [->|[->|[->| ->]]]; const_to_nat; cbn in E1, E2, E3, E4 |- *;
    try rewrite Z1 in E1 by lia; try rewrite Z2 in E2 by lia;
    try rewrite Z3 in E3 by lia; try rewrite Z4 in E4 by lia;
    rewrite <- ?E1 in D1; rewrite <- ?E2 in D2; rewrite <- ?E3 in D3; rewrite <- ?E4 in D4;
    split_and!; auto; rewrite !elem_of_cons; tauto.
Qed.
End Ambr.
