(* ===== verification/NasTai.v ===== *)
(** * PLMN identities and the tracking area identity list: [lib/nas/types.c] *)
From S2P Require Import Prelude.
From S2P Require Import CMem.
From S2P Require Import OgsLib.
#[local] Open Scope Z_scope.

Section nas.
Context `{Host, OgsPlmnDigits, OgsBits, OgsSizes}.

(** ** PLMN identities: [ogs_nas_plmn_id_t] has the digits of
    [ogs_plmn_id_t] in another order of nibbles. *)
Definition ogs_nas_plmn_id_t : Type := digits.

Definition nas_image (n : ogs_nas_plmn_id_t) : list Z :=
  [ed_pack [(4%nat, mcc2 n); (4%nat, mcc1 n)]; ed_pack [(4%nat, mnc3 n); (4%nat, mcc3 n)];
   ed_pack [(4%nat, mnc2 n); (4%nat, mnc1 n)]].

Definition nibble (k : nat) (b : Z) : Z := nth k (ed_unpack [4; 4]%nat b) 0.
Definition nas_of_image (l : list Z) : ogs_nas_plmn_id_t :=
  let b i := nth i l 0 in
  {| mcc2 := nibble 0 (b 0%nat); mcc1 := nibble 1 (b 0%nat);
     mnc3 := nibble 0 (b 1%nat); mcc3 := nibble 1 (b 1%nat);
     mnc2 := nibble 0 (b 2%nat); mnc1 := nibble 1 (b 2%nat) |}.

(** The assignments to [mnc1], [mnc2], [mnc3]. *)
Definition set_mnc (src dst : digits) : digits :=
  {| mcc1 := mcc1 dst; mcc2 := mcc2 dst; mcc3 := mcc3 dst;
     mnc1 := mnc1 src; mnc2 := mnc2 src; mnc3 := mnc3 src |}.

Definition ogs_nas_from_plmn_id (plmn_id : ogs_plmn_id_t) : ogs_nas_plmn_id_t :=
  let n := nas_of_image (image plmn_id) in
  if negb (mnc1 (plmn_digits plmn_id) =? 15) then set_mnc (plmn_digits plmn_id) n else n.

Definition ogs_nas_to_plmn_id (n : ogs_nas_plmn_id_t) : ogs_plmn_id_t :=
  let p := of_image (nas_image n) in
  if negb (mnc1 (plmn_digits p) =? 15) then plmn_of_digits (set_mnc n (plmn_digits p)) else p.

(** ** The tracking area identity list *)
Definition OGS_NAS_MAX_TAI_LIST_LEN : Z := 96.
Definition TAI0_TYPE : Z := 0.
Definition TAI1_TYPE : Z := 1.
Definition TAI2_TYPE : Z := 2.

Record tai0_t := { t0_type : Z; t0_num : Z; t0_plmn_id : ogs_plmn_id_t; t0_tac : list Z }.
Definition tai0_list_t : Type := list tai0_t.
Record tai2_list_t := { t2_type : Z; t2_num : Z; t2_tai : list (ogs_plmn_id_t * Z) }.

(** The first octet of a partial list. *)
Definition list_octet (type num : Z) : Z :=
  ed_pack [(1%nat, 0); (2%nat, type); (5%nat, num)].
Definition tac_bytes (tac : Z) : list Z := host_bytes 2 (htons tac).
Definition plmn_bytes (p : ogs_plmn_id_t) : list Z := nas_image (ogs_nas_from_plmn_id p).

(** What the loop puts in [target0.tai[i]] (its first [size] octets). *)
Definition tai0_bytes (t : tai0_t) : outcome (list Z) :=
  ogs_assert (t0_type t =? TAI0_TYPE);;
  ogs_assert (t0_num t <? OGS_MAX_NUM_OF_TAI);;
  tacs ← access (if (Z.to_nat (t0_num t) <=? length (t0_tac t))%nat
                 then Some (take (Z.to_nat (t0_num t)) (t0_tac t)) else None);
  mret (list_octet (t0_type t) (t0_num t - 1) :: plmn_bytes (t0_plmn_id t)
        ++ concat (tac_bytes <$> tacs)).

(** [for (i = 0; source0->tai[i].num; i++)] from the first entry of the
    rest of the array; the flag says that the function returned. *)
Fixpoint tai0_loop (source0 : tai0_list_t) (target : list Z) : outcome (list Z * bool) :=
  match source0 with
  | [] => Undef
  | t :: rest =>
      if t0_num t =? 0 then mret (target, false)
      else
        bs ← tai0_bytes t;
        let size := 1 + 3 + 2 * t0_num t in
        if OGS_NAS_MAX_TAI_LIST_LEN <? Z.of_nat (length target) + size
        then mret (target, true)
        else tai0_loop rest (target ++ bs)
  end.

Definition tai2_bytes (s : tai2_list_t) : outcome (list Z) :=
  tais ← access (if (Z.to_nat (t2_num s) <=? length (t2_tai s))%nat
                 then Some (take (Z.to_nat (t2_num s)) (t2_tai s)) else None);
  mret (list_octet (t2_type s) (t2_num s - 1)
        :: concat ((λ t, plmn_bytes t.1 ++ tac_bytes t.2) <$> tais)).

(** The filled part of [target->buffer]; its length is [target->length]. *)
Definition ogs_nas_tai_list_build (source0 : tai0_list_t) (source2 : tai2_list_t)
    : outcome (list Z) :=
  '(target, returned) ← tai0_loop source0 [];
  if (returned : bool) then mret target
  else if negb (t2_num source2 =? 0) then
    ogs_assert ((t2_type source2 =? TAI1_TYPE) || (t2_type source2 =? TAI2_TYPE));;
    ogs_assert (t2_num source2 <? OGS_MAX_NUM_OF_TAI);;
    let size := 1 + (3 + 2) * t2_num source2 in
    if OGS_NAS_MAX_TAI_LIST_LEN <? Z.of_nat (length target) + size then mret target
    else bs ← tai2_bytes source2; mret (target ++ bs)
  else mret target.
End nas.

(** ** Specification: partial lists as the receiver reads them (TS 24.301, 9.9.3.33) *)
Inductive partial :=
| SamePlmn (plmn : list Z) (tacs : list Z)
| Tais (type : Z) (tais : list (list Z * Z)).

Section read.
Context `{OgsBits}.

Fixpoint read_tacs (n : nat) (l : list Z) : option (list Z * list Z) :=
  match n, l with
  | O, _ => Some ([], l)
  | S n, a :: b :: l => '(ts, l) ← read_tacs n l; Some (be_value [a; b] :: ts, l)
  | _, _ => None
  end.

Fixpoint read_tais (n : nat) (l : list Z) : option (list (list Z * Z) * list Z) :=
  match n, l with
  | O, _ => Some ([], l)
  | S n, a :: b :: c :: d :: e :: l =>
      '(ts, l) ← read_tais n l; Some (([a; b; c], be_value [d; e]) :: ts, l)
  | _, _ => None
  end.

(** One partial list: type and number of elements minus one in the first
    octet. *)
Definition read_partial (l : list Z) : option (partial * list Z) :=
  match l with
  | h :: l =>
      let type := nth 1 (ed_unpack [1; 2; 5]%nat h) 0 in
      let n := S (Z.to_nat (nth 2 (ed_unpack [1; 2; 5]%nat h) 0)) in
      if type =? 0 then
        match l with
        | a :: b :: c :: l => '(ts, l) ← read_tacs n l; Some (SamePlmn [a; b; c] ts, l)
        | _ => None
        end
      else '(ts, l) ← read_tais n l; Some (Tais type ts, l)
  | [] => None
  end.

Fixpoint read_tai_list (fuel : nat) (l : list Z) : option (list partial) :=
  match l, fuel with
  | [], _ => Some []
  | _, O => None
  | _, S fuel => '(p, l) ← read_partial l; ps ← read_tai_list fuel l; Some (p :: ps)
  end.
End read.

Section facts.
Context `{Host, OgsBitsLaws, !OgsPlmn, !OgsPlmnDigits, !OgsPlmnDigitsLaws, OgsSizes}.

Lemma ed_ok2 a b : 0 <= a < 16 → 0 <= b < 16 → ed_ok [(4%nat, a); (4%nat, b)].
Proof. intros. split; [done|]. repeat constructor; simpl; lia. Qed.

Lemma nibble_pack a b : 0 <= a < 16 → 0 <= b < 16 →
  nibble 0 (ed_pack [(4%nat, a); (4%nat, b)]) = a ∧ nibble 1 (ed_pack [(4%nat, a); (4%nat, b)]) = b.
Proof.
  intros Ha Hb. unfold nibble. pose proof (ed_unpack_pack _ (ed_ok2 a b Ha Hb)) as E.
  simpl in E. by rewrite E.
Qed.

(** The digits of three octets read in the NAS order. *)
Lemma nas_of_octets a b c d e f :
  Forall (λ x, 0 <= x < 16) [a; b; c; d; e; f] →
  nas_of_image [ed_pack [(4%nat, a); (4%nat, b)]; ed_pack [(4%nat, c); (4%nat, d)];
                ed_pack [(4%nat, e); (4%nat, f)]] =
    {| mcc2 := a; mcc1 := b; mnc3 := c; mcc3 := d; mnc2 := e; mnc1 := f |}.
Proof.
  rewrite !list.Forall_cons. intros (?&?&?&?&?&?&_). unfold nas_of_image. cbn [nth].
  destruct (nibble_pack a b) as [-> ->]; auto.
  destruct (nibble_pack c d) as [-> ->]; auto.
  destruct (nibble_pack e f) as [-> ->]; auto.
Qed.

Lemma of_image_digits d : digits_ok d →
  of_image (image (plmn_of_digits d)) = plmn_of_digits d.
Proof. intros. by apply of_image_image. Qed.

Ltac digit_bounds Hd :=
  unfold digits_ok in Hd; rewrite !list.Forall_cons in Hd; destruct Hd as (?&?&?&?&?&?&_).

Lemma from_plmn_id_digits d :
  digits_ok d →
  ogs_nas_from_plmn_id (plmn_of_digits d) =
    if mnc1 d =? 15
    then {| mcc1 := mcc1 d; mcc2 := mcc2 d; mcc3 := mcc3 d;
            mnc1 := mnc2 d; mnc2 := mnc3 d; mnc3 := 15 |}
    else d.
Proof.
  intros Hd. unfold ogs_nas_from_plmn_id. rewrite plmn_digits_of, plmn_layout by done.
  pose proof Hd as Hd'. digit_bounds Hd'.
  rewrite nas_of_octets by (repeat (constructor; [done|]); constructor).
  destruct (Z.eqb_spec (mnc1 d) 15) as [E|E]; cbn [negb]; [by rewrite E|].
  destruct d. reflexivity.
Qed.

(** PLMN identities on the NAS interface.  [ogs_nas_from_plmn_id] gives
    the three octets of TS 24.008 (second and first MCC digit; third MNC
    digit, [1111] for a two-digit MNC, and third MCC digit; second and first
    MNC digit), and [ogs_nas_to_plmn_id] gets the identity back. *)
Theorem plmn_id_roundtrip d :
  digits_ok d → (mnc1 d ≠ 15 → mnc3 d ≠ 15) →
  let n := ogs_nas_from_plmn_id (plmn_of_digits d) in
  nas_image n =
    [ed_pack [(4%nat, mcc2 d); (4%nat, mcc1 d)];
     ed_pack [(4%nat, if mnc1 d =? 15 then 15 else mnc3 d); (4%nat, mcc3 d)];
     ed_pack (if mnc1 d =? 15 then [(4%nat, mnc3 d); (4%nat, mnc2 d)]
              else [(4%nat, mnc2 d); (4%nat, mnc1 d)])] ∧
  ogs_nas_to_plmn_id n = plmn_of_digits d.
Proof.
  intros Hd Hne. cbv zeta. rewrite from_plmn_id_digits by done.
  unfold ogs_nas_to_plmn_id. pose proof Hd as Hd'. digit_bounds Hd'.
  destruct (Z.eqb_spec (mnc1 d) 15) as [E|E].
  - split; [reflexivity|].
    assert (nas_image {| mcc1 := mcc1 d; mcc2 := mcc2 d; mcc3 := mcc3 d; mnc1 := mnc2 d;
              mnc2 := mnc3 d; mnc3 := 15 |} = image (plmn_of_digits d)) as ->
      by (rewrite plmn_layout by done; by rewrite E).
    rewrite of_image_digits, plmn_digits_of, E by done. done.
  - split; [reflexivity|].
    set (d' := {| mcc1 := mcc1 d; mcc2 := mcc2 d; mcc3 := mcc3 d;
                  mnc1 := mnc3 d; mnc2 := mnc1 d; mnc3 := mnc2 d |}).
    assert (digits_ok d') as Hd' by (repeat (constructor; [done|]); constructor).
    assert (nas_image d = image (plmn_of_digits d')) as -> by (by rewrite plmn_layout).
    rewrite of_image_digits, plmn_digits_of by done.
    rewrite (proj2 (Z.eqb_neq (mnc1 d') 15)) by (apply Hne, E). cbn [negb].
    f_equal. by destruct d.
Qed.

(** ** The list *)
Definition u16_ok (x : Z) : Prop := 0 <= x < 2 ^ 16.

Definition tai0_wf (t : tai0_t) : Prop :=
  t0_type t = TAI0_TYPE ∧ 1 <= t0_num t < OGS_MAX_NUM_OF_TAI ∧
  (Z.to_nat (t0_num t) <= length (t0_tac t))%nat ∧ Forall u16_ok (t0_tac t).
Fixpoint used (l : tai0_list_t) : list tai0_t :=
  match l with
  | [] => []
  | t :: l => if t0_num t =? 0 then [] else t :: used l
  end.
(** An array whose used entries are followed by an empty one. *)
Definition tai0_list_wf (l : tai0_list_t) : Prop :=
  Forall tai0_wf (used l) ∧ (length (used l) < length l)%nat.
Definition tai2_wf (s : tai2_list_t) : Prop :=
  t2_num s = 0 ∨
  ((t2_type s = TAI1_TYPE ∨ t2_type s = TAI2_TYPE) ∧ 1 <= t2_num s < OGS_MAX_NUM_OF_TAI ∧
   (Z.to_nat (t2_num s) <= length (t2_tai s))%nat ∧ Forall (λ t, u16_ok t.2) (t2_tai s)).

(** The partial lists of a configuration, in order. *)
Definition partial0 (t : tai0_t) : partial :=
  SamePlmn (plmn_bytes (t0_plmn_id t)) (take (Z.to_nat (t0_num t)) (t0_tac t)).
Definition partial2 (s : tai2_list_t) : list partial :=
  if t2_num s =? 0 then []
  else [Tais (t2_type s) ((λ t, (plmn_bytes t.1, t.2)) <$> take (Z.to_nat (t2_num s)) (t2_tai s))].
Definition partials (s0 : tai0_list_t) (s2 : tai2_list_t) : list partial :=
  (partial0 <$> used s0) ++ partial2 s2.

Definition psize (p : partial) : Z :=
  match p with
  | SamePlmn _ ts => 4 + 2 * Z.of_nat (length ts)
  | Tais _ ts => 1 + 5 * Z.of_nat (length ts)
  end.
(** Those that fit behind [n] octets, up to the first that does not. *)
Fixpoint fitting (n : Z) (ps : list partial) : list partial :=
  match ps with
  | [] => []
  | p :: ps => if OGS_NAS_MAX_TAI_LIST_LEN <? n + psize p then [] else p :: fitting (n + psize p) ps
  end.

Definition penc (p : partial) : list Z :=
  match p with
  | SamePlmn pl ts =>
      list_octet 0 (Z.of_nat (length ts) - 1) :: pl ++ concat (be_bytes 2 <$> ts)
  | Tais ty ts =>
      list_octet ty (Z.of_nat (length ts) - 1) :: concat ((λ t, t.1 ++ be_bytes 2 t.2) <$> ts)
  end.
Definition pwf (p : partial) : Prop :=
  match p with
  | SamePlmn pl ts => length pl = 3%nat ∧ (1 <= length ts <= 32)%nat ∧ Forall u16_ok ts
  | Tais ty ts => 1 <= ty < 4 ∧ (1 <= length ts <= 32)%nat ∧
      Forall (λ t, length t.1 = 3%nat ∧ u16_ok t.2) ts
  end.

Lemma tac_bytes_be t : tac_bytes t = be_bytes 2 t.
Proof. apply host_bytes_hton. Qed.

Lemma length_concat_const {A B} (f : A → list B) n l :
  (∀ x, x ∈ l → length (f x) = n) → length (concat (f <$> l)) = (n * length l)%nat.
Proof.
  induction l as [|x l IH]; intros Hl; [simpl; lia|].
  rewrite fmap_cons. cbn [concat length]. rewrite length_app, IH, (Hl x); [lia|left|intros; apply Hl; by right].
Qed.

Lemma length_penc p : pwf p → Z.of_nat (length (penc p)) = psize p.
Proof.
  destruct p as [pl ts|ty ts]; simpl.
  - intros (Hp & _). rewrite length_app, (length_concat_const _ 2); [lia|].
    intros. apply length_be_bytes.
  - intros (_ & _ & Ht). rewrite (length_concat_const _ 5); [lia|].
    intros t Hin. rewrite list.Forall_forall in Ht. destruct (Ht t Hin) as [E _].
    rewrite length_app, length_be_bytes. lia.
Qed.

Lemma tai0_bytes_enc t : tai0_wf t → tai0_bytes t = Ok (penc (partial0 t)).
Proof.
  intros (Et & Hn & Hl & Ht). unfold tai0_bytes. rewrite Et, Z.eqb_refl.
  rewrite (proj2 (Z.ltb_lt _ _)) by lia. rewrite (proj2 (Nat.leb_le _ _)) by lia. simpl.
  rewrite (list_fmap_ext tac_bytes (be_bytes 2)) by (intros; apply tac_bytes_be).
  rewrite length_take_le by lia.
  by replace (Z.of_nat (Z.to_nat (t0_num t)) - 1) with (t0_num t - 1) by lia.
Qed.

#[local] Arguments psize : simpl never.
#[local] Arguments penc : simpl never.
#[local] Arguments partial0 : simpl never.

Lemma tai0_loop_fits l target :
  OGS_MAX_NUM_OF_TAI <= 32 → tai0_list_wf l →
  tai0_loop l target =
    let n := Z.of_nat (length target) in
    let ps := partial0 <$> used l in
    Ok (target ++ concat (penc <$> fitting n ps),
        negb (length (fitting n ps) =? length ps)%nat).
Proof.
  intros Hmax. revert target. induction l as [|t l IH]; intros target [Hw Hl]; [simpl in Hl; lia|].
  simpl in *. destruct (Z.eqb_spec (t0_num t) 0) as [E|E]; simpl in *.
  { by rewrite app_nil_r. }
  apply list.Forall_cons in Hw as [Ht Hw]. rewrite tai0_bytes_enc by done. simpl.
  assert (psize (partial0 t) = 1 + 3 + 2 * t0_num t) as Es.
  { destruct Ht as (_ & Hn & Hlen & _). unfold psize, partial0. rewrite length_take_le by lia. lia. }
  rewrite Es.
  destruct (Z.ltb_spec OGS_NAS_MAX_TAI_LIST_LEN (Z.of_nat (length target) + (1 + 3 + 2 * t0_num t))).
  - simpl. by rewrite app_nil_r.
  - rewrite IH by (split; [done|lia]). cbv zeta.
    assert (Z.of_nat (length (target ++ penc (partial0 t))) =
            Z.of_nat (length target) + (1 + 3 + 2 * t0_num t)) as ->.
    { rewrite length_app, Nat2Z.inj_add, length_penc, Es; [done|].
      destruct Ht as (_ & Hn & Hlen & Hu). split; [done|]. split.
      - rewrite length_take_le by lia. lia.
      - by apply Forall_take. }
    simpl. by rewrite <- app_assoc.
Qed.

Fixpoint total (ps : list partial) : Z :=
  match ps with [] => 0 | p :: ps => psize p + total ps end.

Lemma fitting_app n ps qs :
  fitting n (ps ++ qs) =
    if (length (fitting n ps) =? length ps)%nat
    then ps ++ fitting (n + total ps) qs else fitting n ps.
Proof using Type.
  revert n. induction ps as [|p ps IH]; intros n; simpl; [by rewrite Z.add_0_r|].
  case_match; [done|]. simpl. rewrite IH. case_match; [|done].
  by rewrite Z.add_assoc.
Qed.

Lemma length_fitting n ps : (length (fitting n ps) <= length ps)%nat.
Proof using Type.
  revert n. induction ps as [|p ps IH]; intros n; simpl; [lia|].
  case_match; simpl; [lia|]. specialize (IH (n + psize p)). lia.
Qed.

Lemma total_fitting n ps :
  n <= OGS_NAS_MAX_TAI_LIST_LEN → n + total (fitting n ps) <= OGS_NAS_MAX_TAI_LIST_LEN.
Proof using Type.
  revert n. induction ps as [|p ps IH]; intros n Hn; simpl; [lia|].
  destruct (Z.ltb_spec OGS_NAS_MAX_TAI_LIST_LEN (n + psize p)); simpl; [lia|].
  specialize (IH (n + psize p)). lia.
Qed.

Lemma fitting_full n ps :
  length (fitting n ps) = length ps → fitting n ps = ps.
Proof using Type.
  revert n. induction ps as [|p ps IH]; intros n; simpl; [done|].
  case_match; simpl; [done|]. intros [= E]. by rewrite IH.
Qed.

Lemma fitting_sub n ps P : Forall P ps → Forall P (fitting n ps).
Proof using Type.
  intros Hp. revert n. induction Hp; intros n; simpl; [constructor|].
  case_match; constructor; auto.
Qed.

Lemma length_concat_penc ps :
  Forall pwf ps → Z.of_nat (length (concat (penc <$> ps))) = total ps.
Proof.
  induction 1 as [|p ps Hp _ IH]; simpl; [done|].
  rewrite length_app, Nat2Z.inj_add, length_penc by done. by f_equal.
Qed.

(** Reading back. *)
Lemma be_bytes_2 x : u16_ok x → ∃ a b, be_bytes 2 x = [a; b] ∧ be_value [a; b] = x.
Proof.
  intros Hx. pose proof (be_value_be_bytes 2 x) as Hv. pose proof (length_be_bytes 2 x) as Hl.
  destruct (be_bytes 2 x) as [|a [|b [|c l]]]; try discriminate Hl.
  exists a, b. split; [done|]. rewrite Hv. apply Z.mod_small. exact Hx.
Qed.

Lemma read_tacs_bytes ts rest :
  Forall u16_ok ts → read_tacs (length ts) (concat (be_bytes 2 <$> ts) ++ rest) = Some (ts, rest).
Proof.
  induction 1 as [|t ts Ht _ IH]; [done|]. rewrite fmap_cons. cbn [concat length].
  destruct (be_bytes_2 t Ht) as (a & b & -> & Hv). simpl. rewrite IH. simpl. by rewrite Hv.
Qed.

Lemma read_tais_bytes ts rest :
  Forall (λ t, length t.1 = 3%nat ∧ u16_ok t.2) ts →
  read_tais (length ts) (concat ((λ t, t.1 ++ be_bytes 2 t.2) <$> ts) ++ rest) = Some (ts, rest).
Proof.
  induction 1 as [|[p t] ts [Hp Ht] _ IH]; [done|]. rewrite fmap_cons. cbn [concat length fst snd] in *.
  destruct (be_bytes_2 t Ht) as (a & b & -> & Hv).
  destruct p as [|x [|y [|z [|]]]]; try discriminate Hp.
  simpl. rewrite IH. simpl. by rewrite Hv.
Qed.

Lemma list_octet_fields ty n : 0 <= ty < 4 → 0 <= n < 32 →
  nth 1 (ed_unpack [1; 2; 5]%nat (list_octet ty n)) 0 = ty ∧
  nth 2 (ed_unpack [1; 2; 5]%nat (list_octet ty n)) 0 = n.
Proof.
  intros Hty Hn.
  assert (ed_ok [(1%nat, 0); (2%nat, ty); (5%nat, n)]) as Hok
    by (split; [done|]; repeat constructor; simpl; lia).
  pose proof (ed_unpack_pack _ Hok) as E. simpl in E. unfold list_octet. by rewrite E.
Qed.

Lemma read_partial_penc p rest : pwf p → read_partial (penc p ++ rest) = Some (p, rest).
Proof.
  destruct p as [pl ts|ty ts]; unfold penc; intros Hp; cbn [read_partial app].
  - destruct Hp as (Hl & Hn & Ht).
    destruct (list_octet_fields 0 (Z.of_nat (length ts) - 1)) as [-> ->]; [lia|lia|].
    replace (S (Z.to_nat (Z.of_nat (length ts) - 1))) with (length ts) by lia.
    destruct pl as [|x [|y [|z [|]]]]; try discriminate Hl. simpl.
    by rewrite read_tacs_bytes.
  - destruct Hp as (Hty & Hn & Ht).
    destruct (list_octet_fields ty (Z.of_nat (length ts) - 1)) as [-> ->]; [lia|lia|].
    replace (S (Z.to_nat (Z.of_nat (length ts) - 1))) with (length ts) by lia.
    rewrite (proj2 (Z.eqb_neq ty 0)) by lia. by rewrite read_tais_bytes.
Qed.

Lemma read_tai_list_penc ps fuel :
  Forall pwf ps → (length ps <= fuel)%nat →
  read_tai_list fuel (concat (penc <$> ps)) = Some ps.
Proof.
  intros Hps. revert fuel. induction Hps as [|p ps Hp Hps IH]; intros fuel Hf.
  - by destruct fuel.
  - destruct fuel as [|fuel]; [simpl in Hf; lia|]. rewrite fmap_cons. cbn [concat].
    assert (∃ h l, penc p ++ concat (penc <$> ps) = h :: l) as (h & l & E)
      by (destruct p; eexists _, _; reflexivity).
    rewrite E. cbn [read_tai_list]. rewrite <- E, read_partial_penc by done. simpl.
    rewrite IH; [done|simpl in Hf; lia].
Qed.

Lemma partial0_wf t : OGS_MAX_NUM_OF_TAI <= 32 → tai0_wf t → pwf (partial0 t).
Proof.
  intros Hmax (_ & Hn & Hl & Hu). split; [done|]. split; [|by apply Forall_take].
  rewrite length_take_le by lia. lia.
Qed.

Lemma partial2_wf s2 : OGS_MAX_NUM_OF_TAI <= 32 → tai2_wf s2 → Forall pwf (partial2 s2).
Proof.
  intros Hmax [E|(Hty & Hn & Hl & Hu)]; unfold partial2.
  - by rewrite E.
  - rewrite (proj2 (Z.eqb_neq _ _)) by lia. constructor; [|constructor].
    unfold TAI1_TYPE, TAI2_TYPE in Hty. split; [lia|].
    rewrite length_fmap, length_take_le by lia. split; [lia|].
    apply list.Forall_fmap. eapply (list.Forall_impl (λ t, u16_ok t.2)); [by apply Forall_take|].
    intros t Ht. by split.
Qed.

Lemma tai2_bytes_enc s2 p :
  tai2_wf s2 → partial2 s2 = [p] → tai2_bytes s2 = Ok (penc p) ∧ psize p = 1 + (3 + 2) * t2_num s2.
Proof.
  unfold partial2. destruct (Z.eqb_spec (t2_num s2) 0) as [E|E]; [done|].
  intros [?|(_ & Hn & Hl & Hu)] [= <-]; [lia|].
  unfold tai2_bytes. rewrite (proj2 (Nat.leb_le _ _)) by lia.
  unfold psize, penc. rewrite length_fmap, length_take_le by lia. split; [|lia].
  simpl. do 2 f_equal.
  - f_equal. lia.
  - rewrite <- list_fmap_compose. f_equal. apply list_fmap_ext. intros i t _. simpl.
    by rewrite tac_bytes_be.
Qed.

(** The tracking area identity list.  For a configuration with fewer than
    [OGS_MAX_NUM_OF_TAI] areas in each partial list the build succeeds; the
    list never exceeds 96 octets; it holds whole partial lists, in the order
    of the configuration, up to the first that does not fit, and the
    receiver reads from it exactly their PLMNs and area codes. *)
Theorem tai_list_build_decodes s0 s2 :
  OGS_MAX_NUM_OF_TAI <= 32 → tai0_list_wf s0 → tai2_wf s2 →
  ∃ buffer, ogs_nas_tai_list_build s0 s2 = Ok buffer ∧
    Z.of_nat (length buffer) <= OGS_NAS_MAX_TAI_LIST_LEN ∧
    read_tai_list (length buffer) buffer = Some (fitting 0 (partials s0 s2)).
Proof.
  intros Hmax Hs0 Hs2.
  assert (Forall pwf (partials s0 s2)) as Hwf.
  { apply Forall_app. split; [|by apply partial2_wf]. apply list.Forall_fmap.
    eapply list.Forall_impl; [apply Hs0|]. intros. by apply partial0_wf. }
  set (ps := fitting 0 (partials s0 s2)).
  assert (Forall pwf ps) as Hps by by apply fitting_sub.
  exists (concat (penc <$> ps)). split; [|split].
  - unfold ogs_nas_tai_list_build. rewrite tai0_loop_fits by done. simpl.
    change (Z.of_nat 0) with 0. unfold ps, partials. rewrite fitting_app.
    destruct (Nat.eqb_spec (length (fitting 0 (partial0 <$> used s0)))
                (length (partial0 <$> used s0))) as [E|E]; simpl; [|done].
    pose proof (fitting_full _ _ E) as Ef. rewrite Ef.
    destruct (Z.eqb_spec (t2_num s2) 0) as [E0|E0]; simpl.
    { unfold partial2. rewrite E0. simpl. by rewrite app_nil_r. }
    destruct Hs2 as [?|Hs2']; [done|].
    pose proof Hs2' as (Hty & Hn & _).
    assert ((t2_type s2 =? TAI1_TYPE) || (t2_type s2 =? TAI2_TYPE) = true) as ->
      by (destruct Hty as [-> | ->]; done). simpl.
    rewrite (proj2 (Z.ltb_lt (t2_num s2) OGS_MAX_NUM_OF_TAI)) by lia. simpl.
    rewrite length_concat_penc by (apply Forall_app in Hwf as [? _]; done).
    destruct (partial2 s2) as [|p qs] eqn:Ep.
    { unfold partial2 in Ep. by rewrite (proj2 (Z.eqb_neq _ _)) in Ep. }
    assert (qs = []) as -> by (unfold partial2 in Ep; case_match; congruence).
    destruct (tai2_bytes_enc s2 p (or_intror Hs2') Ep) as [Eb Es].
    simpl. rewrite Z.add_0_l, Es. rewrite fmap_app, concat_app.
    case_match; [by rewrite !app_nil_r|]. rewrite Eb. simpl. by rewrite app_nil_r.
  - rewrite length_concat_penc by done. unfold ps. apply (total_fitting 0). done.
  - apply read_tai_list_penc; [done|].
    clear -Hps. induction Hps as [|p ps Hp _ IH]; [done|]. rewrite fmap_cons. cbn [concat length].
    rewrite length_app. destruct p; simpl; lia.
Qed.

(** A tracking area list with [OGS_MAX_NUM_OF_TAI] areas, which the
    configuration reader accepts, stops the process when the list for a UE
    is built. *)
Theorem tai_list_build_full_aborts t rest s2 :
  t0_type t = TAI0_TYPE → t0_num t = OGS_MAX_NUM_OF_TAI → 0 < OGS_MAX_NUM_OF_TAI →
  ogs_nas_tai_list_build (t :: rest) s2 = Aborted.
Proof.
  intros Et En Hpos. unfold ogs_nas_tai_list_build. simpl.
  rewrite En, (proj2 (Z.eqb_neq OGS_MAX_NUM_OF_TAI 0)) by lia. unfold tai0_bytes. rewrite Et, En. simpl.
  by rewrite Z.ltb_irrefl.
Qed.
End facts.
