(* ===== verification/NasConv.v ===== *)
(** * Mobile identities: [lib/nas/conv.c] *)
From S2P Require Import Prelude.
From S2P Require Import CMem.
#[local] Open Scope Z_scope.

(** [digits]: [digit1] to [digit15]. *)
Record ogs_nas_mobile_identity_imsi_t := { digits : list Z; odd_even : Z; id_type : Z }.

Definition imsi_wf (imsi : ogs_nas_mobile_identity_imsi_t) : Prop :=
  length (digits imsi) = 15%nat ∧ Forall (λ d, 0 <= d < 16) (digits imsi) ∧
  (odd_even imsi = 0 ∨ odd_even imsi = 1).

(** [p[i]] and [p[i] = v] on an array of known extent. *)
Definition load_at (p : list Z) (i : Z) : outcome Z :=
  access (if 0 <=? i then p !! Z.to_nat i else None).
Definition store_at (p : list Z) (i v : Z) : outcome (list Z) :=
  if (0 <=? i) && (i <? Z.of_nat (length p)) then Ok (<[Z.to_nat i := v]> p) else Undef.

Fixpoint store_seq (p : list Z) (i : Z) (vs : list Z) : outcome (list Z) :=
  match vs with
  | [] => mret p
  | v :: vs => p ← store_at p i v; store_seq p (i + 1) vs
  end.

Definition char_0 : Z := 48.

(** [bcd] is the caller's buffer. *)
Definition ogs_nas_imsi_to_bcd (imsi : ogs_nas_mobile_identity_imsi_t) (imsi_len : Z)
    (bcd : list Z) : outcome (list Z) :=
  bcd ← store_seq bcd 0 ((λ d, char_0 + d) <$> digits imsi);
  let bcd_len := imsi_len * 2 - 1 in
  bcd_len ← (if odd_even imsi =? 0 then _ ← load_at bcd bcd_len; mret (bcd_len - 1)
             else mret bcd_len);
  store_at bcd bcd_len 0.

(** [((('0' + hi) << 4) & 0xf0) | (('0' + lo) & 0x0f)] *)
Definition pack_pair (lo hi : Z) : Z :=
  Z.lor (Z.land (Z.shiftl (char_0 + hi) 4) 0xf0) (Z.land (char_0 + lo) 0x0f).

Fixpoint pack_digits (l : list Z) : list Z :=
  match l with
  | lo :: hi :: l => pack_pair lo hi :: pack_digits l
  | [lo] => [Z.land (char_0 + lo) 0x0f]
  | [] => []
  end.

(** The buffer and [*buf_len]. *)
Definition ogs_nas_imsi_to_buffer (imsi : ogs_nas_mobile_identity_imsi_t) (imsi_len : Z)
    (buf : list Z) : outcome (list Z * Z) :=
  buf ← store_seq buf 0 (pack_digits (digits imsi));
  let buf_len := u8 imsi_len in
  if odd_even imsi =? 0 then
    let buf_len := u8 (buf_len - 1) in
    _ ← load_at buf buf_len;
    mret (buf, buf_len)
  else mret (buf, buf_len).

(** ** Facts on arrays *)
Lemma store_at_ok p i v : 0 <= i < Z.of_nat (length p) → store_at p i v = Ok (<[Z.to_nat i := v]> p).
Proof. intros. unfold store_at. by rewrite (proj2 (Z.leb_le _ _)), (proj2 (Z.ltb_lt _ _)) by lia. Qed.

Lemma store_seq_app pre old vs rest :
  length old = length vs →
  store_seq (pre ++ old ++ rest) (Z.of_nat (length pre)) vs = Ok (pre ++ vs ++ rest).
Proof.
  revert pre old. induction vs as [|v vs IH]; intros pre [|o old] Hl; try discriminate Hl; [done|].
  cbn [store_seq]. rewrite store_at_ok by (rewrite !length_app; cbn [length]; lia).
  cbn [mbind outcome_bind]. rewrite Nat2Z.id.
  rewrite insert_app_r_alt, Nat.sub_diag by lia. cbn [app].
  change (<[0%nat := v]> (o :: old ++ rest)) with (v :: old ++ rest).
  specialize (IH (pre ++ [v]) old). rewrite <- !app_assoc in IH. cbn [app] in IH.
  rewrite length_app in IH. cbn [length] in IH.
  rewrite Nat2Z.inj_add in IH. change (Z.of_nat 1) with 1 in IH. rewrite IH by (simpl in Hl; lia).
  done.
Qed.

(** Storing [vs] at the start of a buffer with room for them. *)
Lemma store_seq_start p vs :
  (length vs <= length p)%nat → store_seq p 0 vs = Ok (vs ++ drop (length vs) p).
Proof.
  intros Hl. rewrite <- (take_drop (length vs) p) at 1.
  apply (store_seq_app []). by rewrite length_take_le.
Qed.

(** The characters before the terminating zero. *)
Fixpoint c_string (l : list Z) : list Z :=
  match l with [] => [] | c :: l => if c =? 0 then [] else c :: c_string l end.

Lemma c_string_terminated l rest : Forall (λ c, c ≠ 0) l → c_string (l ++ 0 :: rest) = l.
Proof.
  induction 1 as [|c l Hc _ IH]; [done|]. simpl. rewrite (proj2 (Z.eqb_neq c 0)) by done.
  by rewrite IH.
Qed.

Lemma c_string_id l : Forall (λ c, c ≠ 0) l → c_string l = l.
Proof.
  induction 1 as [|c l Hc _ IH]; [done|]. simpl. by rewrite (proj2 (Z.eqb_neq c 0)), IH.
Qed.

(** The number of digits that [imsi_len] octets and the parity announce. *)
Definition announced (imsi : ogs_nas_mobile_identity_imsi_t) (imsi_len : Z) : Z :=
  imsi_len * 2 - 1 - (if odd_even imsi =? 0 then 1 else 0).

(** IMSI to digit string.  With room for the fifteen digits and the
      terminator, and a length of one to eight octets, the result is the C
      string of the announced digits, in order. *)
Theorem imsi_to_bcd_string imsi imsi_len bcd :
  imsi_wf imsi → (16 <= length bcd)%nat → 1 <= imsi_len <= 8 →
  ∃ bcd', ogs_nas_imsi_to_bcd imsi imsi_len bcd = Ok bcd' ∧ length bcd' = length bcd ∧
    c_string bcd' = (λ d, char_0 + d) <$> take (Z.to_nat (announced imsi imsi_len)) (digits imsi).
Proof.
  intros (Hl & Hd & Hp) Hb Hlen. unfold ogs_nas_imsi_to_bcd.
  set (ds := (λ d, char_0 + d) <$> digits imsi).
  assert (length ds = 15%nat) as Hds by (unfold ds; by rewrite length_fmap).
  rewrite store_seq_start by lia. cbn [mbind outcome_bind]. rewrite Hds.
  set (b1 := ds ++ drop 15 bcd).
  assert (length b1 = length bcd) as Hb1 by (unfold b1; rewrite length_app, length_drop; lia).
  set (n := announced imsi imsi_len). assert (0 <= n <= 15) as Hn.
  { unfold n, announced. destruct Hp as [-> | ->]; simpl; lia. }
  assert ((if odd_even imsi =? 0 then _ ← load_at b1 (imsi_len * 2 - 1); mret (imsi_len * 2 - 1 - 1)
           else mret (imsi_len * 2 - 1)) = Ok n) as ->.
  { unfold n, announced. destruct (odd_even imsi =? 0); [|f_equal; lia].
    unfold load_at. rewrite (proj2 (Z.leb_le _ _)) by lia.
    destruct (lookup_lt_is_Some_2 b1 (Z.to_nat (imsi_len * 2 - 1))) as [v ->]; [lia|done]. }
  cbn [mbind outcome_bind]. rewrite store_at_ok by lia. eexists. split; [done|].
  split; [by rewrite length_insert|].
  rewrite <- (take_drop_middle b1 (Z.to_nat n) (default 0 (b1 !! Z.to_nat n))) at 1.
  - rewrite insert_app_r_alt; rewrite length_take_le by lia; [|done].
    rewrite Nat.sub_diag. cbn [insert list_insert].
    assert (take (Z.to_nat n) b1 = (λ d, char_0 + d) <$> take (Z.to_nat n) (digits imsi)) as ->.
    { unfold b1. rewrite take_app_le by lia. unfold ds. by rewrite fmap_take. }
    apply c_string_terminated. apply list.Forall_fmap, Forall_take.
    eapply list.Forall_impl; [exact Hd|]. intros d Hdd. cbv [compose char_0] in *. lia.
  - destruct (lookup_lt_is_Some_2 b1 (Z.to_nat n)) as [v Hv]; [lia|]. by rewrite Hv.
Qed.

(** The terminator is written where the length octet of the message says:
    for every buffer a long enough announced length makes the conversion write
    (or read) outside the buffer, and so does length zero. *)
Theorem imsi_to_bcd_overflow imsi imsi_len bcd :
  (announced imsi imsi_len < 0 ∨ Z.of_nat (length bcd) <= announced imsi imsi_len) →
  ogs_nas_imsi_to_bcd imsi imsi_len bcd = Undef.
Proof.
  intros Ha. unfold ogs_nas_imsi_to_bcd.
  assert (∀ vs p i q, store_seq p i vs = Ok q → length q = length p) as Hlen.
  { induction vs as [|v vs IH]; intros p i q; simpl; [by intros [= <-]|].
    unfold store_at at 1. case_match; [|done]. simpl. intros E. rewrite (IH _ _ _ E).
    apply length_insert. }
  assert (∀ vs p i, store_seq p i vs ≠ Aborted) as Hna.
  { induction vs as [|v vs IH]; intros p i; simpl; [done|].
    unfold store_at at 1. case_match; [apply IH|done]. }
  specialize (Hna ((λ d, char_0 + d) <$> digits imsi) bcd 0).
  destruct (store_seq bcd 0 _) as [b1| |] eqn:E; [|done|done]. cbn [mbind outcome_bind].
  pose proof (Hlen _ _ _ _ E) as Hb1. unfold announced in Ha.
  assert (∀ k, k < 0 ∨ Z.of_nat (length b1) <= k → store_at b1 k 0 = Undef) as Hst.
  { intros k Hk. unfold store_at. destruct (Z.leb_spec 0 k), (Z.ltb_spec k (Z.of_nat (length b1)));
      simpl; try done; lia. }
  destruct (odd_even imsi =? 0); cbn [mbind outcome_bind]; [|apply Hst; lia].
  unfold load_at, access. repeat (case_match; simpl; try done); apply Hst; lia.
Qed.

(** Nibbles, by exhaustion. *)
Lemma pack_pair_eq lo hi : 0 <= lo < 16 → 0 <= hi < 16 → pack_pair lo hi = hi * 16 + lo.
Proof.
  intros Hlo Hhi.
  assert (forallb (λ lo, forallb (λ hi, pack_pair lo hi =? hi * 16 + lo) (seqZ 0 16)) (seqZ 0 16)
          = true) as Hall by (vm_compute; reflexivity).
  rewrite forallb_forall in Hall. specialize (Hall lo).
  rewrite forallb_forall in Hall. apply Z.eqb_eq, Hall; apply list_elem_of_In, elem_of_seqZ; lia.
Qed.

Lemma pack_last_eq lo : 0 <= lo < 16 → Z.land (char_0 + lo) 0x0f = lo.
Proof.
  intros Hlo.
  assert (forallb (λ lo, Z.land (char_0 + lo) 0x0f =? lo) (seqZ 0 16) = true) as Hall
    by (vm_compute; reflexivity).
  rewrite forallb_forall in Hall.
  apply Z.eqb_eq, Hall, list_elem_of_In, elem_of_seqZ. lia.
Qed.

(** The octets that hold the digits, first digit in the low nibble. *)
Fixpoint octets (l : list Z) : list Z :=
  match l with
  | lo :: hi :: l => hi * 16 + lo :: octets l
  | [lo] => [lo]
  | [] => []
  end.

(** IMSI to wire octets.  The octets are the digits, two per octet, the
    first in the low nibble; the length is that of the message, one less for
    an even number of digits. *)
Theorem imsi_to_buffer_digits imsi imsi_len buf :
  imsi_wf imsi → (8 <= length buf)%nat → 1 <= imsi_len <= 8 →
  ∃ buf' n, ogs_nas_imsi_to_buffer imsi imsi_len buf = Ok (buf', n) ∧
    n = imsi_len - (if odd_even imsi =? 0 then 1 else 0) ∧
    concat ((λ b, [b mod 16; b / 16]) <$> take 8 buf') = digits imsi ++ [0].
Proof.
  intros (Hl & Hd & Hp) Hb Hlen. unfold ogs_nas_imsi_to_buffer.
  destruct imsi as [ds oe ty]. cbn [digits odd_even] in *.
  assert (pack_digits ds = octets ds ∧ length (octets ds) = 8%nat ∧
          concat ((λ b, [b mod 16; b / 16]) <$> octets ds) = ds ++ [0]) as (E & E8 & Ec).
  { do 15 (destruct ds as [|? ds]; [discriminate Hl|]). destruct ds; [|discriminate Hl].
    rewrite !list.Forall_cons in Hd. destruct_and!. cbn [pack_digits octets].
    rewrite !pack_pair_eq by done. rewrite (pack_last_eq z13) by done.
    split; [done|]. split; [done|]. cbn -[Z.mul Z.add Z.div Z.modulo]. repeat (f_equal; try lia). }
  rewrite E, store_seq_start by lia. cbn [mbind outcome_bind]. rewrite E8.
  assert (take 8 (octets ds ++ drop 8 buf) = octets ds) as Et by (by rewrite take_app_length' by lia).
  assert (length (octets ds ++ drop 8 buf) = length buf) as Hlb
    by (rewrite length_app, length_drop; lia).
  rewrite (wrap_small 8 imsi_len) by lia.
  destruct Hp as [-> | ->]; cbn [Z.eqb].
  - rewrite wrap_small by lia. unfold load_at. rewrite (proj2 (Z.leb_le _ _)) by lia.
    destruct (lookup_lt_is_Some_2 (octets ds ++ drop 8 buf) (Z.to_nat (imsi_len - 1))) as [v ->];
      [lia|]. cbn. eexists _, _. split; [done|]. split; [done|]. by rewrite Et.
  - eexists _, _. split; [done|]. split; [lia|]. by rewrite Et.
Qed.
