(* ===== verification/NasExamples.v ===== *)
(** * The NAS information elements at concrete inputs *)
From S2P Require Import Prelude.
From S2P Require Import CMem.
From S2P Require Import OgsLib.
From S2P Require Import OgsRef.
From S2P Require Import NasTypes.
From S2P Require Import NasTai.
From S2P Require Import NasConv.
#[local] Open Scope Z_scope.

Lemma br_calculate_decode_witness :
  let '(c, n) := Rate.br_calculate Rate.zero (300 * 1024) in
  Rate.decode c <= 300 * 1024 < Rate.decode c + 1024 ∧ n = 3.
Proof.
  pose proof (Rate.br_calculate_decode (300 * 1024)) as Hd.
  destruct (Rate.br_calculate Rate.zero (300 * 1024)) as [c n] eqn:E.
  vm_compute in E. injection E as <- <-. split; [|reflexivity].
  apply Hd. lia.
Defined.

Lemma apn_ambr_build_decodes_witness :
  Ambr.length (Ambr.apn_ambr_build 102400000 51200000) = 4 ∧
  Ambr.codes (Ambr.read_rate (Ambr.ambr_wire (Ambr.apn_ambr_build 102400000 51200000)) 0 2)
    (102400000 / 1024).
Proof.
  destruct (Ambr.apn_ambr_build_decodes 102400000 51200000) as (_ & _ & Hd & _); [lia|lia|].
  split; [vm_compute; reflexivity|exact Hd].
Defined.

Lemma eps_qos_build_decodes_witness :
  Ambr.qos_length (Ambr.eps_qos_build 9 (2 ^ 30) 0 65536 65536) = 13 ∧
  Ambr.codes (Ambr.read_rate (Ambr.qos_wire (Ambr.eps_qos_build 9 (2 ^ 30) 0 65536 65536)) 2 4)
    (2 ^ 30 / 1024).
Proof.
  destruct (Ambr.eps_qos_build_decodes 9 (2 ^ 30) 0 65536 65536)
    as (_ & _ & _ & _ & Hd & _).
  - intros r. rewrite !elem_of_cons, elem_of_nil. lia.
  - split; [vm_compute; reflexivity|exact Hd].
Defined.

(** MCC 001, MNC 01; and MCC 901, MNC 704. *)
Definition digits2 : OgsLib.digits :=
  {| mcc1 := 0; mcc2 := 0; mcc3 := 1; mnc1 := 15; mnc2 := 0; mnc3 := 1 |}.
Definition digits3 : OgsLib.digits :=
  {| mcc1 := 9; mcc2 := 0; mcc3 := 1; mnc1 := 7; mnc2 := 0; mnc3 := 4 |}.

Lemma plmn_id_roundtrip_witness :
  nas_image (ogs_nas_from_plmn_id (plmn_of_digits digits3)) = [0x09; 0x41; 0x07] ∧
  ogs_nas_to_plmn_id (ogs_nas_from_plmn_id (plmn_of_digits digits3)) = plmn_of_digits digits3.
Proof.
  destruct (plmn_id_roundtrip digits3) as [_ Hr].
  - repeat constructor; vm_compute; congruence.
  - vm_compute. congruence.
  - split; [vm_compute; reflexivity|exact Hr].
Defined.

Definition tai0_example : tai0_list_t :=
  [{| t0_type := 0; t0_num := 2; t0_plmn_id := plmn_of_digits digits2;
      t0_tac := [12345; 7] ++ replicate 14 0 |};
   {| t0_type := 0; t0_num := 0; t0_plmn_id := plmn_of_digits digits2; t0_tac := [] |}].
Definition tai2_example : tai2_list_t :=
  {| t2_type := 1; t2_num := 1; t2_tai := [(plmn_of_digits digits3, 300)] |}.

Lemma tai_list_build_decodes_witness :
  ∃ buffer, ogs_nas_tai_list_build tai0_example tai2_example = Ok buffer ∧
    read_tai_list (length buffer) buffer =
      Some [SamePlmn [0x00; 0xf1; 0x10] [12345; 7]; Tais 1 [([0x09; 0x41; 0x07], 300)]].
Proof.
  destruct (tai_list_build_decodes tai0_example tai2_example) as (buffer & Hb & _ & Hr).
  - vm_compute. congruence.
  - split; [|cbn; lia]. repeat constructor; vm_compute; congruence.
  - right. split; [by left|]. split; [cbn; lia|]. split; [cbn; lia|].
    repeat constructor; vm_compute; congruence.
  - exists buffer. split; [exact Hb|]. rewrite Hr. vm_compute. reflexivity.
Defined.

Definition tai0_full : tai0_t :=
  {| t0_type := 0; t0_num := 16; t0_plmn_id := plmn_of_digits digits2; t0_tac := replicate 16 1 |}.

Lemma tai_list_build_full_aborts_witness :
  ogs_nas_tai_list_build [tai0_full] tai2_example = Aborted.
Proof. apply tai_list_build_full_aborts; reflexivity. Defined.

Definition imsi_example : ogs_nas_mobile_identity_imsi_t :=
  {| digits := [0; 0; 1; 0; 1; 1; 2; 3; 4; 5; 6; 7; 8; 9; 9]; odd_even := 1; id_type := 1 |}.

Lemma imsi_example_wf : imsi_wf imsi_example.
Proof. split; [reflexivity|]. split; [|by right]. repeat constructor; vm_compute; congruence. Qed.

Lemma imsi_to_bcd_string_witness :
  ∃ bcd', ogs_nas_imsi_to_bcd imsi_example 8 (replicate 16 0) = Ok bcd' ∧
    c_string bcd' = [48; 48; 49; 48; 49; 49; 50; 51; 52; 53; 54; 55; 56; 57; 57].
Proof.
  destruct (imsi_to_bcd_string imsi_example 8 (replicate 16 0)) as (bcd' & Hr & _ & Hs);
    [exact imsi_example_wf|cbn; lia|lia|].
  exists bcd'. split; [exact Hr|]. rewrite Hs. reflexivity.
Defined.

Lemma imsi_to_bcd_overflow_witness :
  ogs_nas_imsi_to_bcd imsi_example 9 (replicate 16 0) = Undef.
Proof. apply imsi_to_bcd_overflow. right. vm_compute. congruence. Defined.

Lemma imsi_to_buffer_digits_witness :
  ∃ buf' n, ogs_nas_imsi_to_buffer imsi_example 8 (replicate 8 0) = Ok (buf', n) ∧ n = 8.
Proof.
  destruct (imsi_to_buffer_digits imsi_example 8 (replicate 8 0)) as (buf' & n & Hr & Hn & _);
    [exact imsi_example_wf|cbn; lia|lia|].
  exists buf', n. split; [exact Hr|]. rewrite Hn. reflexivity.
Defined.
