(* ===== verification/NasIes.v ===== *)
(** * The information elements of NAS: [lib/nas/ies.c], [types.h]

    An element is copied between the packet and a C structure with [memcpy];
    a structure is here its octets ([Image]), and a copy that does not fit
    the structure is [Undef], as is reading beyond the octets of the packet.
    The functions of [ies.c] follow a handful of patterns: a structure of
    fixed size ([decode_v]), one with a length in front ([decode_lv]), half
    an octet that shares the octet of its type ([decode_half]) and a pointer
    into the packet ([decode_container]); each may convert the byte order of
    some fields. *)
From S2P Require Import Prelude.
From S2P Require Import CMem.
From S2P Require Import OgsLib.
From S2P Require NasConv.
#[local] Open Scope Z_scope.

(** ** Objects *)
Inductive ie_t :=
| Image (octets : list Z)
| Pointed (length : Z) (buffer : option (list Z)).
(** The type of an element: a structure of that size, or a length and a
    pointer. *)
Inductive ie_type := Struct (size : nat) | Pointer.
Definition sizeof (t : ie_type) : nat := match t with Struct n => n | Pointer => 0 end.
(** Zeroed memory. *)
Definition zero_ie (t : ie_type) : ie_t :=
  match t with Struct n => Image (replicate n 0) | Pointer => Pointed 0 None end.

(** Constants of ogslib that size the structures. *)
Class OgsLengths := {
  OGS_RAND_LEN : nat; OGS_AUTN_LEN : nat; OGS_AUTS_LEN : nat; OGS_MAX_RES_LEN : nat;
  OGS_MAX_APN_LEN : nat; OGS_MAX_PCO_LEN : nat; OGS_IPV6_LEN : nat;
}.
(** [ogs_fqdn_parse] turns the labels of a name into text, [ogs_fqdn_build]
    text into labels; both return its length. *)
Class OgsFqdn := {
  ogs_fqdn_parse : list Z → outcome (list Z);
  ogs_fqdn_build : list Z → list Z;
}.

Section types.
Context `{OgsLengths}.
Definition ogs_nas_additional_information_t : ie_type := Struct 256.
Definition ogs_nas_device_properties_t : ie_type := Struct 1.
Definition ogs_nas_eps_bearer_context_status_t : ie_type := Struct 3.
Definition ogs_nas_supported_codec_list_t : ie_type := Struct 33.
Definition ogs_nas_location_area_identification_t : ie_type := Struct 5.
Definition ogs_nas_mobile_identity_t : ie_type := Struct 9.
Definition ogs_nas_mobile_station_classmark_2_t : ie_type := Struct 4.
Definition ogs_nas_mobile_station_classmark_3_t : ie_type := Struct 33.
Definition ogs_nas_plmn_list_t : ie_type := Struct 46.
Definition ogs_nas_additional_update_result_t : ie_type := Struct 1.
Definition ogs_nas_additional_update_type_t : ie_type := Struct 1.
Definition ogs_nas_authentication_failure_parameter_t : ie_type := Struct (1 + OGS_AUTS_LEN).
Definition ogs_nas_eps_attach_result_t : ie_type := Struct 1.
Definition ogs_nas_eps_attach_type_t : ie_type := Struct 1.
Definition ogs_nas_eps_mobile_identity_t : ie_type := Struct 12.
Definition ogs_nas_eps_network_feature_support_t : ie_type := Struct 3.
Definition ogs_nas_eps_update_result_t : ie_type := Struct 1.
Definition ogs_nas_eps_update_type_t : ie_type := Struct 1.
Definition ogs_nas_esm_message_container_t : ie_type := Pointer.
Definition ogs_nas_gprs_timer_t : ie_type := Struct 1.
Definition ogs_nas_gprs_timer_2_t : ie_type := Struct 2.
Definition ogs_nas_gprs_timer_3_t : ie_type := Struct 2.
Definition ogs_nas_identity_type_2_t : ie_type := Struct 1.
Definition ogs_nas_imeisv_request_t : ie_type := Struct 1.
Definition ogs_nas_ksi_and_sequence_number_t : ie_type := Struct 1.
Definition ogs_nas_authentication_parameter_autn_t : ie_type := Struct (1 + OGS_AUTN_LEN).
Definition ogs_nas_ms_network_capability_t : ie_type := Struct 5.
Definition ogs_nas_ms_network_feature_support_t : ie_type := Struct 1.
Definition ogs_nas_key_set_identifier_t : ie_type := Struct 1.
Definition ogs_nas_message_container_t : ie_type := Struct 251.
Definition ogs_nas_security_algorithms_t : ie_type := Struct 1.
Definition ogs_nas_network_name_t : ie_type := Struct 257.
Definition ogs_nas_network_resource_identifier_container_t : ie_type := Struct 3.
Definition ogs_nas_nonce_t : ie_type := Struct 4.
Definition ogs_nas_paging_identity_t : ie_type := Struct 1.
Definition ogs_nas_p_tmsi_signature_t : ie_type := Struct 4.
Definition ogs_nas_extended_emm_cause_t : ie_type := Struct 1.
Definition ogs_nas_service_type_t : ie_type := Struct 1.
Definition ogs_nas_short_mac_t : ie_type := Struct 2.
Definition ogs_nas_time_zone_t : ie_type := Struct 1.
Definition ogs_nas_authentication_parameter_rand_t : ie_type := Struct (OGS_RAND_LEN).
Definition ogs_nas_time_zone_and_time_t : ie_type := Struct 7.
Definition ogs_nas_tmsi_status_t : ie_type := Struct 1.
Definition ogs_nas_tracking_area_identity_t : ie_type := Struct 5.
Definition ogs_nas_tracking_area_identity_list_t : ie_type := Struct 97.
Definition ogs_nas_ue_network_capability_t : ie_type := Struct 8.
Definition ogs_nas_ue_radio_capability_information_update_needed_t : ie_type := Struct 1.
Definition ogs_nas_ue_security_capability_t : ie_type := Struct 6.
Definition ogs_nas_emergency_number_list_t : ie_type := Struct 50.
Definition ogs_nas_cli_t : ie_type := Struct 13.
Definition ogs_nas_ss_code_t : ie_type := Struct 1.
Definition ogs_nas_authentication_response_parameter_t : ie_type := Struct (1 + OGS_MAX_RES_LEN).
Definition ogs_nas_lcs_indicator_t : ie_type := Struct 1.
Definition ogs_nas_lcs_client_identity_t : ie_type := Struct 256.
Definition ogs_nas_generic_message_container_type_t : ie_type := Struct 1.
Definition ogs_nas_generic_message_container_t : ie_type := Pointer.
Definition ogs_nas_voice_domain_preference_and_ue_usage_setting_t : ie_type := Struct 2.
Definition ogs_nas_guti_type_t : ie_type := Struct 1.
Definition ogs_nas_extended_drx_parameters_t : ie_type := Struct 2.
Definition ogs_nas_ciphering_key_sequence_number_t : ie_type := Struct 1.
Definition ogs_nas_csfb_response_t : ie_type := Struct 1.
Definition ogs_nas_daylight_saving_time_t : ie_type := Struct 2.
Definition ogs_nas_detach_type_t : ie_type := Struct 1.
Definition ogs_nas_drx_parameter_t : ie_type := Struct 2.
Definition ogs_nas_emm_cause_t : ie_type := Struct 1.
Definition ogs_nas_access_point_name_t : ie_type := Struct (1 + OGS_MAX_APN_LEN).
Definition ogs_nas_protocol_configuration_options_t : ie_type := Struct (1 + OGS_MAX_PCO_LEN).
Definition ogs_nas_quality_of_service_t : ie_type := Struct 21.
Definition ogs_nas_radio_priority_t : ie_type := Struct 1.
Definition ogs_nas_re_attempt_indicator_t : ie_type := Struct 2.
Definition ogs_nas_request_type_t : ie_type := Struct 1.
Definition ogs_nas_traffic_flow_aggregate_description_t : ie_type := Struct 256.
Definition ogs_nas_traffic_flow_template_t : ie_type := Struct 256.
Definition ogs_nas_transaction_identifier_t : ie_type := Struct 3.
Definition ogs_nas_wlan_offload_acceptability_t : ie_type := Struct 1.
Definition ogs_nas_nbifom_container_t : ie_type := Struct 256.
Definition ogs_nas_apn_aggregate_maximum_bit_rate_t : ie_type := Struct 7.
Definition ogs_nas_header_compression_configuration_t : ie_type := Struct 260.
Definition ogs_nas_control_plane_only_indication_t : ie_type := Struct 1.
Definition ogs_nas_extended_protocol_configuration_options_t : ie_type := Pointer.
Definition ogs_nas_header_compression_configuration_status_t : ie_type := Struct 3.
Definition ogs_nas_serving_plmn_rate_control_t : ie_type := Struct 3.
Definition ogs_nas_connectivity_type_t : ie_type := Struct 1.
Definition ogs_nas_eps_quality_of_service_t : ie_type := Struct 14.
Definition ogs_nas_esm_cause_t : ie_type := Struct 1.
Definition ogs_nas_esm_information_transfer_flag_t : ie_type := Struct 1.
Definition ogs_nas_linked_eps_bearer_identity_t : ie_type := Struct 1.
Definition ogs_nas_llc_service_access_point_identifier_t : ie_type := Struct 1.
Definition ogs_nas_packet_flow_identifier_t : ie_type := Struct 2.
Definition ogs_nas_pdn_address_t : ie_type := Struct (2 + OGS_IPV6_LEN / 2 + 4).
End types.

(** ** The packet *)
Section ies.
Context `{Host, OgsBits, OgsPkbuf, OgsLengths, OgsFqdn}.

(** Decoding and encoding functions: the size they return and the object
    they leave. *)
#[warnings="-notation-for-abbreviation"] Notation decoder := (ie_t → M pkbuf (Z * ie_t)).
#[warnings="-notation-for-abbreviation"] Notation encoder := (ie_t → M pkbuf (Z * ie_t)).

(** [ogs_assert(ogs_pkbuf_pull(pkbuf, n))] *)
Definition pull (n : nat) : M pkbuf () :=
  b ← get;
  match ogs_pkbuf_pull b n with Some b => put b | None => mabort end.
(** The [n] octets at [pkbuf->data - n]. *)
Definition passed (n : nat) : M pkbuf (list Z) :=
  b ← get;
  lift (if (n <=? length (pk_head b))%nat
        then Ok (drop (length (pk_head b) - n) (pk_head b)) else Undef).
(** [memcpy(pkbuf->data - length bs, bs, length bs)] *)
Definition fill (bs : list Z) : M pkbuf () :=
  b ← get;
  if (length bs <=? length (pk_head b))%nat
  then put {| pk_head := take (length (pk_head b) - length bs) (pk_head b) ++ bs; pk_data := pk_data b |}
  else lift Undef.

Definition image (x : ie_t) : outcome (list Z) :=
  match x with Image img => Ok img | Pointed _ _ => Undef end.
(** [memcpy] to the start of a structure. *)
Definition copy_in (bs img : list Z) : outcome (list Z) :=
  if (length bs <=? length img)%nat then Ok (bs ++ drop (length bs) img) else Undef.
(** The [k]-octet integer at the start of a structure or of the packet. *)
Definition length_field (k : nat) (l : list Z) : outcome Z :=
  bs ← access (slice 0 k l); Ok (host_value bs).

(** [ntohs] or [ntohl] of the [n]-octet field at [off]. *)
Definition swap (off n : nat) (img : list Z) : outcome (list Z) :=
  bs ← access (slice off n img);
  Ok (take off img ++ host_bytes n (hton n (host_value bs)) ++ drop (off + n) img).

Definition decode_v (n : nat) (order : list Z → outcome (list Z)) : decoder := λ x,
  img ← lift (image x);
  pull n;;
  bs ← passed n;
  img ← lift (copy_in bs img);
  img ← lift (order img);
  mret (Z.of_nat n, Image img).

Definition encode_v (n : nat) (order : list Z → outcome (list Z)) : encoder := λ x,
  img ← lift (image x);
  target ← lift (access (slice 0 n img));
  target ← lift (order target);
  pull n;;
  fill target;;
  mret (Z.of_nat n, x).

(** The length has [k] octets; [size] is a [uint16_t]. *)
Definition decode_lv (k : nat) (order : list Z → outcome (list Z)) : decoder := λ x,
  img ← lift (image x);
  b ← get;
  len ← lift (length_field k (pk_data b));
  let size := u16 (len + Z.of_nat k) in
  pull (Z.to_nat size);;
  bs ← passed (Z.to_nat size);
  img ← lift (copy_in (host_bytes k len) img);
  img ← lift (copy_in bs img);
  img ← lift (order img);
  mret (size, Image img).

Definition encode_lv (k n : nat) (order : list Z → outcome (list Z)) : encoder := λ x,
  img ← lift (image x);
  len ← lift (length_field k img);
  let size := u16 (len + Z.of_nat k) in
  target ← lift (access (slice 0 n img));
  target ← lift (order target);
  pull (Z.to_nat size);;
  bs ← lift (access (slice 0 (Z.to_nat size) target));
  fill bs;;
  mret (size, x).

Definition decode_half : decoder := λ x,
  img ← lift (image x);
  bs ← passed 1;
  img ← lift (copy_in bs img);
  mret (0, Image img).
Definition encode_half (n : nat) : encoder := λ x,
  img ← lift (image x);
  pull n;;
  bs ← lift (access (slice 0 n img));
  fill bs;;
  mret (Z.of_nat n, x).

(** The pointer is [pkbuf->data - size + 2]: what lies there is the rest of
    the buffer. *)
Definition decode_container : decoder := λ x,
  b ← get;
  len ← lift (bs ← access (slice 0 2 (pk_data b)); Ok (ntohs (host_value bs)));
  let size := u16 (len + 2) in
  pull (Z.to_nat size);;
  b ← get;
  let start := (length (pk_head b) - Z.to_nat size + 2)%nat in
  mret (size, Pointed len (Some (drop start (pk_head b ++ pk_data b)))).

Definition encode_container : encoder := λ x,
  match x with
  | Pointed len (Some buffer) =>
      pull 2;;
      fill (host_bytes 2 (htons len));;
      pull (Z.to_nat len);;
      bs ← lift (access (slice 0 (Z.to_nat len) buffer));
      fill bs;;
      mret (len + 2, x)
  | Pointed _ None => mabort
  | Image _ => lift Undef
  end.

(** *** Identities *)
Definition OGS_NAS_MOBILE_IDENTITY_TMSI : Z := 4.
Definition OGS_NAS_EPS_MOBILE_IDENTITY_GUTI : Z := 6.
(** The octet behind the length: spare (4), odd_even (1), type (3). *)
Definition identity_bits (img : list Z) : outcome (list Z) :=
  b ← access (img !! 1%nat); Ok (ed_unpack [4; 1; 3]%nat b).
Definition identity_type (img : list Z) : outcome Z :=
  bits ← identity_bits img; Ok (nth 2 bits 0).
(** [target.tmsi.spare = 0xf] *)
Definition set_spare (img : list Z) : outcome (list Z) :=
  bits ← identity_bits img;
  Ok (<[1%nat := ed_pack [(4%nat, 15); (1%nat, nth 1 bits 0); (3%nat, nth 2 bits 0)]]> img).
Definition mobile_identity_order (img : list Z) : outcome (list Z) :=
  type ← identity_type img;
  if type =? OGS_NAS_MOBILE_IDENTITY_TMSI then swap 2 4 img else Ok img.
Definition mobile_identity_spare (img : list Z) : outcome (list Z) :=
  type ← identity_type img;
  if type =? OGS_NAS_MOBILE_IDENTITY_TMSI then set_spare img else Ok img.
Definition eps_mobile_identity_order (img : list Z) : outcome (list Z) :=
  type ← identity_type img;
  if type =? OGS_NAS_EPS_MOBILE_IDENTITY_GUTI then img ← swap 5 2 img; swap 8 4 img else Ok img.
Definition eps_mobile_identity_spare (img : list Z) : outcome (list Z) :=
  type ← identity_type img;
  if type =? OGS_NAS_EPS_MOBILE_IDENTITY_GUTI then set_spare img else Ok img.

(** ** The functions *)
Definition ogs_nas_encode_optional_type (type : Z) : M pkbuf Z :=
  pull 1;; fill [type];; mret 1.

(** The octets are taken from the object before the value is converted, in
    place, for nothing. *)
Definition ogs_nas_encode_p_tmsi_signature : encoder := λ x,
  img ← lift (image x);
  target ← lift (access (slice 0 3 img));
  img ← lift (swap 0 4 img);
  pull 3;;
  fill target;;
  mret (3, Image img).

(** The text of the name is parsed into an array of [OGS_MAX_APN_LEN] octets
    and goes back to the structure it came from: [ogs_cpystrn] copies it up to
    its first zero, or its length, and writes a terminator. *)
Definition ogs_nas_decode_access_point_name : decoder := λ x,
  r ← decode_lv 1 Ok x;
  img ← lift (image (snd r));
  len ← lift (length_field 1 img);
  labels ← lift (access (slice 1 (Z.to_nat len) img));
  apn ← lift (ogs_fqdn_parse labels);
  apn ← lift (if (length apn <? OGS_MAX_APN_LEN)%nat then Ok apn else Undef);
  let len := u8 (Z.of_nat (length apn)) in
  let n := Nat.min (Z.to_nat len) OGS_MAX_APN_LEN in
  img ← lift (copy_in (len :: NasConv.c_string (take n apn) ++ [0]) img);
  mret (fst r, Image img).
Definition ogs_nas_encode_access_point_name : encoder := λ x,
  img ← lift (image x);
  len ← lift (length_field 1 img);
  apn ← lift (access (slice 1 (Z.to_nat len) img));
  let labels := ogs_fqdn_build apn in
  let target_length := u8 (Z.of_nat (length labels)) in
  target ← lift (copy_in (target_length :: labels) img);
  let size := u16 (target_length + 1) in
  pull (Z.to_nat size);;
  bs ← lift (access (slice 0 (Z.to_nat size) target));
  fill bs;;
  mret (size, x).

Definition ogs_nas_decode_additional_information : decoder := decode_lv 1 Ok.
Definition ogs_nas_encode_additional_information : encoder :=
  encode_lv 1 (sizeof ogs_nas_additional_information_t) Ok.
Definition ogs_nas_decode_device_properties : decoder := decode_half.
Definition ogs_nas_encode_device_properties : encoder :=
  encode_half (sizeof ogs_nas_device_properties_t).
Definition ogs_nas_decode_eps_bearer_context_status : decoder := decode_lv 1 Ok.
Definition ogs_nas_encode_eps_bearer_context_status : encoder :=
  encode_lv 1 (sizeof ogs_nas_eps_bearer_context_status_t) Ok.
Definition ogs_nas_decode_supported_codec_list : decoder := decode_lv 1 Ok.
Definition ogs_nas_encode_supported_codec_list : encoder :=
  encode_lv 1 (sizeof ogs_nas_supported_codec_list_t) Ok.
Definition ogs_nas_decode_location_area_identification : decoder :=
  decode_v (sizeof ogs_nas_location_area_identification_t) (swap 3 2).
Definition ogs_nas_encode_location_area_identification : encoder :=
  encode_v (sizeof ogs_nas_location_area_identification_t) (swap 3 2).
Definition ogs_nas_decode_mobile_identity : decoder := decode_lv 1 mobile_identity_order.
Definition ogs_nas_encode_mobile_identity : encoder :=
  encode_lv 1 (sizeof ogs_nas_mobile_identity_t) (λ img, img ← mobile_identity_order img; mobile_identity_spare img).
Definition ogs_nas_decode_mobile_station_classmark_2 : decoder := decode_lv 1 Ok.
Definition ogs_nas_encode_mobile_station_classmark_2 : encoder :=
  encode_lv 1 (sizeof ogs_nas_mobile_station_classmark_2_t) Ok.
Definition ogs_nas_decode_mobile_station_classmark_3 : decoder := decode_lv 1 Ok.
Definition ogs_nas_encode_mobile_station_classmark_3 : encoder :=
  encode_lv 1 (sizeof ogs_nas_mobile_station_classmark_3_t) Ok.
Definition ogs_nas_decode_plmn_list : decoder := decode_lv 1 Ok.
Definition ogs_nas_encode_plmn_list : encoder := encode_lv 1 (sizeof ogs_nas_plmn_list_t) Ok.
Definition ogs_nas_decode_additional_update_result : decoder := decode_half.
Definition ogs_nas_encode_additional_update_result : encoder :=
  encode_half (sizeof ogs_nas_additional_update_result_t).
Definition ogs_nas_decode_additional_update_type : decoder := decode_half.
Definition ogs_nas_encode_additional_update_type : encoder :=
  encode_half (sizeof ogs_nas_additional_update_type_t).
Definition ogs_nas_decode_authentication_failure_parameter : decoder := decode_lv 1 Ok.
Definition ogs_nas_encode_authentication_failure_parameter : encoder :=
  encode_lv 1 (sizeof ogs_nas_authentication_failure_parameter_t) Ok.
Definition ogs_nas_decode_eps_attach_result : decoder :=
  decode_v (sizeof ogs_nas_eps_attach_result_t) Ok.
Definition ogs_nas_encode_eps_attach_result : encoder :=
  encode_v (sizeof ogs_nas_eps_attach_result_t) Ok.
Definition ogs_nas_decode_eps_attach_type : decoder :=
  decode_v (sizeof ogs_nas_eps_attach_type_t) Ok.
Definition ogs_nas_encode_eps_attach_type : encoder :=
  encode_v (sizeof ogs_nas_eps_attach_type_t) Ok.
Definition ogs_nas_decode_eps_mobile_identity : decoder := decode_lv 1 eps_mobile_identity_order.
Definition ogs_nas_encode_eps_mobile_identity : encoder :=
  encode_lv 1 (sizeof ogs_nas_eps_mobile_identity_t) (λ img, img ← eps_mobile_identity_order img; eps_mobile_identity_spare img).
Definition ogs_nas_decode_eps_network_feature_support : decoder := decode_lv 1 Ok.
Definition ogs_nas_encode_eps_network_feature_support : encoder :=
  encode_lv 1 (sizeof ogs_nas_eps_network_feature_support_t) Ok.
Definition ogs_nas_decode_eps_update_result : decoder :=
  decode_v (sizeof ogs_nas_eps_update_result_t) Ok.
Definition ogs_nas_encode_eps_update_result : encoder :=
  encode_v (sizeof ogs_nas_eps_update_result_t) Ok.
Definition ogs_nas_decode_eps_update_type : decoder :=
  decode_v (sizeof ogs_nas_eps_update_type_t) Ok.
Definition ogs_nas_encode_eps_update_type : encoder :=
  encode_v (sizeof ogs_nas_eps_update_type_t) Ok.
Definition ogs_nas_decode_esm_message_container : decoder := decode_container.
Definition ogs_nas_encode_esm_message_container : encoder := encode_container.
Definition ogs_nas_decode_gprs_timer : decoder := decode_v (sizeof ogs_nas_gprs_timer_t) Ok.
Definition ogs_nas_encode_gprs_timer : encoder := encode_v (sizeof ogs_nas_gprs_timer_t) Ok.
Definition ogs_nas_decode_gprs_timer_2 : decoder := decode_lv 1 Ok.
Definition ogs_nas_encode_gprs_timer_2 : encoder := encode_lv 1 (sizeof ogs_nas_gprs_timer_2_t) Ok.
Definition ogs_nas_decode_gprs_timer_3 : decoder := decode_lv 1 Ok.
Definition ogs_nas_encode_gprs_timer_3 : encoder := encode_lv 1 (sizeof ogs_nas_gprs_timer_3_t) Ok.
Definition ogs_nas_decode_identity_type_2 : decoder :=
  decode_v (sizeof ogs_nas_identity_type_2_t) Ok.
Definition ogs_nas_encode_identity_type_2 : encoder :=
  encode_v (sizeof ogs_nas_identity_type_2_t) Ok.
Definition ogs_nas_decode_imeisv_request : decoder := decode_half.
Definition ogs_nas_encode_imeisv_request : encoder := encode_half (sizeof ogs_nas_imeisv_request_t).
Definition ogs_nas_decode_ksi_and_sequence_number : decoder :=
  decode_v (sizeof ogs_nas_ksi_and_sequence_number_t) Ok.
Definition ogs_nas_encode_ksi_and_sequence_number : encoder :=
  encode_v (sizeof ogs_nas_ksi_and_sequence_number_t) Ok.
Definition ogs_nas_decode_authentication_parameter_autn : decoder := decode_lv 1 Ok.
Definition ogs_nas_encode_authentication_parameter_autn : encoder :=
  encode_lv 1 (sizeof ogs_nas_authentication_parameter_autn_t) Ok.
Definition ogs_nas_decode_ms_network_capability : decoder := decode_lv 1 Ok.
Definition ogs_nas_encode_ms_network_capability : encoder :=
  encode_lv 1 (sizeof ogs_nas_ms_network_capability_t) Ok.
Definition ogs_nas_decode_ms_network_feature_support : decoder := decode_half.
Definition ogs_nas_encode_ms_network_feature_support : encoder :=
  encode_half (sizeof ogs_nas_ms_network_feature_support_t).
Definition ogs_nas_decode_key_set_identifier : decoder := decode_half.
Definition ogs_nas_encode_key_set_identifier : encoder :=
  encode_half (sizeof ogs_nas_key_set_identifier_t).
Definition ogs_nas_decode_message_container : decoder := decode_lv 1 Ok.
Definition ogs_nas_encode_message_container : encoder :=
  encode_lv 1 (sizeof ogs_nas_message_container_t) Ok.
Definition ogs_nas_decode_security_algorithms : decoder :=
  decode_v (sizeof ogs_nas_security_algorithms_t) Ok.
Definition ogs_nas_encode_security_algorithms : encoder :=
  encode_v (sizeof ogs_nas_security_algorithms_t) Ok.
Definition ogs_nas_decode_network_name : decoder := decode_lv 1 Ok.
Definition ogs_nas_encode_network_name : encoder := encode_lv 1 (sizeof ogs_nas_network_name_t) Ok.
Definition ogs_nas_decode_network_resource_identifier_container : decoder := decode_lv 1 Ok.
Definition ogs_nas_encode_network_resource_identifier_container : encoder :=
  encode_lv 1 (sizeof ogs_nas_network_resource_identifier_container_t) Ok.
Definition ogs_nas_decode_nonce : decoder := decode_v (sizeof ogs_nas_nonce_t) (swap 0 4).
Definition ogs_nas_encode_nonce : encoder := encode_v (sizeof ogs_nas_nonce_t) (swap 0 4).
Definition ogs_nas_decode_paging_identity : decoder :=
  decode_v (sizeof ogs_nas_paging_identity_t) Ok.
Definition ogs_nas_encode_paging_identity : encoder :=
  encode_v (sizeof ogs_nas_paging_identity_t) Ok.
Definition ogs_nas_decode_p_tmsi_signature : decoder := decode_v 3 (swap 0 4).
Definition ogs_nas_decode_extended_emm_cause : decoder := decode_half.
Definition ogs_nas_encode_extended_emm_cause : encoder :=
  encode_half (sizeof ogs_nas_extended_emm_cause_t).
Definition ogs_nas_decode_service_type : decoder := decode_v (sizeof ogs_nas_service_type_t) Ok.
Definition ogs_nas_encode_service_type : encoder := encode_v (sizeof ogs_nas_service_type_t) Ok.
Definition ogs_nas_decode_short_mac : decoder := decode_v (sizeof ogs_nas_short_mac_t) (swap 0 2).
Definition ogs_nas_encode_short_mac : encoder := encode_v (sizeof ogs_nas_short_mac_t) (swap 0 2).
Definition ogs_nas_decode_time_zone : decoder := decode_v (sizeof ogs_nas_time_zone_t) Ok.
Definition ogs_nas_encode_time_zone : encoder := encode_v (sizeof ogs_nas_time_zone_t) Ok.
Definition ogs_nas_decode_authentication_parameter_rand : decoder :=
  decode_v (sizeof ogs_nas_authentication_parameter_rand_t) Ok.
Definition ogs_nas_encode_authentication_parameter_rand : encoder :=
  encode_v (sizeof ogs_nas_authentication_parameter_rand_t) Ok.
Definition ogs_nas_decode_time_zone_and_time : decoder :=
  decode_v (sizeof ogs_nas_time_zone_and_time_t) Ok.
Definition ogs_nas_encode_time_zone_and_time : encoder :=
  encode_v (sizeof ogs_nas_time_zone_and_time_t) Ok.
Definition ogs_nas_decode_tmsi_status : decoder := decode_half.
Definition ogs_nas_encode_tmsi_status : encoder := encode_half (sizeof ogs_nas_tmsi_status_t).
Definition ogs_nas_decode_tracking_area_identity : decoder :=
  decode_v (sizeof ogs_nas_tracking_area_identity_t) (swap 3 2).
Definition ogs_nas_encode_tracking_area_identity : encoder :=
  encode_v (sizeof ogs_nas_tracking_area_identity_t) (swap 3 2).
Definition ogs_nas_decode_tracking_area_identity_list : decoder := decode_lv 1 Ok.
Definition ogs_nas_encode_tracking_area_identity_list : encoder :=
  encode_lv 1 (sizeof ogs_nas_tracking_area_identity_list_t) Ok.
Definition ogs_nas_decode_ue_network_capability : decoder := decode_lv 1 Ok.
Definition ogs_nas_encode_ue_network_capability : encoder :=
  encode_lv 1 (sizeof ogs_nas_ue_network_capability_t) Ok.
Definition ogs_nas_decode_ue_radio_capability_information_update_needed : decoder := decode_half.
Definition ogs_nas_encode_ue_radio_capability_information_update_needed : encoder :=
  encode_half (sizeof ogs_nas_ue_radio_capability_information_update_needed_t).
Definition ogs_nas_decode_ue_security_capability : decoder := decode_lv 1 Ok.
Definition ogs_nas_encode_ue_security_capability : encoder :=
  encode_lv 1 (sizeof ogs_nas_ue_security_capability_t) Ok.
Definition ogs_nas_decode_emergency_number_list : decoder := decode_lv 2 Ok.
Definition ogs_nas_encode_emergency_number_list : encoder :=
  encode_lv 2 (sizeof ogs_nas_emergency_number_list_t) Ok.
Definition ogs_nas_decode_cli : decoder := decode_lv 1 Ok.
Definition ogs_nas_encode_cli : encoder := encode_lv 1 (sizeof ogs_nas_cli_t) Ok.
Definition ogs_nas_decode_ss_code : decoder := decode_v (sizeof ogs_nas_ss_code_t) Ok.
Definition ogs_nas_encode_ss_code : encoder := encode_v (sizeof ogs_nas_ss_code_t) Ok.
Definition ogs_nas_decode_authentication_response_parameter : decoder := decode_lv 1 Ok.
Definition ogs_nas_encode_authentication_response_parameter : encoder :=
  encode_lv 1 (sizeof ogs_nas_authentication_response_parameter_t) Ok.
Definition ogs_nas_decode_lcs_indicator : decoder := decode_v (sizeof ogs_nas_lcs_indicator_t) Ok.
Definition ogs_nas_encode_lcs_indicator : encoder := encode_v (sizeof ogs_nas_lcs_indicator_t) Ok.
Definition ogs_nas_decode_lcs_client_identity : decoder := decode_lv 1 Ok.
Definition ogs_nas_encode_lcs_client_identity : encoder :=
  encode_lv 1 (sizeof ogs_nas_lcs_client_identity_t) Ok.
Definition ogs_nas_decode_generic_message_container_type : decoder :=
  decode_v (sizeof ogs_nas_generic_message_container_type_t) Ok.
Definition ogs_nas_encode_generic_message_container_type : encoder :=
  encode_v (sizeof ogs_nas_generic_message_container_type_t) Ok.
Definition ogs_nas_decode_generic_message_container : decoder := decode_container.
Definition ogs_nas_encode_generic_message_container : encoder := encode_container.
Definition ogs_nas_decode_voice_domain_preference_and_ue_usage_setting : decoder := decode_lv 1 Ok.
Definition ogs_nas_encode_voice_domain_preference_and_ue_usage_setting : encoder :=
  encode_lv 1 (sizeof ogs_nas_voice_domain_preference_and_ue_usage_setting_t) Ok.
Definition ogs_nas_decode_guti_type : decoder := decode_half.
Definition ogs_nas_encode_guti_type : encoder := encode_half (sizeof ogs_nas_guti_type_t).
Definition ogs_nas_decode_extended_drx_parameters : decoder := decode_lv 1 Ok.
Definition ogs_nas_encode_extended_drx_parameters : encoder :=
  encode_lv 1 (sizeof ogs_nas_extended_drx_parameters_t) Ok.
Definition ogs_nas_decode_ciphering_key_sequence_number : decoder := decode_half.
Definition ogs_nas_encode_ciphering_key_sequence_number : encoder :=
  encode_half (sizeof ogs_nas_ciphering_key_sequence_number_t).
Definition ogs_nas_decode_csfb_response : decoder := decode_half.
Definition ogs_nas_encode_csfb_response : encoder := encode_half (sizeof ogs_nas_csfb_response_t).
Definition ogs_nas_decode_daylight_saving_time : decoder := decode_lv 1 Ok.
Definition ogs_nas_encode_daylight_saving_time : encoder :=
  encode_lv 1 (sizeof ogs_nas_daylight_saving_time_t) Ok.
Definition ogs_nas_decode_detach_type : decoder := decode_v (sizeof ogs_nas_detach_type_t) Ok.
Definition ogs_nas_encode_detach_type : encoder := encode_v (sizeof ogs_nas_detach_type_t) Ok.
Definition ogs_nas_decode_drx_parameter : decoder := decode_v (sizeof ogs_nas_drx_parameter_t) Ok.
Definition ogs_nas_encode_drx_parameter : encoder := encode_v (sizeof ogs_nas_drx_parameter_t) Ok.
Definition ogs_nas_decode_emm_cause : decoder := decode_v (sizeof ogs_nas_emm_cause_t) Ok.
Definition ogs_nas_encode_emm_cause : encoder := encode_v (sizeof ogs_nas_emm_cause_t) Ok.
Definition ogs_nas_decode_protocol_configuration_options : decoder := decode_lv 1 Ok.
Definition ogs_nas_encode_protocol_configuration_options : encoder :=
  encode_lv 1 (sizeof ogs_nas_protocol_configuration_options_t) Ok.
Definition ogs_nas_decode_quality_of_service : decoder := decode_lv 1 Ok.
Definition ogs_nas_encode_quality_of_service : encoder :=
  encode_lv 1 (sizeof ogs_nas_quality_of_service_t) Ok.
Definition ogs_nas_decode_radio_priority : decoder := decode_half.
Definition ogs_nas_encode_radio_priority : encoder := encode_half (sizeof ogs_nas_radio_priority_t).
Definition ogs_nas_decode_re_attempt_indicator : decoder := decode_lv 1 Ok.
Definition ogs_nas_encode_re_attempt_indicator : encoder :=
  encode_lv 1 (sizeof ogs_nas_re_attempt_indicator_t) Ok.
Definition ogs_nas_decode_request_type : decoder := decode_v (sizeof ogs_nas_request_type_t) Ok.
Definition ogs_nas_encode_request_type : encoder := encode_v (sizeof ogs_nas_request_type_t) Ok.
Definition ogs_nas_decode_traffic_flow_aggregate_description : decoder := decode_lv 1 Ok.
Definition ogs_nas_encode_traffic_flow_aggregate_description : encoder :=
  encode_lv 1 (sizeof ogs_nas_traffic_flow_aggregate_description_t) Ok.
Definition ogs_nas_decode_traffic_flow_template : decoder := decode_lv 1 Ok.
Definition ogs_nas_encode_traffic_flow_template : encoder :=
  encode_lv 1 (sizeof ogs_nas_traffic_flow_template_t) Ok.
Definition ogs_nas_decode_transaction_identifier : decoder := decode_lv 1 Ok.
Definition ogs_nas_encode_transaction_identifier : encoder :=
  encode_lv 1 (sizeof ogs_nas_transaction_identifier_t) Ok.
Definition ogs_nas_decode_wlan_offload_acceptability : decoder := decode_half.
Definition ogs_nas_encode_wlan_offload_acceptability : encoder :=
  encode_half (sizeof ogs_nas_wlan_offload_acceptability_t).
Definition ogs_nas_decode_nbifom_container : decoder := decode_lv 1 Ok.
Definition ogs_nas_encode_nbifom_container : encoder :=
  encode_lv 1 (sizeof ogs_nas_nbifom_container_t) Ok.
Definition ogs_nas_decode_apn_aggregate_maximum_bit_rate : decoder := decode_lv 1 Ok.
Definition ogs_nas_encode_apn_aggregate_maximum_bit_rate : encoder :=
  encode_lv 1 (sizeof ogs_nas_apn_aggregate_maximum_bit_rate_t) Ok.
Definition ogs_nas_decode_header_compression_configuration : decoder := decode_lv 1 (swap 2 2).
Definition ogs_nas_encode_header_compression_configuration : encoder :=
  encode_lv 1 (sizeof ogs_nas_header_compression_configuration_t) (swap 2 2).
Definition ogs_nas_decode_control_plane_only_indication : decoder := decode_half.
Definition ogs_nas_encode_control_plane_only_indication : encoder :=
  encode_half (sizeof ogs_nas_control_plane_only_indication_t).
Definition ogs_nas_decode_extended_protocol_configuration_options : decoder := decode_container.
Definition ogs_nas_encode_extended_protocol_configuration_options : encoder := encode_container.
Definition ogs_nas_decode_header_compression_configuration_status : decoder := decode_lv 1 Ok.
Definition ogs_nas_encode_header_compression_configuration_status : encoder :=
  encode_lv 1 (sizeof ogs_nas_header_compression_configuration_status_t) Ok.
Definition ogs_nas_decode_serving_plmn_rate_control : decoder := decode_lv 1 Ok.
Definition ogs_nas_encode_serving_plmn_rate_control : encoder :=
  encode_lv 1 (sizeof ogs_nas_serving_plmn_rate_control_t) Ok.
Definition ogs_nas_decode_connectivity_type : decoder := decode_half.
Definition ogs_nas_encode_connectivity_type : encoder :=
  encode_half (sizeof ogs_nas_connectivity_type_t).
Definition ogs_nas_decode_eps_quality_of_service : decoder := decode_lv 1 Ok.
Definition ogs_nas_encode_eps_quality_of_service : encoder :=
  encode_lv 1 (sizeof ogs_nas_eps_quality_of_service_t) Ok.
Definition ogs_nas_decode_esm_cause : decoder := decode_v (sizeof ogs_nas_esm_cause_t) Ok.
Definition ogs_nas_encode_esm_cause : encoder := encode_v (sizeof ogs_nas_esm_cause_t) Ok.
Definition ogs_nas_decode_esm_information_transfer_flag : decoder := decode_half.
Definition ogs_nas_encode_esm_information_transfer_flag : encoder :=
  encode_half (sizeof ogs_nas_esm_information_transfer_flag_t).
Definition ogs_nas_decode_linked_eps_bearer_identity : decoder :=
  decode_v (sizeof ogs_nas_linked_eps_bearer_identity_t) Ok.
Definition ogs_nas_encode_linked_eps_bearer_identity : encoder :=
  encode_v (sizeof ogs_nas_linked_eps_bearer_identity_t) Ok.
Definition ogs_nas_decode_llc_service_access_point_identifier : decoder :=
  decode_v (sizeof ogs_nas_llc_service_access_point_identifier_t) Ok.
Definition ogs_nas_encode_llc_service_access_point_identifier : encoder :=
  encode_v (sizeof ogs_nas_llc_service_access_point_identifier_t) Ok.
Definition ogs_nas_decode_packet_flow_identifier : decoder := decode_lv 1 Ok.
Definition ogs_nas_encode_packet_flow_identifier : encoder :=
  encode_lv 1 (sizeof ogs_nas_packet_flow_identifier_t) Ok.
Definition ogs_nas_decode_pdn_address : decoder := decode_lv 1 Ok.
Definition ogs_nas_encode_pdn_address : encoder := encode_lv 1 (sizeof ogs_nas_pdn_address_t) Ok.
End ies.
