(* ===== verification/NasMsg.v ===== *)
(** * The NAS messages: [lib/nas/decoder.c], [encoder.c], [message.h]

    A decoding function reads the mandatory elements in order and then
    optional ones, each behind an octet with its type, to the end of the
    packet; an encoding function writes the mandatory elements and the
    optional ones that the presence mask names.  The functions are uniform:
    each is the list of its elements. *)
From stdpp Require Import strings.
From S2P Require Import Prelude.
From S2P Require Import CMem.
From S2P Require Import OgsLib.
From S2P Require Import NasIes.
#[local] Open Scope Z_scope.

(** ** Messages
    The members of a structure, in order; their values by name and the
    presence mask. *)
#[warnings="-notation-for-abbreviation"] Notation members := (list (string * ie_type)).
Record message := { fields : gmap string ie_t; presencemask : Z }.
Definition zero_message (ms : members) : message :=
  {| fields := list_to_map ((λ m, (fst m, zero_ie (snd m))) <$> ms); presencemask := 0 |}.
(** [1 << n] *)
Definition present (n : Z) : Z := Z.shiftl 1 n.

(** Constants and fresh memory of ogslib. *)
Class OgsSdu := { OGS_MAX_SDU_LEN : nat; fresh_octets : nat → list Z }.
Class OgsSduLaws `{OgsSdu} : Prop := { length_fresh_octets n : length (fresh_octets n) = n }.

Inductive rv_t := OGS_OK | OGS_ERROR.

Section messages.
Context `{Host, OgsBits, OgsPkbuf, OgsLengths, OgsFqdn}.

#[warnings="-notation-for-abbreviation"] Notation codec := (ie_t → M pkbuf (Z * ie_t)).

(** A call on [&message->name]; the function may change the member. *)
Definition on_field (name : string) (f : codec) (m : message) : M pkbuf (Z * message) :=
  x ← lift (access (fields m !! name));
  '(size, x) ← f x;
  massert (0 <=? size);;
  mret (size, {| fields := <[name := x]> (fields m); presencemask := presencemask m |}).

Fixpoint mandatory (ies : list (string * codec)) (m : message) : M pkbuf (Z * message) :=
  match ies with
  | [] => mret (0, m)
  | (name, f) :: ies =>
      '(size, m) ← on_field name f m;
      '(done, m) ← mandatory ies m;
      mret (size + done, m)
  end.

(** An optional element: the type it is found by, its function and its bit. *)
#[warnings="-notation-for-abbreviation"] Notation case := (Z * string * codec * Z)%type.
Definition case_type (c : case) : Z := let '(t, _, _, _) := c in t.
Definition element_type (octet : Z) : Z :=
  if 0x80 <=? octet then Z.land octet 0xf0 else octet.
(** One round of [while(pkbuf->len > 0)], on the first octet. *)
Definition decode_optional (cases : list case) (octet : Z) (m : message) : M pkbuf (Z * message) :=
  pull 1;;
  match List.find (λ c, case_type c =? element_type octet) cases with
  | Some (_, name, f, bit) =>
      '(size, m) ← on_field name f m;
      mret (1 + size, {| fields := fields m; presencemask := Z.lor (presencemask m) bit |})
  | None => mret (1, m)
  end.
(** The loop ends because each round takes an octet: [fuel] is more than the
    packet holds. *)
Fixpoint optionals (fuel : nat) (cases : list case) (m : message) : M pkbuf (Z * message) :=
  b ← get;
  match fuel, pk_data b with
  | _, [] => mret (0, m)
  | S fuel, octet :: _ =>
      '(size, m) ← decode_optional cases octet m;
      '(done, m) ← optionals fuel cases m;
      mret (size + done, m)
  | O, _ => lift Undef
  end.

Definition decode_message (ies : list (string * codec)) (cases : list case) (m : message)
    : M pkbuf (Z * message) :=
  '(decoded, m) ← mandatory ies m;
  match cases with
  | [] => mret (decoded, m)
  | _ =>
      b ← get;
      '(done, m) ← optionals (S (length (pk_data b))) cases m;
      mret (decoded + done, m)
  end.

(** How the type of an optional element is written: an octet of its own, or
    the upper half of the element. *)
Inductive tag := Tag (type : Z) | Nibble (type : Z).
#[warnings="-notation-for-abbreviation"] Notation option_ := (Z * tag * string * codec)%type.
(** [message->name.type = (type >> 4)]: the upper half of the octet. *)
Definition set_type (type : Z) (x : ie_t) : outcome ie_t :=
  match x with
  | Image (b :: rest) =>
      Ok (Image (ed_pack [(4%nat, Z.shiftr type 4); (4%nat, nth 1 (ed_unpack [4; 4]%nat b) 0)] :: rest))
  | _ => Undef
  end.
Definition encode_option (o : option_) (m : message) : M pkbuf (Z * message) :=
  let '(bit, t, name, f) := o in
  if Z.land (presencemask m) bit =? 0 then mret (0, m)
  else
    match t with
    | Tag type =>
        r ← ogs_nas_encode_optional_type type;
        massert (0 <=? r);;
        '(size, m) ← on_field name f m;
        mret (r + size, m)
    | Nibble type =>
        x ← lift (access (fields m !! name));
        x ← lift (set_type type x);
        on_field name f {| fields := <[name := x]> (fields m); presencemask := presencemask m |}
    end.
Fixpoint encode_options (os : list option_) (m : message) : M pkbuf (Z * message) :=
  match os with
  | [] => mret (0, m)
  | o :: os =>
      '(size, m) ← encode_option o m;
      '(done, m) ← encode_options os m;
      mret (size + done, m)
  end.
Definition encode_message (ies : list (string * codec)) (os : list option_) (m : message)
    : M pkbuf (Z * message) :=
  '(encoded, m) ← mandatory ies m;
  '(done, m) ← encode_options os m;
  mret (encoded + done, m).

(** ** Structures *)
Definition ogs_nas_attach_request_t : members :=
  [("eps_attach_type"%string, ogs_nas_eps_attach_type_t);
   ("eps_mobile_identity"%string, ogs_nas_eps_mobile_identity_t);
   ("ue_network_capability"%string, ogs_nas_ue_network_capability_t);
   ("esm_message_container"%string, ogs_nas_esm_message_container_t);
   ("old_p_tmsi_signature"%string, ogs_nas_p_tmsi_signature_t);
   ("additional_guti"%string, ogs_nas_eps_mobile_identity_t);
   ("last_visited_registered_tai"%string, ogs_nas_tracking_area_identity_t);
   ("drx_parameter"%string, ogs_nas_drx_parameter_t);
   ("ms_network_capability"%string, ogs_nas_ms_network_capability_t);
   ("old_location_area_identification"%string, ogs_nas_location_area_identification_t);
   ("tmsi_status"%string, ogs_nas_tmsi_status_t);
   ("mobile_station_classmark_2"%string, ogs_nas_mobile_station_classmark_2_t);
   ("mobile_station_classmark_3"%string, ogs_nas_mobile_station_classmark_3_t);
   ("supported_codecs"%string, ogs_nas_supported_codec_list_t);
   ("additional_update_type"%string, ogs_nas_additional_update_type_t);
   ("voice_domain_preference_and_ue_usage_setting"%string, ogs_nas_voice_domain_preference_and_ue_usage_setting_t);
   ("device_properties"%string, ogs_nas_device_properties_t);
   ("old_guti_type"%string, ogs_nas_guti_type_t);
   ("ms_network_feature_support"%string, ogs_nas_ms_network_feature_support_t);
   ("tmsi_based_nri_container"%string, ogs_nas_network_resource_identifier_container_t);
   ("t3324_value"%string, ogs_nas_gprs_timer_2_t);
   ("t3412_extended_value"%string, ogs_nas_gprs_timer_3_t);
   ("extended_drx_parameters"%string, ogs_nas_extended_drx_parameters_t)].
Definition ogs_nas_attach_accept_t : members :=
  [("eps_attach_result"%string, ogs_nas_eps_attach_result_t);
   ("t3412_value"%string, ogs_nas_gprs_timer_t);
   ("tai_list"%string, ogs_nas_tracking_area_identity_list_t);
   ("esm_message_container"%string, ogs_nas_esm_message_container_t);
   ("guti"%string, ogs_nas_eps_mobile_identity_t);
   ("location_area_identification"%string, ogs_nas_location_area_identification_t);
   ("ms_identity"%string, ogs_nas_mobile_identity_t);
   ("emm_cause"%string, ogs_nas_emm_cause_t);
   ("t3402_value"%string, ogs_nas_gprs_timer_t);
   ("t3423_value"%string, ogs_nas_gprs_timer_t);
   ("equivalent_plmns"%string, ogs_nas_plmn_list_t);
   ("emergency_number_list"%string, ogs_nas_emergency_number_list_t);
   ("eps_network_feature_support"%string, ogs_nas_eps_network_feature_support_t);
   ("additional_update_result"%string, ogs_nas_additional_update_result_t);
   ("t3412_extended_value"%string, ogs_nas_gprs_timer_3_t);
   ("t3324_value"%string, ogs_nas_gprs_timer_2_t);
   ("extended_drx_parameters"%string, ogs_nas_extended_drx_parameters_t)].
Definition ogs_nas_attach_complete_t : members :=
  [("esm_message_container"%string, ogs_nas_esm_message_container_t)].
Definition ogs_nas_attach_reject_t : members :=
  [("emm_cause"%string, ogs_nas_emm_cause_t);
   ("esm_message_container"%string, ogs_nas_esm_message_container_t);
   ("t3346_value"%string, ogs_nas_gprs_timer_2_t);
   ("t3402_value"%string, ogs_nas_gprs_timer_2_t);
   ("extended_emm_cause"%string, ogs_nas_extended_emm_cause_t)].
Definition ogs_nas_detach_request_from_ue_t : members :=
  [("detach_type"%string, ogs_nas_detach_type_t);
   ("eps_mobile_identity"%string, ogs_nas_eps_mobile_identity_t)].
Definition ogs_nas_detach_request_to_ue_t : members :=
  [("detach_type"%string, ogs_nas_detach_type_t);
   ("emm_cause"%string, ogs_nas_emm_cause_t)].
Definition ogs_nas_tracking_area_update_request_t : members :=
  [("eps_update_type"%string, ogs_nas_eps_update_type_t);
   ("old_guti"%string, ogs_nas_eps_mobile_identity_t);
   ("non_current_native_nas_key_set_identifier"%string, ogs_nas_key_set_identifier_t);
   ("gprs_ciphering_key_sequence_number"%string, ogs_nas_ciphering_key_sequence_number_t);
   ("old_p_tmsi_signature"%string, ogs_nas_p_tmsi_signature_t);
   ("additional_guti"%string, ogs_nas_eps_mobile_identity_t);
   ("nonceue"%string, ogs_nas_nonce_t);
   ("ue_network_capability"%string, ogs_nas_ue_network_capability_t);
   ("last_visited_registered_tai"%string, ogs_nas_tracking_area_identity_t);
   ("drx_parameter"%string, ogs_nas_drx_parameter_t);
   ("ue_radio_capability_information_update_needed"%string, ogs_nas_ue_radio_capability_information_update_needed_t);
   ("eps_bearer_context_status"%string, ogs_nas_eps_bearer_context_status_t);
   ("ms_network_capability"%string, ogs_nas_ms_network_capability_t);
   ("old_location_area_identification"%string, ogs_nas_location_area_identification_t);
   ("tmsi_status"%string, ogs_nas_tmsi_status_t);
   ("mobile_station_classmark_2"%string, ogs_nas_mobile_station_classmark_2_t);
   ("mobile_station_classmark_3"%string, ogs_nas_mobile_station_classmark_3_t);
   ("supported_codecs"%string, ogs_nas_supported_codec_list_t);
   ("additional_update_type"%string, ogs_nas_additional_update_type_t);
   ("voice_domain_preference_and_ue_usage_setting"%string, ogs_nas_voice_domain_preference_and_ue_usage_setting_t);
   ("old_guti_type"%string, ogs_nas_guti_type_t);
   ("device_properties"%string, ogs_nas_device_properties_t);
   ("ms_network_feature_support"%string, ogs_nas_ms_network_feature_support_t);
   ("tmsi_based_nri_container"%string, ogs_nas_network_resource_identifier_container_t);
   ("t3324_value"%string, ogs_nas_gprs_timer_2_t);
   ("t3412_extended_value"%string, ogs_nas_gprs_timer_3_t);
   ("extended_drx_parameters"%string, ogs_nas_extended_drx_parameters_t)].
Definition ogs_nas_tracking_area_update_accept_t : members :=
  [("eps_update_result"%string, ogs_nas_eps_update_result_t);
   ("t3412_value"%string, ogs_nas_gprs_timer_t);
   ("guti"%string, ogs_nas_eps_mobile_identity_t);
   ("tai_list"%string, ogs_nas_tracking_area_identity_list_t);
   ("eps_bearer_context_status"%string, ogs_nas_eps_bearer_context_status_t);
   ("location_area_identification"%string, ogs_nas_location_area_identification_t);
   ("ms_identity"%string, ogs_nas_mobile_identity_t);
   ("emm_cause"%string, ogs_nas_emm_cause_t);
   ("t3402_value"%string, ogs_nas_gprs_timer_t);
   ("t3423_value"%string, ogs_nas_gprs_timer_t);
   ("equivalent_plmns"%string, ogs_nas_plmn_list_t);
   ("emergency_number_list"%string, ogs_nas_emergency_number_list_t);
   ("eps_network_feature_support"%string, ogs_nas_eps_network_feature_support_t);
   ("additional_update_result"%string, ogs_nas_additional_update_result_t);
   ("t3412_extended_value"%string, ogs_nas_gprs_timer_3_t);
   ("t3324_value"%string, ogs_nas_gprs_timer_2_t);
   ("extended_drx_parameters"%string, ogs_nas_extended_drx_parameters_t);
   ("header_compression_configuration_status"%string, ogs_nas_header_compression_configuration_status_t)].
Definition ogs_nas_tracking_area_update_reject_t : members :=
  [("emm_cause"%string, ogs_nas_emm_cause_t);
   ("t3346_value"%string, ogs_nas_gprs_timer_2_t);
   ("extended_emm_cause"%string, ogs_nas_extended_emm_cause_t)].
Definition ogs_nas_extended_service_request_t : members :=
  [("service_type"%string, ogs_nas_service_type_t);
   ("m_tmsi"%string, ogs_nas_mobile_identity_t);
   ("csfb_response"%string, ogs_nas_csfb_response_t);
   ("eps_bearer_context_status"%string, ogs_nas_eps_bearer_context_status_t);
   ("device_properties"%string, ogs_nas_device_properties_t)].
Definition ogs_nas_service_request_t : members :=
  [("ksi_and_sequence_number"%string, ogs_nas_ksi_and_sequence_number_t);
   ("message_authentication_code"%string, ogs_nas_short_mac_t)].
Definition ogs_nas_service_reject_t : members :=
  [("emm_cause"%string, ogs_nas_emm_cause_t);
   ("t3442_value"%string, ogs_nas_gprs_timer_t);
   ("t3346_value"%string, ogs_nas_gprs_timer_2_t)].
Definition ogs_nas_guti_reallocation_command_t : members :=
  [("guti"%string, ogs_nas_eps_mobile_identity_t);
   ("tai_list"%string, ogs_nas_tracking_area_identity_list_t)].
Definition ogs_nas_authentication_request_t : members :=
  [("nas_key_set_identifierasme"%string, ogs_nas_key_set_identifier_t);
   ("authentication_parameter_rand"%string, ogs_nas_authentication_parameter_rand_t);
   ("authentication_parameter_autn"%string, ogs_nas_authentication_parameter_autn_t)].
Definition ogs_nas_authentication_response_t : members :=
  [("authentication_response_parameter"%string, ogs_nas_authentication_response_parameter_t)].
Definition ogs_nas_identity_request_t : members :=
  [("identity_type"%string, ogs_nas_identity_type_2_t)].
Definition ogs_nas_identity_response_t : members :=
  [("mobile_identity"%string, ogs_nas_mobile_identity_t)].
Definition ogs_nas_authentication_failure_t : members :=
  [("emm_cause"%string, ogs_nas_emm_cause_t);
   ("authentication_failure_parameter"%string, ogs_nas_authentication_failure_parameter_t)].
Definition ogs_nas_security_mode_command_t : members :=
  [("selected_nas_security_algorithms"%string, ogs_nas_security_algorithms_t);
   ("nas_key_set_identifier"%string, ogs_nas_key_set_identifier_t);
   ("replayed_ue_security_capabilities"%string, ogs_nas_ue_security_capability_t);
   ("imeisv_request"%string, ogs_nas_imeisv_request_t);
   ("replayed_nonceue"%string, ogs_nas_nonce_t);
   ("noncemme"%string, ogs_nas_nonce_t)].
Definition ogs_nas_security_mode_complete_t : members :=
  [("imeisv"%string, ogs_nas_mobile_identity_t)].
Definition ogs_nas_security_mode_reject_t : members :=
  [("emm_cause"%string, ogs_nas_emm_cause_t)].
Definition ogs_nas_emm_status_t : members :=
  [("emm_cause"%string, ogs_nas_emm_cause_t)].
Definition ogs_nas_emm_information_t : members :=
  [("full_name_for_network"%string, ogs_nas_network_name_t);
   ("short_name_for_network"%string, ogs_nas_network_name_t);
   ("local_time_zone"%string, ogs_nas_time_zone_t);
   ("universal_time_and_local_time_zone"%string, ogs_nas_time_zone_and_time_t);
   ("network_daylight_saving_time"%string, ogs_nas_daylight_saving_time_t)].
Definition ogs_nas_downlink_nas_transport_t : members :=
  [("nas_message_container"%string, ogs_nas_message_container_t)].
Definition ogs_nas_uplink_nas_transport_t : members :=
  [("nas_message_container"%string, ogs_nas_message_container_t)].
Definition ogs_nas_cs_service_notification_t : members :=
  [("paging_identity"%string, ogs_nas_paging_identity_t);
   ("cli"%string, ogs_nas_cli_t);
   ("ss_code"%string, ogs_nas_ss_code_t);
   ("lcs_indicator"%string, ogs_nas_lcs_indicator_t);
   ("lcs_client_identity"%string, ogs_nas_lcs_client_identity_t)].
Definition ogs_nas_uplink_generic_nas_transport_t : members :=
  [("generic_message_container_type"%string, ogs_nas_generic_message_container_type_t);
   ("generic_message_container"%string, ogs_nas_generic_message_container_t);
   ("additional_information"%string, ogs_nas_additional_information_t)].
Definition ogs_nas_downlink_generic_nas_transport_t : members :=
  [("generic_message_container_type"%string, ogs_nas_generic_message_container_type_t);
   ("generic_message_container"%string, ogs_nas_generic_message_container_t);
   ("additional_information"%string, ogs_nas_additional_information_t)].
Definition ogs_nas_activate_default_eps_bearer_context_request_t : members :=
  [("eps_qos"%string, ogs_nas_eps_quality_of_service_t);
   ("access_point_name"%string, ogs_nas_access_point_name_t);
   ("pdn_address"%string, ogs_nas_pdn_address_t);
   ("transaction_identifier"%string, ogs_nas_transaction_identifier_t);
   ("negotiated_qos"%string, ogs_nas_quality_of_service_t);
   ("negotiated_llc_sapi"%string, ogs_nas_llc_service_access_point_identifier_t);
   ("radio_priority"%string, ogs_nas_radio_priority_t);
   ("packet_flow_identifier"%string, ogs_nas_packet_flow_identifier_t);
   ("apn_ambr"%string, ogs_nas_apn_aggregate_maximum_bit_rate_t);
   ("esm_cause"%string, ogs_nas_esm_cause_t);
   ("protocol_configuration_options"%string, ogs_nas_protocol_configuration_options_t);
   ("connectivity_type"%string, ogs_nas_connectivity_type_t);
   ("wlan_offload_indication"%string, ogs_nas_wlan_offload_acceptability_t);
   ("nbifom_container"%string, ogs_nas_nbifom_container_t);
   ("header_compression_configuration"%string, ogs_nas_header_compression_configuration_t);
   ("control_plane_only_indication"%string, ogs_nas_control_plane_only_indication_t);
   ("extended_protocol_configuration_options"%string, ogs_nas_extended_protocol_configuration_options_t);
   ("serving_plmn_rate_control"%string, ogs_nas_serving_plmn_rate_control_t)].
Definition ogs_nas_activate_default_eps_bearer_context_accept_t : members :=
  [("protocol_configuration_options"%string, ogs_nas_protocol_configuration_options_t);
   ("extended_protocol_configuration_options"%string, ogs_nas_extended_protocol_configuration_options_t)].
Definition ogs_nas_activate_default_eps_bearer_context_reject_t : members :=
  [("esm_cause"%string, ogs_nas_esm_cause_t);
   ("protocol_configuration_options"%string, ogs_nas_protocol_configuration_options_t);
   ("extended_protocol_configuration_options"%string, ogs_nas_extended_protocol_configuration_options_t)].
Definition ogs_nas_activate_dedicated_eps_bearer_context_request_t : members :=
  [("linked_eps_bearer_identity"%string, ogs_nas_linked_eps_bearer_identity_t);
   ("eps_qos"%string, ogs_nas_eps_quality_of_service_t);
   ("tft"%string, ogs_nas_traffic_flow_template_t);
   ("transaction_identifier"%string, ogs_nas_transaction_identifier_t);
   ("negotiated_qos"%string, ogs_nas_quality_of_service_t);
   ("negotiated_llc_sapi"%string, ogs_nas_llc_service_access_point_identifier_t);
   ("radio_priority"%string, ogs_nas_radio_priority_t);
   ("packet_flow_identifier"%string, ogs_nas_packet_flow_identifier_t);
   ("protocol_configuration_options"%string, ogs_nas_protocol_configuration_options_t);
   ("wlan_offload_indication"%string, ogs_nas_wlan_offload_acceptability_t);
   ("nbifom_container"%string, ogs_nas_nbifom_container_t);
   ("extended_protocol_configuration_options"%string, ogs_nas_extended_protocol_configuration_options_t)].
Definition ogs_nas_activate_dedicated_eps_bearer_context_accept_t : members :=
  [("protocol_configuration_options"%string, ogs_nas_protocol_configuration_options_t);
   ("nbifom_container"%string, ogs_nas_nbifom_container_t);
   ("extended_protocol_configuration_options"%string, ogs_nas_extended_protocol_configuration_options_t)].
Definition ogs_nas_activate_dedicated_eps_bearer_context_reject_t : members :=
  [("esm_cause"%string, ogs_nas_esm_cause_t);
   ("protocol_configuration_options"%string, ogs_nas_protocol_configuration_options_t);
   ("nbifom_container"%string, ogs_nas_nbifom_container_t);
   ("extended_protocol_configuration_options"%string, ogs_nas_extended_protocol_configuration_options_t)].
Definition ogs_nas_modify_eps_bearer_context_request_t : members :=
  [("new_eps_qos"%string, ogs_nas_eps_quality_of_service_t);
   ("tft"%string, ogs_nas_traffic_flow_template_t);
   ("new_qos"%string, ogs_nas_quality_of_service_t);
   ("negotiated_llc_sapi"%string, ogs_nas_llc_service_access_point_identifier_t);
   ("radio_priority"%string, ogs_nas_radio_priority_t);
   ("packet_flow_identifier"%string, ogs_nas_packet_flow_identifier_t);
   ("apn_ambr"%string, ogs_nas_apn_aggregate_maximum_bit_rate_t);
   ("protocol_configuration_options"%string, ogs_nas_protocol_configuration_options_t);
   ("wlan_offload_indication"%string, ogs_nas_wlan_offload_acceptability_t);
   ("nbifom_container"%string, ogs_nas_nbifom_container_t);
   ("header_compression_configuration"%string, ogs_nas_header_compression_configuration_t);
   ("extended_protocol_configuration_options"%string, ogs_nas_extended_protocol_configuration_options_t)].
Definition ogs_nas_modify_eps_bearer_context_accept_t : members :=
  [("protocol_configuration_options"%string, ogs_nas_protocol_configuration_options_t);
   ("nbifom_container"%string, ogs_nas_nbifom_container_t);
   ("extended_protocol_configuration_options"%string, ogs_nas_extended_protocol_configuration_options_t)].
Definition ogs_nas_modify_eps_bearer_context_reject_t : members :=
  [("esm_cause"%string, ogs_nas_esm_cause_t);
   ("protocol_configuration_options"%string, ogs_nas_protocol_configuration_options_t);
   ("nbifom_container"%string, ogs_nas_nbifom_container_t);
   ("extended_protocol_configuration_options"%string, ogs_nas_extended_protocol_configuration_options_t)].
Definition ogs_nas_deactivate_eps_bearer_context_request_t : members :=
  [("esm_cause"%string, ogs_nas_esm_cause_t);
   ("protocol_configuration_options"%string, ogs_nas_protocol_configuration_options_t);
   ("t3396_value"%string, ogs_nas_gprs_timer_3_t);
   ("wlan_offload_indication"%string, ogs_nas_wlan_offload_acceptability_t);
   ("nbifom_container"%string, ogs_nas_nbifom_container_t);
   ("extended_protocol_configuration_options"%string, ogs_nas_extended_protocol_configuration_options_t)].
Definition ogs_nas_deactivate_eps_bearer_context_accept_t : members :=
  [("protocol_configuration_options"%string, ogs_nas_protocol_configuration_options_t);
   ("extended_protocol_configuration_options"%string, ogs_nas_extended_protocol_configuration_options_t)].
Definition ogs_nas_pdn_connectivity_request_t : members :=
  [("request_type"%string, ogs_nas_request_type_t);
   ("esm_information_transfer_flag"%string, ogs_nas_esm_information_transfer_flag_t);
   ("access_point_name"%string, ogs_nas_access_point_name_t);
   ("protocol_configuration_options"%string, ogs_nas_protocol_configuration_options_t);
   ("device_properties"%string, ogs_nas_device_properties_t);
   ("nbifom_container"%string, ogs_nas_nbifom_container_t);
   ("header_compression_configuration"%string, ogs_nas_header_compression_configuration_t);
   ("extended_protocol_configuration_options"%string, ogs_nas_extended_protocol_configuration_options_t)].
Definition ogs_nas_pdn_connectivity_reject_t : members :=
  [("esm_cause"%string, ogs_nas_esm_cause_t);
   ("protocol_configuration_options"%string, ogs_nas_protocol_configuration_options_t);
   ("back_off_timer_value"%string, ogs_nas_gprs_timer_3_t);
   ("re_attempt_indicator"%string, ogs_nas_re_attempt_indicator_t);
   ("nbifom_container"%string, ogs_nas_nbifom_container_t);
   ("extended_protocol_configuration_options"%string, ogs_nas_extended_protocol_configuration_options_t)].
Definition ogs_nas_pdn_disconnect_request_t : members :=
  [("linked_eps_bearer_identity"%string, ogs_nas_linked_eps_bearer_identity_t);
   ("protocol_configuration_options"%string, ogs_nas_protocol_configuration_options_t);
   ("extended_protocol_configuration_options"%string, ogs_nas_extended_protocol_configuration_options_t)].
Definition ogs_nas_pdn_disconnect_reject_t : members :=
  [("esm_cause"%string, ogs_nas_esm_cause_t);
   ("protocol_configuration_options"%string, ogs_nas_protocol_configuration_options_t);
   ("extended_protocol_configuration_options"%string, ogs_nas_extended_protocol_configuration_options_t)].
Definition ogs_nas_bearer_resource_allocation_request_t : members :=
  [("linked_eps_bearer_identity"%string, ogs_nas_linked_eps_bearer_identity_t);
   ("traffic_flow_aggregate"%string, ogs_nas_traffic_flow_aggregate_description_t);
   ("required_traffic_flow_qos"%string, ogs_nas_eps_quality_of_service_t);
   ("protocol_configuration_options"%string, ogs_nas_protocol_configuration_options_t);
   ("device_properties"%string, ogs_nas_device_properties_t);
   ("nbifom_container"%string, ogs_nas_nbifom_container_t);
   ("extended_protocol_configuration_options"%string, ogs_nas_extended_protocol_configuration_options_t)].
Definition ogs_nas_bearer_resource_allocation_reject_t : members :=
  [("esm_cause"%string, ogs_nas_esm_cause_t);
   ("protocol_configuration_options"%string, ogs_nas_protocol_configuration_options_t);
   ("back_off_timer_value"%string, ogs_nas_gprs_timer_3_t);
   ("re_attempt_indicator"%string, ogs_nas_re_attempt_indicator_t);
   ("nbifom_container"%string, ogs_nas_nbifom_container_t);
   ("extended_protocol_configuration_options"%string, ogs_nas_extended_protocol_configuration_options_t)].
Definition ogs_nas_bearer_resource_modification_request_t : members :=
  [("eps_bearer_identity_for_packet_filter"%string, ogs_nas_linked_eps_bearer_identity_t);
   ("traffic_flow_aggregate"%string, ogs_nas_traffic_flow_aggregate_description_t);
   ("required_traffic_flow_qos"%string, ogs_nas_eps_quality_of_service_t);
   ("esm_cause"%string, ogs_nas_esm_cause_t);
   ("protocol_configuration_options"%string, ogs_nas_protocol_configuration_options_t);
   ("device_properties"%string, ogs_nas_device_properties_t);
   ("nbifom_container"%string, ogs_nas_nbifom_container_t);
   ("header_compression_configuration"%string, ogs_nas_header_compression_configuration_t);
   ("extended_protocol_configuration_options"%string, ogs_nas_extended_protocol_configuration_options_t)].
Definition ogs_nas_bearer_resource_modification_reject_t : members :=
  [("esm_cause"%string, ogs_nas_esm_cause_t);
   ("protocol_configuration_options"%string, ogs_nas_protocol_configuration_options_t);
   ("back_off_timer_value"%string, ogs_nas_gprs_timer_3_t);
   ("re_attempt_indicator"%string, ogs_nas_re_attempt_indicator_t);
   ("nbifom_container"%string, ogs_nas_nbifom_container_t);
   ("extended_protocol_configuration_options"%string, ogs_nas_extended_protocol_configuration_options_t)].
Definition ogs_nas_esm_information_response_t : members :=
  [("access_point_name"%string, ogs_nas_access_point_name_t);
   ("protocol_configuration_options"%string, ogs_nas_protocol_configuration_options_t);
   ("extended_protocol_configuration_options"%string, ogs_nas_extended_protocol_configuration_options_t)].
Definition ogs_nas_esm_status_t : members :=
  [("esm_cause"%string, ogs_nas_esm_cause_t)].

(** ** Decoding *)
Definition ogs_nas_decode_attach_request : message → M pkbuf (Z * message) :=
  decode_message
    [
     ("eps_attach_type"%string, ogs_nas_decode_eps_attach_type);
     ("eps_mobile_identity"%string, ogs_nas_decode_eps_mobile_identity);
     ("ue_network_capability"%string, ogs_nas_decode_ue_network_capability);
     ("esm_message_container"%string, ogs_nas_decode_esm_message_container)]
    [
     (0x19, "old_p_tmsi_signature"%string, ogs_nas_decode_p_tmsi_signature, present 0);
     (0x50, "additional_guti"%string, ogs_nas_decode_eps_mobile_identity, present 1);
     (0x52, "last_visited_registered_tai"%string, ogs_nas_decode_tracking_area_identity, present 2);
     (0x5C, "drx_parameter"%string, ogs_nas_decode_drx_parameter, present 3);
     (0x31, "ms_network_capability"%string, ogs_nas_decode_ms_network_capability, present 4);
     (0x13, "old_location_area_identification"%string, ogs_nas_decode_location_area_identification, present 5);
     (0x90, "tmsi_status"%string, ogs_nas_decode_tmsi_status, present 6);
     (0x11, "mobile_station_classmark_2"%string, ogs_nas_decode_mobile_station_classmark_2, present 7);
     (0x20, "mobile_station_classmark_3"%string, ogs_nas_decode_mobile_station_classmark_3, present 8);
     (0x40, "supported_codecs"%string, ogs_nas_decode_supported_codec_list, present 9);
     (0xF0, "additional_update_type"%string, ogs_nas_decode_additional_update_type, present 10);
     (0x5D, "voice_domain_preference_and_ue_usage_setting"%string, ogs_nas_decode_voice_domain_preference_and_ue_usage_setting, present 11);
     (0xD0, "device_properties"%string, ogs_nas_decode_device_properties, present 12);
     (0xE0, "old_guti_type"%string, ogs_nas_decode_guti_type, present 13);
     (0xC0, "ms_network_feature_support"%string, ogs_nas_decode_ms_network_feature_support, present 14);
     (0x10, "tmsi_based_nri_container"%string, ogs_nas_decode_network_resource_identifier_container, present 15);
     (0x6A, "t3324_value"%string, ogs_nas_decode_gprs_timer_2, present 16);
     (0x5E, "t3412_extended_value"%string, ogs_nas_decode_gprs_timer_3, present 17);
     (0x6E, "extended_drx_parameters"%string, ogs_nas_decode_extended_drx_parameters, present 18)].
Definition ogs_nas_decode_attach_accept : message → M pkbuf (Z * message) :=
  decode_message
    [
     ("eps_attach_result"%string, ogs_nas_decode_eps_attach_result);
     ("t3412_value"%string, ogs_nas_decode_gprs_timer);
     ("tai_list"%string, ogs_nas_decode_tracking_area_identity_list);
     ("esm_message_container"%string, ogs_nas_decode_esm_message_container)]
    [
     (0x50, "guti"%string, ogs_nas_decode_eps_mobile_identity, present 0);
     (0x13, "location_area_identification"%string, ogs_nas_decode_location_area_identification, present 1);
     (0x23, "ms_identity"%string, ogs_nas_decode_mobile_identity, present 2);
     (0x53, "emm_cause"%string, ogs_nas_decode_emm_cause, present 3);
     (0x17, "t3402_value"%string, ogs_nas_decode_gprs_timer, present 4);
     (0x59, "t3423_value"%string, ogs_nas_decode_gprs_timer, present 5);
     (0x4A, "equivalent_plmns"%string, ogs_nas_decode_plmn_list, present 6);
     (0x34, "emergency_number_list"%string, ogs_nas_decode_emergency_number_list, present 7);
     (0x64, "eps_network_feature_support"%string, ogs_nas_decode_eps_network_feature_support, present 8);
     (0xF0, "additional_update_result"%string, ogs_nas_decode_additional_update_result, present 9);
     (0x5E, "t3412_extended_value"%string, ogs_nas_decode_gprs_timer_3, present 10);
     (0x6A, "t3324_value"%string, ogs_nas_decode_gprs_timer_2, present 11);
     (0x6E, "extended_drx_parameters"%string, ogs_nas_decode_extended_drx_parameters, present 12)].
Definition ogs_nas_decode_attach_complete : message → M pkbuf (Z * message) :=
  decode_message
    [
     ("esm_message_container"%string, ogs_nas_decode_esm_message_container)]
    [].
Definition ogs_nas_decode_attach_reject : message → M pkbuf (Z * message) :=
  decode_message
    [
     ("emm_cause"%string, ogs_nas_decode_emm_cause)]
    [
     (0x78, "esm_message_container"%string, ogs_nas_decode_esm_message_container, present 0);
     (0x5F, "t3346_value"%string, ogs_nas_decode_gprs_timer_2, present 1);
     (0x16, "t3402_value"%string, ogs_nas_decode_gprs_timer_2, present 2);
     (0xA0, "extended_emm_cause"%string, ogs_nas_decode_extended_emm_cause, present 3)].
Definition ogs_nas_decode_detach_request_from_ue : message → M pkbuf (Z * message) :=
  decode_message
    [
     ("detach_type"%string, ogs_nas_decode_detach_type);
     ("eps_mobile_identity"%string, ogs_nas_decode_eps_mobile_identity)]
    [].
Definition ogs_nas_decode_detach_request_to_ue : message → M pkbuf (Z * message) :=
  decode_message
    [
     ("detach_type"%string, ogs_nas_decode_detach_type)]
    [
     (0x53, "emm_cause"%string, ogs_nas_decode_emm_cause, present 0)].
Definition ogs_nas_decode_tracking_area_update_request : message → M pkbuf (Z * message) :=
  decode_message
    [
     ("eps_update_type"%string, ogs_nas_decode_eps_update_type);
     ("old_guti"%string, ogs_nas_decode_eps_mobile_identity)]
    [
     (0xB0, "non_current_native_nas_key_set_identifier"%string, ogs_nas_decode_key_set_identifier, present 0);
     (0x80, "gprs_ciphering_key_sequence_number"%string, ogs_nas_decode_ciphering_key_sequence_number, present 1);
     (0x19, "old_p_tmsi_signature"%string, ogs_nas_decode_p_tmsi_signature, present 2);
     (0x50, "additional_guti"%string, ogs_nas_decode_eps_mobile_identity, present 3);
     (0x55, "nonceue"%string, ogs_nas_decode_nonce, present 4);
     (0x58, "ue_network_capability"%string, ogs_nas_decode_ue_network_capability, present 5);
     (0x52, "last_visited_registered_tai"%string, ogs_nas_decode_tracking_area_identity, present 6);
     (0x5C, "drx_parameter"%string, ogs_nas_decode_drx_parameter, present 7);
     (0xA0, "ue_radio_capability_information_update_needed"%string, ogs_nas_decode_ue_radio_capability_information_update_needed, present 8);
     (0x57, "eps_bearer_context_status"%string, ogs_nas_decode_eps_bearer_context_status, present 9);
     (0x31, "ms_network_capability"%string, ogs_nas_decode_ms_network_capability, present 10);
     (0x13, "old_location_area_identification"%string, ogs_nas_decode_location_area_identification, present 11);
     (0x90, "tmsi_status"%string, ogs_nas_decode_tmsi_status, present 12);
     (0x11, "mobile_station_classmark_2"%string, ogs_nas_decode_mobile_station_classmark_2, present 13);
     (0x20, "mobile_station_classmark_3"%string, ogs_nas_decode_mobile_station_classmark_3, present 14);
     (0x40, "supported_codecs"%string, ogs_nas_decode_supported_codec_list, present 15);
     (0xF0, "additional_update_type"%string, ogs_nas_decode_additional_update_type, present 16);
     (0x5D, "voice_domain_preference_and_ue_usage_setting"%string, ogs_nas_decode_voice_domain_preference_and_ue_usage_setting, present 17);
     (0xE0, "old_guti_type"%string, ogs_nas_decode_guti_type, present 18);
     (0xD0, "device_properties"%string, ogs_nas_decode_device_properties, present 19);
     (0xC0, "ms_network_feature_support"%string, ogs_nas_decode_ms_network_feature_support, present 20);
     (0x10, "tmsi_based_nri_container"%string, ogs_nas_decode_network_resource_identifier_container, present 21);
     (0x6A, "t3324_value"%string, ogs_nas_decode_gprs_timer_2, present 22);
     (0x5E, "t3412_extended_value"%string, ogs_nas_decode_gprs_timer_3, present 23);
     (0x6E, "extended_drx_parameters"%string, ogs_nas_decode_extended_drx_parameters, present 24)].
Definition ogs_nas_decode_tracking_area_update_accept : message → M pkbuf (Z * message) :=
  decode_message
    [
     ("eps_update_result"%string, ogs_nas_decode_eps_update_result)]
    [
     (0x5A, "t3412_value"%string, ogs_nas_decode_gprs_timer, present 0);
     (0x50, "guti"%string, ogs_nas_decode_eps_mobile_identity, present 1);
     (0x54, "tai_list"%string, ogs_nas_decode_tracking_area_identity_list, present 2);
     (0x57, "eps_bearer_context_status"%string, ogs_nas_decode_eps_bearer_context_status, present 3);
     (0x13, "location_area_identification"%string, ogs_nas_decode_location_area_identification, present 4);
     (0x23, "ms_identity"%string, ogs_nas_decode_mobile_identity, present 5);
     (0x53, "emm_cause"%string, ogs_nas_decode_emm_cause, present 6);
     (0x17, "t3402_value"%string, ogs_nas_decode_gprs_timer, present 7);
     (0x59, "t3423_value"%string, ogs_nas_decode_gprs_timer, present 8);
     (0x4A, "equivalent_plmns"%string, ogs_nas_decode_plmn_list, present 9);
     (0x34, "emergency_number_list"%string, ogs_nas_decode_emergency_number_list, present 10);
     (0x64, "eps_network_feature_support"%string, ogs_nas_decode_eps_network_feature_support, present 11);
     (0xF0, "additional_update_result"%string, ogs_nas_decode_additional_update_result, present 12);
     (0x5E, "t3412_extended_value"%string, ogs_nas_decode_gprs_timer_3, present 13);
     (0x6A, "t3324_value"%string, ogs_nas_decode_gprs_timer_2, present 14);
     (0x6E, "extended_drx_parameters"%string, ogs_nas_decode_extended_drx_parameters, present 15);
     (0x68, "header_compression_configuration_status"%string, ogs_nas_decode_header_compression_configuration_status, present 16)].
Definition ogs_nas_decode_tracking_area_update_reject : message → M pkbuf (Z * message) :=
  decode_message
    [
     ("emm_cause"%string, ogs_nas_decode_emm_cause)]
    [
     (0x5F, "t3346_value"%string, ogs_nas_decode_gprs_timer_2, present 0);
     (0xA0, "extended_emm_cause"%string, ogs_nas_decode_extended_emm_cause, present 1)].
Definition ogs_nas_decode_extended_service_request : message → M pkbuf (Z * message) :=
  decode_message
    [
     ("service_type"%string, ogs_nas_decode_service_type);
     ("m_tmsi"%string, ogs_nas_decode_mobile_identity)]
    [
     (0xB0, "csfb_response"%string, ogs_nas_decode_csfb_response, present 0);
     (0x57, "eps_bearer_context_status"%string, ogs_nas_decode_eps_bearer_context_status, present 1);
     (0xD0, "device_properties"%string, ogs_nas_decode_device_properties, present 2)].
Definition ogs_nas_decode_service_request : message → M pkbuf (Z * message) :=
  decode_message
    [
     ("ksi_and_sequence_number"%string, ogs_nas_decode_ksi_and_sequence_number);
     ("message_authentication_code"%string, ogs_nas_decode_short_mac)]
    [].
Definition ogs_nas_decode_service_reject : message → M pkbuf (Z * message) :=
  decode_message
    [
     ("emm_cause"%string, ogs_nas_decode_emm_cause)]
    [
     (0x5F, "t3346_value"%string, ogs_nas_decode_gprs_timer_2, present 0)].
Definition ogs_nas_decode_guti_reallocation_command : message → M pkbuf (Z * message) :=
  decode_message
    [
     ("guti"%string, ogs_nas_decode_eps_mobile_identity)]
    [
     (0x54, "tai_list"%string, ogs_nas_decode_tracking_area_identity_list, present 0)].
Definition ogs_nas_decode_authentication_request : message → M pkbuf (Z * message) :=
  decode_message
    [
     ("nas_key_set_identifierasme"%string, ogs_nas_decode_key_set_identifier);
     ("authentication_parameter_rand"%string, ogs_nas_decode_authentication_parameter_rand);
     ("authentication_parameter_autn"%string, ogs_nas_decode_authentication_parameter_autn)]
    [].
Definition ogs_nas_decode_authentication_response : message → M pkbuf (Z * message) :=
  decode_message
    [
     ("authentication_response_parameter"%string, ogs_nas_decode_authentication_response_parameter)]
    [].
Definition ogs_nas_decode_identity_request : message → M pkbuf (Z * message) :=
  decode_message
    [
     ("identity_type"%string, ogs_nas_decode_identity_type_2)]
    [].
Definition ogs_nas_decode_identity_response : message → M pkbuf (Z * message) :=
  decode_message
    [
     ("mobile_identity"%string, ogs_nas_decode_mobile_identity)]
    [].
Definition ogs_nas_decode_authentication_failure : message → M pkbuf (Z * message) :=
  decode_message
    [
     ("emm_cause"%string, ogs_nas_decode_emm_cause)]
    [
     (0x30, "authentication_failure_parameter"%string, ogs_nas_decode_authentication_failure_parameter, present 0)].
Definition ogs_nas_decode_security_mode_command : message → M pkbuf (Z * message) :=
  decode_message
    [
     ("selected_nas_security_algorithms"%string, ogs_nas_decode_security_algorithms);
     ("nas_key_set_identifier"%string, ogs_nas_decode_key_set_identifier);
     ("replayed_ue_security_capabilities"%string, ogs_nas_decode_ue_security_capability)]
    [
     (0xC0, "imeisv_request"%string, ogs_nas_decode_imeisv_request, present 0);
     (0x55, "replayed_nonceue"%string, ogs_nas_decode_nonce, present 1);
     (0x56, "noncemme"%string, ogs_nas_decode_nonce, present 2)].
Definition ogs_nas_decode_security_mode_complete : message → M pkbuf (Z * message) :=
  decode_message
    []
    [
     (0x23, "imeisv"%string, ogs_nas_decode_mobile_identity, present 0)].
Definition ogs_nas_decode_security_mode_reject : message → M pkbuf (Z * message) :=
  decode_message
    [
     ("emm_cause"%string, ogs_nas_decode_emm_cause)]
    [].
Definition ogs_nas_decode_emm_status : message → M pkbuf (Z * message) :=
  decode_message
    [
     ("emm_cause"%string, ogs_nas_decode_emm_cause)]
    [].
Definition ogs_nas_decode_emm_information : message → M pkbuf (Z * message) :=
  decode_message
    []
    [
     (0x43, "full_name_for_network"%string, ogs_nas_decode_network_name, present 0);
     (0x45, "short_name_for_network"%string, ogs_nas_decode_network_name, present 1);
     (0x46, "local_time_zone"%string, ogs_nas_decode_time_zone, present 2);
     (0x47, "universal_time_and_local_time_zone"%string, ogs_nas_decode_time_zone_and_time, present 3);
     (0x49, "network_daylight_saving_time"%string, ogs_nas_decode_daylight_saving_time, present 4)].
Definition ogs_nas_decode_downlink_nas_transport : message → M pkbuf (Z * message) :=
  decode_message
    [
     ("nas_message_container"%string, ogs_nas_decode_message_container)]
    [].
Definition ogs_nas_decode_uplink_nas_transport : message → M pkbuf (Z * message) :=
  decode_message
    [
     ("nas_message_container"%string, ogs_nas_decode_message_container)]
    [].
Definition ogs_nas_decode_cs_service_notification : message → M pkbuf (Z * message) :=
  decode_message
    [
     ("paging_identity"%string, ogs_nas_decode_paging_identity)]
    [
     (0x60, "cli"%string, ogs_nas_decode_cli, present 0);
     (0x61, "ss_code"%string, ogs_nas_decode_ss_code, present 1);
     (0x62, "lcs_indicator"%string, ogs_nas_decode_lcs_indicator, present 2);
     (0x63, "lcs_client_identity"%string, ogs_nas_decode_lcs_client_identity, present 3)].
Definition ogs_nas_decode_uplink_generic_nas_transport : message → M pkbuf (Z * message) :=
  decode_message
    [
     ("generic_message_container_type"%string, ogs_nas_decode_generic_message_container_type);
     ("generic_message_container"%string, ogs_nas_decode_generic_message_container)]
    [
     (0x65, "additional_information"%string, ogs_nas_decode_additional_information, present 0)].
Definition ogs_nas_decode_downlink_generic_nas_transport : message → M pkbuf (Z * message) :=
  decode_message
    [
     ("generic_message_container_type"%string, ogs_nas_decode_generic_message_container_type);
     ("generic_message_container"%string, ogs_nas_decode_generic_message_container)]
    [
     (0x65, "additional_information"%string, ogs_nas_decode_additional_information, present 0)].
Definition ogs_nas_decode_activate_default_eps_bearer_context_request : message → M pkbuf (Z * message) :=
  decode_message
    [
     ("eps_qos"%string, ogs_nas_decode_eps_quality_of_service);
     ("access_point_name"%string, ogs_nas_decode_access_point_name);
     ("pdn_address"%string, ogs_nas_decode_pdn_address)]
    [
     (0x5D, "transaction_identifier"%string, ogs_nas_decode_transaction_identifier, present 0);
     (0x30, "negotiated_qos"%string, ogs_nas_decode_quality_of_service, present 1);
     (0x32, "negotiated_llc_sapi"%string, ogs_nas_decode_llc_service_access_point_identifier, present 2);
     (0x80, "radio_priority"%string, ogs_nas_decode_radio_priority, present 3);
     (0x34, "packet_flow_identifier"%string, ogs_nas_decode_packet_flow_identifier, present 4);
     (0x5E, "apn_ambr"%string, ogs_nas_decode_apn_aggregate_maximum_bit_rate, present 5);
     (0x58, "esm_cause"%string, ogs_nas_decode_esm_cause, present 6);
     (0x27, "protocol_configuration_options"%string, ogs_nas_decode_protocol_configuration_options, present 7);
     (0xB0, "connectivity_type"%string, ogs_nas_decode_connectivity_type, present 8);
     (0xC0, "wlan_offload_indication"%string, ogs_nas_decode_wlan_offload_acceptability, present 9);
     (0x33, "nbifom_container"%string, ogs_nas_decode_nbifom_container, present 10);
     (0x66, "header_compression_configuration"%string, ogs_nas_decode_header_compression_configuration, present 11);
     (0x90, "control_plane_only_indication"%string, ogs_nas_decode_control_plane_only_indication, present 12);
     (0x7B, "extended_protocol_configuration_options"%string, ogs_nas_decode_extended_protocol_configuration_options, present 13);
     (0x6E, "serving_plmn_rate_control"%string, ogs_nas_decode_serving_plmn_rate_control, present 14)].
Definition ogs_nas_decode_activate_default_eps_bearer_context_accept : message → M pkbuf (Z * message) :=
  decode_message
    []
    [
     (0x27, "protocol_configuration_options"%string, ogs_nas_decode_protocol_configuration_options, present 0);
     (0x7B, "extended_protocol_configuration_options"%string, ogs_nas_decode_extended_protocol_configuration_options, present 1)].
Definition ogs_nas_decode_activate_default_eps_bearer_context_reject : message → M pkbuf (Z * message) :=
  decode_message
    [
     ("esm_cause"%string, ogs_nas_decode_esm_cause)]
    [
     (0x27, "protocol_configuration_options"%string, ogs_nas_decode_protocol_configuration_options, present 0);
     (0x7B, "extended_protocol_configuration_options"%string, ogs_nas_decode_extended_protocol_configuration_options, present 1)].
Definition ogs_nas_decode_activate_dedicated_eps_bearer_context_request : message → M pkbuf (Z * message) :=
  decode_message
    [
     ("linked_eps_bearer_identity"%string, ogs_nas_decode_linked_eps_bearer_identity);
     ("eps_qos"%string, ogs_nas_decode_eps_quality_of_service);
     ("tft"%string, ogs_nas_decode_traffic_flow_template)]
    [
     (0x5D, "transaction_identifier"%string, ogs_nas_decode_transaction_identifier, present 0);
     (0x30, "negotiated_qos"%string, ogs_nas_decode_quality_of_service, present 1);
     (0x32, "negotiated_llc_sapi"%string, ogs_nas_decode_llc_service_access_point_identifier, present 2);
     (0x80, "radio_priority"%string, ogs_nas_decode_radio_priority, present 3);
     (0x34, "packet_flow_identifier"%string, ogs_nas_decode_packet_flow_identifier, present 4);
     (0x27, "protocol_configuration_options"%string, ogs_nas_decode_protocol_configuration_options, present 5);
     (0xC0, "wlan_offload_indication"%string, ogs_nas_decode_wlan_offload_acceptability, present 6);
     (0x33, "nbifom_container"%string, ogs_nas_decode_nbifom_container, present 7);
     (0x7B, "extended_protocol_configuration_options"%string, ogs_nas_decode_extended_protocol_configuration_options, present 8)].
Definition ogs_nas_decode_activate_dedicated_eps_bearer_context_accept : message → M pkbuf (Z * message) :=
  decode_message
    []
    [
     (0x27, "protocol_configuration_options"%string, ogs_nas_decode_protocol_configuration_options, present 0);
     (0x33, "nbifom_container"%string, ogs_nas_decode_nbifom_container, present 1);
     (0x7B, "extended_protocol_configuration_options"%string, ogs_nas_decode_extended_protocol_configuration_options, present 2)].
Definition ogs_nas_decode_activate_dedicated_eps_bearer_context_reject : message → M pkbuf (Z * message) :=
  decode_message
    [
     ("esm_cause"%string, ogs_nas_decode_esm_cause)]
    [
     (0x27, "protocol_configuration_options"%string, ogs_nas_decode_protocol_configuration_options, present 0);
     (0x33, "nbifom_container"%string, ogs_nas_decode_nbifom_container, present 1);
     (0x7B, "extended_protocol_configuration_options"%string, ogs_nas_decode_extended_protocol_configuration_options, present 2)].
Definition ogs_nas_decode_modify_eps_bearer_context_request : message → M pkbuf (Z * message) :=
  decode_message
    []
    [
     (0x5B, "new_eps_qos"%string, ogs_nas_decode_eps_quality_of_service, present 0);
     (0x36, "tft"%string, ogs_nas_decode_traffic_flow_template, present 1);
     (0x30, "new_qos"%string, ogs_nas_decode_quality_of_service, present 2);
     (0x32, "negotiated_llc_sapi"%string, ogs_nas_decode_llc_service_access_point_identifier, present 3);
     (0x80, "radio_priority"%string, ogs_nas_decode_radio_priority, present 4);
     (0x34, "packet_flow_identifier"%string, ogs_nas_decode_packet_flow_identifier, present 5);
     (0x5E, "apn_ambr"%string, ogs_nas_decode_apn_aggregate_maximum_bit_rate, present 6);
     (0x27, "protocol_configuration_options"%string, ogs_nas_decode_protocol_configuration_options, present 7);
     (0xC0, "wlan_offload_indication"%string, ogs_nas_decode_wlan_offload_acceptability, present 8);
     (0x33, "nbifom_container"%string, ogs_nas_decode_nbifom_container, present 9);
     (0x66, "header_compression_configuration"%string, ogs_nas_decode_header_compression_configuration, present 10);
     (0x7B, "extended_protocol_configuration_options"%string, ogs_nas_decode_extended_protocol_configuration_options, present 11)].
Definition ogs_nas_decode_modify_eps_bearer_context_accept : message → M pkbuf (Z * message) :=
  decode_message
    []
    [
     (0x27, "protocol_configuration_options"%string, ogs_nas_decode_protocol_configuration_options, present 0);
     (0x33, "nbifom_container"%string, ogs_nas_decode_nbifom_container, present 1);
     (0x7B, "extended_protocol_configuration_options"%string, ogs_nas_decode_extended_protocol_configuration_options, present 2)].
Definition ogs_nas_decode_modify_eps_bearer_context_reject : message → M pkbuf (Z * message) :=
  decode_message
    [
     ("esm_cause"%string, ogs_nas_decode_esm_cause)]
    [
     (0x27, "protocol_configuration_options"%string, ogs_nas_decode_protocol_configuration_options, present 0);
     (0x33, "nbifom_container"%string, ogs_nas_decode_nbifom_container, present 1);
     (0x7B, "extended_protocol_configuration_options"%string, ogs_nas_decode_extended_protocol_configuration_options, present 2)].
Definition ogs_nas_decode_deactivate_eps_bearer_context_request : message → M pkbuf (Z * message) :=
  decode_message
    [
     ("esm_cause"%string, ogs_nas_decode_esm_cause)]
    [
     (0x27, "protocol_configuration_options"%string, ogs_nas_decode_protocol_configuration_options, present 0);
     (0x37, "t3396_value"%string, ogs_nas_decode_gprs_timer_3, present 1);
     (0xC0, "wlan_offload_indication"%string, ogs_nas_decode_wlan_offload_acceptability, present 2);
     (0x33, "nbifom_container"%string, ogs_nas_decode_nbifom_container, present 3);
     (0x7B, "extended_protocol_configuration_options"%string, ogs_nas_decode_extended_protocol_configuration_options, present 4)].
Definition ogs_nas_decode_deactivate_eps_bearer_context_accept : message → M pkbuf (Z * message) :=
  decode_message
    []
    [
     (0x27, "protocol_configuration_options"%string, ogs_nas_decode_protocol_configuration_options, present 0);
     (0x7B, "extended_protocol_configuration_options"%string, ogs_nas_decode_extended_protocol_configuration_options, present 1)].
Definition ogs_nas_decode_pdn_connectivity_request : message → M pkbuf (Z * message) :=
  decode_message
    [
     ("request_type"%string, ogs_nas_decode_request_type)]
    [
     (0xD0, "esm_information_transfer_flag"%string, ogs_nas_decode_esm_information_transfer_flag, present 0);
     (0x28, "access_point_name"%string, ogs_nas_decode_access_point_name, present 1);
     (0x27, "protocol_configuration_options"%string, ogs_nas_decode_protocol_configuration_options, present 2);
     (0xC0, "device_properties"%string, ogs_nas_decode_device_properties, present 3);
     (0x33, "nbifom_container"%string, ogs_nas_decode_nbifom_container, present 4);
     (0x66, "header_compression_configuration"%string, ogs_nas_decode_header_compression_configuration, present 5);
     (0x7B, "extended_protocol_configuration_options"%string, ogs_nas_decode_extended_protocol_configuration_options, present 6)].
Definition ogs_nas_decode_pdn_connectivity_reject : message → M pkbuf (Z * message) :=
  decode_message
    [
     ("esm_cause"%string, ogs_nas_decode_esm_cause)]
    [
     (0x27, "protocol_configuration_options"%string, ogs_nas_decode_protocol_configuration_options, present 0);
     (0x37, "back_off_timer_value"%string, ogs_nas_decode_gprs_timer_3, present 1);
     (0x6B, "re_attempt_indicator"%string, ogs_nas_decode_re_attempt_indicator, present 2);
     (0x33, "nbifom_container"%string, ogs_nas_decode_nbifom_container, present 3);
     (0x7B, "extended_protocol_configuration_options"%string, ogs_nas_decode_extended_protocol_configuration_options, present 4)].
Definition ogs_nas_decode_pdn_disconnect_request : message → M pkbuf (Z * message) :=
  decode_message
    [
     ("linked_eps_bearer_identity"%string, ogs_nas_decode_linked_eps_bearer_identity)]
    [
     (0x27, "protocol_configuration_options"%string, ogs_nas_decode_protocol_configuration_options, present 0);
     (0x7B, "extended_protocol_configuration_options"%string, ogs_nas_decode_extended_protocol_configuration_options, present 1)].
Definition ogs_nas_decode_pdn_disconnect_reject : message → M pkbuf (Z * message) :=
  decode_message
    [
     ("esm_cause"%string, ogs_nas_decode_esm_cause)]
    [
     (0x27, "protocol_configuration_options"%string, ogs_nas_decode_protocol_configuration_options, present 0);
     (0x7B, "extended_protocol_configuration_options"%string, ogs_nas_decode_extended_protocol_configuration_options, present 1)].
Definition ogs_nas_decode_bearer_resource_allocation_request : message → M pkbuf (Z * message) :=
  decode_message
    [
     ("linked_eps_bearer_identity"%string, ogs_nas_decode_linked_eps_bearer_identity);
     ("traffic_flow_aggregate"%string, ogs_nas_decode_traffic_flow_aggregate_description);
     ("required_traffic_flow_qos"%string, ogs_nas_decode_eps_quality_of_service)]
    [
     (0x27, "protocol_configuration_options"%string, ogs_nas_decode_protocol_configuration_options, present 0);
     (0xC0, "device_properties"%string, ogs_nas_decode_device_properties, present 1);
     (0x33, "nbifom_container"%string, ogs_nas_decode_nbifom_container, present 2);
     (0x7B, "extended_protocol_configuration_options"%string, ogs_nas_decode_extended_protocol_configuration_options, present 3)].
Definition ogs_nas_decode_bearer_resource_allocation_reject : message → M pkbuf (Z * message) :=
  decode_message
    [
     ("esm_cause"%string, ogs_nas_decode_esm_cause)]
    [
     (0x27, "protocol_configuration_options"%string, ogs_nas_decode_protocol_configuration_options, present 0);
     (0x37, "back_off_timer_value"%string, ogs_nas_decode_gprs_timer_3, present 1);
     (0x6B, "re_attempt_indicator"%string, ogs_nas_decode_re_attempt_indicator, present 2);
     (0x33, "nbifom_container"%string, ogs_nas_decode_nbifom_container, present 3);
     (0x7B, "extended_protocol_configuration_options"%string, ogs_nas_decode_extended_protocol_configuration_options, present 4)].
Definition ogs_nas_decode_bearer_resource_modification_request : message → M pkbuf (Z * message) :=
  decode_message
    [
     ("eps_bearer_identity_for_packet_filter"%string, ogs_nas_decode_linked_eps_bearer_identity);
     ("traffic_flow_aggregate"%string, ogs_nas_decode_traffic_flow_aggregate_description)]
    [
     (0x5B, "required_traffic_flow_qos"%string, ogs_nas_decode_eps_quality_of_service, present 0);
     (0x58, "esm_cause"%string, ogs_nas_decode_esm_cause, present 1);
     (0x27, "protocol_configuration_options"%string, ogs_nas_decode_protocol_configuration_options, present 2);
     (0xC0, "device_properties"%string, ogs_nas_decode_device_properties, present 3);
     (0x33, "nbifom_container"%string, ogs_nas_decode_nbifom_container, present 4);
     (0x66, "header_compression_configuration"%string, ogs_nas_decode_header_compression_configuration, present 5);
     (0x7B, "extended_protocol_configuration_options"%string, ogs_nas_decode_extended_protocol_configuration_options, present 6)].
Definition ogs_nas_decode_bearer_resource_modification_reject : message → M pkbuf (Z * message) :=
  decode_message
    [
     ("esm_cause"%string, ogs_nas_decode_esm_cause)]
    [
     (0x27, "protocol_configuration_options"%string, ogs_nas_decode_protocol_configuration_options, present 0);
     (0x37, "back_off_timer_value"%string, ogs_nas_decode_gprs_timer_3, present 1);
     (0x6B, "re_attempt_indicator"%string, ogs_nas_decode_re_attempt_indicator, present 2);
     (0x33, "nbifom_container"%string, ogs_nas_decode_nbifom_container, present 3);
     (0x7B, "extended_protocol_configuration_options"%string, ogs_nas_decode_extended_protocol_configuration_options, present 4)].
Definition ogs_nas_decode_esm_information_response : message → M pkbuf (Z * message) :=
  decode_message
    []
    [
     (0x28, "access_point_name"%string, ogs_nas_decode_access_point_name, present 0);
     (0x27, "protocol_configuration_options"%string, ogs_nas_decode_protocol_configuration_options, present 1);
     (0x7B, "extended_protocol_configuration_options"%string, ogs_nas_decode_extended_protocol_configuration_options, present 2)].
Definition ogs_nas_decode_esm_status : message → M pkbuf (Z * message) :=
  decode_message
    [
     ("esm_cause"%string, ogs_nas_decode_esm_cause)]
    [].

(** ** Encoding *)
Definition ogs_nas_encode_attach_request : message → M pkbuf (Z * message) :=
  encode_message
    [
     ("eps_attach_type"%string, ogs_nas_encode_eps_attach_type);
     ("eps_mobile_identity"%string, ogs_nas_encode_eps_mobile_identity);
     ("ue_network_capability"%string, ogs_nas_encode_ue_network_capability);
     ("esm_message_container"%string, ogs_nas_encode_esm_message_container)]
    [
     (present 0, Tag 0x19, "old_p_tmsi_signature"%string, ogs_nas_encode_p_tmsi_signature);
     (present 1, Tag 0x50, "additional_guti"%string, ogs_nas_encode_eps_mobile_identity);
     (present 2, Tag 0x52, "last_visited_registered_tai"%string, ogs_nas_encode_tracking_area_identity);
     (present 3, Tag 0x5C, "drx_parameter"%string, ogs_nas_encode_drx_parameter);
     (present 4, Tag 0x31, "ms_network_capability"%string, ogs_nas_encode_ms_network_capability);
     (present 5, Tag 0x13, "old_location_area_identification"%string, ogs_nas_encode_location_area_identification);
     (present 6, Nibble 0x90, "tmsi_status"%string, ogs_nas_encode_tmsi_status);
     (present 7, Tag 0x11, "mobile_station_classmark_2"%string, ogs_nas_encode_mobile_station_classmark_2);
     (present 8, Tag 0x20, "mobile_station_classmark_3"%string, ogs_nas_encode_mobile_station_classmark_3);
     (present 9, Tag 0x40, "supported_codecs"%string, ogs_nas_encode_supported_codec_list);
     (present 10, Nibble 0xF0, "additional_update_type"%string, ogs_nas_encode_additional_update_type);
     (present 11, Tag 0x5D, "voice_domain_preference_and_ue_usage_setting"%string, ogs_nas_encode_voice_domain_preference_and_ue_usage_setting);
     (present 12, Nibble 0xD0, "device_properties"%string, ogs_nas_encode_device_properties);
     (present 13, Nibble 0xE0, "old_guti_type"%string, ogs_nas_encode_guti_type);
     (present 14, Nibble 0xC0, "ms_network_feature_support"%string, ogs_nas_encode_ms_network_feature_support);
     (present 15, Tag 0x10, "tmsi_based_nri_container"%string, ogs_nas_encode_network_resource_identifier_container);
     (present 16, Tag 0x6A, "t3324_value"%string, ogs_nas_encode_gprs_timer_2);
     (present 17, Tag 0x5E, "t3412_extended_value"%string, ogs_nas_encode_gprs_timer_3);
     (present 18, Tag 0x6E, "extended_drx_parameters"%string, ogs_nas_encode_extended_drx_parameters)].
Definition ogs_nas_encode_attach_accept : message → M pkbuf (Z * message) :=
  encode_message
    [
     ("eps_attach_result"%string, ogs_nas_encode_eps_attach_result);
     ("t3412_value"%string, ogs_nas_encode_gprs_timer);
     ("tai_list"%string, ogs_nas_encode_tracking_area_identity_list);
     ("esm_message_container"%string, ogs_nas_encode_esm_message_container)]
    [
     (present 0, Tag 0x50, "guti"%string, ogs_nas_encode_eps_mobile_identity);
     (present 1, Tag 0x13, "location_area_identification"%string, ogs_nas_encode_location_area_identification);
     (present 2, Tag 0x23, "ms_identity"%string, ogs_nas_encode_mobile_identity);
     (present 3, Tag 0x53, "emm_cause"%string, ogs_nas_encode_emm_cause);
     (present 4, Tag 0x17, "t3402_value"%string, ogs_nas_encode_gprs_timer);
     (present 5, Tag 0x59, "t3423_value"%string, ogs_nas_encode_gprs_timer);
     (present 6, Tag 0x4A, "equivalent_plmns"%string, ogs_nas_encode_plmn_list);
     (present 7, Tag 0x34, "emergency_number_list"%string, ogs_nas_encode_emergency_number_list);
     (present 8, Tag 0x64, "eps_network_feature_support"%string, ogs_nas_encode_eps_network_feature_support);
     (present 9, Nibble 0xF0, "additional_update_result"%string, ogs_nas_encode_additional_update_result);
     (present 10, Tag 0x5E, "t3412_extended_value"%string, ogs_nas_encode_gprs_timer_3);
     (present 11, Tag 0x6A, "t3324_value"%string, ogs_nas_encode_gprs_timer_2);
     (present 12, Tag 0x6E, "extended_drx_parameters"%string, ogs_nas_encode_extended_drx_parameters)].
Definition ogs_nas_encode_attach_complete : message → M pkbuf (Z * message) :=
  encode_message
    [
     ("esm_message_container"%string, ogs_nas_encode_esm_message_container)]
    [].
Definition ogs_nas_encode_attach_reject : message → M pkbuf (Z * message) :=
  encode_message
    [
     ("emm_cause"%string, ogs_nas_encode_emm_cause)]
    [
     (present 0, Tag 0x78, "esm_message_container"%string, ogs_nas_encode_esm_message_container);
     (present 1, Tag 0x5F, "t3346_value"%string, ogs_nas_encode_gprs_timer_2);
     (present 2, Tag 0x16, "t3402_value"%string, ogs_nas_encode_gprs_timer_2);
     (present 3, Nibble 0xA0, "extended_emm_cause"%string, ogs_nas_encode_extended_emm_cause)].
Definition ogs_nas_encode_detach_request_from_ue : message → M pkbuf (Z * message) :=
  encode_message
    [
     ("detach_type"%string, ogs_nas_encode_detach_type);
     ("eps_mobile_identity"%string, ogs_nas_encode_eps_mobile_identity)]
    [].
Definition ogs_nas_encode_detach_request_to_ue : message → M pkbuf (Z * message) :=
  encode_message
    [
     ("detach_type"%string, ogs_nas_encode_detach_type)]
    [
     (present 0, Tag 0x53, "emm_cause"%string, ogs_nas_encode_emm_cause)].
Definition ogs_nas_encode_tracking_area_update_request : message → M pkbuf (Z * message) :=
  encode_message
    [
     ("eps_update_type"%string, ogs_nas_encode_eps_update_type);
     ("old_guti"%string, ogs_nas_encode_eps_mobile_identity)]
    [
     (present 0, Nibble 0xB0, "non_current_native_nas_key_set_identifier"%string, ogs_nas_encode_key_set_identifier);
     (present 1, Nibble 0x80, "gprs_ciphering_key_sequence_number"%string, ogs_nas_encode_ciphering_key_sequence_number);
     (present 2, Tag 0x19, "old_p_tmsi_signature"%string, ogs_nas_encode_p_tmsi_signature);
     (present 3, Tag 0x50, "additional_guti"%string, ogs_nas_encode_eps_mobile_identity);
     (present 4, Tag 0x55, "nonceue"%string, ogs_nas_encode_nonce);
     (present 5, Tag 0x58, "ue_network_capability"%string, ogs_nas_encode_ue_network_capability);
     (present 6, Tag 0x52, "last_visited_registered_tai"%string, ogs_nas_encode_tracking_area_identity);
     (present 7, Tag 0x5C, "drx_parameter"%string, ogs_nas_encode_drx_parameter);
     (present 8, Nibble 0xA0, "ue_radio_capability_information_update_needed"%string, ogs_nas_encode_ue_radio_capability_information_update_needed);
     (present 9, Tag 0x57, "eps_bearer_context_status"%string, ogs_nas_encode_eps_bearer_context_status);
     (present 10, Tag 0x31, "ms_network_capability"%string, ogs_nas_encode_ms_network_capability);
     (present 11, Tag 0x13, "old_location_area_identification"%string, ogs_nas_encode_location_area_identification);
     (present 12, Nibble 0x90, "tmsi_status"%string, ogs_nas_encode_tmsi_status);
     (present 13, Tag 0x11, "mobile_station_classmark_2"%string, ogs_nas_encode_mobile_station_classmark_2);
     (present 14, Tag 0x20, "mobile_station_classmark_3"%string, ogs_nas_encode_mobile_station_classmark_3);
     (present 15, Tag 0x40, "supported_codecs"%string, ogs_nas_encode_supported_codec_list);
     (present 16, Nibble 0xF0, "additional_update_type"%string, ogs_nas_encode_additional_update_type);
     (present 17, Tag 0x5D, "voice_domain_preference_and_ue_usage_setting"%string, ogs_nas_encode_voice_domain_preference_and_ue_usage_setting);
     (present 18, Nibble 0xE0, "old_guti_type"%string, ogs_nas_encode_guti_type);
     (present 19, Nibble 0xD0, "device_properties"%string, ogs_nas_encode_device_properties);
     (present 20, Nibble 0xC0, "ms_network_feature_support"%string, ogs_nas_encode_ms_network_feature_support);
     (present 21, Tag 0x10, "tmsi_based_nri_container"%string, ogs_nas_encode_network_resource_identifier_container);
     (present 22, Tag 0x6A, "t3324_value"%string, ogs_nas_encode_gprs_timer_2);
     (present 23, Tag 0x5E, "t3412_extended_value"%string, ogs_nas_encode_gprs_timer_3);
     (present 24, Tag 0x6E, "extended_drx_parameters"%string, ogs_nas_encode_extended_drx_parameters)].
Definition ogs_nas_encode_tracking_area_update_accept : message → M pkbuf (Z * message) :=
  encode_message
    [
     ("eps_update_result"%string, ogs_nas_encode_eps_update_result)]
    [
     (present 0, Tag 0x5A, "t3412_value"%string, ogs_nas_encode_gprs_timer);
     (present 1, Tag 0x50, "guti"%string, ogs_nas_encode_eps_mobile_identity);
     (present 2, Tag 0x54, "tai_list"%string, ogs_nas_encode_tracking_area_identity_list);
     (present 3, Tag 0x57, "eps_bearer_context_status"%string, ogs_nas_encode_eps_bearer_context_status);
     (present 4, Tag 0x13, "location_area_identification"%string, ogs_nas_encode_location_area_identification);
     (present 5, Tag 0x23, "ms_identity"%string, ogs_nas_encode_mobile_identity);
     (present 6, Tag 0x53, "emm_cause"%string, ogs_nas_encode_emm_cause);
     (present 7, Tag 0x17, "t3402_value"%string, ogs_nas_encode_gprs_timer);
     (present 8, Tag 0x59, "t3423_value"%string, ogs_nas_encode_gprs_timer);
     (present 9, Tag 0x4A, "equivalent_plmns"%string, ogs_nas_encode_plmn_list);
     (present 10, Tag 0x34, "emergency_number_list"%string, ogs_nas_encode_emergency_number_list);
     (present 11, Tag 0x64, "eps_network_feature_support"%string, ogs_nas_encode_eps_network_feature_support);
     (present 12, Nibble 0xF0, "additional_update_result"%string, ogs_nas_encode_additional_update_result);
     (present 13, Tag 0x5E, "t3412_extended_value"%string, ogs_nas_encode_gprs_timer_3);
     (present 14, Tag 0x6A, "t3324_value"%string, ogs_nas_encode_gprs_timer_2);
     (present 15, Tag 0x6E, "extended_drx_parameters"%string, ogs_nas_encode_extended_drx_parameters);
     (present 16, Tag 0x68, "header_compression_configuration_status"%string, ogs_nas_encode_header_compression_configuration_status)].
Definition ogs_nas_encode_tracking_area_update_reject : message → M pkbuf (Z * message) :=
  encode_message
    [
     ("emm_cause"%string, ogs_nas_encode_emm_cause)]
    [
     (present 0, Tag 0x5F, "t3346_value"%string, ogs_nas_encode_gprs_timer_2);
     (present 1, Nibble 0xA0, "extended_emm_cause"%string, ogs_nas_encode_extended_emm_cause)].
Definition ogs_nas_encode_extended_service_request : message → M pkbuf (Z * message) :=
  encode_message
    [
     ("service_type"%string, ogs_nas_encode_service_type);
     ("m_tmsi"%string, ogs_nas_encode_mobile_identity)]
    [
     (present 0, Nibble 0xB0, "csfb_response"%string, ogs_nas_encode_csfb_response);
     (present 1, Tag 0x57, "eps_bearer_context_status"%string, ogs_nas_encode_eps_bearer_context_status);
     (present 2, Nibble 0xD0, "device_properties"%string, ogs_nas_encode_device_properties)].
Definition ogs_nas_encode_service_request : message → M pkbuf (Z * message) :=
  encode_message
    [
     ("ksi_and_sequence_number"%string, ogs_nas_encode_ksi_and_sequence_number);
     ("message_authentication_code"%string, ogs_nas_encode_short_mac)]
    [].
Definition ogs_nas_encode_service_reject : message → M pkbuf (Z * message) :=
  encode_message
    [
     ("emm_cause"%string, ogs_nas_encode_emm_cause)]
    [
     (present 0, Tag 0x5F, "t3346_value"%string, ogs_nas_encode_gprs_timer_2)].
Definition ogs_nas_encode_guti_reallocation_command : message → M pkbuf (Z * message) :=
  encode_message
    [
     ("guti"%string, ogs_nas_encode_eps_mobile_identity)]
    [
     (present 0, Tag 0x54, "tai_list"%string, ogs_nas_encode_tracking_area_identity_list)].
Definition ogs_nas_encode_authentication_request : message → M pkbuf (Z * message) :=
  encode_message
    [
     ("nas_key_set_identifierasme"%string, ogs_nas_encode_key_set_identifier);
     ("authentication_parameter_rand"%string, ogs_nas_encode_authentication_parameter_rand);
     ("authentication_parameter_autn"%string, ogs_nas_encode_authentication_parameter_autn)]
    [].
Definition ogs_nas_encode_authentication_response : message → M pkbuf (Z * message) :=
  encode_message
    [
     ("authentication_response_parameter"%string, ogs_nas_encode_authentication_response_parameter)]
    [].
Definition ogs_nas_encode_identity_request : message → M pkbuf (Z * message) :=
  encode_message
    [
     ("identity_type"%string, ogs_nas_encode_identity_type_2)]
    [].
Definition ogs_nas_encode_identity_response : message → M pkbuf (Z * message) :=
  encode_message
    [
     ("mobile_identity"%string, ogs_nas_encode_mobile_identity)]
    [].
Definition ogs_nas_encode_authentication_failure : message → M pkbuf (Z * message) :=
  encode_message
    [
     ("emm_cause"%string, ogs_nas_encode_emm_cause)]
    [
     (present 0, Tag 0x30, "authentication_failure_parameter"%string, ogs_nas_encode_authentication_failure_parameter)].
Definition ogs_nas_encode_security_mode_command : message → M pkbuf (Z * message) :=
  encode_message
    [
     ("selected_nas_security_algorithms"%string, ogs_nas_encode_security_algorithms);
     ("nas_key_set_identifier"%string, ogs_nas_encode_key_set_identifier);
     ("replayed_ue_security_capabilities"%string, ogs_nas_encode_ue_security_capability)]
    [
     (present 0, Nibble 0xC0, "imeisv_request"%string, ogs_nas_encode_imeisv_request);
     (present 1, Tag 0x55, "replayed_nonceue"%string, ogs_nas_encode_nonce);
     (present 2, Tag 0x56, "noncemme"%string, ogs_nas_encode_nonce)].
Definition ogs_nas_encode_security_mode_complete : message → M pkbuf (Z * message) :=
  encode_message
    []
    [
     (present 0, Tag 0x23, "imeisv"%string, ogs_nas_encode_mobile_identity)].
Definition ogs_nas_encode_security_mode_reject : message → M pkbuf (Z * message) :=
  encode_message
    [
     ("emm_cause"%string, ogs_nas_encode_emm_cause)]
    [].
Definition ogs_nas_encode_emm_status : message → M pkbuf (Z * message) :=
  encode_message
    [
     ("emm_cause"%string, ogs_nas_encode_emm_cause)]
    [].
Definition ogs_nas_encode_emm_information : message → M pkbuf (Z * message) :=
  encode_message
    []
    [
     (present 0, Tag 0x43, "full_name_for_network"%string, ogs_nas_encode_network_name);
     (present 1, Tag 0x45, "short_name_for_network"%string, ogs_nas_encode_network_name);
     (present 2, Tag 0x46, "local_time_zone"%string, ogs_nas_encode_time_zone);
     (present 3, Tag 0x47, "universal_time_and_local_time_zone"%string, ogs_nas_encode_time_zone_and_time);
     (present 4, Tag 0x49, "network_daylight_saving_time"%string, ogs_nas_encode_daylight_saving_time)].
Definition ogs_nas_encode_downlink_nas_transport : message → M pkbuf (Z * message) :=
  encode_message
    [
     ("nas_message_container"%string, ogs_nas_encode_message_container)]
    [].
Definition ogs_nas_encode_uplink_nas_transport : message → M pkbuf (Z * message) :=
  encode_message
    [
     ("nas_message_container"%string, ogs_nas_encode_message_container)]
    [].
Definition ogs_nas_encode_cs_service_notification : message → M pkbuf (Z * message) :=
  encode_message
    [
     ("paging_identity"%string, ogs_nas_encode_paging_identity)]
    [
     (present 0, Tag 0x60, "cli"%string, ogs_nas_encode_cli);
     (present 1, Tag 0x61, "ss_code"%string, ogs_nas_encode_ss_code);
     (present 2, Tag 0x62, "lcs_indicator"%string, ogs_nas_encode_lcs_indicator);
     (present 3, Tag 0x63, "lcs_client_identity"%string, ogs_nas_encode_lcs_client_identity)].
Definition ogs_nas_encode_uplink_generic_nas_transport : message → M pkbuf (Z * message) :=
  encode_message
    [
     ("generic_message_container_type"%string, ogs_nas_encode_generic_message_container_type);
     ("generic_message_container"%string, ogs_nas_encode_generic_message_container)]
    [
     (present 0, Tag 0x65, "additional_information"%string, ogs_nas_encode_additional_information)].
Definition ogs_nas_encode_downlink_generic_nas_transport : message → M pkbuf (Z * message) :=
  encode_message
    [
     ("generic_message_container_type"%string, ogs_nas_encode_generic_message_container_type);
     ("generic_message_container"%string, ogs_nas_encode_generic_message_container)]
    [
     (present 0, Tag 0x65, "additional_information"%string, ogs_nas_encode_additional_information)].
Definition ogs_nas_encode_activate_default_eps_bearer_context_request : message → M pkbuf (Z * message) :=
  encode_message
    [
     ("eps_qos"%string, ogs_nas_encode_eps_quality_of_service);
     ("access_point_name"%string, ogs_nas_encode_access_point_name);
     ("pdn_address"%string, ogs_nas_encode_pdn_address)]
    [
     (present 0, Tag 0x5D, "transaction_identifier"%string, ogs_nas_encode_transaction_identifier);
     (present 1, Tag 0x30, "negotiated_qos"%string, ogs_nas_encode_quality_of_service);
     (present 2, Tag 0x32, "negotiated_llc_sapi"%string, ogs_nas_encode_llc_service_access_point_identifier);
     (present 3, Nibble 0x80, "radio_priority"%string, ogs_nas_encode_radio_priority);
     (present 4, Tag 0x34, "packet_flow_identifier"%string, ogs_nas_encode_packet_flow_identifier);
     (present 5, Tag 0x5E, "apn_ambr"%string, ogs_nas_encode_apn_aggregate_maximum_bit_rate);
     (present 6, Tag 0x58, "esm_cause"%string, ogs_nas_encode_esm_cause);
     (present 7, Tag 0x27, "protocol_configuration_options"%string, ogs_nas_encode_protocol_configuration_options);
     (present 8, Nibble 0xB0, "connectivity_type"%string, ogs_nas_encode_connectivity_type);
     (present 9, Nibble 0xC0, "wlan_offload_indication"%string, ogs_nas_encode_wlan_offload_acceptability);
     (present 10, Tag 0x33, "nbifom_container"%string, ogs_nas_encode_nbifom_container);
     (present 11, Tag 0x66, "header_compression_configuration"%string, ogs_nas_encode_header_compression_configuration);
     (present 12, Nibble 0x90, "control_plane_only_indication"%string, ogs_nas_encode_control_plane_only_indication);
     (present 13, Tag 0x7B, "extended_protocol_configuration_options"%string, ogs_nas_encode_extended_protocol_configuration_options);
     (present 14, Tag 0x6E, "serving_plmn_rate_control"%string, ogs_nas_encode_serving_plmn_rate_control)].
Definition ogs_nas_encode_activate_default_eps_bearer_context_accept : message → M pkbuf (Z * message) :=
  encode_message
    []
    [
     (present 0, Tag 0x27, "protocol_configuration_options"%string, ogs_nas_encode_protocol_configuration_options);
     (present 1, Tag 0x7B, "extended_protocol_configuration_options"%string, ogs_nas_encode_extended_protocol_configuration_options)].
Definition ogs_nas_encode_activate_default_eps_bearer_context_reject : message → M pkbuf (Z * message) :=
  encode_message
    [
     ("esm_cause"%string, ogs_nas_encode_esm_cause)]
    [
     (present 0, Tag 0x27, "protocol_configuration_options"%string, ogs_nas_encode_protocol_configuration_options);
     (present 1, Tag 0x7B, "extended_protocol_configuration_options"%string, ogs_nas_encode_extended_protocol_configuration_options)].
Definition ogs_nas_encode_activate_dedicated_eps_bearer_context_request : message → M pkbuf (Z * message) :=
  encode_message
    [
     ("linked_eps_bearer_identity"%string, ogs_nas_encode_linked_eps_bearer_identity);
     ("eps_qos"%string, ogs_nas_encode_eps_quality_of_service);
     ("tft"%string, ogs_nas_encode_traffic_flow_template)]
    [
     (present 0, Tag 0x5D, "transaction_identifier"%string, ogs_nas_encode_transaction_identifier);
     (present 1, Tag 0x30, "negotiated_qos"%string, ogs_nas_encode_quality_of_service);
     (present 2, Tag 0x32, "negotiated_llc_sapi"%string, ogs_nas_encode_llc_service_access_point_identifier);
     (present 3, Nibble 0x80, "radio_priority"%string, ogs_nas_encode_radio_priority);
     (present 4, Tag 0x34, "packet_flow_identifier"%string, ogs_nas_encode_packet_flow_identifier);
     (present 5, Tag 0x27, "protocol_configuration_options"%string, ogs_nas_encode_protocol_configuration_options);
     (present 6, Nibble 0xC0, "wlan_offload_indication"%string, ogs_nas_encode_wlan_offload_acceptability);
     (present 7, Tag 0x33, "nbifom_container"%string, ogs_nas_encode_nbifom_container);
     (present 8, Tag 0x7B, "extended_protocol_configuration_options"%string, ogs_nas_encode_extended_protocol_configuration_options)].
Definition ogs_nas_encode_activate_dedicated_eps_bearer_context_accept : message → M pkbuf (Z * message) :=
  encode_message
    []
    [
     (present 0, Tag 0x27, "protocol_configuration_options"%string, ogs_nas_encode_protocol_configuration_options);
     (present 1, Tag 0x33, "nbifom_container"%string, ogs_nas_encode_nbifom_container);
     (present 2, Tag 0x7B, "extended_protocol_configuration_options"%string, ogs_nas_encode_extended_protocol_configuration_options)].
Definition ogs_nas_encode_activate_dedicated_eps_bearer_context_reject : message → M pkbuf (Z * message) :=
  encode_message
    [
     ("esm_cause"%string, ogs_nas_encode_esm_cause)]
    [
     (present 0, Tag 0x27, "protocol_configuration_options"%string, ogs_nas_encode_protocol_configuration_options);
     (present 1, Tag 0x33, "nbifom_container"%string, ogs_nas_encode_nbifom_container);
     (present 2, Tag 0x7B, "extended_protocol_configuration_options"%string, ogs_nas_encode_extended_protocol_configuration_options)].
Definition ogs_nas_encode_modify_eps_bearer_context_request : message → M pkbuf (Z * message) :=
  encode_message
    []
    [
     (present 0, Tag 0x5B, "new_eps_qos"%string, ogs_nas_encode_eps_quality_of_service);
     (present 1, Tag 0x36, "tft"%string, ogs_nas_encode_traffic_flow_template);
     (present 2, Tag 0x30, "new_qos"%string, ogs_nas_encode_quality_of_service);
     (present 3, Tag 0x32, "negotiated_llc_sapi"%string, ogs_nas_encode_llc_service_access_point_identifier);
     (present 4, Nibble 0x80, "radio_priority"%string, ogs_nas_encode_radio_priority);
     (present 5, Tag 0x34, "packet_flow_identifier"%string, ogs_nas_encode_packet_flow_identifier);
     (present 6, Tag 0x5E, "apn_ambr"%string, ogs_nas_encode_apn_aggregate_maximum_bit_rate);
     (present 7, Tag 0x27, "protocol_configuration_options"%string, ogs_nas_encode_protocol_configuration_options);
     (present 8, Nibble 0xC0, "wlan_offload_indication"%string, ogs_nas_encode_wlan_offload_acceptability);
     (present 9, Tag 0x33, "nbifom_container"%string, ogs_nas_encode_nbifom_container);
     (present 10, Tag 0x66, "header_compression_configuration"%string, ogs_nas_encode_header_compression_configuration);
     (present 11, Tag 0x7B, "extended_protocol_configuration_options"%string, ogs_nas_encode_extended_protocol_configuration_options)].
Definition ogs_nas_encode_modify_eps_bearer_context_accept : message → M pkbuf (Z * message) :=
  encode_message
    []
    [
     (present 0, Tag 0x27, "protocol_configuration_options"%string, ogs_nas_encode_protocol_configuration_options);
     (present 1, Tag 0x33, "nbifom_container"%string, ogs_nas_encode_nbifom_container);
     (present 2, Tag 0x7B, "extended_protocol_configuration_options"%string, ogs_nas_encode_extended_protocol_configuration_options)].
Definition ogs_nas_encode_modify_eps_bearer_context_reject : message → M pkbuf (Z * message) :=
  encode_message
    [
     ("esm_cause"%string, ogs_nas_encode_esm_cause)]
    [
     (present 0, Tag 0x27, "protocol_configuration_options"%string, ogs_nas_encode_protocol_configuration_options);
     (present 1, Tag 0x33, "nbifom_container"%string, ogs_nas_encode_nbifom_container);
     (present 2, Tag 0x7B, "extended_protocol_configuration_options"%string, ogs_nas_encode_extended_protocol_configuration_options)].
Definition ogs_nas_encode_deactivate_eps_bearer_context_request : message → M pkbuf (Z * message) :=
  encode_message
    [
     ("esm_cause"%string, ogs_nas_encode_esm_cause)]
    [
     (present 0, Tag 0x27, "protocol_configuration_options"%string, ogs_nas_encode_protocol_configuration_options);
     (present 1, Tag 0x37, "t3396_value"%string, ogs_nas_encode_gprs_timer_3);
     (present 2, Nibble 0xC0, "wlan_offload_indication"%string, ogs_nas_encode_wlan_offload_acceptability);
     (present 3, Tag 0x33, "nbifom_container"%string, ogs_nas_encode_nbifom_container);
     (present 4, Tag 0x7B, "extended_protocol_configuration_options"%string, ogs_nas_encode_extended_protocol_configuration_options)].
Definition ogs_nas_encode_deactivate_eps_bearer_context_accept : message → M pkbuf (Z * message) :=
  encode_message
    []
    [
     (present 0, Tag 0x27, "protocol_configuration_options"%string, ogs_nas_encode_protocol_configuration_options);
     (present 1, Tag 0x7B, "extended_protocol_configuration_options"%string, ogs_nas_encode_extended_protocol_configuration_options)].
Definition ogs_nas_encode_pdn_connectivity_request : message → M pkbuf (Z * message) :=
  encode_message
    [
     ("request_type"%string, ogs_nas_encode_request_type)]
    [
     (present 0, Nibble 0xD0, "esm_information_transfer_flag"%string, ogs_nas_encode_esm_information_transfer_flag);
     (present 1, Tag 0x28, "access_point_name"%string, ogs_nas_encode_access_point_name);
     (present 2, Tag 0x27, "protocol_configuration_options"%string, ogs_nas_encode_protocol_configuration_options);
     (present 3, Nibble 0xC0, "device_properties"%string, ogs_nas_encode_device_properties);
     (present 4, Tag 0x33, "nbifom_container"%string, ogs_nas_encode_nbifom_container);
     (present 5, Tag 0x66, "header_compression_configuration"%string, ogs_nas_encode_header_compression_configuration);
     (present 6, Tag 0x7B, "extended_protocol_configuration_options"%string, ogs_nas_encode_extended_protocol_configuration_options)].
Definition ogs_nas_encode_pdn_connectivity_reject : message → M pkbuf (Z * message) :=
  encode_message
    [
     ("esm_cause"%string, ogs_nas_encode_esm_cause)]
    [
     (present 0, Tag 0x27, "protocol_configuration_options"%string, ogs_nas_encode_protocol_configuration_options);
     (present 1, Tag 0x37, "back_off_timer_value"%string, ogs_nas_encode_gprs_timer_3);
     (present 2, Tag 0x6B, "re_attempt_indicator"%string, ogs_nas_encode_re_attempt_indicator);
     (present 3, Tag 0x33, "nbifom_container"%string, ogs_nas_encode_nbifom_container);
     (present 4, Tag 0x7B, "extended_protocol_configuration_options"%string, ogs_nas_encode_extended_protocol_configuration_options)].
Definition ogs_nas_encode_pdn_disconnect_request : message → M pkbuf (Z * message) :=
  encode_message
    [
     ("linked_eps_bearer_identity"%string, ogs_nas_encode_linked_eps_bearer_identity)]
    [
     (present 0, Tag 0x27, "protocol_configuration_options"%string, ogs_nas_encode_protocol_configuration_options);
     (present 1, Tag 0x7B, "extended_protocol_configuration_options"%string, ogs_nas_encode_extended_protocol_configuration_options)].
Definition ogs_nas_encode_pdn_disconnect_reject : message → M pkbuf (Z * message) :=
  encode_message
    [
     ("esm_cause"%string, ogs_nas_encode_esm_cause)]
    [
     (present 0, Tag 0x27, "protocol_configuration_options"%string, ogs_nas_encode_protocol_configuration_options);
     (present 1, Tag 0x7B, "extended_protocol_configuration_options"%string, ogs_nas_encode_extended_protocol_configuration_options)].
Definition ogs_nas_encode_bearer_resource_allocation_request : message → M pkbuf (Z * message) :=
  encode_message
    [
     ("linked_eps_bearer_identity"%string, ogs_nas_encode_linked_eps_bearer_identity);
     ("traffic_flow_aggregate"%string, ogs_nas_encode_traffic_flow_aggregate_description);
     ("required_traffic_flow_qos"%string, ogs_nas_encode_eps_quality_of_service)]
    [
     (present 0, Tag 0x27, "protocol_configuration_options"%string, ogs_nas_encode_protocol_configuration_options);
     (present 1, Nibble 0xC0, "device_properties"%string, ogs_nas_encode_device_properties);
     (present 2, Tag 0x33, "nbifom_container"%string, ogs_nas_encode_nbifom_container);
     (present 3, Tag 0x7B, "extended_protocol_configuration_options"%string, ogs_nas_encode_extended_protocol_configuration_options)].
Definition ogs_nas_encode_bearer_resource_allocation_reject : message → M pkbuf (Z * message) :=
  encode_message
    [
     ("esm_cause"%string, ogs_nas_encode_esm_cause)]
    [
     (present 0, Tag 0x27, "protocol_configuration_options"%string, ogs_nas_encode_protocol_configuration_options);
     (present 1, Tag 0x37, "back_off_timer_value"%string, ogs_nas_encode_gprs_timer_3);
     (present 2, Tag 0x6B, "re_attempt_indicator"%string, ogs_nas_encode_re_attempt_indicator);
     (present 3, Tag 0x33, "nbifom_container"%string, ogs_nas_encode_nbifom_container);
     (present 4, Tag 0x7B, "extended_protocol_configuration_options"%string, ogs_nas_encode_extended_protocol_configuration_options)].
Definition ogs_nas_encode_bearer_resource_modification_request : message → M pkbuf (Z * message) :=
  encode_message
    [
     ("eps_bearer_identity_for_packet_filter"%string, ogs_nas_encode_linked_eps_bearer_identity);
     ("traffic_flow_aggregate"%string, ogs_nas_encode_traffic_flow_aggregate_description)]
    [
     (present 0, Tag 0x5B, "required_traffic_flow_qos"%string, ogs_nas_encode_eps_quality_of_service);
     (present 1, Tag 0x58, "esm_cause"%string, ogs_nas_encode_esm_cause);
     (present 2, Tag 0x27, "protocol_configuration_options"%string, ogs_nas_encode_protocol_configuration_options);
     (present 3, Nibble 0xC0, "device_properties"%string, ogs_nas_encode_device_properties);
     (present 4, Tag 0x33, "nbifom_container"%string, ogs_nas_encode_nbifom_container);
     (present 5, Tag 0x66, "header_compression_configuration"%string, ogs_nas_encode_header_compression_configuration);
     (present 6, Tag 0x7B, "extended_protocol_configuration_options"%string, ogs_nas_encode_extended_protocol_configuration_options)].
Definition ogs_nas_encode_bearer_resource_modification_reject : message → M pkbuf (Z * message) :=
  encode_message
    [
     ("esm_cause"%string, ogs_nas_encode_esm_cause)]
    [
     (present 0, Tag 0x27, "protocol_configuration_options"%string, ogs_nas_encode_protocol_configuration_options);
     (present 1, Tag 0x37, "back_off_timer_value"%string, ogs_nas_encode_gprs_timer_3);
     (present 2, Tag 0x6B, "re_attempt_indicator"%string, ogs_nas_encode_re_attempt_indicator);
     (present 3, Tag 0x33, "nbifom_container"%string, ogs_nas_encode_nbifom_container);
     (present 4, Tag 0x7B, "extended_protocol_configuration_options"%string, ogs_nas_encode_extended_protocol_configuration_options)].
Definition ogs_nas_encode_esm_information_response : message → M pkbuf (Z * message) :=
  encode_message
    []
    [
     (present 0, Tag 0x28, "access_point_name"%string, ogs_nas_encode_access_point_name);
     (present 1, Tag 0x27, "protocol_configuration_options"%string, ogs_nas_encode_protocol_configuration_options);
     (present 2, Tag 0x7B, "extended_protocol_configuration_options"%string, ogs_nas_encode_extended_protocol_configuration_options)].
Definition ogs_nas_encode_esm_status : message → M pkbuf (Z * message) :=
  encode_message
    [
     ("esm_cause"%string, ogs_nas_encode_esm_cause)]
    [].

(** ** The entry points

    The cases of a [switch] on the type of a message: its structure and its
    function, or nothing to be done. *)
#[warnings="-notation-for-abbreviation"] Notation function := (members * (message → M pkbuf (Z * message)))%type.
#[warnings="-notation-for-abbreviation"] Notation switch := (list (Z * option function)).
Definition find_case (cs : switch) (type : Z) : option (option function) :=
  snd <$> List.find (λ c, fst c =? type) cs.

Definition emm_decode_cases : switch :=
  [
   (65, Some (ogs_nas_attach_request_t, ogs_nas_decode_attach_request));
   (66, Some (ogs_nas_attach_accept_t, ogs_nas_decode_attach_accept));
   (67, Some (ogs_nas_attach_complete_t, ogs_nas_decode_attach_complete));
   (68, Some (ogs_nas_attach_reject_t, ogs_nas_decode_attach_reject));
   (69, Some (ogs_nas_detach_request_from_ue_t, ogs_nas_decode_detach_request_from_ue));
   (70, None);
   (72, Some (ogs_nas_tracking_area_update_request_t, ogs_nas_decode_tracking_area_update_request));
   (73, Some (ogs_nas_tracking_area_update_accept_t, ogs_nas_decode_tracking_area_update_accept));
   (74, None);
   (75, Some (ogs_nas_tracking_area_update_reject_t, ogs_nas_decode_tracking_area_update_reject));
   (76, Some (ogs_nas_extended_service_request_t, ogs_nas_decode_extended_service_request));
   (78, Some (ogs_nas_service_reject_t, ogs_nas_decode_service_reject));
   (80, Some (ogs_nas_guti_reallocation_command_t, ogs_nas_decode_guti_reallocation_command));
   (81, None);
   (82, Some (ogs_nas_authentication_request_t, ogs_nas_decode_authentication_request));
   (83, Some (ogs_nas_authentication_response_t, ogs_nas_decode_authentication_response));
   (84, None);
   (85, Some (ogs_nas_identity_request_t, ogs_nas_decode_identity_request));
   (86, Some (ogs_nas_identity_response_t, ogs_nas_decode_identity_response));
   (92, Some (ogs_nas_authentication_failure_t, ogs_nas_decode_authentication_failure));
   (93, Some (ogs_nas_security_mode_command_t, ogs_nas_decode_security_mode_command));
   (94, Some (ogs_nas_security_mode_complete_t, ogs_nas_decode_security_mode_complete));
   (95, Some (ogs_nas_security_mode_reject_t, ogs_nas_decode_security_mode_reject));
   (96, Some (ogs_nas_emm_status_t, ogs_nas_decode_emm_status));
   (97, Some (ogs_nas_emm_information_t, ogs_nas_decode_emm_information));
   (98, Some (ogs_nas_downlink_nas_transport_t, ogs_nas_decode_downlink_nas_transport));
   (99, Some (ogs_nas_uplink_nas_transport_t, ogs_nas_decode_uplink_nas_transport));
   (100, Some (ogs_nas_cs_service_notification_t, ogs_nas_decode_cs_service_notification));
   (101, Some (ogs_nas_uplink_generic_nas_transport_t, ogs_nas_decode_uplink_generic_nas_transport));
   (104, Some (ogs_nas_downlink_generic_nas_transport_t, ogs_nas_decode_downlink_generic_nas_transport))].
Definition esm_decode_cases : switch :=
  [
   (193, Some (ogs_nas_activate_default_eps_bearer_context_request_t, ogs_nas_decode_activate_default_eps_bearer_context_request));
   (194, Some (ogs_nas_activate_default_eps_bearer_context_accept_t, ogs_nas_decode_activate_default_eps_bearer_context_accept));
   (195, Some (ogs_nas_activate_default_eps_bearer_context_reject_t, ogs_nas_decode_activate_default_eps_bearer_context_reject));
   (197, Some (ogs_nas_activate_dedicated_eps_bearer_context_request_t, ogs_nas_decode_activate_dedicated_eps_bearer_context_request));
   (198, Some (ogs_nas_activate_dedicated_eps_bearer_context_accept_t, ogs_nas_decode_activate_dedicated_eps_bearer_context_accept));
   (199, Some (ogs_nas_activate_dedicated_eps_bearer_context_reject_t, ogs_nas_decode_activate_dedicated_eps_bearer_context_reject));
   (201, Some (ogs_nas_modify_eps_bearer_context_request_t, ogs_nas_decode_modify_eps_bearer_context_request));
   (202, Some (ogs_nas_modify_eps_bearer_context_accept_t, ogs_nas_decode_modify_eps_bearer_context_accept));
   (203, Some (ogs_nas_modify_eps_bearer_context_reject_t, ogs_nas_decode_modify_eps_bearer_context_reject));
   (205, Some (ogs_nas_deactivate_eps_bearer_context_request_t, ogs_nas_decode_deactivate_eps_bearer_context_request));
   (206, Some (ogs_nas_deactivate_eps_bearer_context_accept_t, ogs_nas_decode_deactivate_eps_bearer_context_accept));
   (208, Some (ogs_nas_pdn_connectivity_request_t, ogs_nas_decode_pdn_connectivity_request));
   (209, Some (ogs_nas_pdn_connectivity_reject_t, ogs_nas_decode_pdn_connectivity_reject));
   (210, Some (ogs_nas_pdn_disconnect_request_t, ogs_nas_decode_pdn_disconnect_request));
   (211, Some (ogs_nas_pdn_disconnect_reject_t, ogs_nas_decode_pdn_disconnect_reject));
   (212, Some (ogs_nas_bearer_resource_allocation_request_t, ogs_nas_decode_bearer_resource_allocation_request));
   (213, Some (ogs_nas_bearer_resource_allocation_reject_t, ogs_nas_decode_bearer_resource_allocation_reject));
   (214, Some (ogs_nas_bearer_resource_modification_request_t, ogs_nas_decode_bearer_resource_modification_request));
   (215, Some (ogs_nas_bearer_resource_modification_reject_t, ogs_nas_decode_bearer_resource_modification_reject));
   (217, None);
   (218, Some (ogs_nas_esm_information_response_t, ogs_nas_decode_esm_information_response));
   (232, Some (ogs_nas_esm_status_t, ogs_nas_decode_esm_status))].
Definition emm_encode_cases : switch :=
  [
   (65, Some (ogs_nas_attach_request_t, ogs_nas_encode_attach_request));
   (66, Some (ogs_nas_attach_accept_t, ogs_nas_encode_attach_accept));
   (67, Some (ogs_nas_attach_complete_t, ogs_nas_encode_attach_complete));
   (68, Some (ogs_nas_attach_reject_t, ogs_nas_encode_attach_reject));
   (69, Some (ogs_nas_detach_request_to_ue_t, ogs_nas_encode_detach_request_to_ue));
   (70, None);
   (72, Some (ogs_nas_tracking_area_update_request_t, ogs_nas_encode_tracking_area_update_request));
   (73, Some (ogs_nas_tracking_area_update_accept_t, ogs_nas_encode_tracking_area_update_accept));
   (74, None);
   (75, Some (ogs_nas_tracking_area_update_reject_t, ogs_nas_encode_tracking_area_update_reject));
   (76, Some (ogs_nas_extended_service_request_t, ogs_nas_encode_extended_service_request));
   (78, Some (ogs_nas_service_reject_t, ogs_nas_encode_service_reject));
   (80, Some (ogs_nas_guti_reallocation_command_t, ogs_nas_encode_guti_reallocation_command));
   (81, None);
   (82, Some (ogs_nas_authentication_request_t, ogs_nas_encode_authentication_request));
   (83, Some (ogs_nas_authentication_response_t, ogs_nas_encode_authentication_response));
   (84, None);
   (85, Some (ogs_nas_identity_request_t, ogs_nas_encode_identity_request));
   (86, Some (ogs_nas_identity_response_t, ogs_nas_encode_identity_response));
   (92, Some (ogs_nas_authentication_failure_t, ogs_nas_encode_authentication_failure));
   (93, Some (ogs_nas_security_mode_command_t, ogs_nas_encode_security_mode_command));
   (94, Some (ogs_nas_security_mode_complete_t, ogs_nas_encode_security_mode_complete));
   (95, Some (ogs_nas_security_mode_reject_t, ogs_nas_encode_security_mode_reject));
   (96, Some (ogs_nas_emm_status_t, ogs_nas_encode_emm_status));
   (97, Some (ogs_nas_emm_information_t, ogs_nas_encode_emm_information));
   (98, Some (ogs_nas_downlink_nas_transport_t, ogs_nas_encode_downlink_nas_transport));
   (99, Some (ogs_nas_uplink_nas_transport_t, ogs_nas_encode_uplink_nas_transport));
   (100, Some (ogs_nas_cs_service_notification_t, ogs_nas_encode_cs_service_notification));
   (101, Some (ogs_nas_uplink_generic_nas_transport_t, ogs_nas_encode_uplink_generic_nas_transport));
   (104, Some (ogs_nas_downlink_generic_nas_transport_t, ogs_nas_encode_downlink_generic_nas_transport))].
Definition esm_encode_cases : switch :=
  [
   (193, Some (ogs_nas_activate_default_eps_bearer_context_request_t, ogs_nas_encode_activate_default_eps_bearer_context_request));
   (194, Some (ogs_nas_activate_default_eps_bearer_context_accept_t, ogs_nas_encode_activate_default_eps_bearer_context_accept));
   (195, Some (ogs_nas_activate_default_eps_bearer_context_reject_t, ogs_nas_encode_activate_default_eps_bearer_context_reject));
   (197, Some (ogs_nas_activate_dedicated_eps_bearer_context_request_t, ogs_nas_encode_activate_dedicated_eps_bearer_context_request));
   (198, Some (ogs_nas_activate_dedicated_eps_bearer_context_accept_t, ogs_nas_encode_activate_dedicated_eps_bearer_context_accept));
   (199, Some (ogs_nas_activate_dedicated_eps_bearer_context_reject_t, ogs_nas_encode_activate_dedicated_eps_bearer_context_reject));
   (201, Some (ogs_nas_modify_eps_bearer_context_request_t, ogs_nas_encode_modify_eps_bearer_context_request));
   (202, Some (ogs_nas_modify_eps_bearer_context_accept_t, ogs_nas_encode_modify_eps_bearer_context_accept));
   (203, Some (ogs_nas_modify_eps_bearer_context_reject_t, ogs_nas_encode_modify_eps_bearer_context_reject));
   (205, Some (ogs_nas_deactivate_eps_bearer_context_request_t, ogs_nas_encode_deactivate_eps_bearer_context_request));
   (206, Some (ogs_nas_deactivate_eps_bearer_context_accept_t, ogs_nas_encode_deactivate_eps_bearer_context_accept));
   (208, Some (ogs_nas_pdn_connectivity_request_t, ogs_nas_encode_pdn_connectivity_request));
   (209, Some (ogs_nas_pdn_connectivity_reject_t, ogs_nas_encode_pdn_connectivity_reject));
   (210, Some (ogs_nas_pdn_disconnect_request_t, ogs_nas_encode_pdn_disconnect_request));
   (211, Some (ogs_nas_pdn_disconnect_reject_t, ogs_nas_encode_pdn_disconnect_reject));
   (212, Some (ogs_nas_bearer_resource_allocation_request_t, ogs_nas_encode_bearer_resource_allocation_request));
   (213, Some (ogs_nas_bearer_resource_allocation_reject_t, ogs_nas_encode_bearer_resource_allocation_reject));
   (214, Some (ogs_nas_bearer_resource_modification_request_t, ogs_nas_encode_bearer_resource_modification_request));
   (215, Some (ogs_nas_bearer_resource_modification_reject_t, ogs_nas_encode_bearer_resource_modification_reject));
   (217, None);
   (218, Some (ogs_nas_esm_information_response_t, ogs_nas_encode_esm_information_response));
   (232, Some (ogs_nas_esm_status_t, ogs_nas_encode_esm_status))].

(** A message: the octets of [emm.h] or [esm.h] and the member of the union. *)
Record ogs_nas_message_t := { header : list Z; body : message }.
Definition OGS_NAS_SECURITY_HEADER_FOR_SERVICE_REQUEST_MESSAGE : Z := 12.
Definition OGS_NAS_PROTOCOL_DISCRIMINATOR_ESM : Z := 2.
Definition OGS_NAS_PROTOCOL_DISCRIMINATOR_EMM : Z := 7.
Definition OGS_NAS_HEADROOM : nat := 16.
Definition sizeof_emm_header : nat := 2.
Definition sizeof_esm_header : nat := 3.
(** The upper and lower half of the first octet. *)
Definition security_header_type (h : list Z) : Z := nth 0 (ed_unpack [4; 4]%nat (nth 0 h 0)) 0.
Definition protocol_discriminator (h : list Z) : Z := nth 1 (ed_unpack [4; 4]%nat (nth 0 h 0)) 0.

(** [ogs_assert(ogs_pkbuf_push(pkbuf, n))] *)
Definition push (n : nat) : M pkbuf () :=
  b ← get;
  match ogs_pkbuf_push b n with Some b => put b | None => mabort end.

(** The call of a case and what is left of the packet: [decoded] is a
    [uint16_t]. *)
Definition run_case (f : message → M pkbuf (Z * message)) (ms : members) (done : Z) : M pkbuf message :=
  '(size, m) ← f (zero_message ms);
  push (Z.to_nat (u16 (done + u16 size)));;
  mret m.

Definition ogs_nas_emm_decode : M pkbuf (rv_t * ogs_nas_message_t) :=
  b ← get;
  massert (negb (length (pk_data b) =? 0)%nat);;
  pull sizeof_emm_header;;
  h ← passed sizeof_emm_header;
  m ← (if OGS_NAS_SECURITY_HEADER_FOR_SERVICE_REQUEST_MESSAGE <=? security_header_type h
       then push 1;; run_case ogs_nas_decode_service_request ogs_nas_service_request_t 1
       else match find_case emm_decode_cases (nth 1 h 0) with
            | Some (Some (ms, f)) => run_case f ms 2
            | _ => push 2;; mret (zero_message [])
            end);
  mret (OGS_OK, {| header := h; body := m |}).

Definition ogs_nas_esm_decode : M pkbuf (rv_t * ogs_nas_message_t) :=
  b ← get;
  massert (negb (length (pk_data b) =? 0)%nat);;
  pull sizeof_esm_header;;
  h ← passed sizeof_esm_header;
  m ← (match find_case esm_decode_cases (nth 2 h 0) with
       | Some (Some (ms, f)) => run_case f ms 3
       | _ => push 3;; mret (zero_message [])
       end);
  mret (OGS_OK, {| header := h; body := m |}).

Context `{OgsSdu}.
(** [ogs_pkbuf_alloc], [ogs_pkbuf_reserve], [ogs_pkbuf_put] *)
Definition new_pkbuf : pkbuf :=
  let m := fresh_octets OGS_MAX_SDU_LEN in
  {| pk_head := take OGS_NAS_HEADROOM m; pk_data := drop OGS_NAS_HEADROOM m |}.
(** [ogs_pkbuf_push] by what was encoded, which becomes the length. *)
Definition finish (encoded : Z) : M pkbuf () :=
  push (Z.to_nat encoded);;
  modify (λ b, {| pk_head := pk_head b; pk_data := take (Z.to_nat encoded) (pk_data b) |}).

(** The function [f] of a case, behind [done] octets of the header. *)
Definition encode_case (f : message → M pkbuf (Z * message)) (done : Z) (m : message)
    : M pkbuf message :=
  '(size, m) ← f m;
  massert (0 <=? size);;
  finish (done + size);;
  mret m.

Definition emm_encode (msg : ogs_nas_message_t) : M pkbuf (rv_t * message) :=
  let h := take sizeof_emm_header (header msg) in
  pull sizeof_emm_header;;
  fill h;;
  if OGS_NAS_SECURITY_HEADER_FOR_SERVICE_REQUEST_MESSAGE <=? security_header_type h
  then push 1;; m ← encode_case ogs_nas_encode_service_request 1 (body msg); mret (OGS_OK, m)
  else match find_case emm_encode_cases (nth 1 h 0) with
       | Some (Some (_, f)) => m ← encode_case f 2 (body msg); mret (OGS_OK, m)
       | Some None => finish 2;; mret (OGS_OK, body msg)
       | None => mret (OGS_ERROR, body msg)
       end.
Definition esm_encode (msg : ogs_nas_message_t) : M pkbuf (rv_t * message) :=
  let h := take sizeof_esm_header (header msg) in
  pull sizeof_esm_header;;
  fill h;;
  match find_case esm_encode_cases (nth 2 h 0) with
  | Some (Some (_, f)) => m ← encode_case f 3 (body msg); mret (OGS_OK, m)
  | Some None => finish 3;; mret (OGS_OK, body msg)
  | None => mret (OGS_ERROR, body msg)
  end.

(** The packet; on an error it is freed. *)
Definition encoded (e : ogs_nas_message_t → M pkbuf (rv_t * message)) (msg : ogs_nas_message_t)
    : outcome (rv_t * option pkbuf * ogs_nas_message_t) :=
  '(rv, m, b) ← e msg new_pkbuf;
  let msg := {| header := header msg; body := m |} in
  match rv with OGS_OK => Ok (OGS_OK, Some b, msg) | OGS_ERROR => Ok (OGS_ERROR, None, msg) end.
Definition ogs_nas_emm_encode := encoded emm_encode.
Definition ogs_nas_esm_encode := encoded esm_encode.

(** Both headers begin with the same octet. *)
Definition ogs_nas_plain_encode (msg : ogs_nas_message_t)
    : outcome (rv_t * option pkbuf * ogs_nas_message_t) :=
  if protocol_discriminator (header msg) =? OGS_NAS_PROTOCOL_DISCRIMINATOR_EMM
  then ogs_nas_emm_encode msg
  else if protocol_discriminator (header msg) =? OGS_NAS_PROTOCOL_DISCRIMINATOR_ESM
  then ogs_nas_esm_encode msg
  else ogs_assert_if_reached.
End messages.
