(* ===== verification/NasCodecLaws.v ===== *)
(** * NAS elements: encoding and decoding belong together

    [Codec enc dec t]: what [enc] writes for a valid object of type [t],
    [dec] reads back into a zeroed one, with the same value.  The generic
    instances cover the patterns of [ies.c]; every element has its own. *)
From S2P Require Import Prelude.
From S2P Require Import CMem.
From S2P Require Import OgsLib.
From S2P Require NasConv.
From S2P Require Import NasIes.
#[local] Open Scope Z_scope.

(** A name of the form that [ogs_fqdn_build] can handle. *)
Class OgsFqdnLaws `{OgsFqdn} : Prop := {
  fqdn_length s : length (ogs_fqdn_build s) = S (length s);
  fqdn_bytes s : bytes_ok s → bytes_ok (ogs_fqdn_build s);
  fqdn_parse_build s : bytes_ok s → Z.of_nat (length s) < 100 →
    ogs_fqdn_parse (ogs_fqdn_build s) = Ok s;
}.

#[warnings="-notation-for-abbreviation"] Notation codec := (ie_t → M pkbuf (Z * ie_t)).

(** The data pointer moves forward over octets that stay as they are. *)
Definition consumes (b b' : pkbuf) : Prop :=
  pk_head b ++ pk_data b = pk_head b' ++ pk_data b' ∧ (length (pk_data b') <= length (pk_data b))%nat.
#[export] Instance consumes_preorder : PreOrder consumes.
Proof. split; [by intros b|]. intros a b c [E1 L1] [E2 L2]. split; [congruence|lia]. Qed.

Class Codec (enc dec : codec) (t : ie_type) := {
  valid : ie_t → Prop;
  wire : ie_t → list Z;
  value : ie_t → list Z;
  enc_run x h d : valid x → (length (wire x) <= length d)%nat →
    enc x {| pk_head := h; pk_data := d |} =
      Ok ((Z.of_nat (length (wire x)), x),
          {| pk_head := h ++ wire x; pk_data := drop (length (wire x)) d |});
  dec_run x h rest : valid x → ∃ y,
    dec (zero_ie t) {| pk_head := h; pk_data := wire x ++ rest |} =
      Ok ((Z.of_nat (length (wire x)), y), {| pk_head := h ++ wire x; pk_data := rest |}) ∧
    value y = value x;
  dec_takes x : keeps consumes (dec x);
}.

Section laws.
Context `{Host, OgsBitsLaws, OgsPkbufLaws}.

(** ** The packet *)
Lemma pull_app h d n : (n <= length d)%nat →
  pull n {| pk_head := h; pk_data := d |} =
    Ok ((), {| pk_head := h ++ take n d; pk_data := drop n d |}).
Proof. intros Hn. unfold pull, mbind, M_bind, get. by rewrite pull_run. Qed.

Lemma passed_app h bs d n : n = length bs →
  passed n {| pk_head := h ++ bs; pk_data := d |} = Ok (bs, {| pk_head := h ++ bs; pk_data := d |}).
Proof.
  intros ->. unfold passed, mbind, M_bind, get, lift. cbn [pk_head]. rewrite length_app.
  rewrite (proj2 (Nat.leb_le _ _)) by lia. by rewrite Nat.add_sub, drop_app_length.
Qed.

Lemma fill_app h old bs d : length old = length bs →
  fill bs {| pk_head := h ++ old; pk_data := d |} = Ok ((), {| pk_head := h ++ bs; pk_data := d |}).
Proof.
  intros E. unfold fill, mbind, M_bind, get. cbn [pk_head pk_data]. rewrite length_app, E.
  rewrite (proj2 (Nat.leb_le _ _)) by lia. rewrite Nat.add_sub, take_app_length. done.
Qed.

(** Taking [n] octets and writing others in their place. *)
Lemma pull_fill {A} (k : M pkbuf A) h d bs n :
  n = length bs → (n <= length d)%nat →
  (pull n;; fill bs;; k) {| pk_head := h; pk_data := d |} =
    k {| pk_head := h ++ bs; pk_data := drop n d |}.
Proof.
  intros -> Hn. m_run (pull_app h d _ Hn).
  by m_run (fill_app h (take (length bs) d) bs (drop (length bs) d) ltac:(rewrite length_take_le; done)).
Qed.

Lemma pull_passed {A} (k : list Z → M pkbuf A) h bs rest n :
  n = length bs →
  (pull n;; b ← passed n; k b) {| pk_head := h; pk_data := bs ++ rest |} =
    k bs {| pk_head := h ++ bs; pk_data := rest |}.
Proof.
  intros ->. m_run (pull_app h (bs ++ rest) (length bs) ltac:(rewrite length_app; lia)).
  rewrite take_app_length, drop_app_length. by m_run (passed_app h bs rest (length bs) eq_refl).
Qed.

(** ** Decoders move the pointer, and nothing else *)
Lemma keeps_pull n : keeps consumes (pull n).
Proof.
  intros s [] s'. unfold pull, mbind, M_bind, get. destruct (ogs_pkbuf_pull s n) as [s1|] eqn:E; [|done].
  intros [= <-]. destruct (pkbuf_pull_spec _ _ _ E) as (Hn & Eh & Ed). split.
  - by rewrite Eh, Ed, <- app_assoc, take_drop.
  - rewrite Ed, length_drop. lia.
Qed.
Lemma keeps_passed n : keeps consumes (passed n).
Proof. unfold passed. keeps_tac. Qed.
#[local] Hint Resolve keeps_pull keeps_passed : keeps.

Lemma decode_v_takes n od x : keeps consumes (decode_v n od x).
Proof. unfold decode_v. keeps_tac. Qed.
Lemma decode_lv_takes k od x : keeps consumes (decode_lv k od x).
Proof. unfold decode_lv. keeps_tac. Qed.
Lemma decode_half_takes x : keeps consumes (decode_half x).
Proof. unfold decode_half. keeps_tac. Qed.
Lemma decode_container_takes x : keeps consumes (decode_container x).
Proof. unfold decode_container. keeps_tac. Qed.
#[local] Hint Resolve decode_v_takes decode_lv_takes : keeps.

(** ** Images *)
Lemma slice_prefix (a b : list Z) n : n = length a → slice 0 n (a ++ b) = Some a.
Proof.
  intros ->. unfold slice. rewrite length_app, (proj2 (Nat.leb_le _ _)) by (simpl; lia). cbn [drop].
  by rewrite drop_0, take_app_length.
Qed.
Lemma slice_take (l : list Z) n : (n <= length l)%nat → slice 0 n l = Some (take n l).
Proof. intros Hn. unfold slice. simpl. by rewrite (proj2 (Nat.leb_le _ _) Hn). Qed.

Lemma length_swap off n img img' : swap off n img = Ok img' → length img' = length img.
Proof.
  unfold swap. destruct (slice off n img) as [bs|] eqn:E; [|done]. intros [= <-].
  unfold slice in E. destruct (Nat.leb_spec (off + n) (length img)); [|done].
  rewrite !length_app, length_take, length_host_bytes, length_drop. lia.
Qed.

(** A field converted and converted back. *)
Lemma swap_app a bs c n : n = length bs →
  swap (length a) n (a ++ bs ++ c) = Ok (a ++ host_bytes n (hton n (host_value bs)) ++ c).
Proof.
  intros ->. unfold swap. rewrite (slice_app a bs c) by done. cbn [access mbind outcome_bind].
  rewrite take_app_length. rewrite (app_assoc a bs c), <- length_app, drop_app_length. done.
Qed.

Lemma split3 off n (img : list Z) : (off + n <= length img)%nat →
  ∃ a bs c, img = a ++ bs ++ c ∧ length a = off ∧ length bs = n.
Proof.
  intros Hn. exists (take off img), (take n (drop off img)), (drop n (drop off img)).
  rewrite !take_drop. split; [done|]. rewrite !length_take, length_drop. lia.
Qed.

Lemma swap_twice off n img : (off + n <= length img)%nat → bytes_ok img →
  ∃ img', swap off n img = Ok img' ∧ swap off n img' = Ok img ∧ bytes_ok img' ∧
    length img' = length img ∧ take off img' = take off img ∧ drop (off + n) img' = drop (off + n) img.
Proof.
  intros Hn Hb.
  destruct (split3 off n img Hn) as (a & bs & c & -> & Ha & Hbs).
  subst off n. apply Forall_app in Hb as [Hb1 Hb]. apply Forall_app in Hb as [Hb2 Hb3].
  eexists. rewrite (swap_app a bs c) by done. split; [done|].
  set (bs' := host_bytes _ _).
  assert (length bs' = length bs) as El by apply length_host_bytes.
  rewrite <- El, (swap_app a bs' c) by done. rewrite El.
  assert (host_bytes (length bs) (hton (length bs) (host_value bs')) = bs) as ->.
  { unfold bs'. rewrite host_value_bytes.
    rewrite Z.mod_small by apply hton_range. rewrite hton_involutive by (by apply host_value_bound).
    by apply host_bytes_value. }
  split; [done|]. split.
  { apply Forall_app. split; [done|]. apply Forall_app. split; [|done].
    unfold bs'. unfold host_bytes. destruct big_endian; auto using be_bytes_ok, le_bytes_ok. }
  rewrite !length_app, El. split; [done|]. rewrite !take_app_length. split; [done|].
  rewrite !(app_assoc a).
  replace (length a + length bs)%nat with (length (a ++ bs')) at 1 by (rewrite length_app; lia).
  by rewrite <- (length_app a bs), !drop_app_length.
Qed.

Lemma copy_in_all bs img : length bs = length img → copy_in bs img = Ok bs.
Proof.
  intros E. unfold copy_in. rewrite E, Nat.leb_refl, drop_all. by rewrite app_nil_r.
Qed.
Lemma copy_in_zero bs n : (length bs <= n)%nat →
  copy_in bs (replicate n 0) = Ok (bs ++ replicate (n - length bs) 0).
Proof.
  intros Hn. unfold copy_in. rewrite length_replicate, (proj2 (Nat.leb_le _ _) Hn).
  by rewrite drop_replicate.
Qed.

(** ** Structures of fixed size *)
Definition octets_of (x : ie_t) : list Z := match x with Image img => img | Pointed _ _ => [] end.
Definition ok_or {A} (d : A) (o : outcome A) : A := match o with Ok a => a | _ => d end.

(** The octets go out in one order and come back in the other. *)
Definition inverse (n : nat) (oe od : list Z → outcome (list Z)) : Prop := ∀ img,
  length img = n → bytes_ok img → ∃ w, oe img = Ok w ∧ length w = n ∧ od w = Ok img.

Lemma inverse_id n : inverse n Ok Ok.
Proof. intros img Hl _. by exists img. Qed.
Lemma inverse_swap off k n : (off + k <= n)%nat → inverse n (swap off k) (swap off k).
Proof.
  intros Hk img Hl Hb. destruct (swap_twice off k img) as (w & E1 & E2 & _ & El & _); [lia|done|].
  exists w. split_and!; [done|lia|done].
Qed.

Program Definition codec_v n oe od (Ho : inverse n oe od) : Codec (encode_v n oe) (decode_v n od) (Struct n) := {|
  valid x := ∃ img, x = Image img ∧ length img = n ∧ bytes_ok img;
  wire x := ok_or [] (oe (octets_of x));
  value := octets_of;
|}.
Next Obligation.
  intros n oe od Ho x h d (img & -> & Hl & Hb) Hd. simpl octets_of in *.
  destruct (Ho img Hl Hb) as (w & Ew & Hw & _). rewrite Ew in *. simpl ok_or in *.
  unfold encode_v, mbind at 1, M_bind at 1, lift. simpl image. cbv beta iota.
  unfold mbind at 1, M_bind at 1, lift. rewrite slice_take by lia. rewrite take_ge by lia.
  cbn [access]. rewrite Ew. unfold mbind at 1, M_bind at 1, lift. rewrite Hw in *.
  rewrite (pull_fill _ h d w n) by lia. done.
Qed.
Next Obligation.
  intros n oe od Ho x h rest (img & -> & Hl & Hb). simpl octets_of in *.
  destruct (Ho img Hl Hb) as (w & Ew & Hw & Ed). rewrite Ew in *. simpl ok_or in *.
  exists (Image img). split; [|done].
  unfold decode_v, mbind at 1, M_bind at 1, lift. simpl image. cbv beta iota.
  rewrite (pull_passed _ h w rest n) by lia.
  unfold mbind at 1, M_bind at 1, lift. rewrite copy_in_all by (rewrite length_replicate; lia).
  unfold mbind at 1, M_bind at 1, lift. rewrite Ed. by rewrite Hw.
Qed.
Next Obligation. intros. apply decode_v_takes. Qed.

(** ** Structures with a length in front *)
Definition len_of (k : nat) (img : list Z) : Z := host_value (take k img).
Definition size_of (k : nat) (img : list Z) : nat := Z.to_nat (len_of k img + Z.of_nat k).

(** [ok] tells which images survive; only the announced octets are sent. *)
Definition inverse_lv (k n : nat) (ok : list Z → Prop) (oe od : list Z → outcome (list Z)) : Prop := ∀ img,
  length img = n → bytes_ok img → (size_of k img <= n)%nat → ok img →
  ∃ w img', oe img = Ok w ∧ length w = n ∧ take k w = take k img ∧
    od (take (size_of k img) w ++ replicate (n - size_of k img) 0) = Ok img' ∧
    take (size_of k img) img' = take (size_of k img) img.

Lemma inverse_lv_id k n : inverse_lv k n (λ _, True) Ok Ok.
Proof.
  intros img Hl Hb Hs _. exists img. eexists. split_and!; [done..|].
  rewrite take_app_le by (rewrite length_take; lia). by rewrite take_take, Nat.min_id.
Qed.

Lemma length_field_take k (l : list Z) : (k <= length l)%nat → length_field k l = Ok (len_of k l).
Proof. intros Hk. unfold length_field. by rewrite slice_take. Qed.

Definition lv_valid (k n : nat) (ok : list Z → Prop) (x : ie_t) : Prop :=
  ∃ img, x = Image img ∧ length img = n ∧ bytes_ok img ∧ (k <= n)%nat ∧
    (size_of k img <= n)%nat ∧ len_of k img + Z.of_nat k < 2 ^ 16 ∧ ok img.
Definition lv_wire (k : nat) (oe : list Z → outcome (list Z)) (x : ie_t) : list Z :=
  take (size_of k (octets_of x)) (ok_or [] (oe (octets_of x))).

Lemma len_of_nonneg k img : bytes_ok img → 0 <= len_of k img.
Proof.
  intros Hb. unfold len_of. pose proof (host_value_bound (take k img)) as Hv.
  apply Hv. by apply Forall_take.
Qed.

Lemma encode_lv_run k n ok oe od x h d : inverse_lv k n ok oe od → lv_valid k n ok x →
  (length (lv_wire k oe x) <= length d)%nat →
  encode_lv k n oe x {| pk_head := h; pk_data := d |} =
    Ok ((Z.of_nat (length (lv_wire k oe x)), x),
        {| pk_head := h ++ lv_wire k oe x; pk_data := drop (length (lv_wire k oe x)) d |}).
Proof.
  intros Ho (img & -> & Hl & Hb & Hk & Hs & Hu & Hok) Hd. unfold lv_wire in *. simpl octets_of in *.
  destruct (Ho img Hl Hb Hs Hok) as (w & img' & Ew & Hw & _). rewrite Ew in *. simpl ok_or in *.
  pose proof (len_of_nonneg k img Hb) as H0len.
  rewrite length_take_le in * by lia.
  unfold encode_lv. unfold mbind at 1, M_bind at 1, lift. simpl image. cbv beta iota.
  unfold mbind at 1, M_bind at 1, lift. rewrite length_field_take by lia. cbv zeta.
  unfold mbind at 1, M_bind at 1, lift. rewrite slice_take, take_ge by lia. cbn [access].
  unfold mbind at 1, M_bind at 1, lift. rewrite Ew.
  rewrite (wrap_small 16) by lia. fold (size_of k img).
  m_run (pull_app h d (size_of k img) Hd).
  unfold mbind at 1, M_bind at 1, lift. rewrite slice_take by lia. cbn [access].
  m_run (fill_app h (take (size_of k img) d) (take (size_of k img) w) (drop (size_of k img) d)
    ltac:(rewrite !length_take_le by lia; done)).
  unfold mret, M_ret. do 3 f_equal. unfold size_of. lia.
Qed.

Lemma decode_lv_raw k n od h w rest img' :
  size_of k w = length w → (k <= length w <= n)%nat → Z.of_nat (length w) < 2 ^ 16 →
  0 <= len_of k w → od (w ++ replicate (n - length w) 0) = Ok img' →
  decode_lv k od (Image (replicate n 0)) {| pk_head := h; pk_data := w ++ rest |} =
    Ok ((Z.of_nat (length w), Image img'), {| pk_head := h ++ w; pk_data := rest |}).
Proof.
  intros Es [Hk Hn] Hu H0len Ed. unfold size_of in Es.
  unfold decode_lv. unfold mbind at 1, M_bind at 1, lift. simpl image. cbv beta iota.
  unfold mbind at 1, M_bind at 1, get. cbn [pk_data].
  unfold mbind at 1, M_bind at 1, lift. rewrite length_field_take by (rewrite length_app; lia).
  assert (len_of k (w ++ rest) = len_of k w) as -> by (unfold len_of; by rewrite take_app_le by lia).
  cbv zeta. rewrite (wrap_small 16) by lia. rewrite Es. rewrite (pull_passed _ h w rest) by done.
  unfold mbind at 1, M_bind at 1, lift. rewrite copy_in_zero by (rewrite length_host_bytes; lia).
  rewrite length_host_bytes. unfold mbind at 1, M_bind at 1, lift. unfold copy_in at 1.
  rewrite length_app, length_host_bytes, length_replicate, (proj2 (Nat.leb_le _ _)) by lia.
  rewrite drop_app_ge, length_host_bytes, drop_replicate by (rewrite length_host_bytes; lia).
  replace (n - k - (length w - k))%nat with (n - length w)%nat by lia.
  unfold mbind at 1, M_bind at 1, lift. rewrite Ed. unfold mret, M_ret. do 3 f_equal. lia.
Qed.

Lemma decode_lv_run k n ok oe od x h rest : inverse_lv k n ok oe od → lv_valid k n ok x → ∃ img',
  decode_lv k od (Image (replicate n 0)) {| pk_head := h; pk_data := lv_wire k oe x ++ rest |} =
    Ok ((Z.of_nat (length (lv_wire k oe x)), Image img'),
        {| pk_head := h ++ lv_wire k oe x; pk_data := rest |}) ∧
  take (size_of k (octets_of x)) img' = take (size_of k (octets_of x)) (octets_of x) ∧
  len_of k img' = len_of k (octets_of x).
Proof.
  intros Ho (img & -> & Hl & Hb & Hk & Hs & Hu & Hok). unfold lv_wire. simpl octets_of.
  destruct (Ho img Hl Hb Hs Hok) as (w & img' & Ew & Hw & Ek & Ed & Ev). rewrite Ew. simpl ok_or.
  pose proof (len_of_nonneg k img Hb) as H0len.
  set (s := size_of k img) in *. assert (k <= s)%nat as Hks by (unfold s, size_of; lia).
  assert (length (take s w) = s) as Hls by (rewrite length_take_le; lia).
  assert (len_of k (take s w) = len_of k img) as El.
  { unfold len_of. rewrite take_take, Nat.min_l by lia. by rewrite Ek. }
  exists img'. split; [|split; [done|]].
  - apply decode_lv_raw; rewrite ?Hls; [unfold size_of; by rewrite El|lia| |by rewrite El|done].
    unfold s, size_of. lia.
  - unfold len_of. f_equal.
    transitivity (take k (take s img')); [by rewrite take_take, Nat.min_l by lia|].
    rewrite Ev. by rewrite take_take, Nat.min_l by lia.
Qed.

Program Definition codec_lv k n ok oe od (Ho : inverse_lv k n ok oe od) :
    Codec (encode_lv k n oe) (decode_lv k od) (Struct n) := {|
  valid := lv_valid k n ok;
  wire := lv_wire k oe;
  value x := take (size_of k (octets_of x)) (octets_of x);
|}.
Next Obligation. intros. by apply encode_lv_run with ok od. Qed.
Next Obligation.
  intros k n ok oe od Ho x h rest Hx.
  destruct (decode_lv_run k n ok oe od x h rest Ho Hx) as (img' & E & Ev & El).
  exists (Image img'). split; [done|]. simpl octets_of. unfold size_of at 1. by rewrite El.
Qed.
Next Obligation. intros. apply decode_lv_takes. Qed.

(** A conversion of the first octets, undone in a copy of them. *)
Definition undone (octets off : nat) (order : list Z → outcome (list Z)) : Prop := ∀ img,
  (octets <= length img)%nat → bytes_ok img →
  ∃ w, order img = Ok w ∧ length w = length img ∧ bytes_ok w ∧ take off w = take off img ∧
    ∀ s pad, (octets <= s)%nat → order (take s w ++ pad) = Ok (take s img ++ pad).

Lemma swap_undone off m : undone (off + m) off (swap off m).
Proof.
  intros img Hn Hb. destruct (swap_twice off m img Hn Hb) as (w & E1 & E2 & Hbw & Hlw & Ht & _).
  exists w. split_and!; [done..|]. intros s pad Hs.
  destruct (split3 off m w ltac:(lia)) as (a & bs & c & -> & <- & <-).
  rewrite swap_app in E2 by done. injection E2 as <-.
  rewrite (app_assoc a bs), take_app_ge by (rewrite length_app; lia).
  rewrite <- !app_assoc, swap_app by done. set (q := host_bytes _ _).
  rewrite !(app_assoc a q), (take_app_ge (a ++ q)) by (unfold q; rewrite length_app, length_host_bytes; lia).
  unfold q. by rewrite !length_app, length_host_bytes, <- !app_assoc.
Qed.

Lemma swaps_commute o1 n1 o2 n2 img x y : (o1 + n1 <= o2)%nat →
  swap o2 n2 img = Ok x → swap o1 n1 x = Ok y → (x ← swap o1 n1 img; swap o2 n2 x) = Ok y.
Proof.
  intros Ho E2 E1. assert (o2 + n2 <= length img)%nat as Hl.
  { revert E2. unfold swap, slice. by destruct (Nat.leb_spec (o2 + n2) (length img)). }
  destruct (split3 o2 n2 img Hl) as (l & d & e & -> & Hol & <-).
  destruct (split3 o1 n1 l ltac:(lia)) as (a & b & c & -> & <- & <-). rewrite <- Hol in *.
  rewrite swap_app in E2 by done. injection E2 as <-. rewrite <- !app_assoc in *.
  rewrite swap_app in E1 by done. injection E1 as <-.
  rewrite swap_app by done. cbn [mbind outcome_bind]. set (q := host_bytes (length b) _).
  replace (length (a ++ b ++ c)) with (length (a ++ q ++ c))
    by (unfold q; rewrite !length_app, length_host_bytes; done).
  rewrite !(app_assoc q), !(app_assoc a). rewrite swap_app by done. by rewrite <- !app_assoc.
Qed.

(** Two fields, one behind the other. *)
Lemma swaps_undone o1 n1 o2 n2 : (o1 + n1 <= o2)%nat →
  undone (o2 + n2) o1 (λ img, img ← swap o1 n1 img; swap o2 n2 img).
Proof.
  intros Ho img Hn Hb.
  destruct (swap_undone o1 n1 img ltac:(lia) Hb) as (w1 & E1 & Hl1 & Hb1 & Ht1 & U1).
  destruct (swap_undone o2 n2 w1 ltac:(lia) Hb1) as (w2 & E2 & Hl2 & Hb2 & Ht2 & U2).
  exists w2. rewrite E1. split_and!; [done|lia|done| |].
  - transitivity (take o1 (take o2 w2)); [by rewrite take_take, Nat.min_l by lia|].
    rewrite Ht2, take_take, Nat.min_l by lia. done.
  - intros s pad Hs. eapply swaps_commute; [done|by apply U2|]. apply U1. lia.
Qed.

(** Fields inside the octets that are sent. *)
Lemma inverse_lv_undone k n octets off order : (octets <= n)%nat → (k <= off)%nat → undone octets off order →
  inverse_lv k n (λ img, (octets <= size_of k img)%nat) order order.
Proof.
  intros Hn Hk U img Hl Hb Hs Ho.
  destruct (U img ltac:(lia) Hb) as (w & E & Hlw & _ & Ht & Hu).
  exists w. eexists. split_and!; [done|lia| |by apply Hu|].
  - transitivity (take k (take off w)); [by rewrite take_take, Nat.min_l by lia|].
    rewrite Ht, take_take, Nat.min_l by lia. done.
  - rewrite take_app_le by (rewrite length_take; lia). by rewrite take_take, Nat.min_id.
Qed.

(** ** Identities *)
Definition spare (img : list Z) : Z := nth 0 (ok_or [] (identity_bits img)) 0.

Lemma identity_bits_some img : (2 <= length img)%nat →
  identity_bits img = Ok (ed_unpack [4; 1; 3]%nat (nth 1 img 0)).
Proof.
  intros Hn. destruct img as [|a [|b img]]; simpl in Hn; [lia..|]. done.
Qed.

(** The conversions leave the first two octets alone. *)
Lemma identity_bits_take img img' : take 2 img = take 2 img' → identity_bits img = identity_bits img'.
Proof. intros E. unfold identity_bits. rewrite <- (lookup_take_lt img 2 1), <- (lookup_take_lt img' 2 1) by lia. by rewrite E. Qed.

Lemma set_spare_same img : (2 <= length img)%nat → bytes_ok img → spare img = 15 → set_spare img = Ok img.
Proof.
  unfold spare, set_spare. intros Hn Hb Hs. rewrite identity_bits_some in * by done. simpl ok_or in Hs.
  cbn [mbind outcome_bind]. f_equal.
  destruct img as [|a [|b img]]; simpl in Hn; [lia..|]. cbn [nth] in *.
  pose proof (length_ed_unpack [4; 1; 3]%nat b) as El.
  inversion Hb as [|? ? _ Hb']. inversion Hb' as [|? ? Hbb _]. subst.
  pose proof (ed_pack_unpack [4; 1; 3]%nat b eq_refl Hbb) as Ep.
  destruct (ed_unpack [4; 1; 3]%nat b) as [|x [|y [|z []]]]; try done.
  simpl in Hs, Ep |- *. subst x. by rewrite Ep.
Qed.

(** What is valid: an identity with at least one octet; behind the length one
    with a temporary identity has all of it, and the spare bits that the
    encoder sets. *)
Definition identity_ok (type : Z) (octets : nat) (img : list Z) : Prop :=
  (2 <= size_of 1 img)%nat ∧
  (identity_type img = Ok type → (octets <= size_of 1 img)%nat ∧ spare img = 15).

Lemma identity_type_padded s img img' n : (2 <= s)%nat → (s <= length img)%nat → take 2 img' = take 2 img →
  identity_type (take s img' ++ replicate n 0) = identity_type img.
Proof.
  intros Hs Hl Et. unfold identity_type. rewrite (identity_bits_take _ img); [done|].
  destruct (decide (s <= length img')%nat).
  - rewrite take_app_le by (rewrite length_take; lia). rewrite take_take, Nat.min_l by lia. done.
  - rewrite (take_ge img') by lia.
    assert (length (take 2 img') = 2%nat) as E2 by (rewrite Et, length_take; lia).
    rewrite length_take in E2. rewrite take_app_le by lia. done.
Qed.

Section identities.
Context (type : Z) (octets n : nat) (order : list Z → outcome (list Z)) 
  (octets_fit : (octets <= n)%nat) (octets_two : (2 <= octets)%nat).
(** [order] converts fields behind the first two octets. *)
Context (order_undone : undone octets 2 order).

Let conv (img : list Z) : outcome (list Z) :=
  t ← identity_type img; if t =? type then order img else Ok img.
Let sp (img : list Z) : outcome (list Z) :=
  t ← identity_type img; if t =? type then set_spare img else Ok img.

Lemma inverse_lv_identity : inverse_lv 1 n (identity_ok type octets) (λ img, img ← conv img; sp img) conv.
Proof.
  intros img Hl Hb Hs [Hs2 Hok]. set (s := size_of 1 img) in *.
  assert (∃ t, identity_type img = Ok t) as [t Et].
  { unfold identity_type. rewrite identity_bits_some by lia. by eexists. }
  unfold conv at 1. rewrite Et. cbn [mbind outcome_bind].
  destruct (Z.eqb_spec t type) as [->|Hne].
  - destruct (Hok Et) as [Hos Hsp].
    destruct (order_undone img ltac:(lia) Hb) as (w & Ew & Hlw & Hbw & Ht & Hback).
    assert (identity_type w = Ok type) as Etw.
    { unfold identity_type in *. by rewrite (identity_bits_take w img). }
    exists w. eexists. rewrite Ew. cbn [mbind outcome_bind]. unfold sp. rewrite Etw.
    cbn [mbind outcome_bind]. rewrite Z.eqb_refl. rewrite set_spare_same; [|lia|done|].
    2:{ unfold spare in *. by rewrite (identity_bits_take w img). }
    split_and!; [done|lia| | |].
    + transitivity (take 1 (take 2 w)); [by rewrite take_take|]. by rewrite Ht, take_take.
    + unfold conv. rewrite (identity_type_padded s img) by (done || lia). rewrite Et.
      cbn [mbind outcome_bind]. rewrite Z.eqb_refl. by apply Hback.
    + rewrite take_app_le by (rewrite length_take; lia). by rewrite take_take, Nat.min_id.
  - exists img. eexists. unfold sp. cbn [mbind outcome_bind]. rewrite Et. cbn [mbind outcome_bind].
    rewrite (proj2 (Z.eqb_neq _ _)) by done. split_and!; [done..| |].
    + unfold conv. rewrite (identity_type_padded s img) by (done || lia). rewrite Et.
      cbn [mbind outcome_bind]. by rewrite (proj2 (Z.eqb_neq _ _)) by done.
    + rewrite take_app_le by (rewrite length_take; lia). by rewrite take_take, Nat.min_id.
Qed.
End identities.

Lemma undone_weaken octets off off' order : (off' <= off)%nat → undone octets off order → undone octets off' order.
Proof.
  intros Ho U img Hn Hb. destruct (U img Hn Hb) as (w & E & Hl & Hbw & Ht & Hu). exists w. split_and!; [done..| |done].
  transitivity (take off' (take off w)); [by rewrite take_take, Nat.min_l by lia|].
  rewrite Ht, take_take, Nat.min_l by lia. done.
Qed.

Lemma inverse_mobile_identity : inverse_lv 1 9 (identity_ok OGS_NAS_MOBILE_IDENTITY_TMSI 6)
  (λ img, img ← mobile_identity_order img; mobile_identity_spare img) mobile_identity_order.
Proof. apply inverse_lv_identity; [lia..|apply (swap_undone 2 4)]. Qed.
Lemma inverse_eps_mobile_identity : inverse_lv 1 12 (identity_ok OGS_NAS_EPS_MOBILE_IDENTITY_GUTI 12)
  (λ img, img ← eps_mobile_identity_order img; eps_mobile_identity_spare img) eps_mobile_identity_order.
Proof.
  apply (inverse_lv_identity _ _ _ (λ img, img ← swap 5 2 img; swap 8 4 img)); [lia..|].
  apply undone_weaken with 5%nat; [lia|]. apply (swaps_undone 5 2 8 4). lia.
Qed.

(** ** The other patterns *)
Lemma pull_fill_run h d bs : (length bs <= length d)%nat →
  (pull (length bs);; fill bs) {| pk_head := h; pk_data := d |} =
    Ok ((), {| pk_head := h ++ bs; pk_data := drop (length bs) d |}).
Proof.
  intros Hn. m_run (pull_app h d _ Hn). apply fill_app. by rewrite length_take_le.
Qed.

Definition container_octets (x : ie_t) : list Z :=
  match x with Pointed len (Some buffer) => take (Z.to_nat len) buffer | _ => [] end.

Program Definition codec_container : Codec encode_container decode_container Pointer := {|
  valid x := ∃ len buffer, x = Pointed len (Some buffer) ∧ 0 <= len < 2 ^ 16 - 2 ∧
    len <= Z.of_nat (length buffer);
  wire x := be_bytes 2 (Z.of_nat (length (container_octets x))) ++ container_octets x;
  value := container_octets;
|}.
Next Obligation.
  intros x h d (len & buffer & -> & Hlen & Hbuf) Hd. simpl container_octets in *.
  rewrite length_app, length_be_bytes, length_take_le in * by lia.
  rewrite Z2Nat.id in * by lia. simpl encode_container.
  m_run (pull_app h d 2 ltac:(lia)).
  m_run (fill_app h (take 2 d) (host_bytes 2 (htons len)) (drop 2 d)
    ltac:(rewrite length_host_bytes, length_take_le; lia)).
  unfold htons. rewrite host_bytes_hton.
  m_run (pull_app (h ++ be_bytes 2 len) (drop 2 d) (Z.to_nat len) ltac:(rewrite length_drop; lia)).
  unfold mbind at 1, M_bind at 1, lift. rewrite slice_take by lia. cbn [access].
  m_run (fill_app (h ++ be_bytes 2 len) (take (Z.to_nat len) (drop 2 d)) (take (Z.to_nat len) buffer)
    (drop (Z.to_nat len) (drop 2 d)) ltac:(rewrite !length_take_le; rewrite ?length_drop; lia)).
  unfold mret, M_ret. rewrite drop_drop, <- app_assoc. do 3 f_equal. lia.
Qed.
Next Obligation.
  intros x h rest (len & buffer & -> & Hlen & Hbuf). simpl container_octets in *.
  rewrite length_app, length_be_bytes, length_take_le by lia. rewrite Z2Nat.id by lia.
  set (bs := take _ _). assert (length bs = Z.to_nat len) as Hbs by (unfold bs; rewrite length_take_le; lia).
  exists (Pointed len (Some (bs ++ rest))). split.
  - unfold decode_container. unfold mbind at 1, M_bind at 1, get. cbn [pk_data zero_ie].
    unfold mbind at 1, M_bind at 1, lift. rewrite <- app_assoc.
    rewrite slice_prefix by (by rewrite length_be_bytes). cbn [access mbind outcome_bind].
    change (host_value (be_bytes 2 len)) with (hton 2 len). unfold ntohs. rewrite hton_hton.
    rewrite (Z.mod_small len) by (change (256 ^ Z.of_nat 2) with (2 ^ 16); lia). cbv zeta.
    rewrite (wrap_small 16) by lia.
    rewrite app_assoc. assert (length (be_bytes 2 len ++ bs) = Z.to_nat (len + 2)) as Hw
      by (rewrite length_app, length_be_bytes; lia).
    m_run (pull_app h ((be_bytes 2 len ++ bs) ++ rest) (Z.to_nat (len + 2)) ltac:(rewrite length_app; lia)).
    rewrite <- Hw, take_app_length, drop_app_length. unfold mbind at 1, M_bind at 1, get. cbn [pk_head pk_data].
    unfold mret, M_ret. rewrite Hw.
    replace (Z.of_nat (2 + Z.to_nat len)) with (len + 2) by lia. do 5 f_equal.
    replace ((h ++ be_bytes 2 len ++ bs) ++ rest) with ((h ++ be_bytes 2 len) ++ bs ++ rest)
      by (by rewrite <- !app_assoc).
    apply drop_app_length'. rewrite !length_app, length_be_bytes. lia.
  - simpl. rewrite <- Hbs. apply take_app_length.
Qed.
Next Obligation. intros. apply decode_container_takes. Qed.

Lemma swap_big_endian off n img : big_endian = true → (off + n <= length img)%nat → bytes_ok img →
  swap off n img = Ok img.
Proof.
  intros Hbe Hn Hb. destruct (split3 off n img Hn) as (a & bs & c & -> & <- & <-).
  apply Forall_app in Hb as [_ Hb]. apply Forall_app in Hb as [Hb _].
  rewrite swap_app by done. do 3 f_equal. rewrite hton_host_value by done.
  unfold host_bytes. rewrite Hbe. by apply be_bytes_be_value.
Qed.

(** The octets of the signature are sent as they are, on any host: a host of
    the other order reads back something else. *)
Program Definition codec_p_tmsi_signature :
    Codec ogs_nas_encode_p_tmsi_signature ogs_nas_decode_p_tmsi_signature (Struct 4) := {|
  valid x := ∃ a b c d, x = Image [a; b; c; d] ∧ bytes_ok [a; b; c; d] ∧ big_endian = true;
  wire x := take 3 (octets_of x);
  value x := take 3 (octets_of x);
|}.
Next Obligation.
  intros x h e (a & b & c & d & -> & Hb & Hbe) Hd. simpl octets_of in *.
  unfold ogs_nas_encode_p_tmsi_signature. unfold mbind at 1, M_bind at 1, lift. simpl image. cbv beta iota.
  unfold mbind at 1, M_bind at 1, lift. rewrite slice_take by (simpl; lia). cbn [access].
  unfold mbind at 1, M_bind at 1, lift. rewrite swap_big_endian by (done || simpl; lia).
  by rewrite (pull_fill _ h e (take 3 [a; b; c; d]) 3) by done.
Qed.
Next Obligation.
  intros x h rest (a & b & c & d & -> & Hb & Hbe). simpl octets_of.
  exists (Image [a; b; c; 0]). split; [|done].
  unfold ogs_nas_decode_p_tmsi_signature, decode_v. unfold mbind at 1, M_bind at 1, lift.
  simpl image. cbv beta iota. rewrite (pull_passed _ h (take 3 [a; b; c; d]) rest 3) by done.
  unfold mbind at 1, M_bind at 1, lift. change (copy_in _ _) with (Ok [a; b; c; 0]).
  unfold mbind at 1, M_bind at 1, lift. rewrite swap_big_endian; [done..|simpl; lia|].
  inversion Hb as [|? ? Ha Hb1]; inversion Hb1 as [|? ? Hb' Hb2]; inversion Hb2 as [|? ? Hc _]; subst.
  repeat constructor; unfold byte_ok in *; lia.
Qed.
Next Obligation. intros. apply decode_v_takes. Qed.

(** Names are text in the structure and labels in the packet. *)
Section names.
Context `{OgsLengths, OgsFqdn, !OgsFqdnLaws}.

Definition apn_of (x : ie_t) : list Z :=
  match octets_of x with len :: rest => take (Z.to_nat len) rest | [] => [] end.
(** The text of a name has no octet zero, at which the decoder would cut it. *)
Definition apn_valid (x : ie_t) : Prop := ∃ len rest, x = Image (len :: rest) ∧
  length rest = OGS_MAX_APN_LEN ∧ bytes_ok (len :: rest) ∧ len < 100 ∧ (Z.to_nat len < OGS_MAX_APN_LEN)%nat ∧
  Forall (λ b, b ≠ 0) (apn_of x).

Definition apn_wire (x : ie_t) : list Z :=
  Z.of_nat (length (ogs_fqdn_build (apn_of x))) :: ogs_fqdn_build (apn_of x).

Lemma host_value_one b : byte_ok b → host_value [b] = b.
Proof. intros Hb. unfold host_value, be_value. unfold byte_ok in Hb. destruct big_endian; simpl; lia. Qed.
Lemma host_bytes_one b : byte_ok b → host_bytes 1 b = [b].
Proof.
  intros Hb. unfold host_bytes, be_bytes. simpl. unfold byte_ok in Hb.
  rewrite Z.mod_small by lia. by destruct big_endian.
Qed.
Lemma length_field_one b l : byte_ok b → length_field 1 (b :: l) = Ok b.
Proof. intros Hb. unfold length_field. simpl. by rewrite take_0, host_value_one. Qed.

Lemma apn_facts x : apn_valid x → ∃ len rest, x = Image (len :: rest) ∧ length rest = OGS_MAX_APN_LEN ∧
  0 <= len < 100 ∧ (Z.to_nat len < OGS_MAX_APN_LEN)%nat ∧ bytes_ok (apn_of x) ∧
  length (apn_of x) = Z.to_nat len ∧ length (ogs_fqdn_build (apn_of x)) = S (Z.to_nat len) ∧
  slice 1 (Z.to_nat len) (len :: rest) = Some (apn_of x) ∧ Forall (λ b, b ≠ 0) (apn_of x).
Proof.
  intros (len & rest & -> & Hl & Hb & Hlen & Hmax & Hnz). inversion Hb as [|? ? Hb1 Hb2]; subst.
  unfold byte_ok in Hb1. exists len, rest.
  change (apn_of _) with (take (Z.to_nat len) rest). rewrite fqdn_length, length_take_le by lia.
  unfold slice. simpl length. rewrite (proj2 (Nat.leb_le _ _)) by lia.
  simpl drop. rewrite drop_0. split_and!; try lia; try done. by apply Forall_take.
Qed.

Program Definition codec_access_point_name : Codec ogs_nas_encode_access_point_name
    ogs_nas_decode_access_point_name (Struct (1 + OGS_MAX_APN_LEN)) := {|
  valid := apn_valid;
  wire := apn_wire;
  value := apn_of;
|}.
Next Obligation.
  intros x h d Hx Hd. destruct (apn_facts x Hx) as (len & rest & -> & Hl & Hlen & Hmax & Hb & Ha & Hf & Hs & Hnz).
  unfold apn_wire in *. set (labels := ogs_fqdn_build _) in *. simpl length in Hd.
  unfold ogs_nas_encode_access_point_name. unfold mbind at 1, M_bind at 1, lift. simpl image. cbv beta iota.
  unfold mbind at 1, M_bind at 1, lift. rewrite length_field_one by (unfold byte_ok; lia).
  unfold mbind at 1, M_bind at 1, lift. rewrite Hs. cbn [access]. fold labels. cbv zeta.
  rewrite Hf in *. rewrite (wrap_small 8) by lia.
  unfold mbind at 1, M_bind at 1, lift. unfold copy_in. simpl length.
  rewrite Hf, (proj2 (Nat.leb_le _ _)) by lia. rewrite (wrap_small 16) by lia.
  set (w := _ :: labels) in *. assert (length w = Z.to_nat (Z.of_nat (S (Z.to_nat len)) + 1)) as Hw
    by (unfold w; simpl; lia). rewrite <- Hw.
  m_run (pull_app h d (length w) ltac:(unfold w; simpl; lia)).
  unfold mbind at 1, M_bind at 1, lift. rewrite slice_prefix by done. cbn [access].
  m_run (fill_app h (take (length w) d) w (drop (length w) d)
    ltac:(rewrite length_take_le; [done|unfold w; simpl; lia])).
  unfold mret, M_ret. do 3 f_equal; [lia|]. f_equal. unfold w. simpl. lia.
Qed.
Next Obligation.
  intros x h rest' Hx. destruct (apn_facts x Hx) as (len & rest & -> & Hl & Hlen & Hmax & Hb & Ha & Hf & Hs & Hnz).
  set (apn := apn_of _) in *. unfold apn_wire. fold apn. set (labels := ogs_fqdn_build apn) in *.
  rewrite Hf in *. set (w := _ :: labels).
  assert (length w = S (S (Z.to_nat len))) as Hw by (unfold w; simpl; lia).
  assert (bytes_ok labels) as Hbl by by apply fqdn_bytes.
  assert (len_of 1 w = Z.of_nat (S (Z.to_nat len))) as El.
  { unfold len_of, w. simpl take. rewrite take_0. apply host_value_one. unfold byte_ok. lia. }
  set (pad := (1 + OGS_MAX_APN_LEN - length w)%nat).
  exists (Image (len :: apn ++ 0 :: drop (Z.to_nat len + 2) (w ++ replicate pad 0))). split.
  - unfold ogs_nas_decode_access_point_name, zero_ie.
    m_run (decode_lv_raw 1 (1 + OGS_MAX_APN_LEN) Ok h w rest' (w ++ replicate pad 0)
      ltac:(unfold size_of; lia) ltac:(lia) ltac:(lia) ltac:(lia) eq_refl).
    cbn [snd fst]. unfold mbind at 1, M_bind at 1, lift. cbn [image]. cbv beta iota.
    assert (length_field 1 (w ++ replicate pad 0) = Ok (Z.of_nat (S (Z.to_nat len)))) as El'
      by (apply length_field_one; unfold byte_ok; lia).
    unfold mbind at 1, M_bind at 1, lift. rewrite El'.
    assert (slice 1 (S (Z.to_nat len)) (w ++ replicate pad 0) = Some labels) as Es
      by (by apply (slice_app [_] labels)).
    unfold mbind at 1, M_bind at 1, lift. rewrite Nat2Z.id, Es. cbn [access].
    unfold mbind at 1, M_bind at 1, lift. unfold labels at 1. rewrite (fqdn_parse_build apn) by (done || lia). cbv zeta.
    unfold mbind at 1, M_bind at 1. rewrite Ha, (proj2 (Nat.ltb_lt _ _) Hmax). cbv beta iota.
    rewrite Ha, Z2Nat.id, (wrap_small 8) by lia.
    rewrite Nat.min_l, (take_ge apn), NasConv.c_string_id by (done || lia). unfold mbind at 1, M_bind at 1, lift. unfold copy_in.
    rewrite (proj2 (Nat.leb_le _ _)).
    2:{ simpl length. rewrite !length_app, length_replicate. simpl. unfold pad. lia. }
    unfold mret, M_ret. simpl length. rewrite length_app, Ha. simpl length. rewrite Nat.add_1_r.
    simpl app. rewrite <- app_assoc. by replace (Z.to_nat len + 2)%nat with (S (S (Z.to_nat len))) by lia.
  - unfold apn_of. simpl octets_of. cbv beta iota. by rewrite take_app_length'.
Qed.
Next Obligation. intros x. unfold ogs_nas_decode_access_point_name. keeps_tac. Qed.
End names.

End laws.
