(* ===== verification/NasCodecSpec.v ===== *)
(** * NAS messages: what is encoded is decoded

    The tables of [encoder.c] and [decoder.c] belong together: [Mandatory],
    [Options] and [MessageCodec] pair them by the codecs of their elements, and
    a message that is encoded is decoded with the same elements. *)
From stdpp Require Import strings.
From S2P Require Import Prelude.
From S2P Require Import CMem.
From S2P Require Import OgsLib.
From S2P Require Import NasIes.
From S2P Require Import NasMsg.
From S2P Require Import NasCodecLaws.
#[local] Open Scope Z_scope.

#[warnings="-notation-for-abbreviation"] Notation codec := (ie_t → M pkbuf (Z * ie_t)).
#[warnings="-notation-for-abbreviation"] Notation case := (Z * string * codec * Z)%type.
#[warnings="-notation-for-abbreviation"] Notation option_ := (Z * tag * string * codec)%type.

Definition tag_type (t : tag) : Z := match t with Tag type | Nibble type => type end.
Definition tag_okb (t : tag) : bool :=
  match t with
  | Tag type => (0 <=? type) && (type <? 0x80)
  | Nibble type => existsb (Z.eqb type) [0x80; 0x90; 0xa0; 0xb0; 0xc0; 0xd0; 0xe0; 0xf0]
  end.

Definition put_field (name : string) (x : ie_t) (m : message) : message :=
  {| fields := <[name := x]> (fields m); presencemask := presencemask m |}.

Section spec.
Context `{Host, OgsBitsLaws, OgsPkbufLaws, OgsLengths, OgsFqdn}.

(** ** Elements of half an octet *)
Class Half (enc dec : codec) : Prop := { half_enc : enc = encode_half 1; half_dec : dec = decode_half }.

(** ** Optional elements: the first octet tells the type *)
Class Opt (t : tag) (enc dec : codec) (type : ie_type) := {
  opt_valid : ie_t → Prop;
  opt_octet : ie_t → Z;
  opt_body : ie_t → list Z;
  opt_value : ie_t → list Z;
  opt_left : ie_t → ie_t;
  opt_type x : tag_okb t = true → opt_valid x → element_type (opt_octet x) = tag_type t;
  opt_encode bit name m x h d : opt_valid x → fields m !! name = Some x →
    Z.land (presencemask m) bit ≠ 0 → (S (length (opt_body x)) <= length d)%nat →
    encode_option (bit, t, name, enc) m {| pk_head := h; pk_data := d |} =
      Ok ((Z.of_nat (S (length (opt_body x))), put_field name (opt_left x) m),
          {| pk_head := h ++ opt_octet x :: opt_body x; pk_data := drop (S (length (opt_body x))) d |});
  opt_decode x h rest : tag_okb t = true → opt_valid x → ∃ y,
    dec (zero_ie type) {| pk_head := h ++ [opt_octet x]; pk_data := opt_body x ++ rest |} =
      Ok ((Z.of_nat (length (opt_body x)), y),
          {| pk_head := h ++ opt_octet x :: opt_body x; pk_data := rest |}) ∧
    opt_value y = opt_value x;
  opt_takes x : keeps consumes (dec x);
}.

Lemma on_field_run name f m x size y b b' : fields m !! name = Some x → f x b = Ok ((size, y), b') → 0 <= size →
  on_field name f m b = Ok ((size, put_field name y m), b').
Proof.
  intros E Ef Hs. unfold on_field.
  m_run (lift_run (access (fields m !! name)) x b ltac:(by rewrite E)).
  m_run Ef. by m_run (massert_run (0 <=? size) b' (proj2 (Z.leb_le _ _) Hs)).
Qed.

Lemma encode_type_run type h d : (1 <= length d)%nat →
  ogs_nas_encode_optional_type type {| pk_head := h; pk_data := d |} =
    Ok (1, {| pk_head := h ++ [type]; pk_data := drop 1 d |}).
Proof.
  intros Hd. unfold ogs_nas_encode_optional_type.
  by rewrite (pull_fill (mret 1) h d [type] 1) by done.
Qed.

#[export] Program Instance opt_tag type enc dec ty `{C : !Codec enc dec ty} : Opt (Tag type) enc dec ty := {|
  opt_valid := valid;
  opt_octet _ := type;
  opt_body := wire;
  opt_value := value;
  opt_left x := x;
|}.
Next Obligation.
  intros type enc dec ty C x [_ Ht%Z.ltb_lt]%andb_true_iff _. unfold element_type.
  by rewrite (proj2 (Z.leb_gt _ _)).
Qed.
Next Obligation.
  intros type enc dec ty C bit name m x h d Hx E Hm Hd. simpl encode_option.
  rewrite (proj2 (Z.eqb_neq _ _) Hm). m_run (encode_type_run type h d ltac:(lia)).
  m_run (massert_run (0 <=? 1) {| pk_head := h ++ [type]; pk_data := drop 1 d |} eq_refl).
  m_run (on_field_run _ _ _ _ _ _ _ _ E (enc_run x (h ++ [type]) (drop 1 d) Hx ltac:(rewrite length_drop; lia)) ltac:(lia)).
  unfold mret, M_ret. rewrite drop_drop, <- app_assoc. do 3 f_equal. lia.
Qed.
Next Obligation.
  intros type enc dec ty C x h rest _ Hx. destruct (dec_run x (h ++ [type]) rest Hx) as (y & E & Ev).
  exists y. rewrite E. by rewrite <- app_assoc.
Qed.
Next Obligation. intros type enc dec ty C. apply dec_takes. Qed.

Definition low_half (x : ie_t) : Z := nth 1 (ed_unpack [4; 4]%nat (nth 0 (octets_of x) 0)) 0.
Definition half_octet (type : Z) (x : ie_t) : Z :=
  ed_pack [(4%nat, Z.shiftr type 4); (4%nat, low_half x)].
Definition half_valid (x : ie_t) : Prop := ∃ b, x = Image [b] ∧ byte_ok b.

Lemma low_half_range x : half_valid x → 0 <= low_half x < 16.
Proof.
  intros (b & -> & Hb). unfold low_half. simpl octets_of. cbn [nth].
  pose proof (ed_unpack_ok [4; 4]%nat b eq_refl Hb) as [_ Ho].
  pose proof (length_ed_unpack [4; 4]%nat b) as El.
  destruct (ed_unpack [4; 4]%nat b) as [|x [|y []]]; try done.
  apply Forall_inv_tail, Forall_inv in Ho. simpl in *. lia.
Qed.
Lemma nibble_range type : tag_okb (Nibble type) = true → 8 <= Z.shiftr type 4 < 16 ∧ type = 16 * Z.shiftr type 4.
Proof.
  simpl. rewrite !orb_true_iff, !Z.eqb_eq. intros E.
  destruct_or! E; subst; try done; vm_compute; repeat split; done.
Qed.
Lemma half_octet_value type x : tag_okb (Nibble type) = true → half_valid x →
  half_octet type x = type + low_half x.
Proof.
  intros Ht Hx. destruct (nibble_range type Ht) as [Hr E]. pose proof (low_half_range x Hx).
  unfold half_octet. rewrite ed_pack_halves by lia. lia.
Qed.
Lemma low_half_octet type x : tag_okb (Nibble type) = true → half_valid x →
  low_half (Image [half_octet type x]) = low_half x.
Proof.
  intros Ht Hx. destruct (nibble_range type Ht) as [Hr E]. pose proof (low_half_range x Hx) as Hl.
  unfold low_half at 1, half_octet. simpl octets_of. cbn [nth].
  set (fs := [(4%nat, Z.shiftr type 4); (4%nat, low_half x)]).
  assert (ed_ok fs) as Hok.
  { split; [done|]. repeat constructor; simpl; lia. }
  by rewrite (ed_unpack_pack fs Hok : ed_unpack [4; 4]%nat (ed_pack fs) = _).
Qed.
Lemma land_upper_half q r : 0 <= q < 16 → 0 <= r < 16 → Z.land (16 * q + r) 0xf0 = 16 * q.
Proof.
  intros Hq Hr. change 0xf0 with (Z.shiftl (Z.ones 4) 4).
  replace (16 * q) with (q * 2 ^ 4) by lia. rewrite <- lor_disjoint by lia.
  rewrite <- !Z.shiftl_mul_pow2 by lia. rewrite Z.land_lor_distr_l, <- Z.shiftl_land.
  rewrite Z.land_ones, Z.mod_small by lia.
  replace (Z.land r _) with 0; [apply Z.lor_0_r|]. symmetry. apply Z.bits_inj'. intros i Hi.
  rewrite Z.land_spec, Z.bits_0, Z.shiftl_spec by done. destruct (Z.ltb_spec i 4).
  - rewrite (Z.testbit_neg_r _ (i - 4)) by lia. apply andb_false_r.
  - rewrite <- (Z.mod_small r (2 ^ 4)), Z.mod_pow2_bits_high by lia. done.
Qed.

#[export] Program Instance opt_nibble type enc dec `{F : !Half enc dec} : Opt (Nibble type) enc dec (Struct 1) := {|
  opt_valid := half_valid;
  opt_octet := half_octet type;
  opt_body _ := [];
  opt_value x := [low_half x];
  opt_left x := Image [half_octet type x];
|}.
Next Obligation.
  intros type enc dec F x Ht Hx. destruct (nibble_range type Ht) as [Hr E].
  pose proof (low_half_range x Hx). rewrite half_octet_value by done. unfold element_type.
  rewrite (proj2 (Z.leb_le _ _)) by lia. rewrite E at 1. simpl tag_type. rewrite E at 2.
  apply land_upper_half; lia.
Qed.
Next Obligation.
  intros type enc dec F bit name m x h d (b & -> & Hb) E Hm Hd. simpl encode_option.
  rewrite half_enc, (proj2 (Z.eqb_neq _ _) Hm).
  m_run (lift_run (access (fields m !! name)) (Image [b]) {| pk_head := h; pk_data := d |} ltac:(by rewrite E)).
  m_run (lift_run (set_type type (Image [b])) _ {| pk_head := h; pk_data := d |} eq_refl).
  erewrite (on_field_run name _ _ _ 1 (Image [half_octet type (Image [b])]) _
    {| pk_head := h ++ [half_octet type (Image [b])]; pk_data := drop 1 d |}).
  - unfold put_field. cbn [fields presencemask]. by rewrite insert_insert_eq.
  - cbn [fields]. apply lookup_insert_eq.
  - unfold encode_half. change (lift (image _)) with (mret (M := M pkbuf) [half_octet type (Image [b])]).
    m_ret. m_run (pull_app h d 1 Hd). change (lift _) with (mret (M := M pkbuf) [half_octet type (Image [b])]).
    m_ret. by m_run (fill_app h (take 1 d) [half_octet type (Image [b])] (drop 1 d)
      ltac:(by rewrite length_take_le)).
  - lia.
Qed.
Next Obligation.
  intros type enc dec F x h rest Ht Hx. exists (Image [half_octet type x]). split.
  - rewrite half_dec. unfold decode_half. simpl zero_ie.
    change (lift (image _)) with (mret (M := M pkbuf) [0]). m_ret.
    by m_run (passed_app h [half_octet type x] rest 1 eq_refl).
  - f_equal. by apply low_half_octet.
Qed.
Next Obligation. intros type enc dec F x. rewrite half_dec. apply decode_half_takes. Qed.

(** ** Tables *)
Record item := Item {
  i_name : string; i_enc : codec; i_dec : codec; i_type : ie_type;
  i_codec : Codec i_enc i_dec i_type;
}.
Record oitem := OItem {
  o_bit : Z; o_tag : tag; o_name : string; o_enc : codec; o_dec : codec; o_type : ie_type;
  o_opt : Opt o_tag o_enc o_dec o_type;
}.
Definition mandatory_of (f : item → codec) (its : list item) : list (string * codec) :=
  (λ i, (i_name i, f i)) <$> its.
Definition options_of (os : list oitem) : list option_ :=
  (λ o, (present (o_bit o), o_tag o, o_name o, o_enc o)) <$> os.
Definition cases_of (os : list oitem) : list case :=
  (λ o, (tag_type (o_tag o), o_name o, o_dec o, present (o_bit o))) <$> os.

(** *** What is sent for a message and when it can be *)
Definition item_valid (m : message) (i : item) : Prop :=
  ∃ x, fields m !! i_name i = Some x ∧ valid (Codec := i_codec i) x.
Definition item_wire (m : message) (i : item) : list Z :=
  match fields m !! i_name i with Some x => wire (Codec := i_codec i) x | None => [] end.
Definition has (m : message) (o : oitem) : bool := Z.testbit (presencemask m) (o_bit o).
Definition opt_ok (m : message) (o : oitem) : Prop :=
  has m o = true → ∃ x, fields m !! o_name o = Some x ∧ opt_valid (Opt := o_opt o) x.
Definition opt_wire (m : message) (o : oitem) : list Z :=
  if has m o then match fields m !! o_name o with Some x => opt_octet (Opt := o_opt o) x :: opt_body (Opt := o_opt o) x | None => [] end
  else [].
Definition items_wire (its : list item) (m : message) : list Z := concat (item_wire m <$> its).
Definition opts_wire (os : list oitem) (m : message) : list Z := concat (opt_wire m <$> os).

(** *** What a message that was decoded has of the one that was encoded *)
Definition item_agree (m m' : message) (i : item) : Prop :=
  ∃ x y, fields m !! i_name i = Some x ∧ fields m' !! i_name i = Some y ∧
    value (Codec := i_codec i) y = value (Codec := i_codec i) x.
Definition opt_agree (m m' : message) (o : oitem) : Prop :=
  has m' o = has m o ∧
  if has m o then ∃ x y, fields m !! o_name o = Some x ∧ fields m' !! o_name o = Some y ∧
    opt_value (Opt := o_opt o) y = opt_value (Opt := o_opt o) x
  else fields m' !! o_name o = Some (zero_ie (o_type o)).

Lemma land_present mask n : 0 <= n → (Z.land mask (present n) =? 0) = negb (Z.testbit mask n).
Proof.
  intros Hn. unfold present. destruct (Z.eqb_spec (Z.land mask (Z.shiftl 1 n)) 0) as [E|E].
  - apply (f_equal (λ z, Z.testbit z n)) in E. rewrite Z.land_spec, Z.bits_0, Z.shiftl_spec, Z.sub_diag in E by done.
    simpl in E. rewrite andb_true_r in E. by rewrite E.
  - destruct (Z.testbit mask n) eqn:Em; [done|]. exfalso. apply E. apply Z.bits_inj'. intros i Hi.
    rewrite Z.land_spec, Z.bits_0, Z.shiftl_spec by done. destruct (Z.eq_dec i n) as [->|Hne].
    + by rewrite Em.
    + destruct (Z.ltb_spec i n).
      * rewrite (Z.testbit_neg_r 1) by lia. apply andb_false_r.
      * rewrite (Z.bits_above_log2 1) by (simpl; lia). apply andb_false_r.
Qed.
Lemma testbit_present mask n i : 0 <= n → 0 <= i →
  Z.testbit (Z.lor mask (present n)) i = Z.testbit mask i || (i =? n).
Proof.
  intros Hn Hi. unfold present. rewrite Z.lor_spec, Z.shiftl_spec by done. f_equal.
  destruct (Z.eqb_spec i n) as [->|Hne]; [by rewrite Z.sub_diag|].
  destruct (Z.ltb_spec i n); [by rewrite Z.testbit_neg_r by lia|].
  by rewrite Z.bits_above_log2 by (simpl; lia).
Qed.

Lemma put_field_same name x m : fields m !! name = Some x → put_field name x m = m.
Proof. intros E. unfold put_field. rewrite insert_id by done. by destruct m. Qed.

(** ** Encoding *)
Lemma encode_mandatory its m : Forall (item_valid m) its → ∀ h d,
  (length (items_wire its m) <= length d)%nat →
  mandatory (mandatory_of i_enc its) m {| pk_head := h; pk_data := d |} =
    Ok ((Z.of_nat (length (items_wire its m)), m),
        {| pk_head := h ++ items_wire its m; pk_data := drop (length (items_wire its m)) d |}).
Proof.
  unfold items_wire. induction 1 as [|i its (x & E & Hx) _ IH]; intros h d Hd.
  { simpl. by rewrite drop_0, app_nil_r. }
  cbn [fmap list_fmap concat] in *. unfold item_wire at 1 in Hd. rewrite E in Hd. rewrite length_app in Hd.
  unfold item_wire at 1 3 5. rewrite E. simpl mandatory.
  m_run (on_field_run _ _ _ _ _ _ _ _ E (enc_run (Codec := i_codec i) x h d Hx ltac:(lia)) ltac:(lia)).
  rewrite put_field_same by done.
  m_run (IH (h ++ wire (Codec := i_codec i) x) (drop (length (wire (Codec := i_codec i) x)) d) ltac:(rewrite length_drop; lia)).
  unfold mret, M_ret. rewrite drop_drop, <- app_assoc, length_app. do 3 f_equal. lia.
Qed.

(** The encoder leaves the types in the elements of half an octet. *)
Lemma encode_options_run os m : Forall (opt_ok m) os → Forall (λ o, 0 <= o_bit o) os → NoDup (o_name <$> os) →
  ∀ m' h d, presencemask m' = presencemask m → Forall (λ o, fields m' !! o_name o = fields m !! o_name o) os →
  (length (opts_wire os m) <= length d)%nat → ∃ m'',
  encode_options (options_of os) m' {| pk_head := h; pk_data := d |} =
    Ok ((Z.of_nat (length (opts_wire os m)), m''),
        {| pk_head := h ++ opts_wire os m; pk_data := drop (length (opts_wire os m)) d |}).
Proof.
  unfold opts_wire. induction 1 as [|o os Ho _ IH]; intros Hbit Hnd m' h d Em Ef Hd.
  { exists m'. simpl. by rewrite drop_0, app_nil_r. }
  apply Forall_cons_1 in Hbit as [Hb Hbit]. apply Forall_cons_1 in Ef as [Ef0 Ef]. rewrite fmap_cons in Hnd.
  apply list.NoDup_cons in Hnd as [Hni Hnd].
  rewrite fmap_cons in *. cbn [concat] in *. simpl encode_options.
  pose proof (land_present (presencemask m') (o_bit o) Hb) as El. rewrite Em in El. fold (has m o) in El.
  unfold opt_wire at 1 in Hd. unfold opt_wire at 1 3 5.
  destruct (has m o) eqn:Eh.
  - destruct (Ho Eh) as (x & E & Hx). rewrite E in *. rewrite length_app in Hd. simpl length at 1 in Hd.
    m_run (opt_encode (Opt := o_opt o) (present (o_bit o)) (o_name o) m' x h d Hx Ef0
      ltac:(by rewrite Em; apply Z.eqb_neq) ltac:(lia)).
    edestruct (IH Hbit Hnd (put_field (o_name o) (opt_left (Opt := o_opt o) x) m')) as (m'' & E'); [done| | |].
    { apply list.Forall_forall. intros o' Ho'. simpl. rewrite lookup_insert_ne.
      - by eapply (proj1 (list.Forall_forall _ _)) in Ef.
      - intros Eq. apply Hni. rewrite Eq. by apply list_elem_of_fmap_2. }
    2:{ exists m''. m_run E'. unfold mret, M_ret. rewrite drop_drop, <- app_assoc, length_app.
        cbn [length]. do 4 f_equal. lia. }
    rewrite length_drop. lia.
  - simpl in Hd. edestruct (IH Hbit Hnd m' h d) as (m'' & E'); [done..|].
    exists m''. rewrite Em, El. simpl negb. cbv iota. m_ret. by m_run E'.
Qed.
(** ** Decoding *)
Definition zeroed_item (m : message) (i : item) : Prop := fields m !! i_name i = Some (zero_ie (i_type i)).
Definition zeroed_opt (m : message) (o : oitem) : Prop :=
  fields m !! o_name o = Some (zero_ie (o_type o)) ∧ has m o = false.

Lemma decode_mandatory its m : Forall (item_valid m) its → NoDup (i_name <$> its) →
  ∀ m' h rest, Forall (zeroed_item m') its → ∃ m'',
  mandatory (mandatory_of i_dec its) m' {| pk_head := h; pk_data := items_wire its m ++ rest |} =
    Ok ((Z.of_nat (length (items_wire its m)), m''),
        {| pk_head := h ++ items_wire its m; pk_data := rest |}) ∧
  presencemask m'' = presencemask m' ∧ Forall (item_agree m m'') its ∧
  ∀ n, n ∉ i_name <$> its → fields m'' !! n = fields m' !! n.
Proof.
  unfold items_wire. induction 1 as [|i its (x & E & Hx) _ IH]; intros Hnd m' h rest Hz.
  { exists m'. simpl. by rewrite app_nil_r. }
  rewrite fmap_cons in Hnd. apply list.NoDup_cons in Hnd as [Hni Hnd].
  apply Forall_cons_1 in Hz as [Hz0 Hz].
  rewrite fmap_cons. cbn [concat] in *. unfold item_wire at 1 3 5. rewrite E, <- app_assoc.
  destruct (dec_run (Codec := i_codec i) x h (concat (item_wire m <$> its) ++ rest) Hx) as (y & Ey & Ev).
  set (m1 := put_field (i_name i) y m').
  destruct (IH Hnd m1 (h ++ wire (Codec := i_codec i) x) rest) as (m'' & E' & Em & Hag & Hfr).
  { apply list.Forall_forall. intros i' Hi'. unfold zeroed_item, m1. simpl. rewrite lookup_insert_ne.
    - by apply (proj1 (list.Forall_forall _ _) Hz).
    - intros Eq. apply Hni. rewrite Eq. by apply list_elem_of_fmap_2. }
  exists m''. split; [|split_and!].
  - simpl mandatory. m_run (on_field_run _ _ _ _ _ _ _ _ Hz0 Ey ltac:(lia)). fold m1. m_run E'.
    unfold mret, M_ret. rewrite <- app_assoc, length_app. do 3 f_equal. lia.
  - by rewrite Em.
  - constructor; [|done]. exists x, y. rewrite Hfr by done. split_and!; [done| |done]. apply lookup_insert_eq.
  - intros n Hn. rewrite ?fmap_cons in Hn. apply not_elem_of_cons in Hn as [Hne Hn].
    rewrite Hfr by done. unfold m1. simpl. by rewrite lookup_insert_ne.
Qed.

Lemma find_case_of all o : o ∈ all → NoDup ((λ o, tag_type (o_tag o)) <$> all) →
  List.find (λ c, case_type c =? tag_type (o_tag o)) (cases_of all) =
    Some (tag_type (o_tag o), o_name o, o_dec o, present (o_bit o)).
Proof.
  induction 1 as [o all|o o' all Ho IH]; intros Hnd.
  - cbn. by rewrite Z.eqb_refl.
  - rewrite fmap_cons in Hnd. apply list.NoDup_cons in Hnd as [Hni Hnd]. cbn.
    destruct (Z.eqb_spec (tag_type (o_tag o')) (tag_type (o_tag o))) as [Eq|Hne]; [|by apply IH].
    exfalso. apply Hni. rewrite Eq. by apply (list_elem_of_fmap_2 (λ o, tag_type (o_tag o))).
Qed.

(** One round of the loop reads one element. *)
Lemma decode_optional_run all o x m' h rest : o ∈ all → NoDup ((λ o, tag_type (o_tag o)) <$> all) →
  tag_okb (o_tag o) = true → opt_valid (Opt := o_opt o) x → fields m' !! o_name o = Some (zero_ie (o_type o)) →
  let bs := opt_octet (Opt := o_opt o) x :: opt_body (Opt := o_opt o) x in ∃ y,
  decode_optional (cases_of all) (opt_octet (Opt := o_opt o) x) m' {| pk_head := h; pk_data := bs ++ rest |} =
    Ok ((Z.of_nat (length bs), {| fields := <[o_name o := y]> (fields m');
           presencemask := Z.lor (presencemask m') (present (o_bit o)) |}),
        {| pk_head := h ++ bs; pk_data := rest |}) ∧
  opt_value (Opt := o_opt o) y = opt_value (Opt := o_opt o) x.
Proof.
  intros Ho Hnd Ht Hx Hz bs.
  destruct (opt_decode (Opt := o_opt o) x h rest Ht Hx) as (y & Ey & Ev). exists y. split; [|done].
  unfold decode_optional. m_run (pull_app h (bs ++ rest) 1 ltac:(simpl; lia)).
  rewrite (opt_type (Opt := o_opt o)), (find_case_of all o) by done. simpl drop. simpl take. rewrite drop_0, take_0.
  m_run (on_field_run _ _ _ _ _ _ _ _ Hz Ey ltac:(lia)).
  unfold mret, M_ret. do 4 f_equal. simpl. lia.
Qed.

Lemma decode_options all m : NoDup ((λ o, tag_type (o_tag o)) <$> all) → ∀ os fuel m' h,
  Forall (λ o, o ∈ all ∧ tag_okb (o_tag o) = true ∧ 0 <= o_bit o) os →
  NoDup (o_name <$> os) → NoDup (o_bit <$> os) →
  Forall (opt_ok m) os → Forall (zeroed_opt m') os → (length (opts_wire os m) < fuel)%nat → ∃ m'',
  optionals fuel (cases_of all) m' {| pk_head := h; pk_data := opts_wire os m |} =
    Ok ((Z.of_nat (length (opts_wire os m)), m''), {| pk_head := h ++ opts_wire os m; pk_data := [] |}) ∧
  Forall (opt_agree m m'') os ∧
  (∀ n, n ∉ o_name <$> os → fields m'' !! n = fields m' !! n) ∧
  (∀ n, 0 <= n → n ∉ o_bit <$> os → Z.testbit (presencemask m'') n = Z.testbit (presencemask m') n).
Proof.
  unfold opts_wire. intros Hall. induction os as [|o os IH]; intros fuel m' h Hin Hnm Hbt Hok Hz Hf.
  { exists m'. simpl. rewrite app_nil_r. by destruct fuel. }
  apply Forall_cons_1 in Hin as [(Ho & Ht & Hb) Hin]. apply Forall_cons_1 in Hok as [Hok0 Hok].
  apply Forall_cons_1 in Hz as [(Hz0 & Hz1) Hz].
  rewrite fmap_cons in *. apply list.NoDup_cons in Hnm as [Hnn Hnm]. apply list.NoDup_cons in Hbt as [Hbn Hbt].
  cbn [concat] in *. unfold opt_wire at 1 in Hf. unfold opt_wire at 1 3 5.
  destruct (has m o) eqn:Eh.
  - destruct (Hok0 Eh) as (x & E & Hx). rewrite E in *.
    destruct fuel as [|fuel]; [lia|]. rewrite length_app in Hf. simpl length at 1 in Hf.
    destruct (decode_optional_run all o x m' h (concat (opt_wire m <$> os)) Ho Hall Ht Hx Hz0) as (y & Ey & Ev).
    set (bs := _ :: _) in *. set (m1 := {| fields := _; presencemask := _ |}) in *.
    destruct (IH fuel m1 (h ++ bs)) as (m'' & E' & Hag & Hfr & Hbits); [done..| |lia|].
    { apply list.Forall_forall. intros o' Ho'. destruct (proj1 (list.Forall_forall _ _) Hz o' Ho') as [Hz0' Hz1'].
      assert (o_name o ≠ o_name o') as Hne1.
      { intros Eq. apply Hnn. rewrite Eq. by apply list_elem_of_fmap_2. }
      assert (o_bit o' ≠ o_bit o) as Hne2.
      { intros Eq. apply Hbn. rewrite <- Eq. by apply list_elem_of_fmap_2. }
      destruct (proj1 (list.Forall_forall _ _) Hin o' Ho') as (_ & _ & Hb').
      split; [by unfold m1; simpl; rewrite lookup_insert_ne|].
      unfold has, m1 in *. simpl. rewrite testbit_present, Hz1' by done. by apply Z.eqb_neq. }
    exists m''. split_and!.
    + simpl optionals. m_ret. cbn [pk_data]. unfold bs at 1. simpl app.
      fold bs. change (opt_octet x :: (opt_body x ++ concat (opt_wire m <$> os))) with (bs ++ concat (opt_wire m <$> os)).
      m_run Ey. m_run E'. unfold mret, M_ret. rewrite <- app_assoc, length_app. do 3 f_equal. lia.
    + constructor; [|done]. unfold opt_agree, has. rewrite Hbits by done. unfold m1 at 1. cbn [presencemask].
      rewrite testbit_present, Z.eqb_refl, orb_true_r by done. fold (has m o). rewrite Eh. split; [done|].
      exists x, y. rewrite Hfr by done. split_and!; [done| |done]. apply lookup_insert_eq.
    + intros n Hn. rewrite ?fmap_cons in Hn. apply not_elem_of_cons in Hn as [Hne Hn]. rewrite Hfr by done.
      unfold m1. simpl. by rewrite lookup_insert_ne.
    + intros n Hn0 Hn. rewrite ?fmap_cons in Hn. apply not_elem_of_cons in Hn as [Hne Hn]. rewrite Hbits by done.
      unfold m1. simpl. rewrite testbit_present, (proj2 (Z.eqb_neq _ _) Hne) by done. apply orb_false_r.
  - simpl in Hf |- *. destruct (IH fuel m' h) as (m'' & E' & Hag & Hfr & Hbits); [done..|].
    exists m''. split_and!; [done| | |].
    + constructor; [|done]. unfold opt_agree, has. rewrite Hbits by done.
      unfold has in Hz1. rewrite Hz1. fold (has m o). rewrite Eh. split; [done|]. by rewrite Hfr.
    + intros n Hn. rewrite ?fmap_cons in Hn. apply not_elem_of_cons in Hn as [_ Hn]. by apply Hfr.
    + intros n Hn0 Hn. rewrite ?fmap_cons in Hn. apply not_elem_of_cons in Hn as [_ Hn]. by apply Hbits.
Qed.
(** ** Messages *)
Record table_ok (ms : members) (its : list item) (os : list oitem) : Prop := {
  names_apart : NoDup ((i_name <$> its) ++ (o_name <$> os));
  types_apart : NoDup ((λ o, tag_type (o_tag o)) <$> os);
  bits_apart : NoDup (o_bit <$> os);
  tags_ok : Forall (λ o, tag_okb (o_tag o) = true ∧ 0 <= o_bit o) os;
  items_zeroed : Forall (zeroed_item (zero_message ms)) its;
  opts_zeroed : Forall (zeroed_opt (zero_message ms)) os;
}.

Class MessageCodec (enc dec : message → M pkbuf (Z * message)) (ms : members) := {
  items : list item;
  opts : list oitem;
  mc_enc : enc = encode_message (mandatory_of i_enc items) (options_of opts);
  mc_dec : dec = decode_message (mandatory_of i_dec items) (cases_of opts);
  mc_ok : table_ok ms items opts;
}.

Section message.
Context {enc dec ms} {C : MessageCodec enc dec ms}.

Definition msg_ok (m : message) : Prop := Forall (item_valid m) items ∧ Forall (opt_ok m) opts.
Definition msg_wire (m : message) : list Z := items_wire items m ++ opts_wire opts m.
Definition agree (m m' : message) : Prop := Forall (item_agree m m') items ∧ Forall (opt_agree m m') opts.

Lemma encode_message_run m h d : msg_ok m → (length (msg_wire m) <= length d)%nat → ∃ m',
  enc m {| pk_head := h; pk_data := d |} =
    Ok ((Z.of_nat (length (msg_wire m)), m'),
        {| pk_head := h ++ msg_wire m; pk_data := drop (length (msg_wire m)) d |}).
Proof.
  intros [Hi Ho] Hd. unfold msg_wire in *. rewrite length_app in Hd. destruct mc_ok as [Hn _ _ Ht _ _].
  apply list.NoDup_app in Hn as (_ & _ & Hn).
  destruct (encode_options_run opts m Ho) with (m' := m) (h := h ++ items_wire items m)
    (d := drop (length (items_wire items m)) d) as (m' & E); [|done|done| |rewrite length_drop; lia|].
  { eapply list.Forall_impl; [exact Ht|]. by intros o' [_ Hb]. }
  { by apply list.Forall_true. }
  exists m'. rewrite (f_equal (λ f, f m {| pk_head := h; pk_data := d |}) mc_enc). unfold encode_message. m_run (encode_mandatory items m Hi h d ltac:(lia)).
  m_run E. unfold mret, M_ret. rewrite drop_drop, <- app_assoc, length_app. do 3 f_equal. lia.
Qed.

Lemma optionals_nil fuel m h : optionals fuel [] m {| pk_head := h; pk_data := [] |} = Ok ((0, m), {| pk_head := h; pk_data := [] |}).
Proof. by destruct fuel. Qed.

Lemma decode_message_run m h : msg_ok m → ∃ m',
  dec (zero_message ms) {| pk_head := h; pk_data := msg_wire m |} =
    Ok ((Z.of_nat (length (msg_wire m)), m'), {| pk_head := h ++ msg_wire m; pk_data := [] |}) ∧
  agree m m'.
Proof.
  intros [Hi Ho]. unfold msg_wire. destruct mc_ok as [Hn Hty Hb Ht Hzi Hzo].
  apply list.NoDup_app in Hn as (Hn1 & Hd & Hn2).
  destruct (decode_mandatory items m Hi Hn1 (zero_message ms) h (opts_wire opts m) Hzi) as (m1 & E1 & Ep & Ha1 & Hf1).
  assert (Forall (zeroed_opt m1) opts) as Hz.
  { apply list.Forall_forall. intros o Ho'. destruct (proj1 (list.Forall_forall _ _) Hzo o Ho') as [E H'].
    split; [|unfold has in *; by rewrite Ep].
    rewrite Hf1; [done|]. intros Hin. apply (Hd _ Hin). by apply list_elem_of_fmap_2. }
  destruct (decode_options opts m Hty opts (S (length (opts_wire opts m))) m1 (h ++ items_wire items m))
    as (m2 & E2 & Ha2 & Hf2 & _); [|done|done|done|done|lia|].
  { apply list.Forall_forall. intros o Ho'. by destruct (proj1 (list.Forall_forall _ _) Ht o Ho'). }
  exists m2. split.
  - rewrite (f_equal (λ f, f (zero_message ms) {| pk_head := h; pk_data := items_wire items m ++ opts_wire opts m |}) mc_dec).
    unfold decode_message. m_run E1.
    assert (opts = [] ∨ cases_of opts ≠ []) as [Eo|Hne].
    { destruct opts; [by left|by right]. }
    + rewrite Eo in *. cbn in E2. injection E2 as <-. unfold mret, M_ret. cbn. by rewrite !app_nil_r.
    + destruct (cases_of opts) eqn:Ec; [done|]. m_ret. cbn [pk_data]. m_run E2.
      unfold mret, M_ret. rewrite <- app_assoc, length_app. do 3 f_equal. lia.
  - split; [|done]. apply list.Forall_forall. intros i Hi'. destruct (proj1 (list.Forall_forall _ _) Ha1 i Hi') as (x & y & E & E' & Ev).
    exists x, y. rewrite Hf2; [done|]. intros Hin. apply (Hd (i_name i)); [by apply list_elem_of_fmap_2|done].
Qed.
End message.

(** ** The entry points *)
Record coded := Coded {
  c_type : Z; c_ms : members; c_enc : message → M pkbuf (Z * message); c_dec : message → M pkbuf (Z * message);
  c_codec : MessageCodec c_enc c_dec c_ms;
}.
Definition c_ok (c : coded) : message → Prop := msg_ok (C := c_codec c).
Definition c_wire (c : coded) : message → list Z := msg_wire (C := c_codec c).
Definition c_agree (c : coded) : message → message → Prop := agree (C := c_codec c).

Lemma push_app h bs d : push (length bs) {| pk_head := h ++ bs; pk_data := d |} =
  Ok ((), {| pk_head := h; pk_data := bs ++ d |}).
Proof.
  unfold push, mbind, M_bind, get. rewrite push_run by (simpl; rewrite length_app; lia).
  cbn [pk_head pk_data]. by rewrite length_app, Nat.add_sub, take_app_length, drop_app_length.
Qed.

Lemma run_case_run c m hd done : c_ok c m → Z.of_nat (length done + length (c_wire c m)) < 2 ^ 16 → ∃ m',
  run_case (c_dec c) (c_ms c) (Z.of_nat (length done))
    {| pk_head := hd ++ done; pk_data := c_wire c m |} =
    Ok (m', {| pk_head := hd; pk_data := done ++ c_wire c m |}) ∧ c_agree c m m'.
Proof.
  intros Hok Hlen. destruct (decode_message_run (C := c_codec c) m (hd ++ done) Hok) as (m' & E & Ha).
  exists m'. split; [|done]. unfold run_case. fold (c_wire c m) in E. m_run E.
  rewrite !(wrap_small 16) by (rewrite ?(wrap_small 16); lia).
  rewrite <- Nat2Z.inj_add, Nat2Z.id, <- length_app, <- app_assoc.
  pose proof (push_app hd (done ++ c_wire c m) []) as Ep. rewrite !app_nil_r in Ep. by m_run Ep.
Qed.

Lemma finish_app h bs d : finish (Z.of_nat (length bs)) {| pk_head := h ++ bs; pk_data := d |} =
  Ok ((), {| pk_head := h; pk_data := bs |}).
Proof.
  unfold finish. rewrite Nat2Z.id. m_run (push_app h bs d). unfold modify. cbn [pk_head pk_data].
  by rewrite take_app_length.
Qed.

Context `{OgsSduLaws}.

Lemma encode_case_run c m hd done d : c_ok c m → (length (c_wire c m) <= length d)%nat → ∃ m',
  encode_case (c_enc c) (Z.of_nat (length done)) m {| pk_head := hd ++ done; pk_data := d |} =
    Ok (m', {| pk_head := hd; pk_data := done ++ c_wire c m |}).
Proof.
  intros Hok Hlen. destruct (encode_message_run (C := c_codec c) m (hd ++ done) d Hok Hlen) as (m' & E).
  exists m'. unfold encode_case. fold (c_wire c m) in E. m_run E.
  m_run (massert_run (0 <=? Z.of_nat (length (c_wire c m)))
    {| pk_head := (hd ++ done) ++ c_wire c m; pk_data := drop (length (c_wire c m)) d |} ltac:(apply Z.leb_le; lia)).
  rewrite <- Nat2Z.inj_add, <- length_app, <- app_assoc.
  by m_run (finish_app hd (done ++ c_wire c m) (drop (length (c_wire c m)) d)).
Qed.

(** A message whose octets fit a packet and a [uint16_t]. *)
Definition fits_packet (c : coded) (h : list Z) (m : message) : Prop :=
  (length h + length (c_wire c m) + OGS_NAS_HEADROOM <= OGS_MAX_SDU_LEN)%nat ∧
  Z.of_nat (length h + length (c_wire c m)) < 2 ^ 16.
(** It is encoded, and whatever is in front of it, decoded. *)
Definition delivered (c : coded) (decode : M pkbuf (rv_t * ogs_nas_message_t)) (h : list Z) (m : message) : Prop :=
  ∀ hd', ∃ m1 m2 hd,
    ogs_nas_plain_encode {| header := h; body := m |} =
      Ok (OGS_OK, Some {| pk_head := hd; pk_data := h ++ c_wire c m |}, {| header := h; body := m1 |}) ∧
    decode {| pk_head := hd'; pk_data := h ++ c_wire c m |} =
      Ok ((OGS_OK, {| header := h; body := m2 |}), {| pk_head := hd'; pk_data := h ++ c_wire c m |}) ∧
    c_agree c m m2.

(** The packet that is encoded into. *)
Lemma new_pkbuf_room n : (n + OGS_NAS_HEADROOM <= OGS_MAX_SDU_LEN)%nat →
  ∃ hd d, new_pkbuf = {| pk_head := hd; pk_data := d |} ∧ (n <= length d)%nat.
Proof.
  intros Hn. unfold new_pkbuf. do 2 eexists. split; [done|]. rewrite length_drop, length_fresh_octets. lia.
Qed.

Lemma read_header h bs k {A} (f : list Z → M pkbuf A) hd : k = length h →
  (pull k;; h ← passed k; f h) {| pk_head := hd; pk_data := h ++ bs |} =
    f h {| pk_head := hd ++ h; pk_data := bs |}.
Proof. intros ->. by rewrite pull_passed. Qed.

Section entry.
Context (c : coded) (h : list Z) (m : message) (m_ok : c_ok c m) (m_fits : fits_packet c h m).

Lemma emm_delivered ms : length h = sizeof_emm_header →
  security_header_type h < OGS_NAS_SECURITY_HEADER_FOR_SERVICE_REQUEST_MESSAGE →
  protocol_discriminator h = OGS_NAS_PROTOCOL_DISCRIMINATOR_EMM →
  find_case emm_encode_cases (nth 1 h 0) = Some (Some (ms, c_enc c)) →
  find_case emm_decode_cases (nth 1 h 0) = Some (Some (c_ms c, c_dec c)) →
  delivered c ogs_nas_emm_decode h m.
Proof.
  unfold sizeof_emm_header. intros Hh Hs Hp Ee Ed hd'. destruct m_fits as [Hf1 Hf2].
  destruct (new_pkbuf_room (length h + length (c_wire c m)) ltac:(lia)) as (hd & d & En & Hd).
  destruct (encode_case_run c m hd h (drop 2 d) m_ok ltac:(rewrite length_drop; lia)) as (m1 & E1).
  destruct (run_case_run c m hd' h m_ok Hf2) as (m2 & E2 & Ha). rewrite Hh in E1, E2.
  exists m1, m2, hd. split; [|split; [|done]].
  - unfold ogs_nas_plain_encode. simpl header. rewrite Hp. simpl Z.eqb. cbv iota.
    unfold ogs_nas_emm_encode, encoded. rewrite En. unfold emm_encode. simpl header. change sizeof_emm_header with 2%nat.
    rewrite take_ge by lia. rewrite (pull_fill _ hd d h 2) by lia.
    rewrite (proj2 (Z.leb_gt _ _) Hs), Ee. by m_run E1.
  - unfold ogs_nas_emm_decode. m_ret. cbn [pk_data].
    m_run (massert_run (negb (length (h ++ c_wire c m) =? 0)%nat) {| pk_head := hd'; pk_data := h ++ c_wire c m |}
      ltac:(rewrite length_app, Hh; done)).
    rewrite (read_header h (c_wire c m) sizeof_emm_header) by done.
    rewrite (proj2 (Z.leb_gt _ _) Hs), Ed. by m_run E2.
Qed.

Lemma esm_delivered ms : length h = sizeof_esm_header →
  protocol_discriminator h = OGS_NAS_PROTOCOL_DISCRIMINATOR_ESM →
  find_case esm_encode_cases (nth 2 h 0) = Some (Some (ms, c_enc c)) →
  find_case esm_decode_cases (nth 2 h 0) = Some (Some (c_ms c, c_dec c)) →
  delivered c ogs_nas_esm_decode h m.
Proof.
  unfold sizeof_esm_header. intros Hh Hp Ee Ed hd'. destruct m_fits as [Hf1 Hf2].
  destruct (new_pkbuf_room (length h + length (c_wire c m)) ltac:(lia)) as (hd & d & En & Hd).
  destruct (encode_case_run c m hd h (drop 3 d) m_ok ltac:(rewrite length_drop; lia)) as (m1 & E1).
  destruct (run_case_run c m hd' h m_ok Hf2) as (m2 & E2 & Ha). rewrite Hh in E1, E2.
  exists m1, m2, hd. split; [|split; [|done]].
  - unfold ogs_nas_plain_encode. simpl header. rewrite Hp. simpl Z.eqb. cbv iota.
    unfold ogs_nas_esm_encode, encoded. rewrite En. unfold esm_encode. simpl header. change sizeof_esm_header with 3%nat.
    rewrite take_ge by lia. rewrite (pull_fill _ hd d h 3) by lia.
    rewrite Ee. by m_run E1.
  - unfold ogs_nas_esm_decode. m_ret. cbn [pk_data].
    m_run (massert_run (negb (length (h ++ c_wire c m) =? 0)%nat) {| pk_head := hd'; pk_data := h ++ c_wire c m |}
      ltac:(rewrite length_app, Hh; done)).
    rewrite (read_header h (c_wire c m) sizeof_esm_header) by done.
    rewrite Ed. by m_run E2.
Qed.
End entry.
End spec.
