(* ===== verification/NasCodecs.v ===== *)
(** * NAS: the codec of every element and of every message

    One instance per element of [ies.c], by the pattern of its functions, and
    one per message of [encoder.c] and [decoder.c], by the elements of its
    tables.  The mandatory elements of half an octet
    ([nas_key_set_identifier...]) have no codec: see [NasCodecFlaws.v]. *)
From stdpp Require Import strings.
From S2P Require Import Prelude.
From S2P Require Import CMem.
From S2P Require Import OgsLib.
From S2P Require Import NasIes.
From S2P Require Import NasMsg.
From S2P Require Import NasCodecLaws.
From S2P Require Import NasCodecSpec.
#[local] Open Scope Z_scope.

Section codecs.
Context `{Host, OgsBitsLaws, OgsPkbufLaws, OgsLengths, OgsFqdnLaws}.

(** ** Elements *)
#[export] Instance additional_information_codec : Codec ogs_nas_encode_additional_information ogs_nas_decode_additional_information ogs_nas_additional_information_t :=
  codec_lv 1 _ _ _ _ (inverse_lv_id _ _).
#[export] Instance eps_bearer_context_status_codec : Codec ogs_nas_encode_eps_bearer_context_status ogs_nas_decode_eps_bearer_context_status ogs_nas_eps_bearer_context_status_t :=
  codec_lv 1 _ _ _ _ (inverse_lv_id _ _).
#[export] Instance supported_codec_list_codec : Codec ogs_nas_encode_supported_codec_list ogs_nas_decode_supported_codec_list ogs_nas_supported_codec_list_t :=
  codec_lv 1 _ _ _ _ (inverse_lv_id _ _).
#[export] Instance location_area_identification_codec : Codec ogs_nas_encode_location_area_identification ogs_nas_decode_location_area_identification ogs_nas_location_area_identification_t :=
  codec_v _ _ _ (inverse_swap 3 2 5 ltac:(lia)).
#[export] Instance mobile_identity_codec : Codec ogs_nas_encode_mobile_identity ogs_nas_decode_mobile_identity ogs_nas_mobile_identity_t :=
  codec_lv 1 _ _ _ _ inverse_mobile_identity.
#[export] Instance mobile_station_classmark_2_codec : Codec ogs_nas_encode_mobile_station_classmark_2 ogs_nas_decode_mobile_station_classmark_2 ogs_nas_mobile_station_classmark_2_t :=
  codec_lv 1 _ _ _ _ (inverse_lv_id _ _).
#[export] Instance mobile_station_classmark_3_codec : Codec ogs_nas_encode_mobile_station_classmark_3 ogs_nas_decode_mobile_station_classmark_3 ogs_nas_mobile_station_classmark_3_t :=
  codec_lv 1 _ _ _ _ (inverse_lv_id _ _).
#[export] Instance plmn_list_codec : Codec ogs_nas_encode_plmn_list ogs_nas_decode_plmn_list ogs_nas_plmn_list_t :=
  codec_lv 1 _ _ _ _ (inverse_lv_id _ _).
#[export] Instance authentication_failure_parameter_codec : Codec ogs_nas_encode_authentication_failure_parameter ogs_nas_decode_authentication_failure_parameter ogs_nas_authentication_failure_parameter_t :=
  codec_lv 1 _ _ _ _ (inverse_lv_id _ _).
#[export] Instance eps_attach_result_codec : Codec ogs_nas_encode_eps_attach_result ogs_nas_decode_eps_attach_result ogs_nas_eps_attach_result_t :=
  codec_v _ _ _ (inverse_id _).
#[export] Instance eps_attach_type_codec : Codec ogs_nas_encode_eps_attach_type ogs_nas_decode_eps_attach_type ogs_nas_eps_attach_type_t :=
  codec_v _ _ _ (inverse_id _).
#[export] Instance eps_mobile_identity_codec : Codec ogs_nas_encode_eps_mobile_identity ogs_nas_decode_eps_mobile_identity ogs_nas_eps_mobile_identity_t :=
  codec_lv 1 _ _ _ _ inverse_eps_mobile_identity.
#[export] Instance eps_network_feature_support_codec : Codec ogs_nas_encode_eps_network_feature_support ogs_nas_decode_eps_network_feature_support ogs_nas_eps_network_feature_support_t :=
  codec_lv 1 _ _ _ _ (inverse_lv_id _ _).
#[export] Instance eps_update_result_codec : Codec ogs_nas_encode_eps_update_result ogs_nas_decode_eps_update_result ogs_nas_eps_update_result_t :=
  codec_v _ _ _ (inverse_id _).
#[export] Instance eps_update_type_codec : Codec ogs_nas_encode_eps_update_type ogs_nas_decode_eps_update_type ogs_nas_eps_update_type_t :=
  codec_v _ _ _ (inverse_id _).
#[export] Instance esm_message_container_codec : Codec ogs_nas_encode_esm_message_container ogs_nas_decode_esm_message_container ogs_nas_esm_message_container_t :=
  codec_container.
#[export] Instance gprs_timer_codec : Codec ogs_nas_encode_gprs_timer ogs_nas_decode_gprs_timer ogs_nas_gprs_timer_t :=
  codec_v _ _ _ (inverse_id _).
#[export] Instance gprs_timer_2_codec : Codec ogs_nas_encode_gprs_timer_2 ogs_nas_decode_gprs_timer_2 ogs_nas_gprs_timer_2_t :=
  codec_lv 1 _ _ _ _ (inverse_lv_id _ _).
#[export] Instance gprs_timer_3_codec : Codec ogs_nas_encode_gprs_timer_3 ogs_nas_decode_gprs_timer_3 ogs_nas_gprs_timer_3_t :=
  codec_lv 1 _ _ _ _ (inverse_lv_id _ _).
#[export] Instance identity_type_2_codec : Codec ogs_nas_encode_identity_type_2 ogs_nas_decode_identity_type_2 ogs_nas_identity_type_2_t :=
  codec_v _ _ _ (inverse_id _).
#[export] Instance ksi_and_sequence_number_codec : Codec ogs_nas_encode_ksi_and_sequence_number ogs_nas_decode_ksi_and_sequence_number ogs_nas_ksi_and_sequence_number_t :=
  codec_v _ _ _ (inverse_id _).
#[export] Instance authentication_parameter_autn_codec : Codec ogs_nas_encode_authentication_parameter_autn ogs_nas_decode_authentication_parameter_autn ogs_nas_authentication_parameter_autn_t :=
  codec_lv 1 _ _ _ _ (inverse_lv_id _ _).
#[export] Instance ms_network_capability_codec : Codec ogs_nas_encode_ms_network_capability ogs_nas_decode_ms_network_capability ogs_nas_ms_network_capability_t :=
  codec_lv 1 _ _ _ _ (inverse_lv_id _ _).
#[export] Instance message_container_codec : Codec ogs_nas_encode_message_container ogs_nas_decode_message_container ogs_nas_message_container_t :=
  codec_lv 1 _ _ _ _ (inverse_lv_id _ _).
#[export] Instance security_algorithms_codec : Codec ogs_nas_encode_security_algorithms ogs_nas_decode_security_algorithms ogs_nas_security_algorithms_t :=
  codec_v _ _ _ (inverse_id _).
#[export] Instance network_name_codec : Codec ogs_nas_encode_network_name ogs_nas_decode_network_name ogs_nas_network_name_t :=
  codec_lv 1 _ _ _ _ (inverse_lv_id _ _).
#[export] Instance network_resource_identifier_container_codec : Codec ogs_nas_encode_network_resource_identifier_container ogs_nas_decode_network_resource_identifier_container ogs_nas_network_resource_identifier_container_t :=
  codec_lv 1 _ _ _ _ (inverse_lv_id _ _).
#[export] Instance nonce_codec : Codec ogs_nas_encode_nonce ogs_nas_decode_nonce ogs_nas_nonce_t :=
  codec_v _ _ _ (inverse_swap 0 4 4 ltac:(lia)).
#[export] Instance paging_identity_codec : Codec ogs_nas_encode_paging_identity ogs_nas_decode_paging_identity ogs_nas_paging_identity_t :=
  codec_v _ _ _ (inverse_id _).
#[export] Instance p_tmsi_signature_codec : Codec ogs_nas_encode_p_tmsi_signature ogs_nas_decode_p_tmsi_signature ogs_nas_p_tmsi_signature_t :=
  codec_p_tmsi_signature.
#[export] Instance service_type_codec : Codec ogs_nas_encode_service_type ogs_nas_decode_service_type ogs_nas_service_type_t :=
  codec_v _ _ _ (inverse_id _).
#[export] Instance short_mac_codec : Codec ogs_nas_encode_short_mac ogs_nas_decode_short_mac ogs_nas_short_mac_t :=
  codec_v _ _ _ (inverse_swap 0 2 2 ltac:(lia)).
#[export] Instance time_zone_codec : Codec ogs_nas_encode_time_zone ogs_nas_decode_time_zone ogs_nas_time_zone_t :=
  codec_v _ _ _ (inverse_id _).
#[export] Instance authentication_parameter_rand_codec : Codec ogs_nas_encode_authentication_parameter_rand ogs_nas_decode_authentication_parameter_rand ogs_nas_authentication_parameter_rand_t :=
  codec_v _ _ _ (inverse_id _).
#[export] Instance time_zone_and_time_codec : Codec ogs_nas_encode_time_zone_and_time ogs_nas_decode_time_zone_and_time ogs_nas_time_zone_and_time_t :=
  codec_v _ _ _ (inverse_id _).
#[export] Instance tracking_area_identity_codec : Codec ogs_nas_encode_tracking_area_identity ogs_nas_decode_tracking_area_identity ogs_nas_tracking_area_identity_t :=
  codec_v _ _ _ (inverse_swap 3 2 5 ltac:(lia)).
#[export] Instance tracking_area_identity_list_codec : Codec ogs_nas_encode_tracking_area_identity_list ogs_nas_decode_tracking_area_identity_list ogs_nas_tracking_area_identity_list_t :=
  codec_lv 1 _ _ _ _ (inverse_lv_id _ _).
#[export] Instance ue_network_capability_codec : Codec ogs_nas_encode_ue_network_capability ogs_nas_decode_ue_network_capability ogs_nas_ue_network_capability_t :=
  codec_lv 1 _ _ _ _ (inverse_lv_id _ _).
#[export] Instance ue_security_capability_codec : Codec ogs_nas_encode_ue_security_capability ogs_nas_decode_ue_security_capability ogs_nas_ue_security_capability_t :=
  codec_lv 1 _ _ _ _ (inverse_lv_id _ _).
#[export] Instance emergency_number_list_codec : Codec ogs_nas_encode_emergency_number_list ogs_nas_decode_emergency_number_list ogs_nas_emergency_number_list_t :=
  codec_lv 2 _ _ _ _ (inverse_lv_id _ _).
#[export] Instance cli_codec : Codec ogs_nas_encode_cli ogs_nas_decode_cli ogs_nas_cli_t :=
  codec_lv 1 _ _ _ _ (inverse_lv_id _ _).
#[export] Instance ss_code_codec : Codec ogs_nas_encode_ss_code ogs_nas_decode_ss_code ogs_nas_ss_code_t :=
  codec_v _ _ _ (inverse_id _).
#[export] Instance authentication_response_parameter_codec : Codec ogs_nas_encode_authentication_response_parameter ogs_nas_decode_authentication_response_parameter ogs_nas_authentication_response_parameter_t :=
  codec_lv 1 _ _ _ _ (inverse_lv_id _ _).
#[export] Instance lcs_indicator_codec : Codec ogs_nas_encode_lcs_indicator ogs_nas_decode_lcs_indicator ogs_nas_lcs_indicator_t :=
  codec_v _ _ _ (inverse_id _).
#[export] Instance lcs_client_identity_codec : Codec ogs_nas_encode_lcs_client_identity ogs_nas_decode_lcs_client_identity ogs_nas_lcs_client_identity_t :=
  codec_lv 1 _ _ _ _ (inverse_lv_id _ _).
#[export] Instance generic_message_container_type_codec : Codec ogs_nas_encode_generic_message_container_type ogs_nas_decode_generic_message_container_type ogs_nas_generic_message_container_type_t :=
  codec_v _ _ _ (inverse_id _).
#[export] Instance generic_message_container_codec : Codec ogs_nas_encode_generic_message_container ogs_nas_decode_generic_message_container ogs_nas_generic_message_container_t :=
  codec_container.
#[export] Instance voice_domain_preference_and_ue_usage_setting_codec : Codec ogs_nas_encode_voice_domain_preference_and_ue_usage_setting ogs_nas_decode_voice_domain_preference_and_ue_usage_setting ogs_nas_voice_domain_preference_and_ue_usage_setting_t :=
  codec_lv 1 _ _ _ _ (inverse_lv_id _ _).
#[export] Instance extended_drx_parameters_codec : Codec ogs_nas_encode_extended_drx_parameters ogs_nas_decode_extended_drx_parameters ogs_nas_extended_drx_parameters_t :=
  codec_lv 1 _ _ _ _ (inverse_lv_id _ _).
#[export] Instance daylight_saving_time_codec : Codec ogs_nas_encode_daylight_saving_time ogs_nas_decode_daylight_saving_time ogs_nas_daylight_saving_time_t :=
  codec_lv 1 _ _ _ _ (inverse_lv_id _ _).
#[export] Instance detach_type_codec : Codec ogs_nas_encode_detach_type ogs_nas_decode_detach_type ogs_nas_detach_type_t :=
  codec_v _ _ _ (inverse_id _).
#[export] Instance drx_parameter_codec : Codec ogs_nas_encode_drx_parameter ogs_nas_decode_drx_parameter ogs_nas_drx_parameter_t :=
  codec_v _ _ _ (inverse_id _).
#[export] Instance emm_cause_codec : Codec ogs_nas_encode_emm_cause ogs_nas_decode_emm_cause ogs_nas_emm_cause_t :=
  codec_v _ _ _ (inverse_id _).
#[export] Instance access_point_name_codec : Codec ogs_nas_encode_access_point_name ogs_nas_decode_access_point_name ogs_nas_access_point_name_t :=
  codec_access_point_name.
#[export] Instance protocol_configuration_options_codec : Codec ogs_nas_encode_protocol_configuration_options ogs_nas_decode_protocol_configuration_options ogs_nas_protocol_configuration_options_t :=
  codec_lv 1 _ _ _ _ (inverse_lv_id _ _).
#[export] Instance quality_of_service_codec : Codec ogs_nas_encode_quality_of_service ogs_nas_decode_quality_of_service ogs_nas_quality_of_service_t :=
  codec_lv 1 _ _ _ _ (inverse_lv_id _ _).
#[export] Instance re_attempt_indicator_codec : Codec ogs_nas_encode_re_attempt_indicator ogs_nas_decode_re_attempt_indicator ogs_nas_re_attempt_indicator_t :=
  codec_lv 1 _ _ _ _ (inverse_lv_id _ _).
#[export] Instance request_type_codec : Codec ogs_nas_encode_request_type ogs_nas_decode_request_type ogs_nas_request_type_t :=
  codec_v _ _ _ (inverse_id _).
#[export] Instance traffic_flow_aggregate_description_codec : Codec ogs_nas_encode_traffic_flow_aggregate_description ogs_nas_decode_traffic_flow_aggregate_description ogs_nas_traffic_flow_aggregate_description_t :=
  codec_lv 1 _ _ _ _ (inverse_lv_id _ _).
#[export] Instance traffic_flow_template_codec : Codec ogs_nas_encode_traffic_flow_template ogs_nas_decode_traffic_flow_template ogs_nas_traffic_flow_template_t :=
  codec_lv 1 _ _ _ _ (inverse_lv_id _ _).
#[export] Instance transaction_identifier_codec : Codec ogs_nas_encode_transaction_identifier ogs_nas_decode_transaction_identifier ogs_nas_transaction_identifier_t :=
  codec_lv 1 _ _ _ _ (inverse_lv_id _ _).
#[export] Instance nbifom_container_codec : Codec ogs_nas_encode_nbifom_container ogs_nas_decode_nbifom_container ogs_nas_nbifom_container_t :=
  codec_lv 1 _ _ _ _ (inverse_lv_id _ _).
#[export] Instance apn_aggregate_maximum_bit_rate_codec : Codec ogs_nas_encode_apn_aggregate_maximum_bit_rate ogs_nas_decode_apn_aggregate_maximum_bit_rate ogs_nas_apn_aggregate_maximum_bit_rate_t :=
  codec_lv 1 _ _ _ _ (inverse_lv_id _ _).
#[export] Instance header_compression_configuration_codec : Codec ogs_nas_encode_header_compression_configuration ogs_nas_decode_header_compression_configuration ogs_nas_header_compression_configuration_t :=
  codec_lv 1 _ _ _ _ (inverse_lv_undone 1 260 4 2 _ ltac:(lia) ltac:(lia) (swap_undone 2 2)).
#[export] Instance extended_protocol_configuration_options_codec : Codec ogs_nas_encode_extended_protocol_configuration_options ogs_nas_decode_extended_protocol_configuration_options ogs_nas_extended_protocol_configuration_options_t :=
  codec_container.
#[export] Instance header_compression_configuration_status_codec : Codec ogs_nas_encode_header_compression_configuration_status ogs_nas_decode_header_compression_configuration_status ogs_nas_header_compression_configuration_status_t :=
  codec_lv 1 _ _ _ _ (inverse_lv_id _ _).
#[export] Instance serving_plmn_rate_control_codec : Codec ogs_nas_encode_serving_plmn_rate_control ogs_nas_decode_serving_plmn_rate_control ogs_nas_serving_plmn_rate_control_t :=
  codec_lv 1 _ _ _ _ (inverse_lv_id _ _).
#[export] Instance eps_quality_of_service_codec : Codec ogs_nas_encode_eps_quality_of_service ogs_nas_decode_eps_quality_of_service ogs_nas_eps_quality_of_service_t :=
  codec_lv 1 _ _ _ _ (inverse_lv_id _ _).
#[export] Instance esm_cause_codec : Codec ogs_nas_encode_esm_cause ogs_nas_decode_esm_cause ogs_nas_esm_cause_t :=
  codec_v _ _ _ (inverse_id _).
#[export] Instance linked_eps_bearer_identity_codec : Codec ogs_nas_encode_linked_eps_bearer_identity ogs_nas_decode_linked_eps_bearer_identity ogs_nas_linked_eps_bearer_identity_t :=
  codec_v _ _ _ (inverse_id _).
#[export] Instance llc_service_access_point_identifier_codec : Codec ogs_nas_encode_llc_service_access_point_identifier ogs_nas_decode_llc_service_access_point_identifier ogs_nas_llc_service_access_point_identifier_t :=
  codec_v _ _ _ (inverse_id _).
#[export] Instance packet_flow_identifier_codec : Codec ogs_nas_encode_packet_flow_identifier ogs_nas_decode_packet_flow_identifier ogs_nas_packet_flow_identifier_t :=
  codec_lv 1 _ _ _ _ (inverse_lv_id _ _).
#[export] Instance pdn_address_codec : Codec ogs_nas_encode_pdn_address ogs_nas_decode_pdn_address ogs_nas_pdn_address_t :=
  codec_lv 1 _ _ _ _ (inverse_lv_id _ _).

(** Elements of half an octet. *)
#[export] Instance device_properties_half : Half ogs_nas_encode_device_properties ogs_nas_decode_device_properties.
Proof. by split. Qed.
#[export] Instance additional_update_result_half : Half ogs_nas_encode_additional_update_result ogs_nas_decode_additional_update_result.
Proof. by split. Qed.
#[export] Instance additional_update_type_half : Half ogs_nas_encode_additional_update_type ogs_nas_decode_additional_update_type.
Proof. by split. Qed.
#[export] Instance imeisv_request_half : Half ogs_nas_encode_imeisv_request ogs_nas_decode_imeisv_request.
Proof. by split. Qed.
#[export] Instance ms_network_feature_support_half : Half ogs_nas_encode_ms_network_feature_support ogs_nas_decode_ms_network_feature_support.
Proof. by split. Qed.
#[export] Instance key_set_identifier_half : Half ogs_nas_encode_key_set_identifier ogs_nas_decode_key_set_identifier.
Proof. by split. Qed.
#[export] Instance extended_emm_cause_half : Half ogs_nas_encode_extended_emm_cause ogs_nas_decode_extended_emm_cause.
Proof. by split. Qed.
#[export] Instance tmsi_status_half : Half ogs_nas_encode_tmsi_status ogs_nas_decode_tmsi_status.
Proof. by split. Qed.
#[export] Instance ue_radio_capability_information_update_needed_half : Half ogs_nas_encode_ue_radio_capability_information_update_needed ogs_nas_decode_ue_radio_capability_information_update_needed.
Proof. by split. Qed.
#[export] Instance guti_type_half : Half ogs_nas_encode_guti_type ogs_nas_decode_guti_type.
Proof. by split. Qed.
#[export] Instance ciphering_key_sequence_number_half : Half ogs_nas_encode_ciphering_key_sequence_number ogs_nas_decode_ciphering_key_sequence_number.
Proof. by split. Qed.
#[export] Instance csfb_response_half : Half ogs_nas_encode_csfb_response ogs_nas_decode_csfb_response.
Proof. by split. Qed.
#[export] Instance radio_priority_half : Half ogs_nas_encode_radio_priority ogs_nas_decode_radio_priority.
Proof. by split. Qed.
#[export] Instance wlan_offload_acceptability_half : Half ogs_nas_encode_wlan_offload_acceptability ogs_nas_decode_wlan_offload_acceptability.
Proof. by split. Qed.
#[export] Instance control_plane_only_indication_half : Half ogs_nas_encode_control_plane_only_indication ogs_nas_decode_control_plane_only_indication.
Proof. by split. Qed.
#[export] Instance connectivity_type_half : Half ogs_nas_encode_connectivity_type ogs_nas_decode_connectivity_type.
Proof. by split. Qed.
#[export] Instance esm_information_transfer_flag_half : Half ogs_nas_encode_esm_information_transfer_flag ogs_nas_decode_esm_information_transfer_flag.
Proof. by split. Qed.

(** ** Tables *)
Class Mandatory (es ds : list (string * codec)) := {
  m_items : list item;
  m_encs : es = mandatory_of i_enc m_items;
  m_decs : ds = mandatory_of i_dec m_items;
}.
Class Options (os : list option_) (cs : list case) := {
  o_items : list oitem;
  o_encs : os = options_of o_items;
  o_decs : cs = cases_of o_items;
}.
#[export] Instance mandatory_nil : Mandatory [] [] := {| m_items := []; m_encs := eq_refl; m_decs := eq_refl |}.
#[export] Program Instance mandatory_cons n e d t es ds `{C : !Codec e d t, T : !Mandatory es ds} :
    Mandatory ((n, e) :: es) ((n, d) :: ds) := {| m_items := Item n e d t C :: m_items |}.
Next Obligation. intros n e d t es ds C [its -> ->]. done. Qed.
Next Obligation. intros n e d t es ds C [its -> ->]. done. Qed.
#[export] Instance options_nil : Options [] [] := {| o_items := []; o_encs := eq_refl; o_decs := eq_refl |}.
#[export] Program Instance options_cons b t n e d ty os cs `{C : !Opt t e d ty, T : !Options os cs} :
    Options ((present b, t, n, e) :: os) ((tag_type t, n, d, present b) :: cs) :=
  {| o_items := OItem b t n e d ty C :: o_items |}.
Next Obligation. intros b t n e d ty os cs C [its -> ->]. done. Qed.
Next Obligation. intros b t n e d ty os cs C [its -> ->]. done. Qed.

(** The type of a member, and that the elements of a table are members. *)
Definition member_type (ms : members) (n : string) : option ie_type :=
  snd <$> List.find (λ m, String.eqb (fst m) n) ms.
Fixpoint members_of (ms : members) (fs : list (string * ie_type)) : Prop :=
  match fs with
  | [] => True
  | (n, t) :: fs => member_type ms n = Some t ∧ members_of ms fs
  end.

Lemma zero_message_lookup ms n t : member_type ms n = Some t → fields (zero_message ms) !! n = Some (zero_ie t).
Proof.
  unfold member_type, zero_message. cbn [fields]. induction ms as [|[n' t'] ms IH]; [done|].
  simpl List.find. rewrite fmap_cons, list_to_map_cons. simpl fst. simpl snd.
  destruct (String.eqb_spec n' n) as [->|Hne]; simpl.
  - intros [= ->]. apply lookup_insert_eq.
  - rewrite lookup_insert_ne by done. apply IH.
Qed.
Lemma members_of_forall ms fs : members_of ms fs ↔ Forall (λ f, member_type ms (fst f) = Some (snd f)) fs.
Proof.
  induction fs as [|[n t] fs IH]; simpl; [by split|]. rewrite IH, list.Forall_cons. done.
Qed.

Lemma table_ok_check ms its os :
  NoDup ((i_name <$> its) ++ (o_name <$> os)) →
  NoDup ((λ o, tag_type (o_tag o)) <$> os) → NoDup (o_bit <$> os) →
  forallb tag_okb (o_tag <$> os) = true → forallb (Z.leb 0) (o_bit <$> os) = true →
  members_of ms (((λ i, (i_name i, i_type i)) <$> its) ++ ((λ o, (o_name o, o_type o)) <$> os)) →
  table_ok ms its os.
Proof.
  intros Hn Ht Hb Hto Hbo Hz. rewrite !forallb_forall in *. setoid_rewrite <- list_elem_of_In in Hto.
  setoid_rewrite <- list_elem_of_In in Hbo. apply members_of_forall, Forall_app in Hz as [Hz1 Hz2].
  rewrite list.Forall_fmap in Hz1. rewrite list.Forall_fmap in Hz2. split; [done..| | |].
  - apply list.Forall_forall. intros o Ho. split; [by apply Hto, list_elem_of_fmap_2|].
    by apply Z.leb_le, Hbo, list_elem_of_fmap_2.
  - eapply list.Forall_impl; [exact Hz1|]. intros i. apply zero_message_lookup.
  - apply list.Forall_forall. intros o Ho. split.
    + by apply zero_message_lookup, (proj1 (list.Forall_forall _ _) Hz2).
    + unfold has. simpl. apply Z.bits_0.
Qed.

Program Definition message_codec es ds os cs ms `{Ma : !Mandatory es ds, Op : !Options os cs}
    (Hok : table_ok ms m_items o_items) : MessageCodec (encode_message es os) (decode_message ds cs) ms :=
  {| items := m_items; opts := o_items; mc_ok := Hok |}.
Next Obligation. intros es ds os cs ms [? -> ->] [? -> ->] ?. done. Qed.
Next Obligation. intros es ds os cs ms [? -> ->] [? -> ->] ?. done. Qed.

Ltac solve_table :=
  apply table_ok_check;
  [ apply (bool_decide_unpack _); vm_compute; exact I .. | vm_compute; reflexivity | vm_compute; reflexivity
  | vm_compute; repeat split ].
Ltac solve_message := unshelve eapply message_codec; [typeclasses eauto .. | solve_table].

(** ** Messages *)
#[export] Instance attach_request_message :
  MessageCodec ogs_nas_encode_attach_request ogs_nas_decode_attach_request ogs_nas_attach_request_t.
Proof. solve_message. Defined.
#[export] Instance attach_accept_message :
  MessageCodec ogs_nas_encode_attach_accept ogs_nas_decode_attach_accept ogs_nas_attach_accept_t.
Proof. solve_message. Defined.
#[export] Instance attach_complete_message :
  MessageCodec ogs_nas_encode_attach_complete ogs_nas_decode_attach_complete ogs_nas_attach_complete_t.
Proof. solve_message. Defined.
#[export] Instance attach_reject_message :
  MessageCodec ogs_nas_encode_attach_reject ogs_nas_decode_attach_reject ogs_nas_attach_reject_t.
Proof. solve_message. Defined.
#[export] Instance tracking_area_update_request_message :
  MessageCodec ogs_nas_encode_tracking_area_update_request ogs_nas_decode_tracking_area_update_request ogs_nas_tracking_area_update_request_t.
Proof. solve_message. Defined.
#[export] Instance tracking_area_update_accept_message :
  MessageCodec ogs_nas_encode_tracking_area_update_accept ogs_nas_decode_tracking_area_update_accept ogs_nas_tracking_area_update_accept_t.
Proof. solve_message. Defined.
#[export] Instance tracking_area_update_reject_message :
  MessageCodec ogs_nas_encode_tracking_area_update_reject ogs_nas_decode_tracking_area_update_reject ogs_nas_tracking_area_update_reject_t.
Proof. solve_message. Defined.
#[export] Instance extended_service_request_message :
  MessageCodec ogs_nas_encode_extended_service_request ogs_nas_decode_extended_service_request ogs_nas_extended_service_request_t.
Proof. solve_message. Defined.
#[export] Instance service_request_message :
  MessageCodec ogs_nas_encode_service_request ogs_nas_decode_service_request ogs_nas_service_request_t.
Proof. solve_message. Defined.
#[export] Instance service_reject_message :
  MessageCodec ogs_nas_encode_service_reject ogs_nas_decode_service_reject ogs_nas_service_reject_t.
Proof. solve_message. Defined.
#[export] Instance guti_reallocation_command_message :
  MessageCodec ogs_nas_encode_guti_reallocation_command ogs_nas_decode_guti_reallocation_command ogs_nas_guti_reallocation_command_t.
Proof. solve_message. Defined.
#[export] Instance authentication_response_message :
  MessageCodec ogs_nas_encode_authentication_response ogs_nas_decode_authentication_response ogs_nas_authentication_response_t.
Proof. solve_message. Defined.
#[export] Instance identity_request_message :
  MessageCodec ogs_nas_encode_identity_request ogs_nas_decode_identity_request ogs_nas_identity_request_t.
Proof. solve_message. Defined.
#[export] Instance identity_response_message :
  MessageCodec ogs_nas_encode_identity_response ogs_nas_decode_identity_response ogs_nas_identity_response_t.
Proof. solve_message. Defined.
#[export] Instance authentication_failure_message :
  MessageCodec ogs_nas_encode_authentication_failure ogs_nas_decode_authentication_failure ogs_nas_authentication_failure_t.
Proof. solve_message. Defined.
#[export] Instance security_mode_complete_message :
  MessageCodec ogs_nas_encode_security_mode_complete ogs_nas_decode_security_mode_complete ogs_nas_security_mode_complete_t.
Proof. solve_message. Defined.
#[export] Instance security_mode_reject_message :
  MessageCodec ogs_nas_encode_security_mode_reject ogs_nas_decode_security_mode_reject ogs_nas_security_mode_reject_t.
Proof. solve_message. Defined.
#[export] Instance emm_status_message :
  MessageCodec ogs_nas_encode_emm_status ogs_nas_decode_emm_status ogs_nas_emm_status_t.
Proof. solve_message. Defined.
#[export] Instance emm_information_message :
  MessageCodec ogs_nas_encode_emm_information ogs_nas_decode_emm_information ogs_nas_emm_information_t.
Proof. solve_message. Defined.
#[export] Instance downlink_nas_transport_message :
  MessageCodec ogs_nas_encode_downlink_nas_transport ogs_nas_decode_downlink_nas_transport ogs_nas_downlink_nas_transport_t.
Proof. solve_message. Defined.
#[export] Instance uplink_nas_transport_message :
  MessageCodec ogs_nas_encode_uplink_nas_transport ogs_nas_decode_uplink_nas_transport ogs_nas_uplink_nas_transport_t.
Proof. solve_message. Defined.
#[export] Instance cs_service_notification_message :
  MessageCodec ogs_nas_encode_cs_service_notification ogs_nas_decode_cs_service_notification ogs_nas_cs_service_notification_t.
Proof. solve_message. Defined.
#[export] Instance uplink_generic_nas_transport_message :
  MessageCodec ogs_nas_encode_uplink_generic_nas_transport ogs_nas_decode_uplink_generic_nas_transport ogs_nas_uplink_generic_nas_transport_t.
Proof. solve_message. Defined.
#[export] Instance downlink_generic_nas_transport_message :
  MessageCodec ogs_nas_encode_downlink_generic_nas_transport ogs_nas_decode_downlink_generic_nas_transport ogs_nas_downlink_generic_nas_transport_t.
Proof. solve_message. Defined.
#[export] Instance activate_default_eps_bearer_context_request_message :
  MessageCodec ogs_nas_encode_activate_default_eps_bearer_context_request ogs_nas_decode_activate_default_eps_bearer_context_request ogs_nas_activate_default_eps_bearer_context_request_t.
Proof. solve_message. Defined.
#[export] Instance activate_default_eps_bearer_context_accept_message :
  MessageCodec ogs_nas_encode_activate_default_eps_bearer_context_accept ogs_nas_decode_activate_default_eps_bearer_context_accept ogs_nas_activate_default_eps_bearer_context_accept_t.
Proof. solve_message. Defined.
#[export] Instance activate_default_eps_bearer_context_reject_message :
  MessageCodec ogs_nas_encode_activate_default_eps_bearer_context_reject ogs_nas_decode_activate_default_eps_bearer_context_reject ogs_nas_activate_default_eps_bearer_context_reject_t.
Proof. solve_message. Defined.
#[export] Instance activate_dedicated_eps_bearer_context_request_message :
  MessageCodec ogs_nas_encode_activate_dedicated_eps_bearer_context_request ogs_nas_decode_activate_dedicated_eps_bearer_context_request ogs_nas_activate_dedicated_eps_bearer_context_request_t.
Proof. solve_message. Defined.
#[export] Instance activate_dedicated_eps_bearer_context_accept_message :
  MessageCodec ogs_nas_encode_activate_dedicated_eps_bearer_context_accept ogs_nas_decode_activate_dedicated_eps_bearer_context_accept ogs_nas_activate_dedicated_eps_bearer_context_accept_t.
Proof. solve_message. Defined.
#[export] Instance activate_dedicated_eps_bearer_context_reject_message :
  MessageCodec ogs_nas_encode_activate_dedicated_eps_bearer_context_reject ogs_nas_decode_activate_dedicated_eps_bearer_context_reject ogs_nas_activate_dedicated_eps_bearer_context_reject_t.
Proof. solve_message. Defined.
#[export] Instance modify_eps_bearer_context_request_message :
  MessageCodec ogs_nas_encode_modify_eps_bearer_context_request ogs_nas_decode_modify_eps_bearer_context_request ogs_nas_modify_eps_bearer_context_request_t.
Proof. solve_message. Defined.
#[export] Instance modify_eps_bearer_context_accept_message :
  MessageCodec ogs_nas_encode_modify_eps_bearer_context_accept ogs_nas_decode_modify_eps_bearer_context_accept ogs_nas_modify_eps_bearer_context_accept_t.
Proof. solve_message. Defined.
#[export] Instance modify_eps_bearer_context_reject_message :
  MessageCodec ogs_nas_encode_modify_eps_bearer_context_reject ogs_nas_decode_modify_eps_bearer_context_reject ogs_nas_modify_eps_bearer_context_reject_t.
Proof. solve_message. Defined.
#[export] Instance deactivate_eps_bearer_context_request_message :
  MessageCodec ogs_nas_encode_deactivate_eps_bearer_context_request ogs_nas_decode_deactivate_eps_bearer_context_request ogs_nas_deactivate_eps_bearer_context_request_t.
Proof. solve_message. Defined.
#[export] Instance deactivate_eps_bearer_context_accept_message :
  MessageCodec ogs_nas_encode_deactivate_eps_bearer_context_accept ogs_nas_decode_deactivate_eps_bearer_context_accept ogs_nas_deactivate_eps_bearer_context_accept_t.
Proof. solve_message. Defined.
#[export] Instance pdn_connectivity_request_message :
  MessageCodec ogs_nas_encode_pdn_connectivity_request ogs_nas_decode_pdn_connectivity_request ogs_nas_pdn_connectivity_request_t.
Proof. solve_message. Defined.
#[export] Instance pdn_connectivity_reject_message :
  MessageCodec ogs_nas_encode_pdn_connectivity_reject ogs_nas_decode_pdn_connectivity_reject ogs_nas_pdn_connectivity_reject_t.
Proof. solve_message. Defined.
#[export] Instance pdn_disconnect_request_message :
  MessageCodec ogs_nas_encode_pdn_disconnect_request ogs_nas_decode_pdn_disconnect_request ogs_nas_pdn_disconnect_request_t.
Proof. solve_message. Defined.
#[export] Instance pdn_disconnect_reject_message :
  MessageCodec ogs_nas_encode_pdn_disconnect_reject ogs_nas_decode_pdn_disconnect_reject ogs_nas_pdn_disconnect_reject_t.
Proof. solve_message. Defined.
#[export] Instance bearer_resource_allocation_request_message :
  MessageCodec ogs_nas_encode_bearer_resource_allocation_request ogs_nas_decode_bearer_resource_allocation_request ogs_nas_bearer_resource_allocation_request_t.
Proof. solve_message. Defined.
#[export] Instance bearer_resource_allocation_reject_message :
  MessageCodec ogs_nas_encode_bearer_resource_allocation_reject ogs_nas_decode_bearer_resource_allocation_reject ogs_nas_bearer_resource_allocation_reject_t.
Proof. solve_message. Defined.
#[export] Instance bearer_resource_modification_request_message :
  MessageCodec ogs_nas_encode_bearer_resource_modification_request ogs_nas_decode_bearer_resource_modification_request ogs_nas_bearer_resource_modification_request_t.
Proof. solve_message. Defined.
#[export] Instance bearer_resource_modification_reject_message :
  MessageCodec ogs_nas_encode_bearer_resource_modification_reject ogs_nas_decode_bearer_resource_modification_reject ogs_nas_bearer_resource_modification_reject_t.
Proof. solve_message. Defined.
#[export] Instance esm_information_response_message :
  MessageCodec ogs_nas_encode_esm_information_response ogs_nas_decode_esm_information_response ogs_nas_esm_information_response_t.
Proof. solve_message. Defined.
#[export] Instance esm_status_message :
  MessageCodec ogs_nas_encode_esm_status ogs_nas_decode_esm_status ogs_nas_esm_status_t.
Proof. solve_message. Defined.

(** The messages of mobility management. *)
Definition emm_codecs : list coded :=
  [Coded 65 _ _ _ attach_request_message;
   Coded 66 _ _ _ attach_accept_message;
   Coded 67 _ _ _ attach_complete_message;
   Coded 68 _ _ _ attach_reject_message;
   Coded 72 _ _ _ tracking_area_update_request_message;
   Coded 73 _ _ _ tracking_area_update_accept_message;
   Coded 75 _ _ _ tracking_area_update_reject_message;
   Coded 76 _ _ _ extended_service_request_message;
   Coded 78 _ _ _ service_reject_message;
   Coded 80 _ _ _ guti_reallocation_command_message;
   Coded 83 _ _ _ authentication_response_message;
   Coded 85 _ _ _ identity_request_message;
   Coded 86 _ _ _ identity_response_message;
   Coded 92 _ _ _ authentication_failure_message;
   Coded 94 _ _ _ security_mode_complete_message;
   Coded 95 _ _ _ security_mode_reject_message;
   Coded 96 _ _ _ emm_status_message;
   Coded 97 _ _ _ emm_information_message;
   Coded 98 _ _ _ downlink_nas_transport_message;
   Coded 99 _ _ _ uplink_nas_transport_message;
   Coded 100 _ _ _ cs_service_notification_message;
   Coded 101 _ _ _ uplink_generic_nas_transport_message;
   Coded 104 _ _ _ downlink_generic_nas_transport_message].

(** The messages of session management. *)
Definition esm_codecs : list coded :=
  [Coded 193 _ _ _ activate_default_eps_bearer_context_request_message;
   Coded 194 _ _ _ activate_default_eps_bearer_context_accept_message;
   Coded 195 _ _ _ activate_default_eps_bearer_context_reject_message;
   Coded 197 _ _ _ activate_dedicated_eps_bearer_context_request_message;
   Coded 198 _ _ _ activate_dedicated_eps_bearer_context_accept_message;
   Coded 199 _ _ _ activate_dedicated_eps_bearer_context_reject_message;
   Coded 201 _ _ _ modify_eps_bearer_context_request_message;
   Coded 202 _ _ _ modify_eps_bearer_context_accept_message;
   Coded 203 _ _ _ modify_eps_bearer_context_reject_message;
   Coded 205 _ _ _ deactivate_eps_bearer_context_request_message;
   Coded 206 _ _ _ deactivate_eps_bearer_context_accept_message;
   Coded 208 _ _ _ pdn_connectivity_request_message;
   Coded 209 _ _ _ pdn_connectivity_reject_message;
   Coded 210 _ _ _ pdn_disconnect_request_message;
   Coded 211 _ _ _ pdn_disconnect_reject_message;
   Coded 212 _ _ _ bearer_resource_allocation_request_message;
   Coded 213 _ _ _ bearer_resource_allocation_reject_message;
   Coded 214 _ _ _ bearer_resource_modification_request_message;
   Coded 215 _ _ _ bearer_resource_modification_reject_message;
   Coded 218 _ _ _ esm_information_response_message;
   Coded 232 _ _ _ esm_status_message].

End codecs.
