(* ===== verification/NasDelivery.v ===== *)
(** * NAS: what is encoded arrives, and how decoding ends

    Every message of the switches that has a codec is decoded as it was
    encoded; the loop over the optional elements ends for every packet;
    decoding leaves the octets of a packet alone; and what a packet does that
    announces more octets than an element or the packet holds. *)
From stdpp Require Import strings.
From S2P Require Import Prelude.
From S2P Require Import CMem.
From S2P Require Import OgsLib.
From S2P Require Import NasIes.
From S2P Require Import NasMsg.
From S2P Require Import NasCodecLaws.
From S2P Require Import NasCodecSpec.
From S2P Require Import NasCodecs.
#[local] Open Scope Z_scope.

Section delivery.
Context `{Host, OgsBitsLaws, OgsPkbufLaws, OgsLengths, OgsFqdnLaws, OgsSduLaws}.

(** ** Round trips *)
Definition case_of (enc dec : list (Z * option (members * (message → M pkbuf (Z * message))))) (c : coded) : Prop :=
  find_case enc (c_type c) = Some (Some (c_ms c, c_enc c)) ∧
  find_case dec (c_type c) = Some (Some (c_ms c, c_dec c)).

Lemma esm_cases_coded : Forall (case_of esm_encode_cases esm_decode_cases) esm_codecs.
Proof. unfold esm_codecs. repeat (apply list.Forall_cons_2; [by split|]). apply list.Forall_nil_2. Qed.

(** Every type with elements that the encoder's switch has, but those in
    [except], has a codec in [codecs]. *)
Definition covers (codecs : list coded) (except : list Z)
    (cases : list (Z * option (members * (message → M pkbuf (Z * message))))) : Prop :=
  ∀ t f, find_case cases t = Some (Some f) → t ∈ except ∨ ∃ c, c ∈ codecs ∧ c_type c = t.
Lemma covers_check codecs except cases :
  forallb (λ x, match snd x with
    | Some _ => existsb (Z.eqb (fst x)) except || existsb (λ c, c_type c =? fst x) codecs
    | None => true
    end) cases = true → covers codecs except cases.
Proof.
  intros Hc t f E. unfold find_case in E. apply fmap_Some in E as ([t' o] & E & Eo). cbn in Eo. subst o.
  apply List.find_some in E as [Hin Et]. apply Z.eqb_eq in Et. cbn in Et. subst t'.
  rewrite forallb_forall in Hc. apply Hc in Hin. cbn in Hin.
  apply orb_true_iff in Hin as [(x & Hx & E)%existsb_exists|(c & Hx & E)%existsb_exists].
  - left. apply Z.eqb_eq in E as ->. by apply list_elem_of_In.
  - right. exists c. apply Z.eqb_eq in E. by rewrite list_elem_of_In.
Qed.


(** C20: ESM messages.  Every type of message with elements that
    [ogs_nas_esm_encode] knows has a codec in [esm_codecs], and a message with
    valid elements (which do not exceed their structures; access point names
    without the octet zero, at which the decoder cuts them) that fits a
    packet, encoded by [ogs_nas_plain_encode], is decoded by
    [ogs_nas_esm_decode] with the same header, the same elements present and
    the same values, whatever lies in front of it. *)
Theorem esm_roundtrip :
  covers esm_codecs [] esm_encode_cases ∧
  ∀ c h m, c ∈ esm_codecs → c_ok c m →
    length h = sizeof_esm_header → nth 2 h 0 = c_type c →
    protocol_discriminator h = OGS_NAS_PROTOCOL_DISCRIMINATOR_ESM →
    fits_packet c h m → delivered c ogs_nas_esm_decode h m.
Proof.
  split; [by apply covers_check|]. intros c h m Hc Hok Hh Ht Hp Hf.
  destruct (proj1 (list.Forall_forall _ _) esm_cases_coded c Hc) as [Ee Ed]. rewrite <- Ht in Ee, Ed.
  exact (esm_delivered c h m Hok Hf (c_ms c) Hh Hp Ee Ed).
Qed.

(** ** The loop over the optional elements *)
Definition add_size (n : Z) (r : outcome (Z * message * pkbuf)) : outcome (Z * message * pkbuf) :=
  '(done, m, b) ← r; Ok (n + done, m, b).
(** [while(pkbuf->len > 0)], without fuel: how the loop ends when it does. *)
Inductive loop (cs : list (Z * string * (ie_t → M pkbuf (Z * ie_t)) * Z)) :
    message → pkbuf → outcome (Z * message * pkbuf) → Prop :=
| loop_end m b : pk_data b = [] → loop cs m b (Ok (0, m, b))
| loop_round m b octet rest size m' b' r : pk_data b = octet :: rest →
    decode_optional cs octet m b = Ok ((size, m'), b') → loop cs m' b' r → loop cs m b (add_size size r)
| loop_aborted m b octet rest : pk_data b = octet :: rest →
    decode_optional cs octet m b = Aborted → loop cs m b Aborted
| loop_undef m b octet rest : pk_data b = octet :: rest →
    decode_optional cs octet m b = Undef → loop cs m b Undef.

Lemma on_field_takes name f m : (∀ x, keeps consumes (f x)) → keeps consumes (on_field name f m).
Proof. intros Hf. unfold on_field. keeps_tac. Qed.
#[local] Hint Resolve on_field_takes : keeps.

(** Every round takes an octet. *)
Lemma decode_optional_takes os octet m b size m' b' :
  decode_optional (cases_of os) octet m b = Ok ((size, m'), b') → (length (pk_data b') < length (pk_data b))%nat.
Proof.
  unfold decode_optional, pull at 1. intros E. apply M_bind_ok in E as ([] & b1 & E1 & E).
  unfold mbind, M_bind, get in E1. destruct (ogs_pkbuf_pull b 1) as [b2|] eqn:Ep; [|done].
  injection E1 as <-. destruct (pkbuf_pull_spec _ _ _ Ep) as (Hn & _ & Ed).
  assert (length (pk_data b2) < length (pk_data b))%nat as Hlt by (rewrite Ed, length_drop; lia).
  enough (keeps consumes (match List.find (λ c, case_type c =? element_type octet) (cases_of os) with
    | Some (_, name, f, bit) => '(size, m) ← on_field name f m;
        mret (1 + size, {| fields := fields m; presencemask := Z.lor (presencemask m) bit |})
    | None => mret (1, m) end)) as Hk.
  { destruct (Hk _ _ _ E) as [_ Hl]. lia. }
  destruct (List.find _ _) as [[[[t name] f] bit]|] eqn:Ef; [|keeps_tac].
  apply find_some in Ef as [Hin _]. apply list_elem_of_In, list_elem_of_fmap in Hin as (o & [= -> -> -> ->] & _).
  assert (∀ x, keeps consumes (o_dec o x)) by (intros; apply (opt_takes (Opt := o_opt o))).
  keeps_tac.
Qed.

(** the loop of the decoding functions ends on every packet, and the fuel
    of [decode_message] is enough to follow it to its end: each round takes at
    least one octet. *)
Theorem optionals_end (c : coded) m b :
  loop (cases_of (opts (MessageCodec := c_codec c))) m b
    (optionals (S (length (pk_data b))) (cases_of (opts (MessageCodec := c_codec c))) m b).
Proof.
  set (os := opts). remember (S (length (pk_data b))) as fuel eqn:Ef.
  assert (length (pk_data b) < fuel)%nat as Hlt by lia. clear Ef. revert m b Hlt.
  induction fuel as [|fuel IH]; intros m b Hlt; [lia|].
  cbn [optionals]. m_ret. destruct (pk_data b) as [|octet rest] eqn:Ed; [by apply loop_end|].
  unfold mbind at 1, M_bind at 1. destruct (decode_optional (cases_of os) octet m b) as [[[size m'] b']| |] eqn:E.
  - pose proof (decode_optional_takes _ _ _ _ _ _ _ E) as Hl. rewrite Ed in Hl. simpl in Hl, Hlt.
    pose proof (IH m' b' ltac:(lia)) as Hr. pose proof (loop_round _ _ _ _ _ _ _ _ _ Ed E Hr) as Hl'.
    unfold add_size in Hl'. unfold mbind, M_bind.
    destruct (optionals fuel (cases_of os) m' b') as [[[done m2] b2]| |]; exact Hl'.
  - by eapply loop_aborted.
  - by eapply loop_undef.
Qed.

(** ** The packet *)
Definition same_octets (b b' : pkbuf) : Prop := pk_head b ++ pk_data b = pk_head b' ++ pk_data b'.
#[export] Instance same_octets_preorder : PreOrder same_octets.
Proof. split; [by intros b|]. intros a b c E1 E2. unfold same_octets in *. congruence. Qed.

Lemma consumes_same {A} (f : M pkbuf A) : keeps consumes f → keeps same_octets f.
Proof. intros Hf s a s' E. by destruct (Hf s a s' E). Qed.
Lemma keeps_push n : keeps same_octets (push n).
Proof.
  intros s [] s'. unfold push, mbind, M_bind, get. destruct (ogs_pkbuf_push s n) as [s1|] eqn:E; [|done].
  intros [= <-]. destruct (pkbuf_push_spec _ _ _ E) as (Hn & Eh & Ed). unfold same_octets.
  by rewrite Eh, Ed, app_assoc, take_drop.
Qed.
Lemma same_pull n : keeps same_octets (pull n).
Proof. apply consumes_same, keeps_pull. Qed.
Lemma same_passed n : keeps same_octets (passed n).
Proof. apply consumes_same, keeps_passed. Qed.
#[local] Hint Resolve keeps_push keeps_pull keeps_passed same_pull same_passed : keeps.

Lemma mandatory_takes its m : Forall (λ i, ∀ x, keeps consumes (snd i x)) its →
  keeps consumes (mandatory its m).
Proof.
  intros Hf. revert m. induction Hf as [|[name f] its Hf _ IH]; intros m; simpl; [keeps_tac|].
  assert (∀ m, keeps consumes (mandatory its m)) by exact IH. simpl in Hf. keeps_tac.
Qed.
Lemma optionals_takes cs fuel m : Forall (λ c, ∀ x, keeps consumes (snd (fst c) x)) cs →
  keeps consumes (optionals fuel cs m).
Proof.
  intros Hf. assert (∀ octet m, keeps consumes (decode_optional cs octet m)) as Hd.
  { intros octet m'. unfold decode_optional.
    destruct (List.find _ cs) as [[[[t name] f] bit]|] eqn:E; [|keeps_tac].
    apply find_some in E as [Hin _]. apply list_elem_of_In in Hin.
    pose proof (proj1 (list.Forall_forall _ _) Hf _ Hin) as Hx. simpl in Hx. keeps_tac. }
  revert m. induction fuel as [|fuel IH]; intros m; simpl; keeps_tac.
Qed.
Lemma decode_message_takes its cs m : Forall (λ i, ∀ x, keeps consumes (snd i x)) its →
  Forall (λ c, ∀ x, keeps consumes (snd (fst c) x)) cs → keeps consumes (decode_message its cs m).
Proof.
  intros Hi Hc. unfold decode_message.
  pose proof (mandatory_takes its m Hi). pose proof (λ fuel m, optionals_takes cs fuel m Hc). keeps_tac.
Qed.
Lemma message_takes {enc dec ms} {C : MessageCodec enc dec ms} m : keeps consumes (dec m).
Proof.
  rewrite (f_equal (λ f, f m) mc_dec). apply decode_message_takes.
  - apply list.Forall_fmap, list.Forall_true. intros i x. apply (dec_takes (Codec := i_codec i)).
  - apply list.Forall_fmap, list.Forall_true. intros o x. apply (opt_takes (Opt := o_opt o)).
Qed.

(** Messages without a codec. *)
Lemma authentication_request_takes m : keeps consumes (ogs_nas_decode_authentication_request m).
Proof.
  apply decode_message_takes; [|done]. repeat apply list.Forall_cons_2; [| | |done]; intros x.
  - apply decode_half_takes.
  - apply decode_v_takes.
  - apply decode_lv_takes.
Qed.
Lemma security_mode_command_takes m : keeps consumes (ogs_nas_decode_security_mode_command m).
Proof.
  apply decode_message_takes; repeat apply list.Forall_cons_2; try done; intros x;
    (apply decode_half_takes || apply decode_v_takes || apply decode_lv_takes).
Qed.
Lemma detach_request_takes m : keeps consumes (ogs_nas_decode_detach_request_from_ue m).
Proof.
  apply decode_message_takes; repeat apply list.Forall_cons_2; try done; intros x;
    (apply decode_v_takes || apply decode_lv_takes).
Qed.

Definition case_takes (e : Z * option (members * (message → M pkbuf (Z * message)))) : Prop :=
  match snd e with Some (_, f) => ∀ m, keeps consumes (f m) | None => True end.
Lemma emm_cases_take : Forall case_takes emm_decode_cases.
Proof.
  repeat apply list.Forall_cons_2;
  [exact (message_takes (C := attach_request_message))|exact (message_takes (C := attach_accept_message))
  |exact (message_takes (C := attach_complete_message))|exact (message_takes (C := attach_reject_message))
  |exact detach_request_takes|exact I|exact (message_takes (C := tracking_area_update_request_message))
  |exact (message_takes (C := tracking_area_update_accept_message))|exact I
  |exact (message_takes (C := tracking_area_update_reject_message))
  |exact (message_takes (C := extended_service_request_message))
  |exact (message_takes (C := service_reject_message))
  |exact (message_takes (C := guti_reallocation_command_message))|exact I|exact authentication_request_takes
  |exact (message_takes (C := authentication_response_message))|exact I
  |exact (message_takes (C := identity_request_message))
  |exact (message_takes (C := identity_response_message))
  |exact (message_takes (C := authentication_failure_message))|exact security_mode_command_takes
  |exact (message_takes (C := security_mode_complete_message))
  |exact (message_takes (C := security_mode_reject_message))|exact (message_takes (C := emm_status_message))
  |exact (message_takes (C := emm_information_message))
  |exact (message_takes (C := downlink_nas_transport_message))
  |exact (message_takes (C := uplink_nas_transport_message))
  |exact (message_takes (C := cs_service_notification_message))
  |exact (message_takes (C := uplink_generic_nas_transport_message))
  |exact (message_takes (C := downlink_generic_nas_transport_message))|done].
Qed.
Lemma esm_cases_take : Forall case_takes esm_decode_cases.
Proof.
  repeat apply list.Forall_cons_2;
  [exact (message_takes (C := activate_default_eps_bearer_context_request_message))
  |exact (message_takes (C := activate_default_eps_bearer_context_accept_message))
  |exact (message_takes (C := activate_default_eps_bearer_context_reject_message))
  |exact (message_takes (C := activate_dedicated_eps_bearer_context_request_message))
  |exact (message_takes (C := activate_dedicated_eps_bearer_context_accept_message))
  |exact (message_takes (C := activate_dedicated_eps_bearer_context_reject_message))
  |exact (message_takes (C := modify_eps_bearer_context_request_message))
  |exact (message_takes (C := modify_eps_bearer_context_accept_message))
  |exact (message_takes (C := modify_eps_bearer_context_reject_message))
  |exact (message_takes (C := deactivate_eps_bearer_context_request_message))
  |exact (message_takes (C := deactivate_eps_bearer_context_accept_message))
  |exact (message_takes (C := pdn_connectivity_request_message))
  |exact (message_takes (C := pdn_connectivity_reject_message))
  |exact (message_takes (C := pdn_disconnect_request_message))
  |exact (message_takes (C := pdn_disconnect_reject_message))
  |exact (message_takes (C := bearer_resource_allocation_request_message))
  |exact (message_takes (C := bearer_resource_allocation_reject_message))
  |exact (message_takes (C := bearer_resource_modification_request_message))
  |exact (message_takes (C := bearer_resource_modification_reject_message))|exact I
  |exact (message_takes (C := esm_information_response_message))
  |exact (message_takes (C := esm_status_message))|done].
Qed.

Lemma run_found cs type done : Forall case_takes cs →
  keeps same_octets (match find_case cs type with
    | Some (Some (ms, f)) => run_case f ms done
    | _ => push (Z.to_nat done);; mret (zero_message [])
    end).
Proof.
  intros Hcs. unfold find_case. destruct (List.find _ cs) as [[t [[ms f]|]]|] eqn:E; simpl; [|keeps_tac..].
  apply find_some in E as [Hin _]. apply list_elem_of_In in Hin.
  pose proof (proj1 (list.Forall_forall _ _) Hcs _ Hin) as Hf. unfold case_takes in Hf. simpl in Hf.
  assert (∀ m, keeps same_octets (f m)) by (intros; apply consumes_same, Hf). unfold run_case. keeps_tac.
Qed.

(** decoding moves the data pointer but changes no octet of a packet, and
    it leaves the packet as a whole (the octets in front of the pointer and
    behind it) as it found it, for every packet that it decodes. *)
Theorem decode_keeps_octets :
  keeps same_octets ogs_nas_emm_decode ∧ keeps same_octets ogs_nas_esm_decode.
Proof.
  split.
  - unfold ogs_nas_emm_decode. do 4 (apply keeps_bind; [exact _|keeps_tac|intros]).
    apply keeps_bind; [exact _| |keeps_tac].
    destruct (_ <=? _); [|apply (run_found _ _ 2), emm_cases_take].
    assert (∀ m, keeps same_octets (ogs_nas_decode_service_request m)).
    { intros m. apply consumes_same, (message_takes (C := service_request_message)). }
    unfold run_case. keeps_tac.
  - unfold ogs_nas_esm_decode. do 4 (apply keeps_bind; [exact _|keeps_tac|intros]).
    apply keeps_bind; [exact _|apply (run_found _ _ 3), esm_cases_take|keeps_tac].
Qed.

(** ** Lengths that lie *)
(** An element that announces more octets than the packet has stops the
    process; one that fits the packet and not its structure is copied past the
    end of the structure. *)
Lemma decode_lv_truncated od n h len rest : byte_ok len → Z.of_nat (length rest) < len →
  decode_lv 1 od (Image (replicate n 0)) {| pk_head := h; pk_data := len :: rest |} = Aborted.
Proof.
  intros Hb Hl. unfold byte_ok in Hb. unfold decode_lv.
  m_run (lift_run (image (Image (replicate n 0))) _ {| pk_head := h; pk_data := len :: rest |} eq_refl).
  m_ret. cbn [pk_data]. m_run (lift_run _ _ {| pk_head := h; pk_data := len :: rest |} (length_field_one len rest Hb)).
  rewrite (wrap_small 16) by lia. unfold pull, mbind, M_bind, get.
  by rewrite pull_none by (simpl; lia).
Qed.
Lemma decode_lv_too_long od n h len rest : byte_ok len → Z.of_nat n < len + 1 → len <= Z.of_nat (length rest) →
  decode_lv 1 od (Image (replicate n 0)) {| pk_head := h; pk_data := len :: rest |} = Undef.
Proof.
  intros Hb Hn Hl. unfold byte_ok in Hb. unfold decode_lv.
  m_run (lift_run (image (Image (replicate n 0))) _ {| pk_head := h; pk_data := len :: rest |} eq_refl).
  m_ret. cbn [pk_data]. m_run (lift_run _ _ {| pk_head := h; pk_data := len :: rest |} (length_field_one len rest Hb)).
  rewrite (wrap_small 16) by lia. set (size := Z.to_nat (len + Z.of_nat 1)).
  pose proof (take_drop size (len :: rest)) as Ed. rewrite <- Ed.
  assert (length (take size (len :: rest)) = size) as Es by (rewrite length_take_le; [done|simpl; lia]).
  rewrite (pull_passed _ h (take size (len :: rest))) by done.
  unfold mbind at 1, M_bind at 1, lift. destruct (copy_in (host_bytes 1 len) _) as [img| |] eqn:Ei;
    [|exfalso; revert Ei; unfold copy_in; by destruct (_ <=? _)%nat|done].
  assert (length img = n) as Hi.
  { revert Ei. unfold copy_in. destruct (Nat.leb_spec (length (host_bytes 1 len)) (length (replicate n 0))); [|done].
    intros [= <-]. rewrite length_app, length_drop, length_host_bytes, length_replicate in *. lia. }
  unfold mbind at 1, M_bind at 1, lift. unfold copy_in. rewrite Es, Hi.
  by rewrite (proj2 (Nat.leb_gt _ _)) by lia.
Qed.

(** [r]: the operation does not return. *)
Definition stopped {A} (aborted : bool) : outcome A := if aborted then Aborted else Undef.
Lemma bind_stopped {S A B} q (m : M S A) (f : A → M S B) s : m s = stopped q → (m ≫= f) s = stopped q.
Proof. unfold mbind, M_bind. intros ->. by destruct q. Qed.
Lemma on_field_stopped q name f m x b : fields m !! name = Some x → f x b = stopped q → on_field name f m b = stopped q.
Proof.
  intros E Ef. unfold on_field. m_run (lift_run (access (fields m !! name)) x b ltac:(by rewrite E)).
  by apply bind_stopped.
Qed.

Lemma attach_request_identity_stopped q h b0 attach_type len rest :
  security_header_type [b0; 65] < OGS_NAS_SECURITY_HEADER_FOR_SERVICE_REQUEST_MESSAGE →
  (∀ h, ogs_nas_decode_eps_mobile_identity (zero_ie ogs_nas_eps_mobile_identity_t)
    {| pk_head := h; pk_data := len :: rest |} = stopped q) →
  ogs_nas_emm_decode {| pk_head := h; pk_data := b0 :: 65 :: attach_type :: len :: rest |} = stopped q.
Proof.
  intros Hs Hq. unfold ogs_nas_emm_decode. m_ret.
  set (b := {| pk_head := h; pk_data := _ |}). m_run (massert_run (negb (length (pk_data b) =? 0)%nat) b eq_refl).
  change b with {| pk_head := h; pk_data := [b0; 65] ++ attach_type :: len :: rest |}.
  rewrite (read_header [b0; 65] (attach_type :: len :: rest) sizeof_emm_header) by done.
  rewrite (proj2 (Z.leb_gt _ _) Hs). apply bind_stopped, bind_stopped. unfold ogs_nas_decode_attach_request, decode_message.
  apply bind_stopped. cbn [mandatory].
  set (m := zero_message _).
  assert (∃ y, on_field "eps_attach_type" ogs_nas_decode_eps_attach_type m
    {| pk_head := h ++ [b0; 65]; pk_data := attach_type :: len :: rest |} =
    Ok ((1, put_field "eps_attach_type" y m),
        {| pk_head := (h ++ [b0; 65]) ++ [attach_type]; pk_data := len :: rest |})) as [y Ey].
  { eexists. eapply on_field_run; [by apply zero_message_lookup|..|done].
    change ogs_nas_decode_eps_attach_type with (decode_v 1 Ok). unfold decode_v.
    m_run (lift_run (image (zero_ie ogs_nas_eps_attach_type_t)) [0]
      {| pk_head := h ++ [b0; 65]; pk_data := attach_type :: len :: rest |} eq_refl).
    by rewrite (pull_passed _ (h ++ [b0; 65]) [attach_type] (len :: rest) 1) by done. }
  m_run Ey. apply bind_stopped, bind_stopped. apply on_field_stopped with (x := zero_ie ogs_nas_eps_mobile_identity_t).
  - unfold put_field. cbn [fields]. rewrite lookup_insert_ne by done. by apply zero_message_lookup.
  - apply Hq.
Qed.

(** a UE chooses the length of the identity in its ATTACH REQUEST: when
    the packet is shorter than it says the process stops, and when it is
    longer than the structure [ogs_nas_eps_mobile_identity_t] the octets of the
    UE are written behind the structure. *)
Theorem attach_request_identity_length h b0 attach_type len rest :
  security_header_type [b0; 65] < OGS_NAS_SECURITY_HEADER_FOR_SERVICE_REQUEST_MESSAGE → byte_ok len →
  let packet := {| pk_head := h; pk_data := b0 :: 65 :: attach_type :: len :: rest |} in
  (Z.of_nat (length rest) < len → ogs_nas_emm_decode packet = Aborted) ∧
  (11 < len <= Z.of_nat (length rest) → ogs_nas_emm_decode packet = Undef).
Proof.
  intros Hs Hb packet. split; intros Hl.
  - apply (attach_request_identity_stopped true); [done|]. intros h'. by apply decode_lv_truncated.
  - apply (attach_request_identity_stopped false); [done|]. intros h'. apply decode_lv_too_long; simpl; [done|lia..].
Qed.
End delivery.
