(* ===== verification/NasCodecExamples.v ===== *)
(** * NAS messages at concrete inputs

    Concrete instances of the classes of the codec, an ATTACH ACCEPT and a PDN
    CONNECTIVITY REQUEST that are encoded and decoded, and packets that show
    what the codec does not do. *)
From stdpp Require Import strings.
From S2P Require Import Prelude.
From S2P Require Import CMem.
From S2P Require Import OgsLib.
From S2P Require Import OgsRef.
From S2P Require Import NasIes.
From S2P Require Import NasMsg.
From S2P Require Import NasCodecLaws.
From S2P Require Import NasCodecSpec.
From S2P Require Import NasCodecs.
From S2P Require Import NasDelivery.
#[local] Open Scope Z_scope.

(** ** Instances *)
#[export] Instance ref_lengths : OgsLengths := {|
  OGS_RAND_LEN := 16; OGS_AUTN_LEN := 16; OGS_AUTS_LEN := 14; OGS_MAX_RES_LEN := 16;
  OGS_MAX_APN_LEN := 100; OGS_MAX_PCO_LEN := 251; OGS_IPV6_LEN := 16;
|}.
#[export] Instance ref_sdu : OgsSdu := {| OGS_MAX_SDU_LEN := Z.to_nat 8192; fresh_octets n := replicate n 0 |}.
#[export] Instance ref_sdu_laws : OgsSduLaws.
Proof. split. intros n. apply length_replicate. Qed.

(** Names: labels with a length in front, for text with dots. *)
Fixpoint ref_labels (s : list Z) : list Z * list (list Z) :=
  match s with
  | [] => ([], [])
  | c :: s => let '(l, ls) := ref_labels s in if c =? 46 then ([], l :: ls) else (c :: l, ls)
  end.
Definition ref_label (l : list Z) : list Z := u8 (Z.of_nat (length l)) :: l.
Definition ref_fqdn_build (s : list Z) : list Z :=
  let '(l, ls) := ref_labels s in ref_label l ++ concat (ref_label <$> ls).
Fixpoint ref_fqdn_text (fuel : nat) (bs : list Z) : outcome (list Z) :=
  match fuel, bs with
  | _, [] => Ok []
  | S fuel, n :: bs =>
      l ← access (slice 0 (Z.to_nat n) bs);
      rest ← ref_fqdn_text fuel (drop (Z.to_nat n) bs);
      Ok (46 :: l ++ rest)
  | O, _ => Undef
  end.
Definition ref_fqdn_parse (bs : list Z) : outcome (list Z) :=
  s ← ref_fqdn_text (length bs) bs; Ok (drop 1 s).
#[export] Instance ref_fqdn : OgsFqdn :=
  {| ogs_fqdn_parse := ref_fqdn_parse; ogs_fqdn_build := ref_fqdn_build |}.

Lemma ref_labels_spec s : let '(l, ls) := ref_labels s in
  s = l ++ concat (cons 46 <$> ls) ∧ (bytes_ok s → Forall bytes_ok (l :: ls)) ∧
  Forall (λ l, (length l <= length s)%nat) (l :: ls).
Proof.
  induction s as [|c s IH]; simpl; [by repeat constructor|].
  destruct (ref_labels s) as [l ls] eqn:E. destruct IH as (Es & Hb & Hl).
  destruct (Z.eqb_spec c 46) as [->|Hne].
  - split; [by rewrite Es|]. split.
    + intros [_ Hs]%Forall_cons_1. constructor; [by constructor|]. by apply Hb.
    + constructor; [simpl; lia|]. eapply list.Forall_impl; [exact Hl|]. simpl. lia.
  - inversion Hl as [|? ? Hl1 Hl2]. split; [by rewrite Es|]. split.
    + intros [Hc Hs]%Forall_cons_1. apply Hb, Forall_cons_1 in Hs as [Hl0 Hls].
      constructor; [by constructor|done].
    + constructor; [simpl; lia|]. eapply list.Forall_impl; [exact Hl2|]. simpl. lia.
Qed.
Lemma length_ref_label l : length (ref_label l) = S (length l).
Proof. done. Qed.

Lemma ref_text_labels ls fuel : Forall (λ l, (length l < 256)%nat) ls → (length (concat (ref_label <$> ls)) <= fuel)%nat →
  ref_fqdn_text fuel (concat (ref_label <$> ls)) = Ok (concat (cons 46 <$> ls)).
Proof.
  intros Hl. revert fuel. induction Hl as [|l ls Hl _ IH]; intros fuel Hf; [by destruct fuel|].
  rewrite !fmap_cons in *. cbn [concat] in *. rewrite length_app, length_ref_label in Hf.
  destruct fuel as [|fuel]; [lia|]. unfold ref_label at 1. cbn [ref_fqdn_text app].
  rewrite (wrap_small 8), Nat2Z.id by lia. rewrite slice_prefix, drop_app_length by done.
  cbn [access mbind outcome_bind]. by rewrite IH by lia.
Qed.

#[export] Instance ref_fqdn_laws : OgsFqdnLaws.
Proof.
  assert (∀ l, bytes_ok l → bytes_ok (ref_label l)) as Hlab.
  { intros l Hl. constructor; [|done]. apply wrap_range. lia. }
  split; intros s.
  - simpl. unfold ref_fqdn_build. pose proof (ref_labels_spec s) as Hs.
    destruct (ref_labels s) as [l ls]. destruct Hs as (-> & _ & _).
    assert (length (concat (ref_label <$> ls)) = length (concat (cons 46 <$> ls))) as E.
    { induction ls as [|l' ls IH]; [done|]. rewrite !fmap_cons. cbn [concat]. by rewrite !length_app, IH. }
    by rewrite !length_app, length_ref_label, E.
  - intros Hb. simpl. unfold ref_fqdn_build. pose proof (ref_labels_spec s) as Hs.
    destruct (ref_labels s) as [l ls]. destruct Hs as (_ & Hok & _).
    destruct (Forall_cons_1 _ _ _ (Hok Hb)) as [Hbl Hls].
    apply Forall_app. split; [by apply Hlab|]. clear Hok. induction Hls as [|l' ls Hl' _ IH]; [by constructor|].
    rewrite fmap_cons. cbn [concat]. apply Forall_app. split; [by apply Hlab|done].
  - intros Hb Hlen. simpl. unfold ref_fqdn_parse, ref_fqdn_build. pose proof (ref_labels_spec s) as Hs.
    destruct (ref_labels s) as [l ls]. destruct Hs as (Es & _ & Hl).
    change (ref_label l ++ concat (ref_label <$> ls)) with (concat (ref_label <$> l :: ls)).
    rewrite ref_text_labels; [|by eapply list.Forall_impl; [exact Hl|]; simpl; lia|done].
    cbn [mbind outcome_bind]. rewrite fmap_cons. cbn [concat app drop]. by rewrite drop_0, <- Es.
Qed.

(** ** Messages *)
Fixpoint bytes_okb (bs : list Z) : bool :=
  match bs with [] => true | b :: bs => (0 <=? b) && (b <? 256) && bytes_okb bs end.
Lemma bytes_okb_ok bs : bytes_okb bs = true → bytes_ok bs.
Proof.
  induction bs as [|b bs IH]; simpl; [by constructor|].
  rewrite !andb_true_iff, Z.leb_le, Z.ltb_lt. intros [Hb Hbs]. constructor; [exact Hb|by apply IH].
Qed.

(** A structure that starts with [bs]. *)
Definition octets (t : ie_type) (bs : list Z) : ie_t := Image (bs ++ replicate (sizeof t - length bs) 0).
Definition message_of (ms : members) (xs : list (string * ie_t)) (mask : Z) : message :=
  {| fields := list_to_map xs ∪ fields (zero_message ms); presencemask := mask |}.

(** An ATTACH ACCEPT with a GUTI, a location area, T3402 and the additional
    update result. *)
Definition attach_accept : message := message_of ogs_nas_attach_accept_t
  [("eps_attach_result"%string, Image [2]);
   ("t3412_value"%string, Image [0x23]);
   ("tai_list"%string, octets ogs_nas_tracking_area_identity_list_t [6; 0; 0x02; 0xf8; 0x39; 0; 1]);
   ("esm_message_container"%string, Pointed 3 (Some [0x52; 1; 0xe8]));
   ("guti"%string, octets ogs_nas_eps_mobile_identity_t [11; 0xf6; 0x02; 0xf8; 0x39; 2; 0; 1; 4; 3; 2; 1]);
   ("location_area_identification"%string, Image [0x02; 0xf8; 0x39; 1; 0]);
   ("t3402_value"%string, Image [0x21]);
   ("additional_update_result"%string, Image [1])]
  (Z.lor (present 0) (Z.lor (present 1) (Z.lor (present 4) (present 9)))).
Definition attach_accept_coded : coded := Coded 66 _ _ _ attach_accept_message.

Ltac field_tac := eexists; split; [vm_compute; reflexivity|].
Ltac octets_tac := apply bytes_okb_ok; vm_compute; reflexivity.
Ltac v_tac := eexists; split_and!; [reflexivity|reflexivity|octets_tac].
Ltac absent_tac := let Hm := fresh in intros Hm; vm_compute in Hm; discriminate Hm.



(** A PDN CONNECTIVITY REQUEST with an access point name. *)
Definition connectivity_request : message := message_of ogs_nas_pdn_connectivity_request_t
  [("request_type"%string, Image [0x11]);
   ("esm_information_transfer_flag"%string, Image [1]);
   ("access_point_name"%string, octets ogs_nas_access_point_name_t [5; 0x61; 0x70; 46; 0x6e; 0x31])]
  (Z.lor (present 0) (present 1)).
Definition connectivity_request_coded : coded := Coded 208 _ _ _ pdn_connectivity_request_message.

Lemma connectivity_request_ok : c_ok connectivity_request_coded connectivity_request.
Proof.
  split.
  - repeat apply list.Forall_cons_2; [..|apply list.Forall_nil_2]; field_tac. v_tac.
  - repeat apply list.Forall_cons_2; [..|apply list.Forall_nil_2]; try absent_tac; intros _; field_tac.
    + eexists. split; [reflexivity|]. by split.
    + do 2 eexists. split_and!; [reflexivity|reflexivity|octets_tac|lia|vm_compute; lia|].
      repeat constructor; discriminate.
Qed.

Lemma esm_roundtrip_witness :
  c_wire connectivity_request_coded connectivity_request =
    [0x11; 0xd1; 0x28; 6; 2; 0x61; 0x70; 2; 0x6e; 0x31] ∧
  delivered connectivity_request_coded ogs_nas_esm_decode [0x02; 1; 208] connectivity_request.
Proof.
  split; [vm_compute; reflexivity|].
  apply (proj2 esm_roundtrip connectivity_request_coded [0x02; 1; 208] connectivity_request).
  - apply (list_elem_of_lookup_2 _ 11). reflexivity.
  - exact connectivity_request_ok.
  - reflexivity.
  - reflexivity.
  - vm_compute. reflexivity.
  - split; [apply Nat.leb_le; vm_compute; reflexivity|vm_compute; reflexivity].
Defined.

Lemma attach_request_identity_length_witness :
  ogs_nas_emm_decode {| pk_head := []; pk_data := [0x07; 65; 0x71; 0x0b; 0xf6] |} = Aborted ∧
  ogs_nas_emm_decode {| pk_head := []; pk_data := 0x07 :: 65 :: 0x71 :: 255 :: replicate 255 0x41 |} = Undef.
Proof.
  split.
  - apply (attach_request_identity_length [] 0x07 0x71 0x0b [0xf6]);
      [vm_compute; reflexivity|split; [lia|reflexivity]|reflexivity].
  - apply (attach_request_identity_length [] 0x07 0x71 255 (replicate 255 0x41));
      [vm_compute; reflexivity|split; [lia|reflexivity]|split; [reflexivity|vm_compute; discriminate]].
Defined.

(** Two optional elements of an ATTACH ACCEPT, and a third that is cut off. *)
Definition accept_options := cases_of (opts (MessageCodec := c_codec attach_accept_coded)).
Lemma optionals_end_witness :
  loop accept_options attach_accept {| pk_head := []; pk_data := [0x17; 0x21; 0xf1; 0x50; 11] |} Aborted ∧
  ∃ m b, loop accept_options attach_accept {| pk_head := []; pk_data := [0x17; 0x21; 0xf1] |} (Ok (3, m, b)).
Proof.
  split.
  - exact (optionals_end attach_accept_coded attach_accept
      {| pk_head := []; pk_data := [0x17; 0x21; 0xf1; 0x50; 11] |}).
  - do 2 eexists. exact (optionals_end attach_accept_coded attach_accept
      {| pk_head := []; pk_data := [0x17; 0x21; 0xf1] |}).
Defined.

Lemma decode_keeps_octets_witness :
  ∃ m b, ogs_nas_emm_decode {| pk_head := [1; 2]; pk_data := [0x07; 68; 9] |} = Ok (m, b) ∧
    [1; 2; 0x07; 68; 9] = pk_head b ++ pk_data b.
Proof.
  do 2 eexists. split; [vm_compute; reflexivity|].
  exact (proj1 decode_keeps_octets {| pk_head := [1; 2]; pk_data := [0x07; 68; 9] |} _ _ eq_refl).
Defined.

(** ** What is not decoded as it was encoded *)
Definition packet_of (r : outcome (rv_t * option pkbuf * ogs_nas_message_t)) : list Z :=
  match r with Ok (_, Some b, _) => pk_data b | _ => [] end.
Definition element_of {A} (n : string) (r : outcome (A * ogs_nas_message_t * pkbuf)) : option (list Z) :=
  match r with Ok (_, m, _) => octets_of <$> fields (body m) !! n | _ => None end.

(** A name with the octet zero is cut there. *)
Example name_with_zero_cut :
  (∃ m, ogs_nas_decode_access_point_name (octets ogs_nas_access_point_name_t [])
     {| pk_head := []; pk_data := [5; 4; 0x61; 0; 0x62; 0x63] |} = m ∧
   match m with Ok ((_, Image img), _) => take 6 img = [4; 0x61; 0; 0; 0x62; 0x63] | _ => False end).
Proof. eexists. split; [reflexivity|]. vm_compute. reflexivity. Qed.

(** The key set identifier of an AUTHENTICATION REQUEST is written as an octet
    of its own and read from the octet before it, the type of the message: the
    decoder finds RAND one octet too early. *)
Definition authentication_request : message := message_of ogs_nas_authentication_request_t
  [("nas_key_set_identifierasme"%string, Image [7]);
   ("authentication_parameter_rand"%string, Image (replicate 16 0xaa));
   ("authentication_parameter_autn"%string, octets ogs_nas_authentication_parameter_autn_t (16 :: replicate 16 0xbb))] 0.
Example authentication_request_misread :
  let packet := packet_of (ogs_nas_plain_encode {| header := [0x07; 82]; body := authentication_request |}) in
  packet = [0x07; 82; 7] ++ replicate 16 0xaa ++ 16 :: replicate 16 0xbb ∧
  ogs_nas_emm_decode {| pk_head := []; pk_data := packet |} = Aborted.
Proof. split; vm_compute; reflexivity. Qed.

(** T3442 is a mandatory element of the structure of SERVICE REJECT, and
    neither sent nor read. *)
Example service_reject_without_t3442 :
  let m := message_of ogs_nas_service_reject_t
    [("emm_cause"%string, Image [9]); ("t3442_value"%string, Image [0x21])] 0 in
  let packet := packet_of (ogs_nas_plain_encode {| header := [0x07; 78]; body := m |}) in
  packet = [0x07; 78; 9] ∧
  element_of "t3442_value"%string (ogs_nas_emm_decode {| pk_head := []; pk_data := packet |}) = Some [0].
Proof. split; vm_compute; reflexivity. Qed.

(** On this host (the least significant octet first) the P-TMSI signature is
    sent without conversion and read with one. *)
Example p_tmsi_signature_unconverted :
  ogs_nas_encode_p_tmsi_signature (Image (le_bytes 4 0x010203)) {| pk_head := []; pk_data := [0; 0; 0] |} =
    Ok ((3, Image (be_bytes 4 0x010203)), {| pk_head := [3; 2; 1]; pk_data := [] |}) ∧
  ogs_nas_decode_p_tmsi_signature (Image [0; 0; 0; 0]) {| pk_head := []; pk_data := [3; 2; 1] |} =
    Ok ((3, Image (le_bytes 4 0x03020100)), {| pk_head := [3; 2; 1]; pk_data := [] |}).
Proof. split; vm_compute; reflexivity. Qed.

(** The size of a container is a [uint16_t]: a length of 65534 is believed for
    a packet of any size. *)
Example container_length_wraps :
  ogs_nas_decode_esm_message_container (Pointed 0 None) {| pk_head := []; pk_data := [0xff; 0xfe; 1; 2] |} =
    Ok ((0, Pointed 65534 (Some [1; 2])), {| pk_head := []; pk_data := [0xff; 0xfe; 1; 2] |}).
Proof. vm_compute. reflexivity. Qed.
