(* ===== verification/NasSecurity.v ===== *)
(** * NAS security: [src/mme/nas-security.c], [s1ap_send_to_nas]

    Integrity protection and ciphering of NAS messages with the counters of
    the UE context.  The algorithms (SNOW 3G, AES, ZUC) come from ogslib and
    are parameters; the message codec [ogs_nas_plain_encode] is generated
    code, and the definitions take its result. *)
From S2P Require Import Prelude.
From S2P Require Import CMem.
From S2P Require Import OgsLib.
#[local] Open Scope Z_scope.

(** The algorithms.  Keys and data are octets, counts 32-bit. *)
Class Crypto := {
  snow_3g_f9 : list Z → Z → Z → Z → list Z → Z → list Z;
  ogs_aes_cmac_calculate : list Z → list Z → list Z;
  zuc_eia3 : list Z → Z → Z → Z → Z → list Z → Z;
  snow_3g_f8 : list Z → Z → Z → Z → list Z → Z → list Z;
  ogs_aes_ctr128_encrypt : list Z → list Z → list Z → list Z;
  zuc_eea3 : list Z → Z → Z → Z → Z → list Z → list Z;
}.

(** A MAC has four octets (the first four of a CMAC of sixteen); the ciphers
    are key streams: they keep the length and are their own inverse. *)
Class CryptoLaws `{Crypto} : Prop := {
  length_snow_3g_f9 k c f d m n : length (snow_3g_f9 k c f d m n) = 4%nat;
  length_aes_cmac k m : length (ogs_aes_cmac_calculate k m) = 16%nat;
  length_snow_3g_f8 k c b d m n : length (snow_3g_f8 k c b d m n) = length m;
  length_aes_ctr k iv m : length (ogs_aes_ctr128_encrypt k iv m) = length m;
  length_zuc_eea3 k c b d n m : length (zuc_eea3 k c b d n m) = length m;
  snow_3g_f8_inv k c b d m n : snow_3g_f8 k c b d (snow_3g_f8 k c b d m n) n = m;
  aes_ctr_inv k iv m : ogs_aes_ctr128_encrypt k iv (ogs_aes_ctr128_encrypt k iv m) = m;
  zuc_eea3_inv k c b d n m : zuc_eea3 k c b d n (zuc_eea3 k c b d n m) = m;
}.

Definition NAS_SECURITY_BEARER : Z := 0.
Definition NAS_SECURITY_DOWNLINK_DIRECTION : Z := 1.
Definition NAS_SECURITY_UPLINK_DIRECTION : Z := 0.
Definition NAS_SECURITY_MAC_SIZE : nat := 4.

(** [nas_security_header_type_t]. *)
Record nas_security_header_type_t := {
  integrity_protected : bool; ciphered : bool; new_security_context : bool;
  service_request : bool;
}.

(** [ul_count]: the union of a 32-bit count and its fields. *)
Record ul_count_t := { overflow : Z; sqn : Z }.
Definition ul_i32 (u : ul_count_t) : Z := overflow u * 256 + sqn u.

(** The part of [mme_ue_t] that the security functions use. *)
Record mme_ue_t := {
  selected_enc_algorithm : Z; selected_int_algorithm : Z;
  knas_enc : list Z; knas_int : list Z;
  dl_count : Z; ul_count : ul_count_t;
  security_context_available : bool; mac_failed : bool;
}.

Inductive rv_t := OGS_OK | OGS_ERROR.

(** [message->h] and the result of [ogs_nas_plain_encode(&new, message)]. *)
Record message_t := {
  h_security_header_type : Z; h_protocol_discriminator : Z; plain : pkbuf;
}.

Definition set_dl_count (n : Z) (u : mme_ue_t) : mme_ue_t :=
  {| selected_enc_algorithm := selected_enc_algorithm u;
     selected_int_algorithm := selected_int_algorithm u;
     knas_enc := knas_enc u; knas_int := knas_int u; dl_count := n; ul_count := ul_count u;
     security_context_available := security_context_available u; mac_failed := mac_failed u |}.
Definition set_ul_count (n : ul_count_t) (u : mme_ue_t) : mme_ue_t :=
  {| selected_enc_algorithm := selected_enc_algorithm u;
     selected_int_algorithm := selected_int_algorithm u;
     knas_enc := knas_enc u; knas_int := knas_int u; dl_count := dl_count u; ul_count := n;
     security_context_available := security_context_available u; mac_failed := mac_failed u |}.
Definition set_available (b : bool) (u : mme_ue_t) : mme_ue_t :=
  {| selected_enc_algorithm := selected_enc_algorithm u;
     selected_int_algorithm := selected_int_algorithm u;
     knas_enc := knas_enc u; knas_int := knas_int u; dl_count := dl_count u;
     ul_count := ul_count u; security_context_available := b; mac_failed := mac_failed u |}.
Definition set_mac_failed (b : bool) (u : mme_ue_t) : mme_ue_t :=
  {| selected_enc_algorithm := selected_enc_algorithm u;
     selected_int_algorithm := selected_int_algorithm u;
     knas_enc := knas_enc u; knas_int := knas_int u; dl_count := dl_count u;
     ul_count := ul_count u;
     security_context_available := security_context_available u; mac_failed := b |}.

(** [memcpy(p + off, bs, n)] on the octets [l], and [memcpy(to, p + off, n)]. *)
Definition poke (off : nat) (bs l : list Z) : outcome (list Z) :=
  if (off + length bs <=? length l)%nat
  then Ok (take off l ++ bs ++ drop (off + length bs) l) else Undef.
Definition peek (off n : nat) (l : list Z) : outcome (list Z) :=
  access (slice off n l).

Definition with_data (b : pkbuf) (d : list Z) : pkbuf := {| pk_head := pk_head b; pk_data := d |}.
Definition with_head (b : pkbuf) (h : list Z) : pkbuf := {| pk_head := h; pk_data := pk_data b |}.

Section security.
Context `{Host, OgsBits, OgsPkbuf, Crypto}.

Definition bits (b : pkbuf) : Z := Z.shiftl (Z.of_nat (length (pk_data b))) 3.

(** The first octets of the AES input block: count, bearer and direction. *)
Definition count_block (count bearer direction : Z) : list Z :=
  host_bytes 4 (htonl count)
  ++ [Z.lor (Z.shiftl bearer 3) (Z.shiftl direction 2); 0; 0; 0].

(** The packet (its headroom is scratch space) and the MAC; [mac] is what
    the caller's array holds before the call. *)
Definition nas_mac_calculate (algorithm_identity : Z) (knas_int : list Z)
    (count bearer direction : Z) (b : pkbuf) (mac : list Z) : outcome (pkbuf * list Z) :=
  ogs_assert ((0 <=? bearer) && (bearer <=? 0x1f));;
  ogs_assert ((direction =? 0) || (direction =? 1));;
  ogs_assert (negb (length (pk_data b) =? 0)%nat);;
  if algorithm_identity =? 1 then
    mret (b, snow_3g_f9 knas_int count (u32 (Z.shiftl bearer 27)) direction (pk_data b) (bits b))
  else if algorithm_identity =? 2 then
    let b := default b (ogs_pkbuf_push b 8) in
    d ← poke 0 (count_block count bearer direction) (pk_data b);
    let b := with_data b d in
    let cmac := ogs_aes_cmac_calculate knas_int (pk_data b) in
    let b := default b (ogs_pkbuf_pull b 8) in
    mret (b, take 4 cmac)
  else if algorithm_identity =? 3 then
    mret (b, host_bytes 4 (ntohl (zuc_eia3 knas_int count bearer direction (bits b) (pk_data b))))
  else if algorithm_identity =? 0 then mret (b, mac)
  else ogs_assert_if_reached.

Definition nas_encrypt (algorithm_identity : Z) (knas_enc : list Z)
    (count bearer direction : Z) (b : pkbuf) : outcome pkbuf :=
  ogs_assert ((0 <=? bearer) && (bearer <=? 0x1f));;
  ogs_assert ((direction =? 0) || (direction =? 1));;
  ogs_assert (negb (length (pk_data b) =? 0)%nat);;
  if algorithm_identity =? 1 then
    mret (with_data b (snow_3g_f8 knas_enc count bearer direction (pk_data b) (bits b)))
  else if algorithm_identity =? 2 then
    let ivec := count_block count bearer direction ++ replicate 8 0 in
    mret (with_data b (ogs_aes_ctr128_encrypt knas_enc ivec (pk_data b)))
  else if algorithm_identity =? 3 then
    mret (with_data b (zuc_eea3 knas_enc count bearer direction (bits b) (pk_data b)))
  else if algorithm_identity =? 0 then mret b
  else ogs_assert_if_reached.

(** An array that is written before it is read. *)
Definition uninit : list Z := replicate NAS_SECURITY_MAC_SIZE 0.

(** The flags of [switch (message->h.security_header_type)], or the other
    two outcomes. *)
Inductive header_kind :=
| Plain
| Protected (integrity_protected ciphered new_security_context : bool)
| Unknown.
Definition header_kind_of (t : Z) : header_kind :=
  if t =? 0 then Plain
  else if t =? 1 then Protected true false false
  else if t =? 2 then Protected true true false
  else if t =? 3 then Protected true false true
  else if t =? 4 then Protected true true true
  else Unknown.

Definition header_octet (type pd : Z) : Z := ed_pack [(4%nat, type); (4%nat, pd)].

(** The packet is [None] when [*pkbuf] is not written. *)
Definition nas_security_encode (message : message_t) : M mme_ue_t (rv_t * option pkbuf) :=
  match header_kind_of (h_security_header_type message) with
  | Plain => mret (OGS_OK, Some (plain message))
  | Unknown => mret (OGS_ERROR, None)
  | Protected integrity_protected ciphered new_security_context =>
      (if new_security_context then
         modify (λ u, set_ul_count {| overflow := 0; sqn := 0 |} (set_dl_count 0 u))
       else mret ());;
      u ← get;
      let ciphered := ciphered && negb (selected_enc_algorithm u =? 0) in
      let integrity_protected := integrity_protected && negb (selected_int_algorithm u =? 0) in
      if ciphered || integrity_protected then
        let sequence_number := Z.land (dl_count u) 0xff in
        let new := plain message in
        new ← (if ciphered then
                 lift (nas_encrypt (selected_enc_algorithm u) (knas_enc u) (dl_count u)
                         NAS_SECURITY_BEARER NAS_SECURITY_DOWNLINK_DIRECTION new)
               else mret new);
        new ← (match ogs_pkbuf_push new 1 with Some b => mret b | None => mabort end);
        d ← lift (poke 0 [sequence_number] (pk_data new));
        let new := with_data new d in
        '(new, mac) ← (if integrity_protected then
                 lift (nas_mac_calculate (selected_int_algorithm u) (knas_int u) (dl_count u)
                         NAS_SECURITY_BEARER NAS_SECURITY_DOWNLINK_DIRECTION new uninit)
               else mret (new, replicate 4 0));
        modify (set_dl_count (Z.land (dl_count u + 1) 0xffffff));;
        new ← (match ogs_pkbuf_push new 5 with Some b => mret b | None => mabort end);
        d ← lift (poke 0 (header_octet (h_security_header_type message)
                            (h_protocol_discriminator message) :: mac ++ [sequence_number])
                   (pk_data new));
        modify (set_available true);;
        mret (OGS_OK, Some (with_data new d))
      else mret (OGS_OK, None)
  end.

(** [if (sqn > n) overflow++; sqn = n;] *)
Definition advance (u : ul_count_t) (n : Z) : ul_count_t :=
  {| overflow := if n <? sqn u then u16 (overflow u + 1) else overflow u; sqn := n |}.

(** The full sequence number estimated from its five low bits. *)
Definition estimate (u : ul_count_t) (low : Z) : Z :=
  let high := Z.land (sqn u) 0xe0 in
  let high := if low <? Z.land (sqn u) 0x1f then u8 (high + 0x20) else high in
  u8 (low + high).

Definition byte_at (b : pkbuf) (i : nat) : outcome Z := access (pk_data b !! i).

Definition decode_service_request (b : pkbuf) : M mme_ue_t (rv_t * pkbuf) :=
  u ← get;
  if selected_int_algorithm u =? 0 then mret (OGS_ERROR, b)
  else
    ksi ← lift (byte_at b 1);
    let est := estimate (ul_count u) (nth 1 (ed_unpack [3; 5]%nat ksi) 0) in
    modify (set_ul_count (advance (ul_count u) est));;
    u ← get;
    original_mac ← lift (peek 2 2 (pk_data b));
    let b := ogs_pkbuf_trim b 2 in
    '(b, mac) ← lift (nas_mac_calculate (selected_int_algorithm u) (knas_int u)
                        (ul_i32 (ul_count u)) NAS_SECURITY_BEARER NAS_SECURITY_UPLINK_DIRECTION
                        b uninit);
    let b := default b (ogs_pkbuf_put_data b original_mac) in
    now ← lift (peek 2 2 (pk_data b));
    (if bool_decide (drop 2 mac = now) then mret () else modify (set_mac_failed true));;
    mret (OGS_OK, b).

(** The MAC field of the header in front of the data ([h] is five octets
    before it). *)
Definition header_mac (b : pkbuf) : outcome (list Z) :=
  peek (length (pk_head b) - 4) 4 (pk_head b).
Definition restore_mac (mac : list Z) (b : pkbuf) : outcome pkbuf :=
  h ← poke (length (pk_head b) - 4) mac (pk_head b); mret (with_head b h).

Definition nas_security_decode (t : nas_security_header_type_t) (b : pkbuf)
    : M mme_ue_t (rv_t * pkbuf) :=
  if service_request t then decode_service_request b
  else
    u ← get;
    let available := security_context_available u in
    (if new_security_context t && available
     then modify (set_ul_count {| overflow := 0; sqn := 0 |}) else mret ());;
    u ← get;
    let ciphered := ciphered t && available && negb (selected_enc_algorithm u =? 0) in
    let integrity_protected :=
      integrity_protected t && available && negb (selected_int_algorithm u =? 0) in
    if ciphered || integrity_protected then
      b ← (match ogs_pkbuf_push b 6 with Some b => mret b | None => mabort end);
      b ← (match ogs_pkbuf_pull b 5 with Some b => mret b | None => mabort end);
      sequence_number ← lift (byte_at b 0);
      modify (set_ul_count (advance (ul_count u) sequence_number));;
      u ← get;
      b ← (if integrity_protected then
             original_mac ← lift (header_mac b);
             '(b, mac) ← lift (nas_mac_calculate (selected_int_algorithm u) (knas_int u)
                                 (ul_i32 (ul_count u)) NAS_SECURITY_BEARER
                                 NAS_SECURITY_UPLINK_DIRECTION b uninit);
             b ← lift (restore_mac original_mac b);
             (if bool_decide (original_mac = mac) then mret ()
              else modify (set_mac_failed true));;
             mret b
           else mret b);
      b ← (match ogs_pkbuf_pull b 1 with Some b => mret b | None => mabort end);
      b ← (if ciphered then
             lift (nas_encrypt (selected_enc_algorithm u) (knas_enc u) (ul_i32 (ul_count u))
                     NAS_SECURITY_BEARER NAS_SECURITY_UPLINK_DIRECTION b)
           else mret b);
      mret (OGS_OK, b)
    else mret (OGS_OK, b).

(** ** Reception: [s1ap_send_to_nas] in [src/mme/s1ap-path.c] *)
Definition OGS_NAS_HEADROOM : nat := 16.

Definition header_flags (t : Z) : option nas_security_header_type_t :=
  let flags i c n s := Some {| integrity_protected := i; ciphered := c;
                               new_security_context := n; service_request := s |} in
  if t =? 0 then flags false false false false
  else if t =? 12 then flags false false false true
  else if t =? 1 then flags true false false false
  else if t =? 2 then flags true true false false
  else if t =? 3 then flags true false true false
  else if t =? 4 then flags true true true false
  else None.
(** The cases that call [ogs_pkbuf_pull(nasbuf, 6)]. *)
Definition pulls_header (t : Z) : bool := (1 <=? t) && (t <=? 4).

(** What becomes of the message. *)
Inductive nas_event :=
| EmmMessage (nas_type : nas_security_header_type_t) (b : pkbuf)
| EsmMessage (b : pkbuf)
| NasError.

(** [headroom]: the octets that the allocator returned; [with_ue]: whether
    the S1 context has an [mme_ue]. *)
Definition s1ap_send_to_nas (headroom : list Z) (nasPdu : list Z) (with_ue : bool)
    : M mme_ue_t nas_event :=
  let nasbuf := {| pk_head := headroom; pk_data := nasPdu |} in
  first ← lift (byte_at nasbuf 0);
  let type := nth 0 (ed_unpack [4; 4]%nat first) 0 in
  match header_flags type with
  | None => mret NasError
  | Some flags =>
      nasbuf ← (if pulls_header type then
                  match ogs_pkbuf_pull nasbuf 6 with Some b => mret b | None => mabort end
                else mret nasbuf);
      nasbuf ← (if with_ue then
                  '(rv, b) ← nas_security_decode flags nasbuf;
                  match rv with OGS_OK => mret b | OGS_ERROR => mabort end
                else mret nasbuf);
      h ← lift (byte_at nasbuf 0);
      let pd := nth 1 (ed_unpack [4; 4]%nat h) 0 in
      if pd =? 7 then mret (EmmMessage flags nasbuf)
      else if pd =? 2 then if with_ue then mret (EsmMessage nasbuf) else mabort
      else mabort
  end.
End security.
