(* ===== verification/NasSecurityProofs.v ===== *)
(** * What NAS security guarantees *)
From S2P Require Import Prelude.
From S2P Require Import CMem.
From S2P Require Import OgsLib.
From S2P Require Import NasSecurity.
#[local] Open Scope Z_scope.

(** ** Specification: the MAC and the ciphering of TS 33.401, Annex B *)
Section spec.
Context `{Crypto}.

(** [direction] is 0 for uplink, 1 for downlink; the bearer is 0. *)
Definition input_block (count direction : Z) : list Z :=
  be_bytes 4 count ++ [direction * 4; 0; 0; 0].
Definition mac_spec (alg : Z) (key : list Z) (count direction : Z) (m : list Z) : list Z :=
  let n := 8 * Z.of_nat (length m) in
  if alg =? 1 then snow_3g_f9 key count 0 direction m n
  else if alg =? 2 then take 4 (ogs_aes_cmac_calculate key (input_block count direction ++ m))
  else be_bytes 4 (zuc_eia3 key count 0 direction n m).
Definition cipher_spec (alg : Z) (key : list Z) (count direction : Z) (m : list Z) : list Z :=
  let n := 8 * Z.of_nat (length m) in
  if alg =? 1 then snow_3g_f8 key count 0 direction m n
  else if alg =? 2 then
    ogs_aes_ctr128_encrypt key (input_block count direction ++ replicate 8 0) m
  else zuc_eea3 key count 0 direction n m.

(** A protected message: MAC over the sequence number and the payload. *)
Definition protect (mac_alg : Z) (kint : list Z) (enc_alg : Z) (kenc : list Z)
    (integrity ciphered : bool) (header : Z) (count direction : Z) (m : list Z) : list Z :=
  let payload := if ciphered then cipher_spec enc_alg kenc count direction m else m in
  let body := count mod 256 :: payload in
  let mac := if integrity then mac_spec mac_alg kint count direction body else replicate 4 0 in
  header :: mac ++ body.
End spec.

#[local] Arguments input_block : simpl never.
#[local] Arguments be_bytes : simpl never.

Section proofs.
Context `{Host, OgsBitsLaws, OgsPkbufLaws, CryptoLaws}.

(** ** Buffers *)
Lemma poke_run off bs l : (off + length bs <= length l)%nat →
  poke off bs l = Ok (take off l ++ bs ++ drop (off + length bs) l).
Proof. intros Hl. unfold poke. by rewrite (proj2 (Nat.leb_le _ _)). Qed.

(** Writing over the octets that a [push] uncovered. *)
Lemma poke_head bs h l : length h = length bs → poke 0 bs (h ++ l) = Ok (bs ++ l).
Proof.
  intros Hl. rewrite poke_run by (rewrite length_app; lia). simpl. f_equal. f_equal.
  by rewrite drop_app_length' by done.
Qed.

(** Uncovering [n] octets and writing over them and the next [k]. *)
Lemma push_poke n k bs b :
  length bs = (n + k)%nat → (n <= length (pk_head b))%nat → (k <= length (pk_data b))%nat →
  ∃ b', ogs_pkbuf_push b n = Some b' ∧ length (pk_head b') = (length (pk_head b) - n)%nat ∧
    poke 0 bs (pk_data b') = Ok (bs ++ drop k (pk_data b)).
Proof.
  intros Hl Hn Hk. rewrite push_run by done. eexists. split; [done|]. cbn [pk_head pk_data].
  split; [rewrite length_take_le; lia|].
  rewrite poke_run by (rewrite length_app, length_drop; lia). simpl. f_equal. f_equal.
  rewrite drop_app, length_drop, drop_ge by (rewrite length_drop; lia). simpl. f_equal. lia.
Qed.

(** From behind the security header back to the sequence number. *)
Lemma reframe hr header mac (sq : Z) payload : length mac = 4%nat →
  ∃ b, ogs_pkbuf_push {| pk_head := hr ++ header :: mac ++ [sq]; pk_data := payload |} 6 = Some b ∧
    ogs_pkbuf_pull b 5 = Some {| pk_head := hr ++ header :: mac; pk_data := sq :: payload |}.
Proof.
  intros Hm. eexists. split; [apply push_run; simpl; rewrite !length_app; simpl;
    rewrite length_app; simpl; lia|]. cbn [pk_head pk_data].
  assert (length (hr ++ header :: mac ++ [sq]) - 6 = length hr)%nat as ->
    by (rewrite length_app; simpl; rewrite length_app; simpl; lia).
  rewrite take_app_length, drop_app_length.
  rewrite pull_run by (simpl; rewrite !length_app; simpl; lia). cbn [pk_head pk_data].
  replace ((header :: mac ++ [sq]) ++ payload) with ((header :: mac) ++ sq :: payload)
    by (simpl; by rewrite <- app_assoc).
  by rewrite take_app_length', drop_app_length' by (simpl; lia).
Qed.

(** Removing the security header of a received message. *)
Lemma pull_header hr header mac (sq : Z) payload : length mac = 4%nat →
  ogs_pkbuf_pull {| pk_head := hr; pk_data := header :: mac ++ sq :: payload |} 6 =
    Some {| pk_head := hr ++ header :: mac ++ [sq]; pk_data := payload |}.
Proof.
  intros Hm. rewrite pull_run by (simpl; rewrite length_app; simpl; lia). cbn [pk_head pk_data].
  replace (header :: mac ++ sq :: payload) with ((header :: mac ++ [sq]) ++ payload)
    by (simpl; by rewrite <- app_assoc).
  by rewrite take_app_length', drop_app_length' by (simpl; rewrite length_app; simpl; lia).
Qed.

(** ** The two primitives against their specification *)
Lemma count_block_spec count d : 0 <= d <= 1 → count_block count 0 d = input_block count d.
Proof.
  intros Hd. unfold count_block, input_block, htonl. rewrite host_bytes_hton. f_equal.
  assert (d = 0 ∨ d = 1) as [-> | ->] by lia; done.
Qed.

Lemma bits_len b : bits b = 8 * Z.of_nat (length (pk_data b)).
Proof. unfold bits. rewrite Z.shiftl_mul_pow2 by lia. lia. Qed.

Lemma mac_calculate_run alg key count d b mac :
  1 <= alg <= 3 → 0 <= d <= 1 → pk_data b ≠ [] → (8 <= length (pk_head b))%nat →
  ∃ h, length h = length (pk_head b) ∧
    nas_mac_calculate alg key count 0 d b mac =
      Ok (with_head b h, mac_spec alg key count d (pk_data b)).
Proof.
  intros Ha Hd Hne Hh. unfold nas_mac_calculate. simpl.
  assert ((d =? 0) || (d =? 1) = true) as ->
    by (assert (d = 0 ∨ d = 1) as [-> | ->] by lia; done).
  assert ((length (pk_data b) =? 0)%nat = false) as ->
    by (destruct (pk_data b); [done|reflexivity]). simpl.
  unfold mac_spec. rewrite <- bits_len.
  pose proof (count_block_spec count d Hd) as Eib.
  assert (length (input_block count d) = 8%nat) as Hb
    by (unfold input_block; by rewrite length_app, length_be_bytes).
  set (ib := input_block count d) in *. clearbody ib.
  assert (alg = 1 ∨ alg = 2 ∨ alg = 3) as [->|[->| ->]] by lia; simpl.
  - exists (pk_head b). split; [done|]. destruct b. reflexivity.
  - rewrite push_run by done. simpl.
    rewrite Eib, poke_head by (rewrite length_drop; lia). simpl.
    rewrite pull_run by (simpl; rewrite length_app; lia). simpl.
    eexists. split; cycle 1.
    + unfold with_head. simpl. by rewrite drop_app_length'.
    + rewrite length_app, !length_take_le; rewrite ?length_app; lia.
  - exists (pk_head b). split; [done|]. unfold ntohl. rewrite host_bytes_hton.
    destruct b. reflexivity.
Qed.

Lemma encrypt_run alg key count d b :
  1 <= alg <= 3 → 0 <= d <= 1 → pk_data b ≠ [] →
  nas_encrypt alg key count 0 d b = Ok (with_data b (cipher_spec alg key count d (pk_data b))).
Proof.
  intros Ha Hd Hne. unfold nas_encrypt. simpl.
  assert ((d =? 0) || (d =? 1) = true) as ->
    by (assert (d = 0 ∨ d = 1) as [-> | ->] by lia; done).
  assert ((length (pk_data b) =? 0)%nat = false) as ->
    by (destruct (pk_data b); [done|reflexivity]). simpl.
  unfold cipher_spec. rewrite <- bits_len, count_block_spec by done.
  by assert (alg = 1 ∨ alg = 2 ∨ alg = 3) as [->|[->| ->]] by lia.
Qed.

Lemma length_mac_spec alg key count d m : length (mac_spec alg key count d m) = 4%nat.
Proof.
  unfold mac_spec. repeat case_match; [apply length_snow_3g_f9| |apply length_be_bytes].
  rewrite length_take_le; [done|]. rewrite length_aes_cmac. lia.
Qed.

Lemma length_cipher_spec alg key count d m : length (cipher_spec alg key count d m) = length m.
Proof.
  unfold cipher_spec. repeat case_match;
    [apply length_snow_3g_f8|apply length_aes_ctr|apply length_zuc_eea3].
Qed.

Lemma cipher_spec_inv alg key count d m :
  cipher_spec alg key count d (cipher_spec alg key count d m) = m.
Proof.
  pose proof (length_cipher_spec alg key count d m) as Hl. unfold cipher_spec in *.
  repeat case_match; rewrite ?Hl; [apply snow_3g_f8_inv|apply aes_ctr_inv|apply zuc_eea3_inv].
Qed.

Lemma cipher_nonempty alg key count d m : m ≠ [] → cipher_spec alg key count d m ≠ [].
Proof.
  intros Hm E. apply Hm. apply length_zero_iff_nil.
  by rewrite <- (length_cipher_spec alg key count d m), E.
Qed.

(** ** Encoding *)
Definition ue_wf (u : mme_ue_t) : Prop :=
  0 <= selected_enc_algorithm u <= 3 ∧ 0 <= selected_int_algorithm u <= 3 ∧
  0 <= dl_count u < 2 ^ 24 ∧
  0 <= overflow (ul_count u) < 2 ^ 16 ∧ 0 <= sqn (ul_count u) < 256.

(** The protection that a header type asks for and the algorithms give. *)
Definition does_integrity (i : bool) (u : mme_ue_t) : bool :=
  i && negb (selected_int_algorithm u =? 0).
Definition does_cipher (c : bool) (u : mme_ue_t) : bool :=
  c && negb (selected_enc_algorithm u =? 0).

Lemma does_cipher_range c u : ue_wf u → does_cipher c u = true →
  1 <= selected_enc_algorithm u <= 3.
Proof.
  intros (He & _). unfold does_cipher.
  rewrite andb_true_iff, negb_true_iff, Z.eqb_neq. lia.
Qed.
Lemma does_integrity_range i u : ue_wf u → does_integrity i u = true →
  1 <= selected_int_algorithm u <= 3.
Proof.
  intros (_ & Hi & _). unfold does_integrity.
  rewrite andb_true_iff, negb_true_iff, Z.eqb_neq. lia.
Qed.

(** The payload and the MAC, when the protection is asked for. *)
Definition ciphered_payload (on : bool) (alg : Z) (key : list Z) (count d : Z) (m : list Z) :=
  if on then cipher_spec alg key count d m else m.
Definition mac_field (on : bool) (alg : Z) (key : list Z) (count d : Z) (m : list Z) :=
  if on then mac_spec alg key count d m else replicate 4 0.

Lemma ciphered_payload_nonempty on alg key count d m :
  m ≠ [] → ciphered_payload on alg key count d m ≠ [].
Proof. destruct on; [apply cipher_nonempty|done]. Qed.
Lemma ciphered_payload_inv on alg key count d m :
  ciphered_payload on alg key count d (ciphered_payload on alg key count d m) = m.
Proof. destruct on; [apply cipher_spec_inv|done]. Qed.
Lemma length_mac_field on alg key count d m : length (mac_field on alg key count d m) = 4%nat.
Proof. destruct on; [apply length_mac_spec|done]. Qed.

Lemma cipher_step (on : bool) alg key count d b (s : mme_ue_t) :
  (on = true → 1 <= alg <= 3) → 0 <= d <= 1 → pk_data b ≠ [] →
  (if on then lift (nas_encrypt alg key count NAS_SECURITY_BEARER d b) else mret b) s =
    Ok (with_data b (ciphered_payload on alg key count d (pk_data b)), s).
Proof.
  intros Ha Hd Hne. destruct on; [|by destruct b]. unfold lift, NAS_SECURITY_BEARER.
  by rewrite encrypt_run by auto.
Qed.

Lemma integrity_step (on : bool) alg key count d b (s : mme_ue_t) :
  (on = true → 1 <= alg <= 3) → 0 <= d <= 1 → pk_data b ≠ [] → (8 <= length (pk_head b))%nat →
  ∃ h, length h = length (pk_head b) ∧
    (if on then lift (nas_mac_calculate alg key count NAS_SECURITY_BEARER d b uninit)
     else mret (b, replicate 4 0)) s =
    Ok ((with_head b h, mac_field on alg key count d (pk_data b)), s).
Proof.
  intros Ha Hd Hne Hh. destruct on; [|exists (pk_head b); by destruct b].
  destruct (mac_calculate_run alg key count d b uninit) as (h & Hl & E); auto.
  exists h. split; [done|]. unfold lift, NAS_SECURITY_BEARER. by rewrite E.
Qed.

Lemma land_mask x n : 0 <= n → Z.land x (2 ^ n - 1) = x mod 2 ^ n.
Proof. intros. rewrite <- Z.land_ones by done. by rewrite Z.ones_equiv. Qed.

(** C26: Downlink protection.  A message of a protected type leaves as header,
    MAC, sequence number and payload, where the payload is ciphered and the
    MAC computed as TS 33.401 says, with the downlink count (zero for a new
    security context); the count then grows by one modulo [2^24], so that no
    count is used twice within [2^24] messages of a context. *)
Theorem encode_protects m u i c n :
  ue_wf u → header_kind_of (h_security_header_type m) = Protected i c n →
  (14 <= length (pk_head (plain m)))%nat → pk_data (plain m) ≠ [] →
  does_cipher c u || does_integrity i u = true →
  ∃ b u', nas_security_encode m u = Ok ((OGS_OK, Some b), u') ∧
    let count := if n then 0 else dl_count u in
    pk_data b = protect (selected_int_algorithm u) (knas_int u) (selected_enc_algorithm u)
      (knas_enc u) (does_integrity i u) (does_cipher c u)
      (header_octet (h_security_header_type m) (h_protocol_discriminator m))
      count NAS_SECURITY_DOWNLINK_DIRECTION (pk_data (plain m)) ∧
    dl_count u' = (count + 1) mod 2 ^ 24 ∧
    ul_count u' = (if n then {| overflow := 0; sqn := 0 |} else ul_count u) ∧
    security_context_available u' = true ∧ mac_failed u' = mac_failed u.
Proof.
  intros Hu Hk Hh Hne Hany. pose proof Hu as (_ & _ & Hdl & _).
  unfold nas_security_encode. rewrite Hk.
  set (u1 := if n then set_ul_count {| overflow := 0; sqn := 0 |} (set_dl_count 0 u) else u).
  assert ((if n then modify (λ u, set_ul_count {| overflow := 0; sqn := 0 |} (set_dl_count 0 u))
           else mret ()) u = Ok ((), u1)) as E1 by (unfold u1; by destruct n).
  assert (selected_enc_algorithm u1 = selected_enc_algorithm u ∧
          selected_int_algorithm u1 = selected_int_algorithm u ∧
          knas_enc u1 = knas_enc u ∧ knas_int u1 = knas_int u ∧
          mac_failed u1 = mac_failed u ∧ dl_count u1 = (if n then 0 else dl_count u) ∧
          ul_count u1 = (if n then {| overflow := 0; sqn := 0 |} else ul_count u))
    as (Ee & Ei & Eke & Eki & Ef & Ed & Eul) by (unfold u1; by destruct n).
  set (count := if n then 0 else dl_count u) in *.
  assert (0 <= count < 2 ^ 24) as Hc by (unfold count; destruct n; lia).
  m_run E1. m_run (eq_refl : get u1 = Ok (u1, u1)).
  rewrite Ee, Ei, Eke, Eki, Ed. fold (does_cipher c u). fold (does_integrity i u). rewrite Hany.
  change 0xff with (2 ^ 8 - 1). change 0xffffff with (2 ^ 24 - 1).
  rewrite !land_mask by lia. change (2 ^ 8) with 256.
  m_run (cipher_step (does_cipher c u) (selected_enc_algorithm u) (knas_enc u) count
           NAS_SECURITY_DOWNLINK_DIRECTION (plain m) u1
           (does_cipher_range c u Hu) ltac:(done) Hne).
  set (payload := ciphered_payload _ _ _ _ _ _).
  destruct (push_poke 1 0 [count mod 256] (with_data (plain m) payload)) as (b1 & -> & Hb1 & E4);
    [done|simpl; lia|lia|]. m_ret.
  m_run (f_equal (λ o, lift o u1) E4). rewrite drop_0. simpl app. cbn [with_data pk_head] in Hb1.
  set (body := count mod 256 :: payload).
  destruct (integrity_step (does_integrity i u) (selected_int_algorithm u) (knas_int u) count
    NAS_SECURITY_DOWNLINK_DIRECTION (with_data b1 body) u1) as (h & Hl & E5);
    [by apply does_integrity_range|done|done|simpl; lia|].
  m_run E5. m_ret. cbn [with_data with_head pk_data pk_head] in *.
  destruct (push_poke 5 1 (header_octet (h_security_header_type m) (h_protocol_discriminator m)
    :: mac_field (does_integrity i u) (selected_int_algorithm u) (knas_int u) count
         NAS_SECURITY_DOWNLINK_DIRECTION body ++ [count mod 256])
    (with_head (with_data b1 body) h)) as (b2 & -> & _ & E6);
    [by rewrite length_cons, length_app, length_mac_field|simpl; lia|simpl; lia|].
  m_ret. unfold mbind, M_bind. unfold lift at 1. rewrite E6.
  eexists _, _. split; [reflexivity|]. simpl. split_and!; auto.
  unfold protect. fold payload. unfold body, mac_field. by rewrite <- app_assoc.
Qed.

(** With the null algorithms selected for both protections, a message of
    a protected type is reported as encoded ([OGS_OK]) but no packet is
    produced; the builders of EMM and ESM messages assert that there is
    one. *)
Theorem encode_null_algorithms m u i c n :
  header_kind_of (h_security_header_type m) = Protected i c n →
  selected_enc_algorithm u = 0 → selected_int_algorithm u = 0 →
  ∃ u', nas_security_encode m u = Ok ((OGS_OK, None), u').
Proof.
  intros Hk He Hi. unfold nas_security_encode. rewrite Hk.
  unfold mbind, M_bind. destruct n; simpl; rewrite He, Hi; simpl;
    rewrite !andb_false_r; simpl; eauto.
Qed.

(** ** Counting uplink messages *)
Definition ul_ok (u : ul_count_t) : Prop := 0 <= overflow u < 2 ^ 16 ∧ 0 <= sqn u < 256.

(** A sequence number less than 256 messages ahead gives the full count. *)
Lemma advance_count u c :
  ul_ok u → ul_i32 u <= c < ul_i32 u + 256 → c < 2 ^ 24 →
  advance u (c mod 256) = {| overflow := c / 256; sqn := c mod 256 |}.
Proof.
  intros [Ho Hs] Hc Hmax. unfold advance, ul_i32 in *. f_equal.
  destruct (Z.ltb_spec (c mod 256) (sqn u)); [rewrite wrap_small|]; lia.
Qed.

(** Five bits determine a count less than 32 messages ahead. *)
Lemma estimate_count u c :
  ul_ok u → ul_i32 u <= c < ul_i32 u + 32 → estimate u (c mod 32) = c mod 256.
Proof.
  intros [Ho Hs] Hc. unfold estimate, ul_i32 in *.
  change 0x1f with (2 ^ 5 - 1). rewrite land_mask by lia. change (2 ^ 5) with 32.
  assert (Z.land (sqn u) 0xe0 = sqn u - sqn u mod 32) as ->.
  { assert (forallb (λ x, Z.land x 0xe0 =? x - x mod 32) (seqZ 0 256) = true) as Hall
      by (vm_compute; reflexivity).
    rewrite forallb_forall in Hall. apply Z.eqb_eq, Hall, list_elem_of_In, elem_of_seqZ. lia. }
  destruct (Z.ltb_spec (c mod 32) (sqn u mod 32)); unfold wrap; change (2 ^ 8) with 256; lia.
Qed.

(** ** Decoding *)
Lemma byte_at_0 b x l : pk_data b = x :: l → byte_at b 0 = Ok x.
Proof. unfold byte_at. by intros ->. Qed.

Lemma slice_last (a m : list Z) : slice (length (a ++ m) - length m) (length m) (a ++ m) = Some m.
Proof.
  rewrite length_app. replace (length a + length m - length m)%nat with (length a) by lia.
  rewrite <- (app_nil_r m) at 2. by apply slice_app.
Qed.

Lemma ul_reset u (r : bool) :
  (if r then modify (set_ul_count {| overflow := 0; sqn := 0 |}) else mret ()) u =
    Ok ((), if r then set_ul_count {| overflow := 0; sqn := 0 |} u else u).
Proof. by destruct r. Qed.

(** The check of the MAC; the header it restores stays in the headroom. *)
Lemma verify_step (on : bool) alg key count hr header mac sq payload (u : mme_ue_t) :
  (on = true → 1 <= alg <= 3) → (8 <= length hr)%nat → length mac = 4%nat →
  let b := {| pk_head := hr ++ header :: mac; pk_data := sq :: payload |} in
  ∃ h, (if on then
           original_mac ← lift (header_mac b);
           '(b, mac) ← lift (nas_mac_calculate alg key count NAS_SECURITY_BEARER
                               NAS_SECURITY_UPLINK_DIRECTION b uninit);
           b ← lift (restore_mac original_mac b);
           (if bool_decide (original_mac = mac) then mret ()
            else modify (set_mac_failed true));;
           mret b
         else mret b) u =
    Ok (with_head b h,
        if on && negb (bool_decide (mac = mac_spec alg key count
                         NAS_SECURITY_UPLINK_DIRECTION (sq :: payload)))
        then set_mac_failed true u else u).
Proof.
  intros Ha Hhr Hmac b. destruct on; simpl; [|by exists (pk_head b)].
  assert (header_mac b = Ok mac) as Em.
  { unfold header_mac, peek, b. cbn [pk_head].
    replace (hr ++ header :: mac) with ((hr ++ [header]) ++ mac) by (by rewrite <- app_assoc).
    rewrite <- Hmac, slice_last. done. }
  m_run (f_equal (λ o, lift o u) Em).
  destruct (mac_calculate_run alg key count NAS_SECURITY_UPLINK_DIRECTION b uninit)
    as (h1 & Hl1 & Ec); [auto|done|done|unfold b; cbn [pk_head]; rewrite length_app; lia|].
  m_run (f_equal (λ o, lift o u) Ec).
  assert (∃ h2, restore_mac mac (with_head b h1) = Ok (with_head b h2)) as [h2 Er].
  { unfold restore_mac. cbn [pk_head with_head]. rewrite poke_run; [eexists; reflexivity|].
    rewrite Hl1. unfold b. cbn [pk_head]. rewrite length_app. simpl. lia. }
  m_run (f_equal (λ o, lift o u) Er). exists h2.
  change (pk_data b) with (sq :: payload). by case_bool_decide.
Qed.

Lemma decode_run t u hr header mac sq payload :
  service_request t = false → security_context_available u = true → ue_wf u →
  does_cipher (ciphered t) u || does_integrity (integrity_protected t) u = true →
  (8 <= length hr)%nat → length mac = 4%nat → payload ≠ [] →
  let start := if new_security_context t then {| overflow := 0; sqn := 0 |} else ul_count u in
  let count := ul_i32 (advance start sq) in
  ∃ b' u', nas_security_decode t {| pk_head := hr ++ header :: mac ++ [sq]; pk_data := payload |} u
      = Ok ((OGS_OK, b'), u') ∧
    pk_data b' =
      (ciphered_payload (does_cipher (ciphered t) u) (selected_enc_algorithm u) (knas_enc u) count
         NAS_SECURITY_UPLINK_DIRECTION payload) ∧
    ul_count u' = advance start sq ∧ dl_count u' = dl_count u ∧
    mac_failed u' =
      mac_failed u || (does_integrity (integrity_protected t) u &&
        negb (bool_decide (mac = mac_spec (selected_int_algorithm u) (knas_int u) count
                NAS_SECURITY_UPLINK_DIRECTION (sq :: payload)))).
Proof.
  intros Hsr Hav Hu Hany Hhr Hmac Hne. cbv zeta.
  unfold nas_security_decode. rewrite Hsr. m_ret. rewrite Hav, !andb_true_r.
  m_run (ul_reset u (new_security_context t)). m_ret.
  set (start := if new_security_context t then {| overflow := 0; sqn := 0 |} else ul_count u).
  set (u1 := if new_security_context t
             then set_ul_count {| overflow := 0; sqn := 0 |} u else u).
  assert (selected_enc_algorithm u1 = selected_enc_algorithm u ∧
          selected_int_algorithm u1 = selected_int_algorithm u ∧
          knas_enc u1 = knas_enc u ∧ knas_int u1 = knas_int u ∧ dl_count u1 = dl_count u ∧
          mac_failed u1 = mac_failed u ∧ ul_count u1 = start)
    as (Ee & Ei & Eke & Eki & Ed & Ef & Eul)
    by (unfold u1, start; by destruct (new_security_context t)).
  clearbody u1 start. rewrite Ee, Ei.
  fold (does_cipher (ciphered t) u). fold (does_integrity (integrity_protected t) u). rewrite Hany.
  destruct (reframe hr header mac sq payload Hmac) as (b0 & -> & E0). m_ret. rewrite E0. m_ret.
  set (b1 := {| pk_head := hr ++ header :: mac; pk_data := sq :: payload |}).
  m_run (eq_refl : lift (byte_at b1 0) u1 = Ok (sq, u1)). m_ret. m_ret.
  rewrite Eul. set (n := advance start sq). set (u2 := set_ul_count n u1).
  change (ul_count u2) with n. change (selected_int_algorithm u2) with (selected_int_algorithm u1).
  change (selected_enc_algorithm u2) with (selected_enc_algorithm u1).
  change (knas_int u2) with (knas_int u1). change (knas_enc u2) with (knas_enc u1).
  rewrite Ee, Ei, Eke, Eki.
  destruct (verify_step (does_integrity (integrity_protected t) u) (selected_int_algorithm u)
    (knas_int u) (ul_i32 n) hr header mac sq payload u2) as [h E2];
    [by apply does_integrity_range|done|done|].
  m_run E2. set (good := bool_decide _). rewrite pull_run by (simpl; lia). m_ret.
  cbn [pk_data pk_head with_head take drop].
  m_run (cipher_step (does_cipher (ciphered t) u) (selected_enc_algorithm u) (knas_enc u)
    (ul_i32 n) NAS_SECURITY_UPLINK_DIRECTION {| pk_head := h ++ [sq]; pk_data := payload |}
    (if does_integrity (integrity_protected t) u && negb good then set_mac_failed true u2 else u2)
    (does_cipher_range _ u Hu) ltac:(done) Hne).
  eexists _, _. split; [reflexivity|]. split; [done|].
  destruct (does_integrity _ u), good; simpl; rewrite ?orb_false_r, ?orb_true_r; by split_and!.
Qed.

(** C25: Uplink verification.  A protected message behind its security header
    is checked with the count that its sequence number selects: the failure
    flag is raised exactly when the received MAC differs from that of TS
    33.401, the payload is deciphered with the same count, and the count is
    stored (also when the check fails). *)
Theorem decode_verifies t u hr header mac sq payload :
  service_request t = false → security_context_available u = true → ue_wf u →
  does_cipher (ciphered t) u || does_integrity (integrity_protected t) u = true →
  (8 <= length hr)%nat → length mac = 4%nat → payload ≠ [] →
  let start := if new_security_context t then {| overflow := 0; sqn := 0 |} else ul_count u in
  let count := ul_i32 (advance start sq) in
  ∃ b' u', nas_security_decode t {| pk_head := hr ++ header :: mac ++ [sq]; pk_data := payload |} u
      = Ok ((OGS_OK, b'), u') ∧
    pk_data b' =
      (if does_cipher (ciphered t) u
       then cipher_spec (selected_enc_algorithm u) (knas_enc u) count
              NAS_SECURITY_UPLINK_DIRECTION payload
       else payload) ∧
    ul_count u' = advance start sq ∧ dl_count u' = dl_count u ∧
    mac_failed u' =
      mac_failed u || (does_integrity (integrity_protected t) u &&
        negb (bool_decide (mac = mac_spec (selected_int_algorithm u) (knas_int u) count
                NAS_SECURITY_UPLINK_DIRECTION (sq :: payload)))).
Proof.
  intros. destruct (decode_run t u hr header mac sq payload) as (b' & u' & E); eauto.
Qed.

(** ** The whole uplink path *)
Lemma header_octet_fields t pd : 0 <= t < 16 → 0 <= pd < 16 →
  nth 0 (ed_unpack [4; 4]%nat (header_octet t pd)) 0 = t ∧
  nth 1 (ed_unpack [4; 4]%nat (header_octet t pd)) 0 = pd.
Proof.
  intros Ht Hp. assert (ed_ok [(4%nat, t); (4%nat, pd)]) as Hok
    by (split; [done|]; repeat constructor; simpl; lia).
  pose proof (ed_unpack_pack _ Hok) as E. simpl in E. unfold header_octet. by rewrite E.
Qed.

Definition uplink_flags (ty : Z) : nas_security_header_type_t :=
  default {| integrity_protected := false; ciphered := false;
             new_security_context := false; service_request := false |} (header_flags ty).

Lemma uplink_type ty : 1 <= ty <= 4 →
  header_flags ty = Some (uplink_flags ty) ∧ pulls_header ty = true ∧
  service_request (uplink_flags ty) = false.
Proof.
  intros. assert (ty = 1 ∨ ty = 2 ∨ ty = 3 ∨ ty = 4) as [->|[->|[->| ->]]] by lia; done.
Qed.

(** The count that the sequence number selects is the sender's. *)
Lemma uplink_count u ty count :
  ue_wf u →
  let last := if new_security_context (uplink_flags ty) then 0 else ul_i32 (ul_count u) in
  last <= count < last + 256 → count < 2 ^ 24 →
  ∃ n, n = advance (if new_security_context (uplink_flags ty) then {| overflow := 0; sqn := 0 |}
                    else ul_count u) (count mod 256) ∧ ul_i32 n = count.
Proof.
  intros (_ & _ & _ & Hul) last Hc Hmax. eexists. split; [reflexivity|].
  rewrite advance_count; [unfold ul_i32; simpl; lia| | |done].
  - destruct (new_security_context _); [split; simpl; lia|done].
  - unfold last in Hc. by destruct (new_security_context _).
Qed.

(** C24: Uplink delivery.  A message that the UE protects with the shared keys
    and a count at most 255 ahead of the last one (any count below 256 for a
    new context), under any algorithms, arrives at the EMM layer unchanged,
    is not flagged, and leaves the count of the sender in the context. *)
Theorem uplink_roundtrip u ty count msg headroom :
  ue_wf u → security_context_available u = true → 1 <= ty <= 4 →
  length headroom = OGS_NAS_HEADROOM →
  let t := uplink_flags ty in
  let last := if new_security_context t then 0 else ul_i32 (ul_count u) in
  last <= count < last + 256 → count < 2 ^ 24 →
  does_cipher (ciphered t) u || does_integrity (integrity_protected t) u = true →
  (∃ b l, msg = b :: l ∧ nth 1 (ed_unpack [4; 4]%nat b) 0 = 7) →
  ∃ b' u',
    s1ap_send_to_nas headroom
      (protect (selected_int_algorithm u) (knas_int u) (selected_enc_algorithm u) (knas_enc u)
         (does_integrity (integrity_protected t) u) (does_cipher (ciphered t) u)
         (header_octet ty 7) count NAS_SECURITY_UPLINK_DIRECTION msg) true u
      = Ok (EmmMessage t b', u') ∧
    pk_data b' = msg ∧ ul_i32 (ul_count u') = count ∧
    mac_failed u' = mac_failed u.
Proof.
  intros Hu Hav Hty Hroom t last Hc Hmax Hany (b0 & l0 & Emsg & Epd).
  set (body := count mod 256 :: ciphered_payload (does_cipher (ciphered t) u)
    (selected_enc_algorithm u) (knas_enc u) count NAS_SECURITY_UPLINK_DIRECTION msg).
  set (mac := mac_field (does_integrity (integrity_protected t) u) (selected_int_algorithm u)
    (knas_int u) count NAS_SECURITY_UPLINK_DIRECTION body).
  assert (length mac = 4%nat) as Hm by apply length_mac_field.
  destruct (uplink_count u ty count Hu Hc Hmax) as [start [Est Eul]].
  destruct (header_octet_fields ty 7) as [Et _]; [lia|lia|].
  destruct (uplink_type ty Hty) as (Ef & Epull & Esr). fold t in Ef, Esr.
  destruct (decode_run t u headroom (header_octet ty 7) mac (count mod 256) (tail body))
    as (b' & u' & Ed & Eb & Eu & _ & Emf); auto;
    [unfold OGS_NAS_HEADROOM in *; lia|by apply ciphered_payload_nonempty; subst|].
  fold t in Est. rewrite <- Est in Eb, Eu, Emf. rewrite Eul in Eb, Emf.
  simpl tail in Eb. rewrite ciphered_payload_inv in Eb.
  exists b', u'. split; [|split_and!; [done|by rewrite Eu, Eul|]].
  - unfold s1ap_send_to_nas, protect. fold (ciphered_payload (does_cipher (ciphered t) u)
      (selected_enc_algorithm u) (knas_enc u) count NAS_SECURITY_UPLINK_DIRECTION msg).
    fold body. fold (mac_field (does_integrity (integrity_protected t) u)
      (selected_int_algorithm u) (knas_int u) count NAS_SECURITY_UPLINK_DIRECTION body). fold mac.
    set (b1 := {| pk_head := headroom; pk_data := _ |}).
    m_run (eq_refl : lift (byte_at b1 0) u = Ok (header_octet ty 7, u)).
    rewrite Et, Ef, Epull. unfold b1, body. rewrite (pull_header _ _ _ _ _ Hm).
    m_ret. unfold mbind, M_bind. simpl tail in Ed. rewrite Ed.
    simpl. unfold lift, byte_at. rewrite Eb, Emsg. simpl. by rewrite Epd.
  - rewrite Emf. unfold mac, mac_field, body. simpl tail.
    destruct (does_integrity _ u); simpl; [|by rewrite orb_false_r].
    rewrite bool_decide_true by done. by rewrite orb_false_r.
Qed.

(** Service requests.  The four-octet message (header, key set and five
    bits of the count, two octets of MAC) is accepted unflagged exactly when
    the short MAC is that of the full count, which is recovered whenever it
    is at most 31 ahead of the last one; the message is unchanged. *)
Theorem service_request_verifies t u headroom header ksi count m2 m3 :
  service_request t = true → ue_wf u → 1 <= selected_int_algorithm u →
  (8 <= length headroom)%nat →
  nth 1 (ed_unpack [3; 5]%nat ksi) 0 = count mod 32 →
  ul_i32 (ul_count u) <= count < ul_i32 (ul_count u) + 32 → count < 2 ^ 24 →
  (∀ b bs, length bs = 2%nat → is_Some (ogs_pkbuf_put_data b bs)) →
  ∃ b' u', nas_security_decode t {| pk_head := headroom; pk_data := [header; ksi; m2; m3] |} u
      = Ok ((OGS_OK, b'), u') ∧
    pk_data b' = [header; ksi; m2; m3] ∧ ul_i32 (ul_count u') = count ∧
    mac_failed u' = mac_failed u || negb (bool_decide
      (drop 2 (mac_spec (selected_int_algorithm u) (knas_int u) count
                 NAS_SECURITY_UPLINK_DIRECTION [header; ksi]) = [m2; m3])).
Proof.
  intros Hsr (_ & Hi & _ & Ho & Hs) Hi1 Hroom Hksi Hc Hmax Hput.
  unfold nas_security_decode. rewrite Hsr. unfold decode_service_request. m_ret.
  rewrite (proj2 (Z.eqb_neq _ _)) by lia.
  set (b0 := {| pk_head := headroom; pk_data := [header; ksi; m2; m3] |}).
  m_run (eq_refl : lift (byte_at b0 1) u = Ok (ksi, u)).
  rewrite Hksi, (estimate_count _ count) by (done || lia).
  assert (advance (ul_count u) (count mod 256) = {| overflow := count / 256; sqn := count mod 256 |})
    as -> by (apply advance_count; [done|lia|done]).
  m_ret. m_ret. set (u1 := set_ul_count _ u).
  assert (ul_i32 (ul_count u1) = count) as Eu by (unfold u1, ul_i32; simpl; lia).
  m_run (eq_refl : lift (peek 2 2 (pk_data b0)) u1 = Ok ([m2; m3], u1)).
  destruct (pkbuf_trim_spec b0 2) as [Eh Ed]. specialize (Ed ltac:(simpl; lia)). simpl in Eh, Ed.
  set (b1 := ogs_pkbuf_trim b0 2) in *. rewrite Eu.
  destruct (mac_calculate_run (selected_int_algorithm u) (knas_int u) count 0 b1 uninit)
    as (h & Hl & Em); [lia|lia|by rewrite Ed|rewrite Eh; lia|].
  unfold NAS_SECURITY_BEARER, NAS_SECURITY_UPLINK_DIRECTION.
  change (selected_int_algorithm u1) with (selected_int_algorithm u).
  change (knas_int u1) with (knas_int u).
  rewrite (M_bind_run (lift _) _ u1 _ u1 (f_equal (λ o, lift o u1) Em)). cbv beta iota zeta.
  destruct (Hput (with_head b1 h) [m2; m3] eq_refl) as [b2 Eb2]. rewrite Eb2. cbn [default from_option]. change (id b2) with b2.
  destruct (pkbuf_put_data_spec _ _ _ Eb2) as [_ Ed2]. simpl in Ed2. rewrite Ed in Ed2. simpl in Ed2.
  rewrite Ed2. m_run (eq_refl : lift (peek 2 2 [header; ksi; m2; m3]) u1 = Ok ([m2; m3], u1)).
  rewrite Ed. case_bool_decide as Eq; eexists b2, _; (split; [reflexivity|]); simpl;
    rewrite ?orb_false_r, ?orb_true_r; by split_and!.
Qed.

(** A service request on an S1 connection whose UE context has no
    integrity algorithm yet (for instance between an attach request and the
    security mode command) stops the process. *)
Theorem service_request_without_context_aborts u headroom header rest :
  nth 0 (ed_unpack [4; 4]%nat header) 0 = 12 → selected_int_algorithm u = 0 →
  s1ap_send_to_nas headroom (header :: rest) true u = Aborted.
Proof.
  intros Ht Hi. unfold s1ap_send_to_nas, mbind, M_bind, lift, byte_at. simpl.
  rewrite Ht. unfold header_flags, pulls_header. simpl.
  unfold nas_security_decode, decode_service_request, mbind, M_bind, get. simpl.
  by rewrite Hi.
Qed.

(** A message of a protected type shorter than its security header stops
    the process; a service request shorter than four octets is read beyond
    its end (here with an integrity algorithm selected). *)
Theorem short_message_fails u headroom header rest w :
  let ty := nth 0 (ed_unpack [4; 4]%nat header) 0 in
  (1 <= ty <= 4 ∧ (length rest < 5)%nat →
     s1ap_send_to_nas headroom (header :: rest) w u = Aborted) ∧
  (ty = 12 ∧ (length rest < 3)%nat ∧ selected_int_algorithm u ≠ 0 →
     s1ap_send_to_nas headroom (header :: rest) true u = Undef).
Proof.
  intros ty. split.
  - intros [Hty Hl]. unfold s1ap_send_to_nas, mbind, M_bind, lift, byte_at. simpl. fold ty.
    assert (ogs_pkbuf_pull {| pk_head := headroom; pk_data := header :: rest |} 6 = None) as E.
    { destruct (ogs_pkbuf_pull _ 6) as [b'|] eqn:E; [|done].
      destruct (pkbuf_pull_spec _ _ _ E) as [Hle _]. simpl in Hle. lia. }
    assert (ty = 1 ∨ ty = 2 ∨ ty = 3 ∨ ty = 4) as [->|[->|[->| ->]]] by lia;
      simpl; by rewrite E.
  - intros (Hty & Hl & Hi). unfold s1ap_send_to_nas, mbind, M_bind, lift, byte_at. simpl.
    fold ty. rewrite Hty. simpl.
    unfold nas_security_decode, decode_service_request, mbind, M_bind, get. simpl.
    rewrite (proj2 (Z.eqb_neq _ _)) by done. unfold lift, byte_at. simpl.
    destruct rest as [|k rest]; [done|]. simpl. unfold peek, slice. simpl.
    destruct rest as [|x [|y rest]]; [done|done|simpl in Hl; lia].
Qed.
End proofs.
