(* ===== verification/Kdf.v ===== *)
(** * Key derivation: [src/mme/mme-kdf.c], [src/hss/hss-auc.c]

    HMAC-SHA-256 and MILENAGE come from ogslib and are parameters; modelled
    is the input each derivation hands to them. *)
From S2P Require Import Prelude.
From S2P Require Import CMem.
#[local] Open Scope Z_scope.

Class KeyedHash := {
  (** key, message, length of the result *)
  ogs_hmac_sha256 : list Z → list Z → nat → list Z;
  (** opc, k, rand: the anonymity key of [milenage_f2345] *)
  milenage_f2345_ak : list Z → list Z → list Z → list Z;
  (** opc, k, rand, sqn, amf: MAC-S of [milenage_f1] *)
  milenage_f1_mac_s : list Z → list Z → list Z → list Z → list Z → list Z;
}.

Definition xor_bytes (a b : list Z) : list Z := zip_with Z.lxor a b.

Section kdf.
Context `{Host, KeyedHash}.

(** The strings [s]. *)
Definition kdf_nas_input (algorithm_type_distinguishers algorithm_identity : Z) : list Z :=
  [0x15; algorithm_type_distinguishers; 0x00; 0x01; algorithm_identity; 0x00; 0x01].
Definition kdf_enb_input (ul_count : Z) : list Z :=
  [0x11] ++ host_bytes 4 (hton 4 ul_count) ++ [0x00; 0x04].
Definition kdf_nh_input (sync_input : list Z) : list Z :=
  [0x12] ++ take 32 sync_input ++ [0x00; 0x20].
Definition kasme_input (plmn_id sqn ak : list Z) : list Z :=
  [0x10] ++ take 3 plmn_id ++ [0x00; 0x03] ++ xor_bytes (take 6 sqn) (take 6 ak) ++ [0x00; 0x06].

Definition mme_kdf_nas (atd ai : Z) (kasme : list Z) : list Z :=
  let out := ogs_hmac_sha256 kasme (kdf_nas_input atd ai) 32 in take 16 (drop 16 out).
Definition mme_kdf_enb (kasme : list Z) (ul_count : Z) : list Z :=
  ogs_hmac_sha256 kasme (kdf_enb_input ul_count) 32.
Definition mme_kdf_nh (kasme sync_input : list Z) : list Z :=
  ogs_hmac_sha256 kasme (kdf_nh_input sync_input) 32.

Definition hss_auc_kasme (ck ik plmn_id sqn ak : list Z) : list Z :=
  let k := take 16 ck ++ take 16 ik in
  ogs_hmac_sha256 k (kasme_input plmn_id sqn ak) 32.

Definition OGS_RAND_LEN : nat := 16.
Definition HSS_SQN_LEN : nat := 6.

(** [sqn_ms] and [mac_s]; [auts] is RAND, the concealed SQN and MAC-S. *)
Definition hss_auc_sqn (opc k auts : list Z) : list Z * list Z :=
  let conc_sqn_ms := drop OGS_RAND_LEN auts in
  let ak := milenage_f2345_ak opc k (take 16 auts) in
  let sqn_ms := xor_bytes (take HSS_SQN_LEN ak) (take HSS_SQN_LEN conc_sqn_ms) in
  (sqn_ms, milenage_f1_mac_s opc k (take 16 auts) sqn_ms [0; 0]).

(** ** Properties *)
Lemma xor_bytes_involutive a b : length a = length b → xor_bytes a (xor_bytes a b) = b.
Proof.
  revert b. induction a as [|x a IH]; intros [|y b] Hl; try discriminate Hl; [done|].
  simpl. unfold xor_bytes in IH. rewrite IH by (simpl in Hl; lia). f_equal.
  by rewrite <- Z.lxor_assoc, Z.lxor_nilpotent.
Qed.
Lemma xor_bytes_comm a b : xor_bytes a b = xor_bytes b a.
Proof.
  revert b. induction a as [|x a IH]; intros [|y b]; try done.
  unfold xor_bytes in *. simpl. by rewrite IH, Z.lxor_comm.
Qed.
Lemma length_xor_bytes a b : length a = length b → length (xor_bytes a b) = length a.
Proof. intros Hl. unfold xor_bytes. rewrite length_zip_with. lia. Qed.

Lemma host_bytes_hton_inj x y :
  0 <= x < 2 ^ 32 → 0 <= y < 2 ^ 32 → host_bytes 4 (hton 4 x) = host_bytes 4 (hton 4 y) → x = y.
Proof.
  intros Hx Hy. rewrite !host_bytes_hton. intros E. apply (f_equal be_value) in E.
  rewrite !be_value_be_bytes in E. change (256 ^ Z.of_nat 4) with (2 ^ 32) in E.
  by rewrite !Z.mod_small in E.
Qed.

(** Key separation.  The inputs of the derivations never collide: two NAS
    keys have the same input only for the same algorithm type and identity,
    two eNB keys only for the same uplink count, two next-hop keys only for
    the same synchronisation input, two [kasme] only for the same serving
    network and concealed sequence number; and inputs of different
    derivations differ. *)
Theorem kdf_inputs_separate a i a' i' c c' s s' p q k p' q' k' :
  0 <= c < 2 ^ 32 → 0 <= c' < 2 ^ 32 → length s = 32%nat → length s' = 32%nat →
  length p = 3%nat → length p' = 3%nat →
  length q = 6%nat → length q' = 6%nat → length k = 6%nat → length k' = 6%nat →
  (kdf_nas_input a i = kdf_nas_input a' i' → a = a' ∧ i = i') ∧
  (kdf_enb_input c = kdf_enb_input c' → c = c') ∧
  (kdf_nh_input s = kdf_nh_input s' → s = s') ∧
  (kasme_input p q k = kasme_input p' q' k' → p = p' ∧ xor_bytes q k = xor_bytes q' k') ∧
  NoDup (hd 0 <$> [kdf_nas_input a i; kdf_enb_input c; kdf_nh_input s; kasme_input p q k]).
Proof.
  intros Hc Hc' Hs Hs' Hp Hp' Hq Hq' Hk Hk'. split_and!.
  - unfold kdf_nas_input. by intros [= -> ->].
  - unfold kdf_enb_input. intros E. apply (inj ([0x11] ++.)), (inj (.++ [0x00; 0x04])) in E.
    by apply host_bytes_hton_inj.
  - unfold kdf_nh_input. intros E. apply (inj ([0x12] ++.)), (inj (.++ [0x00; 0x20])) in E.
    by rewrite !take_ge in E by lia.
  - unfold kasme_input. rewrite !take_ge by lia. intros E. apply (inj ([0x10] ++.)) in E.
    apply app_inj_1 in E as [-> E]; [|lia]. split; [done|].
    apply (inj ([0x00; 0x03] ++.)), (inj (.++ [0x00; 0x06])) in E. done.
  - simpl. repeat constructor; rewrite ?elem_of_cons, ?elem_of_nil; lia.
Qed.

(** Resynchronisation.  From an AUTS in which the USIM concealed its
    sequence number with the anonymity key of the challenge, the HSS
    recovers that sequence number, and computes the expected MAC-S over it. *)
Theorem auc_sqn_recovers opc k rand sqn mac_s :
  length rand = 16%nat → length sqn = 6%nat →
  length (milenage_f2345_ak opc k rand) = 6%nat →
  hss_auc_sqn opc k (rand ++ xor_bytes sqn (milenage_f2345_ak opc k rand) ++ mac_s) =
    (sqn, milenage_f1_mac_s opc k rand sqn [0; 0]).
Proof.
  intros Hr Hs Ha. unfold hss_auc_sqn, OGS_RAND_LEN, HSS_SQN_LEN.
  rewrite take_app_length', drop_app_length' by done. rewrite (take_ge (milenage_f2345_ak _ _ _)) by lia.
  rewrite take_app_length' by (rewrite length_xor_bytes; lia).
  rewrite (xor_bytes_comm sqn), xor_bytes_involutive by lia. done.
Qed.
End kdf.
