(* ===== verification/NasSecurityExamples.v ===== *)
(** * NAS security and key derivation at concrete inputs

    [toy] is a concrete instance of the algorithms: a key stream of one
    repeated octet and a checksum as MAC.  It satisfies the laws; it is of
    course no cryptography. *)
From S2P Require Import Prelude.
From S2P Require Import CMem.
From S2P Require Import OgsLib.
From S2P Require Import OgsRef.
From S2P Require Import NasSecurity.
From S2P Require Import NasSecurityProofs.
From S2P Require Import Kdf.
#[local] Open Scope Z_scope.

Definition toy_stream (key : list Z) (count direction : Z) (m : list Z) : list Z :=
  (λ x, Z.lxor x ((nth 0 key 0 + count + 7 * direction) mod 256)) <$> m.
Definition toy_mac (key : list Z) (count direction : Z) (m : list Z) : Z :=
  foldl (λ a x, a * 31 + x) (nth 0 key 0 + 17 * count + direction) m.

#[export] Instance toy : Crypto := {|
  snow_3g_f9 k c f d m n := be_bytes 4 (toy_mac k c d m);
  ogs_aes_cmac_calculate k m := be_bytes 4 (toy_mac k 0 0 m) ++ replicate 12 0;
  zuc_eia3 k c b d n m := toy_mac k c d m;
  snow_3g_f8 k c b d m n := toy_stream k c d m;
  ogs_aes_ctr128_encrypt k iv m := toy_stream k (Z.of_nat (sum_list_with Z.to_nat iv)) 0 m;
  zuc_eea3 k c b d n m := toy_stream k c d m;
|}.

Lemma toy_stream_inv k c d m : toy_stream k c d (toy_stream k c d m) = m.
Proof.
  unfold toy_stream. rewrite <- list_fmap_compose. rewrite <- (list_fmap_id m) at 2.
  apply list_fmap_ext. intros _ x _. simpl. by rewrite Z.lxor_assoc, Z.lxor_nilpotent, Z.lxor_0_r.
Qed.

#[export] Instance toy_laws : CryptoLaws.
Proof.
  split; intros; simpl; rewrite ?length_app, ?length_be_bytes; try apply length_fmap;
    try apply toy_stream_inv; reflexivity.
Qed.

Definition headroom16 : list Z := replicate 16 0.
Definition ue_example : mme_ue_t := {|
  selected_enc_algorithm := 1; selected_int_algorithm := 2;
  knas_enc := [11; 22]; knas_int := [33; 44];
  dl_count := 300; ul_count := {| overflow := 1; NasSecurity.sqn := 250 |};
  security_context_available := true; mac_failed := false |}.

Lemma ue_example_wf : ue_wf ue_example.
Proof. unfold ue_wf. simpl. lia. Qed.

Definition ue_null : mme_ue_t := {|
  selected_enc_algorithm := 0; selected_int_algorithm := 0; knas_enc := []; knas_int := [];
  dl_count := 0; ul_count := {| overflow := 0; NasSecurity.sqn := 0 |};
  security_context_available := true; mac_failed := false |}.

(** A security mode command: type 3, EMM. *)
Definition smc_example : message_t := {|
  h_security_header_type := 3; h_protocol_discriminator := 7;
  plain := {| pk_head := headroom16; pk_data := [0x07; 0x5d; 0x02] |} |}.

Lemma encode_protects_witness :
  ∃ b u', nas_security_encode smc_example ue_example = Ok ((OGS_OK, Some b), u') ∧
    length (pk_data b) = 9%nat ∧ take 1 (pk_data b) = [0x37] ∧ drop 5 (pk_data b) = [0; 0x07; 0x5d; 0x02] ∧
    dl_count u' = 1.
Proof.
  destruct (encode_protects smc_example ue_example true false true) as (b & u' & E & Hb & Hd & _).
  - apply ue_example_wf.
  - reflexivity.
  - simpl. lia.
  - discriminate.
  - reflexivity.
  - exists b, u'. split; [exact E|]. rewrite Hb, Hd. vm_compute. auto.
Defined.

Lemma encode_null_algorithms_witness :
  ∃ u', nas_security_encode smc_example ue_null = Ok ((OGS_OK, None), u').
Proof. apply (encode_null_algorithms smc_example ue_null true false true); reflexivity. Defined.

Lemma decode_verifies_witness :
  ∃ b' u', nas_security_decode (uplink_flags 2)
      {| pk_head := headroom16 ++ 0x27 :: [1; 2; 3; 4] ++ [3]; pk_data := [5; 6] |} ue_example
      = Ok ((OGS_OK, b'), u') ∧
    ul_count u' = {| overflow := 2; NasSecurity.sqn := 3 |} ∧ mac_failed u' = true.
Proof.
  destruct (decode_verifies (uplink_flags 2) ue_example headroom16 0x27 [1; 2; 3; 4] 3 [5; 6])
    as (b' & u' & E & _ & Hu & _ & Hm).
  - reflexivity.
  - reflexivity.
  - apply ue_example_wf.
  - reflexivity.
  - simpl. lia.
  - reflexivity.
  - discriminate.
  - exists b', u'. split; [exact E|]. rewrite Hu, Hm. vm_compute. auto.
Defined.

(** The count 515 is 9 ahead of the last one, 506; the octet [sqn] wraps. *)
Lemma uplink_roundtrip_witness :
  ∃ b' u', s1ap_send_to_nas headroom16
      (protect 2 [33; 44] 1 [11; 22] true true (header_octet 2 7) 515 0 [0x07; 0x43; 9]) true ue_example
      = Ok (EmmMessage (uplink_flags 2) b', u') ∧
    pk_data b' = [0x07; 0x43; 9] ∧ mac_failed u' = false.
Proof.
  destruct (uplink_roundtrip ue_example 2 515 [0x07; 0x43; 9] headroom16)
    as (b' & u' & E & Hb & _ & Hm).
  - apply ue_example_wf.
  - reflexivity.
  - lia.
  - reflexivity.
  - vm_compute. split; [discriminate|reflexivity].
  - reflexivity.
  - reflexivity.
  - exists 0x07, [0x43; 9]. split; reflexivity.
  - exists b', u'. split; [exact E|]. split; [exact Hb|exact Hm].
Defined.

Lemma service_request_verifies_witness :
  ∃ b' u', nas_security_decode (uplink_flags 12)
      {| pk_head := headroom16; pk_data := [0xc7; 3; 1; 2] |} ue_example = Ok ((OGS_OK, b'), u') ∧
    ul_i32 (ul_count u') = 515 ∧ mac_failed u' = true.
Proof.
  destruct (service_request_verifies (uplink_flags 12) ue_example headroom16 0xc7 3 515 1 2)
    as (b' & u' & E & _ & Hu & Hm).
  - reflexivity.
  - apply ue_example_wf.
  - simpl. lia.
  - simpl. lia.
  - reflexivity.
  - vm_compute. split; [discriminate|reflexivity].
  - reflexivity.
  - intros b bs _. simpl. eauto.
  - exists b', u'. split; [exact E|]. split; [exact Hu|]. rewrite Hm. vm_compute. reflexivity.
Defined.

Lemma service_request_without_context_aborts_witness :
  s1ap_send_to_nas headroom16 [0xc7; 3; 1; 2] true ue_null = Aborted.
Proof.
  apply (service_request_without_context_aborts ue_null headroom16 0xc7 [3; 1; 2]); reflexivity.
Defined.

Lemma short_message_fails_witness :
  s1ap_send_to_nas headroom16 [0x27; 1; 2] true ue_example = Aborted ∧
  s1ap_send_to_nas headroom16 [0xc7; 3; 1] true ue_example = Undef.
Proof.
  split.
  - apply (short_message_fails ue_example headroom16 0x27 [1; 2] true). split; simpl; lia.
  - apply (short_message_fails ue_example headroom16 0xc7 [3; 1] true).
    split_and!; [reflexivity|simpl; lia|discriminate].
Defined.

(** ** Key derivation *)
#[export] Instance toy_hash : KeyedHash := {|
  ogs_hmac_sha256 k m n := take n (toy_stream k 0 0 m ++ replicate n 0);
  milenage_f2345_ak opc k rand := take 6 (toy_stream k 0 0 rand);
  milenage_f1_mac_s opc k rand sqn amf := toy_stream k 0 0 (sqn ++ amf);
|}.

Lemma kdf_inputs_separate_witness :
  kdf_enb_input 5 ≠ kdf_enb_input 6 ∧
  kasme_input [1; 2; 3] (replicate 6 0) (replicate 6 1) ≠ kasme_input [1; 2; 4] (replicate 6 0) (replicate 6 1).
Proof.
  destruct (kdf_inputs_separate 1 1 1 2 5 6 (replicate 32 0) (replicate 32 1)
    [1; 2; 3] (replicate 6 0) (replicate 6 1) [1; 2; 4] (replicate 6 0) (replicate 6 1))
    as (_ & He & _ & Hk & _); try reflexivity; try lia.
  split; [intros E; discriminate (He E)|].
  intros E. destruct (Hk E) as [E' _]. discriminate E'.
Defined.

Definition usim_sqn : list Z := replicate 6 0x21.
Lemma auc_sqn_recovers_witness :
  (hss_auc_sqn [] [9]
     (seqZ 0 16 ++ xor_bytes usim_sqn (milenage_f2345_ak [] [9] (seqZ 0 16)) ++ [1; 2])).1 = usim_sqn.
Proof. rewrite (auc_sqn_recovers [] [9] (seqZ 0 16) usim_sqn [1; 2]); reflexivity. Defined.
