(* ===== verification/MmeContext.v ===== *)
(** * The UE context of the MME: [src/mme/mme-context.h], [mme-context.c]

    The configuration that the EMM layer reads ([mme_self()]), the UE context
    with its timers, the macros on it, and the look-ups. *)
From S2P Require Import Prelude.
From S2P Require Import CMem.
From S2P Require Import OgsLib.
From S2P Require Import NasTai.
From S2P Require Import NasConv.
From S2P Require NasSecurity.
#[local] Open Scope Z_scope.

(** ** Messages to the eNB and other outputs *)
Inductive s1ap_cause := S1AP_CauseNas_detach | S1AP_CauseNas_normal_release.

(** S1AP messages (their ASN.1 encoding is not modelled). *)
Inductive s1ap_msg :=
| DownlinkNasTransport (nas_pdu : pkbuf)
| InitialContextSetupRequest (nas_pdu : option pkbuf)
| UeContextModificationRequest
| UeContextReleaseCommand (cause : s1ap_cause)
| ErrorIndication
| Paging
| ERabSetupRequest (ebi : Z) (nas_pdu : pkbuf)
| ERabModifyRequest (ebi : Z) (nas_pdu : pkbuf)
| ERabReleaseCommand (ebi : Z) (nas_pdu : pkbuf).

Inductive sgsap_msg :=
| DetachIndication
| UplinkUnitdata (container : list Z)
| UeUnreachable
| MoCsfbIndication
| ServiceRequest (emm_mode : Z)
| TmsiReallocationComplete
| LocationUpdateRequest.

(** The contents of a create session request that depend on the session:
    IMSI, APN, type of the PDN, AMBR (uplink and downlink), protocol
    configuration options, and the EBI and QCI of the default bearer. *)
Record create_session_request_t := {
  csr_imsi : list Z; csr_apn : list Z; csr_pdn_type : Z; csr_ambr : option (Z * Z);
  csr_pco : option (list Z); csr_ebi : Z; csr_qci : Z;
}.

(** What the MME does towards other components, in order. *)
Inductive output :=
| ToEnb (m : s1ap_msg)
| ToEsm (esmbuf : pkbuf)
| S6aAir (auts : option (list Z))
| S6aUlr
| CreateSessionRequest (r : create_session_request_t)
| ModifyBearerRequest (ebi : Z)
| DeleteSessionRequest (ebi : Z)
| CreateBearerResponse (xact ebi : Z)
| UpdateBearerResponse (xact ebi : Z)
| DeleteBearerResponse (xact ebi : Z)
| ReleaseAccessBearersRequest
| DownlinkDataNotificationAck (xact : Z)
| CommitTransaction (xact : Z)
| Sgsap (m : sgsap_msg)
| ImsiHashSet (imsi : list Z).

(** ** Data *)
Inductive emm_state :=
| emm_state_initial | emm_state_final
| emm_state_de_registered | emm_state_registered
| emm_state_authentication | emm_state_security_mode
| emm_state_initial_context_setup | emm_state_exception.
#[export] Instance emm_state_eq_dec : EqDecision emm_state.
Proof. solve_decision. Defined.

(** A timer with the message to send again. *)
Record ue_timer (A : Type) := { t_pkbuf : option A; t_running : bool; t_retry_count : Z }.
Arguments t_pkbuf {A}. Arguments t_running {A}. Arguments t_retry_count {A}.
Definition timer_cleared {A} : ue_timer A :=
  {| t_pkbuf := None; t_running := false; t_retry_count := 0 |}.

Record timers_t := {
  t3413 : ue_timer s1ap_msg; t3422 : ue_timer pkbuf; t3450 : ue_timer s1ap_msg;
  t3460 : ue_timer pkbuf; t3470 : ue_timer pkbuf;
}.

Record keys_t := {
  xres : list Z; xres_len : Z; kasme : list Z; rand : list Z;
  kenb : list Z; nh : list Z; nhcc : Z;
}.

(** [nas_eps]: the type IE is kept as its octet, [data]. *)
Record nas_eps_t := { eps_type : Z; ksi : Z; eps_data : Z }.

(** [imsi_len] is the length of [imsi]; [imsi_bcd] has no terminator. *)
Record ident_t := {
  imsi : list Z; imsi_bcd : list Z; nas_mobile_identity_imsi : ogs_nas_mobile_identity_imsi_t;
  guti : list Z; guti_present : bool; p_tmsi : Z;
}.

Record ue_network_capability_t := { eea : Z; eia : Z; uea : Z; uia : Z }.
Record ms_network_capability_t := { gea1 : Z; extended_gea : Z }.

(** ** Sessions and bearers *)
(** The fields of [ogs_pdn_t] that the MME reads; [pdn_pdn_type] is the type
    in the subscription. [paa]: the members of the union, of which its own
    type chooses. *)
Record qos_t := { qci : Z; mbr_downlink : Z; mbr_uplink : Z; gbr_downlink : Z; gbr_uplink : Z }.
Record paa_t := {
  pdn_type : Z; paa_addr : list Z; paa_addr6 : list Z; both_addr : list Z; both_addr6 : list Z;
}.
Record pdn_t := {
  apn : list Z; pdn_context_identifier : Z; pdn_pdn_type : Z; pdn_qos : qos_t;
  ambr_downlink : Z; ambr_uplink : Z; paa : paa_t;
}.
(** [ogs_diam_s6a_subscription_data_t]: the whole array, and how much of it
    is in use. *)
Record subscription_data_t := { pdns : list pdn_t; num_of_pdn : nat; context_identifier : Z }.
(** A pointer to an [ogs_pdn_t]: an entry of the subscription data of this
    UE, or of a UE context that used the session object before. *)
Inductive pdn_ptr := OwnPdn (i : nat) | OtherPdn (p : pdn_t).

Inductive esm_state :=
| esm_state_initial | esm_state_final | esm_state_inactive | esm_state_active
| esm_state_pdn_will_disconnect | esm_state_pdn_did_disconnect
| esm_state_bearer_deactivated | esm_state_exception.
#[export] Instance esm_state_eq_dec : EqDecision esm_state.
Proof. solve_decision. Defined.

(** Objects have the index of the pool they are from ([b_id], [s_id]). *)
Record mme_bearer_t := {
  b_id : Z; b_sm : esm_state; bearer_ebi : Z; enb_s1u_teid : Z; sgw_s1u_teid : Z;
  b_qos : qos_t; tft : list Z; t3489 : ue_timer pkbuf; b_xact : option Z;
}.
Definition pdn_will_disconnect (b : mme_bearer_t) : bool :=
  bool_decide (b_sm b = esm_state_pdn_will_disconnect).

Record mme_sess_t := {
  s_id : Z; pti : Z; request_type : Z; pdn : option pdn_ptr; ue_pco : list Z; pgw_pco : list Z;
  bearer_list : list mme_bearer_t;
}.

Section context.
Context `{OgsPlmn}.

Record enb_ue_t := {
  saved_tai : ogs_tai_t; saved_e_cgi : ogs_e_cgi_t;
  t_ue_context_release : ue_timer s1ap_msg; ue_ctx_rel_action : Z;
}.

(** [csmap]: its VLR's state machine is in [sgsap_state_connected], its LAI. *)
Record csmap_t := { vlr_connected : bool; lai : list Z }.

Record ue_t := {
  sm : emm_state; nas_eps : nas_eps_t; ident : ident_t;
  tai : ogs_tai_t; e_cgi : ogs_e_cgi_t; last_visited_plmn_id : ogs_plmn_id_t;
  sec : NasSecurity.mme_ue_t;
  ue_network_capability : ue_network_capability_t;
  ms_network_capability : ms_network_capability_t;
  keys : keys_t; ebi : Z; sess_list : list mme_sess_t;
  enb_ue : option enb_ue_t; pdn_connectivity_request : list Z; timers : timers_t;
  service_indicator : Z; sgw_s11_teid : Z; session_context_will_deleted : bool;
  csmap : option csmap_t; subscription_data : subscription_data_t;
  trace : list output;
}.

Definition ue_eta (u : ue_t) : ue_t := {|
  sm := sm u; nas_eps := nas_eps u; ident := ident u; tai := tai u; e_cgi := e_cgi u;
  last_visited_plmn_id := last_visited_plmn_id u; sec := sec u;
  ue_network_capability := ue_network_capability u;
  ms_network_capability := ms_network_capability u; keys := keys u; ebi := ebi u;
  sess_list := sess_list u; enb_ue := enb_ue u;
  pdn_connectivity_request := pdn_connectivity_request u; timers := timers u;
  service_indicator := service_indicator u; sgw_s11_teid := sgw_s11_teid u;
  session_context_will_deleted := session_context_will_deleted u; csmap := csmap u;
  subscription_data := subscription_data u; trace := trace u |}.

Definition set_sm : emm_state → ue_t → ue_t := ltac:(record_setter ue_eta sm).
Definition set_nas_eps : nas_eps_t → ue_t → ue_t := ltac:(record_setter ue_eta nas_eps).
Definition set_ident : ident_t → ue_t → ue_t := ltac:(record_setter ue_eta ident).
Definition set_tai : ogs_tai_t → ue_t → ue_t := ltac:(record_setter ue_eta tai).
Definition set_e_cgi : ogs_e_cgi_t → ue_t → ue_t := ltac:(record_setter ue_eta e_cgi).
Definition set_last_visited : ogs_plmn_id_t → ue_t → ue_t :=
  ltac:(record_setter ue_eta last_visited_plmn_id).
Definition set_sec : NasSecurity.mme_ue_t → ue_t → ue_t := ltac:(record_setter ue_eta sec).
Definition set_ue_cap : ue_network_capability_t → ue_t → ue_t :=
  ltac:(record_setter ue_eta ue_network_capability).
Definition set_ms_cap : ms_network_capability_t → ue_t → ue_t :=
  ltac:(record_setter ue_eta ms_network_capability).
Definition set_keys : keys_t → ue_t → ue_t := ltac:(record_setter ue_eta keys).
Definition set_ebi : Z → ue_t → ue_t := ltac:(record_setter ue_eta ebi).
Definition set_sess_list : list mme_sess_t → ue_t → ue_t :=
  ltac:(record_setter ue_eta sess_list).
Definition set_enb_ue : option enb_ue_t → ue_t → ue_t := ltac:(record_setter ue_eta enb_ue).
Definition set_pdn_request : list Z → ue_t → ue_t :=
  ltac:(record_setter ue_eta pdn_connectivity_request).
Definition set_timers : timers_t → ue_t → ue_t := ltac:(record_setter ue_eta timers).
Definition set_service_indicator : Z → ue_t → ue_t :=
  ltac:(record_setter ue_eta service_indicator).
Definition set_sgw_s11_teid : Z → ue_t → ue_t := ltac:(record_setter ue_eta sgw_s11_teid).
Definition set_will_deleted : bool → ue_t → ue_t :=
  ltac:(record_setter ue_eta session_context_will_deleted).
Definition set_csmap : option csmap_t → ue_t → ue_t := ltac:(record_setter ue_eta csmap).
Definition set_subscription_data : subscription_data_t → ue_t → ue_t :=
  ltac:(record_setter ue_eta subscription_data).
Definition set_trace : list output → ue_t → ue_t := ltac:(record_setter ue_eta trace).

(** Each timer of the context. *)
Definition timers_eta (t : timers_t) : timers_t :=
  {| t3413 := t3413 t; t3422 := t3422 t; t3450 := t3450 t; t3460 := t3460 t; t3470 := t3470 t |}.
Definition on_t3413 (x : ue_timer s1ap_msg) (u : ue_t) : ue_t :=
  set_timers (ltac:(record_setter timers_eta t3413) x (timers u)) u.
Definition on_t3450 (x : ue_timer s1ap_msg) (u : ue_t) : ue_t :=
  set_timers (ltac:(record_setter timers_eta t3450) x (timers u)) u.
Definition on_t3460 (x : ue_timer pkbuf) (u : ue_t) : ue_t :=
  set_timers (ltac:(record_setter timers_eta t3460) x (timers u)) u.
Definition on_t3470 (x : ue_timer pkbuf) (u : ue_t) : ue_t :=
  set_timers (ltac:(record_setter timers_eta t3470) x (timers u)) u.

Definition emit (o : output) : M ue_t () := modify (λ u, set_trace (trace u ++ [o]) u).
(** [OGS_FSM_TRAN]. *)
Definition tran (s : emm_state) : M ue_t () := modify (set_sm s).
(** Run an operation of the security component on the UE context. *)
Definition on_sec {A} (m : M NasSecurity.mme_ue_t A) : M ue_t A := λ u,
  match m (sec u) with
  | Ok (a, x) => Ok (a, set_sec x u) | Aborted => Aborted | Undef => Undef
  end.

(** ** The macros *)
Definition OGS_NAS_KSI_NO_KEY_IS_AVAILABLE : Z := 7.
Definition MME_UE_HAVE_IMSI (u : ue_t) : bool := negb (length (imsi (ident u)) =? 0)%nat.
Definition SECURITY_CONTEXT_IS_VALID (u : ue_t) : bool :=
  NasSecurity.security_context_available (sec u) && negb (NasSecurity.mac_failed (sec u)) &&
  negb (ksi (nas_eps u) =? OGS_NAS_KSI_NO_KEY_IS_AVAILABLE).
Definition with_ksi (k : Z) (n : nas_eps_t) : nas_eps_t :=
  {| eps_type := eps_type n; ksi := k; eps_data := eps_data n |}.
Definition CLEAR_SECURITY_CONTEXT : M ue_t () := modify (λ u,
  set_nas_eps (with_ksi 0 (nas_eps u))
    (set_sec (NasSecurity.set_mac_failed false (NasSecurity.set_available false (sec u))) u)).
Definition SESSION_CONTEXT_IS_AVAILABLE (u : ue_t) : bool := negb (sgw_s11_teid u =? 0).
Definition MME_SGSAP_IS_CONNECTED (u : ue_t) : bool :=
  match csmap u with Some c => vlr_connected c | None => false end.
Definition MME_P_TMSI_IS_AVAILABLE (u : ue_t) : bool :=
  MME_SGSAP_IS_CONNECTED u && negb (p_tmsi (ident u) =? 0).
Definition CS_CALL_SERVICE_INDICATOR (u : ue_t) : bool :=
  MME_P_TMSI_IS_AVAILABLE u && (service_indicator u =? 1).
Definition SMS_SERVICE_INDICATOR (u : ue_t) : bool :=
  MME_P_TMSI_IS_AVAILABLE u && (service_indicator u =? 2).
Definition CLEAR_SERVICE_INDICATOR : M ue_t () := modify (set_service_indicator 0).
Definition CLEAR_EPS_BEARER_ID : M ue_t () := modify (set_ebi 4).
Definition CLEAR_MME_UE_ALL_TIMERS : M ue_t () := modify (set_timers
  {| t3413 := timer_cleared; t3422 := timer_cleared; t3450 := timer_cleared;
     t3460 := timer_cleared; t3470 := timer_cleared |}).
Definition mme_bearer_is_inactive (u : ue_t) : bool :=
  forallb (λ s, forallb (λ b, enb_s1u_teid b =? 0) (bearer_list s)) (sess_list u).
Definition BEARER_CONTEXT_IS_ACTIVE (u : ue_t) : bool := negb (mme_bearer_is_inactive u).

(** Save a message and start the timer; count a retransmission. *)
Definition timer_start {A} (m : A) (t : ue_timer A) : ue_timer A :=
  {| t_pkbuf := Some m; t_running := true; t_retry_count := t_retry_count t |}.
Definition timer_retry {A} (t : ue_timer A) : ue_timer A :=
  {| t_pkbuf := t_pkbuf t; t_running := t_running t; t_retry_count := t_retry_count t + 1 |}.

(** ** Configuration *)
Record mme_context_t := {
  integrity_order : list Z; ciphering_order : list Z;
  served_tai : list (tai0_list_t * tai2_list_t);
  (** [supported_ta_list] of each eNB of [enb_list] *)
  enb_list : list (list ogs_tai_t);
  full_name : list Z; short_name : list Z;
  (** each [mme_csmap_t] with the octets of its PLMN and its TAC *)
  csmap_list : list (list Z * Z * csmap_t);
}.
Context `{OgsSizes} (self : mme_context_t).

Definition first_order (order : list Z) (caps : Z) : Z :=
  default 0 (head (filter (λ a, Z.land caps (Z.shiftr 0x80 a) ≠ 0) order)).
Definition mme_selected_int_algorithm (u : ue_t) : Z :=
  first_order (integrity_order self) (eia (ue_network_capability u)).
Definition mme_selected_enc_algorithm (u : ue_t) : Z :=
  first_order (ciphering_order self) (eea (ue_network_capability u)).

(** [memcmp] of two PLMN identities. *)
Definition same_plmn (p q : ogs_plmn_id_t) : bool := bool_decide (image p = image q).

(** The first [n] entries of an array. *)
Definition first_n {A} (n : Z) (l : list A) : option (list A) :=
  if (Z.to_nat n <=? length l)%nat then Some (take (Z.to_nat n) l) else None.

(** The loop over [list0->tai[j]], which ends at an entry with [num = 0]. *)
Fixpoint in_list0 (l : tai0_list_t) (t : ogs_tai_t) : outcome bool :=
  match l with
  | [] => Undef
  | e :: l =>
      if t0_num e =? 0 then mret false
      else
        ogs_assert (t0_type e =? TAI0_TYPE);;
        ogs_assert (t0_num e <? OGS_MAX_NUM_OF_TAI);;
        tacs ← access (first_n (t0_num e) (t0_tac e));
        if same_plmn (t0_plmn_id e) (tai_plmn_id t) && existsb (Z.eqb (tac t)) tacs
        then mret true else in_list0 l t
  end.
Definition in_list2 (s : tai2_list_t) (t : ogs_tai_t) : outcome bool :=
  if t2_num s =? 0 then mret false
  else
    ogs_assert ((t2_type s =? TAI1_TYPE) || (t2_type s =? TAI2_TYPE));;
    ogs_assert (t2_num s <? OGS_MAX_NUM_OF_TAI);;
    tais ← access (first_n (t2_num s) (t2_tai s));
    mret (existsb (λ e, same_plmn e.1 (tai_plmn_id t) && (e.2 =? tac t)) tais).

Fixpoint find_served (i : Z) (l : list (tai0_list_t * tai2_list_t)) (t : ogs_tai_t) : outcome Z :=
  match l with
  | [] => mret (-1)
  | (l0, l2) :: l =>
      b ← in_list0 l0 t;
      if (b : bool) then mret i
      else b ← in_list2 l2 t; if (b : bool) then mret i else find_served (i + 1) l t
  end.
Definition mme_find_served_tai (t : ogs_tai_t) : outcome Z := find_served 0 (served_tai self) t.

(** ** The look-up of tracking areas *)
(** A configured entry: lists of the right type, at most
    [OGS_MAX_NUM_OF_TAI - 1] areas each, ended by an empty list. *)
Definition entry0_wf (e : tai0_t) : Prop :=
  t0_type e = TAI0_TYPE ∧ 0 < t0_num e < OGS_MAX_NUM_OF_TAI ∧
  (Z.to_nat (t0_num e) <= length (t0_tac e))%nat.
Definition list0_wf (l : tai0_list_t) : Prop :=
  ∃ es last rest, l = es ++ last :: rest ∧ Forall entry0_wf es ∧ t0_num last = 0.
Definition list2_wf (s : tai2_list_t) : Prop :=
  t2_num s = 0 ∨
  ((t2_type s = TAI1_TYPE ∨ t2_type s = TAI2_TYPE) ∧ 0 < t2_num s < OGS_MAX_NUM_OF_TAI ∧
   (Z.to_nat (t2_num s) <= length (t2_tai s))%nat).

(** The tracking area is one of the entry. *)
Definition in_entry0 (t : ogs_tai_t) (e : tai0_t) : Prop :=
  image (t0_plmn_id e) = image (tai_plmn_id t) ∧ tac t ∈ take (Z.to_nat (t0_num e)) (t0_tac e).
Definition serves (t : ogs_tai_t) (l : tai0_list_t * tai2_list_t) : Prop :=
  (∃ es last rest, l.1 = es ++ last :: rest ∧ Forall entry0_wf es ∧ t0_num last = 0 ∧
                   ∃ e, e ∈ es ∧ in_entry0 t e) ∨
  (∃ e, e ∈ take (Z.to_nat (t2_num l.2)) (t2_tai l.2) ∧
        image e.1 = image (tai_plmn_id t) ∧ e.2 = tac t).

Lemma existsb_eqb x l : existsb (Z.eqb x) l = true ↔ x ∈ l.
Proof.
  rewrite existsb_exists. split.
  - intros (y & Hy & E). apply Z.eqb_eq in E as ->. by apply list_elem_of_In.
  - intros Hx. exists x. split; [by apply list_elem_of_In|apply Z.eqb_refl].
Qed.

Lemma in_list0_run es last rest t :
  Forall entry0_wf es → t0_num last = 0 →
  ∃ b, in_list0 (es ++ last :: rest) t = Ok b ∧ (b = true ↔ ∃ e, e ∈ es ∧ in_entry0 t e).
Proof.
  intros Hes Hl. induction Hes as [|e es (Ht & Hn & Htac) Hes IH]; simpl.
  - rewrite Hl. simpl. exists false. split; [done|]. split; [done|].
    intros (e & He & _). by apply not_elem_of_nil in He.
  - rewrite (proj2 (Z.eqb_neq _ _)), Ht, (proj2 (Z.ltb_lt _ _)) by lia. simpl.
    unfold first_n. rewrite (proj2 (Nat.leb_le _ _)) by done. simpl.
    destruct (same_plmn (t0_plmn_id e) (tai_plmn_id t) &&
              existsb (Z.eqb (tac t)) (take (Z.to_nat (t0_num e)) (t0_tac e))) eqn:E.
    + exists true. split; [done|]. split; [|done]. intros _.
      apply andb_true_iff in E as [Ep Et]. exists e. split; [by left|].
      split; [by apply bool_decide_eq_true in Ep|by apply existsb_eqb].
    + destruct IH as (b & -> & Hb). exists b. split; [done|]. rewrite Hb. split.
      * intros (x & Hx & Hi). exists x. split; [by right|done].
      * intros (x & Hx & Hi). apply elem_of_cons in Hx as [->|Hx]; [|by exists x].
        destruct Hi as [Hp Htc]. apply existsb_eqb in Htc.
        rewrite Htc, andb_true_r in E. by apply bool_decide_eq_false in E.
Qed.

Lemma in_list2_run s t :
  list2_wf s →
  ∃ b, in_list2 s t = Ok b ∧ (b = true ↔ ∃ e, e ∈ take (Z.to_nat (t2_num s)) (t2_tai s) ∧
                                image e.1 = image (tai_plmn_id t) ∧ e.2 = tac t).
Proof.
  unfold in_list2. intros [Hz|(Ht & Hn & Hl)].
  - rewrite Hz. simpl. exists false. split; [done|]. split; [done|].
    intros (e & He & _). by apply not_elem_of_nil in He.
  - rewrite (proj2 (Z.eqb_neq _ _)), (proj2 (Z.ltb_lt (t2_num s) _)) by lia.
    assert ((t2_type s =? TAI1_TYPE) || (t2_type s =? TAI2_TYPE) = true) as ->
      by (destruct Ht as [-> | ->]; done). simpl.
    unfold first_n. rewrite (proj2 (Nat.leb_le _ _)) by done. simpl.
    eexists. split; [reflexivity|]. rewrite existsb_exists. split.
    + intros (e & He & E). apply andb_true_iff in E as [Ep Et].
      apply bool_decide_eq_true in Ep. apply Z.eqb_eq in Et. exists e.
      split; [by apply list_elem_of_In|done].
    + intros (e & He & Ep & Et). exists e. split; [by apply list_elem_of_In|].
      unfold same_plmn. by rewrite bool_decide_true, Et, Z.eqb_refl.
Qed.

(** The decomposition of a terminated list is unique, so [serves] may use
    any. *)
Lemma serves_list0 t es last rest s2 :
  Forall entry0_wf es → t0_num last = 0 →
  serves t (es ++ last :: rest, s2) ↔
    (∃ e, e ∈ es ∧ in_entry0 t e) ∨
    (∃ e, e ∈ take (Z.to_nat (t2_num s2)) (t2_tai s2) ∧
          image e.1 = image (tai_plmn_id t) ∧ e.2 = tac t).
Proof.
  intros Hes Hl. unfold serves. cbn [fst snd]. split; [|intros [Hx|Hx]; [left|by right]].
  - intros [(es' & last' & rest' & E & Hes' & Hl' & Hx)|Hx]; [left|by right].
    destruct (in_list0_run es last rest t Hes Hl) as (b & Eb & Hb).
    rewrite E in Eb. destruct (in_list0_run es' last' rest' t Hes' Hl') as (b' & Eb' & Hb').
    rewrite Eb' in Eb. injection Eb as <-. by apply Hb, Hb'.
  - exists es, last, rest. by split_and!.
Qed.

Lemma find_served_run l t k :
  Forall (λ e, list0_wf e.1 ∧ list2_wf e.2) l →
  ∃ r, find_served k l t = Ok r ∧
    ((r = -1 ∧ Forall (λ e, ¬ serves t e) l) ∨
     (∃ n e, r = k + Z.of_nat n ∧ l !! n = Some e ∧ serves t e ∧
             Forall (λ e, ¬ serves t e) (take n l))).
Proof.
  intros Hl. revert k. induction Hl as [|[s0 s2] l [(es & last & rest & E & Hes & Hlast) H2] Hl IH];
    intros k; simpl in *.
  { exists (-1). split; [done|]. left. by split. }
  subst s0.
  destruct (in_list0_run es last rest t Hes Hlast) as (b0 & -> & Hb0). simpl.
  destruct (in_list2_run s2 t H2) as (b2 & Eb2 & Hb2).
  pose proof (serves_list0 t es last rest s2 Hes Hlast) as Hs.
  rewrite <- Hb0, <- Hb2 in Hs. destruct b0; [|rewrite Eb2; simpl; destruct b2].
  1,2: exists k; split; [done|]; right; exists 0%nat, (es ++ last :: rest, s2);
       (split_and!; [lia|done|apply Hs; auto|constructor]).
  assert (¬ serves t (es ++ last :: rest, s2)) as Hn by (rewrite Hs; intros [?|?]; done).
  destruct (IH (k + 1)) as (r & -> & [[-> Hf]|(n & e & -> & Hn' & He & Hf)]).
  - exists (-1). split; [done|]. left. split; [done|]. by constructor.
  - eexists. split; [done|]. right. exists (S n), e.
    split_and!; [lia|done|done|]. simpl. by constructor.
Qed.

(** Served tracking areas.  On a well-formed configuration the search ends
    without failed assertion or access outside the tables; it returns the
    index of the first entry that contains the tracking area, or -1 when
    none does. *)
Theorem find_served_tai_first t :
  Forall (λ e, list0_wf e.1 ∧ list2_wf e.2) (served_tai self) →
  ∃ r, mme_find_served_tai t = Ok r ∧
    ((r = -1 ∧ Forall (λ e, ¬ serves t e) (served_tai self)) ∨
     (∃ n e, r = Z.of_nat n ∧ served_tai self !! n = Some e ∧ serves t e ∧
             Forall (λ e, ¬ serves t e) (take n (served_tai self)))).
Proof. apply (find_served_run (served_tai self) t 0). Qed.
End context.
