(* ===== verification/EmmBuild.v ===== *)
(** * Sending NAS messages: [emm-build.c], [nas-path.c], [mme-path.c]

    The builders of the EMM messages and the functions that send them and
    keep a copy for retransmission; the parts of [s1ap-path.c],
    [mme-gtp-path.c] and [mme-fd-path.c] that the EMM layer calls, and the two
    ESM messages that attach messages carry.  Octet encodings of NAS messages
    are generated code and enter as [NasCodec].  Fields with constant values
    are left to the codec. *)
From S2P Require Import Prelude.
From S2P Require Import CMem.
From S2P Require Import OgsLib.
From S2P Require Import NasTai.
From S2P Require Import NasConv.
From S2P Require NasTypes.
From S2P Require NasSecurity.
From S2P Require Import Kdf.
From S2P Require Import MmeContext.
#[local] Open Scope Z_scope.

(** ** Messages: their variable contents *)
Inductive nas_out :=
| IdentityRequest (identity_type : Z)
| AuthenticationRequest (rand autn : list Z)
| AuthenticationReject
| SecurityModeCommand (integrity ciphering : Z) (eea eia uea uia gea length : Z)
| AttachAccept (result : Z) (tai_list : list Z) (esmbuf : pkbuf) (guti : option (list Z))
    (lai_and_tmsi : option (list Z * Z))
| AttachReject (emm_cause : Z) (esmbuf : option pkbuf)
| DetachAccept
| TauAccept (result : Z) (tai_list : list Z) (bearers : list Z)
| TauReject (emm_cause : Z)
| ServiceReject (emm_cause : Z)
| EmmInformation (universal_time : list Z) (full_name short_name : option (list Z))
| PdnConnectivityReject (pti esm_cause : Z)
| EsmInformationRequest (pti : Z)
| ActivateDefaultBearerContextRequest (pti ebi : Z)
    (eps_qos : NasTypes.Ambr.ogs_nas_eps_quality_of_service_t) (apn pdn_address : list Z)
    (apn_ambr : option NasTypes.Ambr.ogs_nas_apn_aggregate_maximum_bit_rate_t) (pco : option (list Z))
| ActivateDedicatedBearerContextRequest (ebi linked_ebi : Z)
    (eps_qos : NasTypes.Ambr.ogs_nas_eps_quality_of_service_t) (tft : list Z)
| ModifyBearerContextRequest (pti ebi : Z)
    (new_eps_qos : option NasTypes.Ambr.ogs_nas_eps_quality_of_service_t) (tft : option (list Z))
| DeactivateBearerContextRequest (pti ebi esm_cause : Z).

(** [ogs_nas_plain_encode]; [None] is [OGS_ERROR]. *)
Class NasCodec := { ogs_nas_plain_encode : nas_out → option pkbuf }.

Definition EMM_CAUSE_IMSI_UNKNOWN_IN_HSS : Z := 2.
Definition EMM_CAUSE_UE_IDENTITY_CANNOT_BE_DERIVED : Z := 9.
Definition EMM_CAUSE_TRACKING_AREA_NOT_ALLOWED : Z := 12.
Definition EMM_CAUSE_MAC_FAILURE : Z := 20.
Definition EMM_CAUSE_SYNCH_FAILURE : Z := 21.
Definition EMM_CAUSE_UE_SECURITY_CAPABILITIES_MISMATCH : Z := 23.
Definition EMM_CAUSE_SECURITY_MODE_REJECTED_UNSPECIFIED : Z := 24.
Definition EMM_CAUSE_NON_EPS_AUTHENTICATION_UNACCEPTABLE : Z := 26.
Definition ESM_CAUSE_PROTOCOL_ERROR_UNSPECIFIED : Z := 111.

Section build.
Context `{Host, OgsBits, OgsPkbuf, NasSecurity.Crypto, KeyedHash, OgsPlmn, !OgsPlmnDigits,
          !Ogs3gpp, OgsSizes, NasCodec} (self : mme_context_t).

(** A plain message, and one of security header type [sht] with EMM as
    protocol discriminator. *)
Definition plain_encode (m : nas_out) : M ue_t pkbuf :=
  match ogs_nas_plain_encode m with Some b => mret b | None => mabort end.
Definition security_encode (sht : Z) (m : nas_out) : M ue_t pkbuf :=
  b ← plain_encode m;
  r ← on_sec (NasSecurity.nas_security_encode
        {| NasSecurity.h_security_header_type := sht;
           NasSecurity.h_protocol_discriminator := 7; NasSecurity.plain := b |});
  match r with (NasSecurity.OGS_OK, Some b) => mret b | _ => mabort end.
Definition INTEGRITY_PROTECTED_AND_CIPHERED : Z := 2.
Definition INTEGRITY_PROTECTED_AND_NEW_SECURITY_CONTEXT : Z := 3.

(** The fields of the type octets that the code reads. *)
Definition nas_key_set_identifier (octet : Z) : Z := nth 1 (ed_unpack [1; 3; 1; 3]%nat octet) 0.
Definition switch_off (octet : Z) : Z := nth 2 (ed_unpack [1; 3; 1; 3]%nat octet) 0.
Definition active_flag (octet : Z) : Z := nth 2 (ed_unpack [1; 3; 1; 3]%nat octet) 0.
Definition type_bits (octet : Z) : Z := nth 3 (ed_unpack [1; 3; 1; 3]%nat octet) 0.
Definition service_type (octet : Z) : Z := nth 2 (ed_unpack [1; 3; 4]%nat octet) 0.

(** ** [emm-build.c] *)
Definition served_tai_list (u : ue_t) : outcome (list Z) :=
  i ← mme_find_served_tai self (tai u);
  ogs_assert ((0 <=? i) && (i <? 16));;
  l ← access (served_tai self !! Z.to_nat i);
  ogs_nas_tai_list_build l.1 l.2.

Definition with_guti_present (b : bool) (i : ident_t) : ident_t :=
  {| imsi := imsi i; imsi_bcd := imsi_bcd i; nas_mobile_identity_imsi := nas_mobile_identity_imsi i;
     guti := guti i; guti_present := b; p_tmsi := p_tmsi i |}.

Definition emm_build_attach_accept (esmbuf : pkbuf) : M ue_t pkbuf :=
  u ← get;
  tai_list ← lift (served_tai_list u);
  let guti := if guti_present (ident u) then Some (guti (ident u)) else None in
  modify (λ u, set_ident (with_guti_present false (ident u)) u);;
  lai_and_tmsi ← (if MME_P_TMSI_IS_AVAILABLE u
                  then match csmap u with
                       | Some c => mret (Some (lai c, p_tmsi (ident u)))
                       | None => mabort
                       end
                  else mret None);
  security_encode INTEGRITY_PROTECTED_AND_CIPHERED
    (AttachAccept (type_bits (eps_data (nas_eps u))) tai_list esmbuf guti lai_and_tmsi).

Definition emm_build_attach_reject (emm_cause : Z) (esmbuf : option pkbuf) : M ue_t pkbuf :=
  plain_encode (AttachReject emm_cause esmbuf).
Definition emm_build_identity_request : M ue_t pkbuf := plain_encode (IdentityRequest 1).
Definition emm_build_authentication_request (rand autn : list Z) : M ue_t pkbuf :=
  plain_encode (AuthenticationRequest rand autn).
Definition emm_build_authentication_reject : M ue_t pkbuf := plain_encode AuthenticationReject.

(** The replayed capabilities. *)
Definition replayed_gea (u : ue_t) : Z :=
  u8 (Z.lor (Z.shiftl (gea1 (ms_network_capability u)) 6) (extended_gea (ms_network_capability u))).
Definition replayed_uia (u : ue_t) : Z := Z.land (uia (ue_network_capability u)) 0x7f.
Definition replayed_length (u : ue_t) : Z :=
  if negb (replayed_gea u =? 0) then 5
  else if negb (uea (ue_network_capability u) =? 0) || negb (replayed_uia u =? 0) then 4 else 2.

Definition set_keys_nas (kint kenc : list Z) (u : ue_t) : ue_t :=
  let s := sec u in
  set_sec {| NasSecurity.selected_enc_algorithm := NasSecurity.selected_enc_algorithm s;
             NasSecurity.selected_int_algorithm := NasSecurity.selected_int_algorithm s;
             NasSecurity.knas_enc := kenc; NasSecurity.knas_int := kint;
             NasSecurity.dl_count := NasSecurity.dl_count s;
             NasSecurity.ul_count := NasSecurity.ul_count s;
             NasSecurity.security_context_available := NasSecurity.security_context_available s;
             NasSecurity.mac_failed := NasSecurity.mac_failed s |} u.
Definition set_algorithms (int enc : Z) (u : ue_t) : ue_t :=
  let s := sec u in
  set_sec {| NasSecurity.selected_enc_algorithm := enc;
             NasSecurity.selected_int_algorithm := int;
             NasSecurity.knas_enc := NasSecurity.knas_enc s;
             NasSecurity.knas_int := NasSecurity.knas_int s;
             NasSecurity.dl_count := NasSecurity.dl_count s;
             NasSecurity.ul_count := NasSecurity.ul_count s;
             NasSecurity.security_context_available := NasSecurity.security_context_available s;
             NasSecurity.mac_failed := NasSecurity.mac_failed s |} u.

Definition MME_KDF_NAS_ENC_ALG : Z := 1.
Definition MME_KDF_NAS_INT_ALG : Z := 2.

Definition emm_build_security_mode_command : M ue_t pkbuf :=
  u ← get;
  let int := mme_selected_int_algorithm self u in
  let enc := mme_selected_enc_algorithm self u in
  modify (set_algorithms int enc);;
  massert (negb (int =? 0));;
  modify (λ u, set_keys_nas (mme_kdf_nas MME_KDF_NAS_INT_ALG int (kasme (keys u)))
                            (mme_kdf_nas MME_KDF_NAS_ENC_ALG enc (kasme (keys u))) u);;
  let c := ue_network_capability u in
  security_encode INTEGRITY_PROTECTED_AND_NEW_SECURITY_CONTEXT
    (SecurityModeCommand int enc (eea c) (eia c) (uea c) (replayed_uia u) (replayed_gea u)
       (replayed_length u)).

Definition emm_build_detach_accept : M ue_t pkbuf :=
  security_encode INTEGRITY_PROTECTED_AND_CIPHERED DetachAccept.

(** [ebi5] to [ebi15] of [eps_bearer_context_status]. *)
Definition bearer_status (u : ue_t) : list Z :=
  let ebis := bearer_ebi <$> mjoin (bearer_list <$> sess_list u) in
  (λ i, if existsb (Z.eqb i) ebis then 1 else 0) <$> seqZ 5 11.

Definition emm_build_tau_accept : M ue_t pkbuf :=
  u ← get;
  tai_list ← lift (served_tai_list u);
  security_encode INTEGRITY_PROTECTED_AND_CIPHERED
    (TauAccept (type_bits (eps_data (nas_eps u))) tai_list (bearer_status u)).
Definition emm_build_tau_reject (emm_cause : Z) : M ue_t pkbuf := plain_encode (TauReject emm_cause).
Definition emm_build_service_reject (emm_cause : Z) : M ue_t pkbuf :=
  plain_encode (ServiceReject emm_cause).

(** ** [esm-build.c]: the two messages that attach messages carry *)
Definition esm_encode (m : nas_out) : M ue_t pkbuf :=
  u ← get;
  if decide (sm u = emm_state_registered)
  then security_encode INTEGRITY_PROTECTED_AND_CIPHERED m else plain_encode m.
Definition esm_build_pdn_connectivity_reject (sess : mme_sess_t) (esm_cause : Z) : M ue_t pkbuf :=
  esm_encode (PdnConnectivityReject (pti sess) esm_cause).

(** Writing through a pointer to a session, or to a bearer. *)
Definition map_sess (i : Z) (f : mme_sess_t → mme_sess_t) (u : ue_t) : ue_t :=
  set_sess_list ((λ s, if s_id s =? i then f s else s) <$> sess_list u) u.
Definition on_bearers (f : list mme_bearer_t → list mme_bearer_t) (s : mme_sess_t) : mme_sess_t :=
  {| s_id := s_id s; pti := pti s; request_type := request_type s; pdn := pdn s;
     ue_pco := ue_pco s; pgw_pco := pgw_pco s; bearer_list := f (bearer_list s) |}.
Definition map_bearer (i : Z) (f : mme_bearer_t → mme_bearer_t) (u : ue_t) : ue_t :=
  set_sess_list (on_bearers (fmap (λ b, if b_id b =? i then f b else b)) <$> sess_list u) u.
Definition with_qos (q : qos_t) (b : mme_bearer_t) : mme_bearer_t :=
  {| b_id := b_id b; b_sm := b_sm b; bearer_ebi := bearer_ebi b; enb_s1u_teid := enb_s1u_teid b;
     sgw_s1u_teid := sgw_s1u_teid b; b_qos := q; tft := tft b; t3489 := t3489 b; b_xact := b_xact b |}.

(** Following [sess->pdn]. *)
Definition the_pdn (u : ue_t) (p : pdn_ptr) : outcome pdn_t :=
  match p with OwnPdn i => access (pdns (subscription_data u) !! i) | OtherPdn p => Ok p end.

Definition eps_qos_of (q : qos_t) : NasTypes.Ambr.ogs_nas_eps_quality_of_service_t :=
  NasTypes.Ambr.eps_qos_build (qci q) (mbr_downlink q) (mbr_uplink q) (gbr_downlink q) (gbr_uplink q).
(** The value of [pdn_address]: the type and the address; of an IPv6 address
    the interface identifier.  The types are those of the GTP element (1 is
    IPv4, 2 IPv6, 3 both). *)
Definition build_pdn_address (a : paa_t) : outcome (list Z) :=
  if pdn_type a =? 1 then Ok (1 :: paa_addr a)
  else if pdn_type a =? 2 then Ok (2 :: drop 8 (paa_addr6 a))
  else if pdn_type a =? 3 then Ok (3 :: drop 8 (both_addr6 a) ++ both_addr a)
  else Aborted.
(** A [uint8_t] length in front of a buffer. *)
Definition octet_length (l : list Z) : list Z := take (Z.to_nat (u8 (Z.of_nat (length l)))) l.

Definition esm_build_activate_default_bearer_context_request (sess : mme_sess_t) : M ue_t pkbuf :=
  match pdn sess, bearer_list sess with
  | Some p, [bearer] =>
      u ← get;
      d ← lift (the_pdn u p);
      modify (map_bearer (b_id bearer) (with_qos (pdn_qos d)));;
      address ← lift (build_pdn_address (paa d));
      esm_encode (ActivateDefaultBearerContextRequest (pti sess) (bearer_ebi bearer)
        (eps_qos_of (pdn_qos d)) (apn d) address
        (if negb (ambr_downlink d =? 0) || negb (ambr_uplink d =? 0)
         then Some (NasTypes.Ambr.apn_ambr_build (ambr_downlink d) (ambr_uplink d)) else None)
        (if (length (pgw_pco sess) =? 0)%nat then None else Some (octet_length (pgw_pco sess))))
  | _, _ => mabort
  end.

(** ** [nas-path.c] *)
Definition nas_send_to_enb (m : s1ap_msg) : M ue_t () :=
  u ← get;
  match enb_ue u with Some _ => emit (ToEnb m) | None => mabort end.

Definition nas_send_emm_to_esm (esm_message_container : list Z) : M ue_t () :=
  massert (negb (length esm_message_container =? 0)%nat);;
  emit (ToEsm {| pk_head := replicate 16 0; pk_data := esm_message_container |}).

Definition nas_send_to_downlink_nas_transport (b : pkbuf) : M ue_t () :=
  u ← get;
  match enb_ue u with
  | None => mret ()
  | Some _ => nas_send_to_enb (DownlinkNasTransport b)
  end.

Definition nas_send_attach_accept : M ue_t () :=
  u ← get;
  match sess_list u with
  | [sess] =>
      massert (length (bearer_list sess) =? 1)%nat;;
      s1apbuf ← (match t_pkbuf (t3450 (timers u)) with
                 | Some m => mret m
                 | None =>
                     esmbuf ← esm_build_activate_default_bearer_context_request sess;
                     emmbuf ← emm_build_attach_accept esmbuf;
                     mret (InitialContextSetupRequest (Some emmbuf))
                 end);
      modify (λ u, on_t3450 (timer_start s1apbuf (t3450 (timers u))) u);;
      nas_send_to_enb s1apbuf
  | _ => mabort
  end.

Definition nas_send_attach_reject (emm_cause esm_cause : Z) : M ue_t () :=
  u ← get;
  esmbuf ← (match sess_list u with
            | sess :: _ =>
                b ← esm_build_pdn_connectivity_reject sess esm_cause; mret (Some b)
            | [] => mret None
            end);
  emmbuf ← emm_build_attach_reject emm_cause esmbuf;
  nas_send_to_downlink_nas_transport emmbuf.

Definition nas_send_identity_request : M ue_t () :=
  u ← get;
  emmbuf ← (match t_pkbuf (t3470 (timers u)) with
            | Some b => mret b | None => emm_build_identity_request end);
  modify (λ u, on_t3470 (timer_start emmbuf (t3470 (timers u))) u);;
  nas_send_to_downlink_nas_transport emmbuf.

(** [e_utran_vector]: RAND and AUTN. *)
Definition nas_send_authentication_request (vector : option (list Z * list Z)) : M ue_t () :=
  u ← get;
  emmbuf ← (match t_pkbuf (t3460 (timers u)) with
            | Some b => mret b
            | None =>
                match vector with
                | Some (r, a) => emm_build_authentication_request r a
                | None => mabort
                end
            end);
  modify (λ u, on_t3460 (timer_start emmbuf (t3460 (timers u))) u);;
  nas_send_to_downlink_nas_transport emmbuf.

Definition nas_send_security_mode_command : M ue_t () :=
  u ← get;
  emmbuf ← (match t_pkbuf (t3460 (timers u)) with
            | Some b => mret b | None => emm_build_security_mode_command end);
  modify (λ u, on_t3460 (timer_start emmbuf (t3460 (timers u))) u);;
  nas_send_to_downlink_nas_transport emmbuf.

Definition nas_send_authentication_reject : M ue_t () :=
  emmbuf ← emm_build_authentication_reject; nas_send_to_downlink_nas_transport emmbuf.

(** ** [s1ap-path.c] *)
Definition on_enb_ue (f : enb_ue_t → enb_ue_t) : M ue_t () :=
  modify (λ u, set_enb_ue (f <$> enb_ue u) u).
Definition CLEAR_ENB_UE_TIMER : M ue_t () := on_enb_ue (λ e,
  {| saved_tai := saved_tai e; saved_e_cgi := saved_e_cgi e;
     t_ue_context_release := timer_cleared; ue_ctx_rel_action := ue_ctx_rel_action e |}).

Definition S1AP_UE_CTX_REL_S1_NORMAL_RELEASE : Z := 2.
Definition S1AP_UE_CTX_REL_UE_CONTEXT_REMOVE : Z := 3.

(** With [delay = 0]. *)
Definition s1ap_send_ue_context_release_command (cause : s1ap_cause) (action : Z) : M ue_t () :=
  u ← get;
  match enb_ue u with
  | None => mabort
  | Some e =>
      m ← (match t_pkbuf (t_ue_context_release e) with
           | Some m => mret m
           | None =>
               massert (negb (action =? 0));;
               on_enb_ue (λ e,
                 {| saved_tai := saved_tai e; saved_e_cgi := saved_e_cgi e;
                    t_ue_context_release := t_ue_context_release e;
                    ue_ctx_rel_action := action |});;
               mret (UeContextReleaseCommand cause)
           end);
      on_enb_ue (λ e,
        {| saved_tai := saved_tai e; saved_e_cgi := saved_e_cgi e;
           t_ue_context_release := timer_start m (t_ue_context_release e);
           ue_ctx_rel_action := ue_ctx_rel_action e |});;
      emit (ToEnb m)
  end.

Definition s1ap_send_initial_context_setup_request : M ue_t () :=
  nas_send_to_enb (InitialContextSetupRequest None).
Definition s1ap_send_ue_context_modification_request : M ue_t () :=
  nas_send_to_enb UeContextModificationRequest.

(** The tracking areas of all eNBs, one paging for each match. *)
Fixpoint page_matches (tas : list ogs_tai_t) : M ue_t () :=
  match tas with
  | [] => mret ()
  | ta :: tas =>
      u ← get;
      (if bool_decide (image ta = image (tai u)) then
         let m := default Paging (t_pkbuf (t3413 (timers u))) in
         modify (λ u, on_t3413 {| t_pkbuf := Some m; t_running := t_running (t3413 (timers u));
                                  t_retry_count := t_retry_count (t3413 (timers u)) |} u);;
         emit (ToEnb m)
       else mret ());;
      page_matches tas
  end.
Definition s1ap_send_paging : M ue_t () :=
  page_matches (mjoin (enb_list self));;
  modify (λ u, on_t3413 {| t_pkbuf := t_pkbuf (t3413 (timers u)); t_running := true;
                           t_retry_count := t_retry_count (t3413 (timers u)) |} u).

(** ** [nas-path.c], continued *)
Definition nas_send_detach_accept : M ue_t () :=
  u ← get;
  match enb_ue u with
  | None => mabort
  | Some _ =>
      (if switch_off (eps_data (nas_eps u)) =? 0 then
         emmbuf ← emm_build_detach_accept; nas_send_to_downlink_nas_transport emmbuf
       else mret ());;
      CLEAR_ENB_UE_TIMER;;
      s1ap_send_ue_context_release_command S1AP_CauseNas_detach S1AP_UE_CTX_REL_S1_NORMAL_RELEASE
  end.

Definition S1AP_id_InitialContextSetup : Z := 9.
Definition S1AP_id_downlinkNASTransport : Z := 11.
Definition S1AP_id_initialUEMessage : Z := 12.
Definition S1AP_id_uplinkNASTransport : Z := 13.

Definition nas_send_tau_accept (procedureCode : Z) : M ue_t () :=
  emmbuf ← emm_build_tau_accept;
  if procedureCode =? S1AP_id_InitialContextSetup
  then nas_send_to_enb (InitialContextSetupRequest (Some emmbuf))
  else if procedureCode =? S1AP_id_downlinkNASTransport
  then nas_send_to_downlink_nas_transport emmbuf
  else mabort.
Definition nas_send_tau_reject (emm_cause : Z) : M ue_t () :=
  emmbuf ← emm_build_tau_reject emm_cause; nas_send_to_downlink_nas_transport emmbuf.
Definition nas_send_service_reject (emm_cause : Z) : M ue_t () :=
  emmbuf ← emm_build_service_reject emm_cause; nas_send_to_downlink_nas_transport emmbuf.

(** ** [mme-gtp-path.c]: the loop over the sessions; a session without a
    path to the SGW is removed. *)
Definition MME_HAVE_SGW_S1U_PATH (s : mme_sess_t) : bool :=
  match bearer_list s with b :: _ => negb (sgw_s1u_teid b =? 0) | [] => false end.
Definition delete_session (s : mme_sess_t) : M ue_t () :=
  match bearer_list s with
  | b :: _ => if pdn_will_disconnect b then mret () else emit (DeleteSessionRequest (bearer_ebi b))
  | [] => mret ()
  end.
Fixpoint delete_sessions (l : list mme_sess_t) : M ue_t (list mme_sess_t) :=
  match l with
  | [] => mret []
  | s :: l =>
      if MME_HAVE_SGW_S1U_PATH s
      then delete_session s;; l ← delete_sessions l; mret (s :: l)
      else delete_sessions l
  end.
Definition mme_gtp_send_delete_all_sessions : M ue_t () :=
  u ← get;
  if session_context_will_deleted u then mret ()
  else
    modify (set_will_deleted true);;
    l ← delete_sessions (sess_list u);
    modify (set_sess_list l).

(** ** [mme-fd-path.c], [mme-path.c] *)
Definition mme_s6a_send_air (auts : option (list Z)) : M ue_t () :=
  CLEAR_SECURITY_CONTEXT;; emit (S6aAir auts).
Definition mme_s6a_send_ulr : M ue_t () := emit S6aUlr.

Definition mme_send_delete_session_or_detach : M ue_t () :=
  u ← get;
  if SESSION_CONTEXT_IS_AVAILABLE u then mme_gtp_send_delete_all_sessions
  else nas_send_detach_accept.

Definition mme_send_delete_session_or_ue_context_release : M ue_t () :=
  u ← get;
  if SESSION_CONTEXT_IS_AVAILABLE u then mme_gtp_send_delete_all_sessions
  else
    CLEAR_ENB_UE_TIMER;;
    s1ap_send_ue_context_release_command S1AP_CauseNas_normal_release
      S1AP_UE_CTX_REL_UE_CONTEXT_REMOVE.

Definition mme_send_release_access_bearer_or_ue_context_release : M ue_t () :=
  u ← get;
  if BEARER_CONTEXT_IS_ACTIVE u then emit ReleaseAccessBearersRequest
  else
    CLEAR_ENB_UE_TIMER;;
    s1ap_send_ue_context_release_command S1AP_CauseNas_normal_release
      S1AP_UE_CTX_REL_S1_NORMAL_RELEASE.
End build.
