(* ===== verification/EmmHandler.v ===== *)
(** * The handlers of EMM messages: [src/mme/emm-handler.c], [mme-s6a-handler.c]

    A received message ([emm_message_t]) is the C union after decoding: one
    field for each member, because the state machine selects the member by
    an octet of the message. *)
From S2P Require Import Prelude.
From S2P Require Import CMem.
From S2P Require Import OgsLib.
From S2P Require Import NasTai.
From S2P Require Import NasConv.
From S2P Require NasSecurity.
From S2P Require Import Kdf.
From S2P Require Import MmeContext.
From S2P Require Import EmmBuild.
#[local] Open Scope Z_scope.

(** A mobile identity: its length and the union seen as an IMSI, as a GUTI
    (the octets of its [ogs_nas_guti_t]) and as a TMSI. *)
Record mobile_identity_t := {
  mi_length : Z; mi_imsi : ogs_nas_mobile_identity_imsi_t; mi_guti : list Z; mi_tmsi : Z;
}.

(** Optional IEs ([presencemask]) are options; the type IEs are octets. *)
Record attach_request_t := {
  eps_attach_type : Z; ar_identity : mobile_identity_t;
  ar_ue_cap : ue_network_capability_t; ar_ms_cap : option ms_network_capability_t;
  ar_last_visited : option OgsLib.digits; esm_message_container : list Z;
}.
Record tau_request_t := {
  eps_update_type : Z; old_guti : mobile_identity_t;
  tau_ue_cap : option ue_network_capability_t; tau_ms_cap : option ms_network_capability_t;
  tau_last_visited : option OgsLib.digits;
}.
Record extended_service_request_t := { esr_service_type : Z; m_tmsi : mobile_identity_t }.

Record emm_message_t := {
  security_header_type : Z; message_type : Z;
  attach_request : attach_request_t; attach_complete : list Z;
  tracking_area_update_request : tau_request_t;
  extended_service_request : extended_service_request_t;
  ksi_and_sequence_number : Z; detach_type : Z;
  identity_response : mobile_identity_t;
  authentication_response_length : Z; authentication_response_res : list Z;
  authentication_failure_cause : Z; authentication_failure_auts : list Z;
  nas_message_container : list Z;
}.

(** Conversions of ogslib on IMSI digit strings, and the clock. *)
Class OgsImsi := { ogs_bcd_to_buffer : list Z → list Z }.
Class OgsTime := { universal_time_and_local_time_zone : list Z }.

Section handler.
Context `{Host, OgsBits, OgsPkbuf, NasSecurity.Crypto, KeyedHash, OgsPlmn, !OgsPlmnDigits,
          !Ogs3gpp, OgsSizes, NasCodec, OgsImsi, OgsTime} (self : mme_context_t).

Inductive rv_t := OGS_OK | OGS_ERROR.

Definition set_eps (type : Z) (ksi : Z) (data : Z) : M ue_t () :=
  modify (set_nas_eps {| eps_type := type; ksi := ksi; eps_data := data |}).
Definition MME_EPS_TYPE_ATTACH_REQUEST : Z := 1.
Definition MME_EPS_TYPE_TAU_REQUEST : Z := 2.
Definition MME_EPS_TYPE_SERVICE_REQUEST : Z := 3.
Definition MME_EPS_TYPE_EXTENDED_SERVICE_REQUEST : Z := 4.
Definition MME_EPS_TYPE_DETACH_REQUEST_FROM_UE : Z := 5.

(** [mme_kdf_enb], [mme_kdf_nh] and [nhcc = 1]. *)
Definition derive_enb_keys (u : ue_t) : ue_t :=
  let k := keys u in
  let kenb := mme_kdf_enb (kasme k) (NasSecurity.ul_i32 (NasSecurity.ul_count (sec u))) in
  set_keys {| xres := xres k; xres_len := xres_len k; kasme := kasme k; rand := rand k;
              kenb := kenb; nh := mme_kdf_nh (kasme k) kenb; nhcc := 1 |} u.
Definition refresh_enb_keys : M ue_t () :=
  u ← get;
  if SECURITY_CONTEXT_IS_VALID u then modify derive_enb_keys else mret ().

(** Copy TAI and ECGI from [enb_ue]. *)
Definition copy_location (e : enb_ue_t) : M ue_t () :=
  modify (λ u, set_e_cgi (saved_e_cgi e) (set_tai (saved_tai e) u)).
Definition store_last_visited (p : option OgsLib.digits) : M ue_t () :=
  match p with
  | Some n => modify (set_last_visited (ogs_nas_to_plmn_id n))
  | None => mret ()
  end.
Definition store_ue_cap (c : option ue_network_capability_t) : M ue_t () :=
  match c with Some c => modify (set_ue_cap c) | None => mret () end.
Definition store_ms_cap (c : option ms_network_capability_t) : M ue_t () :=
  match c with Some c => modify (set_ms_cap c) | None => mret () end.

Definition OGS_MAX_IMSI_BCD_LEN : nat := 15.

(** [mme_ue_set_imsi] in [mme-context.c]. *)
Definition mme_ue_set_imsi (bcd : list Z) : M ue_t () :=
  let s := take OGS_MAX_IMSI_BCD_LEN (c_string bcd) in
  modify (λ u, let i := ident u in
    set_ident {| imsi := ogs_bcd_to_buffer s; imsi_bcd := s;
                 nas_mobile_identity_imsi := nas_mobile_identity_imsi i; guti := guti i;
                 guti_present := guti_present i; p_tmsi := p_tmsi i |} u);;
  emit (ImsiHashSet (ogs_bcd_to_buffer s));;
  modify (λ u, set_ident (with_guti_present true (ident u)) u).

(** The case of an IMSI identity: keep it and set the IMSI. *)
Definition store_imsi (m : mobile_identity_t) : M ue_t () :=
  modify (λ u, let i := ident u in
    set_ident {| imsi := imsi i; imsi_bcd := imsi_bcd i; nas_mobile_identity_imsi := mi_imsi m;
                 guti := guti i; guti_present := guti_present i; p_tmsi := p_tmsi i |} u);;
  bcd ← lift (ogs_nas_imsi_to_bcd (mi_imsi m) (mi_length m)
                (replicate (OGS_MAX_IMSI_BCD_LEN + 1) 0));
  mme_ue_set_imsi bcd.

Definition the_enb_ue : M ue_t enb_ue_t :=
  u ← get; match enb_ue u with Some e => mret e | None => mabort end.

(** The rest of the attach request after the TAI was found. *)
Definition attach_store (r : attach_request_t) : M ue_t rv_t :=
  store_last_visited (ar_last_visited r);;
  modify (set_ue_cap (ar_ue_cap r));;
  store_ms_cap (ar_ms_cap r);;
  u ← get;
  if mme_selected_int_algorithm self u =? 0 then
    nas_send_attach_reject EMM_CAUSE_UE_SECURITY_CAPABILITIES_MISMATCH
      ESM_CAUSE_PROTOCOL_ERROR_UNSPECIFIED;;
    mret OGS_ERROR
  else
    (if id_type (mi_imsi (ar_identity r)) =? 1 then store_imsi (ar_identity r) else mret ());;
    modify (set_pdn_request (esm_message_container r));;
    mret OGS_OK.

Definition emm_handle_attach_request (r : attach_request_t) : M ue_t rv_t :=
  e ← the_enb_ue;
  massert (negb (length (esm_message_container r) =? 0)%nat);;
  set_eps MME_EPS_TYPE_ATTACH_REQUEST (nas_key_set_identifier (eps_attach_type r))
    (eps_attach_type r);;
  CLEAR_MME_UE_ALL_TIMERS;;
  CLEAR_EPS_BEARER_ID;;
  CLEAR_SERVICE_INDICATOR;;
  refresh_enb_keys;;
  copy_location e;;
  u ← get;
  i ← lift (mme_find_served_tai self (tai u));
  if i <? 0 then
    nas_send_attach_reject EMM_CAUSE_TRACKING_AREA_NOT_ALLOWED
      ESM_CAUSE_PROTOCOL_ERROR_UNSPECIFIED;;
    mret OGS_ERROR
  else attach_store r.

Definition nonempty_name (l : list Z) : option (list Z) :=
  if (length l =? 0)%nat then None else Some l.

Definition emm_handle_attach_complete (container : list Z) : M ue_t rv_t :=
  nas_send_emm_to_esm container;;
  emmbuf ← security_encode INTEGRITY_PROTECTED_AND_CIPHERED
    (EmmInformation universal_time_and_local_time_zone (nonempty_name (full_name self))
       (nonempty_name (short_name self)));
  nas_send_to_downlink_nas_transport emmbuf;;
  mret OGS_OK.

Definition emm_handle_identity_response (m : mobile_identity_t) : M ue_t rv_t :=
  _ ← the_enb_ue;
  (if id_type (mi_imsi m) =? 1 then
     store_imsi m;;
     u ← get;
     massert (MME_UE_HAVE_IMSI u)
   else mret ());;
  mret OGS_OK.

Definition emm_handle_detach_request (octet : Z) : M ue_t rv_t :=
  set_eps MME_EPS_TYPE_DETACH_REQUEST_FROM_UE (nas_key_set_identifier octet) octet;;
  mret OGS_OK.

(** [nas_eps.data] is not written. *)
Definition emm_handle_service_request (ksi_seq : Z) : M ue_t rv_t :=
  modify (λ u, set_nas_eps {| eps_type := MME_EPS_TYPE_SERVICE_REQUEST;
                              ksi := nth 0 (ed_unpack [3; 5]%nat ksi_seq) 0;
                              eps_data := eps_data (nas_eps u) |} u);;
  CLEAR_MME_UE_ALL_TIMERS;;
  refresh_enb_keys;;
  mret OGS_OK.

Definition emm_handle_tau_request (r : tau_request_t) : M ue_t rv_t :=
  e ← the_enb_ue;
  set_eps MME_EPS_TYPE_TAU_REQUEST (nas_key_set_identifier (eps_update_type r)) (eps_update_type r);;
  CLEAR_MME_UE_ALL_TIMERS;;
  CLEAR_SERVICE_INDICATOR;;
  copy_location e;;
  u ← get;
  i ← lift (mme_find_served_tai self (tai u));
  if i <? 0 then
    nas_send_tau_reject EMM_CAUSE_TRACKING_AREA_NOT_ALLOWED;; mret OGS_ERROR
  else
    store_last_visited (tau_last_visited r);;
    store_ue_cap (tau_ue_cap r);;
    store_ms_cap (tau_ms_cap r);;
    mret OGS_OK.

Definition emm_handle_extended_service_request (r : extended_service_request_t) : M ue_t rv_t :=
  e ← the_enb_ue;
  set_eps MME_EPS_TYPE_EXTENDED_SERVICE_REQUEST
    (nth 1 (ed_unpack [1; 3; 4]%nat (esr_service_type r)) 0) (esr_service_type r);;
  CLEAR_MME_UE_ALL_TIMERS;;
  copy_location e;;
  u ← get;
  i ← lift (mme_find_served_tai self (tai u));
  if i <? 0 then
    nas_send_tau_reject EMM_CAUSE_TRACKING_AREA_NOT_ALLOWED;; mret OGS_ERROR
  else mret OGS_OK.

(** ** [mme-s6a-handler.c] *)
Record e_utran_vector_t := { v_xres : list Z; v_kasme : list Z; v_rand : list Z; v_autn : list Z }.

Definition mme_s6a_handle_aia (v : e_utran_vector_t) : M ue_t () :=
  u ← get;
  x ← lift (NasSecurity.poke 0 (v_xres v) (xres (keys u)));
  modify (λ u, set_keys {| xres := x; xres_len := Z.of_nat (length (v_xres v));
    kasme := v_kasme v; rand := v_rand v;
    kenb := kenb (keys u); nh := nh (keys u); nhcc := nhcc (keys u) |} u);;
  modify (λ u, on_t3460 timer_cleared u);;
  nas_send_authentication_request (Some (v_rand v, v_autn v)).

Definition mme_s6a_handle_ula (data : subscription_data_t) : M ue_t () := modify (set_subscription_data data).
End handler.
