(* ===== verification/EmmSm.v ===== *)
(** * The EMM state machine: [src/mme/emm-sm.c], [mme-sm.c]

    One definition per state function; [common_register_state], shared by the
    states de-registered and registered, is split along its [switch]es. *)
From S2P Require Import Prelude.
From S2P Require Import CMem.
From S2P Require Import OgsLib.
From S2P Require Import NasTai.
From S2P Require NasSecurity.
From S2P Require Import Kdf.
From S2P Require Import MmeContext.
From S2P Require Import EmmBuild.
From S2P Require Import EmmHandler.
#[local] Open Scope Z_scope.

Inductive mme_timer_e :=
| MME_TIMER_T3413 | MME_TIMER_T3422 | MME_TIMER_T3450 | MME_TIMER_T3460 | MME_TIMER_T3470
| MME_TIMER_T3489 | MME_TIMER_OTHER.

(** [max_count] in [mme-timer.c]. *)
Definition mme_timer_max_count (id : mme_timer_e) : Z :=
  match id with
  | MME_TIMER_T3413 => 2 | MME_TIMER_T3422 => 4 | MME_TIMER_T3450 => 4
  | MME_TIMER_T3460 => 4 | MME_TIMER_T3470 => 4 | MME_TIMER_T3489 => 2 | MME_TIMER_OTHER => 2
  end.

(** [nas_type] and [s1ap_code] come with the message. *)
Inductive emm_event :=
| EmmMessage (m : emm_message_t) (nas_type : NasSecurity.nas_security_header_type_t) (s1ap_code : Z)
| EmmTimer (id : mme_timer_e).

Definition SERVICE_REQUEST_HEADER : Z := 12.
Definition OGS_NAS_ATTACH_REQUEST : Z := 65.
Definition OGS_NAS_ATTACH_COMPLETE : Z := 67.
Definition OGS_NAS_DETACH_REQUEST : Z := 69.
Definition OGS_NAS_TRACKING_AREA_UPDATE_REQUEST : Z := 72.
Definition OGS_NAS_TRACKING_AREA_UPDATE_COMPLETE : Z := 74.
Definition OGS_NAS_EXTENDED_SERVICE_REQUEST : Z := 76.
Definition OGS_NAS_AUTHENTICATION_RESPONSE : Z := 83.
Definition OGS_NAS_IDENTITY_RESPONSE : Z := 86.
Definition OGS_NAS_AUTHENTICATION_FAILURE : Z := 92.
Definition OGS_NAS_SECURITY_MODE_COMPLETE : Z := 94.
Definition OGS_NAS_SECURITY_MODE_REJECT : Z := 95.
Definition OGS_NAS_EMM_STATUS : Z := 96.
Definition OGS_NAS_UPLINK_NAS_TRANSPORT : Z := 99.

(** [memcmp(res, xres, length) == 0] on two arrays of sixteen octets. *)
Definition memcmp_equal (a b : list Z) (n : nat) : outcome bool :=
  x ← NasSecurity.peek 0 n a; y ← NasSecurity.peek 0 n b; mret (bool_decide (x = y)).

Section sm.
Context `{Host, OgsBits, OgsPkbuf, NasSecurity.Crypto, KeyedHash, OgsPlmn, !OgsPlmnDigits,
          !Ogs3gpp, OgsSizes, NasCodec, OgsImsi, OgsTime, OgsFsm} (self : mme_context_t).

Definition CLEAR_T3413 : M ue_t () := modify (on_t3413 timer_cleared).
Definition CLEAR_T3450 : M ue_t () := modify (on_t3450 timer_cleared).
Definition CLEAR_T3460 : M ue_t () := modify (on_t3460 timer_cleared).
Definition CLEAR_T3470 : M ue_t () := modify (on_t3470 timer_cleared).

(** [if (rv != OGS_OK) { OGS_FSM_TRAN(s, emm_state_exception); return; }] *)
Definition or_exception (m : M ue_t rv_t) (k : M ue_t bool) : M ue_t bool :=
  rv ← m;
  match rv with
  | OGS_OK => k
  | OGS_ERROR => tran emm_state_exception;; mret false
  end.

Definition reject_service (cause : Z) : M ue_t () :=
  nas_send_service_reject cause;; tran emm_state_exception.
Definition reject_tau (cause : Z) : M ue_t () :=
  nas_send_tau_reject cause;; tran emm_state_exception.

(** ** [common_register_state]: a service request *)
Definition common_service_request (m : emm_message_t) : M ue_t () :=
  _ ← or_exception (emm_handle_service_request (ksi_and_sequence_number m))
    (u ← get;
     (if negb (MME_UE_HAVE_IMSI u) then reject_service EMM_CAUSE_UE_IDENTITY_CANNOT_BE_DERIVED
      else if negb (SECURITY_CONTEXT_IS_VALID u)
      then reject_service EMM_CAUSE_UE_IDENTITY_CANNOT_BE_DERIVED
      else s1ap_send_initial_context_setup_request);;
     mret false);
  mret ().

Definition common_detach : M ue_t () :=
  u ← get;
  (if MME_P_TMSI_IS_AVAILABLE u then emit (Sgsap DetachIndication)
   else mme_send_delete_session_or_detach);;
  tran emm_state_de_registered.

(** The [switch] on the message type; the result tells whether the code
    after the outer [switch] is reached ([break]) or not ([return]). *)
Definition common_message (m : emm_message_t) : M ue_t bool :=
  let t := message_type m in
  if t =? OGS_NAS_IDENTITY_RESPONSE then
    CLEAR_T3470;;
    or_exception (emm_handle_identity_response (identity_response m))
      (u ← get;
       if negb (MME_UE_HAVE_IMSI u) then tran emm_state_exception;; mret false else mret true)
  else if t =? OGS_NAS_ATTACH_REQUEST then
    or_exception (emm_handle_attach_request self (attach_request m)) (mret true)
  else if t =? OGS_NAS_TRACKING_AREA_UPDATE_REQUEST then
    or_exception (emm_handle_tau_request self (tracking_area_update_request m))
      (u ← get;
       if negb (MME_UE_HAVE_IMSI u)
       then reject_tau EMM_CAUSE_UE_IDENTITY_CANNOT_BE_DERIVED;; mret false
       else mret true)
  else if t =? OGS_NAS_TRACKING_AREA_UPDATE_COMPLETE then mret false
  else if t =? OGS_NAS_EXTENDED_SERVICE_REQUEST then
    or_exception (emm_handle_extended_service_request self (extended_service_request m))
      (u ← get;
       if negb (MME_UE_HAVE_IMSI u)
       then reject_service EMM_CAUSE_UE_IDENTITY_CANNOT_BE_DERIVED;; mret false
       else mret true)
  else if t =? OGS_NAS_EMM_STATUS then tran emm_state_exception;; mret false
  else if t =? OGS_NAS_DETACH_REQUEST then
    or_exception (emm_handle_detach_request (detach_type m)) (common_detach;; mret false)
  else if t =? OGS_NAS_UPLINK_NAS_TRANSPORT then
    u ← get;
    (if MME_SGSAP_IS_CONNECTED u then emit (Sgsap (UplinkUnitdata (nas_message_container m)))
     else emit (ToEnb ErrorIndication));;
    mret false
  else mret false.

(** ** [common_register_state]: timers *)
Definition common_timer (id : mme_timer_e) : M ue_t () :=
  u ← get;
  match id with
  | MME_TIMER_T3413 =>
      if mme_timer_max_count MME_TIMER_T3413 <=? t_retry_count (t3413 (timers u)) then
        CLEAR_T3413;;
        (if CS_CALL_SERVICE_INDICATOR u || SMS_SERVICE_INDICATOR u
         then emit (Sgsap UeUnreachable) else mret ());;
        CLEAR_SERVICE_INDICATOR
      else
        modify (λ u, on_t3413 (timer_retry (t3413 (timers u))) u);;
        s1ap_send_paging self
  | MME_TIMER_T3470 =>
      if mme_timer_max_count MME_TIMER_T3470 <=? t_retry_count (t3470 (timers u)) then
        CLEAR_T3470;; tran emm_state_exception
      else
        modify (λ u, on_t3470 (timer_retry (t3470 (timers u))) u);;
        nas_send_identity_request
  | _ => mret ()
  end.

(** ** [common_register_state]: after the outer [switch] *)
Definition after_attach : M ue_t () :=
  u ← get;
  if SECURITY_CONTEXT_IS_VALID u then
    nas_send_emm_to_esm (pdn_connectivity_request u);;
    tran emm_state_initial_context_setup
  else
    (if SESSION_CONTEXT_IS_AVAILABLE u then mme_gtp_send_delete_all_sessions
     else mme_s6a_send_air None);;
    tran emm_state_authentication.

Definition after_tau (procedureCode : Z) : M ue_t () :=
  u ← get;
  if negb (SESSION_CONTEXT_IS_AVAILABLE u)
  then reject_tau EMM_CAUSE_UE_IDENTITY_CANNOT_BE_DERIVED
  else if negb (SECURITY_CONTEXT_IS_VALID u)
  then mme_s6a_send_air None;; tran emm_state_authentication
  else if procedureCode =? S1AP_id_initialUEMessage then
    if negb (active_flag (eps_data (nas_eps u)) =? 0)
    then nas_send_tau_accept self S1AP_id_InitialContextSetup
    else
      nas_send_tau_accept self S1AP_id_downlinkNASTransport;;
      mme_send_release_access_bearer_or_ue_context_release
  else if procedureCode =? S1AP_id_uplinkNASTransport
  then nas_send_tau_accept self S1AP_id_downlinkNASTransport
  else mabort.

(** The dispatch on the CSFB service type; [k] is sent afterwards. *)
Definition csfb (emm_mode : Z) (k : M ue_t ()) : M ue_t () :=
  u ← get;
  let t := service_type (eps_data (nas_eps u)) in
  if (t =? 0) || (t =? 2) then emit (Sgsap MoCsfbIndication);; k
  else if t =? 1 then emit (Sgsap (ServiceRequest emm_mode));; k
  else reject_service EMM_CAUSE_UE_IDENTITY_CANNOT_BE_DERIVED.

Definition after_extended_service (procedureCode : Z) : M ue_t () :=
  u ← get;
  if negb (MME_P_TMSI_IS_AVAILABLE u)
  then reject_service EMM_CAUSE_UE_IDENTITY_CANNOT_BE_DERIVED
  else if negb (SESSION_CONTEXT_IS_AVAILABLE u)
  then reject_service EMM_CAUSE_UE_IDENTITY_CANNOT_BE_DERIVED
  else if negb (SECURITY_CONTEXT_IS_VALID u)
  then reject_service EMM_CAUSE_UE_IDENTITY_CANNOT_BE_DERIVED
  else if procedureCode =? S1AP_id_initialUEMessage
  then csfb 0 s1ap_send_initial_context_setup_request
  else if procedureCode =? S1AP_id_uplinkNASTransport
  then csfb 1 s1ap_send_ue_context_modification_request
  else mabort.

Definition common_after (procedureCode : Z) : M ue_t () :=
  u ← get;
  if negb (MME_UE_HAVE_IMSI u) then CLEAR_T3470;; nas_send_identity_request
  else
    match enb_ue u with
    | None => mabort
    | Some _ =>
        let t := eps_type (nas_eps u) in
        if t =? MME_EPS_TYPE_ATTACH_REQUEST then after_attach
        else if t =? MME_EPS_TYPE_TAU_REQUEST then after_tau procedureCode
        else if t =? MME_EPS_TYPE_EXTENDED_SERVICE_REQUEST
        then after_extended_service procedureCode
        else mabort
    end.

Definition common_register_state (e : fsm_signal emm_event) : M ue_t () :=
  match e with
  | OGS_FSM_ENTRY_SIG | OGS_FSM_EXIT_SIG => mret ()
  | FsmEvent (EmmTimer id) => common_timer id
  | FsmEvent (EmmMessage m _ code) =>
      _ ← the_enb_ue;
      if security_header_type m =? SERVICE_REQUEST_HEADER then common_service_request m
      else
        go_on ← common_message m;
        if (go_on : bool) then common_after code else mret ()
  end.

(** ** The states *)
Definition de_registered (e : fsm_signal emm_event) : M ue_t () :=
  match e with
  | OGS_FSM_ENTRY_SIG => CLEAR_SERVICE_INDICATOR;; CLEAR_MME_UE_ALL_TIMERS
  | _ => mret ()
  end;;
  common_register_state e.

Definition authentication_response (m : emm_message_t) : M ue_t () :=
  CLEAR_T3460;;
  u ← get;
  equal ← lift (memcmp_equal (authentication_response_res m) (xres (keys u))
                  (Z.to_nat (authentication_response_length m)));
  if (equal : bool) then tran emm_state_security_mode
  else nas_send_authentication_reject;; tran emm_state_exception.

Definition authentication_failure (m : emm_message_t) : M ue_t () :=
  CLEAR_T3460;;
  if authentication_failure_cause m =? EMM_CAUSE_SYNCH_FAILURE
  then mme_s6a_send_air (Some (authentication_failure_auts m))
  else nas_send_authentication_reject;; tran emm_state_exception.

(** An attach request in authentication or security mode. *)
Definition restart_attach (m : emm_message_t) : M ue_t () :=
  _ ← or_exception (emm_handle_attach_request self (attach_request m))
    (mme_s6a_send_air None;; tran emm_state_authentication;; mret false);
  mret ().
Definition detach (m : emm_message_t) : M ue_t () :=
  _ ← or_exception (emm_handle_detach_request (detach_type m))
    (mme_send_delete_session_or_detach;; tran emm_state_de_registered;; mret false);
  mret ().

Definition authentication (e : fsm_signal emm_event) : M ue_t () :=
  match e with
  | OGS_FSM_ENTRY_SIG | OGS_FSM_EXIT_SIG => mret ()
  | FsmEvent (EmmMessage m _ _) =>
      let t := message_type m in
      if t =? OGS_NAS_AUTHENTICATION_RESPONSE then authentication_response m
      else if t =? OGS_NAS_AUTHENTICATION_FAILURE then authentication_failure m
      else if t =? OGS_NAS_ATTACH_REQUEST then restart_attach m
      else if t =? OGS_NAS_EMM_STATUS then tran emm_state_exception
      else if t =? OGS_NAS_DETACH_REQUEST then detach m
      else mret ()
  | FsmEvent (EmmTimer MME_TIMER_T3460) =>
      u ← get;
      if mme_timer_max_count MME_TIMER_T3460 <=? t_retry_count (t3460 (timers u)) then
        tran emm_state_exception;; nas_send_authentication_reject
      else
        modify (λ u, on_t3460 (timer_retry (t3460 (timers u))) u);;
        nas_send_authentication_request None
  | FsmEvent (EmmTimer _) => mret ()
  end.

Definition reject_security_mode : M ue_t () :=
  nas_send_attach_reject EMM_CAUSE_SECURITY_MODE_REJECTED_UNSPECIFIED
    ESM_CAUSE_PROTOCOL_ERROR_UNSPECIFIED;;
  tran emm_state_exception.

Definition security_mode_complete (nas_type : NasSecurity.nas_security_header_type_t) : M ue_t () :=
  CLEAR_T3460;;
  u ← get;
  if negb (NasSecurity.integrity_protected nas_type) then reject_security_mode
  else if negb (SECURITY_CONTEXT_IS_VALID u) then reject_security_mode
  else
    modify derive_enb_keys;;
    mme_s6a_send_ulr;;
    let t := eps_type (nas_eps u) in
    if t =? MME_EPS_TYPE_ATTACH_REQUEST then tran emm_state_initial_context_setup
    else if (t =? MME_EPS_TYPE_SERVICE_REQUEST) || (t =? MME_EPS_TYPE_TAU_REQUEST)
    then tran emm_state_registered
    else mabort.

Definition security_mode (e : fsm_signal emm_event) : M ue_t () :=
  match e with
  | OGS_FSM_ENTRY_SIG => CLEAR_T3460;; nas_send_security_mode_command self
  | OGS_FSM_EXIT_SIG => mret ()
  | FsmEvent (EmmMessage m nas_type _) =>
      if security_header_type m =? SERVICE_REQUEST_HEADER
      then reject_service EMM_CAUSE_SECURITY_MODE_REJECTED_UNSPECIFIED
      else
        let t := message_type m in
        if t =? OGS_NAS_SECURITY_MODE_COMPLETE then security_mode_complete nas_type
        else if t =? OGS_NAS_SECURITY_MODE_REJECT then CLEAR_T3460;; tran emm_state_exception
        else if t =? OGS_NAS_ATTACH_REQUEST then restart_attach m
        else if t =? OGS_NAS_TRACKING_AREA_UPDATE_REQUEST
        then reject_tau EMM_CAUSE_SECURITY_MODE_REJECTED_UNSPECIFIED
        else if t =? OGS_NAS_EMM_STATUS then tran emm_state_exception
        else if t =? OGS_NAS_DETACH_REQUEST then detach m
        else mret ()
  | FsmEvent (EmmTimer MME_TIMER_T3460) =>
      u ← get;
      if mme_timer_max_count MME_TIMER_T3460 <=? t_retry_count (t3460 (timers u)) then
        tran emm_state_exception;;
        nas_send_attach_reject EMM_CAUSE_SECURITY_MODE_REJECTED_UNSPECIFIED
          ESM_CAUSE_PROTOCOL_ERROR_UNSPECIFIED
      else
        modify (λ u, on_t3460 (timer_retry (t3460 (timers u))) u);;
        nas_send_security_mode_command self
  | FsmEvent (EmmTimer _) => mret ()
  end.

Definition setup_attach_complete (m : emm_message_t) : M ue_t () :=
  CLEAR_T3450;;
  _ ← or_exception (emm_handle_attach_complete self (attach_complete m))
    (u ← get;
     (if MME_P_TMSI_IS_AVAILABLE u then emit (Sgsap TmsiReallocationComplete) else mret ());;
     tran emm_state_registered;; mret false);
  mret ().

Definition setup_attach_request (m : emm_message_t) : M ue_t () :=
  _ ← or_exception (emm_handle_attach_request self (attach_request m))
    (mme_gtp_send_delete_all_sessions;; tran emm_state_authentication;; mret false);
  mret ().

Definition initial_context_setup (e : fsm_signal emm_event) : M ue_t () :=
  match e with
  | OGS_FSM_ENTRY_SIG | OGS_FSM_EXIT_SIG => mret ()
  | FsmEvent (EmmMessage m _ _) =>
      let t := message_type m in
      if t =? OGS_NAS_ATTACH_COMPLETE then setup_attach_complete m
      else if t =? OGS_NAS_ATTACH_REQUEST then setup_attach_request m
      else if t =? OGS_NAS_EMM_STATUS then tran emm_state_exception
      else if t =? OGS_NAS_DETACH_REQUEST then detach m
      else mret ()
  | FsmEvent (EmmTimer MME_TIMER_T3450) =>
      u ← get;
      if mme_timer_max_count MME_TIMER_T3450 <=? t_retry_count (t3450 (timers u)) then
        tran emm_state_exception
      else
        modify (λ u, on_t3450 (timer_retry (t3450 (timers u))) u);;
        nas_send_attach_accept self
  | FsmEvent (EmmTimer _) => mret ()
  end.

Definition exception (e : fsm_signal emm_event) : M ue_t () :=
  match e with
  | OGS_FSM_ENTRY_SIG => CLEAR_SERVICE_INDICATOR;; CLEAR_MME_UE_ALL_TIMERS
  | _ => mret ()
  end.

Definition emm_state_handler (s : emm_state) : fsm_signal emm_event → M ue_t () :=
  match s with
  | emm_state_initial => λ _, tran emm_state_de_registered
  | emm_state_final => λ _, mret ()
  | emm_state_de_registered => de_registered
  | emm_state_registered => common_register_state
  | emm_state_authentication => authentication
  | emm_state_security_mode => security_mode
  | emm_state_initial_context_setup => initial_context_setup
  | emm_state_exception => exception
  end.

(** ** [mme-sm.c] *)
Definition emm_dispatch (e : emm_event) : M ue_t () :=
  ogs_fsm_dispatch emm_state_eq_dec sm emm_state_handler e.

(** [MME_EVT_EMM_MESSAGE] once the UE context is known. *)
Definition mme_emm_message (e : emm_event) : M ue_t () :=
  emm_dispatch e;;
  u ← get;
  if decide (sm u = emm_state_exception) then mme_send_delete_session_or_ue_context_release
  else mret ().

Inductive s6a_message :=
| S6aFailure
| S6aAia (v : e_utran_vector_t)
| S6aUla (subscription_data : subscription_data_t).

Definition mme_s6a_message (e : s6a_message) : M ue_t () :=
  match e with
  | S6aFailure =>
      nas_send_attach_reject EMM_CAUSE_IMSI_UNKNOWN_IN_HSS ESM_CAUSE_PROTOCOL_ERROR_UNSPECIFIED;;
      _ ← the_enb_ue;
      CLEAR_ENB_UE_TIMER;;
      s1ap_send_ue_context_release_command S1AP_CauseNas_normal_release
        S1AP_UE_CTX_REL_UE_CONTEXT_REMOVE
  | S6aAia v => mme_s6a_handle_aia v
  | S6aUla data =>
      mme_s6a_handle_ula data;;
      u ← get;
      let t := eps_type (nas_eps u) in
      if decide (sm u = emm_state_initial_context_setup) then
        if t =? MME_EPS_TYPE_ATTACH_REQUEST then nas_send_emm_to_esm (pdn_connectivity_request u)
        else mabort
      else if decide (sm u = emm_state_registered) then
        if t =? MME_EPS_TYPE_TAU_REQUEST then nas_send_tau_accept self S1AP_id_InitialContextSetup
        else if t =? MME_EPS_TYPE_SERVICE_REQUEST then s1ap_send_initial_context_setup_request
        else mabort
      else mabort
  end.
End sm.
