(* ===== verification/EmmProofs.v ===== *)
(** * The EMM layer: what its operations leave unchanged

    Every operation below the state functions keeps the state of the machine,
    the MAC flag and the invariant of the timers. *)
From S2P Require Import Prelude.
From S2P Require Import CMem.
From S2P Require Import OgsLib.
From S2P Require Import NasTai.
From S2P Require NasSecurity.
From S2P Require Import Kdf.
From S2P Require Import MmeContext.
From S2P Require Import EmmBuild.
From S2P Require Import EmmHandler.
From S2P Require Import EmmSm.
#[local] Open Scope Z_scope.

(** A running timer has a message to send again; retransmissions are bounded
    by [max_count].  (T3413 runs without one when no eNB serves the area.) *)
Definition timer_ok {A} (id : mme_timer_e) (t : ue_timer A) : Prop :=
  (t_running t = true → is_Some (t_pkbuf t)) ∧ 0 <= t_retry_count t <= mme_timer_max_count id.

Section stable.
Context `{OgsPlmn}.

Definition timers_ok (u : ue_t) : Prop :=
  let t := timers u in
  (0 <= t_retry_count (t3413 t) <= mme_timer_max_count MME_TIMER_T3413) ∧
  timer_ok MME_TIMER_T3422 (t3422 t) ∧ timer_ok MME_TIMER_T3450 (t3450 t) ∧
  timer_ok MME_TIMER_T3460 (t3460 t) ∧ timer_ok MME_TIMER_T3470 (t3470 t).

(** What all operations below the state functions respect ... *)
Definition stable (u u' : ue_t) : Prop :=
  sm u' = sm u ∧
  (NasSecurity.mac_failed (sec u') = true → NasSecurity.mac_failed (sec u) = true) ∧
  (timers_ok u → timers_ok u').
(** ... and those that encode no protected message. *)
Definition quiet (u u' : ue_t) : Prop :=
  stable u u' ∧ NasSecurity.mac_failed (sec u') = NasSecurity.mac_failed (sec u) ∧
  NasSecurity.security_context_available (sec u') = NasSecurity.security_context_available (sec u).

#[export] Instance stable_preorder : PreOrder stable.
Proof.
  split; [by intros u|]. intros u v w (E1 & E2 & Hf) (E3 & E4 & Hg).
  split_and!; [congruence|auto|auto].
Qed.
#[export] Instance quiet_preorder : PreOrder quiet.
Proof. split; [by intros u|]. intros u v w (H1 & E1 & F1) (H2 & E2 & F2).
  split_and!; [by etrans|congruence|congruence]. Qed.

Lemma quiet_stable {A} (m : M ue_t A) : keeps quiet m → keeps stable m.
Proof. intros Hm u. eapply wlp_mono; [apply Hm|]. by intros a u' [Hs _]. Qed.

Lemma timer_ok_cleared {A} id : timer_ok id (timer_cleared : ue_timer A).
Proof. split; [discriminate|]. destruct id; simpl; lia. Qed.
Lemma timer_ok_start {A} id (m : A) t : timer_ok id t → timer_ok id (timer_start m t).
Proof. intros [_ Hr]. split; [by exists m|exact Hr]. Qed.
End stable.

Ltac timers_tac := refine (conj _ (conj _ (conj _ (conj _ _)))); cbn; auto.

(** Setters of other fields. *)
Ltac quiet_setter := intros; apply keeps_modify; intros u0; split; [split_and!; [done|done|]|done].

Section operations.
Context `{OgsPlmn}.
Implicit Types u : ue_t.

Lemma quiet_emit o : keeps quiet (emit o). Proof. quiet_setter. done. Qed.
Lemma quiet_set_ident f : keeps quiet (modify (λ u, set_ident (f u) u)).
Proof. quiet_setter. done. Qed.
Lemma quiet_set_nas_eps f : keeps quiet (modify (λ u, set_nas_eps (f u) u)).
Proof. quiet_setter. done. Qed.
Lemma quiet_set_location e : keeps quiet (copy_location e).
Proof. quiet_setter. done. Qed.
Lemma quiet_set_last_visited p : keeps quiet (modify (set_last_visited p)).
Proof. quiet_setter. done. Qed.
Lemma quiet_set_ue_cap c : keeps quiet (modify (set_ue_cap c)).
Proof. quiet_setter. done. Qed.
Lemma quiet_set_ms_cap c : keeps quiet (modify (set_ms_cap c)).
Proof. quiet_setter. done. Qed.
Lemma quiet_set_keys f : keeps quiet (modify (λ u, set_keys (f u) u)).
Proof. quiet_setter. done. Qed.
Lemma quiet_ebi : keeps quiet CLEAR_EPS_BEARER_ID.
Proof. quiet_setter. done. Qed.
Lemma quiet_set_sess_list l : keeps quiet (modify (set_sess_list l)).
Proof. quiet_setter. done. Qed.
Lemma quiet_on_enb_ue f : keeps quiet (on_enb_ue f).
Proof. quiet_setter. done. Qed.
Lemma quiet_set_pdn_request l : keeps quiet (modify (set_pdn_request l)).
Proof. quiet_setter. done. Qed.
Lemma quiet_service_indicator : keeps quiet CLEAR_SERVICE_INDICATOR.
Proof. quiet_setter. done. Qed.
Lemma quiet_set_will_deleted b : keeps quiet (modify (set_will_deleted b)).
Proof. quiet_setter. done. Qed.
Lemma quiet_set_subscription_data l : keeps quiet (modify (set_subscription_data l)).
Proof. quiet_setter. done. Qed.
Lemma quiet_all_timers : keeps quiet CLEAR_MME_UE_ALL_TIMERS.
Proof.
  quiet_setter. intros _. split; [split; simpl; lia|]. repeat split; simpl; discriminate || lia.
Qed.
Lemma quiet_t3413 (g : ue_timer s1ap_msg → ue_timer s1ap_msg) :
  (∀ t, t_retry_count (g t) = t_retry_count t ∨ t_retry_count (g t) = 0) →
  keeps quiet (modify (λ u, on_t3413 (g (t3413 (timers u))) u)).
Proof.
  intros Hg. quiet_setter. unfold timers_ok. intros (Hr & ?&?&?&?). split; [|by split_and!]. cbn.
  destruct (Hg (t3413 (timers u0))) as [-> | ->]; [exact Hr|]. lia.
Qed.
Lemma quiet_t3450 g : (∀ t, timer_ok MME_TIMER_T3450 t → timer_ok MME_TIMER_T3450 (g t)) →
  keeps quiet (modify (λ u, on_t3450 (g (t3450 (timers u))) u)).
Proof. intros Hg. quiet_setter. intros (?&?&?&?&?). timers_tac. Qed.
Lemma quiet_t3460 g : (∀ t, timer_ok MME_TIMER_T3460 t → timer_ok MME_TIMER_T3460 (g t)) →
  keeps quiet (modify (λ u, on_t3460 (g (t3460 (timers u))) u)).
Proof. intros Hg. quiet_setter. intros (?&?&?&?&?). timers_tac. Qed.
Lemma quiet_t3470 g : (∀ t, timer_ok MME_TIMER_T3470 t → timer_ok MME_TIMER_T3470 (g t)) →
  keeps quiet (modify (λ u, on_t3470 (g (t3470 (timers u))) u)).
Proof. intros Hg. quiet_setter. intros (?&?&?&?&?). timers_tac. Qed.

Lemma quiet_start_t3450 m : keeps quiet (modify (λ u, on_t3450 (timer_start m (t3450 (timers u))) u)).
Proof. apply (quiet_t3450 (timer_start m)). apply timer_ok_start. Qed.
Lemma quiet_start_t3460 m : keeps quiet (modify (λ u, on_t3460 (timer_start m (t3460 (timers u))) u)).
Proof. apply (quiet_t3460 (timer_start m)). apply timer_ok_start. Qed.
Lemma quiet_start_t3470 m : keeps quiet (modify (λ u, on_t3470 (timer_start m (t3470 (timers u))) u)).
Proof. apply (quiet_t3470 (timer_start m)). apply timer_ok_start. Qed.
Lemma quiet_clear_t3413 : keeps quiet CLEAR_T3413.
Proof. apply (quiet_t3413 (λ _, timer_cleared)). auto. Qed.
Lemma quiet_clear_t3450 : keeps quiet CLEAR_T3450.
Proof. apply (quiet_t3450 (λ _, timer_cleared)). intros. apply timer_ok_cleared. Qed.
Lemma quiet_clear_t3460 : keeps quiet CLEAR_T3460.
Proof. apply (quiet_t3460 (λ _, timer_cleared)). intros. apply timer_ok_cleared. Qed.
Lemma quiet_clear_t3470 : keeps quiet CLEAR_T3470.
Proof. apply (quiet_t3470 (λ _, timer_cleared)). intros. apply timer_ok_cleared. Qed.
Lemma quiet_page_t3413 m : keeps quiet (modify (λ u,
  on_t3413 {| t_pkbuf := Some m; t_running := t_running (t3413 (timers u));
              t_retry_count := t_retry_count (t3413 (timers u)) |} u)).
Proof.
  apply (quiet_t3413 (λ t, {| t_pkbuf := Some m; t_running := t_running t;
                              t_retry_count := t_retry_count t |})). auto.
Qed.
Lemma quiet_run_t3413 : keeps quiet (modify (λ u,
  on_t3413 {| t_pkbuf := t_pkbuf (t3413 (timers u)); t_running := true;
              t_retry_count := t_retry_count (t3413 (timers u)) |} u)).
Proof.
  apply (quiet_t3413 (λ t, {| t_pkbuf := t_pkbuf t; t_running := true;
                              t_retry_count := t_retry_count t |})). auto.
Qed.

Lemma stable_clear_security_context : keeps stable CLEAR_SECURITY_CONTEXT.
Proof. apply keeps_modify. intros u. split_and!; simpl; [done|done|auto]. Qed.
End operations.

#[export] Hint Resolve quiet_emit quiet_set_ident quiet_set_nas_eps quiet_set_location
  quiet_set_last_visited quiet_set_ue_cap quiet_set_ms_cap quiet_set_keys quiet_ebi
  quiet_set_sess_list quiet_on_enb_ue quiet_set_pdn_request quiet_service_indicator
  quiet_set_will_deleted quiet_set_subscription_data quiet_all_timers quiet_start_t3450
  quiet_start_t3460 quiet_start_t3470 quiet_clear_t3413 quiet_clear_t3450 quiet_clear_t3460
  quiet_clear_t3470 quiet_page_t3413 quiet_run_t3413 stable_clear_security_context
  quiet_stable : keeps.

Section sending.
Context `{Host, OgsBits, OgsPkbuf, NasSecurity.Crypto, KeyedHash, OgsPlmn, !OgsPlmnDigits,
          !Ogs3gpp, OgsSizes, NasCodec} (self : mme_context_t).

(** Encoding leaves the MAC flag alone. *)
Lemma encode_mac_failed m : keeps (λ u u', NasSecurity.mac_failed u' = NasSecurity.mac_failed u)
  (NasSecurity.nas_security_encode m).
Proof.
  assert (PreOrder (λ u u', NasSecurity.mac_failed u' = NasSecurity.mac_failed u))
    by (split; [done|intros ???; congruence]).
  unfold NasSecurity.nas_security_encode.
  destruct (NasSecurity.header_kind_of _) as [|i c [|]|]; keeps_tac;
    try (apply keeps_modify; intros []; reflexivity).
Qed.

Lemma quiet_plain_encode m : keeps quiet (plain_encode m).
Proof. unfold plain_encode. keeps_tac. Qed.
Lemma stable_security_encode sht m : keeps stable (security_encode sht m).
Proof.
  unfold security_encode. apply keeps_bind; [exact _|apply quiet_stable, quiet_plain_encode|].
  intros b. apply keeps_bind; [exact _| |].
  - intros u [rv ob] u' E. unfold on_sec in E.
    destruct (NasSecurity.nas_security_encode _ (sec u)) as [[r x]| |] eqn:En; try discriminate E.
    injection E as _ <-. split_and!; [done| |done].
    simpl. by rewrite (encode_mac_failed _ _ _ _ En).
  - intros [[|] [|]]; keeps_tac.
Qed.
#[local] Hint Resolve quiet_plain_encode stable_security_encode : keeps.

Lemma quiet_identity_request : keeps quiet emm_build_identity_request.
Proof. apply quiet_plain_encode. Qed.
Lemma stable_set_algorithms i e : keeps stable (modify (set_algorithms i e)).
Proof. apply keeps_modify. intros u. by split_and!. Qed.
Lemma stable_set_keys_nas f g : keeps stable (modify (λ u, set_keys_nas (f u) (g u) u)).
Proof. apply keeps_modify. intros u. by split_and!. Qed.
#[local] Hint Resolve stable_set_algorithms stable_set_keys_nas : keeps.

Lemma stable_build_attach_accept b : keeps stable (emm_build_attach_accept self b).
Proof. unfold emm_build_attach_accept. keeps_tac. Qed.
Lemma stable_build_security_mode_command : keeps stable (emm_build_security_mode_command self).
Proof. unfold emm_build_security_mode_command. keeps_tac. Qed.
Lemma stable_build_tau_accept : keeps stable (emm_build_tau_accept self).
Proof. unfold emm_build_tau_accept. keeps_tac. Qed.
Lemma stable_esm_encode m : keeps stable (esm_encode m).
Proof. unfold esm_encode. keeps_tac. Qed.
#[local] Hint Resolve stable_build_attach_accept stable_build_security_mode_command
  stable_build_tau_accept stable_esm_encode : keeps.

Lemma quiet_to_enb m : keeps quiet (nas_send_to_enb m).
Proof. unfold nas_send_to_enb. keeps_tac. Qed.
#[local] Hint Resolve quiet_to_enb : keeps.
Lemma quiet_emm_to_esm c : keeps quiet (nas_send_emm_to_esm c).
Proof. unfold nas_send_emm_to_esm. keeps_tac. Qed.
Lemma quiet_downlink b : keeps quiet (nas_send_to_downlink_nas_transport b).
Proof. unfold nas_send_to_downlink_nas_transport. keeps_tac. Qed.
#[local] Hint Resolve quiet_emm_to_esm quiet_downlink : keeps.

Lemma quiet_map_bearer i f : keeps quiet (modify (map_bearer i f)).
Proof. quiet_setter. done. Qed.
Lemma quiet_map_sess i f : keeps quiet (modify (map_sess i f)).
Proof. quiet_setter. done. Qed.
#[local] Hint Resolve quiet_map_bearer quiet_map_sess : keeps.
Lemma stable_build_activate_default s :
  keeps stable (esm_build_activate_default_bearer_context_request s).
Proof. unfold esm_build_activate_default_bearer_context_request. keeps_tac. Qed.
#[local] Hint Resolve stable_build_activate_default : keeps.
Lemma stable_attach_accept : keeps stable (nas_send_attach_accept self).
Proof. unfold nas_send_attach_accept. keeps_tac. Qed.
Lemma stable_attach_reject c e : keeps stable (nas_send_attach_reject c e).
Proof.
  unfold nas_send_attach_reject, esm_build_pdn_connectivity_reject, emm_build_attach_reject.
  keeps_tac.
Qed.
Lemma quiet_send_identity_request : keeps quiet nas_send_identity_request.
Proof. unfold nas_send_identity_request, emm_build_identity_request. keeps_tac. Qed.
Lemma quiet_send_authentication_request v : keeps quiet (nas_send_authentication_request v).
Proof. unfold nas_send_authentication_request, emm_build_authentication_request. keeps_tac. Qed.
Lemma stable_security_mode_command : keeps stable (nas_send_security_mode_command self).
Proof. unfold nas_send_security_mode_command. keeps_tac. Qed.
Lemma quiet_authentication_reject : keeps quiet nas_send_authentication_reject.
Proof. unfold nas_send_authentication_reject, emm_build_authentication_reject. keeps_tac. Qed.
Lemma quiet_clear_enb_ue_timer : keeps quiet CLEAR_ENB_UE_TIMER.
Proof. apply quiet_on_enb_ue. Qed.
#[local] Hint Resolve quiet_clear_enb_ue_timer : keeps.
Lemma quiet_release_command c a : keeps quiet (s1ap_send_ue_context_release_command c a).
Proof. unfold s1ap_send_ue_context_release_command. keeps_tac. Qed.
#[local] Hint Resolve quiet_release_command : keeps.
Lemma quiet_page_matches l : keeps quiet (page_matches l).
Proof. induction l; simpl; keeps_tac. Qed.
#[local] Hint Resolve quiet_page_matches : keeps.
Lemma quiet_paging : keeps quiet (s1ap_send_paging self).
Proof. unfold s1ap_send_paging. keeps_tac. Qed.
Lemma stable_detach_accept : keeps stable nas_send_detach_accept.
Proof. unfold nas_send_detach_accept, emm_build_detach_accept. keeps_tac. Qed.
Lemma stable_tau_accept c : keeps stable (nas_send_tau_accept self c).
Proof. unfold nas_send_tau_accept. keeps_tac. Qed.
Lemma quiet_tau_reject c : keeps quiet (nas_send_tau_reject c).
Proof. unfold nas_send_tau_reject, emm_build_tau_reject. keeps_tac. Qed.
Lemma quiet_service_reject c : keeps quiet (nas_send_service_reject c).
Proof. unfold nas_send_service_reject, emm_build_service_reject. keeps_tac. Qed.
Lemma quiet_delete_sessions l : keeps quiet (delete_sessions l).
Proof. induction l; simpl; unfold delete_session; keeps_tac. Qed.
#[local] Hint Resolve quiet_delete_sessions : keeps.
Lemma quiet_delete_all_sessions : keeps quiet mme_gtp_send_delete_all_sessions.
Proof. unfold mme_gtp_send_delete_all_sessions. keeps_tac. Qed.
Lemma stable_air a : keeps stable (mme_s6a_send_air a).
Proof. unfold mme_s6a_send_air. keeps_tac. Qed.
Lemma quiet_ulr : keeps quiet mme_s6a_send_ulr.
Proof. apply quiet_emit. Qed.
#[local] Hint Resolve quiet_delete_all_sessions stable_detach_accept : keeps.
Lemma stable_delete_session_or_detach : keeps stable mme_send_delete_session_or_detach.
Proof. unfold mme_send_delete_session_or_detach. keeps_tac. Qed.
Lemma quiet_delete_session_or_release : keeps quiet mme_send_delete_session_or_ue_context_release.
Proof. unfold mme_send_delete_session_or_ue_context_release. keeps_tac. Qed.
Lemma quiet_release_access_bearer : keeps quiet mme_send_release_access_bearer_or_ue_context_release.
Proof. unfold mme_send_release_access_bearer_or_ue_context_release. keeps_tac. Qed.
End sending.

#[export] Hint Resolve quiet_plain_encode stable_security_encode quiet_to_enb quiet_emm_to_esm
  quiet_downlink stable_attach_accept stable_attach_reject quiet_send_identity_request
  quiet_send_authentication_request stable_security_mode_command quiet_authentication_reject
  quiet_clear_enb_ue_timer quiet_release_command quiet_paging stable_detach_accept
  stable_tau_accept quiet_tau_reject quiet_service_reject quiet_delete_all_sessions stable_air
  quiet_ulr stable_delete_session_or_detach quiet_delete_session_or_release
  quiet_release_access_bearer : keeps.

Section handlers.
Context `{Host, OgsBits, OgsPkbuf, NasSecurity.Crypto, KeyedHash, OgsPlmn, !OgsPlmnDigits,
          !Ogs3gpp, OgsSizes, NasCodec, OgsImsi, OgsTime} (self : mme_context_t).

(** A handler that protects a message only when it fails. *)
Definition handles (m : M ue_t rv_t) : Prop :=
  ∀ u, wlp m u (λ rv u', stable u u' ∧ (rv = OGS_OK → quiet u u')).

Lemma handles_quiet m : keeps quiet m → handles m.
Proof. intros Hm u. eapply wlp_mono; [apply Hm|]. intros rv u' Hq. split; [apply Hq|auto]. Qed.
Lemma handles_error (m : M ue_t ()) : keeps stable m → handles (m;; mret OGS_ERROR).
Proof.
  intros Hm u. eapply wlp_call; [apply Hm|]. intros x u' Hs. apply wlp_ret. by split.
Qed.
Lemma handles_bind {A} (m : M ue_t A) f :
  keeps quiet m → (∀ a, handles (f a)) → handles (m ≫= f).
Proof.
  intros Hm Hf u. eapply wlp_call; [apply Hm|]. intros a u1 Hq.
  eapply wlp_mono; [apply Hf|]. intros rv u2 [Hs Ho].
  split; [transitivity u1; [apply Hq|exact Hs]|]. intros E. transitivity u1; auto.
Qed.
#[local] Hint Resolve handles_quiet handles_error : keeps.

Ltac handles_step :=
  match goal with
  | |- handles (match ?x with _ => _ end) => destruct x
  | |- handles _ => solve [apply handles_quiet; keeps_tac|eauto 4 with keeps nocore]
  | |- handles (_ ≫= _) => apply handles_bind; [keeps_tac|intros]
  end.
Ltac handles_tac := intros; repeat (cbv beta zeta; handles_step).

Lemma quiet_store_imsi m : keeps quiet (store_imsi m).
Proof. unfold store_imsi, mme_ue_set_imsi. keeps_tac. Qed.
Lemma quiet_refresh : keeps quiet refresh_enb_keys.
Proof. unfold refresh_enb_keys. keeps_tac. Qed.
Lemma quiet_set_eps t k d : keeps quiet (set_eps t k d).
Proof. apply (quiet_set_nas_eps (λ _, _)). Qed.
Lemma quiet_last_visited p : keeps quiet (store_last_visited p).
Proof. unfold store_last_visited. keeps_tac. Qed.
Lemma quiet_store_ue_cap c : keeps quiet (store_ue_cap c).
Proof. unfold store_ue_cap. keeps_tac. Qed.
Lemma quiet_store_ms_cap c : keeps quiet (store_ms_cap c).
Proof. unfold store_ms_cap. keeps_tac. Qed.
Lemma quiet_the_enb_ue : keeps quiet the_enb_ue.
Proof. unfold the_enb_ue. keeps_tac. Qed.
#[local] Hint Resolve quiet_store_imsi quiet_refresh quiet_set_eps quiet_last_visited
  quiet_store_ue_cap quiet_store_ms_cap quiet_the_enb_ue : keeps.

Lemma handles_attach_store r : handles (attach_store self r).
Proof. unfold attach_store. handles_tac. Qed.
#[local] Hint Resolve handles_attach_store : keeps.
Lemma handles_attach_request r : handles (emm_handle_attach_request self r).
Proof. unfold emm_handle_attach_request. handles_tac. Qed.
Lemma stable_attach_complete c : keeps stable (emm_handle_attach_complete self c).
Proof. unfold emm_handle_attach_complete. keeps_tac. Qed.
Lemma handles_identity_response m : handles (emm_handle_identity_response m).
Proof. unfold emm_handle_identity_response. handles_tac. Qed.
Lemma handles_detach_request o : handles (emm_handle_detach_request o).
Proof. unfold emm_handle_detach_request. handles_tac. Qed.
Lemma handles_service_request k : handles (emm_handle_service_request k).
Proof. unfold emm_handle_service_request. handles_tac. Qed.
Lemma handles_tau_request r : handles (emm_handle_tau_request self r).
Proof. unfold emm_handle_tau_request. handles_tac. Qed.
Lemma handles_extended_service_request r : handles (emm_handle_extended_service_request self r).
Proof. unfold emm_handle_extended_service_request. handles_tac. Qed.
End handlers.
