(* ===== verification/EmmSpec.v ===== *)
(** * The EMM state machine: specification and safety *)
From S2P Require Import Prelude.
From S2P Require Import CMem.
From S2P Require Import OgsLib.
From S2P Require Import NasTai.
From S2P Require NasSecurity.
From S2P Require Import Kdf.
From S2P Require Import MmeContext.
From S2P Require Import EmmBuild.
From S2P Require Import EmmHandler.
From S2P Require Import EmmSm.
From S2P Require Import EmmProofs.
#[local] Open Scope Z_scope.

Section spec.
Context `{Host, OgsBits, OgsPkbuf, NasSecurity.Crypto, KeyedHash, OgsPlmn, !OgsPlmnDigits,
          !Ogs3gpp, OgsSizes, NasCodec, OgsImsi, OgsTime, OgsFsm} (self : mme_context_t).

(** ** The abstract machine: when one event may lead to which state *)
Definition common_state (s : emm_state) : Prop :=
  s = emm_state_de_registered ∨ s = emm_state_registered.
(** [SECURITY_CONTEXT_IS_VALID] up to the key set identifier, which the
    request itself sets. *)
Definition context_available (u : ue_t) : Prop :=
  NasSecurity.security_context_available (sec u) = true ∧
  NasSecurity.mac_failed (sec u) = false.
(** The UE proved that it knows the key: a verified SECURITY MODE COMPLETE. *)
Definition verified_complete (u : ue_t) (e : emm_event) : Prop :=
  ∃ m t c, e = EmmMessage m t c ∧ message_type m = OGS_NAS_SECURITY_MODE_COMPLETE ∧
    NasSecurity.integrity_protected t = true ∧ SECURITY_CONTEXT_IS_VALID u = true.
Definition message_of (e : emm_event) (P : Z → Prop) : Prop :=
  ∃ m t c, e = EmmMessage m t c ∧ P (message_type m).

Definition active (s : emm_state) : Prop :=
  s ≠ emm_state_initial ∧ s ≠ emm_state_final ∧ s ≠ emm_state_exception.

Inductive may_move (u : ue_t) (e : emm_event) : emm_state → Prop :=
| move_stay : may_move u e (sm u)
| move_start : sm u = emm_state_initial → may_move u e emm_state_de_registered
| move_exception :
    sm u ≠ emm_state_initial → sm u ≠ emm_state_final → may_move u e emm_state_exception
| move_detach :
    active (sm u) → message_of e (λ t, t = OGS_NAS_DETACH_REQUEST) →
    may_move u e emm_state_de_registered
| move_authentication :
    active (sm u) →
    message_of e (λ t, t = OGS_NAS_ATTACH_REQUEST ∨ t = OGS_NAS_TRACKING_AREA_UPDATE_REQUEST ∨
                       t = OGS_NAS_EXTENDED_SERVICE_REQUEST ∨ t = OGS_NAS_IDENTITY_RESPONSE) →
    may_move u e emm_state_authentication
| move_security_mode m t c :
    sm u = emm_state_authentication → e = EmmMessage m t c →
    message_type m = OGS_NAS_AUTHENTICATION_RESPONSE →
    memcmp_equal (authentication_response_res m) (xres (keys u))
      (Z.to_nat (authentication_response_length m)) = Ok true →
    may_move u e emm_state_security_mode
| move_setup_known :
    common_state (sm u) → context_available u → may_move u e emm_state_initial_context_setup
| move_setup :
    sm u = emm_state_security_mode → verified_complete u e →
    may_move u e emm_state_initial_context_setup
| move_registered :
    sm u = emm_state_security_mode → verified_complete u e → may_move u e emm_state_registered
| move_complete :
    sm u = emm_state_initial_context_setup →
    message_of e (λ t, t = OGS_NAS_ATTACH_COMPLETE) → may_move u e emm_state_registered.

(** ** The pieces of the state functions *)
Lemma wlp_stable {A} (m : M ue_t A) u Q :
  keeps stable m → (∀ a u', stable u u' → Q a u') → wlp m u Q.
Proof. intros Hm HQ. eapply wlp_mono; [apply Hm|exact HQ]. Qed.
Lemma wlp_quiet {A} (m : M ue_t A) u Q :
  keeps quiet m → (∀ a u', quiet u u' → Q a u') → wlp m u Q.
Proof. intros Hm HQ. eapply wlp_mono; [apply Hm|exact HQ]. Qed.
Lemma stable_sm u u' : stable u u' → sm u' = sm u.
Proof. by intros [? _]. Qed.
Lemma quiet_sm u u' : quiet u u' → sm u' = sm u.
Proof. by intros [[? _] _]. Qed.

Lemma wlp_or_exception m k u Q :
  handles m → (∀ u', quiet u u' → wlp k u' Q) →
  (∀ u', stable u u' → Q false (set_sm emm_state_exception u')) → wlp (or_exception m k) u Q.
Proof.
  intros Hm Hk Hq. unfold or_exception. eapply wlp_call; [apply Hm|].
  intros rv u' [Hs Ho]. destruct rv; [apply Hk; auto|].
  apply wlp_bind, wlp_modify, wlp_ret. auto.
Qed.

(** A stable operation, then a transition; and the reverse. *)
Lemma wlp_then_tran {A} (m : M ue_t A) s u Q :
  keeps stable m → (∀ u', stable u u' → Q () (set_sm s u')) → wlp (m;; tran s) u Q.
Proof. intros Hm HQ. apply wlp_bind, wlp_stable; [done|]. intros x_ u' Hs. apply wlp_modify. auto. Qed.
Lemma wlp_tran_then {A} (m : M ue_t A) s u (Q : A → ue_t → Prop) :
  keeps stable m → (∀ a u', sm u' = s → Q a u') → wlp (tran s;; m) u Q.
Proof.
  intros Hm HQ. apply wlp_bind, wlp_modify, wlp_stable; [done|].
  intros a u' Hs. apply HQ. by rewrite (stable_sm _ _ Hs).
Qed.

Lemma reject_service_moves c u : wlp (reject_service c) u (λ _ u', sm u' = emm_state_exception).
Proof. apply wlp_then_tran; [auto with keeps|done]. Qed.
Lemma reject_tau_moves c u : wlp (reject_tau c) u (λ _ u', sm u' = emm_state_exception).
Proof. apply wlp_then_tran; [auto with keeps|done]. Qed.

Lemma after_attach_moves u : wlp after_attach u (λ _ u',
  (sm u' = emm_state_initial_context_setup ∧ SECURITY_CONTEXT_IS_VALID u = true) ∨
  sm u' = emm_state_authentication).
Proof.
  unfold after_attach. apply wlp_bind, wlp_get. destruct (SECURITY_CONTEXT_IS_VALID u) eqn:E.
  - apply wlp_then_tran; [auto with keeps|]. auto.
  - apply wlp_then_tran; [keeps_tac|]. auto.
Qed.

Lemma after_tau_moves c u : wlp (after_tau self c) u (λ _ u',
  sm u' = sm u ∨ sm u' = emm_state_exception ∨ sm u' = emm_state_authentication).
Proof.
  unfold after_tau. apply wlp_bind, wlp_get.
  destruct (negb (SESSION_CONTEXT_IS_AVAILABLE u)).
  { eapply wlp_mono; [apply reject_tau_moves|]. auto. }
  destruct (negb (SECURITY_CONTEXT_IS_VALID u)).
  { apply wlp_then_tran; [keeps_tac|]. auto. }
  apply wlp_stable; [keeps_tac|]. intros x_ u' Hs. left. by apply stable_sm.
Qed.

Lemma csfb_moves mode k u : keeps stable k → wlp (csfb mode k) u (λ _ u',
  sm u' = sm u ∨ sm u' = emm_state_exception).
Proof.
  intros Hk. unfold csfb. apply wlp_bind, wlp_get. cbv zeta.
  destruct (_ || _); [|destruct (_ =? 1)].
  - apply wlp_stable; [keeps_tac|]. intros x_ u' Hs. left. by apply stable_sm.
  - apply wlp_stable; [keeps_tac|]. intros x_ u' Hs. left. by apply stable_sm.
  - eapply wlp_mono; [apply reject_service_moves|]. auto.
Qed.

Lemma after_extended_service_moves c u : wlp (after_extended_service c) u (λ _ u',
  sm u' = sm u ∨ sm u' = emm_state_exception).
Proof.
  unfold after_extended_service. apply wlp_bind, wlp_get.
  repeat match goal with
  | |- wlp (if ?b then _ else _) _ _ => destruct b
  | |- wlp (reject_service _) _ _ => eapply wlp_mono; [apply reject_service_moves|by auto]
  | |- wlp (csfb _ _) _ _ => apply csfb_moves, quiet_stable, quiet_to_enb
  | |- wlp mabort _ _ => apply wlp_mabort
  end.
Qed.

Lemma common_after_moves c u : wlp (common_after self c) u (λ _ u',
  sm u' = sm u ∨ sm u' = emm_state_exception ∨ sm u' = emm_state_authentication ∨
  (sm u' = emm_state_initial_context_setup ∧ SECURITY_CONTEXT_IS_VALID u = true)).
Proof.
  unfold common_after. apply wlp_bind, wlp_get. destruct (negb (MME_UE_HAVE_IMSI u)).
  { apply wlp_stable; [keeps_tac|]. intros x_ u' Hs. left. by apply stable_sm. }
  destruct (enb_ue u); [|apply wlp_mabort]. cbv zeta. repeat case_match.
  - eapply wlp_mono; [apply after_attach_moves|]. cbv beta. tauto.
  - eapply wlp_mono; [apply after_tau_moves|]. cbv beta. tauto.
  - eapply wlp_mono; [apply after_extended_service_moves|]. cbv beta. tauto.
  - apply wlp_mabort.
Qed.

Definition goes_on (t : Z) : Prop :=
  t = OGS_NAS_ATTACH_REQUEST ∨ t = OGS_NAS_TRACKING_AREA_UPDATE_REQUEST ∨
  t = OGS_NAS_EXTENDED_SERVICE_REQUEST ∨ t = OGS_NAS_IDENTITY_RESPONSE.
Definition after_message (m : emm_message_t) (u : ue_t) (go_on : bool) (u' : ue_t) : Prop :=
  if go_on then quiet u u' ∧ goes_on (message_type m)
  else sm u' = sm u ∨ sm u' = emm_state_exception ∨
       (sm u' = emm_state_de_registered ∧ message_type m = OGS_NAS_DETACH_REQUEST).

(** The end of a branch that needs an IMSI. *)
Lemma need_imsi_moves m u0 u (r : M ue_t ()) :
  quiet u0 u → goes_on (message_type m) →
  (∀ v, wlp r v (λ _ u', sm u' = emm_state_exception)) →
  wlp (w ← get; if negb (MME_UE_HAVE_IMSI w) then r;; mret false else mret true) u
    (after_message m u0).
Proof.
  intros Hq Hg Hr. apply wlp_bind, wlp_get. destruct (negb _).
  - apply wlp_bind. eapply wlp_mono; [apply Hr|]. intros [] u' Hs. apply wlp_ret. right. by left.
  - apply wlp_ret. by split.
Qed.

Lemma common_message_moves m u : wlp (common_message self m) u (after_message m u).
Proof.
  unfold common_message. cbv zeta. repeat case_match;
    repeat match goal with E : (_ =? _) = true |- _ => apply Z.eqb_eq in E end.
  - apply wlp_bind, wlp_quiet; [auto with keeps|]. intros _ u1 Hq1.
    apply wlp_or_exception; [apply handles_identity_response| |by right; left].
    intros u2 Hq2. apply need_imsi_moves;
      [by etrans|unfold goes_on; tauto|intros v; by apply wlp_modify].
  - apply wlp_or_exception; [apply handles_attach_request| |by right; left].
    intros u' Hq. apply wlp_ret. split; [done|]. unfold goes_on. tauto.
  - apply wlp_or_exception; [apply handles_tau_request| |by right; left].
    intros u' Hq. apply need_imsi_moves; [done|unfold goes_on; tauto|apply reject_tau_moves].
  - apply wlp_ret. by left.
  - apply wlp_or_exception; [apply handles_extended_service_request| |by right; left].
    intros u' Hq. apply need_imsi_moves; [done|unfold goes_on; tauto|apply reject_service_moves].
  - apply wlp_bind, wlp_modify, wlp_ret. right. by left.
  - apply wlp_or_exception; [apply handles_detach_request| |by right; left].
    intros u' Hq. apply wlp_bind. unfold common_detach. apply wlp_bind, wlp_get.
    apply wlp_then_tran; [keeps_tac|]. intros u2 _. apply wlp_ret. right. by right.
  - apply wlp_bind, wlp_get, wlp_bind, wlp_stable; [keeps_tac|]. intros x_ u' Hs.
    apply wlp_ret. left. by apply stable_sm.
  - apply wlp_ret. by left.
Qed.

(** ** The states *)
Lemma common_service_request_moves m u : wlp (common_service_request m) u (λ _ u',
  sm u' = sm u ∨ sm u' = emm_state_exception).
Proof.
  unfold common_service_request. apply wlp_bind, wlp_or_exception.
  - apply handles_service_request.
  - intros u1 Hq. apply wlp_bind, wlp_get, wlp_bind. repeat case_match.
    + eapply wlp_mono; [apply reject_service_moves|]. intros [] u' Hs. apply wlp_ret, wlp_ret. auto.
    + eapply wlp_mono; [apply reject_service_moves|]. intros [] u' Hs. apply wlp_ret, wlp_ret. auto.
    + apply wlp_stable; [apply quiet_stable, quiet_to_enb|]. intros [] u' Hs.
      apply wlp_ret, wlp_ret. left. by rewrite (stable_sm _ _ Hs), (quiet_sm _ _ Hq).
  - intros u1 Hs. apply wlp_ret. auto.
Qed.

Lemma common_timer_moves id u : wlp (common_timer self id) u (λ _ u',
  sm u' = sm u ∨ sm u' = emm_state_exception).
Proof.
  unfold common_timer. apply wlp_bind, wlp_get.
  destruct id; try by (apply wlp_ret; left).
  - destruct (_ <=? _).
    + apply wlp_stable; [keeps_tac|]. intros x_ u' Hs. left. by apply stable_sm.
    + apply wlp_bind, wlp_modify, wlp_stable; [keeps_tac|]. intros x_ u' Hs. left.
      by rewrite (stable_sm _ _ Hs).
  - destruct (_ <=? _).
    + apply wlp_then_tran; [keeps_tac|]. auto.
    + apply wlp_bind, wlp_modify, wlp_stable; [keeps_tac|]. intros x_ u' Hs. left.
      by rewrite (stable_sm _ _ Hs).
Qed.

Lemma valid_available u : SECURITY_CONTEXT_IS_VALID u = true → context_available u.
Proof.
  unfold SECURITY_CONTEXT_IS_VALID. rewrite !andb_true_iff, !negb_true_iff.
  intros [[Ha Hm] _]. by split.
Qed.
Lemma quiet_available u u' : quiet u u' → context_available u' → context_available u.
Proof. intros (_ & Em & Ea) [Ha Hm]. split; congruence. Qed.

Lemma common_register_moves e u :
  common_state (sm u) → wlp (common_register_state self (FsmEvent e)) u (λ _ u', may_move u e (sm u')).
Proof.
  intros Hc. assert (sm u ≠ emm_state_initial ∧ sm u ≠ emm_state_final ∧ sm u ≠ emm_state_exception)
    as (Hi & Hf & Hx) by (destruct Hc as [-> | ->]; done).
  destruct e as [m t c|id]; simpl.
  - apply wlp_bind, wlp_quiet; [unfold the_enb_ue; keeps_tac|]. intros _ u1 Hq.
    pose proof (quiet_sm _ _ Hq) as E1. destruct (_ =? _).
    { eapply wlp_mono; [apply common_service_request_moves|].
      intros x_ u' [-> | ->]; [rewrite E1|]; by constructor. }
    apply wlp_bind. eapply wlp_mono; [apply common_message_moves|].
    intros [|] u2 Hm; simpl in Hm.
    + destruct Hm as [Hq2 Hg]. assert (quiet u u2) as Hq02 by (by etrans).
      pose proof (quiet_sm _ _ Hq02) as E2.
      eapply wlp_mono; [apply common_after_moves|].
      intros x_ u' [-> |[-> |[-> |[-> Hv]]]].
      * rewrite E2. constructor.
      * by constructor.
      * apply move_authentication; [by split_and!|]. by exists m, t, c.
      * apply move_setup_known; [done|]. by apply (quiet_available _ u2), valid_available.
    + apply wlp_ret. destruct Hm as [-> |[-> |[-> Ht]]].
      * rewrite E1. constructor.
      * by constructor.
      * apply move_detach; [by split_and!|]. by exists m, t, c.
  - eapply wlp_mono; [apply common_timer_moves|].
    intros x_ u' [-> | ->]; by constructor.
Qed.

Lemma restart_attach_moves m u : wlp (restart_attach self m) u (λ _ u',
  sm u' = emm_state_exception ∨ sm u' = emm_state_authentication).
Proof.
  unfold restart_attach. apply wlp_bind, wlp_or_exception; [apply handles_attach_request| |].
  - intros u1 _. apply wlp_bind, wlp_stable; [keeps_tac|]. intros _ u2 _.
    apply wlp_bind, wlp_modify, wlp_ret, wlp_ret. auto.
  - intros u1 _. apply wlp_ret. auto.
Qed.
Lemma detach_moves m u : wlp (detach m) u (λ _ u',
  sm u' = emm_state_exception ∨ sm u' = emm_state_de_registered).
Proof.
  unfold detach. apply wlp_bind, wlp_or_exception; [apply handles_detach_request| |].
  - intros u1 _. apply wlp_bind, wlp_stable; [keeps_tac|]. intros _ u2 _.
    apply wlp_bind, wlp_modify, wlp_ret, wlp_ret. auto.
  - intros u1 _. apply wlp_ret. auto.
Qed.

(** What an attach or detach request does in the states after the first. *)
Lemma move_restart u m t c u' :
  sm u ≠ emm_state_initial → sm u ≠ emm_state_final → sm u ≠ emm_state_exception →
  message_type m = OGS_NAS_ATTACH_REQUEST →
  sm u' = emm_state_exception ∨ sm u' = emm_state_authentication →
  may_move u (EmmMessage m t c) (sm u').
Proof.
  intros Hi Hf Hx Ht [-> | ->]; [by constructor|]. apply move_authentication; [by split_and!|].
  exists m, t, c. auto.
Qed.
Lemma move_detached u m t c u' :
  sm u ≠ emm_state_initial → sm u ≠ emm_state_final → sm u ≠ emm_state_exception →
  message_type m = OGS_NAS_DETACH_REQUEST →
  sm u' = emm_state_exception ∨ sm u' = emm_state_de_registered →
  may_move u (EmmMessage m t c) (sm u').
Proof.
  intros Hi Hf Hx Ht [-> | ->]; [by constructor|]. apply move_detach; [by split_and!|].
  by exists m, t, c.
Qed.
Ltac not_special E := rewrite E; discriminate.

Lemma authentication_moves e u :
  sm u = emm_state_authentication →
  wlp (authentication self (FsmEvent e)) u (λ _ u', may_move u e (sm u')).
Proof.
  intros Es. assert (∀ u', sm u' = emm_state_exception → may_move u e (sm u')) as Hx
    by (intros u' ->; apply move_exception; not_special Es).
  destruct e as [m t c|id]; simpl.
  - repeat case_match; z_eqs.
    + unfold authentication_response. apply wlp_bind, wlp_modify, wlp_bind, wlp_get, wlp_bind, wlp_lift.
      intros [|] Heq; [|apply wlp_then_tran; [keeps_tac|auto]].
      apply wlp_modify. by apply (move_security_mode _ _ m t c).
    + unfold authentication_failure. apply wlp_bind, wlp_modify. destruct (authentication_failure_cause m =? _).
      * apply wlp_stable; [keeps_tac|]. intros x_ u' Hs. rewrite (stable_sm _ _ Hs). exact (move_stay u _).
      * apply wlp_then_tran; [keeps_tac|auto].
    + eapply wlp_mono; [apply restart_attach_moves|]. intros x_ u' Hm.
      apply move_restart; not_special Es || done.
    + apply wlp_modify. auto.
    + eapply wlp_mono; [apply detach_moves|]. intros x_ u' Hm.
      apply move_detached; not_special Es || done.
    + apply wlp_ret. constructor.
  - destruct id; try (apply wlp_ret; constructor). apply wlp_bind, wlp_get. destruct (_ <=? _).
    + apply wlp_tran_then; [keeps_tac|auto].
    + apply wlp_bind, wlp_modify, wlp_stable; [keeps_tac|]. intros x_ u' Hs.
      rewrite (stable_sm _ _ Hs). exact (move_stay u _).
Qed.

Lemma security_mode_complete_moves t u : wlp (security_mode_complete t) u (λ _ u',
  sm u' = emm_state_exception ∨
  ((sm u' = emm_state_initial_context_setup ∨ sm u' = emm_state_registered) ∧
   NasSecurity.integrity_protected t = true ∧ SECURITY_CONTEXT_IS_VALID u = true)).
Proof.
  unfold security_mode_complete. apply wlp_bind, wlp_modify, wlp_bind, wlp_get.
  change (SECURITY_CONTEXT_IS_VALID (on_t3460 _ u)) with (SECURITY_CONTEXT_IS_VALID u).
  destruct (NasSecurity.integrity_protected t); [|apply wlp_then_tran; [keeps_tac|auto]].
  destruct (SECURITY_CONTEXT_IS_VALID u); [|apply wlp_then_tran; [keeps_tac|auto]]. simpl negb. cbv iota.
  apply wlp_bind, wlp_modify, wlp_bind, wlp_stable; [keeps_tac|]. intros _ u' _. cbv zeta.
  repeat case_match; try apply wlp_mabort; apply wlp_modify; auto.
Qed.

Lemma security_mode_moves e u :
  sm u = emm_state_security_mode →
  wlp (security_mode self (FsmEvent e)) u (λ _ u', may_move u e (sm u')).
Proof.
  intros Es. assert (∀ u', sm u' = emm_state_exception → may_move u e (sm u')) as Hx
    by (intros u' ->; apply move_exception; not_special Es).
  destruct e as [m t c|id]; simpl.
  - repeat case_match; z_eqs.
    + eapply wlp_mono; [apply reject_service_moves|auto].
    + eapply wlp_mono; [apply security_mode_complete_moves|].
      intros x_ u' [Hm|[Hm [Hi Hv]]]; [auto|].
      assert (verified_complete u (EmmMessage m t c)) by by exists m, t, c.
      destruct Hm as [-> | ->]; [by apply move_setup|by apply move_registered].
    + apply wlp_bind, wlp_modify, wlp_modify. auto.
    + eapply wlp_mono; [apply restart_attach_moves|]. intros x_ u' Hm.
      apply move_restart; not_special Es || done.
    + eapply wlp_mono; [apply reject_tau_moves|auto].
    + apply wlp_modify. auto.
    + eapply wlp_mono; [apply detach_moves|]. intros x_ u' Hm.
      apply move_detached; not_special Es || done.
    + apply wlp_ret. constructor.
  - destruct id; try (apply wlp_ret; constructor). apply wlp_bind, wlp_get. destruct (_ <=? _).
    + apply wlp_tran_then; [keeps_tac|auto].
    + apply wlp_bind, wlp_modify, wlp_stable; [keeps_tac|]. intros x_ u' Hs.
      rewrite (stable_sm _ _ Hs). exact (move_stay u _).
Qed.

Lemma setup_attach_complete_moves m u : wlp (setup_attach_complete self m) u (λ _ u',
  sm u' = emm_state_exception ∨ sm u' = emm_state_registered).
Proof.
  unfold setup_attach_complete, or_exception.
  apply wlp_bind, wlp_modify, wlp_bind, wlp_bind, wlp_stable; [apply stable_attach_complete|].
  intros [] u1 _.
  - apply wlp_bind, wlp_get, wlp_bind, wlp_stable; [keeps_tac|]. intros _ u2 _.
    apply wlp_bind, wlp_modify, wlp_ret, wlp_ret. auto.
  - apply wlp_bind, wlp_modify, wlp_ret, wlp_ret. auto.
Qed.
Lemma setup_attach_request_moves m u : wlp (setup_attach_request self m) u (λ _ u',
  sm u' = emm_state_exception ∨ sm u' = emm_state_authentication).
Proof.
  unfold setup_attach_request. apply wlp_bind, wlp_or_exception; [apply handles_attach_request| |].
  - intros u1 _. apply wlp_bind, wlp_stable; [keeps_tac|]. intros _ u2 _.
    apply wlp_bind, wlp_modify, wlp_ret, wlp_ret. auto.
  - intros u1 _. apply wlp_ret. auto.
Qed.

Lemma initial_context_setup_moves e u :
  sm u = emm_state_initial_context_setup →
  wlp (initial_context_setup self (FsmEvent e)) u (λ _ u', may_move u e (sm u')).
Proof.
  intros Es. assert (∀ u', sm u' = emm_state_exception → may_move u e (sm u')) as Hx
    by (intros u' ->; apply move_exception; not_special Es).
  destruct e as [m t c|id]; simpl.
  - repeat case_match; z_eqs.
    + eapply wlp_mono; [apply setup_attach_complete_moves|].
      intros x_ u' [Hm|Hm]; [auto|]. rewrite Hm. apply move_complete; [done|]. by exists m, t, c.
    + eapply wlp_mono; [apply setup_attach_request_moves|]. intros x_ u' Hm.
      apply move_restart; not_special Es || done.
    + apply wlp_modify. auto.
    + eapply wlp_mono; [apply detach_moves|]. intros x_ u' Hm.
      apply move_detached; not_special Es || done.
    + apply wlp_ret. constructor.
  - destruct id; try (apply wlp_ret; constructor). apply wlp_bind, wlp_get. destruct (_ <=? _).
    + apply wlp_modify. auto.
    + apply wlp_bind, wlp_modify, wlp_stable; [keeps_tac|]. intros x_ u' Hs.
      rewrite (stable_sm _ _ Hs). exact (move_stay u _).
Qed.

Lemma state_moves e u :
  wlp (emm_state_handler self (sm u) (FsmEvent e)) u (λ _ u', may_move u e (sm u')).
Proof.
  destruct (sm u) eqn:Es; simpl.
  - apply wlp_modify. by constructor.
  - apply wlp_ret. constructor.
  - apply wlp_bind, wlp_ret. apply common_register_moves. by left.
  - apply common_register_moves. by right.
  - by apply authentication_moves.
  - by apply security_mode_moves.
  - by apply initial_context_setup_moves.
  - apply wlp_ret. constructor.
Qed.

(** The entry and exit signals keep the state of the machine. *)
Lemma signals_stable s e :
  s ≠ emm_state_initial → (∀ x, e ≠ FsmEvent x) → keeps stable (emm_state_handler self s e).
Proof.
  intros Hs He. destruct s; try done; destruct e as [| |x]; try (by destruct (He x));
    simpl; unfold de_registered, security_mode, exception; keeps_tac;
    by apply keeps_ret; exact _.
Qed.

Context `{!OgsFsmLaws}.

Lemma dispatch_wlp e u Q :
  wlp (emm_state_handler self (sm u) (FsmEvent e)) u (λ _ u1,
    (sm u1 = sm u → Q () u1) ∧
    (sm u1 ≠ sm u → wlp (emm_state_handler self (sm u) OGS_FSM_EXIT_SIG;;
                         emm_state_handler self (sm u1) OGS_FSM_ENTRY_SIG) u1 Q)) →
  wlp (emm_dispatch self e) u Q.
Proof.
  intros Hw [] u' E. unfold emm_dispatch in E. rewrite fsm_dispatch_spec in E. revert E.
  match goal with |- ?m u = _ → _ => enough (wlp m u Q) as Hm by (intros E; exact (Hm _ _ E)) end.
  apply wlp_bind. eapply wlp_mono; [apply Hw|]. intros [] u1 [He Hn].
  apply wlp_bind, wlp_get. case_decide as Hd; [apply wlp_ret|]; auto.
Qed.

(** C1: Refinement.  One event handled by the EMM state machine, entry and
    exit actions included, makes a move of the abstract machine [may_move].
    In particular the state "registered" is entered only by a SECURITY MODE
    COMPLETE that was integrity protected, with an available security
    context whose MAC did not fail, or by an ATTACH COMPLETE in initial
    context setup; initial context setup only by such a SECURITY MODE
    COMPLETE or with an available, unfailed context; and the exception
    state is never left. *)
Theorem emm_refines e u u' :
  emm_dispatch self e u = Ok ((), u') → may_move u e (sm u').
Proof.
  revert u'. enough (wlp (emm_dispatch self e) u (λ _ u', may_move u e (sm u'))) as Hw
    by (intros u' E; exact (Hw _ _ E)).
  apply dispatch_wlp. eapply wlp_mono; [apply state_moves|]. intros x_ u1 Hm. split; [done|].
  intros Hne. assert (sm u1 ≠ emm_state_initial) as Hi by (inversion Hm; congruence).
  apply wlp_bind, wlp_mono with (P := λ _ u2, sm u2 = sm u1).
  - destruct (decide (sm u = emm_state_initial)) as [Ei|Ei].
    + rewrite Ei in *. simpl. apply wlp_modify. unfold active in Hm.
      inversion Hm as [| | |[] _|[] _| | | | |]; unfold common_state in *; simpl; intuition congruence.
    + apply wlp_stable; [by apply signals_stable|]. intros _ u2 Hs. by apply stable_sm.
  - intros [] u2 E2. apply wlp_stable; [by apply signals_stable|]. intros _ u3 Hs.
    by rewrite (stable_sm _ _ Hs), E2.
Qed.
End spec.
