(* ===== verification/EmmSystem.v ===== *)
(** * The MME around one UE: event queue, timers, reachability

    Timer expiry and reception only push events; the main loop pops them
    ([mme-timer.c], [s1ap-path.c], [mme-sm.c]).  A timer may therefore be
    stopped while its expiry is already in the queue. *)
From S2P Require Import Prelude.
From S2P Require Import CMem.
From S2P Require Import OgsLib.
From S2P Require Import NasTai.
From S2P Require NasSecurity.
From S2P Require Import Kdf.
From S2P Require Import MmeContext.
From S2P Require Import EmmBuild.
From S2P Require Import EmmHandler.
From S2P Require Import EmmSm.
From S2P Require Import EmmProofs.
#[local] Open Scope Z_scope.

(** [ogs_nas_emm_decode] is generated code. *)
Class NasDecoder := { ogs_nas_emm_decode : pkbuf → option emm_message_t }.

Section system.
Context `{Host, OgsBits, OgsPkbuf, NasSecurity.Crypto, KeyedHash, OgsPlmn, !OgsPlmnDigits,
          !Ogs3gpp, OgsSizes, NasCodec, OgsImsi, OgsTime, OgsFsm, NasDecoder}
        (self : mme_context_t).

Inductive mme_event :=
| MME_EVT_EMM_MESSAGE (b : pkbuf) (nas_type : NasSecurity.nas_security_header_type_t) (code : Z)
| MME_EVT_EMM_TIMER (id : mme_timer_e)
| MME_EVT_S6A_MESSAGE (m : s6a_message).

Record mme_t := { ue : ue_t; queue : list mme_event }.

(** The timer service: a running timer stops and its callback pushes an
    event. *)
Definition stop {A} (t : ue_timer A) : ue_timer A :=
  {| t_pkbuf := t_pkbuf t; t_running := false; t_retry_count := t_retry_count t |}.
Definition expire (id : mme_timer_e) (u : ue_t) : option ue_t :=
  let t := timers u in
  match id with
  | MME_TIMER_T3413 => if t_running (t3413 t) then Some (on_t3413 (stop (t3413 t)) u) else None
  | MME_TIMER_T3450 => if t_running (t3450 t) then Some (on_t3450 (stop (t3450 t)) u) else None
  | MME_TIMER_T3460 => if t_running (t3460 t) then Some (on_t3460 (stop (t3460 t)) u) else None
  | MME_TIMER_T3470 => if t_running (t3470 t) then Some (on_t3470 (stop (t3470 t)) u) else None
  | MME_TIMER_T3422 | MME_TIMER_T3489 | MME_TIMER_OTHER => None
  end.

(** [mme_state_operational] on one event of this UE. *)
Definition mme_handle (e : mme_event) : M ue_t () :=
  match e with
  | MME_EVT_EMM_MESSAGE b nas_type code =>
      match ogs_nas_emm_decode b with
      | Some m => mme_emm_message self (EmmMessage m nas_type code)
      | None => mabort
      end
  | MME_EVT_EMM_TIMER id => emm_dispatch self (EmmTimer id)
  | MME_EVT_S6A_MESSAGE m => mme_s6a_message self m
  end.

Inductive mme_step : mme_t → mme_t → Prop :=
| step_expire id u u' q :
    expire id u = Some u' →
    mme_step {| ue := u; queue := q |} {| ue := u'; queue := q ++ [MME_EVT_EMM_TIMER id] |}
| step_receive headroom pdu code u x t b q :
    (** [s1ap_send_to_nas] verifies and deciphers before it pushes *)
    NasSecurity.s1ap_send_to_nas headroom pdu true (sec u) = Ok (NasSecurity.EmmMessage t b, x) →
    mme_step {| ue := u; queue := q |}
             {| ue := set_sec x u; queue := q ++ [MME_EVT_EMM_MESSAGE b t code] |}
| step_s6a m u q :
    mme_step {| ue := u; queue := q |} {| ue := u; queue := q ++ [MME_EVT_S6A_MESSAGE m] |}
| step_handle e u u' q :
    mme_handle e u = Ok ((), u') →
    mme_step {| ue := u; queue := e :: q |} {| ue := u'; queue := q |}.

Definition timers_idle : timers_t :=
  {| t3413 := timer_cleared; t3422 := timer_cleared; t3450 := timer_cleared;
     t3460 := timer_cleared; t3470 := timer_cleared |}.
(** After [mme_ue_add]: the machine in de-registered, no timer running. *)
Definition fresh (m : mme_t) : Prop :=
  queue m = [] ∧ sm (ue m) = emm_state_de_registered ∧ timers (ue m) = timers_idle.

Inductive reachable : mme_t → Prop :=
| reachable_fresh m : fresh m → reachable m
| reachable_step m m' : reachable m → mme_step m m' → reachable m'.

(** ** The timers stay within bounds *)
Definition bounded (u u' : ue_t) : Prop := timers_ok u → timers_ok u'.
#[local] Instance bounded_preorder : PreOrder bounded.
Proof. unfold bounded. split; [intros u Hu; exact Hu|]. intros u v w Huv Hvw Hu. auto. Qed.

Lemma bounded_stable {A} (m : M ue_t A) : keeps stable m → keeps bounded m.
Proof. intros Hm u. eapply wlp_mono; [apply Hm|]. by intros a u' (_ & _ & Ht). Qed.
Lemma bounded_quiet {A} (m : M ue_t A) : keeps quiet m → keeps bounded m.
Proof. intros Hm. by apply bounded_stable, quiet_stable. Qed.
Lemma bounded_tran s : keeps bounded (tran s).
Proof. apply keeps_modify. by intros u Ht. Qed.
Lemma bounded_handles m : handles m → keeps bounded m.
Proof. intros Hm u. eapply wlp_mono; [apply Hm|]. by intros a u' [(_ & _ & Ht) _]. Qed.
#[local] Hint Resolve bounded_stable bounded_quiet bounded_tran : keeps.
#[local] Hint Resolve bounded_handles handles_attach_request handles_identity_response
  handles_detach_request handles_service_request handles_tau_request
  handles_extended_service_request stable_attach_complete : keeps.

Lemma bounded_or_exception m k :
  keeps bounded m → keeps bounded k → keeps bounded (or_exception m k).
Proof. intros Hm Hk. unfold or_exception. keeps_tac. Qed.
#[local] Hint Resolve bounded_or_exception : keeps.

(** A retransmission happens only below the maximum. *)
Lemma bounded_retry (stop_retry : ue_t → M ue_t ()) (again : M ue_t ()) (n : ue_t → Z) max f :
  (∀ u, keeps bounded (stop_retry u)) → keeps bounded again →
  (∀ u, timers_ok u → n u < max → timers_ok (f u)) →
  keeps bounded (u ← get; if max <=? n u then stop_retry u else modify f;; again).
Proof.
  intros Hg Ha Hf u. apply wlp_bind, wlp_get. destruct (Z.leb_spec max (n u)); [apply Hg|].
  apply wlp_bind, wlp_modify. eapply wlp_mono; [apply Ha|]. intros a u' Hb Ht. auto.
Qed.

Lemma bounded_retry_t3413 u :
  timers_ok u → t_retry_count (t3413 (timers u)) < 2 → timers_ok (on_t3413 (timer_retry (t3413 (timers u))) u).
Proof. intros (Hr&?&?&?&?) Hlt. split; [simpl in *; lia|by split_and]. Qed.
Lemma timer_ok_retry {A} id (t : ue_timer A) :
  timer_ok id t → t_retry_count t < mme_timer_max_count id → timer_ok id (timer_retry t).
Proof. intros [Hp Hr] Hlt. split; [exact Hp|]. simpl. lia. Qed.
Lemma bounded_retry_t3450 u :
  timers_ok u → t_retry_count (t3450 (timers u)) < 4 → timers_ok (on_t3450 (timer_retry (t3450 (timers u))) u).
Proof. intros (?&?&?&?&?) Hlt. timers_tac. by apply timer_ok_retry. Qed.
Lemma bounded_retry_t3460 u :
  timers_ok u → t_retry_count (t3460 (timers u)) < 4 → timers_ok (on_t3460 (timer_retry (t3460 (timers u))) u).
Proof. intros (?&?&?&?&?) Hlt. timers_tac. by apply timer_ok_retry. Qed.
Lemma bounded_retry_t3470 u :
  timers_ok u → t_retry_count (t3470 (timers u)) < 4 → timers_ok (on_t3470 (timer_retry (t3470 (timers u))) u).
Proof. intros (?&?&?&?&?) Hlt. timers_tac. by apply timer_ok_retry. Qed.

Lemma bounded_reject_service c : keeps bounded (reject_service c).
Proof. unfold reject_service. keeps_tac. Qed.
Lemma bounded_reject_tau c : keeps bounded (reject_tau c).
Proof. unfold reject_tau. keeps_tac. Qed.
#[local] Hint Resolve bounded_reject_service bounded_reject_tau : keeps.

Lemma bounded_service_request m : keeps bounded (common_service_request m).
Proof.
  unfold common_service_request, s1ap_send_initial_context_setup_request.
  apply keeps_bind; [exact _| |keeps_tac]. apply bounded_or_exception; keeps_tac.
Qed.
Lemma bounded_need_imsi (r : M ue_t ()) :
  keeps bounded r →
  keeps bounded (u ← get; if negb (MME_UE_HAVE_IMSI u) then r;; mret false else mret true).
Proof. keeps_tac. Qed.
Lemma bounded_message m : keeps bounded (common_message self m).
Proof.
  unfold common_message. cbv zeta. repeat case_match; try (keeps_tac; fail);
    try (apply keeps_bind; [exact _|keeps_tac|intros _]);
    try (apply bounded_or_exception; [solve [eauto 3 with keeps]|]);
    try (apply bounded_need_imsi); try (unfold common_detach; keeps_tac; fail).
Qed.
Lemma bounded_timer id : keeps bounded (common_timer self id).
Proof.
  unfold common_timer. destruct id; try (keeps_tac; fail).
  - refine (bounded_retry (λ u, CLEAR_T3413;; _) _ (λ u, t_retry_count (t3413 (timers u))) 2 _ _ _ _);
      [keeps_tac|keeps_tac|apply bounded_retry_t3413].
  - refine (bounded_retry (λ u, CLEAR_T3470;; _) _ (λ u, t_retry_count (t3470 (timers u))) 4 _ _ _ _);
      [keeps_tac|keeps_tac|apply bounded_retry_t3470].
Qed.
Lemma bounded_after c : keeps bounded (common_after self c).
Proof.
  unfold common_after, after_attach, after_tau, after_extended_service, csfb,
    s1ap_send_initial_context_setup_request, s1ap_send_ue_context_modification_request.
  keeps_tac.
Qed.
#[local] Hint Resolve bounded_service_request bounded_message bounded_timer bounded_after : keeps.

Lemma bounded_the_enb_ue : keeps bounded the_enb_ue.
Proof. unfold the_enb_ue. keeps_tac. Qed.
#[local] Hint Resolve bounded_the_enb_ue : keeps.
Lemma bounded_common e : keeps bounded (common_register_state self e).
Proof. unfold common_register_state. keeps_tac. Qed.
#[local] Hint Resolve bounded_common : keeps.
Lemma bounded_restart m : keeps bounded (restart_attach self m).
Proof.
  unfold restart_attach. apply keeps_bind; [exact _| |keeps_tac].
  apply bounded_or_exception; keeps_tac.
Qed.
Lemma bounded_detach m : keeps bounded (detach m).
Proof.
  unfold detach. apply keeps_bind; [exact _| |keeps_tac]. apply bounded_or_exception; keeps_tac.
Qed.
Lemma bounded_derive : keeps bounded (modify derive_enb_keys).
Proof. apply bounded_quiet, (quiet_set_keys (λ u, keys (derive_enb_keys u))). Qed.
#[local] Hint Resolve bounded_restart bounded_detach bounded_derive : keeps.

Lemma bounded_authentication e : keeps bounded (authentication self e).
Proof.
  unfold authentication, authentication_response, authentication_failure.
  destruct e as [| |[m t c|[]]]; try (keeps_tac; fail).
  refine (bounded_retry (λ _, tran _;; _) _ (λ u, t_retry_count (t3460 (timers u))) 4 _ _ _ _);
    [keeps_tac|keeps_tac|apply bounded_retry_t3460].
Qed.
Lemma bounded_security_mode e : keeps bounded (security_mode self e).
Proof.
  unfold security_mode, security_mode_complete, reject_security_mode.
  destruct e as [| |[m t c|[]]]; try (keeps_tac; fail).
  refine (bounded_retry (λ _, tran _;; _) _ (λ u, t_retry_count (t3460 (timers u))) 4 _ _ _ _);
    [keeps_tac|keeps_tac|apply bounded_retry_t3460].
Qed.
Lemma bounded_initial_context_setup e : keeps bounded (initial_context_setup self e).
Proof.
  unfold initial_context_setup, setup_attach_complete, setup_attach_request.
  destruct e as [| |[m t c|[]]]; try (keeps_tac; fail).
  - keeps_tac; apply bounded_or_exception; keeps_tac.
  - refine (bounded_retry (λ _, tran _) _ (λ u, t_retry_count (t3450 (timers u))) 4 _ _ _ _);
      [keeps_tac|keeps_tac|apply bounded_retry_t3450].
Qed.
Lemma bounded_handler s e : keeps bounded (emm_state_handler self s e).
Proof.
  destruct s; simpl; auto using bounded_common, bounded_authentication, bounded_security_mode,
    bounded_initial_context_setup; unfold de_registered, exception; keeps_tac.
Qed.
#[local] Hint Resolve bounded_handler : keeps.

Context `{!OgsFsmLaws}.
Lemma bounded_dispatch e : keeps bounded (emm_dispatch self e).
Proof.
  intros u [] u' E. unfold emm_dispatch in E. rewrite fsm_dispatch_spec in E. revert u' E.
  match goal with |- ∀ u', ?m u = _ → _ =>
    enough (keeps bounded m) as Hm by (intros u' E; exact (Hm _ _ _ E)) end.
  keeps_tac.
Qed.
#[local] Hint Resolve bounded_dispatch : keeps.

Lemma bounded_s6a m : keeps bounded (mme_s6a_message self m).
Proof.
  unfold mme_s6a_message, mme_s6a_handle_aia, mme_s6a_handle_ula,
    s1ap_send_initial_context_setup_request. keeps_tac.
Qed.
Lemma bounded_handle e : keeps bounded (mme_handle e).
Proof.
  destruct e; simpl; [unfold mme_emm_message; keeps_tac|keeps_tac|apply bounded_s6a].
Qed.
Lemma bounded_expire id u u' : expire id u = Some u' → bounded u u'.
Proof.
  assert (∀ {A} i (t : ue_timer A), timer_ok i t → timer_ok i (stop t)) as Hstop
    by (intros A i t [_ Hr]; split; [discriminate|exact Hr]).
  unfold expire. intros E (?&?&?&?&?).
  destruct id; try discriminate E; destruct (t_running _); try discriminate E; injection E as <-;
    timers_tac.
Qed.

(** C30: Bounded retransmission.  However receptions, HSS answers, timer
    expiries and the handling of queued events interleave, a running T3450,
    T3460 or T3470 has a message to send again, and no timer of the UE is
    retransmitted more often than its [max_count]. *)
Theorem reachable_timers m : reachable m → timers_ok (ue m).
Proof.
  induction 1 as [m (_ & _ & Et)|m m' _ IH Hs].
  - unfold timers_ok. rewrite Et. split; [simpl; lia|].
    repeat split; simpl; discriminate || lia.
  - destruct Hs as [id u u' q E|hr pdu code u x t b q E|s u q|e u u' q E]; simpl in *.
    + exact (bounded_expire _ _ _ E IH).
    + exact IH.
    + exact IH.
    + exact (bounded_handle e _ _ _ E IH).
Qed.
End system.
