(* ===== verification/EsmBearer.v ===== *)
(** * Sessions and bearers of the MME: [src/mme/mme-context.c]

    The [mme_sess_*], [mme_bearer_*] and [mme_pdn_*] functions on the context
    of one UE.  Its sessions and their bearers are lists inside [ue_t], so the
    back pointers [bearer->sess], [bearer->mme_ue] and [sess->mme_ue] are the
    places in these lists.  A session or bearer is named by the index of its
    pool object; an index that is in no list is a freed object, and an access
    to it is [Undef]. *)
From S2P Require Import Prelude.
From S2P Require Import CMem.
From S2P Require Import OgsLib.
From S2P Require Import NasTai.
From S2P Require Import MmeContext.
From S2P Require Import EmmBuild.
#[local] Open Scope Z_scope.

Definition MIN_EPS_BEARER_ID : Z := 5.
Definition MAX_EPS_BEARER_ID : Z := 15.

(** ** Objects *)
Definition sess_eta (s : mme_sess_t) : mme_sess_t :=
  {| s_id := s_id s; pti := pti s; request_type := request_type s; pdn := pdn s;
     ue_pco := ue_pco s; pgw_pco := pgw_pco s; bearer_list := bearer_list s |}.
Definition set_pti : Z → mme_sess_t → mme_sess_t := ltac:(record_setter sess_eta pti).
Definition set_request_type : Z → mme_sess_t → mme_sess_t :=
  ltac:(record_setter sess_eta request_type).
Definition set_pdn : option pdn_ptr → mme_sess_t → mme_sess_t := ltac:(record_setter sess_eta pdn).
Definition set_ue_pco : list Z → mme_sess_t → mme_sess_t := ltac:(record_setter sess_eta ue_pco).
Definition set_pgw_pco : list Z → mme_sess_t → mme_sess_t := ltac:(record_setter sess_eta pgw_pco).

Definition bearer_eta (b : mme_bearer_t) : mme_bearer_t :=
  {| b_id := b_id b; b_sm := b_sm b; bearer_ebi := bearer_ebi b; enb_s1u_teid := enb_s1u_teid b;
     sgw_s1u_teid := sgw_s1u_teid b; b_qos := b_qos b; tft := tft b; t3489 := t3489 b;
     b_xact := b_xact b |}.
Definition set_b_sm : esm_state → mme_bearer_t → mme_bearer_t :=
  ltac:(record_setter bearer_eta b_sm).
Definition set_bearer_ebi : Z → mme_bearer_t → mme_bearer_t :=
  ltac:(record_setter bearer_eta bearer_ebi).
Definition set_enb_s1u_teid : Z → mme_bearer_t → mme_bearer_t :=
  ltac:(record_setter bearer_eta enb_s1u_teid).
Definition set_sgw_s1u_teid : Z → mme_bearer_t → mme_bearer_t :=
  ltac:(record_setter bearer_eta sgw_s1u_teid).
Definition set_tft : list Z → mme_bearer_t → mme_bearer_t := ltac:(record_setter bearer_eta tft).
Definition set_t3489 : ue_timer pkbuf → mme_bearer_t → mme_bearer_t :=
  ltac:(record_setter bearer_eta t3489).
Definition set_b_xact : option Z → mme_bearer_t → mme_bearer_t :=
  ltac:(record_setter bearer_eta b_xact).

(** What the pools hand out next, with the contents that the objects were
    left with ([None]: the pool is exhausted). *)
Record esm_objects := { free_sess : option mme_sess_t; free_bearer : option mme_bearer_t }.

(** The cases of the state functions for the signals of [ogs_fsm_init] and
    [ogs_fsm_dispatch]; [esm_state_initial] changes the state on any event. *)
Definition esm_signal {E} (st : esm_state) (e : fsm_signal E) : mme_bearer_t → mme_bearer_t :=
  match st, e with
  | esm_state_initial, _ => set_b_sm esm_state_inactive
  | esm_state_inactive, OGS_FSM_ENTRY_SIG | esm_state_exception, OGS_FSM_ENTRY_SIG =>
      (** [CLEAR_BEARER_ALL_TIMERS] *)
      set_t3489 timer_cleared
  | _, _ => id
  end.

(** ** Look-ups *)
(** The first element with a property, in a linked list. *)
Definition find_first {A} (f : A → bool) (l : list A) : option A := head (filter (λ x, f x = true) l).

Definition mme_default_bearer_in_sess (s : mme_sess_t) : option mme_bearer_t := head (bearer_list s).
(** [mme_bearer_next]. *)
Fixpoint bearers_after (i : Z) (l : list mme_bearer_t) : list mme_bearer_t :=
  match l with [] => [] | b :: l => if b_id b =? i then l else bearers_after i l end.
Definition mme_bearer_find_by_sess_ebi (s : mme_sess_t) (ebi : Z) : option mme_bearer_t :=
  find_first (λ b, ebi =? bearer_ebi b) (bearer_list s).
Fixpoint bearer_in_sessions (l : list mme_sess_t) (ebi : Z) : option mme_bearer_t :=
  match l with
  | [] => None
  | s :: l =>
      match mme_bearer_find_by_sess_ebi s ebi with
      | Some b => Some b | None => bearer_in_sessions l ebi
      end
  end.

Section bearer.
Context `{OgsPlmn}.

Definition all_bearers (u : ue_t) : list mme_bearer_t := mjoin (bearer_list <$> sess_list u).
Definition mme_bearer_find_by_ue_ebi (u : ue_t) (ebi : Z) : option mme_bearer_t :=
  bearer_in_sessions (sess_list u) ebi.
Definition mme_sess_find_by_pti (u : ue_t) (p : Z) : option mme_sess_t :=
  find_first (λ s, p =? pti s) (sess_list u).
Definition mme_sess_count (u : ue_t) : nat := length (sess_list u).

(** Following a pointer to a session, to a bearer, and [bearer->sess]. *)
Definition sess_at (u : ue_t) (i : Z) : option mme_sess_t :=
  find_first (λ s, s_id s =? i) (sess_list u).
Definition bearer_at (u : ue_t) (i : Z) : option mme_bearer_t :=
  find_first (λ b, b_id b =? i) (all_bearers u).
Definition sess_of (u : ue_t) (i : Z) : option mme_sess_t :=
  find_first (λ s, existsb (λ b, b_id b =? i) (bearer_list s)) (sess_list u).
Definition the_sess (i : Z) : M ue_t mme_sess_t := u ← get; lift (access (sess_at u i)).
Definition the_bearer (i : Z) : M ue_t mme_bearer_t := u ← get; lift (access (bearer_at u i)).
Definition bearer_sess (i : Z) : M ue_t mme_sess_t := u ← get; lift (access (sess_of u i)).

Definition mme_sess_find_by_ebi (u : ue_t) (ebi : Z) : option mme_sess_t :=
  match mme_bearer_find_by_ue_ebi u ebi with Some b => sess_of u (b_id b) | None => None end.

(** [strcmp] on strings without their terminator. *)
Definition same_string (a b : list Z) : bool := bool_decide (a = b).
Fixpoint sess_with_apn (u : ue_t) (l : list mme_sess_t) (a : list Z) : outcome (option mme_sess_t) :=
  match l with
  | [] => Ok None
  | s :: l =>
      match pdn s with
      | Some p => d ← the_pdn u p; if same_string (apn d) a then Ok (Some s) else sess_with_apn u l a
      | None => sess_with_apn u l a
      end
  end.
Definition mme_sess_find_by_apn (u : ue_t) (a : list Z) : outcome (option mme_sess_t) :=
  sess_with_apn u (sess_list u) a.

(** The loop over the first [n] entries of [subscription_data->pdn]. *)
Fixpoint pdn_loop (f : pdn_t → bool) (i n : nat) (l : list pdn_t) : outcome (option nat) :=
  match n with
  | O => Ok None
  | S n =>
      match l with
      | [] => Undef
      | d :: l => if f d then Ok (Some i) else pdn_loop f (S i) n l
      end
  end.
Definition mme_pdn_find_by_apn (u : ue_t) (a : list Z) : outcome (option nat) :=
  let d := subscription_data u in pdn_loop (λ p, same_string (apn p) a) 0 (num_of_pdn d) (pdns d).
Definition mme_default_pdn (u : ue_t) : outcome (option nat) :=
  let d := subscription_data u in
  pdn_loop (λ p, pdn_context_identifier p =? context_identifier d) 0 (num_of_pdn d) (pdns d).

(** ** Changes *)
Definition on_sess (i : Z) (f : mme_sess_t → mme_sess_t) : M ue_t () :=
  _ ← the_sess i; modify (map_sess i f).
Definition on_bearer (i : Z) (f : mme_bearer_t → mme_bearer_t) : M ue_t () :=
  _ ← the_bearer i; modify (map_bearer i f).

(** [mme_bearer_set_inactive]. *)
Definition map_bearers (f : mme_bearer_t → mme_bearer_t) (u : ue_t) : ue_t :=
  set_sess_list (on_bearers (fmap f) <$> sess_list u) u.
Definition mme_bearer_set_inactive : M ue_t () := modify (map_bearers (set_enb_s1u_teid 0)).

Context `{OgsNextId, OgsFsmInit}.

(** The object gets its EBI, a new timer and its state machine; its other
    fields keep what was there. *)
Definition new_bearer (ebi : Z) (b : mme_bearer_t) : mme_bearer_t :=
  set_b_sm esm_state_initial (set_t3489
    {| t_pkbuf := t_pkbuf (t3489 b); t_running := false; t_retry_count := t_retry_count (t3489 b) |}
    (set_bearer_ebi ebi b)).
Definition init_bearer (b : mme_bearer_t) : outcome mme_bearer_t :=
  '(_, b) ← ogs_fsm_init (E := ()) esm_state_eq_dec b_sm (λ st e, modify (esm_signal st e)) b; Ok b.
(** [mme_bearer_add]: the bearers of the session, [l], with the new one. *)
Definition bearer_append (o : option mme_bearer_t) (l : list mme_bearer_t)
    : M ue_t (Z * list mme_bearer_t) :=
  b ← (match o with Some b => mret b | None => mabort end);
  u ← get;
  let e := ogs_next_id (ebi u) MIN_EPS_BEARER_ID MAX_EPS_BEARER_ID in
  modify (set_ebi e);;
  b ← lift (init_bearer (new_bearer e b));
  mret (b_id b, l ++ [b]).
Definition mme_bearer_add (o : option mme_bearer_t) (i : Z) : M ue_t Z :=
  s ← the_sess i;
  '(j, l) ← bearer_append o (bearer_list s);
  modify (map_sess i (on_bearers (λ _, l)));;
  mret j.

Definition mme_sess_add (o : esm_objects) (p : Z) : M ue_t Z :=
  massert (negb (p =? 0));;
  s ← (match free_sess o with Some s => mret s | None => mabort end);
  '(_, l) ← bearer_append (free_bearer o) [];
  modify (λ u, set_sess_list (sess_list u ++ [on_bearers (λ _, l) (set_pti p s)]) u);;
  mret (s_id s).

(** Freed objects leave the lists. *)
Definition mme_bearer_remove (i : Z) : M ue_t () :=
  _ ← the_bearer i;
  modify (λ u, set_sess_list (on_bearers (filter (λ b, b_id b ≠ i)) <$> sess_list u) u).
Definition mme_sess_remove (i : Z) : M ue_t () :=
  _ ← the_sess i; modify (λ u, set_sess_list (filter (λ s, s_id s ≠ i) (sess_list u)) u).
Definition mme_sess_remove_all : M ue_t () := modify (set_sess_list []).

(** ** The configured look-up of the MSC *)
Definition mme_csmap_find_by_tai `{OgsBits, !OgsPlmnDigits, OgsSizes} (self : mme_context_t)
    (t : ogs_tai_t) : option csmap_t :=
  snd <$> find_first (λ '(p, n, _), bool_decide (p = plmn_bytes (tai_plmn_id t)) && (n =? tac t))
            (csmap_list self).
End bearer.
