(* ===== verification/EsmSend.v ===== *)
(** * ESM messages: [esm-build.c], [nas-path.c], [mme-gtp-path.c]

    The builders of the ESM messages that [EmmBuild.v] does not hold, the
    functions that send them, and the S11 messages of the ESM layer with the
    assertions of [mme-s11-build.c].  Bearers are given by their index. *)
From S2P Require Import Prelude.
From S2P Require Import CMem.
From S2P Require Import OgsLib.
From S2P Require Import NasTai.
From S2P Require Import NasConv.
From S2P Require NasSecurity.
From S2P Require Import Kdf.
From S2P Require Import MmeContext.
From S2P Require Import EmmBuild.
From S2P Require Import EsmBearer.
#[local] Open Scope Z_scope.

Definition EMM_CAUSE_EPS_SERVICES_AND_NON_EPS_SERVICES_NOT_ALLOWED : Z := 8.
Definition EMM_CAUSE_SEMANTICALLY_INCORRECT_MESSAGE : Z := 95.
Definition ESM_CAUSE_MISSING_OR_UNKNOWN_APN : Z := 27.
Definition ESM_CAUSE_REGULAR_DEACTIVATION : Z := 36.
Definition ESM_CAUSE_ESM_INFORMATION_NOT_RECEIVED : Z := 53.

(** [pdn_type] of [ogs_nas_request_type_t]. *)
Definition request_pdn_type `{OgsBits} (octet : Z) : Z := nth 1 (ed_unpack [1; 3; 1; 3]%nat octet) 0.
(** The subscribed PDN type, in the values of the AVP PDN-Type (3GPP TS
    29.272); ogslib defines the constants. *)
Definition OGS_HSS_PDN_TYPE_IPV4 : Z := 0.
Definition OGS_HSS_PDN_TYPE_IPV6 : Z := 1.
Definition OGS_HSS_PDN_TYPE_IPV4V6 : Z := 2.
Definition OGS_HSS_PDN_TYPE_IPV4_OR_IPV6 : Z := 3.

Definition set_paa_type (t : Z) (d : pdn_t) : pdn_t :=
  {| apn := apn d; pdn_context_identifier := pdn_context_identifier d;
     pdn_pdn_type := pdn_pdn_type d; pdn_qos := pdn_qos d; ambr_downlink := ambr_downlink d;
     ambr_uplink := ambr_uplink d;
     paa := {| pdn_type := t; paa_addr := paa_addr (paa d); paa_addr6 := paa_addr6 (paa d);
               both_addr := both_addr (paa d); both_addr6 := both_addr6 (paa d) |} |}.

(** The type of the PDN that the UE requested and has subscribed to. *)
Definition select_pdn_type (subscribed requested : Z) : outcome Z :=
  ogs_assert ((requested =? 1) || (requested =? 2) || (requested =? 3));;
  if (subscribed =? OGS_HSS_PDN_TYPE_IPV4) || (subscribed =? OGS_HSS_PDN_TYPE_IPV6) ||
     (subscribed =? OGS_HSS_PDN_TYPE_IPV4V6)
  then
    let t := Z.land (subscribed + 1) requested in
    ogs_assert (negb (t =? 0));; Ok t
  else if subscribed =? OGS_HSS_PDN_TYPE_IPV4_OR_IPV6 then Ok requested
  else Aborted.

Section send.
Context `{Host, OgsBits, OgsPkbuf, NasSecurity.Crypto, KeyedHash, OgsPlmn, !OgsPlmnDigits,
          !Ogs3gpp, OgsSizes, NasCodec}.

(** ** [esm-build.c] *)
Definition esm_build_information_request (i : Z) : M ue_t pkbuf :=
  s ← bearer_sess i;
  security_encode INTEGRITY_PROTECTED_AND_CIPHERED (EsmInformationRequest (pti s)).

(** [tft->length] is an octet. *)
Definition build_tft (t : list Z) : M ue_t (list Z) :=
  massert (negb (length (octet_length t) =? 0)%nat);; mret (octet_length t).

Definition esm_build_activate_dedicated_bearer_context_request (i : Z) : M ue_t pkbuf :=
  s ← bearer_sess i;
  b ← the_bearer i;
  linked ← (match mme_default_bearer_in_sess s with Some l => mret l | None => mabort end);
  t ← build_tft (tft b);
  security_encode INTEGRITY_PROTECTED_AND_CIPHERED
    (ActivateDedicatedBearerContextRequest (bearer_ebi b) (bearer_ebi linked)
       (eps_qos_of (b_qos b)) t).

Definition esm_build_modify_bearer_context_request (i : Z) (qos_presence tft_presence : Z)
    : M ue_t pkbuf :=
  s ← bearer_sess i;
  b ← the_bearer i;
  let qos := if qos_presence =? 1 then Some (eps_qos_of (b_qos b)) else None in
  t ← (if tft_presence =? 1 then t ← build_tft (tft b); mret (Some t) else mret None);
  security_encode INTEGRITY_PROTECTED_AND_CIPHERED
    (ModifyBearerContextRequest (pti s) (bearer_ebi b) qos t).

Definition esm_build_deactivate_bearer_context_request (i : Z) (esm_cause : Z) : M ue_t pkbuf :=
  s ← bearer_sess i;
  b ← the_bearer i;
  security_encode INTEGRITY_PROTECTED_AND_CIPHERED
    (DeactivateBearerContextRequest (pti s) (bearer_ebi b) esm_cause).

(** ** [nas-path.c] *)
Definition nas_send_pdn_connectivity_reject (sess : Z) (esm_cause : Z) : M ue_t () :=
  s ← the_sess sess;
  u ← get;
  if decide (sm u = emm_state_registered) then
    esmbuf ← esm_build_pdn_connectivity_reject s esm_cause;
    nas_send_to_downlink_nas_transport esmbuf
  else
    nas_send_attach_reject EMM_CAUSE_EPS_SERVICES_AND_NON_EPS_SERVICES_NOT_ALLOWED esm_cause.

Definition nas_send_esm_information_request (i : Z) : M ue_t () :=
  b ← the_bearer i;
  esmbuf ← (match t_pkbuf (t3489 b) with
            | Some m => mret m | None => esm_build_information_request i end);
  on_bearer i (λ b, set_t3489 (timer_start esmbuf (t3489 b)) b);;
  nas_send_to_downlink_nas_transport esmbuf.

Definition nas_send_activate_default_bearer_context_request (i : Z) : M ue_t () :=
  s ← bearer_sess i;
  b ← the_bearer i;
  esmbuf ← esm_build_activate_default_bearer_context_request s;
  nas_send_to_enb (ERabSetupRequest (bearer_ebi b) esmbuf).

Definition nas_send_activate_dedicated_bearer_context_request (i : Z) : M ue_t () :=
  b ← the_bearer i;
  esmbuf ← esm_build_activate_dedicated_bearer_context_request i;
  nas_send_to_enb (ERabSetupRequest (bearer_ebi b) esmbuf).

Fixpoint activate_each (l : list mme_bearer_t) : M ue_t () :=
  match l with
  | [] => mret ()
  | b :: l => nas_send_activate_dedicated_bearer_context_request (b_id b);; activate_each l
  end.
Definition nas_send_activate_all_dedicated_bearers (i : Z) : M ue_t () :=
  s ← bearer_sess i; activate_each (bearers_after i (bearer_list s)).

Definition nas_send_modify_bearer_context_request (i : Z) (qos_presence tft_presence : Z)
    : M ue_t () :=
  b ← the_bearer i;
  esmbuf ← esm_build_modify_bearer_context_request i qos_presence tft_presence;
  if qos_presence =? 1 then nas_send_to_enb (ERabModifyRequest (bearer_ebi b) esmbuf)
  else nas_send_to_downlink_nas_transport esmbuf.

Definition nas_send_deactivate_bearer_context_request (i : Z) : M ue_t () :=
  b ← the_bearer i;
  esmbuf ← esm_build_deactivate_bearer_context_request i ESM_CAUSE_REGULAR_DEACTIVATION;
  nas_send_to_enb (ERabReleaseCommand (bearer_ebi b) esmbuf).

(** ** [mme-gtp-path.c], [mme-s11-build.c] *)
(** Writing through [sess->pdn]. *)
Definition on_pdn (sess : Z) (p : pdn_ptr) (f : pdn_t → pdn_t) : M ue_t () :=
  match p with
  | OwnPdn k => modify (λ u, set_subscription_data
      {| pdns := alter f k (pdns (subscription_data u));
         num_of_pdn := num_of_pdn (subscription_data u);
         context_identifier := context_identifier (subscription_data u) |} u)
  | OtherPdn d => on_sess sess (set_pdn (Some (OtherPdn (f d))))
  end.

(** The F-TEIDs of the MME and of the PGW can be made: [mme_gtp_open] has
    asserted, at the start, that there is an address for each, and the search
    for the PGW of an APN falls back on that one. *)
Definition mme_s11_build_create_session_request (sess : Z) : M ue_t create_session_request_t :=
  s ← the_sess sess;
  p ← (match pdn s with Some p => mret p | None => mabort end);
  bearer ← (match mme_default_bearer_in_sess s with Some b => mret b | None => mabort end);
  u ← get;
  massert (MME_UE_HAVE_IMSI u);;
  d ← lift (the_pdn u p);
  type ← lift (select_pdn_type (pdn_pdn_type d) (request_pdn_type (request_type s)));
  on_pdn sess p (set_paa_type type);;
  mret {| csr_imsi := imsi (ident u); csr_apn := apn d; csr_pdn_type := type;
          csr_ambr := if negb (ambr_uplink d =? 0) || negb (ambr_downlink d =? 0)
                      then Some (ambr_uplink d, ambr_downlink d) else None;
          csr_pco := if (length (ue_pco s) =? 0)%nat then None else Some (ue_pco s);
          csr_ebi := bearer_ebi bearer; csr_qci := qci (pdn_qos d) |}.
Definition mme_gtp_send_create_session_request (sess : Z) : M ue_t () :=
  r ← mme_s11_build_create_session_request sess; emit (CreateSessionRequest r).

(** Without location ([uli_presence = 0]). *)
Definition mme_gtp_send_modify_bearer_request (i : Z) : M ue_t () :=
  b ← the_bearer i; emit (ModifyBearerRequest (bearer_ebi b)).
Definition mme_gtp_send_delete_session_request (sess : Z) : M ue_t () :=
  s ← the_sess sess;
  match mme_default_bearer_in_sess s with
  | Some b => emit (DeleteSessionRequest (bearer_ebi b)) | None => mabort
  end.

(** The three responses go through the transaction stored in the bearer. *)
Definition bearer_xact (i : Z) : M ue_t (Z * Z) :=
  b ← the_bearer i;
  match b_xact b with Some x => mret (x, bearer_ebi b) | None => mabort end.
Definition mme_gtp_send_create_bearer_response (i : Z) : M ue_t () :=
  '(x, e) ← bearer_xact i; emit (CreateBearerResponse x e).
Definition mme_gtp_send_update_bearer_response (i : Z) : M ue_t () :=
  '(x, e) ← bearer_xact i; emit (UpdateBearerResponse x e).
Definition mme_gtp_send_delete_bearer_response (i : Z) : M ue_t () :=
  '(x, e) ← bearer_xact i; emit (DeleteBearerResponse x e).
End send.
