(* ===== verification/EsmSm.v ===== *)
(** * The ESM layer: [src/mme/esm-handler.c], [esm-sm.c], [mme-sm.c]

    The handlers, the state functions, and the ESM events of
    [mme_state_operational]. *)
From S2P Require Import Prelude.
From S2P Require Import CMem.
From S2P Require Import OgsLib.
From S2P Require Import NasTai.
From S2P Require NasSecurity.
From S2P Require Import Kdf.
From S2P Require Import MmeContext.
From S2P Require Import EmmBuild.
From S2P Require Import EmmHandler.
From S2P Require Import EmmSm.
From S2P Require Import EsmBearer.
From S2P Require Import EsmSend.
#[local] Open Scope Z_scope.

(** ** Messages: the fields that the code reads *)
Record pdn_connectivity_request_t := {
  pc_request_type : Z; pc_information_transfer_flag : option Z; pc_apn : option (list Z);
  pc_pco : option (list Z);
}.
Record esm_information_response_t := { ir_apn : option (list Z); ir_pco : option (list Z) }.
Inductive esm_body :=
| PdnConnectivityRequest (r : pdn_connectivity_request_t)
| PdnDisconnectRequest (linked_ebi : Z)
| EsmInformationResponse (r : esm_information_response_t)
| ActivateDefaultBearerContextAccept
| ActivateDedicatedBearerContextAccept
| ModifyBearerContextAccept
| DeactivateBearerContextAccept
| OtherEsmMessage (message_type : Z).
Record esm_message_t := {
  eps_bearer_identity : Z; procedure_transaction_identity : Z; body : esm_body;
}.

Inductive esm_event := EsmEvtMessage (m : esm_message_t) | EsmEvtTimer (id : mme_timer_e).

(** [ogs_nas_esm_decode] is generated code. *)
Class EsmDecoder := { ogs_nas_esm_decode : pkbuf → option esm_message_t }.

Section esm.
Context `{Host, OgsBits, OgsPkbuf, NasSecurity.Crypto, KeyedHash, OgsPlmn, !OgsPlmnDigits,
          !Ogs3gpp, OgsSizes, NasCodec, OgsNextId, OgsFsmInit, OgsFsm, EsmDecoder}
        (self : mme_context_t).

(** ** [mme_bearer_find_or_add_by_message] *)
Definition mme_bearer_find_or_add_by_message (o : esm_objects) (m : esm_message_t)
    : M ue_t (option Z) :=
  let p := procedure_transaction_identity m in
  u ← get;
  if negb (eps_bearer_identity m =? 0) then
    b ← assert_some (mme_bearer_find_by_ue_ebi u (eps_bearer_identity m)); mret (Some (b_id b))
  else if p =? 0 then
    nas_send_attach_reject EMM_CAUSE_SEMANTICALLY_INCORRECT_MESSAGE
      ESM_CAUSE_PROTOCOL_ERROR_UNSPECIFIED;;
    mret None
  else
    match body m with
    | PdnDisconnectRequest linked =>
        b ← assert_some (mme_bearer_find_by_ue_ebi u linked);
        s ← bearer_sess (b_id b);
        on_sess (s_id s) (set_pti p);;
        mret (Some (b_id b))
    | b =>
        i ← (match b with
             | PdnConnectivityRequest r =>
                 found ← (match pc_apn r with
                          | Some a => lift (mme_sess_find_by_apn u a)
                          | None => mret (head (sess_list u))
                          end);
                 match found with
                 | None => mme_sess_add o p
                 | Some s => on_sess (s_id s) (set_pti p);; mret (s_id s)
                 end
             | _ => s ← assert_some (mme_sess_find_by_pti u p); mret (s_id s)
             end);
        s ← the_sess i;
        d ← assert_some (mme_default_bearer_in_sess s);
        mret (Some (b_id d))
    end.

(** ** [esm-handler.c] *)
(** [security_protected_required]. *)
Definition flag_set (octet : Z) : bool := negb (nth 2 (ed_unpack [4; 3; 1]%nat octet) 0 =? 0).
Definition CLEAR_T3489 (i : Z) : M ue_t () := on_bearer i (set_t3489 timer_cleared).

(** [pdn]: what was found for an APN of the message. *)
Definition store_pdn (sess : Z) (found : option nat) : M ue_t () :=
  on_sess sess (set_pdn (OwnPdn <$> found)).
Definition store_pco (sess : Z) (pco : option (list Z)) : M ue_t () :=
  match pco with Some p => on_sess sess (set_ue_pco p) | None => mret () end.
Definition unknown_apn (sess : Z) : M ue_t rv_t :=
  nas_send_pdn_connectivity_reject sess ESM_CAUSE_MISSING_OR_UNKNOWN_APN;; mret OGS_ERROR.

(** The end of the handler: the session of the UE's own choice or of the
    default APN. *)
Definition connect (sess : Z) : M ue_t rv_t :=
  s ← the_sess sess;
  (match pdn s with
   | Some _ => mret ()
   | None => u ← get; found ← lift (mme_default_pdn u); store_pdn sess found
   end);;
  s ← the_sess sess;
  match pdn s with
  | Some _ => mme_gtp_send_create_session_request sess;; mret OGS_OK
  | None => unknown_apn sess
  end.

Definition esm_handle_pdn_connectivity_request (i : Z) (r : pdn_connectivity_request_t)
    : M ue_t rv_t :=
  s ← bearer_sess i;
  u ← get;
  massert (MME_UE_HAVE_IMSI u);;
  massert (SECURITY_CONTEXT_IS_VALID u);;
  on_sess (s_id s) (set_request_type (pc_request_type r));;
  known ← (match pc_apn r with
           | None => mret true
           | Some a =>
               found ← lift (mme_pdn_find_by_apn u a);
               store_pdn (s_id s) found;;
               mret (match found with Some _ => true | None => false end)
           end);
  if negb known then unknown_apn (s_id s)
  else
    store_pco (s_id s) (pc_pco r);;
    if match pc_information_transfer_flag r with Some f => flag_set f | None => false end then
      CLEAR_T3489 i;; nas_send_esm_information_request i;; mret OGS_OK
    else connect (s_id s).

Definition esm_handle_information_response (sess : Z) (r : esm_information_response_t)
    : M ue_t rv_t :=
  u ← get;
  (match ir_apn r with
   | Some a => found ← lift (mme_pdn_find_by_apn u a); store_pdn sess found
   | None => mret ()
   end);;
  store_pco sess (ir_pco r);;
  s ← the_sess sess;
  match pdn s with
  | None => unknown_apn sess
  | Some _ =>
      u ← get;
      (if SESSION_CONTEXT_IS_AVAILABLE u then
         let csmap := mme_csmap_find_by_tai self (tai u) in
         modify (set_csmap csmap);;
         match csmap with
         | Some _ => emit (Sgsap LocationUpdateRequest)
         | None => modify (on_t3450 timer_cleared);; nas_send_attach_accept self
         end
       else mme_gtp_send_create_session_request sess);;
      mret OGS_OK
  end.

(** ** [esm-sm.c] *)
(** [OGS_FSM_TRAN]. *)
Definition esm_tran (i : Z) (st : esm_state) : M ue_t () := on_bearer i (set_b_sm st).
Definition or_esm_exception (i : Z) (m : M ue_t rv_t) (k : M ue_t ()) : M ue_t () :=
  rv ← m; match rv with OGS_OK => k | OGS_ERROR => esm_tran i esm_state_exception end.

Definition esm_inactive (i : Z) (e : esm_event) : M ue_t () :=
  s ← bearer_sess i;
  b ← the_bearer i;
  match e with
  | EsmEvtMessage m =>
      match body m with
      | PdnConnectivityRequest r =>
          or_esm_exception i (esm_handle_pdn_connectivity_request i r) (mret ())
      | EsmInformationResponse r =>
          CLEAR_T3489 i;;
          or_esm_exception i (esm_handle_information_response (s_id s) r) (mret ())
      | ActivateDefaultBearerContextAccept =>
          (if negb (enb_s1u_teid b =? 0) then mme_gtp_send_modify_bearer_request i else mret ());;
          nas_send_activate_all_dedicated_bearers i;;
          esm_tran i esm_state_active
      | ActivateDedicatedBearerContextAccept =>
          (if negb (enb_s1u_teid b =? 0) then mme_gtp_send_create_bearer_response i else mret ());;
          esm_tran i esm_state_active
      | _ => mret ()
      end
  | EsmEvtTimer MME_TIMER_T3489 =>
      if mme_timer_max_count MME_TIMER_T3489 <=? t_retry_count (t3489 b) then
        esm_tran i esm_state_exception;;
        nas_send_pdn_connectivity_reject (s_id s) ESM_CAUSE_ESM_INFORMATION_NOT_RECEIVED
      else
        on_bearer i (λ b, set_t3489 (timer_retry (t3489 b)) b);;
        nas_send_esm_information_request i
  | EsmEvtTimer _ => mret ()
  end.

Definition esm_active (i : Z) (e : esm_event) : M ue_t () :=
  s ← bearer_sess i;
  match e with
  | EsmEvtMessage m =>
      match body m with
      | PdnConnectivityRequest r =>
          or_esm_exception i (esm_handle_pdn_connectivity_request i r)
            (esm_tran i esm_state_inactive)
      | PdnDisconnectRequest _ =>
          (if MME_HAVE_SGW_S1U_PATH s then mme_gtp_send_delete_session_request (s_id s)
           else nas_send_deactivate_bearer_context_request i);;
          esm_tran i esm_state_pdn_will_disconnect
      | ModifyBearerContextAccept => mme_gtp_send_update_bearer_response i
      | DeactivateBearerContextAccept =>
          mme_gtp_send_delete_bearer_response i;;
          esm_tran i esm_state_bearer_deactivated
      | _ => mret ()
      end
  | EsmEvtTimer _ => mret ()
  end.

Definition pdn_will_disconnect_state (i : Z) (e : esm_event) : M ue_t () :=
  _ ← bearer_sess i;
  match e with
  | EsmEvtMessage m =>
      match body m with
      | DeactivateBearerContextAccept => esm_tran i esm_state_pdn_did_disconnect
      | _ => mret ()
      end
  | EsmEvtTimer _ => mret ()
  end.

(** The state of the machine of bearer [i] ([None]: freed). *)
Definition esm_state_of (i : Z) (u : ue_t) : option esm_state := b_sm <$> bearer_at u i.
Definition esm_state_handler (i : Z) (st : option esm_state) (e : fsm_signal esm_event)
    : M ue_t () :=
  match st, e with
  | None, _ => lift Undef
  | Some esm_state_inactive, FsmEvent e => esm_inactive i e
  | Some esm_state_active, FsmEvent e => esm_active i e
  | Some esm_state_pdn_will_disconnect, FsmEvent e => pdn_will_disconnect_state i e
  | Some st, e => on_bearer i (esm_signal st e)
  end.
Definition esm_dispatch (i : Z) (e : esm_event) : M ue_t () :=
  ogs_fsm_dispatch _ (esm_state_of i) (esm_state_handler i) e.

(** ** [mme-sm.c] *)
Definition mme_esm_after (i : Z) (sess default_bearer : Z) : M ue_t () :=
  b ← the_bearer i;
  d ← the_bearer default_bearer;
  match b_sm b with
  | esm_state_bearer_deactivated =>
      if bearer_ebi d =? bearer_ebi b then mme_sess_remove sess else mme_bearer_remove i
  | esm_state_pdn_did_disconnect =>
      massert (bearer_ebi d =? bearer_ebi b);; mme_sess_remove sess
  | esm_state_exception =>
      u ← get;
      massert (match enb_ue u with Some _ => true | None => false end);;
      mme_send_delete_session_or_ue_context_release
  | _ => mret ()
  end.

(** [MME_EVT_ESM_MESSAGE] after decoding. *)
Definition mme_esm_message (o : esm_objects) (m : esm_message_t) : M ue_t () :=
  found ← mme_bearer_find_or_add_by_message o m;
  match found with
  | None => mret ()
  | Some i =>
      s ← bearer_sess i;
      d ← assert_some (mme_default_bearer_in_sess s);
      esm_dispatch i (EsmEvtMessage m);;
      mme_esm_after i (s_id s) (b_id d)
  end.
Definition mme_evt_esm_message (o : esm_objects) (b : pkbuf) : M ue_t () :=
  match ogs_nas_esm_decode b with Some m => mme_esm_message o m | None => mabort end.
(** [MME_EVT_ESM_TIMER]. *)
Definition mme_evt_esm_timer (i : Z) (id : mme_timer_e) : M ue_t () :=
  esm_dispatch i (EsmEvtTimer id).
End esm.
