(* ===== verification/MmeS11.v ===== *)
(** * The S11 interface of the MME: [src/mme/mme-s11-handler.c]

    The handlers of the messages about sessions and bearers, on the context
    of the UE that the TEID of the message names.  [xact] is the transaction
    that the message belongs to. *)
From S2P Require Import Prelude.
From S2P Require Import CMem.
From S2P Require Import OgsLib.
From S2P Require GtpTypes.
From S2P Require GtpConv.
From S2P Require Import NasTai.
From S2P Require NasSecurity.
From S2P Require Import Kdf.
From S2P Require Import MmeContext.
From S2P Require Import EmmBuild.
From S2P Require Import EmmHandler.
From S2P Require Import EsmBearer.
From S2P Require Import EsmSend.
From S2P Require Import EsmSm.
#[local] Open Scope Z_scope.

(** ** Messages: the elements that the handlers read *)
Record bearer_context_t := {
  bc_presence : bool; bc_ebi : option Z; bc_s1u : option GtpConv.ogs_gtp_f_teid_t;
  bc_qos : option GtpTypes.ogs_tlv_octet_t; bc_tft : option (list Z);
}.
Record create_session_response_t := {
  rsp_s11_f_teid : option GtpConv.ogs_gtp_f_teid_t; rsp_paa : option (list Z);
  rsp_pco : option (list Z); rsp_bearer : bearer_context_t;
}.
Record create_bearer_request_t := { cb_linked_ebi : option Z; cb_bearer : bearer_context_t }.
Record delete_bearer_request_t := { db_linked_ebi : option Z; db_ebi : option Z }.

(** [memcpy] into [ogs_paa_t], whose layout is part of ogslib; undefined when
    the element is longer than the structure. *)
Class OgsPaa := { ogs_paa_copy : list Z → paa_t → outcome paa_t }.

Section s11.
Context `{Host, OgsBits, OgsConv, OgsPkbuf, NasSecurity.Crypto, KeyedHash, OgsPlmn, !OgsPlmnDigits,
          !Ogs3gpp, OgsSizes, NasCodec, OgsNextId, OgsFsmInit, OgsPaa} (self : mme_context_t).

Definition commit (xact : Z) : M ue_t () := emit (CommitTransaction xact).
Definition host_teid (f : GtpConv.ogs_gtp_f_teid_t) : Z := ntohl (GtpConv.teid f).
Definition with_paa (a : paa_t) (d : pdn_t) : pdn_t :=
  {| apn := apn d; pdn_context_identifier := pdn_context_identifier d;
     pdn_pdn_type := pdn_pdn_type d; pdn_qos := pdn_qos d; ambr_downlink := ambr_downlink d;
     ambr_uplink := ambr_uplink d; paa := a |}.

(** The end of an attach, or of the activation of another PDN. *)
Definition session_created (i : Z) : M ue_t () :=
  u ← get;
  match sm u with
  | emm_state_initial_context_setup =>
      let csmap := mme_csmap_find_by_tai self (tai u) in
      modify (set_csmap csmap);;
      match csmap with
      | Some _ => emit (Sgsap LocationUpdateRequest)
      | None => modify (on_t3450 timer_cleared);; nas_send_attach_accept self
      end
  | emm_state_registered => nas_send_activate_default_bearer_context_request i
  | _ => mabort
  end.

Definition mme_s11_handle_create_session_response (xact : Z) (rsp : create_session_response_t)
    : M ue_t () :=
  let c := rsp_bearer rsp in
  match rsp_s11_f_teid rsp, rsp_paa rsp, bc_s1u c, bc_presence c, bc_ebi c with
  | Some s11, Some address, Some s1u, true, Some e =>
      u ← get;
      b ← assert_some (mme_bearer_find_by_ue_ebi u e);
      s ← bearer_sess (b_id b);
      p ← assert_some (pdn s);
      modify (set_sgw_s11_teid (host_teid s11));;
      d ← lift (the_pdn u p);
      a ← lift (ogs_paa_copy address (paa d));
      on_pdn (s_id s) p (with_paa a);;
      (match rsp_pco rsp with Some o => on_sess (s_id s) (set_pgw_pco o) | None => mret () end);;
      on_bearer (b_id b) (set_sgw_s1u_teid (host_teid s1u));;
      _ ← lift (GtpConv.ogs_gtp_f_teid_to_ip s1u);
      commit xact;;
      session_created (b_id b)
  | _, _, _, _, _ => mret ()
  end.

(** ** Delete session response *)
Definition CLEAR_SESSION_CONTEXT : M ue_t () :=
  modify (λ u, set_will_deleted false (set_sgw_s11_teid 0 u)).
Definition release_ue_context : M ue_t () :=
  u ← get;
  match enb_ue u with
  | Some _ =>
      CLEAR_ENB_UE_TIMER;;
      s1ap_send_ue_context_release_command S1AP_CauseNas_normal_release
        S1AP_UE_CTX_REL_UE_CONTEXT_REMOVE
  | None => mret ()
  end.
Definition when (b : bool) (m : M ue_t ()) : M ue_t () := if b then m else mret ().

(** The branches on the EMM state; the result is false for the early return
    of a PDN that will disconnect. *)
Definition session_deleted (sess : Z) : M ue_t bool :=
  u ← get;
  let last := (mme_sess_count u =? 1)%nat in
  match sm u with
  | emm_state_authentication => when last (mme_s6a_send_air None);; mret true
  | emm_state_de_registered => when last nas_send_detach_accept;; mret true
  | emm_state_registered =>
      s ← the_sess sess;
      b ← assert_some (mme_default_bearer_in_sess s);
      match b_sm b with
      | esm_state_pdn_will_disconnect =>
          nas_send_deactivate_bearer_context_request (b_id b);;
          on_bearer (b_id b) (set_sgw_s1u_teid 0);;
          mret false
      | esm_state_active | esm_state_inactive => when last release_ue_context;; mret true
      | _ => mabort
      end
  | emm_state_initial_context_setup | emm_state_exception =>
      when last release_ue_context;; mret true
  | _ => mabort
  end.
(** [sess]: the session stored in the transaction; [cause]: its presence. *)
Definition mme_s11_handle_delete_session_response (xact : Z) (sess : option Z) (cause : bool)
    : M ue_t () :=
  sess ← assert_some sess;
  go_on ← (if cause then commit xact;; session_deleted sess else mret true);
  if (go_on : bool) then
    u ← get;
    when (mme_sess_count u =? 1)%nat CLEAR_SESSION_CONTEXT;;
    mme_sess_remove sess
  else mret ().

(** ** Requests of the SGW *)
Definition parse_bearer_qos (o : GtpTypes.ogs_tlv_octet_t) : outcome qos_t :=
  '(q, n) ← GtpTypes.BearerQos.ogs_gtp_parse_bearer_qos o;
  ogs_assert (n =? GtpTypes.len o);;
  Ok {| qci := GtpTypes.BearerQos.qci q;
        mbr_downlink := GtpTypes.BearerQos.dl_mbr q; mbr_uplink := GtpTypes.BearerQos.ul_mbr q;
        gbr_downlink := GtpTypes.BearerQos.dl_gbr q; gbr_uplink := GtpTypes.BearerQos.ul_gbr q |}.

(** Activated by the UE, and connected to the eNB. *)
Definition bearer_ready (b : mme_bearer_t) : bool :=
  bool_decide (b_sm b = esm_state_active) && negb (enb_s1u_teid b =? 0).

Definition mme_s11_handle_create_bearer_request (o : option mme_bearer_t) (xact : Z)
    (req : create_bearer_request_t) : M ue_t () :=
  let c := cb_bearer req in
  match cb_linked_ebi req, bc_presence c, bc_ebi c, bc_s1u c, bc_qos c, bc_tft c with
  | Some linked, true, Some _, Some s1u, Some q, Some t =>
      u ← get;
      s ← assert_some (mme_sess_find_by_ebi u linked);
      i ← mme_bearer_add o (s_id s);
      on_bearer i (set_sgw_s1u_teid (host_teid s1u));;
      _ ← lift (GtpConv.ogs_gtp_f_teid_to_ip s1u);
      q ← lift (parse_bearer_qos q);
      on_bearer i (with_qos q);;
      on_bearer i (set_tft t);;
      on_bearer i (set_b_xact (Some xact));;
      s ← the_sess (s_id s);
      d ← assert_some (mme_default_bearer_in_sess s);
      when (bearer_ready d) (nas_send_activate_dedicated_bearer_context_request i)
  | _, _, _, _, _, _ => mret ()
  end.

Definition presence {A} (o : option A) : Z := match o with Some _ => 1 | None => 0 end.
Definition mme_s11_handle_update_bearer_request (xact : Z) (c : bearer_context_t) : M ue_t () :=
  match bc_presence c, bc_ebi c with
  | true, Some e =>
      u ← get;
      b ← assert_some (mme_bearer_find_by_ue_ebi u e);
      on_bearer (b_id b) (set_b_xact (Some xact));;
      massert (bearer_ready b);;
      (match bc_qos c with
       | Some q => q ← lift (parse_bearer_qos q); on_bearer (b_id b) (with_qos q)
       | None => mret ()
       end);;
      (match bc_tft c with Some t => on_bearer (b_id b) (set_tft t) | None => mret () end);;
      if (presence (bc_qos c) =? 1) || (presence (bc_tft c) =? 1)
      then nas_send_modify_bearer_context_request (b_id b) (presence (bc_qos c)) (presence (bc_tft c))
      else mme_gtp_send_update_bearer_response (b_id b)
  | _, _ => mret ()
  end.

Definition mme_s11_handle_delete_bearer_request (xact : Z) (req : delete_bearer_request_t)
    : M ue_t () :=
  match (match db_linked_ebi req with Some e => Some e | None => db_ebi req end) with
  | Some e =>
      u ← get;
      b ← assert_some (mme_bearer_find_by_ue_ebi u e);
      on_bearer (b_id b) (set_b_xact (Some xact));;
      massert (bearer_ready b);;
      nas_send_deactivate_bearer_context_request (b_id b)
  | None => mret ()
  end.

(** ** Idle mode *)
Definition mme_s11_handle_release_access_bearers_response (xact : Z) (cause : bool) : M ue_t () :=
  commit xact;;
  when cause
    (mme_bearer_set_inactive;;
     u ← get;
     match enb_ue u with
     | Some _ =>
         CLEAR_ENB_UE_TIMER;;
         s1ap_send_ue_context_release_command S1AP_CauseNas_normal_release
           S1AP_UE_CTX_REL_S1_NORMAL_RELEASE
     | None => mret ()
     end).

(** With the paging of [mme-sm.c]. *)
Definition mme_s11_handle_downlink_data_notification (xact : Z) : M ue_t () :=
  emit (DownlinkDataNotificationAck xact);;
  u ← get;
  match enb_ue u with None => s1ap_send_paging self | Some _ => mret () end.

(** ** [MME_EVT_S11_MESSAGE] after [ogs_gtp_xact_receive] *)
Inductive s11_message :=
| CreateSessionResponse (r : create_session_response_t)
| DeleteSessionResponse (sess : option Z) (cause : bool)
| CreateBearerRequest (r : create_bearer_request_t)
| UpdateBearerRequest (c : bearer_context_t)
| DeleteBearerRequest (r : delete_bearer_request_t)
| ReleaseAccessBearersResponse (cause : bool)
| DownlinkDataNotification.
(** [o]: the bearer object that the pool hands out. *)
Definition mme_s11_message (o : option mme_bearer_t) (xact : Z) (m : s11_message) : M ue_t () :=
  match m with
  | CreateSessionResponse r => mme_s11_handle_create_session_response xact r
  | DeleteSessionResponse s c => mme_s11_handle_delete_session_response xact s c
  | CreateBearerRequest r => mme_s11_handle_create_bearer_request o xact r
  | UpdateBearerRequest c => mme_s11_handle_update_bearer_request xact c
  | DeleteBearerRequest r => mme_s11_handle_delete_bearer_request xact r
  | ReleaseAccessBearersResponse c => mme_s11_handle_release_access_bearers_response xact c
  | DownlinkDataNotification => mme_s11_handle_downlink_data_notification xact
  end.
End s11.
