(* ===== verification/EsmProofs.v ===== *)
(** * Sessions and bearers: the abstract view

    What the ESM layer promises is about the sessions of a UE, their bearers
    and the states of the bearers: [view] keeps just that.  Most operations
    leave it alone ([same]); those of the EMM layer at most remove sessions
    ([shrinks]). *)
From S2P Require Import Prelude.
From S2P Require Import CMem.
From S2P Require Import OgsLib.
From S2P Require Import NasTai.
From S2P Require Import NasConv.
From S2P Require NasSecurity.
From S2P Require Import Kdf.
From S2P Require Import MmeContext.
From S2P Require Import EmmBuild.
From S2P Require Import EmmHandler.
From S2P Require Import EmmSm.
From S2P Require Import EmmProofs.
From S2P Require Import EmmSystem.
From S2P Require Import EsmBearer.
From S2P Require Import EsmSend.
From S2P Require Import EsmSm.
#[local] Open Scope Z_scope.

(** ** Sublists *)
Lemma sublist_fmap {A B} (f : A → B) l k : l `sublist_of` k → f <$> l `sublist_of` f <$> k.
Proof. induction 1; cbn; by constructor. Qed.
Lemma sublist_Forall {A} (P : A → Prop) l k : l `sublist_of` k → Forall P k → Forall P l.
Proof.
  rewrite !list.Forall_forall. intros Hl Hk x Hx. apply Hk. by eapply sublist_subseteq.
Qed.

(** ** The view *)
Record vbearer := { v_id : Z; v_ebi : Z; v_state : esm_state }.
Record vsess := { v_sess : Z; v_bearers : list vbearer }.
(** The sessions, and the EBI that was given last. *)
Record view_t := { v_counter : Z; v_sessions : list vsess }.

Definition view_bearer (b : mme_bearer_t) : vbearer :=
  {| v_id := b_id b; v_ebi := bearer_ebi b; v_state := b_sm b |}.
Definition view_sess (s : mme_sess_t) : vsess :=
  {| v_sess := s_id s; v_bearers := view_bearer <$> bearer_list s |}.
Definition v_all (a : view_t) : list vbearer := mjoin (v_bearers <$> v_sessions a).

Section view.
Context `{OgsPlmn}.
Implicit Types u : ue_t.

Definition view u : view_t := {| v_counter := ebi u; v_sessions := view_sess <$> sess_list u |}.
(** T3489 of every bearer: retransmissions within the bound, and a message to
    send again while it runs. *)
Definition t3489_ok u : Prop :=
  Forall (λ b, timer_ok MME_TIMER_T3489 (t3489 b)) (all_bearers u).

Definition same u u' : Prop := view u' = view u ∧ (t3489_ok u → t3489_ok u').
Definition shrinks u u' : Prop :=
  v_sessions (view u') `sublist_of` v_sessions (view u) ∧ (ebi u' = ebi u ∨ ebi u' = 4) ∧
  (t3489_ok u → t3489_ok u').
#[export] Instance same_preorder : PreOrder same.
Proof.
  unfold same. split; [by intros u|]. intros u v w [E1 H1] [E2 H2]. split; [congruence|auto].
Qed.
#[export] Instance shrinks_preorder : PreOrder shrinks.
Proof.
  unfold shrinks. split; [intros u; split_and!; [done|by left|auto]|].
  intros u v w (S1 & E1 & H1) (S2 & E2 & H2). split_and!.
  - by etrans.
  - destruct E2 as [E2|E2]; [|by right]. destruct E1; [left|right]; congruence.
  - auto.
Qed.
Lemma same_shrinks u u' : same u u' → shrinks u u'.
Proof.
  intros [E Ht]. split_and!; [by rewrite E|left|done].
  apply (f_equal v_counter) in E. exact E.
Qed.
Lemma keeps_same_shrinks {A} (m : M ue_t A) : keeps same m → keeps shrinks m.
Proof. intros Hm u. eapply wlp_mono; [apply Hm|]. intros a u'. apply same_shrinks. Qed.

(** ** Changes of a session or bearer *)
Lemma all_bearers_in u b :
  b ∈ all_bearers u ↔ ∃ s, s ∈ sess_list u ∧ b ∈ bearer_list s.
Proof.
  unfold all_bearers. rewrite list_elem_of_join. split.
  - intros (l & Hb & Hl). apply list_elem_of_fmap in Hl as (s & -> & Hs). by exists s.
  - intros (s & Hs & Hb). exists (bearer_list s). split; [done|]. by apply list_elem_of_fmap_2.
Qed.
Lemma t3489_sess_list u : t3489_ok u ↔
  Forall (λ s, Forall (λ b, timer_ok MME_TIMER_T3489 (t3489 b)) (bearer_list s)) (sess_list u).
Proof.
  unfold t3489_ok. rewrite !list.Forall_forall. setoid_rewrite list.Forall_forall.
  setoid_rewrite all_bearers_in. naive_solver.
Qed.

Definition keeps_view (f : mme_bearer_t → mme_bearer_t) : Prop :=
  ∀ b, view_bearer (f b) = view_bearer b.
Definition keeps_t3489 (f : mme_bearer_t → mme_bearer_t) : Prop :=
  ∀ b, timer_ok MME_TIMER_T3489 (t3489 b) → timer_ok MME_TIMER_T3489 (t3489 (f b)).

(** The bearers through a function. *)
Definition upd_bearers (g : vbearer → vbearer) (a : view_t) : view_t :=
  {| v_counter := v_counter a;
     v_sessions := (λ s, {| v_sess := v_sess s; v_bearers := g <$> v_bearers s |}) <$> v_sessions a |}.
Lemma upd_bearers_id g a : (∀ b, b ∈ v_all a → g b = b) → upd_bearers g a = a.
Proof.
  destruct a as [c l]. intros Hg. unfold upd_bearers. cbn. f_equal.
  unfold v_all in Hg. cbn in Hg.
  rewrite <- (list_fmap_id l) at 2. apply list_fmap_ext. intros k s Hs. cbn.
  destruct s as [i bs]. cbn. f_equal. rewrite <- (list_fmap_id bs) at 2. apply list_fmap_ext.
  intros j b Hb. apply Hg. apply list_elem_of_join. exists bs.
  split; [by eapply list_elem_of_lookup_2|].
  apply list_elem_of_fmap. eexists. split; [|by eapply list_elem_of_lookup_2]. done.
Qed.

Lemma view_map_bearers f g u :
  (∀ b, view_bearer (f b) = g (view_bearer b)) → view (map_bearers f u) = upd_bearers g (view u).
Proof.
  intros Hf. unfold view, upd_bearers, map_bearers. cbn. f_equal. rewrite <- !list_fmap_compose.
  apply list_fmap_ext. intros k s _. cbn. unfold view_sess. cbn. f_equal.
  rewrite <- !list_fmap_compose. apply list_fmap_ext. intros j b _. cbn. apply Hf.
Qed.
Lemma t3489_map_bearers f u : keeps_t3489 f → t3489_ok u → t3489_ok (map_bearers f u).
Proof.
  rewrite !t3489_sess_list. intros Hf Hu. unfold map_bearers. cbn. apply Forall_fmap.
  eapply list.Forall_impl; [exact Hu|]. intros s Hs. cbn. apply Forall_fmap.
  eapply list.Forall_impl; [exact Hs|]. intros b. apply Hf.
Qed.
Lemma map_bearer_map_bearers i f u :
  map_bearer i f u = map_bearers (λ b, if b_id b =? i then f b else b) u.
Proof. done. Qed.

Lemma same_map_bearers f u : keeps_view f → keeps_t3489 f → same u (map_bearers f u).
Proof.
  intros Hv Ht. split; [|by apply t3489_map_bearers].
  rewrite (view_map_bearers f id) by done. by apply upd_bearers_id.
Qed.
Lemma same_map_bearer i f u : keeps_view f → keeps_t3489 f → same u (map_bearer i f u).
Proof.
  intros Hv Ht. rewrite map_bearer_map_bearers.
  apply same_map_bearers; intros b; destruct (b_id b =? i); auto.
Qed.
Lemma same_map_sess i f u :
  (∀ s, s_id (f s) = s_id s ∧ bearer_list (f s) = bearer_list s) → same u (map_sess i f u).
Proof.
  intros Hf. assert (∀ s, view_sess (f s) = view_sess s) as Hv.
  { intros s. unfold view_sess. destruct (Hf s) as [-> ->]. done. }
  split.
  - unfold view, map_sess. cbn. f_equal. rewrite <- list_fmap_compose. apply list_fmap_ext.
    intros k s _. cbn. destruct (s_id s =? i); auto.
  - rewrite !t3489_sess_list. unfold map_sess. cbn. rewrite Forall_fmap. intros Hu.
    eapply list.Forall_impl; [exact Hu|]. intros s Hs. cbn. destruct (s_id s =? i); [|done].
    by rewrite (proj2 (Hf s)).
Qed.
End view.

Lemma keeps_view_with_qos q : keeps_view (with_qos q). Proof. done. Qed.
Lemma keeps_t3489_with_qos q : keeps_t3489 (with_qos q). Proof. intros b Hb. exact Hb. Qed.
#[export] Hint Resolve keeps_view_with_qos keeps_t3489_with_qos : keeps.

(** ** The operations of the EMM layer *)
Section emm.
Context `{Host, OgsBits, OgsPkbuf, NasSecurity.Crypto, KeyedHash, OgsPlmn, !OgsPlmnDigits,
          !Ogs3gpp, OgsSizes, NasCodec, OgsImsi, OgsTime, OgsFsm} (self : mme_context_t).

Lemma same_on_sec {A} (m : M NasSecurity.mme_ue_t A) : keeps same (on_sec m).
Proof.
  intros u a u' E. unfold on_sec in E. destruct (m (sec u)) as [[b x]| |]; try done.
  by injection E as <- <-.
Qed.
Lemma same_modify_bearer i f : keeps_view f → keeps_t3489 f → keeps same (modify (map_bearer i f)).
Proof. intros. apply keeps_modify. intros u. by apply same_map_bearer. Qed.
Lemma same_modify_sess i f :
  (∀ s, s_id (f s) = s_id s ∧ bearer_list (f s) = bearer_list s) →
  keeps same (modify (map_sess i f)).
Proof. intros. apply keeps_modify. intros u. by apply same_map_sess. Qed.
#[local] Hint Resolve same_on_sec same_modify_bearer keeps_same_shrinks : keeps.

Ltac same_tac := keeps_deep ltac:(split; [reflexivity|auto]).
Lemma same_page_matches l : keeps same (page_matches l).
Proof. induction l as [|t l IH]; cbn [page_matches]; same_tac. Qed.
#[local] Hint Resolve same_page_matches : keeps.
Lemma same_paging : keeps same (s1ap_send_paging self). Proof. same_tac. Qed.
Lemma same_security_encode sht m : keeps same (security_encode sht m). Proof. same_tac. Qed.
Lemma same_attach_accept : keeps same (nas_send_attach_accept self). Proof. same_tac. Qed.
Lemma same_attach_reject c e : keeps same (nas_send_attach_reject c e). Proof. same_tac. Qed.
Lemma same_build_reject s e : keeps same (esm_build_pdn_connectivity_reject s e). Proof. same_tac. Qed.
Lemma same_build_activate_default s :
  keeps same (esm_build_activate_default_bearer_context_request s). Proof. same_tac. Qed.
Lemma same_downlink b : keeps same (nas_send_to_downlink_nas_transport b). Proof. same_tac. Qed.
Lemma same_to_enb b : keeps same (nas_send_to_enb b). Proof. same_tac. Qed.
Lemma same_emit o : keeps same (emit o). Proof. same_tac. Qed.
Lemma same_detach_accept : keeps same nas_send_detach_accept. Proof. same_tac. Qed.
Lemma same_air a : keeps same (mme_s6a_send_air a). Proof. same_tac. Qed.
Lemma same_clear_enb_ue_timer : keeps same CLEAR_ENB_UE_TIMER. Proof. same_tac. Qed.
Lemma same_release_command c a : keeps same (s1ap_send_ue_context_release_command c a).
Proof. same_tac. Qed.

(** The one loop that removes sessions. *)
Lemma delete_sessions_sublist l u :
  wlp (delete_sessions l) u (λ l' u', sess_list u' = sess_list u ∧ same u u' ∧ l' `sublist_of` l).
Proof.
  induction l as [|s l IH] in u |- *; cbn [delete_sessions]; [by apply wlp_ret|].
  destruct (MME_HAVE_SGW_S1U_PATH s).
  - apply wlp_bind. eapply wlp_mono with (P := λ _ u', sess_list u' = sess_list u ∧ same u u').
    { unfold delete_session. destruct (bearer_list s); [by apply wlp_ret|].
      destruct (pdn_will_disconnect _); [by apply wlp_ret|by apply wlp_modify]. }
    intros _ u1 [E1 S1]. eapply wlp_call; [apply IH|]. intros l' u2 (E2 & S2 & Hl). apply wlp_ret.
    split_and!; [congruence|by etrans|by constructor].
  - eapply wlp_mono; [apply IH|]. intros l' u' (E & S & Hl). split_and!; [done|done|by constructor].
Qed.
Lemma shrinks_sess_list u u' l :
  ebi u' = ebi u → sess_list u' = l → l `sublist_of` sess_list u → shrinks u u'.
Proof.
  intros Ee <- Hl. split_and!; [by apply sublist_fmap|by left|].
  rewrite !t3489_sess_list. by apply sublist_Forall.
Qed.
Lemma shrinks_delete_all_sessions : keeps shrinks mme_gtp_send_delete_all_sessions.
Proof.
  intros u. unfold mme_gtp_send_delete_all_sessions. apply wlp_bind, wlp_get.
  destruct (session_context_will_deleted u); [by apply wlp_ret|].
  apply wlp_bind, wlp_modify. eapply wlp_call; [apply delete_sessions_sublist|].
  intros l u' (E & [Sv St] & Hl). apply wlp_modify.
  eapply shrinks_sess_list; [|done|exact Hl]. apply (f_equal v_counter) in Sv. exact Sv.
Qed.
#[local] Hint Resolve shrinks_delete_all_sessions : keeps.

Lemma shrinks_ebi_4 : keeps shrinks CLEAR_EPS_BEARER_ID.
Proof. apply keeps_modify. intros u. split_and!; [done|by right|auto]. Qed.
#[local] Hint Resolve shrinks_ebi_4 : keeps.
Lemma shrinks_page_matches l : keeps shrinks (page_matches l).
Proof. apply keeps_same_shrinks, same_page_matches. Qed.
Lemma shrinks_on_sec {A} (m : M NasSecurity.mme_ue_t A) : keeps shrinks (on_sec m).
Proof. apply keeps_same_shrinks, same_on_sec. Qed.
Lemma shrinks_modify_qos i q : keeps shrinks (modify (map_bearer i (with_qos q))).
Proof. apply keeps_same_shrinks, same_modify_bearer; auto with keeps. Qed.
#[local] Hint Resolve shrinks_page_matches shrinks_on_sec shrinks_modify_qos : keeps.

Ltac shrinks_tac := keeps_deep ltac:(apply same_shrinks; split; [reflexivity|auto]).
Lemma shrinks_handler s e : keeps shrinks (emm_state_handler self s e).
Proof. destruct s; cbn [emm_state_handler]; shrinks_tac. Qed.
Lemma shrinks_s6a m : keeps shrinks (mme_s6a_message self m).
Proof. unfold mme_s6a_message, mme_s6a_handle_aia, mme_s6a_handle_ula. shrinks_tac. Qed.
Lemma shrinks_delete_or_release : keeps shrinks mme_send_delete_session_or_ue_context_release.
Proof. shrinks_tac. Qed.

Context `{!OgsFsmLaws}.
Lemma shrinks_dispatch e : keeps shrinks (emm_dispatch self e).
Proof.
  intros u [] u' E. unfold emm_dispatch in E. rewrite fsm_dispatch_spec in E. revert u' E.
  match goal with |- ∀ u', ?m u = _ → _ =>
    enough (keeps shrinks m) as Hm by (intros u' E; exact (Hm _ _ _ E)) end.
  apply keeps_bind; [exact _|apply shrinks_handler|intros].
  apply keeps_bind; [exact _|apply keeps_get; exact _|intros].
  case_decide; [apply keeps_ret; exact _|].
  apply keeps_bind; [exact _|apply shrinks_handler|intros; apply shrinks_handler].
Qed.
#[local] Hint Resolve shrinks_dispatch : keeps.
Lemma shrinks_emm_message e : keeps shrinks (mme_emm_message self e).
Proof. unfold mme_emm_message. shrinks_tac. Qed.
End emm.

#[export] Hint Resolve same_on_sec same_paging same_security_encode same_attach_accept
  same_attach_reject same_build_reject same_build_activate_default same_downlink same_to_enb
  same_emit same_detach_accept same_air same_clear_enb_ue_timer same_release_command : keeps.
