(* ===== verification/EsmSpec.v ===== *)
(** * The ESM layer: its abstract machine

    [esm_step] says what one ESM message may do to the sessions and bearers
    of a UE: which bearer it addresses, how the state of that bearer may
    change, and what is removed afterwards.  [esm_refines] shows that
    [mme_esm_message] does nothing else. *)
From S2P Require Import Prelude.
From S2P Require Import CMem.
From S2P Require Import OgsLib.
From S2P Require Import NasTai.
From S2P Require Import NasConv.
From S2P Require NasSecurity.
From S2P Require Import Kdf.
From S2P Require Import MmeContext.
From S2P Require Import EmmBuild.
From S2P Require Import EmmHandler.
From S2P Require Import EmmSm.
From S2P Require Import EmmProofs.
From S2P Require Import EmmSystem.
From S2P Require Import EsmBearer.
From S2P Require Import EsmSend.
From S2P Require Import EsmSm.
From S2P Require Import EsmProofs.
#[local] Open Scope Z_scope.

(** ** The abstract machine *)
(** How an event may change the state of the bearer it addresses. *)
Inductive esm_may_move : esm_event → esm_state → esm_state → Prop :=
| move_activate m :
    body m = ActivateDefaultBearerContextAccept ∨ body m = ActivateDedicatedBearerContextAccept →
    esm_may_move (EsmEvtMessage m) esm_state_inactive esm_state_active
| move_reconnect m r :
    body m = PdnConnectivityRequest r →
    esm_may_move (EsmEvtMessage m) esm_state_active esm_state_inactive
| move_no_pdn m r st :
    body m = PdnConnectivityRequest r → st = esm_state_inactive ∨ st = esm_state_active →
    esm_may_move (EsmEvtMessage m) st esm_state_exception
| move_no_pdn_informed m r :
    body m = EsmInformationResponse r →
    esm_may_move (EsmEvtMessage m) esm_state_inactive esm_state_exception
| move_disconnect m e :
    body m = PdnDisconnectRequest e →
    esm_may_move (EsmEvtMessage m) esm_state_active esm_state_pdn_will_disconnect
| move_deactivated m :
    body m = DeactivateBearerContextAccept →
    esm_may_move (EsmEvtMessage m) esm_state_active esm_state_bearer_deactivated
| move_disconnected m :
    body m = DeactivateBearerContextAccept →
    esm_may_move (EsmEvtMessage m) esm_state_pdn_will_disconnect esm_state_pdn_did_disconnect
| move_timeout :
    esm_may_move (EsmEvtTimer MME_TIMER_T3489) esm_state_inactive esm_state_exception.

(** The bearers with index [i] get the state [st]. *)
Definition v_set_state (i : Z) (st : esm_state) : view_t → view_t :=
  upd_bearers (λ b, if v_id b =? i then {| v_id := v_id b; v_ebi := v_ebi b; v_state := st |} else b).
Definition v_at (a : view_t) (i : Z) : option vbearer := find_first (λ b, v_id b =? i) (v_all a).

Inductive moved (e : esm_event) (i : Z) (a : view_t) : view_t → Prop :=
| moved_not : moved e i a a
| moved_to b st :
    v_at a i = Some b → esm_may_move e (v_state b) st → moved e i a (v_set_state i st a).

(** The bearer that a message is for; a PDN connectivity request may create a
    session with a default bearer. *)
Inductive addressed `{OgsNextId} (a : view_t) (m : esm_message_t) : Z → view_t → Prop :=
| addressed_ebi b :
    eps_bearer_identity m ≠ 0 → b ∈ v_all a → v_ebi b = eps_bearer_identity m →
    addressed a m (v_id b) a
| addressed_linked b e :
    eps_bearer_identity m = 0 → body m = PdnDisconnectRequest e →
    b ∈ v_all a → v_ebi b = e → addressed a m (v_id b) a
| addressed_default s b bs :
    eps_bearer_identity m = 0 → s ∈ v_sessions a → v_bearers s = b :: bs →
    addressed a m (v_id b) a
| addressed_new r i sid :
    eps_bearer_identity m = 0 → body m = PdnConnectivityRequest r →
    let e := ogs_next_id (v_counter a) MIN_EPS_BEARER_ID MAX_EPS_BEARER_ID in
    addressed a m i
      {| v_counter := e;
         v_sessions := v_sessions a ++
           [{| v_sess := sid;
               v_bearers := [{| v_id := i; v_ebi := e; v_state := esm_state_inactive |}] |}] |}.

Definition v_remove_sess (sid : Z) (a : view_t) : view_t :=
  {| v_counter := v_counter a; v_sessions := filter (λ s, v_sess s ≠ sid) (v_sessions a) |}.
Definition v_remove_bearer (i : Z) (a : view_t) : view_t :=
  {| v_counter := v_counter a;
     v_sessions := (λ s, {| v_sess := v_sess s; v_bearers := filter (λ b, v_id b ≠ i) (v_bearers s) |})
                   <$> v_sessions a |}.
(** The bearer is in the session, and [d] is the default bearer there. *)
Definition v_default (a : view_t) (i : Z) (s : vsess) (d : vbearer) : Prop :=
  s ∈ v_sessions a ∧ (∃ b, b ∈ v_bearers s ∧ v_id b = i) ∧ head (v_bearers s) = Some d.

Inductive cleaned (i : Z) (a : view_t) : view_t → Prop :=
| cleaned_not : cleaned i a a
| cleaned_default b s d :
    v_at a i = Some b → v_state b = esm_state_bearer_deactivated →
    v_default a i s d → v_ebi d = v_ebi b → cleaned i a (v_remove_sess (v_sess s) a)
| cleaned_dedicated b s d :
    v_at a i = Some b → v_state b = esm_state_bearer_deactivated →
    v_default a i s d → v_ebi d ≠ v_ebi b → cleaned i a (v_remove_bearer i a)
| cleaned_disconnected b s d :
    v_at a i = Some b → v_state b = esm_state_pdn_did_disconnect →
    v_default a i s d → v_ebi d = v_ebi b → cleaned i a (v_remove_sess (v_sess s) a)
| cleaned_exception b a' :
    v_at a i = Some b → v_state b = esm_state_exception →
    v_counter a' = v_counter a → v_sessions a' `sublist_of` v_sessions a → cleaned i a a'.

Inductive esm_step `{OgsNextId} (a : view_t) (m : esm_message_t) : view_t → Prop :=
| step_unaddressed :
    eps_bearer_identity m = 0 → procedure_transaction_identity m = 0 → esm_step a m a
| step_addressed i a1 a2 a3 :
    addressed a m i a1 → moved (EsmEvtMessage m) i a1 a2 → cleaned i a2 a3 → esm_step a m a3.

(** The views that occur: distinct objects, no session without a bearer, EBIs
    of the right range, no machine before its initialisation. *)
Definition vbearer_ok (b : vbearer) : Prop :=
  MIN_EPS_BEARER_ID <= v_ebi b <= MAX_EPS_BEARER_ID ∧
  v_state b ≠ esm_state_initial ∧ v_state b ≠ esm_state_final.
Definition view_ok (a : view_t) : Prop :=
  NoDup (v_sess <$> v_sessions a) ∧ NoDup (v_id <$> v_all a) ∧
  Forall (λ s, v_bearers s ≠ []) (v_sessions a) ∧ Forall vbearer_ok (v_all a) ∧
  MIN_EPS_BEARER_ID - 1 <= v_counter a <= MAX_EPS_BEARER_ID.

(** ** Look-ups in the view *)
Lemma find_first_some {A} (f : A → bool) l x :
  find_first f l = Some x → x ∈ l ∧ f x = true.
Proof.
  unfold find_first. intros Hx. assert (x ∈ filter (λ x, f x = true) l) as Hin.
  { destruct (filter _ l) as [|y k]; [done|]. injection Hx as ->. by left. }
  by apply list_elem_of_filter in Hin as [? ?].
Qed.
Lemma find_first_fmap {A B} (g : A → B) (f : B → bool) l :
  find_first f (g <$> l) = g <$> find_first (λ x, f (g x)) l.
Proof.
  unfold find_first. induction l as [|x l IH]; [done|].
  rewrite fmap_cons, !filter_cons. by repeat case_decide.
Qed.
Lemma find_first_in {A} (f : A → bool) l x : x ∈ l → f x = true → is_Some (find_first f l).
Proof.
  intros Hx Hf. unfold find_first. assert (x ∈ filter (λ x, f x = true) l) as Hin
    by by apply list_elem_of_filter.
  destruct (filter _ l); [by apply not_elem_of_nil in Hin|by eexists].
Qed.
Lemma find_first_ext {A} (f g : A → bool) l : (∀ x, f x = g x) → find_first f l = find_first g l.
Proof.
  intros Hfg. unfold find_first. f_equal. apply list_filter_iff. intros x. by rewrite Hfg.
Qed.

Section refine.
Context `{OgsPlmn}.
Implicit Types u : ue_t.

Lemma view_all u : v_all (view u) = view_bearer <$> all_bearers u.
Proof.
  unfold v_all, all_bearers, view. cbn [v_sessions].
  induction (sess_list u) as [|s l IH]; [done|].
  rewrite !fmap_cons.
  change (v_bearers (view_sess s) ++ mjoin (v_bearers <$> (view_sess <$> l)) =
    view_bearer <$> (bearer_list s ++ mjoin (bearer_list <$> l))).
  by rewrite fmap_app, IH.
Qed.
Lemma view_at u i : v_at (view u) i = view_bearer <$> bearer_at u i.
Proof. unfold v_at. by rewrite view_all, find_first_fmap. Qed.
Lemma view_in u b : b ∈ all_bearers u → view_bearer b ∈ v_all (view u).
Proof. rewrite view_all. apply list_elem_of_fmap_2. Qed.

Lemma bearer_in_sessions_in l e b :
  bearer_in_sessions l e = Some b → b ∈ mjoin (bearer_list <$> l) ∧ bearer_ebi b = e.
Proof.
  induction l as [|s l IH]; [done|]. cbn. unfold mme_bearer_find_by_sess_ebi.
  destruct (find_first _ _) as [b'|] eqn:Ef.
  - intros [= ->]. apply find_first_some in Ef as [Hin He]. apply Z.eqb_eq in He.
    split; [apply elem_of_app; by left|done].
  - intros Hb. destruct (IH Hb). split; [apply elem_of_app; by right|done].
Qed.
Lemma find_by_ue_ebi_in u e b :
  mme_bearer_find_by_ue_ebi u e = Some b → b ∈ all_bearers u ∧ bearer_ebi b = e.
Proof. apply bearer_in_sessions_in. Qed.

Lemma wlp_the_sess i u (Q : mme_sess_t → ue_t → Prop) :
  (∀ s, sess_at u i = Some s → Q s u) → wlp (the_sess i) u Q.
Proof.
  intros HQ. unfold the_sess. apply wlp_bind, wlp_get, wlp_lift. intros s Hs.
  apply HQ. by apply access_ok.
Qed.
Lemma wlp_the_bearer i u (Q : mme_bearer_t → ue_t → Prop) :
  (∀ b, bearer_at u i = Some b → Q b u) → wlp (the_bearer i) u Q.
Proof.
  intros HQ. unfold the_bearer. apply wlp_bind, wlp_get, wlp_lift. intros s Hs.
  apply HQ. by apply access_ok.
Qed.
Lemma wlp_bearer_sess i u (Q : mme_sess_t → ue_t → Prop) :
  (∀ s, sess_of u i = Some s → Q s u) → wlp (bearer_sess i) u Q.
Proof.
  intros HQ. unfold bearer_sess. apply wlp_bind, wlp_get, wlp_lift. intros s Hs.
  apply HQ. by apply access_ok.
Qed.
Lemma keeps_the_sess (R : ue_t → ue_t → Prop) `{!PreOrder R} i : keeps R (the_sess i).
Proof. intros u. apply wlp_the_sess. intros. reflexivity. Qed.
Lemma keeps_the_bearer (R : ue_t → ue_t → Prop) `{!PreOrder R} i : keeps R (the_bearer i).
Proof. intros u. apply wlp_the_bearer. intros. reflexivity. Qed.
Lemma keeps_bearer_sess (R : ue_t → ue_t → Prop) `{!PreOrder R} i : keeps R (bearer_sess i).
Proof. intros u. apply wlp_bearer_sess. intros. reflexivity. Qed.
Lemma same_the_sess i : keeps same (the_sess i). Proof. apply keeps_the_sess, _. Qed.
Lemma same_the_bearer i : keeps same (the_bearer i). Proof. apply keeps_the_bearer, _. Qed.
Lemma same_bearer_sess i : keeps same (bearer_sess i). Proof. apply keeps_bearer_sess, _. Qed.

Lemma same_on_sess i f :
  (∀ s, s_id (f s) = s_id s ∧ bearer_list (f s) = bearer_list s) → keeps same (on_sess i f).
Proof.
  intros Hf. apply keeps_bind; [exact _|apply same_the_sess|]. intros _. by apply same_modify_sess.
Qed.
Lemma same_on_bearer i f : keeps_view f → keeps_t3489 f → keeps same (on_bearer i f).
Proof.
  intros. apply keeps_bind; [exact _|apply same_the_bearer|]. intros _. by apply same_modify_bearer.
Qed.
End refine.

#[export] Hint Resolve same_the_sess same_the_bearer same_bearer_sess : keeps.

Section handlers.
Context `{Host, OgsBits, OgsPkbuf, NasSecurity.Crypto, KeyedHash, OgsPlmn, !OgsPlmnDigits,
          !Ogs3gpp, OgsSizes, NasCodec, OgsNextId, OgsFsmInit, OgsFsm} (self : mme_context_t).
Implicit Types u : ue_t.

Lemma same_timer_start i m : keeps same (on_bearer i (λ b, set_t3489 (timer_start m (t3489 b)) b)).
Proof. apply same_on_bearer; [done|]. intros b. apply timer_ok_start. Qed.
Lemma same_clear_t3489 i : keeps same (CLEAR_T3489 i).
Proof. apply same_on_bearer; [done|]. intros b _. apply timer_ok_cleared. Qed.
#[local] Hint Resolve same_timer_start same_clear_t3489 : keeps.
#[local] Hint Extern 1 (keeps same (on_sess _ _)) => apply same_on_sess; done : keeps.

Ltac same_tac := keeps_deep ltac:(split; [reflexivity|auto]).
Lemma same_pdn_connectivity_reject s c : keeps same (nas_send_pdn_connectivity_reject s c).
Proof. same_tac. Qed.
Lemma same_information_request i : keeps same (nas_send_esm_information_request i).
Proof. same_tac. Qed.
Lemma same_activate_dedicated i : keeps same (nas_send_activate_dedicated_bearer_context_request i).
Proof. same_tac. Qed.
#[local] Hint Resolve same_pdn_connectivity_reject same_information_request
  same_activate_dedicated : keeps.
Lemma same_activate_each l : keeps same (activate_each l).
Proof. induction l as [|b l IH]; cbn [activate_each]; same_tac. Qed.
#[local] Hint Resolve same_activate_each : keeps.
Lemma same_activate_all i : keeps same (nas_send_activate_all_dedicated_bearers i).
Proof. same_tac. Qed.
Lemma same_activate_default i : keeps same (nas_send_activate_default_bearer_context_request i).
Proof. same_tac. Qed.
Lemma same_modify_request i q t : keeps same (nas_send_modify_bearer_context_request i q t).
Proof. same_tac. Qed.
Lemma same_deactivate_request i : keeps same (nas_send_deactivate_bearer_context_request i).
Proof. same_tac. Qed.
Lemma same_create_session_request s : keeps same (mme_gtp_send_create_session_request s).
Proof. same_tac. Qed.
#[local] Hint Resolve same_activate_all same_activate_default same_modify_request
  same_deactivate_request same_create_session_request : keeps.
Lemma same_handle_pdn_connectivity_request i r :
  keeps same (esm_handle_pdn_connectivity_request i r).
Proof. same_tac. Qed.
Lemma same_handle_information_response s r :
  keeps same (esm_handle_information_response self s r).
Proof. same_tac. Qed.
End handlers.

#[export] Hint Resolve same_clear_t3489 same_pdn_connectivity_reject same_information_request
  same_activate_dedicated same_activate_all same_activate_default same_modify_request
  same_deactivate_request same_create_session_request same_handle_pdn_connectivity_request
  same_handle_information_response : keeps.

(** ** The state functions *)
Lemma NoDup_fmap_eq {A B} (f : A → B) l x y :
  NoDup (f <$> l) → x ∈ l → y ∈ l → f x = f y → x = y.
Proof.
  induction l as [|z l IH]; [intros _ Hx; by apply not_elem_of_nil in Hx|].
  rewrite fmap_cons, list.NoDup_cons, !elem_of_cons. intros [Hz Hl] [->|Hx] [->|Hy] E; auto.
  - destruct Hz. rewrite E. by apply list_elem_of_fmap_2.
  - destruct Hz. rewrite <- E. by apply list_elem_of_fmap_2.
Qed.

Section moves.
Context `{Host, OgsBits, OgsPkbuf, NasSecurity.Crypto, KeyedHash, OgsPlmn, !OgsPlmnDigits,
          !Ogs3gpp, OgsSizes, NasCodec, OgsNextId, OgsFsmInit, OgsFsm} (self : mme_context_t).
Implicit Types u : ue_t.

Definition moves (e : esm_event) (i : Z) u u' : Prop :=
  moved e i (view u) (view u') ∧ (t3489_ok u → t3489_ok u').

Lemma moves_same e i u u' : same u u' → moves e i u u'.
Proof. intros [E Ht]. split; [rewrite E; constructor|done]. Qed.
Lemma moves_trans_l e i u v w : same u v → moves e i v w → moves e i u w.
Proof. intros [E Ht] [Hm Ht']. split; [by rewrite E in Hm|auto]. Qed.
Lemma moves_trans_r e i u v w : moves e i u v → same v w → moves e i u w.
Proof. intros [Hm Ht] [E Ht']. split; [by rewrite E|auto]. Qed.

Lemma wlp_moves_same {A} (m : M ue_t A) e i u :
  keeps same m → wlp m u (λ _ u', moves e i u u').
Proof. intros Hm. eapply wlp_mono; [apply Hm|]. intros a u'. apply moves_same. Qed.
(** A prefix that keeps the view. *)
Lemma wlp_moves_bind {A B} (m : M ue_t A) (f : A → M ue_t B) e i u :
  keeps same m → (∀ a u1, same u u1 → wlp (f a) u1 (λ _ u', moves e i u1 u')) →
  wlp (m ≫= f) u (λ _ u', moves e i u u').
Proof.
  intros Hm Hf. eapply wlp_call; [apply Hm|]. intros a u1 Hs.
  eapply wlp_mono; [by apply Hf|]. intros b u' Hu. exact (moves_trans_l _ _ _ _ _ Hs Hu).
Qed.

Definition at_state u i (st : esm_state) : Prop := ∃ b, v_at (view u) i = Some b ∧ v_state b = st.
Lemma at_state_same u u' i st : same u u' → at_state u i st → at_state u' i st.
Proof. intros [E _] (b & Hb & Hs). exists b. by rewrite E. Qed.

(** The state of the bearer after steps that keep the view. *)
Ltac at_state_tac := repeat (eapply at_state_same; [eassumption|]); eassumption.

Lemma view_set_b_sm i st u : view (map_bearer i (set_b_sm st) u) = v_set_state i st (view u).
Proof.
  rewrite map_bearer_map_bearers. apply view_map_bearers. intros b.
  change (v_id (view_bearer b)) with (b_id b). by destruct (b_id b =? i).
Qed.
Lemma t3489_set_b_sm i st u : t3489_ok u → t3489_ok (map_bearer i (set_b_sm st) u).
Proof.
  rewrite map_bearer_map_bearers. apply t3489_map_bearers. intros b. by destruct (b_id b =? i).
Qed.
Lemma tran_moves e i u s0 st :
  at_state u i s0 → esm_may_move e s0 st → wlp (esm_tran i st) u (λ _ u', moves e i u u').
Proof.
  intros (b & Hb & <-) Hm. apply wlp_bind, wlp_the_bearer. intros _ _. apply wlp_modify. split.
  - rewrite view_set_b_sm. by eapply moved_to.
  - apply t3489_set_b_sm.
Qed.
Lemma wlp_or_esm_exception e i (m : M ue_t rv_t) k u s0 :
  keeps same m → at_state u i s0 → esm_may_move e s0 esm_state_exception →
  (∀ u1, same u u1 → wlp k u1 (λ _ u', moves e i u1 u')) →
  wlp (or_esm_exception i m k) u (λ _ u', moves e i u u').
Proof.
  intros Hm Hs He Hk. apply wlp_moves_bind; [done|]. intros [|] u1 Hu; [by apply Hk|].
  eapply tran_moves; [|done]. at_state_tac.
Qed.

(** A retransmission of T3489 below the maximum. *)
Lemma bearer_unique u i b b' :
  NoDup (v_id <$> v_all (view u)) → bearer_at u i = Some b → b' ∈ all_bearers u → b_id b' = i →
  b' = b.
Proof.
  intros Hd Hb Hb' Hi. apply find_first_some in Hb as [Hin Hid]. apply Z.eqb_eq in Hid.
  rewrite view_all, <- list_fmap_compose in Hd.
  eapply (NoDup_fmap_eq (v_id ∘ view_bearer)); [exact Hd|done..|]. cbn. congruence.
Qed.
Lemma t3489_retry u i b :
  NoDup (v_id <$> v_all (view u)) → bearer_at u i = Some b →
  t_retry_count (t3489 b) < mme_timer_max_count MME_TIMER_T3489 → t3489_ok u →
  t3489_ok (map_bearer i (λ b, set_t3489 (timer_retry (t3489 b)) b) u).
Proof.
  intros Hd Hb Hr Hu. rewrite map_bearer_map_bearers. unfold t3489_ok in *.
  rewrite list.Forall_forall in *. intros b' Hb'.
  apply all_bearers_in in Hb' as (s & Hs & Hb').
  unfold map_bearers in Hs. cbn in Hs. apply list_elem_of_fmap in Hs as (s0 & -> & Hs).
  cbn in Hb'. apply list_elem_of_fmap in Hb' as (b0 & -> & Hb0).
  assert (b0 ∈ all_bearers u) as Hin by (apply all_bearers_in; by exists s0).
  destruct (Z.eqb_spec (b_id b0) i) as [Hi|Hi]; [|by apply Hu].
  rewrite (bearer_unique u i b b0) by done. apply timer_ok_retry; [|done].
  apply find_first_some in Hb as [Hin' _]. by apply Hu.
Qed.

Lemma inactive_moves i e u :
  NoDup (v_id <$> v_all (view u)) → at_state u i esm_state_inactive →
  wlp (esm_inactive self i e) u (λ _ u', moves e i u u').
Proof.
  intros Hd Hs. unfold esm_inactive. apply wlp_bind, wlp_bearer_sess. intros s _.
  apply wlp_bind, wlp_the_bearer. intros b Hb.
  destruct e as [m|[]]; try (by apply wlp_ret, moves_same); [destruct (body m) eqn:Em|].
  all: try (by apply wlp_ret, moves_same).
  - eapply wlp_or_esm_exception; [auto with keeps|exact Hs|eapply move_no_pdn; [exact Em|by left]|].
    intros u1 _. by apply wlp_ret, moves_same.
  - apply wlp_moves_bind; [auto with keeps|]. intros _ u1 Hu1.
    eapply wlp_or_esm_exception; [auto with keeps|at_state_tac|by eapply move_no_pdn_informed|].
    intros u2 _. by apply wlp_ret, moves_same.
  - apply wlp_moves_bind; [unfold mme_gtp_send_modify_bearer_request; keeps_tac|]. intros _ u1 Hu1.
    apply wlp_moves_bind; [auto with keeps|]. intros _ u2 Hu2.
    eapply tran_moves; [at_state_tac|by apply move_activate; left].
  - apply wlp_moves_bind; [unfold mme_gtp_send_create_bearer_response, bearer_xact; keeps_tac|].
    intros _ u1 Hu1.
    eapply tran_moves; [at_state_tac|by apply move_activate; right].
  - destruct (Z.leb_spec (mme_timer_max_count MME_TIMER_T3489) (t_retry_count (t3489 b))) as [|Hr].
    + eapply wlp_call; [by eapply tran_moves, move_timeout|]. intros x u1 Hu1.
      eapply wlp_mono; [apply same_pdn_connectivity_reject|]. intros a u2 Hu2. exact (moves_trans_r _ _ _ _ _ Hu1 Hu2).
    + apply wlp_bind. apply wlp_bind, wlp_the_bearer. intros b' Hb'. apply wlp_modify.
      eapply wlp_mono; [apply same_information_request|]. intros _ u' [Ev Ht]. split.
      * rewrite Ev, map_bearer_map_bearers, (view_map_bearers _ id).
        2: intros b0; by destruct (b_id b0 =? i).
        rewrite upd_bearers_id by done. constructor.
      * intros Hu. apply Ht. exact (t3489_retry u i b Hd Hb Hr Hu).
Qed.

Lemma active_moves i e u :
  at_state u i esm_state_active → wlp (esm_active i e) u (λ _ u', moves e i u u').
Proof.
  intros Hs. unfold esm_active. apply wlp_bind, wlp_bearer_sess. intros s _.
  destruct e as [m|]; [|by apply wlp_ret, moves_same]. destruct (body m) eqn:Em.
  all: try (by apply wlp_ret, moves_same).
  - eapply wlp_or_esm_exception; [auto with keeps|exact Hs|eapply move_no_pdn; [exact Em|by right]|].
    intros u1 Hu1. eapply tran_moves; [at_state_tac|by eapply move_reconnect].
  - apply wlp_moves_bind; [unfold mme_gtp_send_delete_session_request; keeps_tac|].
    intros _ u1 Hu1. eapply tran_moves; [at_state_tac|by eapply move_disconnect].
  - apply wlp_moves_same. unfold mme_gtp_send_update_bearer_response, bearer_xact. keeps_tac.
  - apply wlp_moves_bind; [unfold mme_gtp_send_delete_bearer_response, bearer_xact; keeps_tac|].
    intros _ u1 Hu1. eapply tran_moves; [at_state_tac|by eapply move_deactivated].
Qed.

Lemma will_disconnect_moves i e u :
  at_state u i esm_state_pdn_will_disconnect →
  wlp (pdn_will_disconnect_state i e) u (λ _ u', moves e i u u').
Proof.
  intros Hs. unfold pdn_will_disconnect_state. apply wlp_bind, wlp_bearer_sess. intros s _.
  destruct e as [m|]; [|by apply wlp_ret, moves_same]. destruct (body m) eqn:Em.
  all: try (by apply wlp_ret, moves_same).
  eapply tran_moves; [exact Hs|by apply move_disconnected].
Qed.

(** Entry and exit signals clear timers at most. *)
Lemma same_signal i st (e : fsm_signal esm_event) :
  st ≠ esm_state_initial → keeps same (on_bearer i (esm_signal st e)).
Proof.
  intros Hst. apply same_on_bearer.
  - intros b. by destruct st, e.
  - intros b Hb. by destruct st, e; [done..| | | | | | | |]; try done; apply timer_ok_cleared.
Qed.
End moves.

(** ** Well-formed views *)
Lemma v_all_upd g a : v_all (upd_bearers g a) = g <$> v_all a.
Proof.
  unfold v_all, upd_bearers. cbn [v_sessions]. induction (v_sessions a) as [|s l IH]; [done|].
  rewrite !fmap_cons.
  change ((g <$> v_bearers s) ++ mjoin (v_bearers <$>
    ((λ s, {| v_sess := v_sess s; v_bearers := g <$> v_bearers s |}) <$> l)) =
    g <$> (v_bearers s ++ mjoin (v_bearers <$> l))).
  by rewrite fmap_app, IH.
Qed.
Definition set_state_of (i : Z) (st : esm_state) (b : vbearer) : vbearer :=
  if v_id b =? i then {| v_id := v_id b; v_ebi := v_ebi b; v_state := st |} else b.
Lemma v_set_state_eq i st a : v_set_state i st a = upd_bearers (set_state_of i st) a.
Proof. done. Qed.
Lemma set_state_of_id i st b : v_id (set_state_of i st b) = v_id b.
Proof. unfold set_state_of. by destruct (_ =? _). Qed.
Lemma set_state_of_ebi i st b : v_ebi (set_state_of i st b) = v_ebi b.
Proof. unfold set_state_of. by destruct (_ =? _). Qed.
Lemma v_at_set_state i st a b :
  v_at a i = Some b →
  v_at (v_set_state i st a) i = Some {| v_id := v_id b; v_ebi := v_ebi b; v_state := st |}.
Proof.
  intros Hb. unfold v_at. rewrite v_set_state_eq, v_all_upd, find_first_fmap.
  rewrite (find_first_ext _ (λ b, v_id b =? i)) by (intros x; by rewrite set_state_of_id).
  unfold v_at in Hb. rewrite Hb. cbn. apply find_first_some in Hb as [_ Hi].
  unfold set_state_of. by rewrite Hi.
Qed.

Lemma view_ok_upd g a :
  (∀ b, v_id (g b) = v_id b) → (∀ b, vbearer_ok b → vbearer_ok (g b)) →
  view_ok a → view_ok (upd_bearers g a).
Proof.
  intros Hid Hok (Hs & Hb & Hne & Hall & Hc). unfold view_ok. rewrite v_all_upd.
  split_and!; [| | | |apply Hc|apply Hc].
  - unfold upd_bearers. cbn. by rewrite <- list_fmap_compose.
  - rewrite <- list_fmap_compose. erewrite list_fmap_ext; [exact Hb|]. intros k b _. apply Hid.
  - unfold upd_bearers. cbn. apply Forall_fmap. eapply list.Forall_impl; [exact Hne|].
    intros [sid [|b l]]; done.
  - apply Forall_fmap. by eapply list.Forall_impl; [exact Hall|].
Qed.

Lemma move_target e st st' :
  esm_may_move e st st' → st' ≠ esm_state_initial ∧ st' ≠ esm_state_final.
Proof. by destruct 1. Qed.
Lemma moved_ok e i a a' : moved e i a a' → view_ok a → view_ok a'.
Proof.
  intros [|b st Hb Hm]; [done|]. apply view_ok_upd; intros b'.
  - apply set_state_of_id.
  - intros (He & Hi & Hf). change (vbearer_ok (set_state_of i st b')).
    apply move_target in Hm as [Hm1 Hm2]. unfold vbearer_ok. rewrite set_state_of_ebi.
    split; [done|]. unfold set_state_of. by destruct (_ =? _).
Qed.
Lemma moved_at e i a a' b :
  moved e i a a' → v_at a i = Some b → view_ok a →
  ∃ b', v_at a' i = Some b' ∧ v_state b' ≠ esm_state_initial.
Proof.
  intros [|b0 st Hb0 Hm] Hb Ha.
  - exists b. split; [done|]. destruct Ha as (_ & _ & _ & Hall & _).
    rewrite list.Forall_forall in Hall. apply find_first_some in Hb as [Hin _].
    by apply (Hall _ Hin).
  - eexists. split; [by apply v_at_set_state|]. by apply move_target in Hm as [??].
Qed.

Lemma v_all_app a l : v_all {| v_counter := v_counter a; v_sessions := v_sessions a ++ l |} =
  v_all a ++ mjoin (v_bearers <$> l).
Proof. unfold v_all. cbn. by rewrite fmap_app, join_app. Qed.

(** A session with one new bearer. *)
Lemma view_ok_new a e i sid :
  view_ok a → i ∉ v_id <$> v_all a → sid ∉ v_sess <$> v_sessions a →
  MIN_EPS_BEARER_ID <= e <= MAX_EPS_BEARER_ID →
  view_ok {| v_counter := e; v_sessions := v_sessions a ++
    [{| v_sess := sid; v_bearers := [{| v_id := i; v_ebi := e; v_state := esm_state_inactive |}] |}] |}.
Proof.
  intros (Hs & Hb & Hne & Hall & Hc) Hi Hsid He. unfold view_ok.
  match goal with |- context [v_all ?x] => change (v_all x) with (v_all
    {| v_counter := v_counter a; v_sessions := v_sessions x |}) end.
  cbn [v_sessions v_counter]. rewrite v_all_app, !fmap_app. cbn.
  split_and!; [| | | |unfold MIN_EPS_BEARER_ID in *; lia|lia].
  - apply list.NoDup_app. split_and!; [done| |by apply NoDup_singleton].
    intros x Hx ->%list_elem_of_singleton. done.
  - apply list.NoDup_app. split_and!; [done| |by apply NoDup_singleton].
    intros x Hx ->%list_elem_of_singleton. done.
  - apply list.Forall_app. split; [done|]. by apply Forall_singleton.
  - apply list.Forall_app. split; [done|]. by apply Forall_singleton.
Qed.

Lemma v_all_remove_sess sid a : v_all (v_remove_sess sid a) `sublist_of` v_all a.
Proof.
  unfold v_all, v_remove_sess. cbn [v_sessions]. induction (v_sessions a) as [|s l IH]; [done|].
  rewrite filter_cons. change (mjoin (v_bearers <$> (s :: l))) with
    (v_bearers s ++ mjoin (v_bearers <$> l)). case_decide.
  - apply sublist_app; [done|exact IH].
  - by apply sublist_inserts_l.
Qed.
Lemma v_all_sublist a a' :
  v_sessions a' `sublist_of` v_sessions a → v_all a' `sublist_of` v_all a.
Proof.
  unfold v_all. induction 1 as [|s l k _ IH|s l k _ IH]; [done| |].
  - by apply sublist_app.
  - by apply sublist_inserts_l.
Qed.
Lemma view_ok_sublist a a' :
  v_sessions a' `sublist_of` v_sessions a → v_counter a' = v_counter a ∨ v_counter a' = 4 →
  view_ok a → view_ok a'.
Proof.
  intros Hl Hc (Hs & Hb & Hne & Hall & Hr). pose proof (v_all_sublist _ _ Hl) as Hl'.
  split_and!; [| | | |destruct Hc as [-> | ->]; [apply Hr|done]..].
  - eapply sublist_NoDup; [|by apply sublist_fmap]; done.
  - eapply sublist_NoDup; [|by apply sublist_fmap]; done.
  - by eapply sublist_Forall.
  - by eapply sublist_Forall.
Qed.
Lemma remove_sess_sublist sid a : v_sessions (v_remove_sess sid a) `sublist_of` v_sessions a.
Proof. apply sublist_filter. Qed.

Lemma v_all_in a b : b ∈ v_all a ↔ ∃ s, s ∈ v_sessions a ∧ b ∈ v_bearers s.
Proof.
  unfold v_all. rewrite list_elem_of_join. split.
  - intros (l & Hb & (s & -> & Hs)%list_elem_of_fmap). by exists s.
  - intros (s & Hs & Hb). exists (v_bearers s). split; [done|]. by apply list_elem_of_fmap_2.
Qed.
(** An index is in one session only. *)
Lemma session_unique l s s' b b' :
  NoDup (v_id <$> mjoin (v_bearers <$> l)) → s ∈ l → s' ∈ l →
  b ∈ v_bearers s → b' ∈ v_bearers s' → v_id b = v_id b' → s = s'.
Proof.
  induction l as [|t l IH]; [intros _ Hs; by apply not_elem_of_nil in Hs|].
  change (mjoin (v_bearers <$> (t :: l))) with (v_bearers t ++ mjoin (v_bearers <$> l)).
  rewrite fmap_app, list.NoDup_app, !elem_of_cons. intros (_ & Hd & Hl).
  assert (∀ x y r, r ∈ l → x ∈ v_bearers t → y ∈ v_bearers r → v_id x ≠ v_id y) as Hx.
  { intros x y r Hr Hx Hy E. apply (Hd (v_id x)); [by apply list_elem_of_fmap_2|].
    rewrite E. apply list_elem_of_fmap_2. apply list_elem_of_join. exists (v_bearers r).
    split; [done|]. by apply list_elem_of_fmap_2. }
  intros [->|Hs] [->|Hs'] Hb Hb' E; [done|by destruct (Hx b b' s')| |by apply IH].
  by destruct (Hx b' b s).
Qed.

Lemma view_ok_remove_bearer a i b s d :
  view_ok a → v_at a i = Some b → v_default a i s d → v_ebi d ≠ v_ebi b →
  view_ok (v_remove_bearer i a).
Proof.
  intros (Hs & Hb & Hne & Hall & Hc) Hat (Hin & (b' & Hb' & Hi) & Hd) He.
  apply find_first_some in Hat as [Hba Hib]. apply Z.eqb_eq in Hib.
  assert (v_all (v_remove_bearer i a) = filter (λ b, v_id b ≠ i) (v_all a)) as Eall.
  { unfold v_all, v_remove_bearer. cbn [v_sessions]. clear.
    induction (v_sessions a) as [|t l IH]; [done|]. rewrite !fmap_cons.
    change (filter (λ b, v_id b ≠ i) (v_bearers t) ++ mjoin (v_bearers <$>
      ((λ s, {| v_sess := v_sess s; v_bearers := filter (λ b, v_id b ≠ i) (v_bearers s) |}) <$> l)) =
      filter (λ b, v_id b ≠ i) (v_bearers t ++ mjoin (v_bearers <$> l))).
    by rewrite list.filter_app, IH. }
  unfold view_ok. rewrite Eall. split_and!; [| | | |apply Hc|apply Hc].
  - unfold v_remove_bearer. cbn. by rewrite <- list_fmap_compose.
  - eapply sublist_NoDup; [exact Hb|]. apply sublist_fmap, sublist_filter.
  - unfold v_remove_bearer. cbn. apply Forall_fmap, list.Forall_forall. intros t Ht. cbn. intros En.
    rewrite list.Forall_forall in Hne. destruct (v_bearers t) as [|x l] eqn:Et; [by apply (Hne t)|].
    assert (v_id x = i) as Hx.
    { destruct (decide (v_id x = i)) as [|Hn]; [done|].
      assert (x ∈ filter (λ b, v_id b ≠ i) (x :: l)) as Hf by (apply list_elem_of_filter; split; [done|left]).
      rewrite En in Hf. by apply not_elem_of_nil in Hf. }
    assert (s = t) as <-.
    { eapply (session_unique (v_sessions a) s t b' x); [exact Hb|done..| |congruence].
      rewrite Et. left. }
    rewrite Et in Hd. injection Hd as <-. apply He. f_equal.
    apply (NoDup_fmap_eq v_id (v_all a)); [done| |done|congruence].
    apply v_all_in. exists s. split; [done|]. rewrite Et. left.
  - by eapply sublist_Forall, Hall; apply sublist_filter.
Qed.

Lemma cleaned_ok i a a' : cleaned i a a' → view_ok a → view_ok a'.
Proof.
  intros [|b s d _ _ _ _|b s d Hb _ Hd He|b s d _ _ _ _|b a'' _ _ Hc Hl] Ha; [done| | | |].
  - eapply view_ok_sublist; [apply remove_sess_sublist|by left|done].
  - by eapply view_ok_remove_bearer.
  - eapply view_ok_sublist; [apply remove_sess_sublist|by left|done].
  - eapply view_ok_sublist; [done|by left|done].
Qed.
