(* ===== verification/EsmRefine.v ===== *)
(** * The ESM layer refines its abstract machine

    What adding and addressing a bearer do, the dispatch of an event, the
    removals that follow it, and the refinement theorem. *)
From S2P Require Import Prelude.
From S2P Require Import CMem.
From S2P Require Import OgsLib.
From S2P Require Import NasTai.
From S2P Require Import NasConv.
From S2P Require NasSecurity.
From S2P Require Import Kdf.
From S2P Require Import MmeContext.
From S2P Require Import EmmBuild.
From S2P Require Import EmmHandler.
From S2P Require Import EmmSm.
From S2P Require Import EmmProofs.
From S2P Require Import EsmBearer.
From S2P Require Import EsmSend.
From S2P Require Import EsmSm.
From S2P Require Import EsmProofs.
From S2P Require Import EsmSpec.
#[local] Open Scope Z_scope.

Section refine.
Context `{Host, OgsBits, OgsPkbuf, NasSecurity.Crypto, KeyedHash, OgsPlmn, !OgsPlmnDigits,
          !Ogs3gpp, OgsSizes, NasCodec, !OgsNextId, !OgsFsmInit, !OgsFsm, !EsmDecoder,
          !OgsNextIdLaws, !OgsFsmInitLaws, !OgsFsmLaws} (self : mme_context_t).
Implicit Types u : ue_t.

(** The objects that the pools hand out are not in use. *)
Definition fresh_bearer (o : option mme_bearer_t) u : Prop :=
  ∀ b, o = Some b → b_id b ∉ (v_id <$> v_all (view u)).
Definition fresh_objects (o : esm_objects) u : Prop :=
  fresh_bearer (free_bearer o) u ∧
  ∀ s, free_sess o = Some s → s_id s ∉ (v_sess <$> v_sessions (view u)).

(** ** Adding *)
Definition next_ebi (a : view_t) : Z :=
  ogs_next_id (v_counter a) MIN_EPS_BEARER_ID MAX_EPS_BEARER_ID.
Lemma next_ebi_range a : view_ok a → MIN_EPS_BEARER_ID <= next_ebi a <= MAX_EPS_BEARER_ID.
Proof. intros (_ & _ & _ & _ & Hc). by apply ogs_next_id_range. Qed.

Lemma init_bearer_run e b :
  init_bearer (new_bearer e b) =
    Ok (set_t3489 timer_cleared (set_b_sm esm_state_inactive (new_bearer e b))).
Proof. unfold init_bearer. by rewrite fsm_init_spec. Qed.
Lemma bearer_append_spec o l u :
  wlp (bearer_append o l) u (λ r u', ∃ b b', o = Some b ∧ r = (b_id b, l ++ [b']) ∧
    view_bearer b' = {| v_id := b_id b; v_ebi := next_ebi (view u); v_state := esm_state_inactive |} ∧
    t3489 b' = timer_cleared ∧ u' = set_ebi (next_ebi (view u)) u).
Proof.
  unfold bearer_append. destruct o as [b|]; [|by apply wlp_bind, wlp_mabort].
  apply wlp_bind, wlp_ret, wlp_bind, wlp_get, wlp_bind, wlp_modify.
  apply wlp_bind, wlp_lift. intros b' Eb. rewrite init_bearer_run in Eb. injection Eb as <-.
  apply wlp_ret. exists b. eexists. by split_and!.
Qed.

Definition added (i : Z) u u' : Prop :=
  (∃ sid, view u' =
    {| v_counter := next_ebi (view u); v_sessions := v_sessions (view u) ++
       [{| v_sess := sid; v_bearers :=
             [{| v_id := i; v_ebi := next_ebi (view u); v_state := esm_state_inactive |}] |}] |} ∧
    sid ∉ (v_sess <$> v_sessions (view u))) ∧
  (i ∉ (v_id <$> v_all (view u))) ∧ (t3489_ok u → t3489_ok u').
Lemma sess_add_spec o p u :
  fresh_objects o u →
  wlp (mme_sess_add o p) u (λ sid u', ∃ s b i, sess_list u' = sess_list u ++ [s] ∧ s_id s = sid ∧
    bearer_list s = [b] ∧ b_id b = i ∧ added i u u').
Proof.
  intros [Hb Hs]. unfold mme_sess_add. apply wlp_bind, wlp_massert. intros _.
  destruct (free_sess o) as [s|] eqn:Es; [|by apply wlp_bind, wlp_mabort].
  apply wlp_bind, wlp_ret. eapply wlp_call; [apply bearer_append_spec|].
  intros [j l] u' (b & b' & Eo & [= -> ->] & Ev & Et & ->). apply wlp_bind, wlp_modify, wlp_ret.
  assert (b_id b' = b_id b) as Eid by exact (f_equal v_id Ev).
  eexists _, b', (b_id b). split_and!; [done..|]. split; [|split].
  - exists (s_id s). split; [|by apply Hs]. rewrite <- Ev.
    match goal with |- view ?u' = _ => change (view u') with {| v_counter := next_ebi (view u);
      v_sessions := view_sess <$> (sess_list u ++ [on_bearers (λ _, [b']) (set_pti p s)]) |} end.
    by rewrite fmap_app.
  - by apply Hb.
  - rewrite !t3489_sess_list. cbn. intros Hu. apply list.Forall_app. split; [done|].
    apply Forall_singleton. cbn. apply Forall_singleton. rewrite Et. apply timer_ok_cleared.
Qed.

(** ** Addressing *)
(** The result of the look-up, as the abstract machine sees it. *)
Definition found_ok (m : esm_message_t) u (r : option Z) u' : Prop :=
  match r with
  | None => same u u' ∧ eps_bearer_identity m = 0 ∧ procedure_transaction_identity m = 0
  | Some i => addressed (view u) m i (view u') ∧ view_ok (view u') ∧ (t3489_ok u → t3489_ok u') ∧
              is_Some (v_at (view u') i)
  end.

Lemma in_is_some u b : b ∈ all_bearers u → is_Some (v_at (view u) (b_id b)).
Proof.
  intros Hb. rewrite view_at, fmap_is_Some. eapply find_first_in; [exact Hb|]. by apply Z.eqb_eq.
Qed.
Lemma found_same m u u' i :
  view_ok (view u) → same u u' → is_Some (v_at (view u) i) → addressed (view u) m i (view u) →
  found_ok m u (Some i) u'.
Proof. intros Hv [E Ht] Hi Ha. unfold found_ok. by rewrite E. Qed.

Lemma sess_at_in u i s : sess_at u i = Some s → s ∈ sess_list u ∧ s_id s = i.
Proof. intros [Hs Hi]%find_first_some. by apply Z.eqb_eq in Hi. Qed.
Lemma default_found m u u0 s d :
  view_ok (view u) → same u0 u → eps_bearer_identity m = 0 →
  s ∈ sess_list u → mme_default_bearer_in_sess s = Some d → found_ok m u0 (Some (b_id d)) u.
Proof.
  intros Hv [E Ht] He Hs Hd. unfold found_ok. rewrite <- E. split_and!; [|done|done|].
  - destruct (bearer_list s) as [|b l] eqn:El; [by unfold mme_default_bearer_in_sess in Hd; rewrite El in Hd|].
    unfold mme_default_bearer_in_sess in Hd. rewrite El in Hd. injection Hd as <-.
    eapply (addressed_default (view u) m (view_sess s) (view_bearer b)); [done| |].
    + by apply list_elem_of_fmap_2.
    + cbn. rewrite El. done.
  - apply in_is_some, all_bearers_in. exists s. split; [done|].
    unfold mme_default_bearer_in_sess in Hd. destruct (bearer_list s); [done|].
    injection Hd as ->. left.
Qed.

(** The default bearer of a session that was found. *)
Lemma of_session m u u0 i :
  view_ok (view u) → same u0 u → eps_bearer_identity m = 0 →
  wlp (s ← the_sess i; d ← assert_some (mme_default_bearer_in_sess s); mret (Some (b_id d))) u
      (found_ok m u0).
Proof.
  intros Hv Hu He. apply wlp_bind, wlp_the_sess. intros s [Hs _]%sess_at_in.
  apply wlp_bind, wlp_assert_some. intros d Hd. apply wlp_ret. by eapply default_found.
Qed.
Lemma view_ok_same u u' : same u u' → view_ok (view u) → view_ok (view u').
Proof. intros [E _]. by rewrite E. Qed.

Lemma new_session m r u o :
  view_ok (view u) → fresh_objects o u → eps_bearer_identity m = 0 →
  body m = PdnConnectivityRequest r →
  wlp (i ← mme_sess_add o (procedure_transaction_identity m);
       s ← the_sess i; d ← assert_some (mme_default_bearer_in_sess s); mret (Some (b_id d))) u
      (found_ok m u).
Proof.
  intros Hv Ho He Em. eapply wlp_call; [by apply sess_add_spec|].
  intros sid u' (s & b & i & El & Es & Eb & Ei & (sid' & Ev & Hsid) & Hi & Ht).
  apply wlp_bind, wlp_the_sess. intros s' Hs'.
  apply wlp_bind, wlp_assert_some. intros d Hd. apply wlp_ret.
  assert (view_ok (view u')) as Hv'.
  { rewrite Ev. by apply view_ok_new, next_ebi_range. }
  assert (s' = s) as ->.
  { apply sess_at_in in Hs' as [Hin Hid]. apply (NoDup_fmap_eq s_id (sess_list u')).
    - destruct Hv' as [Hn _]. unfold view in Hn. cbn in Hn. by rewrite <- list_fmap_compose in Hn.
    - done.
    - rewrite El. apply elem_of_app. right. left.
    - congruence. }
  unfold mme_default_bearer_in_sess in Hd. rewrite Eb in Hd. injection Hd as <-.
  unfold found_ok. split_and!; [|done|done|].
  - rewrite Ev, Ei. by eapply addressed_new.
  - apply in_is_some, all_bearers_in. exists s. rewrite El, Eb. split; [|left].
    apply elem_of_app. right. left.
Qed.

Lemma find_or_add_spec o m u :
  view_ok (view u) → fresh_objects o u →
  wlp (mme_bearer_find_or_add_by_message o m) u (found_ok m u).
Proof.
  intros Hv Ho. unfold mme_bearer_find_or_add_by_message. apply wlp_bind, wlp_get.
  destruct (Z.eqb_spec (eps_bearer_identity m) 0) as [He|He]; cbn [negb].
  2: { apply wlp_bind, wlp_assert_some. intros b [Hb Hbe]%find_by_ue_ebi_in. apply wlp_ret.
       apply found_same; [done|done|by apply in_is_some|].
       eapply (addressed_ebi _ _ (view_bearer b)); [done|by apply view_in|done]. }
  destruct (Z.eqb_spec (procedure_transaction_identity m) 0) as [Hp|Hp].
  { eapply wlp_call; [apply same_attach_reject|]. intros x u' Hu. by apply wlp_ret. }
  destruct (body m) as [r|linked|r| | | | |t] eqn:Em.
  2: { apply wlp_bind, wlp_assert_some. intros b [Hb Hbe]%find_by_ue_ebi_in.
       apply wlp_bind, wlp_bearer_sess. intros s _.
       eapply wlp_call; [by apply same_on_sess|]. intros x u' Hu. apply wlp_ret.
       apply found_same; [done|done|by apply in_is_some|].
       eapply (addressed_linked _ _ (view_bearer b)); [done|exact Em|by apply view_in|done]. }
  2-7: apply wlp_bind, wlp_bind, wlp_assert_some; intros s _; apply wlp_ret; by apply of_session.
  assert (∀ found : option mme_sess_t,
    wlp (i ← (match found with
              | Some s => on_sess (s_id s) (set_pti (procedure_transaction_identity m));; mret (s_id s)
              | None => mme_sess_add o (procedure_transaction_identity m)
              end);
         s ← the_sess i; d ← assert_some (mme_default_bearer_in_sess s); mret (Some (b_id d))) u
        (found_ok m u)) as Hfound.
  { intros [s|]; [|by eapply new_session]. apply wlp_bind.
    eapply wlp_call; [by apply same_on_sess|]. intros x u' Hu. apply wlp_ret.
    apply of_session; [|done|done]. exact (view_ok_same _ _ Hu Hv). }
  apply wlp_bind, wlp_bind. destruct (pc_apn r) as [a|].
  - apply wlp_lift. intros found _. specialize (Hfound found). intros i u' E.
    intros r' u'' E'. apply (Hfound r' u''). apply M_bind_ok. by exists i, u'.
  - apply wlp_ret. specialize (Hfound (head (sess_list u))). intros i u' E.
    intros r' u'' E'. apply (Hfound r' u''). apply M_bind_ok. by exists i, u'.
Qed.

(** ** Dispatch *)
Lemma state_of_view u i b : v_at (view u) i = Some b → esm_state_of i u = Some (v_state b).
Proof.
  rewrite view_at. unfold esm_state_of. intros (b0 & E & ->)%fmap_Some. by rewrite E.
Qed.
Lemma handler_moves i e u b :
  view_ok (view u) → v_at (view u) i = Some b →
  wlp (esm_state_handler self i (Some (v_state b)) (FsmEvent e)) u (λ _ u', moves e i u u').
Proof.
  intros Hv Hb. destruct Hv as (_ & Hn & _ & Hall & _). rewrite list.Forall_forall in Hall.
  assert (vbearer_ok b) as (_ & Hi & _) by (by apply Hall; apply find_first_some in Hb as [? _]).
  assert (at_state u i (v_state b)) as Hs by by exists b.
  destruct (v_state b) eqn:Es; cbn [esm_state_handler]; [done|..].
  2: by apply inactive_moves. 2: by apply active_moves. 2: by apply will_disconnect_moves.
  all: by apply wlp_moves_same, same_signal.
Qed.
Lemma dispatch_moves i e u b :
  view_ok (view u) → v_at (view u) i = Some b → wlp (esm_dispatch self i e) u (λ _ u', moves e i u u').
Proof.
  intros Hv Hb. unfold esm_dispatch. intros x u' E. rewrite fsm_dispatch_spec in E.
  rewrite (state_of_view u i b Hb) in E. revert x u' E.
  match goal with |- ∀ x u', ?m u = _ → _ => change (wlp m u (λ _ u', moves e i u u')) end.
  eapply wlp_call; [by apply handler_moves|]. intros x u1 Hu1. cbn beta in Hu1.
  destruct (moved_at e i (view u) (view u1) b) as (b1 & Hb1 & Hs1); [apply Hu1|done|done|].
  apply wlp_bind, wlp_get. rewrite (state_of_view u1 i b1 Hb1). case_decide; [by apply wlp_ret|].
  assert (v_state b ≠ esm_state_initial) as Hs0.
  { destruct Hv as (_ & _ & _ & Hall & _). rewrite list.Forall_forall in Hall.
    apply find_first_some in Hb as [Hin _]. by apply Hall. }
  assert (∀ st e', st ≠ esm_state_initial → (∀ ev, e' ≠ FsmEvent ev) →
    esm_state_handler self i (Some st) e' = on_bearer i (esm_signal st e')) as Hh
    by (intros [] [| |ev] ? Hne; done || by destruct (Hne ev)).
  rewrite !Hh by done.
  eapply wlp_call; [by apply same_signal|]. intros y u2 Hu2.
  eapply wlp_mono; [by apply same_signal|]. intros z u3 Hu3.
  eapply moves_trans_r; [exact Hu1|]. by transitivity u2.
Qed.

(** ** What follows the dispatch *)
Lemma sess_of_default u i s d :
  sess_of u i = Some s → mme_default_bearer_in_sess s = Some d →
  v_default (view u) i (view_sess s) (view_bearer d).
Proof.
  intros [Hs Hi]%find_first_some Hd. split_and!.
  - by apply list_elem_of_fmap_2.
  - apply existsb_exists in Hi as (b & Hb & Hid). apply Z.eqb_eq in Hid.
    exists (view_bearer b). split; [|done]. apply list_elem_of_fmap_2. by apply list_elem_of_In.
  - cbn. unfold mme_default_bearer_in_sess in Hd. by destruct (bearer_list s); [|injection Hd as ->].
Qed.
Lemma v_default_moved e i a a' s d :
  moved e i a a' → v_default a i s d →
  ∃ s' d', v_default a' i s' d' ∧ v_sess s' = v_sess s ∧ v_id d' = v_id d.
Proof.
  intros [|b st Hb Hm] Hdef; [by exists s, d|]. destruct Hdef as (Hs & (x & Hx & Hxi) & Hd).
  exists {| v_sess := v_sess s; v_bearers := set_state_of i st <$> v_bearers s |}, (set_state_of i st d).
  unfold v_default. split_and!; [| | |done|apply set_state_of_id].
  - rewrite v_set_state_eq. unfold upd_bearers. cbn. apply list_elem_of_fmap. by exists s.
  - exists (set_state_of i st x). split; [by apply list_elem_of_fmap_2|by rewrite set_state_of_id].
  - cbn. by destruct (v_bearers s); [|injection Hd as ->].
Qed.

Lemma view_remove_sess u i :
  view (set_sess_list (filter (λ s, s_id s ≠ i) (sess_list u)) u) = v_remove_sess i (view u).
Proof.
  unfold view, v_remove_sess. cbn. f_equal. induction (sess_list u) as [|s l IH]; [done|].
  rewrite fmap_cons, !filter_cons. repeat case_decide; cbn in *; try done; congruence.
Qed.
Lemma view_remove_bearer u i :
  view (set_sess_list (on_bearers (filter (λ b, b_id b ≠ i)) <$> sess_list u) u) =
  v_remove_bearer i (view u).
Proof.
  unfold view, v_remove_bearer. cbn. f_equal. rewrite <- !list_fmap_compose. apply list_fmap_ext.
  intros k s _. cbn. unfold view_sess. cbn. f_equal. induction (bearer_list s) as [|b l IH]; [done|].
  rewrite fmap_cons, !filter_cons. repeat case_decide; cbn in *; try done; congruence.
Qed.
Definition cleans (i : Z) u u' : Prop :=
  cleaned i (view u) (view u') ∧ (t3489_ok u → t3489_ok u').
Lemma wlp_sess_remove sid i u :
  cleaned i (view u) (v_remove_sess sid (view u)) →
  wlp (mme_sess_remove sid) u (λ _ u', cleans i u u').
Proof.
  intros Hc. apply wlp_bind, wlp_the_sess. intros _ _. apply wlp_modify. split.
  - by rewrite view_remove_sess.
  - rewrite !t3489_sess_list. cbn. apply sublist_Forall, sublist_filter.
Qed.
Lemma wlp_bearer_remove i u :
  cleaned i (view u) (v_remove_bearer i (view u)) →
  wlp (mme_bearer_remove i) u (λ _ u', cleans i u u').
Proof.
  intros Hc. apply wlp_bind, wlp_the_bearer. intros _ _. apply wlp_modify. split.
  - by rewrite view_remove_bearer.
  - rewrite !t3489_sess_list. cbn. rewrite Forall_fmap. intros Hu.
    eapply list.Forall_impl; [exact Hu|]. intros s. cbn. apply sublist_Forall, sublist_filter.
Qed.

Lemma counter_delete_or_release : keeps (λ u u', ebi u' = ebi u) mme_send_delete_session_or_ue_context_release.
Proof.
  assert (PreOrder (λ u u', ebi u' = ebi u)) as Hp by (split; [done|intros ???; congruence]).
  assert (∀ l, keeps (λ u u', ebi u' = ebi u) (delete_sessions l)) as Hl.
  { intros l. induction l as [|s l IH]; cbn [delete_sessions]; keeps_deep ltac:(reflexivity). }
  keeps_deep ltac:(reflexivity).
Qed.

Lemma after_cleans i sid did u s d b :
  view_ok (view u) → v_at (view u) i = Some b → v_default (view u) i s d →
  v_sess s = sid → v_id d = did →
  wlp (mme_esm_after i sid did) u (λ _ u', cleans i u u').
Proof.
  intros Hv Hb Hd <- <-. unfold mme_esm_after.
  apply wlp_bind, wlp_the_bearer. intros b0 Hb0.
  apply wlp_bind, wlp_the_bearer. intros d0 Hd0.
  pose proof Hb as Hb'. rewrite view_at, Hb0 in Hb'. injection Hb' as <-.
  assert (bearer_ebi d0 = v_ebi d) as Ed.
  { apply find_first_some in Hd0 as [Hin Hid]. apply Z.eqb_eq in Hid.
    destruct Hv as (_ & Hn & _). destruct Hd as (Hs & _ & Hh).
    enough (view_bearer d0 = d) as <- by done.
    apply (NoDup_fmap_eq v_id (v_all (view u))); [done|by apply view_in| |done].
    apply v_all_in. exists s. split; [done|].
    destruct (v_bearers s); [done|]. injection Hh as ->. left. }
  destruct (b_sm b0) eqn:Es; try (by apply wlp_ret; split; [constructor|]).
  - apply wlp_bind, wlp_massert. intros He%Z.eqb_eq. apply wlp_sess_remove.
    eapply cleaned_disconnected; [exact Hb|done|done|]. cbn. congruence.
  - destruct (Z.eqb_spec (bearer_ebi d0) (bearer_ebi b0)).
    + apply wlp_sess_remove. eapply cleaned_default; [exact Hb|done|done|]. cbn. congruence.
    + apply wlp_bearer_remove. eapply cleaned_dedicated; [exact Hb|done|done|]. cbn. congruence.
  - apply wlp_bind, wlp_get, wlp_bind, wlp_massert. intros _.
    eapply wlp_mono; [apply wlp_and; [apply shrinks_delete_or_release|apply counter_delete_or_release]|].
    intros x u' [(Hl & _ & Ht) Hc]. split; [|done]. by eapply cleaned_exception.
Qed.

(** ** The refinement *)
Lemma message_steps o m u :
  view_ok (view u) → fresh_objects o u →
  wlp (mme_esm_message self o m) u (λ _ u', esm_step (view u) m (view u') ∧
    view_ok (view u') ∧ (t3489_ok u → t3489_ok u')).
Proof.
  intros Hv Ho. unfold mme_esm_message. eapply wlp_call; [by apply find_or_add_spec|].
  intros [i|] u1.
  2: { intros ([E Ht] & He & Hp). apply wlp_ret. rewrite E. split_and!; [|done|done].
       by apply step_unaddressed. }
  intros (Ha & Hv1 & Ht1 & [b Hb]). apply wlp_bind, wlp_bearer_sess. intros s Hs.
  apply wlp_bind, wlp_assert_some. intros d Hd.
  eapply wlp_call; [by eapply dispatch_moves|]. intros x u2 [Hm Ht2].
  destruct (v_default_moved _ _ _ _ _ _ Hm (sess_of_default u1 i s d Hs Hd)) as (s' & d' & Hd' & Es & Ed).
  destruct (moved_at _ _ _ _ _ Hm Hb Hv1) as (b2 & Hb2 & _).
  pose proof (moved_ok _ _ _ _ Hm Hv1) as Hv2.
  eapply wlp_mono; [by eapply after_cleans|]. intros y u3 [Hc Ht3]. split_and!.
  - by eapply step_addressed.
  - by eapply cleaned_ok.
  - auto.
Qed.

(** C3: The ESM layer refines its abstract machine.  Whatever message is handled
    for a UE with well-formed sessions, in whatever EMM state, if handling
    returns then the message either had neither a bearer identity nor a
    transaction identity and changed nothing, or it addressed one bearer (by
    its EBI, by the linked EBI of a disconnect request, as a default bearer,
    or one that a connectivity request just created with the next EBI), moved
    the state of that bearer only, as [esm_may_move] allows, and removed
    nothing but the bearer, its session, or the sessions of a UE whose
    request failed. *)
Theorem esm_refines o m u u' :
  view_ok (view u) → fresh_objects o u → mme_esm_message self o m u = Ok ((), u') →
  esm_step (view u) m (view u').
Proof. intros Hv Ho E. by apply (message_steps o m u Hv Ho _ _ E). Qed.
End refine.
