(* ===== verification/EsmSystem.v ===== *)
(** * The MME around one UE: EMM, ESM and S11 together

    The event queue of one UE with the events of all three layers, the T3489
    timers of its bearers, and what holds in every reachable state. *)
From S2P Require Import Prelude.
From S2P Require Import CMem.
From S2P Require Import OgsLib.
From S2P Require Import NasTai.
From S2P Require Import NasConv.
From S2P Require NasSecurity.
From S2P Require Import Kdf.
From S2P Require Import MmeContext.
From S2P Require Import EmmBuild.
From S2P Require Import EmmHandler.
From S2P Require Import EmmSm.
From S2P Require Import EmmProofs.
From S2P Require Import EmmSystem.
From S2P Require Import EsmBearer.
From S2P Require Import EsmSend.
From S2P Require Import EsmSm.
From S2P Require Import MmeS11.
From S2P Require Import EsmProofs.
From S2P Require Import EsmSpec.
From S2P Require Import EsmRefine.
#[local] Open Scope Z_scope.

(** ** Adding a bearer to a session of the view *)
Definition v_add_bearer (sid : Z) (b : vbearer) (a : view_t) : view_t :=
  {| v_counter := v_ebi b; v_sessions := (λ s, if v_sess s =? sid
       then {| v_sess := v_sess s; v_bearers := v_bearers s ++ [b] |} else s) <$> v_sessions a |}.

Lemma v_add_absent sid b c l :
  sid ∉ (v_sess <$> l) → v_sessions (v_add_bearer sid b {| v_counter := c; v_sessions := l |}) = l.
Proof.
  cbn [v_sessions v_add_bearer]. induction l as [|s l IH]; [done|].
  rewrite !fmap_cons, not_elem_of_cons. intros [Hs Hl]. rewrite IH by done.
  by rewrite (proj2 (Z.eqb_neq _ _)) by congruence.
Qed.
Lemma v_all_add sid b a :
  NoDup (v_sess <$> v_sessions a) → sid ∈ v_sess <$> v_sessions a →
  v_all (v_add_bearer sid b a) ≡ₚ v_all a ++ [b].
Proof.
  destruct a as [c l]. cbn [v_sessions]. unfold v_all. cbn [v_sessions v_add_bearer].
  induction l as [|s l IH]; [intros _ Hi; by apply not_elem_of_nil in Hi|].
  rewrite !fmap_cons, list.NoDup_cons, elem_of_cons. intros [Hs Hn] Hi.
  change (mjoin (v_bearers s :: (v_bearers <$> l))) with (v_bearers s ++ mjoin (v_bearers <$> l)).
  match goal with |- mjoin (?x :: ?r) ≡ₚ _ => change (mjoin (x :: r)) with (x ++ mjoin r) end.
  destruct (Z.eqb_spec (v_sess s) sid) as [E|E].
  - subst sid. pose proof (v_add_absent (v_sess s) b c l Hs) as Ha. cbn [v_sessions v_add_bearer] in Ha.
    rewrite Ha. cbn [v_bearers]. rewrite <- !app_assoc. apply Permutation_app_head, Permutation_app_comm.
  - rewrite IH by (done || by destruct Hi). by rewrite app_assoc.
Qed.
Lemma view_ok_add sid b a :
  view_ok a → sid ∈ v_sess <$> v_sessions a → vbearer_ok b → v_id b ∉ (v_id <$> v_all a) →
  view_ok (v_add_bearer sid b a).
Proof.
  intros (Hs & Hb & Hne & Hall & Hc) Hsid Hbok Hid. pose proof (v_all_add sid b a Hs Hsid) as Hp.
  unfold view_ok. rewrite Hp. split_and!.
  - cbn. rewrite <- list_fmap_compose. erewrite list_fmap_ext; [exact Hs|]. intros k s _. cbn.
    by destruct (_ =? _).
  - rewrite fmap_app. apply list.NoDup_app. split_and!; [done| |by apply NoDup_singleton].
    intros x Hx ->%list_elem_of_singleton. done.
  - cbn. apply Forall_fmap. eapply list.Forall_impl; [exact Hne|]. intros s Hn. cbn.
    destruct (_ =? _); [|done]. cbn. by destruct (v_bearers s).
  - apply list.Forall_app. split; [done|]. by apply Forall_singleton.
  - destruct Hbok as [He _]. cbn. unfold MIN_EPS_BEARER_ID in *. lia.
  - destruct Hbok as [He _]. cbn. lia.
Qed.

Section s11.
Context `{Host, OgsBits, OgsConv, OgsPkbuf, NasSecurity.Crypto, KeyedHash, OgsPlmn, !OgsPlmnDigits,
          !Ogs3gpp, OgsSizes, NasCodec, !OgsNextId, !OgsFsmInit, !OgsPaa,
          !OgsNextIdLaws, !OgsFsmInitLaws} (self : mme_context_t).
Implicit Types u : ue_t.

(** What every operation of this file respects. *)
Definition esm_inv u : Prop := view_ok (view u) ∧ t3489_ok u.
Lemma inv_same u u' : same u u' → esm_inv u → esm_inv u'.
Proof. intros [E Ht] [Hv Hu]. split; [by rewrite E|auto]. Qed.
Lemma inv_shrinks u u' : shrinks u u' → esm_inv u → esm_inv u'.
Proof. intros (Hl & Hc & Ht) [Hv Hu]. split; [by eapply view_ok_sublist|auto]. Qed.

Lemma bearer_add_inv o sid u :
  esm_inv u → fresh_bearer o u → wlp (mme_bearer_add o sid) u (λ _ u', esm_inv u').
Proof.
  intros [Hv Hu] Ho. unfold mme_bearer_add. apply wlp_bind, wlp_the_sess. intros s [Hs Hi]%sess_at_in.
  eapply wlp_call; [apply bearer_append_spec|].
  intros [j l] u' (b & b' & Eo & [= -> ->] & Ev & Et & ->). apply wlp_bind, wlp_modify, wlp_ret.
  assert (∀ s', s' ∈ sess_list u → s_id s' = sid → s' = s) as Huniq.
  { intros s' Hs' Hi'. destruct Hv as [Hn _]. unfold view in Hn. cbn in Hn.
    rewrite <- list_fmap_compose in Hn. apply (NoDup_fmap_eq _ _ _ _ Hn); [done|done|]. cbn. congruence. }
  split.
  - match goal with |- view_ok (view ?u') => assert (view u' = v_add_bearer sid (view_bearer b') (view u)) as -> end.
    { unfold view, v_add_bearer, map_sess. rewrite Ev. cbn. f_equal. rewrite <- !list_fmap_compose.
      apply list_fmap_ext. intros k s' Hs'. cbn.
      destruct (Z.eqb_spec (s_id s') sid) as [E|E]; [|done].
      rewrite (Huniq s') by (done || by eapply list_elem_of_lookup_2).
      unfold view_sess. cbn. by rewrite fmap_app, <- Ev. }
    apply view_ok_add; [done| | |].
    + rewrite <- Hi. apply (list_elem_of_fmap_2 v_sess _ (view_sess s)). by apply list_elem_of_fmap_2.
    + rewrite Ev. split; [by apply next_ebi_range|done].
    + rewrite Ev. by apply Ho.
  - revert Hu. rewrite !t3489_sess_list. unfold map_sess. cbn. rewrite Forall_fmap. intros Hu.
    eapply list.Forall_impl; [exact Hu|]. intros s' Hs'. cbn.
    destruct (Z.eqb_spec (s_id s') sid) as [E|E]; [|done]. cbn.
    rewrite list.Forall_forall in Hu. apply list.Forall_app. split; [by apply (Hu s)|].
    apply Forall_singleton. rewrite Et. apply timer_ok_cleared.
Qed.

(** ** S11 *)
#[local] Hint Extern 1 (keeps same (on_sess _ _)) => apply same_on_sess; done : keeps.
#[local] Hint Extern 1 (keeps same (on_bearer _ _)) => apply same_on_bearer; [done|by intros ?] : keeps.
#[local] Hint Resolve keeps_same_shrinks : keeps.
Ltac same_tac := keeps_deep ltac:(split; [reflexivity|auto]).

Lemma same_session_created i : keeps same (session_created self i).
Proof. same_tac. Qed.
#[local] Hint Resolve same_session_created : keeps.
Lemma same_create_session_response x r : keeps same (mme_s11_handle_create_session_response self x r).
Proof. same_tac. Qed.
Lemma same_session_deleted s : keeps same (session_deleted s).
Proof. same_tac. Qed.
Lemma shrinks_sess_remove i : keeps shrinks (mme_sess_remove i).
Proof.
  intros u. apply wlp_bind, wlp_the_sess. intros _ _. apply wlp_modify.
  eapply shrinks_sess_list; [done|done|apply sublist_filter].
Qed.
Lemma shrinks_delete_session_response x s c :
  keeps shrinks (mme_s11_handle_delete_session_response x s c).
Proof.
  unfold mme_s11_handle_delete_session_response.
  apply keeps_bind; [exact _|apply keeps_same_shrinks; same_tac|]. intros sid.
  apply keeps_bind; [exact _| |].
  { apply keeps_same_shrinks. destruct c; [|same_tac].
    apply keeps_bind; [exact _|same_tac|intros _; apply same_session_deleted]. }
  intros [|]; [|keeps_tac]. apply keeps_bind; [exact _|keeps_tac|]. intros u.
  apply keeps_bind; [exact _|apply keeps_same_shrinks; same_tac|intros _; apply shrinks_sess_remove].
Qed.
Lemma same_update_bearer_request x c : keeps same (mme_s11_handle_update_bearer_request x c).
Proof. same_tac. Qed.
Lemma same_delete_bearer_request x r : keeps same (mme_s11_handle_delete_bearer_request x r).
Proof. same_tac. Qed.
Lemma same_set_inactive : keeps same mme_bearer_set_inactive.
Proof. apply keeps_modify. intros u. by apply same_map_bearers; [|intros b]. Qed.
#[local] Hint Resolve same_set_inactive : keeps.
Lemma same_release_access_bearers_response x c :
  keeps same (mme_s11_handle_release_access_bearers_response x c).
Proof. same_tac. Qed.
Lemma same_downlink_data_notification x :
  keeps same (mme_s11_handle_downlink_data_notification self x).
Proof. same_tac. Qed.

Lemma inv_keeps_same {A} (m : M ue_t A) u : keeps same m → esm_inv u → wlp m u (λ _ u', esm_inv u').
Proof. intros Hm Hu. eapply wlp_mono; [apply Hm|]. intros a u' Hs. exact (inv_same _ _ Hs Hu). Qed.
Lemma create_bearer_request_inv o x r u :
  esm_inv u → fresh_bearer o u →
  wlp (mme_s11_handle_create_bearer_request o x r) u (λ _ u', esm_inv u').
Proof.
  intros Hu Ho. unfold mme_s11_handle_create_bearer_request. cbv zeta.
  repeat case_match; try by apply wlp_ret.
  apply wlp_bind, wlp_get. apply wlp_bind, wlp_assert_some. intros s _.
  eapply wlp_call; [by apply bearer_add_inv|]. intros i u1 Hu1. apply inv_keeps_same; [same_tac|done].
Qed.
Lemma s11_inv o x m u :
  esm_inv u → fresh_bearer o u → wlp (mme_s11_message self o x m) u (λ _ u', esm_inv u').
Proof.
  intros Hu Ho. destruct m; cbn [mme_s11_message].
  3: by apply create_bearer_request_inv.
  2: { eapply wlp_mono; [apply shrinks_delete_session_response|]. intros a u' Hs.
       exact (inv_shrinks _ _ Hs Hu). }
  all: apply inv_keeps_same; [|done].
  - apply same_create_session_response.
  - apply same_update_bearer_request.
  - apply same_delete_bearer_request.
  - apply same_release_access_bearers_response.
  - apply same_downlink_data_notification.
Qed.
End s11.

(** ** The system *)
Section system.
Context `{Host, OgsBits, OgsConv, OgsPkbuf, NasSecurity.Crypto, KeyedHash, OgsPlmn, !OgsPlmnDigits,
          !Ogs3gpp, OgsSizes, NasCodec, OgsImsi, OgsTime, !OgsFsm, NasDecoder, !OgsNextId,
          !OgsFsmInit, !OgsPaa, !EsmDecoder, !OgsNextIdLaws, !OgsFsmInitLaws, !OgsFsmLaws}
        (self : mme_context_t).
Implicit Types u : ue_t.

Inductive ue_event :=
| EmmEvent (e : mme_event)
| MME_EVT_ESM_MESSAGE (b : pkbuf)
| MME_EVT_ESM_TIMER (bearer : Z)
| MME_EVT_S11_MESSAGE (xact : Z) (m : s11_message).
Record ue_sys := { s_ue : ue_t; s_queue : list ue_event }.

Definition ue_handle (o : esm_objects) (e : ue_event) : M ue_t () :=
  match e with
  | EmmEvent e => mme_handle self e
  | MME_EVT_ESM_MESSAGE b => mme_evt_esm_message self o b
  | MME_EVT_ESM_TIMER i => mme_evt_esm_timer self i MME_TIMER_T3489
  | MME_EVT_S11_MESSAGE x m => mme_s11_message self (free_bearer o) x m
  end.
(** The messages that the EMM layer passed to the ESM layer ([nas_send_emm_to_esm]
    pushes an event). *)
Definition to_esm (old new : ue_t) : list ue_event :=
  omap (λ o, match o with ToEsm b => Some (MME_EVT_ESM_MESSAGE b) | _ => None end)
       (drop (length (trace old)) (trace new)).

(** The expiry of T3489 of bearer [i]. *)
Definition expire_t3489 (i : Z) (u : ue_t) : option ue_t :=
  match bearer_at u i with
  | Some b => if t_running (t3489 b)
              then Some (map_bearer i (λ b, set_t3489 (stop (t3489 b)) b) u) else None
  | None => None
  end.

Inductive ue_step : ue_sys → ue_sys → Prop :=
| ue_expire id u u' q :
    expire id u = Some u' →
    ue_step {| s_ue := u; s_queue := q |}
            {| s_ue := u'; s_queue := q ++ [EmmEvent (MME_EVT_EMM_TIMER id)] |}
| ue_expire_t3489 i u u' q :
    expire_t3489 i u = Some u' →
    ue_step {| s_ue := u; s_queue := q |} {| s_ue := u'; s_queue := q ++ [MME_EVT_ESM_TIMER i] |}
| ue_receive headroom pdu code u x ev q :
    NasSecurity.s1ap_send_to_nas headroom pdu true (sec u) = Ok (ev, x) →
    ue_step {| s_ue := u; s_queue := q |}
      {| s_ue := set_sec x u; s_queue := q ++
         match ev with
         | NasSecurity.EmmMessage t b => [EmmEvent (MME_EVT_EMM_MESSAGE b t code)]
         | NasSecurity.EsmMessage b => [MME_EVT_ESM_MESSAGE b]
         | NasSecurity.NasError => []
         end |}
| ue_s6a m u q :
    ue_step {| s_ue := u; s_queue := q |}
            {| s_ue := u; s_queue := q ++ [EmmEvent (MME_EVT_S6A_MESSAGE m)] |}
| ue_s11 x m u q :
    ue_step {| s_ue := u; s_queue := q |}
            {| s_ue := u; s_queue := q ++ [MME_EVT_S11_MESSAGE x m] |}
| ue_pop o e u u' q :
    fresh_objects o u → ue_handle o e u = Ok ((), u') →
    ue_step {| s_ue := u; s_queue := e :: q |} {| s_ue := u'; s_queue := q ++ to_esm u u' |}.

(** No session yet; an attach request has set the EBI counter
    ([CLEAR_EPS_BEARER_ID]). *)
Definition ue_fresh (m : ue_sys) : Prop :=
  s_queue m = [] ∧ sess_list (s_ue m) = [] ∧ 4 <= ebi (s_ue m) <= 15.
Inductive ue_reachable : ue_sys → Prop :=
| ue_reachable_fresh m : ue_fresh m → ue_reachable m
| ue_reachable_step m m' : ue_reachable m → ue_step m m' → ue_reachable m'.

Lemma inv_emm e u : esm_inv u → wlp (mme_handle self e) u (λ _ u', esm_inv u').
Proof.
  intros Hu. eapply wlp_mono with (P := λ _ u', shrinks u u').
  2: { intros a u' Hs. exact (inv_shrinks _ _ Hs Hu). }
  destruct e as [b t c|id|m]; cbn [mme_handle].
  - destruct (ogs_nas_emm_decode b); [apply (shrinks_emm_message self)|apply wlp_mabort].
  - apply (shrinks_dispatch self).
  - apply shrinks_s6a.
Qed.
Lemma inv_esm_timer i id u :
  esm_inv u → wlp (mme_evt_esm_timer self i id) u (λ _ u', esm_inv u').
Proof.
  intros [Hv Hu]. unfold mme_evt_esm_timer. destruct (v_at (view u) i) as [b|] eqn:Hb.
  - eapply wlp_mono; [by eapply dispatch_moves|]. intros x u' [Hm Ht].
    split; [by eapply moved_ok|auto].
  - intros x u' E. unfold esm_dispatch in E. rewrite fsm_dispatch_spec in E.
    assert (esm_state_of i u = None) as En.
    { rewrite view_at in Hb. unfold esm_state_of. by destruct (bearer_at u i). }
    rewrite En in E. discriminate E.
Qed.
Lemma inv_handle o e u :
  fresh_objects o u → esm_inv u → wlp (ue_handle o e) u (λ _ u', esm_inv u').
Proof.
  intros Ho Hu. destruct e as [e|b|i|x m]; cbn [ue_handle].
  - by apply inv_emm.
  - unfold mme_evt_esm_message. destruct (ogs_nas_esm_decode b) as [m|]; [|apply wlp_mabort].
    destruct Hu as [Hv Ht]. eapply wlp_mono; [by apply message_steps|].
    intros x u' (_ & Hv' & Ht'). split; auto.
  - by apply inv_esm_timer.
  - apply s11_inv; [done|]. apply Ho.
Qed.
Lemma inv_expire_t3489 i u u' : expire_t3489 i u = Some u' → same u u'.
Proof.
  unfold expire_t3489. destruct (bearer_at u i) as [b|]; [|done].
  destruct (t_running (t3489 b)); [|done]. intros [= <-].
  apply same_map_bearer; [done|]. intros b' [_ Hr]. split; [done|exact Hr].
Qed.
Lemma same_expire id u u' : expire id u = Some u' → same u u'.
Proof.
  unfold expire. intros E. destruct id; try discriminate E;
    (destruct (t_running _); [|discriminate E]); injection E as <-; by split.
Qed.

(** C4: What holds of the sessions of a UE.  However the events of its EMM
    layer, its ESM layer, its timers and its SGW interleave, the EBIs of its
    bearers are between 5 and 15, its sessions and bearers are distinct
    objects, each session has its default bearer, and T3489 of each bearer is
    retransmitted at most twice and has a message to send while it runs. *)
Theorem ue_reachable_ok m :
  ue_reachable m → view_ok (view (s_ue m)) ∧ t3489_ok (s_ue m).
Proof.
  change (ue_reachable m → esm_inv (s_ue m)). induction 1 as [m (_ & Hs & He)|m m' _ IH Hstep].
  - unfold esm_inv, view_ok, t3489_ok, all_bearers, v_all, view. rewrite Hs. cbn.
    split_and!; try constructor; apply He.
  - destruct Hstep as [id u u' q E|i u u' q E|hr pdu c u x ev q E|r u q|x r u q|o e u u' q Ho E];
      cbn [s_ue] in *; [| |exact IH..|].
    + exact (inv_same _ _ (same_expire _ _ _ E) IH).
    + exact (inv_same _ _ (inv_expire_t3489 _ _ _ E) IH).
    + exact (inv_handle o e u Ho IH _ _ E).
Qed.
End system.
