(* ===== verification/EsmProps.v ===== *)
(** * PDN connectivity: what single ESM messages lead to

    The first session of a UE from its request to the create session request
    of the MME, and the messages that stop the MME or lead to freed
    objects. *)
From S2P Require Import Prelude.
From S2P Require Import CMem.
From S2P Require Import OgsLib.
From S2P Require Import NasTai.
From S2P Require Import NasConv.
From S2P Require NasSecurity.
From S2P Require Import Kdf.
From S2P Require Import MmeContext.
From S2P Require Import EmmBuild.
From S2P Require Import EmmHandler.
From S2P Require Import EmmSm.
From S2P Require Import EmmProofs.
From S2P Require Import EsmBearer.
From S2P Require Import EsmSend.
From S2P Require Import EsmSm.
From S2P Require Import MmeS11.
From S2P Require Import EsmProofs.
From S2P Require Import EsmSpec.
From S2P Require Import EsmRefine.
#[local] Open Scope Z_scope.

(** ** Running the operations *)
Lemma find_first_map {A} (f : A → bool) (g : A → A) l x :
  (∀ y, f (g y) = f y) → find_first f l = Some x → find_first f (g <$> l) = Some (g x).
Proof.
  intros Hg Hx. rewrite find_first_fmap. rewrite (find_first_ext _ f) by done. by rewrite Hx.
Qed.

Section run.
Context `{OgsPlmn}.
Implicit Types u : ue_t.

Lemma the_sess_run u i s : sess_at u i = Some s → the_sess i u = Ok (s, u).
Proof. intros E. unfold the_sess. m_ret. by rewrite E. Qed.
Lemma the_bearer_run u i b : bearer_at u i = Some b → the_bearer i u = Ok (b, u).
Proof. intros E. unfold the_bearer. m_ret. by rewrite E. Qed.
Lemma bearer_sess_run u i s : sess_of u i = Some s → bearer_sess i u = Ok (s, u).
Proof. intros E. unfold bearer_sess. m_ret. by rewrite E. Qed.
Lemma on_sess_run u i f s : sess_at u i = Some s → on_sess i f u = Ok ((), map_sess i f u).
Proof. intros E. unfold on_sess. by rewrite (M_bind_run _ _ _ _ _ (the_sess_run u i s E)). Qed.
Lemma on_bearer_run u i f b : bearer_at u i = Some b → on_bearer i f u = Ok ((), map_bearer i f u).
Proof. intros E. unfold on_bearer. by rewrite (M_bind_run _ _ _ _ _ (the_bearer_run u i b E)). Qed.

Lemma sess_at_map_sess u i f s :
  (∀ s, s_id (f s) = s_id s) → sess_at u i = Some s → sess_at (map_sess i f u) i = Some (f s).
Proof.
  intros Hf E. unfold sess_at, map_sess. cbn.
  rewrite (find_first_map _ (λ s, if s_id s =? i then f s else s) _ s); [|intros y|done].
  - apply find_first_some in E as [_ ->]. done.
  - destruct (s_id y =? i) eqn:Ei; by rewrite ?Hf, ?Ei.
Qed.
End run.

Section first.
Context `{Host, OgsBits, OgsPkbuf, NasSecurity.Crypto, KeyedHash, OgsPlmn, !OgsPlmnDigits,
          !Ogs3gpp, OgsSizes, NasCodec, !OgsNextId, !OgsFsmInit, !OgsFsm,
          !OgsNextIdLaws, !OgsFsmInitLaws, !OgsFsmLaws} (self : mme_context_t).
Implicit Types u : ue_t.

(** ** The create session request *)
Definition session_request u (pco : list Z) (d : pdn_t) (ebi type : Z) : create_session_request_t :=
  {| csr_imsi := imsi (ident u); csr_apn := apn d; csr_pdn_type := type;
     csr_ambr := if negb (ambr_uplink d =? 0) || negb (ambr_downlink d =? 0)
                 then Some (ambr_uplink d, ambr_downlink d) else None;
     csr_pco := if (length pco =? 0)%nat then None else Some pco;
     csr_ebi := ebi; csr_qci := qci (pdn_qos d) |}.

Lemma on_pdn_run u i s p f :
  sess_at u i = Some s → ∃ u', on_pdn i p f u = Ok ((), u') ∧ trace u' = trace u.
Proof.
  intros Hs. destruct p as [k|d]; [by eexists|]. eexists. split; [by eapply on_sess_run|done].
Qed.
(** Whether the type of the PDN can be chosen decides. *)
Lemma create_session_run u i s b p d :
  sess_at u i = Some s → mme_default_bearer_in_sess s = Some b → MME_UE_HAVE_IMSI u = true →
  pdn s = Some p → the_pdn u p = Ok d →
  match select_pdn_type (pdn_pdn_type d) (request_pdn_type (request_type s)) with
  | Ok t => ∃ u', mme_gtp_send_create_session_request i u = Ok ((), u') ∧
                  trace u' = trace u ++ [CreateSessionRequest (session_request u (ue_pco s) d (bearer_ebi b) t)]
  | Aborted => mme_gtp_send_create_session_request i u = Aborted
  | Undef => mme_gtp_send_create_session_request i u = Undef
  end.
Proof.
  intros Hs Hb Hi Hp Hd.
  unfold mme_gtp_send_create_session_request, mme_s11_build_create_session_request.
  rewrite M_bind_assoc. m_run (the_sess_run u i s Hs). rewrite Hp, Hb. cbv beta iota.
  rewrite M_bind_assoc. m_ret. rewrite M_bind_assoc. m_ret. rewrite M_bind_assoc. m_ret.
  rewrite M_bind_assoc. m_run (massert_run _ u Hi).
  rewrite M_bind_assoc. m_run (lift_run _ _ u Hd). rewrite M_bind_assoc.
  destruct (select_pdn_type _ _) as [t| |]; [|done|done].
  change (lift (Ok t)) with (mret t : M ue_t Z). m_ret. rewrite M_bind_assoc.
  destruct (on_pdn_run u i s p (set_paa_type t) Hs) as (u1 & E1 & T1). m_run E1. m_ret.
  eexists. split; [reflexivity|]. cbn. by rewrite T1.
Qed.

(** ** The handler of PDN connectivity requests *)
(** The PDN for the request: the subscribed one of that name; without a name
    whatever the session points to, or else the default. *)
Definition wanted_pdn u (s : mme_sess_t) (r : pdn_connectivity_request_t) : outcome (option pdn_ptr) :=
  match pc_apn r with
  | Some a => k ← mme_pdn_find_by_apn u a; Ok (option_map OwnPdn k)
  | None =>
      match pdn s with
      | Some p => Ok (Some p)
      | None => k ← mme_default_pdn u; Ok (option_map OwnPdn k)
      end
  end.
(** The PDN that the request is for: the subscribed one of the name in it;
    without a name the one that the object of the session still points at, or
    else the default one of the subscription. *)
Definition pdn_for u (s : mme_sess_t) (r : pdn_connectivity_request_t) (d : pdn_t) : Prop :=
  let subscribed o := ∃ k, o = Ok (Some k) ∧ pdns (subscription_data u) !! k = Some d in
  match pc_apn r, pdn s with
  | Some a, _ => subscribed (mme_pdn_find_by_apn u a)
  | None, Some p => the_pdn u p = Ok d
  | None, None => subscribed (mme_default_pdn u)
  end.
Definition wants_information (r : pdn_connectivity_request_t) : bool :=
  match pc_information_transfer_flag r with Some f => flag_set f | None => false end.
Definition chosen_pco (s : mme_sess_t) (r : pdn_connectivity_request_t) : list Z :=
  default (ue_pco s) (pc_pco r).

(** A session that was changed, in a context that otherwise was not. *)
Definition tracks u u' (i : Z) (s : mme_sess_t) : Prop :=
  sess_at u' i = Some s ∧ ident u' = ident u ∧ subscription_data u' = subscription_data u ∧
  trace u' = trace u.
Lemma tracks_on_sess u u1 i s f :
  tracks u u1 i s → (∀ s, s_id (f s) = s_id s) →
  ∃ u2, on_sess i f u1 = Ok ((), u2) ∧ tracks u u2 i (f s).
Proof.
  intros (Hs & Hi & Hd & Ht) Hf. eexists. split; [by eapply on_sess_run|].
  split_and!; [by apply sess_at_map_sess|done..].
Qed.
Lemma tracks_the_pdn u u' i s p : tracks u u' i s → the_pdn u' p = the_pdn u p.
Proof. intros (_ & _ & E & _). unfold the_pdn. by rewrite E. Qed.

(** The end of the handler, for a session that points to its PDN or will. *)
Lemma connect_run u u1 i s b k p d t :
  tracks u u1 i s → MME_UE_HAVE_IMSI u = true → mme_default_bearer_in_sess s = Some b →
  (pdn s = Some p ∨ pdn s = None ∧ mme_default_pdn u = Ok (Some k) ∧ p = OwnPdn k) →
  the_pdn u p = Ok d →
  select_pdn_type (pdn_pdn_type d) (request_pdn_type (request_type s)) = t →
  match t with
  | Ok t => ∃ u', connect i u1 = Ok (OGS_OK, u') ∧
      trace u' = trace u ++ [CreateSessionRequest (session_request u (ue_pco s) d (bearer_ebi b) t)]
  | Aborted => connect i u1 = Aborted
  | Undef => connect i u1 = Undef
  end.
Proof.
  intros Hs Hi Hb Hp Hd <-.
  assert (∃ u2 s', tracks u u2 i s' ∧ pdn s' = Some p ∧ mme_default_bearer_in_sess s' = Some b ∧
    ue_pco s' = ue_pco s ∧ request_type s' = request_type s ∧
    connect i u1 = (mme_gtp_send_create_session_request i;; mret OGS_OK) u2)
    as (u2 & s' & Hs' & Hp' & Hb' & Hpco & Hr & ->).
  { unfold connect. m_run (the_sess_run u1 i s (proj1 Hs)). destruct Hp as [Hp|(Hp & Hk & ->)].
    - exists u1, s. split_and!; [done..|]. rewrite Hp. m_ret.
      m_run (the_sess_run u1 i s (proj1 Hs)). by rewrite Hp.
    - destruct (tracks_on_sess u u1 i s (set_pdn (Some (OwnPdn k))) Hs) as (u2 & E2 & Hs2); [done|].
      exists u2, (set_pdn (Some (OwnPdn k)) s). split_and!; [done..|]. rewrite Hp.
      rewrite M_bind_assoc. m_ret. rewrite M_bind_assoc.
      assert (mme_default_pdn u1 = Ok (Some k)) as Hk1.
      { rewrite <- Hk. unfold mme_default_pdn. by rewrite (proj1 (proj2 (proj2 Hs))). }
      m_run (lift_run _ _ u1 Hk1). m_run E2. by m_run (the_sess_run u2 i _ (proj1 Hs2)). }
  assert (MME_UE_HAVE_IMSI u2 = true) as Hi2.
  { unfold MME_UE_HAVE_IMSI in *. by rewrite (proj1 (proj2 Hs')). }
  pose proof (create_session_run u2 i s' b p d (proj1 Hs') Hb' Hi2 Hp') as Hc.
  rewrite (tracks_the_pdn u u2 i s' p Hs') in Hc. specialize (Hc Hd). rewrite Hr, Hpco in Hc.
  destruct (select_pdn_type _ _) as [t| |].
  - destruct Hc as (u' & E & T). exists u'. m_run E. split; [done|].
    rewrite T. destruct Hs' as (_ & Eid & _ & ->). unfold session_request. by rewrite Eid.
  - unfold mbind, M_bind. by rewrite Hc.
  - unfold mbind, M_bind. by rewrite Hc.
Qed.

Lemma store_pco_run u u1 i s r :
  tracks u u1 i s → ∃ u2 s', store_pco i (pc_pco r) u1 = Ok ((), u2) ∧ tracks u u2 i s' ∧
    pdn s' = pdn s ∧ ue_pco s' = chosen_pco s r ∧ request_type s' = request_type s ∧
    bearer_list s' = bearer_list s.
Proof.
  intros Hs. unfold store_pco, chosen_pco. destruct (pc_pco r) as [o|].
  - destruct (tracks_on_sess u u1 i s (set_ue_pco o) Hs) as (u2 & E2 & Hs2); [done|].
    by exists u2, (set_ue_pco o s).
  - by exists u1, s.
Qed.

Lemma pdn_request_run u i s b r p d :
  sess_of u i = Some s → sess_at u (s_id s) = Some s → mme_default_bearer_in_sess s = Some b →
  MME_UE_HAVE_IMSI u = true → SECURITY_CONTEXT_IS_VALID u = true → wants_information r = false →
  wanted_pdn u s r = Ok (Some p) → the_pdn u p = Ok d →
  match select_pdn_type (pdn_pdn_type d) (request_pdn_type (pc_request_type r)) with
  | Ok t => ∃ u', esm_handle_pdn_connectivity_request i r u = Ok (OGS_OK, u') ∧
      trace u' = trace u ++
        [CreateSessionRequest (session_request u (chosen_pco s r) d (bearer_ebi b) t)]
  | Aborted => esm_handle_pdn_connectivity_request i r u = Aborted
  | Undef => esm_handle_pdn_connectivity_request i r u = Undef
  end.
Proof.
  intros Hs Hat Hb Hi Hsec Hw Hwant Hd. unfold esm_handle_pdn_connectivity_request.
  m_run (bearer_sess_run u i s Hs). m_ret. m_run (massert_run _ u Hi). m_run (massert_run _ u Hsec).
  destruct (tracks_on_sess u u (s_id s) s (set_request_type (pc_request_type r))) as (u1 & E1 & Hs1);
    [by split_and!|done|]. m_run E1.
  set (s1 := set_request_type (pc_request_type r) s) in *.
  assert (∃ u2 s2 k, tracks u u2 (s_id s) s2 ∧ ue_pco s2 = ue_pco s ∧ bearer_list s2 = bearer_list s ∧
    request_type s2 = pc_request_type r ∧
    (pdn s2 = Some p ∨ pdn s2 = None ∧ mme_default_pdn u = Ok (Some k) ∧ p = OwnPdn k) ∧
    (match pc_apn r with
     | None => mret true
     | Some a => found ← lift (mme_pdn_find_by_apn u a); store_pdn (s_id s) found;;
                 mret (match found with Some _ => true | None => false end)
     end) u1 = Ok (true, u2)) as (u2 & s2 & k & Hs2 & Hpco & Hbl & Hrt & Hp & E2).
  { unfold wanted_pdn in Hwant. destruct (pc_apn r) as [a|].
    - destruct (mme_pdn_find_by_apn u a) as [[k|]| |]; try discriminate Hwant.
      injection Hwant as <-. change (lift (Ok (Some k))) with (mret (Some k) : M ue_t (option nat)).
      destruct (tracks_on_sess u u1 (s_id s) s1 (set_pdn (Some (OwnPdn k))) Hs1) as (u2 & E2 & Hs2);
        [done|]. exists u2, (set_pdn (Some (OwnPdn k)) s1), k. split_and!; [done..|by left|].
      m_ret. unfold store_pdn. by m_run E2.
    - destruct (pdn s) as [p0|] eqn:Ep.
      + injection Hwant as ->. exists u1, s1, 0%nat. split_and!; [done..|by left|done].
      + destruct (mme_default_pdn u) as [[k|]| |] eqn:Ek; try discriminate Hwant.
        injection Hwant as <-. exists u1, s1, k. split_and!; [done..|by right|done]. }
  m_run E2. cbn [negb].
  destruct (store_pco_run u u2 (s_id s) s2 r Hs2) as (u3 & s3 & E3 & Hs3 & Ep3 & Hpco3 & Hrt3 & Hbl3).
  m_run E3. unfold wants_information in Hw. rewrite Hw.
  assert (mme_default_bearer_in_sess s3 = Some b) as Hb3
    by (unfold mme_default_bearer_in_sess in *; congruence).
  rewrite <- Ep3 in Hp.
  pose proof (connect_run u u3 (s_id s) s3 b k p d _ Hs3 Hi Hb3 Hp Hd eq_refl) as Hc.
  assert (chosen_pco s2 r = chosen_pco s r) as Ec by (unfold chosen_pco; by rewrite Hpco).
  rewrite Hrt3, Hrt, Hpco3, Ec in Hc. exact Hc.
Qed.

(** ** The first session of a UE *)
(** The objects from the pools, and the context with the new session. *)
Definition first_bearer u (b : mme_bearer_t) : mme_bearer_t :=
  set_t3489 timer_cleared (set_b_sm esm_state_inactive (new_bearer (next_ebi (view u)) b)).
Definition first_sess u (p : Z) (s : mme_sess_t) (b : mme_bearer_t) : mme_sess_t :=
  on_bearers (λ _, [first_bearer u b]) (set_pti p s).
Definition with_first u (p : Z) (s : mme_sess_t) (b : mme_bearer_t) : ue_t :=
  set_sess_list [first_sess u p s b] (set_ebi (next_ebi (view u)) u).

Lemma find_first_single {A} (f : A → bool) x : f x = true → find_first f [x] = Some x.
Proof. intros Hx. unfold find_first. by rewrite filter_cons, decide_True. Qed.
Lemma first_sess_at u p s b : sess_at (with_first u p s b) (s_id s) = Some (first_sess u p s b).
Proof. apply find_first_single. apply Z.eqb_refl. Qed.
Lemma first_bearer_at u p s b : bearer_at (with_first u p s b) (b_id b) = Some (first_bearer u b).
Proof. apply find_first_single. apply Z.eqb_refl. Qed.
Lemma first_sess_of u p s b : sess_of (with_first u p s b) (b_id b) = Some (first_sess u p s b).
Proof. apply find_first_single. cbn. by rewrite Z.eqb_refl. Qed.

Definition first_request (m : esm_message_t) (r : pdn_connectivity_request_t) : Prop :=
  eps_bearer_identity m = 0 ∧ procedure_transaction_identity m ≠ 0 ∧ body m = PdnConnectivityRequest r.
Lemma first_found u o m r s b :
  sess_list u = [] → free_sess o = Some s → free_bearer o = Some b → first_request m r →
  mme_bearer_find_or_add_by_message o m u =
    Ok (Some (b_id b), with_first u (procedure_transaction_identity m) s b).
Proof.
  intros Hl Hs Hb (He & Hp & Hm). unfold mme_bearer_find_or_add_by_message. m_ret.
  rewrite He, (proj2 (Z.eqb_neq _ _) Hp), Hm, Hl. cbn [negb Z.eqb]. cbv beta iota.
  assert ((found ← (match pc_apn r with
                    | Some a => lift (mme_sess_find_by_apn u a) | None => mret (head []) end);
           match found with
           | Some s => on_sess (s_id s) (set_pti (procedure_transaction_identity m));; mret (s_id s)
           | None => mme_sess_add o (procedure_transaction_identity m)
           end) u =
    Ok (s_id s, with_first u (procedure_transaction_identity m) s b)) as Hadd.
  { assert ((match pc_apn r with
             | Some a => lift (mme_sess_find_by_apn u a) | None => mret (head []) end) u =
      Ok (None, u)) as Hf.
    { destruct (pc_apn r); [|done]. unfold mme_sess_find_by_apn. by rewrite Hl. }
    m_run Hf. unfold mme_sess_add. rewrite (proj2 (Z.eqb_neq _ _) Hp), Hs. cbn [negb].
    m_run (massert_run true u eq_refl). m_ret. unfold bearer_append. rewrite Hb, M_bind_assoc. m_ret.
    rewrite M_bind_assoc. m_ret. rewrite M_bind_assoc. m_ret. rewrite M_bind_assoc.
    change (ogs_next_id (ebi u) MIN_EPS_BEARER_ID MAX_EPS_BEARER_ID) with (next_ebi (view u)).
    m_run (lift_run _ _ (set_ebi (next_ebi (view u)) u) (init_bearer_run (next_ebi (view u)) b)).
    m_ret. m_ret. unfold with_first. cbn. by rewrite Hl. }
  m_run Hadd. m_run (the_sess_run _ _ _ (first_sess_at u (procedure_transaction_identity m) s b)).
  done.
Qed.

(** A bearer whose handler returns with the state unchanged. *)
Lemma dispatch_stays u i e u' b :
  v_at (view u) i = Some b → esm_state_handler self i (Some (v_state b)) (FsmEvent e) u = Ok ((), u') →
  same u u' → esm_dispatch self i e u = Ok ((), u').
Proof.
  intros Hb E [Hv _]. unfold esm_dispatch. rewrite fsm_dispatch_spec, (state_of_view u i b Hb).
  m_run E. m_ret. rewrite (state_of_view u' i b) by by rewrite Hv. by rewrite decide_True.
Qed.
Lemma esm_dispatch_aborts u i e b :
  v_at (view u) i = Some b → esm_state_handler self i (Some (v_state b)) (FsmEvent e) u = Aborted →
  esm_dispatch self i e u = Aborted.
Proof.
  intros Hb E. unfold esm_dispatch. rewrite fsm_dispatch_spec, (state_of_view u i b Hb).
  unfold mbind, M_bind. by rewrite E.
Qed.

Lemma first_message u o m r s b p d :
  sess_list u = [] → free_sess o = Some s → free_bearer o = Some b → first_request m r →
  MME_UE_HAVE_IMSI u = true → SECURITY_CONTEXT_IS_VALID u = true → wants_information r = false →
  wanted_pdn u s r = Ok (Some p) → the_pdn u p = Ok d →
  match select_pdn_type (pdn_pdn_type d) (request_pdn_type (pc_request_type r)) with
  | Ok t => ∃ u', mme_esm_message self o m u = Ok ((), u') ∧
      trace u' = trace u ++
        [CreateSessionRequest (session_request u (chosen_pco s r) d (next_ebi (view u)) t)]
  | Aborted => mme_esm_message self o m u = Aborted
  | Undef => True
  end.
Proof.
  intros Hl Hs Hb Hm Hi Hsec Hw Hwant Hd.
  set (u1 := with_first u (procedure_transaction_identity m) s b).
  set (s1 := first_sess u (procedure_transaction_identity m) s b).
  pose proof (first_sess_of u (procedure_transaction_identity m) s b) as Hof.
  assert (v_at (view u1) (b_id b) = Some {| v_id := b_id b; v_ebi := next_ebi (view u);
    v_state := esm_state_inactive |}) as Hat by (rewrite view_at; unfold u1; by rewrite first_bearer_at).
  pose proof (pdn_request_run u1 (b_id b) s1 (first_bearer u b) r p d Hof
    (first_sess_at u (procedure_transaction_identity m) s b) eq_refl Hi Hsec Hw Hwant Hd) as Hrun.
  unfold mme_esm_message. m_run (first_found u o m r s b Hl Hs Hb Hm).
  fold u1 s1 in Hof |- *. m_run (bearer_sess_run u1 _ _ Hof). cbn [mme_default_bearer_in_sess].
  change (assert_some (mme_default_bearer_in_sess s1)) with (mret (first_bearer u b) : M ue_t mme_bearer_t).
  m_ret.
  assert (∀ x, esm_state_handler self (b_id b) (Some esm_state_inactive) (FsmEvent (EsmEvtMessage m)) u1 = x ↔
    (rv ← esm_handle_pdn_connectivity_request (b_id b) r;
     match rv with OGS_OK => mret () | OGS_ERROR => esm_tran (b_id b) esm_state_exception end) u1 = x) as Eh.
  { intros x. cbn [esm_state_handler]. unfold esm_inactive. rewrite (proj2 (proj2 Hm)).
    m_run (bearer_sess_run u1 _ _ Hof).
    by m_run (the_bearer_run u1 _ _ (first_bearer_at u (procedure_transaction_identity m) s b)). }
  destruct (select_pdn_type _ _) as [t| |]; [|unfold mbind at 1, M_bind|done].
  2: { erewrite esm_dispatch_aborts; [done|exact Hat|]. apply Eh. unfold mbind, M_bind. by rewrite Hrun. }
  destruct Hrun as (u' & E & T). exists u'. split; [|exact T].
  assert (same u1 u') as Hsame by exact (same_handle_pdn_connectivity_request (b_id b) r _ _ _ E).
  erewrite M_bind_run; [|eapply dispatch_stays; [exact Hat| |exact Hsame]; apply Eh; by m_run E].
  rewrite <- (proj1 Hsame), view_at in Hat. apply fmap_Some in Hat as (b' & Hb' & Eb').
  unfold mme_esm_after. m_run (the_bearer_run u' _ _ Hb').
  change (b_id (first_bearer u b)) with (b_id b). m_run (the_bearer_run u' _ _ Hb').
  by assert (b_sm b' = esm_state_inactive) as -> by exact (eq_sym (f_equal v_state Eb')).
Qed.

Lemma pdn_for_wanted u s r d : pdn_for u s r d → ∃ p, wanted_pdn u s r = Ok (Some p) ∧ the_pdn u p = Ok d.
Proof.
  unfold pdn_for, wanted_pdn. destruct (pc_apn r) as [a|]; [|destruct (pdn s) as [p|]].
  - intros (k & -> & Hd). exists (OwnPdn k). cbn. by rewrite Hd.
  - intros Hp. by exists p.
  - intros (k & -> & Hd). exists (OwnPdn k). cbn. by rewrite Hd.
Qed.

(** C5: The first PDN connection.  A UE that is known and has a valid security
    context, has no session and asks for a connection without ESM information
    transfer: the MME makes a session of the free object [s], with a default
    bearer that has the next EBI, and sends one create session request with the
    IMSI, the UE's options, and the APN, the AMBR, the QCI and the type (both
    requested and subscribed) of a PDN: the subscribed one of the requested
    name; without a name the default one when [s] points at no PDN, but when
    it does, because it was used before, the PDN that it points at, which may
    be of another subscriber.  The types are such that one is both requested
    and subscribed. *)
Theorem first_session_request u o m r s b d t :
  sess_list u = [] → free_sess o = Some s → free_bearer o = Some b →
  first_request m r → MME_UE_HAVE_IMSI u = true → SECURITY_CONTEXT_IS_VALID u = true →
  wants_information r = false → pdn_for u s r d →
  select_pdn_type (pdn_pdn_type d) (request_pdn_type (pc_request_type r)) = Ok t →
  ∃ u', mme_esm_message self o m u = Ok ((), u') ∧
    trace u' = trace u ++
      [CreateSessionRequest (session_request u (chosen_pco s r) d (next_ebi (view u)) t)].
Proof.
  intros Hl Hs Hb Hm Hi Hsec Hw Hd Ht. destruct (pdn_for_wanted _ _ _ _ Hd) as (p & Hwant & Hthe).
  pose proof (first_message u o m r s b _ d Hl Hs Hb Hm Hi Hsec Hw Hwant Hthe) as Hr.
  by rewrite Ht in Hr.
Qed.

(** Types of PDN that stop the MME.  When the subscribed PDN is of one type
    only, IPv4 or IPv6, and the UE asks for the other, or for a type other
    than IPv4, IPv6 and IPv4v6, an assertion fails and the process stops. *)
Theorem pdn_type_mismatch_aborts u o m r s b d :
  sess_list u = [] → free_sess o = Some s → free_bearer o = Some b →
  first_request m r → MME_UE_HAVE_IMSI u = true → SECURITY_CONTEXT_IS_VALID u = true →
  wants_information r = false → pdn_for u s r d →
  (pdn_pdn_type d = OGS_HSS_PDN_TYPE_IPV4 ∧ request_pdn_type (pc_request_type r) = 2 ∨
   pdn_pdn_type d = OGS_HSS_PDN_TYPE_IPV6 ∧ request_pdn_type (pc_request_type r) = 1 ∨
   request_pdn_type (pc_request_type r) ∉ [1; 2; 3]) →
  mme_esm_message self o m u = Aborted.
Proof.
  intros Hl Hs Hb Hm Hi Hsec Hw Hd Ht. destruct (pdn_for_wanted _ _ _ _ Hd) as (p & Hwant & Hthe).
  pose proof (first_message u o m r s b _ d Hl Hs Hb Hm Hi Hsec Hw Hwant Hthe) as Hr.
  assert (select_pdn_type (pdn_pdn_type d) (request_pdn_type (pc_request_type r)) = Aborted) as Ha.
  { destruct Ht as [[-> ->]|[[-> ->]|Ht]]; [done|done|]. unfold select_pdn_type.
    rewrite !not_elem_of_cons in Ht. destruct Ht as (H1' & H2' & H3' & _).
    by rewrite (proj2 (Z.eqb_neq _ _) H1'), (proj2 (Z.eqb_neq _ _) H2'), (proj2 (Z.eqb_neq _ _) H3'). }
  by rewrite Ha in Hr.
Qed.

End first.
