(* ===== verification/EsmFlows.v ===== *)
(** * ESM messages that arrive at the wrong time

    What a plain message of an unauthenticated UE does, accepts that were not
    asked for, a disconnection that the UE and the SGW answer in the wrong
    order, and the expiries of T3489. *)
From S2P Require Import Prelude.
From S2P Require Import CMem.
From S2P Require Import OgsLib.
From S2P Require Import NasTai.
From S2P Require Import NasConv.
From S2P Require NasSecurity.
From S2P Require Import Kdf.
From S2P Require Import MmeContext.
From S2P Require Import EmmBuild.
From S2P Require Import EmmHandler.
From S2P Require Import EmmSm.
From S2P Require Import EmmProofs.
From S2P Require Import EmmSystem.
From S2P Require Import EsmBearer.
From S2P Require Import EsmSend.
From S2P Require Import EsmSm.
From S2P Require Import MmeS11.
From S2P Require Import EsmProofs.
From S2P Require Import EsmSpec.
From S2P Require Import EsmRefine.
From S2P Require Import EsmSystem.
From S2P Require Import EsmProps.
#[local] Open Scope Z_scope.

Section flows.
Context `{Host, OgsBits, OgsConv, OgsPkbuf, NasSecurity.Crypto, KeyedHash, OgsPlmn, !OgsPlmnDigits,
          !Ogs3gpp, OgsSizes, NasCodec, !OgsNextId, !OgsFsmInit, !OgsFsm, !OgsPaa, !EsmDecoder,
          !OgsBitsLaws, !OgsNextIdLaws, !OgsFsmInitLaws, !OgsFsmLaws} (self : mme_context_t).
Implicit Types u : ue_t.

(** ** Plain messages *)
(** A message of the ESM protocol without security header. *)
Definition plain_esm (pdu : list Z) : Prop :=
  ∃ l, pdu = ed_pack [(4%nat, 0); (4%nat, 2)] :: l.
Lemma plain_esm_received headroom pdu u :
  plain_esm pdu →
  NasSecurity.s1ap_send_to_nas headroom pdu true (sec u) =
    Ok (NasSecurity.EsmMessage {| pk_head := headroom; pk_data := pdu |}, sec u).
Proof.
  intros [l ->]. unfold NasSecurity.s1ap_send_to_nas, NasSecurity.byte_at. cbn [pk_data lookup].
  assert (ed_unpack [4; 4]%nat (ed_pack [(4%nat, 0); (4%nat, 2)]) = [0; 2]) as Eu.
  { change [4; 4]%nat with [(4%nat, 0); (4%nat, 2)].*1. rewrite ed_unpack_pack; [done|].
    split; [done|]. repeat constructor; cbn; lia. }
  m_run (lift_run _ _ (sec u) (eq_refl : access ((ed_pack [(4%nat, 0); (4%nat, 2)] :: l) !! 0%nat) = _)).
  rewrite Eu. cbn. unfold mbind, M_bind. cbn. by rewrite Eu.
Qed.

Lemma bind_aborted {A B} (x : M ue_t A) (f : A → M ue_t B) u : x u = Aborted → (x ≫= f) u = Aborted.
Proof. intros E. unfold mbind, M_bind. by rewrite E. Qed.
Lemma first_found_exhausted u o m r :
  free_sess o = None ∨ free_bearer o = None → sess_list u = [] → first_request m r →
  mme_bearer_find_or_add_by_message o m u = Aborted.
Proof.
  intros Ho Hl (He & Hp & Hm). unfold mme_bearer_find_or_add_by_message. m_ret.
  rewrite He, (proj2 (Z.eqb_neq _ _) Hp), Hm, Hl. cbn [negb Z.eqb]. cbv beta iota.
  assert ((match pc_apn r with
           | Some a => lift (mme_sess_find_by_apn u a) | None => mret (head []) end) u =
    Ok (None, u)) as Hf.
  { destruct (pc_apn r); [|done]. unfold mme_sess_find_by_apn. by rewrite Hl. }
  apply bind_aborted. m_run Hf. unfold mme_sess_add. rewrite (proj2 (Z.eqb_neq _ _) Hp).
  m_run (massert_run true u eq_refl). destruct (free_sess o) as [s|]; [|done]. m_ret.
  apply bind_aborted. by destruct Ho as [?| ->].
Qed.
Lemma handle_needs_security i r s u :
  sess_of u i = Some s → SECURITY_CONTEXT_IS_VALID u = false →
  esm_handle_pdn_connectivity_request i r u = Aborted.
Proof.
  intros Hs Hsec. unfold esm_handle_pdn_connectivity_request. m_run (bearer_sess_run u i s Hs). m_ret.
  destruct (MME_UE_HAVE_IMSI u); [|done]. m_run (massert_run true u eq_refl). by rewrite Hsec.
Qed.

(** C34: An ESM message before authentication.  A UE context without session
    whose security context is not available (every context that
    authentication has not yet reached): a plain PDN connectivity request on
    its S1 connection passes the NAS security layer and stops the MME. *)
Theorem plain_connectivity_request_aborts headroom pdu u m r o :
  plain_esm pdu → NasSecurity.security_context_available (sec u) = false → sess_list u = [] →
  ogs_nas_esm_decode {| pk_head := headroom; pk_data := pdu |} = Some m → first_request m r →
  ∃ b x, NasSecurity.s1ap_send_to_nas headroom pdu true (sec u) = Ok (NasSecurity.EsmMessage b, x) ∧
    mme_evt_esm_message self o b (set_sec x u) = Aborted.
Proof.
  intros Hp Hsec Hl Hdec Hm. do 2 eexists. split; [by apply plain_esm_received|].
  assert (set_sec (sec u) u = u) as -> by by destruct u.
  unfold mme_evt_esm_message. rewrite Hdec. unfold mme_esm_message.
  destruct (free_sess o) as [s|] eqn:Es;
    [|apply bind_aborted; eapply first_found_exhausted; [by left|done..]].
  destruct (free_bearer o) as [b|] eqn:Eb;
    [|apply bind_aborted; eapply first_found_exhausted; [by right|done..]].
  pose proof (first_sess_of u (procedure_transaction_identity m) s b) as Hof.
  m_run (first_found u o m r s b Hl Es Eb Hm). m_run (bearer_sess_run _ _ _ Hof).
  change (assert_some _) with (mret (first_bearer u b) : M ue_t mme_bearer_t). m_ret.
  apply bind_aborted. eapply esm_dispatch_aborts; [by rewrite view_at, first_bearer_at|].
  change (v_state (view_bearer (first_bearer u b))) with esm_state_inactive.
  cbn [esm_state_handler]. unfold esm_inactive.
  rewrite (proj2 (proj2 Hm)). m_run (bearer_sess_run _ _ _ Hof).
  m_run (the_bearer_run _ _ _ (first_bearer_at u (procedure_transaction_identity m) s b)).
  apply bind_aborted. eapply handle_needs_security; [exact Hof|].
  unfold SECURITY_CONTEXT_IS_VALID. cbn [sec set_sess_list set_ebi with_first]. by rewrite Hsec.
Qed.

(** ** Messages of a UE with sessions *)
Lemma bearer_in_view u b :
  NoDup (v_id <$> v_all (view u)) → b ∈ all_bearers u → bearer_at u (b_id b) = Some b.
Proof.
  intros Hn Hb. assert (is_Some (bearer_at u (b_id b))) as [b' Hb']
    by (eapply find_first_in; [exact Hb|]; apply Z.eqb_refl).
  rewrite Hb'. f_equal. symmetry. by eapply bearer_unique.
Qed.
Lemma sess_of_in u b :
  b ∈ all_bearers u → ∃ s, sess_of u (b_id b) = Some s.
Proof.
  intros (s & Hs & Hb)%all_bearers_in. eapply find_first_in; [exact Hs|].
  apply existsb_exists. exists b. split; [by apply list_elem_of_In|apply Z.eqb_refl].
Qed.

(** A message to an EBI in use reaches the handler of its bearer. *)
Lemma to_ebi_aborts u o m b :
  view_ok (view u) → eps_bearer_identity m ≠ 0 →
  mme_bearer_find_by_ue_ebi u (eps_bearer_identity m) = Some b →
  (∀ s, sess_of u (b_id b) = Some s → bearer_at u (b_id b) = Some b →
    esm_state_handler self (b_id b) (Some (b_sm b)) (FsmEvent (EsmEvtMessage m)) u = Aborted) →
  mme_esm_message self o m u = Aborted.
Proof.
  intros (_ & Hn & Hne & _) He Hf Hh. destruct (find_by_ue_ebi_in _ _ _ Hf) as [Hb _].
  pose proof (bearer_in_view u b Hn Hb) as Hat. destruct (sess_of_in u b Hb) as [s Hs].
  unfold mme_esm_message, mme_bearer_find_or_add_by_message. rewrite M_bind_assoc. m_ret.
  rewrite (proj2 (Z.eqb_neq _ _) He), Hf. cbn [negb]. rewrite M_bind_assoc.
  change (assert_some (Some b)) with (mret b : M ue_t mme_bearer_t). m_ret. m_ret.
  m_run (bearer_sess_run u _ _ Hs).
  destruct (mme_default_bearer_in_sess s) as [d|]; [|done].
  change (assert_some (Some d)) with (mret d : M ue_t mme_bearer_t). m_ret.
  apply bind_aborted. eapply esm_dispatch_aborts; [by rewrite view_at, Hat|]. by eapply Hh.
Qed.

(** Messages that a UE must not send.  A UE with sessions stops the MME with
    one ESM message: with any message whose EBI is not in use, and with the
    accept of a modification or deactivation that the network did not ask for
    (the bearer is active and has no transaction of the SGW). *)
Theorem unsolicited_accept_aborts u o m :
  view_ok (view u) → eps_bearer_identity m ≠ 0 →
  match mme_bearer_find_by_ue_ebi u (eps_bearer_identity m) with
  | None => True
  | Some b => b_sm b = esm_state_active ∧ b_xact b = None ∧
              (body m = ModifyBearerContextAccept ∨ body m = DeactivateBearerContextAccept)
  end →
  mme_esm_message self o m u = Aborted.
Proof.
  intros Hv He Hf. destruct (mme_bearer_find_by_ue_ebi u _) as [b|] eqn:Ef.
  2: { unfold mme_esm_message, mme_bearer_find_or_add_by_message. apply bind_aborted. m_ret.
       by rewrite (proj2 (Z.eqb_neq _ _) He), Ef. }
  destruct Hf as (Ha & Hx & Hm). eapply to_ebi_aborts; [done|done|exact Ef|].
  intros s Hs Hat. rewrite Ha. cbn [esm_state_handler]. unfold esm_active.
  m_run (bearer_sess_run u _ _ Hs).
  assert (bearer_xact (b_id b) u = Aborted) as Hax
    by (unfold bearer_xact; m_run (the_bearer_run u _ _ Hat); by rewrite Hx).
  destruct Hm as [-> | ->]; [by apply bind_aborted|]. by do 2 apply bind_aborted.
Qed.

(** ** A UE with one session and one bearer *)
Definition only u (s : mme_sess_t) (b : mme_bearer_t) : Prop :=
  sess_list u = [s] ∧ bearer_list s = [b].
Lemma only_sess_at u s b : only u s b → sess_at u (s_id s) = Some s.
Proof. intros [Hs Hb]. unfold sess_at. rewrite Hs. apply find_first_single, Z.eqb_refl. Qed.
Lemma only_bearer_at u s b : only u s b → bearer_at u (b_id b) = Some b.
Proof.
  intros [Hs Hb]. unfold bearer_at, all_bearers. rewrite Hs. cbn. rewrite Hb.
  apply find_first_single, Z.eqb_refl.
Qed.
Lemma only_sess_of u s b : only u s b → sess_of u (b_id b) = Some s.
Proof.
  intros [Hs Hb]. unfold sess_of. rewrite Hs. apply find_first_single. rewrite Hb. cbn.
  by rewrite Z.eqb_refl.
Qed.
Lemma only_by_ebi u s b : only u s b → mme_bearer_find_by_ue_ebi u (bearer_ebi b) = Some b.
Proof.
  intros [Hs Hb]. unfold mme_bearer_find_by_ue_ebi. rewrite Hs. cbn.
  unfold mme_bearer_find_by_sess_ebi. by rewrite Hb, find_first_single by apply Z.eqb_refl.
Qed.
Lemma only_default s b u : only u s b → mme_default_bearer_in_sess s = Some b.
Proof. intros [_ Hb]. unfold mme_default_bearer_in_sess. by rewrite Hb. Qed.

(** A change of the bearer, and nothing else. *)
Definition changed u u' (s : mme_sess_t) (b : mme_bearer_t) : Prop :=
  (∃ s', only u' s' b ∧ s_id s' = s_id s) ∧ sm u' = sm u ∧ trace u' = trace u.
Lemma only_on_bearer u s b f :
  only u s b → (∀ b, b_id (f b) = b_id b) →
  ∃ u', on_bearer (b_id b) f u = Ok ((), u') ∧ changed u u' s (f b).
Proof.
  intros Ho Hf. eexists. split; [by eapply on_bearer_run, only_bearer_at|].
  destruct Ho as [Hs Hb]. split_and!; [|done|done].
  exists (on_bearers (fmap (λ b0, if b_id b0 =? b_id b then f b0 else b0)) s). split; [split|done].
  - unfold map_bearer. cbn. by rewrite Hs.
  - cbn. rewrite Hb. cbn. by rewrite Z.eqb_refl.
Qed.

(** The dispatch of an event that moves the bearer between states without
    entry and exit code. *)
Lemma only_dispatch u u1 s s1 b b1 e :
  only u s b → esm_state_handler self (b_id b) (Some (b_sm b)) (FsmEvent e) u = Ok ((), u1) →
  only u1 s1 b1 → s_id s1 = s_id s → b_id b1 = b_id b →
  b_sm b ≠ esm_state_initial → b_sm b1 ∉ [esm_state_initial; esm_state_inactive; esm_state_exception] →
  ∃ u2 s2, esm_dispatch self (b_id b) e u = Ok ((), u2) ∧ only u2 s2 b1 ∧ s_id s2 = s_id s ∧
    sm u2 = sm u1 ∧ trace u2 = trace u1.
Proof.
  intros Ho E Ho1 Es Eb Hi Hs1. unfold esm_dispatch.
  rewrite fsm_dispatch_spec, (state_of_view u _ (view_bearer b)) by
    (by rewrite view_at, (only_bearer_at _ _ _ Ho)).
  m_run E. m_ret. rewrite <- Eb, (state_of_view u1 _ (view_bearer b1)) by
    (by rewrite view_at, (only_bearer_at _ _ _ Ho1)).
  cbn [view_bearer v_state]. case_decide; [by exists u1, s1|].
  assert (∀ st (g : fsm_signal esm_event), st ≠ esm_state_initial → (∀ ev, g ≠ FsmEvent ev) →
    esm_state_handler self (b_id b1) (Some st) g = on_bearer (b_id b1) (esm_signal st g)) as Hh
    by (intros [] [| |ev] ? Hne; done || by destruct (Hne ev)).
  rewrite !not_elem_of_cons in Hs1. destruct Hs1 as (Hn1 & Hn2 & Hn3 & _).
  rewrite !Hh by done.
  assert (∀ x, esm_signal (b_sm b) (@OGS_FSM_EXIT_SIG esm_event) x = x) as Hexit
    by (intros x; by destruct (b_sm b)).
  assert (∀ x, esm_signal (b_sm b1) (@OGS_FSM_ENTRY_SIG esm_event) x = x) as Hentry
    by (intros x; by destruct (b_sm b1)).
  destruct (only_on_bearer u1 s1 b1 (esm_signal (b_sm b) (@OGS_FSM_EXIT_SIG esm_event)) Ho1) as
    (u2 & E2 & (s2 & Ho2 & Es2) & Em2 & Et2); [intros x; by rewrite Hexit|].
  rewrite Hexit in Ho2. m_run E2.
  destruct (only_on_bearer u2 s2 b1 (esm_signal (b_sm b1) (@OGS_FSM_ENTRY_SIG esm_event)) Ho2) as
    (u3 & E3 & (s3 & Ho3 & Es3) & Em3 & Et3); [intros x; by rewrite Hentry|].
  rewrite Hentry in Ho3. exists u3, s3. split_and!; [done|done|congruence..].
Qed.

(** ** Disconnection *)
Lemma esm_after_other u s b :
  only u s b → b_sm b ∉ [esm_state_bearer_deactivated; esm_state_pdn_did_disconnect; esm_state_exception] →
  mme_esm_after (b_id b) (s_id s) (b_id b) u = Ok ((), u).
Proof.
  intros Ho Hs. unfold mme_esm_after. do 2 m_run (the_bearer_run u _ _ (only_bearer_at _ _ _ Ho)).
  rewrite !not_elem_of_cons in Hs. destruct Hs as (?&?&?&_). by destruct (b_sm b).
Qed.

Lemma disconnect_request_run u o m s b :
  only u s b → b_sm b = esm_state_active → sgw_s1u_teid b ≠ 0 →
  eps_bearer_identity m = 0 → procedure_transaction_identity m ≠ 0 →
  body m = PdnDisconnectRequest (bearer_ebi b) →
  ∃ u' s', mme_esm_message self o m u = Ok ((), u') ∧
    only u' s' (set_b_sm esm_state_pdn_will_disconnect b) ∧ s_id s' = s_id s ∧ sm u' = sm u ∧
    trace u' = trace u ++ [DeleteSessionRequest (bearer_ebi b)].
Proof.
  intros Ho Ha Ht He Hp Hm. set (p := procedure_transaction_identity m) in *.
  set (s0 := set_pti p s). set (u0 := map_sess (s_id s) (set_pti p) u).
  assert (only u0 s0 b) as Ho0.
  { destruct Ho as [Hs Hb]. split; [|done]. unfold u0, map_sess. cbn. rewrite Hs. cbn.
    by rewrite Z.eqb_refl. }
  assert (mme_bearer_find_or_add_by_message o m u = Ok (Some (b_id b), u0)) as Ef.
  { unfold mme_bearer_find_or_add_by_message. m_ret. fold p. rewrite He, (proj2 (Z.eqb_neq _ _) Hp), Hm.
    cbn [negb Z.eqb]. rewrite (only_by_ebi _ _ _ Ho).
    change (assert_some (Some b)) with (mret b : M ue_t mme_bearer_t). m_ret.
    m_run (bearer_sess_run u _ _ (only_sess_of _ _ _ Ho)).
    by m_run (on_sess_run u (s_id s) (set_pti p) s (only_sess_at _ _ _ Ho)). }
  set (u1 := set_trace (trace u0 ++ [DeleteSessionRequest (bearer_ebi b)]) u0).
  assert (only u1 s0 b) as Ho1 by exact Ho0.
  destruct (only_on_bearer u1 s0 b (set_b_sm esm_state_pdn_will_disconnect) Ho1) as
    (u2 & E2 & (s2 & Ho2 & Es2) & Em2 & Et2); [done|].
  assert (esm_state_handler self (b_id b) (Some (b_sm b)) (FsmEvent (EsmEvtMessage m)) u0 =
    Ok ((), u2)) as Eh.
  { rewrite Ha. cbn [esm_state_handler]. unfold esm_active.
    m_run (bearer_sess_run u0 _ _ (only_sess_of _ _ _ Ho0)). rewrite Hm.
    assert (MME_HAVE_SGW_S1U_PATH s0 = true) as ->
      by (unfold MME_HAVE_SGW_S1U_PATH; rewrite (proj2 Ho0); by rewrite (proj2 (Z.eqb_neq _ _) Ht)).
    unfold mme_gtp_send_delete_session_request. rewrite M_bind_assoc.
    m_run (the_sess_run u0 _ _ (only_sess_at _ _ _ Ho0)). rewrite (only_default _ _ _ Ho0).
    unfold emit. m_ret. exact E2. }
  destruct (only_dispatch u0 u2 s0 s2 b _ (EsmEvtMessage m) Ho0 Eh Ho2 Es2 eq_refl) as
    (u3 & s3 & E3 & Ho3 & Es3 & Em3 & Et3); [by rewrite Ha|by apply (bool_decide_unpack _)|].
  exists u3, s3. split_and!; [|exact Ho3|exact Es3|exact (eq_trans Em3 Em2)|by rewrite Et3, Et2].
  unfold mme_esm_message. m_run Ef. m_run (bearer_sess_run u0 _ _ (only_sess_of _ _ _ Ho0)).
  rewrite (only_default _ _ _ Ho0).
  change (assert_some (Some b)) with (mret b : M ue_t mme_bearer_t). m_ret. m_run E3.
  replace (s_id s0) with (s_id s3) by exact Es3.
  apply (esm_after_other u3 s3 (set_b_sm esm_state_pdn_will_disconnect b)); [done|].
  by apply (bool_decide_unpack _).
Qed.

Lemma disconnect_accept_run u o m s b :
  only u s b → b_sm b = esm_state_pdn_will_disconnect → bearer_ebi b ≠ 0 →
  eps_bearer_identity m = bearer_ebi b → body m = DeactivateBearerContextAccept →
  ∃ u', mme_esm_message self o m u = Ok ((), u') ∧ sess_list u' = [] ∧ sm u' = sm u.
Proof.
  intros Ho Ha Hz He Hm.
  assert (mme_bearer_find_or_add_by_message o m u = Ok (Some (b_id b), u)) as Ef.
  { unfold mme_bearer_find_or_add_by_message. m_ret. rewrite He, (proj2 (Z.eqb_neq _ _) Hz).
    cbn [negb]. by rewrite (only_by_ebi _ _ _ Ho). }
  destruct (only_on_bearer u s b (set_b_sm esm_state_pdn_did_disconnect) Ho) as
    (u2 & E2 & (s2 & Ho2 & Es2) & Em2 & _); [done|].
  assert (esm_state_handler self (b_id b) (Some (b_sm b)) (FsmEvent (EsmEvtMessage m)) u =
    Ok ((), u2)) as Eh.
  { rewrite Ha. cbn [esm_state_handler]. unfold pdn_will_disconnect_state.
    m_run (bearer_sess_run u _ _ (only_sess_of _ _ _ Ho)). by rewrite Hm. }
  destruct (only_dispatch u u2 s s2 b _ (EsmEvtMessage m) Ho Eh Ho2 Es2 eq_refl) as
    (u3 & s3 & E3 & Ho3 & Es3 & Em3 & _); [by rewrite Ha|by apply (bool_decide_unpack _)|].
  exists (set_sess_list (filter (λ s0, s_id s0 ≠ s_id s3) (sess_list u3)) u3).
  split; [|split; [|exact (eq_trans Em3 Em2)]].
  - unfold mme_esm_message. m_run Ef. m_run (bearer_sess_run u _ _ (only_sess_of _ _ _ Ho)).
    rewrite (only_default _ _ _ Ho).
    change (assert_some (Some b)) with (mret b : M ue_t mme_bearer_t). m_ret. m_run E3.
    unfold mme_esm_after. pose proof (only_bearer_at _ _ _ Ho3) as Hat.
    change (b_id (set_b_sm esm_state_pdn_did_disconnect b)) with (b_id b) in Hat.
    do 2 m_run (the_bearer_run u3 _ _ Hat). cbn [b_sm set_b_sm].
    m_run (massert_run _ u3 (Z.eqb_refl (bearer_ebi b))).
    unfold mme_sess_remove. rewrite <- Es3. m_run (the_sess_run u3 _ _ (only_sess_at _ _ _ Ho3)).
    reflexivity.
  - cbn. rewrite (proj1 Ho3), filter_cons. by rewrite decide_False by (intros Hn; by apply Hn).
Qed.

(** Use after free when a PDN is disconnected.  The UE asks to disconnect its
    only PDN, the MME asks the SGW to delete the session and remembers the
    session in the transaction; if the UE now sends a deactivate accept that
    nobody asked for, the MME frees the session.  The answer of the SGW then
    makes the handler follow the pointer to the freed session. *)
Theorem early_accept_dangles u o o' m m' s b :
  only u s b → sm u = emm_state_registered → b_sm b = esm_state_active → sgw_s1u_teid b ≠ 0 →
  bearer_ebi b ≠ 0 → eps_bearer_identity m = 0 → procedure_transaction_identity m ≠ 0 →
  body m = PdnDisconnectRequest (bearer_ebi b) →
  eps_bearer_identity m' = bearer_ebi b → body m' = DeactivateBearerContextAccept →
  ∃ u1 u2,
    mme_esm_message self o m u = Ok ((), u1) ∧
    trace u1 = trace u ++ [DeleteSessionRequest (bearer_ebi b)] ∧
    mme_esm_message self o' m' u1 = Ok ((), u2) ∧
    ∀ xact, mme_s11_handle_delete_session_response xact (Some (s_id s)) true u2 = Undef.
Proof.
  intros Ho Hr Ha Ht Hz He Hp Hm He' Hm'.
  destruct (disconnect_request_run u o m s b Ho Ha Ht He Hp Hm) as (u1 & s1 & E1 & Ho1 & Es1 & Er1 & T1).
  destruct (disconnect_accept_run u1 o' m' s1 _ Ho1 eq_refl Hz He' Hm') as (u2 & E2 & Hl2 & Er2).
  exists u1, u2. split_and!; [done|done|done|]. intros x.
  unfold mme_s11_handle_delete_session_response, commit, emit.
  change (assert_some (Some (s_id s))) with (mret (s_id s) : M ue_t Z). m_ret. cbv iota.
  rewrite M_bind_assoc. m_ret. unfold session_deleted. rewrite M_bind_assoc. m_ret.
  cbn [sm set_trace]. rewrite Er2, Er1, Hr. rewrite M_bind_assoc. unfold the_sess. rewrite M_bind_assoc.
  m_ret. unfold sess_at. cbn [sess_list set_trace]. by rewrite Hl2.
Qed.

(** ** T3489 *)
(** The timer expires and its event is handled. *)
Definition t3489_round (i : Z) : M ue_t () :=
  u ← get;
  match expire_t3489 i u with
  | Some u' => put u';; mme_evt_esm_timer self i MME_TIMER_T3489
  | None => mret ()
  end.

Lemma bearer_at_map u i f b :
  (∀ b, b_id (f b) = b_id b) → bearer_at u i = Some b → bearer_at (map_bearer i f u) i = Some (f b).
Proof.
  intros Hf Hb. unfold bearer_at. assert (all_bearers (map_bearer i f u) =
    (λ b, if b_id b =? i then f b else b) <$> all_bearers u) as ->.
  { unfold all_bearers, map_bearer. cbn. induction (sess_list u) as [|s l IH]; [done|].
    rewrite !fmap_cons.
    change (((λ b, if b_id b =? i then f b else b) <$> bearer_list s) ++ mjoin (bearer_list <$>
      (on_bearers (fmap (λ b, if b_id b =? i then f b else b)) <$> l)) =
      (λ b, if b_id b =? i then f b else b) <$> (bearer_list s ++ mjoin (bearer_list <$> l))).
    by rewrite fmap_app, IH. }
  rewrite (find_first_map _ (λ b, if b_id b =? i then f b else b) _ b); [|intros y|exact Hb].
  - apply find_first_some in Hb as [_ ->]. done.
  - destruct (b_id y =? i) eqn:Ei; by rewrite ?Hf, ?Ei.
Qed.
Lemma sess_of_map u i j f s :
  (∀ b, b_id (f b) = b_id b) → sess_of u j = Some s →
  is_Some (sess_of (map_bearer i f u) j).
Proof.
  intros Hf Hs. unfold sess_of, map_bearer. cbn. apply find_first_some in Hs as [Hin Hj].
  eapply find_first_in; [by apply list_elem_of_fmap_2|].
  apply existsb_exists in Hj as (b & Hb & Hj). apply existsb_exists. cbn.
  exists (if b_id b =? i then f b else b). split.
  - apply list_elem_of_In. apply (list_elem_of_fmap_2 (λ b, if b_id b =? i then f b else b)).
    by apply list_elem_of_In.
  - destruct (b_id b =? i); by rewrite ?Hf.
Qed.

(** A bearer that waits for ESM information, with the request to repeat. *)
Definition waiting u (i : Z) (m : pkbuf) (n : Z) : Prop :=
  is_Some (sess_of u i) ∧ is_Some (enb_ue u) ∧
  ∃ b, bearer_at u i = Some b ∧ b_sm b = esm_state_inactive ∧
       t3489 b = {| t_pkbuf := Some m; t_running := true; t_retry_count := n |}.
Lemma t3489_again u i m n :
  waiting u i m n → n < 2 →
  ∃ u', t3489_round i u = Ok ((), u') ∧ waiting u' i m (n + 1) ∧
    trace u' = trace u ++ [ToEnb (DownlinkNasTransport m)].
Proof.
  intros ([s Hs] & [e He] & b & Hb & Hi & Ht) Hn. unfold t3489_round. m_ret.
  unfold expire_t3489. rewrite Hb, Ht. cbn [t_running].
  set (f1 := λ b, set_t3489 (stop (t3489 b)) b). set (u1 := map_bearer i f1 u).
  assert (bearer_at u1 i = Some (f1 b)) as Hb1 by by apply bearer_at_map.
  destruct (sess_of_map u i i f1 s (λ _, eq_refl) Hs) as [s1 Hs1].
  change ((put u1 ≫= ?f) u) with (f () u1). cbv beta.
  set (f2 := λ b, set_t3489 (timer_retry (t3489 b)) b). set (u2 := map_bearer i f2 u1).
  assert (bearer_at u2 i = Some (f2 (f1 b))) as Hb2 by by apply bearer_at_map.
  destruct (sess_of_map u1 i i f2 s1 (λ _, eq_refl) Hs1) as [s2 Hs2].
  set (f3 := λ b, set_t3489 (timer_start m (t3489 b)) b). set (u3 := map_bearer i f3 u2).
  assert (bearer_at u3 i = Some (f3 (f2 (f1 b)))) as Hb3 by by apply bearer_at_map.
  destruct (sess_of_map u2 i i f3 s2 (λ _, eq_refl) Hs2) as [s3 Hs3].
  set (u4 := set_trace (trace u ++ [ToEnb (DownlinkNasTransport m)]) u3).
  assert (esm_inactive self i (EsmEvtTimer MME_TIMER_T3489) u1 = Ok ((), u4)) as Eh.
  { unfold esm_inactive. m_run (bearer_sess_run u1 _ _ Hs1). m_run (the_bearer_run u1 _ _ Hb1).
    cbn [f1 t3489 set_t3489 stop t_retry_count]. rewrite Ht. cbn [t_retry_count].
    rewrite (proj2 (Z.leb_gt _ _)) by exact Hn. m_run (on_bearer_run u1 i f2 _ Hb1).
    unfold nas_send_esm_information_request. m_run (the_bearer_run u2 _ _ Hb2).
    cbn [f2 f1 t3489 set_t3489 stop timer_retry t_pkbuf]. rewrite Ht. cbn [t_pkbuf]. m_ret.
    m_run (on_bearer_run u2 i f3 _ Hb2).
    unfold nas_send_to_downlink_nas_transport, nas_send_to_enb. m_ret. fold u3.
    assert (enb_ue u3 = Some e) as He3 by exact He. rewrite He3. m_ret. by rewrite He3. }
  exists u4. split_and!; [|split_and!; [by exists s3|by exists e|]|done].
  - unfold mme_evt_esm_timer, esm_dispatch. rewrite fsm_dispatch_spec.
    unfold esm_state_of. rewrite Hb1. cbn [fmap option_fmap option_map].
    change (b_sm (f1 b)) with (b_sm b). rewrite Hi. cbn [esm_state_handler]. m_run Eh. m_ret.
    change (bearer_at u4 i) with (bearer_at u3 i). rewrite Hb3. cbn [fmap option_fmap option_map].
    change (b_sm (f3 (f2 (f1 b)))) with (b_sm b). rewrite Hi. by rewrite decide_True.
  - exists (f3 (f2 (f1 b))). split_and!; [done|exact Hi|]. cbn. unfold timer_start. cbn. by rewrite Ht.
Qed.

Lemma wlp_on_bearer u i f b :
  (∀ b, b_id (f b) = b_id b) → bearer_at u i = Some b →
  wlp (on_bearer i f) u (λ _ u', bearer_at u' i = Some (f b)).
Proof.
  intros Hf Hb. apply wlp_bind, wlp_the_bearer. intros _ _. apply wlp_modify. by apply bearer_at_map.
Qed.
Lemma t3489_over u i m :
  waiting u i m 2 →
  wlp (t3489_round i) u (λ _ u', ∃ b, bearer_at u' i = Some b ∧ b_sm b = esm_state_exception ∧
    t3489 b = timer_cleared).
Proof.
  intros ([s Hs] & [e He] & b & Hb & Hi & Ht). unfold t3489_round. apply wlp_bind, wlp_get.
  unfold expire_t3489. rewrite Hb, Ht. cbn [t_running].
  set (f1 := λ b, set_t3489 (stop (t3489 b)) b). set (u1 := map_bearer i f1 u).
  assert (bearer_at u1 i = Some (f1 b)) as Hb1 by by apply bearer_at_map.
  destruct (sess_of_map u i i f1 s (λ _, eq_refl) Hs) as [s1 Hs1].
  apply wlp_bind. intros x w [= <- <-]. fold f1 u1. unfold mme_evt_esm_timer, esm_dispatch. intros y w'.
  assert (esm_state_of i u1 = Some esm_state_inactive) as Es1
    by (unfold esm_state_of; by rewrite Hb1, <- Hi).
  rewrite fsm_dispatch_spec, Es1. cbn [esm_state_handler].
  match goal with |- ?r u1 = _ → _ => revert y w'; change (wlp r u1 (λ _ u', ∃ b,
    bearer_at u' i = Some b ∧ b_sm b = esm_state_exception ∧ t3489 b = timer_cleared)) end.
  eapply wlp_call with (P := λ _ u', ∃ b, bearer_at u' i = Some b ∧ b_sm b = esm_state_exception).
  { unfold esm_inactive. apply wlp_bind, wlp_bearer_sess. intros s' _.
    apply wlp_bind, wlp_the_bearer. rewrite Hb1. intros ? [= <-].
    cbn [f1 t3489 set_t3489 stop t_retry_count]. rewrite Ht. cbn [t_retry_count].
    eapply wlp_call; [apply wlp_on_bearer; [done|exact Hb1]|]. intros x u2 Hb2.
    eapply wlp_mono; [apply same_pdn_connectivity_reject|]. intros z u3 [Ev _].
    assert (v_at (view u3) i = Some (view_bearer (set_b_sm esm_state_exception (f1 b)))) as Hv
      by (rewrite Ev, view_at; by rewrite Hb2).
    rewrite view_at in Hv. apply fmap_Some in Hv as (b3 & Hb3 & E3). exists b3. split; [done|].
    exact (eq_sym (f_equal v_state E3)). }
  intros x u3 (b3 & Hb3 & Es3). apply wlp_bind, wlp_get.
  assert (esm_state_of i u3 = Some esm_state_exception) as ->
    by (unfold esm_state_of; by rewrite Hb3, <- Es3).
  rewrite decide_False by done.
  cbn [esm_state_handler].
  eapply wlp_call; [apply wlp_on_bearer; [done|exact Hb3]|]. intros z u4 Hb4.
  eapply wlp_mono; [apply wlp_on_bearer; [done|exact Hb4]|]. intros z' u5 Hb5.
  exists (set_t3489 timer_cleared b3). by split_and!.
Qed.

(** The ESM information request is repeated twice.  For a bearer that waits
    for ESM information, the first two expiries of T3489 send the saved
    request again; if the third returns, the bearer is in the exception state
    and its timer is stopped, so that it never expires again. *)
Theorem t3489_retransmission u i m :
  waiting u i m 0 →
  let again := ToEnb (DownlinkNasTransport m) in
  ∃ u1 u2, t3489_round i u = Ok ((), u1) ∧ trace u1 = trace u ++ [again] ∧
    t3489_round i u1 = Ok ((), u2) ∧ trace u2 = trace u ++ [again; again] ∧
    ∀ u3, t3489_round i u2 = Ok ((), u3) →
      esm_state_of i u3 = Some esm_state_exception ∧ t3489_round i u3 = Ok ((), u3).
Proof.
  intros Hw again. destruct (t3489_again u i m 0 Hw) as (u1 & E1 & Hw1 & T1); [lia|].
  destruct (t3489_again u1 i m 1 Hw1) as (u2 & E2 & Hw2 & T2); [lia|].
  exists u1, u2. split_and!; [done|done|done|by rewrite T2, T1, <- app_assoc|].
  intros u3 E3. destruct (t3489_over u2 i m Hw2 _ _ E3) as (b & Hb & Hs & Ht). split.
  - unfold esm_state_of. by rewrite Hb, <- Hs.
  - unfold t3489_round. m_ret. unfold expire_t3489. by rewrite Hb, Ht.
Qed.
End flows.
