(* ===== verification/MmeUeTable.v ===== *)
(** * The UE contexts of the MME and their S1 connections: [mme-context.c]

    Objects of the pools live in memory that is neither cleared when an
    object is allocated nor when it is freed, so the model keeps the memory
    of every object.  [mme_ue_t] and [enb_ue_t] point at each other; a
    pointer is the index of an object, and an access to an object that is not
    allocated is undefined.  Handover ([source_ue], [target_ue]) is left out,
    and so are the output streams of SCTP. *)
From S2P Require Import Prelude.
From S2P Require Import CMem.
From S2P Require Import OgsLib.
From S2P Require Import NasTai.
From S2P Require Import NasConv.
From S2P Require NasSecurity.
From S2P Require Import Kdf.
From S2P Require Import MmeContext.
From S2P Require Import EmmBuild.
From S2P Require Import EmmHandler.
From S2P Require Import EmmSm.
From S2P Require Import EmmSystem.
From stdpp Require Import functions.
#[local] Open Scope Z_scope.

(** ** Hash tables of ogslib: keys are octet strings

    A key must not be modified while it is in a table. *)
Class OgsHash := {
  hash_t : Type;
  ogs_hash_get : hash_t → list Z → option Z;
  ogs_hash_set : hash_t → list Z → option Z → hash_t;
}.
Class OgsHashLaws `{OgsHash} : Prop := {
  hash_get_set h k v k' :
    ogs_hash_get (ogs_hash_set h k v) k' = if decide (k = k') then v else ogs_hash_get h k';
}.

(** ** Temporary identities *)
(** [*m_tmsi = ogs_random32(); *m_tmsi |= 0xc0000000; *m_tmsi &= 0xff00ffff;] *)
Definition mapped_m_tmsi (r : Z) : Z := Z.land (Z.lor r 0xc0000000) 0xff00ffff.

(** [mme_m_tmsi_pool_generate]: [rnd i] is the [i]-th random number, [n] the
    size of the pool.  A conflicting value is overwritten by the next round. *)
Fixpoint m_tmsi_loop (fuel : nat) (rnd : nat → Z) (i n : nat) (array : list Z) : outcome (list Z) :=
  match fuel with
  | O => Undef
  | S fuel =>
      if (length array <? n)%nat then
        let m := mapped_m_tmsi (rnd i) in
        if existsb (Z.eqb m) array then m_tmsi_loop fuel rnd (S i) n array
        else m_tmsi_loop fuel rnd (S i) n (array ++ [m])
      else Ok array
  end.
Definition mme_m_tmsi_pool_generate (fuel : nat) (rnd : nat → Z) (n : nat) : outcome (list Z) :=
  m_tmsi_loop fuel rnd 0 n [].

Section data.
Context `{OgsPlmn, OgsPool, OgsHash}.

(** ** State: memory is a function from the index of an object *)
(** An [mme_ue_t]: what the EMM layer uses ([ctx], whose [enb_ue] is filled
    in from the object that [ue_enb_ue] points at), and pointers. *)
Record ue_obj := { ctx : ue_t; ue_m_tmsi : option Z; ue_enb_ue : option Z; gnode : option Z }.
(** An [enb_ue_t]. *)
Record enb_ue_obj := {
  e_content : enb_ue_t; e_enb : Z; enb_ue_s1ap_id : Z; mme_ue_s1ap_id : Z; e_mme_ue : option Z;
}.

(** [MME_EVT_EMM_MESSAGE] in the queue. *)
Record emm_evt := {
  evt_enb_ue : Z; evt_pkbuf : pkbuf; evt_nas_type : NasSecurity.nas_security_header_type_t; evt_code : Z;
}.

(** An [mme_sgw_t]; a pointer into [sgw_list] is the rest of the list. *)
Record sgw_t := { sgw_node : Z; sgw_tac : list Z }.

Record table := {
  mme_ue_pool : pool_t; mme_ues : Z → ue_obj; mme_ue_list : list Z;
  m_tmsi_pool : pool_t; m_tmsis : list Z;
  guti_ue_hash : hash_t; imsi_ue_hash : hash_t;
  enb_ue_pool : pool_t; enb_ues : Z → enb_ue_obj; enb_ue_lists : Z → list Z;
  mme_ue_s1ap_id_hash : hash_t; next_s1ap_id : Z;
  sgw : list sgw_t; queue : list emm_evt;
}.

Definition ue_obj_eta (u : ue_obj) : ue_obj :=
  {| ctx := ctx u; ue_m_tmsi := ue_m_tmsi u; ue_enb_ue := ue_enb_ue u; gnode := gnode u |}.
Definition set_ctx : ue_t → ue_obj → ue_obj := ltac:(record_setter ue_obj_eta ctx).
Definition set_ue_m_tmsi : option Z → ue_obj → ue_obj := ltac:(record_setter ue_obj_eta ue_m_tmsi).
Definition set_ue_enb_ue : option Z → ue_obj → ue_obj := ltac:(record_setter ue_obj_eta ue_enb_ue).
Definition set_gnode : option Z → ue_obj → ue_obj := ltac:(record_setter ue_obj_eta gnode).

Definition enb_ue_obj_eta (e : enb_ue_obj) : enb_ue_obj :=
  {| e_content := e_content e; e_enb := e_enb e; enb_ue_s1ap_id := enb_ue_s1ap_id e;
     mme_ue_s1ap_id := mme_ue_s1ap_id e; e_mme_ue := e_mme_ue e |}.
Definition set_e_content : enb_ue_t → enb_ue_obj → enb_ue_obj :=
  ltac:(record_setter enb_ue_obj_eta e_content).
Definition set_e_enb : Z → enb_ue_obj → enb_ue_obj := ltac:(record_setter enb_ue_obj_eta e_enb).
Definition set_enb_ue_s1ap_id : Z → enb_ue_obj → enb_ue_obj :=
  ltac:(record_setter enb_ue_obj_eta enb_ue_s1ap_id).
Definition set_mme_ue_s1ap_id : Z → enb_ue_obj → enb_ue_obj :=
  ltac:(record_setter enb_ue_obj_eta mme_ue_s1ap_id).
Definition set_e_mme_ue : option Z → enb_ue_obj → enb_ue_obj :=
  ltac:(record_setter enb_ue_obj_eta e_mme_ue).

Definition table_eta (s : table) : table := {|
  mme_ue_pool := mme_ue_pool s; mme_ues := mme_ues s; mme_ue_list := mme_ue_list s;
  m_tmsi_pool := m_tmsi_pool s; m_tmsis := m_tmsis s;
  guti_ue_hash := guti_ue_hash s; imsi_ue_hash := imsi_ue_hash s;
  enb_ue_pool := enb_ue_pool s; enb_ues := enb_ues s; enb_ue_lists := enb_ue_lists s;
  mme_ue_s1ap_id_hash := mme_ue_s1ap_id_hash s; next_s1ap_id := next_s1ap_id s; sgw := sgw s;
  queue := queue s |}.
Definition set_mme_ue_pool : pool_t → table → table := ltac:(record_setter table_eta mme_ue_pool).
Definition set_mme_ues : (Z → ue_obj) → table → table := ltac:(record_setter table_eta mme_ues).
Definition set_mme_ue_list : list Z → table → table := ltac:(record_setter table_eta mme_ue_list).
Definition set_m_tmsi_pool : pool_t → table → table := ltac:(record_setter table_eta m_tmsi_pool).
Definition set_guti_ue_hash : hash_t → table → table := ltac:(record_setter table_eta guti_ue_hash).
Definition set_imsi_ue_hash : hash_t → table → table := ltac:(record_setter table_eta imsi_ue_hash).
Definition set_enb_ue_pool : pool_t → table → table := ltac:(record_setter table_eta enb_ue_pool).
Definition set_enb_ues : (Z → enb_ue_obj) → table → table := ltac:(record_setter table_eta enb_ues).
Definition set_enb_ue_lists : (Z → list Z) → table → table :=
  ltac:(record_setter table_eta enb_ue_lists).
Definition set_s1ap_hash : hash_t → table → table :=
  ltac:(record_setter table_eta mme_ue_s1ap_id_hash).
Definition set_next_s1ap_id : Z → table → table := ltac:(record_setter table_eta next_s1ap_id).
Definition set_sgw : list sgw_t → table → table := ltac:(record_setter table_eta sgw).
Definition set_queue : list emm_evt → table → table := ltac:(record_setter table_eta queue).

(** Following a pointer; writing through it. *)
Definition the_ue (i : Z) : M table ue_obj :=
  s ← get;
  if decide (i ∈ pool_used (mme_ue_pool s)) then mret (mme_ues s i) else lift Undef.
Definition the_enb_ue_obj (e : Z) : M table enb_ue_obj :=
  s ← get;
  if decide (e ∈ pool_used (enb_ue_pool s)) then mret (enb_ues s e) else lift Undef.
Definition on_ue_obj (i : Z) (f : ue_obj → ue_obj) : M table () :=
  _ ← the_ue i; modify (λ s, set_mme_ues (alter f i (mme_ues s)) s).
Definition on_enb_ue_obj (e : Z) (f : enb_ue_obj → enb_ue_obj) : M table () :=
  _ ← the_enb_ue_obj e; modify (λ s, set_enb_ues (alter f e (enb_ues s)) s).
Definition on_ctx (i : Z) (f : ue_t → ue_t) : M table () := on_ue_obj i (λ u, set_ctx (f (ctx u)) u).
End data.

Section operations.
Context `{Host, OgsBits, OgsPkbuf, NasSecurity.Crypto, KeyedHash, OgsPlmn, !OgsPlmnDigits,
          !Ogs3gpp, OgsSizes, NasCodec, OgsImsi, OgsTime, OgsFsm, NasDecoder,
          OgsPool, OgsList, OgsNextId, OgsHash, OgsFsmInit} (self : mme_context_t).

(** ** Configuration: the first served GUMMEI, the SGWs, the pool size *)
Record gummei_t := { g_plmn_id : ogs_plmn_id_t; g_mme_gid : Z; g_mme_code : Z }.
Inductive sgw_select_e := SGW_SELECT_RR | SGW_SELECT_TAC.
Record table_conf := {
  served_gummei : gummei_t; sgw_selection : sgw_select_e; sgw_list : list sgw_t; pool_ue : Z;
}.
Context (conf : table_conf).

(** The octets of an [ogs_nas_guti_t] (packed). *)
Definition nas_guti (mme_code m_tmsi : Z) : list Z :=
  plmn_bytes (g_plmn_id (served_gummei conf)) ++ host_bytes 2 (g_mme_gid (served_gummei conf))
    ++ [mme_code] ++ host_bytes 4 m_tmsi.
Definition own_guti (m_tmsi : Z) : list Z := nas_guti (g_mme_code (served_gummei conf)) m_tmsi.

Definition with_guti (g : list Z) (i : ident_t) : ident_t :=
  {| imsi := imsi i; imsi_bcd := imsi_bcd i; nas_mobile_identity_imsi := nas_mobile_identity_imsi i;
     guti := g; guti_present := guti_present i; p_tmsi := p_tmsi i |}.

(** ** M-TMSIs and GUTIs *)
Definition mme_m_tmsi_alloc : M table Z :=
  s ← get;
  match pool_alloc (m_tmsi_pool s) with
  | Some (t, p) => modify (set_m_tmsi_pool p);; mret t
  | None => mabort
  end.
(** Freeing an object that is not allocated is outside the pool's contract. *)
Definition mme_m_tmsi_free (t : Z) : M table () :=
  s ← get;
  if decide (t ∈ pool_used (m_tmsi_pool s))
  then modify (set_m_tmsi_pool (pool_free t (m_tmsi_pool s))) else lift Undef.
Definition guti_hash_set (g : list Z) (v : option Z) : M table () :=
  modify (λ s, set_guti_ue_hash (ogs_hash_set (guti_ue_hash s) g v) s).
Definition imsi_hash_set (k : list Z) (v : option Z) : M table () :=
  modify (λ s, set_imsi_ue_hash (ogs_hash_set (imsi_ue_hash s) k v) s).

Definition mme_ue_new_guti (i : Z) : M table () :=
  u ← the_ue i;
  (match ue_m_tmsi u with
   | Some t => guti_hash_set (guti (ident (ctx u))) None;; mme_m_tmsi_free t
   | None => mret ()
   end);;
  t ← mme_m_tmsi_alloc;
  on_ue_obj i (set_ue_m_tmsi (Some t));;
  s ← get;
  m ← lift (access (m_tmsis s !! Z.to_nat (t - 1)));
  on_ctx i (λ u, set_ident (with_guti (own_guti m) (ident u)) u);;
  guti_hash_set (own_guti m) (Some i).

(** ** Selection of the SGW *)
Fixpoint sgw_of_tac (l : list sgw_t) (tac : Z) : list sgw_t :=
  match l with
  | [] => []
  | g :: r => if existsb (Z.eqb tac) (sgw_tac g) then l else sgw_of_tac r tac
  end.
(** [ogs_assert(mme_self()->sgw)] and [OGS_SETUP_GTP_NODE]. *)
Definition select_sgw (tac : Z) : M table Z :=
  s ← get;
  match sgw_selection conf with
  | SGW_SELECT_RR =>
      match (match sgw s with [] => sgw_list conf | l => l end) with
      | g :: next => modify (set_sgw next);; mret (sgw_node g)
      | [] => mabort
      end
  | SGW_SELECT_TAC =>
      let cur := sgw_of_tac (sgw_list conf) tac in
      modify (set_sgw cur);;
      match cur with g :: _ => mret (sgw_node g) | [] => mabort end
  end.

(** ** [enb_ue_t] *)
Definition s1ap_hash_set (id : Z) (v : option Z) : M table () :=
  modify (λ s, set_s1ap_hash (ogs_hash_set (mme_ue_s1ap_id_hash s) (host_bytes 4 id) v) s).
Definition on_enb_list (b : Z) (f : list Z → list Z) : M table () :=
  modify (λ s, set_enb_ue_lists (alter f b (enb_ue_lists s)) s).

Definition INVALID_UE_S1AP_ID : Z := 0xffffffff.
(** A timer just added is not running. *)
Definition timer_stopped {A} (t : ue_timer A) : ue_timer A :=
  {| t_pkbuf := t_pkbuf t; t_running := false; t_retry_count := t_retry_count t |}.
Definition with_release_timer (f : ue_timer s1ap_msg → ue_timer s1ap_msg) (c : enb_ue_t) : enb_ue_t :=
  {| saved_tai := saved_tai c; saved_e_cgi := saved_e_cgi c;
     t_ue_context_release := f (t_ue_context_release c); ue_ctx_rel_action := ue_ctx_rel_action c |}.
Definition with_location (t : ogs_tai_t) (g : ogs_e_cgi_t) (c : enb_ue_t) : enb_ue_t :=
  {| saved_tai := t; saved_e_cgi := g; t_ue_context_release := t_ue_context_release c;
     ue_ctx_rel_action := ue_ctx_rel_action c |}.

Definition enb_ue_add (b : Z) : M table Z :=
  s ← get;
  match pool_alloc (enb_ue_pool s) with
  | None => mabort
  | Some (e, p) =>
      let id := ogs_next_id (next_s1ap_id s) 1 0xffffffff in
      modify (set_enb_ue_pool p);;
      modify (set_next_s1ap_id id);;
      on_enb_ue_obj e (λ o, set_e_content (with_release_timer timer_stopped (e_content o))
        (set_e_enb b (set_enb_ue_s1ap_id INVALID_UE_S1AP_ID (set_mme_ue_s1ap_id id o))));;
      s1ap_hash_set id (Some e);;
      on_enb_list b (λ l, ogs_list_add l e);;
      mret e
  end.

Definition enb_ue_deassociate (e : Z) : M table () := on_enb_ue_obj e (set_e_mme_ue None).
Definition enb_ue_remove (e : Z) : M table () :=
  o ← the_enb_ue_obj e;
  on_enb_ue_obj e (λ o, set_e_content (with_release_timer (λ _, timer_cleared) (e_content o)) o);;
  enb_ue_deassociate e;;
  on_enb_list (e_enb o) (λ l, ogs_list_remove l e);;
  s1ap_hash_set (mme_ue_s1ap_id o) None;;
  modify (λ s, set_enb_ue_pool (pool_free e (enb_ue_pool s)) s).
Fixpoint remove_each (l : list Z) : M table () :=
  match l with [] => mret () | e :: l => enb_ue_remove e;; remove_each l end.
Definition enb_ue_remove_in_enb (b : Z) : M table () :=
  s ← get; remove_each (enb_ue_lists s b).

Definition enb_ue_find_by_mme_ue_s1ap_id (id : Z) : M table (option Z) :=
  gets (λ s, ogs_hash_get (mme_ue_s1ap_id_hash s) (host_bytes 4 id)).
(** The walk through [enb_ue_list]. *)
Fixpoint find_s1ap_id (l : list Z) (id : Z) : M table (option Z) :=
  match l with
  | [] => mret None
  | e :: l => o ← the_enb_ue_obj e; if enb_ue_s1ap_id o =? id then mret (Some e) else find_s1ap_id l id
  end.
Definition enb_ue_find_by_enb_ue_s1ap_id (b id : Z) : M table (option Z) :=
  s ← get; find_s1ap_id (enb_ue_lists s b) id.

(** ** Association *)
Definition mme_ue_associate_enb_ue (i e : Z) : M table () :=
  on_ue_obj i (set_ue_enb_ue (Some e));; on_enb_ue_obj e (set_e_mme_ue (Some i)).
Definition mme_ue_deassociate (i : Z) : M table () := on_ue_obj i (set_ue_enb_ue None).
(** Implicit S1 release: [if (ECM_CONNECTED(mme_ue)) enb_ue_remove(mme_ue->enb_ue)]. *)
Definition implicit_release (i : Z) : M table () :=
  u ← the_ue i; match ue_enb_ue u with Some e => enb_ue_remove e | None => mret () end.

(** ** [mme_ue_t] *)
Definition all_timers_stopped (t : timers_t) : timers_t :=
  {| t3413 := timer_stopped (t3413 t); t3422 := timer_stopped (t3422 t);
     t3450 := timer_stopped (t3450 t); t3460 := timer_stopped (t3460 t);
     t3470 := timer_stopped (t3470 t) |}.
(** An operation on the UE context alone. *)
Definition run_ctx {A} (i : Z) (m : M ue_t A) : M table A :=
  u ← the_ue i;
  '(a, v) ← lift (m (ctx u));
  on_ue_obj i (set_ctx v);; mret a.

Definition mme_ue_add (e : Z) : M table Z :=
  o ← the_enb_ue_obj e;
  s ← get;
  match pool_alloc (mme_ue_pool s) with
  | None => mabort
  | Some (i, p) =>
      modify (set_mme_ue_pool p);;
      on_ctx i (set_sess_list []);;
      massert ((0 <? i) && (i <=? pool_ue conf));;
      mme_ue_new_guti i;;
      g ← select_sgw (tac (saved_tai (e_content o)));
      on_ue_obj i (set_gnode (Some g));;
      on_ctx i (set_csmap None);;
      on_ctx i (λ u, set_timers (all_timers_stopped (timers u)) u);;
      on_ctx i (set_sm emm_state_initial);;
      run_ctx i (ogs_fsm_init emm_state_eq_dec sm (emm_state_handler self));;
      modify (λ s, set_mme_ue_list (ogs_list_add (mme_ue_list s) i) s);;
      mret i
  end.

Definition mme_pdn_remove_all (u : ue_t) : ue_t :=
  set_subscription_data {| pdns := pdns (subscription_data u); num_of_pdn := 0;
    context_identifier := context_identifier (subscription_data u) |} u.
(** The state machine's exit and final handlers do nothing. *)
Definition mme_ue_remove (i : Z) : M table () :=
  u ← the_ue i;
  modify (λ s, set_mme_ue_list (ogs_list_remove (mme_ue_list s) i) s);;
  (match ue_m_tmsi u with
   | Some t => guti_hash_set (guti (ident (ctx u))) None;; mme_m_tmsi_free t
   | None => mret ()
   end);;
  (if MME_UE_HAVE_IMSI (ctx u) then imsi_hash_set (imsi (ident (ctx u))) None else mret ());;
  on_ctx i (set_pdn_request []);;
  run_ctx i (CLEAR_SERVICE_INDICATOR;; CLEAR_MME_UE_ALL_TIMERS);;
  mme_ue_deassociate i;;
  on_ctx i (set_sess_list []);;
  on_ctx i mme_pdn_remove_all;;
  modify (λ s, set_mme_ue_pool (pool_free i (mme_ue_pool s)) s).

(** ** Look-ups *)
Definition mme_ue_find_by_guti (g : list Z) : M table (option Z) :=
  gets (λ s, ogs_hash_get (guti_ue_hash s) g).
Definition mme_ue_find_by_imsi_bcd (bcd : list Z) : M table (option Z) :=
  let k := ogs_bcd_to_buffer (c_string bcd) in
  massert (negb (length k =? 0)%nat);; gets (λ s, ogs_hash_get (imsi_ue_hash s) k).

Definition OGS_NAS_EPS_MOBILE_IDENTITY_IMSI : Z := 1.
Definition OGS_NAS_EPS_MOBILE_IDENTITY_GUTI : Z := 6.
Definition OGS_NAS_MOBILE_IDENTITY_TMSI : Z := 4.

Definition mme_ue_find_by_message (m : emm_message_t) : M table (option Z) :=
  let t := message_type m in
  if t =? OGS_NAS_ATTACH_REQUEST then
    let id := ar_identity (attach_request m) in
    if id_type (mi_imsi id) =? OGS_NAS_EPS_MOBILE_IDENTITY_IMSI then
      bcd ← lift (ogs_nas_imsi_to_bcd (mi_imsi id) (mi_length id)
                    (replicate (OGS_MAX_IMSI_BCD_LEN + 1) 0));
      mme_ue_find_by_imsi_bcd bcd
    else if id_type (mi_imsi id) =? OGS_NAS_EPS_MOBILE_IDENTITY_GUTI
    then mme_ue_find_by_guti (mi_guti id) else mret None
  else if t =? OGS_NAS_TRACKING_AREA_UPDATE_REQUEST then
    let id := old_guti (tracking_area_update_request m) in
    if id_type (mi_imsi id) =? OGS_NAS_EPS_MOBILE_IDENTITY_GUTI
    then mme_ue_find_by_guti (mi_guti id) else mret None
  else if t =? OGS_NAS_EXTENDED_SERVICE_REQUEST then
    let id := m_tmsi (extended_service_request m) in
    if id_type (mi_imsi id) =? OGS_NAS_MOBILE_IDENTITY_TMSI
    then mme_ue_find_by_guti (own_guti (mi_tmsi id)) else mret None
  else mret None.

(** ** The EMM layer on a context of the table *)
(** [mme_ue_set_imsi] registers the IMSI: the outputs since [n]. *)
Definition new_imsis (n : nat) (u : ue_t) : list (list Z) :=
  omap (λ o, match o with ImsiHashSet k => Some k | _ => None end) (drop n (trace u)).
Fixpoint register_imsis (i : Z) (l : list (list Z)) : M table () :=
  match l with [] => mret () | k :: l => imsi_hash_set k (Some i);; register_imsis i l end.

(** [m] sees the S1 context through [mme_ue->enb_ue]. *)
Definition on_ue {A} (i : Z) (m : M ue_t A) : M table A :=
  u ← the_ue i;
  c ← (match ue_enb_ue u with
       | Some e => o ← the_enb_ue_obj e; mret (Some (e_content o)) | None => mret None end);
  '(a, v) ← lift (m (set_enb_ue c (ctx u)));
  on_ue_obj i (set_ctx (set_enb_ue None v));;
  (match ue_enb_ue u, enb_ue v with
   | Some e, Some x => on_enb_ue_obj e (set_e_content x) | _, _ => mret () end);;
  register_imsis i (new_imsis (length (trace (ctx u))) v);;
  mret a.
(** The NAS security functions use the security context only. *)
Definition on_security {A} (i : Z) (m : M NasSecurity.mme_ue_t A) : M table A := run_ctx i (on_sec m).

(** [MME_EVT_EMM_MESSAGE] of [mme_state_operational]. *)
Definition mme_evt_emm_message (ev : emm_evt) : M table () :=
  let '{| evt_enb_ue := e; evt_pkbuf := b; evt_nas_type := nas_type; evt_code := code |} := ev in
  o ← the_enb_ue_obj e;
  m ← (match ogs_nas_emm_decode b with Some m => mret m | None => mabort end);
  i ← (match e_mme_ue o with
       | Some i => mret i
       | None =>
           found ← mme_ue_find_by_message m;
           i ← (match found with
                | None => mme_ue_add e
                | Some i =>
                    (if NasSecurity.integrity_protected nas_type then
                       '(rv, _) ← on_security i (NasSecurity.nas_security_decode
                         {| NasSecurity.integrity_protected := true; NasSecurity.ciphered := false;
                            NasSecurity.new_security_context := NasSecurity.new_security_context nas_type;
                            NasSecurity.service_request := NasSecurity.service_request nas_type |} b);
                       massert (match rv with NasSecurity.OGS_OK => true | _ => false end)
                     else mret ());;
                    mret i
                end);
           implicit_release i;;
           mme_ue_associate_enb_ue i e;;
           mret i
       end);
  on_ue i (mme_emm_message self (EmmMessage m nas_type code)).

(** ** S1AP *)
(** [s1ap_handle_initial_ue_message] up to the NAS message: [s_tmsi] is the
    MME code and the M-TMSI of the element, [tai] and [e_cgi] the location. *)
Definition initial_ue_context (b id : Z) (s_tmsi : option (Z * Z)) (t : ogs_tai_t) (g : ogs_e_cgi_t)
    : M table Z :=
  found ← enb_ue_find_by_enb_ue_s1ap_id b id;
  e ← (match found with
       | Some e => mret e
       | None =>
           e ← enb_ue_add b;
           on_enb_ue_obj e (set_enb_ue_s1ap_id id);;
           (match s_tmsi with
            | None => mret ()
            | Some (mmec, tmsi) =>
                ue ← mme_ue_find_by_guti (nas_guti mmec tmsi);
                match ue with
                | None => mret ()
                | Some i => implicit_release i;; mme_ue_associate_enb_ue i e
                end
            end);;
           mret e
       end);
  on_enb_ue_obj e (λ o, set_e_content (with_location t g (e_content o)) o);;
  mret e.

(** [s1ap_send_to_nas] for an [enb_ue] with or without UE context. *)
Definition send_to_nas (headroom : list Z) (e : Z) (pdu : list Z) : M table NasSecurity.nas_event :=
  o ← the_enb_ue_obj e;
  match e_mme_ue o with
  | Some i => on_security i (NasSecurity.s1ap_send_to_nas headroom pdu true)
  | None => λ s,
      match NasSecurity.s1ap_send_to_nas headroom pdu false
              {| NasSecurity.selected_enc_algorithm := 0; NasSecurity.selected_int_algorithm := 0;
                 NasSecurity.knas_enc := []; NasSecurity.knas_int := []; NasSecurity.dl_count := 0;
                 NasSecurity.ul_count := {| NasSecurity.overflow := 0; NasSecurity.sqn := 0 |};
                 NasSecurity.security_context_available := false; NasSecurity.mac_failed := false |} with
      | Ok (ev, _) => Ok (ev, s) | Aborted => Aborted | Undef => Undef
      end
  end.

Definition push_event (ev : emm_evt) : M table () := modify (λ s, set_queue (queue s ++ [ev]) s).
(** [ogs_assert(s1ap_send_to_nas(enb_ue, code, pdu) == OGS_OK)]; messages for
    the ESM layer are dropped here. *)
Definition nas_pdu (headroom : list Z) (e : Z) (pdu : list Z) (code : Z) : M table () :=
  ev ← send_to_nas headroom e pdu;
  match ev with
  | NasSecurity.EmmMessage t b =>
      push_event {| evt_enb_ue := e; evt_pkbuf := b; evt_nas_type := t; evt_code := code |}
  | NasSecurity.EsmMessage _ => mret ()
  | NasSecurity.NasError => mabort
  end.
Definition s1ap_handle_initial_ue_message (headroom : list Z) (b id : Z) (s_tmsi : option (Z * Z))
    (t : ogs_tai_t) (g : ogs_e_cgi_t) (pdu : list Z) : M table () :=
  e ← initial_ue_context b id s_tmsi t g; nas_pdu headroom e pdu S1AP_id_initialUEMessage.
Definition s1ap_handle_uplink_nas_transport (headroom : list Z) (b id : Z) (pdu : list Z) : M table () :=
  found ← enb_ue_find_by_enb_ue_s1ap_id b id;
  match found with
  | None => mret ()
  | Some e => nas_pdu headroom e pdu S1AP_id_uplinkNASTransport
  end.

Definition S1AP_UE_CTX_REL_NO_ACTION : Z := 1.
Definition S1AP_UE_CTX_REL_DELETE_INDIRECT_TUNNEL : Z := 4.
(** The links and tunnels that the last action takes down belong to handover. *)
Definition s1ap_handle_ue_context_release_complete (id : Z) : M table () :=
  found ← enb_ue_find_by_mme_ue_s1ap_id id;
  match found with
  | None => mret ()
  | Some e =>
      o ← the_enb_ue_obj e;
      let a := ue_ctx_rel_action (e_content o) in
      let non_null f := match e_mme_ue o with Some i => f i | None => mabort end in
      if a =? S1AP_UE_CTX_REL_NO_ACTION then enb_ue_remove e
      else if a =? S1AP_UE_CTX_REL_S1_NORMAL_RELEASE
      then enb_ue_remove e;; non_null mme_ue_deassociate
      else if a =? S1AP_UE_CTX_REL_UE_CONTEXT_REMOVE then enb_ue_remove e;; non_null mme_ue_remove
      else if a =? S1AP_UE_CTX_REL_DELETE_INDIRECT_TUNNEL
      then enb_ue_remove e;; non_null (λ _, mret ())
      else mabort
  end.
(** An item of a partial reset: an MME and an eNB UE S1AP ID. *)
Inductive s1_reset_type :=
| S1_Interface
| PartOfS1_Interface (items : list (option Z * option Z)).
Definition reset_item (b : Z) (item : option Z * option Z) : M table () :=
  found ← (match item with
           | (Some mme_id, _) => enb_ue_find_by_mme_ue_s1ap_id mme_id
           | (None, Some enb_id) => enb_ue_find_by_enb_ue_s1ap_id b enb_id
           | (None, None) => mret None
           end);
  match found with Some e => enb_ue_remove e | None => mret () end.
Fixpoint reset_items (b : Z) (items : list (option Z * option Z)) : M table () :=
  match items with [] => mret () | item :: items => reset_item b item;; reset_items b items end.
(** [mme_enb_remove] does the former to the S1 contexts of an eNB whose
    connection is lost. *)
Definition s1ap_handle_s1_reset (b : Z) (type : s1_reset_type) : M table () :=
  match type with
  | S1_Interface => enb_ue_remove_in_enb b
  | PartOfS1_Interface items => reset_items b items
  end.
End operations.
