(* ===== verification/MmeUeTableSpec.v ===== *)
(** * The table of UE contexts: its invariant, and where the code breaks it

    First, the EMM layer leaves the GUTI of a context alone. *)
From S2P Require Import Prelude.
From S2P Require Import CMem.
From S2P Require Import OgsLib.
From S2P Require Import NasTai.
From S2P Require Import NasConv.
From S2P Require NasSecurity.
From S2P Require Import Kdf.
From S2P Require Import MmeContext.
From S2P Require Import EmmBuild.
From S2P Require Import EmmHandler.
From S2P Require Import EmmSm.
From S2P Require Import EmmSystem.
From S2P Require Import MmeUeTable.
From stdpp Require Import functions.
#[local] Open Scope Z_scope.

(** ** The EMM layer does not touch the GUTI *)
Section guti.
Context `{Host, OgsBits, OgsPkbuf, NasSecurity.Crypto, KeyedHash, OgsPlmn, !OgsPlmnDigits,
          !Ogs3gpp, OgsSizes, NasCodec, OgsImsi, OgsTime, OgsFsmLaws} (self : mme_context_t).

Definition same_guti (u u' : ue_t) : Prop := guti (ident u') = guti (ident u).
#[export] Instance same_guti_preorder : PreOrder same_guti.
Proof. unfold same_guti. split; [done|]. intros u v w. congruence. Qed.

Ltac guti_tac := keeps_deep ltac:(reflexivity).

Lemma guti_on_sec {A} (m : M NasSecurity.mme_ue_t A) : keeps same_guti (on_sec m).
Proof.
  intros u a u' E. unfold on_sec in E. destruct (m (sec u)) as [[b x]| |]; try done.
  by injection E as <- <-.
Qed.
#[local] Hint Resolve guti_on_sec : keeps.
Lemma guti_page_matches l : keeps same_guti (page_matches l).
Proof. induction l as [|t l IH]; cbn [page_matches]; guti_tac. Qed.
Lemma guti_delete_sessions l : keeps same_guti (delete_sessions l).
Proof. induction l as [|t l IH]; cbn [delete_sessions]; guti_tac. Qed.
#[local] Hint Resolve guti_page_matches guti_delete_sessions : keeps.
Lemma guti_handler s e : keeps same_guti (emm_state_handler self s e).
Proof. destruct s; cbn [emm_state_handler]; guti_tac. Qed.
Lemma guti_dispatch e : keeps same_guti (emm_dispatch self e).
Proof.
  intros u [] u' E. unfold emm_dispatch in E. rewrite fsm_dispatch_spec in E. revert u' E.
  match goal with |- ∀ u', ?m u = _ → _ =>
    enough (keeps same_guti m) as Hm by (intros u' E; exact (Hm _ _ _ E)) end.
  apply keeps_bind; [exact _|apply guti_handler|intros].
  apply keeps_bind; [exact _|apply keeps_get; exact _|intros].
  case_decide; [apply keeps_ret; exact _|].
  apply keeps_bind; [exact _|apply guti_handler|intros; apply guti_handler].
Qed.
#[local] Hint Resolve guti_dispatch : keeps.
Lemma guti_emm_message e : keeps same_guti (mme_emm_message self e).
Proof. unfold mme_emm_message. guti_tac. Qed.
Lemma guti_s6a m : keeps same_guti (mme_s6a_message self m).
Proof. unfold mme_s6a_message, mme_s6a_handle_aia, mme_s6a_handle_ula. guti_tac. Qed.
Lemma guti_expire id u u' : expire id u = Some u' → same_guti u u'.
Proof.
  unfold expire. intros E. destruct id; try discriminate E;
    (destruct (t_running _); [|discriminate E]); injection E as <-; done.
Qed.
End guti.

(** ** Running the operations of the table *)
Section run.
Context `{OgsPlmn, OgsPool, OgsHash}.
Implicit Types (s : table).

Definition live (i : Z) s : Prop := i ∈ pool_used (mme_ue_pool s).
Definition live_enb (e : Z) s : Prop := e ∈ pool_used (enb_ue_pool s).
#[export] Instance live_dec i s : Decision (live i s).
Proof. unfold live. apply _. Defined.
#[export] Instance live_enb_dec e s : Decision (live_enb e s).
Proof. unfold live_enb. apply _. Defined.

Lemma wp_gets {A} (f : table → A) s (Q : A → table → Prop) : Q (f s) s → wp (gets f) s Q.
Proof. auto. Qed.
Lemma wp_the_ue i s Q : live i s → Q (mme_ues s i) s → wp (the_ue i) s Q.
Proof. intros Hi HQ. apply wp_bind, wp_get. rewrite decide_True by done. by apply wp_ret. Qed.
Lemma wp_the_enb_ue_obj e s Q : live_enb e s → Q (enb_ues s e) s → wp (the_enb_ue_obj e) s Q.
Proof. intros Hi HQ. apply wp_bind, wp_get. rewrite decide_True by done. by apply wp_ret. Qed.
Lemma wp_on_ue_obj i f s Q :
  live i s → Q () (set_mme_ues (alter f i (mme_ues s)) s) → wp (on_ue_obj i f) s Q.
Proof. intros Hi HQ. apply wp_bind, wp_the_ue; [done|]. by apply wp_modify. Qed.
Lemma wp_on_enb_ue_obj e f s Q :
  live_enb e s → Q () (set_enb_ues (alter f e (enb_ues s)) s) → wp (on_enb_ue_obj e f) s Q.
Proof. intros Hi HQ. apply wp_bind, wp_the_enb_ue_obj; [done|]. by apply wp_modify. Qed.
Lemma wp_on_ctx i f s Q :
  live i s → Q () (set_mme_ues (alter (λ u, set_ctx (f (ctx u)) u) i (mme_ues s)) s) →
  wp (on_ctx i f) s Q.
Proof. apply wp_on_ue_obj. Qed.
Lemma wp_run_ctx {A} i (m : M ue_t A) s Q :
  live i s → wp m (ctx (mme_ues s i)) (λ a v, Q a (set_mme_ues (alter (set_ctx v) i (mme_ues s)) s)) →
  wp (run_ctx i m) s Q.
Proof.
  intros Hi Hm. apply wp_bind, wp_the_ue; [done|]. apply wp_bind, wp_lift. unfold wp in Hm.
  destruct (m (ctx (mme_ues s i))) as [[a v]| |]; [|done|done].
  apply wp_bind, wp_on_ue_obj; [done|]. by apply wp_ret.
Qed.
End run.

(** ** The invariant *)
(** Two sets of live objects whose pointers at each other agree; objects that
    are not live point nowhere. *)
Record link_ok (ues enbs : gset Z) (to_enb to_ue : Z → option Z) : Prop := {
  link_enb i e : to_enb i = Some e → i ∈ ues ∧ e ∈ enbs ∧ to_ue e = Some i;
  link_ue e i : to_ue e = Some i → e ∈ enbs ∧ i ∈ ues ∧ to_enb i = Some e;
}.

Section link.
Implicit Types (ues enbs : gset Z) (to_enb to_ue : Z → option Z).

Lemma link_ext ues enbs to_enb to_ue to_enb' to_ue' :
  link_ok ues enbs to_enb to_ue → (∀ i, to_enb' i = to_enb i) → (∀ e, to_ue' e = to_ue e) →
  link_ok ues enbs to_enb' to_ue'.
Proof.
  intros [H1 H2] E1 E2. split.
  - intros i e. rewrite E1, E2. apply H1.
  - intros e i. rewrite E1, E2. apply H2.
Qed.

(** Both sets may grow. *)
Lemma link_mono ues enbs ues' enbs' to_enb to_ue :
  link_ok ues enbs to_enb to_ue → ues ⊆ ues' → enbs ⊆ enbs' → link_ok ues' enbs' to_enb to_ue.
Proof.
  intros [H1 H2] Hu He. split.
  - intros i e E. destruct (H1 i e E) as (?&?&?). set_solver.
  - intros e i E. destruct (H2 e i E) as (?&?&?). set_solver.
Qed.

(** Removing an S1 context and the pointer at it. *)
Lemma link_remove_enb ues enbs to_enb to_ue e :
  link_ok ues enbs to_enb to_ue →
  link_ok ues (enbs ∖ {[e]})
    (λ i, if decide (to_ue e = Some i) then None else to_enb i) (<[e := None]> to_ue).
Proof.
  intros [H1 H2]. split.
  - intros i x. case_decide as Hd; [done|]. intros E. destruct (H1 i x E) as (Hi & Hx & Eu).
    destruct (decide (e = x)) as [->|]; [done|]. rewrite fn_lookup_insert_ne by done. set_solver.
  - intros x i. destruct (decide (e = x)) as [->|Hn]; [by rewrite fn_lookup_insert|].
    rewrite fn_lookup_insert_ne by done. intros E. destruct (H2 x i E) as (Hx & Hi & Eu).
    rewrite decide_False; [set_solver|]. intros E'. destruct (H2 e i E') as (_ & _ & Eu'). congruence.
Qed.

(** Associating two objects without partner. *)
Lemma link_associate ues enbs to_enb to_ue i e :
  link_ok ues enbs to_enb to_ue → i ∈ ues → e ∈ enbs → to_enb i = None → to_ue e = None →
  link_ok ues enbs (<[i := Some e]> to_enb) (<[e := Some i]> to_ue).
Proof.
  intros [H1 H2] Hi He Ei Ee. split.
  - intros j x. destruct (decide (i = j)) as [->|Hn].
    + rewrite fn_lookup_insert. intros [= <-]. by rewrite fn_lookup_insert.
    + rewrite fn_lookup_insert_ne by done. intros E. destruct (H1 j x E) as (?&?&Ex).
      rewrite fn_lookup_insert_ne by congruence. done.
  - intros x j. destruct (decide (e = x)) as [->|Hn].
    + rewrite fn_lookup_insert. intros [= <-]. by rewrite fn_lookup_insert.
    + rewrite fn_lookup_insert_ne by done. intros E. destruct (H2 x j E) as (?&?&Ex).
      rewrite fn_lookup_insert_ne by congruence. done.
Qed.

(** Removing a UE context without partner. *)
Lemma link_remove_ue ues enbs to_enb to_ue i :
  link_ok ues enbs to_enb to_ue → to_enb i = None → link_ok (ues ∖ {[i]}) enbs to_enb to_ue.
Proof.
  intros [H1 H2] Ei. split.
  - intros j e E. destruct (H1 j e E) as (?&?&?). assert (j ≠ i) by congruence. set_solver.
  - intros e j E. destruct (H2 e j E) as (?&?&?). assert (j ≠ i) by congruence. set_solver.
Qed.
End link.

Section spec.
Context `{Host, OgsBits, OgsPkbuf, NasSecurity.Crypto, KeyedHash, OgsPlmn, !OgsPlmnDigits,
          !Ogs3gpp, OgsSizes, NasCodec, OgsImsi, OgsTime, OgsFsmLaws, NasDecoder}.
Context `{OgsPoolLaws, !OgsPoolSized, !OgsPoolSizedLaws, OgsListLaws, OgsNextId, OgsHashLaws,
          OgsFsmInitLaws} (self : mme_context_t) (conf : table_conf).
Implicit Types (s : table).

Definition guti_of s (i : Z) : list Z := guti (ident (ctx (mme_ues s i))).

(** Live contexts have an M-TMSI of their own and the GUTI made of it; the
    GUTI table finds exactly them. *)
Record ue_ok s : Prop := {
  uo_list : NoDup (mme_ue_list s) ∧ ∀ i, i ∈ mme_ue_list s ↔ live i s;
  uo_tmsi i : live i s → ∃ t m, ue_m_tmsi (mme_ues s i) = Some t ∧ t ∈ pool_used (m_tmsi_pool s) ∧
    1 <= t ∧ m_tmsis s !! Z.to_nat (t - 1) = Some m ∧ guti_of s i = own_guti conf m;
  uo_inj i j : live i s → live j s → ue_m_tmsi (mme_ues s i) = ue_m_tmsi (mme_ues s j) → i = j;
  uo_guti g i : ogs_hash_get (guti_ue_hash s) g = Some i ↔ live i s ∧ guti_of s i = g;
  uo_values : NoDup (m_tmsis s) ∧ Forall (λ m, 0 <= m < 2 ^ 32) (m_tmsis s);
  uo_size : pool_size (m_tmsi_pool s) = Z.of_nat (length (m_tmsis s));
}.
(** The list of each eNB holds its S1 contexts; an identifier finds a live
    one that has it. *)
Record enb_ok s : Prop := {
  eo_list b : NoDup (enb_ue_lists s b) ∧
    ∀ e, e ∈ enb_ue_lists s b ↔ live_enb e s ∧ e_enb (enb_ues s e) = b;
  eo_ids k e : ogs_hash_get (mme_ue_s1ap_id_hash s) k = Some e →
    live_enb e s ∧ host_bytes 4 (mme_ue_s1ap_id (enb_ues s e)) = k;
}.
Definition links_ok s : Prop :=
  link_ok (pool_used (mme_ue_pool s)) (pool_used (enb_ue_pool s))
    (λ i, ue_enb_ue (mme_ues s i)) (λ e, e_mme_ue (enb_ues s e)).
Record table_ok s : Prop := { t_ue : ue_ok s; t_enb : enb_ok s; t_link : links_ok s }.

(** Frames: the invariant reads these parts only. *)
Definition same_ues s s' : Prop :=
  mme_ue_pool s' = mme_ue_pool s ∧ mme_ue_list s' = mme_ue_list s ∧
  m_tmsi_pool s' = m_tmsi_pool s ∧ m_tmsis s' = m_tmsis s ∧ guti_ue_hash s' = guti_ue_hash s ∧
  ∀ i, ue_m_tmsi (mme_ues s' i) = ue_m_tmsi (mme_ues s i) ∧ guti_of s' i = guti_of s i.
Definition same_enbs s s' : Prop :=
  enb_ue_pool s' = enb_ue_pool s ∧ enb_ue_lists s' = enb_ue_lists s ∧
  mme_ue_s1ap_id_hash s' = mme_ue_s1ap_id_hash s ∧
  ∀ e, e_enb (enb_ues s' e) = e_enb (enb_ues s e) ∧
       mme_ue_s1ap_id (enb_ues s' e) = mme_ue_s1ap_id (enb_ues s e).
Definition same_links s s' : Prop :=
  (∀ i, ue_enb_ue (mme_ues s' i) = ue_enb_ue (mme_ues s i)) ∧
  (∀ e, e_mme_ue (enb_ues s' e) = e_mme_ue (enb_ues s e)).

Lemma ue_ok_frame s s' : ue_ok s → same_ues s s' → ue_ok s'.
Proof.
  intros [Hl Ht Hi Hg Hv Hz] (E1 & E2 & E3 & E4 & E5 & E6).
  assert (Hlive : ∀ i, live i s' ↔ live i s) by (intros i; unfold live; by rewrite E1).
  split; rewrite ?E2, ?E3, ?E4; auto.
  - split; [apply Hl|]. intros i. rewrite Hlive. apply Hl.
  - intros i. rewrite Hlive. intros Hi'. destruct (E6 i) as [-> ->]. by apply Ht.
  - intros i j. rewrite !Hlive, (proj1 (E6 i)), (proj1 (E6 j)). apply Hi.
  - intros g i. rewrite Hlive, (proj2 (E6 i)), E5. apply Hg.
Qed.
Lemma enb_ok_frame s s' : enb_ok s → same_enbs s s' → enb_ok s'.
Proof.
  intros [Hl Hi] (E1 & E2 & E3 & E4).
  assert (Hlive : ∀ i, live_enb i s' ↔ live_enb i s) by (intros i; unfold live_enb; by rewrite E1).
  split.
  - intros b. rewrite E2. split; [apply Hl|]. intros e. rewrite Hlive, (proj1 (E4 e)). apply Hl.
  - intros k e. rewrite E3, Hlive, (proj2 (E4 e)). apply Hi.
Qed.
Lemma links_ok_frame s s' :
  links_ok s → same_links s s' → mme_ue_pool s' = mme_ue_pool s → enb_ue_pool s' = enb_ue_pool s →
  links_ok s'.
Proof. intros Hl [E1 E2] E3 E4. unfold links_ok. rewrite E3, E4. by eapply link_ext. Qed.

(** ** S1 contexts *)
Definition removed (e : Z) s : table :=
  let o := enb_ues s e in
  set_enb_ue_pool (pool_free e (enb_ue_pool s))
    (set_s1ap_hash (ogs_hash_set (mme_ue_s1ap_id_hash s) (host_bytes 4 (mme_ue_s1ap_id o)) None)
      (set_enb_ue_lists (alter (λ l, ogs_list_remove l e) (e_enb o) (enb_ue_lists s))
        (set_enb_ues (alter (set_e_mme_ue None) e
          (alter (λ o, set_e_content (with_release_timer (λ _, timer_cleared) (e_content o)) o) e
             (enb_ues s))) s))).

Lemma wp_enb_ue_remove e s Q : live_enb e s → Q () (removed e s) → wp (enb_ue_remove e) s Q.
Proof.
  intros He HQ. apply wp_bind, wp_the_enb_ue_obj; [done|].
  apply wp_bind, wp_on_enb_ue_obj; [done|]. apply wp_bind, wp_on_enb_ue_obj; [done|].
  apply wp_bind, wp_modify, wp_bind, wp_modify, wp_modify. exact HQ.
Qed.

Lemma removed_live e s x : live_enb x (removed e s) ↔ live_enb x s ∧ x ≠ e.
Proof. unfold live_enb. simpl. rewrite pool_used_free. set_solver. Qed.
Lemma removed_mme_ue e s x :
  e_mme_ue (enb_ues (removed e s) x) = <[e := None]> (λ e, e_mme_ue (enb_ues s e)) x.
Proof.
  simpl. destruct (decide (e = x)) as [->|Hn].
  - by rewrite !fn_lookup_alter, fn_lookup_insert.
  - by rewrite !fn_lookup_alter_ne, fn_lookup_insert_ne.
Qed.
Lemma removed_keeps e s x :
  e_enb (enb_ues (removed e s) x) = e_enb (enb_ues s x) ∧
  mme_ue_s1ap_id (enb_ues (removed e s) x) = mme_ue_s1ap_id (enb_ues s x).
Proof.
  simpl. destruct (decide (e = x)) as [->|Hn];
    [by rewrite !fn_lookup_alter|by rewrite !fn_lookup_alter_ne].
Qed.

Lemma removed_enb_ok e s : enb_ok s → live_enb e s → enb_ok (removed e s).
Proof.
  intros [Hl Hi] He. split.
  - intros b. destruct (Hl b) as [Hnd Hb]. simpl.
    assert (Hx : ∀ x, live_enb x (removed e s) ∧ e_enb (enb_ues (removed e s) x) = b
              ↔ x ∈ enb_ue_lists s b ∧ x ≠ e).
    { intros x. rewrite removed_live, (proj1 (removed_keeps e s x)), Hb. tauto. }
    destruct (decide (e_enb (enb_ues s e) = b)) as [<-|Hn].
    + rewrite fn_lookup_alter. pose proof (ogs_list_remove_perm _ e Hnd) as Hp.
      split; [rewrite Hp; by apply list.NoDup_filter|].
      intros x. rewrite Hp, list_elem_of_filter, Hx. tauto.
    + rewrite fn_lookup_alter_ne by done. split; [done|]. intros x. rewrite Hx.
      split; [|tauto]. intros Hin. split; [done|]. intros ->. by apply Hb in Hin as [_ Eb].
  - intros k x. simpl. rewrite hash_get_set. case_decide as Hk; [done|].
    intros E. destruct (Hi k x E) as [Hx Ex]. rewrite removed_live.
    rewrite <- (proj2 (removed_keeps e s x)) in Ex. split; [|exact Ex]. split; [done|].
    intros ->. rewrite (proj2 (removed_keeps e s e)) in Ex. done.
Qed.

(** A new S1 context. *)
Lemma wp_enb_ue_add b s Q :
  (∀ e p id, pool_alloc (enb_ue_pool s) = Some (e, p) →
     let s' := set_enb_ue_lists (alter (λ l, ogs_list_add l e) b (enb_ue_lists s))
       (set_s1ap_hash (ogs_hash_set (mme_ue_s1ap_id_hash s) (host_bytes 4 id) (Some e))
         (set_enb_ues (alter (λ o, set_e_content (with_release_timer timer_stopped (e_content o))
             (set_e_enb b (set_enb_ue_s1ap_id INVALID_UE_S1AP_ID (set_mme_ue_s1ap_id id o)))) e (enb_ues s))
           (set_next_s1ap_id id (set_enb_ue_pool p s)))) in
     Q e s') →
  wp (enb_ue_add b) s Q.
Proof.
  intros HQ. apply wp_bind, wp_get. destruct (pool_alloc (enb_ue_pool s)) as [[e p]|] eqn:E; [|done].
  apply wp_bind, wp_modify, wp_bind, wp_modify, wp_bind, wp_on_enb_ue_obj.
  { unfold live_enb. simpl. destruct (pool_alloc_fresh _ _ _ E) as [_ ->]. set_solver. }
  apply wp_bind, wp_modify, wp_bind, wp_modify, wp_ret. by apply HQ.
Qed.

(** What both operations on S1 contexts leave alone. *)
Definition same_ue_side s s' : Prop :=
  mme_ue_pool s' = mme_ue_pool s ∧ mme_ues s' = mme_ues s ∧ mme_ue_list s' = mme_ue_list s ∧
  m_tmsi_pool s' = m_tmsi_pool s ∧ m_tmsis s' = m_tmsis s ∧ guti_ue_hash s' = guti_ue_hash s ∧
  queue s' = queue s.
Lemma same_ue_side_ok s s' : same_ue_side s s' → ue_ok s → ue_ok s'.
Proof.
  intros (E1 & E2 & E3 & E4 & E5 & E6 & _) Hok. eapply ue_ok_frame; [exact Hok|].
  unfold same_ues, guti_of. rewrite E2. by split_and!.
Qed.

(** [e] is the S1 context that [enb_ue_add] has put on eNB [b]. *)
Definition enb_added b s (e : Z) s' : Prop :=
  same_ue_side s s' ∧ ¬ live_enb e s ∧ (∀ x, live_enb x s' ↔ x = e ∨ live_enb x s) ∧
  (∀ x, e_mme_ue (enb_ues s' x) = e_mme_ue (enb_ues s x)) ∧ e_enb (enb_ues s' e) = b.
Lemma wp_enb_ue_add_enb b s :
  enb_ok s → wp (enb_ue_add b) s (λ e s', enb_ok s' ∧ enb_added b s e s').
Proof.
  intros [Hl Hi]. apply wp_enb_ue_add. intros e p id E s'.
  destruct (pool_alloc_fresh _ _ _ E) as [Hf Hp].
  assert (Hlive : ∀ x, live_enb x s' ↔ x = e ∨ live_enb x s)
    by (intros x; unfold live_enb; subst s'; simpl; rewrite Hp; set_solver).
  split; [split|split_and!; [done|done|done| |subst s'; simpl; by rewrite fn_lookup_alter]].
  - intros b'. destruct (Hl b') as [Hnd Hb']. subst s'. simpl.
    destruct (decide (b = b')) as [<-|Hn].
    + rewrite fn_lookup_alter. split.
      { rewrite ogs_list_add_perm. apply list.NoDup_cons. split; [|done]. by rewrite Hb'; intros [? _]. }
      intros x. rewrite ogs_list_add_perm, elem_of_cons, Hb'. destruct (decide (x = e)) as [->|Hx].
      { rewrite fn_lookup_alter. split; [intros _|by left]. split; [apply Hlive; by left|done]. }
      rewrite fn_lookup_alter_ne by done. setoid_rewrite Hlive. naive_solver.
    + rewrite fn_lookup_alter_ne by done. split; [done|]. intros x. rewrite Hb'.
      destruct (decide (x = e)) as [->|Hx].
      { rewrite fn_lookup_alter. split; [by intros [? _]|by intros [_ ?]]. }
      rewrite fn_lookup_alter_ne by done. setoid_rewrite Hlive. naive_solver.
  - intros k x. subst s'. simpl. rewrite hash_get_set. case_decide as Hk'.
    + intros [= <-]. split; [apply Hlive; by left|]. by rewrite fn_lookup_alter.
    + intros Ex. destruct (Hi k x Ex) as [Hx Ek]. split; [apply Hlive; by right|].
      by rewrite fn_lookup_alter_ne by (by intros ->).
  - intros x. subst s'. simpl. destruct (decide (e = x)) as [->|Hx];
      [by rewrite fn_lookup_alter|by rewrite fn_lookup_alter_ne].
Qed.
Lemma wp_enb_ue_add_ok b s :
  table_ok s → wp (enb_ue_add b) s (λ e s', table_ok s' ∧ enb_added b s e s').
Proof.
  intros [Hu Hen Hk]. eapply wp_mono; [by apply wp_enb_ue_add_enb|].
  intros e s' (Hen' & Ha). pose proof Ha as (Hs & _ & Hlive & Hm & _).
  split; [split|done]; [by eapply same_ue_side_ok|done|].
  pose proof Hs as (Ep & Eu & _). unfold links_ok. rewrite Ep, Eu.
  eapply link_ext; [|done|exact Hm]. eapply link_mono; [exact Hk|done|].
  intros x Hx. apply Hlive. by right.
Qed.

Lemma removed_table_ok e s :
  table_ok s → live_enb e s → (∀ i, e_mme_ue (enb_ues s e) ≠ Some i) → table_ok (removed e s).
Proof.
  intros [Hu He Hk] Hl Hn. split; [by apply (same_ue_side_ok s)|by apply removed_enb_ok|].
  pose proof (link_remove_enb _ _ _ _ e Hk) as Hk'. unfold links_ok. simpl. rewrite pool_used_free.
  eapply link_ext; [exact Hk'| |].
  - intros i. simpl. by rewrite decide_False.
  - intros x. apply removed_mme_ue.
Qed.

(** [on_ue_obj i (set_ue_enb_ue l)] on the invariant's parts. *)
Lemma set_link_ues s i l :
  same_ues s (set_mme_ues (alter (set_ue_enb_ue l) i (mme_ues s)) s).
Proof.
  split_and!; [done..|]. intros j. unfold guti_of. simpl.
  destruct (decide (i = j)) as [->|]; [by rewrite fn_lookup_alter|by rewrite fn_lookup_alter_ne].
Qed.
Lemma set_back_enbs s e l :
  same_enbs s (set_enb_ues (alter (set_e_mme_ue l) e (enb_ues s)) s).
Proof.
  split_and!; [done..|]. intros j. simpl.
  destruct (decide (e = j)) as [->|]; [by rewrite fn_lookup_alter|by rewrite fn_lookup_alter_ne].
Qed.

(** The links while the pointer of UE context [i] is stale. *)
Definition links_without (i : Z) s : Prop :=
  link_ok (pool_used (mme_ue_pool s)) (pool_used (enb_ue_pool s))
    (<[i := None]> (λ i, ue_enb_ue (mme_ues s i))) (λ e, e_mme_ue (enb_ues s e)).

Lemma links_without_none i s : links_ok s → ue_enb_ue (mme_ues s i) = None → links_without i s.
Proof.
  intros Hk Ei. eapply link_ext; [exact Hk| |done]. intros j.
  destruct (decide (i = j)) as [->|]; [by rewrite fn_lookup_insert|by rewrite fn_lookup_insert_ne].
Qed.
Lemma links_without_removed i o s :
  links_ok s → e_mme_ue (enb_ues s o) = Some i → links_without i (removed o s).
Proof.
  intros Hk Ei. unfold links_without. simpl. rewrite pool_used_free.
  eapply link_ext; [apply (link_remove_enb _ _ _ _ o Hk)| |intros x; apply (removed_mme_ue o s x)].
  intros j. simpl. rewrite Ei. case_decide as Hd.
  - injection Hd as ->. by rewrite fn_lookup_insert.
  - by rewrite fn_lookup_insert_ne by congruence.
Qed.

(** [if (ECM_CONNECTED(mme_ue)) enb_ue_remove(mme_ue->enb_ue);
     mme_ue_associate_enb_ue(mme_ue, enb_ue)] *)
Definition reassociated i e s s' : Prop :=
  live i s' ∧ live_enb e s' ∧ ue_enb_ue (mme_ues s' i) = Some e ∧
  (∀ o, ue_enb_ue (mme_ues s i) = Some o → ¬ live_enb o s') ∧ queue s' = queue s ∧
  (∀ j, ctx (mme_ues s' j) = ctx (mme_ues s j)) ∧ mme_ue_pool s' = mme_ue_pool s ∧
  (∀ x, e_enb (enb_ues s' x) = e_enb (enb_ues s x)).

Lemma associate_ok i e s :
  ue_ok s → enb_ok s → links_without i s → live i s → live_enb e s →
  e_mme_ue (enb_ues s e) = None →
  table_ok (set_enb_ues (alter (set_e_mme_ue (Some i)) e (enb_ues s))
    (set_mme_ues (alter (set_ue_enb_ue (Some e)) i (mme_ues s)) s)).
Proof.
  intros Hu Hen Hk Hi He Ee. split.
  - eapply ue_ok_frame; [exact Hu|]. apply (set_link_ues s i (Some e)).
  - eapply enb_ok_frame; [exact Hen|]. apply (set_back_enbs s e (Some i)).
  - unfold links_ok. simpl. eapply link_ext; [apply (link_associate _ _ _ _ i e Hk); try done| |].
    + by rewrite fn_lookup_insert.
    + intros j. destruct (decide (i = j)) as [->|].
      * by rewrite fn_lookup_alter, fn_lookup_insert.
      * by rewrite fn_lookup_alter_ne, !fn_lookup_insert_ne.
    + intros j. destruct (decide (e = j)) as [->|].
      * by rewrite fn_lookup_alter, fn_lookup_insert.
      * by rewrite fn_lookup_alter_ne, fn_lookup_insert_ne.
Qed.

Lemma wp_associate_enb_ue i e s Q :
  live i s → live_enb e s →
  Q () (set_enb_ues (alter (set_e_mme_ue (Some i)) e (enb_ues s))
         (set_mme_ues (alter (set_ue_enb_ue (Some e)) i (mme_ues s)) s)) →
  wp (mme_ue_associate_enb_ue i e) s Q.
Proof. intros Hi He HQ. apply wp_bind, wp_on_ue_obj; [done|]. by apply wp_on_enb_ue_obj. Qed.

Lemma associated_fields i e s :
  let s' := set_enb_ues (alter (set_e_mme_ue (Some i)) e (enb_ues s))
    (set_mme_ues (alter (set_ue_enb_ue (Some e)) i (mme_ues s)) s) in
  ue_enb_ue (mme_ues s' i) = Some e ∧ (∀ j, ctx (mme_ues s' j) = ctx (mme_ues s j)) ∧
  (∀ x, e_enb (enb_ues s' x) = e_enb (enb_ues s x)).
Proof.
  simpl. split_and!; [by rewrite fn_lookup_alter| |]; intros j.
  - destruct (decide (i = j)) as [->|]; [by rewrite fn_lookup_alter|by rewrite fn_lookup_alter_ne].
  - destruct (decide (e = j)) as [->|]; [by rewrite fn_lookup_alter|by rewrite fn_lookup_alter_ne].
Qed.

(** What the implicit release follows is a live S1 context. *)
Definition release_safe i (e : Z) s : Prop :=
  ∀ o, ue_enb_ue (mme_ues s i) = Some o → live_enb o s ∧ o ≠ e.
Definition associated i e s : table :=
  set_enb_ues (alter (set_e_mme_ue (Some i)) e (enb_ues s))
    (set_mme_ues (alter (set_ue_enb_ue (Some e)) i (mme_ues s)) s).
Definition released_ue i s : table :=
  match ue_enb_ue (mme_ues s i) with Some o => removed o s | None => s end.

Lemma wp_reassociate i e s :
  live i s → live_enb e s → release_safe i e s →
  wp (implicit_release i;; mme_ue_associate_enb_ue i e) s (λ _ s',
    s' = associated i e (released_ue i s) ∧ reassociated i e s s').
Proof.
  intros Hi He Ho. unfold released_ue, reassociated. apply wp_bind, wp_bind, wp_the_ue; [done|].
  unfold release_safe in Ho. destruct (ue_enb_ue (mme_ues s i)) as [o|] eqn:Ei.
  - destruct (Ho o eq_refl) as [Hlo Hne]. apply wp_enb_ue_remove; [done|].
    assert (He' : live_enb e (removed o s)) by (by apply removed_live).
    apply wp_associate_enb_ue; [done|done|]. destruct (associated_fields i e (removed o s)) as (E1 & E2 & E3).
    split; [done|]. split_and!; [done|done|exact E1| |done|exact E2|done|].
    + intros o' [= <-] Hl. by apply removed_live in Hl as [_ Hl].
    + intros x. rewrite E3. apply removed_keeps.
  - apply wp_ret. apply wp_associate_enb_ue; [done|done|]. destruct (associated_fields i e s) as (E1 & E2 & E3).
    split; [done|]. by split_and!.
Qed.
Lemma linked_release_safe i e s :
  links_ok s → e_mme_ue (enb_ues s e) = None → release_safe i e s.
Proof.
  intros Hk Ee o Ei. destruct (link_enb _ _ _ _ Hk i o Ei) as (_ & Ho & Eo). split; [done|congruence].
Qed.
Lemma reassociate_table_ok i e s :
  table_ok s → live i s → live_enb e s → e_mme_ue (enb_ues s e) = None →
  table_ok (associated i e (released_ue i s)).
Proof.
  intros [Hu Hen Hk] Hi He Ee. unfold released_ue. destruct (ue_enb_ue (mme_ues s i)) as [o|] eqn:Ei.
  - destruct (link_enb _ _ _ _ Hk i o Ei) as (_ & Ho & Eo). assert (o ≠ e) by congruence.
    apply associate_ok; [by apply (same_ue_side_ok s)|by apply removed_enb_ok
      |by apply links_without_removed|done|by apply removed_live|].
    rewrite removed_mme_ue. by rewrite fn_lookup_insert_ne.
  - apply associate_ok; [done|done|by apply links_without_none|done|done|done].
Qed.

(** ** The initial UE message *)
(** Writes to an S1 context that leave its pointers, eNB and MME identifier
    alone. *)
Definition keeps_enb (f : enb_ue_obj → enb_ue_obj) : Prop :=
  ∀ o, e_mme_ue (f o) = e_mme_ue o ∧ e_enb (f o) = e_enb o ∧ mme_ue_s1ap_id (f o) = mme_ue_s1ap_id o.

Lemma keeps_enb_alter f e s x :
  keeps_enb f →
  let o' := alter f e (enb_ues s) x in
  e_mme_ue o' = e_mme_ue (enb_ues s x) ∧ e_enb o' = e_enb (enb_ues s x) ∧
  mme_ue_s1ap_id o' = mme_ue_s1ap_id (enb_ues s x).
Proof.
  intros Hf o'. subst o'. destruct (decide (e = x)) as [->|];
    [rewrite fn_lookup_alter; apply Hf|by rewrite fn_lookup_alter_ne].
Qed.
Lemma keeps_enb_ok f e s :
  keeps_enb f → table_ok s → table_ok (set_enb_ues (alter f e (enb_ues s)) s).
Proof.
  intros Hf [Hu Hen Hk]. split; [by apply (same_ue_side_ok s)| |].
  - eapply enb_ok_frame; [exact Hen|]. split_and!; [done..|].
    intros x. by destruct (keeps_enb_alter f e s x Hf) as (_ & ? & ?).
  - eapply links_ok_frame; [exact Hk| |done|done]. split; [done|].
    intros x. by destruct (keeps_enb_alter f e s x Hf) as (? & _ & _).
Qed.

Lemma wp_find_s1ap_id l id s :
  (∀ e, e ∈ l → live_enb e s) →
  wp (find_s1ap_id l id) s (λ r s', s' = s ∧
    match r with
    | Some e => e ∈ l ∧ enb_ue_s1ap_id (enb_ues s e) = id
    | None => ∀ e, e ∈ l → enb_ue_s1ap_id (enb_ues s e) ≠ id
    end).
Proof.
  induction l as [|e l IH]; intros Hl; cbn [find_s1ap_id].
  - apply wp_ret. split; [done|]. intros e He. by apply not_elem_of_nil in He.
  - apply wp_bind, wp_the_enb_ue_obj; [apply Hl; by left|].
    destruct (Z.eqb_spec (enb_ue_s1ap_id (enb_ues s e)) id) as [E|E].
    + apply wp_ret. split; [done|]. split; [by left|done].
    + eapply wp_mono; [apply IH; intros x Hx; apply Hl; by right|].
      intros r s' [-> Hr]. split; [done|]. destruct r as [x|].
      * destruct Hr. split; [by right|done].
      * intros x Hx. apply elem_of_cons in Hx as [->|Hx]; auto.
Qed.

Lemma wp_find_by_s1ap_id b id s :
  enb_ok s →
  wp (enb_ue_find_by_enb_ue_s1ap_id b id) s (λ r s', s' = s ∧
    match r with
    | Some e => live_enb e s ∧ e_enb (enb_ues s e) = b ∧ enb_ue_s1ap_id (enb_ues s e) = id
    | None => ∀ e, live_enb e s → e_enb (enb_ues s e) = b → enb_ue_s1ap_id (enb_ues s e) ≠ id
    end).
Proof.
  intros Hen. destruct (eo_list s Hen b) as [_ Hb].
  apply wp_bind, wp_get. eapply wp_mono; [apply wp_find_s1ap_id; intros e He; by apply Hb|].
  intros r s' [-> Hr]. split; [done|]. destruct r as [e|].
  - destruct Hr as [He E]. apply Hb in He as [? ?]. done.
  - intros e He Eb. apply Hr, Hb. done.
Qed.

(** The UE context that an S-TMSI names. *)
Definition named s (s_tmsi : option (Z * Z)) : option Z :=
  '(mmec, tmsi) ← s_tmsi; ogs_hash_get (guti_ue_hash s) (nas_guti conf mmec tmsi).
Definition known_id s (b id : Z) : Prop :=
  ∃ e, live_enb e s ∧ e_enb (enb_ues s e) = b ∧ enb_ue_s1ap_id (enb_ues s e) = id.

(** The S1 context that an initial UE message releases. *)
Definition releases b id st s (o : Z) : Prop :=
  ¬ known_id s b id ∧ ∃ i, named s st = Some i ∧ ue_enb_ue (mme_ues s i) = Some o.

(** After the first part of an initial UE message: the S1 context [e]; when
    it is new, the UE context named by the S-TMSI is associated with it, and
    the S1 context it had is gone. *)
Record initial_post (b id : Z) (st : option (Z * Z)) s (e : Z) s' : Prop := {
  ip_live : live_enb e s' ∧ e_enb (enb_ues s' e) = b;
  ip_queue : queue s' = queue s;
  ip_pool : mme_ue_pool s' = mme_ue_pool s;
  ip_ctx j : ctx (mme_ues s' j) = ctx (mme_ues s j);
  ip_named i : ¬ known_id s b id → named s st = Some i →
    live i s ∧ ue_enb_ue (mme_ues s' i) = Some e ∧ ¬ live_enb e s ∧
    ∀ o, ue_enb_ue (mme_ues s i) = Some o → ¬ live_enb o s';
}.

Lemma location_keeps t g : keeps_enb (λ o, set_e_content (with_location t g (e_content o)) o).
Proof. done. Qed.

(** The first part of an initial UE message under an invariant of the table,
    when the S1 context it releases is live. *)
Section initial.
Context (Inv : table → Prop) (inv_enb : ∀ s, Inv s → enb_ok s)
  (inv_guti : ∀ s g i, Inv s → ogs_hash_get (guti_ue_hash s) g = Some i → live i s)
  (inv_fresh : ∀ s e i, Inv s → e_mme_ue (enb_ues s e) = Some i → live_enb e s)
  (inv_keeps : ∀ f e s, keeps_enb f → Inv s → Inv (set_enb_ues (alter f e (enb_ues s)) s))
  (inv_add : ∀ b s, Inv s → wp (enb_ue_add b) s (λ e s', Inv s' ∧ enb_added b s e s'))
  (inv_associate : ∀ i e s, Inv s → live i s → live_enb e s → e_mme_ue (enb_ues s e) = None →
     release_safe i e s → Inv (associated i e (released_ue i s))).

Lemma wp_take_over st e s :
  Inv s → live_enb e s → e_mme_ue (enb_ues s e) = None →
  (∀ i, named s st = Some i → release_safe i e s) →
  wp (match st with
      | None => mret ()
      | Some (mmec, tmsi) =>
          ue ← mme_ue_find_by_guti (nas_guti conf mmec tmsi);
          match ue with
          | None => mret ()
          | Some i => implicit_release i;; mme_ue_associate_enb_ue i e
          end
      end) s (λ _ s', Inv s' ∧
    match named s st with Some i => live i s ∧ reassociated i e s s' | None => s' = s end).
Proof.
  intros Hok He Ee. unfold named. destruct st as [[mmec tmsi]|]; [|by intros _; apply wp_ret].
  cbn [mbind option_bind]. intros Hs. apply wp_bind, wp_gets.
  destruct (ogs_hash_get (guti_ue_hash s) (nas_guti conf mmec tmsi)) as [i|] eqn:E;
    [|by apply wp_ret].
  specialize (Hs i eq_refl). pose proof (inv_guti s _ i Hok E) as Hi.
  eapply wp_mono; [by apply wp_reassociate|]. intros [] s' [-> Hr].
  split; [by apply inv_associate|done].
Qed.

Lemma wp_initial_ue_context b id st t g s :
  Inv s → (∀ o, releases b id st s o → live_enb o s) →
  wp (initial_ue_context conf b id st t g) s (λ e s', Inv s' ∧ initial_post b id st s e s').
Proof.
  intros Hok Ho. apply wp_bind. eapply wp_mono; [apply wp_find_by_s1ap_id, inv_enb, Hok|].
  intros r s0 [-> Hr]. destruct r as [e|].
  - destruct Hr as (He & Eb & Eid). apply wp_bind, wp_ret, wp_bind, wp_on_enb_ue_obj; [done|].
    apply wp_ret. split; [by apply inv_keeps|]. split; [|done|done|done|].
    + split; [done|]. simpl. rewrite fn_lookup_alter. done.
    + intros i Hn. destruct Hn. by exists e.
  - assert (Hnk : ¬ known_id s b id) by (intros (x & Hx & Eb & Eid); by apply (Hr x)).
    apply wp_bind, wp_bind. eapply wp_mono; [by apply inv_add|].
    intros e s1 (Hok1 & (U1 & U2 & U3 & U4 & U5 & U6 & U7) & Hnew & Hlive & Em & Eb1). cbv beta.
    assert (He1 : live_enb e s1) by (apply Hlive; by left).
    apply wp_bind, wp_on_enb_ue_obj; [done|].
    set (s2 := set_enb_ues _ s1).
    assert (Ee2 : e_mme_ue (enb_ues s2 e) = None).
    { simpl. rewrite fn_lookup_alter. simpl. rewrite Em.
      destruct (e_mme_ue (enb_ues s e)) as [i|] eqn:Ei; [|done]. by destruct Hnew; apply (inv_fresh s e i). }
    assert (Eb2 : e_enb (enb_ues s2 e) = b) by (simpl; by rewrite fn_lookup_alter).
    assert (Hnm : named s2 st = named s st) by (unfold named; simpl; by rewrite U6).
    apply wp_bind. eapply wp_mono; [apply (wp_take_over st e s2); [by apply inv_keeps|done|done|]|].
    { rewrite Hnm. intros i Ei o. simpl. rewrite U2. intros Eo.
      assert (Hlo : live_enb o s) by (apply Ho; split; [done|by exists i]).
      split; [apply Hlive; by right|by intros ->]. }
    intros [] s3 [Hok3 Hn]. cbv beta. rewrite Hnm in Hn.
    assert (Hpost : live_enb e s3 ∧ queue s3 = queue s2 ∧
      mme_ue_pool s3 = mme_ue_pool s2 ∧ (∀ j, ctx (mme_ues s3 j) = ctx (mme_ues s2 j)) ∧
      e_enb (enb_ues s3 e) = b).
    { destruct (named s st) as [i|]; [|by subst s3; rewrite Eb2].
      destruct Hn as (_ & _ & He3 & _ & _ & Q3 & C3 & P3 & B3).
      by rewrite B3, Eb2. }
    destruct Hpost as (He3 & Q3 & P3 & C3 & B3).
    apply wp_ret, wp_bind, wp_on_enb_ue_obj; [done|]. apply wp_ret. split; [by apply inv_keeps|]. split.
    + split; [done|]. simpl. by rewrite fn_lookup_alter.
    + simpl. by rewrite Q3.
    + simpl. by rewrite P3.
    + intros j. simpl. by rewrite C3, <- U2.
    + intros i _ Ei. rewrite Ei in Hn. destruct Hn as (Hi & _ & _ & El & Hro & _).
      split_and!; [unfold live in *; simpl in Hi; by rewrite <- U1|exact El|done|].
      intros o Eo. apply Hro. simpl. by rewrite U2.
Qed.
End initial.

Lemma wp_initial_table_ok b id st t g s :
  table_ok s →
  wp (initial_ue_context conf b id st t g) s (λ e s', table_ok s' ∧ initial_post b id st s e s').
Proof.
  intros Hok. apply (wp_initial_ue_context table_ok); [|intros s1..| | | |done|].
  - by intros s1 [].
  - intros g' i Hok1 E. by apply (uo_guti s1 (t_ue s1 Hok1)) in E as [? _].
  - intros e i Hok1 E. by destruct (link_ue _ _ _ _ (t_link s1 Hok1) e i E).
  - intros f e s1. apply keeps_enb_ok.
  - intros b' s1. apply wp_enb_ue_add_ok.
  - intros i e s1 Hok1 Hi He Ee _. by apply reassociate_table_ok.
  - intros o (_ & i & _ & Eo). by destruct (link_enb _ _ _ _ (t_link s Hok) i o Eo) as (_ & ? & _).
Qed.

(** ** New UE contexts *)
(** What changes neither identities nor links nor S1 contexts. *)
Definition frame s s' : Prop :=
  same_ues s s' ∧ (∀ i, ue_enb_ue (mme_ues s' i) = ue_enb_ue (mme_ues s i)) ∧
  enb_ue_pool s' = enb_ue_pool s ∧ enb_ue_lists s' = enb_ue_lists s ∧
  mme_ue_s1ap_id_hash s' = mme_ue_s1ap_id_hash s ∧ enb_ues s' = enb_ues s ∧ queue s' = queue s.
#[local] Instance frame_preorder : PreOrder frame.
Proof.
  unfold frame, same_ues. split; [by intros s|].
  intros s1 s2 s3 ((A1&A2&A3&A4&A5&A6)&A7&A8&A9&A10&A11&A12) ((B1&B2&B3&B4&B5&B6)&B7&B8&B9&B10&B11&B12).
  split_and!; try congruence.
  intros i. destruct (A6 i), (B6 i). split; congruence.
Qed.
Lemma frame_table_ok s s' : table_ok s → frame s s' → table_ok s'.
Proof.
  intros [Hu Hen Hk] (Hs & Hl & E1 & E2 & E3 & E4 & _). split.
  - by eapply ue_ok_frame.
  - eapply enb_ok_frame; [exact Hen|]. unfold same_enbs. by rewrite E4.
  - eapply links_ok_frame; [exact Hk|split; [done|by rewrite E4]|apply Hs|done].
Qed.
Lemma frame_live s s' i : frame s s' → live i s → live i s'.
Proof. intros ((E & _) & _). unfold live. by rewrite E. Qed.

(** Writes to a UE context that keep its identities and its link. *)
Definition keeps_ue (f : ue_obj → ue_obj) (u : ue_obj) : Prop :=
  ue_m_tmsi (f u) = ue_m_tmsi u ∧ guti (ident (ctx (f u))) = guti (ident (ctx u)) ∧
  ue_enb_ue (f u) = ue_enb_ue u.
Lemma keeps_ue_frame f i s :
  keeps_ue f (mme_ues s i) → frame s (set_mme_ues (alter f i (mme_ues s)) s).
Proof.
  intros (H1' & H2' & H3'). split; [split_and!; try done|split; [|done]];
    intros j; unfold guti_of; simpl;
    (destruct (decide (i = j)) as [->|];
     [rewrite fn_lookup_alter; split_and?; congruence|by rewrite fn_lookup_alter_ne]).
Qed.
Lemma wp_keeps_ue f i s (Q : () → table → Prop) :
  live i s → keeps_ue f (mme_ues s i) → (∀ s', frame s s' → Q () s') → wp (on_ue_obj i f) s Q.
Proof. intros Hi Hf HQ. apply wp_on_ue_obj; [done|]. by apply HQ, keeps_ue_frame. Qed.

Lemma wp_select_sgw t s (Q : Z → table → Prop) :
  (∀ g s', frame s s' → Q g s') → wp (select_sgw conf t) s Q.
Proof.
  intros HQ. apply wp_bind, wp_get. destruct (sgw_selection conf).
  - destruct (match sgw s with [] => _ | _ => _ end) as [|g l]; [done|].
    apply wp_bind, wp_modify, wp_ret. by apply HQ.
  - apply wp_bind, wp_modify. destruct (sgw_of_tac _ _) as [|g l]; [done|].
    apply wp_ret. by apply HQ.
Qed.

(** [ogs_fsm_init] brings the state machine to de-registered. *)
Lemma fsm_init_initial u :
  sm u = emm_state_initial →
  wp (ogs_fsm_init emm_state_eq_dec sm (emm_state_handler self)) u (λ _ u',
    same_guti u u' ∧ sm u' = emm_state_de_registered ∧ timers u' = timers_idle).
Proof. intros E. unfold wp. rewrite fsm_init_spec, E. by vm_compute. Qed.

Lemma wp_new_guti i s (Q : () → table → Prop) :
  live i s → ue_m_tmsi (mme_ues s i) = None → pool_size (m_tmsi_pool s) = Z.of_nat (length (m_tmsis s)) →
  (∀ t p m, pool_alloc (m_tmsi_pool s) = Some (t, p) → m_tmsis s !! Z.to_nat (t - 1) = Some m →
    let u := mme_ues s i in
    let u' := set_ctx (set_ident (with_guti (own_guti conf m) (ident (ctx u))) (ctx u))
                (set_ue_m_tmsi (Some t) u) in
    ∀ ues', ues' i = u' → (∀ j, j ≠ i → ues' j = mme_ues s j) →
    Q () (set_guti_ue_hash (ogs_hash_set (guti_ue_hash s) (own_guti conf m) (Some i))
      (set_mme_ues ues' (set_m_tmsi_pool p s)))) →
  wp (mme_ue_new_guti conf i) s Q.
Proof.
  intros Hi Em Hz HQ. apply wp_bind, wp_the_ue; [done|]. rewrite Em.
  apply wp_bind, wp_ret, wp_bind, wp_bind, wp_get.
  destruct (pool_alloc (m_tmsi_pool s)) as [[t p]|] eqn:Et; [|done].
  apply wp_bind, wp_modify, wp_ret, wp_bind, wp_on_ue_obj; [done|].
  apply wp_bind, wp_get, wp_bind, wp_lift. simpl.
  destruct (pool_alloc_range _ _ _ Et) as [Hr _].
  destruct (lookup_lt_is_Some_2 (m_tmsis s) (Z.to_nat (t - 1))) as [m Hm]; [lia|]. rewrite Hm.
  apply wp_bind, wp_on_ctx; [done|]. apply wp_modify. eapply HQ; [done|exact Hm| |].
  - simpl. by rewrite !fn_lookup_alter.
  - intros j Hj. simpl. by rewrite !fn_lookup_alter_ne by done.
Qed.

(** Distinct values give distinct GUTIs. *)
Lemma own_guti_inj m m' :
  0 <= m < 2 ^ 32 → 0 <= m' < 2 ^ 32 → own_guti conf m = own_guti conf m' → m = m'.
Proof.
  intros Hm Hm' E. unfold own_guti, nas_guti in E.
  apply app_inv_head, app_inv_head, app_inv_head, (f_equal host_value) in E.
  rewrite !host_value_bytes, !Z.mod_small in E by exact Hm || exact Hm'. done.
Qed.
Lemma own_guti_object s t t' m m' :
  ue_ok s → 1 <= t → 1 <= t' → m_tmsis s !! Z.to_nat (t - 1) = Some m →
  m_tmsis s !! Z.to_nat (t' - 1) = Some m' → own_guti conf m = own_guti conf m' → t = t'.
Proof.
  intros Hu Ht Ht' Em Em' E. destruct (uo_values s Hu) as [Hnd Hr].
  apply own_guti_inj in E as <-; [|by apply (Forall_lookup_1 _ _ _ _ Hr Em)
                                  |by apply (Forall_lookup_1 _ _ _ _ Hr Em')].
  pose proof (NoDup_lookup _ _ _ _ Hnd Em Em'). lia.
Qed.

Section added.
Context s (i t : Z) (m : Z) (pu pt : pool_t) (ues' : Z → ue_obj) (Hu : ue_ok s).
Context (Ei : pool_alloc (mme_ue_pool s) = Some (i, pu)) (Et : pool_alloc (m_tmsi_pool s) = Some (t, pt)).
Context (Em : m_tmsis s !! Z.to_nat (t - 1) = Some m).
Context (Eu : ue_m_tmsi (ues' i) = Some t ∧ guti (ident (ctx (ues' i))) = own_guti conf m).
Context (Eother : ∀ j, j ≠ i → ues' j = mme_ues s j).

Definition added : table :=
  set_mme_ue_list (ogs_list_add (mme_ue_list s) i)
    (set_guti_ue_hash (ogs_hash_set (guti_ue_hash s) (own_guti conf m) (Some i))
      (set_mme_ues ues' (set_m_tmsi_pool pt (set_mme_ue_pool pu s)))).

Lemma added_live j : live j added ↔ j = i ∨ live j s.
Proof. unfold live. simpl. destruct (pool_alloc_fresh _ _ _ Ei) as [_ ->]. set_solver. Qed.
Lemma added_new : ¬ live i s.
Proof. by destruct (pool_alloc_fresh _ _ _ Ei). Qed.
Lemma added_ne j : live j s → j ≠ i.
Proof. intros Hj ->. by apply added_new. Qed.
Lemma added_obj j : live j s → mme_ues added j = mme_ues s j.
Proof. intros Hj. apply Eother, added_ne, Hj. Qed.
Lemma added_range : 1 <= t.
Proof. destruct (pool_alloc_range _ _ _ Et) as [? _]. lia. Qed.

(** No context in use has the new M-TMSI, or its GUTI. *)
Lemma added_tmsi_fresh j : live j s → ue_m_tmsi (mme_ues s j) ≠ Some t ∧ guti_of s j ≠ own_guti conf m.
Proof.
  intros Hj. destruct (uo_tmsi s Hu j Hj) as (t' & m' & Et' & Hin & Hr & Em' & Eg).
  assert (t' ≠ t) as Hne by (intros ->; by destruct (pool_alloc_fresh _ _ _ Et)).
  split; [congruence|]. rewrite Eg. intros E. apply Hne.
  by apply (own_guti_object s t' t m' m Hu Hr added_range Em' Em).
Qed.

Lemma added_ue_ok : ue_ok added.
Proof.
  destruct (uo_list s Hu) as [Hnd Hl]. destruct (pool_alloc_fresh _ _ _ Et) as [Hft Hpt].
  split.
  - change (mme_ue_list added) with (ogs_list_add (mme_ue_list s) i). split.
    + rewrite ogs_list_add_perm. apply list.NoDup_cons. split; [|done]. rewrite Hl. apply added_new.
    + intros j. rewrite ogs_list_add_perm, elem_of_cons, added_live, Hl. done.
  - intros j [->|Hj]%added_live.
    + exists t, m. destruct Eu as [E1 E2]. split_and!; [exact E1| |exact added_range|exact Em|exact E2].
      change (m_tmsi_pool added) with pt. rewrite Hpt. set_solver.
    + destruct (uo_tmsi s Hu j Hj) as (t' & m' & E1 & E2 & E3 & E4 & E5). exists t', m'.
      unfold guti_of. rewrite added_obj by done. split_and!; [done| |done|done|done].
      change (m_tmsi_pool added) with pt. rewrite Hpt. set_solver.
  - intros j k [->|Hj]%added_live [->|Hk]%added_live; [done| | |].
    + rewrite (added_obj k) by done. change (mme_ues added i) with (ues' i). rewrite (proj1 Eu).
      intros E. by destruct (proj1 (added_tmsi_fresh k Hk)).
    + rewrite (added_obj j) by done. change (mme_ues added i) with (ues' i). rewrite (proj1 Eu).
      intros E. by destruct (proj1 (added_tmsi_fresh j Hj)).
    + rewrite !added_obj by done. by apply (uo_inj s Hu).
  - intros g j. simpl. rewrite hash_get_set, added_live. case_decide as Hg.
    + subst g. split.
      * intros [= <-]. split; [by left|]. apply Eu.
      * intros [[->|Hj] E]; [done|]. unfold guti_of in E. rewrite added_obj in E by done.
        by destruct (proj2 (added_tmsi_fresh j Hj)).
    + rewrite (uo_guti s Hu). unfold guti_of. split.
      * intros [Hj E]. split; [by right|]. by rewrite added_obj.
      * intros [[->|Hj] E]; [|by rewrite added_obj in E].
        destruct Hg. rewrite <- E. symmetry. apply Eu.
  - apply (uo_values s Hu).
  - simpl. destruct (pool_alloc_range _ _ _ Et) as [_ ->]. apply (uo_size s Hu).
Qed.
End added.

Lemma free_ue_link s i : links_ok s → ¬ live i s → ue_enb_ue (mme_ues s i) = None.
Proof.
  intros Hk Hi. destruct (ue_enb_ue (mme_ues s i)) as [e|] eqn:E; [|done].
  by destruct (link_enb _ _ _ _ Hk i e E).
Qed.

(** The object that the pool hands out next was never a UE context, or its
    M-TMSI pointer has been cleared. *)
Definition clean_alloc s : Prop :=
  ∀ i p, pool_alloc (mme_ue_pool s) = Some (i, p) → ue_m_tmsi (mme_ues s i) = None.

(** The tail of [mme_ue_add] leaves the table as it is. *)
Lemma wp_add_tail i tac s (Q : Z → table → Prop) :
  live i s →
  (∀ s', frame s s' → Q i (set_mme_ue_list (ogs_list_add (mme_ue_list s') i) s')) →
  wp (g ← select_sgw conf tac;
      on_ue_obj i (set_gnode (Some g));;
      on_ctx i (set_csmap None);;
      on_ctx i (λ u, set_timers (all_timers_stopped (timers u)) u);;
      on_ctx i (set_sm emm_state_initial);;
      run_ctx i (ogs_fsm_init emm_state_eq_dec sm (emm_state_handler self));;
      modify (λ s, set_mme_ue_list (ogs_list_add (mme_ue_list s) i) s);;
      mret i) s Q.
Proof.
  intros Hi HQ. apply wp_bind, wp_select_sgw. intros g s1 F1. pose proof (frame_live _ _ i F1 Hi) as L1.
  apply wp_bind, wp_keeps_ue; [done|done|]. intros s2 F2. pose proof (frame_live _ _ i F2 L1) as L2.
  apply wp_bind, wp_keeps_ue; [done|done|]. intros s3 F3. pose proof (frame_live _ _ i F3 L2) as L3.
  apply wp_bind, wp_keeps_ue; [done|done|]. intros s4 F4. pose proof (frame_live _ _ i F4 L3) as L4.
  apply wp_bind, wp_on_ctx; [done|]. set (s5 := set_mme_ues _ s4).
  assert (F5 : frame s4 s5) by (by apply keeps_ue_frame).
  apply wp_bind, wp_run_ctx; [done|]. eapply wp_mono; [apply fsm_init_initial|].
  { simpl. by rewrite fn_lookup_alter. }
  intros [] v (Hg & _ & _). apply wp_bind, wp_modify, wp_ret. apply HQ.
  transitivity s1; [done|]. transitivity s2; [done|]. transitivity s3; [done|].
  transitivity s4; [done|]. transitivity s5; [done|]. by apply keeps_ue_frame.
Qed.

Lemma frame_set_list l s s' : frame s s' → frame (set_mme_ue_list l s) (set_mme_ue_list l s').
Proof. intros ((?&?&?&?&?&?)&?). split; [by split_and!|done]. Qed.

Lemma wp_mme_ue_add e s :
  table_ok s → live_enb e s → clean_alloc s →
  wp (mme_ue_add self conf e) s (λ i s', table_ok s' ∧ live i s' ∧ ¬ live i s ∧
    ue_enb_ue (mme_ues s' i) = None ∧ enb_ue_pool s' = enb_ue_pool s ∧ enb_ues s' = enb_ues s ∧
    queue s' = queue s).
Proof.
  intros [Hu Hen Hk] He Hc. apply wp_bind, wp_the_enb_ue_obj; [done|]. apply wp_bind, wp_get.
  destruct (pool_alloc (mme_ue_pool s)) as [[i pu]|] eqn:Ei; [|done].
  destruct (pool_alloc_fresh _ _ _ Ei) as [Hfi Hpi]. pose proof (Hc i pu Ei) as Et0.
  pose proof (free_ue_link s i Hk Hfi) as El.
  apply wp_bind, wp_modify, wp_bind, wp_on_ctx.
  { unfold live. simpl. rewrite Hpi. set_solver. }
  set (s1 := set_mme_ues _ _). apply wp_bind, wp_massert. intros _. apply wp_bind, wp_new_guti.
  { unfold live. simpl. rewrite Hpi. set_solver. }
  { simpl. by rewrite fn_lookup_alter. }
  { apply (uo_size s Hu). }
  intros t pt m Et Em u u' ues' E1 E2. apply wp_add_tail.
  { unfold live. simpl. rewrite Hpi. set_solver. }
  intros s3 Hf. assert (mme_ue_list s3 = mme_ue_list s) as -> by apply Hf.
  apply (frame_set_list (ogs_list_add (mme_ue_list s) i)) in Hf.

  set (s4 := set_mme_ue_list _ s3) in *.
  change (frame (added s i m pu pt ues') s4) in Hf.
  assert (Hold : ∀ j, j ≠ i → ues' j = mme_ues s j).
  { intros j Hj. rewrite E2 by done. subst s1. simpl. by rewrite fn_lookup_alter_ne. }
  assert (Hu' : ue_m_tmsi (ues' i) = Some t ∧ guti (ident (ctx (ues' i))) = own_guti conf m)
    by (by rewrite E1).
  assert (Hl' : ∀ j, ue_enb_ue (ues' j) = ue_enb_ue (mme_ues s j)).
  { intros j. destruct (decide (j = i)) as [->|Hj]; [|by rewrite Hold].
    rewrite E1. subst u' u s1. simpl. by rewrite fn_lookup_alter. }
  pose proof (added_ue_ok s i t m pu pt ues' Hu Ei Et Em Hu' Hold) as Hok.
  assert (Hta : table_ok (added s i m pu pt ues')).
  { split; [done|by apply (enb_ok_frame s)|]. eapply link_ext; [|exact Hl'|done].
    eapply link_mono; [exact Hk| |done]. simpl. rewrite Hpi. set_solver. }
  destruct Hf as (Hs & Hl & Hp & Hlst & Hh & Hm & Hq).
  assert (Hf : frame (added s i m pu pt ues') s4) by done.
  split_and!; [by eapply frame_table_ok| |done| |exact Hp|exact Hm|exact Hq].
  - eapply frame_live; [exact Hf|]. unfold live. simpl. rewrite Hpi. set_solver.
  - rewrite Hl. etransitivity; [exact (Hl' i)|done].
Qed.
End spec.
