(* ===== verification/MmeUeTableInv.v ===== *)
(** * The table of UE contexts: what every event keeps

    Removal of a context, the EMM layer on a context, the messages of S1AP
    and the handling of a queued event keep the invariant [table_ok] as long
    as no S1 context is taken from under a UE and no removed UE context is
    reused with its M-TMSI; a part of it, [base_ok], they always keep. *)
From S2P Require Import Prelude.
From S2P Require Import CMem.
From S2P Require Import OgsLib.
From S2P Require Import NasTai.
From S2P Require Import NasConv.
From S2P Require NasSecurity.
From S2P Require Import Kdf.
From S2P Require Import MmeContext.
From S2P Require Import EmmBuild.
From S2P Require Import EmmHandler.
From S2P Require Import EmmSm.
From S2P Require Import EmmSystem.
From S2P Require Import MmeUeTable.
From S2P Require Import MmeUeTableSpec.
From stdpp Require Import functions.
#[local] Open Scope Z_scope.

Section inv.
Context `{Host, OgsBits, OgsPkbuf, NasSecurity.Crypto, KeyedHash, OgsPlmn, !OgsPlmnDigits,
          !Ogs3gpp, OgsSizes, NasCodec, OgsImsi, OgsTime, OgsFsmLaws, NasDecoder}.
Context `{OgsPoolLaws, !OgsPoolSized, !OgsPoolSizedLaws, OgsListLaws, OgsNextId, OgsHashLaws,
          OgsFsmInitLaws} (self : mme_context_t) (conf : table_conf).
Implicit Types (s : table).
#[local] Existing Instance frame_preorder.

(** ** Removal of a UE context *)
(** What [mme_ue_remove] leaves of the parts the invariant reads; the M-TMSI
    pointer of the object stays as it was. *)
Record gone (i t : Z) s s' : Prop := {
  gone_pool : mme_ue_pool s' = pool_free i (mme_ue_pool s);
  gone_list : mme_ue_list s' = ogs_list_remove (mme_ue_list s) i;
  gone_tmsis : m_tmsi_pool s' = pool_free t (m_tmsi_pool s) ∧ m_tmsis s' = m_tmsis s;
  gone_guti : guti_ue_hash s' = ogs_hash_set (guti_ue_hash s) (guti_of s i) None;
  gone_ues j : ue_m_tmsi (mme_ues s' j) = ue_m_tmsi (mme_ues s j) ∧ guti_of s' j = guti_of s j;
  gone_link j : ue_enb_ue (mme_ues s' j) = <[i := None]> (λ i, ue_enb_ue (mme_ues s i)) j;
  gone_enb : enb_ue_pool s' = enb_ue_pool s ∧ enb_ue_lists s' = enb_ue_lists s ∧
    mme_ue_s1ap_id_hash s' = mme_ue_s1ap_id_hash s ∧ enb_ues s' = enb_ues s;
  gone_queue : queue s' = queue s;
}.

Lemma gone_live i t s s' j : gone i t s s' → live j s' ↔ live j s ∧ j ≠ i.
Proof. intros Hg. unfold live. rewrite (gone_pool _ _ _ _ Hg), pool_used_free. set_solver. Qed.

Lemma gone_ue_ok i t s s' :
  ue_ok conf s → live i s → ue_m_tmsi (mme_ues s i) = Some t → gone i t s s' → ue_ok conf s'.
Proof.
  intros Hu Hi Et Hg. pose proof (λ j, gone_live i t s s' j Hg) as Hlive.
  destruct (uo_list conf s Hu) as [Hnd Hl]. destruct (gone_tmsis _ _ _ _ Hg) as [Ep Em].
  split.
  - rewrite (gone_list _ _ _ _ Hg). pose proof (ogs_list_remove_perm _ i Hnd) as Hp.
    split; [rewrite Hp; by apply list.NoDup_filter|].
    intros j. rewrite Hp, list_elem_of_filter, Hl, Hlive. tauto.
  - intros j [Hj Hn]%Hlive. destruct (gone_ues _ _ _ _ Hg j) as [E1 E2].
    destruct (uo_tmsi conf s Hu j Hj) as (t' & m & A1 & A2 & A3 & A4 & A5).
    exists t', m. rewrite E1, E2, Ep, Em, pool_used_free. split_and!; try done.
    apply elem_of_difference. split; [done|]. intros ->%elem_of_singleton. apply Hn.
    apply (uo_inj conf s Hu j i Hj Hi). congruence.
  - intros j k [Hj _]%Hlive [Hk _]%Hlive. rewrite (proj1 (gone_ues _ _ _ _ Hg j)), (proj1 (gone_ues _ _ _ _ Hg k)).
    by apply (uo_inj conf s Hu).
  - intros g j. rewrite (gone_guti _ _ _ _ Hg), hash_get_set, Hlive, (proj2 (gone_ues _ _ _ _ Hg j)).
    case_decide as Hd.
    + subst g. split; [done|]. intros [[Hj Hn] E]. destruct Hn.
      assert (ogs_hash_get (guti_ue_hash s) (guti_of s i) = Some j) as E1 by by apply (uo_guti conf s Hu).
      assert (ogs_hash_get (guti_ue_hash s) (guti_of s i) = Some i) as E2 by by apply (uo_guti conf s Hu).
      congruence.
    + rewrite (uo_guti conf s Hu). split; [|tauto]. intros [Hj E]. split; [|done]. split; [done|].
      by intros ->.
  - rewrite Em. apply (uo_values conf s Hu).
  - rewrite Ep, Em, pool_free_size. apply (uo_size conf s Hu).
Qed.

Lemma gone_table_ok i t s s' :
  ue_ok conf s → enb_ok s → links_without i s → live i s → ue_m_tmsi (mme_ues s i) = Some t →
  gone i t s s' → table_ok conf s'.
Proof.
  intros Hu Hen Hk Hi Et Hg. destruct (gone_enb _ _ _ _ Hg) as (E1 & E2 & E3 & E4). split.
  - by apply (gone_ue_ok i t s).
  - apply (enb_ok_frame s); [done|]. unfold same_enbs. by rewrite E4.
  - unfold links_ok. rewrite E1, E4, (gone_pool _ _ _ _ Hg), pool_used_free.
    eapply link_ext; [apply (link_remove_ue _ _ _ _ i Hk)| |done].
    + by rewrite fn_lookup_insert.
    + intros j. apply (gone_link _ _ _ _ Hg).
Qed.

Lemma frame_imsi k v s : frame s (set_imsi_ue_hash (ogs_hash_set (imsi_ue_hash s) k v) s).
Proof. done. Qed.
Lemma wp_frame_ctx i f s (Q : () → table → Prop) :
  live i s → guti (ident (f (ctx (mme_ues s i)))) = guti_of s i →
  (∀ s', frame s s' → Q () s') → wp (on_ctx i f) s Q.
Proof. intros Hi Hf HQ. by apply wp_keeps_ue. Qed.

(** The parts of [mme_ue_remove]: tables, writes, the link, writes, the pool. *)
Definition unlisted (i t : Z) s : table :=
  set_m_tmsi_pool (pool_free t (m_tmsi_pool s))
    (set_guti_ue_hash (ogs_hash_set (guti_ue_hash s) (guti_of s i) None)
      (set_mme_ue_list (ogs_list_remove (mme_ue_list s) i) s)).
Definition unlinked (i : Z) s : table := set_mme_ues (alter (set_ue_enb_ue None) i (mme_ues s)) s.

Lemma gone_frames i t s s1 s2 :
  frame (unlisted i t s) s1 → frame (unlinked i s1) s2 →
  gone i t s (set_mme_ue_pool (pool_free i (mme_ue_pool s2)) s2).
Proof.
  intros ((A1&A2&A3&A4&A5&A6)&A7&A8&A9&A10&A11&A12) ((B1&B2&B3&B4&B5&B6)&B7&B8&B9&B10&B11&B12).
  destruct (set_link_ues s1 i None) as (_&_&_&_&_&Hl).
  split; simpl.
  - by etransitivity; [rewrite B1; exact (f_equal _ A1)|].
  - by rewrite B2.
  - by rewrite B3, B4.
  - by rewrite B5.
  - intros j. destruct (A6 j) as [X1 X2], (B6 j) as [Y1 Y2], (Hl j) as [Z1 Z2].
    split; [by rewrite Y1; unfold unlinked; rewrite Z1, X1|].
    change (guti_of s2 j = guti_of s j). by rewrite Y2; unfold unlinked; rewrite Z2, X2.
  - intros j. rewrite B7. simpl. destruct (decide (i = j)) as [->|Hj].
    + by rewrite fn_lookup_alter, fn_lookup_insert.
    + by rewrite fn_lookup_alter_ne, fn_lookup_insert_ne, A7 by done.
  - by rewrite B8, B9, B10, B11.
  - by rewrite B12.
Qed.

Lemma wp_mme_ue_remove i s t (Q : () → table → Prop) :
  live i s → ue_m_tmsi (mme_ues s i) = Some t → t ∈ pool_used (m_tmsi_pool s) →
  (∀ s', gone i t s s' → Q () s') → wp (mme_ue_remove i) s Q.
Proof.
  intros Hi Et Hin HQ. apply wp_bind, wp_the_ue; [done|]. rewrite Et.
  apply wp_bind, wp_modify, wp_bind, wp_bind, wp_modify, wp_bind, wp_get. simpl.
  rewrite decide_True by done. apply wp_modify. change (set_m_tmsi_pool _ _) with (unlisted i t s).
  set (s1 := unlisted i t s). assert (L1 : live i s1) by done.
  apply wp_bind, (wp_mono _ _ (λ _ s2, frame s1 s2)).
  { destruct (MME_UE_HAVE_IMSI _); [by apply wp_modify|by apply wp_ret]. }
  intros _ s2 F2. pose proof (frame_live _ _ i F2 L1) as L2.
  apply wp_bind, wp_frame_ctx; [done|done|]. intros s3 F3. pose proof (frame_live _ _ i F3 L2) as L3.
  apply wp_bind, wp_run_ctx; [done|]. apply wp_bind, wp_modify, wp_modify.
  set (s4 := set_mme_ues _ s3).
  assert (F4 : frame s3 s4) by by apply keeps_ue_frame.
  pose proof (frame_live _ _ i F4 L3) as L4.
  apply wp_bind, wp_on_ue_obj; [done|]. change (set_mme_ues _ s4) with (unlinked i s4).
  assert (L5 : live i (unlinked i s4)) by done.
  apply wp_bind, wp_frame_ctx; [done|done|]. intros s6 F6. pose proof (frame_live _ _ i F6 L5) as L6.
  apply wp_bind, wp_frame_ctx; [done|done|]. intros s7 F7. apply wp_modify, HQ.
  eapply gone_frames; [|by transitivity s6]. by transitivity s2; [|transitivity s3].
Qed.

(** ** The EMM layer on a context *)
(** What changes neither identities nor links; the contents of S1 contexts
    may change. *)
Definition calm s s' : Prop :=
  same_ues s s' ∧ same_enbs s s' ∧ same_links s s' ∧ queue s' = queue s.
#[export] Instance calm_preorder : PreOrder calm.
Proof.
  split; [by intros s|].
  intros s1 s2 s3 ((A1&A2&A3&A4&A5&A6)&(A7&A8&A9&A10)&(A11&A12)&A13)
    ((B1&B2&B3&B4&B5&B6)&(B7&B8&B9&B10)&(B11&B12)&B13).
  split; [|split; [|split; [|congruence]]].
  - split_and!; try congruence. intros i. destruct (A6 i), (B6 i). split; congruence.
  - split_and!; try congruence. intros i. destruct (A10 i), (B10 i). split; congruence.
  - split; intros i; congruence.
Qed.
Lemma frame_calm s s' : frame s s' → calm s s'.
Proof.
  intros (Hs & Hl & E1 & E2 & E3 & E4 & E5). unfold calm, same_enbs, same_links. by rewrite E4.
Qed.
Lemma calm_table_ok s s' : table_ok conf s → calm s s' → table_ok conf s'.
Proof.
  intros [Hu Hen Hk] (Hs & He & Hl & _). split.
  - by eapply ue_ok_frame.
  - by eapply enb_ok_frame.
  - eapply links_ok_frame; [exact Hk|exact Hl|apply Hs|apply He].
Qed.
Lemma keeps_enb_calm f e s : keeps_enb f → calm s (set_enb_ues (alter f e (enb_ues s)) s).
Proof.
  intros Hf. pose proof (λ x, keeps_enb_alter f e s x Hf) as Hx.
  split; [by split_and!|]. unfold same_enbs, same_links. simpl in *.
  split_and!; try done; intros x; by destruct (Hx x) as (? & ? & ?).
Qed.

Lemma wlp_the_ue i s (Q : ue_obj → table → Prop) :
  (live i s → Q (mme_ues s i) s) → wlp (the_ue i) s Q.
Proof.
  intros HQ. apply wlp_bind, wlp_get. case_decide; [by apply wlp_ret; auto|by apply wlp_lift].
Qed.
Lemma wlp_the_enb_ue_obj e s (Q : enb_ue_obj → table → Prop) :
  (live_enb e s → Q (enb_ues s e) s) → wlp (the_enb_ue_obj e) s Q.
Proof.
  intros HQ. apply wlp_bind, wlp_get. case_decide; [by apply wlp_ret; auto|by apply wlp_lift].
Qed.
Lemma wp_wlp {A} (m : M table A) s Q : wp m s Q → wlp m s Q.
Proof. intros Hm a s' E. by apply (wp_ok m s Q a s' Hm). Qed.

Lemma wlp_assoc {A B C} (m : M table A) (n : M table B) (k : M table C) s Q :
  wlp (m;; n) s (λ _ s', wlp k s' Q) → wlp (m;; n;; k) s Q.
Proof.
  intros Hm. apply wlp_bind. intros a s1 E1. apply wlp_bind. intros b s2 E2.
  apply (Hm b s2). unfold mbind, M_bind. by rewrite E1.
Qed.

Lemma calm_register i l : keeps calm (register_imsis i l).
Proof.
  induction l as [|k l IH]; cbn [register_imsis]; [by apply keeps_ret; exact _|].
  apply keeps_bind; [exact _| |done]. apply keeps_modify. intros s. by apply frame_calm.
Qed.
Lemma calm_run_ctx {A} i (m : M ue_t A) : keeps same_guti m → keeps calm (run_ctx i m).
Proof.
  intros Hm s. apply wlp_bind, wlp_the_ue. intros Hi. apply wlp_bind, wlp_lift. intros [a v] E.
  apply wlp_bind, wp_wlp, wp_on_ue_obj; [done|]. apply wlp_ret, frame_calm, keeps_ue_frame.
  split_and!; [done| |done]. exact (Hm _ _ _ E).
Qed.
Lemma calm_on_ue {A} i (m : M ue_t A) : keeps same_guti m → keeps calm (on_ue i m).
Proof.
  intros Hm s. apply wlp_bind, wlp_the_ue. intros Hi.
  apply wlp_bind, (wlp_mono _ _ (λ _ s', s' = s)).
  { destruct (ue_enb_ue _); [|by apply wlp_ret].
    apply wlp_bind, wlp_the_enb_ue_obj. intros _. by apply wlp_ret. }
  intros c _ ->. apply wlp_bind, wlp_lift. intros [a v] E.
  apply wlp_bind, wp_wlp, wp_on_ue_obj; [done|]. set (s1 := set_mme_ues _ s).
  assert (F1 : calm s s1).
  { apply frame_calm, keeps_ue_frame. split_and!; [done| |done]. exact (Hm _ _ _ E). }
  apply wlp_bind, (wlp_mono _ _ (λ _ s', calm s s')).
  { destruct (ue_enb_ue _) as [e|]; [|by apply wlp_ret].
    destruct (enb_ue v) as [x|]; [|by apply wlp_ret].
    apply wlp_bind, wlp_the_enb_ue_obj. intros _. apply wlp_modify.
    transitivity s1; [done|]. by apply keeps_enb_calm. }
  intros _ s2 F2. apply wlp_bind. eapply wlp_mono; [apply calm_register|].
  intros a' s3 F3. apply wlp_ret. by transitivity s2.
Qed.
Lemma calm_on_security {A} i (m : M NasSecurity.mme_ue_t A) : keeps calm (on_security i m).
Proof. apply calm_run_ctx. apply guti_on_sec. Qed.

(** ** S1AP *)
Lemma set_queue_ok q s : table_ok conf s → table_ok conf (set_queue q s).
Proof.
  intros [Hu He Hk]. split; [by eapply ue_ok_frame|by eapply enb_ok_frame|].
  by eapply links_ok_frame.
Qed.

(** A message for the EMM layer adds at most one event, for this S1 context. *)
Definition queued (e : Z) s s' : Prop :=
  calm s (set_queue (queue s) s') ∧
  (queue s' = queue s ∨ ∃ ev, queue s' = queue s ++ [ev] ∧ evt_enb_ue ev = e).
Lemma queued_ok e s s' : table_ok conf s → queued e s s' → table_ok conf s'.
Proof.
  intros Hok [Hc _]. apply (calm_table_ok s _ Hok) in Hc.
  apply (set_queue_ok (queue s')) in Hc. by destruct s'.
Qed.
Lemma queued_live e s s' x : queued e s s' → live_enb x s' ↔ live_enb x s.
Proof. intros [(_ & (E & _) & _) _]. unfold live_enb. by rewrite <- E. Qed.

Lemma queued_push e b t c s s' :
  calm s s' →
  queued e s (set_queue (queue s' ++ [{| evt_enb_ue := e; evt_pkbuf := b; evt_nas_type := t; evt_code := c |}]) s').
Proof.
  intros Hc. pose proof Hc as (_ & _ & _ & Eq). split; [by destruct Hc as (?&?&?&_)|].
  right. eexists. simpl. by rewrite Eq.
Qed.
Lemma queued_calm e s s' : calm s s' → queued e s s'.
Proof. intros Hc. pose proof Hc as (?&?&?&Eq). split; [done|]. by left. Qed.

Lemma wlp_send_to_nas hr e pdu : keeps calm (send_to_nas hr e pdu).
Proof.
  intros s. apply wlp_bind, wlp_the_enb_ue_obj. intros He. destruct (e_mme_ue _) as [i|].
  - apply calm_on_security.
  - intros ev s' E. cbv beta in E. destruct (NasSecurity.s1ap_send_to_nas _ _ _ _) as [[x y]| |]; try done.
    by injection E as <- <-.
Qed.
Lemma wlp_nas_pdu hr e pdu code s : wlp (nas_pdu hr e pdu code) s (λ _, queued e s).
Proof.
  apply wlp_bind. eapply wlp_mono; [apply wlp_send_to_nas|]. intros ev s1 Hc.
  destruct ev; [by apply wlp_modify, queued_push|by apply wlp_ret, queued_calm|by apply wlp_mabort].
Qed.

Lemma wlp_initial_ue_message hr b id st t g pdu s :
  table_ok conf s →
  wlp (s1ap_handle_initial_ue_message conf hr b id st t g pdu) s (λ _, table_ok conf).
Proof.
  intros Hok. apply wlp_bind, wp_wlp. eapply wp_mono; [by apply wp_initial_table_ok|].
  intros e s1 [Hok1 _]. eapply wlp_mono; [apply wlp_nas_pdu|]. intros [] s2. by apply queued_ok.
Qed.
Lemma wlp_uplink_nas_transport hr b id pdu s :
  table_ok conf s → wlp (s1ap_handle_uplink_nas_transport hr b id pdu) s (λ _, table_ok conf).
Proof.
  intros Hok. apply wlp_bind, wp_wlp. eapply wp_mono; [by apply wp_find_by_s1ap_id, (t_enb conf)|].
  intros [e|] s1 [-> _]; [|by apply wlp_ret]. eapply wlp_mono; [apply wlp_nas_pdu|].
  intros [] s2. by apply queued_ok.
Qed.

(** The links after the S1 context of UE context [i] is gone and its pointer
    cleared. *)
Lemma unlinked_ok i s :
  ue_ok conf s → enb_ok s → links_without i s → table_ok conf (unlinked i s).
Proof.
  intros Hu He Hk. split; [exact (ue_ok_frame conf s _ Hu (set_link_ues s i None))|by apply (enb_ok_frame s)|].
  eapply link_ext; [exact Hk| |done]. intros j. simpl. destruct (decide (i = j)) as [->|].
  - by rewrite fn_lookup_alter, fn_lookup_insert.
  - by rewrite fn_lookup_alter_ne, fn_lookup_insert_ne.
Qed.

(** Releases without a UE context: what the handler relies on. *)
Definition released_alone (id : Z) s : Prop :=
  ∀ e, ogs_hash_get (mme_ue_s1ap_id_hash s) (host_bytes 4 id) = Some e →
    let a := ue_ctx_rel_action (e_content (enb_ues s e)) in
    a = S1AP_UE_CTX_REL_NO_ACTION ∨ a = S1AP_UE_CTX_REL_DELETE_INDIRECT_TUNNEL →
    e_mme_ue (enb_ues s e) = None.

Lemma wp_ue_context_release_complete id s :
  table_ok conf s → released_alone id s →
  wp (s1ap_handle_ue_context_release_complete id) s (λ _, table_ok conf).
Proof.
  intros Hok Ha. pose proof Hok as [Hu Hen Hk]. apply wp_bind, wp_gets.
  unfold released_alone in Ha.
  destruct (ogs_hash_get _ _) as [e|] eqn:E; [|by apply wp_ret]. specialize (Ha e eq_refl). simpl in Ha.
  destruct (eo_ids s Hen _ e E) as [He _].
  apply wp_bind, wp_the_enb_ue_obj; [done|]. cbv zeta.
  assert (Hnone : e_mme_ue (enb_ues s e) = None → table_ok conf (removed e s))
    by (intros E0; apply removed_table_ok; [done|done|congruence]).
  assert (Hsome : ∀ i, e_mme_ue (enb_ues s e) = Some i → live i s ∧
            ue_ok conf (removed e s) ∧ enb_ok (removed e s) ∧ links_without i (removed e s)).
  { intros i Ei. destruct (link_ue _ _ _ _ Hk e i Ei) as (_ & Hi & _).
    split_and!; [done|by apply (same_ue_side_ok conf s)|by apply removed_enb_ok
      |by apply links_without_removed]. }
  destruct (Z.eqb_spec (ue_ctx_rel_action (e_content (enb_ues s e))) S1AP_UE_CTX_REL_NO_ACTION);
    [apply wp_enb_ue_remove; auto|].
  destruct (_ =? S1AP_UE_CTX_REL_S1_NORMAL_RELEASE).
  { apply wp_bind, wp_enb_ue_remove; [done|]. destruct (e_mme_ue _) as [i|]; [|done].
    destruct (Hsome i eq_refl) as (Hi & Hu' & Hen' & Hk').
    apply wp_on_ue_obj; [done|]. by apply unlinked_ok. }
  destruct (_ =? S1AP_UE_CTX_REL_UE_CONTEXT_REMOVE).
  { apply wp_bind, wp_enb_ue_remove; [done|]. destruct (e_mme_ue _) as [i|]; [|done].
    destruct (Hsome i eq_refl) as (Hi & Hu' & Hen' & Hk').
    destruct (uo_tmsi conf _ Hu' i Hi) as (t & m & Et & Hin & _).
    apply (wp_mme_ue_remove i _ t); [done..|]. intros s' Hg. by eapply gone_table_ok. }
  destruct (Z.eqb_spec (ue_ctx_rel_action (e_content (enb_ues s e))) S1AP_UE_CTX_REL_DELETE_INDIRECT_TUNNEL)
    as [Ed|]; [|done].
  apply wp_bind, wp_enb_ue_remove; [done|]. rewrite (Ha (or_intror Ed)). done.
Qed.

(** ** Reset of an eNB *)
(** Removing S1 contexts, whether or not a UE context points at them. *)
Lemma wp_remove_each l s :
  enb_ok s → NoDup l → (∀ e, e ∈ l → live_enb e s) →
  wp (remove_each l) s (λ _ s', enb_ok s' ∧ same_ue_side s s' ∧
    (∀ x, live_enb x s' ↔ live_enb x s ∧ x ∉ l) ∧
    ∀ x, e_mme_ue (enb_ues s' x) = if decide (x ∈ l) then None else e_mme_ue (enb_ues s x)).
Proof.
  revert s. induction l as [|e l IH]; intros s Hok Hnd Hl; cbn [remove_each].
  - apply wp_ret. split_and!; [done|done| |done]. intros x. set_solver.
  - apply list.NoDup_cons in Hnd as [Hn Hnd]. apply wp_bind, wp_enb_ue_remove; [apply Hl; by left|].
    eapply wp_mono; [apply IH; [apply removed_enb_ok; [done|apply Hl; by left]|done|]|].
    + intros x Hx. apply removed_live. split; [apply Hl; by right|]. by intros ->.
    + intros _ s' (Hok' & Hs & Hlive & Hm). split_and!; [done|done| |].
      * intros x. rewrite Hlive, removed_live, elem_of_cons. tauto.
      * intros x. rewrite Hm, removed_mme_ue. destruct (decide (x = e)) as [->|Hx].
        { rewrite fn_lookup_insert, (decide_False (P := e ∈ l)) by done.
          by rewrite decide_True by by left. }
        rewrite fn_lookup_insert_ne by done.
        assert (x ∈ e :: l ↔ x ∈ l) as Hi by (rewrite elem_of_cons; tauto).
        destruct (decide (x ∈ l)), (decide (x ∈ e :: l)); tauto.
Qed.
Lemma wp_s1_reset b s :
  enb_ok s →
  wp (s1ap_handle_s1_reset b S1_Interface) s (λ _ s', enb_ok s' ∧ same_ue_side s s' ∧
    (∀ x, live_enb x s' ↔ live_enb x s ∧ e_enb (enb_ues s x) ≠ b) ∧
    ∀ x, e_mme_ue (enb_ues s' x) = if decide (x ∈ enb_ue_lists s b) then None else e_mme_ue (enb_ues s x)).
Proof.
  intros Hok. destruct (eo_list s Hok b) as [Hnd Hl]. apply wp_bind, wp_get.
  eapply wp_mono; [apply wp_remove_each; [done|done|by intros e []%Hl]|].
  intros _ s' (Hok' & Hs & Hlive & Hm). split_and!; try done.
  intros x. rewrite Hlive, Hl. tauto.
Qed.
Lemma wp_reset_all_ok b s :
  table_ok conf s → (∀ e, e ∈ enb_ue_lists s b → e_mme_ue (enb_ues s e) = None) →
  wp (s1ap_handle_s1_reset b S1_Interface) s (λ _, table_ok conf).
Proof.
  intros [Hu Hen Hk] Ha. eapply wp_mono; [by apply wp_s1_reset|].
  intros _ s' (Hok & Hs & Hlive & Hm). split; [by apply (same_ue_side_ok conf s)|done|].
  destruct Hs as (E1 & E2 & _). assert (Hm' : ∀ x, e_mme_ue (enb_ues s' x) = e_mme_ue (enb_ues s x)).
  { intros x. rewrite Hm. case_decide as Hx; [|done]. symmetry. by apply Ha. }
  unfold links_ok. rewrite E1, E2. destruct Hk as [K1 K2].
  assert (Hx : ∀ x i, e_mme_ue (enb_ues s x) = Some i → live_enb x s').
  { intros x i E. apply Hlive. destruct (K2 x i E) as (Hx & _). split; [done|]. intros Eb.
    rewrite (Ha x) in E; [done|]. by apply (eo_list s Hen). }
  split.
  - intros i e E. rewrite Hm'. destruct (K1 i e E) as (? & _ & E'). split_and!; try done. by apply (Hx e i).
  - intros e i E. rewrite Hm' in E. destruct (K2 e i E) as (_ & ? & ?). split_and!; try done. by apply (Hx e i).
Qed.


(** The S1 contexts that a reset names have no UE context. *)
Definition item_alone (b : Z) (item : option Z * option Z) s : Prop :=
  ∀ e, live_enb e s →
    match item with
    | (Some mme_id, _) => ogs_hash_get (mme_ue_s1ap_id_hash s) (host_bytes 4 mme_id) = Some e
    | (None, Some enb_id) => e_enb (enb_ues s e) = b ∧ enb_ue_s1ap_id (enb_ues s e) = enb_id
    | (None, None) => False
    end → e_mme_ue (enb_ues s e) = None.
Definition reset_alone (b : Z) (type : s1_reset_type) s : Prop :=
  match type with
  | S1_Interface => ∀ e, e ∈ enb_ue_lists s b → e_mme_ue (enb_ues s e) = None
  | PartOfS1_Interface items => Forall (λ item, item_alone b item s) items
  end.

Lemma removed_alone b item o s : item_alone b item s → item_alone b item (removed o s).
Proof.
  intros Ha e [He Hne]%removed_live Hi. rewrite removed_mme_ue, fn_lookup_insert_ne by done.
  apply Ha; [done|]. destruct item as [[m|] [n|]]; [| | |done].
  - simpl in Hi. rewrite hash_get_set in Hi. by case_decide.
  - simpl in Hi. rewrite hash_get_set in Hi. by case_decide.
  - rewrite (proj1 (removed_keeps o s e)) in Hi. destruct Hi as [Eb En]. split; [done|].
    simpl in En. by rewrite !fn_lookup_alter_ne in En by done.
Qed.
Lemma wp_reset_item b item s :
  table_ok conf s → item_alone b item s →
  wp (reset_item b item) s (λ _ s', table_ok conf s' ∧
    ∀ item', item_alone b item' s → item_alone b item' s').
Proof.
  intros Hok Ha. apply wp_bind.
  apply (wp_mono _ _ (λ r s', s' = s ∧ ∀ e, r = Some e → live_enb e s ∧ e_mme_ue (enb_ues s e) = None)).
  - destruct item as [[m|] [n|]].
    1,2: apply wp_gets; split; [done|]; intros e E;
      destruct (eo_ids s (t_enb conf s Hok) _ e E); split; [done|by apply Ha].
    + eapply wp_mono; [apply wp_find_by_s1ap_id, Hok|]. intros r s' [-> Hr]. split; [done|].
      intros e ->. destruct Hr as (He & Eb & En). split; [done|]. by apply (Ha e).
    + by apply wp_ret.
  - intros r s' [-> Hr]. destruct r as [e|]; [|by apply wp_ret].
    destruct (Hr e eq_refl) as [He Ee]. apply wp_enb_ue_remove; [done|]. split.
    + apply removed_table_ok; [done|done|congruence].
    + intros item'. apply removed_alone.
Qed.
Lemma wp_reset_ok b type s :
  table_ok conf s → reset_alone b type s → wp (s1ap_handle_s1_reset b type) s (λ _, table_ok conf).
Proof.
  destruct type as [|items]; [apply wp_reset_all_ok|]. simpl. revert s.
  induction items as [|item items IH]; intros s Hok Ha; cbn [reset_items]; [by apply wp_ret|].
  apply Forall_cons_1 in Ha as [Hi Ha]. apply wp_bind. eapply wp_mono; [by apply wp_reset_item|].
  intros _ s' [Hok' Hk]. apply IH; [done|]. eapply list.Forall_impl; [exact Ha|exact Hk].
Qed.

(** ** Events *)
Lemma wlp_found_by_message m s :
  wlp (mme_ue_find_by_message conf m) s (λ _ s', s' = s).
Proof.
  assert (keeps eq (mme_ue_find_by_message conf m)) as Hk.
  { unfold mme_ue_find_by_message, mme_ue_find_by_imsi_bcd, mme_ue_find_by_guti, gets.
    repeat first [apply keeps_bind; [exact _| |intros]|case_match|by eauto with keeps|by intros ???[= <- <-]]. }
  eapply wlp_mono; [apply Hk|]. done.
Qed.
Lemma wlp_emm_event ev s :
  table_ok conf s → clean_alloc s → wlp (mme_evt_emm_message self conf ev) s (λ _, table_ok conf).
Proof.
  intros Hok Hc. destruct ev as [e b t c]. apply wlp_bind, wlp_the_enb_ue_obj. intros He.
  apply wlp_bind. destruct (ogs_nas_emm_decode b) as [m|]; [apply wlp_ret|by apply wlp_mabort].
  assert (Hend : ∀ i s1, table_ok conf s1 →
    wlp (on_ue i (mme_emm_message self (EmmMessage m t c))) s1 (λ _, table_ok conf)).
  { intros i s1 Hok1. eapply wlp_mono; [apply calm_on_ue, guti_emm_message|]. intros ? s2.
    by apply calm_table_ok. }
  destruct (e_mme_ue (enb_ues s e)) as [i|] eqn:Ee; [apply wlp_bind, wlp_ret, Hend, Hok|].
  apply wlp_bind, wlp_bind. eapply wlp_mono; [apply wlp_found_by_message|]. intros found s0 ->.
  pose (P := λ (_ : Z) s1, table_ok conf s1 ∧ live_enb e s1 ∧ e_mme_ue (enb_ues s1 e) = None).
  apply wlp_bind, (wlp_mono _ _ P).
  - destruct found as [i|].
    + apply wlp_bind, (wlp_mono _ _ (λ _ s1, calm s s1)).
      { case_match; [|by apply wlp_ret]. apply wlp_bind. eapply wlp_mono; [apply calm_on_security|].
        intros [rv b'] s1 Hs. by apply wlp_massert. }
      intros _ s1 Hs. apply wlp_ret. split; [by eapply calm_table_ok|].
      destruct Hs as (_ & (E & _) & (_ & El) & _). unfold live_enb. by rewrite E, El.
    + eapply wlp_mono; [by apply wp_wlp, wp_mme_ue_add|].
      intros i s1 (Hok1 & _ & _ & _ & E1 & E2 & _). split; [done|]. unfold live_enb. by rewrite E1, E2.
  - intros i s1 (Hok1 & He1 & En1). destruct (decide (i ∈ pool_used (mme_ue_pool s1))) as [Hi|Hi].
    + apply wlp_assoc. eapply wlp_mono.
      { apply wp_wlp, wp_reassociate; [done|done|]. apply linked_release_safe; [by eapply t_link|done]. }
      intros _ s2 [-> _]. by apply wlp_ret, Hend, reassociate_table_ok.
    + apply wlp_bind, wlp_bind, wlp_the_ue. by intros.
Qed.

(** ** What holds whatever happens *)
(** The part of the invariant that neither a reset nor the reuse of a removed
    context breaks: an entry of the GUTI table names a context with that
    GUTI, and an S1 context that points at a UE context is pointed at. *)
Record base_ok s : Prop := {
  bo_list : NoDup (mme_ue_list s) ∧ ∀ i, i ∈ mme_ue_list s ↔ live i s;
  bo_tmsi i : live i s → ∃ t m, ue_m_tmsi (mme_ues s i) = Some t ∧
    m_tmsis s !! Z.to_nat (t - 1) = Some m ∧ guti_of s i = own_guti conf m;
  bo_guti g i : ogs_hash_get (guti_ue_hash s) g = Some i → live i s ∧ guti_of s i = g;
  bo_enb : enb_ok s;
  bo_back e i : e_mme_ue (enb_ues s e) = Some i →
    live_enb e s ∧ live i s ∧ ue_enb_ue (mme_ues s i) = Some e;
}.

Lemma table_base_ok s : table_ok conf s → base_ok s.
Proof.
  intros [Hu Hen [_ K2]]. split; [apply (uo_list conf s Hu)| | |done|exact K2].
  - intros i Hi. destruct (uo_tmsi conf s Hu i Hi) as (t & m & E1 & _ & _ & E2 & E3). by exists t, m.
  - intros g i. apply (uo_guti conf s Hu).
Qed.

Lemma base_frame s s' :
  base_ok s → same_ues s s' → same_enbs s s' → same_links s s' → base_ok s'.
Proof.
  intros [Hl Ht Hg He Hb] (E1 & E2 & E3 & E4 & E5 & E6) Hen [L1 L2].
  assert (Hlive : ∀ i, live i s' ↔ live i s) by (intros i; unfold live; by rewrite E1).
  split; [|intros i Hi%Hlive|intros g i|by eapply enb_ok_frame|intros e i].
  - rewrite E2. split; [apply Hl|]. intros i. rewrite Hlive. apply Hl.
  - rewrite E4, (proj1 (E6 i)), (proj2 (E6 i)). by apply Ht.
  - rewrite E5, Hlive, (proj2 (E6 i)). apply Hg.
  - rewrite L1, L2, Hlive. unfold live_enb. rewrite (proj1 Hen). apply Hb.
Qed.
Lemma calm_base s s' : base_ok s → calm s s' → base_ok s'.
Proof. intros Hok (H1' & H2' & H3' & _). by apply (base_frame s). Qed.
Lemma queue_base q s : base_ok s → base_ok (set_queue q s).
Proof. intros Hok. by apply (base_frame s). Qed.
Lemma queued_base e s s' : base_ok s → queued e s s' → base_ok s'.
Proof.
  intros Hok [Hc _]. apply (calm_base s _ Hok), (queue_base (queue s')) in Hc. by destruct s'.
Qed.
Lemma keeps_enb_base f e s : keeps_enb f → base_ok s → base_ok (set_enb_ues (alter f e (enb_ues s)) s).
Proof. intros Hf Hok. by apply (calm_base s), keeps_enb_calm. Qed.

(** *** S1 contexts *)
(** No S1 context points at UE context [i]. *)
Definition unclaimed (i : Z) s : Prop := ∀ e, e_mme_ue (enb_ues s e) ≠ Some i.

Lemma removed_base e s : base_ok s → live_enb e s → base_ok (removed e s).
Proof.
  intros [Hl Ht Hg He Hb] Hle. split; [done|done|done|by apply removed_enb_ok|].
  intros x i. rewrite removed_mme_ue, removed_live. destruct (decide (e = x)) as [->|Hx];
    [by rewrite fn_lookup_insert|]. rewrite fn_lookup_insert_ne by done.
  intros E. destruct (Hb x i E) as (?&?&?). by split_and!.
Qed.
Lemma removed_unclaimed e i s :
  base_ok s → ue_enb_ue (mme_ues s i) = Some e ∨ e_mme_ue (enb_ues s e) = Some i →
  unclaimed i (removed e s).
Proof.
  intros Hok Hi x. rewrite removed_mme_ue. destruct (decide (e = x)) as [->|Hx];
    [by rewrite fn_lookup_insert|]. rewrite fn_lookup_insert_ne by done. intros E.
  destruct (bo_back s Hok x i E) as (_ & _ & E1).
  destruct Hi as [E2|E2]; [congruence|]. destruct (bo_back s Hok e i E2) as (_ & _ & E3). congruence.
Qed.
Lemma added_base b s : base_ok s → wp (enb_ue_add b) s (λ e s', base_ok s' ∧ enb_added b s e s').
Proof.
  intros [Hl Ht Hg He Hb]. eapply wp_mono; [by apply wp_enb_ue_add_enb|].
  intros e s' (Hen & Ha). pose proof Ha as ((E1&E2&E3&E4&E5&E6&E7) & _ & Hlive & Hm & _).
  split; [|done]. split; unfold live, guti_of; rewrite ?E1, ?E2, ?E3, ?E5, ?E6; try done.
  intros x i. rewrite Hm, Hlive. intros E. destruct (Hb x i E) as (?&?&?). split_and!; [by right|done..].
Qed.
Lemma associate_base i e s :
  base_ok s → live i s → live_enb e s → e_mme_ue (enb_ues s e) = None → unclaimed i s →
  base_ok (associated i e s).
Proof.
  intros [Hl Ht Hg He Hb] Hi Hle Ee Hu.
  assert (Hs : same_ues s (associated i e s)) by exact (set_link_ues s i (Some e)).
  assert (base_ok (set_mme_ues (alter (set_ue_enb_ue (Some e)) i (mme_ues s)) s)) as Hok.
  { destruct Hs as (E1&E2&E3&E4&E5&E6). split; [exact Hl| | |by apply (enb_ok_frame s)|].
    - intros j Hj. destruct (E6 j) as [X1 X2]. simpl in X1. unfold guti_of in *. simpl in *. rewrite X1, X2. by apply Ht.
    - intros g j Ej. destruct (E6 j) as [_ X2]. unfold guti_of in *. simpl in *. rewrite X2. by apply Hg.
    - intros x j Ex. destruct (Hb x j Ex) as (?&?&?). split_and!; [done|done|]. simpl.
      rewrite fn_lookup_alter_ne; [done|]. intros ->. by apply (Hu x). }
  destruct Hok as [Hl' Ht' Hg' He' Hb'].
  split; [done|done|done|exact (enb_ok_frame _ _ He' (set_back_enbs _ e (Some i)))|].
  intros x j. simpl. destruct (decide (e = x)) as [->|Hx].
  - rewrite fn_lookup_alter. simpl. intros [= <-]. by rewrite fn_lookup_alter.
  - rewrite fn_lookup_alter_ne by done. apply (Hb' x j).
Qed.
Lemma reassociate_base i e s :
  base_ok s → live i s → live_enb e s → e_mme_ue (enb_ues s e) = None → release_safe i e s →
  base_ok (associated i e (released_ue i s)).
Proof.
  intros Hok Hi He Ee Hs. unfold released_ue, release_safe in *.
  destruct (ue_enb_ue (mme_ues s i)) as [o|] eqn:Ei.
  - destruct (Hs o eq_refl) as [Ho Hne]. apply associate_base; [by apply removed_base|done
      |by apply removed_live| |apply removed_unclaimed; [done|by left]].
    rewrite removed_mme_ue. by rewrite fn_lookup_insert_ne.
  - apply associate_base; try done. intros x E. destruct (bo_back s Hok x i E) as (_&_&?). congruence.
Qed.
(** Otherwise the code does not get through. *)
Lemma unsafe_release i e o s :
  ue_enb_ue (mme_ues s i) = Some o → ¬ (live_enb o s ∧ o ≠ e) →
  wlp (implicit_release i;; mme_ue_associate_enb_ue i e) s (λ _ _, False).
Proof.
  intros Ei Hu. apply wlp_bind, wlp_bind, wlp_the_ue. intros Hi. rewrite Ei.
  destruct (decide (live_enb o s)) as [Ho|Ho]; [|by apply wlp_bind, wlp_the_enb_ue_obj].
  apply wp_wlp, wp_enb_ue_remove; [done|]. assert (o = e) as -> by (destruct (decide (o = e)); tauto).
  apply wlp_bind, wp_wlp, wp_on_ue_obj; [done|].
  apply wlp_bind, wlp_the_enb_ue_obj. intros Hl. by apply removed_live in Hl as [_ ?].
Qed.
Lemma wlp_reassociate_base i e s :
  base_ok s → live_enb e s → e_mme_ue (enb_ues s e) = None →
  wlp (implicit_release i;; mme_ue_associate_enb_ue i e) s (λ _, base_ok).
Proof.
  intros Hok He Ee. destruct (decide (live i s)) as [Hi|Hi];
    [|by apply wlp_bind, wlp_bind, wlp_the_ue].
  assert (release_safe i e s ∨ ∃ o, ue_enb_ue (mme_ues s i) = Some o ∧ ¬ (live_enb o s ∧ o ≠ e)) as [Hs|(o & Ei & Hu)].
  { unfold release_safe. destruct (ue_enb_ue (mme_ues s i)) as [o|]; [|by left].
    destruct (decide (live_enb o s ∧ o ≠ e)); [left; by intros _ [= <-]|right; by exists o]. }
  - eapply wlp_mono; [by apply wp_wlp, wp_reassociate|]. intros _ s' [-> _]. by apply reassociate_base.
  - eapply wlp_mono; [by apply (unsafe_release i e o)|]. done.
Qed.

(** *** Removal of a UE context *)
Lemma unlinked_base i s : base_ok s → unclaimed i s → base_ok (unlinked i s).
Proof.
  intros [Hl Ht Hg He Hb] Hu. destruct (set_link_ues s i None) as (E1&E2&E3&E4&E5&E6).
  split; [exact Hl| | |by apply (enb_ok_frame s)|].
  - intros j Hj. destruct (E6 j) as [X1 X2]. unfold unlinked. rewrite X1, X2. by apply Ht.
  - intros g j Ej. destruct (E6 j) as [_ X2]. unfold unlinked. rewrite X2. by apply Hg.
  - intros x j Ex. destruct (Hb x j Ex) as (?&?&?). split_and!; [done|done|]. simpl.
    rewrite fn_lookup_alter_ne; [done|]. intros ->. by apply (Hu x).
Qed.
Lemma gone_base i t s s' : base_ok s → unclaimed i s → gone i t s s' → base_ok s'.
Proof.
  intros [[Hnd Hl] Ht Hg He Hb] Hu Hgone. pose proof (λ j, gone_live i t s s' j Hgone) as Hlive.
  destruct (gone_enb _ _ _ _ Hgone) as (E1 & E2 & E3 & E4). split.
  - rewrite (gone_list _ _ _ _ Hgone). pose proof (ogs_list_remove_perm _ i Hnd) as Hp.
    split; [rewrite Hp; by apply list.NoDup_filter|].
    intros j. rewrite Hp, list_elem_of_filter, Hl, Hlive. tauto.
  - intros j [Hj _]%Hlive. destruct (gone_ues _ _ _ _ Hgone j) as [-> ->].
    rewrite (proj2 (gone_tmsis _ _ _ _ Hgone)). by apply Ht.
  - intros g j. rewrite (gone_guti _ _ _ _ Hgone), hash_get_set, Hlive, (proj2 (gone_ues _ _ _ _ Hgone j)).
    case_decide as Hd; [done|]. intros E. destruct (Hg g j E) as [Hj Eg]. split; [|done].
    split; [done|]. by intros ->.
  - apply (enb_ok_frame s); [done|]. unfold same_enbs. by rewrite E4.
  - intros x j. rewrite E4, Hlive, (gone_link _ _ _ _ Hgone). unfold live_enb. rewrite E1. intros E.
    assert (j ≠ i) as Hne by (intros ->; by apply (Hu x)). rewrite fn_lookup_insert_ne by done.
    destruct (Hb x j E) as (?&?&?). by split_and!.
Qed.
Lemma wlp_mme_ue_remove_base i s :
  base_ok s → unclaimed i s → wlp (mme_ue_remove i) s (λ _, base_ok).
Proof.
  intros Hok Hu. destruct (decide (live i s)) as [Hi|Hi]; [|by apply wlp_bind, wlp_the_ue].
  destruct (bo_tmsi s Hok i Hi) as (t & m & Et & _).
  destruct (decide (t ∈ pool_used (m_tmsi_pool s))) as [Ht|Ht].
  - apply wp_wlp, (wp_mme_ue_remove i s t); [done..|]. intros s' Hg. by apply (gone_base i t s).
  - apply wlp_bind, wlp_the_ue. intros _. rewrite Et.
    apply wlp_bind, wlp_modify, wlp_bind, wlp_bind, wlp_modify, wlp_bind, wlp_get. simpl.
    rewrite decide_False by done. by apply wlp_lift.
Qed.

(** *** S1AP *)
Lemma wlp_enb_ue_remove e s (Q : () → table → Prop) :
  (live_enb e s → Q () (removed e s)) → wlp (enb_ue_remove e) s Q.
Proof.
  intros HQ. destruct (decide (live_enb e s)) as [He|He];
    [by apply wp_wlp, wp_enb_ue_remove; auto|by apply wlp_bind, wlp_the_enb_ue_obj].
Qed.
Lemma known_id_or b id s : enb_ok s → known_id s b id ∨ ¬ known_id s b id.
Proof.
  intros Hen. destruct (eo_list s Hen b) as [_ Hl].
  destruct (decide (Exists (λ e, enb_ue_s1ap_id (enb_ues s e) = id) (enb_ue_lists s b))) as [Hx|Hx];
    [left|right; intros (e & He & Eb & Eid); apply Hx].
  - apply list.Exists_exists in Hx as (e & [? ?]%Hl & Eid). by exists e.
  - apply list.Exists_exists. exists e. by rewrite Hl.
Qed.

(** The UE context that an initial UE message names points at a removed S1
    context: the handler does not get through. *)
Lemma dangling_initial b id st t g o s :
  base_ok s → releases conf b id st s o → ¬ live_enb o s →
  wlp (initial_ue_context conf b id st t g) s (λ _ _, False).
Proof.
  intros Hok [Hn (i & Ei & El)] Hd. pose proof (bo_enb s Hok) as Hen.
  apply wlp_bind, wp_wlp. eapply wp_mono; [by apply wp_find_by_s1ap_id|].
  intros r s0 [-> Hr]. destruct r as [x|]; [destruct Hn; by exists x|].
  apply wlp_bind, wlp_bind, wp_wlp, wp_enb_ue_add. intros x p id' Ep s'.
  apply wlp_bind, wp_wlp, wp_on_enb_ue_obj.
  { unfold live_enb, s'. simpl. destruct (pool_alloc_fresh _ _ _ Ep) as [_ ->]. set_solver. }
  unfold named in Ei. destruct st as [[mmec tmsi]|]; [|done]. simpl in Ei.
  apply wlp_bind, wlp_bind, wp_wlp, wp_gets. change (guti_ue_hash _) with (guti_ue_hash s). rewrite Ei.
  eapply wlp_mono; [apply (unsafe_release i x o); [done|]|done].
  (** the new S1 context may be the removed object itself *)
  intros [Ho Hne]. apply Hd. unfold live_enb in Ho |- *. unfold s' in Ho. simpl in Ho.
  destruct (pool_alloc_fresh _ _ _ Ep) as [_ Eu]. rewrite Eu in Ho. set_solver.
Qed.
Lemma wp_initial_base b id st t g s :
  base_ok s → (∀ o, releases conf b id st s o → live_enb o s) →
  wp (initial_ue_context conf b id st t g) s (λ e s', base_ok s' ∧ initial_post conf b id st s e s').
Proof.
  intros Hok Ho. apply (wp_initial_ue_context conf base_ok); [|intros s1..| | | |done|done].
  - intros s1. apply bo_enb.
  - intros g' i Hok1 E. by apply (bo_guti s1 Hok1) in E as [? _].
  - intros e i Hok1 E. by destruct (bo_back s1 Hok1 e i E).
  - intros f e s1. apply keeps_enb_base.
  - intros b' s1. apply added_base.
  - intros i e s1. apply reassociate_base.
Qed.
Lemma releases_live_or b id st s :
  base_ok s →
  (∀ o, releases conf b id st s o → live_enb o s) ∨ ∃ o, releases conf b id st s o ∧ ¬ live_enb o s.
Proof.
  intros Hok. destruct (known_id_or b id s (bo_enb s Hok)) as [Hk|Hn]; [left; by intros o [? _]|].
  unfold releases. destruct (named conf s st) as [i|]; [|by left; intros o (_ & i & ? & _)].
  destruct (ue_enb_ue (mme_ues s i)) as [o|] eqn:Eo.
  - destruct (decide (live_enb o s)); [left|right; exists o; split; [split; [done|by exists i]|done]].
    intros o' (_ & j & [= <-] & E). congruence.
  - left. intros o' (_ & j & [= <-] & E). congruence.
Qed.
Lemma wlp_initial_message_base hr b id st t g pdu s :
  base_ok s → wlp (s1ap_handle_initial_ue_message conf hr b id st t g pdu) s (λ _ s',
    base_ok s' ∧ ∃ e s1, initial_post conf b id st s e s1 ∧ queued e s1 s').
Proof.
  intros Hok. apply wlp_bind. destruct (releases_live_or b id st s Hok) as [Ho|(o & Ho & Hd)].
  - eapply wlp_mono; [by apply wp_wlp, wp_initial_base|]. intros e s1 [Hok1 Hp].
    eapply wlp_mono; [apply wlp_nas_pdu|]. intros [] s2 Hq. split; [by eapply queued_base|by eauto].
  - eapply wlp_mono; [by apply (dangling_initial b id st t g o)|]. done.
Qed.
Lemma wlp_uplink_base hr b id pdu s :
  base_ok s → wlp (s1ap_handle_uplink_nas_transport hr b id pdu) s (λ _, base_ok).
Proof.
  intros Hok. apply wlp_bind, wp_wlp. eapply wp_mono; [by apply wp_find_by_s1ap_id, bo_enb|].
  intros [e|] s1 [-> _]; [|by apply wlp_ret]. eapply wlp_mono; [apply wlp_nas_pdu|].
  intros [] s2. by apply queued_base.
Qed.
Lemma wlp_release_complete_base id s :
  base_ok s → wlp (s1ap_handle_ue_context_release_complete id) s (λ _, base_ok).
Proof.
  intros Hok. apply wlp_bind, wp_wlp, wp_gets. destruct (ogs_hash_get _ _) as [e|]; [|by apply wlp_ret].
  apply wlp_bind, wlp_the_enb_ue_obj. intros He. cbv zeta.
  assert (Hu : ∀ i, e_mme_ue (enb_ues s e) = Some i → unclaimed i (removed e s))
    by (intros i Ei; apply removed_unclaimed; [done|by right]).
  pose proof (removed_base e s Hok He) as Hr.
  destruct (_ =? S1AP_UE_CTX_REL_NO_ACTION); [by apply wlp_enb_ue_remove|].
  destruct (_ =? S1AP_UE_CTX_REL_S1_NORMAL_RELEASE); [|destruct (_ =? S1AP_UE_CTX_REL_UE_CONTEXT_REMOVE);
    [|destruct (_ =? S1AP_UE_CTX_REL_DELETE_INDIRECT_TUNNEL); [|by apply wlp_mabort]]];
    apply wlp_bind, wlp_enb_ue_remove; intros _;
    (destruct (e_mme_ue (enb_ues s e)) as [i|]; [specialize (Hu i eq_refl)|by apply wlp_mabort]).
  - apply wlp_bind, wlp_the_ue. intros _. apply wlp_modify. by apply (unlinked_base i (removed e s)).
  - by apply wlp_mme_ue_remove_base.
  - by apply wlp_ret.
Qed.
Lemma wlp_reset_base b type s : base_ok s → wlp (s1ap_handle_s1_reset b type) s (λ _, base_ok).
Proof.
  destruct type as [|items]; cbn [s1ap_handle_s1_reset].
  - intros Hok. apply wlp_bind, wlp_get. revert Hok. generalize (enb_ue_lists s b) as l. intros l. revert s.
    induction l as [|e l IH]; intros s Hok; cbn [remove_each]; [by apply wlp_ret|].
    apply wlp_bind, wlp_enb_ue_remove. intros He. by apply IH, removed_base.
  - revert s. induction items as [|item items IH]; intros s Hok; cbn [reset_items]; [by apply wlp_ret|].
    apply wlp_bind, (wlp_mono _ _ (λ _, base_ok)); [|intros _ s' Hok'; by apply IH].
    apply wlp_bind, (wlp_mono _ _ (λ _ s', s' = s)).
    + destruct item as [[m|] [n|]]; try by apply wp_wlp, wp_gets.
      apply wp_wlp. eapply wp_mono; [by apply wp_find_by_s1ap_id, bo_enb|]. by intros r s' [-> _].
    + intros [e|] s' ->; [|by apply wlp_ret]. apply wlp_enb_ue_remove. by apply removed_base.
Qed.

(** *** A new UE context, whatever the object was used for before *)
Definition renamed i m s s' : Prop :=
  m ∈ m_tmsis s ∧ ∃ t p h ues', m_tmsis s !! Z.to_nat (t - 1) = Some m ∧
    (∀ g j, ogs_hash_get h g = Some j → ogs_hash_get (guti_ue_hash s) g = Some j) ∧
    ue_m_tmsi (ues' i) = Some t ∧ guti (ident (ctx (ues' i))) = own_guti conf m ∧
    (∀ j, j ≠ i → ues' j = mme_ues s j) ∧
    s' = set_guti_ue_hash (ogs_hash_set h (own_guti conf m) (Some i))
           (set_mme_ues ues' (set_m_tmsi_pool p s)).
Lemma wlp_new_guti i s : wlp (mme_ue_new_guti conf i) s (λ _ s', ∃ m, renamed i m s s').
Proof.
  apply wlp_bind, wlp_the_ue. intros Hi.
  apply wlp_bind, (wlp_mono _ _ (λ _ s1, ∃ p h, s1 = set_guti_ue_hash h (set_m_tmsi_pool p s) ∧
    ∀ g j, ogs_hash_get h g = Some j → ogs_hash_get (guti_ue_hash s) g = Some j)).
  { destruct (ue_m_tmsi (mme_ues s i)) as [t|].
    - apply wlp_bind, wlp_modify, wlp_bind, wlp_get. case_decide; [|by apply wlp_lift].
      apply wlp_modify. eexists _, _. split; [reflexivity|]. intros g j. simpl. rewrite hash_get_set. by case_decide.
    - apply wlp_ret. exists (m_tmsi_pool s), (guti_ue_hash s). split; [by destruct s|done]. }
  intros _ s1 (p & h & -> & Hh). apply wlp_bind, wlp_bind, wlp_get. simpl.
  destruct (pool_alloc p) as [[t p']|]; [|by apply wlp_mabort].
  apply wlp_bind, wlp_modify, wlp_ret, wlp_bind, wp_wlp, wp_on_ue_obj; [done|].
  apply wlp_bind, wlp_get, wlp_bind, wlp_lift. simpl. intros m Em.
  destruct (m_tmsis s !! Z.to_nat (t - 1)) as [m'|] eqn:Et; [|done]. injection Em as ->.
  apply wlp_bind, wp_wlp, wp_on_ctx; [done|]. apply wlp_modify. exists m.
  split; [by eapply list_elem_of_lookup_2|]. 
  match goal with |- context [set_mme_ues ?u (set_mme_ues _ _)] => exists t, p', h, u end.
  split_and!; [done|done| | | |reflexivity].
  - simpl. by rewrite !fn_lookup_alter.
  - simpl. by rewrite !fn_lookup_alter.
  - intros j Hj. simpl. by rewrite !fn_lookup_alter_ne by done.
Qed.

Lemma renamed_base i m p s s1 s' :
  base_ok s → pool_alloc (mme_ue_pool s) = Some (i, p) →
  same_ue_side (set_mme_ues (mme_ues s1) (set_mme_ue_pool p s)) s1 → same_enbs s s1 →
  same_links s s1 → (∀ j, j ≠ i → mme_ues s1 j = mme_ues s j) → renamed i m s1 s' →
  base_ok (set_mme_ue_list (ogs_list_add (mme_ue_list s) i) s').
Proof.
  intros [[Hnd Hl] Ht Hg He Hb] Ei (E1&_&_&_&E4&E5&_) Hen [_ HL] Hold (_ & t & q & h & ues' & Em & Hh & N1 & N2 & No & ->).
  destruct (pool_alloc_fresh _ _ _ Ei) as [Hf Hp]. simpl in E1, E4, E5.
  set (s2 := set_mme_ue_list _ _).
  assert (Hlive : ∀ j, live j s2 ↔ j = i ∨ live j s)
    by (intros j; unfold live; change (mme_ue_pool s2) with (mme_ue_pool s1); rewrite E1, Hp; set_solver).
  assert (Hne : ∀ j, live j s → j ≠ i) by (intros j Hj ->; done).
  split.
  - split; [simpl; rewrite ogs_list_add_perm; apply list.NoDup_cons; split; [by rewrite Hl|done]|].
    intros j. rewrite Hlive. simpl. by rewrite ogs_list_add_perm, elem_of_cons, Hl.
  - intros j [->|Hj]%Hlive.
    + exists t, m. by split_and!.
    + pose proof (Hne j Hj) as Hji. unfold guti_of. simpl. rewrite No, Hold, E4 by done. by apply Ht.
  - intros g j. rewrite Hlive. simpl. rewrite hash_get_set. case_decide as Hd.
    + intros [= <-]. subst g. split; [by left|done].
    + intros E%Hh. rewrite E5 in E. destruct (Hg g j E) as [Hj Eg]. split; [by right|].
      pose proof (Hne j Hj). unfold guti_of in *. simpl. by rewrite No, Hold by done.
  - by apply (enb_ok_frame s).
  - intros x j. simpl. rewrite HL. intros E. destruct (Hb x j E) as (Hx & Hj & El). pose proof (Hne j Hj).
    rewrite Hlive. split_and!; [|by right|by rewrite No, Hold].
    unfold live_enb in *. simpl. by rewrite (proj1 Hen).
Qed.
Lemma wlp_mme_ue_add_base e s :
  base_ok s → wlp (mme_ue_add self conf e) s (λ _ s', base_ok s' ∧
    enb_ue_pool s' = enb_ue_pool s ∧ enb_ues s' = enb_ues s).
Proof.
  intros Hok. apply wlp_bind, wlp_the_enb_ue_obj. intros He. apply wlp_bind, wlp_get.
  destruct (pool_alloc (mme_ue_pool s)) as [[i pu]|] eqn:Ei; [|by apply wlp_mabort].
  destruct (pool_alloc_fresh _ _ _ Ei) as [_ Hp].
  assert (Hi : i ∈ pool_used pu) by (rewrite Hp; set_solver).
  apply wlp_bind, wlp_modify, wlp_bind, wp_wlp, wp_on_ctx; [done|]. set (s1 := set_mme_ues _ _).
  assert (Hold : ∀ j, j ≠ i → mme_ues s1 j = mme_ues s j)
    by (intros j Hj; simpl; by rewrite fn_lookup_alter_ne).
  assert (HL : same_links s s1).
  { split; [|done]. intros j. simpl. destruct (decide (i = j)) as [->|];
      [by rewrite fn_lookup_alter|by rewrite fn_lookup_alter_ne]. }
  apply wlp_bind, wlp_massert. intros _. apply wlp_bind. eapply wlp_mono; [apply wlp_new_guti|].
  intros _ s2 (m & Hr). apply wp_wlp, wp_add_tail.
  { by destruct Hr as (_ & t & q & h & ues' & _ & _ & _ & _ & _ & ->). }
  intros s3 Hf. pose proof (renamed_base i m pu s s1 s2 Hok Ei ltac:(done) ltac:(done) HL Hold Hr) as Hok2.
  assert (mme_ue_list s3 = mme_ue_list s ∧ enb_ue_pool s3 = enb_ue_pool s ∧ enb_ues s3 = enb_ues s) as (El & Ep & Ee).
  { destruct Hf as ((_&X1&_)&_&X2&_&_&X3&_). rewrite X1, X2, X3.
    destruct Hr as (_ & t & q & h & ues' & _ & _ & _ & _ & _ & E2). by rewrite E2. }
  rewrite El. split; [|done]. by eapply calm_base, frame_calm, frame_set_list.
Qed.

Lemma wlp_emm_event_base ev s : base_ok s → wlp (mme_evt_emm_message self conf ev) s (λ _, base_ok).
Proof.
  intros Hok. destruct ev as [e b t c]. apply wlp_bind, wlp_the_enb_ue_obj. intros He.
  apply wlp_bind. destruct (ogs_nas_emm_decode b) as [m|]; [apply wlp_ret|by apply wlp_mabort].
  assert (Hend : ∀ i s1, base_ok s1 →
    wlp (on_ue i (mme_emm_message self (EmmMessage m t c))) s1 (λ _, base_ok)).
  { intros i s1 Hok1. eapply wlp_mono; [apply calm_on_ue, guti_emm_message|]. intros ? s2.
    by apply calm_base. }
  destruct (e_mme_ue (enb_ues s e)) as [i|] eqn:Ee; [apply wlp_bind, wlp_ret, Hend, Hok|].
  apply wlp_bind, wlp_bind. eapply wlp_mono; [apply wlp_found_by_message|]. intros found s0 ->.
  apply wlp_bind, (wlp_mono _ _ (λ _ s1, base_ok s1 ∧ live_enb e s1 ∧ e_mme_ue (enb_ues s1 e) = None)).
  - destruct found as [i|].
    + apply wlp_bind, (wlp_mono _ _ (λ _ s1, calm s s1)).
      { case_match; [|by apply wlp_ret]. apply wlp_bind. eapply wlp_mono; [apply calm_on_security|].
        intros [rv b'] s1 Hs. by apply wlp_massert. }
      intros _ s1 Hs. apply wlp_ret. split; [by eapply calm_base|].
      destruct Hs as (_ & (E & _) & (_ & El) & _). unfold live_enb. by rewrite E, El.
    + eapply wlp_mono; [by apply wlp_mme_ue_add_base|].
      intros i s1 (Hok1 & E1 & E2). split; [done|]. unfold live_enb. by rewrite E1, E2.
  - intros i s1 (Hok1 & He1 & En1). apply wlp_assoc. eapply wlp_mono; [by apply wlp_reassociate_base|].
    intros [] s2 Hok2. by apply wlp_ret, Hend.
Qed.
End inv.
