(* ===== verification/MmeUeTableProps.v ===== *)
(** * The table of UE contexts: properties

    Generation of the M-TMSIs, reachability and the invariant, and the
    sequences of messages after which the code follows a dangling pointer. *)
From S2P Require Import Prelude.
From S2P Require Import CMem.
From S2P Require Import OgsLib.
From S2P Require Import NasTai.
From S2P Require Import NasConv.
From S2P Require NasSecurity.
From S2P Require Import Kdf.
From S2P Require Import MmeContext.
From S2P Require Import EmmBuild.
From S2P Require Import EmmHandler.
From S2P Require Import EmmSm.
From S2P Require Import EmmSystem.
From S2P Require Import MmeUeTable.
From S2P Require Import MmeUeTableSpec.
From S2P Require Import MmeUeTableInv.
From stdpp Require Import functions.
#[local] Open Scope Z_scope.

(** ** Generation of the M-TMSIs *)
Section m_tmsi.
Implicit Types (rnd : nat → Z) (array : list Z).

(** The distinct values among the first [k] random numbers. *)
Definition mapped_prefix rnd (k : nat) : gset Z :=
  list_to_set ((λ i, mapped_m_tmsi (rnd i)) <$> seq 0 k).
Lemma mapped_prefix_S rnd k :
  mapped_prefix rnd (S k) = mapped_prefix rnd k ∪ {[mapped_m_tmsi (rnd k)]}.
Proof. unfold mapped_prefix. rewrite seq_S, fmap_app, list_to_set_app_L. simpl. set_solver. Qed.

(** The shape of a value: the two top bits set, the third octet zero. *)
Definition m_tmsi_shape (m : Z) : Prop :=
  0 <= m < 2 ^ 32 ∧ Z.land m 0xc0000000 = 0xc0000000 ∧ Z.land m 0x00ff0000 = 0.
Lemma mapped_shape r : m_tmsi_shape (mapped_m_tmsi r).
Proof.
  unfold m_tmsi_shape, mapped_m_tmsi. split_and!.
  - by apply Z.land_nonneg; right.
  - change 0xff00ffff with (Z.land 0xff00ffff (Z.ones 32)).
    rewrite Z.land_assoc, Z.land_ones by lia. by apply Z.mod_pos_bound.
  - rewrite <- Z.land_assoc. change (Z.land 0xff00ffff 0xc0000000) with 0xc0000000.
    apply Z.bits_inj'. intros i _. rewrite Z.land_spec, Z.lor_spec.
    by destruct (Z.testbit r i), (Z.testbit 0xc0000000 i).
  - rewrite <- Z.land_assoc. change (Z.land 0xff00ffff 0x00ff0000) with 0. apply Z.land_0_r.
Qed.

(** There are 2^22 such values. *)
Definition nth_m_tmsi (k : Z) : Z := 0xc0000000 + k / 2 ^ 16 * 2 ^ 24 + k mod 2 ^ 16.
Lemma top_bits h : 0 <= h < 256 → Z.land h 192 = 192 → 192 <= h.
Proof.
  intros Hh E. assert (forallb (λ h, negb (Z.land h 192 =? 192) || (192 <=? h)) (seqZ 0 256) = true) as Hf
    by by vm_compute.
  pose proof (proj1 (forallb_forall _ _) Hf h) as Hc. rewrite <- list_elem_of_In, elem_of_seqZ in Hc.
  specialize (Hc ltac:(lia)). cbv beta in Hc. rewrite E in Hc. by apply Z.leb_le in Hc.
Qed.
Lemma m_tmsi_shape_nth m : m_tmsi_shape m → ∃ k, 0 <= k < 2 ^ 22 ∧ m = nth_m_tmsi k.
Proof.
  intros (Hr & Htop & Hmid).
  assert (Emid : (m / 2 ^ 16) mod 2 ^ 8 = 0).
  { rewrite <- Z.land_ones, <- Z.shiftr_div_pow2 by lia.
    change (Z.ones 8) with (Z.shiftr 0x00ff0000 16). rewrite <- Z.shiftr_land, Hmid. reflexivity. }
  assert (Etop : 192 <= m / 2 ^ 24).
  { rewrite <- Z.shiftr_div_pow2 by lia. set (h := Z.shiftr m 24).
    assert (Eh : Z.land h 192 = 192).
    { change 192 with (Z.shiftr 0xc0000000 24). unfold h. by rewrite <- Z.shiftr_land, Htop. }
    assert (Hh : 0 <= h) by (unfold h; apply Z.shiftr_nonneg; lia).
    assert (h < 256) by (unfold h; rewrite Z.shiftr_div_pow2 by lia; apply Z.div_lt_upper_bound; lia).
    by apply (top_bits h). }
  exists ((m / 2 ^ 24 - 192) * 2 ^ 16 + m mod 2 ^ 16). unfold nth_m_tmsi.
  rewrite Z.div_add_l, (Z.div_small (m mod _)) by (try apply Z.mod_pos_bound; lia).
  rewrite (Z.add_comm (_ * _) (m mod _)), Z.mod_add, Zmod_mod by lia.
  pose proof (Z.mod_pos_bound m (2 ^ 16) ltac:(lia)).
  pose proof (Z.div_mod m (2 ^ 16) ltac:(lia)). pose proof (Z.div_mod (m / 2 ^ 16) (2 ^ 8) ltac:(lia)) as E2.
  rewrite Z.div_div in E2 by lia. change (2 ^ 16 * 2 ^ 8) with (2 ^ 24) in E2.
  assert (m / 2 ^ 24 < 256) by (apply Z.div_lt_upper_bound; lia). lia.
Qed.

Lemma shape_list_length array :
  NoDup array → Forall m_tmsi_shape array → Z.of_nat (length array) <= 2 ^ 22.
Proof.
  intros Hnd Hf.
  assert (array ⊆+ (nth_m_tmsi <$> seqZ 0 (2 ^ 22))) as Hs.
  { apply NoDup_submseteq; [done|]. intros m Hm.
    apply (proj1 (list.Forall_forall _ _) Hf), m_tmsi_shape_nth in Hm as (k & Hk & ->).
    apply list_elem_of_fmap_2, elem_of_seqZ. lia. }
  apply submseteq_length in Hs. rewrite length_fmap, length_seqZ in Hs. lia.
Qed.

(** The loop: [array] holds the distinct values among the first [i]. *)
Lemma m_tmsi_loop_ok fuel rnd i n array :
  NoDup array → list_to_set array = mapped_prefix rnd i → Forall m_tmsi_shape array →
  (length array <= n)%nat → (∀ k, (k < i)%nat → (size (mapped_prefix rnd k) < n)%nat) →
  match m_tmsi_loop fuel rnd i n array with
  | Ok array' => length array' = n ∧ NoDup array' ∧ Forall m_tmsi_shape array' ∧
      ∃ k, list_to_set array' = mapped_prefix rnd k
  | Undef => ∀ k, (k < i + fuel)%nat → (size (mapped_prefix rnd k) < n)%nat
  | Aborted => False
  end.
Proof.
  revert i array. induction fuel as [|fuel IH]; intros i array Hnd Es Hf Hl Hk; cbn [m_tmsi_loop].
  { intros k Hi. apply Hk. lia. }
  assert (Hsz : size (mapped_prefix rnd i) = length array) by (by rewrite <- Es, size_list_to_set).
  destruct (Nat.ltb_spec (length array) n) as [Hlt|]; [|split_and!; [lia|done|done|by exists i]].
  assert (Hk' : ∀ k, (k < S i)%nat → (size (mapped_prefix rnd k) < n)%nat).
  { intros k Hi. destruct (decide (k = i)) as [->|]; [by rewrite Hsz|apply Hk; lia]. }
  cbv zeta. replace (i + S fuel)%nat with (S i + fuel)%nat by lia.
  destruct (existsb (Z.eqb (mapped_m_tmsi (rnd i))) array) eqn:Ex; apply IH; try done.
  - apply existsb_exists in Ex as (x & Hx%list_elem_of_In & E%Z.eqb_eq).
    rewrite mapped_prefix_S, Es, E. assert (x ∈ mapped_prefix rnd i) by (by rewrite <- Es, elem_of_list_to_set).
    set_solver.
  - apply list.NoDup_app. split_and!; [done| |apply NoDup_singleton].
    intros x Hx ->%list_elem_of_singleton. apply not_true_iff_false in Ex. apply Ex, existsb_exists.
    exists (mapped_m_tmsi (rnd i)). by rewrite <- list_elem_of_In, Z.eqb_refl.
  - rewrite list_to_set_app_L, mapped_prefix_S, Es. simpl. set_solver.
  - apply Forall_app. split; [done|]. by apply Forall_singleton, mapped_shape.
  - rewrite length_app. simpl. lia.
Qed.

(** C35: The M-TMSIs.  If the first [k] random numbers give at least [n]
    distinct values once masked, [mme_m_tmsi_pool_generate] ends after at
    most [k] rounds with [n] different M-TMSIs, all drawn from the random
    numbers, with the two top bits set and the third octet zero (the shape of
    a mapped GUTI).  There are 2^22 such values: for a larger pool the loop
    never ends. *)
Theorem m_tmsi_pool_generated rnd n :
  (∀ k fuel, (n <= size (mapped_prefix rnd k))%nat → (k < fuel)%nat →
     ∃ array, mme_m_tmsi_pool_generate fuel rnd n = Ok array ∧ length array = n ∧ NoDup array ∧
       Forall m_tmsi_shape array ∧ ∃ k', list_to_set array = mapped_prefix rnd k') ∧
  (2 ^ 22 < Z.of_nat n → ∀ fuel, mme_m_tmsi_pool_generate fuel rnd n = Undef).
Proof.
  assert (Hloop := λ fuel, m_tmsi_loop_ok fuel rnd 0 n [] (NoDup_nil_2) eq_refl
    (Forall_nil_2 _) (Nat.le_0_l n) (λ k Hk, False_ind _ (Nat.nlt_0_r k Hk))).
  unfold mme_m_tmsi_pool_generate. split.
  - intros k fuel Hn Hk. specialize (Hloop fuel).
    destruct (m_tmsi_loop fuel rnd 0 n []) as [array| |]; [|done|].
    + exists array. tauto.
    + specialize (Hloop k ltac:(lia)). lia.
  - intros Hn fuel. specialize (Hloop fuel).
    destruct (m_tmsi_loop fuel rnd 0 n []) as [array| |]; [|done|done].
    destruct Hloop as (E & Hnd & Hf & _). pose proof (shape_list_length array Hnd Hf). lia.
Qed.
End m_tmsi.

Section props.
Context `{Host, OgsBits, OgsPkbuf, NasSecurity.Crypto, KeyedHash, OgsPlmn, !OgsPlmnDigits,
          !Ogs3gpp, OgsSizes, NasCodec, OgsImsi, OgsTime, OgsFsmLaws, NasDecoder}.
Context `{OgsPoolLaws, !OgsPoolSized, !OgsPoolSizedLaws, OgsListLaws, OgsNextId, OgsHashLaws,
          OgsFsmInitLaws} (self : mme_context_t) (conf : table_conf).
Implicit Types (s : table).

(** ** Reachability *)
(** After [mme_context_init]: empty pools and tables, zero pointers, the
    M-TMSIs generated. *)
Record table_init s : Prop := {
  ti_ues : pool_used (mme_ue_pool s) = ∅ ∧ mme_ue_list s = [] ∧ ∀ i, ue_enb_ue (mme_ues s i) = None;
  ti_enbs : pool_used (enb_ue_pool s) = ∅ ∧ (∀ b, enb_ue_lists s b = []) ∧
    ∀ e, e_mme_ue (enb_ues s e) = None;
  ti_hash k : ogs_hash_get (guti_ue_hash s) k = None ∧ ogs_hash_get (mme_ue_s1ap_id_hash s) k = None;
  ti_tmsis : ∃ fuel rnd n, mme_m_tmsi_pool_generate fuel rnd n = Ok (m_tmsis s) ∧
    pool_size (m_tmsi_pool s) = Z.of_nat n;
}.

(** What the main loop handles: an S1AP message, the first event of the
    queue, a timeout event of an EMM timer, the expiry of such a timer, an
    answer of the HSS. *)
Inductive table_input :=
| InitialUeMessage (hr : list Z) (b id : Z) (st : option (Z * Z)) (t : ogs_tai_t) (g : ogs_e_cgi_t)
    (pdu : list Z)
| UplinkNasTransport (hr : list Z) (b id : Z) (pdu : list Z)
| UeContextReleaseComplete (id : Z)
| S1Reset (b : Z) (type : s1_reset_type)
| QueuedEvent
| TimerEvent (i : Z) (id : mme_timer_e)
| TimerExpiry (i : Z) (id : mme_timer_e)
| S6aAnswer (i : Z) (m : s6a_message).

Definition table_turn (x : table_input) : M table () :=
  match x with
  | InitialUeMessage hr b id st t g pdu => s1ap_handle_initial_ue_message conf hr b id st t g pdu
  | UplinkNasTransport hr b id pdu => s1ap_handle_uplink_nas_transport hr b id pdu
  | UeContextReleaseComplete id => s1ap_handle_ue_context_release_complete id
  | S1Reset b type => s1ap_handle_s1_reset b type
  | QueuedEvent =>
      s ← get;
      match queue s with
      | ev :: q => modify (set_queue q);; mme_evt_emm_message self conf ev
      | [] => mret ()
      end
  | TimerEvent i id => on_ue i (emm_dispatch self (EmmTimer id))
  | TimerExpiry i id =>
      u ← the_ue i;
      match expire id (ctx u) with Some u' => on_ctx i (λ _, u') | None => mret () end
  | S6aAnswer i m => on_ue i (mme_s6a_message self m)
  end.

(** The inputs that do not corrupt the table: an S1 reset does not take down
    the S1 context of a UE, a release without UE context has none, and a new
    UE context does not reuse the object of a removed one with its M-TMSI.
    The code checks none of this. *)
Definition orderly (x : table_input) s : Prop :=
  match x with
  | UeContextReleaseComplete id => released_alone id s
  | S1Reset b type => reset_alone b type s
  | QueuedEvent => clean_alloc s
  | _ => True
  end.
Definition anything (x : table_input) s : Prop := True.

(** The tables after any number of turns, each with an [allowed] input. *)
Inductive table_reachable (allowed : table_input → table → Prop) : table → Prop :=
| tr_init s : table_init s → table_reachable allowed s
| tr_step s x s' :
    table_reachable allowed s → allowed x s → table_turn x s = Ok ((), s') →
    table_reachable allowed s'.

Lemma orderly_anything s : table_reachable orderly s → table_reachable anything s.
Proof. induction 1; [by apply tr_init|by eapply tr_step]. Qed.

Lemma table_init_ok s : table_init s → table_ok conf s.
Proof.
  intros [(U1 & U2 & U3) (E1 & E2 & E3) Hh (fuel & rnd & n & Eg & Hz)].
  assert (Hnl : ∀ i, ¬ live i s) by (intros i; unfold live; rewrite U1; set_solver).
  assert (Hne : ∀ e, ¬ live_enb e s) by (intros e; unfold live_enb; rewrite E1; set_solver).
  pose proof (m_tmsi_loop_ok fuel rnd 0 n [] (NoDup_nil_2) eq_refl
    (Forall_nil_2 _) (Nat.le_0_l n) (λ k Hk, False_ind _ (Nat.nlt_0_r k Hk))) as Hg.
  unfold mme_m_tmsi_pool_generate in Eg. rewrite Eg in Hg. destruct Hg as (El & Hnd & Hf & _).
  split.
  - split.
    + rewrite U2. split; [apply NoDup_nil_2|]. intros i. split; [by intros ?%not_elem_of_nil|].
      by intros ?%Hnl.
    + by intros i ?%Hnl.
    + by intros i j ?%Hnl.
    + intros g i. rewrite (proj1 (Hh g)). split; [done|]. by intros [?%Hnl _].
    + split; [done|]. eapply list.Forall_impl; [exact Hf|]. by intros m [? _].
    + by rewrite Hz, El.
  - split.
    + intros b. rewrite E2. split; [apply NoDup_nil_2|]. intros e.
      split; [by intros ?%not_elem_of_nil|]. by intros [?%Hne _].
    + intros k e. by rewrite (proj2 (Hh k)).
  - split.
    + intros i e. by rewrite U3.
    + intros e i. by rewrite E3.
Qed.

(** A turn keeps an invariant that every operation keeps. *)
Lemma expiry_turn i id s : wlp (table_turn (TimerExpiry i id)) s (λ _, frame s).
Proof.
  apply wlp_bind, wlp_the_ue. intros Hi. destruct (expire id _) as [u'|] eqn:Ex; [|by apply wlp_ret].
  apply wp_wlp, wp_frame_ctx; [done|by apply (guti_expire id)|done].
Qed.
Lemma table_turn_ok x s : table_ok conf s → orderly x s → wlp (table_turn x) s (λ _, table_ok conf).
Proof.
  intros Hok Ha. destruct x; cbn [table_turn].
  - by apply wlp_initial_ue_message.
  - by apply wlp_uplink_nas_transport.
  - by apply wp_wlp, wp_ue_context_release_complete.
  - by apply wp_wlp, wp_reset_ok.
  - apply wlp_bind, wlp_get. destruct (queue s) as [|ev q]; [by apply wlp_ret|].
    apply wlp_bind, wlp_modify, wlp_emm_event; [by apply set_queue_ok|done].
  - eapply wlp_mono; [apply calm_on_ue, guti_dispatch|]. intros [] s'. by apply calm_table_ok.
  - eapply wlp_mono; [apply expiry_turn|]. intros [] s'. by apply frame_table_ok.
  - eapply wlp_mono; [apply calm_on_ue, guti_s6a|]. intros [] s'. by apply calm_table_ok.
Qed.
Lemma table_turn_base x s : base_ok conf s → wlp (table_turn x) s (λ _, base_ok conf).
Proof.
  intros Hok. destruct x; cbn [table_turn].
  - eapply wlp_mono; [by apply wlp_initial_message_base|]. by intros [] s' [? _].
  - by apply wlp_uplink_base.
  - by apply wlp_release_complete_base.
  - by apply wlp_reset_base.
  - apply wlp_bind, wlp_get. destruct (queue s) as [|ev q]; [by apply wlp_ret|].
    by apply wlp_bind, wlp_modify, wlp_emm_event_base, queue_base.
  - eapply wlp_mono; [apply calm_on_ue, guti_dispatch|]. intros [] s'. by apply calm_base.
  - eapply wlp_mono; [apply expiry_turn|]. intros [] s' Hf. by eapply calm_base, frame_calm.
  - eapply wlp_mono; [apply calm_on_ue, guti_s6a|]. intros [] s'. by apply calm_base.
Qed.

Lemma table_reachable_table_ok s : table_reachable orderly s → table_ok conf s.
Proof.
  induction 1 as [s Hs|s x s' Hr IH Ha E]; [by apply table_init_ok|exact (table_turn_ok x s IH Ha _ _ E)].
Qed.
Lemma table_reachable_base s : table_reachable anything s → base_ok conf s.
Proof.
  induction 1 as [s Hs|s x s' Hr IH _ E]; [by apply table_base_ok, table_init_ok|].
  exact (table_turn_base x s IH _ _ E).
Qed.

(** C6: The table of UE contexts, as a reachability invariant.  Whatever
    initial UE messages, uplink NAS messages, releases and resets arrive over
    S1AP, and whatever EMM messages, timers and HSS answers the main loop
    handles in between, in whatever order: the list of UE
    contexts holds the live ones, once each; every one of them has the GUTI
    made of an M-TMSI of the pool; looking a GUTI up finds nothing or a live
    context that has that GUTI; the list of an eNB holds its S1 contexts,
    once each; an MME UE S1AP ID finds nothing or a live S1 context that has
    it; and an S1 context that points at a UE context points at a live one
    that points back.  If in addition the inputs so far were [orderly] - no
    reset or release took the S1 context from under a UE, and no UE context
    was put in an object that still has the M-TMSI of a removed one, which
    the code does not check (C12, C32) - then two contexts never share a
    GUTI, every context is found by its GUTI, and the pointer of a UE context
    at its S1 context is never dangling. *)
Theorem table_reachable_ok s :
  table_reachable anything s →
  (NoDup (mme_ue_list s) ∧ ∀ i, i ∈ mme_ue_list s ↔ live i s) ∧
  (∀ i, live i s → ∃ m, m ∈ m_tmsis s ∧ guti_of s i = own_guti conf m) ∧
  (∀ g i, ogs_hash_get (guti_ue_hash s) g = Some i → live i s ∧ guti_of s i = g) ∧
  (∀ b, NoDup (enb_ue_lists s b) ∧
     ∀ e, e ∈ enb_ue_lists s b ↔ live_enb e s ∧ e_enb (enb_ues s e) = b) ∧
  (∀ k e, ogs_hash_get (mme_ue_s1ap_id_hash s) k = Some e →
     live_enb e s ∧ host_bytes 4 (mme_ue_s1ap_id (enb_ues s e)) = k) ∧
  (∀ e i, e_mme_ue (enb_ues s e) = Some i →
     live_enb e s ∧ live i s ∧ ue_enb_ue (mme_ues s i) = Some e) ∧
  (table_reachable orderly s →
     (∀ i j, live i s → live j s → guti_of s i = guti_of s j → i = j) ∧
     (∀ g i, ogs_hash_get (guti_ue_hash s) g = Some i ↔ live i s ∧ guti_of s i = g) ∧
     (∀ i e, live i s ∧ ue_enb_ue (mme_ues s i) = Some e ↔
             live_enb e s ∧ e_mme_ue (enb_ues s e) = Some i)).
Proof.
  intros Hr. destruct (table_reachable_base s Hr) as [Hl Ht Hg [Hb Hi] Hk].
  split; [done|]. split_and!; [|done|done|done|done|].
  { intros i Hli. destruct (Ht i Hli) as (t & m & _ & Em & Eg). exists m.
    split; [by eapply list_elem_of_lookup_2|done]. }
  intros Ho. destruct (table_reachable_table_ok s Ho) as [Hu _ [K1 K2]]. split_and!.
  - intros i j Hli Hlj E.
    assert (ogs_hash_get (guti_ue_hash s) (guti_of s i) = Some i) as E1 by by apply (uo_guti conf s Hu).
    assert (ogs_hash_get (guti_ue_hash s) (guti_of s i) = Some j) as E2 by by apply (uo_guti conf s Hu).
    congruence.
  - apply (uo_guti conf s Hu).
  - intros i e. split; intros [_ E]; [destruct (K1 i e E) as (?&?&?)|destruct (K2 e i E) as (?&?&?)]; done.
Qed.

(** ** Dangling pointers *)
Lemma dead_event ev s :
  ¬ live_enb (evt_enb_ue ev) s → ∀ q, mme_evt_emm_message self conf ev (set_queue q s) = Undef.
Proof.
  intros Hd q. destruct ev as [e b t c]. unfold mme_evt_emm_message, the_enb_ue_obj, mbind, M_bind, get.
  by rewrite decide_False.
Qed.

(** ** Operations that never fail an assertion *)
Definition unfailing {A} (m : M table A) : Prop := ∀ s, no_abort m s.
Lemma unfailing_bind {A B} (m : M table A) (f : A → M table B) :
  unfailing m → (∀ a, unfailing (f a)) → unfailing (m ≫= f).
Proof.
  unfold unfailing, no_abort, mbind, M_bind. intros Hm Hf s. specialize (Hm s).
  destruct (m s) as [[a s1]| |]; [apply Hf|done|done].
Qed.
Lemma unfailing_the_ue i : unfailing (the_ue i).
Proof. intros s. unfold no_abort, the_ue, mbind, M_bind, get. by case_decide. Qed.
Lemma unfailing_the_enb_ue e : unfailing (the_enb_ue_obj e).
Proof. intros s. unfold no_abort, the_enb_ue_obj, mbind, M_bind, get. by case_decide. Qed.
Lemma unfailing_modify f : unfailing (modify f).
Proof. by intros s. Qed.
Lemma unfailing_ret {A} (a : A) : unfailing (mret a).
Proof. by intros s. Qed.
Lemma unfailing_gets {A} (f : table → A) : unfailing (gets f).
Proof. by intros s. Qed.
Lemma unfailing_get : unfailing get.
Proof. by intros s. Qed.
Lemma unfailing_undef {A} : unfailing (lift (Undef : outcome A)).
Proof. by intros s. Qed.
Create HintDb unfailing.
#[local] Hint Resolve unfailing_undef unfailing_the_ue unfailing_the_enb_ue unfailing_modify unfailing_ret
  unfailing_gets unfailing_get : unfailing.
Ltac unfailing_tac :=
  repeat first [by auto with unfailing | apply unfailing_bind; [|intros] | case_match].

Lemma unfailing_on_ue_obj i f : unfailing (on_ue_obj i f).
Proof. unfold on_ue_obj. unfailing_tac. Qed.
Lemma unfailing_on_enb_ue_obj e f : unfailing (on_enb_ue_obj e f).
Proof. unfold on_enb_ue_obj. unfailing_tac. Qed.
#[local] Hint Resolve unfailing_on_ue_obj unfailing_on_enb_ue_obj : unfailing.
Lemma unfailing_enb_ue_remove e : unfailing (enb_ue_remove e).
Proof. unfold enb_ue_remove, enb_ue_deassociate, on_enb_list, s1ap_hash_set. unfailing_tac. Qed.
#[local] Hint Resolve unfailing_enb_ue_remove : unfailing.
Lemma unfailing_remove_each l : unfailing (remove_each l).
Proof. induction l; cbn [remove_each]; unfailing_tac. Qed.
Lemma unfailing_find_s1ap_id l id : unfailing (find_s1ap_id l id).
Proof. induction l; cbn [find_s1ap_id]; unfailing_tac. Qed.
#[local] Hint Resolve unfailing_remove_each unfailing_find_s1ap_id : unfailing.
Lemma unfailing_take_over e st :
  unfailing (match st with
    | None => mret ()
    | Some (mmec, tmsi) =>
        ue ← mme_ue_find_by_guti (nas_guti conf mmec tmsi);
        match ue with
        | None => mret ()
        | Some i => implicit_release i;; mme_ue_associate_enb_ue i e
        end
    end).
Proof.
  unfold mme_ue_find_by_guti, implicit_release, mme_ue_associate_enb_ue. unfailing_tac.
Qed.

(** [enb_ue_add] fails only when the pool is exhausted. *)
Lemma enb_ue_add_no_abort b s : pool_alloc (enb_ue_pool s) ≠ None → no_abort (enb_ue_add b) s.
Proof.
  intros Hp. unfold no_abort, enb_ue_add, mbind at 1, M_bind, get.
  destruct (pool_alloc (enb_ue_pool s)) as [[e p]|]; [|done].
  match goal with |- ?m s ≠ _ => enough (unfailing m) as Hm by apply Hm end.
  unfold s1ap_hash_set, on_enb_list. unfailing_tac.
Qed.
Lemma no_abort_unfailing {A B} (m : M table A) (f : A → M table B) s :
  no_abort m s → (∀ a, unfailing (f a)) → no_abort (m ≫= f) s.
Proof.
  unfold unfailing, no_abort, mbind, M_bind. intros Hm Hf.
  destruct (m s) as [[a s1]| |]; [apply Hf|done|done].
Qed.
Lemma initial_ue_context_no_abort b id st t g s :
  enb_ok s → pool_alloc (enb_ue_pool s) ≠ None → no_abort (initial_ue_context conf b id st t g) s.
Proof.
  intros Hen Hp. eapply no_abort_bind; [|by apply wp_find_by_s1ap_id|].
  { revert s Hen Hp. intros s _ _.
    enough (unfailing (enb_ue_find_by_enb_ue_s1ap_id b id)) as Hm by apply Hm.
    unfold enb_ue_find_by_enb_ue_s1ap_id. unfailing_tac. }
  intros found s1 [-> _]. apply no_abort_unfailing; [|intros e; unfailing_tac].
  destruct found as [e|]; [done|]. apply no_abort_unfailing; [by apply enb_ue_add_no_abort|].
  intros e. apply unfailing_bind; [by auto with unfailing|intros _].
  apply unfailing_bind; [apply unfailing_take_over|auto with unfailing].
Qed.

(** C12: An initial UE message takes over the UE context it names.  From
    any reachable table whose pool of S1 contexts is not exhausted, consider
    the first part of [s1ap_handle_initial_ue_message] (everything before an
    octet of the NAS message is looked at, hence before any integrity check).
    When the eNB UE S1AP ID is new and the S-TMSI names a UE context with an
    S1 context, that S1 context is [released].  If it is live, or there is
    none to release, the part ends with a live S1 context on the sending eNB,
    and the named UE context has been moved to it and its S1 context freed.
    If it is not - a reset has freed it and left the pointer - the code
    accesses a freed object.  When the inputs so far were [orderly] the first
    case applies. *)
Theorem initial_message_takes_over b id st t g s :
  table_reachable anything s → pool_alloc (enb_ue_pool s) ≠ None →
  ((∀ o, releases conf b id st s o → live_enb o s) →
   ∃ e s', initial_ue_context conf b id st t g s = Ok (e, s') ∧
     live_enb e s' ∧ e_enb (enb_ues s' e) = b ∧ queue s' = queue s ∧
     (∀ j, ctx (mme_ues s' j) = ctx (mme_ues s j)) ∧
     (∀ i, ¬ known_id s b id → named conf s st = Some i →
        live i s ∧ ue_enb_ue (mme_ues s' i) = Some e) ∧
     (∀ o, releases conf b id st s o → ¬ live_enb o s')) ∧
  (∀ o, releases conf b id st s o → ¬ live_enb o s →
   initial_ue_context conf b id st t g s = Undef) ∧
  (table_reachable orderly s → ∀ o, releases conf b id st s o → live_enb o s).
Proof.
  intros Hr Hp. pose proof (table_reachable_base s Hr) as Hok.
  pose proof (initial_ue_context_no_abort b id st t g s (bo_enb conf s Hok) Hp) as Hna. split_and!.
  - intros Ho. destruct (wp_total _ s _ (wp_initial_base conf b id st t g s Hok Ho) Hna)
      as (e & s' & E & _ & [P1 P2 P3 P4 P5]).
    exists e, s'. split_and!; [done|apply P1|apply P1|done|done| |].
    + intros i Hn Ei. by destruct (P5 i Hn Ei) as (? & ? & _).
    + intros o [Hn (i & Ei & Eo)]. destruct (P5 i Hn Ei) as (_ & _ & _ & Hd). by apply Hd.
  - intros o Ho Hd. pose proof (dangling_initial conf b id st t g o s Hok Ho Hd) as Hw.
    unfold no_abort in Hna. destruct (initial_ue_context _ _ _ _ _ _ _) as [[x s2]| |] eqn:Ex; [|done|done].
    by destruct (Hw x s2 Ex).
  - intros Ho o (_ & i & _ & Eo). pose proof (table_reachable_table_ok s Ho) as [_ _ Hk].
    by destruct (link_enb _ _ _ _ Hk i o Eo) as (_ & ? & _).
Qed.

(** C31: The event queue outlives the S1 contexts it points at.  In any
    reachable table, let an event for S1 context [o] of a UE wait in the queue when an initial UE
    message arrives that names the UE by its S-TMSI.  The message frees [o]
    but not the event: handling the event then is an access to a freed
    object. *)
Theorem queued_event_dangles hr b id st t g pdu ev i s s' :
  table_reachable anything s → ev ∈ queue s → ue_enb_ue (mme_ues s i) = Some (evt_enb_ue ev) →
  named conf s st = Some i → ¬ known_id s b id →
  s1ap_handle_initial_ue_message conf hr b id st t g pdu s = Ok ((), s') →
  ev ∈ queue s' ∧ ∀ q, mme_evt_emm_message self conf ev (set_queue q s') = Undef.
Proof.
  intros Hr Hin Eo Ei Hn E. pose proof (table_reachable_base s Hr) as Hok.
  destruct (wlp_initial_message_base conf hr b id st t g pdu s Hok _ _ E) as (_ & e & s1 & Hp & Hq).
  destruct (ip_named _ _ _ _ _ _ _ Hp i Hn Ei) as (_ & _ & _ & Ho). specialize (Ho _ Eo). split.
  - destruct Hq as [_ [Eq|(ev' & Eq & _)]]; rewrite Eq, (ip_queue _ _ _ _ _ _ _ Hp); [done|].
    apply elem_of_app. by left.
  - intros q. apply (dead_event ev). unfold live_enb. intros Hl. by apply Ho, (queued_live e s1 s').
Qed.

(** A reset of an eNB leaves dangling pointers.  The S1 reset frees the
    S1 contexts of the eNB without telling the UE contexts, so a UE context
    keeps pointing at a freed object; when the UE comes back with its
    S-TMSI, through any eNB, the implicit release follows that pointer (the
    second case of C12). *)
Theorem reset_leaves_dangling b st i e s :
  table_reachable orderly s → named conf s st = Some i → ue_enb_ue (mme_ues s i) = Some e →
  e_enb (enb_ues s e) = b →
  ∃ s', s1ap_handle_s1_reset b S1_Interface s = Ok ((), s') ∧ ue_enb_ue (mme_ues s' i) = Some e ∧
    ¬ live_enb e s' ∧
    ∀ b' id t g, ¬ known_id s' b' id → pool_alloc (enb_ue_pool s') ≠ None →
      initial_ue_context conf b' id st t g s' = Undef.
Proof.
  intros Hr Ei El Eb. pose proof (table_reachable_table_ok s Hr) as [Hu Hen Hk].
  assert (Hi : live i s).
  { unfold named in Ei. destruct st as [[mmec tmsi]|]; [|done]. simpl in Ei.
    by apply (uo_guti conf s Hu) in Ei as [Hi _]. }
  assert (no_abort (s1ap_handle_s1_reset b S1_Interface) s) as Ha.
  { enough (unfailing (s1ap_handle_s1_reset b S1_Interface)) as Hm by apply Hm.
    unfold s1ap_handle_s1_reset, enb_ue_remove_in_enb. unfailing_tac. }
  destruct (wp_total _ s _ (wp_s1_reset b s Hen) Ha) as ([] & s' & E & Hen' & Hs & Hlive & _).
  destruct Hs as (E1 & E2 & _ & _ & _ & E6 & _).
  assert (Hd : ¬ live_enb e s') by (rewrite Hlive; tauto).
  assert (Ei' : named conf s' st = Some i) by (unfold named in *; by rewrite E6).
  exists s'. split_and!; [done|by rewrite E2|done|]. intros b' id t g Hn Hp.
  pose proof (initial_ue_context_no_abort b' id st t g s' Hen' Hp) as Hna.
  pose proof (wlp_reset_base conf b S1_Interface s (table_base_ok conf s (Build_table_ok _ _ Hu Hen Hk)) _ _ E) as Hok'.
  pose proof (dangling_initial conf b' id st t g e s' Hok') as Hw.
  unfold no_abort in Hna. destruct (initial_ue_context _ _ _ _ _ _ _) as [[x s2]| |] eqn:Ex; [|done|done].
  exfalso. refine (Hw _ _ _ _ Ex); [|done]. split; [done|]. exists i. by rewrite E2.
Qed.

(** ** Reuse of a UE context *)
Lemma unfailing_run_ctx {A} i (m : M ue_t A) : (∀ u, no_abort m u) → unfailing (run_ctx i m).
Proof.
  intros Hm. unfold run_ctx. apply unfailing_bind; [by auto with unfailing|intros u].
  intros s. apply no_abort_unfailing; [|intros [a v]; unfailing_tac].
  specialize (Hm (ctx u)). unfold no_abort, lift in *. by destruct (m (ctx u)).
Qed.
Lemma unfailing_mme_ue_remove i : unfailing (mme_ue_remove i).
Proof.
  unfold mme_ue_remove, guti_hash_set, imsi_hash_set, mme_m_tmsi_free, on_ctx, mme_ue_deassociate.
  assert (unfailing (run_ctx i (CLEAR_SERVICE_INDICATOR;; CLEAR_MME_UE_ALL_TIMERS)))
    by by apply unfailing_run_ctx.
  unfailing_tac.
Qed.

(** A context object whose stale M-TMSI is free: [mme_ue_new_guti] frees it
    again. *)
Lemma stale_context_add e i p t s :
  live_enb e s → pool_alloc (mme_ue_pool s) = Some (i, p) → 0 < i <= pool_ue conf →
  ue_m_tmsi (mme_ues s i) = Some t → t ∉ pool_used (m_tmsi_pool s) →
  mme_ue_add self conf e s = Undef.
Proof.
  intros He Ei Hr Et Ht. unfold mme_ue_add, the_enb_ue_obj, on_ctx, on_ue_obj, mme_ue_new_guti,
    the_ue, massert, mbind, M_bind, get, modify, lift, mret, M_ret.
  rewrite decide_True, Ei by done. cbn -[decide].
  assert (i ∈ pool_used p) as Hi by (destruct (pool_alloc_fresh _ _ _ Ei) as [_ ->]; set_solver).
  rewrite decide_True by done. cbn -[decide].
  rewrite (proj2 (Z.ltb_lt 0 i)), (proj2 (Z.leb_le i _)) by lia. cbn -[decide].
  rewrite decide_True by done. cbn -[decide]. rewrite fn_lookup_alter. cbn -[decide]. rewrite Et.
  unfold guti_hash_set, mme_m_tmsi_free, modify, mbind, M_bind, get. cbn -[decide].
  by rewrite decide_False.
Qed.

(** C32: The M-TMSI of a removed context is freed twice.  The release of a
    UE (detach, reject) removes its context and frees its M-TMSI, but the
    object keeps the pointer; an allocation does not clear it.  When the pool
    hands the object out for the next UE, [mme_ue_new_guti] takes the pointer
    for a valid one and frees the M-TMSI again.  Orderly inputs are enough to
    get there. *)
Theorem reused_context_double_free s id e i :
  table_reachable orderly s → ogs_hash_get (mme_ue_s1ap_id_hash s) (host_bytes 4 id) = Some e →
  ue_ctx_rel_action (e_content (enb_ues s e)) = S1AP_UE_CTX_REL_UE_CONTEXT_REMOVE →
  e_mme_ue (enb_ues s e) = Some i → 0 < i <= pool_ue conf →
  ∃ s', s1ap_handle_ue_context_release_complete id s = Ok ((), s') ∧ ¬ live i s' ∧
    ∀ e' p, live_enb e' s' → pool_alloc (mme_ue_pool s') = Some (i, p) →
      mme_ue_add self conf e' s' = Undef.
Proof.
  intros Hr Eh Ea Em Hi. pose proof (table_reachable_table_ok s Hr) as [Hu Hen Hk].
  destruct (link_ue _ _ _ _ Hk e i Em) as (He & Hl & _).
  assert (ue_ok conf (removed e s)) as Hu' by by apply (same_ue_side_ok conf s).
  destruct (uo_tmsi conf _ Hu' i Hl) as (t & m & Et & Hin & _).
  assert (Hw : wp (s1ap_handle_ue_context_release_complete id) s (λ _ s', gone i t (removed e s) s')).
  { apply wp_bind, wp_gets. rewrite Eh. apply wp_bind, wp_the_enb_ue_obj; [done|]. cbv zeta. rewrite Ea, Em.
    apply wp_bind, wp_enb_ue_remove; [done|]. by apply (wp_mme_ue_remove i _ t). }
  assert (Hn : no_abort (s1ap_handle_ue_context_release_complete id) s).
  { eapply (no_abort_bind _ _ _ (λ r s1, r = Some e ∧ s1 = s)); [done|by apply wp_gets|].
    intros r s1 [-> ->].
    eapply (no_abort_bind _ _ _ (λ o s1, o = enb_ues s e ∧ s1 = s));
      [apply unfailing_the_enb_ue|by apply wp_the_enb_ue_obj|].
    intros o s1 [-> ->]. cbv zeta. rewrite Ea, Em. cbn [Z.eqb].
    match goal with |- no_abort ?m s => enough (unfailing m) as Hx by apply Hx end.
    apply unfailing_bind; [apply unfailing_enb_ue_remove|intros _; apply unfailing_mme_ue_remove]. }
  destruct (wp_total _ s _ Hw Hn) as ([] & s' & E & Hg).
  exists s'. split_and!; [done| |].
  - intros Hx. by apply (gone_live _ _ _ _ _ Hg) in Hx as [_ ?].
  - intros e' p He' Ep. apply (stale_context_add e' i p t); [done|done|done| |].
    + by rewrite (proj1 (gone_ues _ _ _ _ Hg i)).
    + rewrite (proj1 (gone_tmsis _ _ _ _ Hg)), pool_used_free. set_solver.
Qed.
End props.
