(* ===== verification/EmmFlows.v ===== *)
(** * The EMM procedures: what they do, step by step *)
From S2P Require Import Prelude.
From S2P Require Import CMem.
From S2P Require Import OgsLib.
From S2P Require Import NasTai.
From S2P Require Import NasConv.
From S2P Require NasSecurity.
From S2P Require Import Kdf.
From S2P Require Import MmeContext.
From S2P Require Import EmmBuild.
From S2P Require Import EmmHandler.
From S2P Require Import EmmSm.
From S2P Require Import EmmProofs.
From S2P Require Import EmmSpec.
From S2P Require Import EmmSystem.
#[local] Open Scope Z_scope.

Section flows.
Context `{Host, OgsBits, OgsPkbuf, NasSecurity.Crypto, KeyedHash, OgsPlmn, !OgsPlmnDigits,
          !Ogs3gpp, OgsSizes, NasCodec, OgsImsi, OgsTime, OgsFsm} (self : mme_context_t).

(** ** Running the sending functions *)
(** A NAS message sent to the UE, when it has an S1 connection. *)
Definition sent (b : pkbuf) (u : ue_t) : ue_t :=
  match enb_ue u with
  | Some _ => set_trace (trace u ++ [ToEnb (DownlinkNasTransport b)]) u
  | None => u
  end.
Lemma downlink_run b u : nas_send_to_downlink_nas_transport b u = Ok ((), sent b u).
Proof.
  unfold nas_send_to_downlink_nas_transport, nas_send_to_enb, sent, mbind, M_bind, get.
  destruct (enb_ue u) eqn:E; [|reflexivity]. by rewrite E.
Qed.
Lemma plain_encode_run m b u :
  ogs_nas_plain_encode m = Some b → plain_encode m u = Ok (b, u).
Proof. unfold plain_encode. by intros ->. Qed.
Lemma send_plain_run m b u :
  ogs_nas_plain_encode m = Some b →
  (e ← plain_encode m; nas_send_to_downlink_nas_transport e) u = Ok ((), sent b u).
Proof. intros E. m_run (plain_encode_run m b u E). apply downlink_run. Qed.
Lemma authentication_reject_run b u :
  ogs_nas_plain_encode AuthenticationReject = Some b →
  nas_send_authentication_reject u = Ok ((), sent b u).
Proof. apply send_plain_run. Qed.
Lemma attach_reject_run c e b u :
  ogs_nas_plain_encode (AttachReject c None) = Some b → sess_list u = [] →
  nas_send_attach_reject c e u = Ok ((), sent b u).
Proof.
  intros E El. unfold nas_send_attach_reject. m_ret. rewrite El. m_ret.
  by apply send_plain_run.
Qed.
Lemma sm_sent b u : sm (sent b u) = sm u.
Proof. unfold sent. by destruct (enb_ue u). Qed.
Lemma timers_sent b u : timers (sent b u) = timers u.
Proof. unfold sent. by destruct (enb_ue u). Qed.

(** ** Authentication *)
Lemma memcmp_run (a b : list Z) n :
  (n <= length a)%nat → (n <= length b)%nat →
  memcmp_equal a b n = Ok (bool_decide (take n a = take n b)).
Proof.
  intros Ha Hb. unfold memcmp_equal, NasSecurity.peek, slice. simpl.
  by rewrite !drop_0, !(proj2 (Nat.leb_le _ _)) by (simpl; lia).
Qed.

(** C29: The response check.  In state authentication, an AUTHENTICATION RESPONSE
    leads to security mode exactly when the octets that it announces equal
    the first octets of XRES, and to the exception state with an
    AUTHENTICATION REJECT otherwise; T3460 is stopped.  The announced length
    is not compared with that of XRES: an empty response is accepted
    whatever XRES is. *)
Theorem authentication_response_decides m t c u b :
  sm u = emm_state_authentication → message_type m = OGS_NAS_AUTHENTICATION_RESPONSE →
  ogs_nas_plain_encode AuthenticationReject = Some b →
  let n := Z.to_nat (authentication_response_length m) in
  (n <= length (authentication_response_res m))%nat → (n <= length (xres (keys u)))%nat →
  ∃ u', emm_state_handler self (sm u) (FsmEvent (EmmMessage m t c)) u = Ok ((), u') ∧
    t3460 (timers u') = timer_cleared ∧
    (if bool_decide (take n (authentication_response_res m) = take n (xres (keys u)))
     then sm u' = emm_state_security_mode ∧ trace u' = trace u
     else sm u' = emm_state_exception ∧ trace u' = trace (sent b u)) ∧
    (n = 0%nat → sm u' = emm_state_security_mode).
Proof.
  intros Es Et Eb n Hres Hx. rewrite Es. simpl. rewrite Et. simpl.
  unfold authentication_response, CLEAR_T3460. m_ret. m_ret.
  set (u1 := on_t3460 timer_cleared u). change (keys u1) with (keys u).
  rewrite (M_bind_run _ _ _ _ _ (f_equal (λ o, lift o u1) (memcmp_run _ _ n Hres Hx))).
  cbv beta. case_bool_decide as Eq; simpl.
  - exists (set_sm emm_state_security_mode u1). by split_and!.
  - m_run (authentication_reject_run b u1 Eb).
    exists (set_sm emm_state_exception (sent b u1)). split; [reflexivity|].
    unfold sent. change (enb_ue u1) with (enb_ue u). change (trace u1) with (trace u).
    split_and!; [by destruct (enb_ue u)|done|by destruct (enb_ue u)|].
    intros En. destruct Eq. by rewrite En.
Qed.

(** ** Dispatching *)
Context `{!OgsFsmLaws, NasDecoder}.

Lemma dispatch_stay e u u' :
  emm_state_handler self (sm u) (FsmEvent e) u = Ok ((), u') → sm u' = sm u →
  emm_dispatch self e u = Ok ((), u').
Proof.
  intros E Es. unfold emm_dispatch. rewrite fsm_dispatch_spec. m_run E. m_ret.
  by rewrite decide_True.
Qed.
Lemma dispatch_aborts e u :
  emm_state_handler self (sm u) (FsmEvent e) u = Aborted → emm_dispatch self e u = Aborted.
Proof. intros E. unfold emm_dispatch. rewrite fsm_dispatch_spec. unfold mbind, M_bind. by rewrite E. Qed.
Lemma emm_message_stay e u u' :
  emm_dispatch self e u = Ok ((), u') → sm u' ≠ emm_state_exception →
  mme_emm_message self e u = Ok ((), u').
Proof. intros E Hs. unfold mme_emm_message. m_run E. m_ret. by rewrite decide_False. Qed.

(** A stale expiry.  When T3460 expires while an AUTHENTICATION FAILURE with
    cause "synch failure" waits in the queue, the failure stops the timer and
    drops the saved request, and the expiry that is handled next finds
    neither a message nor an authentication vector: the process stops. *)
Theorem stale_expiry_aborts u b t c m :
  sm u = emm_state_authentication → t_running (t3460 (timers u)) = true →
  ogs_nas_emm_decode b = Some m → message_type m = OGS_NAS_AUTHENTICATION_FAILURE →
  authentication_failure_cause m = EMM_CAUSE_SYNCH_FAILURE →
  let failure := MME_EVT_EMM_MESSAGE b t c in
  let expiry := MME_EVT_EMM_TIMER MME_TIMER_T3460 in
  ∃ u1 u2,
    mme_step self {| ue := u; queue := [failure] |} {| ue := u1; queue := [failure; expiry] |} ∧
    mme_step self {| ue := u1; queue := [failure; expiry] |} {| ue := u2; queue := [expiry] |} ∧
    mme_handle self expiry u2 = Aborted.
Proof.
  intros Es Er Ed Et Ec failure expiry.
  set (u1 := on_t3460 (stop (t3460 (timers u))) u).
  assert (∃ u2, mme_handle self failure u1 = Ok ((), u2) ∧ sm u2 = emm_state_authentication ∧
                t3460 (timers u2) = timer_cleared) as (u2 & E2 & Es2 & Et2).
  { unfold failure. cbn [mme_handle]. rewrite Ed. eexists. split; [|split; cycle 1].
    - apply emm_message_stay; [apply dispatch_stay|].
      + change (sm u1) with (sm u). rewrite Es. simpl. rewrite Et. simpl.
        unfold authentication_failure, CLEAR_T3460. m_ret. rewrite Ec. reflexivity.
      + done.
      + simpl. by rewrite Es.
    - reflexivity.
    - exact Es. }
  exists u1, u2. split_and!.
  - apply (step_expire self MME_TIMER_T3460 u u1 [failure]). simpl. by rewrite Er.
  - by apply step_handle.
  - apply dispatch_aborts. rewrite Es2. simpl. unfold nas_send_authentication_request.
    unfold mbind, M_bind, get, modify. rewrite Et2. simpl. by rewrite Et2.
Qed.

(** ** Requests at unexpected times *)
(** Operations that leave the current procedure alone. *)
Definition same_eps (u u' : ue_t) : Prop := nas_eps u' = nas_eps u.
#[local] Instance same_eps_preorder : PreOrder same_eps.
Proof. unfold same_eps. split; [done|]. intros u v w. congruence. Qed.

Lemma identity_response_eps x : keeps same_eps (emm_handle_identity_response x).
Proof.
  unfold emm_handle_identity_response, store_imsi, mme_ue_set_imsi, the_enb_ue, emit.
  keeps_tac; by apply keeps_modify.
Qed.

(** An IDENTITY RESPONSE that the MME did not ask for, for instance as the
    first message of a UE, never leaves the state function when it carries
    an IMSI: no procedure is running, and the process stops. *)
Theorem unexpected_identity_response_fails m t c u :
  common_state (sm u) → security_header_type m ≠ SERVICE_REQUEST_HEADER →
  message_type m = OGS_NAS_IDENTITY_RESPONSE →
  id_type (mi_imsi (identity_response m)) = 1 →
  eps_type (nas_eps u) ∉ [MME_EPS_TYPE_ATTACH_REQUEST; MME_EPS_TYPE_TAU_REQUEST;
                          MME_EPS_TYPE_EXTENDED_SERVICE_REQUEST] →
  ∀ r, emm_dispatch self (EmmMessage m t c) u ≠ Ok r.
Proof.
  intros Hc Hh Et Hid Heps [[] u'] E. revert E.
  enough (wlp (emm_dispatch self (EmmMessage m t c)) u (λ _ _, False)) as Hw
    by (intros E; exact (Hw _ _ E)).
  apply dispatch_wlp; [exact _|].
  assert (∀ (P : () → ue_t → Prop), wlp (common_register_state self (FsmEvent (EmmMessage m t c))) u P) as Hw.
  { intros P. simpl. unfold the_enb_ue. apply wlp_bind, wlp_bind, wlp_get.
    destruct (enb_ue u); [|apply wlp_mabort]. apply wlp_ret.
    rewrite (proj2 (Z.eqb_neq _ _)) by done. apply wlp_bind.
    unfold common_message. rewrite Et. simpl. apply wlp_bind, wlp_modify.
    unfold or_exception. apply wlp_bind.
    eapply wlp_mono; [apply wlp_and; [apply identity_response_eps|]|].
    { unfold emm_handle_identity_response. rewrite Hid. apply wlp_bind.
      eapply wlp_mono with (P := λ _ _, True); [by intros ???|]. intros _ w _. simpl.
      instantiate (1 := λ rv v, rv = OGS_OK ∧ MME_UE_HAVE_IMSI v = true).
      apply wlp_bind, wlp_bind. eapply wlp_mono with (P := λ _ _, True); [by intros ???|].
      intros _ v _. apply wlp_bind, wlp_get, wlp_massert. intros Hi. by apply wlp_ret. }
    intros rv v [He [-> Hi]]. apply wlp_bind, wlp_get. rewrite Hi. simpl. apply wlp_ret.
    unfold common_after. apply wlp_bind, wlp_get. rewrite Hi. simpl.
    destruct (enb_ue v); [|apply wlp_mabort].
    assert (eps_type (nas_eps v) = eps_type (nas_eps u)) as -> by by rewrite He.
    rewrite !elem_of_cons, elem_of_nil in Heps.
    repeat case_match; z_eqs; [tauto..|apply wlp_mabort]. }
  destruct Hc as [Es|Es]; rewrite Es; simpl; [apply wlp_bind, wlp_ret|]; apply Hw.
Qed.

(** An UPDATE LOCATION answer that arrives when the UE is neither in initial
    context setup nor registered (because it detached or attached anew in
    the meantime) stops the process. *)
Theorem ula_out_of_state_aborts data u :
  sm u ≠ emm_state_initial_context_setup → sm u ≠ emm_state_registered →
  mme_s6a_message self (S6aUla data) u = Aborted.
Proof.
  intros Hi Hr. simpl. unfold mme_s6a_handle_ula. m_ret. m_ret.
  rewrite decide_False, decide_False by done. reflexivity.
Qed.

(** ** Security mode *)
Lemma wlp_same {S A} (m : M S A) s Q : keeps eq m → (∀ a, Q a s) → wlp m s Q.
Proof. intros Hm HQ. eapply wlp_mono; [apply Hm|]. intros a s' <-. apply HQ. Qed.

(** The counters and keys after encoding for a new security context. *)
Lemma encode_new_context m i c s :
  NasSecurity.header_kind_of (NasSecurity.h_security_header_type m) = NasSecurity.Protected i c true →
  wlp (NasSecurity.nas_security_encode m) s (λ r s', ∀ b, r = (NasSecurity.OGS_OK, Some b) →
    s' = NasSecurity.set_available true (NasSecurity.set_dl_count 1
           (NasSecurity.set_ul_count {| NasSecurity.overflow := 0; NasSecurity.sqn := 0 |} s))).
Proof.
  intros Hk. unfold NasSecurity.nas_security_encode. rewrite Hk.
  apply wlp_bind, wlp_modify, wlp_bind, wlp_get. cbv zeta. destruct (_ || _);
    [|by apply wlp_ret; intros b ?].
  apply wlp_bind, wlp_same; [keeps_tac|intros b1].
  apply wlp_bind, wlp_same; [keeps_tac|intros b2].
  apply wlp_bind, wlp_same; [keeps_tac|intros d].
  apply wlp_bind, wlp_same; [keeps_tac|intros [b3 mac]].
  apply wlp_bind, wlp_modify.
  apply wlp_bind, wlp_same; [keeps_tac|intros b4].
  apply wlp_bind, wlp_same; [keeps_tac|intros d2].
  apply wlp_bind, wlp_modify, wlp_ret. intros b _. by destruct s.
Qed.

(** The security context after the command has been built. *)
Lemma build_command_context u :
  let int := mme_selected_int_algorithm self u in
  let enc := mme_selected_enc_algorithm self u in
  wlp (emm_build_security_mode_command self) u (λ b u', int ≠ 0 ∧
    sec u' = {| NasSecurity.selected_enc_algorithm := enc;
                NasSecurity.selected_int_algorithm := int;
                NasSecurity.knas_enc := mme_kdf_nas MME_KDF_NAS_ENC_ALG enc (kasme (keys u));
                NasSecurity.knas_int := mme_kdf_nas MME_KDF_NAS_INT_ALG int (kasme (keys u));
                NasSecurity.dl_count := 1;
                NasSecurity.ul_count := {| NasSecurity.overflow := 0; NasSecurity.sqn := 0 |};
                NasSecurity.security_context_available := true;
                NasSecurity.mac_failed := NasSecurity.mac_failed (sec u) |}).
Proof.
  intros int enc. apply wlp_bind, wlp_get. fold int enc.
  apply wlp_bind, wlp_modify, wlp_bind, wlp_massert.
  intros Hi. apply negb_true_iff, Z.eqb_neq in Hi. apply wlp_bind, wlp_modify. cbv zeta.
  unfold security_encode. apply wlp_bind. eapply wlp_mono.
  { instantiate (1 := λ _ v, v = set_keys_nas (mme_kdf_nas MME_KDF_NAS_INT_ALG int (kasme (keys u)))
      (mme_kdf_nas MME_KDF_NAS_ENC_ALG enc (kasme (keys u))) (set_algorithms int enc u)).
    unfold plain_encode. destruct (ogs_nas_plain_encode _); [by apply wlp_ret|apply wlp_mabort]. }
  intros b v ->. apply wlp_bind. intros [rv ob] v E. unfold on_sec in E.
  destruct (NasSecurity.nas_security_encode _ _) as [[r x]| |] eqn:En; try discriminate E.
  injection E as -> <-. destruct rv, ob as [b'|]; try apply wlp_mabort. apply wlp_ret.
  split; [done|]. simpl.
  apply (encode_new_context _ true false) in En; [|reflexivity]. by rewrite (En b' eq_refl).
Qed.

(** C27: Security mode command.  When the command can be built, the first
    integrity and ciphering algorithms of the configured order that the UE
    supports are selected (integrity is never null), the NAS keys are
    derived from [kasme] for exactly these algorithms, the counts restart
    (the command itself used downlink count zero) and the security context
    becomes available.  With no common integrity algorithm the process
    stops. *)
Theorem security_mode_command_effect u :
  let int := mme_selected_int_algorithm self u in
  let enc := mme_selected_enc_algorithm self u in
  (int = 0 → emm_build_security_mode_command self u = Aborted) ∧
  (∀ b u', emm_build_security_mode_command self u = Ok (b, u') →
    int ≠ 0 ∧
    sec u' = {| NasSecurity.selected_enc_algorithm := enc;
                NasSecurity.selected_int_algorithm := int;
                NasSecurity.knas_enc := mme_kdf_nas MME_KDF_NAS_ENC_ALG enc (kasme (keys u));
                NasSecurity.knas_int := mme_kdf_nas MME_KDF_NAS_INT_ALG int (kasme (keys u));
                NasSecurity.dl_count := 1;
                NasSecurity.ul_count := {| NasSecurity.overflow := 0; NasSecurity.sqn := 0 |};
                NasSecurity.security_context_available := true;
                NasSecurity.mac_failed := NasSecurity.mac_failed (sec u) |}).
Proof.
  intros int enc. split.
  - intros Ei. unfold emm_build_security_mode_command. m_ret. fold int. rewrite Ei. reflexivity.
  - intros b u'. apply (build_command_context u).
Qed.

(** C28: Security mode complete.  With a protected message, a valid context and
    an attach in progress, T3460 stops, the eNB key is derived from [kasme]
    and the uplink count, the next-hop key from both with chaining counter
    one, the location update is requested and initial context setup begins;
    nothing else changes.  Without protection or a valid context the UE is
    rejected with cause "security mode rejected" instead. *)
Theorem security_mode_complete_effect t u b :
  eps_type (nas_eps u) = MME_EPS_TYPE_ATTACH_REQUEST → sess_list u = [] →
  ogs_nas_plain_encode (AttachReject EMM_CAUSE_SECURITY_MODE_REJECTED_UNSPECIFIED None) = Some b →
  let u1 := on_t3460 timer_cleared u in
  let kenb := mme_kdf_enb (kasme (keys u)) (NasSecurity.ul_i32 (NasSecurity.ul_count (sec u))) in
  let k := {| xres := xres (keys u); xres_len := xres_len (keys u); kasme := kasme (keys u);
              rand := rand (keys u); kenb := kenb; nh := mme_kdf_nh (kasme (keys u)) kenb;
              nhcc := 1 |} in
  security_mode_complete t u =
    Ok ((), if NasSecurity.integrity_protected t && SECURITY_CONTEXT_IS_VALID u
            then set_sm emm_state_initial_context_setup
                   (set_trace (trace u ++ [S6aUlr]) (set_keys k u1))
            else set_sm emm_state_exception (sent b u1)).
Proof.
  intros Ee El Eb u1 kenb k. unfold security_mode_complete, CLEAR_T3460. m_ret. fold u1. m_ret.
  change (SECURITY_CONTEXT_IS_VALID u1) with (SECURITY_CONTEXT_IS_VALID u).
  pose proof (attach_reject_run _ ESM_CAUSE_PROTOCOL_ERROR_UNSPECIFIED b u1 Eb El) as Er.
  destruct (NasSecurity.integrity_protected t); simpl; [|unfold reject_security_mode; by m_run Er].
  destruct (SECURITY_CONTEXT_IS_VALID u); simpl; [|unfold reject_security_mode; by m_run Er].
  m_ret. unfold mme_s6a_send_ulr, emit. m_ret.
  change (eps_type (nas_eps u1)) with (eps_type (nas_eps u)). rewrite Ee. reflexivity.
Qed.

(** ** Retransmission *)
Fixpoint repeat_m (n : nat) (m : M ue_t ()) : M ue_t () :=
  match n with O => mret () | S n => m;; repeat_m n m end.
Lemma repeat_m_app n k m u u1 :
  repeat_m n m u = Ok ((), u1) → repeat_m (n + k) m u = repeat_m k m u1.
Proof.
  revert u. induction n as [|n IH]; intros u E; [by injection E as ->|].
  apply M_bind_ok in E as ([] & u2 & E1 & E2). simpl. m_run E1. by apply IH.
Qed.

Definition expiry : M ue_t () := emm_dispatch self (EmmTimer MME_TIMER_T3460).
Definition with_t3460 (b : pkbuf) (n : Z) (u : ue_t) : Prop :=
  sm u = emm_state_authentication ∧ enb_ue u ≠ None ∧
  t_pkbuf (t3460 (timers u)) = Some b ∧ t_retry_count (t3460 (timers u)) = n.
Definition again (b : pkbuf) : output := ToEnb (DownlinkNasTransport b).

Lemma expiry_again b n u : with_t3460 b n u → n < 4 →
  ∃ u', expiry u = Ok ((), u') ∧ with_t3460 b (n + 1) u' ∧ trace u' = trace u ++ [again b].
Proof.
  intros (Es & He & Ep & En) Hlt. destruct (enb_ue u) as [e|] eqn:Ee; [|done].
  eexists. split; [apply dispatch_stay|].
  - rewrite Es. simpl. m_ret. rewrite En, (proj2 (Z.leb_gt 4 n)) by done. m_ret.
    unfold nas_send_authentication_request. m_ret. cbn [t3460 timers]. simpl. rewrite Ep.
    m_ret. m_ret. rewrite downlink_run. reflexivity.
  - unfold sent. simpl. by rewrite Ee.
  - unfold sent. simpl. rewrite Ee. split; [|done].
    split_and!; simpl; [done|by rewrite Ee|done|lia].
Qed.

Lemma expiries_again b n k u : with_t3460 b n u → n + Z.of_nat k <= 4 →
  ∃ u', repeat_m k expiry u = Ok ((), u') ∧ with_t3460 b (n + Z.of_nat k) u' ∧
    trace u' = trace u ++ replicate k (again b).
Proof.
  revert n u. induction k as [|k IH]; intros n u Hw Hle.
  - exists u. split; [done|]. rewrite Z.add_0_r, app_nil_r. done.
  - destruct (expiry_again b n u Hw) as (u1 & E1 & Hw1 & Et1); [lia|].
    destruct (IH (n + 1) u1 Hw1) as (u2 & E2 & Hw2 & Et2); [lia|].
    exists u2. split; [simpl; by m_run E1|]. split.
    + replace (n + Z.of_nat (S k)) with (n + 1 + Z.of_nat k) by lia. done.
    + by rewrite Et2, Et1, <- app_assoc.
Qed.

(** The authentication request is repeated.  From an AUTHENTICATION REQUEST
    that was repeated [n] times, the next [4 - n] expiries of T3460 each
    send the saved message once more and stay in the procedure; one more
    ends it with an AUTHENTICATION REJECT in the exception state, with all
    timers stopped. *)
Theorem authentication_retransmission u b n rej :
  with_t3460 b n u → 0 <= n <= 4 →
  ogs_nas_plain_encode AuthenticationReject = Some rej →
  (∀ k, n + Z.of_nat k <= 4 → ∃ u', repeat_m k expiry u = Ok ((), u') ∧
     sm u' = emm_state_authentication ∧ trace u' = trace u ++ replicate k (again b)) ∧
  let k := Z.to_nat (4 - n) in
  ∃ u', repeat_m (k + 1) expiry u = Ok ((), u') ∧ sm u' = emm_state_exception ∧
    trace u' = trace u ++ replicate k (again b) ++ [again rej] ∧ timers u' = timers_idle.
Proof.
  intros Hw Hn Er. split.
  { intros k Hk. destruct (expiries_again b n k u Hw Hk) as (u' & E & (Es & _) & Et). eauto. }
  intros k. destruct (expiries_again b n k u Hw) as (u1 & E1 & (Es & He & Ep & En) & Et); [lia|].
  replace (n + Z.of_nat k) with 4 in En by lia.
  destruct (enb_ue u1) as [e|] eqn:Ee; [|done].
  rewrite (repeat_m_app _ 1 _ _ _ E1). simpl.
  assert (expiry u1 = Ok ((), set_timers timers_idle (set_service_indicator 0
            (set_trace (trace u1 ++ [again rej]) (set_sm emm_state_exception u1))))) as E2.
  { unfold expiry, emm_dispatch. rewrite fsm_dispatch_spec, Es. simpl.
    unfold mbind, M_bind, get. rewrite En. simpl. unfold tran, modify.
    rewrite (authentication_reject_run rej _ Er). unfold sent. simpl. rewrite Ee. reflexivity. }
  m_run E2. eexists. split; [reflexivity|]. simpl.
  split_and!; [done| |done]. by rewrite Et, <- app_assoc.
Qed.

(** ** Attach requests *)
(** The context after the part that every attach request goes through. *)
Definition begun (r : attach_request_t) (e : enb_ue_t) (u : ue_t) : ue_t :=
  let o := eps_attach_type r in
  let u := set_service_indicator 0 (set_ebi 4 (set_timers timers_idle (set_nas_eps
    {| eps_type := MME_EPS_TYPE_ATTACH_REQUEST; ksi := nas_key_set_identifier o; eps_data := o |} u))) in
  let u := if SECURITY_CONTEXT_IS_VALID u then derive_enb_keys u else u in
  set_e_cgi (saved_e_cgi e) (set_tai (saved_tai e) u).

Lemma attach_begun r e u i :
  enb_ue u = Some e → esm_message_container r ≠ [] →
  mme_find_served_tai self (saved_tai e) = Ok i →
  emm_handle_attach_request self r u =
    (if i <? 0 then
       nas_send_attach_reject EMM_CAUSE_TRACKING_AREA_NOT_ALLOWED
         ESM_CAUSE_PROTOCOL_ERROR_UNSPECIFIED;;
       mret OGS_ERROR
     else attach_store self r) (begun r e u).
Proof.
  intros Ee Hne Ei. unfold emm_handle_attach_request, the_enb_ue.
  rewrite (M_bind_run _ _ u e u) by (unfold mbind, M_bind, get; by rewrite Ee).
  cbv beta. assert (negb (length (esm_message_container r) =? 0)%nat = true) as ->
    by (by destruct (esm_message_container r)).
  m_run (eq_refl : massert true u = Ok ((), u)).
  unfold set_eps, CLEAR_MME_UE_ALL_TIMERS, CLEAR_EPS_BEARER_ID, CLEAR_SERVICE_INDICATOR.
  m_ret. m_ret. m_ret. m_ret. unfold begun.
  set (u1 := set_service_indicator 0 _).
  assert (refresh_enb_keys u1 =
    Ok ((), if SECURITY_CONTEXT_IS_VALID u1 then derive_enb_keys u1 else u1)) as Er
    by (unfold refresh_enb_keys; m_ret; by destruct (SECURITY_CONTEXT_IS_VALID u1)).
  m_run Er. unfold copy_location. m_ret. m_ret. cbn [tai set_tai set_e_cgi]. simpl tai.
  rewrite (M_bind_run (lift _) _ _ _ _ (f_equal (λ o, lift o _) Ei)). reflexivity.
Qed.

Lemma begun_fields r e u :
  ident (begun r e u) = ident u ∧ ue_network_capability (begun r e u) = ue_network_capability u ∧
  pdn_connectivity_request (begun r e u) = pdn_connectivity_request u ∧
  trace (begun r e u) = trace u ∧ sess_list (begun r e u) = sess_list u ∧
  enb_ue (begun r e u) = enb_ue u ∧ timers (begun r e u) = timers_idle ∧
  tai (begun r e u) = saved_tai e ∧ eps_type (nas_eps (begun r e u)) = MME_EPS_TYPE_ATTACH_REQUEST.
Proof. unfold begun. cbv zeta. by destruct (SECURITY_CONTEXT_IS_VALID _). Qed.

(** Operations that touch neither identity, capabilities nor outputs. *)
Lemma store_last_visited_run p u : ∃ v, store_last_visited p u = Ok ((), v) ∧
  (v = u ∨ ∃ n, v = set_last_visited n u).
Proof. destruct p; simpl; eexists; (split; [reflexivity|]); eauto. Qed.
Lemma store_ms_cap_run c u : ∃ v, store_ms_cap c u = Ok ((), v) ∧
  (v = u ∨ ∃ n, v = set_ms_cap n u).
Proof. destruct c; simpl; eexists; (split; [reflexivity|]); eauto. Qed.

(** What the attach request stores before it looks at the identity. *)
Definition stored (r : attach_request_t) (u v : ue_t) : Prop :=
  ident v = ident u ∧ ue_network_capability v = ar_ue_cap r ∧
  pdn_connectivity_request v = pdn_connectivity_request u ∧ trace v = trace u ∧
  sess_list v = sess_list u ∧ enb_ue v = enb_ue u ∧ timers v = timers u ∧
  tai v = tai u ∧ nas_eps v = nas_eps u.
Lemma attach_store_prefix r u : ∃ v, stored r u v ∧
  attach_store self r u =
    (if mme_selected_int_algorithm self v =? 0 then
       nas_send_attach_reject EMM_CAUSE_UE_SECURITY_CAPABILITIES_MISMATCH
         ESM_CAUSE_PROTOCOL_ERROR_UNSPECIFIED;;
       mret OGS_ERROR
     else
       (if id_type (mi_imsi (ar_identity r)) =? 1 then store_imsi (ar_identity r) else mret ());;
       modify (set_pdn_request (esm_message_container r));;
       mret OGS_OK) v.
Proof.
  destruct (store_last_visited_run (ar_last_visited r) u) as (u1 & E1 & D1).
  destruct (store_ms_cap_run (ar_ms_cap r) (set_ue_cap (ar_ue_cap r) u1)) as (u2 & E2 & D2).
  exists u2. split; [destruct D1 as [->|[? ->]], D2 as [->|[? ->]]; by split_and!|].
  unfold attach_store. m_run E1. m_ret. m_run E2. m_ret. reflexivity.
Qed.

Lemma store_imsi_run m bcd u :
  ogs_nas_imsi_to_bcd (mi_imsi m) (mi_length m) (replicate 16 0) = Ok bcd →
  let s := take 15 (c_string bcd) in
  ∃ u', store_imsi m u = Ok ((), u') ∧
    imsi (ident u') = ogs_bcd_to_buffer s ∧ imsi_bcd (ident u') = s ∧
    guti_present (ident u') = true ∧ ue_network_capability u' = ue_network_capability u ∧
    trace u' = trace u ++ [ImsiHashSet (ogs_bcd_to_buffer s)] ∧ timers u' = timers u ∧
    tai u' = tai u ∧ nas_eps u' = nas_eps u.
Proof.
  intros E s. unfold store_imsi. m_ret.
  rewrite (M_bind_run (lift _) _ _ _ _ (f_equal (λ o, lift o _) E)). cbv beta.
  eexists. split; [reflexivity|]. by split_and!.
Qed.

(** Attach request.  For a UE without sessions: outside the served tracking
    areas it is rejected with cause 12, identity, capabilities and stored
    request unchanged; without a common integrity algorithm it is rejected
    with cause 23 and the identity is unchanged; otherwise the IMSI of the
    request becomes the identity of the context, the capabilities and the
    PDN connectivity request are stored, and nothing is sent.  In every case
    all timers are stopped and the location is that of the cell. *)
Theorem attach_request_outcome r e u i bcd ta sec_ :
  enb_ue u = Some e → sess_list u = [] → esm_message_container r ≠ [] →
  mme_find_served_tai self (saved_tai e) = Ok i →
  id_type (mi_imsi (ar_identity r)) = 1 →
  ogs_nas_imsi_to_bcd (mi_imsi (ar_identity r)) (mi_length (ar_identity r)) (replicate 16 0) = Ok bcd →
  ogs_nas_plain_encode (AttachReject EMM_CAUSE_TRACKING_AREA_NOT_ALLOWED None) = Some ta →
  ogs_nas_plain_encode (AttachReject EMM_CAUSE_UE_SECURITY_CAPABILITIES_MISMATCH None) = Some sec_ →
  ∃ rv u', emm_handle_attach_request self r u = Ok (rv, u') ∧
    timers u' = timers_idle ∧ tai u' = saved_tai e ∧
    eps_type (nas_eps u') = MME_EPS_TYPE_ATTACH_REQUEST ∧
    if i <? 0 then
      rv = OGS_ERROR ∧ trace u' = trace u ++ [again ta] ∧ ident u' = ident u ∧
      ue_network_capability u' = ue_network_capability u ∧
      pdn_connectivity_request u' = pdn_connectivity_request u
    else if first_order (integrity_order self) (eia (ar_ue_cap r)) =? 0 then
      rv = OGS_ERROR ∧ trace u' = trace u ++ [again sec_] ∧ ident u' = ident u ∧
      pdn_connectivity_request u' = pdn_connectivity_request u
    else
      let s := take 15 (c_string bcd) in
      rv = OGS_OK ∧ trace u' = trace u ++ [ImsiHashSet (ogs_bcd_to_buffer s)] ∧
      imsi (ident u') = ogs_bcd_to_buffer s ∧ imsi_bcd (ident u') = s ∧
      ue_network_capability u' = ar_ue_cap r ∧
      pdn_connectivity_request u' = esm_message_container r.
Proof.
  intros Ee El Hne Ei Hid Hb Eta Esec. rewrite (attach_begun r e u i) by done.
  destruct (begun_fields r e u) as (B1 & B2 & B3 & B4 & B5 & B6 & B7 & B8 & B9).
  rewrite El in B5. rewrite Ee in B6. set (v := begun r e u) in *. clearbody v.
  destruct (i <? 0).
  - m_run (attach_reject_run _ ESM_CAUSE_PROTOCOL_ERROR_UNSPECIFIED ta v Eta B5).
    eexists _, _. split; [reflexivity|]. unfold sent. rewrite B6. simpl. rewrite B4.
    by split_and!.
  - destruct (attach_store_prefix r v) as (w & (S1 & S2 & S3 & S4 & S5 & S6 & S7 & S8 & S9) & ->).
    unfold mme_selected_int_algorithm. rewrite S2. destruct (_ =? 0).
    + rewrite B5 in S5. rewrite B6 in S6.
      m_run (attach_reject_run _ ESM_CAUSE_PROTOCOL_ERROR_UNSPECIFIED sec_ w Esec S5).
      eexists _, _. split; [reflexivity|]. unfold sent. rewrite S6. simpl.
      rewrite S1, S3, S4, S7, S8, S9, B1, B3, B4. by split_and!.
    + rewrite Hid. simpl. destruct (store_imsi_run (ar_identity r) bcd w Hb)
        as (x & E & I1 & I2 & _ & I4 & I5 & I6 & I7 & I8).
      m_run E. m_ret. eexists _, _. split; [reflexivity|]. simpl.
      rewrite I4, I5, I6, I7, I8, S2, S4, S7, S8, S9, B4. by split_and!.
Qed.

(** ** Attach without the key *)
(** A security context that the MME takes for valid, but for the key set
    identifier of the last request. *)
Definition secured (u : ue_t) : Prop :=
  NasSecurity.security_context_available (sec u) = true ∧ NasSecurity.mac_failed (sec u) = false.
Lemma secured_valid u :
  secured u → ksi (nas_eps u) ≠ OGS_NAS_KSI_NO_KEY_IS_AVAILABLE → SECURITY_CONTEXT_IS_VALID u = true.
Proof. intros [E1 E2] Hk. unfold SECURITY_CONTEXT_IS_VALID. rewrite E1, E2, (proj2 (Z.eqb_neq _ _) Hk). done. Qed.

(** Operations below the state functions, on the way of such a UE. *)
Definition protects (u u' : ue_t) : Prop := sm u' = sm u ∧ (secured u → secured u').
#[local] Instance protects_preorder : PreOrder protects.
Proof. split; [by intros u|]. intros u v w [E1 H1'] [E2 H2']. split; [congruence|auto]. Qed.
Lemma quiet_protects {A} (m : M ue_t A) : keeps quiet m → keeps protects m.
Proof.
  intros Hm u. eapply wlp_mono; [apply Hm|]. intros a u' ((E & _) & E1 & E2). split; [done|].
  intros [H1' H2']. split; congruence.
Qed.
#[local] Hint Resolve quiet_protects : keeps.
Lemma encode_available m : keeps (λ u u', NasSecurity.security_context_available u = true →
  NasSecurity.security_context_available u' = true) (NasSecurity.nas_security_encode m).
Proof.
  assert (PreOrder (λ u u' : NasSecurity.mme_ue_t, NasSecurity.security_context_available u = true →
    NasSecurity.security_context_available u' = true)) by (split; [intros ?|intros ???]; auto).
  unfold NasSecurity.nas_security_encode.
  destruct (NasSecurity.header_kind_of _) as [|i c [|]|]; keeps_tac;
    try (apply keeps_modify; intros []; reflexivity || done).
Qed.
Lemma protects_security_encode sht m : keeps protects (security_encode sht m).
Proof.
  intros u. eapply wlp_mono.
  { apply wlp_and; [apply stable_security_encode|].
    assert (keeps (λ u u', NasSecurity.security_context_available (sec u) = true →
      NasSecurity.security_context_available (sec u') = true) (security_encode sht m)) as Hk; [|apply Hk].
    assert (PreOrder (λ u u' : ue_t, NasSecurity.security_context_available (sec u) = true →
      NasSecurity.security_context_available (sec u') = true)) by (split; [intros ?|intros ???]; auto).
    unfold security_encode, plain_encode. apply keeps_bind; [exact _|keeps_tac|intros b].
    apply keeps_bind; [exact _| |intros [[|] [|]]; keeps_tac].
    intros v r v' E. unfold on_sec in E.
    destruct (NasSecurity.nas_security_encode _ (sec v)) as [[x y]| |] eqn:En; try discriminate E.
    injection E as _ <-. exact (encode_available _ _ _ _ En). }
  intros b u' [(E & Hm & _) Ha]. split; [done|]. intros [H1' H2']. split; [auto|].
  destruct (NasSecurity.mac_failed (sec u')); [|done]. by rewrite Hm in H2'.
Qed.
#[local] Hint Resolve protects_security_encode : keeps.
Lemma protects_detach : keeps protects mme_send_delete_session_or_detach.
Proof. unfold mme_send_delete_session_or_detach, nas_send_detach_accept, emm_build_detach_accept. keeps_tac. Qed.

(** A message that ends in a state other than exception. *)
Lemma emm_message_wlp e u (Q : ue_t → Prop) :
  wlp (emm_dispatch self e) u (λ _ u', sm u' ≠ emm_state_exception ∧ Q u') →
  wlp (mme_emm_message self e) u (λ _, Q).
Proof.
  intros Hw. apply wlp_bind. eapply wlp_mono; [exact Hw|]. intros _ u' [Hs HQ].
  apply wlp_bind, wlp_get. rewrite decide_False by done. by apply wlp_ret.
Qed.

Lemma empty_response_secures m t c u :
  sm u = emm_state_authentication → NasSecurity.mac_failed (sec u) = false →
  message_type m = OGS_NAS_AUTHENTICATION_RESPONSE → authentication_response_length m = 0 →
  wlp (mme_emm_message self (EmmMessage m t c)) u (λ _ u', sm u' = emm_state_security_mode ∧ secured u').
Proof.
  intros Es Em Et El. apply emm_message_wlp, dispatch_wlp; [exact _|]. rewrite Es. simpl. rewrite Et. simpl.
  unfold authentication_response, CLEAR_T3460. rewrite El.
  apply wlp_bind, wlp_modify, wlp_bind, wlp_get, wlp_bind, wlp_lift. intros eq Eq.
  assert (eq = true) as -> by (rewrite memcmp_run in Eq by lia; by injection Eq as <-).
  apply wlp_modify. split; [done|]. intros _. apply wlp_bind, wlp_ret, wlp_bind, wlp_modify.
  unfold nas_send_security_mode_command. apply wlp_bind, wlp_get. cbn.
  set (v := on_t3460 _ _). apply wlp_bind. intros b v' Eb.
  pose proof (proj1 (stable_build_security_mode_command self v b v' Eb)) as Esm.
  destruct (build_command_context v b v' Eb) as [_ Esec].
  assert (sm v' = emm_state_security_mode ∧ secured v') as Hv.
  { split; [by rewrite Esm|]. unfold secured. rewrite Esec. done. }
  apply wlp_bind, wlp_modify. eapply wlp_mono; [apply quiet_protects, quiet_downlink|].
  intros _ w [E Hw]. destruct Hv as [E1 H1']. simpl in E. rewrite E, E1. split_and!; [done|done|].
  apply Hw, H1'.
Qed.

Lemma detach_secures m t c u :
  sm u = emm_state_security_mode → secured u →
  message_type m = OGS_NAS_DETACH_REQUEST → security_header_type m ≠ SERVICE_REQUEST_HEADER →
  wlp (mme_emm_message self (EmmMessage m t c)) u (λ _ u', sm u' = emm_state_de_registered ∧ secured u').
Proof.
  intros Es Hs Et Hh. apply emm_message_wlp, dispatch_wlp; [exact _|]. rewrite Es. simpl.
  rewrite Et, (proj2 (Z.eqb_neq _ _) Hh). simpl.
  apply wlp_bind, wlp_bind, wlp_bind, wlp_modify, wlp_ret, wlp_bind.
  eapply wlp_mono; [apply protects_detach|]. intros _ v [_ Hv]. specialize (Hv Hs).
  apply wlp_bind, wlp_modify, wlp_ret, wlp_ret. split; [done|]. intros _.
  apply wlp_bind, wlp_ret, wlp_bind, wlp_bind, wlp_modify, wlp_modify, wlp_ret. done.
Qed.

(** An attach request of a UE in a served tracking area that supports a
    configured integrity algorithm. *)
Lemma attach_request_accepted r e u i :
  enb_ue u = Some e → esm_message_container r ≠ [] →
  mme_find_served_tai self (saved_tai e) = Ok i → 0 <= i →
  first_order (integrity_order self) (eia (ar_ue_cap r)) ≠ 0 →
  wlp (emm_handle_attach_request self r) u (λ rv v, rv = OGS_OK ∧
    eps_type (nas_eps v) = MME_EPS_TYPE_ATTACH_REQUEST ∧
    ksi (nas_eps v) = nas_key_set_identifier (eps_attach_type r) ∧
    enb_ue v = Some e ∧ pdn_connectivity_request v = esm_message_container r).
Proof.
  intros Ee Hne Ei Hi Ha a u' E. rewrite (attach_begun r e u i) in E by done.
  destruct (begun_fields r e u) as (_ & _ & _ & _ & _ & B6 & _ & _ & B9).
  assert (ksi (nas_eps (begun r e u)) = nas_key_set_identifier (eps_attach_type r)) as Bk
    by (unfold begun; cbv zeta; by destruct (SECURITY_CONTEXT_IS_VALID _)).
  set (v := begun r e u) in *. clearbody v. rewrite (proj2 (Z.ltb_ge _ _)) in E by done.
  destruct (attach_store_prefix r v) as (w & (S1 & S2 & S3 & S4 & S5 & S6 & S7 & S8 & S9) & Ew).
  rewrite Ew in E. unfold mme_selected_int_algorithm in E. rewrite S2, (proj2 (Z.eqb_neq _ _) Ha) in E.
  revert a u' E. apply wlp_bind, (wlp_mono _ _ (λ _ x, nas_eps x = nas_eps w ∧ enb_ue x = enb_ue w)).
  - destruct (_ =? 1); [|by apply wlp_ret]. unfold store_imsi, mme_ue_set_imsi, emit.
    apply wlp_bind, wlp_modify, wlp_bind, wlp_lift. intros bcd _.
    by apply wlp_bind, wlp_modify, wlp_bind, wlp_modify, wlp_modify.
  - intros _ x [X1 X2]. apply wlp_bind, wlp_modify, wlp_ret. simpl.
    by rewrite X1, X2, S9, S6, B6.
Qed.

(** Asking for the identity does not give the UE one. *)
Definition same_ident (u u' : ue_t) : Prop := sm u' = sm u ∧ ident u' = ident u.
#[local] Instance same_ident_preorder : PreOrder same_ident.
Proof. split; [by intros u|]. intros u v w [? ?] [? ?]. split; congruence. Qed.
Lemma identity_request_ident : keeps same_ident (CLEAR_T3470;; nas_send_identity_request).
Proof. keeps_deep ltac:(done). Qed.

Lemma attach_with_context m t c u e i :
  sm u = emm_state_de_registered → secured u →
  message_type m = OGS_NAS_ATTACH_REQUEST → security_header_type m ≠ SERVICE_REQUEST_HEADER →
  nas_key_set_identifier (eps_attach_type (attach_request m)) ≠ OGS_NAS_KSI_NO_KEY_IS_AVAILABLE →
  esm_message_container (attach_request m) ≠ [] →
  first_order (integrity_order self) (eia (ar_ue_cap (attach_request m))) ≠ 0 →
  enb_ue u = Some e → mme_find_served_tai self (saved_tai e) = Ok i → 0 <= i →
  wlp (mme_emm_message self (EmmMessage m t c)) u (λ _ u', MME_UE_HAVE_IMSI u' = true →
    sm u' = emm_state_initial_context_setup ∧
    ∃ l, trace u' = l ++ [ToEsm {| pk_head := replicate 16 0;
                                   pk_data := esm_message_container (attach_request m) |}]).
Proof.
  intros Es Hs Et Hh Hk Hne Ha Ee Ei Hi. apply emm_message_wlp, dispatch_wlp; [exact _|]. rewrite Es. simpl.
  apply wlp_bind, wlp_ret. unfold common_register_state, the_enb_ue.
  apply wlp_bind, wlp_bind, wlp_get. rewrite Ee. apply wlp_ret.
  rewrite (proj2 (Z.eqb_neq _ _) Hh). unfold common_message. rewrite Et. simpl.
  apply wlp_bind, wlp_bind. eapply wlp_mono.
  { apply wlp_and; [by apply (attach_request_accepted _ e _ i)|apply handles_attach_request]. }
  intros rv v [(-> & Et' & Ek & Ev & Ep) [_ Hq]]. destruct (Hq eq_refl) as ((Esm & _) & Q1 & Q2).
  assert (secured v) as Hv by (destruct Hs; split; congruence).
  apply wlp_ret. unfold common_after. apply wlp_bind, wlp_get.
  destruct (MME_UE_HAVE_IMSI v) eqn:Hi'; simpl.
  - rewrite Ev, Et'. simpl. unfold after_attach. apply wlp_bind, wlp_get.
    rewrite secured_valid by (done || congruence). unfold nas_send_emm_to_esm.
    apply wlp_bind, wlp_bind, wlp_massert. intros _. apply wlp_modify, wlp_modify. split; [by simpl|].
    intros _. apply wlp_bind, wlp_bind, wlp_ret, wlp_ret, wlp_ret. split; [done|]. intros _.
    split; [done|]. eexists. simpl. by rewrite Ep.
  - eapply wlp_mono; [apply identity_request_ident|]. intros _ w [Ew Ei'].
    rewrite Ew, Esm, Es. split; [|done]. intros _. split; [done|].
    unfold MME_UE_HAVE_IMSI in *. by rewrite Ei', Hi'.
Qed.

(** C2: Attach without the key.  A UE waits for the answer to its
    AUTHENTICATION REQUEST.  Three messages, none of which depends on the
    key, bring it to initial context setup with its PDN connectivity request
    handed to the ESM layer: an AUTHENTICATION RESPONSE of length zero, which
    is accepted whatever XRES is (C29); a DETACH REQUEST where the MME
    expects SECURITY MODE COMPLETE; and an ATTACH REQUEST, which finds the
    security context that the MME made available when it sent the SECURITY
    MODE COMMAND.  The security headers [t1], [t2], [t3] of the messages may
    be plain; the last message may come over another S1 connection [e], as
    the MME asks for the release of the first.  This holds in every run in
    which the MME gets through the three messages, whatever codec, algorithms
    and configuration it has, for an attach request with a key set
    identifier, an ESM message and a configured integrity algorithm, sent
    from a served tracking area by a UE whose IMSI is known then. *)
Theorem attach_without_key u u1 u2 u3 m1 m2 m3 t1 t2 t3 c1 c2 c3 e i :
  sm u = emm_state_authentication → NasSecurity.mac_failed (sec u) = false →
  message_type m1 = OGS_NAS_AUTHENTICATION_RESPONSE → authentication_response_length m1 = 0 →
  message_type m2 = OGS_NAS_DETACH_REQUEST → security_header_type m2 ≠ SERVICE_REQUEST_HEADER →
  message_type m3 = OGS_NAS_ATTACH_REQUEST → security_header_type m3 ≠ SERVICE_REQUEST_HEADER →
  let r := attach_request m3 in
  nas_key_set_identifier (eps_attach_type r) ≠ OGS_NAS_KSI_NO_KEY_IS_AVAILABLE →
  esm_message_container r ≠ [] → first_order (integrity_order self) (eia (ar_ue_cap r)) ≠ 0 →
  mme_emm_message self (EmmMessage m1 t1 c1) u = Ok ((), u1) →
  mme_emm_message self (EmmMessage m2 t2 c2) u1 = Ok ((), u2) →
  mme_find_served_tai self (saved_tai e) = Ok i → 0 <= i →
  mme_emm_message self (EmmMessage m3 t3 c3) (set_enb_ue (Some e) u2) = Ok ((), u3) →
  MME_UE_HAVE_IMSI u3 = true →
  sm u3 = emm_state_initial_context_setup ∧
  ∃ l, trace u3 = l ++ [ToEsm {| pk_head := replicate 16 0; pk_data := esm_message_container r |}].
Proof.
  intros Es Em Et1 El Et2 Hh2 Et3 Hh3 r Hk Hne Ha E1 E2 Ei Hi E3.
  destruct (empty_response_secures m1 t1 c1 u Es Em Et1 El _ _ E1) as [Es1 Hs1].
  destruct (detach_secures m2 t2 c2 u1 Es1 Hs1 Et2 Hh2 _ _ E2) as [Es2 Hs2].
  exact (attach_with_context m3 t3 c3 (set_enb_ue (Some e) u2) e i Es2 Hs2 Et3 Hh3 Hk Hne Ha eq_refl Ei Hi _ _ E3).
Qed.
End flows.
