(* ===== verification/EmmExamples.v ===== *)
(** * The EMM layer at concrete inputs

    A toy codec (message type and contents behind a common header), toy
    algorithms ([NasSecurityExamples.v]) and a small network. *)
From S2P Require Import Prelude.
From S2P Require Import CMem.
From S2P Require Import OgsLib.
From S2P Require Import OgsRef.
From S2P Require Import NasTai.
From S2P Require Import NasConv.
From S2P Require NasSecurity.
From S2P Require Import Kdf.
From S2P Require Import NasSecurityExamples.
From S2P Require Import MmeContext.
From S2P Require Import EmmBuild.
From S2P Require Import EmmHandler.
From S2P Require Import EmmSm.
From S2P Require Import EmmProofs.
From S2P Require Import EmmSpec.
From S2P Require Import EmmSystem.
From S2P Require Import EmmFlows.
#[local] Open Scope Z_scope.

(** ** Instances *)
Definition toy_pdu (type : Z) (contents : list Z) : option pkbuf :=
  Some {| pk_head := replicate 32 0; pk_data := 7 :: type :: contents |}.
#[export] Instance toy_codec : NasCodec := {|
  ogs_nas_plain_encode m :=
    match m with
    | IdentityRequest t => toy_pdu 85 [t]
    | AuthenticationRequest r a => toy_pdu 82 (r ++ a)
    | AuthenticationReject => toy_pdu 84 []
    | SecurityModeCommand i e a b c d g n => toy_pdu 93 [i; e; a; b; c; d; g; n]
    | AttachAccept r l b g t => toy_pdu 66 (r :: l)
    | AttachReject c _ => toy_pdu 68 [c]
    | DetachAccept => toy_pdu 70 []
    | TauAccept r l s => toy_pdu 73 (r :: l ++ s)
    | TauReject c => toy_pdu 75 [c]
    | ServiceReject c => toy_pdu 78 [c]
    | EmmInformation t f s => toy_pdu 97 t
    | PdnConnectivityReject p c => toy_pdu 209 [p; c]
    | ActivateDefaultBearerContextRequest p e q n a b o => toy_pdu 193 (p :: e :: n ++ a)
    | EsmInformationRequest p => toy_pdu 217 [p]
    | ActivateDedicatedBearerContextRequest e l q f => toy_pdu 197 (e :: l :: f)
    | ModifyBearerContextRequest p e q f => toy_pdu 201 [p; e]
    | DeactivateBearerContextRequest p e c => toy_pdu 205 [p; e; c]
    end |}.
#[export] Instance toy_imsi : OgsImsi := {| ogs_bcd_to_buffer s := s |}.
#[export] Instance toy_time : OgsTime := {| universal_time_and_local_time_zone := [0x91; 0x21] |}.

(** The network: MCC 001, MNC 01, areas 7 and 8; EIA2, EIA1 and EEA0. *)
Definition plmn_ex : ogs_plmn_id_t := RefPlmn 0x00 0xf1 0x10.
Definition tai_ex (n : Z) : ogs_tai_t := {| tai_plmn_id := plmn_ex; tac := n |}.
Definition self_ex : mme_context_t := {|
  integrity_order := [2; 1]; ciphering_order := [0];
  served_tai := [([{| t0_type := 0; t0_num := 2; t0_plmn_id := plmn_ex; t0_tac := [7; 8] |};
                   {| t0_type := 0; t0_num := 0; t0_plmn_id := plmn_ex; t0_tac := [] |}],
                  {| t2_type := 0; t2_num := 0; t2_tai := [] |})];
  enb_list := [[tai_ex 7]]; full_name := []; short_name := []; csmap_list := [] |}.

Definition enb_ex (n : Z) : enb_ue_t := {|
  saved_tai := tai_ex n; saved_e_cgi := {| e_cgi_plmn_id := plmn_ex; cell_id := 1 |};
  t_ue_context_release := timer_cleared; ue_ctx_rel_action := 0 |}.
Definition no_imsi : ogs_nas_mobile_identity_imsi_t :=
  {| NasConv.digits := replicate 15 0; odd_even := 0; id_type := 0 |}.
Definition no_subscription : subscription_data_t :=
  {| pdns := []; num_of_pdn := 0; context_identifier := 0 |}.
(** A UE context after [mme_ue_add] on a cell of area [n]. *)
Definition ue_ex (n : Z) : ue_t := {|
  sm := emm_state_de_registered; nas_eps := {| eps_type := 0; ksi := 0; eps_data := 0 |};
  ident := {| imsi := []; imsi_bcd := []; nas_mobile_identity_imsi := no_imsi; guti := [];
              guti_present := false; p_tmsi := 0 |};
  tai := tai_ex 0; e_cgi := {| e_cgi_plmn_id := plmn_ex; cell_id := 0 |};
  last_visited_plmn_id := plmn_ex;
  sec := {| NasSecurity.selected_enc_algorithm := 0; NasSecurity.selected_int_algorithm := 0;
            NasSecurity.knas_enc := replicate 16 0; NasSecurity.knas_int := replicate 16 0;
            NasSecurity.dl_count := 0;
            NasSecurity.ul_count := {| NasSecurity.overflow := 0; NasSecurity.sqn := 0 |};
            NasSecurity.security_context_available := false; NasSecurity.mac_failed := false |};
  ue_network_capability := {| eea := 0; eia := 0; uea := 0; uia := 0 |};
  ms_network_capability := {| gea1 := 0; extended_gea := 0 |};
  keys := {| xres := replicate 16 0; xres_len := 0; kasme := replicate 32 0; rand := replicate 16 0;
             kenb := replicate 32 0; nh := replicate 32 0; nhcc := 0 |};
  ebi := 0; sess_list := []; enb_ue := Some (enb_ex n); pdn_connectivity_request := [];
  timers := timers_idle; service_indicator := 0; sgw_s11_teid := 0;
  session_context_will_deleted := false; csmap := None; subscription_data := no_subscription; trace := [] |}.

(** ** Messages *)
Definition plain_type : NasSecurity.nas_security_header_type_t := {|
  NasSecurity.integrity_protected := false; NasSecurity.ciphered := false;
  NasSecurity.new_security_context := false; NasSecurity.service_request := false |}.
Definition imsi_ex : mobile_identity_t := {| mi_length := 8; mi_guti := []; mi_tmsi := 0; mi_imsi :=
  {| NasConv.digits := [0; 0; 1; 0; 1; 1; 2; 3; 4; 5; 6; 7; 8; 9; 5]; odd_even := 1; id_type := 1 |} |}.
(** EPS attach with key set identifier 0; EIA1 and EIA2 supported. *)
Definition attach_ex : attach_request_t := {|
  eps_attach_type := 0x01; ar_identity := imsi_ex;
  ar_ue_cap := {| eea := 0xe0; eia := 0x60; uea := 0; uia := 0 |}; ar_ms_cap := None;
  ar_last_visited := None; esm_message_container := [0x02; 0x01; 0xd0] |}.
Definition message_ex (type : Z) (res : list Z) (cause : Z) : emm_message_t := {|
  security_header_type := 0; message_type := type; attach_request := attach_ex;
  attach_complete := [0x52; 0x00; 0xc2];
  tracking_area_update_request := {| eps_update_type := 0; old_guti := imsi_ex; tau_ue_cap := None;
                                     tau_ms_cap := None; tau_last_visited := None |};
  extended_service_request := {| esr_service_type := 0; m_tmsi := imsi_ex |};
  ksi_and_sequence_number := 0; detach_type := 0x01; identity_response := imsi_ex;
  authentication_response_length := Z.of_nat (length res);
  authentication_response_res := res ++ replicate (16 - length res) 0;
  authentication_failure_cause := cause; authentication_failure_auts := replicate 14 0;
  nas_message_container := [] |}.
#[export] Instance toy_decoder : NasDecoder := {|
  ogs_nas_emm_decode b :=
    match pk_data b with _ :: t :: l => Some (message_ex t l (nth 0 l 0)) | _ => None end |}.

Definition plain_message (type : Z) (res : list Z) : M ue_t () :=
  mme_emm_message self_ex (EmmMessage (message_ex type res 0) plain_type S1AP_id_uplinkNASTransport).

(** ** Witnesses *)
Lemma find_served_tai_first_witness :
  mme_find_served_tai self_ex (tai_ex 8) = Ok 0 ∧ mme_find_served_tai self_ex (tai_ex 9) = Ok (-1).
Proof.
  assert (Forall (λ e, list0_wf e.1 ∧ list2_wf e.2) (served_tai self_ex)) as Hw.
  { constructor; [|constructor]. split; [|by left].
    exists [{| t0_type := 0; t0_num := 2; t0_plmn_id := plmn_ex; t0_tac := [7; 8] |}],
           {| t0_type := 0; t0_num := 0; t0_plmn_id := plmn_ex; t0_tac := [] |}, [].
    split; [reflexivity|]. split; [|reflexivity]. constructor; [|constructor].
    split; [reflexivity|]. split; [vm_compute; split; reflexivity|cbn; lia]. }
  destruct (find_served_tai_first self_ex (tai_ex 8) Hw) as (r & E & _).
  destruct (find_served_tai_first self_ex (tai_ex 9) Hw) as (r' & E' & _).
  rewrite E, E'. vm_compute in E, E'. injection E as <-. injection E' as <-. split; reflexivity.
Defined.

(** The state of the machine after an operation. *)
Definition result (m : M ue_t ()) (u : ue_t) : ue_t :=
  match m u with Ok (_, u') => u' | _ => u end.

Definition vector_ex : e_utran_vector_t := {|
  v_xres := [1; 2; 3; 4; 5; 6; 7; 8]; v_kasme := replicate 32 9; v_rand := replicate 16 3;
  v_autn := replicate 16 4 |}.
(** After the attach request; after the answer of the HSS; after the correct
    response. *)
Definition ue_attaching : ue_t := result (plain_message OGS_NAS_ATTACH_REQUEST []) (ue_ex 7).
Definition ue_challenged : ue_t := result (mme_s6a_message self_ex (S6aAia vector_ex)) ue_attaching.
Definition ue_securing : ue_t :=
  result (plain_message OGS_NAS_AUTHENTICATION_RESPONSE [1; 2; 3; 4; 5; 6; 7; 8]) ue_challenged.

(** The UE does not know the key: it sends a response of length zero, a
    detach request and a second attach request over a new S1 connection, all of them plain. *)
Definition intruder_message (type : Z) : emm_event :=
  EmmMessage (message_ex type [] 0) plain_type S1AP_id_uplinkNASTransport.
Definition ue_intruder1 : ue_t :=
  result (mme_emm_message self_ex (intruder_message OGS_NAS_AUTHENTICATION_RESPONSE)) ue_challenged.
Definition ue_intruder2 : ue_t :=
  result (mme_emm_message self_ex (intruder_message OGS_NAS_DETACH_REQUEST)) ue_intruder1.
Definition ue_intruder3 : ue_t :=
  result (mme_emm_message self_ex (intruder_message OGS_NAS_ATTACH_REQUEST))
    (set_enb_ue (Some (enb_ex 7)) ue_intruder2).
Lemma result_ok m u : is_ok (m u) = true → m u = Ok ((), result m u).
Proof. unfold result. by destruct (m u) as [[[] u']| |]. Qed.
Lemma attach_without_key_witness :
  sm ue_challenged = emm_state_authentication ∧ xres (keys ue_challenged) ≠ [] ∧
  mme_emm_message self_ex (intruder_message OGS_NAS_ATTACH_REQUEST)
    (set_enb_ue (Some (enb_ex 7)) ue_intruder2) = Ok ((), ue_intruder3) ∧
  sm ue_intruder3 = emm_state_initial_context_setup.
Proof.
  assert (mme_emm_message self_ex (intruder_message OGS_NAS_AUTHENTICATION_RESPONSE) ue_challenged
    = Ok ((), ue_intruder1)) as E1 by (apply result_ok; vm_compute; reflexivity).
  assert (mme_emm_message self_ex (intruder_message OGS_NAS_DETACH_REQUEST) ue_intruder1
    = Ok ((), ue_intruder2)) as E2 by (apply result_ok; vm_compute; reflexivity).
  assert (mme_emm_message self_ex (intruder_message OGS_NAS_ATTACH_REQUEST)
    (set_enb_ue (Some (enb_ex 7)) ue_intruder2) = Ok ((), ue_intruder3)) as E3 by (apply result_ok; vm_compute; reflexivity).
  split; [vm_compute; reflexivity|]. split; [vm_compute; discriminate|]. split; [exact E3|].
  destruct (attach_without_key self_ex ue_challenged ue_intruder1 ue_intruder2 ue_intruder3
    (message_ex OGS_NAS_AUTHENTICATION_RESPONSE [] 0) (message_ex OGS_NAS_DETACH_REQUEST [] 0)
    (message_ex OGS_NAS_ATTACH_REQUEST [] 0) plain_type plain_type plain_type
    S1AP_id_uplinkNASTransport S1AP_id_uplinkNASTransport S1AP_id_uplinkNASTransport (enb_ex 7) 0)
    as [Es _]; [..|exact Es].
  - vm_compute. reflexivity.
  - vm_compute. reflexivity.
  - reflexivity.
  - reflexivity.
  - reflexivity.
  - vm_compute. discriminate.
  - reflexivity.
  - vm_compute. discriminate.
  - vm_compute. discriminate.
  - discriminate.
  - vm_compute. discriminate.
  - exact E1.
  - exact E2.
  - vm_compute. reflexivity.
  - lia.
  - exact E3.
  - vm_compute. reflexivity.
Defined.

Lemma emm_refines_witness :
  may_move ue_challenged
    (EmmMessage (message_ex OGS_NAS_AUTHENTICATION_RESPONSE [1; 2; 3; 4; 5; 6; 7; 8] 0) plain_type 13)
    emm_state_security_mode.
Proof.
  pose proof (emm_refines self_ex
    (EmmMessage (message_ex OGS_NAS_AUTHENTICATION_RESPONSE [1; 2; 3; 4; 5; 6; 7; 8] 0) plain_type 13)
    ue_challenged ue_securing) as Hm.
  replace (sm ue_securing) with emm_state_security_mode in Hm by (vm_compute; reflexivity).
  apply Hm. vm_compute. reflexivity.
Defined.

Lemma reachable_timers_witness :
  reachable self_ex {| ue := ue_ex 7; queue := [MME_EVT_S6A_MESSAGE S6aFailure] |} ∧
  timers_ok (ue_ex 7).
Proof.
  assert (reachable self_ex {| ue := ue_ex 7; queue := [MME_EVT_S6A_MESSAGE S6aFailure] |}) as Hr.
  { apply reachable_step with {| ue := ue_ex 7; queue := [] |}.
    - apply reachable_fresh. split; [reflexivity|]. split; reflexivity.
    - exact (step_s6a self_ex S6aFailure (ue_ex 7) []). }
  split; [exact Hr|]. exact (reachable_timers self_ex _ Hr).
Defined.

Lemma authentication_response_decides_witness :
  ∃ u', emm_state_handler self_ex (sm ue_challenged)
      (FsmEvent (EmmMessage (message_ex OGS_NAS_AUTHENTICATION_RESPONSE [9] 0) plain_type 13))
      ue_challenged = Ok ((), u') ∧ sm u' = emm_state_exception.
Proof.
  destruct (authentication_response_decides self_ex
    (message_ex OGS_NAS_AUTHENTICATION_RESPONSE [9] 0) plain_type 13 ue_challenged
    {| pk_head := replicate 32 0; pk_data := [7; 84] |}) as (u' & E & _ & Hd & _).
  - vm_compute. reflexivity.
  - reflexivity.
  - reflexivity.
  - vm_compute. lia.
  - vm_compute. lia.
  - exists u'. split; [exact E|]. exact (proj1 Hd).
Defined.

Lemma stale_expiry_aborts_witness :
  ∃ u1 u2, mme_step self_ex
      {| ue := ue_challenged; queue := [MME_EVT_EMM_MESSAGE {| pk_head := []; pk_data := [7; 92; 21] |} plain_type 13] |}
      {| ue := u1; queue := [MME_EVT_EMM_MESSAGE {| pk_head := []; pk_data := [7; 92; 21] |} plain_type 13;
                             MME_EVT_EMM_TIMER MME_TIMER_T3460] |} ∧
    mme_handle self_ex (MME_EVT_EMM_TIMER MME_TIMER_T3460) u2 = Aborted.
Proof.
  destruct (stale_expiry_aborts self_ex ue_challenged {| pk_head := []; pk_data := [7; 92; 21] |}
    plain_type 13 (message_ex 92 [21] 21)) as (u1 & u2 & Hs & _ & Ha).
  - vm_compute. reflexivity.
  - vm_compute. reflexivity.
  - reflexivity.
  - reflexivity.
  - reflexivity.
  - exists u1, u2. split; [exact Hs|exact Ha].
Defined.

Lemma unexpected_identity_response_fails_witness :
  is_ok (emm_dispatch self_ex
           (EmmMessage (message_ex OGS_NAS_IDENTITY_RESPONSE [] 0) plain_type 12) (ue_ex 7)) = false.
Proof.
  apply not_ok. apply unexpected_identity_response_fails.
  - exact _.
  - left. reflexivity.
  - discriminate.
  - reflexivity.
  - reflexivity.
  - rewrite !elem_of_cons, elem_of_nil. intros [E|[E|[E|[]]]]; discriminate E.
Defined.

Definition protected_type : NasSecurity.nas_security_header_type_t := {|
  NasSecurity.integrity_protected := true; NasSecurity.ciphered := true;
  NasSecurity.new_security_context := true; NasSecurity.service_request := false |}.

(** A detach request after the security mode complete, before the answer to
    the location update. *)
Definition ue_detached : ue_t :=
  result (plain_message OGS_NAS_DETACH_REQUEST [])
    (result (mme_emm_message self_ex
       (EmmMessage (message_ex OGS_NAS_SECURITY_MODE_COMPLETE [] 0) protected_type 13)) ue_securing).
Lemma ula_out_of_state_aborts_witness :
  trace ue_detached ≠ trace ue_securing ∧ mme_s6a_message self_ex (S6aUla no_subscription) ue_detached = Aborted.
Proof.
  split; [vm_compute; discriminate|].
  apply ula_out_of_state_aborts; vm_compute; discriminate.
Defined.

Lemma security_mode_command_effect_witness :
  emm_build_security_mode_command self_ex (ue_ex 7) = Aborted ∧
  ∃ b u', emm_build_security_mode_command self_ex ue_challenged = Ok (b, u') ∧
    NasSecurity.selected_int_algorithm (sec u') = 2 ∧ NasSecurity.dl_count (sec u') = 1.
Proof.
  split.
  - apply (proj1 (security_mode_command_effect self_ex (ue_ex 7))). vm_compute. reflexivity.
  - assert (∃ r, emm_build_security_mode_command self_ex ue_challenged = Ok r) as [[b u'] E]
      by (eexists; vm_compute; reflexivity).
    exists b, u'. split; [exact E|].
    destruct (proj2 (security_mode_command_effect self_ex ue_challenged) b u' E) as [_ ->].
    vm_compute. split; reflexivity.
Defined.

Definition reject_ex (cause : Z) : pkbuf := {| pk_head := replicate 32 0; pk_data := [7; 68; cause] |}.
Lemma security_mode_complete_effect_witness :
  (∃ u', security_mode_complete protected_type ue_securing = Ok ((), u') ∧
     sm u' = emm_state_initial_context_setup) ∧
  (∃ u', security_mode_complete plain_type ue_securing = Ok ((), u') ∧ sm u' = emm_state_exception).
Proof.
  split; eexists; (split; [rewrite (security_mode_complete_effect _ ue_securing (reject_ex 24))|]);
    try (vm_compute; reflexivity).
Defined.

Lemma authentication_retransmission_witness :
  ∃ u', repeat_m 5 (expiry self_ex) ue_challenged = Ok ((), u') ∧ sm u' = emm_state_exception.
Proof.
  destruct (authentication_retransmission self_ex ue_challenged
    {| pk_head := replicate 32 0; pk_data := 7 :: 82 :: replicate 16 3 ++ replicate 16 4 |} 0
    {| pk_head := replicate 32 0; pk_data := [7; 84] |}) as [_ (u' & E & Es & _)].
  - split_and!; vm_compute; congruence.
  - lia.
  - reflexivity.
  - exists u'. split; [exact E|exact Es].
Defined.

Lemma attach_request_outcome_witness :
  ∃ rv u', emm_handle_attach_request self_ex attach_ex (ue_ex 9) = Ok (rv, u') ∧ rv = OGS_ERROR ∧
    trace u' = [again (reject_ex 12)].
Proof.
  destruct (attach_request_outcome self_ex attach_ex (enb_ex 9) (ue_ex 9) (-1)
    ((λ d, 48 + d) <$> [0; 0; 1; 0; 1; 1; 2; 3; 4; 5; 6; 7; 8; 9; 5] ++ [-48]) (reject_ex 12) (reject_ex 23))
    as (rv & u' & E & _ & _ & _ & Hrv & Ht & _).
  - reflexivity.
  - reflexivity.
  - discriminate.
  - vm_compute. reflexivity.
  - reflexivity.
  - vm_compute. reflexivity.
  - reflexivity.
  - reflexivity.
  - exists rv, u'. split; [exact E|]. split; [exact Hrv|exact Ht].
Defined.
