(* ===== verification/EsmExamples.v ===== *)
(** * The ESM layer at concrete inputs

    A toy decoder of ESM messages, a UE with a security context and a
    subscription to one PDN, and the witnesses of the properties of the ESM
    layer. *)
From S2P Require Import Prelude.
From S2P Require Import CMem.
From S2P Require Import OgsLib.
From S2P Require Import OgsRef.
From S2P Require Import NasTai.
From S2P Require Import NasConv.
From S2P Require NasSecurity.
From S2P Require Import Kdf.
From S2P Require Import NasSecurityExamples.
From S2P Require Import MmeContext.
From S2P Require Import EmmBuild.
From S2P Require Import EmmHandler.
From S2P Require Import EmmSm.
From S2P Require Import EmmProofs.
From S2P Require Import EmmSystem.
From S2P Require Import EsmBearer.
From S2P Require Import EsmSend.
From S2P Require Import EsmSm.
From S2P Require Import MmeS11.
From S2P Require Import EsmProofs.
From S2P Require Import EsmSpec.
From S2P Require Import EsmRefine.
From S2P Require Import EsmSystem.
From S2P Require Import EsmProps.
From S2P Require Import EsmFlows.
From S2P Require Import EmmExamples.
#[local] Open Scope Z_scope.

(** ** Instances *)
Definition request_ex (type : Z) : pdn_connectivity_request_t := {|
  pc_request_type := type; pc_information_transfer_flag := None; pc_apn := None; pc_pco := None |}.
(** Bearer identity and discriminator, transaction, type, one octet. *)
#[export] Instance toy_esm_decoder : EsmDecoder := {|
  ogs_nas_esm_decode b :=
    match pk_data b with
    | [h; p; t; x] => Some {| eps_bearer_identity := h / 16; procedure_transaction_identity := p;
        body := if t =? 208 then PdnConnectivityRequest (request_ex x)
                else if t =? 210 then PdnDisconnectRequest x
                else if t =? 206 then DeactivateBearerContextAccept
                else OtherEsmMessage t |}
    | _ => None
    end |}.
#[export] Instance toy_paa : OgsPaa := {|
  ogs_paa_copy l p :=
    if (length l <=? 21)%nat then
      Ok {| pdn_type := nth 0 l 0; paa_addr := paa_addr p; paa_addr6 := paa_addr6 p;
            both_addr := both_addr p; both_addr6 := both_addr6 p |}
    else Undef |}.

(** ** The UE *)
Definition qos_ex : qos_t := {| qci := 9; mbr_downlink := 0; mbr_uplink := 0; gbr_downlink := 0;
                                gbr_uplink := 0 |}.
Definition pdn_ex (name type : Z) : pdn_t := {|
  apn := [name]; pdn_context_identifier := 1; pdn_pdn_type := type; pdn_qos := qos_ex;
  ambr_downlink := 1000; ambr_uplink := 0;
  paa := {| pdn_type := 0; paa_addr := []; paa_addr6 := []; both_addr := []; both_addr6 := [] |} |}.
Definition secure : NasSecurity.mme_ue_t := {|
  NasSecurity.selected_enc_algorithm := 0; NasSecurity.selected_int_algorithm := 1;
  NasSecurity.knas_enc := replicate 16 0; NasSecurity.knas_int := replicate 16 0;
  NasSecurity.dl_count := 0;
  NasSecurity.ul_count := {| NasSecurity.overflow := 0; NasSecurity.sqn := 0 |};
  NasSecurity.security_context_available := true; NasSecurity.mac_failed := false |}.
(** Its only subscribed PDN has type [type]. *)
Definition ue_esm (type : Z) : ue_t :=
  set_ebi 4 (set_sec secure (set_subscription_data
    {| pdns := [pdn_ex 1 type]; num_of_pdn := 1; context_identifier := 1 |}
    (set_ident {| imsi := [0; 0; 1]; imsi_bcd := []; nas_mobile_identity_imsi := no_imsi; guti := [];
                  guti_present := false; p_tmsi := 0 |} (ue_ex 7)))).

(** Objects that the pools hand out. *)
Definition sess_ex (p : option pdn_ptr) : mme_sess_t := {|
  s_id := 1; pti := 0; request_type := 0; pdn := p; ue_pco := []; pgw_pco := []; bearer_list := [] |}.
Definition bearer_ex : mme_bearer_t := {|
  b_id := 1; b_sm := esm_state_final; bearer_ebi := 0; enb_s1u_teid := 0; sgw_s1u_teid := 0;
  b_qos := qos_ex; tft := []; t3489 := timer_cleared; b_xact := None |}.
Definition objects_ex (p : option pdn_ptr) : esm_objects :=
  {| free_sess := Some (sess_ex p); free_bearer := Some bearer_ex |}.
(** Connection of type IPv4 (1) or IPv6 (2): the octet of the request. *)
Definition request_octet (pdn : Z) : Z := pdn * 16 + 1.
Definition connect_ex (pdn : Z) : esm_message_t := {|
  eps_bearer_identity := 0; procedure_transaction_identity := 3;
  body := PdnConnectivityRequest (request_ex (request_octet pdn)) |}.

Example runs_esm :
  request_pdn_type (request_octet 2) = 2 ∧ SECURITY_CONTEXT_IS_VALID (ue_esm 0) = true ∧
  is_ok (mme_esm_message self_ex (objects_ex None) (connect_ex 1) (ue_esm 0)) = true ∧
  is_ok (mme_esm_message self_ex (objects_ex None) (connect_ex 2) (ue_esm 0)) = false.
Proof. split_and!; vm_compute; reflexivity. Qed.

Definition ue_connecting : ue_t :=
  result (mme_esm_message self_ex (objects_ex None) (connect_ex 1)) (ue_esm 0).

Lemma fresh_first p t : fresh_objects (objects_ex p) (ue_esm t).
Proof. split; [intros b _ H|intros s _ H]; by apply not_elem_of_nil in H. Qed.
Lemma ok_first t : view_ok (view (ue_esm t)).
Proof. unfold view_ok. cbn. split_and!; try constructor; unfold MIN_EPS_BEARER_ID, MAX_EPS_BEARER_ID; lia. Qed.

(** ** Witnesses *)
Lemma esm_refines_witness :
  esm_step (view (ue_esm 0)) (connect_ex 1) (view ue_connecting).
Proof.
  apply (esm_refines self_ex (objects_ex None) (connect_ex 1) (ue_esm 0) ue_connecting).
  - apply ok_first.
  - apply fresh_first.
  - vm_compute. reflexivity.
Defined.

(** The plain request arrives, and is handled. *)
Definition request_pdu : list Z := [2; 3; 208; request_octet 1].
Definition sys_ex : ue_sys := {| s_ue := ue_connecting; s_queue := [] |}.
Lemma reachable_sys : ue_reachable self_ex sys_ex.
Proof.
  set (b := {| pk_head := replicate 32 0; pk_data := request_pdu |}).
  apply ue_reachable_step with {| s_ue := ue_esm 0; s_queue := [MME_EVT_ESM_MESSAGE b] |}.
  - apply ue_reachable_step with {| s_ue := ue_esm 0; s_queue := [] |}.
    + apply ue_reachable_fresh. split; [reflexivity|]. split; [reflexivity|]. cbn. lia.
    + pose proof (ue_receive self_ex (replicate 32 0) request_pdu 13 (ue_esm 0) (sec (ue_esm 0))
                    (NasSecurity.EsmMessage b) []) as Hr.
      apply Hr. vm_compute. reflexivity.
  - apply (ue_pop self_ex (objects_ex None) (MME_EVT_ESM_MESSAGE b) (ue_esm 0) ue_connecting []).
    + apply fresh_first.
    + vm_compute. reflexivity.
Qed.
Lemma ue_reachable_ok_witness :
  ue_reachable self_ex sys_ex ∧ view_ok (view (s_ue sys_ex)) ∧ t3489_ok (s_ue sys_ex).
Proof. split; [exact reachable_sys|]. exact (ue_reachable_ok self_ex sys_ex reachable_sys). Defined.

Lemma first_ex pdn : first_request (connect_ex pdn) (request_ex (request_octet pdn)).
Proof. split_and!; [reflexivity|discriminate|reflexivity]. Qed.
(** The default PDN of the subscription, and somebody else's. *)
Lemma first_session_request_witness :
  (∃ u', mme_esm_message self_ex (objects_ex None) (connect_ex 1) (ue_esm 2) = Ok ((), u') ∧
    trace u' = [CreateSessionRequest {| csr_imsi := [0; 0; 1]; csr_apn := [1]; csr_pdn_type := 1;
      csr_ambr := Some (0, 1000); csr_pco := None; csr_ebi := 5; csr_qci := 9 |}]) ∧
  ∃ u', mme_esm_message self_ex (objects_ex (Some (OtherPdn (pdn_ex 66 2)))) (connect_ex 1) (ue_esm 2)
          = Ok ((), u') ∧
    trace u' = [CreateSessionRequest {| csr_imsi := [0; 0; 1]; csr_apn := [66]; csr_pdn_type := 1;
      csr_ambr := Some (0, 1000); csr_pco := None; csr_ebi := 5; csr_qci := 9 |}].
Proof.
  split.
  - destruct (first_session_request self_ex (ue_esm 2) (objects_ex None) (connect_ex 1)
      (request_ex (request_octet 1)) (sess_ex None) bearer_ex (pdn_ex 1 2) 1) as (u' & E & T);
      try (vm_compute; reflexivity).
    + apply first_ex.
    + exists 0%nat. split; vm_compute; reflexivity.
    + exists u'. split; [exact E|]. rewrite T. vm_compute. reflexivity.
  - destruct (first_session_request self_ex (ue_esm 2) (objects_ex (Some (OtherPdn (pdn_ex 66 2)))) (connect_ex 1)
      (request_ex (request_octet 1)) (sess_ex (Some (OtherPdn (pdn_ex 66 2)))) bearer_ex (pdn_ex 66 2) 1)
      as (u' & E & T); try (vm_compute; reflexivity).
    + apply first_ex.
    + exists u'. split; [exact E|]. rewrite T. vm_compute. reflexivity.
Defined.
Lemma pdn_type_mismatch_aborts_witness :
  mme_esm_message self_ex (objects_ex None) (connect_ex 2) (ue_esm 0) = Aborted.
Proof.
  apply (pdn_type_mismatch_aborts self_ex (ue_esm 0) (objects_ex None) (connect_ex 2)
    (request_ex (request_octet 2)) (sess_ex None) bearer_ex (pdn_ex 1 0)); try (vm_compute; reflexivity).
  - apply first_ex.
  - exists 0%nat. split; vm_compute; reflexivity.
  - left. split; reflexivity.
Defined.
(** The S1 connection of a UE that is not authenticated. *)
Lemma plain_connectivity_request_aborts_witness :
  ∃ b x, NasSecurity.s1ap_send_to_nas [] request_pdu true (sec (ue_ex 7)) =
      Ok (NasSecurity.EsmMessage b, x) ∧
    mme_evt_esm_message self_ex (objects_ex None) b (set_sec x (ue_ex 7)) = Aborted.
Proof.
  apply (plain_connectivity_request_aborts self_ex [] request_pdu (ue_ex 7) (connect_ex 1)
    (request_ex (request_octet 1)) (objects_ex None)); try (vm_compute; reflexivity).
  - exists [3; 208; request_octet 1]. reflexivity.
  - apply first_ex.
Defined.

(** ** A UE with a connection *)
Definition bearer_up : mme_bearer_t := {|
  b_id := 1; b_sm := esm_state_active; bearer_ebi := 5; enb_s1u_teid := 1; sgw_s1u_teid := 2;
  b_qos := qos_ex; tft := []; t3489 := timer_cleared; b_xact := None |}.
Definition sess_with (b : mme_bearer_t) : mme_sess_t := {|
  s_id := 1; pti := 0; request_type := 0; pdn := None; ue_pco := []; pgw_pco := []; bearer_list := [b] |}.
Definition ue_with (b : mme_bearer_t) (st : emm_state) : ue_t :=
  set_sm st (set_ebi 5 (set_sess_list [sess_with b] (ue_esm 0))).
Definition accept_ex : esm_message_t := {|
  eps_bearer_identity := 5; procedure_transaction_identity := 0;
  body := DeactivateBearerContextAccept |}.
Lemma ok_with st : view_ok (view (ue_with bearer_up st)).
Proof.
  unfold view_ok. cbn. rewrite Forall_singleton, Forall_singleton. unfold vbearer_ok, MIN_EPS_BEARER_ID, MAX_EPS_BEARER_ID.
  cbn. split_and!; try apply NoDup_singleton; done || lia.
Qed.
Lemma unsolicited_accept_aborts_witness :
  mme_esm_message self_ex (objects_ex None) accept_ex (ue_with bearer_up emm_state_registered) = Aborted.
Proof.
  apply (unsolicited_accept_aborts self_ex (ue_with bearer_up emm_state_registered) (objects_ex None)
    accept_ex).
  - apply ok_with.
  - discriminate.
  - split; [reflexivity|]. split; [reflexivity|]. right. reflexivity.
Defined.

Definition disconnect_ex : esm_message_t := {|
  eps_bearer_identity := 0; procedure_transaction_identity := 3; body := PdnDisconnectRequest 5 |}.
Lemma early_accept_dangles_witness :
  ∃ u1 u2,
    mme_esm_message self_ex (objects_ex None) disconnect_ex (ue_with bearer_up emm_state_registered)
      = Ok ((), u1) ∧
    trace u1 = [DeleteSessionRequest 5] ∧
    mme_esm_message self_ex (objects_ex None) accept_ex u1 = Ok ((), u2) ∧
    ∀ xact, mme_s11_handle_delete_session_response xact (Some 1) true u2 = Undef.
Proof.
  apply (early_accept_dangles self_ex (ue_with bearer_up emm_state_registered) (objects_ex None)
    (objects_ex None) disconnect_ex accept_ex (sess_with bearer_up) bearer_up);
    try (vm_compute; reflexivity); try discriminate.
  split; reflexivity.
Defined.

Definition bearer_waiting (m : pkbuf) : mme_bearer_t := {|
  b_id := 1; b_sm := esm_state_inactive; bearer_ebi := 5; enb_s1u_teid := 0; sgw_s1u_teid := 0;
  b_qos := qos_ex; tft := [];
  t3489 := {| t_pkbuf := Some m; t_running := true; t_retry_count := 0 |}; b_xact := None |}.
Definition information_ex : pkbuf := {| pk_head := []; pk_data := [2; 3; 217] |}.
Lemma t3489_retransmission_witness :
  let again := ToEnb (DownlinkNasTransport information_ex) in
  let u := ue_with (bearer_waiting information_ex) emm_state_de_registered in
  ∃ u1 u2, t3489_round self_ex 1 u = Ok ((), u1) ∧ trace u1 = [again] ∧
    t3489_round self_ex 1 u1 = Ok ((), u2) ∧ trace u2 = [again; again] ∧
    ∀ u3, t3489_round self_ex 1 u2 = Ok ((), u3) →
      esm_state_of 1 u3 = Some esm_state_exception ∧ t3489_round self_ex 1 u3 = Ok ((), u3).
Proof.
  apply (t3489_retransmission self_ex
    (ue_with (bearer_waiting information_ex) emm_state_de_registered) 1 information_ex).
  split; [by eexists|]. split; [by eexists|]. exists (bearer_waiting information_ex).
  split; [reflexivity|]. split; reflexivity.
Defined.
