(* ===== verification/MmeUeTableExamples.v ===== *)
(** * The table of UE contexts at concrete inputs

    Pools of four objects, a hash table that is a finite map, and the toy
    instances of [EmmExamples.v]: a UE attaches through eNB 1 and the theorems
    of [MmeUeTableProps.v] are applied to the tables that result. *)
From S2P Require Import Prelude.
From S2P Require Import CMem.
From S2P Require Import OgsLib.
From S2P Require Import OgsRef.
From S2P Require Import NasTai.
From S2P Require Import NasConv.
From S2P Require NasSecurity.
From S2P Require Import Kdf.
From S2P Require Import NasSecurityExamples.
From S2P Require Import MmeContext.
From S2P Require Import EmmBuild.
From S2P Require Import EmmHandler.
From S2P Require Import EmmSm.
From S2P Require Import EmmSystem.
From S2P Require Import MmeUeTable.
From S2P Require Import MmeUeTableSpec.
From S2P Require Import MmeUeTableInv.
From S2P Require Import MmeUeTableProps.
From S2P Require Import EmmExamples.
#[local] Open Scope Z_scope.

(** ** Instances *)
(** The lowest free index of [1 .. n]. *)
#[local] Instance sized_pool : OgsPool := {|
  pool_t := gset Z * nat;
  pool_used p := p.1;
  pool_alloc p := i ← first_free p.2 1 p.1; Some (i, ({[i]} ∪ p.1, p.2));
  pool_free i p := (p.1 ∖ {[i]}, p.2);
|}.
Lemma first_free_range fuel i s j : first_free fuel i s = Some j → i <= j < i + Z.of_nat fuel.
Proof.
  revert i; induction fuel as [|fuel IH]; intros i; cbn [first_free]; [done|].
  case_bool_decide; [intros E%IH; lia|]. intros [= <-]. lia.
Qed.
#[local] Instance sized_pool_laws : OgsPoolLaws.
Proof.
  split; [|done]. intros p i p'. cbn [pool_alloc sized_pool pool_used].
  destruct (first_free _ 1 p.1) as [j|] eqn:E; [|done]. intros [= <- <-].
  split; [by eapply first_free_fresh|done].
Qed.
#[local] Instance sized_pool_sized : OgsPoolSized := {| pool_size p := Z.of_nat p.2 |}.
#[local] Instance sized_pool_sized_laws : OgsPoolSizedLaws.
Proof.
  split; [|done]. intros p i p'. cbn [pool_alloc sized_pool pool_size sized_pool_sized].
  destruct (first_free _ 1 p.1) as [j|] eqn:E; [|done]. intros [= <- <-].
  apply first_free_range in E. split; [lia|done].
Qed.
#[local] Instance map_hash : OgsHash := {|
  hash_t := gmap (list Z) Z;
  ogs_hash_get h k := h !! k;
  ogs_hash_set h k v := match v with Some x => <[k := x]> h | None => delete k h end;
|}.
#[local] Instance map_hash_laws : OgsHashLaws.
Proof.
  split. intros h k [v|] k'; cbn; case_decide as Hk; subst;
    rewrite ?lookup_insert_eq, ?lookup_delete_eq, ?lookup_insert_ne, ?lookup_delete_ne by done; done.
Qed.
(** ** Configuration and the empty table *)
Definition conf_ex : table_conf := {|
  served_gummei := {| g_plmn_id := plmn_ex; g_mme_gid := 2; g_mme_code := 1 |};
  sgw_selection := SGW_SELECT_RR; sgw_list := [{| sgw_node := 9; sgw_tac := [7] |}]; pool_ue := 4 |}.
Definition random_ex (i : nat) : Z := Z.of_nat (i / 2).
Definition tmsis_ex : list Z :=
  match mme_m_tmsi_pool_generate 9 random_ex 4 with Ok l => l | _ => [] end.
Definition table0 : table := {|
  mme_ue_pool := (∅, 4%nat);
  mme_ues _ := {| ctx := set_enb_ue None (ue_ex 7); ue_m_tmsi := None; ue_enb_ue := None; gnode := None |};
  mme_ue_list := []; m_tmsi_pool := (∅, 4%nat); m_tmsis := tmsis_ex;
  guti_ue_hash := (∅ : gmap (list Z) Z); imsi_ue_hash := (∅ : gmap (list Z) Z);
  enb_ue_pool := (∅, 4%nat);
  enb_ues _ := {| e_content := enb_ex 7; e_enb := 0; enb_ue_s1ap_id := 0; mme_ue_s1ap_id := 0; e_mme_ue := None |};
  enb_ue_lists _ := []; mme_ue_s1ap_id_hash := (∅ : gmap (list Z) Z); next_s1ap_id := 0; sgw := [];
  queue := [] |}.

Definition turn (m : M table ()) (s : table) : table := match m s with Ok (_, s') => s' | _ => s end.
Lemma turn_ok m s : is_ok (m s) = true → m s = Ok ((), turn m s).
Proof. unfold turn. by destruct (m s) as [[[] s']| |]. Qed.

Definition cell_ex : ogs_e_cgi_t := {| e_cgi_plmn_id := plmn_ex; cell_id := 1 |}.
Definition attach_pdu : list Z := [7; 65; 0].
Definition initial (b id : Z) (st : option (Z * Z)) : M table () :=
  s1ap_handle_initial_ue_message conf_ex headroom16 b id st (tai_ex 7) cell_ex attach_pdu.
Definition attach (b id : Z) : table_input :=
  InitialUeMessage headroom16 b id None (tai_ex 7) cell_ex attach_pdu.
(** One turn, when the code gets through it. *)
Definition next (x : table_input) (s : table) : table := turn (table_turn self_ex conf_ex x) s.
Definition through (x : table_input) (s : table) : bool := is_ok (table_turn self_ex conf_ex x s).
(** The S-TMSI of the UE. *)
Definition s_tmsi_ex : option (Z * Z) := Some (1, nth 0 tmsis_ex 0).

(** After the attach request; after its handling; with another message of the
    UE waiting; after the HSS has refused the UE. *)
Definition table1 : table := next (attach 1 5) table0.
Definition table2 : table := next QueuedEvent table1.
Definition table3 : table := next (UplinkNasTransport headroom16 1 5 attach_pdu) table2.
Definition table4 : table := next (S6aAnswer 1 S6aFailure) table2.
(** Another UE has reached eNB 2. *)
Definition table5 : table := next (attach 2 6) table4.
(** eNB 1 has reset its S1 interface under the UE. *)
Definition table6 : table := next (S1Reset 1 S1_Interface) table2.

Example runs :
  through (attach 1 5) table0 && through QueuedEvent table1 &&
  through (UplinkNasTransport headroom16 1 5 attach_pdu) table2 &&
  through (S6aAnswer 1 S6aFailure) table2 = true ∧
  mme_ue_list table2 = [1] ∧ ue_enb_ue (mme_ues table2 1) = Some 1 ∧ length (queue table3) = 1%nat ∧
  ue_ctx_rel_action (e_content (enb_ues table4 1)) = S1AP_UE_CTX_REL_UE_CONTEXT_REMOVE.
Proof. split_and!; vm_compute; reflexivity. Qed.

(** ** The tables are reachable *)
Lemma init_table0 : table_init table0.
Proof.
  split; [done|done|intros k; split; by vm_compute|].
  exists 9%nat, random_ex, 4%nat. split; vm_compute; reflexivity.
Qed.
Lemma orderly_step x s :
  table_reachable self_ex conf_ex orderly s → orderly x s → through x s = true →
  table_reachable self_ex conf_ex orderly (next x s).
Proof. intros Hr Ho Ht. apply (tr_step _ _ _ s x); [done|done|by apply turn_ok]. Qed.
Lemma any_step x s :
  table_reachable self_ex conf_ex anything s → through x s = true →
  table_reachable self_ex conf_ex anything (next x s).
Proof. intros Hr Ht. apply (tr_step _ _ _ s x); [done|done|by apply turn_ok]. Qed.
Lemma reachable_table1 : table_reachable self_ex conf_ex orderly table1.
Proof. apply orderly_step; [apply tr_init, init_table0|exact I|vm_compute; reflexivity]. Qed.
Definition head_event (s : table) : emm_evt :=
  match queue s with
  | ev :: _ => ev
  | [] => {| evt_enb_ue := 0; evt_pkbuf := {| pk_head := []; pk_data := [] |}; evt_nas_type := plain_type; evt_code := 0 |}
  end.
Lemma reachable_table2 : table_reachable self_ex conf_ex orderly table2.
Proof.
  apply orderly_step; [exact reachable_table1| |vm_compute; reflexivity].
  intros i p E. vm_compute in E. injection E as <- <-. vm_compute. reflexivity.
Qed.
Lemma reachable_table3 : table_reachable self_ex conf_ex orderly table3.
Proof. apply orderly_step; [exact reachable_table2|exact I|vm_compute; reflexivity]. Qed.
Lemma reachable_table4 : table_reachable self_ex conf_ex orderly table4.
Proof. apply orderly_step; [exact reachable_table2|exact I|vm_compute; reflexivity]. Qed.
Lemma reachable_table5 : table_reachable self_ex conf_ex orderly table5.
Proof. apply orderly_step; [exact reachable_table4|exact I|vm_compute; reflexivity]. Qed.
Lemma reachable_table6 : table_reachable self_ex conf_ex anything table6.
Proof. apply any_step; [apply orderly_anything, reachable_table2|vm_compute; reflexivity]. Qed.

(** No S1 context of eNB [b] has the eNB UE S1AP ID [id]. *)
Lemma unknown (b id : Z) (s : table) :
  forallb (λ e, negb (enb_ue_s1ap_id (enb_ues s e) =? id)) (elements (enb_ue_pool s).1) = true →
  ¬ known_id s b id.
Proof.
  intros Hf (e & He & _ & E). assert (In e (elements (enb_ue_pool s).1)) as Hin.
  { by apply list_elem_of_In, elem_of_elements. }
  pose proof (proj1 (forallb_forall _ _) Hf e Hin) as Hx. cbv beta in Hx.
  by rewrite E, Z.eqb_refl in Hx.
Qed.

(** ** Witnesses *)
Lemma m_tmsi_pool_generated_witness :
  ∃ array, mme_m_tmsi_pool_generate 9 random_ex 4 = Ok array ∧ length array = 4%nat ∧
    Forall m_tmsi_shape array ∧ ¬ (2 ^ 22 < 4).
Proof.
  destruct (proj1 (m_tmsi_pool_generated random_ex 4) 8%nat 9%nat) as (array & E & El & _ & Hf & _).
  - vm_compute. lia.
  - lia.
  - exists array. split; [exact E|]. split; [exact El|]. split; [exact Hf|lia].
Defined.

(** The GUTI of the UE, before and after the reset; its S1 context before. *)
Lemma table_reachable_ok_witness :
  ogs_hash_get (guti_ue_hash table2) (guti_of table2 1) = Some 1 ∧
  e_mme_ue (enb_ues table2 1) = Some 1 ∧
  ogs_hash_get (guti_ue_hash table6) (guti_of table6 1) = Some 1 ∧ live 1 table6.
Proof.
  pose proof (table_reachable_ok self_ex conf_ex table2 (orderly_anything _ _ _ reachable_table2)) as H2.
  pose proof (table_reachable_ok self_ex conf_ex table6 reachable_table6) as H6.
  destruct H2 as (_ & _ & _ & _ & _ & _ & Ho). destruct (Ho reachable_table2) as (_ & Hg & Hl).
  destruct H6 as (_ & _ & Hg6 & _).
  assert (live 1 table2) as L by (vm_compute; reflexivity).
  assert (ogs_hash_get (guti_ue_hash table6) (guti_of table6 1) = Some 1) as E6 by (vm_compute; reflexivity).
  split; [|split; [|split]].
  - apply Hg. split; [exact L|reflexivity].
  - apply (Hl 1 1). split; [exact L|vm_compute; reflexivity].
  - exact E6.
  - exact (proj1 (Hg6 _ _ E6)).
Defined.

(** Through eNB 2, before and after the reset. *)
Lemma initial_message_takes_over_witness :
  (∃ e s', initial_ue_context conf_ex 2 6 s_tmsi_ex (tai_ex 8) cell_ex table2 = Ok (e, s') ∧
    ue_enb_ue (mme_ues s' 1) = Some e ∧ ¬ live_enb 1 s') ∧
  initial_ue_context conf_ex 2 6 s_tmsi_ex (tai_ex 8) cell_ex table6 = Undef.
Proof.
  assert (¬ known_id table2 2 6) as U2 by (apply unknown; vm_compute; reflexivity).
  assert (¬ known_id table6 2 6) as U6 by (apply unknown; vm_compute; reflexivity).
  assert (releases conf_ex 2 6 s_tmsi_ex table2 1) as R2.
  { split; [exact U2|]. exists 1. split; vm_compute; reflexivity. }
  assert (releases conf_ex 2 6 s_tmsi_ex table6 1) as R6.
  { split; [exact U6|]. exists 1. split; vm_compute; reflexivity. }
  split.
  - destruct (initial_message_takes_over self_ex conf_ex 2 6 s_tmsi_ex (tai_ex 8) cell_ex table2
      (orderly_anything _ _ _ reachable_table2)) as (Hok & _ & Ho); [vm_compute; discriminate|].
    destruct (Hok (Ho reachable_table2)) as (e & s' & E & _ & _ & _ & _ & Hn & Hd).
    exists e, s'. split; [exact E|]. split; [|exact (Hd 1 R2)].
    apply (Hn 1 U2). vm_compute. reflexivity.
  - destruct (initial_message_takes_over self_ex conf_ex 2 6 s_tmsi_ex (tai_ex 8) cell_ex table6
      reachable_table6) as (_ & Hu & _); [vm_compute; discriminate|].
    apply (Hu 1 R6). vm_compute. discriminate.
Defined.

Lemma queued_event_dangles_witness :
  let s' := turn (initial 2 6 s_tmsi_ex) table3 in
  initial 2 6 s_tmsi_ex table3 = Ok ((), s') ∧
  mme_evt_emm_message self_ex conf_ex (head_event table3) (set_queue [] s') = Undef.
Proof.
  intros s'. assert (initial 2 6 s_tmsi_ex table3 = Ok ((), s')) as E
    by (apply turn_ok; vm_compute; reflexivity).
  split; [exact E|].
  refine (proj2 (queued_event_dangles self_ex conf_ex headroom16 2 6 s_tmsi_ex (tai_ex 7) cell_ex
    attach_pdu (head_event table3) 1 table3 s' (orderly_anything _ _ _ reachable_table3) _ _ _ _ E) []).
  - replace (queue table3) with [head_event table3] by (vm_compute; reflexivity). by left.
  - vm_compute. reflexivity.
  - vm_compute. reflexivity.
  - apply unknown. vm_compute. reflexivity.
Defined.

Lemma reset_leaves_dangling_witness :
  let s' := turn (s1ap_handle_s1_reset 1 S1_Interface) table2 in
  s1ap_handle_s1_reset 1 S1_Interface table2 = Ok ((), s') ∧
  initial_ue_context conf_ex 2 6 s_tmsi_ex (tai_ex 7) cell_ex s' = Undef.
Proof.
  intros s'. destruct (reset_leaves_dangling self_ex conf_ex 1 s_tmsi_ex 1 1 table2 reachable_table2)
    as (s1 & E & _ & _ & Hu).
  - vm_compute. reflexivity.
  - vm_compute. reflexivity.
  - vm_compute. reflexivity.
  - assert (s' = s1) as Es by (unfold s', turn; rewrite E; reflexivity).
    rewrite Es. split; [exact E|]. rewrite <- Es. rewrite <- Es in Hu. apply Hu.
    + apply unknown. vm_compute. reflexivity.
    + vm_compute. discriminate.
Defined.

Lemma reused_context_double_free_witness :
  let s' := turn (s1ap_handle_ue_context_release_complete 1) table5 in
  s1ap_handle_ue_context_release_complete 1 table5 = Ok ((), s') ∧
  mme_ue_add self_ex conf_ex 2 s' = Undef.
Proof.
  intros s'. destruct (reused_context_double_free self_ex conf_ex table5 1 1 1 reachable_table5)
    as (s1 & E & _ & Hu).
  - vm_compute. reflexivity.
  - vm_compute. reflexivity.
  - vm_compute. reflexivity.
  - split; [lia|vm_compute; discriminate].
  - assert (s' = s1) as Es by (unfold s', turn; rewrite E; reflexivity).
    rewrite Es. split; [exact E|]. rewrite <- Es. rewrite <- Es in Hu.
    apply Hu with (({[1]} ∪ (mme_ue_pool s').1, 4%nat)); vm_compute; reflexivity.
Defined.
