(* ===== verification/GtpCodecExamples.v ===== *)
(** * The GTP information elements at concrete inputs *)
From S2P Require Import Prelude.
From S2P Require Import CMem.
From S2P Require Import OgsLib.
From S2P Require Import OgsRef.
From S2P Require Import GtpTypes.
From S2P Require Import GtpConv.
#[local] Open Scope Z_scope.

Definition empty_octet : ogs_tlv_octet_t := {| presence := 1; data := []; len := 0 |}.

Definition qos_example : BearerQos.ogs_gtp_bearer_qos_t :=
  {| BearerQos.spare1 := 1; BearerQos.pre_emption_capability := 1;
     BearerQos.priority_level := 15; BearerQos.spare2 := 0;
     BearerQos.pre_emption_vulnerability := 1; BearerQos.qci := 9;
     BearerQos.ul_mbr := 128; BearerQos.dl_mbr := 256; BearerQos.ul_gbr := 0;
     BearerQos.dl_gbr := 2 ^ 41 + 5 |}.

Lemma parse_build_bearer_qos_witness :
  ∃ octet', BearerQos.ogs_gtp_build_bearer_qos empty_octet qos_example 22 = Ok (octet', 22) ∧
    BearerQos.ogs_gtp_parse_bearer_qos octet' = Ok (BearerQos.qos_wire qos_example, 22).
Proof.
  apply BearerQos.parse_build_bearer_qos; [|done].
  vm_compute. repeat split; congruence.
Defined.

Lemma build_tft_functional_witness :
  ∃ octet', Tft.ogs_gtp_build_tft empty_octet Tft.tft_example 255 = Ok (octet', 20) ∧
            len octet' = 20.
Proof.
  rewrite (Tft.build_tft_functional empty_octet Tft.tft_example 255 Tft.tft_example_wf).
  vm_compute. eauto.
Defined.

Lemma read_tft_wire_witness :
  is_Some (Tft.read_tft (Tft.tft_wire Tft.tft_example)).
Proof.
  rewrite (Tft.read_tft_wire Tft.tft_example Tft.tft_example_wf); [eauto|].
  repeat constructor; vm_compute; reflexivity.
Defined.

Definition uli_example : Uli.ogs_gtp_uli_t :=
  {| Uli.flags := {| Uli.f_spare := 0; Uli.f_lai := 0; Uli.f_e_cgi := 1; Uli.f_tai := 1;
                     Uli.f_rai := 0; Uli.f_sai := 0; Uli.f_cgi := 0 |};
     Uli.cgi := {| Uli.cgi_plmn_id := RefPlmn 0 0 0; Uli.cgi_lac := 0; Uli.cgi_ci := 0 |};
     Uli.sai := {| Uli.sai_plmn_id := RefPlmn 0 0 0; Uli.sai_lac := 0; Uli.sai_sac := 0 |};
     Uli.rai := {| Uli.rai_plmn_id := RefPlmn 0 0 0; Uli.rai_lac := 0; Uli.rai_rac := 0 |};
     Uli.tai := {| tai_plmn_id := RefPlmn 1 2 3; tac := 4660 |};
     Uli.e_cgi := {| e_cgi_plmn_id := RefPlmn 1 2 3; cell_id := 305419896 |};
     Uli.lai := {| Uli.lai_plmn_id := RefPlmn 0 0 0; Uli.lai_lac := 0 |} |}.

Lemma parse_build_uli_witness :
  ∃ octet', Uli.ogs_gtp_build_uli empty_octet uli_example 20 = Ok (octet', Uli.uli_len uli_example) ∧
    Uli.ogs_gtp_parse_uli octet' = Ok (Uli.uli_present uli_example, Uli.uli_len uli_example).
Proof.
  pose proof (Uli.parse_build_uli empty_octet uli_example 20) as Hp.
  destruct Hp as (octet' & Hb & _ & Hr); [|done|eauto].
  split_and!; try (repeat constructor; vm_compute; congruence).
Defined.

Lemma f_teid_sockaddr_roundtrip_witness :
  is_ok (ogs_gtp_f_teid_to_sockaddr f_teid_example 2123) = true ∧
  match ogs_gtp_f_teid_to_sockaddr f_teid_example 2123 with
  | Ok l => Z.of_nat (length l) = 2
  | _ => False
  end.
Proof.
  split; [reflexivity|].
  pose proof (f_teid_sockaddr_roundtrip f_teid_example 2123) as Hr.
  destruct (ogs_gtp_f_teid_to_sockaddr f_teid_example 2123) as [l| |] eqn:E; [|discriminate E..].
  apply Hr. split_and!; [by right|by right|reflexivity].
Defined.

Lemma f_teid_ip_roundtrip_witness :
  match ogs_gtp_f_teid_to_ip f_teid_example with
  | Ok ip => ip_len ip = 20
  | _ => False
  end.
Proof.
  pose proof (f_teid_ip_roundtrip f_teid_example f_teid_example) as Hr.
  destruct (ogs_gtp_f_teid_to_ip f_teid_example) as [ip| |] eqn:E; [|discriminate E..].
  apply Hr; split_and!; solve [by right|reflexivity].
Defined.
