(* ===== verification/GtpXact.v ===== *)
(** * GTPv2-C transactions: [lib/gtp/xact.c]

    The transaction table of a GTP stack: local and remote transactions per
    peer, their step counter and message history, retransmission and holding
    timers, duplicate detection.  Output (packets, timers) is a trace. *)
From S2P Require Import Prelude.
From S2P Require Import CMem.
From S2P Require Import OgsLib.
From S2P Require Import OgsRef.
#[local] Open Scope Z_scope.

(** ** Data *)
Inductive originator := LOCAL_ORIGINATOR | REMOTE_ORIGINATOR.
#[export] Instance originator_eq_dec : EqDecision originator.
Proof. solve_decision. Defined.

Inductive rv_t := OGS_OK | OGS_RETRY.

(** Message type and packet of one step. *)
Record seq_t := { seq_type : Z; seq_pkbuf : option pkbuf }.

Record xact_t := {
  org : originator;
  xid : Z;
  gnode : Z;
  step : Z;
  seq : list seq_t;
  tm_response : option Z;
  response_rcount : Z;
  tm_holding : option Z;
  holding_rcount : Z;
  assoc_xact : option Z;
}.

Record gnode_t := { local_list : list Z; remote_list : list Z }.

(** The fields of a header that the transaction layer reads. *)
Record header_t := { h_type : Z; h_teid : Z; h_sqn : Z }.

(** What the layer does to the outside: [ogs_gtp_sendto], the timer and
    buffer calls of ogslib. *)
Inductive output :=
| SendTo (node : Z) (pkt : pkbuf)
| TimerStart (tm : Z) (duration : Z)
| TimerStop (tm : Z)
| TimerDelete (tm : Z)
| PkbufFree (pkt : pkbuf).

Definition GTP_MIN_XACT_ID : Z := 1.
Definition GTP_MAX_XACT_ID : Z := 0x800000.
(** Durations in seconds ([ogs_time_from_sec]). *)
Definition GTP_T3_RESPONSE_DURATION : Z := 3.
Definition GTP_T3_RESPONSE_RETRY_COUNT : Z := 3.
Definition GTP_T3_DUPLICATED_DURATION : Z :=
  GTP_T3_RESPONSE_DURATION * GTP_T3_RESPONSE_RETRY_COUNT.
Definition GTP_T3_DUPLICATED_RETRY_COUNT : Z := 1.
Definition OGS_GTPV2C_HEADER_LEN : nat := 12.

(** ** Message stages *)
Inductive stage_t := UNKNOWN_STAGE | INITIAL_STAGE | INTERMEDIATE_STAGE | FINAL_STAGE.
#[export] Instance stage_eq_dec : EqDecision stage_t.
Proof. solve_decision. Defined.

(** The message types of each group of [case] labels. *)
Definition initial_types : list Z := [32; 34; 36; 64; 66; 68; 170; 166; 168; 176].
Definition request_types : list Z := [95; 97; 99].
Definition final_types : list Z := [33; 35; 37; 65; 67; 69; 96; 98; 100; 171; 167; 169; 177].

Definition mem (x : Z) (l : list Z) : bool := existsb (Z.eqb x) l.

Definition ogs_gtp_xact_get_stage (type xid : Z) : stage_t :=
  if mem type initial_types then INITIAL_STAGE
  else if mem type request_types then
    if negb (Z.land xid GTP_MAX_XACT_ID =? 0) then INTERMEDIATE_STAGE else INITIAL_STAGE
  else if mem type final_types then FINAL_STAGE
  else UNKNOWN_STAGE.

(** ** State: the transaction objects, the peers, the pools *)
Section xact.
Context `{Host, OgsBits, OgsPool, OgsList, OgsNextId, OgsPkbuf}.

(** The result of [sendto] on the peer's socket. *)
Variable sendto_ok : Z → pkbuf → bool.

Record state := {
  heap : gmap Z xact_t;
  pool : pool_t;
  timers : pool_t;
  g_xact_id : Z;
  nodes : gmap Z gnode_t;
  trace : list output;
}.

(** *** Field updates *)
Definition set_heap (f : gmap Z xact_t → gmap Z xact_t) (s : state) : state :=
  {| heap := f (heap s); pool := pool s; timers := timers s; g_xact_id := g_xact_id s;
     nodes := nodes s; trace := trace s |}.
Definition set_pool (p : pool_t) (s : state) : state :=
  {| heap := heap s; pool := p; timers := timers s; g_xact_id := g_xact_id s;
     nodes := nodes s; trace := trace s |}.
Definition set_timers (t : pool_t) (s : state) : state :=
  {| heap := heap s; pool := pool s; timers := t; g_xact_id := g_xact_id s;
     nodes := nodes s; trace := trace s |}.
Definition set_id (n : Z) (s : state) : state :=
  {| heap := heap s; pool := pool s; timers := timers s; g_xact_id := n;
     nodes := nodes s; trace := trace s |}.
Definition set_nodes (f : gmap Z gnode_t → gmap Z gnode_t) (s : state) : state :=
  {| heap := heap s; pool := pool s; timers := timers s; g_xact_id := g_xact_id s;
     nodes := f (nodes s); trace := trace s |}.
Definition add_trace (o : list output) (s : state) : state :=
  {| heap := heap s; pool := pool s; timers := timers s; g_xact_id := g_xact_id s;
     nodes := nodes s; trace := trace s ++ o |}.

Definition with_step (n : Z) (sq : list seq_t) (x : xact_t) : xact_t :=
  {| org := org x; xid := xid x; gnode := gnode x; step := n; seq := sq;
     tm_response := tm_response x; response_rcount := response_rcount x;
     tm_holding := tm_holding x; holding_rcount := holding_rcount x;
     assoc_xact := assoc_xact x |}.
Definition with_response_rcount (n : Z) (x : xact_t) : xact_t :=
  {| org := org x; xid := xid x; gnode := gnode x; step := step x; seq := seq x;
     tm_response := tm_response x; response_rcount := n;
     tm_holding := tm_holding x; holding_rcount := holding_rcount x;
     assoc_xact := assoc_xact x |}.
Definition with_holding_rcount (n : Z) (x : xact_t) : xact_t :=
  {| org := org x; xid := xid x; gnode := gnode x; step := step x; seq := seq x;
     tm_response := tm_response x; response_rcount := response_rcount x;
     tm_holding := tm_holding x; holding_rcount := n; assoc_xact := assoc_xact x |}.
Definition with_assoc (a : option Z) (x : xact_t) : xact_t :=
  {| org := org x; xid := xid x; gnode := gnode x; step := step x; seq := seq x;
     tm_response := tm_response x; response_rcount := response_rcount x;
     tm_holding := tm_holding x; holding_rcount := holding_rcount x; assoc_xact := a |}.

(** *** Access through pointers *)
Definition deref (i : Z) : M state xact_t := fun s =>
  match heap s !! i with Some x => Ok (x, s) | None => Undef end.
Definition store (i : Z) (x : xact_t) : M state () := modify (set_heap <[i := x]>).
Definition deref_node (n : Z) : M state gnode_t := fun s =>
  match nodes s !! n with Some g => Ok (g, s) | None => Undef end.
Definition out (o : list output) : M state () := modify (add_trace o).

(** [xact->seq[k]] *)
Definition seq_at (x : xact_t) (k : Z) : M state seq_t :=
  lift (access (if 0 <=? k then seq x !! Z.to_nat k else None)).

(** The list a transaction of this origin is kept in. *)
Definition list_of (o : originator) (g : gnode_t) : list Z :=
  match o with LOCAL_ORIGINATOR => local_list g | REMOTE_ORIGINATOR => remote_list g end.
Definition with_list (o : originator) (l : list Z) (g : gnode_t) : gnode_t :=
  match o with
  | LOCAL_ORIGINATOR => {| local_list := l; remote_list := remote_list g |}
  | REMOTE_ORIGINATOR => {| local_list := local_list g; remote_list := l |}
  end.
Definition update_list (n : Z) (o : originator) (f : list Z → list Z) : M state () :=
  g ← deref_node n;
  modify (set_nodes <[n := with_list o (f (list_of o g)) g]>).

Definition timer_start (tm : option Z) (d : Z) : M state () :=
  match tm with Some t => out [TimerStart t d] | None => mret () end.
Definition timer_stop (tm : option Z) : M state () :=
  match tm with Some t => out [TimerStop t] | None => mret () end.
Definition timer_delete (tm : option Z) : M state () :=
  match tm with
  | Some t => out [TimerDelete t];; modify (λ s, set_timers (pool_free t (timers s)) s)
  | None => mret ()
  end.
(** [ogs_timer_add] with the assertion that follows it. *)
Definition timer_add : M state Z := fun s =>
  match pool_alloc (timers s) with
  | Some (t, ts) => Ok (t, set_timers ts s)
  | None => Aborted
  end.
Definition pkbuf_free (p : option pkbuf) : M state () :=
  match p with Some b => out [PkbufFree b] | None => mret () end.

(** [ogs_gtp_sendto]: the packet is handed to the socket. *)
Definition ogs_gtp_sendto (n : Z) (b : pkbuf) : M state bool :=
  out [SendTo n b];; mret (sendto_ok n b).

(** *** The header written in front of a message *)
Definition OGS_GTP_XID_TO_SQN (x : Z) : Z := htonl (u32 (Z.shiftl x 8)).
Definition OGS_GTP_SQN_TO_XID (q : Z) : Z := Z.shiftr (ntohl q) 8.

Definition header_bytes (type len teid xid : Z) : list Z :=
  [ed_pack [(3%nat, 2); (1%nat, 0); (1%nat, 1); (3%nat, 0)]; type]
  ++ host_bytes 2 (htons (u16 (len - 4)))
  ++ host_bytes 4 (htonl teid)
  ++ host_bytes 4 (OGS_GTP_XID_TO_SQN xid).

Definition write_header (b : pkbuf) (hd : list Z) : outcome pkbuf :=
  if (length hd <=? length (pk_data b))%nat
  then Ok {| pk_head := pk_head b; pk_data := hd ++ drop (length hd) (pk_data b) |}
  else Undef.

(** ** Operations *)
(** [seq[step].type = type; seq[step].pkbuf = pkbuf; step++] *)
Definition record_step (i : Z) (type : Z) (b : option pkbuf) : M state () :=
  x ← deref i;
  old ← seq_at x (step x);
  let e := {| seq_type := type;
              seq_pkbuf := match b with Some _ => b | None => seq_pkbuf old end |} in
  store i (with_step (step x + 1) (<[Z.to_nat (step x) := e]> (seq x)) x).

Definition ogs_gtp_xact_update_tx (i : Z) (hdesc : header_t) (b : pkbuf) : M state rv_t :=
  x ← deref i;
  _ ← deref_node (gnode x);
  let stage := ogs_gtp_xact_get_stage (h_type hdesc) (xid x) in
  match org x, stage with
  | LOCAL_ORIGINATOR, INITIAL_STAGE => massert (step x =? 0)
  | LOCAL_ORIGINATOR, INTERMEDIATE_STAGE => mabort
  | LOCAL_ORIGINATOR, FINAL_STAGE => massert (step x =? 2)
  | LOCAL_ORIGINATOR, UNKNOWN_STAGE => mabort
  | REMOTE_ORIGINATOR, INITIAL_STAGE => mabort
  | REMOTE_ORIGINATOR, INTERMEDIATE_STAGE => massert (step x =? 1)
  | REMOTE_ORIGINATOR, FINAL_STAGE => massert (step x =? 1)
  | REMOTE_ORIGINATOR, UNKNOWN_STAGE => mabort
  end;;
  let b := default b (ogs_pkbuf_push b OGS_GTPV2C_HEADER_LEN) in
  b ← lift (write_header b (header_bytes (h_type hdesc)
              (Z.of_nat (length (pk_data b))) (h_teid hdesc) (xid x)));
  record_step i (h_type hdesc) (Some b);;
  mret OGS_OK.

(** A request that was seen before: the stored answer of step [k] is sent
    again, if there is one. *)
Definition duplicate (x : xact_t) (k : Z) : M state rv_t :=
  e ← seq_at x k;
  match seq_pkbuf e with
  | Some b =>
      timer_start (tm_holding x) GTP_T3_DUPLICATED_DURATION;;
      ok ← ogs_gtp_sendto (gnode x) b;
      massert ok
  | None => mret ()
  end;;
  mret OGS_RETRY.

(** The tail of [ogs_gtp_xact_update_rx]. *)
Definition accept_rx (i : Z) (x : xact_t) (type : Z) : M state rv_t :=
  timer_stop (tm_response x);;
  record_step i type None;;
  mret OGS_OK.

Definition ogs_gtp_xact_update_rx (i : Z) (type : Z) : M state rv_t :=
  x ← deref i;
  let stage := ogs_gtp_xact_get_stage type (xid x) in
  match org x, stage with
  | LOCAL_ORIGINATOR, INTERMEDIATE_STAGE =>
      e ← seq_at x 1;
      if seq_type e =? type then
        massert ((step x =? 2) || (step x =? 3));; duplicate x 2
      else
        massert (step x =? 1);;
        timer_start (tm_holding x) GTP_T3_DUPLICATED_DURATION;;
        accept_rx i x type
  | LOCAL_ORIGINATOR, FINAL_STAGE => massert (step x =? 1);; accept_rx i x type
  | LOCAL_ORIGINATOR, _ => mabort
  | REMOTE_ORIGINATOR, INITIAL_STAGE =>
      e ← seq_at x 0;
      if seq_type e =? type then
        massert ((step x =? 1) || (step x =? 2));; duplicate x 1
      else
        massert (step x =? 0);;
        timer_start (tm_holding x) GTP_T3_DUPLICATED_DURATION;;
        accept_rx i x type
  | REMOTE_ORIGINATOR, FINAL_STAGE => massert (step x =? 2);; accept_rx i x type
  | REMOTE_ORIGINATOR, _ => mabort
  end.

Definition ogs_gtp_xact_associate (i j : Z) : M state () :=
  x ← deref i; y ← deref j;
  massert (bool_decide (assoc_xact x = None));;
  massert (bool_decide (assoc_xact y = None));;
  store i (with_assoc (Some j) x);;
  y ← deref j;
  store j (with_assoc (Some i) y).

Definition ogs_gtp_xact_deassociate (i j : Z) : M state () :=
  x ← deref i; y ← deref j;
  massert (bool_decide (assoc_xact x ≠ None));;
  massert (bool_decide (assoc_xact y ≠ None));;
  store i (with_assoc None x);;
  y ← deref j;
  store j (with_assoc None y).

Definition ogs_gtp_xact_delete (i : Z) : M state rv_t :=
  x ← deref i;
  _ ← deref_node (gnode x);
  e0 ← seq_at x 0; pkbuf_free (seq_pkbuf e0);;
  e1 ← seq_at x 1; pkbuf_free (seq_pkbuf e1);;
  e2 ← seq_at x 2; pkbuf_free (seq_pkbuf e2);;
  timer_delete (tm_response x);;
  timer_delete (tm_holding x);;
  match assoc_xact x with
  | Some j => ogs_gtp_xact_deassociate i j
  | None => mret ()
  end;;
  update_list (gnode x) (org x) (λ l, ogs_list_remove l i);;
  modify (λ s, set_heap (delete i) (set_pool (pool_free i (pool s)) s));;
  mret OGS_OK.

Definition empty_seq : list seq_t := replicate 3 {| seq_type := 0; seq_pkbuf := None |}.

(** [ogs_pool_alloc], [memset], the timers and the list insertion that both
    constructors share. *)
Definition xact_new (n : Z) (o : originator) (id : Z) : M state Z := fun s =>
  match pool_alloc (pool s) with
  | None => Aborted
  | Some (i, p) =>
      (tr ← timer_add;
       th ← timer_add;
       store i {| org := o; xid := id; gnode := n; step := 0; seq := empty_seq;
                  tm_response := Some tr;
                  response_rcount := GTP_T3_RESPONSE_RETRY_COUNT;
                  tm_holding := Some th;
                  holding_rcount := GTP_T3_DUPLICATED_RETRY_COUNT;
                  assoc_xact := None |};;
       update_list n o (λ l, ogs_list_add l i);;
       mret i) (set_pool p s)
  end.

Definition ogs_gtp_xact_local_create (n : Z) (hdesc : header_t) (b : pkbuf) : M state Z :=
  s ← get;
  let id := ogs_next_id (g_xact_id s) GTP_MIN_XACT_ID GTP_MAX_XACT_ID in
  modify (set_id id);;
  i ← xact_new n LOCAL_ORIGINATOR id;
  _ ← ogs_gtp_xact_update_tx i hdesc b;
  mret i.

Definition ogs_gtp_xact_remote_create (n : Z) (sqn : Z) : M state Z :=
  xact_new n REMOTE_ORIGINATOR (OGS_GTP_SQN_TO_XID sqn).

Fixpoint delete_each (l : list Z) : M state () :=
  match l with
  | [] => mret ()
  | i :: l => ogs_gtp_xact_delete i;; delete_each l
  end.

Definition ogs_gtp_xact_delete_all (n : Z) : M state () :=
  g ← deref_node n;
  delete_each (local_list g);;
  g ← deref_node n;
  delete_each (remote_list g).

Definition ogs_gtp_xact_commit (i : Z) : M state rv_t :=
  x ← deref i;
  _ ← deref_node (gnode x);
  e ← seq_at x (step x - 1);
  let stage := ogs_gtp_xact_get_stage (seq_type e) (xid x) in
  let send : M state rv_t :=
    match seq_pkbuf e with
    | Some b => ok ← ogs_gtp_sendto (gnode x) b; massert ok;; mret OGS_OK
    | None => mabort
    end in
  match org x, stage with
  | LOCAL_ORIGINATOR, INITIAL_STAGE =>
      massert (step x =? 1);;
      timer_start (tm_response x) GTP_T3_RESPONSE_DURATION;; send
  | LOCAL_ORIGINATOR, FINAL_STAGE =>
      massert ((step x =? 2) || (step x =? 3));;
      if step x =? 2 then ogs_gtp_xact_delete i else send
  | LOCAL_ORIGINATOR, _ => mabort
  | REMOTE_ORIGINATOR, INTERMEDIATE_STAGE =>
      massert (step x =? 2);;
      timer_start (tm_response x) GTP_T3_RESPONSE_DURATION;; send
  | REMOTE_ORIGINATOR, FINAL_STAGE =>
      massert ((step x =? 2) || (step x =? 3));;
      if step x =? 3 then ogs_gtp_xact_delete i else send
  | REMOTE_ORIGINATOR, _ => mabort
  end.

Definition response_timeout (i : Z) : M state () :=
  x ← deref i;
  _ ← deref_node (gnode x);
  e ← seq_at x (step x - 1);
  let x := with_response_rcount (u8 (response_rcount x - 1)) x in
  store i x;;
  if 0 <? response_rcount x then
    timer_start (tm_response x) GTP_T3_RESPONSE_DURATION;;
    match seq_pkbuf e with
    | None => mabort
    | Some b =>
        ok ← ogs_gtp_sendto (gnode x) b;
        if ok : bool then mret () else ogs_gtp_xact_delete i;; mret ()
    end
  else ogs_gtp_xact_delete i;; mret ().

Definition holding_timeout (i : Z) : M state () :=
  x ← deref i;
  _ ← deref_node (gnode x);
  _ ← seq_at x (step x - 1);
  let x := with_holding_rcount (u8 (holding_rcount x - 1)) x in
  store i x;;
  if 0 <? holding_rcount x then timer_start (tm_holding x) GTP_T3_DUPLICATED_DURATION
  else ogs_gtp_xact_delete i;; mret ().

(** [ogs_list_for_each] with [break]: the first member with this id. *)
Fixpoint find_xid (l : list Z) (id : Z) : M state (option Z) :=
  match l with
  | [] => mret None
  | i :: l => x ← deref i; if xid x =? id then mret (Some i) else find_xid l id
  end.

Definition find_list (type id : Z) : option originator :=
  match ogs_gtp_xact_get_stage type id with
  | INITIAL_STAGE => Some REMOTE_ORIGINATOR
  | INTERMEDIATE_STAGE => Some LOCAL_ORIGINATOR
  | FINAL_STAGE =>
      Some (if negb (Z.land id GTP_MAX_XACT_ID =? 0) then REMOTE_ORIGINATOR else LOCAL_ORIGINATOR)
  | UNKNOWN_STAGE => None
  end.

Definition ogs_gtp_xact_find_by_xid (n type id : Z) : M state (option Z) :=
  g ← deref_node n;
  match find_list type id with
  | Some o => find_xid (list_of o g) id
  | None => mabort
  end.

(** The transaction of a received message, or [OGS_RETRY]. *)
Definition ogs_gtp_xact_receive (n : Z) (h : header_t) : M state (rv_t * option Z) :=
  r ← ogs_gtp_xact_find_by_xid n (h_type h) (OGS_GTP_SQN_TO_XID (h_sqn h));
  i ← match r with
      | Some i => mret i
      | None => ogs_gtp_xact_remote_create n (h_sqn h)
      end;
  rv ← ogs_gtp_xact_update_rx i (h_type h);
  match rv with
  | OGS_OK => mret (OGS_OK, Some i)
  | OGS_RETRY => mret (OGS_RETRY, None)
  end.
End xact.
