(* ===== verification/GtpXactProofs.v ===== *)
(** * Properties of the GTP transaction layer *)
From S2P Require Import Prelude.
From S2P Require Import CMem.
From S2P Require Import OgsLib.
From S2P Require Import OgsRef.
From S2P Require Import GtpXact.
#[local] Open Scope Z_scope.

(** ** The state invariant *)

(** Which stage the message of each step has, and which steps are sent. *)
Definition stage_ok (k : nat) (st : stage_t) : Prop :=
  match k with
  | 0%nat => st = INITIAL_STAGE
  | 1%nat => st = INTERMEDIATE_STAGE ∨ st = FINAL_STAGE
  | _ => st = FINAL_STAGE
  end.
Definition sent (o : originator) (k : nat) : bool :=
  match o, k with
  | LOCAL_ORIGINATOR, (0 | 2)%nat | REMOTE_ORIGINATOR, 1%nat => true
  | _, _ => false
  end.

Definition entry_ok (x : xact_t) (k : nat) (e : seq_t) : Prop :=
  if (Z.of_nat k <? step x) then
    stage_ok k (ogs_gtp_xact_get_stage (seq_type e) (xid x)) ∧
    (is_Some (seq_pkbuf e) ↔ sent (org x) k = true)
  else e = {| seq_type := 0; seq_pkbuf := None |}.

Record xact_wf (x : xact_t) : Prop := {
  xw_step : 0 <= step x <= 3;
  xw_len : length (seq x) = 3%nat;
  xw_hist : ∀ k e, seq x !! k = Some e → entry_ok x k e;
  xw_xid : 0 <= xid x < 2 ^ 24;
  xw_local : org x = LOCAL_ORIGINATOR → 1 <= xid x <= GTP_MAX_XACT_ID;
}.

Section proofs.
Context `{Host, OgsBits, OgsPoolLaws, OgsListLaws, OgsNextIdLaws, OgsPkbufLaws}.

Record wf (s : state) : Prop := {
  wf_pool : pool_used (pool s) = dom (heap s);
  wf_id : 0 <= g_xact_id s <= GTP_MAX_XACT_ID;
  wf_xact : ∀ i x, heap s !! i = Some x → xact_wf x;
  wf_node : ∀ i x, heap s !! i = Some x →
    ∃ g, nodes s !! gnode x = Some g ∧ i ∈ list_of (org x) g;
  wf_nodup : ∀ n g o, nodes s !! n = Some g → NoDup (list_of o g);
  wf_list : ∀ n g o i, nodes s !! n = Some g → i ∈ list_of o g →
    ∃ x, heap s !! i = Some x ∧ org x = o ∧ gnode x = n;
  wf_assoc : ∀ i x j, heap s !! i = Some x → assoc_xact x = Some j →
    ∃ y, heap s !! j = Some y ∧ assoc_xact y = Some i;
  wf_remote : ∀ i j x y, heap s !! i = Some x → heap s !! j = Some y →
    org x = REMOTE_ORIGINATOR → org y = REMOTE_ORIGINATOR →
    gnode x = gnode y → xid x = xid y → i = j;
}.

(** Every transaction has seen its first message. *)
Definition settled (s : state) : Prop :=
  ∀ i x, heap s !! i = Some x → 1 <= step x.
Definition good (s : state) : Prop := wf s ∧ settled s.

(** ** Rules for the primitive accesses *)
Lemma wp_deref i s x (Q : xact_t → state → Prop) :
  heap s !! i = Some x → Q x s → wp (deref i) s Q.
Proof. unfold wp, deref. by intros ->. Qed.

Lemma wp_deref_node n s g (Q : gnode_t → state → Prop) :
  nodes s !! n = Some g → Q g s → wp (deref_node n) s Q.
Proof. unfold wp, deref_node. by intros ->. Qed.

Lemma wp_seq_at x k e s (Q : seq_t → state → Prop) :
  0 <= k → seq x !! Z.to_nat k = Some e → Q e s → wp (seq_at x k) s Q.
Proof. intros Hk He HQ. unfold seq_at. rewrite (proj2 (Z.leb_le _ _) Hk), He. exact HQ. Qed.

Lemma seq_lookup x k : xact_wf x → 0 <= k < 3 → is_Some (seq x !! Z.to_nat k).
Proof. intros Hx Hk. apply lookup_lt_is_Some_2. rewrite (xw_len x Hx). lia. Qed.

(** [add_trace], timers and identifiers do not matter to the invariant. *)
Definition same_core (s s' : state) : Prop :=
  heap s' = heap s ∧ pool s' = pool s ∧ nodes s' = nodes s ∧ g_xact_id s' = g_xact_id s.

Lemma wf_same_core s s' : same_core s s' → wf s → wf s'.
Proof.
  intros (E1 & E2 & E3 & E4) [].
  split; rewrite ?E1, ?E2, ?E3, ?E4; auto.
Qed.
Lemma settled_same_core s s' : same_core s s' → settled s → settled s'.
Proof. intros (E1 & _) Hs i x. rewrite E1. apply Hs. Qed.
Lemma same_core_refl s : same_core s s.
Proof. by repeat split. Qed.
Lemma same_core_trans s1 s2 s3 : same_core s1 s2 → same_core s2 s3 → same_core s1 s3.
Proof. intros (?&?&?&?) (?&?&?&?). repeat split; congruence. Qed.

Lemma wp_out o s : wp (out o) s (λ _ s', same_core s s').
Proof. by repeat split. Qed.
Lemma wp_timer_start tm d s : wp (timer_start tm d) s (λ _ s', same_core s s').
Proof. destruct tm; by repeat split. Qed.
Lemma wp_timer_stop tm s : wp (timer_stop tm) s (λ _ s', same_core s s').
Proof. destruct tm; by repeat split. Qed.
Lemma wp_timer_delete tm s : wp (timer_delete tm) s (λ _ s', same_core s s').
Proof. destruct tm; by repeat split. Qed.
Lemma wp_pkbuf_free b s : wp (pkbuf_free b) s (λ _ s', same_core s s').
Proof. destruct b; by repeat split. Qed.
Lemma wp_sendto (sendto_ok : Z → pkbuf → bool) n b s : wp (ogs_gtp_sendto sendto_ok n b) s (λ _ s', same_core s s').
Proof. by repeat split. Qed.
Lemma wp_timer_add s : wp timer_add s (λ _ s', same_core s s').
Proof. unfold wp, timer_add. destruct (pool_alloc (timers s)) as [[t ts]|]; by repeat split. Qed.

(** ** Updating one transaction in place *)
Definition same_key (x y : xact_t) : Prop :=
  org y = org x ∧ xid y = xid x ∧ gnode y = gnode x ∧ assoc_xact y = assoc_xact x.

Lemma wf_update s i x y :
  wf s → heap s !! i = Some x → same_key x y → xact_wf y → wf (set_heap <[i := y]> s).
Proof.
  intros Hs Hi (Eo & Ex & En & Ea) Hy. destruct Hs as [wf_pool0 wf_id0 wf_xact0 wf_node0 wf_nodup0 wf_list0 wf_assoc0 wf_remote0]. split; simpl; auto.
  - rewrite dom_insert_lookup_L; eauto.
  - intros j z. rewrite lookup_insert. case_decide; [by intros [= <-]|eauto].
  - intros j z. rewrite lookup_insert. case_decide; [|eauto].
    intros [= <-]. subst j. rewrite Eo, En. eauto.
  - intros n g o j Hn Hj. destruct (wf_list0 n g o j Hn Hj) as (z & Hz & <- & <-).
    rewrite lookup_insert. case_decide; [|eauto]. subst j. simplify_eq. eauto.
  - intros j z k Hj Hk.
    assert (∃ z', heap s !! j = Some z' ∧ assoc_xact z' = Some k) as (z' & Hz' & Hk').
    { rewrite lookup_insert in Hj. case_decide; simplify_eq; eauto.
      exists x. split; [done|congruence]. }
    destruct (wf_assoc0 j z' k Hz' Hk') as (w & Hw & Hjw).
    rewrite lookup_insert. case_decide as E; [|eauto].
    subst k. exists y. split; [done|]. simplify_eq. congruence.
  - intros j k z w. rewrite !lookup_insert. intros Hj Hk Oj Ok En' Ex'.
    repeat case_decide; simplify_eq; auto;
      first [eapply (wf_remote0 j k x w); eauto; congruence
            |eapply (wf_remote0 j k z x); eauto; congruence|eauto].
Qed.

(** ** Recording a step *)
Lemma step_wf x type b old :
  xact_wf x → step x < 3 →
  seq x !! Z.to_nat (step x) = Some old →
  stage_ok (Z.to_nat (step x)) (ogs_gtp_xact_get_stage type (xid x)) →
  (is_Some b ↔ sent (org x) (Z.to_nat (step x)) = true) →
  xact_wf (with_step (step x + 1)
    (<[Z.to_nat (step x) := {| seq_type := type;
        seq_pkbuf := match b with Some _ => b | None => seq_pkbuf old end |}]> (seq x)) x).
Proof.
  intros Hx Hlt Hold Hst Hb. pose proof (xw_step x Hx) as Hstep.
  pose proof (xw_hist x Hx _ _ Hold) as Ho. unfold entry_ok in Ho.
  rewrite Z2Nat.id, (proj2 (Z.ltb_ge _ _)) in Ho by lia. subst old. simpl.
  split; cbn [step seq xid org with_step];
    [lia|by rewrite length_insert, (xw_len x Hx)| |apply (xw_xid x Hx)|apply (xw_local x Hx)].
  intros k e. destruct (decide (k = Z.to_nat (step x))) as [->|Hne].
  - rewrite list_lookup_insert_eq by (rewrite (xw_len x Hx); lia). intros [= <-].
    unfold entry_ok. simpl. rewrite (proj2 (Z.ltb_lt _ _)) by lia.
    split; [done|]. by destruct b.
  - rewrite list_lookup_insert_ne by done. intros He.
    pose proof (xw_hist x Hx _ _ He) as Hk. unfold entry_ok in *. simpl in *.
    destruct (Z.ltb_spec (Z.of_nat k) (step x)), (Z.ltb_spec (Z.of_nat k) (step x + 1));
      try done; lia.
Qed.

(** The state after a step of transaction [i]. *)
Definition stepped (i : Z) (x : xact_t) (s s' : state) : Prop :=
  wf s' ∧ dom (heap s') = dom (heap s) ∧
  (∀ j, j ≠ i → heap s' !! j = heap s !! j) ∧
  ∃ y, heap s' !! i = Some y ∧ step y = step x + 1.

Lemma wp_record_step i x type b s :
  wf s → heap s !! i = Some x → step x < 3 →
  stage_ok (Z.to_nat (step x)) (ogs_gtp_xact_get_stage type (xid x)) →
  (is_Some b ↔ sent (org x) (Z.to_nat (step x)) = true) →
  wp (record_step i type b) s (λ _ s', stepped i x s s').
Proof.
  intros Hs Hi Hlt Hst Hb. pose proof (wf_xact s Hs i x Hi) as Hx.
  pose proof (xw_step x Hx) as Hstep.
  destruct (seq_lookup x (step x) Hx) as [old Hold]; [lia|].
  unfold record_step. apply wp_bind. eapply wp_deref; [done|].
  apply wp_bind. eapply wp_seq_at; [lia|done|]. unfold store. apply wp_modify.
  split; [|split; [|split]].
  - eapply wf_update; eauto; [by repeat split|by eapply step_wf].
  - simpl. rewrite dom_insert_lookup_L; eauto.
  - intros j Hj. simpl. by rewrite lookup_insert_ne.
  - eexists. simpl. rewrite lookup_insert_eq. split; [done|]. reflexivity.
Qed.

Lemma stepped_core i x s1 s2 s' :
  same_core s1 s2 → stepped i x s2 s' → stepped i x s1 s'.
Proof. intros (E & _) (?&Hd&Hj&?). rewrite E in *. by split_and!. Qed.

Lemma stepped_settled i x s s' :
  settled s → 0 <= step x → stepped i x s s' → settled s'.
Proof.
  intros Hs Hx (_ & _ & Hj & y & Hy & Ey) j z Hz.
  destruct (decide (j = i)) as [->|Hne]; [simplify_eq; lia|].
  rewrite Hj in Hz by done. by eapply Hs.
Qed.

(** ** Sending a message of a transaction *)

(** A packet with room for the header: in front of it, or in its data. *)
Definition pkt_ok (b : pkbuf) : Prop :=
  (OGS_GTPV2C_HEADER_LEN <= length (pk_head b))%nat ∨
  (OGS_GTPV2C_HEADER_LEN <= length (pk_data b))%nat.

Lemma length_header_bytes type n td id : length (header_bytes type n td id) = 12%nat.
Proof. unfold header_bytes. simpl. by rewrite !length_app, !length_host_bytes. Qed.

Lemma pushed_len b :
  pkt_ok b →
  (12 <= length (pk_data (default b (ogs_pkbuf_push b OGS_GTPV2C_HEADER_LEN))))%nat.
Proof.
  unfold pkt_ok, OGS_GTPV2C_HEADER_LEN. intros Hb.
  destruct (ogs_pkbuf_push b 12) as [b'|] eqn:E; simpl.
  - destruct (pkbuf_push_spec _ _ _ E) as (Hn & _ & ->).
    rewrite length_app, length_drop. lia.
  - destruct Hb as [Hb|Hb]; [|done].
    destruct (pkbuf_push_some b 12 Hb). congruence.
Qed.

Lemma wp_update_tx i x hdesc b s :
  wf s → heap s !! i = Some x → pkt_ok b →
  wp (ogs_gtp_xact_update_tx i hdesc b) s (λ _ s', stepped i x s s').
Proof.
  intros Hs Hi Hb. pose proof (wf_xact s Hs i x Hi) as Hx.
  pose proof (xw_step x Hx) as Hstep.
  destruct (wf_node s Hs i x Hi) as (g & Hg & _).
  unfold ogs_gtp_xact_update_tx. apply wp_bind. eapply wp_deref; [done|].
  apply wp_bind. eapply wp_deref_node; [done|]. apply wp_bind.
  pose proof (pushed_len b Hb) as Hlen.
  assert (∀ P : Prop, (P → step x < 3 ∧
      stage_ok (Z.to_nat (step x)) (ogs_gtp_xact_get_stage (h_type hdesc) (xid x)) ∧
      sent (org x) (Z.to_nat (step x)) = true) → P →
    wp (b ← lift (write_header (default b (ogs_pkbuf_push b OGS_GTPV2C_HEADER_LEN))
            (header_bytes (h_type hdesc)
               (Z.of_nat (length (pk_data (default b (ogs_pkbuf_push b OGS_GTPV2C_HEADER_LEN)))))
               (h_teid hdesc) (xid x)));
        record_step i (h_type hdesc) (Some b);; mret OGS_OK) s
      (λ _ s', stepped i x s s')) as Hrest.
  { intros P HP Hp. destruct (HP Hp) as (Hlt & Hst & Hse).
    apply wp_bind, wp_lift. unfold write_header. rewrite length_header_bytes.
    rewrite (proj2 (Nat.leb_le _ _)) by done. apply wp_bind.
    wp_use (wp_record_step i x); auto.
    rewrite Hse. split; eauto. }
  destruct (org x) eqn:Eo, (ogs_gtp_xact_get_stage (h_type hdesc) (xid x)) eqn:Est;
    try exact I; apply wp_massert; intros E; apply Z.eqb_eq in E;
    (apply (Hrest True); [intros _|done]); rewrite E; (split_and!; [done|simpl; auto|done]).
Qed.

(** ** Receiving a message of a transaction *)
Definition rx_post (i : Z) (x : xact_t) (s : state) (rv : rv_t) (s' : state) : Prop :=
  (rv = OGS_RETRY ∧ same_core s s' ∧ 1 <= step x) ∨ (rv = OGS_OK ∧ stepped i x s s').

Lemma wp_duplicate (sendto_ok : Z → pkbuf → bool) x k s :
  xact_wf x → 0 <= k < 3 →
  wp (duplicate sendto_ok x k) s (λ rv s', rv = OGS_RETRY ∧ same_core s s').
Proof.
  intros Hx Hk. destruct (seq_lookup x k Hx Hk) as [e He].
  unfold duplicate. apply wp_bind. eapply wp_seq_at; [lia|done|].
  apply wp_bind. destruct (seq_pkbuf e) as [b|]; [|split; [done|apply same_core_refl]].
  wp_call wp_timer_start. intros ? s1 Hc1.
  wp_call wp_sendto. intros ok s2 Hc2.
  apply wp_massert. intros _. split; [done|]. by eapply same_core_trans.
Qed.

Lemma wp_accept_rx i x type s1 s2 :
  wf s1 → same_core s1 s2 → heap s1 !! i = Some x → step x < 3 →
  stage_ok (Z.to_nat (step x)) (ogs_gtp_xact_get_stage type (xid x)) →
  sent (org x) (Z.to_nat (step x)) = false →
  wp (accept_rx i x type) s2 (rx_post i x s1).
Proof.
  intros Hs Hc Hi Hlt Hst Hse. unfold accept_rx.
  wp_call wp_timer_stop. intros ? s3 Hc3.
  pose proof (same_core_trans _ _ _ Hc Hc3) as Hc13. apply wp_bind.
  wp_use (wp_record_step i x); auto.
  - by eapply wf_same_core.
  - destruct Hc13 as [-> _]. done.
  - rewrite Hse. split; [intros [? [=]]|done].
  - intros _ s4 Hc4. right. split; [done|by eapply stepped_core].
Qed.

Lemma wp_update_rx (sendto_ok : Z → pkbuf → bool) i x type s :
  wf s → heap s !! i = Some x →
  wp (ogs_gtp_xact_update_rx sendto_ok i type) s (rx_post i x s).
Proof.
  intros Hs Hi. pose proof (wf_xact s Hs i x Hi) as Hx.
  unfold ogs_gtp_xact_update_rx. apply wp_bind. eapply wp_deref; [done|].
  destruct (org x) eqn:Eo, (ogs_gtp_xact_get_stage type (xid x)) eqn:Est; try exact I.
  - destruct (seq_lookup x 1 Hx) as [e He]; [lia|].
    apply wp_bind. eapply wp_seq_at; [lia|done|]. case_match.
    + apply wp_bind, wp_massert. intros E. wp_use wp_duplicate; [done|lia|].
      intros rv s' []. left. split_and!; auto; lia.
    + apply wp_bind, wp_massert. intros E%Z.eqb_eq.
      wp_call wp_timer_start. intros ? s1 Hc1.
      apply wp_accept_rx; auto; rewrite ?Eo, ?Est, E; simpl; auto; lia.
  - apply wp_bind, wp_massert. intros E%Z.eqb_eq.
    apply wp_accept_rx; auto using same_core_refl; rewrite ?Eo, ?Est, E; simpl; auto; lia.
  - destruct (seq_lookup x 0 Hx) as [e He]; [lia|].
    apply wp_bind. eapply wp_seq_at; [lia|done|]. case_match.
    + apply wp_bind, wp_massert. intros E. wp_use wp_duplicate; [done|lia|].
      intros rv s' []. left. split_and!; auto; lia.
    + apply wp_bind, wp_massert. intros E%Z.eqb_eq.
      wp_call wp_timer_start. intros ? s1 Hc1.
      apply wp_accept_rx; auto; rewrite ?Eo, ?Est, E; simpl; auto; lia.
  - apply wp_bind, wp_massert. intros E%Z.eqb_eq.
    apply wp_accept_rx; auto using same_core_refl; rewrite ?Eo, ?Est, E; simpl; auto; lia.
Qed.

(** ** Changing only the association of transactions *)
Definition no_assoc (x : xact_t) : xact_t := with_assoc None x.
Definition symmetric (h : gmap Z xact_t) : Prop :=
  ∀ i x j, h !! i = Some x → assoc_xact x = Some j →
    ∃ y, h !! j = Some y ∧ assoc_xact y = Some i.

Lemma wf_reassoc s h :
  wf s → no_assoc <$> h = no_assoc <$> heap s → symmetric h → wf (set_heap (λ _, h) s).
Proof.
  intros [wp0 wi wx wn wd wl wa wr] Hh Hsym.
  assert (∀ i x, h !! i = Some x → ∃ y, heap s !! i = Some y ∧ no_assoc x = no_assoc y) as F.
  { intros i x Hx. assert (no_assoc <$> (heap s !! i) = Some (no_assoc x)) as E.
    { rewrite <- lookup_fmap, <- Hh, lookup_fmap, Hx. done. }
    destruct (heap s !! i) as [y|]; [|done]. injection E as E. eexists. split; [done|].
    unfold no_assoc, with_assoc. congruence. }
  assert (∀ i y, heap s !! i = Some y → ∃ x, h !! i = Some x ∧ no_assoc x = no_assoc y) as B.
  { intros i y Hy. assert (no_assoc <$> (h !! i) = Some (no_assoc y)) as E.
    { rewrite <- lookup_fmap, Hh, lookup_fmap, Hy. done. }
    destruct (h !! i) as [x|]; [|done]. injection E as E. eexists. split; [done|].
    unfold no_assoc, with_assoc. congruence. }
  split; simpl; auto.
  - rewrite wp0. apply set_eq. intros i. rewrite !elem_of_dom. split.
    + intros [y Hy]. destruct (B i y Hy) as (x & Hx & _). eauto.
    + intros [x Hx]. destruct (F i x Hx) as (y & Hy & _). eauto.
  - intros i x Hx. destruct (F i x Hx) as (y & Hy & E). injection E as Eo Ei En Es Eq _ _ _ _.
    destruct (wx i y Hy) as [w1 w2 w3 w4 w5]. unfold entry_ok in *.
    split; unfold entry_ok; rewrite ?Es, ?Eq, ?Ei, ?Eo; auto.
  - intros i x Hx. destruct (F i x Hx) as (y & Hy & E). injection E as Eo Ei En _ _ _ _ _ _.
    rewrite Eo, En. eauto.
  - intros n g o i Hn Hi. destruct (wl n g o i Hn Hi) as (y & Hy & <- & <-).
    destruct (B i y Hy) as (x & Hx & E). injection E as Eo Ei En _ _ _ _ _ _. eauto.
  - intros i j x y Hx Hy. destruct (F i x Hx) as (x' & Hx' & E), (F j y Hy) as (y' & Hy' & E').
    injection E as -> -> -> _ _ _ _ _ _. injection E' as -> -> -> _ _ _ _ _ _. eauto.
Qed.

(** The transactions of [s'] are those of [s], up to their associations. *)
Definition kept (s s' : state) : Prop :=
  ∀ j y, heap s' !! j = Some y → ∃ x, heap s !! j = Some x ∧ no_assoc x = no_assoc y.

Lemma kept_refl s : kept s s.
Proof. intros j y Hy. eauto. Qed.
Lemma kept_trans s1 s2 s3 : kept s1 s2 → kept s2 s3 → kept s1 s3.
Proof.
  intros K1 K2 j z Hz. destruct (K2 j z Hz) as (y & Hy & <-).
  destruct (K1 j y Hy) as (x & Hx & <-). eauto.
Qed.
Lemma kept_core s s' : same_core s s' → kept s s'.
Proof. intros [E _] j y. rewrite E. eauto. Qed.
Lemma kept_settled s s' : kept s s' → settled s → settled s'.
Proof.
  intros K Hs j y Hy. destruct (K j y Hy) as (x & Hx & E).
  injection E as _ _ _ E _ _ _ _ _. rewrite <- E. by eapply Hs.
Qed.

Lemma kept_fmap s h :
  no_assoc <$> h = no_assoc <$> heap s → kept s (set_heap (λ _, h) s).
Proof.
  intros Hh j y Hy. simpl in Hy.
  assert (no_assoc <$> (heap s !! j) = Some (no_assoc y)) as E.
  { rewrite <- lookup_fmap, <- Hh, lookup_fmap, Hy. done. }
  destruct (heap s !! j) as [x|]; [|done]. injection E as E. eexists. split; [done|].
  unfold no_assoc, with_assoc. congruence.
Qed.

(** The effect of [associate] and [deassociate] on the transactions. *)
Definition reassoc (s s' : state) : Prop :=
  wf s' ∧ kept s s' ∧ dom (heap s') = dom (heap s) ∧
  nodes s' = nodes s ∧ pool s' = pool s ∧ g_xact_id s' = g_xact_id s.

(** Writing [a] into [i]'s and [b] into [j]'s association. *)
Lemma reassoc_two s i j x y a b :
  heap s !! i = Some x → heap s !! j = Some y → wf s →
  symmetric (<[j := with_assoc b (if decide (i = j) then x else y)]>
    (<[i := with_assoc a x]> (heap s))) →
  wp (store i (with_assoc a x);; y ← deref j; store j (with_assoc b y)) s
    (λ _ s', reassoc s s' ∧ heap s' !! j = Some (with_assoc b y) ∧
             (i ≠ j → heap s' !! i = Some (with_assoc a x))).
Proof.
  intros Hi Hj Hs Hsym. apply wp_bind, wp_modify, wp_bind.
  set (y' := if decide (i = j) then with_assoc a x else y).
  assert (<[i := with_assoc a x]> (heap s) !! j = Some y') as Hy'.
  { unfold y'. rewrite lookup_insert. by case_decide. }
  eapply wp_deref; [exact Hy'|]. apply wp_modify. simpl.
  assert (with_assoc b y' = with_assoc b (if decide (i = j) then x else y)) as Ey.
  { unfold y'. by case_decide. }
  set (h := <[j := with_assoc b y']> (<[i := with_assoc a x]> (heap s))).
  assert (no_assoc <$> h = no_assoc <$> heap s) as Hh.
  { unfold h. rewrite Ey, !fmap_insert. unfold no_assoc at 1 2. simpl.
    rewrite !insert_id; [done| |].
    - rewrite lookup_fmap, Hi. done.
    - rewrite lookup_insert, lookup_fmap. case_decide; [done|by rewrite Hj]. }
  split; [|split].
  - split; [|split; [|split]].
    + eapply (wf_reassoc s h); auto. unfold h. by rewrite Ey.
    + by apply (kept_fmap s h).
    + simpl. unfold h. by rewrite !dom_insert_lookup_L by (rewrite ?lookup_insert_is_Some'; eauto).
    + by split_and!.
  - simpl. unfold h. rewrite lookup_insert_eq. f_equal. unfold y'. case_decide; [|done].
    subst j. by simplify_eq.
  - intros Hne. simpl. unfold h. rewrite lookup_insert_ne by done. by rewrite lookup_insert_eq.
Qed.

Lemma wp_associate i j s :
  wf s → is_Some (heap s !! i) → is_Some (heap s !! j) →
  wp (ogs_gtp_xact_associate i j) s (λ _ s', reassoc s s').
Proof.
  intros Hs [x Hi] [y Hj]. unfold ogs_gtp_xact_associate.
  apply wp_bind. eapply wp_deref; [done|]. apply wp_bind. eapply wp_deref; [done|].
  apply wp_bind, wp_massert. intros Ax%bool_decide_eq_true.
  apply wp_bind, wp_massert. intros Ay%bool_decide_eq_true.
  wp_use (reassoc_two s i j x y); auto; [|by intros ? ? []].
  intros k z m Hk Hz. rewrite !lookup_insert in Hk.
  repeat case_decide; simplify_eq/=; repeat case_decide; simplify_eq.
  1,3: by (eexists; rewrite lookup_insert_eq; split).
  1: by (eexists; rewrite lookup_insert_ne, lookup_insert_eq by done; split).
  all: destruct (wf_assoc s Hs k z m Hk Hz) as (w & Hw & Ew);
    exists w; rewrite !lookup_insert_ne by congruence; by split.
Qed.

Lemma wp_deassociate i j x s :
  wf s → heap s !! i = Some x → assoc_xact x = Some j →
  wp (ogs_gtp_xact_deassociate i j) s
    (λ _ s', reassoc s s' ∧ heap s' !! i = Some (with_assoc None x)).
Proof.
  intros Hs Hi Ax. destruct (wf_assoc s Hs i x j Hi Ax) as (y & Hj & Ay).
  unfold ogs_gtp_xact_deassociate.
  apply wp_bind. eapply wp_deref; [done|]. apply wp_bind. eapply wp_deref; [done|].
  apply wp_bind, wp_massert. intros _. apply wp_bind, wp_massert. intros _.
  wp_use (reassoc_two s i j x y); auto.
  - intros k z m Hk Hz. rewrite !lookup_insert in Hk.
    repeat case_decide; simplify_eq/=.
    all: destruct (wf_assoc s Hs k z m Hk Hz) as (w & Hw & Ew);
      exists w; rewrite !lookup_insert_ne by congruence; by split.
  - intros _ s' (? & Hj' & Hi'). split; [done|].
    destruct (decide (i = j)) as [->|Hne]; [|auto]. rewrite Hj'. by simplify_eq.
Qed.

(** ** Deleting a transaction *)
Definition deleted (i : Z) (s s' : state) : Prop :=
  wf s' ∧ kept s s' ∧ dom (heap s') = dom (heap s) ∖ {[i]} ∧ dom (nodes s') = dom (nodes s).

Lemma elem_of_list_remove l i j : NoDup l → j ∈ ogs_list_remove l i ↔ j ∈ l ∧ j ≠ i.
Proof. intros Hl. rewrite (ogs_list_remove_perm l i Hl), list_elem_of_filter. tauto. Qed.
Lemma NoDup_list_remove l i : NoDup l → NoDup (ogs_list_remove l i).
Proof. intros Hl. rewrite (ogs_list_remove_perm l i Hl). by apply list.NoDup_filter. Qed.
Lemma list_of_with_list o o' l g :
  list_of o' (with_list o l g) = if decide (o = o') then l else list_of o' g.
Proof. by destruct o, o'. Qed.

Definition unlink (i : Z) (x : xact_t) (g : gnode_t) (s : state) : state :=
  set_heap (delete i) (set_pool (pool_free i (pool s))
    (set_nodes <[gnode x := with_list (org x) (ogs_list_remove (list_of (org x) g) i) g]> s)).

Lemma lookup_unlink i x g s n g' o :
  nodes s !! gnode x = Some g → nodes (unlink i x g s) !! n = Some g' →
  ∃ g0, nodes s !! n = Some g0 ∧
    list_of o g' = if decide (n = gnode x ∧ o = org x)
                   then ogs_list_remove (list_of o g0) i else list_of o g0.
Proof.
  intros Hg. simpl. rewrite lookup_insert. case_decide as E.
  - intros [= <-]. exists g. subst n. split; [done|]. rewrite list_of_with_list.
    repeat case_decide; simplify_eq; try done; intuition congruence.
  - intros Hn. exists g'. split; [done|]. rewrite decide_False; [done|intuition congruence].
Qed.

Lemma wf_unlink i x g s :
  wf s → heap s !! i = Some x → assoc_xact x = None → nodes s !! gnode x = Some g →
  wf (unlink i x g s).
Proof.
  intros Hs Hi Ha Hg. destruct Hs as [wp0 wi wx wn wd wl wa wr].
  split.
  - simpl. rewrite pool_used_free, dom_delete_L. by f_equal.
  - done.
  - simpl. intros j y [_ Hy]%lookup_delete_Some. eauto.
  - intros j y Hy. simpl in Hy. apply lookup_delete_Some in Hy as [Hne Hy].
    destruct (wn j y Hy) as (g' & Hg' & Hj).
    destruct (nodes (unlink i x g s) !! gnode y) as [g2|] eqn:E2.
    + exists g2. split; [done|].
      destruct (lookup_unlink i x g s _ g2 (org y) Hg E2) as (g0 & Hg0 & ->).
      simplify_eq. case_decide; [|done]. rewrite elem_of_list_remove; eauto.
    + simpl in E2. apply lookup_insert_None in E2 as [? ?]. congruence.
  - intros n g' o Hn. destruct (lookup_unlink i x g s n g' o Hg Hn) as (g0 & Hg0 & ->).
    case_decide; [apply NoDup_list_remove|]; eauto.
  - intros n g' o j Hn Hj. destruct (lookup_unlink i x g s n g' o Hg Hn) as (g0 & Hg0 & E).
    rewrite E in Hj. case_decide as D.
    + rewrite elem_of_list_remove in Hj by eauto. destruct Hj as [Hj Hne].
      destruct (wl n g0 o j Hg0 Hj) as (y & Hy & ? & ?). exists y. simpl.
      by rewrite lookup_delete_ne.
    + destruct (wl n g0 o j Hg0 Hj) as (y & Hy & <- & <-). exists y. simpl.
      rewrite lookup_delete_ne; [done|]. intros <-. simplify_eq. by apply D.
  - simpl. intros j y k [Hne Hy]%lookup_delete_Some Hk.
    destruct (wa j y k Hy Hk) as (z & Hz & Ez). exists z. rewrite lookup_delete_ne; [done|].
    intros <-. by simplify_eq.
  - simpl. intros j k y z [_ Hy]%lookup_delete_Some [_ Hz]%lookup_delete_Some. eauto.
Qed.

Lemma wp_unlink i x s :
  wf s → heap s !! i = Some x → assoc_xact x = None →
  wp (update_list (gnode x) (org x) (λ l, ogs_list_remove l i);;
      modify (λ s, set_heap (delete i) (set_pool (pool_free i (pool s)) s));;
      mret OGS_OK) s (λ _ s', deleted i s s').
Proof.
  intros Hs Hi Ha. destruct (wf_node s Hs i x Hi) as (g & Hg & _).
  apply wp_bind, wp_bind. eapply wp_deref_node; [done|]. apply wp_modify, wp_bind, wp_modify.
  apply wp_ret. split; [|split; [|split]].
  - by apply (wf_unlink i x g s).
  - intros j y. simpl. intros [_ Hy]%lookup_delete_Some. eauto.
  - simpl. by rewrite dom_delete_L.
  - simpl. by rewrite dom_insert_lookup_L by eauto.
Qed.

Lemma deleted_core i s1 s2 s' : same_core s1 s2 → deleted i s2 s' → deleted i s1 s'.
Proof.
  intros Hc (? & K & Hd & Hn). pose proof (kept_core _ _ Hc). destruct Hc as (E & _ & En & _).
  rewrite E, En in *. split_and!; auto. by eapply kept_trans.
Qed.
Lemma deleted_reassoc i s1 s2 s' : reassoc s1 s2 → deleted i s2 s' → deleted i s1 s'.
Proof.
  intros (_ & K' & Ed & En & _) (? & K & Hd & Hn).
  rewrite Ed, En in *. split_and!; auto. by eapply kept_trans.
Qed.

Lemma wp_delete i s :
  wf s → is_Some (heap s !! i) → wp (ogs_gtp_xact_delete i) s (λ _ s', deleted i s s').
Proof.
  intros Hs [x Hi]. pose proof (wf_xact s Hs i x Hi) as Hx.
  destruct (wf_node s Hs i x Hi) as (g & Hg & _).
  destruct (seq_lookup x 0 Hx) as [e0 He0], (seq_lookup x 1 Hx) as [e1 He1],
    (seq_lookup x 2 Hx) as [e2 He2]; try lia.
  unfold ogs_gtp_xact_delete. apply wp_bind. eapply wp_deref; [done|].
  apply wp_bind. eapply wp_deref_node; [done|].
  apply wp_bind. eapply wp_seq_at; [lia|done|]. wp_call wp_pkbuf_free. intros ? s1 Hc1.
  apply wp_bind. eapply wp_seq_at; [lia|done|]. wp_call wp_pkbuf_free. intros ? s2 Hc2.
  apply wp_bind. eapply wp_seq_at; [lia|done|]. wp_call wp_pkbuf_free. intros ? s3 Hc3.
  wp_call wp_timer_delete. intros ? s4 Hc4. wp_call wp_timer_delete. intros ? s5 Hc5.
  assert (same_core s s5) as Hc by eauto 10 using same_core_trans.
  pose proof (wf_same_core _ _ Hc Hs) as Hs5.
  assert (heap s5 !! i = Some x) as Hi5 by (destruct Hc as [-> _]; done).
  destruct (assoc_xact x) as [j|] eqn:Ea.
  - wp_call (wp_deassociate i j x); auto. intros ? s6 (Hr & Hi6).
    wp_use (wp_unlink i (with_assoc None x)); auto; [apply Hr|].
    intros ? s7 Hd. eapply deleted_core; [done|]. by eapply deleted_reassoc.
  - apply wp_bind, wp_ret. wp_use (wp_unlink i x); auto.
    intros ? s7 Hd. by eapply deleted_core.
Qed.

(** ** Creating transactions *)
Record fresh (n : Z) (o : originator) (id : Z) (x : xact_t) : Prop := {
  fr_org : org x = o;
  fr_xid : xid x = id;
  fr_node : gnode x = n;
  fr_step : step x = 0;
  fr_seq : seq x = empty_seq;
  fr_assoc : assoc_xact x = None;
}.

(** A remote identifier is used once per peer. *)
Definition unused (n : Z) (o : originator) (id : Z) (s : state) : Prop :=
  o = REMOTE_ORIGINATOR → ∀ j y, heap s !! j = Some y →
    org y = REMOTE_ORIGINATOR → gnode y = n → xid y ≠ id.

Definition created (i : Z) (x : xact_t) (n : Z) (o : originator) (s s' : state) : Prop :=
  heap s !! i = None ∧ heap s' = <[i := x]> (heap s) ∧
  pool_used (pool s') = {[i]} ∪ pool_used (pool s) ∧
  g_xact_id s' = g_xact_id s ∧
  ∃ g, nodes s !! n = Some g ∧
    nodes s' = <[n := with_list o (ogs_list_add (list_of o g) i) g]> (nodes s).

Lemma wp_xact_new n o id s g :
  pool_used (pool s) = dom (heap s) → nodes s !! n = Some g →
  wp (xact_new n o id) s (λ i s', ∃ x, fresh n o id x ∧ created i x n o s s').
Proof.
  intros Hp Hg. unfold wp, xact_new.
  destruct (pool_alloc (pool s)) as [[i p]|] eqn:Ep; [|done].
  destruct (pool_alloc_fresh _ _ _ Ep) as [Hi Hp'].
  match goal with |- match ?m ?s0 with _ => _ end => change (wp m s0 (λ i s', ∃ x, fresh n o id x ∧ created i x n o s s')) end.
  wp_call wp_timer_add. intros tr s1 (E1 & E2 & E3 & E4).
  wp_call wp_timer_add. intros th s2 (F1 & F2 & F3 & F4). simpl in *.
  apply wp_bind, wp_modify, wp_bind, wp_bind.
  eapply wp_deref_node; [simpl; rewrite F3, E3; done|].
  apply wp_modify, wp_ret. eexists. split; cycle 1.
  - split_and!; simpl; [|by rewrite F1, E1|by rewrite F2, E2|by rewrite F4, E4|].
    + rewrite Hp in Hi. by apply not_elem_of_dom.
    + exists g. by rewrite F3, E3.
  - by split.
Qed.

Lemma fresh_wf n o id x :
  fresh n o id x → 0 <= id < 2 ^ 24 →
  (o = LOCAL_ORIGINATOR → 1 <= id <= GTP_MAX_XACT_ID) → xact_wf x.
Proof.
  intros [Eo Ei En Es Eq Ea] Hid Hl. split; rewrite ?Eo, ?Ei, ?Es, ?Eq; auto; [lia|].
  intros k e He. unfold entry_ok. rewrite Es, (proj2 (Z.ltb_ge _ _)) by lia.
  unfold empty_seq in He. by apply lookup_replicate in He as [-> _].
Qed.

Lemma elem_of_list_add l i j : j ∈ ogs_list_add l i ↔ j = i ∨ j ∈ l.
Proof. rewrite (ogs_list_add_perm l i). apply elem_of_cons. Qed.

Lemma lookup_created i x n o s s' m g' o' :
  created i x n o s s' → nodes s' !! m = Some g' →
  ∃ g, nodes s !! m = Some g ∧
    list_of o' g' = if decide (m = n ∧ o' = o) then ogs_list_add (list_of o' g) i
                    else list_of o' g.
Proof.
  intros (_ & _ & _ & _ & g & Hg & ->). rewrite lookup_insert. case_decide as E.
  - intros [= <-]. exists g. subst m. split; [done|]. rewrite list_of_with_list.
    repeat case_decide; simplify_eq; try done; intuition congruence.
  - intros Hm. exists g'. split; [done|]. rewrite decide_False; [done|intuition congruence].
Qed.

Lemma wf_created i x n o id s s' :
  wf s → created i x n o s s' → fresh n o id x → xact_wf x → unused n o id s → wf s'.
Proof.
  intros Hs Hc [Eo Ei En Est Eq Ea] Hx Hu. pose proof Hc as (Hi & Hh & Hp & Hid & g & Hg & Hn).
  destruct Hs as [wp0 wi wx wn wd wl wa wr].
  split; rewrite ?Hh; auto.
  - by rewrite Hp, wp0, dom_insert_L.
  - by rewrite Hid.
  - intros j y. rewrite lookup_insert. case_decide; [by intros [= <-]|eauto].
  - intros j y Hy. assert (∃ g', nodes s !! gnode y = Some g' ∧ (j = i ∧ y = x ∨ j ∈ list_of (org y) g')) as (g' & Hg' & Hj).
    { rewrite lookup_insert in Hy. case_decide; [simplify_eq; eauto|].
      destruct (wn j y Hy) as (g' & ? & ?). eauto. }
    destruct (nodes s' !! gnode y) as [g2|] eqn:E2.
    + exists g2. split; [done|].
      destruct (lookup_created i x n o s s' _ g2 (org y) Hc E2) as (g0 & Hg0 & ->). simplify_eq.
      case_decide as D; [rewrite elem_of_list_add; tauto|].
      destruct Hj as [[-> ->]|Hj]; [by destruct D|done].
    + rewrite Hn, lookup_insert in E2. case_decide; congruence.
  - intros m g' o' Hm. destruct (lookup_created _ _ _ _ _ _ m g' o' Hc Hm) as (g0 & Hg0 & ->).
    case_decide; [|eauto]. rewrite (ogs_list_add_perm _ i). constructor; [|eauto].
    intros Hin. destruct (wl _ _ _ _ Hg0 Hin) as (y & Hy & _). congruence.
  - intros m g' o' j Hm. destruct (lookup_created _ _ _ _ _ _ m g' o' Hc Hm) as (g0 & Hg0 & ->).
    intros Hj. assert (j = i ∧ m = n ∧ o' = o ∨ j ∈ list_of o' g0) as [(-> & -> & ->)|Hj'].
    { case_decide; [rewrite elem_of_list_add in Hj|]; intuition. }
    + exists x. by rewrite lookup_insert_eq.
    + destruct (wl _ _ _ _ Hg0 Hj') as (y & Hy & ? & ?). exists y.
      rewrite lookup_insert_ne by congruence. done.
  - intros j y k Hy Hk. rewrite lookup_insert in Hy. case_decide; [simplify_eq; congruence|].
    destruct (wa j y k Hy Hk) as (z & Hz & ?). exists z.
    rewrite lookup_insert_ne by congruence. done.
  - intros j k y z. rewrite !lookup_insert. intros Hy Hz Oy Oz Eg Ex.
    repeat case_decide; simplify_eq; auto; [| |eauto].
    + exfalso. eapply Hu; eauto; congruence.
    + exfalso. eapply Hu; eauto; congruence.
Qed.

Lemma stepped_next i x s0 s s' :
  settled s0 → (∀ j, j ≠ i → heap s !! j = heap s0 !! j) →
  0 <= step x → stepped i x s s' → good s'.
Proof.
  intros Hs Hj Hx Hst. split; [apply Hst|].
  intros j z Hz. destruct Hst as (_ & _ & Hj' & y & Hy & Ey).
  destruct (decide (j = i)) as [->|Hne]; [simplify_eq; lia|].
  rewrite Hj', Hj in Hz by done. by eapply Hs.
Qed.

Lemma wp_local_create n hdesc b s :
  good s → is_Some (nodes s !! n) → pkt_ok b →
  wp (ogs_gtp_xact_local_create n hdesc b) s (λ i s', good s' ∧ is_Some (heap s' !! i)).
Proof.
  intros [Hs Hset] [g Hg] Hb. unfold ogs_gtp_xact_local_create.
  apply wp_bind, wp_get, wp_bind, wp_modify.
  set (id := ogs_next_id _ _ _).
  assert (GTP_MIN_XACT_ID <= id <= GTP_MAX_XACT_ID) as Hid.
  { apply ogs_next_id_range; [done|apply Hs]. }
  unfold GTP_MIN_XACT_ID in Hid.
  assert (wf (set_id id s)) as Hs1 by (destruct Hs; split; auto; simpl; lia).
  wp_call (wp_xact_new n LOCAL_ORIGINATOR id (set_id id s) g); [apply Hs|done|].
  intros i s2 (x & Hf & Hc).
  assert (wf s2) as Hs2.
  { eapply wf_created; eauto; [|intros [=]]. eapply fresh_wf; [done| |]; [|done].
    unfold GTP_MAX_XACT_ID in Hid. lia. }
  destruct Hc as (_ & Hh & _).
  assert (heap s2 !! i = Some x) as Hi by (rewrite Hh; apply lookup_insert_eq).
  apply wp_bind. wp_use (wp_update_tx i x hdesc b); auto. intros rv s3 Hst. apply wp_ret.
  split.
  - eapply (stepped_next i x (set_id id s) s2); eauto; [|by rewrite (fr_step _ _ _ _ Hf)].
    intros j Hne. rewrite Hh. by apply lookup_insert_ne.
  - destruct Hst as (_ & _ & _ & y & Hy & _). eauto.
Qed.

(** ** Finding and receiving *)
Lemma find_xid_spec l id s :
  (∀ i, i ∈ l → is_Some (heap s !! i)) →
  wp (find_xid l id) s (λ r s', s' = s ∧
    match r with
    | Some i => i ∈ l ∧ ∃ x, heap s !! i = Some x ∧ xid x = id
    | None => ∀ i x, i ∈ l → heap s !! i = Some x → xid x ≠ id
    end).
Proof.
  induction l as [|i l IH]; intros Hl; [by split; [|intros ? ? ?%elem_of_nil]|].
  destruct (Hl i) as [x Hx]; [left|]. simpl. apply wp_bind.
  eapply wp_deref; [done|]. destruct (Z.eqb_spec (xid x) id) as [E|E].
  - apply wp_ret. split; [done|]. split; [left|eauto].
  - wp_use IH; [intros; apply Hl; by right|]. intros r s' [-> Hr]. split; [done|].
    destruct r as [j|]; [split; [right|]; apply Hr|].
    intros j y [->|Hj]%elem_of_cons Hy; [by simplify_eq|eauto].
Qed.

Lemma wp_find_by_xid n type id s :
  wf s → is_Some (nodes s !! n) →
  wp (ogs_gtp_xact_find_by_xid n type id) s (λ r s', s' = s ∧
    ∃ o, find_list type id = Some o ∧
    match r with
    | Some i => ∃ x, heap s !! i = Some x ∧ xid x = id ∧ org x = o ∧ gnode x = n
    | None => ∀ i x, heap s !! i = Some x → org x = o → gnode x = n → xid x ≠ id
    end).
Proof.
  intros Hs [g Hg]. unfold ogs_gtp_xact_find_by_xid. apply wp_bind.
  eapply wp_deref_node; [done|]. destruct (find_list type id) as [o|]; [|exact I].
  wp_use find_xid_spec.
  - intros i Hi. destruct (wf_list s Hs n g o i Hg Hi) as (x & Hx & _). eauto.
  - intros r s' [-> Hr]. split; [done|]. exists o. split; [done|]. destruct r as [i|].
    + destruct Hr as (Hi & x & Hx & E). exists x.
      destruct (wf_list s Hs n g o i Hg Hi) as (y & Hy & ? & ?). by simplify_eq.
    + intros i x Hx Eo En. apply (Hr i x); [|done].
      destruct (wf_node s Hs i x Hx) as (g' & Hg' & Hi). by simplify_eq.
Qed.

Lemma update_rx_fresh (sendto_ok : Z → pkbuf → bool) i x n id type s :
  heap s !! i = Some x → fresh n REMOTE_ORIGINATOR id x →
  ogs_gtp_xact_get_stage type id ≠ INITIAL_STAGE →
  ogs_gtp_xact_update_rx sendto_ok i type s = Aborted.
Proof.
  intros Hi Hf Hst. destruct Hf as [Eo Ei _ Es _ _].
  unfold ogs_gtp_xact_update_rx, mbind, M_bind, deref. rewrite Hi, Eo, Ei, Es.
  by destruct (ogs_gtp_xact_get_stage type id).
Qed.

Lemma sqn_to_xid_range q : 0 <= OGS_GTP_SQN_TO_XID q < 2 ^ 24.
Proof.
  unfold OGS_GTP_SQN_TO_XID. pose proof (hton_range 4 q) as Hb.
  change (256 ^ Z.of_nat 4) with (2 ^ 32) in Hb. fold ntohl in Hb.
  rewrite Z.shiftr_div_pow2 by lia. unfold ntohl in *. lia.
Qed.

Lemma wp_receive (sendto_ok : Z → pkbuf → bool) n h s :
  good s → is_Some (nodes s !! n) →
  wp (ogs_gtp_xact_receive sendto_ok n h) s (λ r s', good s' ∧
    match r with
    | (OGS_OK, Some i) => is_Some (heap s' !! i)
    | (OGS_RETRY, None) => same_core s s'
    | _ => False
    end).
Proof.
  intros [Hs Hset] Hn. unfold ogs_gtp_xact_receive. set (id := OGS_GTP_SQN_TO_XID _).
  wp_call wp_find_by_xid; auto. intros r s0 (-> & o & Ho & Hr).
  destruct r as [i|].
  - destruct Hr as (x & Hi & _). apply wp_bind, wp_ret.
    wp_call (wp_update_rx _ i x); auto. pose proof (Hset i x Hi).
    intros rv s' [(-> & Hc & _)|(-> & Hst)]; apply wp_ret.
    + split; [split; [by eapply wf_same_core|by eapply settled_same_core]|done].
    + split; [eapply (stepped_next i x s s); eauto; lia|].
      destruct Hst as (_ & _ & _ & y & ? & _). eauto.
  - destruct Hn as [g Hg]. unfold ogs_gtp_xact_remote_create.
    wp_call (wp_xact_new n REMOTE_ORIGINATOR id s g); [apply Hs|done|].
    intros i s1 (x & Hf & Hc). pose proof Hc as (_ & Hh & _).
    assert (heap s1 !! i = Some x) as Hi by (rewrite Hh; apply lookup_insert_eq).
    destruct (decide (ogs_gtp_xact_get_stage (h_type h) id = INITIAL_STAGE)) as [E|E].
    + assert (wf s1) as Hs1.
      { eapply wf_created; eauto.
        - eapply fresh_wf; [done|apply sqn_to_xid_range|done].
        - intros _ j y Hj Oy Ny. apply (Hr j y Hj); [|done]. unfold find_list in Ho.
          rewrite E in Ho. congruence. }
      wp_call (wp_update_rx _ i x); auto.
      intros rv s' [(_ & _ & Hx)|(-> & Hst)]; [rewrite (fr_step _ _ _ _ Hf) in Hx; lia|].
      apply wp_ret. split; [|destruct Hst as (_ & _ & _ & y & ? & _); eauto].
      eapply (stepped_next i x s s1); eauto; [|by rewrite (fr_step _ _ _ _ Hf)].
      intros j Hne. rewrite Hh. by apply lookup_insert_ne.
    + apply wp_bind. unfold wp. by rewrite (update_rx_fresh _ i x n id).
Qed.

(** ** Sending, expiry *)
Lemma good_deleted i s s' : settled s → deleted i s s' → good s'.
Proof. intros Hs (? & K & _). split; [done|by eapply kept_settled]. Qed.
Lemma good_same_core s s' : same_core s s' → good s → good s'.
Proof. intros Hc []. split; [by eapply wf_same_core|by eapply settled_same_core]. Qed.

Lemma wp_commit (sendto_ok : Z → pkbuf → bool) i s :
  good s → is_Some (heap s !! i) →
  wp (ogs_gtp_xact_commit sendto_ok i) s (λ _ s', good s').
Proof.
  intros Hgood [x Hi]. pose proof Hgood as [Hs Hset].
  pose proof (wf_xact s Hs i x Hi) as Hx. pose proof (Hset i x Hi) as H1s.
  pose proof (xw_step x Hx) as Hstep.
  destruct (wf_node s Hs i x Hi) as (g & Hg & _).
  destruct (seq_lookup x (step x - 1) Hx) as [e He]; [lia|].
  unfold ogs_gtp_xact_commit. apply wp_bind. eapply wp_deref; [done|].
  apply wp_bind. eapply wp_deref_node; [done|].
  apply wp_bind. eapply wp_seq_at; [lia|done|].
  assert (∀ s1, same_core s s1 →
    wp (match seq_pkbuf e with
        | Some b => ok ← ogs_gtp_sendto sendto_ok (gnode x) b; massert ok;; mret OGS_OK
        | None => mabort
        end) s1 (λ _ s', good s')) as Hsend.
  { intros s1 Hc1. destruct (seq_pkbuf e) as [b|]; [|exact I].
    wp_call wp_sendto. intros ok s2 Hc2. apply wp_bind, wp_massert. intros _. apply wp_ret.
    exact (good_same_core s s2 (same_core_trans _ _ _ Hc1 Hc2) Hgood). }
  assert (wp (ogs_gtp_xact_delete i) s (λ _ s', good s')) as Hdel.
  { wp_use (wp_delete i s); eauto. intros _ s'. by apply good_deleted. }
  cbv zeta. destruct (org x), (ogs_gtp_xact_get_stage (seq_type e) (xid x)); try exact I;
    apply wp_bind, wp_massert; intros _;
    first [wp_call wp_timer_start; intros ? s1 Hc1; by apply Hsend
          |destruct (step x =? _); [done|apply Hsend, same_core_refl]].
Qed.

Lemma wf_rcount i x y s :
  wf s → heap s !! i = Some x → same_key x y → step y = step x → seq y = seq x →
  wf (set_heap <[i := y]> s).
Proof.
  intros Hs Hi (Eo & Ex & En & Ea) Est Eq. eapply wf_update; eauto; [by repeat split|].
  destruct (wf_xact s Hs i x Hi) as [h1 h2 h3 h4 h5].
  unfold entry_ok in *.
  split; unfold entry_ok; rewrite ?Est, ?Eq, ?Eo, ?Ex; auto.
Qed.

Lemma good_rcount i x y s :
  good s → heap s !! i = Some x → same_key x y → step y = step x → seq y = seq x →
  good (set_heap <[i := y]> s).
Proof.
  intros [Hs Hset] Hi Hk Est Eq. split; [by eapply wf_rcount|].
  intros j z. simpl. rewrite lookup_insert. case_decide; [|apply Hset].
  intros [= <-]. rewrite Est. by eapply Hset.
Qed.

Lemma wp_delete_good i s :
  good s → is_Some (heap s !! i) → wp (ogs_gtp_xact_delete i;; mret ()) s (λ _ s', good s').
Proof.
  intros [Hs Hset] Hi. wp_call (wp_delete i s); auto. intros _ s' Hd.
  apply wp_ret. by eapply good_deleted.
Qed.

Lemma wp_response_timeout (sendto_ok : Z → pkbuf → bool) i s :
  good s → is_Some (heap s !! i) → wp (response_timeout sendto_ok i) s (λ _ s', good s').
Proof.
  intros Hgood [x Hi]. pose proof Hgood as [Hs Hset].
  pose proof (wf_xact s Hs i x Hi) as Hx. pose proof (Hset i x Hi) as Hge.
  pose proof (xw_step x Hx) as Hstep.
  destruct (wf_node s Hs i x Hi) as (g & Hg & _).
  destruct (seq_lookup x (step x - 1) Hx) as [e He]; [lia|].
  unfold response_timeout. apply wp_bind. eapply wp_deref; [done|].
  apply wp_bind. eapply wp_deref_node; [done|].
  apply wp_bind. eapply wp_seq_at; [lia|done|]. apply wp_bind, wp_modify.
  set (y := with_response_rcount _ x).
  assert (good (set_heap <[i := y]> s)) as Hg2
    by (eapply good_rcount; eauto; by repeat split).
  assert (is_Some (heap (set_heap <[i := y]> s) !! i)) as Hi2
    by (simpl; rewrite lookup_insert_eq; eauto).
  case_match; [|by apply wp_delete_good].
  wp_call wp_timer_start. intros ? s1 Hc1. destruct (seq_pkbuf e) as [b|]; [|exact I].
  wp_call wp_sendto. intros ok s2 Hc2.
  pose proof (same_core_trans _ _ _ Hc1 Hc2) as Hc.
  pose proof (good_same_core _ _ Hc Hg2) as Hgs2.
  destruct ok; [by apply wp_ret|]. apply wp_delete_good; [done|].
  destruct Hc as [-> _]. done.
Qed.

Lemma wp_holding_timeout i s :
  good s → is_Some (heap s !! i) → wp (holding_timeout i) s (λ _ s', good s').
Proof.
  intros Hgood [x Hi]. pose proof Hgood as [Hs Hset].
  pose proof (wf_xact s Hs i x Hi) as Hx. pose proof (Hset i x Hi) as Hge.
  pose proof (xw_step x Hx) as Hstep.
  destruct (wf_node s Hs i x Hi) as (g & Hg & _).
  destruct (seq_lookup x (step x - 1) Hx) as [e He]; [lia|].
  unfold holding_timeout. apply wp_bind. eapply wp_deref; [done|].
  apply wp_bind. eapply wp_deref_node; [done|].
  apply wp_bind. eapply wp_seq_at; [lia|done|]. apply wp_bind, wp_modify.
  set (y := with_holding_rcount _ x).
  assert (good (set_heap <[i := y]> s)) as Hg2
    by (eapply good_rcount; eauto; by repeat split).
  case_match.
  - wp_use wp_timer_start. intros ? s1 Hc1. by eapply good_same_core.
  - apply wp_delete_good; [done|]. simpl. rewrite lookup_insert_eq. eauto.
Qed.

(** ** Deleting all transactions of a peer *)
Lemma wp_delete_each l s :
  good s → NoDup l → (∀ i, i ∈ l → is_Some (heap s !! i)) →
  wp (delete_each l) s (λ _ s', good s' ∧ kept s s' ∧
    dom (nodes s') = dom (nodes s) ∧ dom (heap s') = dom (heap s) ∖ list_to_set l).
Proof.
  revert s. induction l as [|i l IH]; intros s Hs Hnd Hl; simpl.
  - apply wp_ret. split_and!; auto using kept_refl. simpl. by rewrite difference_empty_L.
  - apply list.NoDup_cons in Hnd as [Hni Hnd]. pose proof Hs as [Hw Hset].
    wp_call (wp_delete i s); [done|apply Hl; left|]. intros _ s1 Hd.
    pose proof (good_deleted _ _ _ Hset Hd) as Hg1. destruct Hd as (_ & K1 & D1 & N1).
    wp_use (IH s1); auto.
    + intros j Hj. apply elem_of_dom. rewrite D1. apply elem_of_difference.
      split; [apply elem_of_dom, Hl; by right|]. intros ->%elem_of_singleton. done.
    + intros _ s2 (Hg2 & K2 & N2 & D2). split_and!; auto.
      * by eapply kept_trans.
      * congruence.
      * rewrite D2, D1. simpl. by rewrite difference_difference_l_L.
Qed.

Lemma wp_delete_all n s :
  good s → is_Some (nodes s !! n) →
  wp (ogs_gtp_xact_delete_all n) s (λ _ s', good s' ∧ kept s s' ∧
    ∀ i, i ∈ dom (heap s') ↔ ∃ x, heap s !! i = Some x ∧ gnode x ≠ n).
Proof.
  intros Hs [g Hg]. pose proof Hs as [Hw Hset]. unfold ogs_gtp_xact_delete_all.
  apply wp_bind. eapply wp_deref_node; [done|].
  wp_call (wp_delete_each (local_list g) s); auto.
  { exact (wf_nodup s Hw n g LOCAL_ORIGINATOR Hg). }
  { intros i Hi. destruct (wf_list s Hw n g LOCAL_ORIGINATOR i Hg Hi) as (x & ? & _). eauto. }
  intros _ s1 ([Hw1 Hset1] & K1 & N1 & D1).
  destruct (nodes s1 !! n) as [g1|] eqn:Hg1; cycle 1.
  { apply not_elem_of_dom in Hg1. rewrite N1 in Hg1. by apply not_elem_of_dom in Hg1; simplify_eq. }
  apply wp_bind. eapply wp_deref_node; [done|].
  wp_use (wp_delete_each (remote_list g1) s1); [by split| | |].
  { exact (wf_nodup s1 Hw1 n g1 REMOTE_ORIGINATOR Hg1). }
  { intros i Hi. destruct (wf_list s1 Hw1 n g1 REMOTE_ORIGINATOR i Hg1 Hi) as (x & ? & _). eauto. }
  intros _ s2 (Hgd2 & K2 & N2 & D2). split_and!; auto; [by eapply kept_trans|].
  intros i. rewrite D2, D1, !elem_of_difference, !elem_of_list_to_set, elem_of_dom. split.
  - intros [[[x Hx] Hnl] Hnr]. exists x. split; [done|]. intros En.
    destruct (wf_node s Hw i x Hx) as (g' & Hg' & Hin). rewrite En in Hg'. simplify_eq.
    destruct (org x) eqn:Eo; [done|]. apply Hnr.
    assert (i ∈ dom (heap s1)) as [y Hy]%elem_of_dom.
    { rewrite D1. apply elem_of_difference. rewrite elem_of_list_to_set. split; [|done].
      by eapply elem_of_dom_2. }
    destruct (K1 i y Hy) as (x' & Hx' & E). injection E as E1 _ E2 _ _ _ _ _ _.
    rewrite Hx in Hx'. injection Hx' as <-.
    destruct (wf_node s1 Hw1 i y Hy) as (g' & Hg' & Hin'). rewrite <- E2 in Hg'.
    rewrite <- E1, Eo in Hin'. by simplify_eq.
  - intros (x & Hx & Hne). split_and!; [eauto| |].
    + intros Hi. destruct (wf_list s Hw n g LOCAL_ORIGINATOR i Hg Hi) as (y & ? & _ & ?).
      by simplify_eq.
    + intros Hi. destruct (wf_list s1 Hw1 n g1 REMOTE_ORIGINATOR i Hg1 Hi) as (y & Hy & _ & Ey).
      destruct (K1 i y Hy) as (x' & Hx' & E). injection E as _ _ E2 _ _ _ _ _ _.
      by simplify_eq.
Qed.
End proofs.
