(* ===== verification/GtpXactSpec.v ===== *)
(** * What the GTP transaction layer promises

    Reachable states and their invariant, absence of undefined accesses,
    duplicate detection, the bound on retransmissions, matching of responses
    with requests, and the aborts that a peer can cause. *)
From S2P Require Import Prelude.
From S2P Require Import CMem.
From S2P Require Import OgsLib.
From S2P Require Import OgsRef.
From S2P Require Import GtpXact.
From S2P Require Import GtpXactProofs.
#[local] Open Scope Z_scope.

Section updates.
Context `{Host, OgsBits, OgsPoolLaws, OgsListLaws, OgsNextIdLaws, OgsPkbufLaws}.
(** ** Deletion never stops on an assertion *)
Lemma no_abort_deref i s : no_abort (deref i) s.
Proof. unfold no_abort, deref. by destruct (heap s !! i). Qed.
Lemma no_abort_seq_at x k s : no_abort (seq_at x k) s.
Proof. unfold no_abort, seq_at. by destruct (if 0 <=? k then _ else _). Qed.
Lemma no_abort_pkbuf_free b s : no_abort (pkbuf_free b) s.
Proof. destruct b; discriminate. Qed.
Lemma no_abort_timer_delete tm s : no_abort (timer_delete tm) s.
Proof. destruct tm; discriminate. Qed.
Lemma no_abort_timer_start tm d s : no_abort (timer_start tm d) s.
Proof. destruct tm; discriminate. Qed.
Lemma no_abort_update_list n o f s : no_abort (update_list n o f) s.
Proof. unfold no_abort, update_list, mbind, M_bind, deref_node. by destruct (nodes s !! n). Qed.

Lemma no_abort_deassociate i j x s :
  wf s → heap s !! i = Some x → assoc_xact x = Some j →
  no_abort (ogs_gtp_xact_deassociate i j) s.
Proof.
  intros Hs Hi Ax. destruct (wf_assoc s Hs i x j Hi Ax) as (y & Hj & Ay).
  unfold no_abort, ogs_gtp_xact_deassociate, mbind, M_bind, deref at 1 2.
  rewrite Hi, Hj, Ax, Ay. simpl. unfold deref; simpl. by destruct (<[i:=_]> (heap s) !! j).
Qed.

Lemma no_abort_delete i s :
  wf s → is_Some (heap s !! i) → no_abort (ogs_gtp_xact_delete i) s.
Proof.
  intros Hs [x Hi]. pose proof (wf_xact s Hs i x Hi) as Hx.
  destruct (wf_node s Hs i x Hi) as (g & Hg & _).
  destruct (seq_lookup x 0 Hx) as [e0 He0], (seq_lookup x 1 Hx) as [e1 He1],
    (seq_lookup x 2 Hx) as [e2 He2]; try lia.
  assert (∀ k e s', 0 <= k → seq x !! Z.to_nat k = Some e →
    wp (seq_at x k) s' (λ r s1, r = e ∧ s1 = s')) as Hseq.
  { intros. by eapply wp_seq_at. }
  unfold ogs_gtp_xact_delete.
  eapply no_abort_bind; [apply no_abort_deref|eapply (wp_deref i s x (λ a s', a = x ∧ s' = s)); eauto|].
  intros ? ? [-> ->].
  eapply no_abort_bind; [unfold no_abort, deref_node; by rewrite Hg
    |eapply (wp_deref_node _ s g (λ a s', s' = s)); eauto|].
  intros ? ? ->.
  assert (∀ k e m s1, 0 <= k → seq x !! Z.to_nat k = Some e →
    (∀ s2, same_core s1 s2 → no_abort m s2) →
    no_abort (e ← seq_at x k; pkbuf_free (seq_pkbuf e);; m : M state rv_t) s1) as Hfree.
  { intros k e m s1 Hk He Hm.
    eapply no_abort_bind; [apply no_abort_seq_at|by eapply Hseq|]. intros ? ? [-> ->].
    eapply no_abort_bind; [apply no_abort_pkbuf_free|apply wp_pkbuf_free|].
    intros ? s2 Hc. by apply Hm. }
  apply (Hfree 0 e0); [lia|done|]. intros s1 Hc1.
  apply (Hfree 1 e1); [lia|done|]. intros s2 Hc2.
  apply (Hfree 2 e2); [lia|done|]. intros s3 Hc3.
  eapply no_abort_bind; [apply no_abort_timer_delete|apply wp_timer_delete|]. intros ? s4 Hc4.
  eapply no_abort_bind; [apply no_abort_timer_delete|apply wp_timer_delete|]. intros ? s5 Hc5.
  cbv beta in Hc4, Hc5. assert (same_core s s5) as Hc by eauto 10 using same_core_trans.
  pose proof (wf_same_core _ _ Hc Hs) as Hs5.
  assert (heap s5 !! i = Some x) as Hi5 by (destruct Hc as [-> _]; done).
  eapply (no_abort_bind _ _ _ (λ _ _, True)).
  - destruct (assoc_xact x) as [j|] eqn:Ea; [by eapply no_abort_deassociate|done].
  - destruct (assoc_xact x) as [j|] eqn:Ea; [|done].
    wp_use (wp_deassociate i j x); auto.
  - intros _ s6 _. unfold mbind, no_abort, M_bind.
    pose proof (no_abort_update_list (gnode x) (org x) (λ l, ogs_list_remove l i) s6) as Hu.
    unfold no_abort in Hu. by destruct (update_list _ _ _ s6) as [[]| |].
Qed.

(** Deletion as a total operation. *)
Lemma delete_returns i s :
  wf s → is_Some (heap s !! i) →
  ∃ s', ogs_gtp_xact_delete i s = Ok (OGS_OK, s') ∧ deleted i s s'.
Proof.
  intros Hs Hi. destruct (wp_total _ _ _ (wp_delete i s Hs Hi) (no_abort_delete i s Hs Hi))
    as ([] & s' & E & Hd); [eauto|].
  exfalso. clear -E. unfold ogs_gtp_xact_delete, mbind, M_bind in E.
  repeat (case_match; try discriminate E). 
Qed.

(** ** The header on the wire *)
Lemma sqn_xid_roundtrip id : 0 <= id < 2 ^ 24 → OGS_GTP_SQN_TO_XID (OGS_GTP_XID_TO_SQN id) = id.
Proof.
  intros Hid. unfold OGS_GTP_SQN_TO_XID, OGS_GTP_XID_TO_SQN, htonl, ntohl.
  rewrite Z.shiftl_mul_pow2 by lia. rewrite wrap_small by lia.
  rewrite hton_involutive by (change (256 ^ Z.of_nat 4) with (2 ^ 32); lia).
  rewrite Z.shiftr_div_pow2 by lia. lia.
Qed.

Lemma header_bytes_wire type len teid id :
  0 <= id < 2 ^ 24 → 4 <= len < 65540 →
  header_bytes type len teid id =
    [ed_pack [(3%nat, 2); (1%nat, 0); (1%nat, 1); (3%nat, 0)]; type]
    ++ be_bytes 2 (len - 4) ++ be_bytes 4 teid ++ be_bytes 3 id ++ [0].
Proof.
  intros Hid Hlen. unfold header_bytes, OGS_GTP_XID_TO_SQN, htons, htonl.
  rewrite !host_bytes_hton. rewrite Z.shiftl_mul_pow2 by lia.
  rewrite !wrap_small by lia. change (2 ^ 8) with 256. by rewrite be_bytes_shift.
Qed.

Lemma update_tx_stored i x hdesc b s s' :
  wf s → heap s !! i = Some x → (12 <= length (pk_head b))%nat →
  4 <= Z.of_nat (length (pk_data b)) + 12 < 65540 →
  ogs_gtp_xact_update_tx i hdesc b s = Ok (OGS_OK, s') →
  ∃ y e b', heap s' !! i = Some y ∧ step y = step x + 1 ∧
    seq y !! Z.to_nat (step x) = Some e ∧ seq_type e = h_type hdesc ∧ seq_pkbuf e = Some b' ∧
    pk_data b' = header_bytes (h_type hdesc) (Z.of_nat (length (pk_data b)) + 12)
                   (h_teid hdesc) (xid x) ++ pk_data b.
Proof.
  intros Hs Hi Hb Hlen Hrun. pose proof (xw_len x (wf_xact s Hs i x Hi)) as Hl3.
  unfold ogs_gtp_xact_update_tx in Hrun.
  apply M_bind_ok in Hrun as (x' & s1 & E1 & Hrun).
  unfold deref in E1. rewrite Hi in E1. injection E1 as <- <-.
  apply M_bind_ok in Hrun as (g & s1 & E1 & Hrun).
  unfold deref_node in E1. destruct (nodes s !! gnode x); [|done]. injection E1 as <- <-.
  apply M_bind_ok in Hrun as ([] & s1 & E1 & Hrun). cbv zeta in Hrun.
  assert (s1 = s) as ->.
  { clear -E1. unfold massert, lift, ogs_assert in E1.
    repeat (case_match; try discriminate E1); by injection E1. }
  clear E1. apply M_bind_ok in Hrun as (b' & s1 & E1 & Hrun).
  destruct (pkbuf_push_some b 12 Hb) as [b1 Eb]. unfold OGS_GTPV2C_HEADER_LEN in E1.
  rewrite Eb in E1. simpl in E1.
  destruct (pkbuf_push_spec _ _ _ Eb) as (_ & _ & Hd).
  assert (length (pk_data b1) = (length (pk_data b) + 12)%nat) as Hl.
  { rewrite Hd, length_app, length_drop. lia. }
  unfold write_header in E1. rewrite length_header_bytes in E1.
  rewrite (proj2 (Nat.leb_le _ _)) in E1 by lia. injection E1 as <- <-.
  apply M_bind_ok in Hrun as ([] & s1 & E1 & [= <-]).
  unfold record_step in E1. apply M_bind_ok in E1 as (x' & s2 & E2 & E1).
  unfold deref in E2. rewrite Hi in E2. injection E2 as <- <-.
  apply M_bind_ok in E1 as (old & s2 & E2 & E1).
  unfold seq_at, lift in E2. destruct (Z.leb_spec 0 (step x)); [|done].
  destruct (seq x !! Z.to_nat (step x)) as [o|] eqn:Eo; [|done]. injection E2 as <- <-.
  injection E1 as <-. do 3 eexists. simpl. rewrite lookup_insert_eq.
  split; [done|]. split; [done|]. simpl.
  rewrite list_lookup_insert_eq by (by eapply lookup_lt_Some).
  split; [done|]. split; [done|]. split; [done|]. simpl. rewrite Hl, Hd.
  replace (Z.of_nat (length (pk_data b) + 12)) with (Z.of_nat (length (pk_data b)) + 12) by lia.
  f_equal. rewrite drop_app_le, drop_ge; [done| |]; rewrite length_drop; lia.
Qed.

(** The message sent.  Whenever [update_tx] accepts a message, the packet
    it stores for (re)transmission is the caller's payload behind the
    GTPv2-C header: flags, type, the length from the fourth octet on, the
    TEID and the 24-bit identifier, all in network order on any host; the
    peer reads the identifier back from it. *)
Theorem update_tx_wire i x hdesc b s s' :
  wf s → heap s !! i = Some x → (12 <= length (pk_head b))%nat →
  Z.of_nat (length (pk_data b)) < 65528 →
  ogs_gtp_xact_update_tx i hdesc b s = Ok (OGS_OK, s') →
  ∃ y e b', heap s' !! i = Some y ∧ step y = step x + 1 ∧
    seq y !! Z.to_nat (step x) = Some e ∧ seq_type e = h_type hdesc ∧ seq_pkbuf e = Some b' ∧
    pk_data b' =
      [ed_pack [(3%nat, 2); (1%nat, 0); (1%nat, 1); (3%nat, 0)]; h_type hdesc]
      ++ be_bytes 2 (Z.of_nat (length (pk_data b)) + 8) ++ be_bytes 4 (h_teid hdesc)
      ++ be_bytes 3 (xid x) ++ [0] ++ pk_data b ∧
    OGS_GTP_SQN_TO_XID (OGS_GTP_XID_TO_SQN (xid x)) = xid x.
Proof.
  intros Hs Hi Hb Hlen Hrun. pose proof (xw_xid x (wf_xact s Hs i x Hi)) as Hx.
  destruct (update_tx_stored i x hdesc b s s') as (y & e & b' & Hy & Es & He & Et & Ep & Hd);
    auto; [lia|].
  exists y, e, b'. split_and!; auto using sqn_xid_roundtrip.
  rewrite Hd, header_bytes_wire by lia.
  replace (Z.of_nat (length (pk_data b)) + 12 - 4) with (Z.of_nat (length (pk_data b)) + 8) by lia.
  by rewrite <- !app_assoc.
Qed.

Lemma no_abort_delete_each l s :
  good s → NoDup l → (∀ i, i ∈ l → is_Some (heap s !! i)) → no_abort (delete_each l) s.
Proof.
  revert s. induction l as [|i l IH]; intros s Hs Hnd Hl; simpl; [done|].
  apply list.NoDup_cons in Hnd as [Hni Hnd]. pose proof Hs as [Hw Hset].
  eapply no_abort_bind; [apply no_abort_delete; [done|apply Hl; left]
    |apply wp_delete; [done|apply Hl; left]|].
  intros rv s1 Hd. pose proof (good_deleted _ _ _ Hset Hd) as Hg1.
  destruct Hd as (_ & _ & D1 & _). apply IH; auto.
  intros j Hj. apply elem_of_dom. rewrite D1. apply elem_of_difference.
  split; [apply elem_of_dom, Hl; by right|]. intros ->%elem_of_singleton. done.
Qed.

(** Removing a peer.  [ogs_gtp_xact_delete_all] always completes, leaves
    exactly the transactions of the other peers, and keeps the invariant
    (associations of the removed transactions with others are undone). *)
Theorem delete_all_complete n s :
  good s → is_Some (nodes s !! n) →
  ∃ s', ogs_gtp_xact_delete_all n s = Ok ((), s') ∧ good s' ∧
    ∀ i, i ∈ dom (heap s') ↔ ∃ x, heap s !! i = Some x ∧ gnode x ≠ n.
Proof.
  intros Hs Hn. pose proof (wp_delete_all n s Hs Hn) as Hw.
  assert (no_abort (ogs_gtp_xact_delete_all n) s) as Hna.
  { pose proof Hs as [Hwf Hset]. destruct Hn as [g Hg]. unfold ogs_gtp_xact_delete_all.
    assert (∀ s1 o, good s1 → dom (nodes s1) = dom (nodes s) →
      ∃ g1, nodes s1 !! n = Some g1 ∧ NoDup (list_of o g1) ∧
        ∀ i, i ∈ list_of o g1 → is_Some (heap s1 !! i)) as Hl.
    { intros s1 o [Hw1 _] N1. destruct (nodes s1 !! n) as [g1|] eqn:Eg.
      - exists g1. split; [done|]. split; [by eapply wf_nodup|]. intros i Hi.
        destruct (wf_list s1 Hw1 n g1 o i Eg Hi) as (x & ? & _). eauto.
      - apply not_elem_of_dom in Eg. rewrite N1 in Eg. apply not_elem_of_dom in Eg. congruence. }
    destruct (Hl s LOCAL_ORIGINATOR Hs eq_refl) as (g1 & Hg1 & Hnd & Hin).
    eapply (no_abort_bind _ _ _ (λ a s1, s1 = s ∧ a = g1));
      [unfold no_abort, deref_node; by rewrite Hg1|by eapply wp_deref_node|].
    intros ? ? [-> ->].
    eapply no_abort_bind; [by apply no_abort_delete_each|by apply (wp_delete_each (local_list g1))|].
    intros ? s1 (G1 & _ & N1 & _).
    destruct (Hl s1 REMOTE_ORIGINATOR G1 N1) as (g2 & Hg2 & Hnd2 & Hin2).
    eapply (no_abort_bind _ _ _ (λ a s2, s2 = s1 ∧ a = g2));
      [unfold no_abort, deref_node; by rewrite Hg2|by eapply wp_deref_node|].
    intros ? ? [-> ->]. by apply no_abort_delete_each. }
  destruct (wp_total _ _ _ Hw Hna) as ([] & s' & E & Hg & _ & Hd). eauto.
Qed.
End updates.

Section spec.
Context `{Host, OgsBits, OgsPoolLaws, OgsListLaws, OgsNextIdLaws, OgsPkbufLaws}.
Context (sendto_ok : Z → pkbuf → bool).

(** ** Events: the calls made by the rest of the program and by the timers *)
Inductive event :=
| ENodeAdd (n : Z)
| ELocalCreate (n : Z) (h : header_t) (b : pkbuf)
| EReceive (n : Z) (h : header_t)
| EUpdateTx (i : Z) (h : header_t) (b : pkbuf)
| ECommit (i : Z)
| EAssociate (i j : Z)
| EResponseTimeout (i : Z)
| EHoldingTimeout (i : Z)
| EDeleteAll (n : Z).

Definition run (e : event) : M state () :=
  match e with
  | ENodeAdd n => modify (set_nodes <[n := {| local_list := []; remote_list := [] |}]>)
  | ELocalCreate n h b => ogs_gtp_xact_local_create n h b;; mret ()
  | EReceive n h => ogs_gtp_xact_receive sendto_ok n h;; mret ()
  | EUpdateTx i h b => ogs_gtp_xact_update_tx i h b;; mret ()
  | ECommit i => ogs_gtp_xact_commit sendto_ok i;; mret ()
  | EAssociate i j => ogs_gtp_xact_associate i j
  | EResponseTimeout i => response_timeout sendto_ok i
  | EHoldingTimeout i => holding_timeout i
  | EDeleteAll n => ogs_gtp_xact_delete_all n
  end.

(** A caller passes existing peers and transactions, and packets with
    headroom; a timer belongs to a transaction that still exists. *)
Definition enabled (s : state) (e : event) : Prop :=
  match e with
  | ENodeAdd n => nodes s !! n = None
  | ELocalCreate n _ b => is_Some (nodes s !! n) ∧ pkt_ok b
  | EReceive n _ | EDeleteAll n => is_Some (nodes s !! n)
  | EUpdateTx i _ b => is_Some (heap s !! i) ∧ pkt_ok b
  | ECommit i | EResponseTimeout i | EHoldingTimeout i => is_Some (heap s !! i)
  | EAssociate i j => is_Some (heap s !! i) ∧ is_Some (heap s !! j)
  end.

Definition initial (s : state) : Prop :=
  heap s = ∅ ∧ pool_used (pool s) = ∅ ∧ g_xact_id s = 0 ∧ nodes s = ∅.

Inductive reachable : state → Prop :=
| reachable_initial s : initial s → reachable s
| reachable_step s e s' :
    reachable s → enabled s e → run e s = Ok ((), s') → reachable s'.

Lemma good_empty s :
  heap s = ∅ → pool_used (pool s) = ∅ → 0 <= g_xact_id s <= GTP_MAX_XACT_ID → nodes s = ∅ →
  good s.
Proof.
  intros Eh Ep Ei En.
  split; [split|]; rewrite ?Eh, ?Ep, ?En; try done.
  intros i x. rewrite Eh. done.
Qed.
Lemma good_initial s : initial s → good s.
Proof. intros (Eh & Ep & Ei & En). apply good_empty; rewrite ?Ei; done. Qed.

Lemma wp_node_add n s :
  good s → nodes s !! n = None → wp (run (ENodeAdd n)) s (λ _ s', good s').
Proof.
  intros [Hs Hset] Hn. apply wp_modify. split; [|exact Hset].
  destruct Hs as [wp0 wi wx wn wd wl wa wr]. split; simpl; auto.
  - intros i x Hi. destruct (wn i x Hi) as (g & Hg & ?). exists g.
    rewrite lookup_insert_ne by congruence. done.
  - intros m g o. rewrite lookup_insert. case_decide; [|eauto].
    intros [= <-]. destruct o; constructor.
  - intros m g o i. rewrite lookup_insert. case_decide; [|eauto].
    intros [= <-]. destruct o; intros Hin; by apply elem_of_nil in Hin.
Qed.

Lemma wp_run s e : good s → enabled s e → wp (run e) s (λ _ s', good s').
Proof.
  intros Hs He. destruct e; simpl in He.
  - by apply wp_node_add.
  - destruct He. wp_call wp_local_create; auto. by intros ? ? [].
  - wp_call wp_receive; auto. by intros ? ? [].
  - destruct He as [[x Hi] Hb]. wp_call (wp_update_tx i x); auto; [apply Hs|].
    intros _ s' Hst. apply wp_ret. eapply (stepped_next i x s s); eauto; [apply Hs|].
    pose proof (proj2 Hs i x Hi). lia.
  - wp_call wp_commit; auto.
  - destruct He. wp_use wp_associate; auto; [apply Hs|]. intros _ s' (Hw & K & _).
    split; [done|]. eapply kept_settled; [done|apply Hs].
  - by apply wp_response_timeout.
  - by apply wp_holding_timeout.
  - wp_use wp_delete_all; auto. by intros ? ? [].
Qed.

(** ** Running a script of events *)
#[export] Instance enabled_dec s e : Decision (enabled s e).
Proof. destruct e; unfold enabled, pkt_ok; apply _. Defined.

(** An event that is not enabled, or that stops the process, is skipped. *)
Definition step_event (s : state) (e : event) : state :=
  if decide (enabled s e) then
    match run e s with Ok (_, s') => s' | _ => s end
  else s.
Definition script (es : list event) (s : state) : state := fold_left step_event es s.

Lemma good_script es s : good s → good (script es s).
Proof.
  revert s. induction es as [|e es IH]; intros s Hs; [done|]. apply IH.
  unfold step_event. case_decide as He; [|done].
  pose proof (wp_run s e Hs He) as Hw. unfold wp in Hw.
  by destruct (run e s) as [[[] s']| |].
Qed.

Lemma reachable_script es s : reachable s → reachable (script es s).
Proof.
  revert s. induction es as [|e es IH]; intros s Hs; [done|]. apply IH.
  unfold step_event. case_decide as He; [|done].
  destruct (run e s) as [[[] s']| |] eqn:E; [|done|done]. by eapply reachable_step.
Qed.

Lemma reachable_is_good s : reachable s → good s.
Proof.
  induction 1 as [s Hs|s e s' _ IH He Hr]; [by apply good_initial|].
  exact (wp_ok _ _ _ _ _ (wp_run s e IH He) Hr).
Qed.

(** C17: The invariant of the transaction table.  In every state reachable
    by calls of the layer, packets from the peers and timer expiries: the
    allocated objects are those in use; each is on exactly one list, the
    list of its peer and origin; its step counter is within its message
    history, the messages of past steps have the stages of that step, the
    packets are stored exactly for the steps this side sends; associations
    are symmetric; a peer's remote identifiers are used once. *)
Theorem reachable_invariant s : reachable s → wf s ∧ settled s.
Proof. apply reachable_is_good. Qed.

(** C18: No operation on a reachable state reads or writes outside an
    object (a freed transaction, a missing peer, [seq] out of bounds, a
    header outside the packet), whatever the peer sends and whenever timers
    expire. *)
Theorem reachable_safe s e : reachable s → enabled s e → run e s ≠ Undef.
Proof. intros Hs He. exact (wp_not_undef _ _ _ (wp_run s e (reachable_is_good s Hs) He)). Qed.

Lemma seq_at_run x (k : nat) e s :
  seq x !! k = Some e → seq_at x (Z.of_nat k) s = Ok (e, s).
Proof.
  intros He. unfold seq_at, lift. rewrite (proj2 (Z.leb_le _ _)) by lia.
  by rewrite Nat2Z.id, He.
Qed.

(** ** Finding by identifier *)
Lemma find_runs n type id s r :
  wf s → is_Some (nodes s !! n) → is_Some (find_list type id) →
  (∀ q, (∃ o, find_list type id = Some o ∧
    match q with
    | Some i => ∃ x, heap s !! i = Some x ∧ xid x = id ∧ org x = o ∧ gnode x = n
    | None => ∀ i x, heap s !! i = Some x → org x = o → gnode x = n → xid x ≠ id
    end) → q = r) →
  ogs_gtp_xact_find_by_xid n type id s = Ok (r, s).
Proof.
  intros Hs Hn [o Ho] Hr.
  destruct (wp_total _ _ _ (wp_find_by_xid n type id s Hs Hn)) as (q & s' & E & -> & Hq).
  - unfold no_abort, ogs_gtp_xact_find_by_xid, mbind, M_bind, deref_node.
    destruct Hn as [g ->]. rewrite Ho. generalize (list_of o g). intros l.
    induction l as [|i l IH]; [done|]. simpl. unfold mbind, M_bind, deref.
    destruct (heap s !! i); [|done]. by destruct (xid _ =? id).
  - by rewrite E, (Hr q Hq).
Qed.

(** The transaction a message belongs to, when identifiers are unique. *)
Lemma find_unique n type id i x s :
  wf s → heap s !! i = Some x → gnode x = n → xid x = id →
  find_list type id = Some (org x) →
  (∀ j y, heap s !! j = Some y → org y = org x → gnode y = n → xid y = id → j = i) →
  ogs_gtp_xact_find_by_xid n type id s = Ok (Some i, s).
Proof.
  intros Hs Hi En Ex Ho Hu. destruct (wf_node s Hs i x Hi) as (g & Hg & _).
  apply find_runs; [done|rewrite <- En; eauto|eauto|].
  intros [j|] (o & Ho' & Hq); rewrite Ho in Ho'; injection Ho' as <-.
  - destruct Hq as (y & Hy & Exy & Eo & En'). f_equal. by eapply Hu.
  - by destruct (Hq i x Hi eq_refl En).
Qed.

(** Duplicate detection.  A request of a peer that matches a remote
    transaction by identifier and type is answered with [OGS_RETRY] and
    changes no transaction; if the answer was already built it is sent
    again, unchanged, and the holding timer restarted. *)
Theorem receive_duplicate s n h i x e a :
  wf s → heap s !! i = Some x → org x = REMOTE_ORIGINATOR → gnode x = n →
  xid x = OGS_GTP_SQN_TO_XID (h_sqn h) →
  ogs_gtp_xact_get_stage (h_type h) (xid x) = INITIAL_STAGE →
  step x = 1 ∨ step x = 2 →
  seq x !! 0%nat = Some e → seq_type e = h_type h →
  seq x !! 1%nat = Some a →
  (∀ b, seq_pkbuf a = Some b → sendto_ok n b = true) →
  ogs_gtp_xact_receive sendto_ok n h s =
    Ok ((OGS_RETRY, None),
        add_trace (match seq_pkbuf a with
                   | Some b => match tm_holding x with
                               | Some t => [TimerStart t GTP_T3_DUPLICATED_DURATION]
                               | None => []
                               end ++ [SendTo n b]
                   | None => []
                   end) s).
Proof.
  intros Hs Hi Eo En Ex Est Hstep He Ety Ha Hok.
  assert (ogs_gtp_xact_find_by_xid n (h_type h) (xid x) s = Ok (Some i, s)) as Ef.
  { eapply find_unique; eauto.
    - unfold find_list. by rewrite Est, Eo.
    - intros j y Hj Ey Ny Xy. symmetry. eapply (wf_remote s Hs i j x y); eauto; congruence. }
  unfold ogs_gtp_xact_receive, mbind, M_bind. rewrite <- Ex, Ef. simpl.
  unfold ogs_gtp_xact_update_rx, mbind, M_bind, deref. rewrite Hi, Eo, Est.
  rewrite (seq_at_run x 0 e s He : seq_at x 0 s = _), Ety, Z.eqb_refl. simpl.
  assert ((step x =? 1) || (step x =? 2) = true) as ->
    by (destruct Hstep as [-> | ->]; done). simpl.
  unfold duplicate, mbind, M_bind. rewrite (seq_at_run x 1 a s Ha : seq_at x 1 s = _). simpl.
  destruct (seq_pkbuf a) as [b|] eqn:Eb; simpl.
  - destruct (tm_holding x) as [t|]; simpl; rewrite En, (Hok b eq_refl); simpl;
      unfold add_trace; simpl; by rewrite <- ?app_assoc.
  - unfold add_trace. rewrite app_nil_r. by destruct s.
Qed.

(** A response finds its request.  The reply that carries the sequence
    number of a waiting local transaction (one step done, no other local
    transaction of the peer with that identifier, identifier below
    [0x800000]) is accepted for that transaction: its step advances and its
    response timer is stopped. *)
Theorem receive_response s n h i x old :
  wf s → heap s !! i = Some x → org x = LOCAL_ORIGINATOR → gnode x = n →
  step x = 1 → xid x < GTP_MAX_XACT_ID →
  OGS_GTP_SQN_TO_XID (h_sqn h) = xid x →
  ogs_gtp_xact_get_stage (h_type h) (xid x) = FINAL_STAGE →
  (∀ j y, heap s !! j = Some y → org y = LOCAL_ORIGINATOR → gnode y = n →
     xid y = xid x → j = i) →
  seq x !! 1%nat = Some old →
  ogs_gtp_xact_receive sendto_ok n h s =
    Ok ((OGS_OK, Some i),
        set_heap <[i := with_step 2 (<[1%nat := {| seq_type := h_type h;
                     seq_pkbuf := seq_pkbuf old |}]> (seq x)) x]>
          (add_trace (match tm_response x with Some t => [TimerStop t] | None => [] end) s)).
Proof.
  intros Hs Hi Eo En Es Hlt Ex Est Hu Hold.
  pose proof (xw_xid x (wf_xact s Hs i x Hi)) as Hr.
  assert (Z.land (xid x) GTP_MAX_XACT_ID = 0) as Hland.
  { apply Z.bits_inj'. intros k Hk. rewrite Z.land_spec, Z.bits_0.
    change GTP_MAX_XACT_ID with (2 ^ 23) in *.
    rewrite Z.pow2_bits_eqb by lia. destruct (Z.eqb_spec 23 k) as [<-|]; [|apply andb_false_r].
    rewrite andb_true_r, Z.testbit_false, Z.div_small by lia. done. }
  assert (ogs_gtp_xact_find_by_xid n (h_type h) (xid x) s = Ok (Some i, s)) as Ef.
  { eapply find_unique; eauto.
    - unfold find_list. by rewrite Est, Hland, Eo.
    - intros j y Hj Ey. rewrite Eo in Ey. eauto. }
  unfold ogs_gtp_xact_receive, mbind, M_bind. rewrite Ex, Ef. simpl.
  unfold ogs_gtp_xact_update_rx, mbind, M_bind, deref. rewrite Hi, Eo, Est, Es. simpl.
  unfold accept_rx, record_step, mbind, M_bind, deref.
  destruct (tm_response x) as [t|]; simpl; rewrite Hi;
    rewrite Es, (seq_at_run x 1 old _ Hold : seq_at x 1 _ = _); simpl.
  - done.
  - unfold set_heap, add_trace. simpl. by rewrite app_nil_r.
Qed.

(** A response for which there is no transaction stops the process:
    [receive] creates a remote transaction for it and the assertion on its
    step fails.  A peer causes this with one packet (a retransmitted or late
    response). *)
Theorem late_response_aborts s n h :
  wf s → is_Some (nodes s !! n) →
  ogs_gtp_xact_get_stage (h_type h) (OGS_GTP_SQN_TO_XID (h_sqn h)) = FINAL_STAGE →
  (∀ i x, heap s !! i = Some x → gnode x = n → xid x ≠ OGS_GTP_SQN_TO_XID (h_sqn h)) →
  ogs_gtp_xact_receive sendto_ok n h s = Aborted.
Proof.
  intros Hs Hn Est Hno. set (id := OGS_GTP_SQN_TO_XID (h_sqn h)) in *.
  assert (ogs_gtp_xact_find_by_xid n (h_type h) id s = Ok (None, s)) as Ef.
  { apply find_runs; [done|done|unfold find_list; rewrite Est; eauto|].
    intros [i|] (o & _ & Hq); [|done]. destruct Hq as (x & Hx & E & _ & En).
    by destruct (Hno i x Hx En). }
  unfold ogs_gtp_xact_receive, mbind at 1, M_bind at 1. fold id. rewrite Ef.
  unfold mbind, M_bind, ogs_gtp_xact_remote_create. fold id.
  destruct Hn as [g Hg].
  pose proof (wp_xact_new n REMOTE_ORIGINATOR id s g (wf_pool s Hs) Hg) as Hw.
  unfold wp in Hw. destruct (xact_new n REMOTE_ORIGINATOR id s) as [[i s1]| |]; try done.
  destruct Hw as (x & Hf & _ & Hh & _).
  rewrite (update_rx_fresh sendto_ok i x n id); [done| |done|by rewrite Est].
  rewrite Hh. apply lookup_insert_eq.
Qed.

(** The largest identifier, [0x800000], which [OGS_NEXT_ID] gives to a
    local transaction, collides with the bit that marks a peer's
    transactions: the response to such a request is looked up among the
    remote transactions and stops the process. *)
Theorem max_xid_response_aborts s n h i x :
  wf s → heap s !! i = Some x → org x = LOCAL_ORIGINATOR → gnode x = n →
  xid x = GTP_MAX_XACT_ID → OGS_GTP_SQN_TO_XID (h_sqn h) = xid x →
  ogs_gtp_xact_get_stage (h_type h) (xid x) = FINAL_STAGE →
  (∀ j y, heap s !! j = Some y → org y = REMOTE_ORIGINATOR → gnode y = n →
     xid y ≠ xid x) →
  ogs_gtp_xact_receive sendto_ok n h s = Aborted.
Proof.
  intros Hs Hi Eo En Ex Eq Est Hno.
  destruct (wf_node s Hs i x Hi) as (g & Hg & _). rewrite En in Hg.
  assert (ogs_gtp_xact_find_by_xid n (h_type h) (xid x) s = Ok (None, s)) as Ef.
  { apply find_runs; [done|eauto|unfold find_list; rewrite Est; eauto|].
    intros [j|] (o & Ho & Hq); [|done]. unfold find_list in Ho.
    rewrite Est, Ex in Ho. injection Ho as <-. destruct Hq as (y & Hy & E & Ey & Ny).
    by destruct (Hno j y Hy Ey Ny). }
  unfold ogs_gtp_xact_receive, mbind at 1, M_bind at 1. rewrite Eq, Ef.
  unfold mbind, M_bind, ogs_gtp_xact_remote_create. rewrite Eq.
  pose proof (wp_xact_new n REMOTE_ORIGINATOR (xid x) s g (wf_pool s Hs) Hg) as Hw.
  unfold wp in Hw. destruct (xact_new n REMOTE_ORIGINATOR (xid x) s) as [[k s1]| |]; try done.
  destruct Hw as (z & Hf & _ & Hh & _).
  rewrite (update_rx_fresh sendto_ok k z n (xid x)); [done| |done|by rewrite Est].
  rewrite Hh. apply lookup_insert_eq.
Qed.

(** ** Retransmission *)
Lemma response_timeout_again s i x e b :
  wf s → heap s !! i = Some x → 1 <= step x →
  seq x !! Z.to_nat (step x - 1) = Some e → seq_pkbuf e = Some b →
  sendto_ok (gnode x) b = true → 2 <= response_rcount x <= 255 →
  response_timeout sendto_ok i s =
    Ok ((), add_trace (match tm_response x with
                       | Some t => [TimerStart t GTP_T3_RESPONSE_DURATION]
                       | None => [] end ++ [SendTo (gnode x) b])
              (set_heap <[i := with_response_rcount (response_rcount x - 1) x]> s)).
Proof.
  intros Hs Hi Hst He Eb Hok Hr. destruct (wf_node s Hs i x Hi) as (g & Hg & _).
  unfold response_timeout, mbind, M_bind, deref, deref_node. rewrite Hi, Hg.
  assert (u8 (response_rcount x - 1) = response_rcount x - 1) as -> by (apply wrap_small; lia).
  unfold seq_at, lift. rewrite (proj2 (Z.leb_le 0 _)) by lia. rewrite He. simpl.
  rewrite (proj2 (Z.ltb_lt 0 _)) by lia.
  unfold timer_start. destruct (tm_response x) as [t|]; simpl; rewrite Eb; simpl;
    rewrite Hok; unfold add_trace, set_heap; simpl; by rewrite <- ?app_assoc.
Qed.

Lemma response_timeout_last s i x :
  good s → heap s !! i = Some x → response_rcount x = 1 →
  ∃ s', response_timeout sendto_ok i s = Ok ((), s') ∧ good s' ∧
        dom (heap s') = dom (heap s) ∖ {[i]}.
Proof.
  intros Hgood Hi Hr. pose proof Hgood as [Hs Hset]. pose proof (Hset i x Hi).
  pose proof (xw_step x (wf_xact s Hs i x Hi)).
  destruct (wf_node s Hs i x Hi) as (g & Hg & _).
  destruct (seq_lookup x (step x - 1) (wf_xact s Hs i x Hi)) as [e He]; [lia|].
  set (y := with_response_rcount 0 x).
  assert (good (set_heap <[i := y]> s)) as Hg2 by (eapply good_rcount; eauto; by repeat split).
  destruct (delete_returns i (set_heap <[i := y]> s)) as (s' & E & Hd); [apply Hg2| |].
  { simpl. rewrite lookup_insert_eq. eauto. }
  exists s'. split; [|split].
  - unfold response_timeout, mbind, M_bind, deref, deref_node. rewrite Hi, Hg.
    unfold seq_at, lift. rewrite (proj2 (Z.leb_le 0 _)) by lia. rewrite He, Hr. simpl.
    change (u8 (1 - 1)) with 0. fold y. by rewrite E.
  - eapply good_deleted; [apply Hg2|done].
  - destruct Hd as (_ & _ & -> & _). simpl. f_equal. apply dom_insert_lookup_L. eauto.
Qed.

(** C38: Retransmission is bounded.  From the count a transaction is created
    with, the first two expiries of the response timer send the stored
    message again, unchanged, and restart the timer; the third deletes the
    transaction, and only it. *)
Theorem retransmission_bound s i x e b t :
  good s → heap s !! i = Some x → response_rcount x = GTP_T3_RESPONSE_RETRY_COUNT →
  tm_response x = Some t →
  seq x !! Z.to_nat (step x - 1) = Some e → seq_pkbuf e = Some b →
  sendto_ok (gnode x) b = true →
  ∃ s2 s3,
    (response_timeout sendto_ok i;; response_timeout sendto_ok i) s = Ok ((), s2) ∧
    trace s2 = trace s ++ [TimerStart t GTP_T3_RESPONSE_DURATION; SendTo (gnode x) b;
                           TimerStart t GTP_T3_RESPONSE_DURATION; SendTo (gnode x) b] ∧
    heap s2 = <[i := with_response_rcount 1 x]> (heap s) ∧
    response_timeout sendto_ok i s2 = Ok ((), s3) ∧
    dom (heap s3) = dom (heap s) ∖ {[i]}.
Proof.
  intros Hgood Hi Hr Ht He Eb Hok. pose proof Hgood as [Hs Hset]. pose proof (Hset i x Hi).
  change GTP_T3_RESPONSE_RETRY_COUNT with 3 in Hr.
  assert (∀ s1 k y, good s1 → heap s1 !! i = Some y → y = with_response_rcount k x → 2 <= k <= 3 →
    ∃ s2, response_timeout sendto_ok i s1 = Ok ((), s2) ∧ good s2 ∧
      heap s2 = <[i := with_response_rcount (k - 1) x]> (heap s1) ∧
      trace s2 = trace s1 ++ [TimerStart t GTP_T3_RESPONSE_DURATION; SendTo (gnode x) b]) as Hstep.
  { intros s1 k y Hg1 Hy -> Hk. eexists. split; [|split; [|split]].
    - eapply (response_timeout_again s1 i (with_response_rcount k x) e b); eauto; [apply Hg1|simpl; lia].
    - set (y := with_response_rcount _ (with_response_rcount k x)).
      apply (good_same_core (set_heap <[i := y]> s1)); [by repeat split|].
      eapply good_rcount; eauto; by repeat split.
    - done.
    - simpl. by rewrite Ht. }
  destruct (Hstep s 3 x) as (s1 & E1 & G1 & Hh1 & T1); auto; [|lia|].
  { destruct x; simpl in *; by subst. }
  destruct (Hstep s1 2 (with_response_rcount 2 x)) as (s2 & E2 & G2 & Hh2 & T2); auto; [|lia|].
  { rewrite Hh1. apply lookup_insert_eq. }
  destruct (response_timeout_last s2 i (with_response_rcount 1 x)) as (s3 & E3 & _ & D3); auto.
  { rewrite Hh2. apply lookup_insert_eq. }
  assert (heap s2 = <[i := with_response_rcount 1 x]> (heap s)) as Hh.
  { rewrite Hh2, Hh1. apply insert_insert_eq. }
  exists s2, s3. split_and!.
  - unfold mbind, M_bind. by rewrite E1.
  - by rewrite T2, T1, <- app_assoc.
  - done.
  - done.
  - rewrite D3, Hh. f_equal. apply dom_insert_lookup_L. eauto.
Qed.
End spec.
