(* ===== verification/GtpMessageSpec.v ===== *)
(** * GTPv2-C messages: what the codec guarantees

    For every message the switch statements know: the round trip through the
    transaction layer's header, and exactly which packets stop the process. *)
From stdpp Require Import strings.
From S2P Require Import Prelude.
From S2P Require Import CMem.
From S2P Require Import OgsLib.
From S2P Require Import GtpXact.
From S2P Require Import GtpXactProofs.
From S2P Require Import GtpXactSpec.
From S2P Require Import GtpTlv.
From S2P Require Import GtpTlvProofs.
From S2P Require Import GtpTlvSpec.
From S2P Require Import GtpStruct.
From S2P Require Import GtpMessage.
#[local] Open Scope Z_scope.

(** ** The cases *)
Lemma message_case_in type d ms : message_case type = Some (d, ms) → In (type, (d, ms)) cases.
Proof.
  unfold message_case. destruct (List.find _ cases) as [[t [d' ms']]|] eqn:E; simpl; [|done].
  intros [= -> ->]. apply find_some in E as [Hin Et]. simpl in Et. apply Z.eqb_eq in Et as ->. done.
Qed.

Lemma message_case_ok type d ms : message_case type = Some (d, ms) →
  ctype d = OGS_TLV_MESSAGE ∧ table_ok max_depth (child_descs d) = true ∧ fits ms (child_descs d) = true.
Proof.
  intros Hc%message_case_in. pose proof cases_ok as Hall. rewrite forallb_forall in Hall.
  specialize (Hall _ Hc). unfold case_ok in Hall. rewrite !andb_true_iff, bool_decide_eq_true in Hall.
  tauto.
Qed.

Lemma empty_case_b : forallb (λ c, (fst c =? OGS_GTP_DELETE_INDIRECT_DATA_FORWARDING_TUNNEL_REQUEST_TYPE)
    || negb (length (child_descs (fst (snd c))) =? 0)%nat) cases = true.
Proof. vm_compute. reflexivity. Qed.
(** One description has no entry. *)
Lemma nonempty_case type d ms : message_case type = Some (d, ms) →
  type ≠ OGS_GTP_DELETE_INDIRECT_DATA_FORWARDING_TUNNEL_REQUEST_TYPE → message_ok d = true.
Proof.
  intros Hc Ht. destruct (message_case_ok _ _ _ Hc) as (E1 & E2 & _).
  pose proof empty_case_b as Hall. rewrite forallb_forall in Hall.
  specialize (Hall _ (message_case_in _ _ _ Hc)). simpl in Hall.
  rewrite (proj2 (Z.eqb_neq _ _) Ht) in Hall. simpl in Hall.
  unfold message_ok. by rewrite bool_decide_eq_true_2, Hall, E2.
Qed.

(** ** Parsing without [More] stops in ogslib only

    [blames m s]: when [m] stops from [s], then because of [stop]. *)
Section blames.
Context `{Host, OgsTlv} (stop : Prop).
Definition blames {A} (m : M mem A) (s : mem) : Prop := m s = Aborted → stop.

Lemma no_abort_blames {A} (m : M mem A) s : no_abort m s → blames m s.
Proof. by intros Hm ?%Hm. Qed.
Lemma blames_bind {A B} (m : M mem A) (f : A → M mem B) s (P : A → mem → Prop) :
  blames m s → wp m s P → (∀ a s', P a s' → blames (f a) s') → blames (m ≫= f) s.
Proof. unfold blames, wp, mbind, M_bind. destruct (m s) as [[a s']| |]; [eauto|auto|by intros]. Qed.

Lemma blames_then {A B} (m : M mem A) (f : A → M mem B) s :
  blames m s → (∀ a s', m s = Ok (a, s') → blames (f a) s') → blames (m ≫= f) s.
Proof. unfold blames, mbind, M_bind. destruct (m s) as [[a s']| |]; [eauto|auto|by intros]. Qed.
Lemma blames_ret {A} (a : A) s : blames (mret a) s.
Proof. discriminate. Qed.
Lemma blames_modify f s : blames (modify f) s.
Proof. discriminate. Qed.
Lemma blames_load off m : blames (load off) m.
Proof. unfold load, blames, mbind, M_bind, get, lift, access. by destruct (m !! off). Qed.
Lemma blames_set_body off b m : blames (set_body off b) m.
Proof.
  unfold set_body, write. apply blames_then; [apply blames_load|]. intros c m1 _.
  apply blames_then; [apply blames_load|]. intros. apply blames_modify.
Qed.
Lemma blames_set_num off v m : blames (set_num off v) m.
Proof.
  unfold set_num, num_at. apply blames_then; [|intros; apply blames_set_body].
  apply blames_then; [apply blames_load|]. by intros [? []] ? ?.
Qed.
Lemma blames_set_octets off d n m : blames (set_octets off d n) m.
Proof.
  unfold set_octets, octets_at. apply blames_then; [|intros; apply blames_set_body].
  apply blames_then; [apply blames_load|]. by intros [? []] ? ?.
Qed.
Lemma blames_set_presence off m : blames (set_presence off) m.
Proof.
  unfold set_presence, write. apply blames_then; [apply blames_load|]. intros c m1 _.
  apply blames_then; [apply blames_load|]. intros. apply blames_modify.
Qed.

Lemma blames_octet v i (m : mem) : blames (lift (octet v i)) m.
Proof. unfold blames, lift, octet, access. by destruct (v !! i). Qed.

Lemma blames_leaf c t off m : leaf_type (ctype c) = true → blames (tlv_parse_leaf off c t) m.
Proof.
  unfold tlv_parse_leaf. destruct (ctype c); try done; intros _;
    repeat match goal with |- blames (if ?b then _ else _) _ => destruct b end;
    repeat first [apply blames_ret|apply blames_set_num|apply blames_set_octets
                 |apply blames_octet|apply blames_then; [|intros ? ? _]].
Qed.

Lemma find_desc_no_abort cs t : ∀ prev i off,
  (∀ c, c ∈ cs → is_more c = false) → tlv_find_desc cs prev i off t ≠ Aborted.
Proof.
  induction cs as [|c cs IH]; intros prev i off Hm; [done|]. cbn [tlv_find_desc].
  case_match; [done|]. rewrite (Hm c) by left. apply IH. intros c' Hc'. apply Hm. by right.
Qed.

Lemma fits_members_not_more ms cs c : fits ms cs = true → c ∈ cs →
  is_more c = false ∧ ∃ t, fits_type t c = true.
Proof.
  unfold fits. revert cs. induction ms as [|[s t] ms IH]; intros [|c' cs]; simpl; try done.
  { intros _ Hc. by apply elem_of_nil in Hc. }
  rewrite !andb_true_iff. intros [[Hc _] Hcs] [->|Hin]%elem_of_cons; [|by eapply IH].
  split; [by eapply fits_not_more|eauto].
Qed.

Lemma find_desc_in cs t : ∀ prev i off idx o c,
  tlv_find_desc cs prev i off t = Ok (Some (idx, o, c)) → c ∈ cs.
Proof.
  induction cs as [|d cs IH]; intros prev i off idx o c; cbn [tlv_find_desc]; [done|].
  case_match; [intros [= _ _ ->]; left|]. destruct (is_more d); [|by intros E; right; eapply IH].
  destruct prev as [p|]; [|done]. destruct (is_more p); [done|]. simpl. by intros E; right; eapply IH.
Qed.

(** Without [More], an element has one place or none. *)
Lemma find_desc_plain n cs ms t : table_ok (S n) cs = true → fits ms cs = true →
  tlv_find_desc cs None 0 0 t = Ok None ∨
  ∃ idx c pre post, tlv_find_desc cs None 0 0 t = Ok (Some (idx, extent pre, c)) ∧ c ∈ cs ∧
    slots cs = pre ++ (c, 1%nat) :: post ∧
    match cs !! S idx with Some x => is_more x = false | None => True end.
Proof.
  intros Ht Hfit. assert (∀ c, c ∈ cs → is_more c = false) as Hnm
    by (intros c Hc; by destruct (fits_members_not_more _ _ _ Hfit Hc)).
  pose proof (find_desc_no_abort cs t None 0 0 Hnm) as Hna.
  assert (found_ok cs 0 0 (tlv_find_desc cs None 0 0 t)) as Hf.
  { apply find_desc_found.
    - intros x Hx Hmore. by rewrite (Hnm x Hx) in Hmore.
    - intros [c k] Hin. by eapply table_not_more. }
  pose proof (find_desc_in cs t None 0 0) as Hin.
  destruct (tlv_find_desc cs None 0 0 t) as [[[[idx o] c]|]| |]; [|by left|done|done].
  right. specialize (Hin _ _ _ eq_refl). destruct Hf as (j & -> & Hj). change (0 + j)%nat with j.
  rewrite (Hnm c Hin) in Hj. destruct Hj as (pre & k & post & Es & -> & Hk).
  exists j, c, pre, post. assert (match cs !! S j with Some x => is_more x = false | None => True end) as Hx.
  { destruct (cs !! S j) as [x|] eqn:Ex; [|done]. apply Hnm. by eapply list_elem_of_lookup_2. }
  split_and!; [done|done| |done]. destruct (cs !! S j); [rewrite Hx in Hk|]; by subst k.
Qed.

(** [R] holds of the blocks that are parsed; those that do not parse are to
    blame. *)
Context (R : list Z → Prop).
Hypothesis R_blocks : ∀ bl ts t, R bl → ogs_tlv_parse_block bl = Some ts → t ∈ ts → R (tlv_value t).
Hypothesis R_stop : ∀ bl, R bl → ogs_tlv_parse_block bl = None → stop.
Definition in_blocks (ts : list tlv_view) : Prop := ∀ t, t ∈ ts → R (tlv_value t).

Definition emb_total (n : nat) (emb : ogs_tlv_desc_t → Z → list tlv_view → M mem rv_t) : Prop :=
  ∀ c ms off ts m, in_blocks ts → table_ok n (child_descs c) = true → fits ms (child_descs c) = true →
  typed n (slots (child_descs c)) off m → blames (emb c off ts) m.

Lemma parse_at_total n emb c k t ct off m cs :
  R (tlv_value t) → emb_total n emb → table_ok (S n) cs = true → (c, k) ∈ slots cs → fits_type ct c = true →
  typed_occ (typed n) c off m → blames (parse_at emb c t off) m.
Proof.
  intros HR Hemb Ht Hin Hfit (x & _ & _ & Hg).
  destruct (tf_entry _ _ (table_ok_facts _ _ Ht) c k Hin) as (_ & _ & Hc).
  unfold parse_at. apply blames_then.
  - destruct (is_compound c) eqn:Ec; [|by apply blames_leaf]. destruct Hc as [Ht' _].
    destruct (ogs_tlv_parse_block (tlv_value t)) as [[|t0 ts]|] eqn:Eb;
      [apply blames_ret| |by intros _; eapply R_stop].
    unfold is_compound in Ec. apply bool_decide_eq_true in Ec.
    destruct ct as [| | | | | | | | | |ms]; simpl in Hfit; rewrite ?Ec in Hfit; try done.
    apply andb_true_iff in Hfit as [_ Hfit]. eapply Hemb; [by intros y; apply (R_blocks _ _ _ HR Eb)|done|exact Hfit|by apply Hg].
  - intros [] m' _; [|apply blames_ret].
    apply blames_then; [apply blames_set_presence|intros; apply blames_ret].
Qed.

Lemma parse_one_total n emb d ms msg t m :
  R (tlv_value t) → emb_total n emb → table_ok (S n) (child_descs d) = true → fits ms (child_descs d) = true →
  typed (S n) (slots (child_descs d)) msg m → blames (tlv_parse_one emb d msg t) m.
Proof.
  intros HR Hemb Ht Hfit Hty. unfold tlv_parse_one, mbind at 1, M_bind at 1, lift, blames.
  destruct (find_desc_plain n _ ms t Ht Hfit) as [->|(idx & c & pre & post & -> & Hin & Es & Hx)]; [done|].
  destruct (fits_members_not_more _ _ _ Hfit Hin) as [_ [ct Hct]].
  fold (parse_at emb c t).
  assert (blames (parse_at emb c t (msg + extent pre)) m) as Ha.
  { eapply (parse_at_total n); [done|done|exact Ht|rewrite Es; apply elem_of_app; right; left|exact Hct|].
    simpl in Hty. rewrite Es in Hty. pose proof (typed_group_slot _ _ _ _ _ _ _ Hty 0%nat ltac:(lia)) as Ho.
    by rewrite Z.mul_0_r, Z.add_0_r in Ho. }
  destruct (child_descs d !! S idx) as [x|]; [rewrite Hx|]; exact Ha.
Qed.

Lemma parse_compound_total n : emb_total n (tlv_parse_compound n).
Proof.
  induction n as [|n IH]; intros d ms off ts m Hts Ht Hfit Hty; [done|]. simpl tlv_parse_compound.
  revert m Hty. induction ts as [|t ts IHts]; intros m Hty; [apply blames_ret|]. simpl.
  eapply blames_bind; [eapply parse_one_total; [apply Hts; left|done..]|apply (parse_one_typed n)|];
    [apply parse_compound_typed|done|done|].
  intros [] m' Hm; [|apply blames_ret]. apply IHts; [intros y Hy; apply Hts; by right|]. by eapply typed_same; [apply Hm|].
Qed.
End blames.

(** ** Parsing any packet *)
Section parse.
Context `{Host, OgsBits, OgsTlvLaws, OgsPkbufLaws}.

Definition header_size (flags : Z) : nat := if teid_presence flags then 12 else 8.
(** A packet that stops the process: shorter than its header, or a Delete
    Indirect Data Forwarding Tunnel Request with anything behind it. *)
Definition stops (data : list Z) : bool :=
  match data with
  | [] => true
  | f :: _ =>
      (length data <? header_size f)%nat ||
      ((header_size f <? length data)%nat &&
       (default 0 (data !! 1%nat) =? OGS_GTP_DELETE_INDIRECT_DATA_FORWARDING_TUNNEL_REQUEST_TYPE))
  end.

(** The structure of a message is laid out as its description says. *)
Definition message_typed (msg : ogs_gtp_message_t) : Prop :=
  match message_case (gtp_type (h msg)) with
  | Some (d, _) => typed max_depth (layout d) 0 (content msg)
  | None => True
  end.

Lemma read_header_run bs : (8 <= length bs <= 12)%nat → ∃ hd, read_header bs = Ok hd ∧
  Some (gtp_type hd) = bs !! 1%nat.
Proof.
  intros Hl. unfold read_header, OGS_GTPV2C_HEADER_LEN. cbv zeta. set (l := bs ++ _).
  assert (length l = 12%nat) as Hll by (unfold l; rewrite length_app, length_replicate; lia).
  destruct (lookup_lt_is_Some_2 l 0) as [f Ef]; [lia|].
  destruct (lookup_lt_is_Some_2 l 1) as [t Et]; [lia|]. rewrite Ef, Et. cbn [access mbind outcome_bind].
  unfold slice. rewrite Hll. cbn [Nat.leb Nat.add access]. eexists. split; [done|]. simpl.
  rewrite <- Et. unfold l. by rewrite lookup_app_l by lia.
Qed.

(** The blocks that [ogs_tlv_parse_block] gets: what follows the header, and
    the values of the elements of such a block. *)
Inductive block_of (payload : list Z) : list Z → Prop :=
| block_payload : block_of payload payload
| block_element bl ts t :
    block_of payload bl → ogs_tlv_parse_block bl = Some ts → t ∈ ts → block_of payload (tlv_value t).
Definition refused (payload : list Z) : Prop := ∃ bl, block_of payload bl ∧ ogs_tlv_parse_block bl = None.

Lemma parse_tlv_total type d ms b :
  message_case type = Some (d, ms) → type ≠ OGS_GTP_DELETE_INDIRECT_DATA_FORWARDING_TUNNEL_REQUEST_TYPE →
  match ogs_tlv_parse_msg 0 d b (zeroed ms 0 ∅) with
  | Ok (_, m) => typed max_depth (layout d) 0 m
  | Aborted => refused (pk_data b)
  | Undef => False
  end.
Proof.
  intros Hc Hne. destruct (message_case_ok _ _ _ Hc) as (Ety & Ht & Hfit).
  pose proof (nonempty_case _ _ _ Hc Hne) as Hok.
  assert (typed max_depth (layout d) 0 (zeroed ms 0 ∅)) as Hty
    by (eapply holds_typed; by apply zeroed_holds).
  pose proof (parse_msg_stays d 0 b _ Hok Hty) as Hw.
  assert (blames (refused (pk_data b)) (ogs_tlv_parse_msg 0 d b) (zeroed ms 0 ∅)) as Ha.
  { destruct (message_ok_parts d Hok) as (E1 & E2 & _). unfold ogs_tlv_parse_msg. rewrite E1, E2.
    unfold blames, massert, lift, ogs_assert, mbind, M_bind.
    destruct (ogs_tlv_parse_block (pk_data b)) as [[|t ts]|] eqn:Eb; [done| |].
    - eapply (parse_compound_total _ (block_of (pk_data b))); try done.
      + intros bl ts' t' Hbl E Hin. by eapply block_element.
      + intros bl Hbl E. by exists bl.
      + intros y Hy. eapply block_element; [apply block_payload|exact Eb|exact Hy].
    - intros _. exists (pk_data b). split; [apply block_payload|done]. }
  unfold wp in Hw. unfold blames in Ha.
  destruct (ogs_tlv_parse_msg 0 d b (zeroed ms 0 ∅)) as [[rv m]| |]; [apply Hw|by apply Ha|done].
Qed.

(** C22: Parsing a GTPv2-C packet, whatever its octets.  There is no undefined
    access.  A packet that is shorter than its header, or a Delete Indirect
    Data Forwarding Tunnel Request with a payload, stops the process.  Of every
    other packet, either the parser of ogslib fails an assertion on one of its
    blocks (the payload, or the value of an element), or the packet is
    rejected, or it is parsed into a message laid out as the structure of its
    type: the program's own code does not stop the process. *)
Theorem parse_packet_total b :
  match ogs_gtp_parse_msg b with
  | Ok (_, msg) => stops (pk_data b) = false ∧ message_typed msg
  | Aborted => stops (pk_data b) = true ∨
      refused (drop (header_size (nth 0 (pk_data b) 0)) (pk_data b))
  | Undef => False
  end.
Proof.
  unfold ogs_gtp_parse_msg, stops. destruct (pk_data b) as [|f data] eqn:Ed; [by left|].
  change ((f :: data) !! 0%nat) with (Some f). change (nth 0 (f :: data) 0) with f.
  cbn [length Nat.eqb negb ogs_assert mbind outcome_bind access]. cbv zeta.
  fold (header_size f). change (if teid_presence f then OGS_GTPV2C_HEADER_LEN
    else (OGS_GTPV2C_HEADER_LEN - OGS_GTP_TEID_LEN)%nat) with (header_size f).
  assert (8 <= header_size f <= 12)%nat as Hs by (unfold header_size; case_match; lia).
  destruct (Nat.ltb_spec (S (length data)) (header_size f)) as [Hlt|Hge].
  { rewrite pull_none by (rewrite Ed; simpl; lia). by left. }
  rewrite orb_false_l, pull_run by (rewrite Ed; simpl; lia). cbn [mbind outcome_bind pk_head pk_data].
  rewrite length_app, length_take_le by (rewrite Ed; simpl; lia).
  rewrite Nat.add_sub, drop_app_length, Ed.
  destruct (read_header_run (take (header_size f) (f :: data))) as (hd & -> & Et).
  { rewrite length_take_le; simpl; lia. }
  rewrite lookup_take_lt in Et by lia. cbn [mbind outcome_bind]. cbv zeta.
  set (hd' := if teid_presence f then _ else hd).
  assert (gtp_type hd' = gtp_type hd) as Etype by (unfold hd'; by destruct (teid_presence f)).
  clearbody hd'. rewrite length_drop, Etype. simpl length. rewrite <- Et. cbn [default from_option id].
  destruct (message_case (gtp_type hd)) as [[d ms]|] eqn:Ec.
  2: { rewrite (proj2 (Z.eqb_neq _ _)), andb_false_r.
       - split; [done|]. unfold message_typed. cbn [h]. by rewrite Etype, Ec.
       - intros E. rewrite E in Ec. by vm_compute in Ec. }
  destruct (Nat.ltb_spec (header_size f) (S (length data))) as [Hlt|Hle].
  - rewrite (proj2 (Nat.eqb_neq _ _)) by lia. destruct (Z.eqb_spec (gtp_type hd)
      OGS_GTP_DELETE_INDIRECT_DATA_FORWARDING_TUNNEL_REQUEST_TYPE) as [E168|Hne]; cbn [andb].
    + rewrite E168 in Ec. vm_compute in Ec. injection Ec as <- <-. by left.
    + pose proof (parse_tlv_total _ _ _ {| pk_head := pk_head b ++ take (header_size f) (f :: data);
        pk_data := drop (header_size f) (f :: data) |} Ec Hne) as Hp.
      destruct (ogs_tlv_parse_msg _ _ _ _) as [[rv m]| |]; [|by right|done].
      split; [done|]. unfold message_typed. cbn [h content]. by rewrite Etype, Ec.
  - rewrite (proj2 (Nat.eqb_eq _ _)) by lia. split; [done|]. unfold message_typed.
    cbn [h content]. rewrite Etype, Ec. destruct (message_case_ok _ _ _ Ec) as (_ & Ht & Hfit).
    eapply holds_typed. by apply zeroed_holds.
Qed.
End parse.

(** ** Delivery *)
Section deliver.
Context `{Host, OgsBitsLaws, OgsTlvLaws, OgsPoolLaws, OgsListLaws, OgsNextIdLaws, OgsPkbufLaws}.

Lemma case_type_byte type d ms : message_case type = Some (d, ms) → 0 <= type < 256.
Proof.
  intros Hc%message_case_in.
  assert (forallb (λ c, (0 <=? fst c) && (fst c <? 256)) cases = true) as Hall by (by vm_compute).
  rewrite forallb_forall in Hall. specialize (Hall _ Hc). simpl in Hall. lia.
Qed.

Lemma sent_teid_presence :
  teid_presence (ed_pack [(3%nat, 2); (1%nat, 0); (1%nat, 1); (3%nat, 0)]) = true.
Proof.
  unfold teid_presence.
  pose proof (ed_unpack_pack [(3%nat, 2); (1%nat, 0); (1%nat, 1); (3%nat, 0)]) as E. simpl in E.
  rewrite E; [done|]. split; [done|]. repeat constructor; simpl; lia.
Qed.

(** The header in front of a message, read back. *)
Lemma read_sent_header type len t id rest :
  let bs := header_bytes type len t id in
  length bs = 12%nat ∧ bs !! 0%nat = Some (ed_pack [(3%nat, 2); (1%nat, 0); (1%nat, 1); (3%nat, 0)]) ∧
  take 12 (bs ++ rest) = bs ∧ drop 12 (bs ++ rest) = rest ∧
  ∃ hd, read_header bs = Ok hd ∧ gtp_type hd = type ∧ teid hd = htonl t ∧
    sqn hd = OGS_GTP_XID_TO_SQN id.
Proof.
  intros bs. assert (length bs = 12%nat) as Hl by apply length_header_bytes.
  split; [done|]. split; [done|]. rewrite <- Hl at 1 2.
  rewrite take_app_length, drop_app_length. split; [done|]. split; [done|].
  unfold read_header, OGS_GTPV2C_HEADER_LEN. rewrite Hl, Nat.sub_diag, app_nil_r. cbv zeta.
  unfold bs, header_bytes. set (l2 := host_bytes 2 _). set (l4 := host_bytes 4 _).
  set (l4' := host_bytes 4 _).
  assert (length l2 = 2 ∧ length l4 = 4 ∧ length l4' = 4)%nat as (L2 & L4 & L4') by
    (unfold l2, l4, l4'; rewrite !length_host_bytes; done).
  rewrite (slice_app [_; _] l2 (l4 ++ l4') 2 2) by done.
  rewrite (app_assoc [_; _] l2), (slice_app ([_; _] ++ l2) l4 l4' 4 4) by (rewrite ?length_app, ?L2; done).
  rewrite (app_assoc _ l4), <- (app_nil_r l4'), (slice_app (_ ++ l4) l4' [] 8 4)
    by (rewrite ?length_app, ?L2, ?L4; done).
  eexists. split; [reflexivity|]. cbn [gtp_type teid sqn]. split; [done|].
  unfold l4, l4', OGS_GTP_XID_TO_SQN. rewrite !host_value_bytes.
  split; apply Z.mod_small; apply hton_range.
Qed.

(** C21: Delivery of a message.  A message of any type the codec knows (but the
    one with no elements) whose values its elements can carry is built; when
    the transaction layer accepts the packet for transaction [x], the packet
    it stores for sending, parsed at the peer, gives the same type, TEID and
    transaction identifier and the same values. *)
Theorem message_delivered d ms fs msg hdesc i x s s' :
  message_case (gtp_type (h msg)) = Some (d, ms) →
  gtp_type (h msg) ≠ OGS_GTP_DELETE_INDIRECT_DATA_FORWARDING_TUNNEL_REQUEST_TYPE →
  vals_ok max_depth (layout d) fs → holds max_depth (layout d) 0 fs (content msg) →
  Z.of_nat (length (ogs_tlv_render (forest max_depth (layout d) fs))) < 65528 →
  h_type hdesc = gtp_type (h msg) → 0 <= h_teid hdesc < 2 ^ 32 →
  wf s → heap s !! i = Some x →
  ∃ b msg1, ogs_gtp_build_msg msg = Ok (OGS_OK, Some b, msg1) ∧
    (ogs_gtp_xact_update_tx i hdesc b s = Ok (GtpXact.OGS_OK, s') →
     ∃ y e pkt, heap s' !! i = Some y ∧ seq y !! Z.to_nat (step x) = Some e ∧
       seq_pkbuf e = Some pkt ∧
       ∃ msg2, ogs_gtp_parse_msg pkt = Ok (OGS_OK, msg2) ∧
         gtp_type (h msg2) = h_type hdesc ∧ teid (h msg2) = h_teid hdesc ∧
         OGS_GTP_SQN_TO_XID (sqn (h msg2)) = xid x ∧
         holds max_depth (layout d) 0 fs (content msg2)).
Proof.
  intros Hc Hne Hv Hm Hlen Ety Hteid Hwf Hi.
  pose proof (nonempty_case _ _ _ Hc Hne) as Hok.
  destruct (build_msg_run d fs 0 (content msg) Hok Hv Hm) as (m1 & E1 & _).
  unfold ogs_gtp_build_msg. rewrite Hc, E1. cbn [mbind outcome_bind].
  do 2 eexists. split; [done|]. intros Etx.
  edestruct (update_tx_stored i x hdesc) as (y & e & pkt & Hy & _ & He & _ & Ep & Hd);
    [exact Hwf|exact Hi| | |exact Etx|]; cbn [pk_head pk_data]; [simpl; lia|lia|].
  exists y, e, pkt. split_and!; [done..|]. cbn [pk_data] in Hd. set (body := ogs_tlv_render _) in *.
  destruct (read_sent_header (h_type hdesc) (Z.of_nat (length body) + 12) (h_teid hdesc) (xid x) body)
    as (Hl & Ef & Etk & Edr & hd & Ehd & Et & Eteid & Esqn).
  set (bs := header_bytes _ _ _ _) in *.
  unfold ogs_gtp_parse_msg. rewrite Hd, length_app, Hl. cbn [Nat.add Nat.eqb negb ogs_assert mbind outcome_bind].
  rewrite lookup_app_l, Ef by lia. cbn [access mbind outcome_bind]. rewrite sent_teid_presence.
  unfold OGS_GTPV2C_HEADER_LEN. rewrite pull_run by (rewrite Hd, length_app; lia). rewrite Hd, Etk, Edr.
  cbn [mbind outcome_bind pk_head pk_data]. rewrite length_app, Hl, Nat.add_sub, drop_app_length, Ehd.
  cbn [mbind outcome_bind gtp_type]. rewrite Et, Ety, Hc.
  assert (body ≠ []) as Hbody.
  { apply tlv_render_nonempty. destruct Hv as (_ & Hforest & _). exact Hforest. }
  destruct (message_case_ok _ _ _ Hc) as (_ & Ht & Hfit).
  edestruct (parse_msg_run d fs {| pk_head := pk_head pkt ++ bs; pk_data := body |} 0 (zeroed ms 0 ∅))
    as (m2 & E2 & Hh2 & _); [done|done|by apply zeroed_holds|done|].
  rewrite E2. destruct body; [done|]. cbn [length Nat.eqb mbind outcome_bind].
  eexists. split; [done|]. cbn [h content gtp_type teid sqn]. rewrite Eteid, Esqn.
  split_and!; [congruence| | |done].
  - apply hton_involutive. exact Hteid.
  - apply sqn_xid_roundtrip, (xw_xid x (wf_xact s Hwf i x Hi)).
Qed.
End deliver.
