(* ===== verification/GtpExamples.v ===== *)
(** * GTPv2-C transactions and messages at concrete inputs

    Scripts of events run on the reference instances of the ogslib
    interfaces, and a Create Session Response with a bearer context, sent and
    parsed; the theorems of [GtpXactSpec], [GtpTlvSpec] and [GtpMessageSpec]
    are applied to them. *)
From stdpp Require Import strings.
From S2P Require Import Prelude.
From S2P Require Import CMem.
From S2P Require Import OgsLib.
From S2P Require Import OgsRef.
From S2P Require Import GtpXact.
From S2P Require Import GtpXactProofs.
From S2P Require Import GtpXactSpec.
From S2P Require Import GtpTlv.
From S2P Require Import GtpTlvProofs.
From S2P Require Import GtpTlvSpec.
From S2P Require Import GtpStruct.
From S2P Require Import GtpIe.
From S2P Require Import GtpMessage.
From S2P Require Import GtpMessageSpec.
#[local] Open Scope Z_scope.

Definition always (n : Z) (b : pkbuf) : bool := true.

Definition start (id : Z) : state :=
  {| heap := ∅; pool := (∅ : gset Z); timers := (∅ : gset Z); g_xact_id := id;
     nodes := ∅; trace := [] |}.

Definition payload : pkbuf := {| pk_head := replicate 12 0; pk_data := [1; 2; 3] |}.
Definition hdr (type sqn_xid : Z) : header_t :=
  {| h_type := type; h_teid := 7; h_sqn := OGS_GTP_XID_TO_SQN sqn_xid |}.

(** A request sent to peer 1, waiting for its response. *)
Definition waiting : state :=
  script always [ENodeAdd 1; ELocalCreate 1 (hdr 32 0) payload; ECommit 1] (start 0).
(** A request of peer 1, received; then answered. *)
Definition received : state :=
  script always [ENodeAdd 1; EReceive 1 (hdr 32 5)] (start 0).
Definition answered : state := script always [EUpdateTx 1 (hdr 33 0) payload] received.
(** A request that carries the largest identifier. *)
Definition wrapped : state :=
  script always [ENodeAdd 1; ELocalCreate 1 (hdr 32 0) payload] (start 0x7fffff).

Lemma reachable_start : reachable always (start 0).
Proof. apply reachable_initial. by split_and!. Qed.
Lemma reachable_waiting : reachable always waiting.
Proof. apply reachable_script, reachable_start. Qed.
Lemma reachable_received : reachable always received.
Proof. apply reachable_script, reachable_start. Qed.
Lemma reachable_answered : reachable always answered.
Proof. apply reachable_script, reachable_received. Qed.
Lemma good_wrapped : good wrapped.
Proof. apply good_script, good_empty; by vm_compute. Qed.

(** The whole exchange: request, response, acknowledgement by deletion. *)
Example exchange_deletes :
  heap (script always [EReceive 1 (hdr 33 1); ECommit 1] waiting) = ∅.
Proof. vm_compute. reflexivity. Qed.

Definition get_xact (i : Z) (s : state) : xact_t :=
  default {| org := LOCAL_ORIGINATOR; xid := 0; gnode := 0; step := 0; seq := [];
             tm_response := None; response_rcount := 0; tm_holding := None;
             holding_rcount := 0; assoc_xact := None |} (heap s !! i).
Definition get_entry (k : nat) (x : xact_t) : seq_t :=
  default {| seq_type := 0; seq_pkbuf := None |} (seq x !! k).

(** Case analysis on the (one) transaction of a concrete state. *)
Lemma only_one (s : state) (i : Z) (x : xact_t) :
  heap s = {[i := x]} → ∀ j y, heap s !! j = Some y → j = i ∧ y = x.
Proof. intros -> j y Hj. by apply lookup_singleton_Some in Hj as [-> ->]. Qed.

Lemma reachable_invariant_witness : wf waiting ∧ settled waiting.
Proof. exact (reachable_invariant always waiting reachable_waiting). Defined.

Lemma reachable_safe_witness : run always (EReceive 1 (hdr 33 1)) waiting ≠ Undef.
Proof.
  apply (reachable_safe always waiting); [exact reachable_waiting|].
  vm_compute. eauto.
Defined.

Lemma receive_duplicate_witness :
  ogs_gtp_xact_receive always 1 (hdr 32 5) answered =
    Ok ((OGS_RETRY, None),
        add_trace [TimerStart 2 9;
                   SendTo 1 (default payload (seq_pkbuf (get_entry 1 (get_xact 1 answered))))]
          answered).
Proof.
  rewrite (receive_duplicate always answered 1 (hdr 32 5) 1 (get_xact 1 answered)
            (get_entry 0 (get_xact 1 answered)) (get_entry 1 (get_xact 1 answered)));
    [vm_compute; reflexivity|apply (reachable_is_good always), reachable_answered|..];
    try (vm_compute; reflexivity).
  right. vm_compute. reflexivity.
Defined.

Lemma receive_response_witness :
  is_ok (ogs_gtp_xact_receive always 1 (hdr 33 1) waiting) = true.
Proof.
  rewrite (receive_response always waiting 1 (hdr 33 1) 1 (get_xact 1 waiting)
            (get_entry 1 (get_xact 1 waiting)));
    [reflexivity|apply (reachable_is_good always), reachable_waiting|..];
    try (by vm_compute).
  intros j y Hj _ _ _. by destruct (only_one waiting 1 (get_xact 1 waiting) eq_refl j y Hj).
Defined.

Lemma late_response_aborts_witness :
  ogs_gtp_xact_receive always 1 (hdr 33 9) waiting = Aborted.
Proof.
  apply late_response_aborts; [apply (reachable_is_good always), reachable_waiting|..].
  - vm_compute. eauto.
  - by vm_compute.
  - intros j y Hj _. destruct (only_one waiting 1 (get_xact 1 waiting) eq_refl j y Hj) as [_ ->].
    by vm_compute.
Defined.

Lemma max_xid_response_aborts_witness :
  ogs_gtp_xact_receive always 1 (hdr 33 GTP_MAX_XACT_ID) wrapped = Aborted.
Proof.
  apply (max_xid_response_aborts always wrapped 1 (hdr 33 GTP_MAX_XACT_ID) 1 (get_xact 1 wrapped));
    [apply good_wrapped|..]; try (by vm_compute).
  intros j y Hj Ho _. destruct (only_one wrapped 1 (get_xact 1 wrapped) eq_refl j y Hj) as [_ ->].
  discriminate Ho.
Defined.

Lemma retransmission_bound_witness :
  ∃ s2 s3,
    (response_timeout always 1;; response_timeout always 1) waiting = Ok ((), s2) ∧
    response_timeout always 1 s2 = Ok ((), s3) ∧ 1 ∉ dom (heap s3).
Proof.
  destruct (retransmission_bound always waiting 1 (get_xact 1 waiting)
              (get_entry 0 (get_xact 1 waiting))
              (default payload (seq_pkbuf (get_entry 0 (get_xact 1 waiting)))) 1)
    as (s2 & s3 & E2 & _ & _ & E3 & D);
    [apply (reachable_is_good always), reachable_waiting|by vm_compute..|].
  exists s2, s3. split_and!; [exact E2|exact E3|]. rewrite D. intros Hin. apply elem_of_difference in Hin as [_ Hin]. by destruct Hin; apply elem_of_singleton.
Defined.

Lemma update_tx_wire_witness :
  ∃ y e b', heap answered !! 1 = Some y ∧ seq y !! 1%nat = Some e ∧ seq_pkbuf e = Some b' ∧
    pk_data b' = [72; 33; 0; 11; 0; 0; 0; 7; 0; 0; 5; 0; 1; 2; 3].
Proof.
  destruct (update_tx_wire 1 (get_xact 1 received) (hdr 33 0) payload received answered)
    as (y & e & b' & Hy & _ & He & _ & Hb & Hd & _);
    [apply (reachable_is_good always), reachable_received|..|]; try (vm_compute; reflexivity).
  exists y, e, b'. split_and!; auto.
Defined.

Lemma delete_all_complete_witness :
  ∃ s', ogs_gtp_xact_delete_all 1 waiting = Ok ((), s') ∧ good s'.
Proof.
  destruct (delete_all_complete 1 waiting) as (s' & E & Hg & _).
  - apply (reachable_is_good always), reachable_waiting.
  - vm_compute. eauto.
  - exists s'. by split.
Defined.

(** Values by the names of the members. *)
Definition lookup_name (n : string) (vs : list (string * val)) : list val :=
  match List.find (λ x, String.eqb (fst x) n) vs with Some (_, v) => [v] | None => [] end.
Definition by_name (ms : members) (vs : list (string * val)) : list (list val) :=
  (λ m, lookup_name (fst m) vs) <$> ms.
Definition str (bs : list Z) : val := VLeaf (Octets bs (Z.of_nat (length bs))).
Definition num (v : Z) : val := VLeaf (Num v).

Definition d_response : ogs_tlv_desc_t := ogs_tlv_desc_create_session_response.
Definition response_values : list (list val) :=
  by_name ogs_gtp_create_session_response_s
    [("cause"%string, str [16; 0]);
     ("apn_restriction"%string, num 0);
     ("bearer_contexts_created"%string,
        VGroup (by_name ogs_tlv_bearer_context_s
          [("eps_bearer_id"%string, num 5);
           ("s5_s8_u_sgw_f_teid"%string, str [129; 0; 0; 0; 9; 127; 0; 0; 1]);
           ("cause"%string, str [16; 0])]));
     ("recovery"%string, num 3)].
Definition response_bytes : list Z := ogs_tlv_render (forest max_depth (layout d_response) response_values).
Example response_wire : response_bytes =
  [2; 0; 2; 0; 16; 0;  127; 0; 1; 0; 0;
   93; 0; 24; 0;  73; 0; 1; 0; 5;  87; 0; 9; 2; 129; 0; 0; 0; 9; 127; 0; 0; 1;  2; 0; 2; 0; 16; 0;
   3; 0; 1; 0; 3].
Proof. vm_compute. reflexivity. Qed.

Definition empty_response (off : Z) : mem := zeroed ogs_gtp_create_session_response_s off ∅.
Definition response_packet : pkbuf := {| pk_head := []; pk_data := response_bytes |}.
Definition response_mem : mem :=
  match ogs_tlv_parse_msg 0 d_response response_packet (empty_response 0) with
  | Ok (_, m) => m
  | _ => ∅
  end.

Lemma response_ok : message_ok d_response = true.
Proof. vm_compute. reflexivity. Qed.
Lemma response_vals : vals_ok max_depth (layout d_response) response_values.
Proof. apply vals_okb_ok. vm_compute. reflexivity. Qed.
Lemma response_empty off : holds max_depth (layout d_response) off [] (empty_response off).
Proof. apply zeroed_holds; vm_compute; reflexivity. Qed.
Lemma response_holds : holds max_depth (layout d_response) 0 response_values response_mem.
Proof.
  destruct (parse_msg_run d_response response_values response_packet 0 (empty_response 0))
    as (m & E & Hh & _); [apply response_ok|apply response_vals|apply response_empty|done|].
  unfold response_mem. by rewrite E.
Qed.

Lemma parse_build_msg_witness :
  ∃ b m1 m2, ogs_tlv_build_msg d_response 0 response_mem = Ok (b, m1) ∧ pk_data b = response_bytes ∧
    ogs_tlv_parse_msg 4096 d_response b (empty_response 4096) = Ok (OGS_OK, m2) ∧
    holds max_depth (layout d_response) 4096 response_values m2.
Proof.
  destruct (parse_build_msg d_response response_values 0 4096 response_mem (empty_response 4096))
    as (b & m1 & m2 & E1 & Eb & _ & E2 & Hh & _);
    [apply response_ok|apply response_vals|apply response_holds|apply response_empty|].
  exists b, m1, m2. split; [exact E1|]. split; [exact Eb|]. split; [exact E2|exact Hh].
Defined.

Lemma parse_msg_typed_witness :
  wp (ogs_tlv_parse_msg 0 d_response {| pk_head := []; pk_data := [2; 0; 9; 0; 1; 77] |})
    (empty_response 0) (λ _ m', typed max_depth (layout d_response) 0 m' ∧
      stays 0 (0 + extent (layout d_response)) (empty_response 0) m').
Proof.
  apply (parse_msg_typed d_response 0 {| pk_head := []; pk_data := [2; 0; 9; 0; 1; 77] |} (empty_response 0));
    [exact response_ok|]. exact (holds_typed _ _ _ _ _ (response_empty 0)).
Defined.

Lemma parse_unknown_element_witness :
  ∃ m1, ogs_tlv_parse_msg 0 d_response
      {| pk_head := []; pk_data := response_bytes ++ [250; 0; 1; 0; 1] ++ [3; 0; 1; 0; 9] |} (empty_response 0)
    = Ok (OGS_ERROR, m1) ∧ holds max_depth (layout d_response) 0 response_values m1.
Proof.
  apply (parse_unknown_element d_response response_values 0 (empty_response 0) _
    {| tlv_type := 250; tlv_instance := 0; tlv_value := [1] |}
    [{| tlv_type := 3; tlv_instance := 0; tlv_value := [9] |}]);
    [apply response_ok|apply response_vals|apply response_empty|vm_compute; reflexivity|].
  intros (c & Hc & Ety & _).
  assert (forallb (λ c, negb (type c =? 250)) (child_descs d_response) = true) as Hall by (by vm_compute).
  rewrite forallb_forall in Hall. apply list_elem_of_In, Hall in Hc. by rewrite Ety in Hc.
Defined.

Definition response_msg : ogs_gtp_message_t :=
  {| h := {| flags := 0; gtp_type := 33; gtp_length := 0; teid := 0; sqn := 0 |}; content := response_mem |}.
Definition response_answered : state :=
  script always [EUpdateTx 1 (hdr 33 0)
    {| pk_head := replicate OGS_TLV_MAX_HEADROOM 0; pk_data := response_bytes |}] received.

Lemma message_delivered_witness :
  ∃ b msg1, ogs_gtp_build_msg response_msg = Ok (OGS_OK, Some b, msg1) ∧
    ∃ y e pkt, heap response_answered !! 1 = Some y ∧ seq y !! 1%nat = Some e ∧ seq_pkbuf e = Some pkt ∧
      ∃ msg2, ogs_gtp_parse_msg pkt = Ok (OGS_OK, msg2) ∧ gtp_type (h msg2) = 33 ∧
        teid (h msg2) = 7 ∧ OGS_GTP_SQN_TO_XID (sqn (h msg2)) = 5.
Proof.
  destruct (message_delivered d_response ogs_gtp_create_session_response_s response_values response_msg
      (hdr 33 0) 1 (get_xact 1 received) received response_answered)
    as (b & msg1 & E & Hsent);
    [vm_compute; reflexivity|done|apply response_vals|apply response_holds|by vm_compute|done|done
    |apply (reachable_is_good always), reachable_received|vm_compute; reflexivity|].
  exists b, msg1. split; [exact E|].
  destruct Hsent as (y & e & pkt & Hy & He & Hp & msg2 & E2 & Et & Eteid & Ex & _).
  { assert (b = {| pk_head := replicate OGS_TLV_MAX_HEADROOM 0; pk_data := response_bytes |}) as ->.
    { vm_compute in E. by injection E. }
    vm_compute. reflexivity. }
  assert (Z.to_nat (step (get_xact 1 received)) = 1%nat ∧ xid (get_xact 1 received) = 5) as [Es Exid]
    by (vm_compute; by split).
  rewrite Es in He. rewrite Exid in Ex.
  exists y, e, pkt. split; [exact Hy|]. split; [exact He|]. split; [exact Hp|].
  exists msg2. split; [exact E2|]. split; [exact Et|]. split; [exact Eteid|exact Ex].
Defined.

(** A packet of eight octets, one octet less, and an element that is longer
    than the packet. *)
Lemma parse_packet_total_witness :
  (∃ rv msg, ogs_gtp_parse_msg {| pk_head := []; pk_data := [0x40; 1; 0; 4; 0; 0; 1; 0] |} = Ok (rv, msg) ∧
    message_typed msg) ∧
  ogs_gtp_parse_msg {| pk_head := []; pk_data := [0x40; 1; 0; 4; 0; 0; 1] |} = Aborted ∧
  ogs_gtp_parse_msg {| pk_head := []; pk_data := [0x40; 1; 0; 8; 0; 0; 1; 0; 3; 0; 9; 0] |} = Aborted ∧
  refused [3; 0; 9; 0].
Proof.
  split; [|split; [|split]].
  - pose proof (parse_packet_total {| pk_head := []; pk_data := [0x40; 1; 0; 4; 0; 0; 1; 0] |}) as Hp.
    destruct (ogs_gtp_parse_msg _) as [[rv msg]| |] eqn:E.
    + exists rv, msg. split; [reflexivity|apply Hp].
    + vm_compute in E. discriminate E.
    + destruct Hp.
  - vm_compute. reflexivity.
  - vm_compute. reflexivity.
  - assert (ogs_gtp_parse_msg {| pk_head := []; pk_data := [0x40; 1; 0; 8; 0; 0; 1; 0; 3; 0; 9; 0] |} = Aborted) as E
      by (vm_compute; reflexivity).
    pose proof (parse_packet_total {| pk_head := []; pk_data := [0x40; 1; 0; 8; 0; 0; 1; 0; 3; 0; 9; 0] |}) as Hp.
    rewrite E in Hp. destruct Hp as [Hp|Hp]; [vm_compute in Hp; discriminate Hp|exact Hp].
Defined.
