(* ===== verification/SgwContext.v ===== *)
(** * The contexts of the SGW: [src/sgw/sgw-context.h], [sgw-context.c]

    UEs, their sessions, the bearers of a session and the tunnels of a bearer
    are objects of four pools that point at each other.  The pools do not
    clear an object, so the model keeps the memory of every object; a pointer
    is the index of an object, and an access to one that is not allocated is
    [Undef].  The packets that wait for an idle UE are objects of a pool too. *)
From S2P Require Import Prelude.
From S2P Require Import CMem.
From S2P Require Import OgsLib.
From S2P Require Import ObjPool.
From S2P Require Import GtpConv.
From S2P Require Import GtpTypes.
From S2P Require Import GtpNode.
From S2P Require Import NasIes.
From stdpp Require Import functions.
#[local] Open Scope Z_scope.

(** Constants of ogslib and [ogs_buffer_to_bcd]. *)
Class OgsImsiLen := { OGS_MAX_IMSI_LEN : Z; ogs_buffer_to_bcd : list Z → list Z }.

Definition OGS_GTP_F_TEID_S1_U_SGW_GTP_U : Z := 1.
Definition OGS_GTP_F_TEID_S5_S8_SGW_GTP_U : Z := 4.
Definition OGS_GTP_F_TEID_S5_S8_PGW_GTP_U : Z := 5.
Definition OGS_GTP_F_TEID_S5_S8_SGW_GTP_C : Z := 6.
Definition OGS_GTP_F_TEID_S11_S4_SGW_GTP_C : Z := 11.
Definition OGS_GTP_F_TEID_SGW_GTP_U_FOR_DL_DATA_FORWARDING : Z := 23.
Definition OGS_GTP_F_TEID_SGW_GTP_U_FOR_UL_DATA_FORWARDING : Z := 28.

Definition SGW_S1U_INACTIVE : Z := 0x0001.
Definition SGW_DL_NOTI_SENT : Z := 0x0002.
Definition MAX_NUM_OF_PACKET_BUFFER : nat := 512.

(** [SGW_S5C_TEID], [SGW_S5C_TEID_TO_INDEX], [SGW_S5C_INDEX_TO_TEID]. *)
Definition SGW_S5C_TEID (teid : Z) : bool := negb (Z.land teid 0x80000000 =? 0).
Definition SGW_S5C_TEID_TO_INDEX (teid : Z) : Z := Z.land teid 0x7fffffff.
Definition SGW_S5C_INDEX_TO_TEID (index : Z) : Z := Z.lor index 0x80000000.

(** ** Objects *)
Record sgw_ue_t := {
  sgw_s11_teid : Z; mme_s11_teid : Z; u_imsi : list Z; u_imsi_bcd : list Z; u_state : Z;
  sess_list : list Z; u_gnode : option Z;
}.
Record sgw_sess_t := {
  sgw_s5c_teid : Z; pgw_s5c_teid : Z; s_apn : list Z; bearer_list : list Z; s_gnode : option Z;
  s_ue : Z;
}.
Record sgw_tunnel_t := {
  t_interface_type : Z; local_teid : Z; remote_teid : Z; t_bearer : Z; t_gnode : option Z;
}.

Section data.
Context `{OgsPlmn}.
(** [buffered]: the first [num_buffered_pkt] elements of [buffered_pkts]. *)
Record sgw_bearer_t := {
  b_ebi : Z; b_tai : ogs_tai_t; b_e_cgi : ogs_e_cgi_t; buffered : list Z; tunnel_list : list Z;
  b_sess : Z; b_ue : Z;
}.
End data.

(** ** Messages

    The elements that the SGW reads or changes in the messages it passes on
    between MME and PGW ([None]: the presence is 0), and the others. *)
Record bearer_context_t := {
  bc_presence : bool; bc_ebi : option Z; bc_cause : option Z;
  s1_u_enodeb_f_teid : option ogs_gtp_f_teid_t; s4_u_sgsn_f_teid : option ogs_gtp_f_teid_t;
  s5_s8_u_sgw_f_teid : option ogs_gtp_f_teid_t; s5_s8_u_pgw_f_teid : option ogs_gtp_f_teid_t;
  s12_rnc_f_teid : option ogs_gtp_f_teid_t; s2b_u_epdg_f_teid_5 : option ogs_gtp_f_teid_t;
  bc_rest : list Z;
}.
Record elements_t := {
  m_imsi : option (list Z); m_cause : option Z; m_apn : option (list Z);
  sender_f_teid : option ogs_gtp_f_teid_t; pgw_f_teid : option ogs_gtp_f_teid_t;
  m_uli : option ogs_tlv_octet_t; linked_eps_bearer_id : option Z; eps_bearer_ids : option Z;
  m_bearer : bearer_context_t; m_rest : list Z;
}.
Inductive message_body :=
| CreateSessionRequest (e : elements_t)
| CreateSessionResponse (e : elements_t)
| ModifyBearerRequest (e : elements_t)
| ModifyBearerResponse (cause : Z)
| DeleteSessionRequest (e : elements_t)
| DeleteSessionResponse (e : elements_t)
| CreateBearerRequest (e : elements_t)
| CreateBearerResponse (e : elements_t)
| UpdateBearerRequest (e : elements_t)
| UpdateBearerResponse (e : elements_t)
| DeleteBearerRequest (e : elements_t)
| DeleteBearerResponse (e : elements_t)
| ReleaseAccessBearersRequest
| ReleaseAccessBearersResponse (cause : Z)
| DownlinkDataNotification (ebi arp : Z)
| DownlinkDataNotificationAcknowledge
| CreateIndirectDataForwardingTunnelRequest (bearers : list bearer_context_t)
| CreateIndirectDataForwardingTunnelResponse (cause : Z) (bearers : list bearer_context_t)
| DeleteIndirectDataForwardingTunnelRequest
| DeleteIndirectDataForwardingTunnelResponse (cause : Z)
| OtherMessage (type : Z).
(** [m_create]: what [message.create_session_request] of the union holds,
    which the code reads from every message without TEID. *)
Record gtp_message := { h_teid : Z; m_body : message_body; m_create : elements_t }.
(** A transaction that [ogs_gtp_xact_receive] found, and its [assoc_xact]. *)
Record xact_ref := { xact : Z; assoc_xact : option Z }.

(** What the SGW gives to the transaction layer and to the user plane. *)
Inductive sgw_output :=
| Request (node : Z) (teid : Z) (m : message_body) (assoc : option Z)
| Response (xact : Z) (teid : Z) (m : message_body)
| Commit (xact : Z)
| GtpU (node : Z) (packet : list Z)
| EndMarker (node : Z) (teid : Z)
| EchoResponse (packet : list Z).

(** The events, with the result of [ogs_gtp_xact_receive] ([None]: it fails). *)
Inductive sgw_event :=
| SGW_EVT_S11_MESSAGE (m : gtp_message) (x : option xact_ref)
| SGW_EVT_S5C_MESSAGE (m : gtp_message) (x : option xact_ref)
| SGW_EVT_LO_DLDATA_NOTI (bearer : Z).

(** The four lists of peers. *)
Inductive peers := mme_s11_list | pgw_s5c_list | enb_s1u_list | pgw_s5u_list.
#[export] Instance peers_eq_dec : EqDecision peers.
Proof. solve_decision. Defined.

Record sgw_conf := {
  pool_ue : Z; pool_tunnel : Z; ip_conf : ip_parameter;
  gtpc_port : Z; gtpc_sock : option Z; gtpc_sock6 : option Z;
  gtpc_addr : option ogs_sockaddr_t; gtpc_addr6 : option ogs_sockaddr_t;
  gtpu_port : Z; gtpu_sock : option Z; gtpu_sock6 : option Z;
  gtpu_addr : option ogs_sockaddr_t; gtpu_addr6 : option ogs_sockaddr_t;
}.

Section context.
Context `{Host, OgsPlmn, OgsPool, OgsList, OgsSock}.

Record sgw_t := {
  ue_pool : pool_t; ues : Z → sgw_ue_t; sgw_ue_list : list Z;
  sess_pool : pool_t; sesss : Z → sgw_sess_t;
  bearer_pool : pool_t; bearers : Z → sgw_bearer_t;
  tunnel_pool : pool_t; tunnels : Z → sgw_tunnel_t;
  pkt_pool : pool_t; pkts : Z → list Z;
  gtp_nodes : node_store; node_lists : peers → list Z;
  queue : list sgw_event; trace : list sgw_output;
}.

Definition sgw_eta (s : sgw_t) : sgw_t := {|
  ue_pool := ue_pool s; ues := ues s; sgw_ue_list := sgw_ue_list s;
  sess_pool := sess_pool s; sesss := sesss s; bearer_pool := bearer_pool s; bearers := bearers s;
  tunnel_pool := tunnel_pool s; tunnels := tunnels s; pkt_pool := pkt_pool s; pkts := pkts s;
  gtp_nodes := gtp_nodes s; node_lists := node_lists s; queue := queue s; trace := trace s |}.
Definition set_ue_pool : pool_t → sgw_t → sgw_t := ltac:(record_setter sgw_eta ue_pool).
Definition set_ues : (Z → sgw_ue_t) → sgw_t → sgw_t := ltac:(record_setter sgw_eta ues).
Definition set_sgw_ue_list : list Z → sgw_t → sgw_t := ltac:(record_setter sgw_eta sgw_ue_list).
Definition set_sess_pool : pool_t → sgw_t → sgw_t := ltac:(record_setter sgw_eta sess_pool).
Definition set_sesss : (Z → sgw_sess_t) → sgw_t → sgw_t := ltac:(record_setter sgw_eta sesss).
Definition set_bearer_pool : pool_t → sgw_t → sgw_t := ltac:(record_setter sgw_eta bearer_pool).
Definition set_bearers : (Z → sgw_bearer_t) → sgw_t → sgw_t := ltac:(record_setter sgw_eta bearers).
Definition set_tunnel_pool : pool_t → sgw_t → sgw_t := ltac:(record_setter sgw_eta tunnel_pool).
Definition set_tunnels : (Z → sgw_tunnel_t) → sgw_t → sgw_t := ltac:(record_setter sgw_eta tunnels).
Definition set_pkt_pool : pool_t → sgw_t → sgw_t := ltac:(record_setter sgw_eta pkt_pool).
Definition set_pkts : (Z → list Z) → sgw_t → sgw_t := ltac:(record_setter sgw_eta pkts).
Definition set_gtp_nodes : node_store → sgw_t → sgw_t := ltac:(record_setter sgw_eta gtp_nodes).
Definition set_node_lists : (peers → list Z) → sgw_t → sgw_t := ltac:(record_setter sgw_eta node_lists).
Definition set_queue : list sgw_event → sgw_t → sgw_t := ltac:(record_setter sgw_eta queue).
Definition set_trace : list sgw_output → sgw_t → sgw_t := ltac:(record_setter sgw_eta trace).
Definition out (o : sgw_output) : M sgw_t () := modify (λ s, set_trace (trace s ++ [o]) s).

Definition the_ue := the ue_pool ues.
Definition the_sess := the sess_pool sesss.
Definition the_bearer := the bearer_pool bearers.
Definition the_tunnel := the tunnel_pool tunnels.
Definition on_ue := change ue_pool ues set_ues.
Definition on_sess := change sess_pool sesss set_sesss.
Definition on_bearer := change bearer_pool bearers set_bearers.
Definition on_tunnel := change tunnel_pool tunnels set_tunnels.
End context.

(** ** Fields *)
Definition ue_eta (u : sgw_ue_t) : sgw_ue_t := {|
  sgw_s11_teid := sgw_s11_teid u; mme_s11_teid := mme_s11_teid u; u_imsi := u_imsi u;
  u_imsi_bcd := u_imsi_bcd u; u_state := u_state u; sess_list := sess_list u; u_gnode := u_gnode u |}.
Definition set_mme_s11_teid : Z → sgw_ue_t → sgw_ue_t := ltac:(record_setter ue_eta mme_s11_teid).
Definition set_u_state : Z → sgw_ue_t → sgw_ue_t := ltac:(record_setter ue_eta u_state).
Definition set_sess_list : list Z → sgw_ue_t → sgw_ue_t := ltac:(record_setter ue_eta sess_list).
Definition set_u_gnode : option Z → sgw_ue_t → sgw_ue_t := ltac:(record_setter ue_eta u_gnode).
Definition sess_eta (s : sgw_sess_t) : sgw_sess_t := {|
  sgw_s5c_teid := sgw_s5c_teid s; pgw_s5c_teid := pgw_s5c_teid s; s_apn := s_apn s;
  bearer_list := bearer_list s; s_gnode := s_gnode s; s_ue := s_ue s |}.
Definition set_pgw_s5c_teid : Z → sgw_sess_t → sgw_sess_t := ltac:(record_setter sess_eta pgw_s5c_teid).
Definition set_bearer_list : list Z → sgw_sess_t → sgw_sess_t := ltac:(record_setter sess_eta bearer_list).
Definition set_s_gnode : option Z → sgw_sess_t → sgw_sess_t := ltac:(record_setter sess_eta s_gnode).
Definition tunnel_eta (t : sgw_tunnel_t) : sgw_tunnel_t := {|
  t_interface_type := t_interface_type t; local_teid := local_teid t; remote_teid := remote_teid t;
  t_bearer := t_bearer t; t_gnode := t_gnode t |}.
Definition set_remote_teid : Z → sgw_tunnel_t → sgw_tunnel_t := ltac:(record_setter tunnel_eta remote_teid).
Definition set_t_gnode : option Z → sgw_tunnel_t → sgw_tunnel_t := ltac:(record_setter tunnel_eta t_gnode).

(** [SGW_SET_UE_STATE], [SGW_RESET_UE_STATE]. *)
Definition SGW_SET_UE_STATE (st : Z) (u : sgw_ue_t) : sgw_ue_t := set_u_state (Z.lor (u_state u) st) u.
Definition SGW_RESET_UE_STATE (st : Z) (u : sgw_ue_t) : sgw_ue_t :=
  set_u_state (Z.ldiff (u_state u) st) u.

Section bearer_fields.
Context `{OgsPlmn}.
Definition bearer_eta (b : sgw_bearer_t) : sgw_bearer_t := {|
  b_ebi := b_ebi b; b_tai := b_tai b; b_e_cgi := b_e_cgi b; buffered := buffered b;
  tunnel_list := tunnel_list b; b_sess := b_sess b; b_ue := b_ue b |}.
Definition set_b_ebi : Z → sgw_bearer_t → sgw_bearer_t := ltac:(record_setter bearer_eta b_ebi).
Definition set_b_tai : ogs_tai_t → sgw_bearer_t → sgw_bearer_t := ltac:(record_setter bearer_eta b_tai).
Definition set_b_e_cgi : ogs_e_cgi_t → sgw_bearer_t → sgw_bearer_t :=
  ltac:(record_setter bearer_eta b_e_cgi).
Definition set_buffered : list Z → sgw_bearer_t → sgw_bearer_t := ltac:(record_setter bearer_eta buffered).
Definition set_tunnel_list : list Z → sgw_bearer_t → sgw_bearer_t :=
  ltac:(record_setter bearer_eta tunnel_list).
End bearer_fields.

Section operations.
Context `{Host, OgsPlmn, OgsPool, OgsList, OgsSock, OgsImsiLen} (conf : sgw_conf).

(** ** Tunnels *)
Definition sgw_tunnel_add (b : Z) (interface_type : Z) : M sgw_t Z :=
  t ← alloc tunnel_pool set_tunnel_pool;
  massert ((0 <? t) && (t <=? pool_tunnel conf));;
  on_tunnel t (λ x, {| t_interface_type := interface_type; local_teid := t;
    remote_teid := remote_teid x; t_bearer := b; t_gnode := None |});;
  on_bearer b (λ x, set_tunnel_list (ogs_list_add (tunnel_list x) t) x);;
  mret t.
Definition sgw_tunnel_remove (t : Z) : M sgw_t () :=
  x ← the_tunnel t;
  on_bearer (t_bearer x) (λ b, set_tunnel_list (ogs_list_remove (tunnel_list b) t) b);;
  free tunnel_pool set_tunnel_pool t.
Definition sgw_tunnel_remove_all (b : Z) : M sgw_t () :=
  x ← the_bearer b; each sgw_tunnel_remove (tunnel_list x).
Definition sgw_tunnel_find_by_teid (teid : Z) : M sgw_t (option Z) :=
  s ← get; mret (if decide (teid ∈ pool_used (tunnel_pool s)) then Some teid else None).
Definition sgw_tunnel_find_by_interface_type (b : Z) (ty : Z) : M sgw_t (option Z) :=
  x ← the_bearer b; first_in the_tunnel (λ t, t_interface_type t =? ty) (tunnel_list x).
Definition sgw_s1u_tunnel_in_bearer (b : Z) : M sgw_t (option Z) :=
  sgw_tunnel_find_by_interface_type b OGS_GTP_F_TEID_S1_U_SGW_GTP_U.
Definition sgw_s5u_tunnel_in_bearer (b : Z) : M sgw_t (option Z) :=
  sgw_tunnel_find_by_interface_type b OGS_GTP_F_TEID_S5_S8_SGW_GTP_U.

(** ** Packets *)
Definition pkbuf_free (p : Z) : M sgw_t () := free pkt_pool set_pkt_pool p.

(** ** Bearers *)
Definition sgw_bearer_add (i : Z) : M sgw_t Z :=
  s ← the_sess i;
  b ← alloc bearer_pool set_bearer_pool;
  on_bearer b (λ x, {| b_ebi := b_ebi x; b_tai := b_tai x; b_e_cgi := b_e_cgi x;
    buffered := buffered x; tunnel_list := []; b_sess := i; b_ue := s_ue s |});;
  _ ← sgw_tunnel_add b OGS_GTP_F_TEID_S1_U_SGW_GTP_U;
  _ ← sgw_tunnel_add b OGS_GTP_F_TEID_S5_S8_SGW_GTP_U;
  on_sess i (λ x, set_bearer_list (ogs_list_add (bearer_list x) b) x);;
  mret b.
Definition sgw_bearer_remove (b : Z) : M sgw_t () :=
  x ← the_bearer b;
  on_sess (b_sess x) (λ s, set_bearer_list (ogs_list_remove (bearer_list s) b) s);;
  sgw_tunnel_remove_all b;;
  x ← the_bearer b;
  each pkbuf_free (buffered x);;
  free bearer_pool set_bearer_pool b.
Definition sgw_bearer_remove_all (i : Z) : M sgw_t () :=
  s ← the_sess i; each sgw_bearer_remove (bearer_list s).
Definition sgw_bearer_find_by_sgw_s5u_teid (teid : Z) : M sgw_t (option Z) :=
  s ← get; mret (if decide (teid ∈ pool_used (bearer_pool s)) then Some teid else None).
Definition sgw_bearer_find_by_sess_ebi (i : Z) (ebi : Z) : M sgw_t (option Z) :=
  s ← the_sess i; first_in the_bearer (λ b, ebi =? b_ebi b) (bearer_list s).
Fixpoint bearer_in_sessions (l : list Z) (ebi : Z) : M sgw_t (option Z) :=
  match l with
  | [] => mret None
  | i :: l =>
      b ← sgw_bearer_find_by_sess_ebi i ebi;
      match b with Some b => mret (Some b) | None => bearer_in_sessions l ebi end
  end.
Definition sgw_bearer_find_by_ue_ebi (u : Z) (ebi : Z) : M sgw_t (option Z) :=
  x ← the_ue u; bearer_in_sessions (sess_list x) ebi.
Definition sgw_default_bearer_in_sess (i : Z) : M sgw_t (option Z) :=
  s ← the_sess i; mret (head (bearer_list s)).

(** ** Sessions *)
Definition sgw_sess_add (u : Z) (apn : list Z) (ebi : Z) : M sgw_t Z :=
  massert (negb (ebi =? 0));;
  i ← alloc sess_pool set_sess_pool;
  on_sess i (λ x, {| sgw_s5c_teid := SGW_S5C_INDEX_TO_TEID i; pgw_s5c_teid := pgw_s5c_teid x;
    s_apn := apn; bearer_list := []; s_gnode := None; s_ue := u |});;
  b ← sgw_bearer_add i;
  on_bearer b (set_b_ebi ebi);;
  on_ue u (λ x, set_sess_list (ogs_list_add (sess_list x) i) x);;
  mret i.
Definition sgw_sess_remove (i : Z) : M sgw_t () :=
  s ← the_sess i;
  on_ue (s_ue s) (λ u, set_sess_list (ogs_list_remove (sess_list u) i) u);;
  sgw_bearer_remove_all i;;
  free sess_pool set_sess_pool i.
Definition sgw_sess_remove_all (u : Z) : M sgw_t () :=
  x ← the_ue u; each sgw_sess_remove (sess_list x).
Definition sgw_sess_find_by_teid (teid : Z) : M sgw_t (option Z) :=
  s ← get;
  let i := SGW_S5C_TEID_TO_INDEX teid in
  mret (if decide (i ∈ pool_used (sess_pool s)) then Some i else None).
Definition sgw_sess_find_by_apn (u : Z) (apn : list Z) : M sgw_t (option Z) :=
  x ← the_ue u; first_in the_sess (λ s, bool_decide (s_apn s = apn)) (sess_list x).
Definition sgw_sess_find_by_ebi (u : Z) (ebi : Z) : M sgw_t (option Z) :=
  b ← sgw_bearer_find_by_ue_ebi u ebi;
  match b with Some b => x ← the_bearer b; mret (Some (b_sess x)) | None => mret None end.

(** ** UEs *)
(** The IMSI is copied into [OGS_MAX_IMSI_LEN] octets, whatever its length. *)
Definition sgw_ue_add (imsi : list Z) : M sgw_t Z :=
  massert (negb (length imsi =? 0)%nat);;
  u ← alloc ue_pool set_ue_pool;
  massert ((0 <? u) && (u <=? pool_ue conf));;
  (if Z.of_nat (length imsi) <=? OGS_MAX_IMSI_LEN then mret () else lift Undef);;
  on_ue u (λ x, {| sgw_s11_teid := u; mme_s11_teid := mme_s11_teid x; u_imsi := imsi;
    u_imsi_bcd := ogs_buffer_to_bcd imsi; u_state := u_state x; sess_list := []; u_gnode := u_gnode x |});;
  modify (λ s, set_sgw_ue_list (ogs_list_add (sgw_ue_list s) u) s);;
  mret u.
Definition sgw_ue_remove (u : Z) : M sgw_t () :=
  _ ← the_ue u;
  modify (λ s, set_sgw_ue_list (ogs_list_remove (sgw_ue_list s) u) s);;
  sgw_sess_remove_all u;;
  free ue_pool set_ue_pool u.
Definition sgw_ue_remove_all : M sgw_t () := s ← get; each sgw_ue_remove (sgw_ue_list s).
Definition sgw_ue_find_by_teid (teid : Z) : M sgw_t (option Z) :=
  s ← get; mret (if decide (teid ∈ pool_used (ue_pool s)) then Some teid else None).

(** ** Peers *)
Definition with_nodes {A} : M node_store A → M sgw_t A := zoom gtp_nodes set_gtp_nodes.
(** The peer of an F-TEID: found, or added and connected. *)
Definition peer_of (l : peers) (port : Z) (sock sock6 : option Z) (f : ogs_gtp_f_teid_t) : M sgw_t Z :=
  s ← get;
  found ← with_nodes (ogs_gtp_node_find (node_lists s l) f);
  match found with
  | Some n => mret n
  | None =>
      '(n, l') ← with_nodes (ogs_gtp_node_add (node_lists s l) f port (ip_conf conf));
      modify (λ s, set_node_lists (<[l := l']> (node_lists s)) s);;
      ok ← with_nodes (ogs_gtp_connect sock sock6 n);
      massert ok;;
      mret n
  end.
Definition gtpc_peer (l : peers) : ogs_gtp_f_teid_t → M sgw_t Z :=
  peer_of l (gtpc_port conf) (gtpc_sock conf) (gtpc_sock6 conf).
Definition gtpu_peer (l : peers) : ogs_gtp_f_teid_t → M sgw_t Z :=
  peer_of l (gtpu_port conf) (gtpu_sock conf) (gtpu_sock6 conf).

Definition sgw_mme_add_by_message (m : gtp_message) : M sgw_t (option Z) :=
  match sender_f_teid (m_create m) with
  | None => mret None
  | Some f => n ← gtpc_peer mme_s11_list f; mret (Some n)
  end.
Definition sgw_ue_add_by_message (m : gtp_message) : M sgw_t (option Z) :=
  match m_imsi (m_create m) with
  | None => mret None
  | Some imsi => u ← sgw_ue_add imsi; mret (Some u)
  end.
End operations.
