(* ===== verification/SgwHandler.v ===== *)
(** * The GTP-C handlers of the SGW: [sgw-s11-handler.c], [sgw-s5c-handler.c]

    A message of one interface is changed and passed on over the other.  The
    transaction layer ([GtpXact.v]) is called through the outputs [Request]
    (create, associate and commit a local transaction), [Response] (update and
    commit the peer's) and [Commit]. *)
From S2P Require Import Prelude.
From S2P Require Import CMem.
From S2P Require Import OgsLib.
From S2P Require Import ObjPool.
From S2P Require Import GtpConv.
From S2P Require Import GtpTypes.
From S2P Require Import GtpNode.
From S2P Require Import NasIes.
From S2P Require Import NasConv.
From S2P Require Import SgwContext.
#[local] Open Scope Z_scope.

Definition OGS_GTP_CAUSE_REQUEST_ACCEPTED : Z := 16.
Definition OGS_GTP_CAUSE_CONTEXT_NOT_FOUND : Z := 64.

(** ** Changes of a message *)
Definition bearer_context_eta (b : bearer_context_t) : bearer_context_t := {|
  bc_presence := bc_presence b; bc_ebi := bc_ebi b; bc_cause := bc_cause b;
  s1_u_enodeb_f_teid := s1_u_enodeb_f_teid b; s4_u_sgsn_f_teid := s4_u_sgsn_f_teid b;
  s5_s8_u_sgw_f_teid := s5_s8_u_sgw_f_teid b; s5_s8_u_pgw_f_teid := s5_s8_u_pgw_f_teid b;
  s12_rnc_f_teid := s12_rnc_f_teid b; s2b_u_epdg_f_teid_5 := s2b_u_epdg_f_teid_5 b;
  bc_rest := bc_rest b |}.
Definition set_s1_u_enodeb : option ogs_gtp_f_teid_t → bearer_context_t → bearer_context_t :=
  ltac:(record_setter bearer_context_eta s1_u_enodeb_f_teid).
Definition set_s4_u_sgsn : option ogs_gtp_f_teid_t → bearer_context_t → bearer_context_t :=
  ltac:(record_setter bearer_context_eta s4_u_sgsn_f_teid).
Definition set_s5_s8_u_sgw : option ogs_gtp_f_teid_t → bearer_context_t → bearer_context_t :=
  ltac:(record_setter bearer_context_eta s5_s8_u_sgw_f_teid).
Definition set_s5_s8_u_pgw : option ogs_gtp_f_teid_t → bearer_context_t → bearer_context_t :=
  ltac:(record_setter bearer_context_eta s5_s8_u_pgw_f_teid).
Definition elements_eta (m : elements_t) : elements_t := {|
  m_imsi := m_imsi m; m_cause := m_cause m; m_apn := m_apn m; sender_f_teid := sender_f_teid m;
  pgw_f_teid := pgw_f_teid m; m_uli := m_uli m; linked_eps_bearer_id := linked_eps_bearer_id m;
  eps_bearer_ids := eps_bearer_ids m; m_bearer := m_bearer m; m_rest := m_rest m |}.
Definition set_sender_f_teid : option ogs_gtp_f_teid_t → elements_t → elements_t :=
  ltac:(record_setter elements_eta sender_f_teid).
Definition set_pgw_f_teid : option ogs_gtp_f_teid_t → elements_t → elements_t :=
  ltac:(record_setter elements_eta pgw_f_teid).
Definition set_m_bearer : bearer_context_t → elements_t → elements_t :=
  ltac:(record_setter elements_eta m_bearer).
Definition on_m_bearer (f : bearer_context_t → bearer_context_t) (m : elements_t) : elements_t :=
  set_m_bearer (f (m_bearer m)) m.

Section handlers.
Context `{Host, OgsBits, OgsPlmn, !Ogs3gpp, OgsPool, OgsList, OgsSock, OgsImsiLen, OgsLengths, OgsFqdn}
        (conf : sgw_conf).

Definition present {A} (o : option A) : bool := match o with Some _ => true | None => false end.
(** The TEID in host order. *)
Definition host_teid (f : ogs_gtp_f_teid_t) : Z := ntohl (teid f).
(** An F-TEID of the SGW itself. *)
Definition cleared_f_teid (interface_type_ teid_ : Z) : ogs_gtp_f_teid_t := {|
  ft_ipv4 := 0; ft_ipv6 := 0; interface_type := interface_type_; teid := htonl teid_;
  ft_addr := replicate OGS_IPV4V6_LEN 0 |}.
Definition gtpc_f_teid (interface_type_ teid_ : Z) : M sgw_t ogs_gtp_f_teid_t :=
  '(f, _) ← lift (ogs_gtp_sockaddr_to_f_teid (gtpc_addr conf) (gtpc_addr6 conf)
                    (cleared_f_teid interface_type_ teid_));
  mret f.
Definition gtpu_f_teid (interface_type_ teid_ : Z) : M sgw_t ogs_gtp_f_teid_t :=
  '(f, _) ← lift (ogs_gtp_sockaddr_to_f_teid (gtpu_addr conf) (gtpu_addr6 conf)
                    (cleared_f_teid interface_type_ teid_));
  mret f.

(** [ogs_gtp_xact_local_create] asserts that there is a peer. *)
Definition request (node : option Z) (teid : Z) (m : message_body) (assoc : option Z) : M sgw_t () :=
  n ← assert_some node; out (Request n teid m assoc).
Definition store_uli (b : Z) (octet : ogs_tlv_octet_t) : M sgw_t () :=
  '(uli, decoded) ← lift (Uli.ogs_gtp_parse_uli octet);
  massert (len octet =? decoded);;
  on_bearer b (λ x, set_b_e_cgi (Uli.e_cgi uli) (set_b_tai (Uli.tai uli) x)).
(** [char apn[OGS_MAX_APN_LEN]]: the name and its terminator must fit. *)
Definition parse_apn (data : list Z) : M sgw_t (list Z) :=
  apn ← lift (ogs_fqdn_parse data);
  if (length apn <? OGS_MAX_APN_LEN)%nat then mret (c_string apn) else lift Undef.

(** ** Create session request *)
(** The session of the EBI, or a new one; [None]: the message has no APN. *)
Definition session_of_request (u ebi : Z) (apn : option (list Z)) : M sgw_t (option Z) :=
  found ← sgw_sess_find_by_ebi u ebi;
  match found, apn with
  | Some i, _ => mret (Some i)
  | None, None => mret None
  | None, Some data => a ← parse_apn data; i ← sgw_sess_add conf u a ebi; mret (Some i)
  end.
Definition forward_create_session (x : xact_ref) (u i : Z) (m : elements_t)
    (mme pgw : ogs_gtp_f_teid_t) (uli : ogs_tlv_octet_t) : M sgw_t () :=
  b ← sgw_default_bearer_in_sess i;
  b ← assert_some b;
  t ← sgw_s5u_tunnel_in_bearer b;
  t ← assert_some t;
  on_ue u (set_mme_s11_teid (host_teid mme));;
  s ← the_sess i;
  s5c ← gtpc_f_teid OGS_GTP_F_TEID_S5_S8_SGW_GTP_C (sgw_s5c_teid s);
  n ← gtpc_peer conf pgw_s5c_list pgw;
  on_sess i (set_s_gnode (Some n));;
  x5 ← the_tunnel t;
  s5u ← gtpu_f_teid OGS_GTP_F_TEID_S5_S8_SGW_GTP_U (local_teid x5);
  store_uli b uli;;
  s ← the_sess i;
  request (s_gnode s) (pgw_s5c_teid s)
    (CreateSessionRequest (set_sender_f_teid (Some s5c) (set_pgw_f_teid None
       (on_m_bearer (set_s5_s8_u_sgw (Some s5u)) m)))) (Some (xact x)).
Definition sgw_s11_handle_create_session_request (x : xact_ref) (u : Z) (m : elements_t)
    : M sgw_t () :=
  let c := m_bearer m in
  if negb (bc_presence c) then mret ()
  else match bc_ebi c with
  | None => mret ()
  | Some ebi =>
      i ← session_of_request u ebi (m_apn m);
      match i, sender_f_teid m, pgw_f_teid m, m_uli m with
      | Some i, Some mme, Some pgw, Some uli => forward_create_session x u i m mme pgw uli
      | _, _, _, _ => mret ()
      end
  end.

(** ** Modify bearer request *)
(** [sgw_gtp_send_end_marker]: the packet has the TEID that the tunnel has
    now, in a header followed by 92 octets that were not written. *)
Definition sgw_gtp_send_end_marker (t : Z) : M sgw_t () :=
  x ← the_tunnel t;
  n ← assert_some (t_gnode x);
  node ← with_nodes (the_node n);
  massert (present (n_sock node));;
  out (EndMarker n (remote_teid x)).
Definition modify_bearer (u b : Z) (enb_s1u : ogs_gtp_f_teid_t) (uli : option ogs_tlv_octet_t)
    : M sgw_t () :=
  t ← sgw_s1u_tunnel_in_bearer b;
  t ← assert_some t;
  on_tunnel t (set_remote_teid (host_teid enb_s1u));;
  enb ← gtpu_peer conf enb_s1u_list enb_s1u;
  (match uli with Some o => store_uli b o | None => mret () end);;
  x1 ← the_tunnel t;
  (match t_gnode x1 with
   | Some old =>
       if old =? enb then mret ()
       else node ← with_nodes (the_node old);
            massert (present (n_sock node));;
            sgw_gtp_send_end_marker t
   | None => mret ()
   end);;
  on_tunnel t (set_t_gnode (Some enb));;
  on_ue u (SGW_RESET_UE_STATE SGW_S1U_INACTIVE).
Definition respond (x : Z) (u : Z) (m : message_body) : M sgw_t () :=
  ue ← the_ue u; out (Response x (mme_s11_teid ue) m).
Definition sgw_s11_handle_modify_bearer_request (x : xact_ref) (u : Z) (m : elements_t)
    : M sgw_t () :=
  let c := m_bearer m in
  match bc_presence c, bc_ebi c, s1_u_enodeb_f_teid c with
  | true, Some ebi, Some enb_s1u =>
      ue ← the_ue u;
      found ← sgw_bearer_find_by_ue_ebi u ebi;
      cause ← (match found with
               | None => mret OGS_GTP_CAUSE_CONTEXT_NOT_FOUND
               | Some b => modify_bearer u b enb_s1u (m_uli m);; mret OGS_GTP_CAUSE_REQUEST_ACCEPTED
               end);
      out (Response (xact x) (mme_s11_teid ue) (ModifyBearerResponse cause))
  | _, _, _ => mret ()
  end.

(** ** Delete session request *)
Definition sgw_s11_handle_delete_session_request (x : xact_ref) (u : Z) (m : elements_t)
    : M sgw_t () :=
  match linked_eps_bearer_id m with
  | None => mret ()
  | Some ebi =>
      i ← sgw_sess_find_by_ebi u ebi;
      i ← assert_some i;
      s ← the_sess i;
      request (s_gnode s) (pgw_s5c_teid s) (DeleteSessionRequest m) (Some (xact x))
  end.

(** ** Answers of the MME *)
Definition forward_create_bearer (s5c : Z) (u : Z) (m : elements_t) (ebi : Z)
    (enb_s1u sgw_s1u : ogs_gtp_f_teid_t) (uli : ogs_tlv_octet_t) : M sgw_t () :=
  t ← sgw_tunnel_find_by_teid (host_teid sgw_s1u);
  t ← assert_some t;
  x1 ← the_tunnel t;
  let b := t_bearer x1 in
  t5 ← sgw_s5u_tunnel_in_bearer b;
  t5 ← assert_some t5;
  y ← the_bearer b;
  s ← the_sess (b_sess y);
  on_bearer b (set_b_ebi ebi);;
  on_tunnel t (set_remote_teid (host_teid enb_s1u));;
  enb ← gtpu_peer conf enb_s1u_list enb_s1u;
  on_tunnel t (set_t_gnode (Some enb));;
  store_uli b uli;;
  on_ue u (SGW_RESET_UE_STATE SGW_S1U_INACTIVE);;
  x5 ← the_tunnel t5;
  s5u ← gtpu_f_teid OGS_GTP_F_TEID_S5_S8_SGW_GTP_U (local_teid x5);
  n ← assert_some (t_gnode x5);
  node ← with_nodes (the_node n);
  ip ← lift (access (n_ip node));
  '(pgw_s5u, _) ← lift (ogs_gtp_ip_to_f_teid ip
                          (cleared_f_teid OGS_GTP_F_TEID_S5_S8_PGW_GTP_U (remote_teid x5)));
  out (Response s5c (pgw_s5c_teid s) (CreateBearerResponse (on_m_bearer (λ c,
    set_s5_s8_u_pgw (Some pgw_s5u) (set_s5_s8_u_sgw (Some s5u) (set_s1_u_enodeb None
      (set_s4_u_sgsn None c)))) m))).
Definition sgw_s11_handle_create_bearer_response (x : xact_ref) (u : Z) (m : elements_t)
    : M sgw_t () :=
  s5c ← assert_some (assoc_xact x);
  let c := m_bearer m in
  match bc_presence c, bc_ebi c, s1_u_enodeb_f_teid c, s4_u_sgsn_f_teid c, m_uli m with
  | true, Some ebi, Some enb_s1u, Some sgw_s1u, Some uli =>
      forward_create_bearer s5c u m ebi enb_s1u sgw_s1u uli
  | _, _, _, _, _ => mret ()
  end.

(** The bearer that the answer names, and the TEID of its session at the PGW. *)
Definition bearer_answered (u : Z) (c : bearer_context_t) : M sgw_t (option (Z * Z)) :=
  match bc_presence c, bc_ebi c with
  | true, Some ebi =>
      b ← sgw_bearer_find_by_ue_ebi u ebi;
      b ← assert_some b;
      y ← the_bearer b;
      s ← the_sess (b_sess y);
      mret (Some (b, pgw_s5c_teid s))
  | _, _ => mret None
  end.
Definition sgw_s11_handle_update_bearer_response (x : xact_ref) (u : Z) (m : elements_t)
    : M sgw_t () :=
  s5c ← assert_some (assoc_xact x);
  r ← bearer_answered u (m_bearer m);
  match r with
  | Some (_, teid) => out (Response s5c teid (UpdateBearerResponse m))
  | None => mret ()
  end.
Definition sgw_s11_handle_delete_bearer_response (x : xact_ref) (u : Z) (m : elements_t)
    : M sgw_t () :=
  s5c ← assert_some (assoc_xact x);
  r ← bearer_answered u (m_bearer m);
  match r with
  | Some (b, teid) =>
      out (Response s5c teid (DeleteBearerResponse m));;
      sgw_bearer_remove b
  | None => mret ()
  end.

(** ** Idle mode *)
Definition release_bearer (b : Z) : M sgw_t () :=
  t ← sgw_s1u_tunnel_in_bearer b; t ← assert_some t; on_tunnel t (set_remote_teid 0).
Definition release_session (i : Z) : M sgw_t () :=
  s ← the_sess i; each release_bearer (bearer_list s).
Definition sgw_s11_handle_release_access_bearers_request (x : xact_ref) (u : Z) : M sgw_t () :=
  on_ue u (SGW_SET_UE_STATE SGW_S1U_INACTIVE);;
  on_ue u (SGW_RESET_UE_STATE SGW_DL_NOTI_SENT);;
  ue ← the_ue u;
  each release_session (sess_list ue);;
  respond (xact x) u (ReleaseAccessBearersResponse OGS_GTP_CAUSE_REQUEST_ACCEPTED).

Definition sgw_s11_handle_lo_dldata_notification (b : Z) : M sgw_t () :=
  y ← the_bearer b;
  ue ← the_ue (b_ue y);
  request (u_gnode ue) (mme_s11_teid ue) (DownlinkDataNotification (b_ebi y) 0x61) None.
Definition sgw_s11_handle_downlink_data_notification_ack (x : xact_ref) : M sgw_t () :=
  out (Commit (xact x)).

(** ** Indirect tunnels *)
Definition GTP_MAX_NUM_OF_INDIRECT_TUNNEL : nat := 11.
(** One forwarding tunnel to the given end; the F-TEID of the SGW. *)
Definition forwarding_tunnel (b : Z) (ty : Z) (f : ogs_gtp_f_teid_t) : M sgw_t ogs_gtp_f_teid_t :=
  t ← sgw_tunnel_add conf b ty;
  on_tunnel t (set_remote_teid (host_teid f));;
  enb ← gtpu_peer conf enb_s1u_list f;
  on_tunnel t (set_t_gnode (Some enb));;
  x ← the_tunnel t;
  gtpu_f_teid (t_interface_type x) (local_teid x).
Definition forwarding_tunnel_opt (b : Z) (ty : Z) (f : option ogs_gtp_f_teid_t)
    : M sgw_t (option ogs_gtp_f_teid_t) :=
  match f with
  | Some f => g ← forwarding_tunnel b ty f; mret (Some g)
  | None => mret None
  end.
Definition no_bearer_context : bearer_context_t := {|
  bc_presence := false; bc_ebi := None; bc_cause := None; s1_u_enodeb_f_teid := None;
  s4_u_sgsn_f_teid := None; s5_s8_u_sgw_f_teid := None; s5_s8_u_pgw_f_teid := None;
  s12_rnc_f_teid := None; s2b_u_epdg_f_teid_5 := None; bc_rest := [] |}.
Definition tunnel_response (ebi : Z) (dl ul : option ogs_gtp_f_teid_t) : bearer_context_t := {|
  bc_presence := present dl || present ul;
  bc_ebi := if present dl || present ul then Some ebi else None; bc_cause := None;
  s1_u_enodeb_f_teid := None; s4_u_sgsn_f_teid := dl; s5_s8_u_sgw_f_teid := None;
  s5_s8_u_pgw_f_teid := None; s12_rnc_f_teid := None; s2b_u_epdg_f_teid_5 := ul; bc_rest := [] |}.
(** The loop over the array of pointers to bearer contexts, which has no
    bound; [None]: a context without EBI. *)
Fixpoint indirect_tunnels (u : Z) (l : list bearer_context_t)
    : M sgw_t (option (list bearer_context_t)) :=
  match l with
  | [] => lift Undef
  | c :: l =>
      if negb (bc_presence c) then mret (Some [])
      else match bc_ebi c with
      | None => mret None
      | Some ebi =>
          b ← sgw_bearer_find_by_ue_ebi u ebi;
          b ← assert_some b;
          dl ← forwarding_tunnel_opt b OGS_GTP_F_TEID_SGW_GTP_U_FOR_DL_DATA_FORWARDING
                 (s1_u_enodeb_f_teid c);
          ul ← forwarding_tunnel_opt b OGS_GTP_F_TEID_SGW_GTP_U_FOR_UL_DATA_FORWARDING
                 (s12_rnc_f_teid c);
          y ← the_bearer b;
          r ← indirect_tunnels u l;
          mret ((λ r, tunnel_response (b_ebi y) dl ul :: r) <$> r)
      end
  end.
Definition sgw_s11_handle_create_indirect_data_forwarding_tunnel_request (x : xact_ref) (u : Z)
    (l : list bearer_context_t) : M sgw_t () :=
  r ← indirect_tunnels u (take GTP_MAX_NUM_OF_INDIRECT_TUNNEL
                            (l ++ replicate GTP_MAX_NUM_OF_INDIRECT_TUNNEL no_bearer_context));
  match r with
  | None => mret ()
  | Some r => respond (xact x) u
      (CreateIndirectDataForwardingTunnelResponse OGS_GTP_CAUSE_REQUEST_ACCEPTED r)
  end.

Definition is_forwarding (t : sgw_tunnel_t) : bool :=
  (t_interface_type t =? OGS_GTP_F_TEID_SGW_GTP_U_FOR_DL_DATA_FORWARDING) ||
  (t_interface_type t =? OGS_GTP_F_TEID_SGW_GTP_U_FOR_UL_DATA_FORWARDING).
Definition remove_if_forwarding (t : Z) : M sgw_t () :=
  x ← the_tunnel t; if is_forwarding x then sgw_tunnel_remove t else mret ().
Definition remove_forwarding_bearer (b : Z) : M sgw_t () :=
  y ← the_bearer b; each remove_if_forwarding (tunnel_list y).
Definition remove_forwarding_session (i : Z) : M sgw_t () :=
  s ← the_sess i; each remove_forwarding_bearer (bearer_list s).
Definition sgw_s11_handle_delete_indirect_data_forwarding_tunnel_request (x : xact_ref) (u : Z)
    : M sgw_t () :=
  ue ← the_ue u;
  each remove_forwarding_session (sess_list ue);;
  respond (xact x) u (DeleteIndirectDataForwardingTunnelResponse OGS_GTP_CAUSE_REQUEST_ACCEPTED).

(** ** [sgw-s5c-handler.c] *)
Definition store_s5u (t : Z) (f : ogs_gtp_f_teid_t) : M sgw_t () :=
  on_tunnel t (set_remote_teid (host_teid f));;
  pgw ← gtpu_peer conf pgw_s5u_list f;
  on_tunnel t (set_t_gnode (Some pgw)).
Definition own_s1u (t : Z) : M sgw_t ogs_gtp_f_teid_t :=
  x ← the_tunnel t; gtpu_f_teid (t_interface_type x) (local_teid x).

Definition forward_session_created (x : xact_ref) (s11 : Z) (i : Z) (m : elements_t) (ebi : Z)
    (pgw_s5c pgw_s5u : ogs_gtp_f_teid_t) : M sgw_t () :=
  s ← the_sess i;
  b ← sgw_bearer_find_by_sess_ebi i ebi;
  b ← assert_some b;
  t1 ← sgw_s1u_tunnel_in_bearer b;
  t1 ← assert_some t1;
  t5 ← sgw_s5u_tunnel_in_bearer b;
  t5 ← assert_some t5;
  on_sess i (set_pgw_s5c_teid (host_teid pgw_s5c));;
  store_s5u t5 pgw_s5u;;
  ue ← the_ue (s_ue s);
  own_s11 ← gtpc_f_teid OGS_GTP_F_TEID_S11_S4_SGW_GTP_C (sgw_s11_teid ue);
  s1u ← own_s1u t1;
  out (Commit (xact x));;
  out (Response s11 (mme_s11_teid ue) (CreateSessionResponse (set_pgw_f_teid None
    (set_sender_f_teid (Some own_s11) (on_m_bearer (λ c,
       set_s5_s8_u_sgw None (set_s1_u_enodeb (Some s1u) c)) m))))).
Definition sgw_s5c_handle_create_session_response (x : xact_ref) (i : Z) (m : elements_t)
    : M sgw_t () :=
  s11 ← assert_some (assoc_xact x);
  let c := m_bearer m in
  match pgw_f_teid m, bc_presence c, bc_ebi c, bc_cause c, s5_s8_u_sgw_f_teid c with
  | Some pgw_s5c, true, Some ebi, Some _, Some pgw_s5u =>
      forward_session_created x s11 i m ebi pgw_s5c pgw_s5u
  | _, _, _, _, _ => mret ()
  end.

Definition sgw_s5c_handle_delete_session_response (x : xact_ref) (i : Z) (m : elements_t)
    : M sgw_t () :=
  s11 ← assert_some (assoc_xact x);
  match m_cause m with
  | None => mret ()
  | Some _ =>
      s ← the_sess i;
      ue ← the_ue (s_ue s);
      sgw_sess_remove i;;
      out (Commit (xact x));;
      out (Response s11 (mme_s11_teid ue) (DeleteSessionResponse m))
  end.

(** Requests of the PGW, passed on to the MME of the UE. *)
Definition request_mme (x : xact_ref) (i : Z) (m : message_body) : M sgw_t () :=
  s ← the_sess i;
  ue ← the_ue (s_ue s);
  request (u_gnode ue) (mme_s11_teid ue) m (Some (xact x)).
Definition sgw_s5c_handle_create_bearer_request (x : xact_ref) (i : Z) (m : elements_t)
    : M sgw_t () :=
  let c := m_bearer m in
  match linked_eps_bearer_id m, bc_presence c, bc_ebi c, s5_s8_u_sgw_f_teid c with
  | Some _, true, Some _, Some pgw_s5u =>
      b ← sgw_bearer_add conf i;
      t1 ← sgw_s1u_tunnel_in_bearer b;
      t1 ← assert_some t1;
      t5 ← sgw_s5u_tunnel_in_bearer b;
      t5 ← assert_some t5;
      store_s5u t5 pgw_s5u;;
      s1u ← own_s1u t1;
      request_mme x i (CreateBearerRequest (on_m_bearer (λ c,
        set_s5_s8_u_sgw None (set_s1_u_enodeb (Some s1u) c)) m))
  | _, _, _, _ => mret ()
  end.
Definition sgw_s5c_handle_update_bearer_request (x : xact_ref) (i : Z) (m : elements_t)
    : M sgw_t () :=
  let c := m_bearer m in
  match bc_presence c, bc_ebi c with
  | true, Some _ => request_mme x i (UpdateBearerRequest m)
  | _, _ => mret ()
  end.
Definition sgw_s5c_handle_delete_bearer_request (x : xact_ref) (i : Z) (m : elements_t)
    : M sgw_t () :=
  if present (linked_eps_bearer_id m) || present (eps_bearer_ids m)
  then request_mme x i (DeleteBearerRequest m) else mret ().
End handlers.
