(* ===== verification/SgwPath.v ===== *)
(** * The events and the user plane of the SGW: [sgw-sm.c], [sgw-gtp-path.c]

    The SGW is one thread: datagrams are received by two callbacks, of which
    the one for GTP-C pushes an event and the one for GTP-U handles the
    packet; events are popped from the queue in between. *)
From S2P Require Import Prelude.
From S2P Require Import CMem.
From S2P Require Import OgsLib.
From S2P Require Import ObjPool.
From S2P Require Import GtpConv.
From S2P Require Import GtpTypes.
From S2P Require Import GtpNode.
From S2P Require Import NasIes.
From S2P Require Import SgwContext.
From S2P Require Import SgwHandler.
From stdpp Require Import functions.
#[local] Open Scope Z_scope.

(** ** Packets: the header of GTP-U in the buffer *)
Definition gtp_type (buf : list Z) : outcome Z := access (buf !! 1%nat).
Definition gtp_teid (buf : list Z) : outcome Z :=
  if (8 <=? length buf)%nat then Ok (be_value (take 4 (drop 4 buf))) else Undef.
(** The TEID in the header; of a datagram that ends before it, what is written
    behind the end is not sent. *)
Definition with_gtp_teid (teid : Z) (buf : list Z) : list Z :=
  take (length buf) (take 4 buf ++ be_bytes 4 teid ++ drop 8 buf).

Section path.
Context `{Host, OgsBits, OgsPlmn, !Ogs3gpp, OgsPool, OgsList, OgsSock, OgsImsiLen, OgsLengths, OgsFqdn}
        (conf : sgw_conf).

(** A packet buffer: the octets received, in front of what else is in it. *)
Definition the_pkt : Z → M sgw_t (list Z) := the pkt_pool pkts.
Definition on_pkt : Z → (list Z → list Z) → M sgw_t () := change pkt_pool pkts set_pkts.
(** [ogs_gtp_sendto] of a packet with a new TEID; that sending fails is
    ignored. *)
Definition send_gtpu (n : option Z) (teid : Z) (p : Z) : M sgw_t () :=
  n ← assert_some n;
  node ← with_nodes (the_node n);
  massert (present (n_sock node));;
  on_pkt p (with_gtp_teid teid);;
  buf ← the_pkt p;
  out (GtpU n buf).

(** ** [_gtpv1_u_recv_cb] *)
Definition uplink (b : Z) (p : Z) : M sgw_t () :=
  t ← sgw_s5u_tunnel_in_bearer b;
  t ← assert_some t;
  x ← the_tunnel t;
  send_gtpu (t_gnode x) (remote_teid x) p.
Definition forwarded (b : Z) (ty : Z) (p : Z) : M sgw_t () :=
  t ← sgw_tunnel_find_by_interface_type b ty;
  t ← assert_some t;
  x ← the_tunnel t;
  send_gtpu (t_gnode x) (remote_teid x) p.
Definition flush (n : option Z) (teid : Z) (b : Z) : M sgw_t () :=
  y ← the_bearer b;
  each (λ q, send_gtpu n teid q;; pkbuf_free q) (buffered y);;
  on_bearer b (set_buffered []).
Definition push (e : sgw_event) : M sgw_t () := modify (λ s, set_queue (queue s ++ [e]) s).
(** The result says whether the packet was kept. *)
Definition idle_downlink (b : Z) (p : Z) : M sgw_t bool :=
  y ← the_bearer b;
  s ← the_sess (b_sess y);
  ue ← the_ue (s_ue s);
  if Z.land (u_state ue) SGW_S1U_INACTIVE =? 0 then mret false
  else
    (if Z.land (u_state ue) SGW_DL_NOTI_SENT =? 0 then
       push (SGW_EVT_LO_DLDATA_NOTI b);; on_ue (s_ue s) (SGW_SET_UE_STATE SGW_DL_NOTI_SENT)
     else mret ());;
    if (length (buffered y) <? MAX_NUM_OF_PACKET_BUFFER)%nat then
      on_bearer b (λ y, set_buffered (buffered y ++ [p]) y);; mret true
    else mret false.
Definition downlink (b : Z) (p : Z) : M sgw_t bool :=
  t ← sgw_s1u_tunnel_in_bearer b;
  t ← assert_some t;
  x ← the_tunnel t;
  if negb (remote_teid x =? 0) then
    n ← assert_some (t_gnode x);
    node ← with_nodes (the_node n);
    massert (present (n_sock node));;
    flush (t_gnode x) (remote_teid x) b;;
    send_gtpu (t_gnode x) (remote_teid x) p;;
    mret false
  else idle_downlink b p.
(** A G-PDU or an end marker for tunnel [t]. *)
Definition tunnelled (t : Z) (p : Z) : M sgw_t bool :=
  x ← the_tunnel t;
  let b := t_bearer x in
  let ty := t_interface_type x in
  if ty =? OGS_GTP_F_TEID_S1_U_SGW_GTP_U then uplink b p;; mret false
  else if is_forwarding x then forwarded b ty p;; mret false
  else if ty =? OGS_GTP_F_TEID_S5_S8_SGW_GTP_U then downlink b p
  else mret false.
(** [data]: the datagram; [rest]: what the rest of the buffer holds.  Packets
    shorter than a header are read and changed beyond their end, inside the
    buffer. *)
Definition sgw_gtpu_packet (data rest : list Z) (p : Z) : M sgw_t bool :=
  ty ← lift (gtp_type (data ++ rest));
  if ty =? OGS_GTPU_MSGTYPE_ECHO_REQ then
    r ← lift (ogs_gtp_handle_echo_req (data ++ rest));
    (match r with Some e => out (EchoResponse e) | None => mret () end);; mret false
  else if (ty =? OGS_GTPU_MSGTYPE_GPDU) || (ty =? OGS_GTPU_MSGTYPE_END_MARKER) then
    teid ← lift (gtp_teid (data ++ rest));
    found ← sgw_tunnel_find_by_teid teid;
    match found with None => mret false | Some t => tunnelled t p end
  else mret false.
(** [ogs_pkbuf_put] on the result of an exhausted pool. *)
Definition pkbuf_alloc (data : list Z) : M sgw_t Z :=
  s ← get;
  match pool_alloc (pkt_pool s) with
  | Some (p, pool) =>
      modify (set_pkt_pool pool);; modify (λ s, set_pkts (<[p := data]> (pkts s)) s);; mret p
  | None => lift Undef
  end.
Definition sgw_gtpu_receive (data rest : list Z) : M sgw_t () :=
  p ← pkbuf_alloc data;
  kept ← sgw_gtpu_packet data rest p;
  if (kept : bool) then mret () else pkbuf_free p.

(** ** [_gtpv2_c_recv_cb] *)
Definition sgw_gtpc_receive (teid_presence : bool) (m : gtp_message) (x : option xact_ref)
    : M sgw_t () :=
  massert teid_presence;;
  push (if SGW_S5C_TEID (h_teid m) then SGW_EVT_S5C_MESSAGE m x else SGW_EVT_S11_MESSAGE m x).

(** ** [sgw_state_operational] *)
Definition sgw_s11_message (x : xact_ref) (u : Z) (b : message_body) : M sgw_t () :=
  match b with
  | CreateSessionRequest m => sgw_s11_handle_create_session_request conf x u m
  | ModifyBearerRequest m => sgw_s11_handle_modify_bearer_request conf x u m
  | DeleteSessionRequest m => sgw_s11_handle_delete_session_request x u m
  | CreateBearerResponse m => sgw_s11_handle_create_bearer_response conf x u m
  | UpdateBearerResponse m => sgw_s11_handle_update_bearer_response x u m
  | DeleteBearerResponse m => sgw_s11_handle_delete_bearer_response x u m
  | ReleaseAccessBearersRequest => sgw_s11_handle_release_access_bearers_request x u
  | DownlinkDataNotificationAcknowledge => sgw_s11_handle_downlink_data_notification_ack x
  | CreateIndirectDataForwardingTunnelRequest l =>
      sgw_s11_handle_create_indirect_data_forwarding_tunnel_request conf x u l
  | DeleteIndirectDataForwardingTunnelRequest =>
      sgw_s11_handle_delete_indirect_data_forwarding_tunnel_request x u
  | _ => mret ()
  end.
Definition sgw_s5c_message (x : xact_ref) (i : Z) (b : message_body) : M sgw_t () :=
  match b with
  | CreateSessionResponse m => sgw_s5c_handle_create_session_response conf x i m
  | DeleteSessionResponse m => sgw_s5c_handle_delete_session_response x i m
  | CreateBearerRequest m => sgw_s5c_handle_create_bearer_request conf x i m
  | UpdateBearerRequest m => sgw_s5c_handle_update_bearer_request x i m
  | DeleteBearerRequest m => sgw_s5c_handle_delete_bearer_request x i m
  | _ => mret ()
  end.
(** The UE of a message: the one that its TEID names, or a new one
    ([OGS_SETUP_GTP_NODE] asserts both pointers). *)
Definition ue_of_message (m : gtp_message) : M sgw_t Z :=
  if h_teid m =? 0 then
    mme ← sgw_mme_add_by_message conf m;
    mme ← assert_some mme;
    u ← sgw_ue_add_by_message conf m;
    u ← assert_some u;
    on_ue u (set_u_gnode (Some mme));;
    mret u
  else u ← sgw_ue_find_by_teid (h_teid m); assert_some u.
Definition sgw_state_operational (e : sgw_event) : M sgw_t () :=
  match e with
  | SGW_EVT_S11_MESSAGE m x =>
      u ← ue_of_message m;
      ue ← the_ue u;
      massert (present (u_gnode ue));;
      match x with Some x => sgw_s11_message x u (m_body m) | None => mret () end
  | SGW_EVT_S5C_MESSAGE m x =>
      i ← sgw_sess_find_by_teid (h_teid m);
      i ← assert_some i;
      s ← the_sess i;
      massert (present (s_gnode s));;
      match x with Some x => sgw_s5c_message x i (m_body m) | None => mret () end
  | SGW_EVT_LO_DLDATA_NOTI b => sgw_s11_handle_lo_dldata_notification b
  end.

(** ** The event loop of [sgw-init.c] *)
Inductive sgw_step : sgw_t → sgw_t → Prop :=
| step_gtpc present m x s s' :
    sgw_gtpc_receive present m x s = Ok ((), s') → sgw_step s s'
| step_gtpu data rest s s' :
    sgw_gtpu_receive data rest s = Ok ((), s') → sgw_step s s'
| step_pop e q s s' :
    queue s = e :: q → sgw_state_operational e (set_queue q s) = Ok ((), s') → sgw_step s s'.
(** [sgw_context_init]: empty pools and lists. *)
Definition sgw_init (s : sgw_t) : Prop :=
  pool_used (ue_pool s) = ∅ ∧ pool_used (sess_pool s) = ∅ ∧ pool_used (bearer_pool s) = ∅ ∧
  pool_used (tunnel_pool s) = ∅ ∧ pool_used (pkt_pool s) = ∅ ∧ sgw_ue_list s = [] ∧ queue s = [] ∧
  (∀ l, node_lists s l = []).
Inductive sgw_reachable : sgw_t → Prop :=
| reach_init s : sgw_init s → sgw_reachable s
| reach_step s s' : sgw_reachable s → sgw_step s s' → sgw_reachable s'.
End path.
