(* ===== verification/SgwInv.v ===== *)
(** * The SGW: the invariant of the tables of contexts

    UEs, sessions, bearers and tunnels form a forest: every object is in the
    list of the one that it points at, and nowhere else.  While an operation
    runs, an object can be allocated and not yet linked, or unlinked and not
    yet freed; [us], [xs], [ys], [zs] are the UEs, sessions, bearers and
    tunnels in that state. *)
From S2P Require Import Prelude.
From S2P Require Import CMem.
From S2P Require Import OgsLib.
From S2P Require Import ObjPool.
From S2P Require Import GtpTypes.
From S2P Require Import GtpConv.
From S2P Require Import GtpNode.
From S2P Require Import NasIes.
From S2P Require Import SgwContext.
From S2P Require Import SgwHandler.
From stdpp Require Import functions.
#[local] Open Scope Z_scope.

(** ** Rules *)
Section rules.
Context `{Host, OgsPlmn, OgsPool, OgsList, OgsSock, OgsImsiLen}.
Implicit Types (s : sgw_t).

Section keeps.
Context (R : sgw_t → sgw_t → Prop) `{!PreOrder R}.
Lemma keeps_bearer_in_sessions l ebi : keeps R (bearer_in_sessions l ebi).
Proof.
  induction l as [|i l IH]; cbn [bearer_in_sessions]; [by apply keeps_ret|].
  apply keeps_bind; [done| |intros [b|]; [by apply keeps_ret|done]].
  apply keeps_bind; [done|by apply keeps_the|]. intros. apply keeps_first_in; [done|]. intros. by apply keeps_the.
Qed.
End keeps.
End rules.

#[export] Hint Extern 1 (keeps _ (bearer_in_sessions _ _)) =>
  apply keeps_bearer_in_sessions; exact _ : keeps.

Section inv.
Context `{Host, OgsPlmn, OgsPoolLaws, OgsListLaws, OgsSock, OgsImsiLen} (conf : sgw_conf).
Implicit Types (s : sgw_t) (us xs ys zs : gset Z).

Definition types s (b : Z) : list Z := (λ t, t_interface_type (tunnels s t)) <$> tunnel_list (bearers s b).
Definition forwarding_type (ty : Z) : Prop :=
  ty = OGS_GTP_F_TEID_SGW_GTP_U_FOR_DL_DATA_FORWARDING ∨
  ty = OGS_GTP_F_TEID_SGW_GTP_U_FOR_UL_DATA_FORWARDING.
#[local] Instance forwarding_type_dec ty : Decision (forwarding_type ty).
Proof. unfold forwarding_type. apply _. Defined.
(** One tunnel to the eNB and one to the PGW, besides the forwarding ones. *)
Definition two_tunnels (l : list Z) : Prop :=
  filter (λ ty, ¬ forwarding_type ty) l ≡ₚ
  [OGS_GTP_F_TEID_S1_U_SGW_GTP_U; OGS_GTP_F_TEID_S5_S8_SGW_GTP_U].

Record tables_ok us xs ys zs s : Prop := {
  ok_ues : NoDup (sgw_ue_list s) ∧ ∀ u, u ∈ sgw_ue_list s ↔ u ∈ pool_used (ue_pool s) ∖ us;
  ok_sess : owns (pool_used (ue_pool s)) (pool_used (sess_pool s) ∖ xs)
    (λ u, sess_list (ues s u)) (λ i, s_ue (sesss s i));
  ok_bearers : owns (pool_used (sess_pool s)) (pool_used (bearer_pool s) ∖ ys)
    (λ i, bearer_list (sesss s i)) (λ b, b_sess (bearers s b));
  ok_tunnels : owns (pool_used (bearer_pool s)) (pool_used (tunnel_pool s) ∖ zs)
    (λ b, tunnel_list (bearers s b)) (λ t, t_bearer (tunnels s t));
  ok_bearer_ue b : b ∈ pool_used (bearer_pool s) ∖ ys →
    b_ue (bearers s b) = s_ue (sesss s (b_sess (bearers s b)));
  ok_s11_teid u : u ∈ pool_used (ue_pool s) ∖ us → sgw_s11_teid (ues s u) = u;
  ok_s5c_teid i : i ∈ pool_used (sess_pool s) ∖ xs →
    sgw_s5c_teid (sesss s i) = SGW_S5C_INDEX_TO_TEID i;
  ok_local_teid t : t ∈ pool_used (tunnel_pool s) ∖ zs → local_teid (tunnels s t) = t;
  ok_types b : b ∈ pool_used (bearer_pool s) ∖ ys → two_tunnels (types s b);
}.
Definition tables_wf : sgw_t → Prop := tables_ok ∅ ∅ ∅ ∅.

(** What the invariant does not read. *)
Record same_tables s s' : Prop := {
  st_pools : ue_pool s' = ue_pool s ∧ sess_pool s' = sess_pool s ∧
             bearer_pool s' = bearer_pool s ∧ tunnel_pool s' = tunnel_pool s;
  st_ue_list : sgw_ue_list s' = sgw_ue_list s;
  st_ue u : sess_list (ues s' u) = sess_list (ues s u) ∧
            sgw_s11_teid (ues s' u) = sgw_s11_teid (ues s u);
  st_sess i : bearer_list (sesss s' i) = bearer_list (sesss s i) ∧
              s_ue (sesss s' i) = s_ue (sesss s i) ∧
              sgw_s5c_teid (sesss s' i) = sgw_s5c_teid (sesss s i);
  st_bearer b : tunnel_list (bearers s' b) = tunnel_list (bearers s b) ∧
                b_sess (bearers s' b) = b_sess (bearers s b) ∧ b_ue (bearers s' b) = b_ue (bearers s b);
  st_tunnel t : t_bearer (tunnels s' t) = t_bearer (tunnels s t) ∧
                t_interface_type (tunnels s' t) = t_interface_type (tunnels s t) ∧
                local_teid (tunnels s' t) = local_teid (tunnels s t);
}.
#[export] Instance same_tables_preorder : PreOrder same_tables.
Proof.
  split.
  - by intros s.
  - intros s1 s2 s3 [(?&?&?&?) ? Hu Hi Hb Ht] [(?&?&?&?) ? Hu' Hi' Hb' Ht'].
    split; [repeat split; congruence|congruence|intros x..].
    + destruct (Hu x), (Hu' x). split; congruence.
    + destruct (Hi x) as (?&?&?), (Hi' x) as (?&?&?). repeat split; congruence.
    + destruct (Hb x) as (?&?&?), (Hb' x) as (?&?&?). repeat split; congruence.
    + destruct (Ht x) as (?&?&?), (Ht' x) as (?&?&?). repeat split; congruence.
Qed.
Lemma types_ext s s' b :
  tunnel_list (bearers s' b) = tunnel_list (bearers s b) →
  (∀ t, t ∈ tunnel_list (bearers s b) →
        t_interface_type (tunnels s' t) = t_interface_type (tunnels s t)) →
  types s' b = types s b.
Proof.
  intros E Ht. unfold types. rewrite E. apply list_fmap_ext. intros ? t Hin%list_elem_of_lookup_2. auto.
Qed.
Lemma tables_ok_frame us xs ys zs s s' :
  same_tables s s' → tables_ok us xs ys zs s → tables_ok us xs ys zs s'.
Proof.
  intros [(E1 & E2 & E3 & E4) E5 Hu Hi Hb Ht] [Hl Hs Hbs Hts Hbu T1 T2 T3 Hty].
  split; rewrite ?E1, ?E2, ?E3, ?E4, ?E5; [done|..].
  - eapply owns_ext; [exact Hs|done..| |]; intros x _; [apply Hu|apply Hi].
  - eapply owns_ext; [exact Hbs|done..| |]; intros x _; [apply Hi|apply Hb].
  - eapply owns_ext; [exact Hts|done..| |]; intros x _; [apply Hb|apply Ht].
  - intros b Hin. destruct (Hb b) as (_ & -> & ->). destruct (Hi (b_sess (bearers s b))) as (_ & -> & _).
    by apply Hbu.
  - intros u Hin. destruct (Hu u) as [_ ->]. auto.
  - intros i Hin. destruct (Hi i) as (_ & _ & ->). auto.
  - intros t Hin. destruct (Ht t) as (_ & _ & ->). auto.
  - intros b Hin. rewrite (types_ext s s'); [by apply Hty|apply Hb|intros t _; apply Ht].
Qed.

(** ** Steps of the operations on the pools and lists *)
Lemma in_tunnel_list us xs ys zs s b t :
  tables_ok us xs ys zs s → b ∈ pool_used (bearer_pool s) → t ∈ tunnel_list (bearers s b) →
  t ∈ pool_used (tunnel_pool s) ∧ (t ∉ zs) ∧ t_bearer (tunnels s t) = b.
Proof. intros Hok Hb Ht. apply (own_list _ _ _ _ (ok_tunnels _ _ _ _ _ Hok) b Hb) in Ht. set_solver. Qed.

Lemma new_tunnel us xs ys zs s t p f :
  tables_ok us xs ys zs s → pool_alloc (tunnel_pool s) = Some (t, p) →
  tables_ok us xs ys ({[t]} ∪ zs) (set_tunnels (alter f t (tunnels s)) (set_tunnel_pool p s)).
Proof.
  intros Hok [Hn Hp]%pool_alloc_fresh. pose proof Hok as [Hl Hs Hbs Hts Hbu T1 T2 T3 Hty].
  assert (Hne : ∀ c, c ∈ pool_used (tunnel_pool s) ∖ zs → t ≠ c) by set_solver.
  split; cbn [sgw_ue_list ue_pool sess_pool bearer_pool tunnel_pool ues sesss bearers tunnels
    set_tunnels set_tunnel_pool]; rewrite ?Hp; try done.
  - eapply owns_ext; [exact Hts|done|set_solver|done|]. intros c Hc. by rewrite alter_other by auto.
  - intros c Hc. rewrite alter_other by set_solver. apply T3. set_solver.
  - intros b Hb. rewrite (types_ext s); [by apply Hty|done|]. intros c Hc. cbn.
    eapply in_tunnel_list in Hc as (?&?&?); [|exact Hok|set_solver]. by rewrite alter_other by set_solver.
Qed.

Lemma types_link s t b :
  types (set_bearers (alter (λ x, set_tunnel_list (ogs_list_add (tunnel_list x) t) x) b (bearers s)) s) b
  ≡ₚ t_interface_type (tunnels s t) :: types s b.
Proof. unfold types. cbn. rewrite fn_lookup_alter. cbn. by rewrite ogs_list_add_perm. Qed.
Lemma types_other s f b c :
  b ≠ c → types (set_bearers (alter f b (bearers s)) s) c = types s c.
Proof. intros Hn. apply types_ext; [|done]. cbn. by rewrite alter_other. Qed.
Lemma two_tunnels_perm l l' : l ≡ₚ l' → two_tunnels l → two_tunnels l'.
Proof. unfold two_tunnels. by intros ->. Qed.
Lemma two_tunnels_cons ty l : forwarding_type ty → two_tunnels (ty :: l) ↔ two_tunnels l.
Proof. intros Hf. unfold two_tunnels. by rewrite filter_cons_False by tauto. Qed.

Lemma link_tunnel us xs ys zs s t b :
  tables_ok us xs ys zs s → t ∈ pool_used (tunnel_pool s) → t ∈ zs → b ∈ pool_used (bearer_pool s) →
  t_bearer (tunnels s t) = b → local_teid (tunnels s t) = t →
  (b ∈ ys ∨ forwarding_type (t_interface_type (tunnels s t))) →
  tables_ok us xs ys (zs ∖ {[t]})
    (set_bearers (alter (λ x, set_tunnel_list (ogs_list_add (tunnel_list x) t) x) b (bearers s)) s).
Proof.
  intros [Hl Hs Hbs Hts Hbu T1 T2 T3 Hty] Ht Hz Hb Eb El Hy.
  split; cbn [sgw_ue_list ue_pool sess_pool bearer_pool tunnel_pool ues sesss bearers tunnels
    set_bearers]; try done.
  - eapply owns_ext; [exact Hbs|done..|]. intros c _. by apply (alter_field b_sess).
  - eapply (owns_link _ _ _ _ t); [exact Hts|set_solver|by subst| |cbn; subst; by rewrite fn_lookup_alter|].
    + intros x. destruct (decide (x = t)); set_solver.
    + intros q Hq. cbn. rewrite alter_other; [done|congruence].
  - intros c Hc. rewrite (alter_field b_ue), (alter_field b_sess) by done. by apply Hbu.
  - intros c Hc. destruct (decide (c = t)) as [->|]; [done|]. apply T3. set_solver.
  - intros c Hc. destruct (decide (b = c)) as [->|]; [|rewrite types_other by done; by apply Hty].
    eapply two_tunnels_perm; [symmetry; apply types_link|]. destruct Hy as [|Hy]; [set_solver|].
    apply two_tunnels_cons; [done|]. by apply Hty.
Qed.

(** An operation on bearers leaves the objects above sessions alone, and one
    on tunnels those above bearers. *)
Record bearer_frame s s' : Prop := {
  bf_pools : ue_pool s' = ue_pool s ∧ sess_pool s' = sess_pool s;
  bf_sess i : s_ue (sesss s' i) = s_ue (sesss s i) ∧
              sgw_s5c_teid (sesss s' i) = sgw_s5c_teid (sesss s i);
}.
#[export] Instance bearer_frame_preorder : PreOrder bearer_frame.
Proof.
  split; [by intros s|]. intros s1 s2 s3 [(?&?) Hi] [(?&?) Hi'].
  split; [split; congruence|]. intros i. destruct (Hi i), (Hi' i). split; congruence.
Qed.
Record tunnel_frame s s' : Prop := {
  tf_bearer_frame : bearer_frame s s';
  tf_pool : bearer_pool s' = bearer_pool s;
  tf_bearer b : b_sess (bearers s' b) = b_sess (bearers s b) ∧ b_ue (bearers s' b) = b_ue (bearers s b);
}.
#[export] Instance tunnel_frame_preorder : PreOrder tunnel_frame.
Proof.
  split; [by intros s|]. intros s1 s2 s3 [Hf E Hb] [Hf' E' Hb'].
  split; [by transitivity s2|congruence|]. intros b. destruct (Hb b), (Hb' b). split; congruence.
Qed.
Lemma same_tables_frame s s' : same_tables s s' → tunnel_frame s s'.
Proof. intros [(?&?&?&?) _ _ Hi Hb _]. repeat split; try done; apply Hi || apply Hb. Qed.
Lemma tunnel_frame_bearers f s b :
  (∀ x, b_sess (f x) = b_sess x) → (∀ x, b_ue (f x) = b_ue x) →
  tunnel_frame s (set_bearers (alter f b (bearers s)) s).
Proof.
  intros Hs Hu. split; [by split|done|]. intros c. cbn.
  by rewrite (alter_field b_sess), (alter_field b_ue).
Qed.
Lemma bearer_frame_sesss f s i :
  (∀ x, s_ue (f x) = s_ue x) → (∀ x, sgw_s5c_teid (f x) = sgw_s5c_teid x) →
  bearer_frame s (set_sesss (alter f i (sesss s)) s).
Proof.
  intros Hu Ht. split; [done|]. intros j. cbn.
  by rewrite (alter_field s_ue), (alter_field sgw_s5c_teid).
Qed.
Lemma wlp_tunnel_add us xs ys s b ty :
  tables_ok us xs ys ∅ s → (b ∈ ys ∨ forwarding_type ty) →
  wlp (sgw_tunnel_add conf b ty) s (λ t s', tables_ok us xs ys ∅ s' ∧ tunnel_frame s s' ∧
    types s' b ≡ₚ ty :: types s b).
Proof.
  intros Hok Hy. apply wlp_bind, wlp_alloc. intros t p E. apply wlp_bind, wlp_massert. intros _.
  apply wlp_bind, wlp_change. intros Ht. apply wlp_bind, wlp_change. intros Hb. apply wlp_ret.
  pose proof (new_tunnel _ _ _ _ _ _ _ (λ x, {| t_interface_type := ty; local_teid := t;
    remote_teid := remote_teid x; t_bearer := b; t_gnode := None |}) Hok E) as Hok1.
  pose proof (pool_alloc_fresh _ _ _ E) as [Hn Hp].
  split; [|split].
  - replace (∅ : gset Z) with (({[t]} ∪ ∅) ∖ {[t]} : gset Z) by set_solver.
    apply link_tunnel; [done|done|set_solver|done|..]; cbn; by rewrite fn_lookup_alter.
  - split; [by split|done|]. intros c. cbn. by rewrite (alter_field b_sess), (alter_field b_ue).
  - rewrite types_link. cbn. rewrite fn_lookup_alter. rewrite (types_ext s); [done|done|]. intros c Hc.
    eapply in_tunnel_list in Hc as (?&?&?); [|exact Hok|exact Hb]. cbn.
    by rewrite alter_other by set_solver.
Qed.

Lemma list_remove_perm l i : NoDup l → i ∈ l → l ≡ₚ i :: ogs_list_remove l i.
Proof.
  intros Hd Hi. rewrite ogs_list_remove_perm by done. apply NoDup_Permutation; [done| |].
  - constructor; [|by apply list.NoDup_filter]. rewrite list_elem_of_filter. tauto.
  - intros j. rewrite elem_of_cons, list_elem_of_filter.
    destruct (decide (j = i)) as [->|]; naive_solver.
Qed.
Lemma unlink_tunnel us xs ys zs s t b :
  tables_ok us xs ys zs s → t ∈ pool_used (tunnel_pool s) → t ∉ zs → t_bearer (tunnels s t) = b →
  (b ∈ ys ∨ forwarding_type (t_interface_type (tunnels s t))) →
  tables_ok us xs ys ({[t]} ∪ zs)
    (set_bearers (alter (λ x, set_tunnel_list (ogs_list_remove (tunnel_list x) t) x) b (bearers s)) s).
Proof.
  intros [Hl Hs Hbs Hts Hbu T1 T2 T3 Hty] Ht Hz Eb Hy.
  split; cbn [sgw_ue_list ue_pool sess_pool bearer_pool tunnel_pool ues sesss bearers tunnels
    set_bearers]; try done.
  - eapply owns_ext; [exact Hbs|done..|]. intros c _. by apply (alter_field b_sess).
  - eapply (owns_unlink _ _ _ _ t); [exact Hts|set_solver|set_solver|cbn; subst; by rewrite fn_lookup_alter|].
    intros q Hq. cbn. rewrite alter_other; [done|congruence].
  - intros c Hc. rewrite (alter_field b_ue), (alter_field b_sess) by done. by apply Hbu.
  - intros c Hc. apply T3. set_solver.
  - intros c Hc. destruct (decide (b = c)) as [->|]; [|rewrite types_other by done; by apply Hty].
    destruct Hy as [|Hy]; [set_solver|].
    destruct (own_list _ _ _ _ Hts c) as [Hd Hm]; [set_solver|].
    assert (Hin : t ∈ tunnel_list (bearers s c)) by (apply Hm; set_solver).
    eapply two_tunnels_cons; [exact Hy|]. eapply two_tunnels_perm; [|exact (Hty c Hc)].
    unfold types. cbn. rewrite fn_lookup_alter. cbn. 
    exact (fmap_Permutation (λ t, t_interface_type (tunnels s t)) _ _ (list_remove_perm _ _ Hd Hin)).
Qed.
Lemma free_tunnel us xs ys zs s t :
  tables_ok us xs ys zs s → t ∈ zs →
  tables_ok us xs ys (zs ∖ {[t]}) (set_tunnel_pool (pool_free t (tunnel_pool s)) s).
Proof.
  intros [Hl Hs Hbs Hts Hbu T1 T2 T3 Hty] Hz.
  split; cbn [sgw_ue_list ue_pool sess_pool bearer_pool tunnel_pool ues sesss bearers tunnels
    set_tunnel_pool]; rewrite ?pool_used_free; try done.
  - eapply owns_ext; [exact Hts|done| |done..]. apply set_eq. intros x.
    destruct (decide (x = t)); set_solver.
  - intros c Hc. apply T3. destruct (decide (c = t)); set_solver.
Qed.

Lemma wlp_tunnel_remove us xs ys s t :
  tables_ok us xs ys ∅ s →
  (t_bearer (tunnels s t) ∈ ys ∨ forwarding_type (t_interface_type (tunnels s t))) →
  wlp (sgw_tunnel_remove t) s (λ _ s', tables_ok us xs ys ∅ s' ∧ tunnel_frame s s' ∧
    tunnels s' = tunnels s ∧ pool_used (tunnel_pool s') = pool_used (tunnel_pool s) ∖ {[t]}).
Proof.
  intros Hok Hy. apply wlp_bind, wlp_the. intros Ht. apply wlp_bind, wlp_change. intros Hb.
  apply wlp_free. intros _. split; [|split; [|split]].
  - replace (∅ : gset Z) with (({[t]} ∪ ∅) ∖ {[t]} : gset Z) by set_solver.
    apply free_tunnel; [|set_solver]. by apply unlink_tunnel.
  - split; [by split|done|]. intros c. cbn. by rewrite (alter_field b_sess), (alter_field b_ue).
  - done.
  - apply pool_used_free.
Qed.
Lemma wlp_tunnel_remove_all us xs ys s b :
  tables_ok us xs ys ∅ s → b ∈ ys →
  wlp (sgw_tunnel_remove_all b) s (λ _ s', tables_ok us xs ys ∅ s' ∧ tunnel_frame s s' ∧
    ∀ t, t ∈ pool_used (tunnel_pool s') → t_bearer (tunnels s' t) ≠ b).
Proof.
  intros Hok Hy. apply wlp_bind, wlp_the. intros Hb.
  destruct (own_list _ _ _ _ (ok_tunnels _ _ _ _ _ Hok) b Hb) as [_ Hm].
  eapply wlp_mono; [eapply (wlp_each _ (λ l s', tables_ok us xs ys ∅ s' ∧ tunnel_frame s s' ∧
    tunnels s' = tunnels s ∧ (∀ t, t ∈ l → t_bearer (tunnels s t) = b) ∧
    ∀ t, t ∈ pool_used (tunnel_pool s') → t_bearer (tunnels s t) = b → t ∈ l))|].
  - intros t l s1 (Hk1 & F1 & E1 & Hl & Hr).
    eapply wlp_mono; [apply (wlp_tunnel_remove us xs ys); [done|]|].
    { left. rewrite E1, Hl by set_solver. done. }
    intros [] s2 (Hk2 & F2 & E2 & U2). split; [done|]. split; [by etransitivity|].
    split; [congruence|]. split; [set_solver|]. intros c. rewrite U2. set_solver.
  - split; [done|]. split; [reflexivity|]. split; [done|]. split; [apply Hm|].
    intros t Ht Et. apply Hm. set_solver.
  - intros [] s' (Hk1 & F1 & E1 & _ & Hr). split; [done|]. split; [done|]. intros t Ht. rewrite E1.
    intros Et. by apply (not_elem_of_nil t), Hr.
Qed.

(** *** Bearers *)
Lemma new_bearer us xs ys zs s b p f :
  tables_ok us xs ys zs s → pool_alloc (bearer_pool s) = Some (b, p) →
  (∀ x, tunnel_list (f x) = []) →
  tables_ok us xs ({[b]} ∪ ys) zs (set_bearers (alter f b (bearers s)) (set_bearer_pool p s)).
Proof.
  intros [Hl Hs Hbs Hts Hbu T1 T2 T3 Hty] [Hn Hp]%pool_alloc_fresh Hf.
  split; cbn [sgw_ue_list ue_pool sess_pool bearer_pool tunnel_pool ues sesss bearers tunnels
    set_bearers set_bearer_pool]; rewrite ?Hp; try done.
  - eapply owns_ext; [exact Hbs|done|set_solver|done|]. intros c Hc. by rewrite alter_other by set_solver.
  - eapply owns_new_parent; [exact Hts|done|by rewrite fn_lookup_alter|].
    intros q Hq. by rewrite alter_other.
  - intros c Hc. rewrite alter_other by set_solver. apply Hbu. set_solver.
  - intros c Hc. rewrite (types_ext s); [apply Hty; set_solver| |done]. cbn.
    by rewrite alter_other by set_solver.
Qed.
Lemma link_bearer us xs ys zs s b i :
  tables_ok us xs ys zs s → b ∈ pool_used (bearer_pool s) → b ∈ ys → i ∈ pool_used (sess_pool s) →
  b_sess (bearers s b) = i → b_ue (bearers s b) = s_ue (sesss s i) → two_tunnels (types s b) →
  tables_ok us xs (ys ∖ {[b]}) zs
    (set_sesss (alter (λ x, set_bearer_list (ogs_list_add (bearer_list x) b) x) i (sesss s)) s).
Proof.
  intros [Hl Hs Hbs Hts Hbu T1 T2 T3 Hty] Hb Hy Hi Eb Eu Ht.
  split; cbn [sgw_ue_list ue_pool sess_pool bearer_pool tunnel_pool ues sesss bearers tunnels
    set_sesss]; try done.
  - eapply owns_ext; [exact Hs|done..|]. intros c _. by apply (alter_field s_ue).
  - eapply (owns_link _ _ _ _ b); [exact Hbs|set_solver|by subst| |cbn; subst; by rewrite fn_lookup_alter|].
    + intros x. destruct (decide (x = b)); set_solver.
    + intros q Hq. cbn. rewrite alter_other; [done|congruence].
  - intros c Hc. rewrite (alter_field s_ue) by done. destruct (decide (c = b)) as [->|]; [by subst|].
    apply Hbu. set_solver.
  - intros c Hc. rewrite (alter_field sgw_s5c_teid) by done. by apply T2.
  - intros c Hc. destruct (decide (c = b)) as [->|]; [done|]. apply Hty. set_solver.
Qed.
Lemma unlink_bearer us xs ys zs s b i :
  tables_ok us xs ys zs s → b ∈ pool_used (bearer_pool s) → b ∉ ys → b_sess (bearers s b) = i →
  tables_ok us xs ({[b]} ∪ ys) zs
    (set_sesss (alter (λ x, set_bearer_list (ogs_list_remove (bearer_list x) b) x) i (sesss s)) s).
Proof.
  intros [Hl Hs Hbs Hts Hbu T1 T2 T3 Hty] Hb Hy Eb.
  split; cbn [sgw_ue_list ue_pool sess_pool bearer_pool tunnel_pool ues sesss bearers tunnels
    set_sesss]; try done.
  - eapply owns_ext; [exact Hs|done..|]. intros c _. by apply (alter_field s_ue).
  - eapply (owns_unlink _ _ _ _ b); [exact Hbs|set_solver|set_solver|cbn; subst; by rewrite fn_lookup_alter|].
    intros q Hq. cbn. rewrite alter_other; [done|congruence].
  - intros c Hc. rewrite (alter_field s_ue) by done. apply Hbu. set_solver.
  - intros c Hc. rewrite (alter_field sgw_s5c_teid) by done. by apply T2.
  - intros c Hc. apply Hty. set_solver.
Qed.
Lemma free_bearer us xs ys zs s b :
  tables_ok us xs ys zs s → b ∈ ys →
  (∀ t, t ∈ pool_used (tunnel_pool s) ∖ zs → t_bearer (tunnels s t) ≠ b) →
  tables_ok us xs (ys ∖ {[b]}) zs (set_bearer_pool (pool_free b (bearer_pool s)) s).
Proof.
  intros [Hl Hs Hbs Hts Hbu T1 T2 T3 Hty] Hy Ht.
  assert (E : (pool_used (bearer_pool s) ∖ {[b]}) ∖ (ys ∖ {[b]}) = pool_used (bearer_pool s) ∖ ys).
  { apply set_eq. intros x. destruct (decide (x = b)); set_solver. }
  split; cbn [sgw_ue_list ue_pool sess_pool bearer_pool tunnel_pool ues sesss bearers tunnels
    set_bearer_pool]; rewrite ?pool_used_free, ?E; try done.
  by apply owns_free_parent.
Qed.

Lemma wlp_bearer_add us xs s i :
  tables_ok us xs ∅ ∅ s →
  wlp (sgw_bearer_add conf i) s (λ b s', tables_ok us xs ∅ ∅ s' ∧ bearer_frame s s').
Proof.
  intros Hok. apply wlp_bind, wlp_the. intros Hi. apply wlp_bind, wlp_alloc. intros b p E.
  apply wlp_bind, wlp_change. intros Hb. set (s1 := set_bearers _ _).
  assert (tables_ok us xs ({[b]} ∪ ∅) ∅ s1) as Hok1 by (by eapply (new_bearer _ _ _ _ s)).
  assert (bearer_frame s s1) as F1 by (by split).
  assert (b_sess (bearers s1 b) = i ∧ b_ue (bearers s1 b) = s_ue (sesss s i) ∧ types s1 b = [])
    as (Eb & Eu & Et).
  { subst s1. unfold types. cbn. by rewrite fn_lookup_alter. }
  assert (b ∈ pool_used (bearer_pool s1)) as Hb1 by exact Hb. clearbody s1.
  eapply wlp_call; [eapply wlp_tunnel_add; [exact Hok1|left; set_solver]|].
  intros t2 s2 (Hok2 & F2 & P2).
  eapply wlp_call; [eapply wlp_tunnel_add; [exact Hok2|left; set_solver]|].
  intros t3 s3 (Hok3 & F3 & P3). assert (tunnel_frame s1 s3) as F by (by transitivity s2).
  apply wlp_bind, wlp_change. intros Hi3. apply wlp_ret.
  destruct (tf_bearer _ _ F b) as [Es Es']. destruct F as [F Ep _].
  assert (bearer_frame s s3) as F' by (by transitivity s1). split.
  - replace (∅ : gset Z) with (({[b]} ∪ ∅) ∖ {[b]} : gset Z) at 1 by set_solver.
    apply link_bearer; [done|by rewrite Ep|set_solver|done|by rewrite Es| |].
    + rewrite Es', Eu. by destruct (bf_sess _ _ F' i) as [-> _].
    + unfold two_tunnels. rewrite P3, P2, Et. apply Permutation_swap.
  - etransitivity; [exact F'|]. by apply bearer_frame_sesss.
Qed.
Lemma keeps_pkbuf_free p : keeps same_tables (pkbuf_free p).
Proof. intros s. apply wlp_free. by split. Qed.
Lemma wlp_sgw_bearer_remove us xs s b :
  tables_ok us xs ∅ ∅ s →
  wlp (sgw_bearer_remove b) s (λ _ s', tables_ok us xs ∅ ∅ s' ∧ bearer_frame s s' ∧
    pool_used (bearer_pool s') = pool_used (bearer_pool s) ∖ {[b]} ∧
    ∀ c, b_sess (bearers s' c) = b_sess (bearers s c)).
Proof.
  intros Hok. apply wlp_bind, wlp_the. intros Hb. apply wlp_bind, wlp_change. intros Hi.
  set (s1 := set_sesss _ _).
  assert (tables_ok us xs ({[b]} ∪ ∅) ∅ s1) as Hok1 by (by apply unlink_bearer).
  assert (bearer_frame s s1) as F1 by (by apply bearer_frame_sesss).
  eapply wlp_call; [eapply wlp_tunnel_remove_all; [exact Hok1|set_solver]|].
  intros [] s2 (Hok2 & F2 & Ht2). apply wlp_bind, wlp_the. intros Hb2.
  eapply wlp_call; [exact (keeps_each same_tables _ _ keeps_pkbuf_free s2)|]. intros [] s3 F3.
  pose proof (tables_ok_frame _ _ _ _ _ _ F3 Hok2) as Hok3. apply wlp_free. intros _.
  pose proof (same_tables_frame _ _ F3) as F3'. assert (tunnel_frame s1 s3) as [F Ep Eb] by (by transitivity s2).
  split; [|split; [|split]].
  - replace (∅ : gset Z) with (({[b]} ∪ ∅) ∖ {[b]} : gset Z) at 1 by set_solver.
    apply free_bearer; [done|set_solver|]. intros t. destruct F3 as [(_ & _ & _ & ->) _ _ _ _ Ft].
    intros Hin. destruct (Ft t) as [-> _]. apply Ht2. set_solver.
  - etransitivity; [exact F1|]. etransitivity; [exact F|]. by split.
  - cbn. by rewrite pool_used_free, Ep.
  - intros c. cbn. by destruct (Eb c) as [-> _].
Qed.
Lemma wlp_bearer_remove_all us xs s i :
  tables_ok us xs ∅ ∅ s →
  wlp (sgw_bearer_remove_all i) s (λ _ s', tables_ok us xs ∅ ∅ s' ∧ bearer_frame s s' ∧
    ∀ b, b ∈ pool_used (bearer_pool s') → b_sess (bearers s' b) ≠ i).
Proof.
  intros Hok. apply wlp_bind, wlp_the. intros Hi.
  destruct (own_list _ _ _ _ (ok_bearers _ _ _ _ _ Hok) i Hi) as [_ Hm].
  eapply wlp_mono; [eapply (wlp_each _ (λ l s', tables_ok us xs ∅ ∅ s' ∧ bearer_frame s s' ∧
    ∀ b, b ∈ pool_used (bearer_pool s') → b_sess (bearers s' b) = i → b ∈ l))|].
  - intros b l s1 (Hk1 & F1 & Hr). eapply wlp_mono; [by apply wlp_sgw_bearer_remove|].
    intros [] s2 (Hk2 & F2 & U2 & E2). split; [done|]. split; [by etransitivity|].
    intros c. rewrite U2, E2. set_solver.
  - split; [done|]. split; [reflexivity|]. intros b Hb Eb. apply Hm. set_solver.
  - intros [] s' (Hk1 & F1 & Hr). split; [done|]. split; [done|]. intros b Hb Eb.
    by apply (not_elem_of_nil b), Hr.
Qed.

(** *** Sessions *)
Lemma new_sess us xs ys zs s i p f :
  tables_ok us xs ys zs s → pool_alloc (sess_pool s) = Some (i, p) →
  (∀ x, bearer_list (f x) = []) →
  tables_ok us ({[i]} ∪ xs) ys zs (set_sesss (alter f i (sesss s)) (set_sess_pool p s)).
Proof.
  intros [Hl Hs Hbs Hts Hbu T1 T2 T3 Hty] [Hn Hp]%pool_alloc_fresh Hf.
  split; cbn [sgw_ue_list ue_pool sess_pool bearer_pool tunnel_pool ues sesss bearers tunnels
    set_sesss set_sess_pool]; rewrite ?Hp; try done.
  - eapply owns_ext; [exact Hs|done|set_solver|done|]. intros c Hc. by rewrite alter_other by set_solver.
  - eapply owns_new_parent; [exact Hbs|done|by rewrite fn_lookup_alter|].
    intros q Hq. by rewrite alter_other.
  - intros c Hc. rewrite alter_other; [by apply Hbu|]. pose proof (own_parent _ _ _ _ Hbs c Hc).
    congruence.
  - intros c Hc. rewrite alter_other by set_solver. apply T2. set_solver.
Qed.
Lemma link_sess us xs ys zs s i u :
  tables_ok us xs ys zs s → i ∈ pool_used (sess_pool s) → i ∈ xs → u ∈ pool_used (ue_pool s) →
  s_ue (sesss s i) = u → sgw_s5c_teid (sesss s i) = SGW_S5C_INDEX_TO_TEID i →
  tables_ok us (xs ∖ {[i]}) ys zs
    (set_ues (alter (λ x, set_sess_list (ogs_list_add (sess_list x) i) x) u (ues s)) s).
Proof.
  intros [Hl Hs Hbs Hts Hbu T1 T2 T3 Hty] Hi Hx Hu Eu Et.
  split; cbn [sgw_ue_list ue_pool sess_pool bearer_pool tunnel_pool ues sesss bearers tunnels
    set_ues]; try done.
  - eapply (owns_link _ _ _ _ i); [exact Hs|set_solver|by subst| |cbn; subst; by rewrite fn_lookup_alter|].
    + intros x. destruct (decide (x = i)); set_solver.
    + intros q Hq. cbn. rewrite alter_other; [done|congruence].
  - intros c Hc. rewrite (alter_field sgw_s11_teid) by done. by apply T1.
  - intros c Hc. destruct (decide (c = i)) as [->|]; [done|]. apply T2. set_solver.
Qed.
Lemma unlink_sess us xs ys zs s i u :
  tables_ok us xs ys zs s → i ∈ pool_used (sess_pool s) → i ∉ xs → s_ue (sesss s i) = u →
  tables_ok us ({[i]} ∪ xs) ys zs
    (set_ues (alter (λ x, set_sess_list (ogs_list_remove (sess_list x) i) x) u (ues s)) s).
Proof.
  intros [Hl Hs Hbs Hts Hbu T1 T2 T3 Hty] Hi Hx Eu.
  split; cbn [sgw_ue_list ue_pool sess_pool bearer_pool tunnel_pool ues sesss bearers tunnels
    set_ues]; try done.
  - eapply (owns_unlink _ _ _ _ i); [exact Hs|set_solver|set_solver|cbn; subst; by rewrite fn_lookup_alter|].
    intros q Hq. cbn. rewrite alter_other; [done|congruence].
  - intros c Hc. rewrite (alter_field sgw_s11_teid) by done. by apply T1.
  - intros c Hc. apply T2. set_solver.
Qed.
Lemma free_sess us xs ys zs s i :
  tables_ok us xs ys zs s → i ∈ xs →
  (∀ b, b ∈ pool_used (bearer_pool s) ∖ ys → b_sess (bearers s b) ≠ i) →
  tables_ok us (xs ∖ {[i]}) ys zs (set_sess_pool (pool_free i (sess_pool s)) s).
Proof.
  intros [Hl Hs Hbs Hts Hbu T1 T2 T3 Hty] Hx Hb.
  assert (E : (pool_used (sess_pool s) ∖ {[i]}) ∖ (xs ∖ {[i]}) = pool_used (sess_pool s) ∖ xs).
  { apply set_eq. intros x. destruct (decide (x = i)); set_solver. }
  split; cbn [sgw_ue_list ue_pool sess_pool bearer_pool tunnel_pool ues sesss bearers tunnels
    set_sess_pool]; rewrite ?pool_used_free, ?E; try done.
  by apply owns_free_parent.
Qed.
Lemma wlp_sess_add us s u apn ebi :
  tables_ok us ∅ ∅ ∅ s →
  wlp (sgw_sess_add conf u apn ebi) s (λ i s', tables_ok us ∅ ∅ ∅ s').
Proof.
  intros Hok. apply wlp_bind, wlp_massert. intros _. apply wlp_bind, wlp_alloc. intros i p E.
  apply wlp_bind, wlp_change. intros Hi. set (s1 := set_sesss _ _).
  assert (tables_ok us ({[i]} ∪ ∅) ∅ ∅ s1) as Hok1 by (by eapply (new_sess _ _ _ _ s)).
  assert (s_ue (sesss s1 i) = u ∧ sgw_s5c_teid (sesss s1 i) = SGW_S5C_INDEX_TO_TEID i) as [Eu Et].
  { subst s1. cbn. by rewrite fn_lookup_alter. }
  assert (i ∈ pool_used (sess_pool s1)) as Hi1 by exact Hi. clearbody s1.
  eapply wlp_call; [by eapply wlp_bearer_add|]. intros b s2 [Hok2 F2].
  apply wlp_bind, wlp_change. intros Hb. set (s3 := set_bearers _ _).
  assert (same_tables s2 s3) as F3.
  { split; try done. intros c. cbn. by rewrite !(alter_field tunnel_list), !(alter_field b_sess),
      !(alter_field b_ue). }
  apply (tables_ok_frame _ _ _ _ _ _ F3) in Hok2.
  assert (bearer_frame s1 s3) as [[_ Ep] Es].
  { etransitivity; [exact F2|]. by apply same_tables_frame. }
  clearbody s3. apply wlp_bind, wlp_change. intros Hu. apply wlp_ret.
  replace (∅ : gset Z) with (({[i]} ∪ ∅) ∖ {[i]} : gset Z) at 1 by set_solver.
  destruct (Es i) as [Es1 Es2].
  apply link_sess; [done|by rewrite Ep|set_solver|done|by rewrite Es1|by rewrite Es2].
Qed.
Lemma wlp_sgw_sess_remove us s i :
  tables_ok us ∅ ∅ ∅ s →
  wlp (sgw_sess_remove i) s (λ _ s', tables_ok us ∅ ∅ ∅ s' ∧ ue_pool s' = ue_pool s ∧
    pool_used (sess_pool s') = pool_used (sess_pool s) ∖ {[i]} ∧
    ∀ j, s_ue (sesss s' j) = s_ue (sesss s j)).
Proof.
  intros Hok. apply wlp_bind, wlp_the. intros Hi. apply wlp_bind, wlp_change. intros Hu.
  set (s1 := set_ues _ _).
  assert (tables_ok us ({[i]} ∪ ∅) ∅ ∅ s1) as Hok1 by (by apply unlink_sess).
  eapply wlp_call; [by eapply wlp_bearer_remove_all|].
  intros [] s2 (Hok2 & [[Eu Es] Ei] & Hb). apply wlp_free. intros _. split; [|split; [|split]].
  - replace (∅ : gset Z) with (({[i]} ∪ ∅) ∖ {[i]} : gset Z) at 1 by set_solver.
    apply free_sess; [done|set_solver|]. intros b Hin. apply Hb. set_solver.
  - done.
  - cbn. by rewrite pool_used_free, Es.
  - intros j. by apply Ei.
Qed.
Lemma wlp_sess_remove_all us s u :
  tables_ok us ∅ ∅ ∅ s →
  wlp (sgw_sess_remove_all u) s (λ _ s', tables_ok us ∅ ∅ ∅ s' ∧ ue_pool s' = ue_pool s ∧
    ∀ i, i ∈ pool_used (sess_pool s') → s_ue (sesss s' i) ≠ u).
Proof.
  intros Hok. apply wlp_bind, wlp_the. intros Hu.
  destruct (own_list _ _ _ _ (ok_sess _ _ _ _ _ Hok) u Hu) as [_ Hm].
  eapply wlp_mono; [eapply (wlp_each _ (λ l s', tables_ok us ∅ ∅ ∅ s' ∧ ue_pool s' = ue_pool s ∧
    ∀ i, i ∈ pool_used (sess_pool s') → s_ue (sesss s' i) = u → i ∈ l))|].
  - intros i l s1 (Hk1 & F1 & Hr). eapply wlp_mono; [by apply wlp_sgw_sess_remove|].
    intros [] s2 (Hk2 & F2 & U2 & E2). split; [done|]. split; [congruence|].
    intros c. rewrite U2, E2. set_solver.
  - split; [done|]. split; [done|]. intros i Hi Ei. apply Hm. set_solver.
  - intros [] s' (Hk1 & F1 & Hr). split; [done|]. split; [done|]. intros i Hi Ei.
    by apply (not_elem_of_nil i), Hr.
Qed.

(** *** UEs *)
Lemma new_ue us xs ys zs s u p f :
  tables_ok us xs ys zs s → pool_alloc (ue_pool s) = Some (u, p) → (∀ x, sess_list (f x) = []) →
  tables_ok ({[u]} ∪ us) xs ys zs (set_ues (alter f u (ues s)) (set_ue_pool p s)).
Proof.
  intros [Hl Hs Hbs Hts Hbu T1 T2 T3 Hty] [Hn Hp]%pool_alloc_fresh Hf.
  split; cbn [sgw_ue_list ue_pool sess_pool bearer_pool tunnel_pool ues sesss bearers tunnels
    set_ues set_ue_pool]; rewrite ?Hp; try done.
  - split; [apply Hl|]. intros c. rewrite (proj2 Hl). set_solver.
  - eapply owns_new_parent; [exact Hs|done|by rewrite fn_lookup_alter|].
    intros q Hq. by rewrite alter_other.
  - intros c Hc. rewrite alter_other by set_solver. apply T1. set_solver.
Qed.
Lemma link_ue us xs ys zs s u :
  tables_ok us xs ys zs s → u ∈ pool_used (ue_pool s) → u ∈ us → sgw_s11_teid (ues s u) = u →
  tables_ok (us ∖ {[u]}) xs ys zs (set_sgw_ue_list (ogs_list_add (sgw_ue_list s) u) s).
Proof.
  intros [[Hd Hm] Hs Hbs Hts Hbu T1 T2 T3 Hty] Hu Hin Et.
  split; cbn [sgw_ue_list ue_pool sess_pool bearer_pool tunnel_pool ues sesss bearers tunnels
    set_sgw_ue_list]; try done.
  - split; [rewrite ogs_list_add_perm; constructor; [rewrite Hm; set_solver|done]|].
    intros c. rewrite ogs_list_add_perm, elem_of_cons, Hm. destruct (decide (c = u)); set_solver.
  - intros c Hc. destruct (decide (c = u)) as [->|]; [done|]. apply T1. set_solver.
Qed.
Lemma unlink_ue us xs ys zs s u :
  tables_ok us xs ys zs s →
  tables_ok ({[u]} ∪ us) xs ys zs (set_sgw_ue_list (ogs_list_remove (sgw_ue_list s) u) s).
Proof.
  intros [[Hd Hm] Hs Hbs Hts Hbu T1 T2 T3 Hty].
  split; cbn [sgw_ue_list ue_pool sess_pool bearer_pool tunnel_pool ues sesss bearers tunnels
    set_sgw_ue_list]; try done.
  - split; [by rewrite ogs_list_remove_perm by done; apply list.NoDup_filter|].
    intros c. rewrite ogs_list_remove_perm, list_elem_of_filter, Hm by done. set_solver.
  - intros c Hc. apply T1. set_solver.
Qed.
Lemma free_ue us xs ys zs s u :
  tables_ok us xs ys zs s → u ∈ us →
  (∀ i, i ∈ pool_used (sess_pool s) ∖ xs → s_ue (sesss s i) ≠ u) →
  tables_ok (us ∖ {[u]}) xs ys zs (set_ue_pool (pool_free u (ue_pool s)) s).
Proof.
  intros [Hl Hs Hbs Hts Hbu T1 T2 T3 Hty] Hx Hi.
  assert (E : (pool_used (ue_pool s) ∖ {[u]}) ∖ (us ∖ {[u]}) = pool_used (ue_pool s) ∖ us).
  { apply set_eq. intros x. destruct (decide (x = u)); set_solver. }
  split; cbn [sgw_ue_list ue_pool sess_pool bearer_pool tunnel_pool ues sesss bearers tunnels
    set_ue_pool]; rewrite ?pool_used_free, ?E; try done.
  by apply owns_free_parent.
Qed.
Lemma wlp_ue_add s imsi :
  tables_wf s → wlp (sgw_ue_add conf imsi) s (λ _ s', tables_wf s').
Proof.
  intros Hok. apply wlp_bind, wlp_massert. intros _. apply wlp_bind, wlp_alloc. intros u p E.
  apply wlp_bind, wlp_massert. intros _. apply wlp_bind. destruct (_ <=? _); [|by apply wlp_lift].
  apply wlp_ret, wlp_bind, wlp_change. intros Hu. set (s1 := set_ues _ _).
  assert (tables_ok ({[u]} ∪ ∅) ∅ ∅ ∅ s1) as Hok1 by (by eapply (new_ue _ _ _ _ s)).
  assert (sgw_s11_teid (ues s1 u) = u) as Et by (subst s1; cbn; by rewrite fn_lookup_alter).
  assert (u ∈ pool_used (ue_pool s1)) as Hu1 by exact Hu. clearbody s1.
  apply wlp_bind, wlp_modify, wlp_ret. unfold tables_wf.
  replace (∅ : gset Z) with (({[u]} ∪ ∅) ∖ {[u]} : gset Z) at 1 by set_solver.
  apply link_ue; [done|done|set_solver|done].
Qed.
Lemma wlp_ue_remove s u :
  tables_wf s → wlp (sgw_ue_remove u) s (λ _ s', tables_wf s').
Proof.
  intros Hok. apply wlp_bind, wlp_the. intros Hu. apply wlp_bind, wlp_modify.
  eapply wlp_call; [eapply wlp_sess_remove_all; by apply unlink_ue|].
  intros [] s2 (Hok2 & Eu & Hi). apply wlp_free. intros _. unfold tables_wf.
  replace (∅ : gset Z) with (({[u]} ∪ ∅) ∖ {[u]} : gset Z) at 1 by set_solver.
  apply free_ue; [done|set_solver|]. intros i Hin. apply Hi. set_solver.
Qed.
End inv.
