(* ===== verification/SgwSystem.v ===== *)
(** * The SGW: what every handler preserves

    The tables of contexts stay well-formed ([tables_wf] of [SgwInv.v]), and
    every pointer at a peer is at a peer that has a socket and an address. *)
From S2P Require Import Prelude.
From S2P Require Import CMem.
From S2P Require Import OgsLib.
From S2P Require Import ObjPool.
From S2P Require Import GtpConv.
From S2P Require Import GtpTypes.
From S2P Require Import GtpNode.
From S2P Require Import NasIes.
From S2P Require Import NasConv.
From S2P Require Import SgwContext.
From S2P Require Import SgwHandler.
From S2P Require Import SgwPath.
From S2P Require Import SgwInv.
From stdpp Require Import functions.
#[local] Open Scope Z_scope.

Section system.
Context `{Host, OgsBits, OgsPlmn, !Ogs3gpp, OgsPoolLaws, OgsListLaws, OgsSock, OgsImsiLen,
          OgsLengths, OgsFqdn} (conf : sgw_conf).
Implicit Types (s : sgw_t).

(** ** The tables *)
Section tables.
Lemma pres_frame s s' : same_tables s s' → pres tables_wf s s'.
Proof. intros F Hok. by apply (tables_ok_frame _ _ _ _ _ _ F). Qed.
Lemma tables_on_ue u f :
  (∀ x, sess_list (f x) = sess_list x) → (∀ x, sgw_s11_teid (f x) = sgw_s11_teid x) →
  keeps (pres tables_wf) (on_ue u f).
Proof.
  intros H1' H2' s. apply wlp_change. intros _. apply pres_frame. split; try done. intros c. cbn.
  by rewrite (alter_field sess_list), (alter_field sgw_s11_teid).
Qed.
Lemma tables_on_sess i f :
  (∀ x, bearer_list (f x) = bearer_list x) → (∀ x, s_ue (f x) = s_ue x) →
  (∀ x, sgw_s5c_teid (f x) = sgw_s5c_teid x) → keeps (pres tables_wf) (on_sess i f).
Proof.
  intros H1' H2' H3' s. apply wlp_change. intros _. apply pres_frame. split; try done. intros c. cbn.
  by rewrite (alter_field bearer_list), (alter_field s_ue), (alter_field sgw_s5c_teid).
Qed.
Lemma tables_on_bearer b f :
  (∀ x, tunnel_list (f x) = tunnel_list x) → (∀ x, b_sess (f x) = b_sess x) →
  (∀ x, b_ue (f x) = b_ue x) → keeps (pres tables_wf) (on_bearer b f).
Proof.
  intros H1' H2' H3' s. apply wlp_change. intros _. apply pres_frame. split; try done. intros c. cbn.
  by rewrite (alter_field tunnel_list), (alter_field b_sess), (alter_field b_ue).
Qed.
Lemma tables_on_tunnel t f :
  (∀ x, t_bearer (f x) = t_bearer x) → (∀ x, t_interface_type (f x) = t_interface_type x) →
  (∀ x, local_teid (f x) = local_teid x) → keeps (pres tables_wf) (on_tunnel t f).
Proof.
  intros H1' H2' H3' s. apply wlp_change. intros _. apply pres_frame. split; try done. intros c. cbn.
  by rewrite (alter_field t_bearer), (alter_field t_interface_type), (alter_field local_teid).
Qed.
Lemma tables_bearer_add i : keeps (pres tables_wf) (sgw_bearer_add conf i).
Proof. intros s b s' E Hok. by apply (wlp_bearer_add conf _ _ _ _ Hok _ _ E). Qed.
Lemma tables_bearer_remove b : keeps (pres tables_wf) (sgw_bearer_remove b).
Proof. intros s a s' E Hok. by apply (wlp_sgw_bearer_remove _ _ _ _ Hok _ _ E). Qed.
Lemma tables_sess_add u apn ebi : keeps (pres tables_wf) (sgw_sess_add conf u apn ebi).
Proof. intros s a s' E Hok. by apply (wlp_sess_add conf _ _ _ _ _ Hok _ _ E). Qed.
Lemma tables_sess_remove i : keeps (pres tables_wf) (sgw_sess_remove i).
Proof. intros s a s' E Hok. by apply (wlp_sgw_sess_remove _ _ _ Hok _ _ E). Qed.
Lemma tables_ue_add imsi : keeps (pres tables_wf) (sgw_ue_add conf imsi).
Proof. intros s a s' E Hok. by apply (wlp_ue_add conf _ _ Hok _ _ E). Qed.
Lemma tables_tunnel_add b ty : forwarding_type ty → keeps (pres tables_wf) (sgw_tunnel_add conf b ty).
Proof. intros Hf s a s' E Hok. apply (wlp_tunnel_add conf _ _ _ _ _ _ Hok (or_intror Hf) _ _ E). Qed.
Lemma is_forwarding_type t : is_forwarding t = true → forwarding_type (t_interface_type t).
Proof. unfold is_forwarding, forwarding_type. rewrite orb_true_iff, !Z.eqb_eq. done. Qed.
Lemma tables_remove_if_forwarding t : keeps (pres tables_wf) (remove_if_forwarding t).
Proof.
  intros s. apply wlp_bind, wlp_the. intros Ht. destruct (is_forwarding _) eqn:Ef; [|by apply wlp_ret].
  intros a s' E Hok. apply is_forwarding_type in Ef.
  apply (wlp_tunnel_remove _ _ _ _ _ Hok (or_intror Ef) _ _ E).
Qed.

#[local] Hint Extern 1 (keeps _ (on_ue _ _)) => apply tables_on_ue; intros; reflexivity : keeps.
#[local] Hint Extern 1 (keeps _ (on_sess _ _)) => apply tables_on_sess; intros; reflexivity : keeps.
#[local] Hint Extern 1 (keeps _ (on_bearer _ _)) => apply tables_on_bearer; intros; reflexivity : keeps.
#[local] Hint Extern 1 (keeps _ (on_tunnel _ _)) => apply tables_on_tunnel; intros; reflexivity : keeps.
#[local] Hint Resolve tables_bearer_add tables_bearer_remove tables_sess_add tables_sess_remove
  tables_ue_add tables_remove_if_forwarding : keeps.
Ltac tables_tac :=
  intros; repeat (cbv beta zeta;
    first [each_step | keeps_deep_step ltac:(apply pres_frame; by split)]).

Lemma tables_peer_of l port sock sock6 f : keeps (pres tables_wf) (peer_of conf l port sock sock6 f).
Proof. tables_tac. Qed.
#[local] Hint Resolve tables_peer_of : keeps.
Lemma tables_forwarding_tunnel b ty f :
  forwarding_type ty → keeps (pres tables_wf) (forwarding_tunnel_opt conf b ty f).
Proof.
  intros Hf. pose proof (tables_tunnel_add b ty Hf). unfold forwarding_tunnel_opt, forwarding_tunnel.
  tables_tac.
Qed.
Lemma tables_indirect_tunnels u l : keeps (pres tables_wf) (indirect_tunnels conf u l).
Proof.
  induction l as [|c l IH]; cbn [indirect_tunnels]; [tables_tac|].
  pose proof (λ b f, tables_forwarding_tunnel b _ f (or_introl eq_refl)).
  pose proof (λ b f, tables_forwarding_tunnel b _ f (or_intror eq_refl)). tables_tac.
Qed.
#[local] Hint Resolve tables_indirect_tunnels : keeps.
Lemma tables_s11 x u b : keeps (pres tables_wf) (sgw_s11_message conf x u b).
Proof. destruct b; cbn [sgw_s11_message]; tables_tac. Qed.
Lemma tables_s5c x i b : keeps (pres tables_wf) (sgw_s5c_message conf x i b).
Proof. destruct b; cbn [sgw_s5c_message]; tables_tac. Qed.
Lemma tables_event e : keeps (pres tables_wf) (sgw_state_operational conf e).
Proof.
  pose proof tables_s11. pose proof tables_s5c.
  destruct e; cbn [sgw_state_operational]; unfold ue_of_message; tables_tac.
Qed.
Lemma tables_modify_bearer u b f uli : keeps (pres tables_wf) (modify_bearer conf u b f uli).
Proof. tables_tac. Qed.
Lemma tables_gtpu data rest : keeps (pres tables_wf) (sgw_gtpu_receive data rest).
Proof. tables_tac. Qed.
Lemma tables_gtpc p m x : keeps (pres tables_wf) (sgw_gtpc_receive p m x).
Proof. tables_tac. Qed.
End tables.

(** ** The peers *)
Section peers.
Definition good s (n : Z) : Prop :=
  n ∈ pool_used (node_pool (gtp_nodes s)) ∧
  (∃ sock, n_sock (nodes (gtp_nodes s) n) = Some sock) ∧
  (∃ ip, n_ip (nodes (gtp_nodes s) n) = Some ip).
(** [G]: the peers that the running operation holds; [U]: UEs that have no
    peer yet. *)
Record peers_ok (G U : gset Z) s : Prop := {
  pk_held n : n ∈ G → good s n;
  pk_list l n : n ∈ node_lists s l → good s n;
  pk_ue u : u ∈ pool_used (ue_pool s) ∖ U → ∃ n, u_gnode (ues s u) = Some n ∧ good s n;
  pk_sess i n : i ∈ pool_used (sess_pool s) → s_gnode (sesss s i) = Some n → good s n;
  pk_tunnel t n : t ∈ pool_used (tunnel_pool s) → t_gnode (tunnels s t) = Some n → good s n;
}.
Definition peers_wf : sgw_t → Prop := peers_ok ∅ ∅.
(** Objects may go away; the pointers of the others do not change. *)
Record same_peers s s' : Prop := {
  sp_nodes : gtp_nodes s' = gtp_nodes s ∧ node_lists s' = node_lists s;
  sp_pools : pool_used (ue_pool s') ⊆ pool_used (ue_pool s) ∧
    pool_used (sess_pool s') ⊆ pool_used (sess_pool s) ∧
    pool_used (tunnel_pool s') ⊆ pool_used (tunnel_pool s);
  sp_ue u : u_gnode (ues s' u) = u_gnode (ues s u);
  sp_sess i : s_gnode (sesss s' i) = s_gnode (sesss s i);
  sp_tunnel t : t_gnode (tunnels s' t) = t_gnode (tunnels s t);
}.
Lemma peers_ok_frame G U s s' : same_peers s s' → pres (peers_ok G U) s s'.
Proof.
  intros [[E1 E2] (P1 & P2 & P3) Eu Ei Et] [Hg Hl Hu Hi Ht].
  assert (Eg : good s' = good s) by (unfold good; by rewrite E1).
  split; rewrite ?Eg, ?E2; [done|done|..].
  - intros u Hin. rewrite Eu. apply Hu. set_solver.
  - intros i n Hin. rewrite Ei. apply Hi. set_solver.
  - intros t n Hin. rewrite Et. apply Ht. set_solver.
Qed.
Lemma peers_weaken G G' U s : G' ⊆ G → peers_ok G U s → peers_ok G' U s.
Proof. intros HG [Hg Hl Hu Hi Ht]. split; [|done..]. intros n Hn. apply Hg. set_solver. Qed.
Section changes.
Context (G : gset Z).
Notation P := (pres (peers_ok G ∅)).
Lemma peers_on_ue u f : (∀ x, u_gnode (f x) = u_gnode x) → keeps P (on_ue u f).
Proof.
  intros Hf s. apply wlp_change. intros _. apply peers_ok_frame. split; try done. intros c. cbn.
  by rewrite (alter_field u_gnode).
Qed.
Lemma peers_on_sess u f : (∀ x, s_gnode (f x) = s_gnode x) → keeps P (on_sess u f).
Proof.
  intros Hf s. apply wlp_change. intros _. apply peers_ok_frame. split; try done. intros c. cbn.
  by rewrite (alter_field s_gnode).
Qed.
Lemma peers_on_bearer u f : keeps P (on_bearer u f).
Proof. intros s. apply wlp_change. intros _. by apply peers_ok_frame. Qed.
Lemma peers_on_tunnel u f : (∀ x, t_gnode (f x) = t_gnode x) → keeps P (on_tunnel u f).
Proof.
  intros Hf s. apply wlp_change. intros _. apply peers_ok_frame. split; try done. intros c. cbn.
  by rewrite (alter_field t_gnode).
Qed.
(** A pointer is set to a peer that the operation holds. *)
Lemma peers_set_tunnel t n : n ∈ G → keeps P (on_tunnel t (set_t_gnode (Some n))).
Proof.
  intros Hn s. apply wlp_change. intros _ [Hg Hl Hu Hi Ht]. split; try done. intros c m Hin. cbn.
  destruct (decide (t = c)) as [->|]; [rewrite fn_lookup_alter; intros [= <-]; by apply Hg|].
  rewrite alter_other by done. by apply Ht.
Qed.
Lemma peers_set_sess i n : n ∈ G → keeps P (on_sess i (set_s_gnode (Some n))).
Proof.
  intros Hn s. apply wlp_change. intros _ [Hg Hl Hu Hi Ht]. split; try done. intros c m Hin. cbn.
  destruct (decide (i = c)) as [->|]; [rewrite fn_lookup_alter; intros [= <-]; by apply Hg|].
  rewrite alter_other by done. by apply Hi.
Qed.
Lemma peers_free pool (set : pool_t → sgw_t → sgw_t) i :
  (∀ s p, pool_used p ⊆ pool_used (pool s) → same_peers s (set p s)) → keeps P (free pool set i).
Proof.
  intros Hf s. apply wlp_free. intros _. apply peers_ok_frame, Hf. rewrite pool_used_free. set_solver.
Qed.
End changes.

(** *** The operations that make pointers at peers *)
#[local] Hint Extern 1 (keeps _ (on_ue _ _)) => apply peers_on_ue; intros; reflexivity : keeps.
#[local] Hint Extern 1 (keeps _ (on_sess _ _)) => apply peers_on_sess; intros; reflexivity : keeps.
#[local] Hint Extern 1 (keeps _ (on_bearer _ _)) => apply peers_on_bearer : keeps.
#[local] Hint Extern 1 (keeps _ (on_tunnel _ _)) => apply peers_on_tunnel; intros; reflexivity : keeps.
#[local] Hint Extern 1 (keeps _ (on_tunnel _ (set_t_gnode (Some _)))) =>
  apply peers_set_tunnel; set_solver : keeps.
#[local] Hint Extern 1 (keeps _ (on_sess _ (set_s_gnode (Some _)))) =>
  apply peers_set_sess; set_solver : keeps.
#[local] Hint Extern 1 (keeps _ (free _ _ _)) => apply peers_free; intros; by split : keeps.
Ltac peers_base := first [each_step | keeps_deep_step ltac:(apply peers_ok_frame; by split)].

Lemma peers_tunnel_add G b ty : keeps (pres (peers_ok G ∅)) (sgw_tunnel_add conf b ty).
Proof.
  intros s a s' E Hok. revert a s' E. apply wlp_bind, wlp_alloc. intros t p E.
  apply wlp_bind, wlp_massert. intros _. apply wlp_bind, wlp_change. intros _.
  apply keeps_run; [repeat peers_base|]. destruct (pool_alloc_fresh _ _ _ E) as [Hn Hp].
  destruct Hok as [Hg Hl Hu Hi Ht]. split; cbn; rewrite ?Hp; try done. intros c m Hin.
  destruct (decide (t = c)) as [->|]; [by rewrite fn_lookup_alter|].
  rewrite alter_other by done. apply Ht. set_solver.
Qed.
#[local] Hint Resolve peers_tunnel_add : keeps.
Lemma peers_bearer_add G i : keeps (pres (peers_ok G ∅)) (sgw_bearer_add conf i).
Proof. repeat peers_base. Qed.
#[local] Hint Resolve peers_bearer_add : keeps.
Lemma peers_sess_add G u apn ebi : keeps (pres (peers_ok G ∅)) (sgw_sess_add conf u apn ebi).
Proof.
  intros s a s' E Hok. revert a s' E. apply wlp_bind, wlp_massert. intros _.
  apply wlp_bind, wlp_alloc. intros i p E. apply wlp_bind, wlp_change. intros _.
  apply keeps_run; [repeat peers_base|]. destruct (pool_alloc_fresh _ _ _ E) as [Hn Hp].
  destruct Hok as [Hg Hl Hu Hi Ht]. split; cbn; rewrite ?Hp; try done. intros c m Hin.
  destruct (decide (i = c)) as [->|]; [by rewrite fn_lookup_alter|].
  rewrite alter_other by done. apply Hi. set_solver.
Qed.
#[local] Hint Resolve peers_sess_add : keeps.
(** The new UE has no peer yet. *)
Lemma wlp_ue_add_peers G s imsi :
  peers_ok G ∅ s → wlp (sgw_ue_add conf imsi) s (λ u s', peers_ok G {[u]} s').
Proof.
  intros [Hg Hl Hu Hi Ht]. apply wlp_bind, wlp_massert. intros _. apply wlp_bind, wlp_alloc. intros u p E.
  apply wlp_bind, wlp_massert. intros _. apply wlp_bind. destruct (_ <=? _); [|by apply wlp_lift].
  apply wlp_ret, wlp_bind, wlp_change. intros _. apply wlp_bind, wlp_modify, wlp_ret.
  destruct (pool_alloc_fresh _ _ _ E) as [Hn Hp]. split; cbn; rewrite ?Hp; try done.
  intros c Hin. rewrite (alter_field u_gnode) by done. apply Hu. set_solver.
Qed.

Lemma peers_the_node G n : keeps (pres (peers_ok G ∅)) (with_nodes (the_node n)).
Proof.
  intros s. apply wlp_zoom, wlp_the_node. intros _. apply peers_ok_frame. by split.
Qed.
#[local] Hint Resolve peers_the_node : keeps.
(** What [peer_of] gives is a peer with a socket and an address; those there
    were stay. *)
Lemma wlp_peer_of G U l port sock sock6 f s :
  peers_ok G U s → wlp (peer_of conf l port sock sock6 f) s (λ n s', peers_ok ({[n]} ∪ G) U s').
Proof.
  intros Hok. apply wlp_bind, wlp_get. apply wlp_bind, wlp_zoom.
  eapply wlp_mono; [apply wlp_node_find|]. intros r n0 [-> Hr].
  assert (peers_ok G U (set_gtp_nodes (gtp_nodes s) s)) as Hok1.
  { eapply peers_ok_frame; [|exact Hok]. by split. }
  destruct r as [n|].
  { apply wlp_ret. destruct Hok1 as [Hg Hl Hu Hi Ht]. split; try done.
    intros m [->%elem_of_singleton|Hm]%elem_of_union; [|auto]. apply (Hl l). by apply Hr. }
  apply wlp_bind, wlp_zoom. eapply wlp_mono; [apply wlp_node_add|].
  intros [n l'] n1 (Hn & Hp & En & [ip Hip] & ->). apply wlp_bind, wlp_modify.
  apply wlp_bind, wlp_zoom. eapply wlp_mono; [apply wlp_connect|].
  intros ok n2 (Hp2 & En2 & Hk). apply wlp_bind, wlp_massert. intros ->. apply wlp_ret.
  destruct (Hk eq_refl) as [Hs Hi2]. cbn in *. set (s2 := set_gtp_nodes _ _).
  assert (Hnew : good s2 n).
  { split; [cbn; rewrite Hp2, Hp; set_solver|]. split; [exact Hs|]. cbn. rewrite Hi2. eauto. }
  assert (Hold : ∀ m, good s m → good s2 m).
  { intros m (Hm & Hm1 & Hm2). assert (m ≠ n) by set_solver.
    split; [cbn; rewrite Hp2, Hp; set_solver|]. cbn. by rewrite En2, En by done. }
  destruct Hok as [Hg Hl Hu Hi Ht]. split.
  - intros m [->%elem_of_singleton|Hm]%elem_of_union; auto.
  - intros l2 m. cbn. destruct (decide (l = l2)) as [->|].
    + rewrite fn_lookup_insert, ogs_list_add_perm, elem_of_cons. intros [->|Hm]; eauto.
    + rewrite fn_lookup_insert_ne by done. eauto.
  - intros u Hin. destruct (Hu u Hin) as (m & Em & Hm). eauto.
  - intros i m Hin Em. eapply Hold, Hi; eauto.
  - intros t m Hin Em. eapply Hold, Ht; eauto.
Qed.

Lemma keeps_peer_of {A} G l port sock sock6 f (k : Z → M sgw_t A) :
  (∀ n, keeps (pres (peers_ok ({[n]} ∪ G) ∅)) (k n)) →
  keeps (pres (peers_ok G ∅)) (peer_of conf l port sock sock6 f ≫= k).
Proof.
  intros Hk s a s' E Hok. apply M_bind_ok in E as (n & s1 & E1 & E2).
  pose proof (Hk n _ _ _ E2 (wlp_peer_of _ _ _ _ _ _ _ _ Hok _ _ E1)) as Hok'.
  eapply peers_weaken, Hok'. set_solver.
Qed.
Lemma keeps_peer G l port sock sock6 f :
  keeps (pres (peers_ok G ∅)) (peer_of conf l port sock sock6 f).
Proof.
  intros s n s' E Hok. eapply peers_weaken, (wlp_peer_of _ _ _ _ _ _ _ _ Hok _ _ E). set_solver.
Qed.
Ltac peers_tac :=
  intros; repeat (cbv beta zeta;
    first [apply keeps_peer_of; intros
          | lazymatch goal with |- keeps _ (gtpu_peer _ _ _ ≫= _) => apply keeps_peer_of; intros end
          | lazymatch goal with |- keeps _ (gtpc_peer _ _ _ ≫= _) => apply keeps_peer_of; intros end
          | peers_base]).

Lemma peers_store_uli G b o : keeps (pres (peers_ok G ∅)) (store_uli b o).
Proof. peers_tac. Qed.
Lemma peers_forwarding_tunnel G b ty f : keeps (pres (peers_ok G ∅)) (forwarding_tunnel_opt conf b ty f).
Proof. unfold forwarding_tunnel_opt, forwarding_tunnel. peers_tac. Qed.
#[local] Hint Resolve peers_forwarding_tunnel : keeps.
Lemma peers_indirect_tunnels G u l : keeps (pres (peers_ok G ∅)) (indirect_tunnels conf u l).
Proof. induction l as [|c l IH]; cbn [indirect_tunnels]; peers_tac. Qed.
#[local] Hint Resolve peers_indirect_tunnels : keeps.
Lemma peers_s11 G x u b : keeps (pres (peers_ok G ∅)) (sgw_s11_message conf x u b).
Proof. destruct b; cbn [sgw_s11_message]; peers_tac. Qed.
Lemma peers_s5c G x i b : keeps (pres (peers_ok G ∅)) (sgw_s5c_message conf x i b).
Proof. destruct b; cbn [sgw_s5c_message]; peers_tac. Qed.
Lemma peers_ue_of_message G m : keeps (pres (peers_ok G ∅)) (ue_of_message conf m).
Proof.
  unfold ue_of_message. destruct (_ =? _); [|peers_tac]. unfold sgw_mme_add_by_message.
  destruct (sender_f_teid _) as [f|]; [|intros s a s' E; discriminate E].
  intros s a s' E Hok. rewrite M_bind_assoc in E. revert s a s' E Hok.
  apply keeps_peer_of. intros n s a s' E Hok. revert a s' E. apply wlp_bind, wlp_ret.
  apply wlp_bind, wlp_assert_some. intros ? [= <-].
  unfold sgw_ue_add_by_message. destruct (m_imsi _) as [imsi|]; [|intros ?? E; discriminate E].
  apply wlp_bind. eapply wlp_call; [by apply wlp_ue_add_peers|]. intros u s1 [Hg Hl Hu Hi Ht].
  apply wlp_ret, wlp_bind, wlp_assert_some. intros ? [= <-].
  apply wlp_bind, wlp_change. intros _. apply wlp_ret. split; try done.
  intros c Hin. cbn. destruct (decide (u = c)) as [->|Hne].
  - rewrite fn_lookup_alter. exists n. split; [done|]. apply Hg. set_solver.
  - rewrite alter_other by done. apply Hu. set_solver.
Qed.
#[local] Hint Resolve peers_s11 peers_s5c peers_ue_of_message : keeps.
Lemma peers_event G e : keeps (pres (peers_ok G ∅)) (sgw_state_operational conf e).
Proof. destruct e; cbn [sgw_state_operational]; peers_tac. Qed.
Lemma peers_gtpu G data rest : keeps (pres (peers_ok G ∅)) (sgw_gtpu_receive data rest).
Proof. peers_tac. Qed.
Lemma peers_gtpc G p m x : keeps (pres (peers_ok G ∅)) (sgw_gtpc_receive p m x).
Proof. peers_tac. Qed.
End peers.
End system.
