(* ===== verification/SgwUserPlane.v ===== *)
(** * The user plane of the SGW: what happens to a packet

    Total specifications of the operations on packets, in states whose tables
    are well-formed. *)
From S2P Require Import Prelude.
From S2P Require Import CMem.
From S2P Require Import OgsLib.
From S2P Require Import ObjPool.
From S2P Require Import GtpConv.
From S2P Require Import GtpTypes.
From S2P Require Import GtpNode.
From S2P Require Import NasIes.
From S2P Require Import NasConv.
From S2P Require Import SgwContext.
From S2P Require Import SgwHandler.
From S2P Require Import SgwPath.
From S2P Require Import SgwInv.
From S2P Require Import SgwSystem.
From stdpp Require Import functions.
#[local] Open Scope Z_scope.

Section sgw.
Context `{Host, OgsBits, OgsPlmn, !Ogs3gpp, OgsPoolLaws, OgsListLaws, OgsSock, OgsImsiLen,
          OgsLengths, OgsFqdn} (conf : sgw_conf).
Implicit Types (s : sgw_t).

(** ** The tunnels of a bearer *)
(** [t] is the tunnel of type [ty] of bearer [b]. *)
Definition tunnel_of s (b ty t : Z) : Prop :=
  t ∈ pool_used (tunnel_pool s) ∧ t_bearer (tunnels s t) = b ∧ t_interface_type (tunnels s t) = ty.
Lemma tunnel_of_bearer s b ty t :
  tables_wf s → tunnel_of s b ty t → b ∈ pool_used (bearer_pool s) ∧ t ∈ tunnel_list (bearers s b).
Proof.
  intros Hok (Ht & Eb & _). pose proof (ok_tunnels _ _ _ _ _ Hok) as Hts.
  assert (Hb : b ∈ pool_used (bearer_pool s)) by (rewrite <- Eb; apply (own_parent _ _ _ _ Hts); set_solver).
  split; [done|]. apply (own_list _ _ _ _ Hts b Hb). set_solver.
Qed.
Lemma tunnel_unique s b ty t t' :
  tables_wf s → ¬ forwarding_type ty → tunnel_of s b ty t → tunnel_of s b ty t' → t' = t.
Proof.
  intros Hok Hf Ht Ht'. destruct (tunnel_of_bearer _ _ _ _ Hok Ht) as [Hb Hl].
  destruct (tunnel_of_bearer _ _ _ _ Hok Ht') as [_ Hl'].
  destruct (decide (t' = t)) as [|Hne]; [done|exfalso].
  apply elem_of_Permutation in Hl as [k Hk]. rewrite Hk in Hl'.
  apply elem_of_cons in Hl' as [|Hl']; [done|]. apply elem_of_Permutation in Hl' as [k' Hk'].
  rewrite Hk' in Hk. destruct Ht as (_ & _ & E), Ht' as (_ & _ & E').
  assert (Hb' : b ∈ pool_used (bearer_pool s) ∖ ∅) by set_solver.
  pose proof (ok_types _ _ _ _ _ Hok b Hb') as Hty. unfold two_tunnels, types in Hty. rewrite Hk in Hty.
  cbn [fmap list_fmap] in Hty. rewrite E, E', !filter_cons_True in Hty by done.
  assert (NoDup [OGS_GTP_F_TEID_S1_U_SGW_GTP_U; OGS_GTP_F_TEID_S5_S8_SGW_GTP_U]) as Hd
    by (by apply (bool_decide_unpack _)).
  rewrite <- Hty in Hd. apply NoDup_cons_1_1 in Hd. apply Hd. constructor.
Qed.
Lemma runs_find s b ty t Q :
  tables_wf s → ¬ forwarding_type ty → tunnel_of s b ty t → Q (Some t) s →
  runs (sgw_tunnel_find_by_interface_type b ty) s Q.
Proof.
  intros Hok Hf Ht HQ. destruct (tunnel_of_bearer _ _ _ _ Hok Ht) as [Hb Hl].
  apply runs_bind, runs_the; [done|].
  pose proof (proj2 (own_list _ _ _ _ (ok_tunnels _ _ _ _ _ Hok) b Hb)) as Hm.
  apply (runs_first_in _ _ _ _ t); [intros j Hj%Hm; set_solver|done|apply Z.eqb_eq, Ht| |done].
  intros j Hj Ej. apply Hm in Hj as [Hj Ejb]. apply Z.eqb_eq in Ej.
  eapply tunnel_unique; [done|done|done|]. split; [set_solver|done].
Qed.

(** ** Packets *)
(** Only packets and the trace change. *)
Definition only_packets s s' : Prop :=
  s' = set_trace (trace s') (set_pkts (pkts s') (set_pkt_pool (pkt_pool s') s)).
#[export] Instance only_packets_preorder : PreOrder only_packets.
Proof.
  split; [by intros []|]. intros s1 s2 s3 E1 E2. unfold only_packets in *. rewrite E2, E1. done.
Qed.
Lemma only_packets_tables s s' : only_packets s s' → tables_wf s → tables_wf s'.
Proof. intros E. rewrite E. apply tables_ok_frame. by split. Qed.
Lemma only_packets_good s s' n : only_packets s s' → good s n → good s' n.
Proof. intros E. by rewrite E. Qed.
Lemma only_packets_set tr m p s : only_packets s (set_trace tr (set_pkts m (set_pkt_pool p s))).
Proof. done. Qed.

Definition sent (n teid : Z) (buf : list Z) : sgw_output := GtpU n (with_gtp_teid teid buf).
Lemma runs_with_the_node s n (Q : ogs_gtp_node_t → sgw_t → Prop) :
  good s n → Q (nodes (gtp_nodes s) n) s → runs (with_nodes (the_node n)) s Q.
Proof.
  intros (Hn & _) HQ. apply runs_bind, runs_get, runs_bind, (runs_lift _ (nodes (gtp_nodes s) n, gtp_nodes s)).
  - unfold the_node. change ((get ≫= ?f) ?s) with (f s s). cbv beta. by rewrite decide_True by done.
  - apply runs_bind, runs_modify, runs_ret. by destruct s.
Qed.
Lemma good_sock s n : good s n → present (n_sock (nodes (gtp_nodes s) n)) = true.
Proof. by intros (_ & [sock ->] & _). Qed.
Lemma runs_send s n teid p Q :
  good s n → p ∈ pool_used (pkt_pool s) →
  (∀ s', only_packets s s' → trace s' = trace s ++ [sent n teid (pkts s p)] →
     pkt_pool s' = pkt_pool s → (∀ q, q ≠ p → pkts s' q = pkts s q) → Q () s') →
  runs (send_gtpu (Some n) teid p) s Q.
Proof.
  intros Hn Hp HQ. apply runs_bind, runs_assert_some, runs_bind, runs_with_the_node; [done|].
  apply runs_bind, runs_massert; [by apply good_sock|].
  apply runs_bind, runs_change; [done|]. apply runs_bind, runs_the; [done|]. apply runs_modify, HQ.
  - by destruct s.
  - cbn. by rewrite fn_lookup_alter.
  - done.
  - intros q Hq. cbn. by rewrite alter_other.
Qed.
Lemma runs_pkbuf_free s p Q :
  p ∈ pool_used (pkt_pool s) →
  (∀ s', only_packets s s' → trace s' = trace s → pkts s' = pkts s →
     pool_used (pkt_pool s') = pool_used (pkt_pool s) ∖ {[p]} → Q () s') →
  runs (pkbuf_free p) s Q.
Proof.
  intros Hp HQ. apply runs_free; [done|]. apply HQ; [by destruct s|done|done|apply pool_used_free].
Qed.
(** All the packets of a list are sent in its order, and freed. *)
Lemma runs_send_all s n teid l Q :
  good s n → NoDup l → (∀ p, p ∈ l → p ∈ pool_used (pkt_pool s)) →
  (∀ s', only_packets s s' → trace s' = trace s ++ (sent n teid ∘ pkts s <$> l) →
     pool_used (pkt_pool s') = pool_used (pkt_pool s) ∖ list_to_set l →
     (∀ q, q ∉ l → pkts s' q = pkts s q) → Q () s') →
  runs (each (λ p, send_gtpu (Some n) teid p;; pkbuf_free p) l) s Q.
Proof.
  revert s Q. induction l as [|p l IH]; intros s Q Hn Hd Hl HQ; cbn [each].
  - apply runs_ret, HQ; [done|by rewrite app_nil_r|set_solver|done].
  - apply list.NoDup_cons in Hd as [Hp Hd]. apply runs_bind, runs_bind, runs_send; [done|apply Hl; constructor|].
    intros s1 F1 E1 P1 K1. apply runs_pkbuf_free; [rewrite P1; apply Hl; constructor|].
    intros s2 F2 E2 K2 P2. assert (only_packets s s2) as F by (by transitivity s1).
    apply IH; [by eapply only_packets_good|done| |].
    + intros q Hq. rewrite P2, P1. assert (q ≠ p) by congruence.
      assert (q ∈ pool_used (pkt_pool s)) by (apply Hl; by constructor). set_solver.
    + intros s3 F3 E3 P3 K3. apply HQ.
      * by transitivity s2.
      * rewrite E3, E2, E1, <- (assoc_L (++)). f_equal. cbn. f_equal.
        apply list_fmap_ext. intros ? q Hq%list_elem_of_lookup_2. cbn. rewrite K2, K1 by congruence. done.
      * rewrite P3, P2, P1. cbn. set_solver.
      * intros q Hq. apply not_elem_of_cons in Hq as [??]. rewrite K3, K2, K1 by done. done.
Qed.

(** ** A datagram for a tunnel *)
Definition gpdu (t : Z) (d : list Z * list Z) : Prop :=
  gtp_type (d.1 ++ d.2) = Ok OGS_GTPU_MSGTYPE_GPDU ∧ gtp_teid (d.1 ++ d.2) = Ok t.
Definition received (p : Z) (pool : pool_t) (data : list Z) s : sgw_t :=
  set_pkts (<[p := data]> (pkts s)) (set_pkt_pool pool s).
Lemma runs_receive s t d p pool Q :
  gpdu t d → t ∈ pool_used (tunnel_pool s) → pool_alloc (pkt_pool s) = Some (p, pool) →
  runs (tunnelled t p) (received p pool d.1 s) (λ (kept : bool) s',
    if kept then Q () s' else runs (pkbuf_free p) s' Q) →
  runs (sgw_gtpu_receive d.1 d.2) s Q.
Proof.
  intros [Ety Et] Ht Ep Hr. apply runs_bind, runs_bind, runs_get. rewrite Ep.
  apply runs_bind, runs_modify, runs_bind, runs_modify, runs_ret.
  apply runs_bind, runs_bind, (runs_lift _ _ _ _ Ety). cbn [Z.eqb orb].
  change (OGS_GTPU_MSGTYPE_GPDU =? OGS_GTPU_MSGTYPE_ECHO_REQ) with false.
  change (OGS_GTPU_MSGTYPE_GPDU =? OGS_GTPU_MSGTYPE_GPDU) with true. cbn [orb].
  apply runs_bind, (runs_lift _ _ _ _ Et), runs_bind, runs_bind, runs_get, runs_ret.
  rewrite decide_True by done.
  eapply runs_mono; [exact Hr|]. intros [] s' HQ; [by apply runs_ret|done].
Qed.
Lemma received_tables s p pool data : tables_wf s → tables_wf (received p pool data s).
Proof. apply tables_ok_frame. by split. Qed.

(** A packet that stops the SGW. *)
Lemma aborts_run {A B} (m : M sgw_t A) (f : A → M sgw_t B) s :
  runs m s (λ a s', f a s' = Aborted) → (m ≫= f) s = Aborted.
Proof. intros (a & s' & E & Ea). by rewrite (M_bind_run _ _ _ _ _ E). Qed.
Lemma aborts_head {A B} (m : M sgw_t A) (f : A → M sgw_t B) s : m s = Aborted → (m ≫= f) s = Aborted.
Proof. intros E. unfold mbind, M_bind. by rewrite E. Qed.
Lemma receive_aborts s t d p pool :
  gpdu t d → t ∈ pool_used (tunnel_pool s) → pool_alloc (pkt_pool s) = Some (p, pool) →
  tunnelled t p (received p pool d.1 s) = Aborted → sgw_gtpu_receive d.1 d.2 s = Aborted.
Proof.
  intros [Ety Et] Ht Ep Ha. apply aborts_run, runs_bind, runs_get. rewrite Ep.
  apply runs_bind, runs_modify, runs_bind, runs_modify, runs_ret. apply aborts_head.
  apply aborts_run, (runs_lift _ _ _ _ Ety).
  change (OGS_GTPU_MSGTYPE_GPDU =? OGS_GTPU_MSGTYPE_ECHO_REQ) with false.
  change (OGS_GTPU_MSGTYPE_GPDU =? OGS_GTPU_MSGTYPE_GPDU) with true. cbn [orb].
  apply aborts_run, (runs_lift _ _ _ _ Et), aborts_run, runs_bind, runs_get, runs_ret.
  by rewrite decide_True by done.
Qed.

(** From the eNB to the PGW. *)
Lemma runs_uplink s t t5 b n d p pool :
  tables_wf s → tunnel_of s b OGS_GTP_F_TEID_S1_U_SGW_GTP_U t →
  tunnel_of s b OGS_GTP_F_TEID_S5_S8_SGW_GTP_U t5 → t_gnode (tunnels s t5) = Some n → good s n →
  gpdu t d → pool_alloc (pkt_pool s) = Some (p, pool) →
  runs (sgw_gtpu_receive d.1 d.2) s (λ _ s', only_packets s s' ∧
    trace s' = trace s ++ [sent n (remote_teid (tunnels s t5)) d.1] ∧
    pool_used (pkt_pool s') = pool_used (pkt_pool s)).
Proof.
  intros Hok Ht Ht5 En Hn Hd Ep. destruct (pool_alloc_fresh _ _ _ Ep) as [Hp Hp'].
  eapply runs_receive; [done|apply Ht|done|].
  apply runs_bind, runs_the; [apply Ht|]. destruct Ht as (Ht & Eb & Ety). cbn [tunnels received set_pkts set_pkt_pool].
  rewrite Eb, Ety, Z.eqb_refl. apply runs_bind, runs_bind.
  apply (runs_find _ _ _ t5); [by apply received_tables|unfold forwarding_type; by intros []|done|].
  apply runs_bind, runs_assert_some, runs_bind, runs_the; [apply Ht5|].
  cbn [tunnels received set_pkts set_pkt_pool]. rewrite En.
  apply runs_send; [done|cbn; set_solver|]. intros s1 F1 E1 P1 K1. apply runs_ret.
  apply runs_pkbuf_free; [rewrite P1; cbn; set_solver|]. intros s2 F2 E2 K2 P2.
  split; [by transitivity (received p pool d.1 s); [|transitivity s1]|]. split.
  - rewrite E2, E1. cbn. by rewrite fn_lookup_insert.
  - rewrite P2, P1. cbn. rewrite Hp'. set_solver.
Qed.

(** From the PGW to the eNB: the packets that waited go first. *)
Definition unbuffered (b : Z) s s' : Prop :=
  s' = set_bearers (alter (set_buffered []) b (bearers s))
         (set_trace (trace s') (set_pkts (pkts s') (set_pkt_pool (pkt_pool s') s))).
Lemma runs_downlink s t t1 b n d p pool :
  tables_wf s → tunnel_of s b OGS_GTP_F_TEID_S5_S8_SGW_GTP_U t →
  tunnel_of s b OGS_GTP_F_TEID_S1_U_SGW_GTP_U t1 → remote_teid (tunnels s t1) ≠ 0 →
  t_gnode (tunnels s t1) = Some n → good s n → gpdu t d → pool_alloc (pkt_pool s) = Some (p, pool) →
  NoDup (buffered (bearers s b)) → (∀ q, q ∈ buffered (bearers s b) → q ∈ pool_used (pkt_pool s)) →
  runs (sgw_gtpu_receive d.1 d.2) s (λ _ s', unbuffered b s s' ∧
    trace s' = trace s ++ (sent n (remote_teid (tunnels s t1)) <$>
                           ((pkts s <$> buffered (bearers s b)) ++ [d.1])) ∧
    pool_used (pkt_pool s') = pool_used (pkt_pool s) ∖ list_to_set (buffered (bearers s b))).
Proof.
  intros Hok Ht Ht1 Hr En Hn Hd Ep Hdup Hbuf. destruct (pool_alloc_fresh _ _ _ Ep) as [Hp Hp'].
  destruct (tunnel_of_bearer _ _ _ _ Hok Ht) as [Hb _].
  assert (Hpb : p ∉ buffered (bearers s b)) by (intros ?%Hbuf; done).
  eapply runs_receive; [done|apply Ht|done|].
  apply runs_bind, runs_the; [apply Ht|]. destruct Ht as (Ht & Eb & Ety). cbn [tunnels received set_pkts set_pkt_pool].
  unfold is_forwarding. cbn [tunnels received set_pkts set_pkt_pool]. rewrite Eb, Ety. cbn [Z.eqb orb].
  apply runs_bind, (runs_find _ _ _ t1);
    [by apply received_tables|unfold forwarding_type; by intros []|done|].
  apply runs_bind, runs_assert_some, runs_bind, runs_the; [apply Ht1|].
  cbn [tunnels received set_pkts set_pkt_pool]. apply Z.eqb_neq in Hr. rewrite Hr, En. cbn [negb].
  apply runs_bind, runs_assert_some, runs_bind, runs_with_the_node; [done|].
  apply runs_bind, runs_massert; [by apply (good_sock s)|].
  apply runs_bind, runs_bind, runs_the; [done|].
  apply runs_bind, runs_send_all; [done|done|cbn; rewrite Hp'; set_solver|].
  intros s1 F1 E1 P1 K1. apply runs_change; [by rewrite F1|]. set (s2 := set_bearers _ _).
  assert (pkt_pool s2 = pkt_pool s1) as P2 by done. assert (p ∈ pool_used (pkt_pool s2)) as Hp2.
  { rewrite P2, P1. cbn. set_solver. }
  apply runs_bind, runs_send; [by unfold good; subst s2; cbn; rewrite F1|done|].
  intros s3 F3 E3 P3 K3. apply runs_ret, runs_pkbuf_free; [by rewrite P3|].
  intros s4 F4 E4 K4 P4. assert (only_packets s2 s4) as F by (by transitivity s3). split; [|split].
  - unfold unbuffered. rewrite F. subst s2. cbn. rewrite F1. done.
  - rewrite E4, E3. subst s2. cbn. rewrite E1. cbn. rewrite K1 by done. cbn.
    rewrite fn_lookup_insert, fmap_app, <- list_fmap_compose, <- (assoc_L (++)). f_equal. f_equal.
    apply list_fmap_ext. intros ? q Hq%list_elem_of_lookup_2. cbn.
    rewrite fn_lookup_insert_ne by congruence. done.
  - rewrite P4, P3, P2, P1. cbn. rewrite Hp'. set_solver.
Qed.

(** ** A bearer whose UE is idle *)
Definition ue_of s (b : Z) : Z := s_ue (sesss s (b_sess (bearers s b))).
(** The UE was released, and no notification is on its way ([noti] = false)
    or one is. *)
Record idle s (b t1 : Z) (noti : bool) : Prop := {
  id_tunnel : tunnel_of s b OGS_GTP_F_TEID_S1_U_SGW_GTP_U t1;
  id_teid : remote_teid (tunnels s t1) = 0;
  id_state : Z.land (u_state (ues s (ue_of s b))) SGW_S1U_INACTIVE ≠ 0;
  id_noti : (Z.land (u_state (ues s (ue_of s b))) SGW_DL_NOTI_SENT =? 0) = negb noti;
}.
(** Packets of [b] are kept, a notification may be queued and its flag set. *)
Definition buffering (b : Z) s s' : Prop :=
  s' = set_pkts (pkts s') (set_pkt_pool (pkt_pool s') (set_queue (queue s')
         (set_ues (ues s') (set_bearers (bearers s') s)))) ∧
  (∀ c, ∃ l, bearers s' c = set_buffered l (bearers s c)) ∧
  (∀ u, ∃ st, ues s' u = set_u_state st (ues s u)).
#[export] Instance buffering_preorder b : PreOrder (buffering b).
Proof.
  split.
  - intros s. split; [by destruct s|]. split.
    + intros c. exists (buffered (bearers s c)). by destruct (bearers s c).
    + intros u. exists (u_state (ues s u)). by destruct (ues s u).
  - intros s1 s2 s3 (E1 & B1 & U1) (E2 & B2 & U2). split; [|split].
    + rewrite E2, E1. done.
    + intros c. destruct (B1 c) as [l1 Hl1], (B2 c) as [l2 Hl2]. exists l2. by rewrite Hl2, Hl1.
    + intros u. destruct (U1 u) as [l1 Hl1], (U2 u) as [l2 Hl2]. exists l2. by rewrite Hl2, Hl1.
Qed.
Lemma buffering_tables b s s' : buffering b s s' → tables_wf s → tables_wf s'.
Proof.
  intros (E & Hb & Hu). apply tables_ok_frame. split; try (rewrite E; done).
  - intros u. by destruct (Hu u) as [st ->].
  - intros c. by destruct (Hb c) as [l ->].
Qed.
Lemma buffering_ue_of b s s' c : buffering b s s' → ue_of s' c = ue_of s c.
Proof.
  intros (E & Hb & Hu). unfold ue_of. destruct (Hb c) as [l ->]. by rewrite E.
Qed.
Lemma buffering_tunnel b s s' c ty t : buffering b s s' → tunnel_of s' c ty t ↔ tunnel_of s c ty t.
Proof. intros (E & _). unfold tunnel_of. by rewrite E. Qed.

Lemma noti_set st : Z.land (Z.lor st SGW_DL_NOTI_SENT) SGW_DL_NOTI_SENT =? 0 = false.
Proof. apply Z.eqb_neq. intros E. apply (f_equal (λ z, Z.testbit z 1)) in E. by rewrite Z.land_spec, Z.lor_spec, orb_true_r in E. Qed.
Lemma noti_inactive st : Z.land st SGW_S1U_INACTIVE ≠ 0 → Z.land (Z.lor st SGW_DL_NOTI_SENT) SGW_S1U_INACTIVE ≠ 0.
Proof.
  change SGW_DL_NOTI_SENT with 2. change SGW_S1U_INACTIVE with 1. intros Hn E. apply Hn.
  rewrite Z.land_lor_distr_l in E. change (Z.land 2 1) with 0 in E. by rewrite Z.lor_0_r in E.
Qed.
(** The notification: at most one, and the flag is set. *)
Lemma runs_notify s b noti Q :
  ue_of s b ∈ pool_used (ue_pool s) →
  (Z.land (u_state (ues s (ue_of s b))) SGW_DL_NOTI_SENT =? 0) = negb noti →
  Z.land (u_state (ues s (ue_of s b))) SGW_S1U_INACTIVE ≠ 0 →
  (∀ s', s' = set_queue (queue s') (set_ues (ues s') s) →
     queue s' = queue s ++ (if noti then [] else [SGW_EVT_LO_DLDATA_NOTI b]) →
     (∀ u, ∃ st, ues s' u = set_u_state st (ues s u)) →
     (Z.land (u_state (ues s' (ue_of s b))) SGW_DL_NOTI_SENT =? 0) = false →
     Z.land (u_state (ues s' (ue_of s b))) SGW_S1U_INACTIVE ≠ 0 → Q () s') →
  runs (if Z.land (u_state (ues s (ue_of s b))) SGW_DL_NOTI_SENT =? 0
        then push (SGW_EVT_LO_DLDATA_NOTI b);; on_ue (ue_of s b) (SGW_SET_UE_STATE SGW_DL_NOTI_SENT)
        else mret ()) s Q.
Proof.
  intros Hu En Ei HQ. destruct (Z.land _ SGW_DL_NOTI_SENT =? 0) eqn:Ez.
  - destruct noti; [done|]. apply runs_bind, runs_modify, runs_change; [done|]. apply HQ.
    + by destruct s.
    + done.
    + intros u. cbn. destruct (decide (ue_of s b = u)) as [<-|].
      * rewrite fn_lookup_alter. by eexists.
      * rewrite alter_other by done. exists (u_state (ues s u)). by destruct (ues s u).
    + cbn. rewrite fn_lookup_alter. apply noti_set.
    + cbn. rewrite fn_lookup_alter. by apply noti_inactive.
  - destruct noti; [|done]. apply runs_ret, HQ; [by destruct s|by rewrite app_nil_r| |done|done].
    intros u. exists (u_state (ues s u)). by destruct (ues s u).
Qed.
Lemma runs_idle s t t1 b d p pool noti :
  tables_wf s → tunnel_of s b OGS_GTP_F_TEID_S5_S8_SGW_GTP_U t → idle s b t1 noti →
  gpdu t d → pool_alloc (pkt_pool s) = Some (p, pool) →
  (length (buffered (bearers s b)) < MAX_NUM_OF_PACKET_BUFFER)%nat →
  runs (sgw_gtpu_receive d.1 d.2) s (λ _ s', buffering b s s' ∧ idle s' b t1 true ∧
    buffered (bearers s' b) = buffered (bearers s b) ++ [p] ∧
    queue s' = queue s ++ (if noti then [] else [SGW_EVT_LO_DLDATA_NOTI b]) ∧
    pkt_pool s' = pool ∧ pkts s' = <[p := d.1]> (pkts s)).
Proof.
  intros Hok Ht [Ht1 Er Ei En] Hd Ep Hlen. destruct (tunnel_of_bearer _ _ _ _ Hok Ht) as [Hb _].
  assert (b_sess (bearers s b) ∈ pool_used (sess_pool s)) as Hi.
  { apply (own_parent _ _ _ _ (ok_bearers _ _ _ _ _ Hok)). set_solver. }
  assert (ue_of s b ∈ pool_used (ue_pool s)) as Hu.
  { apply (own_parent _ _ _ _ (ok_sess _ _ _ _ _ Hok)). set_solver. }
  eapply runs_receive; [done|apply Ht|done|]. set (r := received _ _ _ _).
  apply runs_bind, runs_the; [apply Ht|]. destruct Ht as (Ht & Eb & Ety).
  change (tunnels r) with (tunnels s). unfold is_forwarding. rewrite Eb, Ety.
  apply runs_bind, (runs_find _ _ _ t1);
    [by apply received_tables|unfold forwarding_type; by intros []|done|].
  apply runs_bind, runs_assert_some, runs_bind, runs_the; [apply Ht1|].
  change (tunnels r) with (tunnels s). rewrite Er.
  apply runs_bind, runs_the; [done|]. apply runs_bind, runs_the; [done|].
  apply runs_bind, runs_the; [done|]. cbv zeta.
  change (s_ue (sesss r (b_sess (bearers r b)))) with (ue_of r b).
  apply Z.eqb_neq in Ei as Ei'. change (ues s (ue_of s b)) with (ues r (ue_of r b)) in *. rewrite Ei'.
  apply runs_bind, (runs_notify r b noti); [done..|]. intros s1 E1 Q1 U1 N1 I1.
  change (bearers r b) with (bearers s b). apply Nat.ltb_lt in Hlen. rewrite Hlen.
  apply runs_bind, runs_change; [by rewrite E1|]. apply runs_ret.
  set (s2 := set_bearers _ _).
  assert (Eb1 : bearers s1 = bearers s) by (by rewrite E1).
  assert (Eb2 : bearers s2 b = set_buffered (buffered (bearers s b) ++ [p]) (bearers s b)).
  { subst s2. cbn. by rewrite fn_lookup_alter, Eb1. }
  assert (buffering b s s2) as F.
  { split; [subst s2; cbn; rewrite E1; done|]. split; [|exact U1]. intros c.
    destruct (decide (b = c)) as [<-|Hne]; [by eexists|]. exists (buffered (bearers s c)).
    subst s2. cbn. rewrite alter_other, Eb1 by done. by destruct (bearers s c). }
  split; [done|]. split; [|split; [by rewrite Eb2|split; [done|split; [by subst s2; cbn; rewrite E1|by subst s2; cbn; rewrite E1]]]].
  split; [by eapply buffering_tunnel| |by rewrite (buffering_ue_of b s)..].
  subst s2. cbn. by rewrite E1.
Qed.

(** ** Several packets *)
Fixpoint receive_all (ds : list (list Z * list Z)) : M sgw_t () :=
  match ds with [] => mret () | d :: ds => sgw_gtpu_receive d.1 d.2;; receive_all ds end.
(** The pool gives [n] packets in a row. *)
Fixpoint packets_available (n : nat) (pool : pool_t) : Prop :=
  match n with
  | O => True
  | S n => match pool_alloc pool with Some (_, pool) => packets_available n pool | None => False end
  end.
(** The packets that wait are different packets of the pool. *)
Definition buffer_ok s (b : Z) : Prop :=
  NoDup (buffered (bearers s b)) ∧ ∀ q, q ∈ buffered (bearers s b) → q ∈ pool_used (pkt_pool s).
Definition waiting s (b : Z) : list (list Z) := pkts s <$> buffered (bearers s b).

Lemma runs_idle_all s t t1 b ds k noti :
  tables_wf s → tunnel_of s b OGS_GTP_F_TEID_S5_S8_SGW_GTP_U t → idle s b t1 noti → buffer_ok s b →
  Forall (gpdu t) ds → packets_available (length ds + k) (pkt_pool s) →
  (length (waiting s b) + length ds <= MAX_NUM_OF_PACKET_BUFFER)%nat →
  runs (receive_all ds) s (λ _ s', buffering b s s' ∧ buffer_ok s' b ∧
    waiting s' b = waiting s b ++ ds.*1 ∧
    queue s' = queue s ++ (if noti then [] else match ds with [] => [] | _ => [SGW_EVT_LO_DLDATA_NOTI b] end) ∧
    packets_available k (pkt_pool s')).
Proof.
  revert s noti. induction ds as [|d ds IH]; intros s noti Hok Ht Hi Hbuf Hds Hav Hlen; cbn [receive_all].
  - apply runs_ret. split; [reflexivity|]. split; [done|]. split; [by rewrite app_nil_r|].
    split; [by destruct noti; rewrite app_nil_r|done].
  - apply list.Forall_cons in Hds as [Hd Hds]. cbn [length Nat.add packets_available] in Hav.
    destruct (pool_alloc (pkt_pool s)) as [[p pool]|] eqn:Ep; [|done].
    destruct (pool_alloc_fresh _ _ _ Ep) as [Hp Hp']. destruct Hbuf as [Hnd Hin].
    unfold waiting in Hlen. rewrite length_fmap in Hlen. cbn [length] in Hlen.
    assert (Hpb : p ∉ buffered (bearers s b)) by (intros ?%Hin; done).
    apply runs_bind. eapply runs_mono; [eapply runs_idle; [done..|lia]|].
    intros [] s1 (F1 & I1 & B1 & Q1 & P1 & K1).
    assert (waiting s1 b = waiting s b ++ [d.1]) as W1.
    { unfold waiting. rewrite B1, K1, fmap_app. cbn. rewrite fn_lookup_insert. f_equal.
      apply list_fmap_ext. intros ? q Hq%list_elem_of_lookup_2.
      by rewrite fn_lookup_insert_ne by congruence. }
    eapply runs_mono; [apply (IH s1 true)|].
    + by eapply buffering_tables.
    + by eapply buffering_tunnel.
    + done.
    + split; rewrite B1.
      * apply list.NoDup_app. split; [done|]. split; [|apply NoDup_singleton].
        intros q Hq ->%list_elem_of_singleton. done.
      * intros q. rewrite P1, Hp'. intros [Hq| ->%list_elem_of_singleton]%elem_of_app; [|set_solver].
        apply Hin in Hq. set_solver.
    + done.
    + by rewrite P1.
    + rewrite W1, length_app. unfold waiting. rewrite length_fmap. cbn. lia.
    + intros [] s2 (F2 & I2 & W2 & Q2 & A2). split; [by transitivity s1|]. split; [done|].
      split; [by rewrite W2, W1, <- (assoc_L (++))|]. split; [|done].
      rewrite Q2, Q1, app_nil_r. by destruct noti.
Qed.

(** ** The UE comes back: a modify bearer request *)
Record modify_frame s s' : Prop := {
  mf_packets : pkt_pool s' = pkt_pool s ∧ pkts s' = pkts s;
  mf_buffered b : buffered (bearers s' b) = buffered (bearers s b);
  mf_pools : tunnel_pool s' = tunnel_pool s ∧ bearer_pool s' = bearer_pool s;
}.
#[export] Instance modify_frame_preorder : PreOrder modify_frame.
Proof.
  split; [by intros s|]. intros s1 s2 s3 [(?&?) ? (?&?)] [(?&?) ? (?&?)].
  split; [split; congruence| |split; congruence]. intros b. congruence.
Qed.
Definition same_tunnels s s' : Prop := tunnels s' = tunnels s ∧ trace s' = trace s ∧ modify_frame s s'.
#[export] Instance same_tunnels_preorder : PreOrder same_tunnels.
Proof.
  split; [by intros s|]. intros s1 s2 s3 (?&?&?) (?&?&?). split; [congruence|]. split; [congruence|].
  by transitivity s2.
Qed.

Ltac tunnels_tac := intros; repeat (cbv beta zeta; keeps_deep_step ltac:(by repeat split)).
Lemma tunnels_gtpu_peer l f : keeps same_tunnels (gtpu_peer conf l f).
Proof. tunnels_tac. Qed.
Lemma tunnels_on_bearer b f :
  (∀ x, buffered (f x) = buffered x) → keeps same_tunnels (on_bearer b f).
Proof.
  intros Hf s. apply wlp_change. intros _. split; [done|]. split; [done|]. split; [done| |done].
  intros c. cbn. by rewrite (alter_field buffered).
Qed.
#[local] Hint Extern 1 (keeps _ (on_bearer _ _)) => apply tunnels_on_bearer; intros; reflexivity : keeps.
Lemma tunnels_store_uli b o : keeps same_tunnels (store_uli b o).
Proof. tunnels_tac. Qed.
Lemma wlp_end_marker s t :
  wlp (sgw_gtp_send_end_marker t) s (λ _ s', ∃ n, t_gnode (tunnels s t) = Some n ∧
    s' = set_trace (trace s ++ [EndMarker n (remote_teid (tunnels s t))]) s).
Proof.
  apply wlp_bind, wlp_the. intros _. apply wlp_bind, wlp_assert_some. intros n En.
  apply wlp_bind, wlp_zoom, wlp_the_node. intros _. apply wlp_bind, wlp_massert. intros _.
  apply wlp_modify. exists n. split; [done|]. by destruct s.
Qed.

(** The tunnel to the eNB gets its new end; an eNB that had it gets an end
    marker, with the TEID that the tunnel has by then. *)
Lemma wlp_modify_bearer s u b t1 f uli :
  tables_wf s → peers_wf s → tunnel_of s b OGS_GTP_F_TEID_S1_U_SGW_GTP_U t1 →
  wlp (modify_bearer conf u b f uli) s (λ _ s', modify_frame s s' ∧ ∃ enb, good s' enb ∧
    tunnels s' = alter (set_t_gnode (Some enb)) t1 (alter (set_remote_teid (host_teid f)) t1 (tunnels s)) ∧
    trace s' = trace s ++ match t_gnode (tunnels s t1) with
                          | Some old => if old =? enb then [] else [EndMarker old (host_teid f)]
                          | None => []
                          end).
Proof.
  intros Hok Hpe Ht. apply wlp_bind. intros r s0 E.
  assert (r = Some t1 ∧ s0 = s) as [-> ->].
  { destruct (runs_find s b OGS_GTP_F_TEID_S1_U_SGW_GTP_U t1 (λ r s', r = Some t1 ∧ s' = s) Hok) as (?&?&E'&->&->);
      [|done|done|].
    - unfold forwarding_type. by intros [].
    - unfold sgw_s1u_tunnel_in_bearer in E. split; congruence. }
  apply wlp_bind, wlp_assert_some. intros ? [= <-]. apply wlp_bind, wlp_change. intros Ht1.
  set (s1 := set_tunnels _ _).
  assert (peers_wf s1) as Hpe1.
  { eapply peers_ok_frame, Hpe. split; try done. intros c. cbn. by rewrite (alter_field t_gnode). }
  assert (tunnels s1 t1 = set_remote_teid (host_teid f) (tunnels s t1)) as Et1.
  { cbn. by rewrite fn_lookup_alter. }
  assert (modify_frame s s1) as F1 by done.
  eapply wlp_call; [apply wlp_and; [by apply wlp_peer_of|apply tunnels_gtpu_peer]|].
  intros enb s2 [Hpe2 (E2 & T2 & F2)].
  eapply wlp_call with (P := λ _ s3, peers_ok ({[enb]} ∪ ∅) ∅ s3 ∧ same_tunnels s2 s3).
  { destruct uli as [o|]; [|by apply wlp_ret].
    apply wlp_and; [|apply tunnels_store_uli]. apply keeps_run; [apply peers_store_uli|done]. }
  intros [] s3 [Hpe3 (E3 & T3 & F3)]. apply wlp_bind, wlp_the. intros _. rewrite E3, E2, Et1.
  cbn [t_gnode set_remote_teid].
  eapply wlp_call with (P := λ _ s4, s4 = set_trace (trace s ++ match t_gnode (tunnels s t1) with
      | Some old => if old =? enb then [] else [EndMarker old (host_teid f)] | None => [] end) s3).
  { replace (trace s) with (trace s3) by (by rewrite T3, T2).
    destruct (t_gnode (tunnels s t1)) as [old|] eqn:Eo; [destruct (old =? enb)|].
    - apply wlp_ret. rewrite app_nil_r. by destruct s3.
    - apply wlp_bind, wlp_zoom, wlp_the_node. intros _. apply wlp_bind, wlp_massert. intros _.
      eapply wlp_mono; [apply wlp_end_marker|]. cbn. rewrite E3, E2, Et1. cbn. rewrite Eo.
      intros [] s4 (n & [= <-] & ->). by destruct s3.
    - apply wlp_ret. rewrite app_nil_r. by destruct s3. }
  intros [] s4 ->. apply wlp_bind, wlp_change. intros _. apply wlp_change. intros _.
  assert (modify_frame s s3) as F by (transitivity s1; [done|]; by transitivity s2). split.
  - etransitivity; [exact F|]. by split.
  - exists enb. split; [|split].
    + destruct (pk_held _ _ _ Hpe3 enb); [set_solver|]. by split.
    + cbn. by rewrite E3, E2.
    + done.
Qed.
Lemma peers_receive_all ds : keeps (pres peers_wf) (receive_all ds).
Proof.
  induction ds as [|d ds IH]; cbn [receive_all]; [apply keeps_ret; exact _|].
  apply keeps_bind; [exact _|apply peers_gtpu|by intros].
Qed.
(** The next packet after the bearer was modified. *)
Lemma runs_after_modify s u b t t1 f uli s2 d p pool :
  tables_wf s → peers_wf s → tunnel_of s b OGS_GTP_F_TEID_S5_S8_SGW_GTP_U t →
  tunnel_of s b OGS_GTP_F_TEID_S1_U_SGW_GTP_U t1 → buffer_ok s b →
  modify_bearer conf u b f uli s = Ok ((), s2) → host_teid f ≠ 0 → gpdu t d →
  pool_alloc (pkt_pool s) = Some (p, pool) →
  ∃ enb s3, sgw_gtpu_receive d.1 d.2 s2 = Ok ((), s3) ∧ t_gnode (tunnels s2 t1) = Some enb ∧
    trace s3 = trace s2 ++ (sent enb (host_teid f) <$> (waiting s b ++ [d.1])) ∧
    buffered (bearers s3 b) = [].
Proof.
  intros Hok Hpe Ht Ht1 Hbuf E Hf Hd Ep.
  pose proof (tables_modify_bearer conf _ _ _ _ _ _ _ E Hok) as Hok2.
  destruct (wlp_modify_bearer s u b t1 f uli Hok Hpe Ht1 _ _ E)
    as ([[Ep2 Ek2] Eb2 [Et2 _]] & enb & Hg & Etun & _).
  assert (Htun : ∀ ty x, tunnel_of s b ty x → tunnel_of s2 b ty x).
  { intros ty x (Hx & Hb & Hty). split; [by rewrite Et2|]. rewrite Etun.
    by rewrite !(alter_field t_bearer), !(alter_field t_interface_type). }
  assert (E1 : tunnels s2 t1 = set_t_gnode (Some enb) (set_remote_teid (host_teid f) (tunnels s t1))).
  { by rewrite Etun, !fn_lookup_alter. }
  destruct Hbuf as [Hnd Hin].
  destruct (runs_downlink s2 t t1 b enb d p pool) as ([] & s3 & E3 & F3 & T3 & _); try done.
  - by apply Htun.
  - by apply Htun.
  - by rewrite E1.
  - by rewrite E1.
  - by rewrite Ep2.
  - by rewrite Eb2.
  - rewrite Eb2, Ep2. done.
  - exists enb, s3. split; [done|]. split; [by rewrite E1|]. split.
    + rewrite T3, E1, Eb2, Ek2. done.
    + rewrite F3. cbn. by rewrite fn_lookup_alter.
Qed.

(** ** The UE becomes idle: a release access bearers request *)
Lemma runs_each (f : Z → M sgw_t ()) (done : list Z) (I : list Z → sgw_t → Prop) l s Q :
  (∀ i bs s, i ∈ l → I bs s → runs (f i) s (λ _, I (bs ++ [i]))) → I done s →
  (∀ s', I (done ++ l) s' → Q () s') → runs (each f l) s Q.
Proof.
  revert done s. induction l as [|i l IH]; intros bs s Hf Hs HQ; cbn [each].
  - apply runs_ret, HQ. by rewrite app_nil_r.
  - apply runs_bind. eapply runs_mono; [apply Hf; [constructor|exact Hs]|]. intros [] s1 Hs1.
    apply (IH (bs ++ [i])); [intros j bs' s2 Hj; apply Hf; by constructor|done|].
    rewrite <- (assoc_L (++)). exact HQ.
Qed.
(** [t] is the tunnel to the eNB of one of the bearers. *)
Definition s1u_of (bs : list Z) s (t : Z) : Prop :=
  t ∈ pool_used (tunnel_pool s) ∧ t_interface_type (tunnels s t) = OGS_GTP_F_TEID_S1_U_SGW_GTP_U ∧
  t_bearer (tunnels s t) ∈ bs.
#[export] Instance s1u_of_dec bs s t : Decision (s1u_of bs s t).
Proof. unfold s1u_of. apply _. Defined.
Definition released (bs : list Z) s s' : Prop :=
  s' = set_tunnels (tunnels s') s ∧
  ∀ t, tunnels s' t = if decide (s1u_of bs s t) then set_remote_teid 0 (tunnels s t) else tunnels s t.
Lemma released_nil s : released [] s s.
Proof.
  split; [by destruct s|]. intros t. rewrite decide_False; [done|]. by intros (_ & _ & ?%elem_of_nil).
Qed.
Lemma released_tables bs s s' : released bs s s' → tables_wf s → tables_wf s'.
Proof.
  intros [E Ht]. apply tables_ok_frame. split; try (rewrite E; done).
  intros t. rewrite Ht. by case_decide.
Qed.
Lemma released_tunnel bs s s' b ty t : released bs s s' → tunnel_of s' b ty t ↔ tunnel_of s b ty t.
Proof. intros [E Ht]. unfold tunnel_of. rewrite Ht, E. cbn. by case_decide. Qed.
Lemma runs_release_bearer s0 s bs b t1 :
  tables_wf s0 → released bs s0 s → tunnel_of s0 b OGS_GTP_F_TEID_S1_U_SGW_GTP_U t1 →
  runs (release_bearer b) s (λ _ s', released (bs ++ [b]) s0 s').
Proof.
  intros Hok Hrel Ht1. pose proof (released_tables _ _ _ Hrel Hok) as Hok1. destruct Hrel as [E Ht].
  assert (tunnel_of s b OGS_GTP_F_TEID_S1_U_SGW_GTP_U t1) as Ht1'
    by (by apply (released_tunnel bs s0)).
  apply runs_bind, (runs_find _ _ _ t1); [done|unfold forwarding_type; by intros []|done|].
  apply runs_bind, runs_assert_some, runs_change; [apply Ht1'|]. split; [cbn; by rewrite E|].
  intros t. cbn. destruct (decide (t1 = t)) as [<-|Hne].
  - rewrite fn_lookup_alter, Ht, (decide_True (P := s1u_of (bs ++ [b]) s0 t1)).
    + by case_decide.
    + destruct Ht1 as (? & ? & ?). repeat split; try done. set_solver.
  - rewrite alter_other, Ht by done. destruct (decide (s1u_of (bs ++ [b]) s0 t)) as [Hin|Hn].
    + rewrite decide_True; [done|]. destruct Hin as (Hu & Hty & Hin). repeat split; try done.
      apply elem_of_app in Hin as [|Hin%list_elem_of_singleton]; [done|].
      exfalso. apply Hne. symmetry.
      apply (tunnel_unique s0 b OGS_GTP_F_TEID_S1_U_SGW_GTP_U); [done| |done|done].
      unfold forwarding_type. by intros [].
    + rewrite decide_False; [done|]. intros (Hu & Hty & Hin). apply Hn. repeat split; try done. set_solver.
Qed.
Definition bearers_of s (u : Z) : list Z := sess_list (ues s u) ≫= λ i, bearer_list (sesss s i).
Lemma bearers_of_spec s u b :
  tables_wf s → u ∈ pool_used (ue_pool s) →
  b ∈ bearers_of s u ↔ b ∈ pool_used (bearer_pool s) ∧ ue_of s b = u.
Proof.
  intros Hok Hu. unfold bearers_of, ue_of. rewrite list_elem_of_bind.
  pose proof (proj2 (own_list _ _ _ _ (ok_sess _ _ _ _ _ Hok) u Hu)) as Hs.
  assert (Hi : ∀ i, i ∈ pool_used (sess_pool s) → ∀ b, b ∈ bearer_list (sesss s i) ↔
    b ∈ pool_used (bearer_pool s) ∖ ∅ ∧ b_sess (bearers s b) = i).
  { intros i Hi. apply (own_list _ _ _ _ (ok_bearers _ _ _ _ _ Hok) i Hi). }
  split.
  - intros (i & Hb & [Hiu Ei]%Hs). apply Hi in Hb as [Hb Eb]; [|set_solver]. subst. set_solver.
  - intros [Hb Eu]. exists (b_sess (bearers s b)).
    assert (Hbs : b_sess (bearers s b) ∈ pool_used (sess_pool s)).
    { apply (own_parent _ _ _ _ (ok_bearers _ _ _ _ _ Hok)). set_solver. }
    split; [apply Hi; [done|set_solver]|apply Hs; set_solver].
Qed.
(** Each bearer has its tunnel to the eNB. *)
Lemma has_s1u s b :
  tables_wf s → b ∈ pool_used (bearer_pool s) → ∃ t, tunnel_of s b OGS_GTP_F_TEID_S1_U_SGW_GTP_U t.
Proof.
  intros Hok Hb. assert (Hb' : b ∈ pool_used (bearer_pool s) ∖ ∅) by set_solver.
  pose proof (ok_types _ _ _ _ _ Hok b Hb') as Hty. unfold two_tunnels in Hty.
  assert (OGS_GTP_F_TEID_S1_U_SGW_GTP_U ∈ types s b) as Hin.
  { eapply list_elem_of_filter. rewrite Hty. constructor. }
  apply list_elem_of_fmap in Hin as (t & Et & Hl). exists t.
  apply (own_list _ _ _ _ (ok_tunnels _ _ _ _ _ Hok) b Hb) in Hl as [Hl Eb]. split; [set_solver|done].
Qed.
Lemma runs_release_session s0 s bs i :
  tables_wf s0 → released bs s0 s → i ∈ pool_used (sess_pool s0) →
  runs (release_session i) s (λ _ s', released (bs ++ bearer_list (sesss s0 i)) s0 s').
Proof.
  intros Hok Hrel Hi. pose proof Hrel as [E _]. apply runs_bind, runs_the; [by rewrite E|].
  replace (sesss s i) with (sesss s0 i) by (by rewrite E).
  pose proof (proj2 (own_list _ _ _ _ (ok_bearers _ _ _ _ _ Hok) i Hi)) as Hm.
  apply (runs_each _ bs (λ l s, released l s0 s)); [|done|done].
  intros b bs' s1 Hb Hrel1. apply Hm in Hb as [Hb _].
  destruct (has_s1u s0 b Hok) as [t1 Ht1]; [set_solver|]. by eapply runs_release_bearer.
Qed.
Lemma runs_release_all s0 u :
  tables_wf s0 → u ∈ pool_used (ue_pool s0) →
  runs (each release_session (sess_list (ues s0 u))) s0 (λ _ s', released (bearers_of s0 u) s0 s').
Proof.
  intros Hok Hu.
  pose proof (proj2 (own_list _ _ _ _ (ok_sess _ _ _ _ _ Hok) u Hu)) as Hm.
  apply (runs_each _ [] (λ l s, released (l ≫= λ i, bearer_list (sesss s0 i)) s0 s)).
  - intros i bs s Hi Hrel. apply Hm in Hi as [Hi _]. eapply runs_mono; [apply runs_release_session; [done|exact Hrel|set_solver]|].
    intros [] s'. rewrite bind_app. cbn. by rewrite app_nil_r.
  - apply released_nil.
  - done.
Qed.
Definition released_state (st : Z) : Z := Z.ldiff (Z.lor st SGW_S1U_INACTIVE) SGW_DL_NOTI_SENT.
Lemma released_state_idle st :
  Z.land (released_state st) SGW_S1U_INACTIVE ≠ 0 ∧ Z.land (released_state st) SGW_DL_NOTI_SENT = 0.
Proof.
  unfold released_state. split.
  - intros E. apply (f_equal (λ z, Z.testbit z 0)) in E.
    by rewrite Z.land_spec, Z.ldiff_spec, Z.lor_spec, orb_true_r in E.
  - apply Z.bits_inj. intros k. rewrite Z.land_spec, Z.ldiff_spec, Z.bits_0.
    destruct (Z.testbit SGW_DL_NOTI_SENT k); [|apply andb_false_r]. cbn. by rewrite andb_false_r.
Qed.
End sgw.
