(* ===== verification/SgwProps.v ===== *)
(** * The SGW: its properties

    What holds in every state that the SGW reaches, what happens to the
    packets of the UEs, and where objects that are used again, or are never
    freed, break it. *)
From S2P Require Import Prelude.
From S2P Require Import CMem.
From S2P Require Import OgsLib.
From S2P Require Import ObjPool.
From S2P Require Import GtpConv.
From S2P Require Import GtpTypes.
From S2P Require Import GtpNode.
From S2P Require Import NasIes.
From S2P Require Import NasConv.
From S2P Require Import SgwContext.
From S2P Require Import SgwHandler.
From S2P Require Import SgwPath.
From S2P Require Import SgwInv.
From S2P Require Import SgwSystem.
From S2P Require Import SgwUserPlane.
From stdpp Require Import functions.
#[local] Open Scope Z_scope.

Section props.
Context `{Host, OgsBits, OgsPlmn, !Ogs3gpp, OgsPoolLaws, OgsListLaws, OgsSock, OgsImsiLen,
          OgsLengths, OgsFqdn} (conf : sgw_conf).
Implicit Types (s : sgw_t).

(** ** Reachable states *)
Lemma init_ok s : sgw_init s → tables_wf s ∧ peers_wf s.
Proof.
  intros (E1 & E2 & E3 & E4 & E5 & E6 & E7 & E8). split; split.
  all: try (intros ?; rewrite ?E1, ?E2, ?E3, ?E4; set_solver).
  - rewrite E6, E1. split; [constructor|set_solver].
  - rewrite E1, E2. split; set_solver.
  - rewrite E2, E3. split; set_solver.
  - rewrite E3, E4. split; set_solver.
  - intros l n. rewrite E8. by intros ?%elem_of_nil.
Qed.
Lemma step_ok s s' : sgw_step conf s s' → tables_wf s ∧ peers_wf s → tables_wf s' ∧ peers_wf s'.
Proof.
  intros Hs [Ht Hp]. destruct Hs as [p m x s s' E|data rest s s' E|e q s s' Eq E].
  - split; [by apply (tables_gtpc _ _ _ _ _ _ E)|by apply (peers_gtpc ∅ _ _ _ _ _ _ E)].
  - split; [by apply (tables_gtpu _ _ _ _ _ E)|by apply (peers_gtpu ∅ _ _ _ _ _ E)].
  - split; [apply (tables_event conf _ _ _ _ E)|apply (peers_event conf ∅ _ _ _ _ E)].
    + eapply tables_ok_frame, Ht. by split.
    + eapply peers_ok_frame, Hp. by split.
Qed.
Lemma reachable_wf s : sgw_reachable conf s → tables_wf s ∧ peers_wf s.
Proof. induction 1 as [s Hs|s s' _ IH Hs]; [by apply init_ok|by eapply step_ok]. Qed.

(** C7: in every state that the SGW reaches, the contexts form a forest: each
    UE is in the list of UEs, and each session, bearer and tunnel in the list
    of exactly the UE, session or bearer that it points at; the TEIDs given
    to the peers name the object that has them; each bearer has exactly one
    tunnel to the eNB and one to the PGW besides its forwarding tunnels; and
    every peer that a UE, a session or a tunnel points at is there and has a
    socket and an address. *)
Theorem sgw_reachable_ok s : sgw_reachable conf s → tables_wf s ∧ peers_wf s.
Proof. apply reachable_wf. Qed.

(** ** The user plane *)
(** C13: a G-PDU that an eNB sends to the TEID of a bearer leaves for the PGW
    of the bearer, once, with the TEID that the PGW gave and the same octets
    otherwise; nothing else in the SGW changes and the packet is freed. *)
Theorem uplink_forwarded s t t5 b n d p pool :
  sgw_reachable conf s → tunnel_of s b OGS_GTP_F_TEID_S1_U_SGW_GTP_U t →
  tunnel_of s b OGS_GTP_F_TEID_S5_S8_SGW_GTP_U t5 → t_gnode (tunnels s t5) = Some n →
  gpdu t d → pool_alloc (pkt_pool s) = Some (p, pool) →
  ∃ s', sgw_gtpu_receive d.1 d.2 s = Ok ((), s') ∧ only_packets s s' ∧
    trace s' = trace s ++ [GtpU n (with_gtp_teid (remote_teid (tunnels s t5)) d.1)] ∧
    pool_used (pkt_pool s') = pool_used (pkt_pool s).
Proof.
  intros Hr Ht Ht5 En Hd Ep. destruct (reachable_wf s Hr) as [Hok Hpe].
  destruct (runs_uplink s t t5 b n d p pool) as ([] & s' & E & HQ); try done.
  - apply (pk_tunnel _ _ _ Hpe t5); [apply Ht5|done].
  - by exists s'.
Qed.

(** C11: a release access bearers request is answered to the MME, and makes
    every bearer of the UE idle: no TEID of an eNB, the UE inactive, no
    notification under way; the tunnels of other UEs, and those that do not
    lead to an eNB, stay. *)
Theorem release_makes_idle x u s :
  sgw_reachable conf s → u ∈ pool_used (ue_pool s) →
  ∃ s', sgw_s11_handle_release_access_bearers_request x u s = Ok ((), s') ∧
    trace s' = trace s ++ [Response (xact x) (mme_s11_teid (ues s u))
                             (ReleaseAccessBearersResponse OGS_GTP_CAUSE_REQUEST_ACCEPTED)] ∧
    (∀ b t1, tunnel_of s b OGS_GTP_F_TEID_S1_U_SGW_GTP_U t1 → ue_of s b = u → idle s' b t1 false) ∧
    (∀ t, (∀ b, tunnel_of s b OGS_GTP_F_TEID_S1_U_SGW_GTP_U t → ue_of s b ≠ u) →
          tunnels s' t = tunnels s t).
Proof.
  intros Hr Hu. destruct (reachable_wf s Hr) as [Hok _].
  set (s1 := set_ues (alter (SGW_SET_UE_STATE SGW_S1U_INACTIVE) u (ues s)) s).
  set (s2 := set_ues (alter (SGW_RESET_UE_STATE SGW_DL_NOTI_SENT) u (ues s1)) s1).
  assert (Hue : ues s2 u = set_u_state (released_state (u_state (ues s u))) (ues s u)).
  { cbn. by rewrite !fn_lookup_alter. }
  assert (Hok2 : tables_wf s2).
  { eapply tables_ok_frame, Hok. split; try done. intros c. cbn.
    by rewrite !(alter_field sess_list), !(alter_field sgw_s11_teid). }
  destruct (runs_release_all s2 u Hok2 Hu) as ([] & s3 & E3 & [F3 T3]).
  set (o := Response (xact x) (mme_s11_teid (ues s u)) (ReleaseAccessBearersResponse OGS_GTP_CAUSE_REQUEST_ACCEPTED)).
  assert (runs (sgw_s11_handle_release_access_bearers_request x u) s
    (λ _ s', s' = set_trace (trace s ++ [o]) s3)) as ([] & s' & E & ->).
  { apply runs_bind, runs_change; [done|]. apply runs_bind, runs_change; [done|].
    apply runs_bind, runs_the; [done|]. fold s1. fold s2. apply runs_bind. exists (), s3. split; [done|].
    apply runs_bind, runs_the; [by rewrite F3|]. apply runs_modify.
    rewrite F3. cbn. by rewrite !fn_lookup_alter. }
  exists (set_trace (trace s ++ [o]) s3). split; [done|]. split; [done|].
  assert (Hs1u : ∀ b t, tunnel_of s b OGS_GTP_F_TEID_S1_U_SGW_GTP_U t →
    s1u_of (bearers_of s2 u) s2 t ↔ ue_of s b = u).
  { intros b t Ht. destruct (tunnel_of_bearer _ _ _ _ Hok Ht) as [Hb _]. destruct Ht as (Ht & Eb & Ety).
    unfold s1u_of. rewrite bearers_of_spec by done. change (tunnels s2 t) with (tunnels s t).
    rewrite Eb. change (ue_of s2 b) with (ue_of s b). naive_solver. }
  split.
  - intros b t1 Ht1 Eu. destruct (released_state_idle (u_state (ues s u))) as [Hi Hn].
    assert (Eues : ues s3 (ue_of s3 b) = ues s2 u) by (rewrite F3; by subst u).
    split.
    + exact (proj2 (released_tunnel _ s2 s3 b _ t1 (conj F3 T3)) Ht1).
    + cbn. rewrite T3, decide_True; [done|]. by apply (Hs1u b).
    + change (Z.land (u_state (ues s3 (ue_of s3 b))) SGW_S1U_INACTIVE ≠ 0). by rewrite Eues, Hue.
    + change ((Z.land (u_state (ues s3 (ue_of s3 b))) SGW_DL_NOTI_SENT =? 0) = negb false).
      rewrite Eues, Hue. by apply Z.eqb_eq.
  - intros t Hn. cbn. rewrite T3, decide_False; [done|]. intros Hin. destruct Hin as (Ht & Ety & Hin).
    apply (Hn (t_bearer (tunnels s t))); [done|]. apply (Hs1u _ t); done.
Qed.

(** C10: packets that arrive for a bearer while its UE is idle (at most 512)
    are kept, one notification is queued for the MME, and nothing is sent;
    when the bearer is then modified to a new eNB, the next packet makes all
    of them leave for that eNB, in the order of their arrival and before it,
    each once and with the TEID that the eNB gave. *)
Theorem idle_packets_delivered s b t t1 u f uli ds d :
  sgw_reachable conf s → tunnel_of s b OGS_GTP_F_TEID_S5_S8_SGW_GTP_U t → idle s b t1 false →
  buffered (bearers s b) = [] → Forall (gpdu t) ds → (0 < length ds <= MAX_NUM_OF_PACKET_BUFFER)%nat →
  packets_available (length ds + 1) (pkt_pool s) → gpdu t d → host_teid f ≠ 0 →
  ∃ s1, receive_all ds s = Ok ((), s1) ∧ trace s1 = trace s ∧
    queue s1 = queue s ++ [SGW_EVT_LO_DLDATA_NOTI b] ∧
    ∀ s2, modify_bearer conf u b f uli s1 = Ok ((), s2) →
    ∃ enb s3, sgw_gtpu_receive d.1 d.2 s2 = Ok ((), s3) ∧ t_gnode (tunnels s2 t1) = Some enb ∧
      trace s3 = trace s2 ++ ((λ x, GtpU enb (with_gtp_teid (host_teid f) x)) <$> (ds.*1 ++ [d.1])) ∧
      buffered (bearers s3 b) = [].
Proof.
  intros Hr Ht Hi Eb Hds [Hlen0 Hlen] Hav Hd Hf. destruct (reachable_wf s Hr) as [Hok Hpe].
  assert (waiting s b = []) as Ew by (unfold waiting; by rewrite Eb).
  destruct (runs_idle_all s t t1 b ds 1 false) as ([] & s1 & E1 & F1 & B1 & W1 & Q1 & A1); try done.
  { split; rewrite Eb; [constructor|by intros ? ?%elem_of_nil]. }
  { by rewrite Ew. }
  exists s1. split; [done|]. split; [destruct F1 as [F1 _]; by rewrite F1|].
  split; [rewrite Q1; by destruct ds; [cbn in Hlen0; lia|]|]. intros s2 E2.
  cbn [packets_available] in A1. destruct (pool_alloc (pkt_pool s1)) as [[p pool]|] eqn:Ep; [|done].
  destruct (runs_after_modify conf s1 u b t t1 f uli s2 d p pool) as (enb & s3 & E3 & En & T3 & B3); try done.
  - by eapply buffering_tables.
  - by apply (peers_receive_all _ _ _ _ E1).
  - by eapply buffering_tunnel.
  - eapply buffering_tunnel; [done|apply Hi].
  - exists enb, s3. split; [done|]. split; [done|]. split; [|done]. rewrite T3, W1, Ew. done.
Qed.

(** when a bearer with an eNB is modified, its tunnel gets the new eNB
    and TEID; if the eNB is another one, exactly one end marker leaves for the
    old eNB, but it has the TEID of the new one: the TEID by which the old
    eNB knows the tunnel is overwritten before. *)
Theorem end_marker_teid s u b t1 old f uli s' :
  sgw_reachable conf s → tunnel_of s b OGS_GTP_F_TEID_S1_U_SGW_GTP_U t1 →
  t_gnode (tunnels s t1) = Some old → modify_bearer conf u b f uli s = Ok ((), s') →
  ∃ enb, t_gnode (tunnels s' t1) = Some enb ∧ remote_teid (tunnels s' t1) = host_teid f ∧
    trace s' = trace s ++ (if old =? enb then [] else [EndMarker old (host_teid f)]).
Proof.
  intros Hr Ht1 Eo E. destruct (reachable_wf s Hr) as [Hok Hpe].
  destruct (wlp_modify_bearer conf s u b t1 f uli Hok Hpe Ht1 _ _ E) as (_ & enb & _ & Et & Etr).
  exists enb. rewrite Et, !fn_lookup_alter, Etr, Eo. done.
Qed.

(** ** UE contexts are not freed *)
Definition same_ue_pool s s' : Prop := ue_pool s' = ue_pool s.
#[local] Instance same_ue_pool_preorder : PreOrder same_ue_pool.
Proof. unfold same_ue_pool. split; [done|]. intros ???. congruence. Qed.
Ltac pool_tac := intros; repeat (cbv beta zeta; first [each_step | keeps_deep_step ltac:(reflexivity)]).
Lemma pool_change {A} pool (mem : sgw_t → Z → A) set i f :
  (∀ m s, ue_pool (set m s) = ue_pool s) → keeps same_ue_pool (change pool mem set i f).
Proof. intros Hf s. apply wlp_change. intros _. apply Hf. Qed.
#[local] Hint Extern 1 (keeps _ (change _ _ _ _ _)) => apply pool_change; reflexivity : keeps.
Lemma pool_alloc_ue pool set : (∀ p s, ue_pool (set p s) = ue_pool s) → keeps same_ue_pool (alloc pool set).
Proof. intros Hf s. apply wlp_alloc. intros. apply Hf. Qed.
Lemma pool_free_ue pool set i : (∀ p s, ue_pool (set p s) = ue_pool s) → keeps same_ue_pool (free pool set i).
Proof. intros Hf s. apply wlp_free. intros. apply Hf. Qed.
#[local] Hint Extern 1 (keeps _ (alloc _ _)) => apply pool_alloc_ue; reflexivity : keeps.
#[local] Hint Extern 1 (keeps _ (free _ _ _)) => apply pool_free_ue; reflexivity : keeps.
Lemma pool_indirect_tunnels u l : keeps same_ue_pool (indirect_tunnels conf u l).
Proof. induction l as [|c l IH]; cbn [indirect_tunnels]; pool_tac. Qed.
#[local] Hint Resolve pool_indirect_tunnels : keeps.
Lemma pool_s11 x u b : keeps same_ue_pool (sgw_s11_message conf x u b).
Proof. destruct b; cbn [sgw_s11_message]; pool_tac. Qed.
Lemma pool_s5c x i b : keeps same_ue_pool (sgw_s5c_message conf x i b).
Proof. destruct b; cbn [sgw_s5c_message]; pool_tac. Qed.
#[local] Hint Resolve pool_s11 pool_s5c : keeps.
Lemma pool_gtpu data rest : keeps same_ue_pool (sgw_gtpu_receive data rest).
Proof. pool_tac. Qed.
Lemma pool_peer_of l port sock sock6 f : keeps same_ue_pool (peer_of conf l port sock sock6 f).
Proof. pool_tac. Qed.
Lemma wlp_ue_add_pool s imsi :
  wlp (sgw_ue_add conf imsi) s (λ u s', (u ∉ pool_used (ue_pool s)) ∧
    pool_used (ue_pool s') = {[u]} ∪ pool_used (ue_pool s)).
Proof.
  apply wlp_bind, wlp_massert. intros _. apply wlp_bind, wlp_alloc. intros u p E.
  apply wlp_bind, wlp_massert. intros _. apply wlp_bind. destruct (_ <=? _); [|by apply wlp_lift].
  apply wlp_ret, wlp_bind, wlp_change. intros _. apply wlp_bind, wlp_modify, wlp_ret.
  by apply pool_alloc_fresh.
Qed.
Lemma wlp_new_context m s :
  wlp (ue_of_message conf m) s (λ _ s', if h_teid m =? 0
    then ∃ u, (u ∉ pool_used (ue_pool s)) ∧ pool_used (ue_pool s') = {[u]} ∪ pool_used (ue_pool s)
    else ue_pool s' = ue_pool s).
Proof.
  unfold ue_of_message. destruct (_ =? _).
  - eapply wlp_call with (P := λ _ s1, ue_pool s1 = ue_pool s).
    { unfold sgw_mme_add_by_message. destruct (sender_f_teid _); [|by apply wlp_ret].
      eapply wlp_call; [apply pool_peer_of|]. intros n s1 E1. by apply wlp_ret. }
    intros o s1 E1. rewrite <- E1. apply wlp_bind, wlp_assert_some. intros mme _. apply wlp_bind.
    unfold sgw_ue_add_by_message. destruct (m_imsi _) as [imsi|].
    + eapply wlp_call; [apply wlp_ue_add_pool|]. intros u s2 Hu. apply wlp_ret.
      apply wlp_bind, wlp_assert_some. intros ? [= <-]. apply wlp_bind, wlp_change. intros _.
      apply wlp_ret. by exists u.
    + apply wlp_ret, wlp_bind, wlp_assert_some. discriminate.
  - apply wlp_bind. eapply wlp_mono with (P := λ _ s1, ue_pool s1 = ue_pool s); [by apply wlp_ret|].
    intros o s1 E1. by apply wlp_assert_some.
Qed.
Lemma pool_lo_notification b : keeps same_ue_pool (sgw_s11_handle_lo_dldata_notification b).
Proof. pool_tac. Qed.

Lemma wlp_s11_event m x s :
  wlp (sgw_state_operational conf (SGW_EVT_S11_MESSAGE m x)) s (λ _ s', if h_teid m =? 0
    then ∃ u, (u ∉ pool_used (ue_pool s)) ∧ pool_used (ue_pool s') = {[u]} ∪ pool_used (ue_pool s)
    else ue_pool s' = ue_pool s).
Proof.
  eapply wlp_call; [apply wlp_new_context|]. intros u s1 Hu.
  match goal with |- wlp ?m _ _ => assert (keeps same_ue_pool m) as Hk by pool_tac end.
  eapply wlp_mono; [apply Hk|]. intros [] s2 E. unfold same_ue_pool in E. by rewrite E.
Qed.
(** UE contexts are never freed: no event and no packet removes one, and
    every message of the MME without TEID adds exactly one, whatever it is,
    also a retransmission ([x] is [None]: the transaction layer recognises it
    only after the context was made). *)
Theorem ue_contexts_leak s s' :
  (sgw_step conf s s' → pool_used (ue_pool s) ⊆ pool_used (ue_pool s')) ∧
  ∀ m x, h_teid m = 0 → sgw_state_operational conf (SGW_EVT_S11_MESSAGE m x) s = Ok ((), s') →
    ∃ u, (u ∉ pool_used (ue_pool s)) ∧ pool_used (ue_pool s') = {[u]} ∪ pool_used (ue_pool s).
Proof.
  split.
  - intros Hs. destruct Hs as [p m x s s' E|data rest s s' E|e q s s' Eq E].
    + assert (keeps same_ue_pool (sgw_gtpc_receive p m x)) as Hk by pool_tac. by rewrite (Hk _ _ _ E).
    + by rewrite (pool_gtpu _ _ _ _ _ E).
    + destruct e as [m x|m x|b].
      * pose proof (wlp_s11_event _ _ _ _ _ E) as Hu. destruct (_ =? _).
        -- destruct Hu as (u & _ & ->). set_solver.
        -- by rewrite Hu.
      * assert (keeps same_ue_pool (sgw_state_operational conf (SGW_EVT_S5C_MESSAGE m x))) as Hk by pool_tac.
        by rewrite (Hk _ _ _ E).
      * by rewrite (pool_lo_notification _ _ _ _ E).
  - intros m x Hm E. pose proof (wlp_s11_event _ _ _ _ _ E) as Hu. by rewrite Hm in Hu.
Qed.

(** ** Objects that are used again *)
Definition pkt_frame s s' : Prop :=
  pkt_pool s' = pkt_pool s ∧ ∀ b, buffered (bearers s' b) = buffered (bearers s b).
#[local] Instance pkt_frame_preorder : PreOrder pkt_frame.
Proof.
  split; [by intros s|]. intros s1 s2 s3 [? Hb1] [? Hb2]. split; [congruence|].
  intros b. by rewrite Hb2.
Qed.
Lemma pkt_on_bearer b f : (∀ x, buffered (f x) = buffered x) → keeps pkt_frame (on_bearer b f).
Proof.
  intros Hf s. apply wlp_change. intros _. split; [done|]. intros c. cbn. by rewrite (alter_field buffered).
Qed.
#[local] Hint Extern 1 (keeps _ (on_bearer _ _)) => apply pkt_on_bearer; intros; reflexivity : keeps.
Ltac pkt_tac := intros; repeat (cbv beta zeta; first [each_step | keeps_deep_step ltac:(by split)]).
Lemma pkt_tunnel_remove_all b : keeps pkt_frame (sgw_tunnel_remove_all b).
Proof. pkt_tac. Qed.
Lemma pkt_bearer_add i : keeps pkt_frame (sgw_bearer_add conf i).
Proof. pkt_tac. Qed.
Lemma wlp_free_all l s :
  wlp (each pkbuf_free l) s (λ _ s', (∀ p, p ∈ l → p ∈ pool_used (pkt_pool s)) ∧
    pool_used (pkt_pool s') = pool_used (pkt_pool s) ∖ list_to_set l ∧
    bearers s' = bearers s ∧ bearer_pool s' = bearer_pool s).
Proof.
  revert s. induction l as [|p l IH]; intros s; cbn [each].
  - apply wlp_ret. split; [by intros p ?%elem_of_nil|]. split; [set_solver|done].
  - apply wlp_bind, wlp_free. intros Hp. eapply wlp_mono; [apply IH|].
    intros [] s' (Hin & Hu & Eb & Ep). rewrite Hu. cbn in *. rewrite pool_used_free in *.
    split; [|split; [set_solver|done]]. intros q [->|Hq]%elem_of_cons; [done|].
    apply Hin in Hq. set_solver.
Qed.
(** The packets that waited are freed, and the bearer still lists them. *)
Lemma wlp_bearer_remove_packets b s :
  wlp (sgw_bearer_remove b) s (λ _ s', (∀ p, p ∈ buffered (bearers s b) → p ∈ pool_used (pkt_pool s)) ∧
    pool_used (pkt_pool s') = pool_used (pkt_pool s) ∖ list_to_set (buffered (bearers s b)) ∧
    (∀ c, buffered (bearers s' c) = buffered (bearers s c)) ∧ (b ∉ pool_used (bearer_pool s'))).
Proof.
  apply wlp_bind, wlp_the. intros Hb. apply wlp_bind, wlp_change. intros Hi.
  eapply wlp_call; [apply pkt_tunnel_remove_all|]. intros [] s2 [E2 B2].
  apply wlp_bind, wlp_the. intros _. eapply wlp_call; [apply wlp_free_all|].
  intros [] s3 (Hin & Hu & Eb & Ep). apply wlp_free. intros _. cbn.
  rewrite E2 in *. rewrite (B2 b) in *. cbn in *. split; [done|]. split; [done|]. split.
  - intros c. by rewrite Eb.
  - rewrite pool_used_free. set_solver.
Qed.
(** Operations without an assertion. *)
Definition never_aborts {A} (m : M sgw_t A) : Prop := ∀ s, m s ≠ Aborted.
Lemma never_bind {A B} (m : M sgw_t A) (f : A → M sgw_t B) :
  never_aborts m → (∀ a, never_aborts (f a)) → never_aborts (m ≫= f).
Proof.
  intros Hm Hf s. unfold mbind, M_bind. specialize (Hm s). destruct (m s) as [[a s1]| |]; [apply Hf|done|done].
Qed.
Lemma never_the {A} pool (mem : sgw_t → Z → A) i : never_aborts (the pool mem i).
Proof. intros s. unfold the. change ((get ≫= ?f) ?s) with (f s s). cbv beta. by case_decide. Qed.
Lemma never_free pool set i : never_aborts (free pool set i).
Proof. intros s. unfold free. change ((get ≫= ?f) ?s) with (f s s). cbv beta. by case_decide. Qed.
Lemma never_change {A} pool (mem : sgw_t → Z → A) set i f : never_aborts (change pool mem set i f).
Proof. apply never_bind; [apply never_the|]. by intros a s. Qed.
Lemma never_each f l : (∀ i, never_aborts (f i)) → never_aborts (each f l).
Proof. intros Hf. induction l as [|i l IH]; cbn [each]; [by intros s|]. by apply never_bind. Qed.
Lemma never_bearer_remove b : never_aborts (sgw_bearer_remove b).
Proof.
  apply never_bind; [apply never_the|intros x]. apply never_bind; [apply never_change|intros _].
  apply never_bind.
  { apply never_bind; [apply never_the|intros y]. apply never_each. intros t.
    apply never_bind; [apply never_the|intros z]. apply never_bind; [apply never_change|intros _].
    apply never_free. }
  intros _. apply never_bind; [apply never_the|intros y].
  apply never_bind; [apply never_each; intros; apply never_free|intros _]. apply never_free.
Qed.

(** a bearer that is removed leaves pointers behind.  The notification
    that it queued for its packets is then read from freed memory; and when
    its object is used again for a new bearer, the list of packets of the old
    one is still in it, so that removing the new bearer frees them again. *)
Theorem removed_bearer_dangles s b s1 p :
  p ∈ buffered (bearers s b) → sgw_bearer_remove b s = Ok ((), s1) →
  sgw_state_operational conf (SGW_EVT_LO_DLDATA_NOTI b) s1 = Undef ∧
  ∀ i s2, sgw_bearer_add conf i s1 = Ok (b, s2) → sgw_bearer_remove b s2 = Undef.
Proof.
  intros Hp E. destruct (wlp_bearer_remove_packets b s _ _ E) as (Hin & Hu & Hb & Hn). split.
  - cbn [sgw_state_operational]. unfold sgw_s11_handle_lo_dldata_notification, the_bearer, the.
    unfold mbind, M_bind, get. by rewrite decide_False by done.
  - intros i s2 E2. destruct (pkt_bearer_add i _ _ _ E2) as [Ep2 Hb2].
    destruct (sgw_bearer_remove b s2) as [[[] s3]| |] eqn:E3; [exfalso|exfalso|done].
    + destruct (wlp_bearer_remove_packets b s2 _ _ E3) as (Hin2 & _).
      specialize (Hin2 p). rewrite Hb2, Hb, Ep2, Hu in Hin2. set_solver.
    + by apply (never_bearer_remove b s2).
Qed.

(** Tunnels are only added, without a peer, and no TEID changes. *)
Record tunnels_grow s s' : Prop := {
  tg_used : pool_used (tunnel_pool s) ⊆ pool_used (tunnel_pool s');
  tg_new t : t ∈ pool_used (tunnel_pool s') → t ∉ pool_used (tunnel_pool s) →
    t_gnode (tunnels s' t) = None;
  tg_old t : t ∈ pool_used (tunnel_pool s) → tunnels s' t = tunnels s t;
  tg_teid t : remote_teid (tunnels s' t) = remote_teid (tunnels s t);
}.
#[local] Instance tunnels_grow_preorder : PreOrder tunnels_grow.
Proof.
  split; [by split|]. intros s1 s2 s3 [U1 N1 O1 T1] [U2 N2 O2 T2]. split.
  - by etransitivity.
  - intros t Ht Hn. destruct (decide (t ∈ pool_used (tunnel_pool s2))) as [H2'|]; [|by apply N2].
    rewrite O2 by done. by apply N1.
  - intros t Ht. rewrite O2 by auto. by apply O1.
  - intros t. by rewrite T2.
Qed.
Lemma grow_tunnel_add b ty : keeps tunnels_grow (sgw_tunnel_add conf b ty).
Proof.
  intros s. apply wlp_bind, wlp_alloc. intros t p E. apply wlp_bind, wlp_massert. intros _.
  destruct (pool_alloc_fresh _ _ _ E) as [Hn Hp]. apply wlp_bind, wlp_change. intros _.
  apply wlp_bind, wlp_change. intros _. apply wlp_ret. split; cbn; rewrite ?Hp; [set_solver|..].
  - intros c Hc Hc'. assert (t = c) as -> by set_solver. by rewrite fn_lookup_alter.
  - intros c Hc. by rewrite alter_other by set_solver.
  - intros c. by rewrite (alter_field remote_teid).
Qed.
#[local] Hint Resolve grow_tunnel_add : keeps.
Lemma grow_bearer_add i : keeps tunnels_grow (sgw_bearer_add conf i).
Proof. intros; repeat (cbv beta zeta; keeps_deep_step ltac:(by split)). Qed.
Lemma wlp_bearer_add_fresh i s :
  wlp (sgw_bearer_add conf i) s (λ b _, b ∉ pool_used (bearer_pool s)).
Proof.
  apply wlp_bind, wlp_the. intros _. apply wlp_bind, wlp_alloc. intros b p E.
  apply pool_alloc_fresh in E as [Hn _]. do 4 (apply wlp_bind; intros ? ? _). by apply wlp_ret.
Qed.

(** a tunnel object that is used again keeps the TEID of the eNB that it
    had.  A bearer that was just added has no eNB yet; but when the object of
    its S1-U tunnel was that of a tunnel in use before, the first packet that
    the PGW sends for the bearer stops the SGW on an assertion. *)
Theorem reused_tunnel_aborts s i b s' t t1 d p pool :
  sgw_reachable conf s → sgw_bearer_add conf i s = Ok (b, s') →
  tunnel_of s' b OGS_GTP_F_TEID_S1_U_SGW_GTP_U t1 → remote_teid (tunnels s t1) ≠ 0 →
  tunnel_of s' b OGS_GTP_F_TEID_S5_S8_SGW_GTP_U t → gpdu t d →
  pool_alloc (pkt_pool s') = Some (p, pool) →
  sgw_gtpu_receive d.1 d.2 s' = Aborted.
Proof.
  intros Hr E Ht1 Hteid Ht Hd Ep. destruct (reachable_wf s Hr) as [Hok _].
  pose proof (tables_bearer_add conf i _ _ _ E Hok) as Hok'.
  destruct (grow_bearer_add i _ _ _ E) as [_ Hnew Hold Hteids].
  pose proof (wlp_bearer_add_fresh i s _ _ E) as Hfresh. cbv beta in Hfresh.
  assert (En : t_gnode (tunnels s' t1) = None).
  { apply Hnew; [apply Ht1|]. intros Hin. apply Hfresh.
    destruct Ht1 as (_ & <- & _). rewrite Hold by done.
    apply (own_parent _ _ _ _ (ok_tunnels _ _ _ _ _ Hok)). set_solver. }
  eapply receive_aborts; [done|apply Ht|done|]. set (r := received _ _ _ _).
  apply aborts_run, runs_the; [apply Ht|]. destruct Ht as (Ht & Eb & Ety).
  change (tunnels r) with (tunnels s'). unfold is_forwarding. rewrite Eb, Ety.
  apply aborts_run, (runs_find _ _ _ t1);
    [by apply received_tables|unfold forwarding_type; by intros []|done|].
  apply aborts_run, runs_assert_some, aborts_run, runs_the; [apply Ht1|].
  change (tunnels r) with (tunnels s'). apply Z.eqb_neq in Hteid. rewrite Hteids, Hteid, En. done.
Qed.
End props.
