(* ===== verification/SgwExamples.v ===== *)
(** * The SGW at concrete inputs

    A UE attaches, sends and receives, becomes idle and comes back, and gets a
    second bearer for a while; the theorems of [SgwProps.v] are applied to the
    states that the SGW goes through. *)
From S2P Require Import Prelude.
From S2P Require Import CMem.
From S2P Require Import OgsLib.
From S2P Require Import ObjPool.
From S2P Require Import OgsRef.
From S2P Require Import GtpConv.
From S2P Require Import GtpTypes.
From S2P Require Import GtpNode.
From S2P Require Import NasIes.
From S2P Require Import NasConv.
From S2P Require Import NasCodecExamples.
From S2P Require Import SgwContext.
From S2P Require Import SgwHandler.
From S2P Require Import SgwPath.
From S2P Require Import SgwInv.
From S2P Require Import SgwSystem.
From S2P Require Import SgwUserPlane.
From S2P Require Import SgwProps.
From stdpp Require Import functions.
#[local] Open Scope Z_scope.

(** ** Instances: the address is what an [ogs_ip_t] starts with *)
#[local] Instance ex_sock : OgsSock := {|
  ip_image := ip_addr; ogs_filter_ip_version _ _ _ l := l;
  ogs_socknode_fill_scope_id_in_local l := Some l |}.
#[local] Instance ex_imsi_len : OgsImsiLen := {| OGS_MAX_IMSI_LEN := 8; ogs_buffer_to_bcd l := l |}.
Definition addr_ex (port : Z) : ogs_sockaddr_t :=
  {| sa_family := AF_INET; sin_port := port; s_addr := [10; 0; 0; 1]; s6_addr := [] |}.
Definition conf_ex : sgw_conf := {|
  pool_ue := 4; pool_tunnel := 16; ip_conf := {| no_ipv4 := false; no_ipv6 := false; prefer_ipv4 := false |};
  gtpc_port := 2123; gtpc_sock := Some 3; gtpc_sock6 := None;
  gtpc_addr := Some (addr_ex 2123); gtpc_addr6 := None;
  gtpu_port := 2152; gtpu_sock := Some 4; gtpu_sock6 := None;
  gtpu_addr := Some (addr_ex 2152); gtpu_addr6 := None |}.
Definition plmn0 : ref_plmn := RefPlmn 0 0 0.
Definition init_ex : sgw_t := {|
  ue_pool := (∅ : gset Z);
  ues _ := {| sgw_s11_teid := 0; mme_s11_teid := 0; u_imsi := []; u_imsi_bcd := []; u_state := 0;
              sess_list := []; u_gnode := None |};
  sgw_ue_list := []; sess_pool := (∅ : gset Z);
  sesss _ := {| sgw_s5c_teid := 0; pgw_s5c_teid := 0; s_apn := []; bearer_list := []; s_gnode := None; s_ue := 0 |};
  bearer_pool := (∅ : gset Z);
  bearers _ := {| b_ebi := 0; b_tai := {| tai_plmn_id := plmn0; tac := 0 |};
                  b_e_cgi := {| e_cgi_plmn_id := plmn0; cell_id := 0 |}; buffered := [];
                  tunnel_list := []; b_sess := 0; b_ue := 0 |};
  tunnel_pool := (∅ : gset Z);
  tunnels _ := {| t_interface_type := 0; local_teid := 0; remote_teid := 0; t_bearer := 0; t_gnode := None |};
  pkt_pool := (∅ : gset Z); pkts _ := [];
  gtp_nodes := {| node_pool := (∅ : gset Z);
                  nodes _ := {| n_addr := []; n_sock := None; n_ip := None; n_conn := None |} |};
  node_lists _ := []; queue := []; trace := [] |}.

(** ** Messages *)
Definition f_teid_ex (host : Z) (t : Z) : ogs_gtp_f_teid_t := {|
  ft_ipv4 := 1; ft_ipv6 := 0; interface_type := 0; teid := htonl t;
  ft_addr := [10; 0; 0; host] ++ replicate 16 0 |}.
Definition uli_ex : ogs_tlv_octet_t := {|
  presence := 1; data := [0x18; 1; 2; 3; 0; 7; 1; 2; 3; 0; 0; 0; 9]; len := 13 |}.
Definition no_elements : elements_t := {|
  m_imsi := None; m_cause := None; m_apn := None; sender_f_teid := None; pgw_f_teid := None;
  m_uli := None; linked_eps_bearer_id := None; eps_bearer_ids := None;
  m_bearer := no_bearer_context; m_rest := [] |}.
Definition context_ex (ebi : Z) (enb sgw_s1u pgw : option ogs_gtp_f_teid_t) : bearer_context_t := {|
  bc_presence := true; bc_ebi := Some ebi; bc_cause := Some 16; s1_u_enodeb_f_teid := enb;
  s4_u_sgsn_f_teid := sgw_s1u; s5_s8_u_sgw_f_teid := pgw; s5_s8_u_pgw_f_teid := None;
  s12_rnc_f_teid := None; s2b_u_epdg_f_teid_5 := None; bc_rest := [] |}.
Definition create_ex : elements_t := {|
  m_imsi := Some [1; 2; 3]; m_cause := None; m_apn := Some [3; 97; 98; 99];
  sender_f_teid := Some (f_teid_ex 2 77); pgw_f_teid := Some (f_teid_ex 3 0); m_uli := Some uli_ex;
  linked_eps_bearer_id := None; eps_bearer_ids := None;
  m_bearer := context_ex 5 None None None; m_rest := [] |}.
Definition created_ex : elements_t :=
  set_pgw_f_teid (Some (f_teid_ex 3 88)) (set_m_bearer (context_ex 5 None None (Some (f_teid_ex 3 99))) no_elements).
Definition modify_ex (enb : ogs_gtp_f_teid_t) : elements_t :=
  set_m_bearer (context_ex 5 (Some enb) None None) no_elements.
Definition dedicated_ex : elements_t := {|
  m_imsi := None; m_cause := None; m_apn := None; sender_f_teid := None; pgw_f_teid := None;
  m_uli := None; linked_eps_bearer_id := Some 5; eps_bearer_ids := None;
  m_bearer := context_ex 0 None None (Some (f_teid_ex 3 100)); m_rest := [] |}.
Definition dedicated_created_ex : elements_t := {|
  m_imsi := None; m_cause := Some 16; m_apn := None; sender_f_teid := None; pgw_f_teid := None;
  m_uli := Some uli_ex; linked_eps_bearer_id := None; eps_bearer_ids := None;
  m_bearer := context_ex 6 (Some (f_teid_ex 4 200)) (Some (f_teid_ex 1 3)) None; m_rest := [] |}.
Definition deleted_ex : elements_t := set_m_bearer (context_ex 6 None None None) no_elements.

(** ** What comes in *)
Inductive input := Gtpc (m : gtp_message) (x : option xact_ref) | Gtpu (d : list Z * list Z) | Pop.
Definition pop_event : M sgw_t () :=
  s ← get;
  match queue s with
  | e :: q => λ _, sgw_state_operational conf_ex e (set_queue q s)
  | [] => mabort
  end.
Definition take_input (i : input) : M sgw_t () :=
  match i with
  | Gtpc m x => sgw_gtpc_receive true m x
  | Gtpu d => sgw_gtpu_receive d.1 d.2
  | Pop => pop_event
  end.
Fixpoint take_inputs (l : list input) : M sgw_t () :=
  match l with [] => mret () | i :: l => take_input i;; take_inputs l end.
Lemma input_step i s s' : take_input i s = Ok ((), s') → sgw_step conf_ex s s'.
Proof.
  destruct i as [m x|d|]; cbn [take_input]; intros E; [by eapply step_gtpc|by eapply step_gtpu|].
  unfold pop_event in E. change ((get ≫= ?f) ?s) with (f s s) in E. cbv beta in E.
  destruct (queue s) as [|e q] eqn:Eq; [discriminate E|]. by eapply step_pop.
Qed.
Lemma inputs_reachable l s s' :
  sgw_reachable conf_ex s → take_inputs l s = Ok ((), s') → sgw_reachable conf_ex s'.
Proof.
  revert s. induction l as [|i l IH]; intros s Hs; cbn [take_inputs].
  - by intros [= <-].
  - intros ([] & s1 & E1 & E2)%M_bind_ok. apply (IH s1); [|done].
    apply reach_step with s; [done|by eapply input_step].
Qed.
Definition state_after (m : M sgw_t ()) (s : sgw_t) : sgw_t := match m s with Ok (_, s') => s' | _ => s end.
Lemma state_after_ok m s : is_ok (m s) = true → m s = Ok ((), state_after m s).
Proof. unfold state_after. by destruct (m s) as [[[] s']| |]. Qed.

Definition from_mme (t : Z) (b : message_body) (x assoc : option Z) : input :=
  Gtpc {| h_teid := t; m_body := b; m_create := create_ex |}
    (x ← x; Some {| xact := x; assoc_xact := assoc |}).
(** A G-PDU of one octet for a TEID. *)
Definition packet (t : Z) (o : Z) : list Z * list Z := ([0x30; 255; 0; 1] ++ be_bytes 4 t ++ [o], []).

(** The UE is attached: session 1, bearer 1, tunnels 1 (eNB) and 2 (PGW). *)
Definition attach_inputs : list input := [
  from_mme 0 (CreateSessionRequest create_ex) (Some 1) None; Pop;
  from_mme (SGW_S5C_INDEX_TO_TEID 1) (CreateSessionResponse created_ex) (Some 2) (Some 1); Pop;
  from_mme 1 (ModifyBearerRequest (modify_ex (f_teid_ex 4 44))) (Some 3) None; Pop].
Definition attached : sgw_t := state_after (take_inputs attach_inputs) init_ex.
(** It is idle. *)
Definition idle_inputs : list input := [from_mme 1 ReleaseAccessBearersRequest (Some 4) None; Pop].
Definition idle_state : sgw_t := state_after (take_inputs idle_inputs) attached.
(** A second bearer (tunnels 3 and 4) was there and is gone. *)
Definition dedicated_inputs : list input := [
  from_mme (SGW_S5C_INDEX_TO_TEID 1) (CreateBearerRequest dedicated_ex) (Some 5) None; Pop;
  from_mme 1 (CreateBearerResponse dedicated_created_ex) (Some 6) (Some 5); Pop;
  from_mme 1 (DeleteBearerResponse deleted_ex) (Some 8) (Some 7); Pop].
Definition used_before : sgw_t := state_after (take_inputs dedicated_inputs) attached.

Example runs_ex :
  is_ok (take_inputs attach_inputs init_ex) && is_ok (take_inputs idle_inputs attached) &&
  is_ok (take_inputs dedicated_inputs attached) = true ∧
  sgw_ue_list attached = [1] ∧ tunnel_list (bearers attached 1) = [1; 2] ∧
  remote_teid (tunnels attached 1) = 44 ∧ remote_teid (tunnels attached 2) = 99 ∧
  remote_teid (tunnels idle_state 1) = 0 ∧ remote_teid (tunnels used_before 3) = 200 ∧
  bearer_list (sesss used_before 1) = [1].
Proof. split_and!; vm_compute; reflexivity. Qed.

(** ** The states are reachable *)
Lemma reachable_init : sgw_reachable conf_ex init_ex.
Proof. apply reach_init. by repeat split. Qed.
Lemma reachable_attached : sgw_reachable conf_ex attached.
Proof.
  apply (inputs_reachable attach_inputs init_ex); [apply reachable_init|].
  apply state_after_ok. vm_compute. reflexivity.
Qed.
Lemma reachable_idle : sgw_reachable conf_ex idle_state.
Proof.
  apply (inputs_reachable idle_inputs attached); [apply reachable_attached|].
  apply state_after_ok. vm_compute. reflexivity.
Qed.
Lemma reachable_used_before : sgw_reachable conf_ex used_before.
Proof.
  apply (inputs_reachable dedicated_inputs attached); [apply reachable_attached|].
  apply state_after_ok. vm_compute. reflexivity.
Qed.
Ltac tunnel_ex := split; [vm_compute; reflexivity|split; vm_compute; reflexivity].
Lemma idle_ex : idle idle_state 1 1 false.
Proof.
  split; [tunnel_ex|vm_compute; reflexivity|vm_compute; discriminate|vm_compute; reflexivity].
Qed.

(** ** Witnesses *)
Lemma sgw_reachable_ok_witness : tables_wf attached ∧ peers_wf attached.
Proof. exact (sgw_reachable_ok conf_ex attached reachable_attached). Defined.

Lemma uplink_forwarded_witness :
  ∃ s', sgw_gtpu_receive (packet 1 65).1 (packet 1 65).2 attached = Ok ((), s') ∧
    trace s' = trace attached ++ [GtpU 3 ([0x30; 255; 0; 1] ++ be_bytes 4 99 ++ [65])].
Proof.
  destruct (uplink_forwarded conf_ex attached 1 2 1 3 (packet 1 65) 1 ({[1]} : gset Z) reachable_attached)
    as (s' & E & _ & Et & _).
  - tunnel_ex.
  - tunnel_ex.
  - vm_compute. reflexivity.
  - split; vm_compute; reflexivity.
  - vm_compute. reflexivity.
  - exists s'. split; [exact E|]. rewrite Et. vm_compute. reflexivity.
Defined.

Lemma release_makes_idle_witness :
  ∃ s', sgw_s11_handle_release_access_bearers_request {| xact := 4; assoc_xact := None |} 1 attached
        = Ok ((), s') ∧ idle s' 1 1 false.
Proof.
  destruct (release_makes_idle conf_ex {| xact := 4; assoc_xact := None |} 1 attached reachable_attached)
    as (s' & E & _ & Hi & _); [vm_compute; reflexivity|].
  exists s'. split; [exact E|]. apply Hi; [tunnel_ex|vm_compute; reflexivity].
Defined.

Lemma idle_packets_delivered_witness :
  let s1 := state_after (receive_all [packet 2 65; packet 2 66]) idle_state in
  let s2 := state_after (modify_bearer conf_ex 1 1 (f_teid_ex 5 45) None) s1 in
  queue s1 = [SGW_EVT_LO_DLDATA_NOTI 1] ∧
  ∃ s3, sgw_gtpu_receive (packet 2 67).1 (packet 2 67).2 s2 = Ok ((), s3) ∧
    trace s3 = trace s2 ++ ((λ o, GtpU 5 ([0x30; 255; 0; 1] ++ be_bytes 4 45 ++ [o])) <$> [65; 66; 67]).
Proof.
  intros s1 s2.
  destruct (idle_packets_delivered conf_ex idle_state 1 2 1 1 (f_teid_ex 5 45) None
    [packet 2 65; packet 2 66] (packet 2 67) reachable_idle) as (s1' & E & _ & Eq & Hd).
  - tunnel_ex.
  - exact idle_ex.
  - vm_compute. reflexivity.
  - repeat constructor.
  - vm_compute. lia.
  - vm_compute. exact I.
  - split; vm_compute; reflexivity.
  - vm_compute. discriminate.
  - assert (s1' = s1) as -> by (unfold s1, state_after; rewrite E; reflexivity).
    split; [rewrite Eq; vm_compute; reflexivity|].
    destruct (Hd s2) as (enb & s3 & E3 & En & Et & _).
    + apply state_after_ok. vm_compute. reflexivity.
    + assert (enb = 5) as -> by (vm_compute in En; congruence).
      exists s3. split; [exact E3|]. rewrite Et. vm_compute. reflexivity.
Defined.

Lemma end_marker_teid_witness :
  let s' := state_after (modify_bearer conf_ex 1 1 (f_teid_ex 5 45) None) attached in
  trace s' = trace attached ++ [EndMarker 4 45].
Proof.
  intros s'.
  destruct (end_marker_teid conf_ex attached 1 1 1 4 (f_teid_ex 5 45) None s' reachable_attached)
    as (enb & En & _ & Et).
  - tunnel_ex.
  - vm_compute. reflexivity.
  - apply state_after_ok. vm_compute. reflexivity.
  - assert (enb = 5) as -> by (vm_compute in En; congruence). exact Et.
Defined.

Definition create_request : gtp_message :=
  {| h_teid := 0; m_body := CreateSessionRequest create_ex; m_create := create_ex |}.
(** A retransmission of the create session request of the same UE. *)
Lemma ue_contexts_leak_witness :
  let s' := state_after (sgw_state_operational conf_ex (SGW_EVT_S11_MESSAGE create_request None)) attached in
  pool_used (ue_pool attached) ⊆ pool_used (ue_pool s') ∧
  ∃ u, (u ∉ pool_used (ue_pool attached)) ∧ pool_used (ue_pool s') = {[u]} ∪ pool_used (ue_pool attached).
Proof.
  intros s'.
  destruct (ue_contexts_leak conf_ex attached s') as [_ Hn].
  destruct (Hn create_request None) as (u & Hu & E);
    [reflexivity|apply state_after_ok; vm_compute; reflexivity|].
  split; [|exact (ex_intro _ u (conj Hu E))]. rewrite E. apply union_subseteq_r.
Defined.

(** A packet waits; the session goes away and the UE gets a new one, whose
    bearer is the same object. *)
Definition waiting_state : sgw_t := state_after (receive_all [packet 2 65]) idle_state.
Lemma removed_bearer_dangles_witness :
  let s1 := state_after (sgw_bearer_remove 1) waiting_state in
  let s2 := match sgw_bearer_add conf_ex 1 s1 with Ok (_, s) => s | _ => s1 end in
  sgw_state_operational conf_ex (SGW_EVT_LO_DLDATA_NOTI 1) s1 = Undef ∧ sgw_bearer_remove 1 s2 = Undef.
Proof.
  intros s1 s2.
  destruct (removed_bearer_dangles conf_ex waiting_state 1 s1 1) as [Hl Hr].
  - replace (buffered (bearers waiting_state 1)) with [1] by (vm_compute; reflexivity). left.
  - apply state_after_ok. vm_compute. reflexivity.
  - split; [exact Hl|]. apply (Hr 1). unfold s2.
    assert (match sgw_bearer_add conf_ex 1 s1 with Ok (1, _) => true | _ => false end = true) as Hb
      by (vm_compute; reflexivity).
    destruct (sgw_bearer_add conf_ex 1 s1) as [[[|[]|] s]| |]; try discriminate Hb. reflexivity.
Defined.

Lemma reused_tunnel_aborts_witness :
  let s' := match sgw_bearer_add conf_ex 1 used_before with Ok (_, s) => s | _ => used_before end in
  sgw_gtpu_receive (packet 4 65).1 (packet 4 65).2 s' = Aborted.
Proof.
  intros s'. apply (reused_tunnel_aborts conf_ex used_before 1 2 s' 4 3 (packet 4 65) 1 ({[1]} : gset Z)
    reachable_used_before).
  - unfold s'.
    assert (match sgw_bearer_add conf_ex 1 used_before with Ok (2, _) => true | _ => false end = true) as Hb
      by (vm_compute; reflexivity).
    destruct (sgw_bearer_add conf_ex 1 used_before) as [[[|[[]|[]|]|] s]| |]; try discriminate Hb. reflexivity.
  - tunnel_ex.
  - vm_compute. discriminate.
  - tunnel_ex.
  - split; vm_compute; reflexivity.
  - vm_compute. reflexivity.
Defined.
