(* ===== verification/PgwContext.v ===== *)
(** * The contexts of the PGW: [src/pgw/pgw-context.h], [pgw-context.c]

    Sessions, their bearers and the packet filters of a bearer are objects of
    three pools, in the style of [ObjPool.v]; the addresses of UEs are objects
    of a pool per subnet, whose array is filled once ([PgwPool.v]) and stays:
    an address can be read through a pointer even when it is free. *)
From S2P Require Import Prelude.
From S2P Require Import CMem.
From S2P Require Import OgsLib.
From S2P Require Import ObjPool.
From S2P Require Import GtpConv.
From S2P Require Import GtpTypes.
From S2P Require Import GtpNode.
From S2P Require Import PgwPool.
From S2P Require Import NasIes.
From S2P Require Import NasConv.
From stdpp Require Import functions.
#[local] Open Scope Z_scope.

(** ** Types and functions of ogslib

    [ogs_paa_t] with the writes to its union that the PGW makes (the type; an
    address; prefix length and IPv6 address; all three) and the sizes of the
    element; the element is its first octets. *)
Class OgsPaaUnion := {
  ogs_paa_t : Type;
  paa_set_type : Z → ogs_paa_t → ogs_paa_t;
  paa_set_ipv4 : Z → ogs_paa_t → ogs_paa_t;
  paa_set_ipv6 : Z → list Z → ogs_paa_t → ogs_paa_t;
  paa_set_both : Z → Z → list Z → ogs_paa_t → ogs_paa_t;
  paa_image : ogs_paa_t → list Z;
  OGS_PAA_IPV4_LEN : nat; OGS_PAA_IPV6_LEN : nat; OGS_PAA_IPV4V6_LEN : nat;
}.
Class OgsImsiBcd := { MAX_IMSI_LEN : Z; buffer_to_bcd : list Z → list Z }.

Record bitrate_t := { br_downlink : Z; br_uplink : Z }.
Record arp_t := { priority_level : Z; pre_emption_capability : Z; pre_emption_vulnerability : Z }.
Record ogs_qos_t := { q_qci : Z; q_arp : arp_t; q_mbr : bitrate_t; q_gbr : bitrate_t }.
#[export] Instance arp_eq_dec : EqDecision arp_t.
Proof. solve_decision. Defined.

Definition OGS_GTP_PDN_TYPE_IPV4 : Z := 1.
Definition OGS_GTP_PDN_TYPE_IPV6 : Z := 2.
Definition OGS_GTP_PDN_TYPE_IPV4V6 : Z := 3.

(** ** Configuration *)
Record pgw_dev_t := { dev_fd : Z; link_local_addr : option (list Z) }.
(** [sn_array]: what [pgw_ue_pool_generate] made of the subnet. *)
Record pgw_subnet_t := {
  sn_conf : subnet_conf; sn_apn : list Z; sn_dev : pgw_dev_t; sn_array : list address;
}.
(** The configuration of the process; [dns] and the others are texts. *)
Record pgw_conf := {
  pool_sess : Z; pool_bearer : Z; pgw_ip_conf : ip_parameter; no_slaac : bool; multicast : bool;
  pgw_gtpc_port : Z; pgw_gtpc_sock : option Z; pgw_gtpc_sock6 : option Z;
  pgw_gtpc_addr : option ogs_sockaddr_t; pgw_gtpc_addr6 : option ogs_sockaddr_t;
  pgw_gtpu_port : Z; pgw_gtpu_sock : option Z; pgw_gtpu_sock6 : option Z;
  pgw_gtpu_addr : option ogs_sockaddr_t; pgw_gtpu_addr6 : option ogs_sockaddr_t;
  subnet_list : list pgw_subnet_t;
  dns : option (list Z) * option (list Z); dns6 : option (list Z) * option (list Z);
  p_cscf : list (list Z); p_cscf6 : list (list Z);
}.

(** ** Objects *)
(** A pointer at an address: a place of the array of a subnet. *)
Record pgw_ue_ip_t := { ip_subnet : nat; ip_index : Z }.

(** [addr] and [mask] are four words of memory. *)
Record rule_address := { r_addr : list Z; r_mask : list Z }.
Record port_range := { port_low : Z; port_high : Z }.
Record pgw_rule_t := {
  r_proto : Z; ipv4_local : bool; ipv4_remote : bool; ipv6_local : bool; ipv6_remote : bool;
  ip_local : rule_address; ip_remote : rule_address; port_local : port_range; port_remote : port_range;
}.
Record pgw_pf_t := { pf_direction : Z; pf_identifier : Z; pf_rule : pgw_rule_t; pf_bearer : Z }.
(** [bearer_pf_identifier] is the generator of identifiers of the bearer. *)
Record pgw_bearer_t := {
  pb_ebi : Z; pgw_s5u_teid : Z; sgw_s5u_teid : Z; pb_name : option (list Z); pb_qos : ogs_qos_t;
  bearer_pf_identifier : Z; pf_list : list Z; pb_sess : Z; pb_gnode : option Z;
}.

Section data.
Context `{OgsPlmn, OgsPaaUnion}.
Record pgw_sess_t := {
  pgw_s5c_teid : Z; sgw_s5c_teid : Z; ps_imsi : list Z; ps_imsi_bcd : list Z; ps_apn : list Z;
  ps_paa : ogs_paa_t; ps_qos : ogs_qos_t; ps_ambr : bitrate_t;
  ps_ipv4 : option pgw_ue_ip_t; ps_ipv6 : option pgw_ue_ip_t;
  ps_tai : ogs_tai_t; ps_e_cgi : ogs_e_cgi_t; bearer_list : list Z; ps_gnode : option Z;
}.
End data.

(** ** Messages *)
(** The elements of a create session request that the PGW reads ([None]: the
    presence is 0). *)
Record create_session_t := {
  c_imsi : option (list Z); c_apn : option (list Z); c_sender : option ogs_gtp_f_teid_t;
  c_pdn_type : option Z; c_bearer : bool; c_ebi : option Z; c_qos : option ogs_tlv_octet_t;
  c_s5u : option ogs_gtp_f_teid_t; c_uli : option ogs_tlv_octet_t; c_ambr : option bitrate_t;
  c_pco : option (list Z);
}.
Record bearer_response_t := {
  r_bearer : bool; r_ebi : option Z; r_pgw_s5u : option ogs_gtp_f_teid_t;
  r_sgw_s5u : option ogs_gtp_f_teid_t;
}.
Inductive s5c_body :=
| CreateSession (e : create_session_t)
| DeleteSession (pco : option (list Z))
| CreateBearerAnswer (r : bearer_response_t)
| UpdateBearerAnswer (r : bearer_response_t)
| DeleteBearerAnswer (r : bearer_response_t)
| OtherS5c (type : Z).
(** [sm_create]: what [message.create_session_request] of the union holds,
    [sm_delete_pco]: the PCO of [message.delete_session_request]. *)
Record s5c_message := {
  sm_teid : Z; sm_body : s5c_body; sm_create : create_session_t; sm_delete_pco : option (list Z);
}.

Inductive rule_type := RuleInstall | RuleRemove | RuleOther.
Record ogs_flow_t := { flow_direction : Z; flow_description : option (list Z) }.
Record ogs_pcc_rule_t := {
  rule_type_ : rule_type; rule_name : option (list Z); rule_qos : ogs_qos_t;
  rule_flows : list ogs_flow_t;
}.
Record gx_message_t := {
  cmd_code : Z; result_ok : bool; cc_request_type : Z; pcc_rules : list ogs_pcc_rule_t;
}.

(** What the PGW sends over S5-C. *)
Inductive s5c_output :=
| CreateSessionAnswer (cause : Z) (s5c : ogs_gtp_f_teid_t) (paa : list Z) (apn_restriction : Z)
    (pco : option (list Z)) (ebi : Z) (s5u : ogs_gtp_f_teid_t)
| DeleteSessionAnswer (cause : Z) (pco : option (list Z))
| CreateBearer (linked_ebi ebi : Z) (s5u : ogs_gtp_f_teid_t) (qos tft : ogs_tlv_octet_t)
| UpdateBearer (ebi : Z) (qos tft : option ogs_tlv_octet_t)
| DeleteBearer (linked_ebi ebi : option Z).
(** [Ccr]: a credit control request of a type, for a session and a
    transaction, with the message that it keeps. *)
Inductive pgw_output :=
| S5cRequest (node : Z) (teid : Z) (m : s5c_output)
| S5cResponse (xact : Z) (teid : Z) (m : s5c_output)
| S5cCommit (xact : Z)
| Ccr (type : Z) (sess : Z) (xact : Z) (m : s5c_message)
| Gtpu (node : Z) (packet : list Z)
| TunWrite (fd : Z) (packet : list Z).
(** [None]: the message does not parse, [ogs_gtp_xact_receive] or
    [ogs_gtp_xact_find] fails. *)
Inductive pgw_event :=
| PGW_EVT_S5C_MESSAGE (m : option s5c_message) (x : option Z)
| PGW_EVT_GX_MESSAGE (sess : Z) (gx : gx_message_t) (x : option Z) (m : s5c_message).

Section context.
Context `{Host, OgsPlmn, OgsPool, OgsList, OgsSock, OgsPaaUnion}.

Record pgw_t := {
  sess_pool : pool_t; sesss : Z → pgw_sess_t; pgw_sess_list : list Z;
  bearer_pool : pool_t; bearers : Z → pgw_bearer_t;
  pf_pool : pool_t; pfs : Z → pgw_pf_t;
  ip_pools : nat → pool_t;
  pgw_nodes : node_store; sgw_s5c_list : list Z; sgw_s5u_list : list Z;
  p_cscf_index : nat; p_cscf6_index : nat;
  pgw_queue : list pgw_event; pgw_trace : list pgw_output;
}.
Definition pgw_eta (s : pgw_t) : pgw_t := {|
  sess_pool := sess_pool s; sesss := sesss s; pgw_sess_list := pgw_sess_list s;
  bearer_pool := bearer_pool s; bearers := bearers s; pf_pool := pf_pool s; pfs := pfs s;
  ip_pools := ip_pools s; pgw_nodes := pgw_nodes s; sgw_s5c_list := sgw_s5c_list s;
  sgw_s5u_list := sgw_s5u_list s; p_cscf_index := p_cscf_index s; p_cscf6_index := p_cscf6_index s;
  pgw_queue := pgw_queue s; pgw_trace := pgw_trace s |}.
Definition set_sess_pool : pool_t → pgw_t → pgw_t := ltac:(record_setter pgw_eta sess_pool).
Definition set_sesss : (Z → pgw_sess_t) → pgw_t → pgw_t := ltac:(record_setter pgw_eta sesss).
Definition set_sess_list : list Z → pgw_t → pgw_t := ltac:(record_setter pgw_eta pgw_sess_list).
Definition set_bearer_pool : pool_t → pgw_t → pgw_t := ltac:(record_setter pgw_eta bearer_pool).
Definition set_bearers : (Z → pgw_bearer_t) → pgw_t → pgw_t := ltac:(record_setter pgw_eta bearers).
Definition set_pf_pool : pool_t → pgw_t → pgw_t := ltac:(record_setter pgw_eta pf_pool).
Definition set_pfs : (Z → pgw_pf_t) → pgw_t → pgw_t := ltac:(record_setter pgw_eta pfs).
Definition set_ip_pools : (nat → pool_t) → pgw_t → pgw_t := ltac:(record_setter pgw_eta ip_pools).
Definition set_pgw_nodes : node_store → pgw_t → pgw_t := ltac:(record_setter pgw_eta pgw_nodes).
Definition set_s5c_list : list Z → pgw_t → pgw_t := ltac:(record_setter pgw_eta sgw_s5c_list).
Definition set_s5u_list : list Z → pgw_t → pgw_t := ltac:(record_setter pgw_eta sgw_s5u_list).
Definition set_p_cscf : nat → pgw_t → pgw_t := ltac:(record_setter pgw_eta p_cscf_index).
Definition set_p_cscf6 : nat → pgw_t → pgw_t := ltac:(record_setter pgw_eta p_cscf6_index).
Definition set_pgw_queue : list pgw_event → pgw_t → pgw_t := ltac:(record_setter pgw_eta pgw_queue).
Definition set_pgw_trace : list pgw_output → pgw_t → pgw_t := ltac:(record_setter pgw_eta pgw_trace).
Definition put_out (o : pgw_output) : M pgw_t () := modify (λ s, set_pgw_trace (pgw_trace s ++ [o]) s).

Definition the_sess := the sess_pool sesss.
Definition the_bearer := the bearer_pool bearers.
Definition the_pf := the pf_pool pfs.
Definition on_sess := change sess_pool sesss set_sesss.
Definition on_bearer := change bearer_pool bearers set_bearers.
Definition on_pf := change pf_pool pfs set_pfs.
Definition on_nodes {A} : M node_store A → M pgw_t A := zoom pgw_nodes set_pgw_nodes.

(** ** Fields *)
Definition sess_eta (s : pgw_sess_t) : pgw_sess_t := {|
  pgw_s5c_teid := pgw_s5c_teid s; sgw_s5c_teid := sgw_s5c_teid s; ps_imsi := ps_imsi s;
  ps_imsi_bcd := ps_imsi_bcd s; ps_apn := ps_apn s; ps_paa := ps_paa s; ps_qos := ps_qos s;
  ps_ambr := ps_ambr s; ps_ipv4 := ps_ipv4 s; ps_ipv6 := ps_ipv6 s; ps_tai := ps_tai s;
  ps_e_cgi := ps_e_cgi s; bearer_list := bearer_list s; ps_gnode := ps_gnode s |}.
Definition set_sgw_s5c_teid : Z → pgw_sess_t → pgw_sess_t := ltac:(record_setter sess_eta sgw_s5c_teid).
Definition set_ps_imsi : list Z → pgw_sess_t → pgw_sess_t := ltac:(record_setter sess_eta ps_imsi).
Definition set_ps_imsi_bcd : list Z → pgw_sess_t → pgw_sess_t := ltac:(record_setter sess_eta ps_imsi_bcd).
Definition set_ps_apn : list Z → pgw_sess_t → pgw_sess_t := ltac:(record_setter sess_eta ps_apn).
Definition set_ps_paa : ogs_paa_t → pgw_sess_t → pgw_sess_t := ltac:(record_setter sess_eta ps_paa).
Definition set_ps_qos : ogs_qos_t → pgw_sess_t → pgw_sess_t := ltac:(record_setter sess_eta ps_qos).
Definition set_ps_ambr : bitrate_t → pgw_sess_t → pgw_sess_t := ltac:(record_setter sess_eta ps_ambr).
Definition set_ps_ipv4 : option pgw_ue_ip_t → pgw_sess_t → pgw_sess_t :=
  ltac:(record_setter sess_eta ps_ipv4).
Definition set_ps_ipv6 : option pgw_ue_ip_t → pgw_sess_t → pgw_sess_t :=
  ltac:(record_setter sess_eta ps_ipv6).
Definition set_ps_tai : ogs_tai_t → pgw_sess_t → pgw_sess_t := ltac:(record_setter sess_eta ps_tai).
Definition set_ps_e_cgi : ogs_e_cgi_t → pgw_sess_t → pgw_sess_t := ltac:(record_setter sess_eta ps_e_cgi).
Definition set_bearer_list : list Z → pgw_sess_t → pgw_sess_t := ltac:(record_setter sess_eta bearer_list).
Definition set_ps_gnode : option Z → pgw_sess_t → pgw_sess_t := ltac:(record_setter sess_eta ps_gnode).
End context.

Definition bearer_eta (b : pgw_bearer_t) : pgw_bearer_t := {|
  pb_ebi := pb_ebi b; pgw_s5u_teid := pgw_s5u_teid b; sgw_s5u_teid := sgw_s5u_teid b;
  pb_name := pb_name b; pb_qos := pb_qos b; bearer_pf_identifier := bearer_pf_identifier b;
  pf_list := pf_list b; pb_sess := pb_sess b; pb_gnode := pb_gnode b |}.
Definition set_pb_ebi : Z → pgw_bearer_t → pgw_bearer_t := ltac:(record_setter bearer_eta pb_ebi).
Definition set_sgw_s5u_teid : Z → pgw_bearer_t → pgw_bearer_t :=
  ltac:(record_setter bearer_eta sgw_s5u_teid).
Definition set_pb_name : option (list Z) → pgw_bearer_t → pgw_bearer_t :=
  ltac:(record_setter bearer_eta pb_name).
Definition set_pb_qos : ogs_qos_t → pgw_bearer_t → pgw_bearer_t := ltac:(record_setter bearer_eta pb_qos).
Definition set_bearer_pf_identifier : Z → pgw_bearer_t → pgw_bearer_t :=
  ltac:(record_setter bearer_eta bearer_pf_identifier).
Definition set_pf_list : list Z → pgw_bearer_t → pgw_bearer_t := ltac:(record_setter bearer_eta pf_list).
Definition set_pb_gnode : option Z → pgw_bearer_t → pgw_bearer_t := ltac:(record_setter bearer_eta pb_gnode).

Section operations.
Context `{Host, OgsPlmn, OgsPool, OgsList, OgsSock, OgsPaaUnion, OgsImsiBcd, OgsNextId, OgsLengths,
          OgsFqdn} (conf : pgw_conf).

(** ** Addresses of UEs *)
Definition the_subnet (i : nat) : outcome pgw_subnet_t := access (subnet_list conf !! i).
Definition ue_ip_addr (ip : pgw_ue_ip_t) : outcome address :=
  n ← the_subnet (ip_subnet ip); access (sn_array n !! Z.to_nat (ip_index ip - 1)).
(** [ogs_pool_avail]: whether there is an object to allocate. *)
Definition ogs_pool_avail (p : pool_t) : bool := match pool_alloc p with Some _ => true | None => false end.
(** The two loops of [find_subnet], from the [i]-th subnet on. *)
Fixpoint subnet_with (ok : pgw_subnet_t → bool) (pools : nat → pool_t) (l : list pgw_subnet_t) (i : nat)
    : option nat :=
  match l with
  | [] => None
  | n :: l => if ok n && ogs_pool_avail (pools i) then Some i else subnet_with ok pools l (S i)
  end.
Definition find_subnet (f : family) (apn : list Z) (pools : nat → pool_t) : option nat :=
  let of_family n := bool_decide (conf_family (sn_conf n) = f) in
  match subnet_with (λ n, negb (bool_decide (sn_apn n = [])) && of_family n && bool_decide (sn_apn n = apn))
          pools (subnet_list conf) 0 with
  | Some i => Some i
  | None => subnet_with (λ n, bool_decide (sn_apn n = []) && of_family n) pools (subnet_list conf) 0
  end.
Definition pgw_ue_ip_alloc (f : family) (apn : list Z) : M pgw_t pgw_ue_ip_t :=
  s ← get;
  i ← assert_some (find_subnet f apn (ip_pools s));
  match pool_alloc (ip_pools s i) with
  | Some (k, p) =>
      modify (λ s, set_ip_pools (<[i := p]> (ip_pools s)) s);;
      mret {| ip_subnet := i; ip_index := k |}
  | None => mabort
  end.
(** Freeing an address that is free is outside the pool's contract. *)
Definition pgw_ue_ip_free (ip : pgw_ue_ip_t) : M pgw_t () :=
  s ← get;
  let p := ip_pools s (ip_subnet ip) in
  if decide (ip_index ip ∈ pool_used p)
  then modify (λ s, set_ip_pools (<[ip_subnet ip := pool_free (ip_index ip) p]> (ip_pools s)) s)
  else lift Undef.

(** ** Packet filters *)
Definition pgw_pf_add (b : Z) : M pgw_t Z :=
  i ← alloc pf_pool set_pf_pool;
  x ← the_bearer b;
  let id := ogs_next_id (bearer_pf_identifier x) 1 15 in
  on_bearer b (set_bearer_pf_identifier id);;
  on_pf i (λ f, {| pf_direction := pf_direction f; pf_identifier := id mod 16; pf_rule := pf_rule f;
    pf_bearer := b |});;
  on_bearer b (λ x, set_pf_list (ogs_list_add (pf_list x) i) x);;
  mret i.
Definition pgw_pf_remove (i : Z) : M pgw_t () :=
  f ← the_pf i;
  on_bearer (pf_bearer f) (λ x, set_pf_list (ogs_list_remove (pf_list x) i) x);;
  free pf_pool set_pf_pool i.
Definition pgw_pf_remove_all (b : Z) : M pgw_t () :=
  x ← the_bearer b; each pgw_pf_remove (pf_list x).
Definition pgw_pf_find_by_id (b : Z) (id : Z) : M pgw_t (option Z) :=
  x ← the_bearer b; first_in the_pf (λ f, pf_identifier f =? id) (pf_list x).

(** ** Bearers *)
Definition pgw_bearer_add (i : Z) : M pgw_t Z :=
  b ← alloc bearer_pool set_bearer_pool;
  massert ((0 <? b) && (b <=? pool_bearer conf));;
  on_bearer b (λ x, {| pb_ebi := pb_ebi x; pgw_s5u_teid := b; sgw_s5u_teid := sgw_s5u_teid x;
    pb_name := None; pb_qos := pb_qos x; bearer_pf_identifier := bearer_pf_identifier x;
    pf_list := []; pb_sess := i; pb_gnode := None |});;
  on_sess i (λ x, set_bearer_list (ogs_list_add (bearer_list x) b) x);;
  mret b.
Definition pgw_bearer_remove (b : Z) : M pgw_t () :=
  x ← the_bearer b;
  on_sess (pb_sess x) (λ s, set_bearer_list (ogs_list_remove (bearer_list s) b) s);;
  pgw_pf_remove_all b;;
  free bearer_pool set_bearer_pool b.
Definition pgw_bearer_remove_all (i : Z) : M pgw_t () :=
  s ← the_sess i; each pgw_bearer_remove (bearer_list s).
Definition pgw_bearer_find (index : Z) : M pgw_t (option Z) :=
  massert (negb (index =? 0));;
  s ← get; mret (if decide (index ∈ pool_used (bearer_pool s)) then Some index else None).
Definition pgw_bearer_find_by_pgw_s5u_teid (teid : Z) : M pgw_t (option Z) := pgw_bearer_find teid.
Definition pgw_bearer_find_by_ebi (i : Z) (ebi : Z) : M pgw_t (option Z) :=
  s ← the_sess i; first_in the_bearer (λ b, pb_ebi b =? ebi) (bearer_list s).
Definition pgw_bearer_find_by_name (i : Z) (name : list Z) : M pgw_t (option Z) :=
  s ← the_sess i; first_in the_bearer (λ b, bool_decide (pb_name b = Some name)) (bearer_list s).
Definition pgw_default_bearer_in_sess (i : Z) : M pgw_t (option Z) :=
  s ← the_sess i; mret (head (bearer_list s)).
Definition same_qci_arp (qci : Z) (arp : arp_t) (q : ogs_qos_t) : bool :=
  (q_qci q =? qci) && bool_decide (q_arp q = arp).
(** The default bearer is compared by the QoS of the session. *)
Definition pgw_bearer_find_by_qci_arp (i : Z) (qci : Z) (arp : arp_t) : M pgw_t (option Z) :=
  s ← the_sess i;
  match bearer_list s with
  | [] => mret None
  | b :: l =>
      if same_qci_arp qci arp (ps_qos s) then mret (Some b)
      else first_in the_bearer (λ b, same_qci_arp qci arp (pb_qos b)) l
  end.

(** ** Sessions *)
(** The IMSI is copied into [OGS_MAX_IMSI_LEN] octets, whatever its length. *)
Definition imsi_fits (imsi : list Z) : M pgw_t () :=
  if Z.of_nat (length imsi) <=? MAX_IMSI_LEN then mret () else lift Undef.
Definition new_sess (i : Z) (imsi apn : list Z) (x : pgw_sess_t) : pgw_sess_t := {|
  pgw_s5c_teid := i; sgw_s5c_teid := sgw_s5c_teid x; ps_imsi := imsi; ps_imsi_bcd := buffer_to_bcd imsi;
  ps_apn := apn; ps_paa := ps_paa x; ps_qos := ps_qos x; ps_ambr := ps_ambr x; ps_ipv4 := ps_ipv4 x;
  ps_ipv6 := ps_ipv6 x; ps_tai := ps_tai x; ps_e_cgi := ps_e_cgi x; bearer_list := []; ps_gnode := None |}.
Definition prefixlen_of (ip : pgw_ue_ip_t) : outcome Z :=
  n ← the_subnet (ip_subnet ip); mret (prefixlen (sn_conf n) mod 256).
Definition alloc_ipv4 (i : Z) (apn : list Z) : M pgw_t Z :=
  ip ← pgw_ue_ip_alloc AF_INET apn;
  on_sess i (set_ps_ipv4 (Some ip));;
  a ← lift (ue_ip_addr ip);
  lift (access (a !! 0%nat)).
Definition alloc_ipv6 (i : Z) (apn : list Z) : M pgw_t (Z * list Z) :=
  ip ← pgw_ue_ip_alloc AF_INET6 apn;
  on_sess i (set_ps_ipv6 (Some ip));;
  n ← lift (prefixlen_of ip);
  a ← lift (ue_ip_addr ip);
  mret (n, a).
Definition alloc_addresses (i : Z) (apn : list Z) (pdn_type : Z) : M pgw_t () :=
  on_sess i (λ x, set_ps_paa (paa_set_type (pdn_type mod 8) (ps_paa x)) x);;
  if pdn_type =? OGS_GTP_PDN_TYPE_IPV4 then
    a ← alloc_ipv4 i apn;
    on_sess i (λ x, set_ps_paa (paa_set_ipv4 a (ps_paa x)) x)
  else if pdn_type =? OGS_GTP_PDN_TYPE_IPV6 then
    '(n, a6) ← alloc_ipv6 i apn;
    on_sess i (λ x, set_ps_paa (paa_set_ipv6 n a6 (ps_paa x)) x)
  else if pdn_type =? OGS_GTP_PDN_TYPE_IPV4V6 then
    a ← alloc_ipv4 i apn;
    '(n, a6) ← alloc_ipv6 i apn;
    on_sess i (λ x, set_ps_paa (paa_set_both a n a6 (ps_paa x)) x)
  else mabort.
Definition pgw_sess_add (imsi apn : list Z) (pdn_type ebi : Z) : M pgw_t Z :=
  i ← alloc sess_pool set_sess_pool;
  massert ((0 <? i) && (i <=? pool_sess conf));;
  imsi_fits imsi;;
  on_sess i (new_sess i imsi apn);;
  b ← pgw_bearer_add i;
  on_bearer b (set_pb_ebi ebi);;
  alloc_addresses i apn pdn_type;;
  modify (λ s, set_sess_list (ogs_list_add (pgw_sess_list s) i) s);;
  mret i.
Definition free_opt (ip : option pgw_ue_ip_t) : M pgw_t () :=
  match ip with Some ip => pgw_ue_ip_free ip | None => mret () end.
Definition pgw_sess_remove (i : Z) : M pgw_t () :=
  x ← the_sess i;
  modify (λ s, set_sess_list (ogs_list_remove (pgw_sess_list s) i) s);;
  free_opt (ps_ipv4 x);;
  free_opt (ps_ipv6 x);;
  pgw_bearer_remove_all i;;
  free sess_pool set_sess_pool i.
Definition pgw_sess_remove_all : M pgw_t () := s ← get; each pgw_sess_remove (pgw_sess_list s).
Definition pgw_sess_find (index : Z) : M pgw_t (option Z) :=
  massert (negb (index =? 0));;
  s ← get; mret (if decide (index ∈ pool_used (sess_pool s)) then Some index else None).
Definition pgw_sess_find_by_teid (teid : Z) : M pgw_t (option Z) := pgw_sess_find teid.

(** ** Peers and messages *)
(** The peer of an F-TEID: found, or added and connected. *)
Definition pgw_peer (l : pgw_t → list Z) (set : list Z → pgw_t → pgw_t) (port : Z)
    (sock sock6 : option Z) (f : ogs_gtp_f_teid_t) : M pgw_t Z :=
  s ← get;
  found ← on_nodes (ogs_gtp_node_find (l s) f);
  match found with
  | Some n => mret n
  | None =>
      '(n, l') ← on_nodes (
        '(n, l') ← ogs_gtp_node_add (l s) f port (pgw_ip_conf conf);
        ok ← ogs_gtp_connect sock sock6 n;
        massert ok;; mret (n, l'));
      modify (set l');;
      mret n
  end.
Definition s5c_peer : ogs_gtp_f_teid_t → M pgw_t Z :=
  pgw_peer sgw_s5c_list set_s5c_list (pgw_gtpc_port conf) (pgw_gtpc_sock conf) (pgw_gtpc_sock6 conf).
Definition s5u_peer : ogs_gtp_f_teid_t → M pgw_t Z :=
  pgw_peer sgw_s5u_list set_s5u_list (pgw_gtpu_port conf) (pgw_gtpu_sock conf) (pgw_gtpu_sock6 conf).

Definition pgw_sgw_add_by_message (m : s5c_message) : M pgw_t (option Z) :=
  match c_sender (sm_create m) with
  | None => mret None
  | Some f => n ← s5c_peer f; mret (Some n)
  end.
(** [char apn[OGS_MAX_APN_LEN]]: the name and its terminator must fit. *)
Definition pgw_parse_apn (data : list Z) : M pgw_t (list Z) :=
  apn ← lift (ogs_fqdn_parse data);
  if (length apn <? OGS_MAX_APN_LEN)%nat then mret (c_string apn) else lift Undef.
Definition pgw_sess_add_by_message (m : s5c_message) : M pgw_t (option Z) :=
  let c := sm_create m in
  match c_imsi c, c_apn c, c_bearer c, c_ebi c, c_pdn_type c with
  | Some imsi, Some name, true, Some ebi, Some ty =>
      apn ← pgw_parse_apn name;
      i ← pgw_sess_add imsi apn ty ebi;
      mret (Some i)
  | _, _, _, _, _ => mret None
  end.
End operations.
