(* ===== verification/PgwFilter.v ===== *)
(** * Packet filters of the PGW: [src/pgw/pgw-ipfw.c]

    A flow description is compiled to a rule; a packet from the network is
    given to the bearer whose rule it matches.  [buf] is the memory from the
    start of the packet to the end of its buffer: headers are read without
    looking at the length of the packet. *)
From S2P Require Import Prelude.
From S2P Require Import CMem.
From S2P Require Import OgsLib.
From S2P Require Import ObjPool.
From S2P Require Import GtpConv.
From S2P Require Import GtpNode.
From S2P Require Import PgwPool.
From S2P Require Import PgwContext.
#[local] Open Scope Z_scope.

(** ** Rules

    The instructions that [compile_rule] of the vendored ipfw makes of the
    words of a rule, as far as the code looks at them; addresses are words of
    memory. *)
Inductive ipfw_insn :=
| O_PROTO (arg1 : Z)
| O_IP_SRC (a : Z) | O_IP_SRC_MASK (a m : Z) | O_IP_DST (a : Z) | O_IP_DST_MASK (a m : Z)
| O_IP6_SRC (a : list Z) | O_IP6_SRC_MASK (a m : list Z)
| O_IP6_DST (a : list Z) | O_IP6_DST_MASK (a m : list Z)
| O_IP_SRCPORT (p0 p1 : Z) | O_IP_DSTPORT (p0 p1 : Z)
| O_OTHER.
Class Ipfw := { compile_rule : list (list Z) → outcome (list ipfw_insn) }.

Definition zero_address : rule_address := {| r_addr := [0; 0; 0; 0]; r_mask := [0; 0; 0; 0] |}.
Definition zero_rule : pgw_rule_t := {|
  r_proto := 0; ipv4_local := false; ipv4_remote := false; ipv6_local := false; ipv6_remote := false;
  ip_local := zero_address; ip_remote := zero_address;
  port_local := {| port_low := 0; port_high := 0 |}; port_remote := {| port_low := 0; port_high := 0 |} |}.
Definition rule_eta (r : pgw_rule_t) : pgw_rule_t := {|
  r_proto := r_proto r; ipv4_local := ipv4_local r; ipv4_remote := ipv4_remote r;
  ipv6_local := ipv6_local r; ipv6_remote := ipv6_remote r; ip_local := ip_local r;
  ip_remote := ip_remote r; port_local := port_local r; port_remote := port_remote r |}.
Definition set_r_proto : Z → pgw_rule_t → pgw_rule_t := ltac:(record_setter rule_eta r_proto).
Definition set_ipv4_local : bool → pgw_rule_t → pgw_rule_t := ltac:(record_setter rule_eta ipv4_local).
Definition set_ipv4_remote : bool → pgw_rule_t → pgw_rule_t := ltac:(record_setter rule_eta ipv4_remote).
Definition set_ipv6_local : bool → pgw_rule_t → pgw_rule_t := ltac:(record_setter rule_eta ipv6_local).
Definition set_ipv6_remote : bool → pgw_rule_t → pgw_rule_t := ltac:(record_setter rule_eta ipv6_remote).
Definition set_ip_local : rule_address → pgw_rule_t → pgw_rule_t := ltac:(record_setter rule_eta ip_local).
Definition set_ip_remote : rule_address → pgw_rule_t → pgw_rule_t :=
  ltac:(record_setter rule_eta ip_remote).
Definition set_port_local : port_range → pgw_rule_t → pgw_rule_t := ltac:(record_setter rule_eta port_local).
Definition set_port_remote : port_range → pgw_rule_t → pgw_rule_t :=
  ltac:(record_setter rule_eta port_remote).

(** The first word of an address and of its mask; the others stay. *)
Definition set_word0 (a m : Z) (x : rule_address) : rule_address :=
  {| r_addr := <[0%nat := a]> (r_addr x); r_mask := <[0%nat := m]> (r_mask x) |}.
Definition words6 (a m : list Z) : rule_address := {| r_addr := a; r_mask := m |}.
(** [n2mask(mask, 128)]. *)
Definition mask128 : list Z := replicate 4 0xffffffff.
Definition apply_insn (r : pgw_rule_t) (c : ipfw_insn) : pgw_rule_t :=
  match c with
  | O_PROTO p => set_r_proto (p mod 256) r
  | O_IP_SRC a => set_ip_local (set_word0 a 0xffffffff (ip_local r)) (set_ipv4_local true r)
  | O_IP_SRC_MASK a m => set_ip_local (set_word0 a m (ip_local r)) (set_ipv4_local true r)
  | O_IP_DST a => set_ip_remote (set_word0 a 0xffffffff (ip_remote r)) (set_ipv4_remote true r)
  | O_IP_DST_MASK a m => set_ip_remote (set_word0 a m (ip_remote r)) (set_ipv4_remote true r)
  | O_IP6_SRC a => set_ip_local (words6 a mask128) (set_ipv6_local true r)
  | O_IP6_SRC_MASK a m => set_ip_local (words6 a m) (set_ipv6_local true r)
  | O_IP6_DST a => set_ip_remote (words6 a mask128) (set_ipv6_remote true r)
  | O_IP6_DST_MASK a m => set_ip_remote (words6 a m) (set_ipv6_remote true r)
  | O_IP_SRCPORT p0 p1 => set_port_local {| port_low := p0; port_high := p1 |} r
  | O_IP_DSTPORT p0 p1 => set_port_remote {| port_low := p0; port_high := p1 |} r
  | O_OTHER => r
  end.
#[export] Instance rule_eq_dec : EqDecision pgw_rule_t.
Proof.
  assert (EqDecision rule_address) by solve_decision. assert (EqDecision port_range) by solve_decision.
  solve_decision.
Defined.

(** The words that [strtok_r] finds between spaces. *)
Fixpoint words_from (w : list Z) (l : list Z) : list (list Z) :=
  let word := match w with [] => [] | _ => [rev w] end in
  match l with
  | [] => word
  | c :: l => if c =? 32 then word ++ words_from [] l else words_from (c :: w) l
  end.
Definition permit : list Z := [112; 101; 114; 109; 105; 116].
Definition out_ : list Z := [111; 117; 116].
Definition MAX_NUM_OF_TOKEN : nat := 32.
Section rules.
Context `{Ipfw}.
(** [None] is [OGS_ERROR].  The words fill [av] from its third place on and
    are followed by the direction and a null pointer. *)
Definition pgw_compile_packet_filter (description : list Z) : outcome (option pgw_rule_t) :=
  match words_from [] description with
  | [] => Undef
  | action :: rest =>
      if negb (bool_decide (action = permit)) then Ok None
      else match rest with
      | [] => Undef
      | dir :: addr =>
          if negb (bool_decide (dir = out_)) then Ok None
          else if (MAX_NUM_OF_TOKEN <? length addr + 4)%nat then Undef
          else
            cmds ← compile_rule (action :: addr ++ [dir]);
            let r := fold_left apply_insn cmds zero_rule in
            Ok (if decide (r = zero_rule) then None else Some r)
      end
  end.
End rules.

(** ** Headers *)
Definition octet (buf : list Z) (i : Z) : outcome Z := access (buf !! Z.to_nat i).
Definition be16 (buf : list Z) (i : Z) : outcome Z :=
  a ← octet buf i; b ← octet buf (i + 1); Ok (256 * a + b).
Definition be32 (buf : list Z) (i : Z) : outcome Z :=
  a ← be16 buf i; b ← be16 buf (i + 2); Ok (65536 * a + b).

Definition IPPROTO_TCP : Z := 6.
Definition IPPROTO_UDP : Z := 17.
Definition IPPROTO_FRAGMENT : Z := 44.
Definition IPPROTO_AH : Z := 51.
Definition IP6OPT_JUMBO : Z := 0xc2.
(** [IPPROTO_HOPOPTS], [IPPROTO_ROUTING], [IPPROTO_DSTOPTS] and the others
    with a length in units of eight octets. *)
Definition extension_headers : list Z := [0; 43; 60; 135; 139; 140; 253; 254].

(** The loop [while (p == endp)] with [p] = 40: where the payload ends.  A
    jumbo option of length zero leaves everything as it is, so that the loop
    goes on forever: [None]. *)
Fixpoint jumbo_loop (fuel : nat) (buf : list Z) (jp : Z) : outcome (option Z) :=
  match fuel with
  | O => Undef
  | S fuel =>
      jp_len ← be32 buf (jp + 2);
      ty ← octet buf jp;
      if ty =? IP6OPT_JUMBO then Ok (if jp_len =? 0 then None else Some (40 + jp_len))
      else if ty =? 0 then jumbo_loop fuel buf (jp + 1)
      else jumbo_loop fuel buf (jp + 2 + jp_len)
  end.
(** The loop over the extension headers: the protocol and the offset. *)
Fixpoint extension_loop (fuel : nat) (buf : list Z) (endp nxt p : Z) : outcome (Z * Z) :=
  match fuel with
  | O => Undef
  | S fuel =>
      if p <? endp then
        if bool_decide (nxt ∈ extension_headers) then
          len ← octet buf (p + 1); nxt ← octet buf p;
          extension_loop fuel buf endp nxt (p + (len * 8 + 8))
        else if nxt =? IPPROTO_FRAGMENT then
          nxt ← octet buf p; extension_loop fuel buf endp nxt (p + 8)
        else if nxt =? IPPROTO_AH then
          len ← octet buf (p + 1); nxt ← octet buf p;
          extension_loop fuel buf endp nxt (p + (len + 2) * 4)
        else Ok (nxt, p)
      else Ok (nxt, p)
  end.
(** The protocol and the length of the headers.  A loop that goes on forever
    has no result: [Undef]. *)
Definition decode_ipv6_header (buf : list Z) : outcome (Z * Z) :=
  nxt ← octet buf 6;
  plen ← be16 buf 4;
  endp ← (if plen =? 0 then
            ogs_assert (nxt =? 0);;
            e ← jumbo_loop (length buf + 1) buf 42;
            access e
          else Ok (40 + plen));
  '(proto, p) ← extension_loop (length buf + 1) buf endp nxt 40;
  Ok (proto, p mod 2 ^ 16).

Section packets.
Context `{Host}.
(** The [k]-th word of an address at offset [i]. *)
Definition word (buf : list Z) (i : nat) : outcome Z :=
  if (i + 4 <=? length buf)%nat then Ok (host_value (take 4 (drop i buf))) else Undef.
Fixpoint words (buf : list Z) (i n : nat) : outcome (list Z) :=
  match n with
  | O => Ok []
  | S n => a ← word buf i; l ← words buf (i + 4) n; Ok (a :: l)
  end.
(** What is read of the headers: the protocol, the offset of the next header,
    the two addresses (four words in any case), and how many words of them
    count. *)
Record ip_header := { h_proto : Z; h_len : Z; h_src : list Z; h_dst : list Z; h_words : nat }.
Definition parse_ip (buf : list Z) : outcome ip_header :=
  b0 ← octet buf 0;
  if b0 / 16 =? 4 then
    proto ← octet buf 9;
    src ← words buf 12 4; dst ← words buf 16 4;
    Ok {| h_proto := proto; h_len := b0 mod 16 * 4; h_src := src; h_dst := dst; h_words := 1 |}
  else if b0 / 16 =? 6 then
    '(proto, hlen) ← decode_ipv6_header buf;
    src ← words buf 8 4; dst ← words buf 24 4;
    Ok {| h_proto := proto; h_len := hlen; h_src := src; h_dst := dst; h_words := 4 |}
  else Undef.

(** ** Matching *)
(** The two comparisons with a port, which is read when the rule has a bound. *)
Definition port_ok (r : port_range) (port : outcome Z) : outcome bool :=
  let below_high := if port_high r =? 0 then Ok true else p ← port; Ok (negb (port_high r <? p)) in
  if port_low r =? 0 then below_high
  else p ← port; if p <? port_low r then Ok false else below_high.
Definition address_in (n : nat) (a : list Z) (r : rule_address) : bool :=
  memcmp_words n (zip_with Z.land a (r_mask r)) (r_addr r).
Definition ports_match (r : pgw_rule_t) (h : ip_header) (buf : list Z) : outcome bool :=
  a ← port_ok (port_local r) (be16 buf (h_len h));
  if (a : bool) then port_ok (port_remote r) (be16 buf (h_len h + 2)) else Ok false.
(** The body of the loop over the filters of a bearer. *)
Definition pf_matches (f : pgw_pf_t) (h : ip_header) (buf : list Z) : outcome bool :=
  let r := pf_rule f in
  if negb (pf_direction f =? 1) then Ok false
  else if address_in (h_words h) (h_src h) (ip_local r) && address_in (h_words h) (h_dst h) (ip_remote r)
  then
    if r_proto r =? 0 then Ok true
    else if r_proto r =? h_proto h then
      if (r_proto r =? IPPROTO_TCP) || (r_proto r =? IPPROTO_UDP) then ports_match r h buf else Ok true
    else Ok false
  else Ok false.
End packets.

(** ** [pgw_bearer_find_by_packet] *)
Section find.
Context `{Host, OgsPlmn, OgsPool, OgsList, OgsSock, OgsPaaUnion} (conf : pgw_conf).

Fixpoint pf_found (h : ip_header) (buf : list Z) (l : list Z) : M pgw_t (option Z) :=
  match l with
  | [] => mret None
  | i :: l =>
      f ← the_pf i;
      ok ← lift (pf_matches f h buf);
      if (ok : bool) then mret (Some (pf_bearer f)) else pf_found h buf l
  end.
(** The loop over the bearers after the default bearer. *)
Fixpoint dedicated_found (h : ip_header) (buf : list Z) (l : list Z) : M pgw_t (option Z) :=
  match l with
  | [] => mret None
  | b :: l =>
      x ← the_bearer b;
      if pb_ebi x =? 0 then dedicated_found h buf l
      else
        r ← pf_found h buf (pf_list x);
        match r with Some b => mret (Some b) | None => dedicated_found h buf l end
  end.
Definition has_address (h : ip_header) (ip : option pgw_ue_ip_t) : outcome bool :=
  match ip with
  | None => Ok false
  | Some ip => a ← ue_ip_addr conf ip; Ok (memcmp_words (h_words h) (h_dst h) a)
  end.
Definition sess_addressed (h : ip_header) (x : pgw_sess_t) : outcome bool :=
  a ← has_address h (ps_ipv4 x);
  if (a : bool) then Ok true else has_address h (ps_ipv6 x).
Fixpoint sess_found (h : ip_header) (buf : list Z) (l : list Z) : M pgw_t (option Z) :=
  match l with
  | [] => mret None
  | i :: l =>
      x ← the_sess i;
      ok ← lift (sess_addressed h x);
      if (ok : bool) then
        match bearer_list x with
        | [] => mabort
        | d :: ds => r ← dedicated_found h buf ds; mret (Some (match r with Some b => b | None => d end))
        end
      else sess_found h buf l
  end.
Definition pgw_bearer_find_by_packet (buf : list Z) : M pgw_t (option Z) :=
  h ← lift (parse_ip buf);
  s ← get;
  sess_found h buf (pgw_sess_list s).
End find.
