(* ===== verification/PgwBuild.v ===== *)
(** * Messages of the PGW: [src/pgw/pgw-s5c-build.c]

    The traffic flow template of a bearer, the protocol configuration options
    that answer those of a UE, and the messages.  A message is the elements
    that are set; [ogs_gtp_build_msg] ([GtpMessage.v]) succeeds on them. *)
From S2P Require Import Prelude.
From S2P Require Import CMem.
From S2P Require Import OgsLib.
From S2P Require Import ObjPool.
From S2P Require Import GtpConv.
From S2P Require Import GtpTypes.
From S2P Require Import GtpNode.
From S2P Require Import PgwPool.
From S2P Require Import NasIes.
From S2P Require Import PgwContext.
From S2P Require Import PgwFilter.
#[local] Open Scope Z_scope.

(** ** Types and functions of ogslib

    Protocol configuration options: what [ogs_pco_parse] gives (of a
    container, the identifier and the octet at its data, whatever its length),
    what [ogs_pco_build] writes (its result is the length), how many
    containers there is room for, and the image of an IPCP acknowledgement
    with its options (type and address).  [ogs_ipsubnet] reads an address: the
    octets of [sub]. *)
Record ogs_pco_t (A : Type) := { pco_ext : Z; pco_protocol : Z; pco_ids : list (Z * A) }.
Arguments pco_ext {A}. Arguments pco_protocol {A}. Arguments pco_ids {A}.
Class OgsPco := {
  ogs_pco_parse : list Z → option (ogs_pco_t Z);
  ogs_pco_build : ogs_pco_t (list Z) → list Z;
  pco_ipcp_image : option (Z * list Z) → option (Z * list Z) → list Z;
  OGS_MAX_NUM_OF_PROTOCOL_OR_CONTAINER_ID : nat;
  pco_ipsubnet : list Z → option (list Z);
}.

Definition OGS_PCO_ID_CHALLENGE_HANDSHAKE_AUTHENTICATION_PROTOCOL : Z := 0xc223.
Definition OGS_PCO_ID_INTERNET_PROTOCOL_CONTROL_PROTOCOL : Z := 0x8021.
Definition OGS_PCO_ID_P_CSCF_IPV6_ADDRESS_REQUEST : Z := 0x0001.
Definition OGS_PCO_ID_DNS_SERVER_IPV6_ADDRESS_REQUEST : Z := 0x0003.
Definition OGS_PCO_ID_P_CSCF_IPV4_ADDRESS_REQUEST : Z := 0x000c.
Definition OGS_PCO_ID_DNS_SERVER_IPV4_ADDRESS_REQUEST : Z := 0x000d.

Definition OGS_GTP_CAUSE_REQUEST_ACCEPTED : Z := 16.
Definition OGS_GTP_APN_NO_RESTRICTION : Z := 0.
Definition OGS_GTP_TFT_CODE_CREATE_NEW_TFT : Z := 1.
Definition OGS_GTP_F_TEID_S5_S8_PGW_GTP_U : Z := 5.
Definition OGS_GTP_F_TEID_S5_S8_PGW_GTP_C : Z := 7.

(** ** [contigmask] of the vendored ipfw: the number of leading ones of a mask
    of [len] bits, -1 if there is a one after them *)
Definition bits_of (mask : list Z) : list bool := concat ((λ b, Z.testbit b <$> [7; 6; 5; 4; 3; 2; 1; 0]) <$> mask).
Fixpoint leading_ones (l : list bool) : nat :=
  match l with true :: l => S (leading_ones l) | _ => O end.
Definition contigmask (mask : list Z) : Z :=
  let l := bits_of mask in
  let i := leading_ones l in
  if existsb (λ b, b) (drop (i + 1) l) then -1 else Z.of_nat i.

Definition OGS_MAX_NUM_OF_PACKET_FILTER : nat := 16.

Section tft.
Context `{Host, OgsBits}.

(** ** [encode_traffic_flow_template] *)
Definition words_image (l : list Z) : list Z := concat (host_bytes 4 <$> l).
(** A component in cleared memory: what was written into the union. *)
Definition pf_component (ty : Z) (u : list Z) : Tft.component_t :=
  {| Tft.comp_type := ty; Tft.comp_union := u ++ replicate (Tft.sizeof_union - length u) 0 |}.
Definition ipv4_component (ty : Z) (a : rule_address) : outcome Tft.component_t :=
  x ← access (r_addr a !! 0%nat); m ← access (r_mask a !! 0%nat);
  Ok (pf_component ty (host_bytes 4 x ++ host_bytes 4 m)).
Definition ipv6_component (ty : Z) (a : rule_address) : outcome Tft.component_t :=
  Ok (pf_component ty (words_image (r_addr a) ++ [contigmask (words_image (r_mask a)) mod 256])).
(** One port or a range; the number is the length. *)
Definition port_component (single range : Z) (r : port_range) : list (Tft.component_t * Z) :=
  if port_low r =? 0 then []
  else if port_low r =? port_high r then [(pf_component single (host_bytes 2 (port_low r)), 3)]
  else [(pf_component range (host_bytes 2 (port_low r) ++ host_bytes 2 (port_high r)), 5)].
Definition component_if (b : bool) (len : Z) (c : outcome Tft.component_t)
    : outcome (list (Tft.component_t * Z)) :=
  if b then c ← c; Ok [(c, len)] else Ok [].
Definition rule_components (r : pgw_rule_t) : outcome (list (Tft.component_t * Z)) :=
  c1 ← component_if (negb (r_proto r =? 0)) 2 (Ok (pf_component 48 [r_proto r]));
  c2 ← component_if (ipv4_local r) 9 (ipv4_component 17 (ip_local r));
  c3 ← component_if (ipv4_remote r) 9 (ipv4_component 16 (ip_remote r));
  c4 ← component_if (ipv6_local r) 18 (ipv6_component 35 (ip_local r));
  c5 ← component_if (ipv6_remote r) 18 (ipv6_component 33 (ip_remote r));
  Ok (c1 ++ c2 ++ c3 ++ c4 ++ c5 ++ port_component 64 65 (port_local r)
        ++ port_component 80 81 (port_remote r)).
(** The [i]-th filter of the template. *)
Definition tft_filter (i : Z) (f : pgw_pf_t) : outcome Tft.packet_filter_t :=
  cs ← rule_components (pf_rule f);
  Ok {| Tft.pf_flags := ed_pack [(2%nat, 0); (2%nat, pf_direction f); (4%nat, (pf_identifier f - 1) mod 16)];
        Tft.precedence := (i + 1) mod 256; Tft.pf_length := foldr Z.add 0 cs.*2 mod 256;
        Tft.component := cs.*1; Tft.num_of_component := Z.of_nat (length cs) |}.
Fixpoint tft_filters (i : Z) (l : list pgw_pf_t) : outcome (list Tft.packet_filter_t) :=
  match l with
  | [] => Ok []
  | f :: l => p ← tft_filter i f; ps ← tft_filters (i + 1) l; Ok (p :: ps)
  end.
(** The array of the template has a fixed size. *)
Definition encode_traffic_flow_template (l : list pgw_pf_t) : outcome Tft.ogs_gtp_tft_t :=
  if (OGS_MAX_NUM_OF_PACKET_FILTER <? length l)%nat then Undef
  else
    ps ← tft_filters 0 l;
    Ok {| Tft.flags := ed_pack [(3%nat, OGS_GTP_TFT_CODE_CREATE_NEW_TFT); (1%nat, 0);
                                (4%nat, Z.of_nat (length l) mod 16)];
          Tft.pf := ps |}.
End tft.

Section build.
Context `{Host, OgsBits, OgsConv, OgsPlmn, OgsPool, OgsList, OgsSock, OgsPaaUnion, OgsPco,
          OgsLengths} (conf : pgw_conf).

(** ** F-TEIDs of the PGW *)
Definition cleared_teid (ty teid_ : Z) : ogs_gtp_f_teid_t := {|
  ft_ipv4 := 0; ft_ipv6 := 0; interface_type := ty; teid := htonl teid_;
  ft_addr := replicate OGS_IPV4V6_LEN 0 |}.
Definition pgw_s5c_f_teid (t : Z) : M pgw_t ogs_gtp_f_teid_t :=
  '(f, _) ← lift (ogs_gtp_sockaddr_to_f_teid (pgw_gtpc_addr conf) (pgw_gtpc_addr6 conf)
                    (cleared_teid OGS_GTP_F_TEID_S5_S8_PGW_GTP_C t));
  mret f.
Definition pgw_s5u_f_teid (t : Z) : M pgw_t ogs_gtp_f_teid_t :=
  '(f, _) ← lift (ogs_gtp_sockaddr_to_f_teid (pgw_gtpu_addr conf) (pgw_gtpu_addr6 conf)
                    (cleared_teid OGS_GTP_F_TEID_S5_S8_PGW_GTP_U t));
  mret f.

(** ** [pgw_pco_build] *)
Definition text_address (n : nat) (text : list Z) : outcome (list Z) :=
  match pco_ipsubnet text with Some a => Ok (take n a) | None => Aborted end.
Definition address_of (n : nat) (text : option (list Z)) : outcome (option (list Z)) :=
  match text with None => Ok None | Some t => a ← text_address n t; Ok (Some a) end.
(** The containers for the servers that are configured. *)
Definition server_ids (n : nat) (id : Z) (servers : option (list Z) * option (list Z))
    : outcome (list (Z * list Z)) :=
  a ← address_of n (fst servers); b ← address_of n (snd servers);
  Ok (pair id <$> option_list a ++ option_list b).
Definition ipcp_option (ty : Z) (text : option (list Z)) : outcome (option (Z * list Z)) :=
  a ← address_of 4 text; Ok (option_map (pair ty) a).
(** The next P-CSCF, and the index after it. *)
Definition next_p_cscf (n : nat) (id : Z) (l : list (list Z)) (index : nat)
    : outcome (list (Z * list Z) * nat) :=
  match l with
  | [] => Ok ([], index)
  | _ => t ← access (l !! index); a ← text_address n t; Ok ([(id, a)], ((index + 1) mod length l)%nat)
  end.
(** What one container of the UE adds. *)
Definition pco_answer (id data0 : Z) : M pgw_t (list (Z * list Z)) :=
  if id =? OGS_PCO_ID_CHALLENGE_HANDSHAKE_AUTHENTICATION_PROTOCOL then
    mret (if data0 =? 2 then [(id, [3; 0; 0; 4])] else [])
  else if id =? OGS_PCO_ID_INTERNET_PROTOCOL_CONTROL_PROTOCOL then
    if data0 =? 1 then
      o1 ← lift (ipcp_option 129 (fst (dns conf))); o2 ← lift (ipcp_option 131 (snd (dns conf)));
      mret [(id, take 16 (pco_ipcp_image o1 o2))]
    else mret []
  else if id =? OGS_PCO_ID_DNS_SERVER_IPV4_ADDRESS_REQUEST then lift (server_ids 4 id (dns conf))
  else if id =? OGS_PCO_ID_DNS_SERVER_IPV6_ADDRESS_REQUEST then lift (server_ids 16 id (dns6 conf))
  else if id =? OGS_PCO_ID_P_CSCF_IPV4_ADDRESS_REQUEST then
    s ← get;
    '(r, k) ← lift (next_p_cscf 4 id (p_cscf conf) (p_cscf_index s));
    modify (set_p_cscf k);; mret r
  else if id =? OGS_PCO_ID_P_CSCF_IPV6_ADDRESS_REQUEST then
    s ← get;
    '(r, k) ← lift (next_p_cscf 16 id (p_cscf6 conf) (p_cscf6_index s));
    modify (set_p_cscf6 k);; mret r
  else mret [].
(** The data of a container for a P-CSCF is a pointer at the variable that
    holds the address: the one that is read last is in all of them. *)
Definition shared_p_cscf (r out : list (Z * list Z)) : list (Z * list Z) :=
  match r with
  | [(id, a)] =>
      if (id =? OGS_PCO_ID_P_CSCF_IPV4_ADDRESS_REQUEST) || (id =? OGS_PCO_ID_P_CSCF_IPV6_ADDRESS_REQUEST)
      then (λ x, if x.1 =? id then (id, a) else x) <$> out else out
  | _ => out
  end.
(** The loop over the containers of the UE; [out] are those of the answer,
    in an array of a fixed size. *)
Fixpoint pco_answers (l : list (Z * Z)) (out : list (Z * list Z)) : M pgw_t (list (Z * list Z)) :=
  match l with
  | [] => mret out
  | (id, data0) :: l =>
      r ← pco_answer id data0;
      if (OGS_MAX_NUM_OF_PROTOCOL_OR_CONTAINER_ID <? length (out ++ r))%nat then lift Undef
      else pco_answers l (shared_p_cscf r out ++ r)
  end.
Definition pgw_pco_build (pco : list Z) : M pgw_t (list Z) :=
  ue ← assert_some (ogs_pco_parse pco);
  ids ← pco_answers (pco_ids ue) [];
  let r := ogs_pco_build {| pco_ext := pco_ext ue; pco_protocol := pco_protocol ue; pco_ids := ids |} in
  massert (negb (length r =? 0)%nat && (length r <=? OGS_MAX_PCO_LEN)%nat);;
  mret r.
Definition pco_opt (pco : option (list Z)) : M pgw_t (option (list Z)) :=
  match pco with Some p => r ← pgw_pco_build p; mret (Some r) | None => mret None end.

(** ** Messages *)
Definition paa_len (x : pgw_sess_t) : outcome nat :=
  match ps_ipv4 x, ps_ipv6 x with
  | Some _, Some _ => Ok OGS_PAA_IPV4V6_LEN
  | Some _, None => Ok OGS_PAA_IPV4_LEN
  | None, Some _ => Ok OGS_PAA_IPV6_LEN
  | None, None => Aborted
  end.
Definition pgw_s5c_build_create_session_response (i : Z) (req : create_session_t) : M pgw_t s5c_output :=
  b ← pgw_default_bearer_in_sess i;
  b ← assert_some b;
  y ← the_bearer b;
  x ← the_sess i;
  s5c ← pgw_s5c_f_teid (pgw_s5c_teid x);
  n ← lift (paa_len x);
  pco ← pco_opt (c_pco req);
  s5u ← pgw_s5u_f_teid (pgw_s5u_teid y);
  mret (CreateSessionAnswer OGS_GTP_CAUSE_REQUEST_ACCEPTED s5c (take n (paa_image (ps_paa x)))
          OGS_GTP_APN_NO_RESTRICTION pco (pb_ebi y) s5u).
Definition pgw_s5c_build_delete_session_response (pco : option (list Z)) : M pgw_t s5c_output :=
  r ← pco_opt pco; mret (DeleteSessionAnswer OGS_GTP_CAUSE_REQUEST_ACCEPTED r).

Definition no_octet : ogs_tlv_octet_t := {| presence := 0; data := []; len := 0 |}.
Definition present_octet (o : ogs_tlv_octet_t) : ogs_tlv_octet_t :=
  {| presence := 1; data := data o; len := len o |}.
Definition qos_element (q : ogs_qos_t) : M pgw_t ogs_tlv_octet_t :=
  '(o, _) ← lift (BearerQos.ogs_gtp_build_bearer_qos no_octet {|
    BearerQos.spare1 := 0; BearerQos.spare2 := 0;
    BearerQos.pre_emption_capability := pre_emption_capability (q_arp q) mod 2;
    BearerQos.priority_level := priority_level (q_arp q) mod 16;
    BearerQos.pre_emption_vulnerability := pre_emption_vulnerability (q_arp q) mod 2;
    BearerQos.qci := q_qci q;
    BearerQos.ul_mbr := br_uplink (q_mbr q); BearerQos.dl_mbr := br_downlink (q_mbr q);
    BearerQos.ul_gbr := br_uplink (q_gbr q); BearerQos.dl_gbr := br_downlink (q_gbr q) |}
    BearerQos.GTP_BEARER_QOS_LEN);
  mret (present_octet o).
Fixpoint the_pfs (l : list Z) : M pgw_t (list pgw_pf_t) :=
  match l with [] => mret [] | i :: l => f ← the_pf i; fs ← the_pfs l; mret (f :: fs) end.
Definition tft_element (b : Z) : M pgw_t ogs_tlv_octet_t :=
  x ← the_bearer b;
  fs ← the_pfs (pf_list x);
  t ← lift (encode_traffic_flow_template fs);
  '(o, _) ← lift (Tft.ogs_gtp_build_tft no_octet t Tft.OGS_GTP_MAX_TRAFFIC_FLOW_TEMPLATE);
  mret (present_octet o).
Definition element_if (b : bool) (m : M pgw_t ogs_tlv_octet_t) : M pgw_t (option ogs_tlv_octet_t) :=
  if b then o ← m; mret (Some o) else mret None.
(** The default bearer of the session of a bearer. *)
Definition linked_bearer (b : Z) : M pgw_t Z :=
  x ← the_bearer b; d ← pgw_default_bearer_in_sess (pb_sess x); assert_some d.
Definition pgw_s5c_build_create_bearer_request (b : Z) : M pgw_t s5c_output :=
  d ← linked_bearer b;
  y ← the_bearer d;
  x ← the_bearer b;
  s5u ← pgw_s5u_f_teid (pgw_s5u_teid x);
  qos ← qos_element (pb_qos x);
  tft ← tft_element b;
  mret (CreateBearer (pb_ebi y) (pb_ebi x) s5u qos tft).
Definition pgw_s5c_build_update_bearer_request (b : Z) (qos_presence tft_presence : bool)
    : M pgw_t s5c_output :=
  _ ← linked_bearer b;
  x ← the_bearer b;
  qos ← element_if qos_presence (qos_element (pb_qos x));
  tft ← element_if tft_presence (tft_element b);
  mret (UpdateBearer (pb_ebi x) qos tft).
Definition pgw_s5c_build_delete_bearer_request (b : Z) : M pgw_t s5c_output :=
  d ← linked_bearer b;
  y ← the_bearer d;
  x ← the_bearer b;
  mret (if pb_ebi x =? pb_ebi y then DeleteBearer (Some (pb_ebi x)) None
        else DeleteBearer None (Some (pb_ebi x))).
End build.
