(* ===== verification/PgwHandler.v ===== *)
(** * The handlers of the PGW: [src/pgw/pgw-s5c-handler.c], [pgw-gx-handler.c]

    Messages of the SGW and answers and rules of the PCRF.  The transaction
    layer is called through the outputs [S5cRequest] (create and commit a
    local transaction), [S5cResponse] (update and commit the peer's) and
    [S5cCommit]; of [pgw_gx_send_ccr] the model has the assertion and what the
    answer will come back with. *)
From S2P Require Import Prelude.
From S2P Require Import CMem.
From S2P Require Import OgsLib.
From S2P Require Import ObjPool.
From S2P Require Import GtpConv.
From S2P Require Import GtpTypes.
From S2P Require Import GtpNode.
From S2P Require Import PgwPool.
From S2P Require Import NasIes.
From S2P Require Import PgwContext.
From S2P Require Import PgwFilter.
From S2P Require Import PgwBuild.
#[local] Open Scope Z_scope.

Definition CC_REQUEST_TYPE_INITIAL_REQUEST : Z := 1.
Definition CC_REQUEST_TYPE_TERMINATION_REQUEST : Z := 3.

Section handlers.
Context `{Host, OgsBits, OgsConv, OgsPlmn, !Ogs3gpp, OgsPool, OgsList, OgsSock, OgsPaaUnion, OgsImsiBcd,
          OgsNextId, OgsLengths, OgsFqdn, OgsPco, Ipfw} (conf : pgw_conf).

Definition teid_of (f : ogs_gtp_f_teid_t) : Z := ntohl (teid f).

(** ** S5-C *)
(** The TEID of the SGW for the packets of a bearer, and its peer. *)
Definition set_sgw_s5u (b : Z) (f : ogs_gtp_f_teid_t) : M pgw_t () :=
  on_bearer b (set_sgw_s5u_teid (teid_of f));;
  n ← s5u_peer conf f;
  on_bearer b (set_pb_gnode (Some n)).
Definition store_qos (i : Z) (o : ogs_tlv_octet_t) : M pgw_t () :=
  '(q, decoded) ← lift (BearerQos.ogs_gtp_parse_bearer_qos o);
  massert (len o =? decoded);;
  on_sess i (λ x, set_ps_qos {| q_qci := BearerQos.qci q;
    q_arp := {| priority_level := BearerQos.priority_level q;
                pre_emption_capability := BearerQos.pre_emption_capability q;
                pre_emption_vulnerability := BearerQos.pre_emption_vulnerability q |};
    q_mbr := q_mbr (ps_qos x); q_gbr := q_gbr (ps_qos x) |} x).
Definition store_location (i : Z) (o : ogs_tlv_octet_t) : M pgw_t () :=
  '(uli, decoded) ← lift (Uli.ogs_gtp_parse_uli o);
  massert (len o =? decoded);;
  on_sess i (λ x, set_ps_e_cgi (Uli.e_cgi uli) (set_ps_tai (Uli.tai uli) x)).
Definition store_ambr (i : Z) (a : option bitrate_t) : M pgw_t () :=
  match a with
  | Some a => on_sess i (set_ps_ambr {| br_downlink := ntohl (br_downlink a); br_uplink := ntohl (br_uplink a) |})
  | None => mret ()
  end.
Definition pgw_s5c_handle_create_session_request (i : Z) (req : create_session_t) : M pgw_t () :=
  b ← pgw_default_bearer_in_sess i;
  b ← assert_some b;
  match c_imsi req, c_sender req, c_bearer req, c_qos req, c_s5u req, c_uli req with
  | Some imsi, Some s5c, true, Some qos, Some s5u, Some uli =>
      imsi_fits imsi;;
      on_sess i (λ x, set_ps_imsi_bcd (buffer_to_bcd imsi) (set_ps_imsi imsi x));;
      on_sess i (set_sgw_s5c_teid (teid_of s5c));;
      set_sgw_s5u b s5u;;
      store_qos i qos;;
      store_ambr i (c_ambr req);;
      store_location i uli
  | _, _, _, _, _, _ => mret ()
  end.
Definition pgw_s5c_handle_delete_session_request (i : Z) : M pgw_t () := _ ← the_sess i; mret ().
(** [ogs_gtp_xact_commit] follows when the elements are there. *)
Definition pgw_s5c_handle_create_bearer_response (x : Z) (i : Z) (r : bearer_response_t) : M pgw_t () :=
  match r_bearer r, r_ebi r, r_pgw_s5u r, r_sgw_s5u r with
  | true, Some ebi, Some pgw_s5u, Some sgw_s5u =>
      b ← pgw_bearer_find_by_pgw_s5u_teid (teid_of pgw_s5u);
      b ← assert_some b;
      on_bearer b (set_pb_ebi ebi);;
      set_sgw_s5u b sgw_s5u;;
      put_out (S5cCommit x)
  | _, _, _, _ => mret ()
  end.
Definition pgw_s5c_handle_update_bearer_response (x : Z) (i : Z) (r : bearer_response_t) : M pgw_t () :=
  match r_bearer r, r_ebi r with
  | true, Some _ => put_out (S5cCommit x)
  | _, _ => mret ()
  end.
Definition pgw_s5c_handle_delete_bearer_response (x : Z) (i : Z) (r : bearer_response_t) : M pgw_t () :=
  match r_bearer r, r_ebi r with
  | true, Some ebi =>
      b ← pgw_bearer_find_by_ebi i ebi;
      b ← assert_some b;
      put_out (S5cCommit x);;
      pgw_bearer_remove b
  | _, _ => mret ()
  end.

(** ** Gx *)
Definition pgw_gx_send_ccr (i : Z) (x : Z) (m : s5c_message) (ty : Z) : M pgw_t () :=
  y ← the_sess i;
  massert (match ps_ipv4 y, ps_ipv6 y with None, None => false | _, _ => true end);;
  put_out (Ccr ty i x m).
(** [ogs_gtp_xact_local_create] asserts that there is a peer. *)
Definition s5c_request (i : Z) (m : s5c_output) : M pgw_t () :=
  y ← the_sess i; n ← assert_some (ps_gnode y); put_out (S5cRequest n (sgw_s5c_teid y) m).

Definition rate_changed (new old : Z) : bool := negb (new =? 0) && negb (old =? new).
Definition qos_changed (new old : ogs_qos_t) : bool :=
  rate_changed (br_downlink (q_mbr new)) (br_downlink (q_mbr old)) ||
  rate_changed (br_uplink (q_mbr new)) (br_uplink (q_mbr old)) ||
  rate_changed (br_downlink (q_gbr new)) (br_downlink (q_gbr old)) ||
  rate_changed (br_uplink (q_gbr new)) (br_uplink (q_gbr old)).
(** [strcmp(bearer->name, ...)] of a bearer without name is undefined. *)
Definition check_name (b : Z) (name : list Z) : M pgw_t () :=
  x ← the_bearer b;
  match pb_name x with
  | None => lift Undef
  | Some n => massert (bool_decide (n = name))
  end.
Definition add_flow (b : Z) (f : ogs_flow_t) : M pgw_t () :=
  d ← assert_some (flow_description f);
  r ← lift (pgw_compile_packet_filter d);
  r ← assert_some r;
  p ← pgw_pf_add b;
  on_pf p (λ x, {| pf_direction := flow_direction f mod 4; pf_identifier := pf_identifier x;
    pf_rule := r; pf_bearer := pf_bearer x |}).
Fixpoint add_flows (b : Z) (l : list ogs_flow_t) : M pgw_t () :=
  match l with [] => mret () | f :: l => add_flow b f;; add_flows b l end.

(** A rule that is installed. *)
Definition new_bearer_for (i : Z) (r : ogs_pcc_rule_t) (name : list Z) : M pgw_t Z :=
  b ← pgw_bearer_add conf i;
  on_bearer b (λ x, set_pb_qos (rule_qos r) (set_pb_name (Some name) x));;
  massert (negb (length (rule_flows r) =? 0)%nat);;
  mret b.
Definition create_bearer_for (i : Z) (r : ogs_pcc_rule_t) (name : list Z) : M pgw_t () :=
  b ← new_bearer_for i r name;
  add_flows b (rule_flows r);;
  m ← pgw_s5c_build_create_bearer_request conf b;
  s5c_request i m.
Definition update_bearer_for (i b : Z) (r : ogs_pcc_rule_t) (name : list Z) : M pgw_t () :=
  check_name b name;;
  let tft_presence := negb (length (rule_flows r) =? 0)%nat in
  (if tft_presence then pgw_pf_remove_all b else mret ());;
  x ← the_bearer b;
  let qos_presence := qos_changed (rule_qos r) (pb_qos x) in
  (if qos_presence then on_bearer b (set_pb_qos (rule_qos r)) else mret ());;
  if negb tft_presence && negb qos_presence then mret ()
  else
    add_flows b (rule_flows r);;
    m ← pgw_s5c_build_update_bearer_request b qos_presence tft_presence;
    s5c_request i m.
Definition install_rule (i : Z) (r : ogs_pcc_rule_t) (name : list Z) : M pgw_t () :=
  found ← pgw_bearer_find_by_qci_arp i (q_qci (rule_qos r)) (q_arp (rule_qos r));
  match found with
  | None => create_bearer_for i r name
  | Some b => update_bearer_for i b r name
  end.
Definition remove_rule (i : Z) (name : list Z) : M pgw_t () :=
  b ← pgw_bearer_find_by_name i name;
  b ← assert_some b;
  m ← pgw_s5c_build_delete_bearer_request b;
  s5c_request i m.
(** The loop over the rules, which a rule that is removed ends. *)
Fixpoint bearer_binding (i : Z) (l : list ogs_pcc_rule_t) : M pgw_t () :=
  match l with
  | [] => mret ()
  | r :: l =>
      match rule_name r with
      | None => bearer_binding i l
      | Some name =>
          match rule_type_ r with
          | RuleInstall => install_rule i r name;; bearer_binding i l
          | RuleRemove => remove_rule i name
          | RuleOther => mabort
          end
      end
  end.
Definition pgw_gx_handle_cca_initial_request (i : Z) (gx : gx_message_t) (x : Z) (req : create_session_t)
    : M pgw_t () :=
  y ← the_sess i;
  m ← pgw_s5c_build_create_session_response conf i req;
  put_out (S5cResponse x (sgw_s5c_teid y) m);;
  bearer_binding i (pcc_rules gx).
Definition pgw_gx_handle_cca_termination_request (i : Z) (x : Z) (pco : option (list Z)) : M pgw_t () :=
  y ← the_sess i;
  pgw_sess_remove i;;
  m ← pgw_s5c_build_delete_session_response conf pco;
  put_out (S5cResponse x (sgw_s5c_teid y) m).
Definition pgw_gx_handle_re_auth_request (i : Z) (gx : gx_message_t) : M pgw_t () :=
  bearer_binding i (pcc_rules gx).
End handlers.
