(* ===== verification/PgwPath.v ===== *)
(** * The events and the user plane of the PGW: [src/pgw/pgw-sm.c],
    [pgw-gtp-path.c]

    The PGW is one thread: datagrams for GTP-C become events; datagrams for
    GTP-U and packets from the TUN devices are handled when they are read.
    Messages of the PCRF become events in a thread of the Diameter library. *)
From S2P Require Import Prelude.
From S2P Require Import CMem.
From S2P Require Import OgsLib.
From S2P Require Import ObjPool.
From S2P Require Import GtpConv.
From S2P Require Import GtpTypes.
From S2P Require Import GtpNode.
From S2P Require Import PgwPool.
From S2P Require Import NasIes.
From S2P Require Import PgwContext.
From S2P Require Import PgwFilter.
From S2P Require Import PgwBuild.
From S2P Require Import PgwHandler.
#[local] Open Scope Z_scope.

(** ** [in_cksum] on words of memory *)
Section checksum.
Context `{Host}.
Fixpoint sum_words (l : list Z) (sum : Z) : Z :=
  match l with
  | a :: b :: l => sum_words l ((sum + host_value [a; b]) mod 2 ^ 32)
  | [a] => (sum + host_value [a; 0]) mod 2 ^ 32
  | [] => sum
  end.
Definition in_cksum (l : list Z) : Z :=
  let sum := sum_words l 0 in
  let sum := sum / 2 ^ 16 + sum mod 2 ^ 16 in
  let sum := sum + sum / 2 ^ 16 in
  (2 ^ 32 - 1 - sum) mod 2 ^ 16.
End checksum.

Definition ND_ROUTER_SOLICIT : Z := 133.
Definition ND_ROUTER_ADVERT : Z := 134.
Definition IPPROTO_ICMPV6 : Z := 58.
Definition OGS_GTPV1U_HEADER_LEN : nat := 8.
(** [fe80::1]. *)
Definition default_link_local : list Z := [0xfe; 0x80] ++ replicate 13 0 ++ [1].

Section path.
Context `{Host, OgsBits, OgsConv, OgsPlmn, !Ogs3gpp, OgsPool, OgsList, OgsSock, OgsPaaUnion, OgsImsiBcd,
          OgsNextId, OgsLengths, OgsFqdn, OgsPco, Ipfw} (conf : pgw_conf).

(** ** To the SGW *)
(** The packet behind a header for its bearer. *)
Definition gpdu_packet (teid_ : Z) (packet : list Z) : list Z :=
  [0x30; OGS_GTPU_MSGTYPE_GPDU] ++ be_bytes 2 (Z.of_nat (length packet)) ++ be_bytes 4 teid_ ++ packet.
Definition pgw_gtp_send_to_bearer (b : Z) (packet : list Z) : M pgw_t () :=
  x ← the_bearer b;
  n ← assert_some (pb_gnode x);
  node ← on_nodes (the_node n);
  _ ← assert_some (n_sock node);
  put_out (Gtpu n (gpdu_packet (sgw_s5u_teid x) packet)).

(** [memcpy]'s and assignments to the advertisement, with the pseudo-header in
    front of it and then with the header. *)
Definition ra_body (cksum : list Z) (n : pgw_subnet_t) : list Z :=
  [ND_ROUTER_ADVERT; 0] ++ cksum ++ [64; 0] ++ be_bytes 2 64800 ++ replicate 8 0
  ++ [3; 4; prefixlen (sn_conf n) mod 256; 0xc0] ++ replicate 8 0xff ++ replicate 4 0
  ++ words_image (sub_words (sub (sn_conf n))).
Definition ra_pseudo_header (src dst : list Z) : list Z :=
  src ++ dst ++ [0; 0] ++ be_bytes 2 48 ++ [0; 0; 0; IPPROTO_ICMPV6].
Definition ra_header (src dst : list Z) : list Z :=
  be_bytes 4 0x60000001 ++ be_bytes 2 48 ++ [IPPROTO_ICMPV6; 0xff] ++ src ++ dst.
Definition ra_packet (src dst : list Z) (n : pgw_subnet_t) : list Z :=
  let cksum := host_bytes 2 (in_cksum (ra_pseudo_header src dst ++ ra_body [0; 0] n)) in
  ra_header src dst ++ ra_body cksum n.
Definition pgw_gtp_send_router_advertisement (i : Z) (ip6_dst : list Z) : M pgw_t () :=
  b ← pgw_default_bearer_in_sess i;
  b ← assert_some b;
  x ← the_sess i;
  ip ← assert_some (ps_ipv6 x);
  n ← lift (the_subnet conf (ip_subnet ip));
  pgw_gtp_send_to_bearer b (ra_packet (default default_link_local (link_local_addr (sn_dev n))) ip6_dst n).
(** The result says whether the packet was handled. *)
Definition pgw_gtp_handle_slaac (i : Z) (buf : list Z) : M pgw_t bool :=
  b0 ← lift (octet buf 0);
  if negb (b0 / 16 =? 6) then mret false
  else
    nxt ← lift (octet buf 6);
    if negb (nxt =? IPPROTO_ICMPV6) then mret false
    else
      ty ← lift (octet buf 40);
      if negb (ty =? ND_ROUTER_SOLICIT) then mret false
      else
        x ← the_sess i;
        (match ps_ipv6 x with
         | Some _ =>
             src ← lift (access (slice 8 16 buf));
             pgw_gtp_send_router_advertisement i src
         | None => mret ()
         end);;
        mret true.
(** A multicast packet goes to the first session with an IPv6 address. *)
Fixpoint multicast_to (packet : list Z) (l : list Z) : M pgw_t () :=
  match l with
  | [] => mret ()
  | i :: l =>
      x ← the_sess i;
      match ps_ipv6 x with
      | Some _ =>
          b ← assert_some (head (bearer_list x));
          pgw_gtp_send_to_bearer b packet
      | None => multicast_to packet l
      end
  end.
Definition pgw_gtp_handle_multicast (data rest : list Z) : M pgw_t () :=
  b0 ← lift (octet (data ++ rest) 0);
  if b0 / 16 =? 6 then
    d0 ← lift (octet (data ++ rest) 24);
    if d0 =? 0xff then s ← get; multicast_to data (pgw_sess_list s) else mret ()
  else mret ().

(** ** [_gtpv1_tun_recv_cb]: [data] is what was read, [rest] what the rest of
    the buffer holds *)
Definition pgw_tun_receive (data rest : list Z) : M pgw_t () :=
  found ← pgw_bearer_find_by_packet conf (data ++ rest);
  match found with
  | Some b => pgw_gtp_send_to_bearer b data
  | None => if multicast conf then pgw_gtp_handle_multicast data rest else mret ()
  end.

(** ** [_gtpv1_u_recv_cb] *)
Definition subnet_of (version : Z) (x : pgw_sess_t) : option pgw_ue_ip_t :=
  if version =? 4 then ps_ipv4 x else if version =? 6 then ps_ipv6 x else None.
(** A packet of bearer [b] without its GTP header. *)
Definition to_tun (b : Z) (data rest : list Z) : M pgw_t () :=
  y ← the_bearer b;
  x ← the_sess (pb_sess y);
  b0 ← lift (octet (data ++ rest) 0);
  match subnet_of (b0 / 16) x with
  | None => mret ()
  | Some ip =>
      n ← lift (the_subnet conf (ip_subnet ip));
      handled ← (if negb (no_slaac conf) && (b0 / 16 =? 6)
                 then massert (negb (length data =? 0)%nat);; pgw_gtp_handle_slaac (pb_sess y) (data ++ rest)
                 else mret false);
      if (handled : bool) then mret () else put_out (TunWrite (dev_fd (sn_dev n)) data)
  end.
Definition pgw_gtpu_receive (data rest : list Z) : M pgw_t () :=
  flags ← lift (octet (data ++ rest) 0);
  teid_ ← lift (be32 (data ++ rest) 4);
  let n := if Z.land flags OGS_GTPU_FLAGS_S =? 0 then OGS_GTPV1U_HEADER_LEN else (OGS_GTPV1U_HEADER_LEN + 4)%nat in
  massert (n <=? length data)%nat;;
  found ← pgw_bearer_find_by_pgw_s5u_teid teid_;
  match found with
  | None => mret ()
  | Some b => to_tun b (drop n data) rest
  end.

(** ** Events *)
Definition push_event (e : pgw_event) : M pgw_t () := modify (λ s, set_pgw_queue (pgw_queue s ++ [e]) s).
(** The session of a message: the one that its TEID names, or a new one. *)
Definition sess_of_message (m : s5c_message) : M pgw_t Z :=
  if sm_teid m =? 0 then
    sgw ← pgw_sgw_add_by_message conf m;
    sgw ← assert_some sgw;
    i ← pgw_sess_add_by_message conf m;
    i ← assert_some i;
    on_sess i (set_ps_gnode (Some sgw));;
    mret i
  else i ← pgw_sess_find_by_teid (sm_teid m); assert_some i.
Definition pgw_s5c_message (i : Z) (x : Z) (m : s5c_message) : M pgw_t () :=
  match sm_body m with
  | CreateSession e =>
      pgw_s5c_handle_create_session_request conf i e;;
      pgw_gx_send_ccr i x m CC_REQUEST_TYPE_INITIAL_REQUEST
  | DeleteSession _ =>
      pgw_s5c_handle_delete_session_request i;;
      pgw_gx_send_ccr i x m CC_REQUEST_TYPE_TERMINATION_REQUEST
  | CreateBearerAnswer r => pgw_s5c_handle_create_bearer_response conf x i r
  | UpdateBearerAnswer r => pgw_s5c_handle_update_bearer_response x i r
  | DeleteBearerAnswer r => pgw_s5c_handle_delete_bearer_response x i r
  | OtherS5c _ => mret ()
  end.
Definition OGS_DIAM_GX_CMD_CODE_CREDIT_CONTROL : Z := 272.
Definition OGS_DIAM_GX_CMD_RE_AUTH : Z := 258.
Definition credit_control (i : option Z) (gx : gx_message_t) (x : Z) (m : s5c_message) : M pgw_t () :=
  if negb (result_ok gx) then mret ()
  else if cc_request_type gx =? CC_REQUEST_TYPE_INITIAL_REQUEST then
    i ← assert_some i; pgw_gx_handle_cca_initial_request conf i gx x (sm_create m)
  else if cc_request_type gx =? CC_REQUEST_TYPE_TERMINATION_REQUEST then
    i ← assert_some i; pgw_gx_handle_cca_termination_request conf i x (sm_delete_pco m)
  else mret ().
Definition pgw_state_operational (e : pgw_event) : M pgw_t () :=
  match e with
  | PGW_EVT_S5C_MESSAGE m x =>
      m ← assert_some m;
      i ← sess_of_message m;
      y ← the_sess i;
      _ ← assert_some (ps_gnode y);
      match x with Some x => pgw_s5c_message i x m | None => mret () end
  | PGW_EVT_GX_MESSAGE index gx x m =>
      i ← pgw_sess_find index;
      if cmd_code gx =? OGS_DIAM_GX_CMD_CODE_CREDIT_CONTROL then
        x ← assert_some x; credit_control i gx x m
      else if cmd_code gx =? OGS_DIAM_GX_CMD_RE_AUTH then
        i ← assert_some i; pgw_gx_handle_re_auth_request conf i gx
      else mret ()
  end.

(** ** The event loop of [pgw-init.c]: nothing is done when nothing was read *)
Inductive pgw_step : pgw_t → pgw_t → Prop :=
| step_gtpc m x s s' : push_event (PGW_EVT_S5C_MESSAGE m x) s = Ok ((), s') → pgw_step s s'
| step_gx i gx x m s s' : push_event (PGW_EVT_GX_MESSAGE i gx x m) s = Ok ((), s') → pgw_step s s'
| step_gtpu data rest s s' : data ≠ [] → pgw_gtpu_receive data rest s = Ok ((), s') → pgw_step s s'
| step_tun data rest s s' : data ≠ [] → pgw_tun_receive data rest s = Ok ((), s') → pgw_step s s'
| step_pop e q s s' :
    pgw_queue s = e :: q → pgw_state_operational e (set_pgw_queue q s) = Ok ((), s') → pgw_step s s'.
(** [pgw_context_init]: empty pools and lists. *)
Definition pgw_init (s : pgw_t) : Prop :=
  pool_used (sess_pool s) = ∅ ∧ pool_used (bearer_pool s) = ∅ ∧ pool_used (pf_pool s) = ∅ ∧
  (∀ n, pool_used (ip_pools s n) = ∅) ∧ pgw_sess_list s = [] ∧ pgw_queue s = [] ∧
  sgw_s5c_list s = [] ∧ sgw_s5u_list s = [].
Inductive pgw_reachable : pgw_t → Prop :=
| pgw_reach_init s : pgw_init s → pgw_reachable s
| pgw_reach_step s s' : pgw_reachable s → pgw_step s s' → pgw_reachable s'.
End path.
