(* ===== verification/PgwInv.v ===== *)
(** * The PGW: the invariant of its contexts

    Sessions, bearers and packet filters form a forest, as in [SgwInv.v]:
    every object is in the list of the one that it points at.  [xs], [ys] and
    [zs] are the sessions, bearers and filters that the running operation has
    allocated and not yet linked, or unlinked and not yet freed. *)
From S2P Require Import Prelude.
From S2P Require Import CMem.
From S2P Require Import OgsLib.
From S2P Require Import ObjPool.
From S2P Require Import GtpConv.
From S2P Require Import GtpNode.
From S2P Require Import PgwPool.
From S2P Require Import NasIes.
From S2P Require Import PgwContext.
From stdpp Require Import functions.
#[local] Open Scope Z_scope.

Section inv.
Context `{Host, OgsPlmn, OgsPoolLaws, OgsListLaws, OgsSock, OgsPaaUnion, OgsImsiBcd, OgsNextId,
          OgsLengths, OgsFqdn} (conf : pgw_conf).
Implicit Types (s : pgw_t) (xs ys zs : gset Z).

Record contexts_ok xs ys zs s : Prop := {
  ok_list : NoDup (pgw_sess_list s) ∧ ∀ i, i ∈ pgw_sess_list s ↔ i ∈ pool_used (sess_pool s) ∖ xs;
  ok_bearers : owns (pool_used (sess_pool s)) (pool_used (bearer_pool s) ∖ ys)
    (λ i, bearer_list (sesss s i)) (λ b, pb_sess (bearers s b));
  ok_pfs : owns (pool_used (bearer_pool s)) (pool_used (pf_pool s) ∖ zs)
    (λ b, pf_list (bearers s b)) (λ f, pf_bearer (pfs s f));
  ok_s5c i : i ∈ pool_used (sess_pool s) ∖ xs → pgw_s5c_teid (sesss s i) = i ∧ 0 < i;
  ok_s5u b : b ∈ pool_used (bearer_pool s) ∖ ys → pgw_s5u_teid (bearers s b) = b ∧ 0 < b;
}.
Definition contexts_wf : pgw_t → Prop := contexts_ok ∅ ∅ ∅.

(** What the invariant does not read. *)
Record same_contexts s s' : Prop := {
  sc_pools : sess_pool s' = sess_pool s ∧ bearer_pool s' = bearer_pool s ∧ pf_pool s' = pf_pool s;
  sc_list : pgw_sess_list s' = pgw_sess_list s;
  sc_sess i : bearer_list (sesss s' i) = bearer_list (sesss s i) ∧
              pgw_s5c_teid (sesss s' i) = pgw_s5c_teid (sesss s i);
  sc_bearer b : pf_list (bearers s' b) = pf_list (bearers s b) ∧
                pb_sess (bearers s' b) = pb_sess (bearers s b) ∧
                pgw_s5u_teid (bearers s' b) = pgw_s5u_teid (bearers s b);
  sc_pf f : pf_bearer (pfs s' f) = pf_bearer (pfs s f);
}.
#[export] Instance same_contexts_preorder : PreOrder same_contexts.
Proof.
  split; [by intros s|].
  intros s1 s2 s3 [(?&?&?) ? Hi Hb Hf] [(?&?&?) ? Hi' Hb' Hf'].
  split; [repeat split; congruence|congruence|intros x..].
  - destruct (Hi x), (Hi' x). split; congruence.
  - destruct (Hb x) as (?&?&?), (Hb' x) as (?&?&?). repeat split; congruence.
  - by rewrite Hf', Hf.
Qed.
Lemma contexts_ok_frame xs ys zs s s' :
  same_contexts s s' → contexts_ok xs ys zs s → contexts_ok xs ys zs s'.
Proof.
  intros [(E1 & E2 & E3) E4 Hi Hb Hf] [Hl Hbs Hfs T1 T2].
  split; rewrite ?E1, ?E2, ?E3, ?E4; [done|..].
  - eapply owns_ext; [exact Hbs|done..| |]; intros x _; [apply Hi|apply Hb].
  - eapply owns_ext; [exact Hfs|done..| |]; intros x _; [apply Hb|apply Hf].
  - intros i Hin. destruct (Hi i) as [_ ->]. auto.
  - intros b Hin. destruct (Hb b) as (_ & _ & ->). auto.
Qed.

(** An operation on the filters of bearers leaves the rest alone. *)
Record pf_frame s s' : Prop := {
  pff_pools : sess_pool s' = sess_pool s ∧ bearer_pool s' = bearer_pool s;
  pff_sess : sesss s' = sesss s;
  pff_bearer b : pb_sess (bearers s' b) = pb_sess (bearers s b);
}.
#[export] Instance pf_frame_preorder : PreOrder pf_frame.
Proof.
  split; [by intros s|]. intros s1 s2 s3 [[? ?] ? Hb] [[? ?] ? Hb'].
  split; [split; congruence|congruence|]. intros b. by rewrite Hb', Hb.
Qed.

(** ** Packet filters *)
Lemma wlp_pf_add xs ys s b :
  contexts_ok xs ys ∅ s →
  wlp (pgw_pf_add b) s (λ f s', contexts_ok xs ys ∅ s' ∧ pf_bearer (pfs s' f) = b).
Proof.
  intros [Hl Hbs Hfs T1 T2]. apply wlp_bind, wlp_alloc. intros f p E.
  destruct (pool_alloc_fresh _ _ _ E) as [Hn Hp].
  apply wlp_bind, wlp_the. intros Hb. apply wlp_bind, wlp_change. intros _.
  apply wlp_bind, wlp_change. intros Hf. apply wlp_bind, wlp_change. intros _. apply wlp_ret.
  cbn in Hb. split; [|cbn; by rewrite fn_lookup_alter]. split; cbn; [done|..].
  - eapply owns_ext; [exact Hbs|done..|]. intros c _. by rewrite !(alter_field pb_sess).
  - rewrite Hp. eapply (owns_link _ (pool_used (pf_pool s) ∖ ∅) (λ c, pf_list (bearers s c)) _ f);
      [eapply owns_ext; [exact Hfs|done..|]| | | | |].
    + intros c Hc. by rewrite alter_other by set_solver.
    + set_solver.
    + by rewrite fn_lookup_alter.
    + set_solver.
    + rewrite !fn_lookup_alter. cbn. by rewrite ?fn_lookup_alter.
    + intros q. rewrite fn_lookup_alter. cbn. intros Hq. by rewrite !alter_other by done.
  - done.
  - intros c Hc. rewrite !(alter_field pgw_s5u_teid) by done. auto.
Qed.
Lemma wlp_pf_remove xs ys s f :
  contexts_ok xs ys ∅ s →
  wlp (pgw_pf_remove f) s (λ _ s', contexts_ok xs ys ∅ s' ∧ pf_frame s s' ∧
    pfs s' = pfs s ∧ pool_used (pf_pool s') = pool_used (pf_pool s) ∖ {[f]}).
Proof.
  intros [Hl Hbs Hfs T1 T2]. apply wlp_bind, wlp_the. intros Hf. apply wlp_bind, wlp_change. intros Hb.
  apply wlp_free. intros _. cbn. split; [|split; [|split; [done|apply pool_used_free]]].
  - split; cbn; [done|..].
    + eapply owns_ext; [exact Hbs|done..|]. intros c _. by apply (alter_field pb_sess).
    + rewrite pool_used_free.
      eapply (owns_unlink _ _ _ _ f); [exact Hfs|set_solver|set_solver|cbn; by rewrite fn_lookup_alter|].
      intros q Hq. cbn. by rewrite alter_other.
    + done.
    + intros c Hc. rewrite (alter_field pgw_s5u_teid) by done. auto.
  - split; [done|done|]. intros c. cbn. by apply (alter_field pb_sess).
Qed.
Lemma wlp_pf_remove_all xs ys s b :
  contexts_ok xs ys ∅ s →
  wlp (pgw_pf_remove_all b) s (λ _ s', contexts_ok xs ys ∅ s' ∧ pf_frame s s' ∧
    ∀ f, f ∈ pool_used (pf_pool s') → pf_bearer (pfs s' f) ≠ b).
Proof.
  intros Hok. apply wlp_bind, wlp_the. intros Hb.
  destruct (own_list _ _ _ _ (ok_pfs _ _ _ _ Hok) b Hb) as [_ Hm].
  eapply wlp_mono; [eapply (wlp_each _ (λ l s', contexts_ok xs ys ∅ s' ∧ pf_frame s s' ∧
    pfs s' = pfs s ∧ ∀ f, f ∈ pool_used (pf_pool s') → pf_bearer (pfs s f) = b → f ∈ l))|].
  - intros f l s1 (Hk1 & F1 & E1 & Hr). eapply wlp_mono; [by apply wlp_pf_remove|].
    intros [] s2 (Hk2 & F2 & E2 & U2). split; [done|]. split; [by etransitivity|].
    split; [congruence|]. intros c. rewrite U2. set_solver.
  - split; [done|]. split; [reflexivity|]. split; [done|]. intros f Hf Ef. apply Hm. set_solver.
  - intros [] s' (Hk1 & F1 & E1 & Hr). split; [done|]. split; [done|]. intros f Hf. rewrite E1.
    intros Ef. by apply (not_elem_of_nil f), Hr.
Qed.

(** ** Bearers *)
Lemma wlp_pgw_bearer_add xs s i :
  contexts_ok xs ∅ ∅ s →
  wlp (pgw_bearer_add conf i) s (λ b s', contexts_ok xs ∅ ∅ s' ∧ sess_pool s' = sess_pool s ∧
    pgw_s5c_teid (sesss s' i) = pgw_s5c_teid (sesss s i)).
Proof.
  intros [Hl Hbs Hfs T1 T2]. apply wlp_bind, wlp_alloc. intros b p E.
  destruct (pool_alloc_fresh _ _ _ E) as [Hn Hp]. apply wlp_bind, wlp_massert. intros Hpos.
  apply wlp_bind, wlp_change. intros Hb. apply wlp_bind, wlp_change. intros Hi. apply wlp_ret.
  cbn in Hi. split; [|cbn; split; [done|by apply (alter_field pgw_s5c_teid)]]. split; cbn; [done|..]; rewrite ?Hp.
  - eapply (owns_link _ (pool_used (bearer_pool s) ∖ ∅) (λ c, bearer_list (sesss s c)) _ b);
      [eapply owns_ext; [exact Hbs|done..|]| | | | |].
    + intros c Hc. by rewrite alter_other by set_solver.
    + set_solver.
    + by rewrite fn_lookup_alter.
    + set_solver.
    + rewrite !fn_lookup_alter. cbn. by rewrite ?fn_lookup_alter.
    + intros q. rewrite fn_lookup_alter. cbn. intros Hq. by rewrite alter_other by done.
  - eapply owns_new_parent; [exact Hfs|done|by rewrite fn_lookup_alter|].
    intros q Hq. by rewrite alter_other.
  - intros c Hc. rewrite (alter_field pgw_s5c_teid) by done. auto.
  - intros c Hc. destruct (decide (c = b)) as [->|]; [rewrite fn_lookup_alter; split; [done|lia]|].
    rewrite alter_other by done. apply T2. set_solver.
Qed.
(** A bearer that is removed leaves the sessions' other fields. *)
Lemma wlp_pgw_bearer_remove xs s b :
  contexts_ok xs ∅ ∅ s →
  wlp (pgw_bearer_remove b) s (λ _ s', contexts_ok xs ∅ ∅ s' ∧ sess_pool s' = sess_pool s ∧
    pool_used (bearer_pool s') = pool_used (bearer_pool s) ∖ {[b]} ∧
    ∀ c, pb_sess (bearers s' c) = pb_sess (bearers s c)).
Proof.
  intros [Hl Hbs Hfs T1 T2]. apply wlp_bind, wlp_the. intros Hb. apply wlp_bind, wlp_change. intros Hi.
  set (s1 := set_sesss _ _).
  assert (contexts_ok xs ({[b]} ∪ ∅) ∅ s1) as Hok1.
  { split; subst s1; cbn; [done|..].
    - eapply (owns_unlink _ _ _ _ b); [exact Hbs|set_solver|set_solver|cbn; by rewrite fn_lookup_alter|].
      intros q Hq. cbn. by rewrite alter_other.
    - done.
    - intros c Hc. rewrite (alter_field pgw_s5c_teid) by done. auto.
    - intros c Hc. apply T2. set_solver. }
  eapply wlp_call; [by apply wlp_pf_remove_all|]. intros [] s2 ([Hl2 Hbs2 Hfs2 T12 T22] & F2 & Hf2).
  destruct F2 as [[P1 P2] Es Eb]. apply wlp_free. intros _. cbn. split; [|split; [|split]].
  - split; cbn; rewrite ?pool_used_free; [done|..].
    + eapply owns_ext; [exact Hbs2|done|set_solver|done..].
    + apply owns_free_parent; [done|]. intros c Hc. apply Hf2. set_solver.
    + done.
    + intros c Hc. apply T22. set_solver.
  - done.
  - rewrite pool_used_free. by rewrite P2.
  - done.
Qed.
Lemma wlp_pgw_bearer_remove_all xs s i :
  contexts_ok xs ∅ ∅ s →
  wlp (pgw_bearer_remove_all i) s (λ _ s', contexts_ok xs ∅ ∅ s' ∧ sess_pool s' = sess_pool s ∧
    ∀ b, b ∈ pool_used (bearer_pool s') → pb_sess (bearers s' b) ≠ i).
Proof.
  intros Hok. apply wlp_bind, wlp_the. intros Hi.
  destruct (own_list _ _ _ _ (ok_bearers _ _ _ _ Hok) i Hi) as [_ Hm].
  eapply wlp_mono; [eapply (wlp_each _ (λ l s', contexts_ok xs ∅ ∅ s' ∧ sess_pool s' = sess_pool s ∧
    ∀ b, b ∈ pool_used (bearer_pool s') → pb_sess (bearers s' b) = i → b ∈ l))|].
  - intros b l s1 (Hk1 & F1 & Hr). eapply wlp_mono; [by apply wlp_pgw_bearer_remove|].
    intros [] s2 (Hk2 & F2 & U2 & E2). split; [done|]. split; [congruence|].
    intros c. rewrite U2, E2. set_solver.
  - split; [done|]. split; [done|]. intros b Hb Eb. apply Hm. set_solver.
  - intros [] s' (Hk1 & F1 & Hr). split; [done|]. split; [done|]. intros b Hb Eb.
    by apply (not_elem_of_nil b), Hr.
Qed.

(** ** Sessions *)
Lemma frame_on_sess i f :
  (∀ x, bearer_list (f x) = bearer_list x) → (∀ x, pgw_s5c_teid (f x) = pgw_s5c_teid x) →
  keeps same_contexts (on_sess i f).
Proof.
  intros H1' H2' s. apply wlp_change. intros _. split; try done. intros c. cbn.
  by rewrite (alter_field bearer_list), (alter_field pgw_s5c_teid).
Qed.
Lemma frame_on_bearer b f :
  (∀ x, pf_list (f x) = pf_list x) → (∀ x, pb_sess (f x) = pb_sess x) →
  (∀ x, pgw_s5u_teid (f x) = pgw_s5u_teid x) → keeps same_contexts (on_bearer b f).
Proof.
  intros H1' H2' H3' s. apply wlp_change. intros _. split; try done. intros c. cbn.
  by rewrite (alter_field pf_list), (alter_field pb_sess), (alter_field pgw_s5u_teid).
Qed.
Lemma frame_on_pf f g : (∀ x, pf_bearer (g x) = pf_bearer x) → keeps same_contexts (on_pf f g).
Proof.
  intros Hg s. apply wlp_change. intros _. split; try done. intros c. cbn. by apply (alter_field pf_bearer).
Qed.
#[local] Hint Extern 1 (keeps _ (on_sess _ _)) => apply frame_on_sess; intros; reflexivity : keeps.
Lemma same_alloc_addresses i apn ty : keeps same_contexts (alloc_addresses conf i apn ty).
Proof. keeps_deep ltac:(by split). Qed.
Lemma same_free_opt ip : keeps same_contexts (free_opt ip).
Proof. keeps_deep ltac:(by split). Qed.

Lemma wlp_pgw_sess_add s imsi apn ty ebi :
  contexts_wf s → wlp (pgw_sess_add conf imsi apn ty ebi) s (λ _ s', contexts_wf s').
Proof.
  intros [Hl Hbs Hfs T1 T2]. apply wlp_bind, wlp_alloc. intros i p E.
  destruct (pool_alloc_fresh _ _ _ E) as [Hn Hp]. apply wlp_bind, wlp_massert. intros Hpos.
  apply wlp_bind. unfold imsi_fits. destruct (Z.of_nat _ <=? _); [|by apply wlp_lift]. apply wlp_ret.
  apply wlp_bind, wlp_change. intros Hi. set (s1 := set_sesss _ _).
  assert (contexts_ok {[i]} ∅ ∅ s1) as Hok1.
  { split; subst s1; cbn; rewrite ?Hp; [..|done].
    - split; [apply Hl|]. intros c. rewrite (proj2 Hl). set_solver.
    - eapply owns_new_parent; [exact Hbs|done|by rewrite fn_lookup_alter|].
      intros q Hq. by rewrite alter_other.
    - exact Hfs.
    - intros c Hc. rewrite alter_other by set_solver. apply T1. set_solver. }
  assert (pgw_s5c_teid (sesss s1 i) = i) as Et by (subst s1; cbn; by rewrite fn_lookup_alter).
  assert (i ∈ pool_used (sess_pool s1)) as Hi1 by exact Hi. clearbody s1.
  eapply wlp_call; [by apply wlp_pgw_bearer_add|]. intros b s2 (Hok2 & P2 & E2).
  eapply wlp_call; [by apply frame_on_bearer|]. intros [] s3 F3.
  eapply wlp_call; [apply same_alloc_addresses|]. intros [] s4 F4.
  assert (same_contexts s2 s4) as F by (by transitivity s3).
  pose proof (contexts_ok_frame _ _ _ _ _ F Hok2) as [Hl4 Hbs4 Hfs4 T14 T24].
  destruct F as [(P4 & _) _ Hs4 _ _]. destruct (Hs4 i) as [_ Ei].
  apply wlp_bind, wlp_modify, wlp_ret. split; cbn; [|done|done| |done].
  - split; [rewrite ogs_list_add_perm; constructor; [rewrite (proj2 Hl4); set_solver|apply Hl4]|].
    intros c. rewrite ogs_list_add_perm, elem_of_cons, (proj2 Hl4).
    destruct (decide (c = i)) as [->|]; rewrite P4, P2; set_solver.
  - intros c Hc. destruct (decide (c = i)) as [->|]; [split; [congruence|lia]|]. apply T14. set_solver.
Qed.
Lemma wlp_pgw_sess_remove s i :
  contexts_wf s → wlp (pgw_sess_remove i) s (λ _ s', contexts_wf s').
Proof.
  intros [Hl Hbs Hfs T1 T2]. apply wlp_bind, wlp_the. intros Hi. apply wlp_bind, wlp_modify.
  set (s1 := set_sess_list _ _). assert (contexts_ok {[i]} ∅ ∅ s1) as Hok1.
  { split; subst s1; cbn; [|done|done| |done].
    - split; [rewrite ogs_list_remove_perm by apply Hl; by apply list.NoDup_filter, Hl|].
      intros c. rewrite ogs_list_remove_perm, list_elem_of_filter, (proj2 Hl) by apply Hl. set_solver.
    - intros c Hc. apply T1. set_solver. }
  eapply wlp_call; [apply same_free_opt|]. intros [] s2 F2.
  eapply wlp_call; [apply same_free_opt|]. intros [] s3 F3.
  apply (contexts_ok_frame _ _ _ _ _ F2), (contexts_ok_frame _ _ _ _ _ F3) in Hok1.
  eapply wlp_call; [by apply wlp_pgw_bearer_remove_all|].
  intros [] s4 ([Hl4 Hbs4 Hfs4 T14 T24] & P4 & Hb4). apply wlp_free. intros _.
  split; cbn; rewrite ?pool_used_free; [| |done| |done].
  - split; [apply Hl4|]. intros c. rewrite (proj2 Hl4). set_solver.
  - apply owns_free_parent; [done|]. intros b Hb. apply Hb4. set_solver.
  - intros c Hc. apply T14. set_solver.
Qed.
End inv.
