(* ===== verification/PgwSystem.v ===== *)
(** * The PGW: what every handler preserves

    The contexts stay a forest ([contexts_wf] of [PgwInv.v]), and every pointer
    at a peer is at a peer that has a socket and an address. *)
From S2P Require Import Prelude.
From S2P Require Import CMem.
From S2P Require Import OgsLib.
From S2P Require Import ObjPool.
From S2P Require Import GtpConv.
From S2P Require Import GtpTypes.
From S2P Require Import GtpNode.
From S2P Require Import PgwPool.
From S2P Require Import NasIes.
From S2P Require Import PgwContext.
From S2P Require Import PgwFilter.
From S2P Require Import PgwBuild.
From S2P Require Import PgwHandler.
From S2P Require Import PgwPath.
From S2P Require Import PgwInv.
From stdpp Require Import functions.
#[local] Open Scope Z_scope.

Section system.
Context `{Host, OgsBits, OgsConv, OgsPlmn, !Ogs3gpp, OgsPoolLaws, OgsListLaws, OgsSock, OgsPaaUnion,
          OgsImsiBcd, OgsNextId, OgsLengths, OgsFqdn, OgsPco, Ipfw} (conf : pgw_conf).
Implicit Types (s : pgw_t).

(** ** Loops *)
Section loops.
Context (R : pgw_t → pgw_t → Prop) `{!PreOrder R}.
Lemma keeps_the_pfs l : keeps R (the_pfs l).
Proof. induction l as [|i l IH]; cbn [the_pfs]; keeps_deep idtac. Qed.
Lemma keeps_pf_found h buf l : keeps R (pf_found h buf l).
Proof. induction l as [|i l IH]; cbn [pf_found]; keeps_deep idtac. Qed.
Lemma keeps_dedicated_found h buf l : keeps R (dedicated_found h buf l).
Proof.
  pose proof keeps_pf_found. induction l as [|i l IH]; cbn [dedicated_found]; keeps_deep idtac.
Qed.
Lemma keeps_sess_found h buf l : keeps R (sess_found conf h buf l).
Proof.
  pose proof keeps_dedicated_found. induction l as [|i l IH]; cbn [sess_found]; keeps_deep idtac.
Qed.
Lemma keeps_pco_answers l out :
  (∀ k s, R s (set_p_cscf k s)) → (∀ k s, R s (set_p_cscf6 k s)) → keeps R (pco_answers conf l out).
Proof.
  intros Hv4 Hv6. revert out. induction l as [|[id d] l IH]; intros out; cbn [pco_answers]; [keeps_tac|].
  keeps_deep ltac:(first [apply Hv4|apply Hv6]).
Qed.
Lemma keeps_add_flows b l : (∀ f, keeps R (add_flow b f)) → keeps R (add_flows b l).
Proof. intros Hf. induction l as [|f l IH]; cbn [add_flows]; keeps_deep idtac. Qed.
Lemma keeps_bearer_binding i l :
  (∀ r name, keeps R (install_rule conf i r name)) → (∀ name, keeps R (remove_rule i name)) →
  keeps R (bearer_binding conf i l).
Proof.
  intros Hi Hr. induction l as [|r l IH]; cbn [bearer_binding]; keeps_deep idtac.
Qed.
Lemma keeps_multicast_to p l :
  (∀ b, keeps R (pgw_gtp_send_to_bearer b p)) → keeps R (multicast_to p l).
Proof. intros Hb. induction l as [|i l IH]; cbn [multicast_to]; keeps_deep idtac. Qed.
End loops.
#[local] Hint Extern 1 (keeps _ (the_pfs _)) => apply keeps_the_pfs; exact _ : keeps.
#[local] Hint Extern 1 (keeps _ (sess_found _ _ _ _)) => apply keeps_sess_found; exact _ : keeps.

(** ** The contexts *)
Section contexts.
Notation P := (pres contexts_wf).
Lemma pres_contexts s s' : same_contexts s s' → P s s'.
Proof. intros F Hs. by apply (contexts_ok_frame _ _ _ _ _ F). Qed.
Lemma keeps_same {A} (m : M pgw_t A) : keeps same_contexts m → keeps P m.
Proof. intros Hm s a s' E. apply pres_contexts, (Hm s a s' E). Qed.
Lemma contexts_bearer_add i : keeps P (pgw_bearer_add conf i).
Proof. intros s a s' E Hok. by apply (wlp_pgw_bearer_add conf _ _ _ Hok _ _ E). Qed.
Lemma contexts_bearer_remove b : keeps P (pgw_bearer_remove b).
Proof. intros s a s' E Hok. by apply (wlp_pgw_bearer_remove _ _ _ Hok _ _ E). Qed.
Lemma contexts_sess_add imsi apn ty ebi : keeps P (pgw_sess_add conf imsi apn ty ebi).
Proof. intros s a s' E Hok. by apply (wlp_pgw_sess_add conf _ _ _ _ _ Hok _ _ E). Qed.
Lemma contexts_sess_remove i : keeps P (pgw_sess_remove i).
Proof. intros s a s' E Hok. by apply (wlp_pgw_sess_remove _ _ Hok _ _ E). Qed.
Lemma contexts_pf_add b : keeps P (pgw_pf_add b).
Proof. intros s a s' E Hok. by apply (wlp_pf_add _ _ _ _ Hok _ _ E). Qed.
Lemma contexts_pf_remove_all b : keeps P (pgw_pf_remove_all b).
Proof. intros s a s' E Hok. by apply (wlp_pf_remove_all _ _ _ _ Hok _ _ E). Qed.

#[local] Hint Extern 1 (keeps _ (on_sess _ _)) =>
  apply keeps_same, frame_on_sess; intros; reflexivity : keeps.
#[local] Hint Extern 1 (keeps _ (on_bearer _ _)) =>
  apply keeps_same, frame_on_bearer; intros; reflexivity : keeps.
#[local] Hint Extern 1 (keeps _ (on_pf _ _)) => apply keeps_same, frame_on_pf; intros; reflexivity : keeps.
#[local] Hint Resolve contexts_bearer_add contexts_bearer_remove contexts_sess_add contexts_sess_remove
  contexts_pf_add contexts_pf_remove_all : keeps.
Ltac contexts_tac := keeps_deep ltac:(apply pres_contexts; by split).

Lemma contexts_peer l set port sock sock6 f :
  (∀ x s, same_contexts s (set x s)) → keeps P (pgw_peer conf l set port sock sock6 f).
Proof. intros Hs. keeps_deep ltac:(first [apply pres_contexts, Hs|apply pres_contexts; by split]). Qed.
#[local] Hint Extern 1 (keeps _ (pgw_peer _ _ _ _ _ _ _)) => apply contexts_peer; by split : keeps.
Lemma contexts_pco l out : keeps P (pco_answers conf l out).
Proof. apply keeps_pco_answers; [exact _|..]; intros; apply pres_contexts; by split. Qed.
Lemma contexts_add_flow b f : keeps P (add_flow b f).
Proof. contexts_tac. Qed.
Lemma contexts_add_flows b l : keeps P (add_flows b l).
Proof. apply keeps_add_flows; [exact _|]. apply contexts_add_flow. Qed.
#[local] Hint Resolve contexts_pco contexts_add_flows : keeps.
Lemma contexts_bearer_binding i l : keeps P (bearer_binding conf i l).
Proof. apply keeps_bearer_binding; [exact _|..]; contexts_tac. Qed.
Lemma contexts_send b p : keeps P (pgw_gtp_send_to_bearer b p).
Proof. contexts_tac. Qed.
Lemma contexts_multicast p l : keeps P (multicast_to p l).
Proof. apply keeps_multicast_to; [exact _|]. intros b. apply contexts_send. Qed.
#[local] Hint Resolve contexts_bearer_binding contexts_multicast : keeps.
Lemma contexts_event e : keeps P (pgw_state_operational conf e).
Proof. destruct e; cbn [pgw_state_operational]; contexts_tac. Qed.
Lemma contexts_gtpu data rest : keeps P (pgw_gtpu_receive conf data rest).
Proof. contexts_tac. Qed.
Lemma contexts_tun data rest : keeps P (pgw_tun_receive conf data rest).
Proof. contexts_tac. Qed.
Lemma contexts_push e : keeps P (push_event e).
Proof. contexts_tac. Qed.
End contexts.

(** ** The peers *)
Section peers.
(** [G]: the peers that the running operation holds. *)
Record gnodes_ok (G : gset Z) s : Prop := {
  gn_held n : n ∈ G → node_ready (pgw_nodes s) n;
  gn_lists n : n ∈ sgw_s5c_list s ++ sgw_s5u_list s → node_ready (pgw_nodes s) n;
  gn_sess i n : i ∈ pool_used (sess_pool s) → ps_gnode (sesss s i) = Some n → node_ready (pgw_nodes s) n;
  gn_bearer b n : b ∈ pool_used (bearer_pool s) → pb_gnode (bearers s b) = Some n →
    node_ready (pgw_nodes s) n;
}.
Definition gnodes_wf : pgw_t → Prop := gnodes_ok ∅.
(** Objects may go away; the pointers of the others do not change. *)
Record same_gnodes s s' : Prop := {
  sg_nodes : pgw_nodes s' = pgw_nodes s ∧ sgw_s5c_list s' = sgw_s5c_list s ∧ sgw_s5u_list s' = sgw_s5u_list s;
  sg_pools : pool_used (sess_pool s') ⊆ pool_used (sess_pool s) ∧
    pool_used (bearer_pool s') ⊆ pool_used (bearer_pool s);
  sg_sess i : ps_gnode (sesss s' i) = ps_gnode (sesss s i);
  sg_bearer b : pb_gnode (bearers s' b) = pb_gnode (bearers s b);
}.
Lemma gnodes_ok_frame G s s' : same_gnodes s s' → pres (gnodes_ok G) s s'.
Proof.
  intros [(E1 & E2 & E3) (P1 & P2) Ei Eb] [Hg Hl Hi Hb]. split; rewrite ?E1, ?E2, ?E3; [done|done|..].
  - intros i n Hin. rewrite Ei. apply Hi. set_solver.
  - intros b n Hin. rewrite Eb. apply Hb. set_solver.
Qed.
Lemma gnodes_weaken G G' s : G' ⊆ G → gnodes_ok G s → gnodes_ok G' s.
Proof. intros HG [Hg Hl Hi Hb]. split; [|done..]. intros n Hn. apply Hg. set_solver. Qed.
Section changes.
Context (G : gset Z).
Notation P := (pres (gnodes_ok G)).
Lemma gnodes_on_sess i f : (∀ x, ps_gnode (f x) = ps_gnode x) → keeps P (on_sess i f).
Proof.
  intros Hf s. apply wlp_change. intros _. apply gnodes_ok_frame. split; try done. intros c. cbn.
  by rewrite (alter_field ps_gnode).
Qed.
Lemma gnodes_on_bearer b f : (∀ x, pb_gnode (f x) = pb_gnode x) → keeps P (on_bearer b f).
Proof.
  intros Hf s. apply wlp_change. intros _. apply gnodes_ok_frame. split; try done. intros c. cbn.
  by rewrite (alter_field pb_gnode).
Qed.
Lemma gnodes_on_pf f g : keeps P (on_pf f g).
Proof. intros s. apply wlp_change. intros _. by apply gnodes_ok_frame. Qed.
(** A pointer is set to nothing or to a peer that the operation holds. *)
Lemma gnodes_set_sess i n : n ∈ G → keeps P (on_sess i (set_ps_gnode (Some n))).
Proof.
  intros Hn s. apply wlp_change. intros _ [Hg Hl Hi Hb]. split; try done. intros c m Hin. cbn.
  destruct (decide (i = c)) as [->|]; [rewrite fn_lookup_alter; intros [= <-]; by apply Hg|].
  rewrite alter_other by done. by apply Hi.
Qed.
Lemma gnodes_set_bearer b n : n ∈ G → keeps P (on_bearer b (set_pb_gnode (Some n))).
Proof.
  intros Hn s. apply wlp_change. intros _ [Hg Hl Hi Hb]. split; try done. intros c m Hin. cbn.
  destruct (decide (b = c)) as [->|]; [rewrite fn_lookup_alter; intros [= <-]; by apply Hg|].
  rewrite alter_other by done. by apply Hb.
Qed.
Lemma gnodes_free pool (set : pool_t → pgw_t → pgw_t) i :
  (∀ s p, pool_used p ⊆ pool_used (pool s) → same_gnodes s (set p s)) → keeps P (free pool set i).
Proof.
  intros Hf s. apply wlp_free. intros _. apply gnodes_ok_frame, Hf. rewrite pool_used_free. set_solver.
Qed.
End changes.
#[local] Hint Extern 1 (keeps _ (on_sess _ _)) => apply gnodes_on_sess; intros; reflexivity : keeps.
#[local] Hint Extern 1 (keeps _ (on_bearer _ _)) => apply gnodes_on_bearer; intros; reflexivity : keeps.
#[local] Hint Extern 1 (keeps _ (on_pf _ _)) => apply gnodes_on_pf : keeps.
#[local] Hint Extern 1 (keeps _ (on_sess _ (set_ps_gnode (Some _)))) =>
  apply gnodes_set_sess; set_solver : keeps.
#[local] Hint Extern 1 (keeps _ (on_bearer _ (set_pb_gnode (Some _)))) =>
  apply gnodes_set_bearer; set_solver : keeps.
#[local] Hint Extern 1 (keeps _ (free _ _ _)) => apply gnodes_free; intros; by split : keeps.
Ltac gnodes_base := first [each_step | keeps_deep_step ltac:(apply gnodes_ok_frame; by split)].

Lemma gnodes_bearer_add G i : keeps (pres (gnodes_ok G)) (pgw_bearer_add conf i).
Proof.
  intros s a s' E Hok. revert a s' E. apply wlp_bind, wlp_alloc. intros b p E.
  apply wlp_bind, wlp_massert. intros _. apply wlp_bind, wlp_change. intros _.
  apply keeps_run; [repeat gnodes_base|]. destruct (pool_alloc_fresh _ _ _ E) as [Hn Hp].
  destruct Hok as [Hg Hl Hi Hb]. split; cbn; rewrite ?Hp; try done. intros c m Hin.
  destruct (decide (b = c)) as [->|]; [by rewrite fn_lookup_alter|].
  rewrite alter_other by done. apply Hb. set_solver.
Qed.
#[local] Hint Resolve gnodes_bearer_add : keeps.
Lemma gnodes_pf_add G b : keeps (pres (gnodes_ok G)) (pgw_pf_add b).
Proof. repeat (cbv zeta; gnodes_base). Qed.
#[local] Hint Resolve gnodes_pf_add : keeps.
Lemma gnodes_alloc_addresses G i apn ty : keeps (pres (gnodes_ok G)) (alloc_addresses conf i apn ty).
Proof. keeps_deep ltac:(apply gnodes_ok_frame; by split). Qed.
#[local] Hint Resolve gnodes_alloc_addresses : keeps.
Lemma gnodes_sess_add G imsi apn ty ebi : keeps (pres (gnodes_ok G)) (pgw_sess_add conf imsi apn ty ebi).
Proof.
  intros s a s' E Hok. revert a s' E. apply wlp_bind, wlp_alloc. intros i p E.
  apply wlp_bind, wlp_massert. intros _. apply wlp_bind. unfold imsi_fits.
  destruct (_ <=? _); [|by apply wlp_lift]. apply wlp_ret, wlp_bind, wlp_change. intros _.
  apply keeps_run; [repeat gnodes_base|]. destruct (pool_alloc_fresh _ _ _ E) as [Hn Hp].
  destruct Hok as [Hg Hl Hi Hb]. split; cbn; rewrite ?Hp; try done. intros c m Hin.
  destruct (decide (i = c)) as [->|]; [by rewrite fn_lookup_alter|].
  rewrite alter_other by done. apply Hi. set_solver.
Qed.
#[local] Hint Resolve gnodes_sess_add : keeps.

(** What [pgw_peer] gives is ready. *)
Lemma wlp_pgw_peer G l set port sock sock6 f s :
  (l = sgw_s5c_list ∧ set = set_s5c_list) ∨ (l = sgw_s5u_list ∧ set = set_s5u_list) →
  gnodes_ok G s → wlp (pgw_peer conf l set port sock sock6 f) s (λ n s', gnodes_ok ({[n]} ∪ G) s').
Proof.
  intros Hset Hok. apply wlp_bind, wlp_get. apply wlp_bind, wlp_zoom.
  eapply wlp_mono; [apply wlp_node_find|]. intros r n0 [-> Hr].
  assert (gnodes_ok G (set_pgw_nodes (pgw_nodes s) s)) as Hok1.
  { eapply gnodes_ok_frame; [|exact Hok]. by split. }
  destruct r as [n|].
  { apply wlp_ret. destruct Hok1 as [Hg Hl Hi Hb]. split; try done.
    intros m [->%elem_of_singleton|Hm]%elem_of_union; [|auto]. apply Hl, elem_of_app.
    specialize (Hr n eq_refl). destruct Hset as [[-> _]|[-> _]]; auto. }
  apply wlp_bind, wlp_zoom. eapply wlp_mono; [apply wlp_add_connect|].
  intros [n l'] n1 (-> & Hn & Ho). apply wlp_bind, wlp_modify, wlp_ret.
  destruct Hok as [Hg Hl Hi Hb].
  assert (∀ m, m ∈ sgw_s5c_list s → node_ready n1 m) by (intros; apply Ho, Hl, elem_of_app; auto).
  assert (∀ m, m ∈ sgw_s5u_list s → node_ready n1 m) by (intros; apply Ho, Hl, elem_of_app; auto).
  split.
  - assert (∀ m, m ∈ ({[n]} ∪ G) → node_ready n1 m) by set_solver.
    by destruct Hset as [[-> ->]|[-> ->]].
  - destruct Hset as [[-> ->]|[-> ->]]; intros m; cbn; rewrite elem_of_app, ogs_list_add_perm, elem_of_cons;
      naive_solver.
  - destruct Hset as [[-> ->]|[-> ->]]; intros i m Hin Em; cbn; apply Ho; by eapply Hi.
  - destruct Hset as [[-> ->]|[-> ->]]; intros b m Hin Em; cbn; apply Ho; by eapply Hb.
Qed.
Lemma keeps_pgw_peer {A} G l set port sock sock6 f (k : Z → M pgw_t A) :
  (l = sgw_s5c_list ∧ set = set_s5c_list) ∨ (l = sgw_s5u_list ∧ set = set_s5u_list) →
  (∀ n, keeps (pres (gnodes_ok ({[n]} ∪ G))) (k n)) →
  keeps (pres (gnodes_ok G)) (pgw_peer conf l set port sock sock6 f ≫= k).
Proof.
  intros Hset Hk s a s' E Hok. apply M_bind_ok in E as (n & s1 & E1 & E2).
  pose proof (Hk n _ _ _ E2 (wlp_pgw_peer _ _ _ _ _ _ _ _ Hset Hok _ _ E1)) as Hok'.
  eapply gnodes_weaken, Hok'. set_solver.
Qed.
Ltac gnodes_tac :=
  intros; repeat (cbv beta zeta;
    first [lazymatch goal with
           | |- keeps _ (s5u_peer _ _ ≫= _) => apply keeps_pgw_peer; [tauto|intros]
           | |- keeps _ (s5c_peer _ _ ≫= _) => apply keeps_pgw_peer; [tauto|intros]
           end
          | gnodes_base]).
Lemma gnodes_on_nodes G i : keeps (pres (gnodes_ok G)) (on_nodes (the_node i)).
Proof. intros s. apply wlp_zoom, wlp_the_node. intros _. apply gnodes_ok_frame. by split. Qed.
#[local] Hint Resolve gnodes_on_nodes : keeps.
Lemma gnodes_send G b p : keeps (pres (gnodes_ok G)) (pgw_gtp_send_to_bearer b p).
Proof. gnodes_tac. Qed.
Lemma gnodes_multicast G p l : keeps (pres (gnodes_ok G)) (multicast_to p l).
Proof. apply keeps_multicast_to; [exact _|]. intros b. apply gnodes_send. Qed.
Lemma gnodes_pco G l out : keeps (pres (gnodes_ok G)) (pco_answers conf l out).
Proof. apply keeps_pco_answers; [exact _|..]; intros; apply gnodes_ok_frame; by split. Qed.
Lemma gnodes_add_flow G b f : keeps (pres (gnodes_ok G)) (add_flow b f).
Proof. gnodes_tac. Qed.
Lemma gnodes_add_flows G b l : keeps (pres (gnodes_ok G)) (add_flows b l).
Proof. apply keeps_add_flows; [exact _|]. apply gnodes_add_flow. Qed.
#[local] Hint Resolve gnodes_send gnodes_multicast gnodes_pco gnodes_add_flows : keeps.
Lemma gnodes_bearer_binding G i l : keeps (pres (gnodes_ok G)) (bearer_binding conf i l).
Proof. apply keeps_bearer_binding; [exact _|..]; gnodes_tac. Qed.
Lemma gnodes_set_sgw_s5u G b f : keeps (pres (gnodes_ok G)) (set_sgw_s5u conf b f).
Proof. gnodes_tac. Qed.
#[local] Hint Resolve gnodes_bearer_binding gnodes_set_sgw_s5u : keeps.
Lemma gnodes_sess_of_message G m : keeps (pres (gnodes_ok G)) (sess_of_message conf m).
Proof.
  unfold sess_of_message. destruct (_ =? _); [|gnodes_tac]. unfold pgw_sgw_add_by_message.
  destruct (c_sender _) as [f|]; [|intros s a s' E; discriminate E].
  intros s a s' E Hok. rewrite M_bind_assoc in E. revert s a s' E Hok.
  apply keeps_pgw_peer; [tauto|]. intros n.
  change (keeps (pres (gnodes_ok ({[n]} ∪ G))) (i ← pgw_sess_add_by_message conf m; i ← assert_some i;
    on_sess i (set_ps_gnode (Some n));; mret i)). gnodes_tac.
Qed.
#[local] Hint Resolve gnodes_sess_of_message : keeps.
Lemma gnodes_event G e : keeps (pres (gnodes_ok G)) (pgw_state_operational conf e).
Proof. destruct e; cbn [pgw_state_operational]; gnodes_tac. Qed.
Lemma gnodes_gtpu G data rest : keeps (pres (gnodes_ok G)) (pgw_gtpu_receive conf data rest).
Proof. gnodes_tac. Qed.
Lemma gnodes_tun G data rest : keeps (pres (gnodes_ok G)) (pgw_tun_receive conf data rest).
Proof. gnodes_tac. Qed.
Lemma gnodes_push G e : keeps (pres (gnodes_ok G)) (push_event e).
Proof. gnodes_tac. Qed.
End peers.

(** ** Reachable states *)
Lemma pgw_init_ok s : pgw_init s → contexts_wf s ∧ gnodes_wf s.
Proof.
  intros (E1 & E2 & E3 & E4 & E5 & E6 & E7 & E8). split; split.
  all: try (intros ?; rewrite ?E1, ?E2, ?E3, ?E7, ?E8; set_solver).
  - rewrite E5, E1. split; [constructor|set_solver].
  - rewrite E1, E2. split; set_solver.
  - rewrite E2, E3. split; set_solver.
Qed.
Lemma pgw_step_ok s s' :
  pgw_step conf s s' → contexts_wf s ∧ gnodes_wf s → contexts_wf s' ∧ gnodes_wf s'.
Proof.
  intros Hs [Ht Hp].
  destruct Hs as [m x s s' E|i gx x m s s' E|data rest s s' _ E|data rest s s' _ E|e q s s' Eq E].
  1, 2: by split; [apply (contexts_push _ _ _ _ E)|apply (gnodes_push ∅ _ _ _ _ E)].
  - by split; [apply (contexts_gtpu _ _ _ _ _ E)|apply (gnodes_gtpu ∅ _ _ _ _ _ E)].
  - by split; [apply (contexts_tun _ _ _ _ _ E)|apply (gnodes_tun ∅ _ _ _ _ _ E)].
  - split; [apply (contexts_event _ _ _ _ E)|apply (gnodes_event ∅ _ _ _ _ E)].
    + eapply contexts_ok_frame, Ht. by split.
    + eapply gnodes_ok_frame, Hp. by split.
Qed.
Lemma pgw_reachable_wf s : pgw_reachable conf s → contexts_wf s ∧ gnodes_wf s.
Proof. induction 1 as [s Hs|s s' _ IH Hs]; [by apply pgw_init_ok|by eapply pgw_step_ok]. Qed.
End system.
