(* ===== verification/PgwUserPlane.v ===== *)
(** * The PGW: the path of packets

    Which bearer a packet from the network belongs to, stated without the
    loops of the program; the packets that leave in both directions; and the
    checksum of a router advertisement. *)
From S2P Require Import Prelude.
From S2P Require Import CMem.
From S2P Require Import OgsLib.
From S2P Require Import ObjPool.
From S2P Require Import GtpConv.
From S2P Require Import GtpTypes.
From S2P Require Import GtpNode.
From S2P Require Import PgwPool.
From S2P Require Import NasIes.
From S2P Require Import PgwContext.
From S2P Require Import PgwFilter.
From S2P Require Import PgwBuild.
From S2P Require Import PgwHandler.
From S2P Require Import PgwPath.
From S2P Require Import PgwInv.
From S2P Require Import PgwSystem.
From stdpp Require Import functions.
#[local] Open Scope Z_scope.

(** ** What a filter admits

    A downlink filter admits a packet with these addresses, if its protocol
    is open or that of the packet, and the ports of a TCP or UDP packet are in
    its ranges (a bound of 0 is none). *)
Definition in_prefix (n : nat) (a : list Z) (r : rule_address) : Prop :=
  ∀ k x m y, (k < n)%nat → a !! k = Some x → r_mask r !! k = Some m → r_addr r !! k = Some y →
    Z.land x m = y.
Definition in_ports (r : port_range) (p : Z) : Prop :=
  (port_low r = 0 ∨ port_low r <= p) ∧ (port_high r = 0 ∨ p <= port_high r).
Definition admits (f : pgw_pf_t) (h : ip_header) (sport dport : Z) : Prop :=
  let r := pf_rule f in
  pf_direction f = 1 ∧
  in_prefix (h_words h) (h_src h) (ip_local r) ∧ in_prefix (h_words h) (h_dst h) (ip_remote r) ∧
  (r_proto r = 0 ∨ r_proto r = h_proto h ∧
    (h_proto h = IPPROTO_TCP ∨ h_proto h = IPPROTO_UDP →
     in_ports (port_local r) sport ∧ in_ports (port_remote r) dport)).

Definition address_wf (r : rule_address) : Prop := length (r_addr r) = 4%nat ∧ length (r_mask r) = 4%nat.
Definition rule_wf (r : pgw_rule_t) : Prop := address_wf (ip_local r) ∧ address_wf (ip_remote r).

(** An answer that says whether something holds. *)
Definition decides (o : outcome bool) (P : Prop) : Prop := ∃ b, o = Ok b ∧ (b = true ↔ P).
Lemma decides_ok b (P : Prop) : (b = true ↔ P) → decides (Ok b) P.
Proof. intros HP. by exists b. Qed.

Lemma address_in_prefix n a r :
  (n <= 4)%nat → length a = 4%nat → address_wf r → address_in n a r = true ↔ in_prefix n a r.
Proof.
  intros Hn Ha [Hr Hm]. unfold address_in, memcmp_words. rewrite bool_decide_eq_true. split.
  - intros E k x m y Hk Hx Hmk Hy.
    assert (take n (zip_with Z.land a (r_mask r)) !! k = take n (r_addr r) !! k) as Ek by (by rewrite E).
    rewrite !lookup_take_lt, Hy, lookup_zip_with, Hx in Ek by done. cbn in Ek. rewrite Hmk in Ek.
    by injection Ek.
  - intros Hp. apply list_eq. intros k. destruct (decide (k < n)%nat) as [Hk|Hk].
    + rewrite !lookup_take_lt by done.
      destruct (lookup_lt_is_Some_2 a k) as [x Hx]; [lia|].
      destruct (lookup_lt_is_Some_2 (r_mask r) k) as [m Hmk]; [lia|].
      destruct (lookup_lt_is_Some_2 (r_addr r) k) as [y Hy]; [lia|].
      rewrite lookup_zip_with, Hx. cbn. rewrite Hmk, Hy. cbn. f_equal. by eapply Hp.
    + rewrite !lookup_take_ge by lia. done.
Qed.
Lemma port_ok_in r p : decides (port_ok r (Ok p)) (in_ports r p).
Proof.
  unfold port_ok, in_ports. cbn [mbind outcome_bind].
  destruct (Z.eqb_spec (port_low r) 0), (Z.eqb_spec (port_high r) 0),
    (Z.ltb_spec p (port_low r)), (Z.ltb_spec (port_high r) p); apply decides_ok; cbn;
    (split; [first [discriminate|intros _; lia]|first [done|intros; exfalso; lia]]).
Qed.
Section matching.
Context `{Host}.
Lemma pf_matches_admits f h buf sport dport :
  (h_words h <= 4)%nat → length (h_src h) = 4%nat → length (h_dst h) = 4%nat → rule_wf (pf_rule f) →
  be16 buf (h_len h) = Ok sport → be16 buf (h_len h + 2) = Ok dport →
  decides (pf_matches f h buf) (admits f h sport dport).
Proof.
  intros Hw Hs Hd [Hl Hr] Es Ed. unfold pf_matches, admits. cbv zeta.
  destruct (Z.eqb_spec (pf_direction f) 1) as [E|E]; cbn [negb]; [|apply decides_ok; naive_solver].
  pose proof (address_in_prefix _ _ _ Hw Hs Hl) as As. pose proof (address_in_prefix _ _ _ Hw Hd Hr) as Ad.
  destruct (address_in _ _ (ip_local _)); [|apply decides_ok; naive_solver].
  destruct (address_in _ _ (ip_remote _)); [|apply decides_ok; naive_solver].
  destruct (Z.eqb_spec (r_proto (pf_rule f)) 0); [apply decides_ok; naive_solver|].
  destruct (Z.eqb_spec (r_proto (pf_rule f)) (h_proto h)) as [Ep|]; [|apply decides_ok; naive_solver].
  rewrite Ep. unfold ports_match. rewrite Es, Ed.
  destruct (port_ok_in (port_local (pf_rule f)) sport) as (b1 & -> & H1).
  destruct (port_ok_in (port_remote (pf_rule f)) dport) as (b2 & -> & H2).
  destruct (Z.eqb_spec (h_proto h) IPPROTO_TCP), (Z.eqb_spec (h_proto h) IPPROTO_UDP); cbn [orb];
    destruct b1, b2; apply decides_ok; intuition congruence.
Qed.
End matching.

Section packets.
Context `{Host, OgsBits, OgsConv, OgsPlmn, !Ogs3gpp, OgsPoolLaws, OgsListLaws, OgsSock, OgsPaaUnion,
          OgsImsiBcd, OgsNextId, OgsLengths, OgsFqdn, OgsPco, Ipfw} (conf : pgw_conf).
Implicit Types (s : pgw_t) (h : ip_header).

Lemma words_length buf i n l : words buf i n = Ok l → length l = n.
Proof.
  revert i l. induction n as [|n IH]; intros i l; cbn [words]; [by intros [= <-]|].
  intros (a & _ & E)%bind_ok. apply bind_ok in E as (l' & E & [= <-]). cbn. by rewrite (IH _ _ E).
Qed.
Lemma parse_ip_shape buf h :
  parse_ip buf = Ok h → (h_words h <= 4)%nat ∧ length (h_src h) = 4%nat ∧ length (h_dst h) = 4%nat.
Proof.
  unfold parse_ip. intros (b0 & _ & E)%bind_ok. destruct (_ =? 4).
  - apply bind_ok in E as (p & _ & E). apply bind_ok in E as (src & Es & E).
    apply bind_ok in E as (dst & Ed & [= <-]). cbn. repeat split; [lia|by eapply words_length..].
  - destruct (_ =? 6); [|discriminate E]. apply bind_ok in E as ([proto hlen] & _ & E).
    apply bind_ok in E as (src & Es & E). apply bind_ok in E as (dst & Ed & [= <-]). cbn.
    repeat split; [lia|by eapply words_length..].
Qed.

(** ** The bearer of a packet

    A dedicated bearer carries a packet when it has an EPS bearer identity and
    one of its filters admits the packet; the first such bearer of the session
    gets it, or else the default bearer.  The program takes the identity for
    the sign that the SGW has answered for the bearer; [pgw_bearer_add] leaves
    that of the previous user of the object, so that a bearer on an object that
    was used before may have one without an answer. *)
Definition carries s h (sport dport : Z) (b : Z) : Prop :=
  pb_ebi (bearers s b) ≠ 0 ∧ ∃ f, f ∈ pf_list (bearers s b) ∧ admits (pfs s f) h sport dport.
Inductive selected s h (sport dport : Z) : list Z → Z → Prop :=
| selected_dedicated d pre b post :
    (∀ c, c ∈ pre → ¬ carries s h sport dport c) → carries s h sport dport b →
    selected s h sport dport (d :: pre ++ b :: post) b
| selected_default d l :
    (∀ c, c ∈ l → ¬ carries s h sport dport c) → selected s h sport dport (d :: l) d.
(** The session has the address that the packet is for. *)
Definition holds_address s h (i : Z) : Prop :=
  ∃ ip a, (ps_ipv4 (sesss s i) = Some ip ∨ ps_ipv6 (sesss s i) = Some ip) ∧
          ue_ip_addr conf ip = Ok a ∧ take (h_words h) (h_dst h) = take (h_words h) a.
Definition addresses_readable s : Prop :=
  ∀ i ip, i ∈ pgw_sess_list s → ps_ipv4 (sesss s i) = Some ip ∨ ps_ipv6 (sesss s i) = Some ip →
    ∃ a, ue_ip_addr conf ip = Ok a.
Definition rules_wf s : Prop := ∀ f, f ∈ pool_used (pf_pool s) → rule_wf (pf_rule (pfs s f)).

(** The operations of this part read the state. *)
Definition returns {A} (m : M pgw_t A) s (a : A) : Prop := m s = Ok (a, s).
Lemma returns_bind {A B} (m : M pgw_t A) (k : A → M pgw_t B) s a b :
  returns m s a → returns (k a) s b → returns (m ≫= k) s b.
Proof. intros E1 E2. unfold returns. by rewrite (M_bind_run _ _ _ _ _ E1). Qed.
Lemma returns_the {A} pool (mem : pgw_t → Z → A) i s :
  i ∈ pool_used (pool s) → returns (the pool mem i) s (mem s i).
Proof. intros Hi. apply (returns_bind get _ s s); [done|]. by rewrite decide_True. Qed.
Lemma returns_lift {A} (o : outcome A) a s : o = Ok a → returns (lift o) s a.
Proof. by intros ->. Qed.

Section found.
Context (s : pgw_t) (h : ip_header) (buf : list Z) (sport dport : Z).
Hypothesis (Hc : contexts_wf s) (Hw : rules_wf s).
Hypothesis (Hh : (h_words h <= 4)%nat ∧ length (h_src h) = 4%nat ∧ length (h_dst h) = 4%nat).
Hypothesis (Hsp : be16 buf (h_len h) = Ok sport) (Hdp : be16 buf (h_len h + 2) = Ok dport).

Lemma returns_pf_found b l :
  (∀ f, f ∈ l → f ∈ pool_used (pf_pool s) ∧ pf_bearer (pfs s f) = b) →
  ∃ r, returns (pf_found h buf l) s r ∧
    (r = Some b ∧ (∃ f, f ∈ l ∧ admits (pfs s f) h sport dport) ∨
     r = None ∧ ∀ f, f ∈ l → ¬ admits (pfs s f) h sport dport).
Proof.
  induction l as [|f l IH]; intros Hl.
  { exists None. split; [done|]. right. split; [done|]. by intros ? ?%elem_of_nil. }
  destruct (Hl f) as [Hf Eb]; [constructor|]. destruct Hh as (Hh1 & Hh2 & Hh3).
  destruct (pf_matches_admits (pfs s f) h buf sport dport) as (ok & Em & Hok); [done..|by apply Hw|done|done|].
  destruct IH as (r & Er & Hr); [intros g Hg; apply Hl; by constructor|]. destruct ok.
  - exists (Some b). split.
    + cbn [pf_found]. eapply returns_bind; [by apply returns_the|].
      eapply returns_bind; [by apply returns_lift|]. unfold returns. by rewrite Eb.
    + left. split; [done|]. exists f. split; [constructor|by apply Hok].
  - exists r. split.
    + cbn [pf_found]. eapply returns_bind; [by apply returns_the|].
      eapply returns_bind; [by apply returns_lift|]. exact Er.
    + destruct Hr as [[-> (g & Hg & Ha)]|[-> Hn]].
      * left. split; [done|]. exists g. split; [by constructor|done].
      * right. split; [done|]. intros g [->|Hg]%elem_of_cons; [|by apply Hn].
        intros Ha%Hok. discriminate Ha.
Qed.
Lemma returns_dedicated_found l :
  (∀ b, b ∈ l → b ∈ pool_used (bearer_pool s)) →
  ∃ r, returns (dedicated_found h buf l) s r ∧
    (r = None ∧ (∀ c, c ∈ l → ¬ carries s h sport dport c) ∨
     ∃ pre b post, r = Some b ∧ l = pre ++ b :: post ∧ carries s h sport dport b ∧
                   ∀ c, c ∈ pre → ¬ carries s h sport dport c).
Proof.
  induction l as [|b l IH]; intros Hl.
  { exists None. split; [done|]. left. split; [done|]. by intros ? ?%elem_of_nil. }
  assert (Hb : b ∈ pool_used (bearer_pool s)) by (apply Hl; constructor).
  destruct IH as (r & Er & Hr); [intros c Hcl; apply Hl; by constructor|].
  destruct (own_list _ _ _ _ (ok_pfs _ _ _ _ Hc) b Hb) as [_ Hm].
  destruct (returns_pf_found b (pf_list (bearers s b))) as (q & Eq & Hq).
  { intros f Hf%Hm. set_solver. }
  (* [Hskip]: the bearer does not carry the packet *)
  assert (Hskip : ¬ carries s h sport dport b → returns (dedicated_found h buf (b :: l)) s r →
    ∃ r, returns (dedicated_found h buf (b :: l)) s r ∧
    (r = None ∧ (∀ c, c ∈ b :: l → ¬ carries s h sport dport c) ∨
     ∃ pre b0 post, r = Some b0 ∧ b :: l = pre ++ b0 :: post ∧ carries s h sport dport b0 ∧
                   ∀ c, c ∈ pre → ¬ carries s h sport dport c)).
  { intros Hn Ed. exists r. split; [done|]. destruct Hr as [[-> Hr]|(pre & c & post & -> & -> & Hc1 & Hc2)].
    - left. split; [done|]. intros c [->|Hin]%elem_of_cons; [done|by apply Hr].
    - right. exists (b :: pre), c, post. split; [done|]. split; [done|]. split; [done|].
      intros c' [->|Hin]%elem_of_cons; [done|by apply Hc2]. }
  destruct (Z.eqb_spec (pb_ebi (bearers s b)) 0) as [E0|E0].
  - apply Hskip; [by intros [? _]|]. cbn [dedicated_found]. eapply returns_bind; [by apply returns_the|].
    by rewrite E0.
  - destruct Hq as [[-> Hq]|[-> Hq]].
    + exists (Some b). split.
      * cbn [dedicated_found]. eapply returns_bind; [by apply returns_the|].
        rewrite (proj2 (Z.eqb_neq _ _) E0). by eapply returns_bind.
      * right. exists [], b, l. split; [done|]. split; [done|]. split; [by split|]. by intros ? ?%elem_of_nil.
    + apply Hskip; [intros (_ & f & Hf & Ha); by apply (Hq f)|].
      cbn [dedicated_found]. eapply returns_bind; [by apply returns_the|].
      rewrite (proj2 (Z.eqb_neq _ _) E0). by eapply returns_bind.
Qed.
Lemma has_address_holds ip :
  (∀ p, ip = Some p → ∃ a, ue_ip_addr conf p = Ok a) →
  decides (has_address conf h ip)
    (∃ p a, ip = Some p ∧ ue_ip_addr conf p = Ok a ∧ take (h_words h) (h_dst h) = take (h_words h) a).
Proof.
  intros Ha. destruct ip as [p|]; [|apply decides_ok; split; [done|by intros (? & ? & [=] & _)]].
  destruct (Ha p eq_refl) as [a Ea]. cbn [has_address]. rewrite Ea. apply decides_ok.
  unfold memcmp_words. rewrite bool_decide_eq_true. split; [by exists p, a|].
  intros (? & ? & [= <-] & E & ?). congruence.
Qed.
Lemma sess_addressed_holds i :
  i ∈ pgw_sess_list s → addresses_readable s →
  decides (sess_addressed conf h (sesss s i)) (holds_address s h i).
Proof.
  intros Hi Ha. unfold sess_addressed, holds_address.
  destruct (has_address_holds (ps_ipv4 (sesss s i))) as (b4 & -> & H4'); [intros p Ep; eapply Ha; eauto|].
  destruct (has_address_holds (ps_ipv6 (sesss s i))) as (b6 & E6 & H6'); [intros p Ep; eapply Ha; eauto|].
  destruct b4; cbn [mbind outcome_bind].
  - apply decides_ok. split; [intros _|done]. destruct H4' as [H4' _]. destruct (H4' eq_refl) as (p & a & ?).
    exists p, a. tauto.
  - rewrite E6. exists b6. split; [done|]. rewrite H6'. split.
    + intros (p & a & ?). exists p, a. tauto.
    + intros (p & a & [E|E] & ?); [|eauto]. destruct H4' as [_ H4'].
      assert (false = true) by (apply H4'; eauto). discriminate.
Qed.
(** The session that has the address, and the bearer in it. *)
Lemma returns_sess_found pre i post :
  addresses_readable s → pgw_sess_list s = pre ++ i :: post →
  (∀ j, j ∈ pre → ¬ holds_address s h j) → holds_address s h i → bearer_list (sesss s i) ≠ [] →
  ∃ b, selected s h sport dport (bearer_list (sesss s i)) b ∧
       returns (sess_found conf h buf (pre ++ i :: post)) s (Some b).
Proof.
  intros Ha El Hpre Hi Hne.
  assert (Hin : ∀ j, j ∈ pre ++ i :: post → j ∈ pgw_sess_list s ∧ j ∈ pool_used (sess_pool s)).
  { intros j Hj. rewrite El. split; [done|]. rewrite <- El in Hj. apply (ok_list _ _ _ _ Hc) in Hj. set_solver. }
  clear El. induction pre as [|j pre IH]; cbn [app sess_found] in *.
  - destruct (Hin i) as [Hi1 Hi2]; [constructor|].
    destruct (sess_addressed_holds i Hi1 Ha) as (b & E & Hb). apply Hb in Hi. subst b.
    destruct (bearer_list (sesss s i)) as [|d l] eqn:Eb; [done|].
    destruct (own_list _ _ _ _ (ok_bearers _ _ _ _ Hc) i Hi2) as [_ Hm].
    destruct (returns_dedicated_found l) as (r & Er & Hr).
    { intros c Hc'. assert (c ∈ bearer_list (sesss s i)) as Hc2%Hm by (rewrite Eb; by constructor). set_solver. }
    assert (Hret : returns (x ← the_sess i; ok ← lift (sess_addressed conf h x);
      if (ok : bool) then match bearer_list x with
        | [] => mabort
        | d :: ds => r ← dedicated_found h buf ds; mret (Some (match r with Some b => b | None => d end))
        end else sess_found conf h buf post) s (Some (match r with Some b => b | None => d end))).
    { eapply returns_bind; [by apply returns_the|]. eapply returns_bind; [by apply returns_lift|].
      cbv beta iota. rewrite Eb. by eapply returns_bind. }
    destruct Hr as [[-> Hr]|(pre' & b & post' & -> & -> & Hb1 & Hb2)].
    + exists d. split; [by constructor|done].
    + exists b. split; [by constructor|done].
  - destruct (Hin j) as [Hj1 Hj2]; [constructor|].
    destruct (sess_addressed_holds j Hj1 Ha) as (b & E & Hb).
    assert (b = false) as -> by (destruct b; [exfalso; apply (Hpre j); [constructor|by apply Hb]|done]).
    destruct IH as (b & Hb1 & Hb2); [intros k Hk; apply Hpre; by constructor|intros k Hk; apply Hin; by constructor|].
    exists b. split; [done|]. eapply returns_bind; [by apply returns_the|].
    eapply returns_bind; [by apply returns_lift|]. exact Hb2.
Qed.
End found.

(** ** Downlink *)
Lemma send_to_bearer_run s b p :
  gnodes_wf s → b ∈ pool_used (bearer_pool s) →
  pgw_gtp_send_to_bearer b p s =
    match pb_gnode (bearers s b) with
    | Some n => Ok ((), set_pgw_trace (pgw_trace s ++ [Gtpu n (gpdu_packet (sgw_s5u_teid (bearers s b)) p)]) s)
    | None => Aborted
    end.
Proof.
  intros Hg Hb. unfold pgw_gtp_send_to_bearer. m_run (returns_the bearer_pool bearers b s Hb).
  destruct (pb_gnode (bearers s b)) as [n|] eqn:En; [|done].
  destruct (gn_bearer _ _ Hg b n Hb En) as (Hn & [sock Hs] & _).
  assert (returns (on_nodes (the_node n)) s (nodes (pgw_nodes s) n)) as E.
  { apply (returns_bind get _ s s); [done|].
    assert (the_node n (pgw_nodes s) = Ok (nodes (pgw_nodes s) n, pgw_nodes s)) as E.
    { unfold the_node. change ((get ≫= ?f) ?x) with (f x x). cbv beta. by rewrite decide_True. }
    eapply returns_bind; [by apply returns_lift|]. unfold returns. by destruct s. }
  cbn [assert_some]. m_ret. m_run E. rewrite Hs. done.
Qed.

(** ** Uplink *)
Definition gtpu_header (flags : Z) : nat :=
  if Z.land flags OGS_GTPU_FLAGS_S =? 0 then OGS_GTPV1U_HEADER_LEN else (OGS_GTPV1U_HEADER_LEN + 4)%nat.
End packets.

(** ** The checksum of a router advertisement *)
Section checksum.
Context `{Host}.
Fixpoint word_sum (l : list Z) : Z :=
  match l with
  | a :: b :: l => host_value [a; b] + word_sum l
  | [a] => host_value [a; 0]
  | [] => 0
  end.
Lemma sum_words_mod l : ∀ acc, 0 <= acc < 2 ^ 32 → sum_words l acc = (acc + word_sum l) mod 2 ^ 32.
Proof.
  induction l as [l IH] using (induction_ltof1 _ length). unfold ltof in IH. intros acc Ha.
  destruct l as [|a [|b l]]; cbn [sum_words word_sum]; [by rewrite Z.add_0_r, Z.mod_small|done|].
  rewrite IH; [|cbn; lia|apply Z.mod_pos_bound; lia]. rewrite Zplus_mod_idemp_l. f_equal. lia.
Qed.
Lemma word_sum_app l : ∀ l', Nat.Even (length l) → word_sum (l ++ l') = word_sum l + word_sum l'.
Proof.
  induction l as [l IH] using (induction_ltof1 _ length). unfold ltof in IH. intros l' [k Hk].
  destruct l as [|a [|b l]]; cbn [app word_sum length] in *; [done|lia|].
  rewrite IH; [lia|lia|exists (k - 1)%nat; lia].
Qed.
Lemma word_sum_bound l : bytes_ok l → 0 <= word_sum l <= 65535 * Z.of_nat (length l).
Proof.
  induction l as [l IH] using (induction_ltof1 _ length). unfold ltof in IH. intros Hl.
  destruct l as [|a [|b l]]; cbn [word_sum length]; [lia|..].
  - assert (bytes_ok [a; 0]) as Hb.
    { inversion Hl; subst. constructor; [done|]. constructor; [unfold byte_ok; lia|constructor]. }
    pose proof (host_value_bound _ Hb) as Hv. cbn in Hv. lia.
  - inversion Hl as [|?? Ha Hl']; subst. inversion Hl' as [|?? Hb Hl'']; subst.
    assert (bytes_ok [a; b]) as Hab by (constructor; [done|]; by constructor).
    pose proof (host_value_bound _ Hab) as Hv. cbn in Hv.
    specialize (IH l). cbn in IH. assert (0 <= word_sum l <= 65535 * Z.of_nat (length l)) by (apply IH; [lia|done]).
    lia.
Qed.
(** The checksum of data that contains its checksum is 0. *)
Lemma in_cksum_verifies x y :
  bytes_ok (x ++ y) → Nat.Even (length x) → (length (x ++ y) <= 128)%nat →
  in_cksum (x ++ host_bytes 2 (in_cksum (x ++ [0; 0] ++ y)) ++ y) = 0.
Proof.
  intros Hb Hx Hl. unfold in_cksum at 2. cbv zeta. set (c := (_ - _) mod _).
  assert (Hc : 0 <= c < 65536) by (apply Z.mod_pos_bound; lia).
  unfold in_cksum. rewrite !sum_words_mod by lia. rewrite !Z.add_0_l. rewrite word_sum_app by done.
  rewrite word_sum_app by (rewrite length_host_bytes; by exists 1%nat).
  assert (word_sum (host_bytes 2 c) = c) as ->.
  { transitivity (host_value (host_bytes 2 c) + 0).
    - pose proof (length_host_bytes 2 c). by destruct (host_bytes 2 c) as [|? [|? [|]]].
    - rewrite host_value_bytes. rewrite Z.mod_small by (cbn; lia). lia. }
  subst c. rewrite sum_words_mod by lia. rewrite Z.add_0_l, word_sum_app by done.
  cbn [app word_sum]. assert (host_value [0; 0] = 0) as -> by (unfold host_value; by destruct big_endian).
  rewrite length_app in Hl. apply Forall_app in Hb as [Hbx Hby].
  pose proof (word_sum_bound x Hbx). pose proof (word_sum_bound y Hby).
  set (sx := word_sum x) in *. set (sy := word_sum y) in *. clearbody sx sy.
  assert (sx + sy < 2 ^ 24) by lia. change (2 ^ 32) with 4294967296 in *. change (2 ^ 16) with 65536 in *.
  change (2 ^ 24) with 16777216 in *. clear -H0 H1 H2.
  rewrite (Z.mod_small (sx + (0 + sy)) 4294967296) by lia. lia.
Qed.
(** ** What a receiver makes of an advertisement

    RFC 1071: the one's complement sum of the words in network order; RFC
    8200: the pseudo-header for the upper layer, made of the fields of the
    header that arrived; RFC 4861: what a host checks and reads. *)
Fixpoint network_words (l : list Z) : list Z :=
  match l with
  | a :: b :: l => 256 * a + b :: network_words l
  | [a] => [256 * a]
  | [] => []
  end.
Definition ones_add (a b : Z) : Z := if a + b <? 65536 then a + b else a + b - 65535.
Definition ones_sum (l : list Z) : Z := foldr ones_add 0 (network_words l).
(** The source, the destination and the message of an ICMPv6 packet. *)
Definition receive_icmpv6 (p : list Z) : option (list Z * list Z * list Z) :=
  let message := drop 40 p in
  version ← head p; plen ← slice 4 2 p; nxt ← p !! 6%nat;
  src ← slice 8 16 p; dst ← slice 24 16 p;
  if (version / 16 =? 6) && (be_value plen =? Z.of_nat (length message)) && (nxt =? 58)
     && (ones_sum (src ++ dst ++ be_bytes 4 (Z.of_nat (length message)) ++ [0; 0; 0; 58] ++ message) =? 65535)
  then Some (src, dst, message) else None.
Record prefix_information := {
  router_lifetime : Z; on_link : bool; autonomous : bool; prefix_length : Z;
  valid_lifetime : Z; preferred_lifetime : Z; prefix : list Z;
}.
(** An advertisement with one option, which is for a prefix. *)
Definition router_advertisement (message : list Z) : option prefix_information :=
  header ← slice 0 16 message; option ← slice 16 32 message;
  lifetime ← slice 6 2 header; plen ← option !! 2%nat; flags ← option !! 3%nat;
  valid ← slice 4 4 option; preferred ← slice 8 4 option; pre ← slice 16 16 option;
  if bool_decide (take 2 header = [134; 0]) && bool_decide (take 2 option = [3; 4])
     && (length message =? 48)%nat
  then Some {| router_lifetime := be_value lifetime; on_link := Z.testbit flags 7;
               autonomous := Z.testbit flags 6; prefix_length := plen;
               valid_lifetime := be_value valid; preferred_lifetime := be_value preferred; prefix := pre |}
  else None.

Definition words_total (l : list Z) : Z := foldr Z.add 0 (network_words l).
Lemma words_total_app l : ∀ l', Nat.Even (length l) → words_total (l ++ l') = words_total l + words_total l'.
Proof.
  unfold words_total. induction l as [l IH] using (induction_ltof1 _ length). unfold ltof in IH. intros l' [k Hk].
  destruct l as [|a [|b l]]; cbn [app network_words foldr length] in *; [lia|lia|].
  rewrite IH; [lia|lia|exists (k - 1)%nat; lia].
Qed.
Lemma network_words_ok l : bytes_ok l → Forall (λ w, 0 <= w < 65536) (network_words l).
Proof.
  induction l as [l IH] using (induction_ltof1 _ length). unfold ltof in IH. intros Hl.
  destruct l as [|a [|b l]]; cbn [network_words]; [constructor|..].
  - inversion Hl as [|?? Ha _]; subst. unfold byte_ok in Ha. constructor; [lia|constructor].
  - inversion Hl as [|?? Ha Hl']; subst. inversion Hl' as [|?? Hb Hl'']; subst. unfold byte_ok in Ha, Hb.
    constructor; [lia|]. apply IH; [cbn; lia|done].
Qed.
Lemma ones_sum_total l :
  bytes_ok l → 0 <= ones_sum l <= 65535 ∧ (∃ q, words_total l = ones_sum l + 65535 * q) ∧
    0 <= words_total l ∧ (0 < words_total l → 0 < ones_sum l).
Proof.
  intros Hl%network_words_ok. unfold ones_sum, words_total.
  induction Hl as [|w ws Hw _ (IH1 & [q IHq] & IH2 & IH3)]; cbn [foldr].
  - split; [lia|]. split; [by exists 0|]. lia.
  - set (r := foldr ones_add 0 ws) in *. set (t := foldr Z.add 0 ws) in *. clearbody r t.
    unfold ones_add. destruct (Z.ltb_spec (w + r) 65536).
    + split; [lia|]. split; [exists q; lia|]. lia.
    + split; [lia|]. split; [exists (q + 1); lia|]. lia.
Qed.
(** The order of the octets in a word does not matter (RFC 1071, 2 (B)). *)
Lemma word_sum_order l : ∃ k q, (k = 1 ∨ k = 256) ∧ k * word_sum l = words_total l + 65535 * q.
Proof.
  exists (if big_endian then 1 else 256).
  induction l as [l IH] using (induction_ltof1 _ length). unfold ltof in IH.
  destruct l as [|a [|b l]]; cbn [word_sum].
  - exists 0. unfold words_total. cbn. destruct big_endian; lia.
  - unfold words_total, host_value, be_value. cbn. destruct big_endian; [exists 0|exists 0]; lia.
  - destruct (IH l) as (q & Hk & Hq); [cbn; lia|]. unfold words_total in *. cbn [network_words foldr].
    unfold host_value, be_value. cbn [reverse rev_append le_value]. destruct big_endian.
    + exists q. cbn. lia.
    + exists (q + b). cbn. lia.
Qed.
Lemma host_pair a b : host_value [a; b] = if big_endian then 256 * a + b else a + 256 * b.
Proof. unfold host_value, be_value. destruct big_endian; cbn; lia. Qed.
Lemma word_sum_pos l : bytes_ok l → 0 < words_total l → 0 < word_sum l.
Proof.
  induction l as [l IH] using (induction_ltof1 _ length). unfold ltof in IH. intros Hl.
  destruct l as [|a [|b l]]; [done|..]; unfold words_total in *; cbn [network_words foldr word_sum];
    rewrite host_pair.
  - inversion Hl as [|?? Ha _]; subst. unfold byte_ok in Ha. destruct big_endian; lia.
  - inversion Hl as [|?? Ha Hl']; subst. inversion Hl' as [|?? Hb Hl'']; subst. unfold byte_ok in Ha, Hb.
    pose proof (word_sum_bound l Hl''). pose proof (IH l ltac:(cbn; lia) Hl'').
    pose proof (ones_sum_total l Hl'') as (_ & _ & Ht & _). unfold words_total in Ht.
    set (t := foldr Z.add 0 (network_words l)) in *. clearbody t. destruct big_endian; lia.
Qed.
(** What sums to 0 for the program does so for a receiver. *)
Lemma in_cksum_ones l :
  bytes_ok l → (length l <= 200)%nat → 0 < words_total l → in_cksum l = 0 → ones_sum l = 65535.
Proof.
  intros Hb Hl Hpos E. pose proof (word_sum_pos l Hb Hpos) as Hw. pose proof (word_sum_bound l Hb) as Hbd.
  unfold in_cksum in E. rewrite sum_words_mod in E by lia. rewrite Z.add_0_l in E.
  change (2 ^ 32) with 4294967296 in E. change (2 ^ 16) with 65536 in E.
  rewrite (Z.mod_small (word_sum l)) in E by lia.
  assert (∃ q, word_sum l = 65535 * q) as [q Eq].
  { set (w := word_sum l) in *. clearbody w.
    exists (w / 65536 + (w mod 65536 + w / 65536) / 65535). lia. }
  destruct (ones_sum_total l Hb) as (Hr & [q1 E1] & _ & Hp). specialize (Hp Hpos).
  destruct (word_sum_order l) as (k & q2 & Hk & E2). destruct Hk as [-> | ->]; lia.
Qed.
End checksum.

(** ** The loops over the headers end

    Each round reads an octet further on, so that the fuel of
    [decode_ipv6_header] is enough: more of it changes nothing. *)
Lemma octet_in buf i x : 0 <= i → octet buf i = Ok x → i < Z.of_nat (length buf) ∧ x ∈ buf.
Proof.
  intros Hi. unfold octet, access. destruct (buf !! Z.to_nat i) as [y|] eqn:E; [|done].
  intros [= ->]. split; [apply lookup_lt_Some in E; lia|by eapply list_elem_of_lookup_2].
Qed.
Lemma extension_loop_fuel buf endp f f' nxt p :
  Forall (λ x, 0 <= x) buf → 0 <= p →
  (Z.of_nat (length buf) - p < Z.of_nat f) → (Z.of_nat (length buf) - p < Z.of_nat f') →
  0 < Z.of_nat f → 0 < Z.of_nat f' →
  extension_loop f buf endp nxt p = extension_loop f' buf endp nxt p.
Proof.
  intros Hb. rewrite list.Forall_forall in Hb. revert f' nxt p.
  induction f as [|f IH]; intros [|f'] nxt p Hp Hf Hf' H0 H0'; [lia..|]. cbn.
  repeat case_match; try done;
    repeat match goal with
    | |- context [octet buf ?i] =>
        let E := fresh "E" in let x := fresh "x" in
        destruct (octet buf i) as [x| |] eqn:E; cbn; [|done..];
        apply octet_in in E as [? ?%Hb]; [|lia]
    end; apply IH; lia.
Qed.
Lemma jumbo_loop_fuel buf f f' p :
  Forall (λ x, 0 <= x) buf → 0 <= p →
  (Z.of_nat (length buf) - p < Z.of_nat f) → (Z.of_nat (length buf) - p < Z.of_nat f') →
  0 < Z.of_nat f → 0 < Z.of_nat f' →
  jumbo_loop f buf p = jumbo_loop f' buf p.
Proof.
  intros Hb. rewrite list.Forall_forall in Hb. revert f' p.
  induction f as [|f IH]; intros [|f'] p Hp Hf Hf' H0 H0'; [lia..|]. cbn.
  destruct (be32 buf (p + 2)) as [n| |] eqn:E; cbn; [|done..].
  assert (0 <= n).
  { unfold be32, be16 in E.
    repeat match type of E with
    | context [octet buf ?i] =>
        let E' := fresh "E'" in let x := fresh "x" in
        destruct (octet buf i) as [x| |] eqn:E'; cbn in E; [|done..];
        apply octet_in in E' as [? ?%Hb]; [|lia]
    end. injection E as <-. lia. }
  destruct (octet buf p) as [y| |] eqn:E'; cbn; [|done..]. apply octet_in in E' as [? _]; [|lia].
  repeat case_match; try done; apply IH; lia.
Qed.
