(* ===== verification/PgwRules.v ===== *)
(** * The PGW: rules and templates

    What a UE reads in the template that is made of the packet filters of a
    bearer, with the reader of TS 24.008 of [GtpTypes.v]; the rules of the
    filters are well formed in every state that the PGW reaches, given that
    the compiler's instructions are; and what a rule that the PCRF installs
    leaves behind. *)
From S2P Require Import Prelude.
From S2P Require Import CMem.
From S2P Require Import OgsLib.
From S2P Require Import ObjPool.
From S2P Require Import GtpTypes.
From S2P Require Import GtpConv.
From S2P Require Import GtpNode.
From S2P Require Import PgwPool.
From S2P Require Import NasIes.
From S2P Require Import PgwContext.
From S2P Require Import PgwFilter.
From S2P Require Import PgwBuild.
From S2P Require Import PgwHandler.
From S2P Require Import PgwPath.
From S2P Require Import PgwInv.
From S2P Require Import PgwSystem.
From S2P Require Import PgwUserPlane.
From stdpp Require Import functions.
#[local] Open Scope Z_scope.

(** ** The components of a rule, as the standard has them

    A bound of 0 of a range of ports is none ([in_ports]); a component has
    two bounds, so that only a range with both, or with none, can be sent. *)
Section rules.
Context `{Host, OgsBits}.
Definition wire_ipv4 (ty : Z) (a : rule_address) : list (Z * list Z) :=
  [(ty, host_bytes 4 (nth 0 (r_addr a) 0) ++ host_bytes 4 (nth 0 (r_mask a) 0))].
Definition wire_ipv6 (ty : Z) (a : rule_address) : list (Z * list Z) :=
  [(ty, words_image (r_addr a) ++ [contigmask (words_image (r_mask a)) mod 256])].
Definition wire_port (single range : Z) (r : port_range) : list (Z * list Z) :=
  if (port_low r =? 0) && (port_high r =? 0) then []
  else if port_low r =? port_high r then [(single, be_bytes 2 (port_low r))]
  else [(range, be_bytes 2 (port_low r) ++ be_bytes 2 (port_high r))].
Definition wire_if (b : bool) (l : list (Z * list Z)) : list (Z * list Z) := if b then l else [].
Definition wire_components (r : pgw_rule_t) : list (Z * list Z) :=
  wire_if (negb (r_proto r =? 0)) [(48, [r_proto r]) ]
  ++ wire_if (ipv4_local r) (wire_ipv4 17 (ip_local r))
  ++ wire_if (ipv4_remote r) (wire_ipv4 16 (ip_remote r))
  ++ wire_if (ipv6_local r) (wire_ipv6 35 (ip_local r))
  ++ wire_if (ipv6_remote r) (wire_ipv6 33 (ip_remote r))
  ++ wire_port 64 65 (port_local r) ++ wire_port 80 81 (port_remote r).
Definition port_wf (r : port_range) : Prop := 0 <= port_low r < 65536 ∧ 0 <= port_high r < 65536.
Definition ports_wf (r : pgw_rule_t) : Prop := port_wf (port_local r) ∧ port_wf (port_remote r).
Definition bounds_both (r : pgw_rule_t) : Prop :=
  (port_low (port_local r) = 0 ↔ port_high (port_local r) = 0) ∧
  (port_low (port_remote r) = 0 ↔ port_high (port_remote r) = 0).
(** The ports up to [n]: the PGW itself matches the bound, and sends nothing
    of it. *)
Lemma open_range_left_out single range n p :
  0 < n < p →
  port_ok {| port_low := 0; port_high := n |} (Ok p) = Ok false ∧
  port_component single range {| port_low := 0; port_high := n |} = [].
Proof. intros Hn. split; [|done]. unfold port_ok. cbn. rewrite (proj2 (Z.eqb_neq n 0)) by lia. cbn. by rewrite (proj2 (Z.ltb_lt n p)) by lia. Qed.

(** [o] succeeds with components that are read as [w], each with its length. *)
Definition shows (o : outcome (list (Tft.component_t * Z))) (w : list (Z * list Z)) : Prop :=
  ∃ cs, o = Ok cs ∧ Forall Tft.comp_wf cs.*1 ∧ Tft.comp_view <$> cs.*1 = w ∧
        Forall (λ x, x.2 = Z.of_nat (length (Tft.comp_wire x.1))) cs.
Lemma shows_nil : shows (Ok []) [].
Proof. exists []. repeat split; constructor. Qed.
Lemma shows_component ty pt u n body :
  Tft.pf_type_of ty = Some pt → (length u <= Tft.sizeof_union)%nat → n = Z.of_nat (S (length body)) →
  Tft.comp_body pt (u ++ replicate (Tft.sizeof_union - length u) 0) = body →
  shows (Ok [(pf_component ty u, n)]) [(ty, body)].
Proof.
  intros Et Hu -> Eb. exists [(pf_component ty u, Z.of_nat (S (length body)))]. split; [done|].
  assert (Tft.comp_wire (pf_component ty u) = ty :: body) as Ew.
  { unfold Tft.comp_wire. cbn [pf_component Tft.comp_type Tft.comp_union]. by rewrite Et, Eb. }
  split; [|split].
  - constructor; [|constructor]. split; [by exists pt|]. unfold Tft.sizeof_union in *. cbn. rewrite length_app, length_replicate. lia.
  - cbn [fmap list_fmap fst]. unfold Tft.comp_view. by rewrite Ew.
  - constructor; [|constructor]. cbn [fst snd]. by rewrite Ew.
Qed.
Lemma shows_taken ty pt u n :
  Tft.pf_type_of ty = Some pt → (∀ l, Tft.comp_body pt l = take (Tft.body_size pt) l) →
  length u = Tft.body_size pt → (length u <= Tft.sizeof_union)%nat → n = Z.of_nat (S (length u)) →
  shows (Ok [(pf_component ty u, n)]) [(ty, u)].
Proof.
  intros Et Eb Eu Hu En. apply (shows_component _ pt); [done..|]. by rewrite Eb, <- Eu, take_app_length.
Qed.
Lemma shows_if (b : bool) n c w :
  (b = true → ∃ x, c = Ok x ∧ shows (Ok [(x, n)]) w) → shows (component_if b n c) (wire_if b w).
Proof.
  intros Hs. destruct b; [|by apply shows_nil]. destruct (Hs eq_refl) as (x & -> & Hx). exact Hx.
Qed.
Lemma length_words_image l : length (words_image l) = (4 * length l)%nat.
Proof.
  unfold words_image. induction l as [|x l IH]; [done|]. cbn [fmap list_fmap concat].
  rewrite length_app, IH, length_host_bytes. cbn. lia.
Qed.
Lemma shows_ipv4 b ty a :
  Tft.pf_type_of ty = Some Tft.PfIpv4 → address_wf a →
  shows (component_if b 9 (ipv4_component ty a)) (wire_if b (wire_ipv4 ty a)).
Proof.
  intros Et [Ha Hm]. apply shows_if. intros _. unfold ipv4_component, wire_ipv4.
  destruct a as [[|x xs] [|m ms]]; try discriminate. cbn. eexists. split; [done|].
  apply (shows_taken _ Tft.PfIpv4); rewrite ?length_app, ?length_host_bytes; unfold Tft.sizeof_union; (done || lia).
Qed.
Lemma shows_ipv6 b ty a :
  Tft.pf_type_of ty = Some Tft.PfIpv6Prefix → address_wf a →
  shows (component_if b 18 (ipv6_component ty a)) (wire_if b (wire_ipv6 ty a)).
Proof.
  intros Et [Ha Hm]. apply shows_if. intros _. eexists. split; [done|].
  apply (shows_taken _ Tft.PfIpv6Prefix); rewrite ?length_app, ?length_words_image, ?Ha;
    unfold Tft.sizeof_union; cbn; (done || lia).
Qed.
Lemma host_port p : 0 <= p < 65536 → host_value (host_bytes 2 p) = p.
Proof. intros Hp. rewrite host_value_bytes. by apply Z.mod_small. Qed.
Lemma shows_port single range r :
  Tft.pf_type_of single = Some Tft.PfPort → Tft.pf_type_of range = Some Tft.PfPortRange → port_wf r → (port_low r = 0 ↔ port_high r = 0) →
  shows (Ok (port_component single range r)) (wire_port single range r).
Proof.
  intros Es Er [Hl Hh] Hb. unfold port_component, wire_port.
  destruct (Z.eqb_spec (port_low r) 0) as [E|E]; [rewrite (proj1 Hb E); apply shows_nil|]. cbn [andb].
  destruct (_ =? port_high r).
  - apply (shows_component _ Tft.PfPort); rewrite ?length_host_bytes, ?length_be_bytes;
      unfold Tft.sizeof_union; [done|lia|lia|].
    cbn [Tft.comp_body]. rewrite take_app_length' by (by rewrite length_host_bytes). by rewrite host_port.
  - apply (shows_component _ Tft.PfPortRange); rewrite ?length_app, ?length_host_bytes, ?length_be_bytes;
      unfold Tft.sizeof_union; [done|lia|lia|].
    cbn [Tft.comp_body]. rewrite <- !app_assoc.
    rewrite (take_app_length' (host_bytes 2 (port_low r))) by (by rewrite length_host_bytes).
    rewrite (drop_app_length' (host_bytes 2 (port_low r))) by (by rewrite length_host_bytes).
    rewrite (take_app_length' (host_bytes 2 (port_high r))) by (by rewrite length_host_bytes).
    by rewrite !host_port.
Qed.
Lemma rule_components_shows r : rule_wf r → ports_wf r → bounds_both r → shows (rule_components r) (wire_components r).
Proof.
  intros [Hl Hr] [Pl Pr] [Bl Br]. unfold rule_components, wire_components.
  destruct (shows_if (negb (r_proto r =? 0)) 2 (Ok (pf_component 48 [r_proto r])) [(48, [r_proto r])])
    as (c1 & -> & W1 & <- & L1).
  { intros _. eexists. split; [done|]. apply (shows_taken _ Tft.PfProto); unfold Tft.sizeof_union; cbn; (done || lia). }
  destruct (shows_ipv4 (ipv4_local r) 17 (ip_local r)) as (c2 & -> & W2 & <- & L2); [done..|].
  destruct (shows_ipv4 (ipv4_remote r) 16 (ip_remote r)) as (c3 & -> & W3 & <- & L3); [done..|].
  destruct (shows_ipv6 (ipv6_local r) 35 (ip_local r)) as (c4 & -> & W4 & <- & L4); [done..|].
  destruct (shows_ipv6 (ipv6_remote r) 33 (ip_remote r)) as (c5 & -> & W5 & <- & L5); [done..|].
  destruct (shows_port 64 65 (port_local r)) as (c6 & [= ->] & W6 & <- & L6); [done..|].
  destruct (shows_port 80 81 (port_remote r)) as (c7 & [= ->] & W7 & <- & L7); [done..|].
  eexists. split; [done|]. rewrite !fmap_app, !Forall_app. repeat split; done.
Qed.
End rules.

(** ** Filters *)
Section filters.
Context `{Host, OgsBitsLaws}.
Definition components_size (w : list (Z * list Z)) : nat := sum_list ((λ c, S (length c.2)) <$> w).
Definition filter_size (f : pgw_pf_t) : nat := (3 + components_size (wire_components (pf_rule f)))%nat.
(** The octets of the template of these filters. *)
Definition tft_size (l : list pgw_pf_t) : nat := S (sum_list (filter_size <$> l)).
(** What a reader is to find of the filters, from the [i]-th on: direction and
    identifier, precedence, components. *)
Fixpoint filters_read (i : Z) (l : list pgw_pf_t) : list (list Z * Z * list (Z * list Z)) :=
  match l with
  | [] => []
  | f :: l => ([0; pf_direction f; pf_identifier f - 1], i + 1, wire_components (pf_rule f))
              :: filters_read (i + 1) l
  end.
Definition filter_view (v : Z * Z * list (Z * list Z)) : list Z * Z * list (Z * list Z) :=
  (ed_unpack [2; 2; 4]%nat v.1.1, v.1.2, v.2).
Definition filter_wf (f : pgw_pf_t) : Prop :=
  0 <= pf_direction f < 4 ∧ 1 <= pf_identifier f <= 15 ∧ rule_wf (pf_rule f) ∧ ports_wf (pf_rule f) ∧
  bounds_both (pf_rule f).

Lemma comp_wire_size c : length (Tft.comp_wire c) = S (length (Tft.comp_view c).2).
Proof. unfold Tft.comp_view, Tft.comp_wire. by destruct (Tft.pf_type_of _). Qed.
Lemma pf_content_size p : length (Tft.pf_content p) = components_size (Tft.pf_view p).2.
Proof.
  unfold Tft.pf_content, components_size, Tft.pf_view. cbn [snd].
  induction (Tft.used p) as [|c l IH]; [done|]. cbn [fmap list_fmap concat sum_list sum_list_with id].
  by rewrite length_app, comp_wire_size, IH.
Qed.
Lemma sum_lengths cs :
  Forall (λ x, x.2 = Z.of_nat (length (Tft.comp_wire x.1))) cs →
  foldr Z.add 0 cs.*2 = Z.of_nat (length (concat (Tft.comp_wire <$> cs.*1))).
Proof.
  induction 1 as [|x l Hx _ IH]; [done|]. cbn [fmap list_fmap foldr concat].
  rewrite length_app, IH, Hx. lia.
Qed.
Lemma tft_filter_shows i f :
  0 <= i < 255 → filter_wf f →
  ∃ p, tft_filter i f = Ok p ∧ Tft.pf_wf p ∧
    filter_view (Tft.pf_view p) =
      ([0; pf_direction f; pf_identifier f - 1], i + 1, wire_components (pf_rule f)) ∧
    Tft.pf_length p = Z.of_nat (length (Tft.pf_content p)) mod 256 ∧
    length (Tft.pf_wire p) = filter_size f.
Proof.
  intros Hi (Hd & Hid & Hr & Hp & Hb). destruct (rule_components_shows _ Hr Hp Hb) as (cs & Ec & Hw & Ev & Hl).
  unfold tft_filter. rewrite Ec. eexists. split; [done|]. set (p := {| Tft.pf_flags := _ |}).
  assert (Tft.used p = cs.*1) as Eu.
  { unfold Tft.used. cbn. rewrite Nat2Z.id. apply take_ge. by rewrite length_fmap. }
  assert (Tft.pf_view p = (Tft.pf_flags p, Tft.precedence p, wire_components (pf_rule f))) as Epv
    by (unfold Tft.pf_view; by rewrite Eu, Ev).
  split; [|split; [|split]].
  - split; [cbn; rewrite length_fmap; lia|]. by rewrite Eu.
  - rewrite Epv. unfold filter_view. cbn [fst snd]. unfold p. cbn [Tft.pf_flags Tft.precedence].
    rewrite !Z.mod_small by lia.
    change [2; 2; 4]%nat with [(2%nat, 0); (2%nat, pf_direction f); (4%nat, pf_identifier f - 1)].*1.
    rewrite ed_unpack_pack; [done|]. split; [done|]. repeat constructor; cbn; lia.
  - unfold Tft.pf_content. rewrite Eu. unfold p. cbn [Tft.pf_length]. by rewrite sum_lengths.
  - unfold Tft.pf_wire, filter_size. cbn [length]. rewrite pf_content_size, Epv. done.
Qed.
Lemma tft_filters_shows l : ∀ i,
  0 <= i → i + Z.of_nat (length l) <= 255 → Forall filter_wf l →
  ∃ ps, tft_filters i l = Ok ps ∧ length ps = length l ∧ Forall Tft.pf_wf ps ∧
    filter_view <$> (Tft.pf_view <$> ps) = filters_read i l ∧
    Forall (λ p, Tft.pf_length p = Z.of_nat (length (Tft.pf_content p)) mod 256) ps ∧
    length (concat (Tft.pf_wire <$> ps)) = sum_list (filter_size <$> l).
Proof.
  induction l as [|f l IH]; intros i Hi Hn Hf.
  { exists []. by repeat split; constructor. }
  cbn [length] in Hn. apply Forall_cons_1 in Hf as [Hf Hl].
  destruct (tft_filter_shows i f) as (p & E & Hw & Ev & El & Es); [lia|done|].
  destruct (IH (i + 1)) as (ps & Eps & En & Hws & Evs & Els & Ess); [lia..|done|].
  exists (p :: ps). cbn [tft_filters]. rewrite E, Eps. split; [done|]. cbn [length fmap list_fmap concat filters_read].
  split; [by rewrite En|]. split; [by constructor|]. split; [by rewrite Ev, <- Evs|].
  split; [by constructor|]. rewrite length_app, Es, Ess. done.
Qed.
Lemma content_in_wire (ps : list Tft.packet_filter_t) :
  Forall (λ p, (length (Tft.pf_content p) <= length (concat (Tft.pf_wire <$> ps)))%nat) ps.
Proof.
  induction ps as [|p ps IH]; [constructor|]. cbn [fmap list_fmap concat]. rewrite length_app.
  constructor; [unfold Tft.pf_wire; cbn [length]; lia|].
  revert IH. apply Forall_impl. intros q Hq. lia.
Qed.

(** The element of filters whose template fits: a reader finds the operation
    and the number of filters, and the filters; of other filters there is no
    template. *)
Lemma template_read l :
  (length l <= 15)%nat → Forall filter_wf l →
  ∃ t, encode_traffic_flow_template l = Ok t ∧
    if (tft_size l <=? 255)%nat then
      ∃ fl vs, Tft.ogs_gtp_build_tft no_octet t Tft.OGS_GTP_MAX_TRAFFIC_FLOW_TEMPLATE
                 = Ok (octet_set no_octet (Tft.tft_wire t), Z.of_nat (tft_size l)) ∧
        length (Tft.tft_wire t) = tft_size l ∧ Tft.read_tft (Tft.tft_wire t) = Some (fl, vs) ∧
        ed_unpack [3; 1; 4]%nat fl = [OGS_GTP_TFT_CODE_CREATE_NEW_TFT; 0; Z.of_nat (length l)] ∧
        filter_view <$> vs = filters_read 0 l
    else Tft.ogs_gtp_build_tft no_octet t Tft.OGS_GTP_MAX_TRAFFIC_FLOW_TEMPLATE = Aborted.
Proof.
  intros Hn Hf. destruct (tft_filters_shows l 0) as (ps & E & En & Hw & Ev & El & Es); [lia..|done|].
  unfold encode_traffic_flow_template. rewrite (proj2 (Nat.ltb_ge OGS_MAX_NUM_OF_PACKET_FILTER (length l))), E by (unfold OGS_MAX_NUM_OF_PACKET_FILTER; lia).
  eexists. split; [done|]. set (t := {| Tft.flags := _ |}).
  assert (ed_unpack [3; 1; 4]%nat (Tft.flags t) = [OGS_GTP_TFT_CODE_CREATE_NEW_TFT; 0; Z.of_nat (length l)]) as Efl.
  { unfold t. cbn [Tft.flags]. rewrite Z.mod_small by lia.
    change [3; 1; 4]%nat with [(3%nat, OGS_GTP_TFT_CODE_CREATE_NEW_TFT); (1%nat, 0); (4%nat, Z.of_nat (length l))].*1.
    rewrite ed_unpack_pack; [done|]. split; [done|].
    repeat constructor; cbn; unfold OGS_GTP_TFT_CODE_CREATE_NEW_TFT; lia. }
  assert (Tft.num_of_packet_filter t = Z.of_nat (length ps)) as Enum
    by (unfold Tft.num_of_packet_filter; by rewrite Efl, En).
  assert (Tft.filters t = ps) as Efs
    by (unfold Tft.filters; rewrite Enum, Nat2Z.id; by apply take_ge).
  assert (Tft.tft_wf t) as Hwf by (split; [by rewrite Enum, Nat2Z.id|by rewrite Efs]).
  assert (length (Tft.tft_wire t) = tft_size l) as Esz
    by (unfold Tft.tft_wire, tft_size; rewrite Efs; cbn [length]; by rewrite Es).
  rewrite Tft.build_tft_functional by done. rewrite Esz.
  destruct (Nat.leb_spec (tft_size l) 255) as [Hsz|Hsz].
  - rewrite (proj2 (Z.leb_le (Z.of_nat (tft_size l)) _)) by (unfold Tft.OGS_GTP_MAX_TRAFFIC_FLOW_TEMPLATE; lia).
    eexists _, _. split; [done|]. split; [done|]. split; [|split; [exact Efl|]].
    + apply Tft.read_tft_wire; [done|]. rewrite Efs.
      assert (Hin := content_in_wire ps). rewrite Es in Hin. unfold tft_size in Hsz.
      apply Forall_forall. rewrite Forall_forall in El, Hin. intros p Hp. unfold Tft.length_field_ok.
      rewrite El by done. specialize (Hin p Hp). apply Z.mod_small. lia.
    + by rewrite Efs, Ev.
  - rewrite (proj2 (Z.leb_gt (Z.of_nat (tft_size l)) _)) by (unfold Tft.OGS_GTP_MAX_TRAFFIC_FLOW_TEMPLATE; lia).
    by rewrite andb_false_r.
Qed.
(** Sixteen filters: the number of filters has four bits, and a reader finds
    none of them. *)
Lemma template_of_sixteen l :
  length l = 16%nat → Forall filter_wf l →
  ∃ t, encode_traffic_flow_template l = Ok t ∧
    Tft.ogs_gtp_build_tft no_octet t Tft.OGS_GTP_MAX_TRAFFIC_FLOW_TEMPLATE
      = Ok (octet_set no_octet [Tft.flags t], 1) ∧
    Tft.read_tft [Tft.flags t] = Some (Tft.flags t, []) ∧
    ed_unpack [3; 1; 4]%nat (Tft.flags t) = [OGS_GTP_TFT_CODE_CREATE_NEW_TFT; 0; 0].
Proof.
  intros Hn Hf. destruct (tft_filters_shows l 0) as (ps & E & En & Hw & Ev & El & Es); [lia..|done|].
  unfold encode_traffic_flow_template. rewrite Hn. cbn [Nat.ltb Nat.leb OGS_MAX_NUM_OF_PACKET_FILTER]. rewrite E.
  eexists. split; [done|]. set (t := {| Tft.flags := _ |}).
  assert (ed_unpack [3; 1; 4]%nat (Tft.flags t) = [OGS_GTP_TFT_CODE_CREATE_NEW_TFT; 0; 0]) as Efl.
  { unfold t. cbn [Tft.flags].
    change [3; 1; 4]%nat with [(3%nat, OGS_GTP_TFT_CODE_CREATE_NEW_TFT); (1%nat, 0); (4%nat, 0)].*1.
    change (Z.of_nat 16 mod 16) with 0.
    rewrite ed_unpack_pack; [done|]. split; [done|].
    repeat constructor; cbn; unfold OGS_GTP_TFT_CODE_CREATE_NEW_TFT; lia. }
  assert (Tft.num_of_packet_filter t = 0) as Enum by (unfold Tft.num_of_packet_filter; by rewrite Efl).
  assert (Tft.filters t = []) as Efs by (unfold Tft.filters; by rewrite Enum).
  assert (Tft.tft_wf t) as Hwf by (split; [rewrite Enum; cbn; lia|by rewrite Efs]).
  assert (Tft.tft_wire t = [Tft.flags t]) as Ew by (unfold Tft.tft_wire; by rewrite Efs).
  split; [|split; [|done]].
  - rewrite Tft.build_tft_functional by done. by rewrite Ew.
  - rewrite <- Ew. rewrite Tft.read_tft_wire by (done || by rewrite Efs). by rewrite Efs.
Qed.
End filters.

(** ** The compiler's instructions: IPv6 addresses of four words, ports of
    sixteen bits *)
Definition four_words (l : list Z) : Prop := length l = 4%nat.
Definition port_bits (p : Z) : Prop := 0 <= p < 65536.
Definition insn_wf (c : ipfw_insn) : Prop :=
  match c with
  | O_IP6_SRC a | O_IP6_DST a => four_words a
  | O_IP6_SRC_MASK a m | O_IP6_DST_MASK a m => four_words a ∧ four_words m
  | O_IP_SRCPORT p q | O_IP_DSTPORT p q => port_bits p ∧ port_bits q
  | _ => True
  end.
Class IpfwLaws `{Ipfw} : Prop := {
  compile_rule_wf tokens cmds : compile_rule tokens = Ok cmds → Forall insn_wf cmds;
}.
Definition compiled_wf (r : pgw_rule_t) : Prop := rule_wf r ∧ ports_wf r.
Lemma apply_insn_wf r c : insn_wf c → compiled_wf r → compiled_wf (apply_insn r c).
Proof.
  intros Hc [[[L1 L2] [R1 R2]] [Pl Pr]].
  destruct c; cbn in Hc; repeat split; cbn; rewrite ?length_insert; try done; try apply Hc;
    (apply Pl || apply Pr).
Qed.
Lemma compiled_rule_wf cmds : Forall insn_wf cmds → compiled_wf (fold_left apply_insn cmds zero_rule).
Proof.
  assert (compiled_wf zero_rule) as H0 by (repeat split; cbn; lia). revert H0. generalize zero_rule.
  intros r Hr Hc. revert r Hr. induction Hc as [|c l Hc _ IH]; intros r Hr; [done|].
  by apply IH, apply_insn_wf.
Qed.
Lemma compile_packet_filter_wf `{IpfwLaws} d r : pgw_compile_packet_filter d = Ok (Some r) → compiled_wf r.
Proof.
  unfold pgw_compile_packet_filter. destruct (words_from [] d) as [|a [|b l]]; [discriminate|by destruct (negb _)|].
  destruct (negb _); [discriminate|]. destruct (negb _); [discriminate|]. destruct (_ <? _)%nat; [discriminate|].
  intros (cmds & Ec & E)%bind_ok. case_decide; [discriminate E|]. injection E as <-.
  by eapply compiled_rule_wf, compile_rule_wf.
Qed.

Section rules.
Context `{Host, OgsBits, OgsConv, OgsPlmn, !Ogs3gpp, OgsPoolLaws, OgsListLaws, OgsSock, OgsPaaUnion,
          OgsImsiBcd, OgsNextId, OgsLengths, OgsFqdn, OgsPco, IpfwLaws} (conf : pgw_conf).
Implicit Types (s : pgw_t).

(** ** Reachable states *)
Definition rules_ok s : Prop := ∀ f, f ∈ pool_used (pf_pool s) → compiled_wf (pf_rule (pfs s f)).
Notation P := (pres rules_ok).
Lemma pres_rules s s' :
  pool_used (pf_pool s') ⊆ pool_used (pf_pool s) → (∀ f, pf_rule (pfs s' f) = pf_rule (pfs s f)) → P s s'.
Proof. intros Hp Hf Hok f Hin. rewrite Hf. apply Hok. set_solver. Qed.
Lemma rules_add_flow b f : keeps P (add_flow b f).
Proof.
  intros s a s' E Hok. revert a s' E. apply wlp_bind, wlp_assert_some. intros d _.
  apply wlp_bind, wlp_lift. intros r Er. apply wlp_bind, wlp_assert_some. intros r' ->.
  apply compile_packet_filter_wf in Er.
  apply wlp_bind. unfold pgw_pf_add. apply wlp_bind, wlp_alloc. intros i p E.
  destruct (pool_alloc_fresh _ _ _ E) as [Hn Hp]. apply wlp_bind, wlp_the. intros _. cbv zeta.
  apply wlp_bind, wlp_change. intros _. apply wlp_bind, wlp_change. intros _.
  apply wlp_bind, wlp_change. intros _. apply wlp_ret, wlp_change. intros _ g. cbn. rewrite Hp. intros Hg.
  destruct (decide (i = g)) as [->|]; [by rewrite fn_lookup_alter|].
  rewrite !alter_other by done. apply Hok. set_solver.
Qed.
Lemma rules_on_sess i f : keeps P (on_sess i f).
Proof. intros s. apply wlp_change. intros _. by apply pres_rules. Qed.
Lemma rules_on_bearer b f : keeps P (on_bearer b f).
Proof. intros s. apply wlp_change. intros _. by apply pres_rules. Qed.
Lemma rules_free_pf f : keeps P (free pf_pool set_pf_pool f).
Proof. intros s. apply wlp_free. intros _. apply pres_rules; [cbn; rewrite pool_used_free; set_solver|done]. Qed.
#[local] Hint Resolve rules_add_flow rules_on_sess rules_on_bearer rules_free_pf : keeps.
Ltac rules_tac := intros; repeat (cbv beta zeta; first [each_step | keeps_deep_step ltac:(by apply pres_rules)]).
Lemma rules_free pool (set : pool_t → pgw_t → pgw_t) i :
  (∀ s p, pf_pool (set p s) = pf_pool s ∧ pfs (set p s) = pfs s) → keeps P (free pool set i).
Proof.
  intros Hf s. apply wlp_free. intros _. destruct (Hf s (pool_free i (pool s))) as [E1 E2].
  apply pres_rules; [by rewrite E1|by rewrite E2].
Qed.
#[local] Hint Extern 2 (keeps _ (free _ _ _)) => apply rules_free; intros; by split : keeps.
Lemma rules_alloc pool (set : pool_t → pgw_t → pgw_t) :
  (∀ s p, pf_pool (set p s) = pf_pool s ∧ pfs (set p s) = pfs s) → keeps P (alloc pool set).
Proof.
  intros Hf s. apply wlp_alloc. intros i p _. destruct (Hf s p) as [E1 E2].
  apply pres_rules; [by rewrite E1|by rewrite E2].
Qed.
#[local] Hint Extern 2 (keeps _ (alloc _ _)) => apply rules_alloc; intros; by split : keeps.
Lemma rules_event e : keeps P (pgw_state_operational conf e).
Proof.
  assert (∀ l set port sock sock6 f, (∀ x s, pf_pool (set x s) = pf_pool s ∧ pfs (set x s) = pfs s) →
    keeps P (pgw_peer conf l set port sock sock6 f)) as Hpeer.
  { intros l set port sock sock6 f Hs. keeps_deep ltac:(first [apply pres_rules; [by rewrite (proj1 (Hs _ _))|intros; by rewrite (proj2 (Hs _ _))]|by apply pres_rules]). }
  assert (∀ l out, keeps P (pco_answers conf l out)).
  { intros. apply keeps_pco_answers; [exact _|..]; intros; by apply pres_rules. }
  assert (∀ l, keeps P (the_pfs l)) by (intros; apply keeps_the_pfs; exact _).
  assert (∀ b l, keeps P (add_flows b l)).
  { intros. apply keeps_add_flows; [exact _|]. apply rules_add_flow. }
  assert (∀ i l, keeps P (bearer_binding conf i l)).
  { intros. apply keeps_bearer_binding; [exact _|..]; rules_tac. }
  assert (∀ f, keeps P (s5c_peer conf f)) by (intros; apply Hpeer; by split).
  assert (∀ f, keeps P (s5u_peer conf f)) by (intros; apply Hpeer; by split).
  destruct e; cbn [pgw_state_operational]; rules_tac.
Qed.
Lemma rules_send b p : keeps P (pgw_gtp_send_to_bearer b p).
Proof. rules_tac. Qed.
#[local] Hint Resolve rules_send : keeps.
Lemma rules_gtpu data rest : keeps P (pgw_gtpu_receive conf data rest).
Proof. rules_tac. Qed.
Lemma rules_tun data rest : keeps P (pgw_tun_receive conf data rest).
Proof.
  assert (∀ p l, keeps P (multicast_to p l)).
  { intros. apply keeps_multicast_to; [exact _|]. intros b. apply rules_send. }
  assert (∀ h buf l, keeps P (sess_found conf h buf l)) by (intros; apply keeps_sess_found; exact _).
  rules_tac.
Qed.
Lemma pgw_reachable_rules s : pgw_reachable conf s → rules_ok s.
Proof.
  induction 1 as [s Hs|s s' _ IH Hs].
  - destruct Hs as (_ & _ & E & _). intros f. rewrite E. set_solver.
  - destruct Hs as [m x s s' E|i gx x m s s' E|data rest s s' _ E|data rest s s' _ E|e q s s' Eq E].
    1, 2: injection E as <-; exact IH.
    + by apply (rules_gtpu _ _ _ _ _ E).
    + by apply (rules_tun _ _ _ _ _ E).
    + by apply (rules_event _ _ _ _ E).
Qed.

(** ** The template of a bearer *)
Definition template s (b : Z) : outcome ogs_tlv_octet_t :=
  t ← encode_traffic_flow_template (pfs s <$> pf_list (bearers s b));
  '(o, _) ← Tft.ogs_gtp_build_tft no_octet t Tft.OGS_GTP_MAX_TRAFFIC_FLOW_TEMPLATE;
  Ok (present_octet o).
Lemma tft_element_template s b :
  contexts_wf s → b ∈ pool_used (bearer_pool s) → tft_element b s = (o ← template s b; Ok (o, s)).
Proof.
  intros Hc Hb. destruct (own_list _ _ _ _ (ok_pfs _ _ _ _ Hc) b Hb) as [_ Hm].
  assert (∀ l, (∀ f, f ∈ l → f ∈ pool_used (pf_pool s)) → returns (the_pfs l) s (pfs s <$> l)) as Hpfs.
  { induction l as [|f l IH]; intros Hl; [done|]. cbn [the_pfs].
    eapply returns_bind; [apply returns_the, Hl; constructor|].
    eapply returns_bind; [apply IH; intros g Hg; apply Hl; by constructor|]. done. }
  unfold tft_element, template. m_run (returns_the bearer_pool bearers b s Hb).
  assert (returns (the_pfs (pf_list (bearers s b))) s (pfs s <$> pf_list (bearers s b))) as E
    by (apply Hpfs; intros f Hf%Hm; set_solver).
  m_run E. destruct (encode_traffic_flow_template _) as [t| |]; [|done..].
  m_run (returns_lift (Ok t) t s eq_refl). cbn [mbind outcome_bind].
  by destruct (Tft.ogs_gtp_build_tft no_octet t _) as [[o n]| |].
Qed.

(** ** A rule that is installed *)
Definition flow_filter s (f : Z) (fl : ogs_flow_t) : Prop :=
  ∃ d, flow_description fl = Some d ∧ pgw_compile_packet_filter d = Ok (Some (pf_rule (pfs s f))) ∧
       pf_direction (pfs s f) = flow_direction fl mod 4.
(** New filters [ps], and what they leave alone. *)
Record filters_added (b : Z) (ps : list Z) s s' : Prop := {
  fa_list : pf_list (bearers s' b) ≡ₚ ps ++ pf_list (bearers s b);
  fa_new f : f ∈ ps → f ∉ pool_used (pf_pool s);
  fa_old f : f ∈ pool_used (pf_pool s) → f ∈ pool_used (pf_pool s') ∧ pfs s' f = pfs s f;
  fa_used f : f ∈ ps → f ∈ pool_used (pf_pool s');
  fa_bearers c : c ≠ b → bearers s' c = bearers s c;
  fa_bearer : pb_ebi (bearers s' b) = pb_ebi (bearers s b) ∧ pb_name (bearers s' b) = pb_name (bearers s b) ∧
    pb_qos (bearers s' b) = pb_qos (bearers s b) ∧ pb_sess (bearers s' b) = pb_sess (bearers s b) ∧
    pb_gnode (bearers s' b) = pb_gnode (bearers s b) ∧ pgw_s5u_teid (bearers s' b) = pgw_s5u_teid (bearers s b);
  fa_rest : s' = set_pf_pool (pf_pool s') (set_pfs (pfs s') (set_bearers (bearers s') s));
}.
Lemma filters_added_trans b ps1 ps2 s1 s2 s3 :
  filters_added b ps1 s1 s2 → filters_added b ps2 s2 s3 → filters_added b (ps1 ++ ps2) s1 s3.
Proof.
  intros [L1 N1 O1 U1 B1 (?&?&?&?&?&?) R1] [L2 N2 O2 U2 B2 (?&?&?&?&?&?) R2]. split.
  - rewrite L2, L1, (Permutation_app_comm ps1 ps2), <- (assoc_L (++)). done.
  - intros f [Hf|Hf]%elem_of_app; [auto|]. intros [Hin _]%O1. by apply (N2 f).
  - intros f Hf. destruct (O1 f Hf) as [Hf2 <-]. by apply O2.
  - intros f [Hf|Hf]%elem_of_app; [|auto]. apply U1 in Hf. by apply O2.
  - intros c Hc. rewrite B2 by done. auto.
  - repeat split; congruence.
  - etransitivity; [exact R2|]. by rewrite R1.
Qed.
Lemma wlp_add_flow b fl s :
  wlp (add_flow b fl) s (λ _ s', ∃ f, filters_added b [f] s s' ∧ flow_filter s' f fl).
Proof.
  apply wlp_bind, wlp_assert_some. intros d Ed. apply wlp_bind, wlp_lift. intros r Er.
  apply wlp_bind, wlp_assert_some. intros r' ->. apply wlp_bind. unfold pgw_pf_add.
  apply wlp_bind, wlp_alloc. intros f p E. destruct (pool_alloc_fresh _ _ _ E) as [Hn Hp].
  apply wlp_bind, wlp_the. intros Hb. cbv zeta. apply wlp_bind, wlp_change. intros _.
  apply wlp_bind, wlp_change. intros _. apply wlp_bind, wlp_change. intros _. apply wlp_ret, wlp_change.
  intros _. exists f. split; [split|].
  - cbn. rewrite !fn_lookup_alter. apply ogs_list_add_perm.
  - by intros g ->%list_elem_of_singleton.
  - intros g Hg. cbn. rewrite Hp. split; [set_solver|]. assert (f ≠ g) by congruence. by rewrite !alter_other.
  - intros g ->%list_elem_of_singleton. cbn. rewrite Hp. set_solver.
  - intros c Hc. cbn. by rewrite !alter_other.
  - cbn. rewrite !fn_lookup_alter. by repeat split.
  - by destruct s.
  - exists d. cbn. rewrite !fn_lookup_alter. by repeat split.
Qed.
Lemma wlp_add_flows b fls : ∀ s,
  wlp (add_flows b fls) s (λ _ s', ∃ ps, filters_added b ps s s' ∧ Forall2 (flow_filter s') ps fls).
Proof.
  induction fls as [|fl fls IH]; intros s; cbn [add_flows].
  - apply wlp_ret. exists []. split; [|constructor]. split; try done; try (by intros ? ?%elem_of_nil); by destruct s.
  - eapply wlp_call; [apply wlp_add_flow|]. intros [] s1 (f & F1 & Hf).
    eapply wlp_mono; [apply IH|]. intros [] s2 (ps & F2 & Hps). exists (f :: ps).
    split; [by apply (filters_added_trans _ [f] ps _ _ _ F1)|]. constructor; [|done].
    destruct Hf as (d & Ed & Er & Edir). destruct (fa_old _ _ _ _ F2 f) as [_ E].
    { apply (fa_used _ _ _ _ F1). constructor. }
    exists d. by rewrite E.
Qed.

(** Operations that only read. *)
Lemma wlp_read {A B} (m : M pgw_t A) (k : A → M pgw_t B) s (Q : B → pgw_t → Prop) :
  keeps eq m → (∀ a, m s = Ok (a, s) → wlp (k a) s Q) → wlp (m ≫= k) s Q.
Proof.
  intros Hm HQ b s2 (a & s1 & E & E')%M_bind_ok. pose proof (Hm s a s1 E) as <-. by apply (HQ a).
Qed.
Lemma reads_tft_element b : keeps eq (tft_element b).
Proof.
  assert (∀ l, keeps eq (the_pfs l)) by (intros; apply keeps_the_pfs; exact _). keeps_deep idtac.
Qed.
Lemma wlp_build_create_bearer b s :
  contexts_wf s → b ∈ pool_used (bearer_pool s) →
  wlp (pgw_s5c_build_create_bearer_request conf b) s (λ m s', s' = s ∧ ∃ linked s5u qos tft,
    m = CreateBearer linked (pb_ebi (bearers s b)) s5u qos tft ∧
    qos_element (pb_qos (bearers s b)) s = Ok (qos, s) ∧ template s b = Ok tft).
Proof.
  intros Hc Hb. apply wlp_read; [keeps_deep idtac|]. intros d _. apply wlp_bind, wlp_the. intros _.
  apply wlp_bind, wlp_the. intros _. apply wlp_read; [keeps_deep idtac|]. intros s5u _.
  apply wlp_read; [keeps_deep idtac|]. intros qos Eq. apply wlp_read; [apply reads_tft_element|]. intros tft Et.
  apply wlp_ret. split; [done|]. rewrite tft_element_template in Et by done.
  destruct (template s b) as [o| |]; [|discriminate..]. injection Et as ->. eauto 10.
Qed.

Lemma contexts_new_bearer i r name : keeps (pres contexts_wf) (new_bearer_for conf i r name).
Proof.
  unfold new_bearer_for. apply keeps_bind; [exact _|apply contexts_bearer_add|]. intros b.
  apply keeps_bind; [exact _|apply keeps_same, frame_on_bearer; intros; reflexivity|]. keeps_deep idtac.
Qed.
(** The bearer that [new_bearer_for] makes. *)
Definition bearer_made i r name s b s1 : Prop :=
  b ∉ pool_used (bearer_pool s) ∧ b ∈ pool_used (bearer_pool s1) ∧
  bearer_list (sesss s1 i) ≡ₚ b :: bearer_list (sesss s i) ∧ pb_name (bearers s1 b) = Some name ∧
  pb_qos (bearers s1 b) = rule_qos r ∧ pb_gnode (bearers s1 b) = None ∧ pf_list (bearers s1 b) = [] ∧
  (∀ c, c ≠ b → bearers s1 c = bearers s c) ∧ (∀ j, j ≠ i → sesss s1 j = sesss s j) ∧
  ps_gnode (sesss s1 i) = ps_gnode (sesss s i) ∧ sgw_s5c_teid (sesss s1 i) = sgw_s5c_teid (sesss s i) ∧
  pf_pool s1 = pf_pool s ∧ pfs s1 = pfs s ∧ pgw_trace s1 = pgw_trace s.
Lemma wlp_new_bearer i r name s : wlp (new_bearer_for conf i r name) s (bearer_made i r name s).
Proof.
  unfold new_bearer_for, pgw_bearer_add. apply wlp_bind, wlp_bind, wlp_alloc. intros b p Ep.
  apply wlp_bind, wlp_massert. intros _. apply wlp_bind, wlp_change. intros _.
  apply wlp_bind, wlp_change. intros _. apply wlp_ret, wlp_bind, wlp_change. intros _.
  apply wlp_bind, wlp_massert. intros _. apply wlp_ret.
  destruct (pool_alloc_fresh _ _ _ Ep) as [Hn Hp]. unfold bearer_made. cbn. rewrite !fn_lookup_alter, Hp. cbn.
  split; [done|]. split; [set_solver|]. split; [apply ogs_list_add_perm|].
  repeat split; intros; by rewrite !alter_other.
Qed.

(** No bearer of session [i] has the QoS class and the priority of [q]; the
    default bearer has those of the session. *)
Definition no_bearer_for s (i : Z) (q : ogs_qos_t) : Prop :=
  same_qci_arp (q_qci q) (q_arp q) (ps_qos (sesss s i)) = false ∧
  Forall (λ b, same_qci_arp (q_qci q) (q_arp q) (pb_qos (bearers s b)) = false) (tail (bearer_list (sesss s i))).
Lemma returns_find_none s i q :
  contexts_wf s → i ∈ pool_used (sess_pool s) → no_bearer_for s i q →
  returns (pgw_bearer_find_by_qci_arp i (q_qci q) (q_arp q)) s None.
Proof.
  intros Hc Hi [Hd Hl]. destruct (own_list _ _ _ _ (ok_bearers _ _ _ _ Hc) i Hi) as [_ Hm].
  eapply returns_bind; [by apply returns_the|]. cbv beta.
  destruct (bearer_list (sesss s i)) as [|d l]; [done|]. rewrite Hd. cbn [tail] in Hl.
  assert (Hu : ∀ b, b ∈ l → b ∈ pool_used (bearer_pool s)).
  { intros b Hb. assert (b ∈ d :: l) as [? _]%Hm by (by constructor). set_solver. }
  clear Hm. induction Hl as [|b l Hb _ IH]; [done|]. cbn [first_in].
  eapply returns_bind; [apply returns_the, Hu; constructor|]. cbv beta. rewrite Hb.
  apply IH. intros c Hcl. apply Hu. by constructor.
Qed.
End rules.
