(* ===== verification/PgwProps.v ===== *)
(** * The PGW: its properties

    What holds in every state that the PGW reaches, where packets go, what
    the rules of the PCRF make, and the packets and sessions that break it. *)
From S2P Require Import Prelude.
From S2P Require Import CMem.
From S2P Require Import OgsLib.
From S2P Require Import ObjPool.
From S2P Require Import GtpConv.
From S2P Require Import GtpTypes.
From S2P Require Import GtpNode.
From S2P Require Import PgwPool.
From S2P Require Import NasIes.
From S2P Require Import PgwContext.
From S2P Require Import PgwFilter.
From S2P Require Import PgwBuild.
From S2P Require Import PgwHandler.
From S2P Require Import PgwPath.
From S2P Require Import PgwInv.
From S2P Require Import PgwSystem.
From S2P Require Import PgwUserPlane.
From S2P Require Import PgwRules.
From stdpp Require Import functions.
#[local] Open Scope Z_scope.

Section props.
Context `{Host, OgsBits, OgsConv, OgsPlmn, !Ogs3gpp, OgsPoolLaws, OgsListLaws, OgsSock, OgsPaaUnion,
          OgsImsiBcd, OgsNextId, OgsLengths, OgsFqdn, OgsPco, IpfwLaws} (conf : pgw_conf).
Implicit Types (s : pgw_t).

(** ** Reachable states *)
(** C8: In every state that the PGW reaches, the contexts form a forest: each
    session is in the list of sessions, and each bearer and packet filter in
    the list of exactly the session or bearer that it points at; the TEIDs
    given to the SGW name the object that has them; every peer that a session
    or a bearer points at is there and has a socket and an address; and the
    rules of the filters have addresses of four words and ports of sixteen
    bits. *)
Theorem pgw_reachable_ok s : pgw_reachable conf s → contexts_wf s ∧ gnodes_wf s ∧ rules_ok s.
Proof.
  intros Hr. destruct (pgw_reachable_wf conf s Hr) as [Hc Hg].
  split; [done|]. split; [done|]. by apply pgw_reachable_rules with conf.
Qed.

(** ** The user plane *)
(** C9: A packet from the network goes to the bearer that [selected] says: of
    the first session with the packet's address, the first dedicated bearer
    that has an EPS bearer identity and a filter that admits the packet, or
    else the default bearer.  It leaves behind a header with the TEID of the
    SGW for that bearer, for the peer of the bearer.  A bearer without a peer
    stops the process: the SGW has not answered for it, and it was selected as
    the default bearer, or with an identity that the previous user of its
    object left there.  The ports are readable and the session has a bearer. *)
Theorem downlink_to_bearer s data rest h sport dport pre i post :
  pgw_reachable conf s → addresses_readable conf s → parse_ip (data ++ rest) = Ok h →
  be16 (data ++ rest) (h_len h) = Ok sport → be16 (data ++ rest) (h_len h + 2) = Ok dport →
  pgw_sess_list s = pre ++ i :: post → (∀ j, j ∈ pre → ¬ holds_address conf s h j) →
  holds_address conf s h i → bearer_list (sesss s i) ≠ [] →
  ∃ b, selected s h sport dport (bearer_list (sesss s i)) b ∧ pb_sess (bearers s b) = i ∧
    pgw_tun_receive conf data rest s =
      match pb_gnode (bearers s b) with
      | Some n => Ok ((), set_pgw_trace (pgw_trace s ++
                            [Gtpu n (gpdu_packet (sgw_s5u_teid (bearers s b)) data)]) s)
      | None => Aborted
      end.
Proof.
  intros Hr Ha Eh Es Ed El Hpre Hi Hne. destruct (pgw_reachable_wf conf s Hr) as [Hc Hg].
  assert (Hw : rules_wf s) by (intros f Hf; by apply (pgw_reachable_rules conf s Hr)).
  destruct (returns_sess_found conf s h (data ++ rest) sport dport Hc Hw (parse_ip_shape _ _ Eh) Es Ed pre i post)
    as (b & Hb & Er); try done. exists b. split; [done|].
  assert (Hin : b ∈ bearer_list (sesss s i)) by (inversion Hb; subst; set_solver).
  assert (Hi2 : i ∈ pool_used (sess_pool s)).
  { assert (i ∈ pgw_sess_list s) as Hl by (rewrite El; set_solver). apply (ok_list _ _ _ _ Hc) in Hl. set_solver. }
  apply (own_list _ _ _ _ (ok_bearers _ _ _ _ Hc) i Hi2) in Hin as [Hbu Ebi]. split; [done|].
  assert (returns (pgw_bearer_find_by_packet conf (data ++ rest)) s (Some b)) as Ef.
  { eapply returns_bind; [by apply returns_lift|]. apply (returns_bind get _ s s); [done|].
    cbv beta. by rewrite El. }
  unfold pgw_tun_receive. m_run Ef. apply send_to_bearer_run; [done|set_solver].
Qed.

(** C16: What is left of a datagram for the TEID of a bearer, an IPv4 packet, is
    written as it is to the device of the subnet of the session's address,
    and nothing else changes: the peer that sent the datagram and the source
    address of the packet are not looked at. *)
Theorem uplink_to_device s data rest flags b b0 ip n :
  pgw_reachable conf s → octet (data ++ rest) 0 = Ok flags → be32 (data ++ rest) 4 = Ok b →
  b ∈ pool_used (bearer_pool s) → (gtpu_header flags <= length data)%nat →
  octet (drop (gtpu_header flags) data ++ rest) 0 = Ok b0 → b0 / 16 = 4 →
  ps_ipv4 (sesss s (pb_sess (bearers s b))) = Some ip → the_subnet conf (ip_subnet ip) = Ok n →
  pgw_gtpu_receive conf data rest s =
    Ok ((), set_pgw_trace (pgw_trace s ++ [TunWrite (dev_fd (sn_dev n)) (drop (gtpu_header flags) data)]) s).
Proof.
  intros Hr Ef Et Hb Hlen E0 Ev Eip En. destruct (pgw_reachable_wf conf s Hr) as [Hc _].
  destruct (ok_s5u _ _ _ _ Hc b) as [_ Hpos]; [set_solver|].
  assert (Hi : pb_sess (bearers s b) ∈ pool_used (sess_pool s)).
  { apply (own_parent _ _ _ _ (ok_bearers _ _ _ _ Hc)). set_solver. }
  unfold pgw_gtpu_receive. m_run (returns_lift _ _ s Ef). m_run (returns_lift _ _ s Et).
  fold (gtpu_header flags). rewrite (M_bind_run _ _ s () s);
    [|unfold massert; by rewrite (proj2 (Nat.leb_le _ _) Hlen)]. cbv beta.
  assert (returns (pgw_bearer_find_by_pgw_s5u_teid b) s (Some b)) as Efind.
  { eapply returns_bind; [unfold returns, massert; by rewrite (proj2 (Z.eqb_neq b 0)) by lia|].
    apply (returns_bind get _ s s); [done|]. cbv beta. by rewrite decide_True. }
  m_run Efind. unfold to_tun. m_run (returns_the bearer_pool bearers b s Hb).
  m_run (returns_the sess_pool sesss _ s Hi). m_run (returns_lift _ _ s E0).
  unfold subnet_of. rewrite Ev. cbn [Z.eqb Pos.eqb]. rewrite Eip.
  m_run (returns_lift _ _ s En). rewrite andb_false_r. by m_ret.
Qed.

Section advertisement.
Variables (src dst : list Z) (n : pgw_subnet_t).
Hypotheses (Hs : bytes_ok src) (Ls : length src = 16%nat) (Hd : bytes_ok dst) (Ld : length dst = 16%nat)
  (Lw : length (sub_words (sub (sn_conf n))) = 4%nat).
End advertisement.

(** ** Packets that stop the process *)
(** An IPv6 packet from the network with a payload length of 0 and another
    next header than hop-by-hop options fails an assertion, in every state. *)
Theorem empty_ipv6_packet_aborts s data rest b0 nxt :
  octet (data ++ rest) 0 = Ok b0 → b0 / 16 = 6 → octet (data ++ rest) 6 = Ok nxt → nxt ≠ 0 →
  be16 (data ++ rest) 4 = Ok 0 → pgw_tun_receive conf data rest s = Aborted.
Proof.
  intros E0 Ev E6 Hn El. unfold pgw_tun_receive, pgw_bearer_find_by_packet.
  assert (parse_ip (data ++ rest) = Aborted) as E.
  { unfold parse_ip, decode_ipv6_header. rewrite E0. cbn [mbind outcome_bind]. rewrite Ev, E6, El.
    cbn [Z.eqb Pos.eqb mbind outcome_bind]. by rewrite (proj2 (Z.eqb_neq nxt 0)). }
  by rewrite E.
Qed.
(** So does a datagram with TEID 0, such as an echo request. *)
Lemma zero_teid_aborts s data rest flags :
  octet (data ++ rest) 0 = Ok flags → be32 (data ++ rest) 4 = Ok 0 → pgw_gtpu_receive conf data rest s = Aborted.
Proof.
  intros E0 Et. unfold pgw_gtpu_receive. m_run (returns_lift _ _ s E0). m_run (returns_lift _ _ s Et).
  fold (gtpu_header flags). unfold massert. by destruct (gtpu_header flags <=? length data)%nat.
Qed.

(** ** Objects that are used again *)
Section stale.
Variable (i : Z) (ip : pgw_ue_ip_t).
(** What adding an IPv6 session at [i] leaves of the sessions and of the pool
    of [ip]. *)
Record v4_kept s s' : Prop := {
  vk_pool : sess_pool s' = sess_pool s;
  vk_others j : j ≠ i → sesss s' j = sesss s j;
  vk_ipv4 : ps_ipv4 (sesss s' i) = ps_ipv4 (sesss s i);
  vk_ips : ip_pools s' (ip_subnet ip) = ip_pools s (ip_subnet ip);
}.
#[local] Instance v4_kept_preorder : PreOrder v4_kept.
Proof.
  split; [by split|]. intros s1 s2 s3 [P1 O1 A1 I1] [P2 O2 A2 I2].
  split; [congruence| |congruence|congruence]. intros j Hj. by rewrite O2, O1.
Qed.
Lemma v4_kept_on_sess f : (∀ x, ps_ipv4 (f x) = ps_ipv4 x) → keeps v4_kept (on_sess i f).
Proof.
  intros Hf s. apply wlp_change. intros _. split; [done| | |done]; cbn.
  - intros j Hj. by rewrite alter_other.
  - by apply (alter_field ps_ipv4).
Qed.
Lemma subnet_with_ok ok pools l k n :
  subnet_with ok pools l k = Some n → ∃ x, l !! (n - k)%nat = Some x ∧ ok x = true ∧ (k <= n)%nat.
Proof.
  revert k. induction l as [|x l IH]; intros k; cbn [subnet_with]; [discriminate|].
  destruct (ok x) eqn:E; cbn [andb]; [destruct (ogs_pool_avail _)|].
  1: { intros [= ->]. exists x. by rewrite Nat.sub_diag. }
  all: intros (y & Hy & Ey & Hk)%IH; exists y; split; [|split; [done|lia]];
    by replace (n - k)%nat with (S (n - S k)) by lia.
Qed.
Lemma find_subnet_family f apn pools n :
  find_subnet conf f apn pools = Some n → ∃ x, the_subnet conf n = Ok x ∧ conf_family (sn_conf x) = f.
Proof.
  unfold find_subnet. intros E.
  assert (∃ x, subnet_list conf !! n = Some x ∧ bool_decide (conf_family (sn_conf x) = f) = true) as (x & Ex & Ef).
  { destruct (subnet_with _ pools _ 0) as [k|] eqn:E1.
    - injection E as ->. apply subnet_with_ok in E1 as (x & Hx & Ok1 & _). rewrite Nat.sub_0_r in Hx.
      exists x. split; [done|]. by destruct (negb _), (bool_decide (conf_family _ = _)).
    - apply subnet_with_ok in E as (x & Hx & Ok1 & _). rewrite Nat.sub_0_r in Hx.
      exists x. split; [done|]. by destruct (bool_decide (sn_apn x = [])). }
  exists x. unfold the_subnet. rewrite Ex. split; [done|]. by apply bool_decide_eq_true in Ef.
Qed.
Lemma v4_kept_alloc6 apn :
  (∀ n, the_subnet conf (ip_subnet ip) = Ok n → conf_family (sn_conf n) = AF_INET) →
  keeps v4_kept (pgw_ue_ip_alloc conf AF_INET6 apn).
Proof.
  intros Hip s. apply wlp_bind, wlp_get, wlp_bind, wlp_assert_some. intros k Ek.
  destruct (find_subnet_family _ _ _ _ Ek) as (x & Ex & Ef).
  destruct (pool_alloc _) as [[a p]|]; [|apply wlp_mabort]. apply wlp_bind, wlp_modify, wlp_ret.
  split; [done..|]. cbn. apply fn_lookup_insert_ne. intros ->. apply Hip in Ex. congruence.
Qed.
Ltac v4_tac :=
  repeat (cbv beta zeta; first [apply v4_kept_on_sess; intros; reflexivity | keeps_deep_step ltac:(by split)]).
Lemma v4_kept_addresses apn :
  (∀ n, the_subnet conf (ip_subnet ip) = Ok n → conf_family (sn_conf n) = AF_INET) →
  keeps v4_kept (alloc_addresses conf i apn OGS_GTP_PDN_TYPE_IPV6).
Proof.
  intros Hip. pose proof (v4_kept_alloc6 apn Hip). unfold alloc_addresses. cbn [Z.eqb Pos.eqb].
  change (OGS_GTP_PDN_TYPE_IPV6 =? OGS_GTP_PDN_TYPE_IPV4) with false.
  change (OGS_GTP_PDN_TYPE_IPV6 =? OGS_GTP_PDN_TYPE_IPV6) with true. v4_tac.
Qed.
Lemma wlp_sess_add_v6 imsi apn ebi s p :
  pool_alloc (sess_pool s) = Some (i, p) →
  (∀ n, the_subnet conf (ip_subnet ip) = Ok n → conf_family (sn_conf n) = AF_INET) →
  wlp (pgw_sess_add conf imsi apn OGS_GTP_PDN_TYPE_IPV6 ebi) s
    (λ i' s', i' = i ∧ v4_kept (set_sess_pool p s) s').
Proof.
  intros E Hip. apply wlp_bind, wlp_alloc. intros i' p' E'. assert (i' = i ∧ p' = p) as [-> ->] by naive_solver.
  apply wlp_and.
  - apply wlp_bind, wlp_massert. intros _.
    do 5 (apply wlp_bind; intros ? ? _). apply wlp_bind, wlp_modify. by apply wlp_ret.
  - generalize (set_sess_pool p s). 
    match goal with |- ∀ s, wlp ?m s _ => change (keeps v4_kept m) end.
    pose proof (v4_kept_addresses apn Hip). v4_tac.
Qed.
End stale.
(** C33: A session object that was used before keeps the IPv4 address of its
    previous user when a session for IPv6 is made of it, although nothing
    allocates that address: when another session has got it since, both have
    it; when it is free, removing the new session frees it again. *)
Theorem stale_address s s' i i' p ip imsi apn ebi :
  pool_alloc (sess_pool s) = Some (i, p) → ps_ipv4 (sesss s i) = Some ip →
  (∀ n, the_subnet conf (ip_subnet ip) = Ok n → conf_family (sn_conf n) = AF_INET) →
  pgw_sess_add conf imsi apn OGS_GTP_PDN_TYPE_IPV6 ebi s = Ok (i', s') →
  i' = i ∧ ps_ipv4 (sesss s' i) = Some ip ∧
  ip_pools s' (ip_subnet ip) = ip_pools s (ip_subnet ip) ∧ (∀ j, j ≠ i → sesss s' j = sesss s j) ∧
  (ip_index ip ∉ pool_used (ip_pools s (ip_subnet ip)) → pgw_sess_remove i s' = Undef).
Proof.
  intros E Eip Hip Hadd. destruct (wlp_sess_add_v6 i ip imsi apn ebi s p E Hip _ _ Hadd) as [-> [Vp Vo V4 Vi]].
  cbn in Vp, Vo, V4, Vi. rewrite Eip in V4. split; [done|]. split; [done|]. split; [done|]. split; [done|].
  intros Hn. unfold pgw_sess_remove. destruct (pool_alloc_fresh _ _ _ E) as [_ Hu].
  m_run (returns_the sess_pool sesss i s' ltac:(rewrite Vp, Hu; set_solver)).
  rewrite (M_bind_run (modify _) _ _ () _ eq_refl). cbv beta. rewrite V4. cbn [free_opt].
  set (s1 := set_sess_list _ _).
  assert (pgw_ue_ip_free ip s1 = Undef) as Efree.
  { unfold pgw_ue_ip_free. change ((get ≫= ?k) ?x) with (k x x). cbv beta zeta.
    rewrite decide_False; [done|]. subst s1. cbn. by rewrite Vi. }
  unfold mbind, M_bind. by rewrite Efree.
Qed.

(** ** Rules of the PCRF *)
(** C14: A rule with a QoS that no bearer of the session has, when it is installed:
    the session gets one more bearer, with the name and QoS of the rule and a
    filter for each flow, compiled from its description; the request to the
    SGW of the session has the TEID of the SGW, the QoS of the rule and the
    template of these filters; the other bearers, filters and sessions stay
    as they are. *)
Theorem rule_installed s s' i r name :
  pgw_reachable conf s → i ∈ pool_used (sess_pool s) →
  no_bearer_for s i (rule_qos r) →
  install_rule conf i r name s = Ok ((), s') →
  ∃ b ps, b ∉ pool_used (bearer_pool s) ∧ bearer_list (sesss s' i) ≡ₚ b :: bearer_list (sesss s i) ∧
    (pb_name (bearers s' b) = Some name ∧ pb_qos (bearers s' b) = rule_qos r ∧ pb_gnode (bearers s' b) = None) ∧
    pf_list (bearers s' b) ≡ₚ ps ∧ Forall2 (flow_filter s') ps (rule_flows r) ∧
    (∀ f, f ∈ ps → f ∉ pool_used (pf_pool s)) ∧
    (∀ c, c ≠ b → bearers s' c = bearers s c) ∧ (∀ f, f ∈ pool_used (pf_pool s) → pfs s' f = pfs s f) ∧
    (∀ j, j ≠ i → sesss s' j = sesss s j) ∧
    ∃ n linked s5u qos tft, ps_gnode (sesss s i) = Some n ∧ template s' b = Ok tft ∧
      qos_element (rule_qos r) s' = Ok (qos, s') ∧
      pgw_trace s' = pgw_trace s ++ [S5cRequest n (sgw_s5c_teid (sesss s i))
        (CreateBearer linked (pb_ebi (bearers s' b)) s5u qos tft)].
Proof.
  intros Hr Hi En E. destruct (pgw_reachable_wf conf s Hr) as [Hc _].
  unfold install_rule in E. rewrite (M_bind_run _ _ _ _ _ (returns_find_none _ _ _ Hc Hi En)) in E. cbv beta iota in E.
  revert E. generalize () as a. intros a E. revert a s' E. apply wlp_bind.
  eapply wlp_mono; [apply wlp_and; [exact (keeps_run _ _ _ (contexts_new_bearer conf i r name) Hc)|]|].
  { apply wlp_new_bearer. }
  intros b s1 [Hc1 (Hb & Hb1 & Hl & Hname & Hqos & Hgn & Hpl & Hoth & Hse & Eg & Et & Ep & Epf & Etr)].
  apply wlp_bind. eapply wlp_mono; [apply wlp_and; [|apply wlp_add_flows]|].
  { apply keeps_run, Hc1. by apply contexts_add_flows. }
  intros [] s2 [Hc2 (ps & [L2 N2 O2 U2 B2 (Ee&Ena&Eq&Eb&Egn&_) R2] & Hps)].
  assert (bearer_pool s2 = bearer_pool s1 ∧ sesss s2 = sesss s1 ∧ pgw_trace s2 = pgw_trace s1) as (P2 & S2 & T2)
    by (by rewrite R2).
  eapply wlp_call; [apply wlp_build_create_bearer; [done|by rewrite P2]|].
  intros m s3 [-> (linked & s5u & qos & tft & -> & Hq & Htpl)].
  apply wlp_bind, wlp_the. intros _. apply wlp_bind, wlp_assert_some. intros n En2.
  apply wlp_modify. rewrite S2 in *. exists b, ps. cbn. rewrite S2, T2, Etr, Eq, Hqos, Ena, Hname, Egn, Hgn, Et.
  split; [done|]. split; [done|]. split; [done|]. split; [by rewrite L2, Hpl, app_nil_r|]. split; [exact Hps|].
  split; [intros f Hf; rewrite <- Ep; by apply N2|]. split; [intros c Hcb; by rewrite B2, Hoth|].
  split; [intros f Hf; rewrite <- Epf; apply O2; by rewrite Ep|]. split; [done|].
  exists n, linked, s5u, qos, tft. split; [by rewrite <- Eg|]. split; [exact Htpl|]. split; [|done].
  rewrite Eq, Hqos in Hq. unfold qos_element in *.
  destruct (BearerQos.ogs_gtp_build_bearer_qos _ _ _) as [[o k]| |]; [|discriminate Hq..].
  injection Hq as <-. done.
Qed.
(** A rule with the QoS of the session is taken for one of the default bearer,
    which has no name to compare with that of the rule. *)
Lemma default_rule_undefined s i d l r name :
  pgw_reachable conf s → i ∈ pool_used (sess_pool s) → bearer_list (sesss s i) = d :: l →
  pb_name (bearers s d) = None →
  same_qci_arp (q_qci (rule_qos r)) (q_arp (rule_qos r)) (ps_qos (sesss s i)) = true →
  install_rule conf i r name s = Undef.
Proof.
  intros Hr Hi El En Eq. destruct (pgw_reachable_wf conf s Hr) as [Hc _].
  assert (Hd : d ∈ pool_used (bearer_pool s)).
  { destruct (own_list _ _ _ _ (ok_bearers _ _ _ _ Hc) i Hi) as [_ Hm].
    assert (d ∈ bearer_list (sesss s i)) as Hin%Hm by (rewrite El; constructor). set_solver. }
  assert (returns (pgw_bearer_find_by_qci_arp i (q_qci (rule_qos r)) (q_arp (rule_qos r))) s (Some d)) as E.
  { eapply returns_bind; [by apply returns_the|]. cbv beta. by rewrite El, Eq. }
  assert (check_name d name s = Undef) as E2.
  { unfold check_name. m_run (returns_the bearer_pool bearers d s Hd). by rewrite En. }
  unfold install_rule. m_run E. unfold update_bearer_for, mbind, M_bind. by rewrite E2.
Qed.
End props.

(** ** Templates *)
Section templates.
Context `{Host, OgsBitsLaws, OgsConv, OgsPlmn, !Ogs3gpp, OgsPoolLaws, OgsListLaws, OgsSock, OgsPaaUnion,
          OgsImsiBcd, OgsNextId, OgsLengths, OgsFqdn, OgsPco, IpfwLaws} (conf : pgw_conf).
Implicit Types (s : pgw_t).

(** C15: The template of a bearer whose filters have identifiers from 1 to 15
    and ranges of ports with both bounds or none (of a range with one bound the
    program sends nothing, or a bound of 0).  With at most 15 filters that fit
    into the 255 octets of a template, a reader that follows TS 24.008 finds in
    it the operation "create new TFT", the number of the filters and of each
    filter, in their order, direction, identifier, precedence and the
    components of its rule: protocol, addresses with masks or prefixes, ports;
    when they do not fit, the process stops.  Of 16 filters a reader finds
    none, since their number has four bits; more are written behind the array
    of the template. *)
Theorem bearer_template s b :
  pgw_reachable conf s → b ∈ pool_used (bearer_pool s) →
  let fs := pfs s <$> pf_list (bearers s b) in
  Forall (λ f, 0 <= pf_direction f < 4 ∧ 1 <= pf_identifier f <= 15 ∧ bounds_both (pf_rule f)) fs →
  if (length fs <=? 15)%nat then
    if (tft_size fs <=? 255)%nat then
      ∃ o fl vs, tft_element b s = Ok (o, s) ∧ presence o = 1 ∧ len o = Z.of_nat (tft_size fs) ∧
        Tft.read_tft (data o) = Some (fl, vs) ∧
        ed_unpack [3; 1; 4]%nat fl = [OGS_GTP_TFT_CODE_CREATE_NEW_TFT; 0; Z.of_nat (length fs)] ∧
        filter_view <$> vs = filters_read 0 fs
    else tft_element b s = Aborted
  else if (length fs =? 16)%nat then
    ∃ o fl, tft_element b s = Ok (o, s) ∧ Tft.read_tft (data o) = Some (fl, []) ∧
      ed_unpack [3; 1; 4]%nat fl = [OGS_GTP_TFT_CODE_CREATE_NEW_TFT; 0; 0]
  else tft_element b s = Undef.
Proof.
  intros Hr Hb fs Hf. destruct (pgw_reachable_wf conf s Hr) as [Hc _].
  pose proof (pgw_reachable_rules conf s Hr) as Hw.
  destruct (own_list _ _ _ _ (ok_pfs _ _ _ _ Hc) b Hb) as [_ Hm].
  assert (Forall filter_wf fs) as Hwf.
  { apply Forall_forall. intros f Hin. rewrite Forall_forall in Hf. destruct (Hf f Hin) as (Hd & Hid & Hbb).
    apply list_elem_of_In, list_elem_of_fmap in Hin as (k & -> & Hk%Hm). destruct (Hw k) as [Hrw Hpw]; [set_solver|].
    split; [done|]. split; [done|]. by split. }
  rewrite tft_element_template by done. unfold template. fold fs.
  destruct (Nat.leb_spec (length fs) 15) as [Hn|Hn]; [|destruct (Nat.eqb_spec (length fs) 16) as [Hn16|Hn16]].
  - destruct (template_read fs Hn Hwf) as (t & Et & Ht). rewrite Et. cbn [mbind outcome_bind].
    destruct (tft_size fs <=? 255)%nat; [|by rewrite Ht].
    destruct Ht as (fl & vs & E & Esz & Erd & Efl & Evs). rewrite E. cbn [mbind outcome_bind].
    eexists _, fl, vs. split; [done|]. split; [done|]. split; [|done].
    cbn [present_octet octet_set len]. by rewrite Esz.
  - destruct (template_of_sixteen fs Hn16 Hwf) as (t & -> & E & Erd & Efl). cbn [mbind outcome_bind]. rewrite E.
    eexists _, _. split; [done|]. by split.
  - unfold encode_traffic_flow_template. by rewrite (proj2 (Nat.ltb_lt OGS_MAX_NUM_OF_PACKET_FILTER (length fs)))
      by (unfold OGS_MAX_NUM_OF_PACKET_FILTER; lia).
Qed.
End templates.
