(* ===== verification/PgwExamples.v ===== *)
(** * The PGW at concrete inputs

    A UE gets a session with an IPv4 address, the PCRF installs a rule for
    UDP, the SGW answers, packets go both ways, and the session ends; the
    theorems of [PgwProps.v] are applied to these states. *)
From S2P Require Import Prelude.
From S2P Require Import CMem.
From S2P Require Import OgsLib.
From S2P Require Import ObjPool.
From S2P Require Import OgsRef.
From S2P Require Import GtpConv.
From S2P Require Import GtpTypes.
From S2P Require Import GtpNode.
From S2P Require Import PgwPool.
From S2P Require Import NasIes.
From S2P Require Import NasCodecExamples.
From S2P Require Import PgwContext.
From S2P Require Import PgwFilter.
From S2P Require Import PgwBuild.
From S2P Require Import PgwHandler.
From S2P Require Import PgwPath.
From S2P Require Import PgwInv.
From S2P Require Import PgwSystem.
From S2P Require Import PgwUserPlane.
From S2P Require Import PgwRules.
From S2P Require Import PgwProps.
From stdpp Require Import functions.
#[local] Open Scope Z_scope.

(** ** Instances *)
#[local] Instance pgw_ex_sock : OgsSock := {|
  ip_image := ip_addr; ogs_filter_ip_version _ _ _ l := l;
  ogs_socknode_fill_scope_id_in_local l := Some l |}.
#[local] Instance ex_paa : OgsPaaUnion := {|
  ogs_paa_t := list Z; paa_set_type t p := t :: drop 1 p;
  paa_set_ipv4 a p := take 1 p ++ host_bytes 4 a; paa_set_ipv6 n a p := take 1 p ++ n :: words_image a;
  paa_set_both a n a6 p := take 1 p ++ n :: words_image a6 ++ host_bytes 4 a;
  paa_image p := p; OGS_PAA_IPV4_LEN := 5; OGS_PAA_IPV6_LEN := 18; OGS_PAA_IPV4V6_LEN := 22 |}.
#[local] Instance ex_imsi_bcd : OgsImsiBcd := {| MAX_IMSI_LEN := 8; buffer_to_bcd l := l |}.
#[local] Instance ex_pco : OgsPco := {|
  ogs_pco_parse _ := Some {| pco_ext := 1; pco_protocol := 0; pco_ids := [] |};
  ogs_pco_build p := 128 :: concat (snd <$> pco_ids p); pco_ipcp_image _ _ := [];
  OGS_MAX_NUM_OF_PROTOCOL_OR_CONTAINER_ID := 16;
  pco_ipsubnet t := Some t |}.
Definition udp_ : list Z := [117; 100; 112].
(** Of a rule, whether it is for UDP; from 10.0.0.0/8 to ports 5000 - 6000. *)
#[local] Instance ex_ipfw : Ipfw := {|
  compile_rule tokens := Ok
    (O_PROTO (if bool_decide (udp_ ∈ tokens) then IPPROTO_UDP else IPPROTO_TCP) ::
     [O_IP_SRC_MASK (host_value [10; 0; 0; 0]) (host_value [255; 0; 0; 0]); O_IP_DSTPORT 5000 6000]) |}.
#[local] Instance ex_ipfw_laws : IpfwLaws.
Proof.
  split. intros tokens cmds [= <-]. repeat constructor; unfold port_bits; lia.
Qed.

(** ** Configuration *)
Definition subnet4 : pgw_subnet_t := {|
  sn_conf := {| conf_family := AF_INET; prefixlen := 24;
    sub := {| sub_words := [host_value [45; 45; 0; 0]]; mask_words := [host_value [255; 255; 255; 0]] |};
    gw := {| sub_words := [host_value [45; 45; 0; 1]]; mask_words := [] |} |};
  sn_apn := []; sn_dev := {| dev_fd := 7; link_local_addr := None |};
  sn_array := [[host_value [45; 45; 0; 2]; 0; 0; 0]; [host_value [45; 45; 0; 3]; 0; 0; 0]] |}.
Definition words6_ex (k : Z) : list Z := [host_value [0xfd; 0; 0; 0]; 0; 0; host_value [0; 0; 0; k]].
Definition subnet6 : pgw_subnet_t := {|
  sn_conf := {| conf_family := AF_INET6; prefixlen := 64;
    sub := {| sub_words := words6_ex 0; mask_words := [] |};
    gw := {| sub_words := words6_ex 1; mask_words := [] |} |};
  sn_apn := []; sn_dev := {| dev_fd := 8; link_local_addr := None |}; sn_array := [words6_ex 2; words6_ex 3] |}.
Example subnet4_generated : pgw_ue_pool_generate 2 (sn_conf subnet4) = Ok (sn_array subnet4).
Proof. vm_compute. reflexivity. Qed.
Definition pgw_addr_ex (port : Z) : ogs_sockaddr_t :=
  {| sa_family := AF_INET; sin_port := port; s_addr := [10; 0; 0; 3]; s6_addr := [] |}.
Definition pgw_conf_ex : pgw_conf := {|
  pool_sess := 4; pool_bearer := 16;
  pgw_ip_conf := {| no_ipv4 := false; no_ipv6 := false; prefer_ipv4 := false |};
  no_slaac := false; multicast := false;
  pgw_gtpc_port := 2123; pgw_gtpc_sock := Some 3; pgw_gtpc_sock6 := None;
  pgw_gtpc_addr := Some (pgw_addr_ex 2123); pgw_gtpc_addr6 := None;
  pgw_gtpu_port := 2152; pgw_gtpu_sock := Some 4; pgw_gtpu_sock6 := None;
  pgw_gtpu_addr := Some (pgw_addr_ex 2152); pgw_gtpu_addr6 := None;
  subnet_list := [subnet4; subnet6]; dns := (None, None); dns6 := (None, None); p_cscf := []; p_cscf6 := [] |}.
Definition no_qos : ogs_qos_t := {|
  q_qci := 0; q_arp := {| priority_level := 0; pre_emption_capability := 0; pre_emption_vulnerability := 0 |};
  q_mbr := {| br_downlink := 0; br_uplink := 0 |}; q_gbr := {| br_downlink := 0; br_uplink := 0 |} |}.
Definition pgw_plmn0 : ref_plmn := RefPlmn 0 0 0.
Definition pgw_init_ex : pgw_t := {|
  sess_pool := (∅ : gset Z);
  sesss _ := {| pgw_s5c_teid := 0; sgw_s5c_teid := 0; ps_imsi := []; ps_imsi_bcd := []; ps_apn := [];
    ps_paa := [] : list Z; ps_qos := no_qos; ps_ambr := {| br_downlink := 0; br_uplink := 0 |};
    ps_ipv4 := None; ps_ipv6 := None; ps_tai := {| tai_plmn_id := pgw_plmn0; tac := 0 |};
    ps_e_cgi := {| e_cgi_plmn_id := pgw_plmn0; cell_id := 0 |}; bearer_list := []; ps_gnode := None |};
  pgw_sess_list := []; bearer_pool := (∅ : gset Z);
  bearers _ := {| pb_ebi := 0; pgw_s5u_teid := 0; sgw_s5u_teid := 0; pb_name := None; pb_qos := no_qos;
    bearer_pf_identifier := 0; pf_list := []; pb_sess := 0; pb_gnode := None |};
  pf_pool := (∅ : gset Z);
  pfs _ := {| pf_direction := 0; pf_identifier := 0; pf_rule := zero_rule; pf_bearer := 0 |};
  ip_pools _ := (∅ : gset Z);
  pgw_nodes := {| node_pool := (∅ : gset Z);
                  nodes _ := {| n_addr := []; n_sock := None; n_ip := None; n_conn := None |} |};
  sgw_s5c_list := []; sgw_s5u_list := []; p_cscf_index := 0; p_cscf6_index := 0;
  pgw_queue := []; pgw_trace := [] |}.

(** ** Messages *)
Definition pgw_f_teid_ex (host t : Z) : ogs_gtp_f_teid_t := {|
  ft_ipv4 := 1; ft_ipv6 := 0; interface_type := 0; teid := htonl t;
  ft_addr := [10; 0; 0; host] ++ replicate 16 0 |}.
Definition pgw_uli_ex : ogs_tlv_octet_t := {|
  presence := 1; data := [0x18; 1; 2; 3; 0; 7; 1; 2; 3; 0; 0; 0; 9]; len := 13 |}.
Definition qos_octets_ex : ogs_tlv_octet_t := {|
  presence := 1; data := [0x24; 9] ++ replicate 20 0; len := 22 |}.
Definition create_session_ex (ty : Z) : create_session_t := {|
  c_imsi := Some [1; 2; 3]; c_apn := Some [3; 97; 98; 99]; c_sender := Some (pgw_f_teid_ex 1 77);
  c_pdn_type := Some ty; c_bearer := true; c_ebi := Some 5; c_qos := Some qos_octets_ex;
  c_s5u := Some (pgw_f_teid_ex 1 78); c_uli := Some pgw_uli_ex; c_ambr := None; c_pco := None |}.
Definition message_ex (t : Z) (b : s5c_body) : s5c_message := {|
  sm_teid := t; sm_body := b; sm_create := create_session_ex OGS_GTP_PDN_TYPE_IPV4; sm_delete_pco := None |}.
Definition rule_name_ex : list Z := [114; 49].
(** "permit out udp". *)
Definition rule_ex : ogs_pcc_rule_t := {|
  rule_type_ := RuleInstall; rule_name := Some rule_name_ex;
  rule_qos := {| q_qci := 1; q_arp := {| priority_level := 2; pre_emption_capability := 1;
                                         pre_emption_vulnerability := 0 |};
                 q_mbr := {| br_downlink := 64000; br_uplink := 64000 |};
                 q_gbr := {| br_downlink := 64000; br_uplink := 64000 |} |};
  rule_flows := [{| flow_direction := 1; flow_description := Some (permit ++ [32] ++ out_ ++ [32] ++ udp_) |}] |}.
Definition gx_ex (ty : Z) (rules : list ogs_pcc_rule_t) : gx_message_t := {|
  cmd_code := OGS_DIAM_GX_CMD_CODE_CREDIT_CONTROL; result_ok := true; cc_request_type := ty; pcc_rules := rules |}.
Definition answer_ex : bearer_response_t := {|
  r_bearer := true; r_ebi := Some 6; r_pgw_s5u := Some (pgw_f_teid_ex 3 2); r_sgw_s5u := Some (pgw_f_teid_ex 1 79) |}.

(** ** What comes in *)
Inductive pgw_input :=
| S5c (m : s5c_message) (x : option Z)
| Gx (gx : gx_message_t) (x : option Z) (m : s5c_message)
| PopEvent.
Definition pgw_pop_event : M pgw_t () :=
  s ← get;
  match pgw_queue s with
  | e :: q => λ _, pgw_state_operational pgw_conf_ex e (set_pgw_queue q s)
  | [] => mabort
  end.
Definition pgw_take (i : pgw_input) : M pgw_t () :=
  match i with
  | S5c m x => push_event (PGW_EVT_S5C_MESSAGE (Some m) x)
  | Gx gx x m => push_event (PGW_EVT_GX_MESSAGE 1 gx x m)
  | PopEvent => pgw_pop_event
  end.
Fixpoint pgw_take_all (l : list pgw_input) : M pgw_t () :=
  match l with [] => mret () | i :: l => pgw_take i;; pgw_take_all l end.
Lemma pgw_take_step i s s' : pgw_take i s = Ok ((), s') → pgw_step pgw_conf_ex s s'.
Proof.
  destruct i as [m x|gx x m|]; cbn [pgw_take]; intros E; [by eapply step_gtpc|by eapply step_gx|].
  unfold pgw_pop_event in E. change ((get ≫= ?f) ?s) with (f s s) in E. cbv beta in E.
  destruct (pgw_queue s) as [|e q] eqn:Eq; [discriminate E|]. by eapply step_pop.
Qed.
Lemma pgw_take_all_reachable l s s' :
  pgw_reachable pgw_conf_ex s → pgw_take_all l s = Ok ((), s') → pgw_reachable pgw_conf_ex s'.
Proof.
  revert s. induction l as [|i l IH]; intros s Hs; cbn [pgw_take_all]; [by intros [= <-]|].
  intros ([] & s1 & E1 & E2)%M_bind_ok. apply (IH s1); [|done].
  apply pgw_reach_step with s; [done|by eapply pgw_take_step].
Qed.
Definition pgw_after (m : M pgw_t ()) (s : pgw_t) : pgw_t := match m s with Ok (_, s') => s' | _ => s end.
Lemma pgw_after_ok m s : is_ok (m s) = true → m s = Ok ((), pgw_after m s).
Proof. unfold pgw_after. by destruct (m s) as [[[] s']| |]. Qed.

(** Session 1 with bearer 1 and the address 45.45.0.2; the rule makes bearer 2;
    the SGW answers for it; the session ends. *)
Definition create_ex : s5c_message := message_ex 0 (CreateSession (create_session_ex OGS_GTP_PDN_TYPE_IPV4)).
Definition created_inputs : list pgw_input := [
  S5c create_ex (Some 1); PopEvent; Gx (gx_ex CC_REQUEST_TYPE_INITIAL_REQUEST []) (Some 1) create_ex; PopEvent].
Definition created : pgw_t := pgw_after (pgw_take_all created_inputs) pgw_init_ex.
Definition ruled : pgw_t := pgw_after (install_rule pgw_conf_ex 1 rule_ex rule_name_ex) created.
Definition answered_inputs : list pgw_input := [
  Gx (gx_ex CC_REQUEST_TYPE_INITIAL_REQUEST [rule_ex]) (Some 1) create_ex; PopEvent;
  S5c (message_ex 1 (CreateBearerAnswer answer_ex)) (Some 2); PopEvent].
Definition answered : pgw_t := pgw_after (pgw_take_all answered_inputs) created.
Definition ended_inputs : list pgw_input := [
  Gx (gx_ex CC_REQUEST_TYPE_TERMINATION_REQUEST []) (Some 3) create_ex; PopEvent].
Definition ended : pgw_t := pgw_after (pgw_take_all ended_inputs) created.
Example pgw_runs_ex :
  is_ok (pgw_take_all created_inputs pgw_init_ex) && is_ok (pgw_take_all answered_inputs created) &&
  is_ok (pgw_take_all ended_inputs created) = true ∧
  pgw_sess_list created = [1] ∧ bearer_list (sesss answered 1) = [1; 2] ∧ pgw_sess_list ended = [] ∧
  ps_ipv4 (sesss ended 1) = Some {| ip_subnet := 0; ip_index := 1 |}.
Proof. split_and!; vm_compute; reflexivity. Qed.

(** ** The states are reachable *)
Lemma pgw_reachable_created : pgw_reachable pgw_conf_ex created.
Proof.
  apply (pgw_take_all_reachable created_inputs pgw_init_ex); [apply pgw_reach_init; by repeat split|].
  apply pgw_after_ok. vm_compute. reflexivity.
Qed.
Lemma pgw_reachable_answered : pgw_reachable pgw_conf_ex answered.
Proof.
  apply (pgw_take_all_reachable answered_inputs created); [apply pgw_reachable_created|].
  apply pgw_after_ok. vm_compute. reflexivity.
Qed.

(** ** Packets *)
(** A UDP packet of 10.1.1.1 for port 5500 of the UE, and what the buffer
    holds after it. *)
Definition downlink_ex : list Z :=
  [0x45; 0; 0; 28; 0; 0; 0; 0; 64; 17; 0; 0; 10; 1; 1; 1; 45; 45; 0; 2; 0; 53; 21; 124; 0; 8; 0; 0].
Definition rest_ex : list Z := replicate 16 0.
Definition header_ex : ip_header := {|
  h_proto := 17; h_len := 20;
  h_src := [host_value [10; 1; 1; 1]; host_value [45; 45; 0; 2]; host_value [0; 53; 21; 124]; host_value [0; 8; 0; 0]];
  h_dst := [host_value [45; 45; 0; 2]; host_value [0; 53; 21; 124]; host_value [0; 8; 0; 0]; 0]; h_words := 1 |}.
Definition uplink_ex : list Z := [0x30; 255; 0; 28] ++ be_bytes 4 2 ++ downlink_ex.
Definition empty_ipv6_ex : list Z := [0x60; 0; 0; 0; 0; 0; 17; 64] ++ replicate 32 0.

(** ** Witnesses *)
Lemma pgw_reachable_ok_witness : contexts_wf answered ∧ gnodes_wf answered ∧ rules_ok answered.
Proof. exact (pgw_reachable_ok pgw_conf_ex answered pgw_reachable_answered). Defined.

Lemma downlink_to_bearer_witness :
  (∃ b, selected answered header_ex 53 5500 [1; 2] b ∧
    pgw_tun_receive pgw_conf_ex downlink_ex rest_ex answered =
      match pb_gnode (bearers answered b) with
      | Some n => Ok ((), set_pgw_trace (pgw_trace answered ++
                            [Gtpu n (gpdu_packet (sgw_s5u_teid (bearers answered b)) downlink_ex)]) answered)
      | None => Aborted
      end) ∧
  pgw_trace (pgw_after (pgw_tun_receive pgw_conf_ex downlink_ex rest_ex) answered) =
    pgw_trace answered ++ [Gtpu 2 (gpdu_packet 79 downlink_ex)].
Proof.
  split; [|vm_compute; reflexivity].
  destruct (downlink_to_bearer pgw_conf_ex answered downlink_ex rest_ex header_ex 53 5500 [] 1 [] pgw_reachable_answered)
    as (b & Hb & _ & E).
  - intros i ip Hi. replace (pgw_sess_list answered) with [1] in Hi by (vm_compute; reflexivity).
    apply list_elem_of_singleton in Hi as ->. intros [Hip|Hip]; vm_compute in Hip; [|discriminate Hip].
    injection Hip as <-. eexists. vm_compute. reflexivity.
  - vm_compute. reflexivity.
  - vm_compute. reflexivity.
  - vm_compute. reflexivity.
  - vm_compute. reflexivity.
  - intros j Hj. by apply not_elem_of_nil in Hj.
  - exists {| ip_subnet := 0; ip_index := 1 |}. eexists. split; [left; vm_compute; reflexivity|].
    split; vm_compute; reflexivity.
  - vm_compute. discriminate.
  - exists b. split; [|exact E].
    replace [1; 2] with (bearer_list (sesss answered 1)) by (vm_compute; reflexivity). exact Hb.
Defined.

Lemma uplink_to_device_witness :
  pgw_gtpu_receive pgw_conf_ex uplink_ex rest_ex answered =
    Ok ((), set_pgw_trace (pgw_trace answered ++ [TunWrite 7 downlink_ex]) answered).
Proof.
  apply (uplink_to_device pgw_conf_ex answered uplink_ex rest_ex 0x30 2 0x45
    {| ip_subnet := 0; ip_index := 1 |} subnet4 pgw_reachable_answered); try (vm_compute; reflexivity).
  apply Nat.leb_le. vm_compute. reflexivity.
Defined.


Lemma empty_ipv6_packet_aborts_witness : pgw_tun_receive pgw_conf_ex empty_ipv6_ex rest_ex created = Aborted.
Proof.
  apply (empty_ipv6_packet_aborts pgw_conf_ex created empty_ipv6_ex rest_ex 0x60 17);
    first [vm_compute; reflexivity|discriminate].
Defined.

Lemma rule_installed_witness :
  ∃ b ps, bearer_list (sesss ruled 1) ≡ₚ b :: bearer_list (sesss created 1) ∧
    pf_list (bearers ruled b) ≡ₚ ps ∧ Forall2 (flow_filter ruled) ps (rule_flows rule_ex).
Proof.
  destruct (rule_installed pgw_conf_ex created ruled 1 rule_ex rule_name_ex pgw_reachable_created)
    as (b & ps & _ & Hl & _ & Hp & Hps & _).
  - vm_compute. reflexivity.
  - split; [vm_compute; reflexivity|].
    replace (tail (bearer_list (sesss created 1))) with (@nil Z) by (vm_compute; reflexivity). constructor.
  - apply pgw_after_ok. vm_compute. reflexivity.
  - exists b, ps. split; [exact Hl|]. split; [exact Hp|exact Hps].
Defined.

Definition filter_ex : pgw_pf_t := {|
  pf_direction := 1; pf_identifier := 1; pf_bearer := 2;
  pf_rule := {|
    r_proto := 17; ipv4_local := true; ipv4_remote := false; ipv6_local := false; ipv6_remote := false;
    ip_local := {| r_addr := [host_value [10; 0; 0; 0]; 0; 0; 0]; r_mask := [host_value [255; 0; 0; 0]; 0; 0; 0] |};
    ip_remote := zero_address; port_local := {| port_low := 0; port_high := 0 |};
    port_remote := {| port_low := 5000; port_high := 6000 |} |} |}.
Lemma filters_ex : pfs answered <$> pf_list (bearers answered 2) = [filter_ex].
Proof. vm_compute. reflexivity. Qed.
Lemma bearer_template_witness :
  ∃ o fl vs, tft_element 2 answered = Ok (o, answered) ∧ Tft.read_tft (data o) = Some (fl, vs) ∧
    filter_view <$> vs = [([0; 1; 0], 1, [(48, [17]); (17, [10; 0; 0; 0; 255; 0; 0; 0]);
                                          (81, be_bytes 2 5000 ++ be_bytes 2 6000)])].
Proof.
  pose proof (bearer_template pgw_conf_ex answered 2 pgw_reachable_answered) as Ht. cbv zeta in Ht.
  rewrite filters_ex in Ht. cbn [length Nat.leb] in Ht.
  replace (tft_size [filter_ex] <=? 255)%nat with true in Ht by (vm_compute; reflexivity).
  destruct Ht as (o & fl & vs & E & _ & _ & Er & _ & Ev).
  - vm_compute. reflexivity.
  - constructor; [|constructor]. unfold bounds_both. cbn. lia.
  - exists o, fl, vs. split; [exact E|]. split; [exact Er|]. rewrite Ev. vm_compute. reflexivity.
Defined.

(** The session for IPv6 that comes after session 1. *)
Definition reused : pgw_t :=
  match pgw_sess_add pgw_conf_ex [4] [97] OGS_GTP_PDN_TYPE_IPV6 5 ended with Ok (_, s) => s | _ => ended end.
Lemma stale_address_witness :
  ps_ipv4 (sesss reused 1) = Some {| ip_subnet := 0; ip_index := 1 |} ∧ pgw_sess_remove 1 reused = Undef.
Proof.
  destruct (stale_address pgw_conf_ex ended reused 1 1 ({[1]} : gset Z) {| ip_subnet := 0; ip_index := 1 |}
    [4] [97] 5) as (_ & E & _ & _ & Hr).
  - vm_compute. reflexivity.
  - vm_compute. reflexivity.
  - intros n En. vm_compute in En. injection En as <-. reflexivity.
  - unfold reused.
    assert (match pgw_sess_add pgw_conf_ex [4] [97] OGS_GTP_PDN_TYPE_IPV6 5 ended with
            | Ok (1, _) => true | _ => false end = true) as Hb by (vm_compute; reflexivity).
    destruct (pgw_sess_add _ _ _ _ _ ended) as [[[|[]|] s]| |]; try discriminate Hb. reflexivity.
  - split; [exact E|]. apply Hr. apply (bool_decide_eq_false_1 _). vm_compute. reflexivity.
Defined.
